(* ===== verification/_CoqProject ===== *)
-Q . S2P
Prelude.v
CText.v
EventTypes.v
EventBuf.v
Storage.v
EventMemory.v
EventQueue.v
Out.v
Alarm.v
ArmSection.v
System.v
Cfg.v
SiaIp.v
NetTarget.v
Cms.v
EventTask.v
TracerBuf.v
Ihex.v
FwTools.v
FwFiles.v
Boot.v
BootTty.v
Inp.v
Power.v
Update.v
Nmea.v
Gps.v
MultiSms.v
Report.v
Cmd.v
TracerProto.v
Tracer.v
TracerThm.v
CmdThm.v
CmdParse.v
CmdDemo.v
TracerCfg.v
ModemAt.v
ModemUrc.v
ModemLink.v
ModemData.v
ModemCmd.v
ModemUdp.v
ModemMain.v
ModemSms.v
ModemRun.v
ModemHear.v
ModemTx.v
ModemLive.v
ModemPin.v
ModemSmsRun.v
ModemSmsSafe.v
ModemDemo.v
ModemSmsDemo.v
Ble.v
BleThm.v
BleDemo.v
Net.v
NetThm.v
App.v
NetDemo.v
