(* ===== verification/Prelude.v ===== *)
(** * Verification library for the JCA-123 car alarm firmware

    The firmware arms and disarms a car, watches its inputs through debouncing
    filters, drives a siren and three outputs, logs every event in flash, and
    reports events to a monitoring station (CMS), to telephones and to a track
    server; a boot loader installs new firmware from an external flash, and host
    tools produce the images.  This library models the code of src/ file by
    file, in the order of its data flow, and proves what makes each part
    correct.

    ** Conventions

    A C object of w bits is a [Z]; each store applies the wrap of its width
    ([u8], [u16], [u32], [s16], [s32] below).  Buffers are lists of byte values,
    C strings are lists of character codes without their NUL ([c_string] finds
    it and fails when there is none).  A function that can fail an OS_ASSERT or
    leave an array returns an [outcome]: [Err FAssert] and [Err FBounds] stand
    for the reset and for undefined behaviour, so "never returns [Err]" is a
    theorem and not a convention.  Global variables of a C file are the fields
    of one Record, and an operation returns the new record.  Calls that leave
    the modelled program (LEDs, log lines, the radio) are returned as lists of
    actions in call order, or left out when nothing depends on them.  Drivers
    that are not in the repository (flash, RTC, checksum of the SDK) are
    classes: a class of operations ([FlashLib], [BootLib]) and one of their
    documented laws ([FlashSpec], [FlashReliable], [BootSpec]), with an ideal
    instance that the witnesses use.  A doc comment above a definition names
    the file, the lines and the C symbol it translates.

    ** Files

    - Prelude: machine integers, outcomes and their notation, bounds-checked
      array access, bit masks, little-endian fields.
    - CText: the parts of the C library the code parses and prints with.
    - EventTypes: app/event.h, the vocabulary of events.
    - EventBuf: app/event_buf.c, the doubly linked chain of items in one array
      that holds events until every addressee has them.  The abstract state is
      a list of items in order ([holds]); each operation refines an operation on
      that list, and none of its assertions can fail.  With the chain full, the
      replacement may drop an item of higher priority (proved).
    - Storage: app/storage.c, the regions of the external flash.  Writes to one
      region leave the others unchanged; accesses outside are refused.
    - EventMemory: app/event_memory.c, the event log as a ring of slots: a
      store refines "append to the log", start-up finds the newest event, except
      in the last slot (proved).
    - EventQueue: the primary ring of app/event.c; overflow loses everything.
    - Out, Alarm, ArmSection, System: app/out.c, alarm.c, section.c,
      system_input.c and system.c.  Reactions of the section to every input,
      entry and exit delays, duration and number of alarms, and over whole runs
      of the composed system: no assertion fails, no alarm without arming or a
      24-hour input, a bounded number of alarms per input and arming.
    - Inp: app/inp.c and _io_input_task of app/app.c, debouncing: pulses
      shorter than the limit are rejected, changes are reported exactly once.
    - Cfg: app/cfg.c and cfg_table.c: items with a checksum, defaults, access
      rights.
    - SiaIp, Cms: cms_sia_ip.c and cms_main.c: messages in the SIA DC-09 frame
      that the receiver's parser accepts, the checksum as CRC-16, replies,
      retries and acknowledgements.
    - NetTarget: net_target.c and the address parsing of app/net.c.
    - EventTask: event_task of app/event.c, which drains the primary queue into
      the log, the buffers and the outputs.
    - TracerBuf: app/tracer/tracer_buffer.c, the ring of track records in
      flash with its binary searches at start-up.
    - Ihex: the boot loader's and the host tools' Intel HEX code; what the tools
      write both parsers read back.
    - FwTools: ut/app_crc and ut/app_container, the application checksum and
      the container.
    - FwFiles: the two programs over whole files; [hex_file] relates a text to
      the pieces it says, whatever the tool that reads it does with them.
    - Boot: the boot loader's container check, copy and decision to start; with
      the tools, a container they produced and the boot loader received ends in
      the application being started ([firmware_update_boots]).
    - BootTty: the serial console of the boot loader with its time limit
      ([bl_task_times_out]).  A run of [_bl_task] is the list of what happens in
      it, lines received and ends of rounds.  [console_update_boots] goes from a
      device that does not start its application and the linker's file, over both
      tools, the lines sent and answered and the F command, through the reset to
      the started application.
    - Update: app/update.c, the remote update over UDP.  [remote_update_boots]
      composes it with FwTools and Boot: when the server answers truthfully
      every chunk in the end, the container it serves lands in the external flash
      and the boot loader starts the application in it.
    - Nmea, Gps: lib/nmea/nmea.c and app/gps.c, from the characters of the
      receiver to the stored position, and the sleep cycle of the module.
    - MultiSms: modem/multi_sms.c and the division of long texts of
      modem/modem_sms.c; what one side divides the other joins.
    - Report: the texts of events and event_comm_task of app/event.c, which
      tells each user about their pending events.
    - Cmd: app/cmd.c, the command interpreter with its table, handlers and
      passwords, over the state of the parts above.  CmdThm proves that it
      returns on every text and what no text can do without the password;
      CmdParse proves how names, chains, parameters and passwords are read;
      CmdDemo instantiates the SDK's parsers and holds the witnesses.
    - Power: app/power.c, the supply and battery supervision.  The environment
      answers each reading of the clock and of the voltages, so the theorems
      hold for any course of them; [supply_step] is the abstract machine of the
      supply and each run of the task refines a step of it.
    - TracerProto: app/tracer/tracer_h02.c and tracer_sia.c, the messages of a
      point and the replies, as a record of operations with laws that both
      protocols satisfy; a server reads back what H02 sends.
    - Tracer: app/tracer/tracer.c, over the ring, a protocol, the state words
      and the receiver.  TracerThm states what it promises as an abstract
      machine ([delivery], [dstep]: points numbered track by track, records
      read, sent, confirmed and marked in order) that every course of calls
      implements, and that the backlog drains when the server answers; the wait
      for an acknowledgement sees the datagrams and runs of the other task in
      between.  TracerCfg holds the parameters, what reconfiguring loses, and
      the witnesses.
    - ModemAt, ModemCmd, ModemUdp, ModemMain: modem/modem_at.c, modem.c,
      modem_bg95.c and modem_main.c, the driver of the radio module with the
      SIM card, the registration, the sockets and the resolution of names.
      ModemAt holds the receiver: characters into lines, lines into answers and
      messages.  The driver's tasks wait by yielding; an environment answers each
      yield with the characters that came in and the time that passed (at least
      a millisecond, in some theorems at most [D]), and may look at everything
      done before, so that a theorem about all environments covers every
      behaviour of the module and of the scheduler.  ModemUrc proves that no
      characters break the state; ModemLink that the flags follow the abstract
      machine of the registration ([link_step]); ModemData that datagrams arrive
      byte for byte; ModemRun that every operation returns within a stated time
      and gives the AT channel back; ModemHear that a command counts as done only
      when the module said so afterwards; ModemPin that a PIN is entered only
      after the card reported three attempts; ModemLive that a module which
      answers is brought to the network.  ModemDemo holds a module that answers
      and the witnesses.  ModemTx is the calculus of the transmissions
      an operation can not make, shared by ModemPin and ModemSmsSafe.
    - ModemSms: modem/modem_sms.c and sms_parse, sms_process of
      app/sms_processing.c, on top of the driver: reading the waiting message,
      joining it, running it as a command and answering its sender.  ModemSmsRun
      proves that this returns in a stated time; ModemSmsSafe that a message
      counts as sent only when the module acknowledged every part, that the text
      read is the text the module listed, and that the unit changes nothing
      except on a message with a valid password; ModemSmsDemo holds a module
      with one waiting message, the witnesses, and a run in which a message is
      deleted unread.
    - Ble: app/ble.c with _ble_rx_parser and _ble_access_update of app/app.c.
      BleThm relates the ring of characters to a list and the stream of
      characters to commands, and proves that the channel does nothing outside a
      session that a password opened ([session]); BleDemo holds the witnesses and
      a session that outlives its connection.
    - Net: app/net.c over the modem.  NetThm proves that an address is the number
      in the configuration or was heard from the module after it was asked for,
      and that the tracker, the update and the client of the monitoring station
      share the receiver without disturbing each other, so that the theorems
      about one of them hold with the others running.
    - App: requests to read the configuration again, the clock and the LED of
      app/app.c.  NetDemo holds the witnesses of NetThm and App.
    ** Bounds and fuel

    Loops are structural on the list they walk or on a natural number that is
    the loop's own bound in C (the number of slots, sectors, items, or
    characters of the buffer).  Where C has [while] without a bound (printing a
    number, delivered_loop of TracerBuf, the chain walk of EventBuf, the waits of
    the radio driver, whose fuel is the milliseconds left) the model has fuel of the size of the array or of the number's digits, running out is
    [Err FAssert], and the theorems prove that an [Ok] result is returned, so
    that the fuel is enough.

    ** Not modelled

    The mutexes and semaphores make each exported operation one atomic step, so
    interleavings inside an operation are not modelled, apart from what may
    happen during the waits of the tracker and of the radio driver (the receiver
    runs there, commands of other tasks do not).  Of the radio driver the echo,
    the log lines and the counters of udp_info are left out.  The LED sequences, the board set-up, log lines and the unit
    tests are I/O without state the modelled parts depend on.
    The SDK outside the repository is a parameter wherever the firmware relies
    on it: the flash driver (FlashLib), the representation of events
    (EventRepr), the text parsers (ParseLib, CmdLib, ModemLib), the GPS helpers
    (GpsLib), the codec of text messages (SmsLib), the calendar (RtcLib).
    Each class has a second one with the laws used and an instance that
    satisfies them.  Text output is the sequence of buf_append calls (Report),
    since rendering is the SDK's.
    A run of the tracker reads the clock once, since it does not wait, except
    for an acknowledgement; the pulse on the receiver's reset line is one action.
    When a text message runs a command that uses the modem, the command's own AT
    dialogue is an answer of the interpreter's environment ([c_acts] records that
    it was asked for) and does not enter the driver's log.
*)

From stdpp Require Export base numbers list gmap strings.
From Stdlib Require Export ZArith Lia.

Declare Scope fw_scope.
Delimit Scope fw_scope with fw.
#[global] Open Scope Z_scope.
#[global] Open Scope fw_scope.

(** ** Machine integers

    A [w]-bit unsigned value is a [Z]; every store into a C object of that
    width applies the wrap written out here. *)

Definition u8 (z : Z) : Z := z mod 256.
Definition u16 (z : Z) : Z := z mod 65536.
Definition u32 (z : Z) : Z := z mod 4294967296.
Definition s16 (z : Z) : Z := (z + 32768) mod 65536 - 32768.
Definition s32 (z : Z) : Z := (z + 2147483648) mod 4294967296 - 2147483648.

(** The values an object of that width can hold. *)
Definition in_u8 (z : Z) : Prop := 0 ≤ z < 256.
Definition in_u16 (z : Z) : Prop := 0 ≤ z < 65536.
Definition in_u32 (z : Z) : Prop := 0 ≤ z < 4294967296.

Lemma u8_range z : in_u8 (u8 z).
Proof. unfold in_u8, u8. apply Z.mod_pos_bound. lia. Qed.
Lemma u16_range z : in_u16 (u16 z).
Proof. unfold in_u16, u16. apply Z.mod_pos_bound. lia. Qed.
Lemma u32_range z : in_u32 (u32 z).
Proof. unfold in_u32, u32. apply Z.mod_pos_bound. lia. Qed.

Lemma u8_small z : in_u8 z → u8 z = z.
Proof. apply Z.mod_small. Qed.
Lemma u16_small z : in_u16 z → u16 z = z.
Proof. apply Z.mod_small. Qed.
Lemma u32_small z : in_u32 z → u32 z = z.
Proof. apply Z.mod_small. Qed.

Create HintDb fw discriminated.
#[export] Hint Resolve u8_range u16_range u32_range : fw.

(** ** Control results

    A C function that runs to its end gives [Ok].  A failed [OS_ASSERT] and an
    access outside an array give [Err]: theorems that an operation returns [Ok]
    state that neither happens. *)

Inductive fault := FAssert | FBounds.

Inductive outcome (A : Type) :=
  | Ok (a : A)
  | Err (f : fault).
Arguments Ok {A} _.
Arguments Err {A} _.

#[export] Instance outcome_ret : MRet outcome := λ A a, Ok a.
#[export] Instance outcome_bind : MBind outcome := λ A B f m,
  match m with Ok a => f a | Err e => Err e end.

#[export] Instance fault_eq_dec : EqDecision fault.
Proof. solve_decision. Defined.

(** [OS_ASSERT (cond, ..)] *)
Definition os_assert (cond : bool) : outcome unit :=
  if cond then Ok () else Err FAssert.

Definition is_ok {A} (m : outcome A) : Prop := ∃ a, m = Ok a.

(** ** Arrays

    [arr_get l i] reads [l[i]]; [arr_set l i x] stores into it.  Outside the
    array both fault (reading or writing there is undefined in C). *)

Definition arr_get {A} (l : list A) (i : Z) : outcome A :=
  if i <? 0 then Err FBounds
  else match l !! Z.to_nat i with Some x => Ok x | None => Err FBounds end.

Definition arr_set {A} (l : list A) (i : Z) (x : A) : outcome (list A) :=
  if (0 <=? i) && (i <? Z.of_nat (length l))
  then Ok (<[Z.to_nat i := x]> l) else Err FBounds.

Notation "l '.[' i ']'" := (arr_get l i)
  (at level 1, i at level 200, left associativity, format "l .[ i ]") : fw_scope.
Notation "l '.[' i '<-' x ']'" := (arr_set l i x)
  (at level 1, i at level 200, x at level 200, left associativity,
   format "l .[ i  <-  x ]") : fw_scope.

Lemma arr_get_Ok {A} (l : list A) i x :
  l.[i] = Ok x ↔ 0 ≤ i ∧ l !! Z.to_nat i = Some x.
Proof.
  unfold arr_get. destruct (Z.ltb_spec i 0); [split; [done|lia]|].
  destruct (l !! Z.to_nat i) eqn:E; split.
  - by intros [= ->].
  - by intros [_ [= ->]].
  - done.
  - by intros [_ ?].
Qed.

Lemma arr_get_nat {A} (l : list A) (n : nat) x :
  l !! n = Some x → l.[Z.of_nat n] = Ok x.
Proof. intros H. apply arr_get_Ok. rewrite Nat2Z.id. split; [lia|done]. Qed.

Lemma arr_get_bounds {A} (l : list A) i x :
  l.[i] = Ok x → 0 ≤ i < Z.of_nat (length l).
Proof.
  intros [? H]%arr_get_Ok. apply lookup_lt_Some in H. lia.
Qed.

Lemma arr_get_is_Ok {A} (l : list A) i :
  0 ≤ i < Z.of_nat (length l) → ∃ x, l.[i] = Ok x.
Proof.
  intros [H1 H2]. destruct (lookup_lt_is_Some_2 l (Z.to_nat i)) as [x Hx]; [lia|].
  exists x. by apply arr_get_Ok.
Qed.

Lemma arr_set_Ok {A} (l : list A) i x :
  0 ≤ i < Z.of_nat (length l) → l.[i <- x] = Ok (<[Z.to_nat i := x]> l).
Proof.
  intros [H1 H2]. unfold arr_set.
  rewrite (proj2 (Z.leb_le _ _) H1), (proj2 (Z.ltb_lt _ _) H2). done.
Qed.

Lemma arr_set_inv {A} (l l' : list A) i x :
  l.[i <- x] = Ok l' → 0 ≤ i < Z.of_nat (length l) ∧ l' = <[Z.to_nat i := x]> l.
Proof.
  unfold arr_set. destruct ((0 <=? i) && (i <? Z.of_nat (length l))) eqn:E; [|done].
  intros [= <-]. apply andb_prop in E as [?%Z.leb_le ?%Z.ltb_lt]. done.
Qed.

Lemma arr_get_set_eq {A} (l : list A) i x :
  0 ≤ i < Z.of_nat (length l) → (<[Z.to_nat i := x]> l).[i] = Ok x.
Proof.
  intros [H1 H2]. apply arr_get_Ok. split; [lia|].
  apply list_lookup_insert_eq. lia.
Qed.

Lemma arr_get_set_ne {A} (l : list A) i j x :
  0 ≤ i → i ≠ j → (<[Z.to_nat i := x]> l).[j] = l.[j].
Proof.
  intros H1 H2. unfold arr_get. destruct (Z.ltb_spec j 0); [done|].
  rewrite list_lookup_insert_ne; [done|lia].
Qed.

#[export] Hint Resolve arr_get_set_eq : fw.

(** ** Bits *)

Definition bit (n : Z) : Z := Z.shiftl 1 n.
(** [flags & mask], as a C condition. *)
Definition has (flags mask : Z) : bool := negb (Z.land flags mask =? 0).
(** [flags & ~mask] on an unsigned object *)
Definition clr (flags mask : Z) : Z := Z.ldiff flags mask.

Lemma testbit_bit n i : 0 ≤ n → Z.testbit (bit n) i = (i =? n).
Proof.
  intros Hn. unfold bit. rewrite Z.shiftl_1_l. 
  destruct (Z.eqb_spec i n) as [->|Hne].
  - by apply Z.pow2_bits_true.
  - apply Z.pow2_bits_false. done.
Qed.

Lemma has_bit z n : 0 ≤ n → has z (bit n) = Z.testbit z n.
Proof.
  intros Hn. unfold has. destruct (Z.testbit z n) eqn:E.
  - apply negb_true_iff, Z.eqb_neq. intros H0.
    assert (Z.testbit (Z.land z (bit n)) n = true) as H1.
    { rewrite Z.land_spec, testbit_bit, Z.eqb_refl, E by done. done. }
    by rewrite H0, Z.bits_0 in H1.
  - apply negb_false_iff, Z.eqb_eq. apply Z.bits_inj. intros i.
    rewrite Z.land_spec, testbit_bit, Z.bits_0 by done.
    destruct (Z.eqb_spec i n) as [->|]; [by rewrite E|by rewrite andb_false_r].
Qed.

Lemma has_lor_same z n : 0 ≤ n → has (Z.lor z (bit n)) (bit n) = true.
Proof. intros. rewrite has_bit, Z.lor_spec, testbit_bit, Z.eqb_refl by done. apply orb_true_r. Qed.
Lemma has_lor_ne z n m : 0 ≤ n → 0 ≤ m → n ≠ m → has (Z.lor z (bit n)) (bit m) = has z (bit m).
Proof.
  intros. rewrite !has_bit, Z.lor_spec, testbit_bit by done.
  destruct (Z.eqb_spec m n); [congruence|apply orb_false_r].
Qed.
Lemma has_clr_same z n : 0 ≤ n → has (clr z (bit n)) (bit n) = false.
Proof.
  intros. unfold clr. rewrite has_bit, Z.ldiff_spec, testbit_bit, Z.eqb_refl by done.
  apply andb_false_r.
Qed.
Lemma has_clr_ne z n m : 0 ≤ n → 0 ≤ m → n ≠ m → has (clr z (bit n)) (bit m) = has z (bit m).
Proof.
  intros. unfold clr. rewrite !has_bit, Z.ldiff_spec, testbit_bit by done.
  destruct (Z.eqb_spec m n); [congruence|apply andb_true_r].
Qed.

(** ** Strings

    A C string is the list of its character codes, the terminating NUL left
    out; [str] writes one from a literal. *)

Fixpoint str (s : string) : list Z :=
  match s with
  | EmptyString => []
  | String c s => Z.of_N (Ascii.N_of_ascii c) :: str s
  end.

(** A byte buffer: every element is a byte. *)
Definition bytes (l : list Z) : Prop := Forall in_u8 l.

(** Little-endian objects of 16 and 32 bits. *)
Definition le16 (z : Z) : list Z := [z mod 256; z / 256 mod 256].
Definition le32 (z : Z) : list Z :=
  [z mod 256; z / 256 mod 256; z / 65536 mod 256; z / 16777216 mod 256].

Fixpoint of_le (l : list Z) : Z :=
  match l with [] => 0 | b :: l => b + 256 * of_le l end.

Lemma of_le16 z : in_u16 z → of_le (le16 z) = z.
Proof. unfold in_u16. cbn. Z.div_mod_to_equations. lia. Qed.
Lemma of_le32 z : in_u32 z → of_le (le32 z) = z.
Proof. unfold in_u32. cbn. Z.div_mod_to_equations. lia. Qed.

(** ** Automation *)

(** Runs a monadic hypothesis or goal one step. *)
Ltac run_step :=
  match goal with
  | H : mbind _ ?m = Ok _ |- _ =>
      let E := fresh "E" in destruct m eqn:E; [cbn in H|discriminate H]
  | H : Ok _ = Ok _ |- _ => injection H as H; try subst
  | H : Err _ = Ok _ |- _ => discriminate H
  | H : Some _ = Some _ |- _ => injection H as H; try subst
  end.

(** Turns boolean comparisons of hypotheses into propositions. *)
Ltac bool_hyps :=
  repeat match goal with
  | H : (_ && _)%bool = true |- _ => apply andb_prop in H as [? ?]
  | H : (_ || _)%bool = false |- _ => apply orb_false_elim in H as [? ?]
  | H : negb _ = true |- _ => apply negb_true_iff in H
  | H : negb _ = false |- _ => apply negb_false_iff in H
  | H : (_ =? _) = true |- _ => apply Z.eqb_eq in H
  | H : (_ =? _) = false |- _ => apply Z.eqb_neq in H
  | H : (_ <? _) = true |- _ => apply Z.ltb_lt in H
  | H : (_ <? _) = false |- _ => apply Z.ltb_ge in H
  | H : (_ <=? _) = true |- _ => apply Z.leb_le in H
  | H : (_ <=? _) = false |- _ => apply Z.leb_gt in H
  end.

(** Splits the first conditional of the goal. *)
Ltac case_if :=
  match goal with
  | |- context [if ?b then _ else _] => destruct b eqn:?; bool_hyps
  end.
