(* ===== verification/CText.v ===== *)
(** * C text functions

    The parts of the C library the firmware parses configuration text and
    commands with, on strings as lists of character codes without the
    terminating NUL. *)

From S2P Require Import Prelude.

Definition is_digit (c : Z) : bool := (48 <=? c) && (c <=? 57).
Definition is_space (c : Z) : bool := (c =? 32) || ((9 <=? c) && (c <=? 13)).
Definition is_upper (c : Z) : bool := (65 <=? c) && (c <=? 90).
Definition is_lower (c : Z) : bool := (97 <=? c) && (c <=? 122).
Definition is_alpha (c : Z) : bool := is_upper c || is_lower c.
Definition to_lower (c : Z) : Z := if is_upper c then c + 32 else c.
Definition to_upper (c : Z) : Z := if is_lower c then c - 32 else c.

Fixpoint skip_spaces (s : list Z) : list Z :=
  match s with
  | c :: s' => if is_space c then skip_spaces s' else s
  | [] => []
  end.

(** The value of the decimal digits at the start of [s], from [acc] on, and
    what follows them. *)
Fixpoint take_digits (s : list Z) (acc : Z) : Z * list Z :=
  match s with
  | c :: s' => if is_digit c then take_digits s' (10 * acc + (c - 48)) else (acc, s)
  | [] => (acc, [])
  end.

(** A number in the text: sign and at least one digit. *)
Definition scan_number (s : list Z) : option (Z * list Z) :=
  let '(neg, s) := match s with
                   | c :: s' => if c =? 45 then (true, s')
                                else if c =? 43 then (false, s') else (false, s)
                   | [] => (false, [])
                   end in
  match s with
  | c :: _ => if is_digit c then
                let '(v, r) := take_digits s 0 in Some (if neg then - v else v, r)
              else None
  | [] => None
  end.

(** The [%d] conversion of [sscanf] into an [s32], out-of-range values
    saturating as [strtol] does. *)
Definition scan_s32 (s : list Z) : option (Z * list Z) :=
  match scan_number (skip_spaces s) with
  | Some (v, r) => Some (Z.max (-2147483648) (Z.min 2147483647 v), r)
  | None => None
  end.

(** A literal character of a [sscanf] format. *)
Definition scan_char (c : Z) (s : list Z) : option (list Z) :=
  match s with
  | x :: s' => if x =? c then Some s' else None
  | [] => None
  end.

(** ** Writing numbers: [%d] of the printf family *)

Fixpoint digits_fuel (n : nat) (v : Z) (acc : list Z) : list Z :=
  match n with
  | O => acc
  | S n => if v <? 10 then (48 + v) :: acc
           else digits_fuel n (v / 10) ((48 + v mod 10) :: acc)
  end.

(** Twenty digits hold every 64-bit value. *)
Definition print_dec (v : Z) : list Z :=
  if v <? 0 then 45 :: digits_fuel 20 (- v) [] else digits_fuel 20 v [].

Lemma is_digit_spec c : is_digit c = true ↔ 48 ≤ c ≤ 57.
Proof. unfold is_digit. rewrite andb_true_iff, !Z.leb_le. lia. Qed.

Lemma take_digits_app l r a :
  Forall (λ c, is_digit c = true) l →
  match r with [] => true | c :: _ => negb (is_digit c) end = true →
  take_digits (l ++ r) a = (foldl (λ acc c, 10 * acc + (c - 48)) a l, r).
Proof.
  intros Hl Hr. revert a. induction Hl as [|c l Hc Hl IH]; intros a; cbn.
  - destruct r as [|c r]; [done|]. cbn. destruct (is_digit c); [discriminate Hr|done].
  - rewrite Hc. apply IH.
Qed.

Lemma digits_fuel_spec n v acc :
  0 ≤ v < 10 ^ Z.of_nat n → (0 < n)%nat →
  ∃ l, digits_fuel n v acc = l ++ acc ∧ Forall (λ c, is_digit c = true) l ∧
    l ≠ [] ∧ foldl (λ a c, 10 * a + (c - 48)) 0 l = v.
Proof.
  revert v acc. induction n as [|n IH]; intros v acc Hv Hn; [lia|].
  cbn [digits_fuel]. destruct (Z.ltb_spec v 10).
  - exists [48 + v]. split; [done|]. split; [|split; [done|cbn; lia]].
    constructor; [|done]. apply is_digit_spec. lia.
  - assert (0 < n)%nat.
    { destruct n; [|lia]. change (10 ^ Z.of_nat 1) with 10 in Hv. lia. }
    destruct (IH (v / 10) ((48 + v mod 10) :: acc)) as (l & E & Hf & Hne & Hs); [|done|].
    { rewrite Nat2Z.inj_succ, Z.pow_succ_r in Hv by lia.
      split; [apply Z.div_pos; lia|]. apply Z.div_lt_upper_bound; lia. }
    exists (l ++ [48 + v mod 10]). rewrite E. split; [by rewrite <- app_assoc|].
    split; [|split].
    + apply Forall_app. split; [done|]. constructor; [|done].
      apply is_digit_spec. pose proof (Z.mod_pos_bound v 10). lia.
    + by destruct l.
    + rewrite foldl_app. cbn. rewrite Hs. pose proof (Z.div_mod v 10). lia.
Qed.

(** A printed number reads back, whatever follows that is not a digit. *)
Lemma scan_print_dec v r :
  -2147483648 ≤ v ≤ 2147483647 →
  match r with [] => true | c :: _ => negb (is_digit c) end = true →
  scan_s32 (print_dec v ++ r) = Some (v, r).
Proof.
  intros Hv Hr. unfold print_dec, scan_s32.
  destruct (Z.ltb_spec v 0).
  - destruct (digits_fuel_spec 20 (- v) []) as (l & -> & Hf & Hne & Hs); [lia|lia|].
    rewrite app_nil_r. cbn [app skip_spaces is_space]. cbn [Z.eqb Z.leb Z.compare].
    unfold scan_number. cbn. rewrite take_digits_app by done. rewrite Hs.
    destruct l as [|c l]; [done|]. inversion Hf as [|? ? Hc _]; subst. cbn. rewrite Hc.
    f_equal. f_equal. lia.
  - destruct (digits_fuel_spec 20 v []) as (l & -> & Hf & Hne & Hs); [lia|lia|].
    rewrite app_nil_r. destruct l as [|c l]; [done|].
    inversion Hf as [|? ? Hc _]; subst. pose proof (proj1 (is_digit_spec c) Hc).
    assert (is_space c = false) as Hsp.
    { unfold is_space. destruct (Z.eqb_spec c 32), (Z.leb_spec 9 c), (Z.leb_spec c 13);
        cbn; (done || lia). }
    cbn [app skip_spaces]. rewrite Hsp. unfold scan_number.
    destruct (Z.eqb_spec c 45), (Z.eqb_spec c 43); try lia.
    rewrite Hc. change (c :: l ++ r) with ((c :: l) ++ r).
    rewrite take_digits_app by done. f_equal. f_equal. lia.
Qed.

(** ** C strings in arrays *)

(** The C string that starts at the first byte of an object: reading past the
    object's end is an access outside it. *)
Fixpoint c_string (l : list Z) : outcome (list Z) :=
  match l with
  | [] => Err FBounds
  | c :: l => if c =? 0 then Ok [] else s ← c_string l; Ok (c :: s)
  end.

Lemma c_string_app s l :
  Forall (λ c, c ≠ 0) s → c_string (s ++ 0 :: l) = Ok s.
Proof.
  induction 1 as [|c s Hc Hs IH]; [done|]. cbn.
  destruct (Z.eqb_spec c 0); [done|]. by rewrite IH.
Qed.

Lemma c_string_no_nul s : Forall (λ c, c ≠ 0) s → c_string s = Err FBounds.
Proof.
  induction 1 as [|c s Hc Hs IH]; [done|]. cbn.
  destruct (Z.eqb_spec c 0); [done|]. by rewrite IH.
Qed.

(** ** Hexadecimal: [%X] of the printf family *)

Definition hex_digit (v : Z) : Z := if v <? 10 then 48 + v else 55 + v.

(** [%04X] and [%03X]: the low [n] digits of a value that has no more. *)
Fixpoint hex_fixed (n : nat) (v : Z) : list Z :=
  match n with
  | O => []
  | S n => hex_fixed n (v / 16) ++ [hex_digit (v mod 16)]
  end.

(** [%X]: as many digits as the value needs. *)
Fixpoint hex_len (fuel : nat) (v : Z) : nat :=
  match fuel with
  | O => 1
  | S fuel => if v <? 16 then 1 else S (hex_len fuel (v / 16))
  end.
Definition print_hex (v : Z) : list Z := hex_fixed (hex_len 7 v) v.

Lemma hex_digit_range v : 0 ≤ v < 16 → 48 ≤ hex_digit v ≤ 70 ∧ hex_digit v ≠ 58.
Proof. intros Hv. unfold hex_digit. destruct (Z.ltb_spec v 10); lia. Qed.

Lemma hex_fixed_length n v : length (hex_fixed n v) = n.
Proof. revert v. induction n as [|n IH]; intros v; [done|]. cbn. rewrite length_app, IH. cbn. lia. Qed.
