(* ===== verification/EventTypes.v ===== *)
(** * Event vocabulary

    The identifiers, sources, groups and priorities of app/event.h and the
    event record that every reporting component passes around.  The C code
    keeps the enumerations in [u8] objects, and events read back from flash may
    hold any byte there, so an event carries the codes as integers and the
    enumerations are injected into them. *)

From S2P Require Import Prelude.

(** src/app/event.h:10-30 (event_id_e) *)
Inductive event_id :=
  | EVENT_ID_BOOT_UP | EVENT_ID_SHUT_DOWN | EVENT_ID_POWER_FAIL
  | EVENT_ID_POWER_RECOVERY | EVENT_ID_LO_BATT | EVENT_ID_LO_BATT_RECOVERY
  | EVENT_ID_SET | EVENT_ID_UNSET | EVENT_ID_ALARM | EVENT_ID_ALARM_CANCEL
  | EVENT_ID_ALARM_TIMEOUT | EVENT_ID_FAULT | EVENT_ID_FAULT_RECOVERY
  | EVENT_ID_JAMMING_ACT | EVENT_ID_JAMMING_DACT | EVENT_ID_TRACKING.

(** src/app/event.h:10-30 (event_id_e) *)
Definition event_id_code (i : event_id) : Z :=
  match i with
  | EVENT_ID_BOOT_UP => 0 | EVENT_ID_SHUT_DOWN => 1 | EVENT_ID_POWER_FAIL => 2
  | EVENT_ID_POWER_RECOVERY => 3 | EVENT_ID_LO_BATT => 4
  | EVENT_ID_LO_BATT_RECOVERY => 5 | EVENT_ID_SET => 6 | EVENT_ID_UNSET => 7
  | EVENT_ID_ALARM => 8 | EVENT_ID_ALARM_CANCEL => 9
  | EVENT_ID_ALARM_TIMEOUT => 10 | EVENT_ID_FAULT => 11
  | EVENT_ID_FAULT_RECOVERY => 12 | EVENT_ID_JAMMING_ACT => 13
  | EVENT_ID_JAMMING_DACT => 14 | EVENT_ID_TRACKING => 15
  end.
Coercion event_id_code : event_id >-> Z.

(** src/app/event.h:28-28 (EVENT_ID_SIZE) *)
Definition EVENT_ID_SIZE : Z := 16.

(** src/app/event.h:32-52 (event_source_e) *)
Inductive event_source :=
  | EVENT_SOURCE_UNKNOWN | EVENT_SOURCE_UNIT | EVENT_SOURCE_KEY
  | EVENT_SOURCE_DOOR | EVENT_SOURCE_INPUT1 | EVENT_SOURCE_INPUT2
  | EVENT_SOURCE_INPUT3 | EVENT_SOURCE_SHOCK | EVENT_SOURCE_LOCK
  | EVENT_SOURCE_CELL | EVENT_SOURCE_BATTERY | EVENT_SOURCE_ADMIN
  | EVENT_SOURCE_USER1 | EVENT_SOURCE_USER2 | EVENT_SOURCE_USER3
  | EVENT_SOURCE_USER4.

(** src/app/event.h:32-52 (event_source_e) *)
Definition event_source_code (s : event_source) : Z :=
  match s with
  | EVENT_SOURCE_UNKNOWN => 0 | EVENT_SOURCE_UNIT => 1 | EVENT_SOURCE_KEY => 2
  | EVENT_SOURCE_DOOR => 3 | EVENT_SOURCE_INPUT1 => 4 | EVENT_SOURCE_INPUT2 => 5
  | EVENT_SOURCE_INPUT3 => 6 | EVENT_SOURCE_SHOCK => 7 | EVENT_SOURCE_LOCK => 8
  | EVENT_SOURCE_CELL => 9 | EVENT_SOURCE_BATTERY => 10
  | EVENT_SOURCE_ADMIN => 11 | EVENT_SOURCE_USER1 => 12
  | EVENT_SOURCE_USER2 => 13 | EVENT_SOURCE_USER3 => 14
  | EVENT_SOURCE_USER4 => 15
  end.
Coercion event_source_code : event_source >-> Z.

(** src/app/event.h:50-50 (EVENT_SOURCE_SIZE) *)
Definition EVENT_SOURCE_SIZE : Z := 16.

(** src/app/event.h:66-72 (event_group_e) *)
Inductive event_group :=
  | EVENT_GROUP_ALARM | EVENT_GROUP_FAULT | EVENT_GROUP_CONTROL | EVENT_GROUP_INFO.

(** src/app/event.h:66-72 (event_group_e) *)
Definition event_group_code (g : event_group) : Z :=
  match g with
  | EVENT_GROUP_ALARM => 0 | EVENT_GROUP_FAULT => 1
  | EVENT_GROUP_CONTROL => 2 | EVENT_GROUP_INFO => 3
  end.

(** src/app/event.h:74-80 (event_prio_e) *)
Inductive event_prio := EVENT_PRIO_LO | EVENT_PRIO_STD | EVENT_PRIO_HI.

(** src/app/event.h:74-80 (event_prio_e) *)
Definition event_prio_code (p : event_prio) : Z :=
  match p with EVENT_PRIO_LO => 0 | EVENT_PRIO_STD => 1 | EVENT_PRIO_HI => 2 end.
Coercion event_prio_code : event_prio >-> Z.

(** src/app/event.h:8-8 (EVENT_USER_NONE) *)
Definition EVENT_USER_NONE : Z := 65535.

(** The calendar fields the firmware uses of the SDK's [rtc_t]. *)
Record rtc_t := Rtc {
  year : Z; month : Z; day : Z; hour : Z; minute : Z; second : Z
}.

(** src/app/event.h:84-90 (event_t) *)
Record event_t := Event {
  ev_cnt : Z;              (* event_cnt_t = u32 *)
  ev_time : rtc_t;
  ev_id : Z;               (* event_id_e = u8 *)
  ev_source : Z            (* event_source_e = u8 *)
}.

#[export] Instance rtc_eq_dec : EqDecision rtc_t.
Proof. solve_decision. Defined.
#[export] Instance event_eq_dec : EqDecision event_t.
Proof. solve_decision. Defined.
#[export] Instance event_id_eq_dec : EqDecision event_id.
Proof. solve_decision. Defined.
#[export] Instance event_source_eq_dec : EqDecision event_source.
Proof. solve_decision. Defined.

(** An all-zero event, what [memset (.., 0, ..)] leaves. *)
Definition rtc_zero : rtc_t := Rtc 0 0 0 0 0 0.
Definition event_zero : event_t := Event 0 rtc_zero 0 0.

(** The enumerators of an enumeration, in order. *)
Definition event_ids : list event_id :=
  [EVENT_ID_BOOT_UP; EVENT_ID_SHUT_DOWN; EVENT_ID_POWER_FAIL;
   EVENT_ID_POWER_RECOVERY; EVENT_ID_LO_BATT; EVENT_ID_LO_BATT_RECOVERY;
   EVENT_ID_SET; EVENT_ID_UNSET; EVENT_ID_ALARM; EVENT_ID_ALARM_CANCEL;
   EVENT_ID_ALARM_TIMEOUT; EVENT_ID_FAULT; EVENT_ID_FAULT_RECOVERY;
   EVENT_ID_JAMMING_ACT; EVENT_ID_JAMMING_DACT; EVENT_ID_TRACKING].

(** [C] code of the enumerators: positions in the list. *)
Lemma event_id_code_position i :
  event_ids !! Z.to_nat (event_id_code i) = Some i.
Proof. by destruct i. Qed.

Lemma event_id_code_range i : 0 ≤ event_id_code i < EVENT_ID_SIZE.
Proof. destruct i; unfold EVENT_ID_SIZE; cbn; lia. Qed.

Lemma event_source_code_range s : 0 ≤ event_source_code s < EVENT_SOURCE_SIZE.
Proof. destruct s; unfold EVENT_SOURCE_SIZE; cbn; lia. Qed.

Lemma event_id_code_inj i j : event_id_code i = event_id_code j → i = j.
Proof.
  intros H. apply (inj Some).
  by rewrite <- (event_id_code_position i), <- (event_id_code_position j), H.
Qed.

#[export] Hint Resolve event_id_code_range event_source_code_range : fw.
