(* ===== verification/EventBuf.v ===== *)
(** * Event buffer (app/event_buf.c)

    A fixed array of items threaded into a doubly linked list by one-byte
    indices.  The first part of the file is the code; the second relates it to
    the queue of entries it stands for ([holds]) and proves that every operation
    is the corresponding operation on that queue. *)

From S2P Require Import Prelude EventTypes.

(** ** Data *)

(** src/app/event_buf.h:7-7 (EVENT_BUF_FLAG_USED) *)
Definition EVENT_BUF_FLAG_USED : Z := 1.
(** src/app/event_buf.h:8-8 (EVENT_BUF_FLAG_ACTIVE) *)
Definition EVENT_BUF_FLAG_ACTIVE : Z := 2.
(** src/app/event_buf.h:9-9 (EVENT_BUF_FLAG_PROCESSING) *)
Definition EVENT_BUF_FLAG_PROCESSING : Z := 4.
(** src/app/event_buf.h:10-10 (EVENT_BUF_FLAG_ZOMBIE) *)
Definition EVENT_BUF_FLAG_ZOMBIE : Z := 8.
(** src/app/event_buf.h:13-13 (EVENT_BUF_INDEX_NIL) *)
Definition EVENT_BUF_INDEX_NIL : Z := 255.
(** src/app/event_buf.h:14-14 (EVENT_BUF_UNLIMITED) *)
Definition EVENT_BUF_UNLIMITED : Z := 255.

(** src/app/event_buf.h:18-27 (event_buf_item_t) *)
Record item := Item {
  it_event : event_t;
  it_next : Z;             (* eb_ptr_t = u8 *)
  it_prev : Z;
  it_prio : Z;             (* 4-bit field *)
  it_flag : Z;             (* 4-bit field *)
  it_user : Z;             (* u16 *)
  it_cnt : Z               (* u8 *)
}.

(** src/app/event_buf.h:29-36 (event_buf_t) *)
Record event_buf := EventBuf {
  eb_size : Z;
  eb_start : Z;            (* start_index *)
  eb_last : Z;             (* last_index *)
  eb_test : Z;             (* test_index *)
  eb_items : list item
}.

Definition set_items (b : event_buf) (l : list item) : event_buf :=
  EventBuf (eb_size b) (eb_start b) (eb_last b) (eb_test b) l.
Definition set_start (b : event_buf) (i : Z) : event_buf :=
  EventBuf (eb_size b) i (eb_last b) (eb_test b) (eb_items b).
Definition set_last (b : event_buf) (i : Z) : event_buf :=
  EventBuf (eb_size b) (eb_start b) i (eb_test b) (eb_items b).
Definition set_test (b : event_buf) (i : Z) : event_buf :=
  EventBuf (eb_size b) (eb_start b) (eb_last b) i (eb_items b).

Definition with_flag (f : Z) (it : item) : item :=
  Item (it_event it) (it_next it) (it_prev it) (it_prio it) f (it_user it) (it_cnt it).
Definition with_next (n : Z) (it : item) : item :=
  Item (it_event it) n (it_prev it) (it_prio it) (it_flag it) (it_user it) (it_cnt it).
Definition with_prev (p : Z) (it : item) : item :=
  Item (it_event it) (it_next it) p (it_prio it) (it_flag it) (it_user it) (it_cnt it).
Definition with_cnt (c : Z) (it : item) : item :=
  Item (it_event it) (it_next it) (it_prev it) (it_prio it) (it_flag it) (it_user it) c.
Definition with_event (e : event_t) (it : item) : item :=
  Item e (it_next it) (it_prev it) (it_prio it) (it_flag it) (it_user it) (it_cnt it).

(** [buf->items[i]] and a store of a new value of [buf->items[i]]. *)
Definition item_at (b : event_buf) (i : Z) : outcome item := (eb_items b).[i].
Definition upd_item (b : event_buf) (i : Z) (f : item → item) : outcome event_buf :=
  it ← item_at b i;
  l ← (eb_items b).[i <- f it];
  Ok (set_items b l).

(** ** Operations *)

Fixpoint init_loop (n : nat) (i : Z) (items : list item) : outcome (list item) :=
  match n with
  | O => Ok items
  | S n =>
      it ← items.[i];
      l ← items.[i <- with_prev EVENT_BUF_INDEX_NIL
                        (with_next EVENT_BUF_INDEX_NIL (with_flag 0 it))];
      init_loop n (i + 1) l
  end.

(** src/app/event_buf.c:10-25 (event_buf_init) *)
Definition event_buf_init (items : list item) (size : Z) : outcome event_buf :=
  l ← init_loop (Z.to_nat size) 0 items;
  Ok (EventBuf size 0 EVENT_BUF_INDEX_NIL 255 l).

Fixpoint find_free_loop (n : nat) (b : event_buf) : outcome (Z * event_buf) :=
  match n with
  | O => Ok (EVENT_BUF_INDEX_NIL, b)
  | S n =>
      let t := u8 (eb_test b + 1) in
      let t := if eb_size b <=? t then 0 else t in
      let b := set_test b t in
      it ← item_at b t;
      if it_flag it =? 0 then Ok (t, b) else find_free_loop n b
  end.

(** src/app/event_buf.c:27-40 (_buf_find_free) *)
Definition buf_find_free (b : event_buf) : outcome (Z * event_buf) :=
  find_free_loop (Z.to_nat (eb_size b)) b.

(** src/app/event_buf.c:42-49 (_item_active) *)
Definition item_active (it : item) : bool :=
  Z.land (it_flag it) (Z.lor EVENT_BUF_FLAG_USED EVENT_BUF_FLAG_ACTIVE)
  =? Z.lor EVENT_BUF_FLAG_USED EVENT_BUF_FLAG_ACTIVE.

(** The loop every traversal of the buffer is:
    [for (i=0; i<size; i++) { body; if (items[idx].next == NIL) break;
    idx = items[idx].next; }], with the [OS_ASSERT] on the new index where the
    source has one ([chk]).  [body] may change the buffer, an accumulator, and
    return from the function early. *)
Fixpoint for_chain {A R} (fuel : nat) (chk : bool)
    (body : event_buf → A → Z → outcome (event_buf * A * option R))
    (b : event_buf) (a : A) (idx : Z) : outcome (event_buf * A * option R) :=
  match fuel with
  | O => Ok (b, a, None)
  | S fuel =>
      res ← body b a idx;
      let '(b, a, r) := res in
      match r with
      | Some _ => Ok (b, a, r)
      | None =>
          it ← item_at b idx;
          if it_next it =? EVENT_BUF_INDEX_NIL then Ok (b, a, None)
          else
            _ ← os_assert (negb chk || (it_next it <? eb_size b));
            for_chain fuel chk body b a (it_next it)
      end
  end.

Definition lowest_prio_body (b : event_buf) (lowest : Z) (idx : Z)
    : outcome (event_buf * Z * option Z) :=
  it ← item_at b idx;
  if it_flag it =? 0 then Ok (b, lowest, Some idx)   (* "inconsistent" *)
  else Ok (b, if it_prio it <? lowest then it_prio it else lowest, None).

Definition first_of_prio_body (p : Z) (b : event_buf) (u : unit) (idx : Z)
    : outcome (event_buf * unit * option Z) :=
  it ← item_at b idx;
  Ok (b, (), if it_prio it =? p then Some idx else None).

(** src/app/event_buf.c:51-95 (_buf_replace_prio) *)
Definition buf_replace_prio (b : event_buf) (prio : Z) : outcome Z :=
  let n := Z.to_nat (eb_size b) in
  res ← for_chain n false lowest_prio_body b (event_prio_code EVENT_PRIO_HI) (eb_start b);
  let '(_, lowest, r) := res in
  match r with
  | Some idx => Ok idx
  | None =>
      if prio <? lowest then Ok EVENT_BUF_INDEX_NIL
      else if lowest =? prio then Ok (eb_start b)
      else
        res ← for_chain n false (first_of_prio_body lowest) b () (eb_start b);
        Ok (default EVENT_BUF_INDEX_NIL (snd res))
  end.

(** src/app/event_buf.c:97-135 (_delete_item) *)
Definition delete_item (b : event_buf) (index : Z) : outcome event_buf :=
  _ ← os_assert (index <? eb_size b);
  it ← item_at b index;
  if it_flag it =? 0 then Ok b else
  b ← upd_item b index (with_flag 0);
  if negb (index =? eb_start b) then
    it ← item_at b index;
    _ ← os_assert (it_prev it <? eb_size b);
    b ← upd_item b (it_prev it) (with_next (it_next it));
    it ← item_at b index;
    if eb_last b =? index then
      _ ← os_assert (it_next it =? EVENT_BUF_INDEX_NIL);
      Ok (set_last b (it_prev it))
    else
      _ ← os_assert (it_next it <? eb_size b);
      upd_item b (it_next it) (with_prev (it_prev it))
  else if negb (index =? eb_last b) then
    it ← item_at b index;
    let b := set_start b (it_next it) in
    s ← item_at b (eb_start b);
    _ ← os_assert (it_prev s =? index);
    upd_item b (eb_start b) (with_prev EVENT_BUF_INDEX_NIL)
  else Ok (set_last b EVENT_BUF_INDEX_NIL).

(** An item still to be communicated: active, and neither in communication nor
    kept for a later retry. *)
Definition item_pending (it : item) : bool :=
  item_active it &&
  negb (has (it_flag it) (Z.lor EVENT_BUF_FLAG_PROCESSING EVENT_BUF_FLAG_ZOMBIE)).

Definition empty_body (b : event_buf) (u : unit) (idx : Z)
    : outcome (event_buf * unit * option unit) :=
  it ← item_at b idx;
  Ok (b, (), if item_pending it then Some () else None).

(** src/app/event_buf.c:137-154 (event_buf_empty) *)
Definition event_buf_empty (b : event_buf) : outcome bool :=
  res ← for_chain (Z.to_nat (eb_size b)) true empty_body b () (eb_start b);
  Ok (match snd res with Some _ => false | None => true end).

(** The choice of the item to write, lines 166-190 of event_buf_add_event;
    [None]: the buffer is full of more important events. *)
Definition choose_slot (b : event_buf) (prio : Z) : outcome (option Z * event_buf) :=
  if eb_last b =? EVENT_BUF_INDEX_NIL then
    _ ← os_assert (negb (eb_start b =? EVENT_BUF_INDEX_NIL));
    Ok (Some (eb_start b), b)
  else
    res ← buf_find_free b;
    let '(w, b) := res in
    if negb (w =? EVENT_BUF_INDEX_NIL) then Ok (Some w, b)
    else
      w ← buf_replace_prio b prio;
      if negb (w =? EVENT_BUF_INDEX_NIL) then
        b ← delete_item b w;
        Ok (Some w, b)
      else Ok (None, b).

(** The item stored by lines 193-200: all fields zeroed, then set. *)
Definition new_item (e : event_t) (prio user : Z) : item :=
  Item e EVENT_BUF_INDEX_NIL 0 (prio mod 16)
       (Z.lor EVENT_BUF_FLAG_USED EVENT_BUF_FLAG_ACTIVE) (u16 user) 0.

(** Lines 192-211: store the item and append it to the chain. *)
Definition append_item (b : event_buf) (wr : Z) (it : item) : outcome event_buf :=
  l ← (eb_items b).[wr <- it];
  let b := set_items b l in
  b ← (if negb (eb_last b =? EVENT_BUF_INDEX_NIL)
       then upd_item b (eb_last b) (with_next wr) else Ok b);
  b ← upd_item b wr (with_prev (eb_last b));
  let b := set_last b wr in
  it ← item_at b wr;
  _ ← os_assert (negb (it_prev it =? wr));
  _ ← os_assert (negb (it_next it =? wr));
  Ok b.

(** src/app/event_buf.c:156-212 (event_buf_add_event) *)
Definition event_buf_add_event (b : event_buf) (event : option event_t)
    (prio user : Z) : outcome (bool * event_buf) :=
  match event with
  | None => Ok (false, b)
  | Some e =>
      if user =? EVENT_USER_NONE then Ok (false, b)
      else
        res ← choose_slot b prio;
        let '(w, b) := res in
        match w with
        | None => Ok (false, b)                       (* "full" *)
        | Some wr =>
            b ← append_item b wr (new_item e prio user);
            Ok (true, b)
        end
  end.

Definition restore_body (retry_limit : Z) (b : event_buf) (result : bool) (idx : Z)
    : outcome (event_buf * bool * option unit) :=
  it ← item_at b idx;
  let mask := Z.lor EVENT_BUF_FLAG_PROCESSING EVENT_BUF_FLAG_ZOMBIE in
  if has (it_flag it) mask then
    b ← upd_item b idx (with_flag (clr (it_flag it) mask));
    it ← item_at b idx;
    if item_active it && negb (retry_limit =? EVENT_BUF_UNLIMITED) then
      let c := u8 (it_cnt it + 1) in
      b ← upd_item b idx (with_cnt c);
      if retry_limit <=? c then
        b ← delete_item b idx;
        Ok (b, false, None)
      else Ok (b, result, None)
    else Ok (b, result, None)
  else Ok (b, result, None).

(** src/app/event_buf.c:214-251 (event_buf_restore_events) *)
Definition event_buf_restore_events (b : event_buf) (retry_limit : Z)
    : outcome (bool * event_buf) :=
  res ← for_chain (Z.to_nat (eb_size b)) false (restore_body retry_limit) b true (eb_start b);
  let '(b, result, _) := res in Ok (result, b).

Definition done_body (delivered : bool) (b : event_buf) (u : unit) (idx : Z)
    : outcome (event_buf * unit * option unit) :=
  it ← item_at b idx;
  if has (it_flag it) EVENT_BUF_FLAG_PROCESSING then
    b ← upd_item b idx (with_flag (clr (it_flag it) EVENT_BUF_FLAG_PROCESSING));
    it ← item_at b idx;
    if item_active it then
      if delivered then
        b ← delete_item b idx;
        Ok (b, (), None)
      else
        b ← upd_item b idx (with_flag (Z.lor (it_flag it) EVENT_BUF_FLAG_ZOMBIE));
        Ok (b, (), None)
    else Ok (b, (), None)                             (* "done inactive" *)
  else Ok (b, (), None).

(** src/app/event_buf.c:253-287 (event_buf_done_events) *)
Definition event_buf_done_events (b : event_buf) (delivered : bool) : outcome event_buf :=
  res ← for_chain (Z.to_nat (eb_size b)) false (done_body delivered) b () (eb_start b);
  Ok (fst (fst res)).

(** The objects the out-parameters of event_buf_get_event point to; [None] is a
    NULL pointer. *)
Record get_out := GetOut {
  go_event : option event_t;
  go_user : Z;
  go_prio : option Z
}.

Definition get_body (b : event_buf) (o : get_out) (idx : Z)
    : outcome (event_buf * get_out * option unit) :=
  it ← item_at b idx;
  if item_pending it then
    let user := if go_user o =? EVENT_USER_NONE then it_user it else go_user o in
    let o := GetOut (const (it_event it) <$> go_event o) user
                    (const (it_prio it) <$> go_prio o) in
    if user =? it_user it then
      b ← upd_item b idx (with_flag (Z.lor (it_flag it) EVENT_BUF_FLAG_PROCESSING));
      Ok (b, o, Some ())
    else Ok (b, o, None)
  else Ok (b, o, None).

(** src/app/event_buf.c:289-323 (event_buf_get_event) *)
Definition event_buf_get_event (b : event_buf) (event : option event_t)
    (user : option Z) (prio : option Z)
    : outcome (bool * event_buf * option get_out) :=
  match user with
  | None => Ok (false, b, None)
  | Some u =>
      res ← for_chain (Z.to_nat (eb_size b)) false get_body b (GetOut event u prio) (eb_start b);
      let '(b, o, r) := res in
      Ok (match r with Some _ => true | None => false end, b, Some o)
  end.

(** [pfunc] gets a pointer to the stored event: it returns its verdict and what
    it leaves in the event. *)
Definition each_body (pfunc : event_t → bool * event_t) (b : event_buf) (u : unit) (idx : Z)
    : outcome (event_buf * unit * option unit) :=
  it ← item_at b idx;
  if has (it_flag it) EVENT_BUF_FLAG_USED then
    let '(keep, e) := pfunc (it_event it) in
    b ← upd_item b idx (with_event e);
    b ← (if keep then Ok b else delete_item b idx);
    Ok (b, (), None)
  else Ok (b, (), None).

(** src/app/event_buf.c:325-350 (event_buf_for_each) *)
Definition event_buf_for_each (b : event_buf) (pfunc : event_t → bool * event_t)
    : outcome event_buf :=
  res ← for_chain (Z.to_nat (eb_size b)) true (each_body pfunc) b () (eb_start b);
  Ok (fst (fst res)).

(** ** The queue a buffer stands for *)

(** The contents of an item, its links left out. *)
Record entry := Entry {
  e_event : event_t;
  e_prio : Z;
  e_flag : Z;
  e_user : Z;
  e_cnt : Z
}.

Definition entry_of (it : item) : entry :=
  Entry (it_event it) (it_prio it) (it_flag it) (it_user it) (it_cnt it).

(** Every queued entry has the USED and ACTIVE bits, and fits its bit field. *)
Definition flag_ok (f : Z) : Prop := f = 3 ∨ f = 7 ∨ f = 11 ∨ f = 15.

Definition hd_idx (q : list (Z * entry)) (n : Z) : Z :=
  match q with [] => n | (x, _) :: _ => x end.

Fixpoint last_idx (p : Z) (q : list (Z * entry)) : Z :=
  match q with [] => p | (x, _) :: q => last_idx x q end.

(** [seg l p q n]: from index [hd_idx q n] the array [l] holds the entries of
    [q] linked in order, the first one's back link being [p] and the last one's
    forward link [n]. *)
Fixpoint seg (l : list item) (p : Z) (q : list (Z * entry)) (n : Z) : Prop :=
  match q with
  | [] => True
  | (x, e) :: q =>
      (∃ it, l.[x] = Ok it ∧ entry_of it = e ∧ it_prev it = p ∧ it_next it = hd_idx q n)
      ∧ seg l x q n
  end.

Record rep (b : event_buf) (q : list (Z * entry)) : Prop := Rep {
  rep_size : 0 < eb_size b ≤ 255;
  rep_len : Z.of_nat (length (eb_items b)) = eb_size b;
  rep_seg : seg (eb_items b) EVENT_BUF_INDEX_NIL q EVENT_BUF_INDEX_NIL;
  rep_nodup : NoDup q.*1;
  rep_flags : Forall (λ e, flag_ok (e_flag e)) q.*2;
  rep_free : ∀ i it, item_at b i = Ok it → i ∉ q.*1 → it_flag it = 0;
  rep_start : match q with
              | [] => ∃ it, item_at b (eb_start b) = Ok it
                            ∧ it_next it = EVENT_BUF_INDEX_NIL
              | (x, _) :: _ => eb_start b = x
              end;
  rep_last : eb_last b = last_idx EVENT_BUF_INDEX_NIL q;
  rep_test : 0 ≤ eb_test b < 256
}.

(** [holds b n q]: [b] is a well-formed buffer of capacity [n] holding the
    queue [q], oldest entry first. *)
Definition holds (b : event_buf) (n : Z) (q : list entry) : Prop :=
  eb_size b = n ∧ ∃ ql, rep b ql ∧ ql.*2 = q.

(** *** Segments *)

Lemma hd_idx_app q1 q2 n : hd_idx (q1 ++ q2) n = hd_idx q1 (hd_idx q2 n).
Proof. by destruct q1 as [|[? ?] ?]. Qed.

Lemma last_idx_app p q1 q2 : last_idx p (q1 ++ q2) = last_idx (last_idx p q1) q2.
Proof. revert p. induction q1 as [|[x e] q1 IH]; intros p; [done|]. cbn. apply IH. Qed.

Lemma last_idx_in p q : last_idx p q = p ∨ last_idx p q ∈ q.*1.
Proof.
  revert p. induction q as [|[x e] q IH]; intros p; [by left|].
  cbn. right. destruct (IH x) as [->|?]; set_solver.
Qed.

Lemma last_idx_ne x p q : p ≠ x → x ∉ q.*1 → last_idx p q ≠ x.
Proof. intros Hp Hq Heq. destruct (last_idx_in p q) as [E|E]; rewrite Heq in E; done. Qed.

Lemma seg_app l p q1 q2 n :
  seg l p (q1 ++ q2) n ↔ seg l p q1 (hd_idx q2 n) ∧ seg l (last_idx p q1) q2 n.
Proof.
  revert p. induction q1 as [|[x e] q1 IH]; intros p; cbn; [tauto|].
  rewrite IH, hd_idx_app. tauto.
Qed.

Lemma seg_frame l p q n i it :
  0 ≤ i → i ∉ q.*1 → seg l p q n → seg (<[Z.to_nat i := it]> l) p q n.
Proof.
  intros Hi. revert p. induction q as [|[x e] q IH]; intros p; cbn; [done|].
  intros Hni [(it' & ? & ?) ?]. split.
  - exists it'. rewrite arr_get_set_ne by set_solver. done.
  - apply IH; set_solver.
Qed.

(** Every index of a segment is inside the array. *)
Lemma seg_bounds l p q n x :
  seg l p q n → x ∈ q.*1 → 0 ≤ x < Z.of_nat (length l).
Proof.
  revert p. induction q as [|[y e] q IH]; intros p; cbn; [set_solver|].
  intros [(it & Hit & _) Hs] [->|Hx]%elem_of_cons.
  - by eapply arr_get_bounds.
  - by eapply IH.
Qed.

Lemma seg_lookup l p q1 x e q2 n :
  seg l p (q1 ++ (x, e) :: q2) n →
  ∃ it, l.[x] = Ok it ∧ entry_of it = e ∧ it_prev it = last_idx p q1
        ∧ it_next it = hd_idx q2 n.
Proof. intros [_ [H _]]%seg_app. exact H. Qed.

(** Changing the contents of an item, its links kept. *)
Lemma seg_content l p q1 x e q2 n it it' :
  NoDup (q1 ++ (x, e) :: q2).*1 →
  seg l p (q1 ++ (x, e) :: q2) n → l.[x] = Ok it →
  it_prev it' = it_prev it → it_next it' = it_next it →
  seg (<[Z.to_nat x := it']> l) p (q1 ++ (x, entry_of it') :: q2) n.
Proof.
  rewrite fmap_app. cbn. intros (_ & Hn1 & Hn2)%NoDup_app Hs Hx Hp Hn.
  apply NoDup_cons in Hn2 as [Hn2 _].
  pose proof (arr_get_bounds _ _ _ Hx) as Hb.
  apply seg_app in Hs as [Hs1 [(it0 & Hx0 & He & Hp0 & Hq0) Hs2]].
  rewrite Hx in Hx0. injection Hx0 as <-.
  apply seg_app. split.
  - apply seg_frame; [lia| |done]. intros Hin. apply (Hn1 x); [done|]. set_solver.
  - split; [|apply seg_frame; [lia|done|done]].
    exists it'. rewrite arr_get_set_eq by done. by rewrite Hp, Hn.
Qed.

(** Redirecting the forward link of the last item of a segment. *)
Lemma seg_relink_last l p q1 x e n it m :
  NoDup (q1 ++ [(x, e)]).*1 →
  seg l p (q1 ++ [(x, e)]) n → l.[x] = Ok it →
  seg (<[Z.to_nat x := with_next m it]> l) p (q1 ++ [(x, e)]) m.
Proof.
  rewrite fmap_app. cbn. intros (_ & Hn1 & _)%NoDup_app Hs Hx.
  pose proof (arr_get_bounds _ _ _ Hx) as Hb.
  apply seg_app in Hs as [Hs1 [(it0 & Hx0 & He & Hp0 & Hq0) _]].
  rewrite Hx in Hx0. injection Hx0 as <-.
  apply seg_app. split.
  - apply seg_frame; [lia| |done]. intros Hin. apply (Hn1 x); [done|]. set_solver.
  - split; [|done]. exists (with_next m it). rewrite arr_get_set_eq by done.
    by destruct it.
Qed.

(** Redirecting the back link of the first item of a segment. *)
Lemma seg_relink_first l p x e q n it m :
  NoDup ((x, e) :: q).*1 →
  seg l p ((x, e) :: q) n → l.[x] = Ok it →
  seg (<[Z.to_nat x := with_prev m it]> l) m ((x, e) :: q) n.
Proof.
  cbn. intros [Hn _]%NoDup_cons [(it0 & Hx0 & He & Hp0 & Hq0) Hs] Hx.
  pose proof (arr_get_bounds _ _ _ Hx) as Hb.
  rewrite Hx in Hx0. injection Hx0 as <-.
  split; [|apply seg_frame; [lia|done|done]].
  exists (with_prev m it). rewrite arr_get_set_eq by done. by destruct it.
Qed.

(** *** Primitive steps on a well-formed buffer *)

Lemma upd_item_spec b i it f :
  item_at b i = Ok it →
  upd_item b i f = Ok (set_items b (<[Z.to_nat i := f it]> (eb_items b))).
Proof.
  unfold upd_item. intros H. rewrite H. cbn.
  rewrite arr_set_Ok; [done|]. by eapply arr_get_bounds.
Qed.

Lemma item_at_set_eq b i it : 0 ≤ i < Z.of_nat (length (eb_items b)) →
  item_at (set_items b (<[Z.to_nat i := it]> (eb_items b))) i = Ok it.
Proof. intros. by apply arr_get_set_eq. Qed.

Lemma item_at_set_ne b i j it : 0 ≤ i → i ≠ j →
  item_at (set_items b (<[Z.to_nat i := it]> (eb_items b))) j = item_at b j.
Proof. intros. by apply arr_get_set_ne. Qed.

Lemma rep_lookup b q1 x e q2 :
  rep b (q1 ++ (x, e) :: q2) →
  ∃ it, item_at b x = Ok it ∧ entry_of it = e ∧ flag_ok (it_flag it)
        ∧ it_prev it = last_idx EVENT_BUF_INDEX_NIL q1
        ∧ it_next it = hd_idx q2 EVENT_BUF_INDEX_NIL.
Proof.
  intros H. destruct (seg_lookup _ _ _ _ _ _ _ (rep_seg _ _ H)) as (it & ? & He & ? & ?).
  exists it. repeat split; try done.
  pose proof (rep_flags _ _ H) as Hf. rewrite fmap_app in Hf.
  apply Forall_app in Hf as [_ Hf]. cbn in Hf. apply Forall_cons in Hf as [Hf _].
  by rewrite <- He in Hf.
Qed.

Lemma rep_bounds b q x : rep b q → x ∈ q.*1 → 0 ≤ x < eb_size b.
Proof.
  intros H Hx. rewrite <- (rep_len _ _ H).
  by eapply seg_bounds; [apply (rep_seg _ _ H)|].
Qed.

(** An item whose contents change stays in its place in the queue. *)
Lemma rep_content b q1 x e q2 it f :
  rep b (q1 ++ (x, e) :: q2) → item_at b x = Ok it →
  it_prev (f it) = it_prev it → it_next (f it) = it_next it → flag_ok (it_flag (f it)) →
  ∃ b', upd_item b x f = Ok b' ∧ item_at b' x = Ok (f it) ∧ eb_size b' = eb_size b
        ∧ rep b' (q1 ++ (x, entry_of (f it)) :: q2).
Proof.
  intros H Hx Hp Hn Hf. rewrite (upd_item_spec _ _ _ _ Hx). eexists. split; [done|].
  pose proof (arr_get_bounds _ _ _ Hx) as Hb.
  split; [by apply item_at_set_eq|]. split; [done|]. destruct H. constructor; cbn; auto.
  - by rewrite length_insert.
  - eapply seg_content; eauto.
  - rewrite fmap_app in *. done.
  - rewrite fmap_app in *. apply Forall_app in rep_flags0 as [? HF]. cbn in HF.
    apply Forall_cons in HF as [_ ?]. apply Forall_app. split; [done|].
    apply Forall_cons. done.
  - rewrite fmap_app in *. intros i it' Hi Hni. assert (x ≠ i) by set_solver.
    rewrite item_at_set_ne in Hi by lia. by eapply rep_free0.
  - destruct q1 as [|[y ey] q1]; done.
  - rewrite last_idx_app in *. done.
Qed.

(** *** Deleting an item *)

Lemma seg_relink_left l p q n it m :
  q ≠ [] → NoDup q.*1 → seg l p q n → l.[last_idx p q] = Ok it →
  seg (<[Z.to_nat (last_idx p q) := with_next m it]> l) p q m.
Proof.
  induction q as [|[x e] q _] using rev_ind; [done|]. intros _ Hnd Hs.
  rewrite last_idx_app. cbn. intros Hx. by eapply seg_relink_last.
Qed.

Lemma seg_relink_right l p q n it m :
  q ≠ [] → NoDup q.*1 → seg l p q n → l.[hd_idx q n] = Ok it →
  seg (<[Z.to_nat (hd_idx q n) := with_prev m it]> l) m q n.
Proof. destruct q as [|[x e] q]; [done|]. intros _. apply seg_relink_first. Qed.

(** What a deletion leaves behind: the queue without the item, whose own links
    still lead on to its former successor. *)
Definition deleted (b b' : event_buf) (x : Z) (q1 q2 : list (Z * entry)) : Prop :=
  rep b' (q1 ++ q2) ∧ eb_size b' = eb_size b ∧ eb_test b' = eb_test b ∧
  ∃ it, item_at b' x = Ok it ∧ it_flag it = 0 ∧ it_next it = hd_idx q2 EVENT_BUF_INDEX_NIL.

(** The indices of a queue split around one of its items. *)
Lemma nodup_split (q1 q2 : list (Z * entry)) x e :
  NoDup (q1 ++ (x, e) :: q2).*1 →
  x ∉ q1.*1 ∧ x ∉ q2.*1 ∧ NoDup q1.*1 ∧ NoDup q2.*1
  ∧ (∀ y, y ∈ q1.*1 → y ∉ q2.*1) ∧ NoDup (q1 ++ q2).*1.
Proof.
  rewrite !fmap_app. cbn. intros (H1 & H2 & H3)%NoDup_app.
  apply NoDup_cons in H3 as [H3 H4].
  assert (∀ y, y ∈ q1.*1 → y ∉ q2.*1) by set_solver.
  repeat split; try done; [set_solver|]. apply NoDup_app. done.
Qed.

(** The array after the stores of a deletion: [l'] agrees with [l] on the links
    and contents the remaining queue needs. *)
Lemma rep_deleted b b' x e q1 q2 :
  rep b (q1 ++ (x, e) :: q2) →
  eb_size b' = eb_size b → eb_test b' = eb_test b →
  length (eb_items b') = length (eb_items b) →
  seg (eb_items b') EVENT_BUF_INDEX_NIL (q1 ++ q2) EVENT_BUF_INDEX_NIL →
  (∃ it, item_at b' x = Ok it ∧ it_flag it = 0 ∧ it_next it = hd_idx q2 EVENT_BUF_INDEX_NIL) →
  (∀ i, i ≠ x → i ∉ (q1 ++ q2).*1 → item_at b' i = item_at b i) →
  match q1 ++ q2 with
  | [] => eb_start b' = x
  | (y, _) :: _ => eb_start b' = y
  end →
  eb_last b' = last_idx EVENT_BUF_INDEX_NIL (q1 ++ q2) →
  deleted b b' x q1 q2.
Proof.
  intros H Hsz Ht Hlen Hseg (it & Hx & Hf & Hn) Hoth Hst Hl.
  split; [|split; [done|split; [done|by exists it]]].
  destruct (nodup_split _ _ _ _ (rep_nodup _ _ H)) as (_ & _ & _ & _ & _ & Hnd).
  constructor; try rewrite Hsz; try rewrite Hlen; try rewrite Ht; try by destruct H.
  - pose proof (rep_flags _ _ H) as HF. rewrite fmap_app in *.
    apply Forall_app in HF as [? HF]. cbn in HF. apply Forall_cons in HF as [_ ?].
    by apply Forall_app.
  - intros i it' Hi Hni. destruct (decide (i = x)) as [->|Hne].
    + rewrite Hx in Hi. by injection Hi as <-.
    + rewrite Hoth in Hi by done. apply (rep_free _ _ H _ _ Hi).
      rewrite fmap_app in *. set_solver.
  - destruct (q1 ++ q2) as [|[y ey] q] eqn:E; [|done]. apply app_eq_nil in E as [-> ->].
    rewrite Hst. eauto.
Qed.

Lemma rep_idx_ok b q x : rep b q → x ∈ q.*1 → (x <? eb_size b) = true.
Proof. intros H Hx. apply Z.ltb_lt. by apply (rep_bounds b q x). Qed.

Lemma rep_item b q x : rep b q → x ∈ q.*1 → ∃ it, item_at b x = Ok it.
Proof.
  intros H Hx. apply arr_get_is_Ok. rewrite (rep_len _ _ H). by apply (rep_bounds b q x).
Qed.

(** The links and flag of an item about to be deleted. *)
Lemma delete_prefix b x it :
  item_at b x = Ok it → (x <? eb_size b) = true → it_flag it ≠ 0 →
  delete_item b x =
    let b := set_items b (<[Z.to_nat x := with_flag 0 it]> (eb_items b)) in
    if negb (x =? eb_start b) then
      _ ← os_assert (it_prev it <? eb_size b);
      b ← upd_item b (it_prev it) (with_next (it_next it));
      it ← item_at b x;
      if eb_last b =? x then
        _ ← os_assert (it_next it =? EVENT_BUF_INDEX_NIL);
        Ok (set_last b (it_prev it))
      else
        _ ← os_assert (it_next it <? eb_size b);
        upd_item b (it_next it) (with_prev (it_prev it))
    else if negb (x =? eb_last b) then
      let b := set_start b (it_next it) in
      s ← item_at b (eb_start b);
      _ ← os_assert (it_prev s =? x);
      upd_item b (eb_start b) (with_prev EVENT_BUF_INDEX_NIL)
    else Ok (set_last b EVENT_BUF_INDEX_NIL).
Proof.
  intros Hx Hlt Hf. unfold delete_item. rewrite Hlt, Hx. cbn.
  rewrite (proj2 (Z.eqb_neq _ _) Hf), (upd_item_spec _ _ _ _ Hx). cbn -[item_at upd_item].
  rewrite item_at_set_eq by (eapply arr_get_bounds; exact Hx). done.
Qed.

Lemma flag_ok_nonzero f : flag_ok f → f ≠ 0.
Proof. unfold flag_ok. lia. Qed.

(** The four positions of the deleted item: alone, first, last, in between. *)

Lemma delete_alone b x e :
  rep b [(x, e)] → ∃ b', delete_item b x = Ok b' ∧ deleted b b' x [] [].
Proof.
  intros H. destruct (rep_lookup b [] x e [] H) as (it & Hx & He & Hf & Hp & Hn).
  pose proof (rep_idx_ok _ _ x H ltac:(set_solver)) as Hlt.
  rewrite (delete_prefix _ _ _ Hx Hlt (flag_ok_nonzero _ Hf)). cbn zeta.
  pose proof (rep_start _ _ H) as Hs. pose proof (rep_last _ _ H) as Hl. cbn in Hs, Hl |- *.
  rewrite Hs, Hl, Z.eqb_refl. cbn. eexists. split; [done|].
  apply (rep_deleted b _ x e [] []); try done; cbn in *.
  - by apply length_insert.
  - exists (with_flag 0 it). unfold item_at. cbn.
    by rewrite arr_get_set_eq by (by eapply arr_get_bounds).
  - intros i Hi _. unfold item_at. cbn. apply arr_get_set_ne; [|done]. by eapply arr_get_bounds in Hx as [? _].
Qed.

Lemma delete_first b x e y ey q :
  rep b ((x, e) :: (y, ey) :: q) →
  ∃ b', delete_item b x = Ok b' ∧ deleted b b' x [] ((y, ey) :: q).
Proof.
  intros H. destruct (rep_lookup b [] x e _ H) as (it & Hx & He & Hf & Hp & Hn).
  pose proof (rep_idx_ok _ _ x H ltac:(set_solver)) as Hlt.
  rewrite (delete_prefix _ _ _ Hx Hlt (flag_ok_nonzero _ Hf)). cbn zeta.
  destruct (nodup_split [] _ _ _ (rep_nodup _ _ H)) as (_ & Hxq & _ & Hnd & _).
  destruct (rep_lookup b [(x, e)] y ey q H) as (yit & Hy & _ & _ & Hyp & _).
  pose proof (rep_start _ _ H) as Hs. pose proof (rep_last _ _ H) as Hl. cbn in Hs, Hl, Hn, Hyp.
  pose proof (arr_get_bounds _ _ _ Hx) as Hxb. pose proof (arr_get_bounds _ _ _ Hy) as Hyb.
  assert (x ≠ y) as Hxy by set_solver.
  cbn [eb_start set_items negb]. rewrite Hs, Z.eqb_refl. cbn [negb].
  cbn [eb_last set_items]. rewrite (proj2 (Z.eqb_neq x (eb_last b))); cycle 1.
  { rewrite Hl. cbn in Hxq. apply not_elem_of_cons in Hxq as [_ ?]. by apply not_eq_sym, last_idx_ne; [apply not_eq_sym|]. }
  cbn [negb eb_start set_start]. rewrite Hn. 
  assert (item_at (set_start (set_items b (<[Z.to_nat x:=with_flag 0 it]> (eb_items b))) y) y
          = Ok yit) as Hy' by (unfold item_at; cbn; by rewrite arr_get_set_ne by lia).
  rewrite Hy'. cbn. rewrite Hyp, Z.eqb_refl. cbn. rewrite (upd_item_spec _ _ _ _ Hy').
  eexists. split; [done|].
  apply (rep_deleted b _ x e []); try done; cbn.
  - by rewrite !length_insert.
  - apply (seg_relink_first _ x); [done| |by rewrite arr_get_set_ne by lia].
    apply seg_frame; [lia|done|]. by destruct (rep_seg _ _ H) as [_ ?].
  - exists (with_flag 0 it). unfold item_at. cbn. rewrite arr_get_set_ne by lia.
    rewrite arr_get_set_eq by done. by destruct it.
  - intros i Hi Hni. unfold item_at. cbn. rewrite !arr_get_set_ne by (lia || set_solver). done.
Qed.

(** An item with a predecessor: the predecessor is linked to what follows. *)
Lemma delete_not_first b x e q1 q2 it l :
  rep b (q1 ++ (x, e) :: q2) → q1 ≠ [] → item_at b x = Ok it →
  l = <[Z.to_nat x := with_flag 0 it]> (eb_items b) →
  ∃ pit, let p := last_idx EVENT_BUF_INDEX_NIL q1 in
    l.[p] = Ok pit ∧ p ≠ x ∧ 0 ≤ p ∧ p ∈ q1.*1 ∧
    seg (<[Z.to_nat p := with_next (hd_idx q2 EVENT_BUF_INDEX_NIL) pit]> l)
        EVENT_BUF_INDEX_NIL q1 (hd_idx q2 EVENT_BUF_INDEX_NIL) ∧
    seg (<[Z.to_nat p := with_next (hd_idx q2 EVENT_BUF_INDEX_NIL) pit]> l)
        x q2 EVENT_BUF_INDEX_NIL.
Proof.
  intros H Hq1 Hx ->. pose proof (arr_get_bounds _ _ _ Hx) as Hxb.
  destruct (nodup_split _ _ _ _ (rep_nodup _ _ H)) as (Hx1 & Hx2 & Hn1 & Hn2 & Hd & _).
  assert (last_idx EVENT_BUF_INDEX_NIL q1 ∈ q1.*1) as Hin.
  { destruct q1 as [|[y ey] q1]; [done|]. cbn. destruct (last_idx_in y q1); set_solver. }
  assert (last_idx EVENT_BUF_INDEX_NIL q1 ≠ x) by set_solver.
  destruct (rep_item b _ (last_idx EVENT_BUF_INDEX_NIL q1) H) as [pit Hp];
    [rewrite fmap_app; set_solver|].
  pose proof (arr_get_bounds _ _ _ Hp).
  pose proof (rep_seg _ _ H) as [Hs1 [_ Hs2]]%seg_app.
  exists pit. cbn. rewrite arr_get_set_ne by lia. repeat split; try done; [lia| |].
  - eapply seg_relink_left; [done..| |by rewrite arr_get_set_ne by lia].
    apply seg_frame; [lia|done|exact Hs1].
  - apply seg_frame; [lia|set_solver|]. apply seg_frame; [lia|done|done].
Qed.

Lemma head_app_nonempty (q1 q2 : list (Z * entry)) :
  q1 ≠ [] → ∃ y ey q, q1 = (y, ey) :: q ∧ q1 ++ q2 = (y, ey) :: (q ++ q2).
Proof. destruct q1 as [|[y ey] q]; [done|]. intros _. by exists y, ey, q. Qed.

(** The items a deletion in the middle does not touch. *)
Lemma delete_last b x e q1 :
  rep b (q1 ++ [(x, e)]) → q1 ≠ [] →
  ∃ b', delete_item b x = Ok b' ∧ deleted b b' x q1 [].
Proof.
  intros H Hq1. destruct (rep_lookup b q1 x e _ H) as (it & Hx & He & Hf & Hp & Hn).
  pose proof (rep_idx_ok _ _ x H ltac:(rewrite fmap_app; set_solver)) as Hlt.
  rewrite (delete_prefix _ _ _ Hx Hlt (flag_ok_nonzero _ Hf)). cbn zeta.
  edestruct delete_not_first as (pit & Hpit & Hpx & Hp0 & Hpin & Hs1 & _);
    [exact H|done|exact Hx|reflexivity|].
  pose proof (arr_get_bounds _ _ _ Hx) as Hxb.
  destruct (head_app_nonempty q1 [(x, e)] Hq1) as (y & ey & q & Hq & Happ).
  destruct (nodup_split _ _ _ _ (rep_nodup _ _ H)) as (Hx1 & _).
  pose proof (rep_start _ _ H) as Hs. rewrite Happ in Hs.
  pose proof (rep_last _ _ H) as Hl. rewrite last_idx_app in Hl. cbn in Hl, Hn.
  assert (x ≠ y) as Hxy by (rewrite Hq in Hx1; cbn in Hx1; set_solver).
  cbn [eb_start set_items]. rewrite Hs, (proj2 (Z.eqb_neq x y)) by done.
  cbn [negb eb_size set_items]. rewrite Hp.
  rewrite (rep_idx_ok b _ _ H) by (rewrite fmap_app; set_solver). cbn [os_assert mbind outcome_bind].
  rewrite (upd_item_spec _ _ pit) by exact Hpit. cbn [mbind outcome_bind eb_items set_items].
  unfold item_at at 1. cbn [eb_items set_items]. rewrite arr_get_set_ne, arr_get_set_eq by done.
  cbn [eb_last set_items]. cbn [mbind outcome_bind it_next it_prev with_flag eb_last set_items].
  rewrite Hl, Z.eqb_refl, Hn. cbn. eexists. split; [done|].
  cbn in Hs1.
  apply (rep_deleted b _ x e q1 []); try done; rewrite ?app_nil_r; cbn.
  - by rewrite !length_insert.
  - exact Hs1.
  - exists (with_flag 0 it). unfold item_at. cbn.
    rewrite arr_get_set_ne, arr_get_set_eq by done. by destruct it.
  - intros i Hi Hni. unfold item_at. cbn. rewrite !arr_get_set_ne by (lia || set_solver). done.
  - by rewrite Hq.
  - done.
Qed.

Lemma delete_middle b x e q1 z ez q2 :
  rep b (q1 ++ (x, e) :: (z, ez) :: q2) → q1 ≠ [] →
  ∃ b', delete_item b x = Ok b' ∧ deleted b b' x q1 ((z, ez) :: q2).
Proof.
  intros H Hq1. destruct (rep_lookup b q1 x e _ H) as (it & Hx & He & Hf & Hp & Hn).
  pose proof (rep_idx_ok _ _ x H ltac:(rewrite fmap_app; set_solver)) as Hlt.
  rewrite (delete_prefix _ _ _ Hx Hlt (flag_ok_nonzero _ Hf)). cbn zeta.
  edestruct delete_not_first as (pit & Hpit & Hpx & Hp0 & Hpin & Hs1 & Hs2);
    [exact H|done|exact Hx|reflexivity|].
  pose proof (arr_get_bounds _ _ _ Hx) as Hxb.
  destruct (nodup_split _ _ _ _ (rep_nodup _ _ H)) as (Hx1 & Hx2 & _ & Hn2 & Hd & _).
  destruct (rep_item b _ z H) as [zit Hz]; [rewrite fmap_app; set_solver|].
  pose proof (arr_get_bounds _ _ _ Hz) as Hzb.
  destruct (head_app_nonempty q1 ((x, e) :: (z, ez) :: q2) Hq1) as (y & ey & q & Hq & Happ).
  pose proof (rep_start _ _ H) as Hs. rewrite Happ in Hs.
  pose proof (rep_last _ _ H) as Hl. rewrite last_idx_app in Hl. cbn in Hl, Hn.
  assert (z ≠ x) by set_solver. assert (last_idx EVENT_BUF_INDEX_NIL q1 ≠ z) by set_solver.
  assert (x ≠ y) as Hxy by (rewrite Hq in Hx1; cbn in Hx1; set_solver).
  cbn [eb_start set_items]. rewrite Hs, (proj2 (Z.eqb_neq x y)) by done.
  cbn [negb eb_size set_items]. rewrite Hp.
  rewrite (rep_idx_ok b _ _ H) by (rewrite fmap_app; set_solver). cbn [os_assert mbind outcome_bind].
  rewrite (upd_item_spec _ _ pit) by exact Hpit. cbn [mbind outcome_bind eb_items set_items].
  unfold item_at at 1. cbn [eb_items set_items]. rewrite arr_get_set_ne, arr_get_set_eq by done.
  cbn [mbind outcome_bind it_next it_prev with_flag eb_last eb_size set_items].
  rewrite (proj2 (Z.eqb_neq _ _)); cycle 1.
  { rewrite Hl. cbn in Hx2. apply not_elem_of_cons in Hx2 as [_ ?]. by apply last_idx_ne. }
  rewrite Hn, (rep_idx_ok b _ _ H) by (rewrite fmap_app; set_solver). cbn [os_assert mbind outcome_bind].
  rewrite (upd_item_spec _ _ zit); cycle 1.
  { unfold item_at. cbn. by rewrite !arr_get_set_ne by lia. }
  rewrite Hp. eexists. split; [done|]. cbn [hd_idx] in *.
  apply (rep_deleted b _ x e q1 ((z, ez) :: q2)); try done; cbn.
  - by rewrite !length_insert.
  - apply seg_app. split; cbn [hd_idx].
    + apply seg_frame; [lia|set_solver|done].
    + eapply (seg_relink_right _ x ((z, ez) :: q2)); [done|done|exact Hs2|].
      cbn. by rewrite !arr_get_set_ne by lia.
  - exists (with_flag 0 it). unfold item_at. cbn.
    rewrite !arr_get_set_ne, arr_get_set_eq by lia. by destruct it.
  - intros i Hi Hni. rewrite fmap_app in Hni. unfold item_at. cbn.
    rewrite !arr_get_set_ne by (lia || set_solver). done.
  - by rewrite Hq.
  - rewrite last_idx_app. done.
Qed.

(** Deleting a queued item takes it out of the queue and nothing else. *)
Lemma delete_item_spec b x e q1 q2 :
  rep b (q1 ++ (x, e) :: q2) →
  ∃ b', delete_item b x = Ok b' ∧ deleted b b' x q1 q2.
Proof.
  destruct (decide (q1 = [])) as [->|Hq1]; destruct q2 as [|[z ez] q2]; cbn.
  - apply delete_alone.
  - apply delete_first.
  - intros. by eapply delete_last.
  - intros. by eapply delete_middle.
Qed.

(** *** Traversals

    A loop body that acts on one entry at a time acts on the whole queue: [run]
    folds the entry-wise [step] along it. *)

Definition keep_entry (x : Z) (oe : option entry) : list (Z * entry) :=
  match oe with Some e => [(x, e)] | None => [] end.

Section Traverse.
Context {A R : Type}.
Context (body : event_buf → A → Z → outcome (event_buf * A * option R)).
Context (step : A → Z → entry → A * option entry * option R).

Fixpoint run (a : A) (q : list (Z * entry)) : A * list (Z * entry) * option R :=
  match q with
  | [] => (a, [], None)
  | (x, e) :: q =>
      match step a x e with
      | (a, oe, Some r) => (a, keep_entry x oe ++ q, Some r)
      | (a, oe, None) =>
          let '(a, q, r) := run a q in (a, keep_entry x oe ++ q, r)
      end
  end.

(** The body does [step] to the entry it is called on. *)
Definition body_step : Prop := ∀ b q1 x e q2 a,
  rep b (q1 ++ (x, e) :: q2) →
  ∃ b', body b a x = Ok (b', fst (fst (step a x e)), snd (step a x e))
    ∧ rep b' (q1 ++ keep_entry x (snd (fst (step a x e))) ++ q2)
    ∧ eb_size b' = eb_size b
    ∧ ∃ it, item_at b' x = Ok it ∧ it_next it = hd_idx q2 EVENT_BUF_INDEX_NIL.

(** On an unused item the body does nothing. *)
Definition body_idle : Prop := ∀ b a x it,
  item_at b x = Ok it → it_flag it = 0 → body b a x = Ok (b, a, None).

Lemma for_chain_run chk (Hbody : body_step) q2 : ∀ fuel b a q1 x e,
  rep b (q1 ++ (x, e) :: q2) → (length q2 < fuel)%nat →
  ∃ b', for_chain fuel chk body b a x
        = Ok (b', fst (fst (run a ((x, e) :: q2))), snd (run a ((x, e) :: q2)))
    ∧ rep b' (q1 ++ snd (fst (run a ((x, e) :: q2)))) ∧ eb_size b' = eb_size b.
Proof.
  induction q2 as [|[y ey] q2 IH]; intros fuel b a q1 x e H Hf;
    (destruct fuel as [|fuel]; [cbn in Hf; lia|]);
    destruct (Hbody _ _ _ _ _ a H) as (b1 & E1 & H1 & Hsz & it & Hit & Hn);
    cbn [run]; destruct (step a x e) as [[a1 oe] [r|]] eqn:Es;
    cbn [for_chain fst snd] in *; rewrite E1; cbn [mbind outcome_bind].
  - exists b1. by rewrite ?app_nil_r in *.
  - rewrite Hit. cbn. rewrite Hn. cbn. exists b1. by rewrite ?app_nil_r in *.
  - exists b1. done.
  - rewrite Hit. cbn [mbind outcome_bind]. rewrite Hn. cbn [hd_idx].
    rewrite app_assoc in H1.
    assert (0 ≤ y < eb_size b1) as Hy by (apply (rep_bounds _ _ _ H1); rewrite fmap_app; set_solver).
    destruct (rep_size _ _ H1) as [_ Hle].
    rewrite (proj2 (Z.eqb_neq y EVENT_BUF_INDEX_NIL)) by (unfold EVENT_BUF_INDEX_NIL; lia).
    rewrite (proj2 (Z.ltb_lt y (eb_size b1))), orb_true_r by lia. cbn [os_assert mbind outcome_bind].
    destruct (IH fuel b1 a1 _ y ey H1) as (b2 & E2 & H2 & Hsz2); [cbn in Hf; lia|].
    exists b2. rewrite E2.
    change (match step a1 y ey with
            | (a, oe, Some r) => (a, keep_entry y oe ++ q2, Some r)
            | (a, oe, None) => let '(a, q, r) := run a q2 in (a, keep_entry y oe ++ q, r)
            end) with (run a1 ((y, ey) :: q2)).
    destruct (run a1 ((y, ey) :: q2)) as [[a2 q3] r]. cbn in *.
    rewrite app_assoc. split; [done|]. split; [done|congruence].
Qed.
End Traverse.

(** A queue never exceeds the array. *)
Lemma bounded_nodup_length (l : list Z) n :
  NoDup l → (∀ x, x ∈ l → 0 ≤ x < n) → Z.of_nat (length l) ≤ Z.max 0 n.
Proof.
  intros Hnd Hb.
  assert (length l ≤ length (seqZ 0 n))%nat as H.
  { apply submseteq_length, NoDup_submseteq; [done|]. intros x Hx%Hb.
    apply elem_of_seqZ. lia. }
  rewrite length_seqZ in H. lia.
Qed.

Lemma rep_length b q : rep b q → Z.of_nat (length q) ≤ eb_size b.
Proof.
  intros H. pose proof (bounded_nodup_length q.*1 (eb_size b) (rep_nodup _ _ H)
    (λ x, rep_bounds b q x H)) as Hl.
  rewrite length_fmap in Hl. destruct (rep_size _ _ H). lia.
Qed.

Lemma traverse {A R} body step chk b (a : A) q :
  body_step (R := R) body step → (q = [] → body_idle body) → rep b q →
  ∃ b', for_chain (Z.to_nat (eb_size b)) chk body b a (eb_start b)
        = Ok (b', fst (fst (run step a q)), snd (run step a q))
    ∧ rep b' (snd (fst (run step a q))) ∧ eb_size b' = eb_size b.
Proof.
  intros Hb Hi H. pose proof (rep_length _ _ H) as Hl. pose proof (rep_start _ _ H) as Hs.
  destruct q as [|[x e] q].
  - destruct Hs as (it & Hit & Hn). exists b. split; [|done].
    destruct (rep_size _ _ H). destruct (Z.to_nat (eb_size b)) eqn:E; [lia|]. cbn [for_chain].
    rewrite (Hi eq_refl _ _ _ _ Hit). 2: { apply (rep_free _ _ H _ _ Hit). set_solver. }
    cbn [mbind outcome_bind]. rewrite Hit. cbn. by rewrite Hn.
  - rewrite Hs. apply (for_chain_run body step chk Hb q _ b a [] x e H). cbn in Hl. lia.
Qed.

(** *** What each operation does to the queue *)

Definition e_with_flag (f : Z) (e : entry) : entry :=
  Entry (e_event e) (e_prio e) f (e_user e) (e_cnt e).
Definition e_processing (e : entry) : bool := has (e_flag e) EVENT_BUF_FLAG_PROCESSING.
Definition e_retried (e : entry) : bool :=
  has (e_flag e) (Z.lor EVENT_BUF_FLAG_PROCESSING EVENT_BUF_FLAG_ZOMBIE).
Definition e_pending (e : entry) : bool := negb (e_retried e).

(** [done]: entries in communication leave the queue when delivered, and wait
    as zombies otherwise. *)
Definition done_entry (delivered : bool) (e : entry) : option entry :=
  if e_processing e then
    if delivered then None
    else Some (e_with_flag (Z.lor (clr (e_flag e) EVENT_BUF_FLAG_PROCESSING)
                                  EVENT_BUF_FLAG_ZOMBIE) e)
  else Some e.

(** [restore]: entries that were communicated become pending again, with one
    more attempt counted, or are given up at the limit. *)
Definition restore_entry (limit : Z) (e : entry) : option entry :=
  if e_retried e then
    let f := clr (e_flag e) (Z.lor EVENT_BUF_FLAG_PROCESSING EVENT_BUF_FLAG_ZOMBIE) in
    if limit =? EVENT_BUF_UNLIMITED then Some (e_with_flag f e)
    else if limit <=? u8 (e_cnt e + 1) then None
    else Some (Entry (e_event e) (e_prio e) f (e_user e) (u8 (e_cnt e + 1)))
  else Some e.

Lemma run_omap {A R} (g : entry → option entry) (upd : A → entry → A) a q :
  run (R := R) (λ a _ e, (upd a e, g e, None)) a q
  = (foldl upd a q.*2, omap (λ p, pair p.1 <$> g p.2) q, None).
Proof.
  revert a. induction q as [|[x e] q IH]; intros a; [done|].
  cbn. rewrite IH. by destruct (g e).
Qed.

Lemma omap_snd (g : entry → option entry) (q : list (Z * entry)) :
  (omap (λ p, pair p.1 <$> g p.2) q).*2 = omap g q.*2.
Proof. induction q as [|[x e] q IH]; [done|]. cbn. destruct (g e); cbn; by rewrite IH. Qed.

(** A body that updates contents or deletes, the two shapes of every step. *)
Lemma kept_next b q1 x e q2 :
  rep b (q1 ++ (x, e) :: q2) →
  ∃ it, item_at b x = Ok it ∧ it_next it = hd_idx q2 EVENT_BUF_INDEX_NIL.
Proof.
  intros H. destruct (rep_lookup _ _ _ _ _ H) as (it & ? & _ & _ & _ & ?). by exists it.
Qed.

Lemma flag_ok_active it : flag_ok (it_flag it) → item_active it = true.
Proof. unfold item_active. by intros [->|[->|[->| ->]]]. Qed.

Lemma flag_ok_clr_processing f :
  flag_ok f → flag_ok (clr f EVENT_BUF_FLAG_PROCESSING).
Proof. unfold flag_ok. intros [->|[->|[->| ->]]]; vm_compute; tauto. Qed.

Lemma flag_ok_zombie f :
  flag_ok f → flag_ok (Z.lor (clr f EVENT_BUF_FLAG_PROCESSING) EVENT_BUF_FLAG_ZOMBIE).
Proof. unfold flag_ok. intros [->|[->|[->| ->]]]; vm_compute; tauto. Qed.

Lemma flag_ok_restore f :
  flag_ok f →
  flag_ok (clr f (Z.lor EVENT_BUF_FLAG_PROCESSING EVENT_BUF_FLAG_ZOMBIE)).
Proof. unfold flag_ok. intros [->|[->|[->| ->]]]; vm_compute; tauto. Qed.

Lemma flag_ok_mark f : flag_ok f → flag_ok (Z.lor f EVENT_BUF_FLAG_PROCESSING).
Proof. unfold flag_ok. intros [->|[->|[->| ->]]]; vm_compute; tauto. Qed.

#[export] Hint Resolve flag_ok_active flag_ok_clr_processing flag_ok_zombie
  flag_ok_restore flag_ok_mark : fw.

(** Reads the item a traversal stands on. *)
Ltac at_entry H :=
  let it := fresh "it" in let Hx := fresh "Hx" in let Hf := fresh "Hf" in
  destruct (rep_lookup _ _ _ _ _ H) as (it & Hx & <- & Hf & _ & _);
  rewrite Hx; cbn [mbind outcome_bind].

(** Performs the content update at the head of the goal. *)
Ltac do_update H Hx f :=
  let b' := fresh "b" in let E := fresh "E" in let Hx' := fresh "Hx" in
  let Hsz := fresh "Hsz" in let H' := fresh "H" in
  destruct (rep_content _ _ _ _ _ _ f H Hx) as (b' & E & Hx' & Hsz & H');
  [done|done|cbn [it_flag with_flag with_cnt with_event]; auto with fw|];
  rewrite E; cbn [mbind outcome_bind].

Lemma done_body_step delivered :
  body_step (done_body delivered) (λ _ _ e, ((), done_entry delivered e, None)).
Proof.
  intros b q1 x e q2 [] H. unfold done_body, done_entry, e_processing. at_entry H. cbn [e_flag entry_of].
  destruct (has (it_flag it) EVENT_BUF_FLAG_PROCESSING).
  - do_update H Hx (with_flag (clr (it_flag it) EVENT_BUF_FLAG_PROCESSING)).
    rewrite Hx0. cbn [mbind outcome_bind].
    rewrite flag_ok_active by (cbn; auto with fw). destruct delivered.
    + destruct (delete_item_spec _ _ _ _ _ H0) as (b2 & -> & H2 & Hs2 & _ & it2 & ? & _ & ?).
      exists b2. cbn. split; [done|]. split; [done|]. split; [congruence|]. by exists it2.
    + cbn [it_flag with_flag].
      do_update H0 Hx0 (with_flag (Z.lor (clr (it_flag it) EVENT_BUF_FLAG_PROCESSING)
                                     EVENT_BUF_FLAG_ZOMBIE)).
      exists b1. cbn. split; [done|]. split; [done|]. split; [congruence|].
      by eapply kept_next.
  - exists b. cbn. split; [done|]. split; [done|]. split; [done|]. by eapply kept_next.
Qed.

Lemma done_body_idle delivered : body_idle (done_body delivered).
Proof. intros b [] x it Hx Hf. unfold done_body. rewrite Hx. cbn. by rewrite Hf. Qed.

Lemma restore_body_step limit :
  body_step (restore_body limit)
    (λ r _ e, (r && negb (bool_decide (restore_entry limit e = None)), restore_entry limit e, None)).
Proof.
  intros b q1 x e q2 r H. unfold restore_body, restore_entry, e_retried. at_entry H.
  cbn [e_flag e_cnt e_event e_prio e_user entry_of].
  destruct (has (it_flag it) _).
  - do_update H Hx (with_flag (clr (it_flag it) (Z.lor EVENT_BUF_FLAG_PROCESSING EVENT_BUF_FLAG_ZOMBIE))).
    rewrite Hx0. cbn [mbind outcome_bind]. rewrite flag_ok_active by (cbn; auto with fw).
    destruct (limit =? EVENT_BUF_UNLIMITED); cbn [andb negb].
    + exists b0. rewrite bool_decide_eq_false_2, andb_true_r by done. cbn.
      split; [done|]. split; [done|]. split; [done|]. by eapply kept_next.
    + cbn [it_cnt with_flag]. do_update H0 Hx0 (with_cnt (u8 (it_cnt it + 1))).
      destruct (limit <=? u8 (it_cnt it + 1)).
      * destruct (delete_item_spec _ _ _ _ _ H1) as (b2 & -> & H2 & Hs2 & _ & it2 & ? & _ & ?).
        exists b2. rewrite bool_decide_eq_true_2, andb_false_r by done. cbn.
        split; [done|]. split; [done|]. split; [congruence|]. by exists it2.
      * exists b1. rewrite bool_decide_eq_false_2, andb_true_r by done. cbn.
        split; [done|]. split; [done|]. split; [congruence|]. by eapply kept_next.
  - exists b. rewrite bool_decide_eq_false_2, andb_true_r by done. cbn.
    split; [done|]. split; [done|]. split; [done|]. by eapply kept_next.
Qed.

Lemma restore_body_idle limit : body_idle (restore_body limit).
Proof. intros b r x it Hx Hf. unfold restore_body. rewrite Hx. cbn. by rewrite Hf. Qed.

(** [get]: the first pending entry of the wanted user is marked as being
    communicated. *)
Definition e_wanted (user : Z) (e : entry) : bool :=
  e_pending e && ((user =? EVENT_USER_NONE) || (user =? e_user e)).
Definition e_mark (e : entry) : entry :=
  e_with_flag (Z.lor (e_flag e) EVENT_BUF_FLAG_PROCESSING) e.

(** The out-parameters after looking at a pending entry. *)
Definition out_entry (o : get_out) (e : entry) : get_out :=
  GetOut (const (e_event e) <$> go_event o)
         (if go_user o =? EVENT_USER_NONE then e_user e else go_user o)
         (const (e_prio e) <$> go_prio o).

Definition get_step (o : get_out) (_ : Z) (e : entry) : get_out * option entry * option unit :=
  if e_pending e then
    if e_wanted (go_user o) e then (out_entry o e, Some (e_mark e), Some ())
    else (out_entry o e, Some e, None)
  else (o, Some e, None).

Lemma get_body_step : body_step get_body get_step.
Proof.
  intros b q1 x e q2 o H. unfold get_body, get_step, e_wanted, e_pending, e_retried, item_pending.
  at_entry H. rewrite flag_ok_active by done.
  cbn [e_flag e_user entry_of andb]. destruct (has (it_flag it) _); cbn [negb].
  { exists b. cbn. split; [done|]. split; [done|]. split; [done|]. by eapply kept_next. }
  unfold out_entry. cbn [e_flag e_user e_event e_prio entry_of andb].
  destruct (Z.eqb_spec (go_user o) EVENT_USER_NONE) as [Hn|Hn]; cbn [orb].
  - rewrite Z.eqb_refl.
    do_update H Hx (with_flag (Z.lor (it_flag it) EVENT_BUF_FLAG_PROCESSING)).
    exists b0. cbn. split; [done|]. split; [done|]. split; [done|]. by eapply kept_next.
  - destruct (Z.eqb_spec (go_user o) (it_user it)).
    + do_update H Hx (with_flag (Z.lor (it_flag it) EVENT_BUF_FLAG_PROCESSING)).
      exists b0. cbn. split; [done|]. split; [done|]. split; [done|]. by eapply kept_next.
    + exists b. cbn. split; [done|]. split; [done|]. split; [done|]. by eapply kept_next.
Qed.

Lemma flag_zero_inactive it : it_flag it = 0 → item_active it = false.
Proof. unfold item_active. by intros ->. Qed.

Lemma get_body_idle : body_idle get_body.
Proof.
  intros b o x it Hx Hf. unfold get_body, item_pending. rewrite Hx. cbn [mbind outcome_bind].
  by rewrite flag_zero_inactive.
Qed.

(** [event_buf_empty]: no entry is pending. *)
Definition empty_step (u : unit) (_ : Z) (e : entry) : unit * option entry * option unit :=
  ((), Some e, if e_pending e then Some () else None).

Lemma empty_body_step : body_step empty_body empty_step.
Proof.
  intros b q1 x e q2 [] H. unfold empty_body, empty_step, e_pending, e_retried, item_pending.
  at_entry H. rewrite flag_ok_active by done. exists b.
  cbn. split; [done|]. split; [done|]. split; [done|]. by eapply kept_next.
Qed.

Lemma empty_body_idle : body_idle empty_body.
Proof.
  intros b [] x it Hx Hf. unfold empty_body, item_pending. rewrite Hx. cbn [mbind outcome_bind].
  by rewrite flag_zero_inactive.
Qed.

(** [for_each]: the callback sees every entry once, may rewrite its event, and
    drops the entry by returning false. *)
Definition each_entry (pfunc : event_t → bool * event_t) (e : entry) : option entry :=
  let '(keep, ev) := pfunc (e_event e) in
  if keep then Some (Entry ev (e_prio e) (e_flag e) (e_user e) (e_cnt e)) else None.

Lemma flag_ok_used f : flag_ok f → has f EVENT_BUF_FLAG_USED = true.
Proof. by intros [->|[->|[->| ->]]]. Qed.

Lemma each_body_step pfunc :
  body_step (each_body pfunc) (λ _ _ e, ((), each_entry pfunc e, None)).
Proof.
  intros b q1 x e q2 [] H. unfold each_body, each_entry. at_entry H.
  rewrite flag_ok_used by done. cbn [e_event entry_of].
  destruct (pfunc (it_event it)) as [keep ev]. do_update H Hx (with_event ev).
  destruct keep; cbn [mbind outcome_bind].
  - exists b0. cbn. split; [done|]. split; [done|]. split; [done|]. by eapply kept_next.
  - destruct (delete_item_spec _ _ _ _ _ H0) as (b2 & -> & H2 & Hs2 & _ & it2 & ? & _ & ?).
    exists b2. cbn. split; [done|]. split; [done|]. split; [congruence|]. by exists it2.
Qed.

Lemma each_body_idle pfunc : body_idle (each_body pfunc).
Proof. intros b [] x it Hx Hf. unfold each_body. rewrite Hx. cbn. by rewrite Hf. Qed.

(** *** Replacement: the two searches of [_buf_replace_prio] *)

(** The lowest priority found, starting from [EVENT_PRIO_HI]. *)
Definition lowest (q : list entry) : Z :=
  foldl (λ m e, if e_prio e <? m then e_prio e else m) (event_prio_code EVENT_PRIO_HI) q.

(** The entry given up for a new event of priority [prio]: by position. *)
Definition victim (q : list entry) (prio : Z) : option nat :=
  if prio <? lowest q then None
  else if lowest q =? prio then Some 0%nat
  else fst <$> list_find (λ e, e_prio e = lowest q) q.

Lemma lowest_prio_step :
  body_step (R := Z) lowest_prio_body
    (λ m _ e, (if e_prio e <? m then e_prio e else m, Some e, None)).
Proof.
  intros b q1 x e q2 m H. unfold lowest_prio_body. at_entry H.
  rewrite (proj2 (Z.eqb_neq _ _) (flag_ok_nonzero _ Hf)). exists b.
  cbn. split; [done|]. split; [done|]. split; [done|]. by eapply kept_next.
Qed.

Lemma first_of_prio_step p :
  body_step (first_of_prio_body p)
    (λ _ x e, ((), Some e, if e_prio e =? p then Some x else None)).
Proof.
  intros b q1 x e q2 [] H. unfold first_of_prio_body. at_entry H. exists b.
  cbn. split; [done|]. split; [done|]. split; [done|]. by eapply kept_next.
Qed.

Lemma run_first_of_prio p q :
  run (λ (_ : unit) x e, ((), Some e, if e_prio e =? p then Some x else None)) () q
  = ((), q, (λ ie, default 0 (q.*1 !! ie.1)) <$> list_find (λ e, e_prio e = p) q.*2).
Proof.
  induction q as [|[x e] q IH]; [done|]. cbn [run fmap list_fmap list_find fst snd].
  destruct (Z.eqb_spec (e_prio e) p) as [Hp|Hp].
  - rewrite decide_True by done. done.
  - rewrite decide_False by done. rewrite IH. cbn.
    destruct (list_find (λ e, e_prio e = p) q.*2) as [[i e']|]; done.
Qed.

Lemma list_find_lookup_fst (q : list (Z * entry)) P `{∀ e, Decision (P e)} i e :
  list_find P q.*2 = Some (i, e) → ∃ x, q !! i = Some (x, e).
Proof.
  intros (Hi & _)%list_find_Some. apply list_lookup_fmap_Some in Hi as ([x e'] & -> & ?).
  by exists x.
Qed.

Lemma buf_replace_prio_spec b q prio :
  rep b q → q ≠ [] →
  buf_replace_prio b prio
  = Ok (match victim q.*2 prio with
        | None => EVENT_BUF_INDEX_NIL
        | Some i => default 0 (q.*1 !! i)
        end).
Proof.
  intros H Hq. unfold buf_replace_prio, victim.
  destruct (traverse (R := Z) _ _ false b (event_prio_code EVENT_PRIO_HI) q lowest_prio_step
    ltac:(done) H) as (b1 & -> & _ & _).
  rewrite (run_omap Some (λ m e, if e_prio e <? m then e_prio e else m)).
  cbn [fst snd mbind outcome_bind].
  change (foldl (λ m e, if e_prio e <? m then e_prio e else m) EVENT_PRIO_HI q.*2) with (lowest q.*2).
  destruct (prio <? lowest q.*2); [done|].
  destruct (lowest q.*2 =? prio).
  - destruct q as [|[x e] q]; [done|]. cbn. by rewrite (rep_start _ _ H).
  - destruct (traverse _ _ false b () q (first_of_prio_step (lowest q.*2)) ltac:(done) H)
      as (b2 & -> & _ & _).
    rewrite run_first_of_prio. cbn [fst snd mbind outcome_bind].
    by destruct (list_find (λ e, e_prio e = lowest q.*2) q.*2) as [[i e]|].
Qed.

(** *** Free slots *)

(** The index the search looks at after index [t]. *)
Definition next_test (size t : Z) : Z :=
  let t := u8 (t + 1) in if size <=? t then 0 else t.

Lemma next_test_range size t : 0 < size → 0 ≤ next_test size t < size.
Proof.
  intros. unfold next_test. pose proof (u8_range (t + 1)) as [? _].
  destruct (Z.leb_spec size (u8 (t + 1))); lia.
Qed.

(** After [k] steps the search has passed every index once [k] reaches the size. *)
Lemma next_test_covers size t i :
  0 < size ≤ 255 → 0 ≤ t < 256 → 0 ≤ i < size →
  ∃ k, (k < Z.to_nat size)%nat ∧ Nat.iter (S k) (next_test size) t = i.
Proof.
  intros Hs Ht Hi.
  assert (∀ k, (Z.of_nat k < size) → Nat.iter (S k) (next_test size) (size - 1) = Z.of_nat k) as Hwalk.
  { induction k as [|k IH]; intros Hk.
    - cbn. unfold next_test, u8. rewrite Z.mod_small by lia.
      by rewrite (proj2 (Z.leb_le _ _)) by lia.
    - rewrite Nat.iter_succ, IH by lia. unfold next_test, u8. rewrite Z.mod_small by lia.
      rewrite (proj2 (Z.leb_gt _ _)) by lia. lia. }
  destruct (decide (t < size - 1)) as [Hlt|Hge].
  - assert (∀ k, t + Z.of_nat k < size - 1 →
      Nat.iter (S k) (next_test size) t = t + Z.of_nat k + 1) as Hup.
    { induction k as [|k IH]; intros Hk.
      - cbn. unfold next_test, u8. rewrite Z.mod_small by lia.
        rewrite (proj2 (Z.leb_gt _ _)) by lia. lia.
      - rewrite Nat.iter_succ, IH by lia. unfold next_test, u8. rewrite Z.mod_small by lia.
        rewrite (proj2 (Z.leb_gt _ _)) by lia. lia. }
    destruct (decide (t < i)).
    + exists (Z.to_nat (i - t - 1)). split; [lia|]. rewrite Hup by lia. lia.
    + exists (Z.to_nat (size - 1 - t + i)). split; [lia|].
      replace (S (Z.to_nat (size - 1 - t + i)))
        with (S (Z.to_nat i) + S (Z.to_nat (size - 2 - t)))%nat by lia.
      rewrite Nat.iter_add, Hup by lia.
      replace (t + Z.of_nat (Z.to_nat (size - 2 - t)) + 1) with (size - 1) by lia.
      rewrite Hwalk; lia.
  - exists (Z.to_nat i). split; [lia|].
    assert (next_test size t = next_test size (size - 1)) as Heq.
    { unfold next_test, u8. rewrite (Z.mod_small (size - 1 + 1)) by lia.
      rewrite (proj2 (Z.leb_le size (size - 1 + 1))) by lia.
      destruct (decide (t = 255)) as [->|]; [|by rewrite Z.mod_small, (proj2 (Z.leb_le _ _)) by lia].
      change ((255 + 1) mod 256) with 0. by destruct (size <=? 0). }
    rewrite Nat.iter_succ_r, Heq, <- Nat.iter_succ_r. rewrite Hwalk; lia.
Qed.

Lemma set_test_same b t t' : set_test (set_test b t) t' = set_test b t'.
Proof. done. Qed.

(** The search ends on the first free item it meets, or has met none. *)
Lemma find_free_loop_spec n : ∀ b,
  Z.of_nat (length (eb_items b)) = eb_size b → 0 < eb_size b → 0 ≤ eb_test b < 256 →
  eb_size b ≤ 255 →
  ∃ w t, find_free_loop n b = Ok (w, set_test b t) ∧ 0 ≤ t < 256 ∧
    ((w < eb_size b ∧ 0 ≤ w ∧ ∃ it, item_at b w = Ok it ∧ it_flag it = 0) ∨
     (w = EVENT_BUF_INDEX_NIL ∧
      ∀ k, (k < n)%nat → ∃ it,
        item_at b (Nat.iter (S k) (next_test (eb_size b)) (eb_test b)) = Ok it ∧ it_flag it ≠ 0)).
Proof.
  induction n as [|n IH]; intros b Hl Hs Ht Hle; cbn [find_free_loop].
  { exists EVENT_BUF_INDEX_NIL, (eb_test b). split; [by destruct b|]. split; [done|].
    right. split; [done|]. lia. }
  change (if eb_size b <=? u8 (eb_test b + 1) then 0 else u8 (eb_test b + 1))
    with (next_test (eb_size b) (eb_test b)).
  pose proof (next_test_range (eb_size b) (eb_test b) Hs) as Hr.
  destruct (arr_get_is_Ok (eb_items b) (next_test (eb_size b) (eb_test b))) as [it Hit]; [lia|].
  unfold item_at. cbn [eb_items set_test]. rewrite Hit. cbn [mbind outcome_bind].
  destruct (Z.eqb_spec (it_flag it) 0) as [Hz|Hz].
  - eexists _, _. split; [done|]. split; [lia|]. left. split; [lia|]. split; [lia|]. by exists it.
  - destruct (IH (set_test b (next_test (eb_size b) (eb_test b)))) as (w & t & E & Ht' & Hw);
      [done|done|cbn; lia|done|].
    exists w, t. rewrite E. split; [done|]. split; [done|]. destruct Hw as [Hw|[Hw Hall]]; [by left|].
    right. split; [done|]. intros [|k] Hk; [by exists it|].
    destruct (Hall k) as (it' & ? & ?); [lia|]. exists it'. split; [|done].
    rewrite Nat.iter_succ_r. done.
Qed.

Lemma rep_set_test b q t : 0 ≤ t < 256 → rep b q → rep (set_test b t) q.
Proof. intros Ht []. by constructor. Qed.

(** [_buf_find_free] finds a free item exactly when the buffer is not full. *)
Lemma buf_find_free_spec b q :
  rep b q →
  ∃ w t, buf_find_free b = Ok (w, set_test b t) ∧ rep (set_test b t) q ∧
    if bool_decide (Z.of_nat (length q) < eb_size b)
    then 0 ≤ w < eb_size b ∧ w ∉ q.*1
    else w = EVENT_BUF_INDEX_NIL.
Proof.
  intros H. destruct (rep_size _ _ H).
  destruct (find_free_loop_spec (Z.to_nat (eb_size b)) b) as (w & t & E & Ht & Hw);
    [by apply H|done|by apply H|done|].
  exists w, t. split; [done|]. split; [by apply rep_set_test|].
  assert (∀ x, x ∈ q.*1 → ∀ it, item_at b x = Ok it → it_flag it ≠ 0) as Hused.
  { intros x Hx it Hit. apply list_elem_of_fmap in Hx as ([x' e] & -> & Hx).
    apply list_elem_of_split in Hx as (q1 & q2 & ->).
    destruct (rep_lookup _ _ _ _ _ H) as (it' & Hit' & _ & Hf & _).
    cbn in Hit. rewrite Hit' in Hit. injection Hit as <-. by apply flag_ok_nonzero. }
  case_bool_decide as Hlen.
  - destruct Hw as [(? & ? & it & Hit & Hz)|[-> Hall]].
    { split; [lia|]. intros Hin. by eapply Hused. }
    exfalso. assert (eb_size b ≤ Z.of_nat (length q)); [|lia].
    transitivity (Z.of_nat (length (seqZ 0 (eb_size b)))); [rewrite length_seqZ; lia|].
    rewrite <- (length_fmap fst q). apply inj_le, submseteq_length, NoDup_submseteq;
      [apply NoDup_seqZ|].
    intros i Hi%elem_of_seqZ. destruct (decide (i ∈ q.*1)) as [|Hni]; [done|].
    destruct (next_test_covers (eb_size b) (eb_test b) i) as (k & Hk & Hit); [lia|apply H|lia|].
    destruct (Hall k Hk) as (it & Hget & Hz). rewrite Hit in Hget.
    by pose proof (rep_free _ _ H _ _ Hget Hni).
  - destruct Hw as [(? & ? & it & Hit & Hz)|[-> _]]; [|done].
    exfalso. assert (w ∉ q.*1) as Hni by (intros Hin; by eapply Hused).
    assert (NoDup (w :: q.*1)) as Hnd by (constructor; [done|apply H]).
    apply (bounded_nodup_length _ (eb_size b)) in Hnd.
    + cbn in Hnd. rewrite length_fmap in Hnd. lia.
    + intros x [->|Hx]%elem_of_cons; [lia|]. by apply (rep_bounds b q).
Qed.

(** *** Appending *)

Definition new_entry (e : event_t) (prio user : Z) : entry :=
  Entry e (prio mod 16) (Z.lor EVENT_BUF_FLAG_USED EVENT_BUF_FLAG_ACTIVE) (u16 user) 0.

Lemma last_idx_nil q b : rep b q → (eb_last b =? EVENT_BUF_INDEX_NIL) = bool_decide (q = []).
Proof.
  intros H. rewrite (rep_last _ _ H). destruct q as [|[x e] q]; [done|].
  rewrite bool_decide_eq_false_2 by done. apply Z.eqb_neq.
  assert (last_idx x q ∈ ((x, e) :: q).*1) as Hin by (cbn; destruct (last_idx_in x q); set_solver).
  pose proof (rep_bounds _ _ _ H Hin). destruct (rep_size _ _ H).
  unfold EVENT_BUF_INDEX_NIL. cbn. lia.
Qed.

(** The array after the stores of an append, described as for deletion. *)
Lemma rep_appended b b' q w e :
  rep b q → 0 ≤ w < eb_size b → w ∉ q.*1 → flag_ok (e_flag e) →
  eb_size b' = eb_size b → eb_test b' = eb_test b →
  length (eb_items b') = length (eb_items b) →
  eb_start b' = eb_start b → (q = [] → eb_start b = w) → eb_last b' = w →
  seg (eb_items b') EVENT_BUF_INDEX_NIL (q ++ [(w, e)]) EVENT_BUF_INDEX_NIL →
  (∀ i, i ≠ w → i ∉ q.*1 → item_at b' i = item_at b i) →
  rep b' (q ++ [(w, e)]).
Proof.
  intros H Hw Hni Hf Hsz Ht Hlen Hst Hst0 Hl Hseg Hoth.
  constructor; try rewrite Hsz; try rewrite Hlen; try rewrite Ht; try (by destruct H); try done.
  - rewrite fmap_app. apply NoDup_app. split; [apply H|]. split; [set_solver|].
    apply NoDup_singleton.
  - rewrite fmap_app. apply Forall_app. split; [apply H|]. cbn. by apply Forall_singleton.
  - intros i it Hi Hni'. rewrite fmap_app in Hni'. cbn in Hni'.
    rewrite Hoth in Hi by set_solver. apply (rep_free _ _ H _ _ Hi). set_solver.
  - pose proof (rep_start _ _ H) as Hs. destruct q as [|[x ex] q]; cbn; [|congruence].
    rewrite Hst. by apply Hst0.
  - by rewrite Hl, last_idx_app.
Qed.

(** The end of an append: the stores into the new item itself. *)
Lemma append_tail b w it :
  0 ≤ w < Z.of_nat (length (eb_items b)) → item_at b w = Ok it →
  eb_last b ≠ w → it_next it ≠ w →
  (b' ← upd_item b w (with_prev (eb_last b));
   let b' := set_last b' w in
   it ← item_at b' w;
   _ ← os_assert (negb (it_prev it =? w));
   _ ← os_assert (negb (it_next it =? w));
   Ok b')
  = Ok (set_last (set_items b (<[Z.to_nat w := with_prev (eb_last b) it]> (eb_items b))) w).
Proof.
  intros Hw Hit Hl Hn. rewrite (upd_item_spec _ w it) by done. cbn [mbind outcome_bind].
  unfold item_at. cbn [eb_items set_last set_items]. rewrite arr_get_set_eq by done.
  cbn [mbind outcome_bind it_prev it_next with_prev].
  rewrite (proj2 (Z.eqb_neq (eb_last b) w) Hl), (proj2 (Z.eqb_neq (it_next it) w) Hn). done.
Qed.

Lemma append_empty b w e prio user :
  rep b [] → 0 ≤ w < eb_size b → eb_start b = w →
  ∃ b', append_item b w (new_item e prio user) = Ok b' ∧ eb_size b' = eb_size b ∧
        rep b' [(w, new_entry e prio user)].
Proof.
  intros H Hw Hst. destruct (rep_size _ _ H) as [_ Hle]. pose proof (rep_len _ _ H) as Hlen.
  pose proof (rep_last _ _ H) as Hl. cbn in Hl.
  unfold append_item. rewrite arr_set_Ok by lia. cbn [mbind outcome_bind eb_last set_items].
  rewrite Hl, Z.eqb_refl. cbn [negb mbind outcome_bind].
  rewrite (append_tail _ w (new_item e prio user)); cbn -[item_at];
    [|rewrite length_insert; lia|apply item_at_set_eq; lia
    |rewrite Hl; unfold EVENT_BUF_INDEX_NIL; lia|unfold EVENT_BUF_INDEX_NIL; lia].
  rewrite Hl.
  eexists. split; [done|]. split; [done|].
  apply (rep_appended b _ [] w); try done; cbn.
  - set_solver.
  - by left.
  - by rewrite !length_insert.
  - split; [|done]. eexists. rewrite arr_get_set_eq by (rewrite length_insert; lia). done.
  - intros i Hi _. unfold item_at. cbn. by rewrite !arr_get_set_ne by lia.
Qed.

(** In a non-empty buffer the last item exists and differs from a free one. *)
Lemma rep_last_item b q w :
  rep b q → q ≠ [] → w ∉ q.*1 →
  ∃ pit, item_at b (eb_last b) = Ok pit ∧ eb_last b ∈ q.*1 ∧ eb_last b ≠ w
         ∧ 0 ≤ eb_last b < eb_size b ∧ (eb_last b =? EVENT_BUF_INDEX_NIL) = false.
Proof.
  intros H Hq Hni. pose proof (last_idx_nil _ _ H) as Hnil.
  rewrite bool_decide_eq_false_2 in Hnil by done.
  assert (eb_last b ∈ q.*1) as Hin.
  { destruct (last_idx_in EVENT_BUF_INDEX_NIL q) as [E|E]; rewrite <- (rep_last _ _ H) in E;
      [|done]. by apply Z.eqb_neq in Hnil. }
  destruct (rep_item _ _ _ H Hin) as [pit Hpit]. exists pit.
  split; [done|]. split; [done|]. split; [set_solver|]. split; [|done]. by apply (rep_bounds b q).
Qed.

Lemma append_nonempty b q w e prio user :
  rep b q → q ≠ [] → 0 ≤ w < eb_size b → w ∉ q.*1 →
  ∃ b', append_item b w (new_item e prio user) = Ok b' ∧ eb_size b' = eb_size b ∧
        rep b' (q ++ [(w, new_entry e prio user)]).
Proof.
  intros H Hq Hw Hni. destruct (rep_size _ _ H) as [_ Hle]. pose proof (rep_len _ _ H) as Hlen.
  destruct (rep_last_item _ _ _ H Hq Hni) as (pit & Hpit & Hin & Hlw & Hlb & Hnil).
  unfold append_item. rewrite arr_set_Ok by lia. cbn [mbind outcome_bind eb_last set_items].
  rewrite Hnil. cbn [negb]. rewrite (upd_item_spec _ _ pit); cycle 1.
  { unfold item_at. cbn. by rewrite arr_get_set_ne by lia. }
  cbn [mbind outcome_bind]. rewrite (append_tail _ w (new_item e prio user)); cbn -[item_at];
    [|rewrite !length_insert; lia| |done|unfold EVENT_BUF_INDEX_NIL; lia].
  2: { unfold item_at. cbn. rewrite arr_get_set_ne by lia. apply arr_get_set_eq. lia. }
  eexists. split; [done|]. split; [done|].
  apply (rep_appended b _ q w); try done; cbn.
  - by left.
  - by rewrite !length_insert.
  - apply seg_app. cbn [hd_idx]. split.
    + apply seg_frame; [lia|done|]. rewrite (rep_last _ _ H).
      eapply seg_relink_left; [done|apply H| |].
      * apply seg_frame; [lia|done|apply H].
      * rewrite <- (rep_last _ _ H). by rewrite arr_get_set_ne by lia.
    + split; [|done]. eexists. rewrite arr_get_set_eq by (rewrite !length_insert; lia).
      split; [done|]. split; [done|]. split; [|done]. cbn. apply (rep_last _ _ H).
  - intros i Hi Hiq. unfold item_at. cbn. rewrite !arr_get_set_ne by (lia || set_solver). done.
Qed.

Lemma append_item_spec b q w e prio user :
  rep b q → 0 ≤ w < eb_size b → w ∉ q.*1 → (q = [] → eb_start b = w) →
  ∃ b', append_item b w (new_item e prio user) = Ok b' ∧ eb_size b' = eb_size b ∧
        rep b' (q ++ [(w, new_entry e prio user)]).
Proof.
  intros H Hw Hni Hst. destruct (decide (q = [])) as [->|Hq].
  - apply append_empty; auto.
  - by apply append_nonempty.
Qed.

(** *** The choice of the slot *)

Definition queue_after (b : event_buf) (q : list (Z * entry)) (prio : Z)
    : option (list (Z * entry)) :=
  if bool_decide (Z.of_nat (length q) < eb_size b) then Some q
  else (λ i, delete i q) <$> victim q.*2 prio.

Lemma victim_lt q prio i : q ≠ [] → victim q prio = Some i → (i < length q)%nat.
Proof.
  unfold victim. intros Hq. destruct (prio <? lowest q); [done|].
  destruct (lowest q =? prio).
  - intros [= <-]. destruct q; [done|]. cbn. lia.
  - destruct (list_find _ q) as [[j e]|] eqn:E; [|done]. intros [= <-].
    apply list_find_Some in E as (?%lookup_lt_Some & _). done.
Qed.

Lemma choose_slot_spec b q prio :
  rep b q →
  ∃ b1, eb_size b1 = eb_size b ∧
  match queue_after b q prio with
  | None => choose_slot b prio = Ok (None, b1) ∧ rep b1 q
  | Some q' => ∃ w, choose_slot b prio = Ok (Some w, b1) ∧ rep b1 q' ∧
                 0 ≤ w < eb_size b ∧ w ∉ q'.*1 ∧ (q' = [] → eb_start b1 = w)
  end.
Proof.
  intros H. destruct (rep_size _ _ H) as [Hpos Hle]. unfold choose_slot, queue_after.
  rewrite (last_idx_nil _ _ H). destruct (decide (q = [])) as [->|Hq].
  { rewrite !bool_decide_eq_true_2 by (cbn; lia || done).
    destruct (rep_start _ _ H) as (it & Hit & _). apply arr_get_bounds in Hit.
    rewrite (rep_len _ _ H) in Hit. exists b. split; [done|]. exists (eb_start b).
    rewrite (proj2 (Z.eqb_neq (eb_start b) EVENT_BUF_INDEX_NIL))
      by (unfold EVENT_BUF_INDEX_NIL; lia).
    cbn. split; [done|]. split; [done|]. split; [done|]. set_solver. }
  rewrite (bool_decide_eq_false_2 (q = [])) by done.
  destruct (buf_find_free_spec b q H) as (w & t & -> & H1 & Hw). cbn [mbind outcome_bind].
  case_bool_decide as Hfull.
  { destruct Hw as [Hw Hni]. exists (set_test b t). split; [done|]. exists w.
    rewrite (proj2 (Z.eqb_neq w EVENT_BUF_INDEX_NIL)) by (unfold EVENT_BUF_INDEX_NIL; lia).
    cbn. done. }
  rewrite Hw, Z.eqb_refl. cbn [negb]. rewrite (buf_replace_prio_spec _ q) by done.
  cbn [mbind outcome_bind].
  destruct (victim q.*2 prio) as [i|] eqn:Ev; cbn [fmap option_fmap option_map].
  2: { rewrite Z.eqb_refl. cbn. by exists (set_test b t). }
  apply victim_lt in Ev; [|by destruct q]. rewrite length_fmap in Ev.
  destruct (lookup_lt_is_Some_2 q i Ev) as [[x e] Hx].
  rewrite list_lookup_fmap, Hx. cbn [fmap option_fmap option_map fst default].
  change (id x) with x. pose proof (take_drop_middle _ _ _ Hx) as Hsplit.
  assert (x ∈ q.*1) as Hxq by (rewrite <- Hsplit, fmap_app; set_solver).
  pose proof (rep_bounds _ _ _ H Hxq) as Hxb.
  rewrite (proj2 (Z.eqb_neq x EVENT_BUF_INDEX_NIL)) by (unfold EVENT_BUF_INDEX_NIL; lia).
  cbn [negb]. rewrite <- Hsplit in H1.
  destruct (delete_item_spec _ _ _ _ _ H1) as (b2 & -> & H2 & Hs2 & _).
  cbn [mbind outcome_bind]. rewrite <- delete_take_drop in H2. exists b2. split; [done|].
  exists x. split; [done|]. split; [done|]. split; [done|]. split.
  - rewrite delete_take_drop.
    destruct (nodup_split _ _ _ _ (rep_nodup _ _ H1)) as (? & ? & _).
    rewrite fmap_app. set_solver.
  - intros Hd. pose proof (length_delete q i ltac:(eauto)) as Hld. rewrite Hd in Hld. cbn in Hld.
    rewrite Hd in H2. destruct (rep_start _ _ H2) as (it & Hit & _).
    apply arr_get_bounds in Hit. rewrite (rep_len _ _ H2), Hs2 in Hit. cbn in Hit. lia.
Qed.

Lemma list_fmap_delete_snd (q : list (Z * entry)) i : (delete i q).*2 = delete i q.*2.
Proof. rewrite !delete_take_drop, fmap_app, fmap_take, fmap_drop. done. Qed.

(** Both out-parameters and queue after [event_buf_get_event]. *)
Lemma run_get q : ∀ o,
  match list_find (λ e, e_wanted (go_user o) e = true) q.*2 with
  | Some (i, e) =>
      snd (run get_step o q) = Some () ∧
      (snd (fst (run get_step o q))).*2 = <[i := e_mark e]> q.*2 ∧
      fst (fst (run get_step o q))
      = GetOut (const (e_event e) <$> go_event o) (e_user e) (const (e_prio e) <$> go_prio o)
  | None =>
      snd (run get_step o q) = None ∧
      (snd (fst (run get_step o q))).*2 = q.*2 ∧
      go_user (fst (fst (run get_step o q))) = go_user o
  end.
Proof.
  induction q as [|[x e] q IH]; intros o; [done|].
  cbn [run fmap list_fmap list_find fst snd].
  destruct (e_pending e) eqn:Hp.
  - destruct (e_wanted (go_user o) e) eqn:Hw.
    + assert (get_step o x e = (out_entry o e, Some (e_mark e), Some ())) as ->
        by (unfold get_step; by rewrite Hp, Hw).
      rewrite decide_True by done. cbn. split; [done|]. split; [done|].
      unfold out_entry. f_equal. unfold e_wanted in Hw. rewrite Hp in Hw. cbn in Hw.
      destruct (Z.eqb_spec (go_user o) EVENT_USER_NONE); [done|]. by apply Z.eqb_eq in Hw.
    + assert (get_step o x e = (out_entry o e, Some e, None)) as ->
        by (unfold get_step; by rewrite Hp, Hw).
      rewrite decide_False by done.
      assert (go_user (out_entry o e) = go_user o) as Hu.
      { unfold e_wanted in Hw. rewrite Hp in Hw. cbn in *. by destruct (_ =? EVENT_USER_NONE). }
      specialize (IH (out_entry o e)). rewrite Hu in IH.
      destruct (run get_step (out_entry o e) q) as [[o' q'] r]. cbn in *.
      destruct (list_find _ q.*2) as [[i e']|]; cbn.
      * destruct IH as (H1 & H2 & ->). split; [exact H1|].
        split; [exact (f_equal (cons e) H2)|]. by destruct o as [[] ? []].
      * destruct IH as (H1 & H2 & H3). split; [exact H1|].
        split; [exact (f_equal (cons e) H2)|exact H3].
  - assert (get_step o x e = (o, Some e, None)) as -> by (unfold get_step; by rewrite Hp).
    rewrite decide_False by (unfold e_wanted; by rewrite Hp).
    specialize (IH o). destruct (run get_step o q) as [[o' q'] r]. cbn in *.
    destruct (list_find _ q.*2) as [[i e']|]; cbn.
    + destruct IH as (H1 & H2 & H3). split; [exact H1|].
      split; [exact (f_equal (cons e) H2)|exact H3].
    + destruct IH as (H1 & H2 & H3). split; [exact H1|].
      split; [exact (f_equal (cons e) H2)|exact H3].
Qed.

(** *** Initialisation *)

Lemma init_loop_spec n : ∀ i items,
  0 ≤ i → i + Z.of_nat n ≤ Z.of_nat (length items) →
  ∃ l, init_loop n i items = Ok l ∧ length l = length items ∧
    (∀ j, 0 ≤ j < i → l.[j] = items.[j]) ∧
    (∀ j, i ≤ j < i + Z.of_nat n → ∃ it, l.[j] = Ok it ∧ it_flag it = 0
        ∧ it_next it = EVENT_BUF_INDEX_NIL).
Proof.
  induction n as [|n IH]; intros i items Hi Hn; cbn [init_loop].
  { exists items. split; [done|]. split; [done|]. split; [done|]. lia. }
  destruct (arr_get_is_Ok items i) as [it Hit]; [lia|]. rewrite Hit. cbn [mbind outcome_bind].
  rewrite arr_set_Ok by lia. cbn [mbind outcome_bind].
  edestruct (IH (i + 1)) as (l & -> & Hl & Hlo & Hhi); [lia|rewrite length_insert; lia|].
  exists l. split; [done|]. split; [by rewrite Hl, length_insert|]. split.
  - intros j Hj. rewrite Hlo by lia. by rewrite arr_get_set_ne by lia.
  - intros j Hj. destruct (decide (j = i)) as [->|]; [|apply Hhi; lia].
    rewrite Hlo by lia. rewrite arr_get_set_eq by lia. by eexists.
Qed.

(** ** Main theorems

    Capacity and queue contents are all a client sees; [spec_add] is the
    abstract insertion. *)

Definition spec_add (n : Z) (q : list entry) (e : event_t) (prio user : Z)
    : option (list entry) :=
  if user =? EVENT_USER_NONE then None
  else if bool_decide (Z.of_nat (length q) < n) then Some (q ++ [new_entry e prio user])
  else (λ i, delete i q ++ [new_entry e prio user]) <$> victim q prio.

Lemma event_buf_init_spec items size :
  0 < size ≤ 255 → Z.of_nat (length items) = size →
  ∃ b, event_buf_init items size = Ok b ∧ holds b size [].
Proof.
  intros Hs Hl. unfold event_buf_init.
  destruct (init_loop_spec (Z.to_nat size) 0 items) as (l & -> & Hlen & _ & Hall); [lia..|].
  cbn. eexists. split; [done|]. split; [done|]. exists []. split; [|done].
  constructor; cbn; try done; try lia; try constructor.
  - intros i it Hi _. pose proof (arr_get_bounds _ _ _ Hi) as Hb. cbn in Hb.
    destruct (Hall i) as (it' & Hi' & Hf & _); [lia|]. unfold item_at in Hi. cbn in Hi.
    rewrite Hi' in Hi. by injection Hi as <-.
  - destruct (Hall 0) as (it & Hi & _ & Hn); [lia|]. by exists it.
Qed.

(** [event_buf_init] over an array of at least [size] items, with
    [0 < size <= 255], runs without a fault and yields a well-formed buffer of
    that capacity holding the empty queue. *)
Theorem event_buf_init_holds items size :
  0 < size ≤ 255 → Z.of_nat (length items) = size →
  ∃ b, event_buf_init items size = Ok b ∧ holds b size [].
Proof. apply event_buf_init_spec. Qed.

Lemma event_buf_add_event_spec b n q e prio user :
  holds b n q →
  ∃ ok b', event_buf_add_event b (Some e) prio user = Ok (ok, b') ∧
    match spec_add n q e prio user with
    | Some q' => ok = true ∧ holds b' n q'
    | None => ok = false ∧ holds b' n q
    end.
Proof.
  intros (<- & ql & H & <-). unfold event_buf_add_event, spec_add.
  destruct (user =? EVENT_USER_NONE); [exists false, b; split; [done|]; split; [done|]; by split; eauto|].
  destruct (choose_slot_spec b ql prio H) as (b1 & Hs1 & Hc). unfold queue_after in Hc.
  rewrite length_fmap.
  assert (∀ q' : list (Z * entry), (∃ w, choose_slot b prio = Ok (Some w, b1) ∧ rep b1 q' ∧
      0 ≤ w < eb_size b ∧ w ∉ q'.*1 ∧ (q' = [] → eb_start b1 = w)) →
    ∃ ok b', (res ← choose_slot b prio;
        let '(w, b) := res in
        match w with
        | None => Ok (false, b)
        | Some wr => b ← append_item b wr (new_item e prio user); Ok (true, b)
        end) = Ok (ok, b')
      ∧ ok = true ∧ holds b' (eb_size b) (q'.*2 ++ [new_entry e prio user])) as Hadd.
  { intros q' (w & -> & H1 & Hw & Hni & Hst). cbn [mbind outcome_bind].
    destruct (append_item_spec b1 q' w e prio user H1) as (b2 & -> & Hs2 & H2); try done; [lia|].
    exists true, b2. split; [done|]. split; [done|]. split; [congruence|].
    eexists. split; [done|]. by rewrite fmap_app. }
  case_bool_decide; [by apply Hadd|].
  destruct (victim ql.*2 prio) as [i|]; cbn [fmap option_fmap option_map] in *.
  - rewrite <- list_fmap_delete_snd. by apply Hadd.
  - destruct Hc as [-> H1]. exists false, b1. split; [done|]. split; [done|]. split; [done|]. eauto.
Qed.

(** C23 (refinement). [event_buf_add_event] on a well-formed buffer never
    faults and is insertion at the end of the queue: rejected for the user
    [EVENT_USER_NONE]; appended while there is room; and in a full buffer
    replacing the entry [victim] selects, or refused when every queued entry is
    of higher priority. *)
Theorem event_buf_add_event_refines b n q e prio user :
  holds b n q →
  ∃ ok b', event_buf_add_event b (Some e) prio user = Ok (ok, b') ∧
    match spec_add n q e prio user with
    | Some q' => ok = true ∧ holds b' n q'
    | None => ok = false ∧ holds b' n q
    end.
Proof. apply event_buf_add_event_spec. Qed.

Lemma event_buf_get_event_spec b n q event user prio :
  holds b n q →
  ∃ ok b' o, event_buf_get_event b event (Some user) prio = Ok (ok, b', Some o) ∧
    match list_find (λ e, e_wanted user e = true) q with
    | Some (i, e) =>
        ok = true ∧ holds b' n (<[i := e_mark e]> q) ∧
        o = GetOut (const (e_event e) <$> event) (e_user e) (const (e_prio e) <$> prio)
    | None => ok = false ∧ holds b' n q ∧ go_user o = user
    end.
Proof.
  intros (<- & ql & H & <-). unfold event_buf_get_event.
  destruct (traverse _ _ false b (GetOut event user prio) ql get_body_step
    (λ _, get_body_idle) H) as (b' & -> & H' & Hs).
  pose proof (run_get ql (GetOut event user prio)) as Hr. cbn [go_user go_event go_prio] in Hr.
  cbn [mbind outcome_bind]. eexists _, b', _. split; [done|].
  destruct (list_find _ ql.*2) as [[i e]|]; destruct Hr as (-> & Hq & Ho); split; try done;
    (split; [|done]); (split; [done|]); rewrite <- Hq; eauto.
Qed.

(** [event_buf_get_event] hands out the oldest pending entry
    of the asked user (of any user for [EVENT_USER_NONE]) with its event, user
    and priority, and marks exactly that entry as being communicated; when there
    is none it returns false and leaves the queue and the user as they were. *)
Theorem event_buf_get_event_refines b n q event user prio :
  holds b n q →
  ∃ ok b' o, event_buf_get_event b event (Some user) prio = Ok (ok, b', Some o) ∧
    match list_find (λ e, e_wanted user e = true) q with
    | Some (i, e) =>
        ok = true ∧ holds b' n (<[i := e_mark e]> q) ∧
        o = GetOut (const (e_event e) <$> event) (e_user e) (const (e_prio e) <$> prio)
    | None => ok = false ∧ holds b' n q ∧ go_user o = user
    end.
Proof. apply event_buf_get_event_spec. Qed.

Lemma event_buf_done_events_spec b n q delivered :
  holds b n q →
  ∃ b', event_buf_done_events b delivered = Ok b' ∧ holds b' n (omap (done_entry delivered) q).
Proof.
  intros (<- & ql & H & <-). unfold event_buf_done_events.
  destruct (traverse _ _ false b () ql (done_body_step delivered)
    (λ _, done_body_idle delivered) H) as (b' & -> & H' & Hs).
  rewrite (run_omap (done_entry delivered) (λ _ _, ())) in *. exists b'. split; [done|].
  split; [done|]. eexists. split; [done|]. apply omap_snd.
Qed.

(** [event_buf_done_events] removes every entry in
    communication when it was delivered, and otherwise keeps each as a zombie;
    all other entries stay, in order. *)
Theorem event_buf_done_events_refines b n q delivered :
  holds b n q →
  ∃ b', event_buf_done_events b delivered = Ok b' ∧ holds b' n (omap (done_entry delivered) q).
Proof. apply event_buf_done_events_spec. Qed.

(** [event_buf_restore_events] makes every communicated entry
    pending again with one more attempt counted, discards those whose count
    reaches the limit (none for [EVENT_BUF_UNLIMITED]), keeps the order, and
    returns true exactly when nothing was discarded. *)
Theorem event_buf_restore_events_refines b n q limit :
  holds b n q →
  ∃ b', event_buf_restore_events b limit
        = Ok (forallb (λ e, negb (bool_decide (restore_entry limit e = None))) q, b')
    ∧ holds b' n (omap (restore_entry limit) q).
Proof.
  intros (<- & ql & H & <-). unfold event_buf_restore_events.
  destruct (traverse _ _ false b true ql (restore_body_step limit)
    (λ _, restore_body_idle limit) H) as (b' & -> & H' & Hs).
  rewrite (run_omap (restore_entry limit)
    (λ r e, r && negb (bool_decide (restore_entry limit e = None)))) in *.
  exists b'. cbn [mbind outcome_bind fst snd] in *. split.
  - f_equal. f_equal. generalize ql.*2. intros q.
    assert (∀ r, foldl (λ r e, r && negb (bool_decide (restore_entry limit e = None))) r q
      = r && forallb (λ e, negb (bool_decide (restore_entry limit e = None))) q) as Hf.
    { induction q as [|e q IH]; intros r; cbn; [by rewrite andb_true_r|].
      by rewrite IH, andb_assoc. }
    by rewrite Hf.
  - split; [done|]. eexists. split; [done|]. apply omap_snd.
Qed.

(** [event_buf_for_each] calls the function once on every
    queued event, oldest first, keeps what it leaves in the event and drops
    exactly the entries for which it returns false. *)
Theorem event_buf_for_each_refines b n q pfunc :
  holds b n q →
  ∃ b', event_buf_for_each b pfunc = Ok b' ∧ holds b' n (omap (each_entry pfunc) q).
Proof.
  intros (<- & ql & H & <-). unfold event_buf_for_each.
  destruct (traverse _ _ true b () ql (each_body_step pfunc)
    (λ _, each_body_idle pfunc) H) as (b' & -> & H' & Hs).
  rewrite (run_omap (each_entry pfunc) (λ _ _, ())) in *. exists b'. split; [done|].
  split; [done|]. eexists. split; [done|]. apply omap_snd.
Qed.

(** [event_buf_empty] tells whether some entry is pending. *)
Theorem event_buf_empty_refines b n q :
  holds b n q → event_buf_empty b = Ok (forallb (λ e, negb (e_pending e)) q).
Proof.
  intros (<- & ql & H & <-). unfold event_buf_empty.
  destruct (traverse _ _ true b () ql empty_body_step (λ _, empty_body_idle) H)
    as (b' & -> & _ & _).
  cbn [mbind outcome_bind]. f_equal. clear. induction ql as [|[x e] q IH]; [done|].
  cbn. destruct (e_pending e); cbn; [done|]. rewrite <- IH.
  by destruct (run empty_step () q) as [[] []].
Qed.

(** The lowest priority is [EVENT_PRIO_HI] or the priority of some entry. *)
Lemma lowest_attained q : ∀ m,
  foldl (λ m e, if e_prio e <? m then e_prio e else m) m q = m ∨
  ∃ e', e' ∈ q ∧ e_prio e' = foldl (λ m e, if e_prio e <? m then e_prio e else m) m q.
Proof.
  induction q as [|a q IH]; intros m; [by left|]. cbn.
  destruct (IH (if e_prio a <? m then e_prio a else m)) as [->|(e' & ? & E)].
  - destruct (e_prio a <? m); [right; exists a; set_solver|by left].
  - right. exists e'. split; [set_solver|done].
Qed.

(** When a full buffer's oldest entry [hi] has a higher
    priority than a new event, and the lowest priority queued is the new
    event's own, [event_buf_add_event] discards [hi] although an entry of the
    new event's priority is queued too: the comment in _buf_replace_prio says
    that everything has the same priority there. *)
Theorem event_buf_add_event_drops_higher_priority b n hi q e prio user :
  holds b n (hi :: q) → n = Z.of_nat (length (hi :: q)) → user ≠ EVENT_USER_NONE →
  lowest (hi :: q) = prio → prio < e_prio hi ≤ EVENT_PRIO_HI →
  ∃ b', event_buf_add_event b (Some e) prio user = Ok (true, b') ∧
        holds b' n (q ++ [new_entry e prio user]) ∧ ∃ e', e' ∈ q ∧ e_prio e' = prio.
Proof.
  intros H Hn Hu Hlow Hhi.
  destruct (event_buf_add_event_spec b n (hi :: q) e prio user H) as (ok & b' & E & Hs).
  unfold spec_add, victim in Hs. rewrite (proj2 (Z.eqb_neq _ _) Hu) in Hs.
  rewrite bool_decide_eq_false_2, Hlow, Z.ltb_irrefl, Z.eqb_refl in Hs by lia.
  destruct Hs as [-> Hs]. exists b'. split; [done|]. split; [done|].
  unfold lowest in Hlow. cbn in Hlow. cbn in Hhi.
  destruct (lowest_attained q (if e_prio hi <? 2 then e_prio hi else 2)) as [E'|(e' & ? & E')];
    rewrite Hlow in E'; [|by exists e'].
  destruct (Z.ltb_spec (e_prio hi) 2); lia.
Qed.

(** ** Witnesses *)

Definition w_event (c : Z) (i : event_id) : event_t := Event c rtc_zero i EVENT_SOURCE_UNIT.

(** A buffer of [n] slots after the given insertions. *)
Definition w_buf (n : nat) (l : list (event_t * Z * Z)) : event_buf :=
  match foldl (λ b p, b ← b; res ← event_buf_add_event b (Some p.1.1) p.1.2 p.2; Ok (snd res))
          (event_buf_init (replicate n (Item event_zero 0 0 0 0 0 0)) (Z.of_nat n)) l with
  | Ok b => b
  | Err _ => EventBuf 0 0 0 0 []
  end.

#[export] Instance entry_eq_dec : EqDecision entry.
Proof. solve_decision. Defined.

(** A checker for [rep], to establish [holds] of a concrete buffer by
    computation. *)
Fixpoint seg_check (l : list item) (p : Z) (q : list (Z * entry)) (n : Z) : bool :=
  match q with
  | [] => true
  | (x, e) :: q =>
      match l.[x] with
      | Ok it => bool_decide (entry_of it = e) && (it_prev it =? p)
                 && (it_next it =? hd_idx q n) && seg_check l x q n
      | Err _ => false
      end
  end.

Definition flag_check (f : Z) : bool := (f =? 3) || (f =? 7) || (f =? 11) || (f =? 15).

Definition rep_check (b : event_buf) (q : list (Z * entry)) : bool :=
  (0 <? eb_size b) && (eb_size b <=? 255)
  && (Z.of_nat (length (eb_items b)) =? eb_size b)
  && seg_check (eb_items b) EVENT_BUF_INDEX_NIL q EVENT_BUF_INDEX_NIL
  && bool_decide (NoDup q.*1)
  && forallb (λ e, flag_check (e_flag e)) q.*2
  && forallb (λ i, bool_decide (i ∈ q.*1) ||
                   match item_at b i with Ok it => it_flag it =? 0 | Err _ => true end)
             (seqZ 0 (eb_size b))
  && match q with
     | [] => match item_at b (eb_start b) with
             | Ok it => it_next it =? EVENT_BUF_INDEX_NIL | Err _ => false end
     | (x, _) :: _ => eb_start b =? x
     end
  && (eb_last b =? last_idx EVENT_BUF_INDEX_NIL q)
  && (0 <=? eb_test b) && (eb_test b <? 256).

Lemma seg_check_sound l q n : ∀ p, seg_check l p q n = true → seg l p q n.
Proof.
  induction q as [|[x e] q IH]; intros p; cbn; [done|].
  destruct (l.[x]) as [it|] eqn:E; [|done].
  intros Hc. bool_hyps. split; [|by apply IH]. exists it.
  repeat match goal with H : bool_decide _ = true |- _ => apply bool_decide_eq_true_1 in H end.
  done.
Qed.

Lemma flag_check_sound f : flag_check f = true → flag_ok f.
Proof.
  unfold flag_check, flag_ok. rewrite !orb_true_iff, !Z.eqb_eq. tauto.
Qed.

Lemma rep_check_sound b q : rep_check b q = true → rep b q.
Proof.
  unfold rep_check. intros Hc. bool_hyps.
  repeat match goal with H : bool_decide _ = true |- _ => apply bool_decide_eq_true_1 in H end.
  constructor; try done.
  - by apply seg_check_sound.
  - apply Forall_forall. intros e He%list_elem_of_In. apply flag_check_sound.
    rewrite forallb_forall in *. auto.
  - intros i it Hi Hni. pose proof (arr_get_bounds _ _ _ Hi).
    assert (In i (seqZ 0 (eb_size b))) as Hin.
    { apply list_elem_of_In, elem_of_seqZ.
      match goal with H : Z.of_nat (length (eb_items b)) = _ |- _ => rewrite H in * end. lia. }
    match goal with H : forallb _ (seqZ _ _) = true |- _ => rewrite forallb_forall in H;
      specialize (H i Hin); cbn in H;
      rewrite bool_decide_eq_false_2, Hi in H by done; by apply Z.eqb_eq in H end.
  - destruct q as [|[x e] q]; [|by apply Z.eqb_eq].
    destruct (item_at b (eb_start b)) as [it|]; [|done]. exists it. split; [done|].
    by apply Z.eqb_eq.
Qed.

(** The chain of a buffer, read off its links. *)
Fixpoint chain_of (fuel : nat) (b : event_buf) (i : Z) : list (Z * entry) :=
  match fuel, item_at b i with
  | S fuel, Ok it =>
      (i, entry_of it) ::
        (if it_next it =? EVENT_BUF_INDEX_NIL then [] else chain_of fuel b (it_next it))
  | _, _ => []
  end.

Definition queue_of (b : event_buf) : list (Z * entry) :=
  if eb_last b =? EVENT_BUF_INDEX_NIL then []
  else chain_of (Z.to_nat (eb_size b)) b (eb_start b).

Lemma holds_by_check b :
  rep_check b (queue_of b) = true → holds b (eb_size b) (queue_of b).*2.
Proof. intros H%rep_check_sound. split; [done|]. by exists (queue_of b). Qed.

(** A three-slot buffer with a HI entry for user 1, then a STD one for user 2;
    [w_got] has the first in communication, [w_full] is a two-slot one. *)
Definition w_two : event_buf :=
  w_buf 3 [(w_event 1 EVENT_ID_ALARM, 2, 1); (w_event 2 EVENT_ID_SET, 1, 2)].
Definition w_full : event_buf :=
  w_buf 2 [(w_event 1 EVENT_ID_ALARM, 2, 1); (w_event 2 EVENT_ID_SET, 1, 2)].
Definition w_got : event_buf :=
  match event_buf_get_event w_two None (Some 1) None with
  | Ok (_, b, _) => b | Err _ => w_two end.

Lemma w_two_holds : holds w_two 3 (queue_of w_two).*2.
Proof. apply (holds_by_check w_two). vm_compute. done. Qed.
Lemma w_full_holds : holds w_full 2 (queue_of w_full).*2.
Proof. apply (holds_by_check w_full). vm_compute. done. Qed.
Lemma w_got_holds : holds w_got 3 (queue_of w_got).*2.
Proof. apply (holds_by_check w_got). vm_compute. done. Qed.

Lemma event_buf_init_holds_witness :
  ∃ b, event_buf_init (replicate 20 (Item event_zero 0 0 0 0 0 0)) 20 = Ok b ∧ holds b 20 [].
Proof. apply (event_buf_init_holds (replicate 20 (Item event_zero 0 0 0 0 0 0)) 20); [lia|done]. Defined.

Lemma event_buf_add_event_refines_witness :
  ∃ ok b', event_buf_add_event w_full (Some (w_event 3 EVENT_ID_UNSET)) 0 3 = Ok (ok, b') ∧
    ok = false ∧ holds b' 2 (queue_of w_full).*2.
Proof.
  apply (event_buf_add_event_refines w_full 2 (queue_of w_full).*2
    (w_event 3 EVENT_ID_UNSET) 0 3 w_full_holds).
Defined.

Lemma event_buf_get_event_refines_witness :
  ∃ ok b' o, event_buf_get_event w_two None (Some 2) None = Ok (ok, b', Some o) ∧
    ok = true ∧
    holds b' 3 (<[1%nat := e_mark (new_entry (w_event 2 EVENT_ID_SET) 1 2)]> (queue_of w_two).*2) ∧
    o = GetOut None 2 None.
Proof.
  apply (event_buf_get_event_refines w_two 3 (queue_of w_two).*2 None 2 None w_two_holds).
Defined.

Lemma event_buf_done_events_refines_witness :
  ∃ b', event_buf_done_events w_got true = Ok b' ∧
        holds b' 3 [new_entry (w_event 2 EVENT_ID_SET) 1 2].
Proof.
  apply (event_buf_done_events_refines w_got 3 (queue_of w_got).*2 true w_got_holds).
Defined.

Lemma event_buf_restore_events_refines_witness :
  ∃ b', event_buf_restore_events w_got 1 = Ok (false, b') ∧
        holds b' 3 [new_entry (w_event 2 EVENT_ID_SET) 1 2].
Proof.
  apply (event_buf_restore_events_refines w_got 3 (queue_of w_got).*2 1 w_got_holds).
Defined.

Lemma event_buf_for_each_refines_witness :
  ∃ b', event_buf_for_each w_two (λ e, (ev_id e =? EVENT_ID_ALARM, e)) = Ok b' ∧
        holds b' 3 [new_entry (w_event 1 EVENT_ID_ALARM) 2 1].
Proof.
  apply (event_buf_for_each_refines w_two 3 (queue_of w_two).*2
    (λ e, (ev_id e =? EVENT_ID_ALARM, e)) w_two_holds).
Defined.

(** The alarm of user 1, of high priority, makes room for a standard event. *)
Lemma event_buf_add_event_drops_higher_priority_witness :
  ∃ b', event_buf_add_event w_full (Some (w_event 3 EVENT_ID_UNSET)) 1 3 = Ok (true, b') ∧
    holds b' 2 ([new_entry (w_event 2 EVENT_ID_SET) 1 2]
                ++ [new_entry (w_event 3 EVENT_ID_UNSET) 1 3]) ∧
    ∃ e', e' ∈ [new_entry (w_event 2 EVENT_ID_SET) 1 2] ∧ e_prio e' = 1.
Proof.
  apply (event_buf_add_event_drops_higher_priority w_full 2
    (new_entry (w_event 1 EVENT_ID_ALARM) 2 1) _ (w_event 3 EVENT_ID_UNSET) 1 3);
    [apply w_full_holds|done|done|done|vm_compute; split; [done|discriminate]].
Defined.
