(* ===== verification/Storage.v ===== *)
(** * External flash layout (app/storage.c, app/storage.h)

    The three data regions of the SPI flash and the area of the firmware
    container.  The driver ([flash_lib] of the SDK) is outside the repository:
    [FlashLib] is its interface, with what the firmware relies on as laws. *)

From S2P Require Import Prelude.

(** ** The driver *)

(** The SDK's [flash_lib]: [flash_byte] is the content of the chip seen
    through the driver's sector cache.  A successful read returns it, a write
    changes nothing outside the bytes it was given, and a successful one stores
    exactly those. *)
Class FlashLib := {
  fl : Type;
  flash_byte : fl → Z → Z;
  flash_init : fl → bool * fl;
  flash_write_data : Z → list Z → fl → bool * fl;
  flash_read_data : Z → Z → fl → option (list Z)
}.

Class FlashSpec (F : FlashLib) := {
  flash_init_byte : ∀ f x, flash_byte (flash_init f).2 x = flash_byte f x;
  flash_read_byte : ∀ a n f l, 0 ≤ n → flash_read_data a n f = Some l →
    l = flash_byte f <$> seqZ a n;
  flash_write_in : ∀ a l f f' i v, flash_write_data a l f = (true, f') →
    l !! i = Some v → flash_byte f' (a + Z.of_nat i) = v;
  flash_write_out : ∀ a l f r f' x, flash_write_data a l f = (r, f') →
    x < a ∨ a + Z.of_nat (length l) <= x → flash_byte f' x = flash_byte f x
}.

(** A chip without defects: every access inside its 4096 KiB succeeds. *)
Class FlashReliable (F : FlashLib) := {
  flash_write_ok : ∀ a l f, 0 ≤ a → a + Z.of_nat (length l) ≤ 4096 * 1024 →
    (flash_write_data a l f).1 = true;
  flash_read_ok : ∀ a n f, 0 ≤ a → 0 ≤ n → a + n ≤ 4096 * 1024 →
    is_Some (flash_read_data a n f);
  flash_init_ok : ∀ f, (flash_init f).1 = true
}.

(** A chip of [4096 KiB] that accepts every access inside it. *)
Definition chip_size : Z := 4096 * 1024.

#[export] Instance ideal_flash : FlashLib := {|
  fl := Z → Z;
  flash_byte f x := f x;
  flash_init f := (true, f);
  flash_write_data a l f :=
    if (0 <=? a) && (a + Z.of_nat (length l) <=? chip_size) then
      (true, λ x, if a <=? x then
                    match l !! Z.to_nat (x - a) with Some v => v | None => f x end
                  else f x)
    else (false, f);
  flash_read_data a n f :=
    if (0 <=? a) && (a + n <=? chip_size) then Some (f <$> seqZ a n) else None
|}.

#[export] Instance ideal_flash_spec : FlashSpec ideal_flash.
Proof.
  split; cbn.
  - done.
  - intros a n f l _. by destruct (_ && _); intros [= <-].
  - intros a l f f' i v. destruct (_ && _); intros [= <-] Hi.
    replace (a + Z.of_nat i - a) with (Z.of_nat i) by lia.
    rewrite Nat2Z.id, Hi. by destruct (Z.leb_spec a (a + Z.of_nat i)); [|lia].
  - intros a l f r f' x. destruct (_ && _); intros [= <- <-] Hx; [|done].
    destruct (Z.leb_spec a x); [|done].
    rewrite lookup_ge_None_2; [done|lia].
Qed.

#[export] Instance ideal_flash_reliable : FlashReliable ideal_flash.
Proof.
  split; cbn; unfold chip_size.
  - intros a l f H1 H2. by rewrite (proj2 (Z.leb_le _ _) H1), (proj2 (Z.leb_le _ _) H2).
  - intros a n f H1 _ H2. rewrite (proj2 (Z.leb_le _ _) H1), (proj2 (Z.leb_le _ _) H2).
    by eexists.
  - done.
Qed.

(** ** Layout *)

(** src/app/storage.h:6-6 (STORAGE_SECTOR_SIZE) *)
Definition STORAGE_SECTOR_SIZE : Z := 512.
(** src/app/storage.h:8-8 (STORAGE_CFG_SPACE) *)
Definition STORAGE_CFG_SPACE : Z := 128 * 1024.
(** src/app/storage.h:9-9 (STORAGE_GPS_RECORDS_SPACE) *)
Definition STORAGE_GPS_RECORDS_SPACE : Z := 1024 * 1024.
(** src/app/storage.h:10-10 (STORAGE_EVENT_MEM_SPACE) *)
Definition STORAGE_EVENT_MEM_SPACE : Z := 512 * 1024.

(** src/app/storage.c:12-13 (_ADDR_CFG) *)
Definition _ADDR_CFG : Z := 0.
Definition _SIZE_CFG : Z := STORAGE_CFG_SPACE.
(** src/app/storage.c:15-16 (_ADDR_GPS) *)
Definition _ADDR_GPS : Z := _ADDR_CFG + _SIZE_CFG.
Definition _SIZE_GPS : Z := STORAGE_GPS_RECORDS_SPACE.
(** src/app/storage.c:18-19 (_ADDR_EVENT_MEM) *)
Definition _ADDR_EVENT_MEM : Z := _ADDR_GPS + _SIZE_GPS.
Definition _SIZE_EVENT_MEM : Z := STORAGE_EVENT_MEM_SPACE.
(** src/app/storage.c:21-21 (_ADDR_LAST) *)
Definition _ADDR_LAST : Z := _ADDR_EVENT_MEM + _SIZE_EVENT_MEM.
(** src/app/storage.c:24-30 (_FW_MAX_SIZE, _FW_ADDR) *)
Definition _FW_MAX_SIZE : Z := 256 * 1024.
Definition _FW_ADDR : Z := 4096 * 1024 - _FW_MAX_SIZE.

(** ** Operations

    The mutex taken around each driver call makes the call atomic; the model
    has one step per operation. *)

Section storage.
Context `{F : FlashLib}.

(** src/app/storage.c:32-32 (_storage_ready) *)
Record storage := Storage { _storage_ready : bool; chip : fl }.

(** src/app/storage.c:52-60 (storage_init) *)
Definition storage_init (s : storage) : bool * storage :=
  let '(result, c) := flash_init (chip s) in
  (result, Storage result c).

(** src/app/storage.c:62-75 (storage_write_fw) *)
Definition storage_write_fw (offset : Z) (src : list Z) (s : storage) : bool * storage :=
  let len := Z.of_nat (length src) in
  if negb (_storage_ready s) then (false, s)
  else if _FW_MAX_SIZE <? u32 (offset + len) then (false, s)
  else let '(result, c) := flash_write_data (u32 (_FW_ADDR + offset)) src (chip s) in
       (result, Storage (_storage_ready s) c).

(** src/app/storage.c:77-90 (storage_write_cfg) *)
Definition storage_write_cfg (offset : Z) (src : list Z) (s : storage) : bool * storage :=
  let len := Z.of_nat (length src) in
  if negb (_storage_ready s) then (false, s)
  else if _SIZE_CFG <? u32 (offset + len) then (false, s)
  else let '(result, c) := flash_write_data (u32 (_ADDR_CFG + offset)) src (chip s) in
       (result, Storage (_storage_ready s) c).

(** src/app/storage.c:92-105 (storage_read_cfg) *)
Definition storage_read_cfg (offset len : Z) (s : storage) : option (list Z) :=
  if negb (_storage_ready s) then None
  else if _SIZE_CFG <? u32 (offset + len) then None
  else flash_read_data (u32 (_ADDR_CFG + offset)) len (chip s).

(** src/app/storage.c:107-118 (storage_save_gps_data) *)
Definition storage_save_gps_data (offset : Z) (src : list Z) (s : storage) : bool * storage :=
  let len := Z.of_nat (length src) in
  if _SIZE_GPS <? u32 (offset + len) then (false, s)
  else let '(result, c) := flash_write_data (u32 (_ADDR_GPS + offset)) src (chip s) in
       (result, Storage (_storage_ready s) c).

(** src/app/storage.c:120-131 (storage_get_gps_data) *)
Definition storage_get_gps_data (offset len : Z) (s : storage) : option (list Z) :=
  if _SIZE_GPS <? u32 (offset + len) then None
  else flash_read_data (u32 (_ADDR_GPS + offset)) len (chip s).

(** src/app/storage.c:133-144 (storage_write_event) *)
Definition storage_write_event (offset : Z) (src : list Z) (s : storage) : bool * storage :=
  let len := Z.of_nat (length src) in
  if _SIZE_EVENT_MEM <? u32 (offset + len) then (false, s)
  else let '(result, c) := flash_write_data (u32 (_ADDR_EVENT_MEM + offset)) src (chip s) in
       (result, Storage (_storage_ready s) c).

(** src/app/storage.c:146-157 (storage_read_event) *)
Definition storage_read_event (offset len : Z) (s : storage) : option (list Z) :=
  if _SIZE_EVENT_MEM <? u32 (offset + len) then None
  else flash_read_data (u32 (_ADDR_EVENT_MEM + offset)) len (chip s).

(** The content of a region, [byte s x] being the chip's byte at [x]. *)
Definition byte (s : storage) (x : Z) : Z := flash_byte (chip s) x.

(** An access inside a region of [size] bytes whose arithmetic does not wrap. *)
Definition inside (size offset len : Z) : Prop :=
  0 ≤ offset ∧ 0 ≤ len ∧ offset + len ≤ size.

End storage.

Ltac region := unfold _ADDR_LAST, _ADDR_EVENT_MEM, _ADDR_GPS, _ADDR_CFG, _FW_ADDR,
  _SIZE_EVENT_MEM, _SIZE_GPS, _SIZE_CFG, _FW_MAX_SIZE, STORAGE_EVENT_MEM_SPACE,
  STORAGE_GPS_RECORDS_SPACE, STORAGE_CFG_SPACE, inside, in_u32 in *.

Section laws.
Context `{F : FlashLib} `{FS : !FlashSpec F}.

(** Every region operation is [guard; driver call]: the shared shape. *)
Lemma write_effect a src c r c' s :
  flash_write_data a src c = (r, c') →
  c = chip s →
  ∀ x, byte (Storage (_storage_ready s) c') x = byte s x ∨
       (a ≤ x < a + Z.of_nat (length src) ∧
        (r = true → src !! Z.to_nat (x - a) = Some (byte (Storage (_storage_ready s) c') x))).
Proof.
  intros E -> x. unfold byte; cbn.
  destruct (decide (x < a ∨ a + Z.of_nat (length src) <= x)) as [Ho|Hi].
  - left. by eapply flash_write_out.
  - right. split; [lia|]. intros ->.
    destruct (lookup_lt_is_Some_2 src (Z.to_nat (x - a))) as [v Hv]; [lia|].
    rewrite Hv. f_equal.
    replace x with (a + Z.of_nat (Z.to_nat (x - a))) at 1 by lia.
    symmetry. by eapply flash_write_in.
Qed.

(** Writing [src] at [a] made the chip of [s] that of [s'], and failed writes
    damage at most that range. *)
Definition wrote (a : Z) (src : list Z) (s s' : storage) : Prop :=
  ∀ x, a ≤ x < a + Z.of_nat (length src) ∨ byte s' x = byte s x.

Definition stored (a : Z) (src : list Z) (s' : storage) : Prop :=
  ∀ i v, src !! i = Some v → byte s' (a + Z.of_nat i) = v.

Lemma storage_write_event_spec offset src s r s' :
  inside _SIZE_EVENT_MEM offset (Z.of_nat (length src)) →
  storage_write_event offset src s = (r, s') →
  wrote (_ADDR_EVENT_MEM + offset) src s s' ∧
  (r = true → stored (_ADDR_EVENT_MEM + offset) src s') ∧
  _storage_ready s' = _storage_ready s.
Proof.
  intros Hi. unfold storage_write_event.
  rewrite (u32_small (offset + _)), (u32_small (_ADDR_EVENT_MEM + _)) by (region; lia).
  destruct (Z.ltb_spec _SIZE_EVENT_MEM (offset + Z.of_nat (length src))); [region; lia|].
  destruct (flash_write_data _ _ _) as [r0 c'] eqn:E. intros [= <- <-].
  split; [|split; [|done]].
  - intros x. destruct (write_effect _ _ _ _ _ s E eq_refl x) as [?|[? _]]; auto.
  - intros -> i v Hv. by eapply flash_write_in.
Qed.

Lemma storage_write_cfg_spec offset src s r s' :
  inside _SIZE_CFG offset (Z.of_nat (length src)) →
  storage_write_cfg offset src s = (r, s') →
  wrote (_ADDR_CFG + offset) src s s' ∧
  (r = true → stored (_ADDR_CFG + offset) src s') ∧
  _storage_ready s' = _storage_ready s.
Proof.
  intros Hi. unfold storage_write_cfg.
  rewrite (u32_small (offset + _)), (u32_small (_ADDR_CFG + _)) by (region; lia).
  destruct (_storage_ready s) eqn:R; cbn.
  2:{ intros [= <- <-]. split; [|done]. intros x. by right. }
  destruct (Z.ltb_spec _SIZE_CFG (offset + Z.of_nat (length src))); [region; lia|].
  destruct (flash_write_data _ _ _) as [r0 c'] eqn:E. intros [= <- <-].
  split; [|split; [|done]].
  - intros x. destruct (write_effect _ _ _ _ _ s E eq_refl x) as [H0|[? _]]; [|auto].
    right. by rewrite R in H0.
  - intros -> i v Hv. by eapply flash_write_in.
Qed.

Lemma storage_save_gps_data_spec offset src s r s' :
  inside _SIZE_GPS offset (Z.of_nat (length src)) →
  storage_save_gps_data offset src s = (r, s') →
  wrote (_ADDR_GPS + offset) src s s' ∧
  (r = true → stored (_ADDR_GPS + offset) src s') ∧
  _storage_ready s' = _storage_ready s.
Proof.
  intros Hi. unfold storage_save_gps_data.
  rewrite (u32_small (offset + _)), (u32_small (_ADDR_GPS + _)) by (region; lia).
  destruct (Z.ltb_spec _SIZE_GPS (offset + Z.of_nat (length src))); [region; lia|].
  destruct (flash_write_data _ _ _) as [r0 c'] eqn:E. intros [= <- <-].
  split; [|split; [|done]].
  - intros x. destruct (write_effect _ _ _ _ _ s E eq_refl x) as [?|[? _]]; auto.
  - intros -> i v Hv. by eapply flash_write_in.
Qed.

Lemma storage_write_fw_spec offset src s r s' :
  inside _FW_MAX_SIZE offset (Z.of_nat (length src)) →
  storage_write_fw offset src s = (r, s') →
  wrote (_FW_ADDR + offset) src s s' ∧
  (r = true → stored (_FW_ADDR + offset) src s') ∧
  _storage_ready s' = _storage_ready s.
Proof.
  intros Hi. unfold storage_write_fw.
  rewrite (u32_small (offset + _)), (u32_small (_FW_ADDR + _)) by (region; lia).
  destruct (_storage_ready s) eqn:R; cbn.
  2:{ intros [= <- <-]. split; [|done]. intros x. by right. }
  destruct (Z.ltb_spec _FW_MAX_SIZE (offset + Z.of_nat (length src))); [region; lia|].
  destruct (flash_write_data _ _ _) as [r0 c'] eqn:E. intros [= <- <-].
  split; [|split; [|done]].
  - intros x. destruct (write_effect _ _ _ _ _ s E eq_refl x) as [H0|[? _]]; [|auto].
    right. by rewrite R in H0.
  - intros -> i v Hv. by eapply flash_write_in.
Qed.

Lemma storage_read_event_spec offset len s l :
  inside _SIZE_EVENT_MEM offset len →
  storage_read_event offset len s = Some l →
  l = byte s <$> seqZ (_ADDR_EVENT_MEM + offset) len.
Proof.
  intros Hi. unfold storage_read_event.
  rewrite (u32_small (offset + _)), (u32_small (_ADDR_EVENT_MEM + _)) by (region; lia).
  destruct (_ <? _); [done|]. intros ?. eapply flash_read_byte; [region; lia|done].
Qed.

Lemma storage_read_cfg_spec offset len s l :
  inside _SIZE_CFG offset len →
  storage_read_cfg offset len s = Some l →
  l = byte s <$> seqZ (_ADDR_CFG + offset) len.
Proof.
  intros Hi. unfold storage_read_cfg.
  rewrite (u32_small (offset + _)), (u32_small (_ADDR_CFG + _)) by (region; lia).
  destruct (negb _); [done|].
  destruct (_ <? _); [done|]. intros ?. eapply flash_read_byte; [region; lia|done].
Qed.

Lemma storage_get_gps_data_spec offset len s l :
  inside _SIZE_GPS offset len →
  storage_get_gps_data offset len s = Some l →
  l = byte s <$> seqZ (_ADDR_GPS + offset) len.
Proof.
  intros Hi. unfold storage_get_gps_data.
  rewrite (u32_small (offset + _)), (u32_small (_ADDR_GPS + _)) by (region; lia).
  destruct (_ <? _); [done|]. intros ?. eapply flash_read_byte; [region; lia|done].
Qed.

Lemma stored_read a src s' :
  stored a src s' → byte s' <$> seqZ a (Z.of_nat (length src)) = src.
Proof.
  intros H. apply list_eq. intros i. rewrite list_lookup_fmap.
  destruct (decide (i < length src)%nat) as [Hi|Hi].
  - destruct (lookup_lt_is_Some_2 src i Hi) as [v Hv]. rewrite Hv.
    rewrite lookup_seqZ_lt by lia. cbn. f_equal. by apply H.
  - rewrite !lookup_ge_None_2; [done|lia|]. rewrite length_seqZ. lia.
Qed.

Lemma wrote_read a src s s' b n :
  wrote a src s s' → 0 ≤ n →
  b + n ≤ a ∨ a + Z.of_nat (length src) ≤ b →
  byte s' <$> seqZ b n = byte s <$> seqZ b n.
Proof.
  intros H Hn Hd. apply list_fmap_ext. intros i x Hx.
  apply lookup_seqZ in Hx as [-> Hi]. destruct (H (b + Z.of_nat i)); [lia|done].
Qed.


(** ** Regions *)

(** A region of the chip: base address and size. *)
Definition reg_cfg : Z * Z := (_ADDR_CFG, _SIZE_CFG).
Definition reg_gps : Z * Z := (_ADDR_GPS, _SIZE_GPS).
Definition reg_event : Z * Z := (_ADDR_EVENT_MEM, _SIZE_EVENT_MEM).
Definition reg_fw : Z * Z := (_FW_ADDR, _FW_MAX_SIZE).

Definition region_unchanged (r : Z * Z) (s s' : storage) : Prop :=
  ∀ x, r.1 ≤ x < r.1 + r.2 → byte s' x = byte s x.

Lemma wrote_region a src s s' r :
  wrote a src s s' →
  r.1 + r.2 ≤ a ∨ a + Z.of_nat (length src) ≤ r.1 →
  region_unchanged r s s'.
Proof. intros H Hd x Hx. destruct (H x); [lia|done]. Qed.

(** The four areas of the external flash do not interfere: a write
    inside one of them (event memory, tracker records, configuration, firmware
    container), successful or not, leaves every byte of the other three as it
    was. *)
Theorem storage_regions_isolated offset src s r s' :
  (inside _SIZE_EVENT_MEM offset (Z.of_nat (length src)) →
   storage_write_event offset src s = (r, s') →
   region_unchanged reg_cfg s s' ∧ region_unchanged reg_gps s s' ∧ region_unchanged reg_fw s s') ∧
  (inside _SIZE_GPS offset (Z.of_nat (length src)) →
   storage_save_gps_data offset src s = (r, s') →
   region_unchanged reg_cfg s s' ∧ region_unchanged reg_event s s' ∧ region_unchanged reg_fw s s') ∧
  (inside _SIZE_CFG offset (Z.of_nat (length src)) →
   storage_write_cfg offset src s = (r, s') →
   region_unchanged reg_gps s s' ∧ region_unchanged reg_event s s' ∧ region_unchanged reg_fw s s') ∧
  (inside _FW_MAX_SIZE offset (Z.of_nat (length src)) →
   storage_write_fw offset src s = (r, s') →
   region_unchanged reg_cfg s s' ∧ region_unchanged reg_gps s s' ∧ region_unchanged reg_event s s').
Proof.
  split; [|split; [|split]]; intros Hi Hw.
  - apply storage_write_event_spec in Hw as [Hw _]; [|done].
    repeat split; (eapply wrote_region; [exact Hw|]); cbn; region; lia.
  - apply storage_save_gps_data_spec in Hw as [Hw _]; [|done].
    repeat split; (eapply wrote_region; [exact Hw|]); cbn; region; lia.
  - apply storage_write_cfg_spec in Hw as [Hw _]; [|done].
    repeat split; (eapply wrote_region; [exact Hw|]); cbn; region; lia.
  - apply storage_write_fw_spec in Hw as [Hw _]; [|done].
    repeat split; (eapply wrote_region; [exact Hw|]); cbn; region; lia.
Qed.

(** The guards of the event and tracker regions: an access with
    32-bit arguments whose end lies beyond the region, and does not wrap past
    [2^32], is refused and leaves the storage as it was. *)
Theorem storage_guard_refuses offset src s :
  0 ≤ offset → offset + Z.of_nat (length src) < 4294967296 →
  (_SIZE_EVENT_MEM < offset + Z.of_nat (length src) →
   storage_write_event offset src s = (false, s) ∧
   storage_read_event offset (Z.of_nat (length src)) s = None) ∧
  (_SIZE_GPS < offset + Z.of_nat (length src) →
   storage_save_gps_data offset src s = (false, s) ∧
   storage_get_gps_data offset (Z.of_nat (length src)) s = None) ∧
  (_SIZE_CFG < offset + Z.of_nat (length src) →
   storage_write_cfg offset src s = (false, s) ∧
   storage_read_cfg offset (Z.of_nat (length src)) s = None) ∧
  (_FW_MAX_SIZE < offset + Z.of_nat (length src) →
   storage_write_fw offset src s = (false, s)).
Proof.
  intros H0 H1.
  unfold storage_write_event, storage_read_event, storage_save_gps_data,
    storage_get_gps_data, storage_write_cfg, storage_read_cfg, storage_write_fw.
  rewrite !u32_small by (unfold in_u32; lia).
  repeat split; destruct (Z.ltb_spec _SIZE_EVENT_MEM (offset + Z.of_nat (length src)));
   destruct (Z.ltb_spec _SIZE_GPS (offset + Z.of_nat (length src)));
   destruct (Z.ltb_spec _SIZE_CFG (offset + Z.of_nat (length src)));
   destruct (Z.ltb_spec _FW_MAX_SIZE (offset + Z.of_nat (length src)));
   destruct (_storage_ready s); cbn; (done || lia).
Qed.

End laws.

(** The hypotheses hold on a chip of zero bytes. *)
Definition blank_storage : storage := Storage true (λ _, 0).

Lemma storage_regions_isolated_witness :
  region_unchanged reg_cfg blank_storage (storage_save_gps_data 32 [1; 2] blank_storage).2.
Proof.
  refine (proj1 (proj1 (proj2 (storage_regions_isolated 32 [1; 2] blank_storage _ _)) _ eq_refl)).
  region. cbn. lia.
Defined.

Lemma storage_guard_refuses_witness :
  storage_save_gps_data (1024 * 1024 - 1) [1; 2] blank_storage = (false, blank_storage).
Proof.
  refine (proj1 (proj1 (proj2 (storage_guard_refuses (1024 * 1024 - 1) [1; 2] blank_storage _ _)) _));
    [lia|cbn; lia|region; cbn; lia].
Defined.
