(* ===== verification/EventMemory.v ===== *)
(** * Event log in flash (app/event_memory.c, event_valid of app/event.c)

    The last events as a ring of 64-byte slots in the event region of the
    flash.  [event_log] says what the ring promises: the slots before the write
    pointer hold the newest events, newest first. *)

From S2P Require Import Prelude EventTypes Storage.

(** ** The bytes of an [event_t]

    [rtc_t] is the SDK's, so the object representation of an event is a
    parameter: [sizeof(event_t)], the bytes a copy of the object has and the
    object a run of bytes denotes.  [rtc_valid] is the SDK's too. *)
Class EventRepr := {
  sizeof_event : Z;
  event_bytes : event_t → list Z;
  bytes_event : list Z → event_t;
  rtc_valid : rtc_t → bool;
  (* the values an [event_t] object can hold *)
  event_object : event_t → Prop;
  (* [static_assert(_EVENT_MEM_SIZE >= sizeof(event_t))] *)
  sizeof_event_fits : 0 < sizeof_event ≤ 64;
  event_bytes_length : ∀ e, Z.of_nat (length (event_bytes e)) = sizeof_event;
  event_bytes_event : ∀ e, event_object e → bytes_event (event_bytes e) = e;
  (* [id] and [source] are [u8] fields *)
  bytes_event_fields : ∀ l, in_u8 (ev_id (bytes_event l)) ∧ in_u8 (ev_source (bytes_event l))
}.

(** src/app/event_memory.c:10-10 (_EVENT_MEM_SIZE) *)
Definition _EVENT_MEM_SIZE : Z := 64.

(** src/app/event_memory.c:16-24 (_ptr_inc) *)
Definition _ptr_inc (ptr : Z) : Z :=
  let ptr := u32 (ptr + _EVENT_MEM_SIZE) in
  if STORAGE_EVENT_MEM_SPACE - _EVENT_MEM_SIZE <? ptr then 0 else ptr.

(** src/app/event_memory.c:26-33 (_ptr_dec) *)
Definition _ptr_dec (ptr : Z) : Z :=
  if _EVENT_MEM_SIZE <=? ptr then ptr - _EVENT_MEM_SIZE
  else STORAGE_EVENT_MEM_SPACE - _EVENT_MEM_SIZE.

Section event_memory.
Context `{F : FlashLib} `{R : EventRepr}.

(** src/app/event.c:120-131 (event_valid) *)
Definition event_valid (e : event_t) : bool :=
  if negb (rtc_valid (ev_time e)) then false
  else if (EVENT_ID_SIZE <=? ev_id e) || (EVENT_SOURCE_SIZE <=? ev_source e) then false
  else true.

(** The state of the component: [_event_memory_ptr], and the event counter of
    event.c that [event_memory_init] sets through [event_set_cnt]. *)
(** src/app/event_memory.c:14-14 (_event_memory_ptr) *)
Record event_memory := EventMemory {
  _event_memory_ptr : Z;
  event_cnt : Z;
  em_storage : storage
}.

(** src/app/event.c:115-118 (event_set_cnt) *)
Definition event_set_cnt (cnt : Z) (m : event_memory) : event_memory :=
  EventMemory (_event_memory_ptr m) cnt (em_storage m).

Definition set_ptr (ptr : Z) (m : event_memory) : event_memory :=
  EventMemory ptr (event_cnt m) (em_storage m).

(** The addresses a [for (i=0; i<SPACE-64; i+=64)] loop visits: 8191 of the
    8192 slots. *)
(** src/app/event_memory.c:44-44 (for) *)
Definition slot_addrs : list Z :=
  (λ k, k * _EVENT_MEM_SIZE) <$>
  seqZ 0 ((STORAGE_EVENT_MEM_SPACE - _EVENT_MEM_SIZE) / _EVENT_MEM_SIZE).

(** src/app/event_memory.c:44-67 (event_memory_init) *)
Fixpoint init_scan (addrs : list Z) (cnt_max ptr_max : Z) (m : event_memory)
    : bool * event_memory :=
  match addrs with
  | [] => (true, set_ptr (_ptr_inc ptr_max) (event_set_cnt cnt_max m))
  | i :: addrs =>
      match storage_read_event i sizeof_event (em_storage m) with
      | None => (false, m)
      | Some l =>
          let e := bytes_event l in
          if negb (event_valid e) then (true, event_set_cnt cnt_max (set_ptr i m))
          else if cnt_max <? ev_cnt e then init_scan addrs (ev_cnt e) i m
          else init_scan addrs cnt_max ptr_max m
      end
  end.

(** src/app/event_memory.c:35-68 (event_memory_init) *)
Definition event_memory_init (m : event_memory) : bool * event_memory :=
  init_scan slot_addrs 0 0 m.

(** src/app/event_memory.c:71-80 (event_memory_store) *)
Definition event_memory_store (event : event_t) (m : event_memory)
    : outcome (bool * event_memory) :=
  let ptr := _event_memory_ptr m in
  let m := set_ptr (_ptr_inc (_event_memory_ptr m)) m in
  _ ← os_assert (ptr <=? STORAGE_EVENT_MEM_SPACE - _EVENT_MEM_SIZE);
  let '(r, s) := storage_write_event ptr (event_bytes event) (em_storage m) in
  Ok (r, EventMemory (_event_memory_ptr m) (event_cnt m) s).

(** src/app/event_memory.c:86-100 (event_memory_read) *)
Fixpoint read_back (addrs : list Z) (ptr : Z) (back_index : nat) (m : event_memory)
    : option event_t :=
  match addrs with
  | [] => None
  | _ :: addrs =>
      let ptr := _ptr_dec ptr in
      match back_index with
      | O =>
          match storage_read_event ptr sizeof_event (em_storage m) with
          | Some l => let event := bytes_event l in
                      if event_valid event then Some event else None
          | None => None
          end
      | S back_index => read_back addrs ptr back_index m
      end
  end.

(** [Some e]: the call returned true with [e] in [*event]. *)
(** src/app/event_memory.c:82-102 (event_memory_read) *)
Definition event_memory_read (back_index : nat) (m : event_memory) : option event_t :=
  read_back slot_addrs (_event_memory_ptr m) back_index m.

End event_memory.

(** ** What the ring holds *)

Definition slots : Z := 8192.

Lemma slots_size : slots * _EVENT_MEM_SIZE = STORAGE_EVENT_MEM_SPACE.
Proof. reflexivity. Qed.

Lemma slot_addrs_eq : slot_addrs = (λ k, k * _EVENT_MEM_SIZE) <$> seqZ 0 (slots - 1).
Proof. reflexivity. Qed.

(** The write pointer walks the slots in order and wraps after the last. *)
Lemma _ptr_inc_slot w :
  0 ≤ w < slots → _ptr_inc (w * _EVENT_MEM_SIZE) = ((w + 1) mod slots) * _EVENT_MEM_SIZE.
Proof.
  unfold _ptr_inc, slots, _EVENT_MEM_SIZE, STORAGE_EVENT_MEM_SPACE. intros Hw.
  rewrite u32_small by (unfold in_u32; lia).
  destruct (Z.ltb_spec (512 * 1024 - 64) (w * 64 + 64)).
  - replace w with 8191 by lia. reflexivity.
  - rewrite Z.mod_small by lia. lia.
Qed.

Lemma _ptr_dec_slot w :
  0 ≤ w < slots → _ptr_dec (w * _EVENT_MEM_SIZE) = ((w - 1) mod slots) * _EVENT_MEM_SIZE.
Proof.
  unfold _ptr_dec, slots, _EVENT_MEM_SIZE, STORAGE_EVENT_MEM_SPACE. intros Hw.
  destruct (Z.leb_spec 64 (w * 64)).
  - rewrite Z.mod_small by lia. lia.
  - replace w with 0 by lia. reflexivity.
Qed.

Section log.
Context `{F : FlashLib} `{FS : !FlashSpec F} `{R : EventRepr}.

Definition slot (s : storage) (i : Z) : event_t :=
  bytes_event (byte s <$> seqZ (_ADDR_EVENT_MEM + i * _EVENT_MEM_SIZE) sizeof_event).

(** Reading any slot succeeds. *)
Definition readable (s : storage) : Prop :=
  ∀ i, 0 ≤ i < slots →
    is_Some (storage_read_event (i * _EVENT_MEM_SIZE) sizeof_event s).

Lemma slot_inside i n : 0 ≤ i < slots → 0 ≤ n ≤ 64 →
  inside _SIZE_EVENT_MEM (i * _EVENT_MEM_SIZE) n.
Proof. unfold slots, _EVENT_MEM_SIZE. region. lia. Qed.

Lemma slot_read s i l :
  0 ≤ i < slots →
  storage_read_event (i * _EVENT_MEM_SIZE) sizeof_event s = Some l →
  bytes_event l = slot s i.
Proof.
  intros Hi H. apply storage_read_event_spec in H as ->.
  - done.
  - apply slot_inside; [done|]. pose proof sizeof_event_fits. lia.
Qed.

Lemma slot_write s s' i e r :
  0 ≤ i < slots → event_object e →
  storage_write_event (i * _EVENT_MEM_SIZE) (event_bytes e) s = (r, s') →
  (r = true → slot s' i = e) ∧
  (∀ j, 0 ≤ j < slots → j ≠ i → slot s' j = slot s j).
Proof.
  intros Hi He Hw. pose proof sizeof_event_fits as Hf.
  apply storage_write_event_spec in Hw as (Hw & Hs & _).
  2:{ apply slot_inside; [done|]. rewrite event_bytes_length. lia. }
  split.
  - intros Hr. unfold slot. rewrite <- (event_bytes_length e), stored_read; [|auto].
    by apply event_bytes_event.
  - intros j Hj Hne. unfold slot. f_equal. eapply wrote_read; [done|lia|].
    rewrite event_bytes_length. unfold _EVENT_MEM_SIZE in *. lia.
Qed.

(** [event_log m q]: the slots before the write pointer hold [q], newest
    first. *)
Definition event_log (m : event_memory) (q : list event_t) : Prop :=
  ∃ w, 0 ≤ w < slots ∧ _event_memory_ptr m = w * _EVENT_MEM_SIZE ∧
    (Z.of_nat (length q) ≤ slots) ∧
    ∀ k e, q !! k = Some e →
      slot (em_storage m) ((w - 1 - Z.of_nat k) mod slots) = e.

Lemma slots_mod_ne w k :
  0 ≤ w < slots → 0 ≤ k < slots - 1 → (w - 1 - k) mod slots ≠ w.
Proof. unfold slots. intros. Z.div_mod_to_equations. lia. Qed.

Lemma event_memory_store_spec m q e :
  event_log m q → event_object e →
  ∃ r m', event_memory_store e m = Ok (r, m') ∧
    (if r then event_log m' (e :: take (Z.to_nat 8191) q)
     else ∃ x, event_log m' (x :: take (Z.to_nat 8191) q)) ∧
    event_cnt m' = event_cnt m.
Proof.
  intros (w & Hw & Hp & Hl & Hq) He. unfold event_memory_store.
  rewrite Hp. unfold os_assert.
  destruct (Z.leb_spec (w * _EVENT_MEM_SIZE) (STORAGE_EVENT_MEM_SPACE - _EVENT_MEM_SIZE)).
  2:{ unfold slots, _EVENT_MEM_SIZE, STORAGE_EVENT_MEM_SPACE in *. lia. }
  cbn [mbind outcome_bind]. cbn [em_storage set_ptr].
  destruct (storage_write_event _ _ _) as [r s'] eqn:E.
  eexists r, _. split; [done|]. split; [|done].
  destruct (slot_write _ _ _ _ _ Hw He E) as [H1 H2].
  set (x := slot s' w).
  assert (event_log (EventMemory (_ptr_inc (w * _EVENT_MEM_SIZE)) (event_cnt m) s')
            (x :: take (Z.to_nat 8191) q)) as Hx.
  { exists ((w + 1) mod slots).
    assert (0 ≤ (w + 1) mod slots < slots) as Hb by (apply Z.mod_pos_bound; done).
    split; [done|]. split; [cbn; by rewrite _ptr_inc_slot|].
    split; [cbn [length]; rewrite length_take; unfold slots in *; lia|].
    intros [|k] v; cbn [lookup list_lookup].
    - intros [= <-]. cbn. unfold x. f_equal. unfold slots in *.
      Z.div_mod_to_equations. lia.
    - intros Hv. apply lookup_take_Some in Hv as [Hv Hk]. cbn [em_storage].
      rewrite <- (Hq _ _ Hv). unfold slots in *.
      replace (((w + 1) mod 8192 - 1 - Z.of_nat (S k)) mod 8192)
        with ((w - 1 - Z.of_nat k) mod 8192) by (Z.div_mod_to_equations; lia).
      apply H2; [apply Z.mod_pos_bound; lia|]. apply slots_mod_ne; unfold slots; lia. }
  destruct r; [|by exists x]. unfold x in Hx. by rewrite H1 in Hx.
Qed.

(** C26 (refinement). Storing an event never trips the pointer assertion and
    puts it in front of the log, of which it keeps the 8191 newest entries; a
    failed flash write still consumes the slot, with an unknown entry there. *)
Theorem event_memory_store_refines m q e :
  event_log m q → event_object e →
  ∃ r m', event_memory_store e m = Ok (r, m') ∧
    (if r then event_log m' (e :: take (Z.to_nat 8191) q)
     else ∃ x, event_log m' (x :: take (Z.to_nat 8191) q)) ∧
    event_cnt m' = event_cnt m.
Proof. apply event_memory_store_spec. Qed.

Lemma read_back_slot l w k m :
  0 ≤ w < slots → (k < length l)%nat → readable (em_storage m) →
  read_back l (w * _EVENT_MEM_SIZE) k m =
    let e := slot (em_storage m) ((w - 1 - Z.of_nat k) mod slots) in
    if event_valid e then Some e else None.
Proof.
  intros Hw. revert w k Hw. induction l as [|a l IH]; intros w k Hw Hk Hr; [cbn in Hk; lia|].
  assert (0 ≤ (w - 1) mod slots < slots) as Hb by (apply Z.mod_pos_bound; done).
  cbn [read_back]. rewrite _ptr_dec_slot by done. destruct k as [|k].
  - destruct (Hr _ Hb) as [v Hv]. rewrite Hv. cbn zeta.
    rewrite (slot_read _ _ _ Hb Hv). by replace (w - 1 - Z.of_nat 0) with (w - 1) by lia.
  - rewrite IH; [|done|cbn in Hk; lia|done]. cbn zeta.
    replace (((w - 1) mod slots - 1 - Z.of_nat k) mod slots)
      with ((w - 1 - Z.of_nat (S k)) mod slots); [done|].
    unfold slots. Z.div_mod_to_equations. lia.
Qed.

Lemma read_back_short l ptr k m :
  (length l <= k)%nat → read_back l ptr k m = None.
Proof.
  revert ptr k. induction l as [|a l IH]; intros ptr k Hk; [done|].
  destruct k as [|k]; cbn in *; [lia|]. apply IH. lia.
Qed.

Lemma slot_addrs_length : length slot_addrs = Z.to_nat 8191.
Proof. rewrite slot_addrs_eq, length_fmap, length_seqZ. reflexivity. Qed.

(** [event_memory_read] with index [k] below 8191 returns the
    [k]-th newest event of the log when it is valid and fails otherwise; from
    index 8191 on it fails. *)
Theorem event_memory_read_log m q k :
  event_log m q → readable (em_storage m) →
  (∀ e, q !! k = Some e → (k < Z.to_nat 8191)%nat →
     event_memory_read k m = if event_valid e then Some e else None) ∧
  ((Z.to_nat 8191 <= k)%nat → event_memory_read k m = None).
Proof.
  intros (w & Hw & Hp & Hl & Hq) Hr. unfold event_memory_read. split.
  - intros e He Hk. rewrite Hp, read_back_slot; [|done|by rewrite slot_addrs_length|done].
    cbn zeta. by rewrite (Hq _ _ He).
  - intros Hk. apply read_back_short. by rewrite slot_addrs_length.
Qed.


(** ** Recovery at boot *)

(** What the scan has found after the slots of a list. *)
Definition scan_max (s : storage) : list Z → Z * Z → Z * Z :=
  fold_left (λ '(c, p) i,
    if c <? ev_cnt (slot s i) then (ev_cnt (slot s i), i * _EVENT_MEM_SIZE) else (c, p)).

Lemma init_scan_valid s l rest c p m :
  em_storage m = s → readable s →
  (∀ i, i ∈ l → 0 ≤ i < slots ∧ event_valid (slot s i) = true) →
  init_scan (((λ k, k * _EVENT_MEM_SIZE) <$> l) ++ rest) c p m =
  init_scan rest (scan_max s l (c, p)).1 (scan_max s l (c, p)).2 m.
Proof.
  intros Hm Hr. revert c p. induction l as [|i l IH]; intros c p Hl; [done|].
  destruct (Hl i) as [Hi Hv]; [by left|].
  cbn [fmap list_fmap app init_scan]. destruct (Hr i Hi) as [v Hread].
  rewrite Hm, Hread. cbn zeta. rewrite (slot_read _ _ _ Hi Hread), Hv.
  cbn [negb]. unfold scan_max; cbn [fold_left]; fold (scan_max s).
  destruct (_ <? _); (rewrite IH; [done|]); intros j Hj; apply Hl; by right.
Qed.

Lemma init_scan_invalid i l c p m :
  readable (em_storage m) → 0 ≤ i < slots →
  event_valid (slot (em_storage m) i) = false →
  init_scan (i * _EVENT_MEM_SIZE :: l) c p m =
  (true, event_set_cnt c (set_ptr (i * _EVENT_MEM_SIZE) m)).
Proof.
  intros Hr Hi Hv. cbn. destruct (Hr i Hi) as [v Hread]. rewrite Hread.
  cbn zeta. by rewrite (slot_read _ _ _ Hi Hread), Hv.
Qed.

Lemma scan_max_below s l c p :
  (∀ i, i ∈ l → ev_cnt (slot s i) ≤ c) → scan_max s l (c, p) = (c, p).
Proof.
  induction l as [|i l IH]; intros H; [done|].
  unfold scan_max; cbn [fold_left]; fold (scan_max s).
  destruct (Z.ltb_spec c (ev_cnt (slot s i))).
  - pose proof (H i ltac:(by left)). lia.
  - apply IH. intros j Hj. apply H. by right.
Qed.

(** The scan finds the slot with the largest counter. *)
Lemma scan_max_newest s l w c p :
  w ∈ l → c < ev_cnt (slot s w) →
  (∀ i, i ∈ l → i ≠ w → ev_cnt (slot s i) < ev_cnt (slot s w)) →
  scan_max s l (c, p) = (ev_cnt (slot s w), w * _EVENT_MEM_SIZE).
Proof.
  revert c p. induction l as [|i l IH]; intros c p Hw Hc Hmax; [by apply elem_of_nil in Hw|].
  unfold scan_max; cbn [fold_left]; fold (scan_max s).
  destruct (decide (i = w)) as [->|Hne].
  - destruct (Z.ltb_spec c (ev_cnt (slot s w))); [|lia].
    apply scan_max_below. intros j Hj. destruct (decide (j = w)) as [->|Hj'].
    + done.
    + apply Z.lt_le_incl, Hmax; [by right|done].
  - apply elem_of_cons in Hw as [->|Hw]; [done|].
    destruct (Z.ltb_spec c (ev_cnt (slot s i))); apply IH; try done.
    + apply Hmax; [by left|done].
    + intros j Hj. apply Hmax. by right.
    + intros j Hj. apply Hmax. by right.
Qed.

(** The flash after [N] events numbered from 1 were stored on an erased chip. *)
Definition filled (s : storage) (N : Z) : Prop :=
  (∀ j, 0 ≤ j < N → N - slots ≤ j →
     event_valid (slot s (j mod slots)) = true ∧ ev_cnt (slot s (j mod slots)) = j + 1) ∧
  (∀ j, N ≤ j < slots → event_valid (slot s j) = false).

(** The slot [i] of a filled ring holds the newest [j < N] congruent to it. *)
Lemma filled_slot s N i :
  filled s N → 0 ≤ i < slots → i < N →
  event_valid (slot s i) = true ∧
  ev_cnt (slot s i) = (N - 1) - ((N - 1 - i) mod slots) + 1.
Proof.
  intros [Hf _] Hi HN. unfold slots in *.
  pose proof (Z.mod_pos_bound (N - 1 - i) 8192 ltac:(lia)).
  assert (0 ≤ N - 1 - (N - 1 - i) mod 8192) by (Z.div_mod_to_equations; lia).
  destruct (Hf (N - 1 - (N - 1 - i) mod 8192)) as [H1 H2]; [lia|lia|].
  replace ((N - 1 - (N - 1 - i) mod 8192) mod 8192) with i in *
    by (Z.div_mod_to_equations; lia).
  split; [done|lia].
Qed.

Lemma init_full s N w m :
  em_storage m = s → readable s → filled s N → slots - 1 ≤ N →
  0 ≤ w < slots - 1 →
  (∀ i, 0 ≤ i < slots - 1 → i ≠ w → ev_cnt (slot s i) < ev_cnt (slot s w)) →
  0 < ev_cnt (slot s w) →
  event_memory_init m =
    (true, set_ptr ((w + 1) * _EVENT_MEM_SIZE) (event_set_cnt (ev_cnt (slot s w)) m)).
Proof.
  intros Hm Hr Hf HN Hw Hmax Hpos. unfold event_memory_init. rewrite slot_addrs_eq.
  rewrite <- (app_nil_r (_ <$> _)), (init_scan_valid s); [|done|done|].
  - rewrite (scan_max_newest s _ w); [| |done|].
    + cbn. rewrite _ptr_inc_slot by (unfold slots in *; lia).
      by rewrite Z.mod_small by (unfold slots in *; lia).
    + apply elem_of_seqZ. lia.
    + intros i Hi. apply elem_of_seqZ in Hi. apply Hmax. lia.
  - intros i Hi. apply elem_of_seqZ in Hi.
    split; [lia|]. eapply (filled_slot s N i); [done|lia|lia].
Qed.

(** C27 (functional). Boot after [N] stored events, when the newest one is not
    in the last slot of the ring: [event_memory_init] puts the write pointer
    right after the newest event and restores its counter. *)
Theorem event_memory_init_restores m N :
  readable (em_storage m) → filled (em_storage m) N →
  0 ≤ N → (N = 0 ∨ N mod slots ≠ 0) →
  event_memory_init m =
    (true, EventMemory ((N mod slots) * _EVENT_MEM_SIZE) N (em_storage m)).
Proof.
  intros Hr Hf H0 Hns. set (s := em_storage m) in *.
  destruct (decide (slots - 1 ≤ N)) as [Hbig|Hsmall].
  - assert (0 ≤ (N - 1) mod slots < slots - 1) as Hw.
    { unfold slots in *. Z.div_mod_to_equations. lia. }
    destruct (filled_slot s N ((N - 1) mod slots) Hf) as [_ Hc];
      [lia|unfold slots in *; Z.div_mod_to_equations; lia|].
    replace ((N - 1 - (N - 1) mod slots) mod slots) with 0 in Hc
      by (unfold slots; Z.div_mod_to_equations; lia).
    rewrite (init_full s N ((N - 1) mod slots)); [|done..| |].
    + f_equal. unfold set_ptr, event_set_cnt. cbn. rewrite Hc. f_equal; [|lia].
      f_equal. unfold slots in *. Z.div_mod_to_equations. lia.
    + intros i Hi Hne. destruct (filled_slot s N i Hf) as [_ ->]; [lia|lia|].
      rewrite Hc. unfold slots in *. Z.div_mod_to_equations. lia.
    + rewrite Hc. unfold slots in *. lia.
  - unfold event_memory_init. rewrite slot_addrs_eq.
    replace (slots - 1) with (N + (slots - 1 - N)) by lia.
    rewrite (seqZ_app 0 N) by lia.
    rewrite fmap_app, (init_scan_valid s); [|done|done|].
    2:{ intros i Hi%elem_of_seqZ. split; [lia|].
        eapply (filled_slot s N i); [done|lia|lia]. }
    rewrite (seqZ_cons (0 + N)) by lia. cbn [fmap list_fmap].
    rewrite init_scan_invalid; [|done|lia|apply Hf; lia].
    f_equal. unfold set_ptr, event_set_cnt. cbn.
    rewrite Z.mod_small by lia. f_equal.
    destruct (decide (N = 0)) as [->|HN]; [done|].
    rewrite (scan_max_newest s _ (N - 1)).
    + cbn. destruct (filled_slot s N (N - 1) Hf) as [_ ->]; [lia|lia|].
      replace (N - 1 - (N - 1)) with 0 by lia. rewrite Z.mod_0_l by done. lia.
    + apply elem_of_seqZ. lia.
    + destruct (filled_slot s N (N - 1) Hf) as [_ ->]; [lia|lia|].
      replace (N - 1 - (N - 1)) with 0 by lia. rewrite Z.mod_0_l by done. lia.
    + intros i Hi%elem_of_seqZ Hne.
      destruct (filled_slot s N (N - 1) Hf) as [_ ->]; [lia|lia|].
      destruct (filled_slot s N i Hf) as [_ ->]; [lia|lia|].
      rewrite !Z.mod_small by lia. lia.
Qed.

(** The last slot is never scanned: when the newest of [N] stored
    events is in it ([N] a multiple of the ring size), boot puts the write
    pointer back on that event and restores a counter one too small, so the
    next event overwrites the newest one and repeats its number. *)
Theorem event_memory_init_loses_last_slot m N :
  readable (em_storage m) → filled (em_storage m) N →
  0 < N → N mod slots = 0 →
  ∃ m', event_memory_init m = (true, m') ∧
    ev_cnt (slot (em_storage m) (slots - 1)) = N ∧
    _event_memory_ptr m' = (slots - 1) * _EVENT_MEM_SIZE ∧
    event_cnt m' = N - 1.
Proof.
  intros Hr Hf H0 Hns. set (s := em_storage m) in *.
  assert (slots ≤ N) by (unfold slots in *; Z.div_mod_to_equations; lia).
  destruct (filled_slot s N (slots - 2) Hf) as [_ Hc]; [unfold slots; lia|lia|].
  replace ((N - 1 - (slots - 2)) mod slots) with 1 in Hc
    by (unfold slots in *; Z.div_mod_to_equations; lia).
  rewrite (init_full s N (slots - 2)); [|done|done|done|lia|unfold slots; lia| |].
  - eexists. split; [done|]. split; [|split; [reflexivity|cbn; lia]].
    destruct (filled_slot s N (slots - 1) Hf) as [_ ->]; [unfold slots; lia|lia|].
    unfold slots in *. Z.div_mod_to_equations. lia.
  - intros i Hi Hne. destruct (filled_slot s N i Hf) as [_ ->]; [lia|lia|].
    rewrite Hc. unfold slots in *. Z.div_mod_to_equations. lia.
  - rewrite Hc. unfold slots in *; lia.
Qed.

End log.

(** ** A concrete representation

    One little-endian layout an [event_t] can have, with a calendar check: the
    hypotheses of the theorems above hold with it on the ideal chip. *)

#[export] Instance packed_event : EventRepr.
Proof.
  refine {|
    sizeof_event := 12;
    event_bytes e := le32 (ev_cnt e) ++
      (let t := ev_time e in
       [year t; month t; day t; hour t; minute t; second t]) ++ [ev_id e; ev_source e];
    bytes_event l :=
      match l with
      | [a; b; c; d; y; mo; dd; h; mi; s; i; src] =>
          Event (a + 256 * (b + 256 * (c + 256 * d))) (Rtc y mo dd h mi s) (u8 i) (u8 src)
      | _ => event_zero
      end;
    rtc_valid t := (1 <=? month t) && (month t <=? 12) && (1 <=? day t) && (day t <=? 31)
      && (hour t <? 24) && (minute t <? 60) && (second t <? 60);
    event_object e := in_u32 (ev_cnt e) ∧ in_u8 (ev_id e) ∧ in_u8 (ev_source e)
  |}; [lia|done| |].
  - intros [n [y mo d h mi s] i src] (Hn & Hi & Hs). cbn in Hn, Hi, Hs |- *.
    rewrite !u8_small by done. unfold in_u32 in Hn. f_equal. Z.div_mod_to_equations. lia.
  - intros l. assert (in_u8 (ev_id event_zero) ∧ in_u8 (ev_source event_zero)) as Hz by done.
    do 13 (destruct l as [|? l]; [first [exact Hz|split; apply u8_range]|]). exact Hz.
Defined.

(** The event number [i] of the witness chips. *)
Definition nth_event (i : Z) : event_t := Event (i + 1) (Rtc 24 1 1 0 0 0) 8 3.

Lemma nth_event_object i : 0 ≤ i < slots → event_object (nth_event i).
Proof. intros Hi. unfold slots in Hi. split; [|done]. cbn. unfold in_u32. lia. Qed.

(** An erased chip on which [N] events were stored. *)
Definition ring_storage (N : Z) : storage := Storage true (λ x,
  let o := x - _ADDR_EVENT_MEM in
  if (0 <=? o) && (o / 64 <? N)
  then default 255 (event_bytes (nth_event (o / 64)) !! Z.to_nat (o mod 64)) else 255).

Lemma ring_readable N : readable (ring_storage N).
Proof.
  intros i Hi. unfold storage_read_event, readable, slots, _EVENT_MEM_SIZE in *. cbn.
  rewrite !u32_small by (region; lia).
  destruct (Z.ltb_spec _SIZE_EVENT_MEM (i * 64 + 12)); [region; lia|].
  destruct (Z.leb_spec 0 (_ADDR_EVENT_MEM + i * 64)); [|region; lia].
  destruct (Z.leb_spec (_ADDR_EVENT_MEM + i * 64 + 12) chip_size);
    [by eexists|region; unfold chip_size in *; lia].
Qed.

Lemma ring_slot N i :
  0 ≤ i < slots → i < N → slot (ring_storage N) i = nth_event i.
Proof.
  intros Hi HN. unfold slot.
  transitivity (bytes_event (event_bytes (nth_event i))).
  2:{ by apply event_bytes_event, nth_event_object. }
  f_equal. apply list_eq. intros k. rewrite list_lookup_fmap.
  destruct (decide (Z.of_nat k < 12)) as [Hk|Hk].
  - rewrite lookup_seqZ_lt by (cbn; lia). cbn [fmap option_fmap option_map].
    unfold byte. cbn [chip flash_byte ideal_flash ring_storage]. cbv zeta.
    unfold _EVENT_MEM_SIZE.
    replace (_ADDR_EVENT_MEM + i * 64 + Z.of_nat k - _ADDR_EVENT_MEM)
      with (i * 64 + Z.of_nat k) by lia.
    destruct (Z.leb_spec 0 (i * 64 + Z.of_nat k)); [|lia].
    replace ((i * 64 + Z.of_nat k) / 64) with i by (Z.div_mod_to_equations; lia).
    replace ((i * 64 + Z.of_nat k) mod 64) with (Z.of_nat k) by (Z.div_mod_to_equations; lia).
    rewrite Nat2Z.id. destruct (Z.ltb_spec i N); [|lia]. cbn [andb].
    destruct (lookup_lt_is_Some_2 (event_bytes (nth_event i)) k) as [v ->]; [cbn; lia|done].
  - rewrite !lookup_ge_None_2; [done|cbn; lia|rewrite length_seqZ; cbn; lia].
Qed.

Lemma ring_filled N : 0 ≤ N ≤ slots → filled (ring_storage N) N.
Proof.
  intros HN. split.
  - intros j Hj _. rewrite Z.mod_small by lia. rewrite ring_slot by lia. done.
  - intros j Hj. unfold slot.
    replace (byte (ring_storage N) <$> _) with (replicate 12 255); [done|].
    symmetry. apply list_eq. intros k. rewrite list_lookup_fmap.
    destruct (decide (Z.of_nat k < 12)) as [Hk|Hk].
    + rewrite lookup_seqZ_lt by (cbn; lia).
      rewrite (lookup_replicate_2 12 255 k) by lia. cbn [fmap option_fmap option_map].
      f_equal. unfold byte, _EVENT_MEM_SIZE.
      cbn [chip flash_byte ideal_flash ring_storage]. cbv zeta.
      replace ((_ADDR_EVENT_MEM + j * 64 + Z.of_nat k - _ADDR_EVENT_MEM) / 64) with j
        by (Z.div_mod_to_equations; lia).
      destruct (Z.ltb_spec j N); [lia|]. by rewrite andb_false_r.
    + rewrite !lookup_ge_None_2; [done|rewrite length_replicate; lia|].
      rewrite length_seqZ; cbn; lia.
Qed.

Lemma event_memory_store_refines_witness :
  event_log (EventMemory 0 0 blank_storage) [] ∧
  ∃ r m', event_memory_store (nth_event 0) (EventMemory 0 0 blank_storage) = Ok (r, m').
Proof.
  assert (event_log (EventMemory 0 0 blank_storage) []) as H.
  { exists 0. split; [unfold slots; lia|]. split; [done|]. split; [unfold slots; cbn; lia|].
    intros k e Hk. discriminate Hk. }
  split; [exact H|].
  destruct (event_memory_store_refines _ _ (nth_event 0) H) as (r & m' & E & _).
  - apply nth_event_object. unfold slots. lia.
  - exists r, m'. exact E.
Defined.

(** Ten events stored: the log read backwards. *)
Lemma ring_log : event_log (EventMemory 640 10 (ring_storage 10)) [nth_event 9; nth_event 8].
Proof.
  exists 10. split; [unfold slots; lia|]. split; [done|]. split; [unfold slots; cbn; lia|].
  intros [|[|k]] e; cbn [lookup list_lookup]; intros [= <-]; cbn [em_storage].
  - apply ring_slot; unfold slots; cbn; lia.
  - apply ring_slot; unfold slots; cbn; lia.
Qed.

Lemma event_memory_read_log_witness :
  event_memory_read 1 (EventMemory 640 10 (ring_storage 10)) = Some (nth_event 8).
Proof.
  refine (proj1 (event_memory_read_log _ _ 1 ring_log (ring_readable 10)) _ eq_refl _). lia.
Defined.

Lemma event_memory_init_restores_witness :
  event_memory_init (EventMemory 0 0 (ring_storage 10)) =
    (true, EventMemory 640 10 (ring_storage 10)).
Proof.
  refine (event_memory_init_restores (EventMemory 0 0 (ring_storage 10)) 10
            (ring_readable 10) (ring_filled 10 _) _ (or_intror _));
    [unfold slots; lia|lia|done].
Defined.

Lemma event_memory_init_loses_last_slot_witness :
  ∃ m', event_memory_init (EventMemory 0 0 (ring_storage slots)) = (true, m') ∧
    ev_cnt (slot (ring_storage slots) (slots - 1)) = slots ∧
    _event_memory_ptr m' = (slots - 1) * _EVENT_MEM_SIZE ∧
    event_cnt m' = slots - 1.
Proof.
  refine (event_memory_init_loses_last_slot (EventMemory 0 0 (ring_storage slots)) slots
            (ring_readable slots) (ring_filled slots _) _ _);
    [unfold slots; lia|unfold slots; lia|done].
Defined.
