(* ===== verification/EventQueue.v ===== *)
(** * Primary event queue (app/event.c: event_create, event_create_ext)

    Every component reports what happened through [event_create]; the event
    waits in a ring of 32 entries for event_task. *)

From S2P Require Import Prelude EventTypes.

(** src/app/event.c:21-21 (_EVENT_BUF_SIZE) *)
Definition _EVENT_BUF_SIZE : Z := 32.

(** src/app/event.c:23-26 (_event_buffer, _buf_rd_ptr, _buf_wr_ptr, _event_cnt) *)
Record event_queue := EventQueue {
  _event_buffer : list event_t;
  _buf_rd_ptr : Z;
  _buf_wr_ptr : Z;
  _event_cnt : Z
}.

(** The variables as the C start-up code and [event_init] leave them. *)
(** src/app/event.c:107-109 (event_init) *)
Definition event_queue_init : event_queue :=
  EventQueue (replicate 32 event_zero) 0 0 0.

(** [event_time] is the caller's time, if it gives one; [rtc_now] is what
    [rtc_get_time] reports. *)
(** src/app/event.c:133-162 (event_create_ext) *)
Definition event_create_ext (rtc_now : rtc_t) (e s : Z) (event_time : option rtc_t)
    (q : event_queue) : outcome (bool * event_queue) :=
  let slot := _buf_wr_ptr q in
  let ptr := slot in
  let ptr := if u32 (ptr + 1) =? _EVENT_BUF_SIZE then 0 else u32 (ptr + 1) in
  if ptr =? _buf_wr_ptr q then Ok (false, q)
  else
    let time := match event_time with None => rtc_now | Some t => t end in
    let cnt := u32 (_event_cnt q + 1) in
    b ← (_event_buffer q).[slot <- Event cnt time (u8 e) (u8 s)];
    Ok (true, EventQueue b (_buf_rd_ptr q) ptr cnt).

(** src/app/event.c:164-167 (event_create) *)
Definition event_create (rtc_now : rtc_t) (e s : Z) (q : event_queue)
    : outcome (bool * event_queue) :=
  event_create_ext rtc_now e s None q.

(** ** What the ring holds *)

(** [queued q p]: the events waiting in [q], oldest first, are [p]. *)
Definition queued (q : event_queue) (p : list event_t) : Prop :=
  length (_event_buffer q) = 32%nat ∧
  0 ≤ _buf_rd_ptr q < 32 ∧ 0 ≤ _buf_wr_ptr q < 32 ∧
  Z.of_nat (length p) = (_buf_wr_ptr q - _buf_rd_ptr q) mod 32 ∧
  ∀ k e, p !! k = Some e →
    (_event_buffer q).[(_buf_rd_ptr q + Z.of_nat k) mod 32] = Ok e.

Lemma queued_init : queued event_queue_init [].
Proof. repeat split; cbn; try lia. intros k e Hk. discriminate Hk. Qed.

Lemma queued_length q p : queued q p → (length p < 32)%nat.
Proof. intros (_ & _ & _ & H & _). pose proof (Z.mod_pos_bound (_buf_wr_ptr q - _buf_rd_ptr q) 32). lia. Qed.

(** One step of the write or read index. *)
Lemma ring_next w :
  0 ≤ w < 32 →
  (if u32 (w + 1) =? _EVENT_BUF_SIZE then 0 else u32 (w + 1)) = (w + 1) mod 32.
Proof.
  intros Hw. unfold _EVENT_BUF_SIZE. rewrite u32_small by (unfold in_u32; lia).
  destruct (Z.eqb_spec (w + 1) 32) as [->|]; [done|]. rewrite Z.mod_small; lia.
Qed.

(** The event a call records. *)
Definition new_event (rtc_now : rtc_t) (e s : Z) (t : option rtc_t) (cnt : Z) : event_t :=
  Event (u32 (cnt + 1)) (default rtc_now t) (u8 e) (u8 s).

(** Reporting an event always succeeds: with at most 30 events
    waiting it is appended behind them, stamped with the given time or the
    current one and with the next event number. *)
Theorem event_create_ext_appends rtc_now e s t q p :
  queued q p → (length p <= 30)%nat →
  ∃ q', event_create_ext rtc_now e s t q = Ok (true, q') ∧
    queued q' (p ++ [new_event rtc_now e s t (_event_cnt q)]) ∧
    _event_cnt q' = u32 (_event_cnt q + 1).
Proof.
  intros (Hb & Hr & Hw & Hl & Hp) H30. unfold event_create_ext. cbn zeta.
  rewrite ring_next by done.
  destruct (Z.eqb_spec ((_buf_wr_ptr q + 1) mod 32) (_buf_wr_ptr q)) as [Hx|_].
  { exfalso. Z.div_mod_to_equations. lia. }
  rewrite arr_set_Ok by (rewrite Hb; lia). cbn [mbind outcome_bind].
  eexists. split; [done|]. split; [|done].
  unfold queued. cbn. rewrite length_insert, length_app.
  assert (0 ≤ (_buf_wr_ptr q + 1) mod 32 < 32) by (apply Z.mod_pos_bound; lia).
  repeat split; try done; try lia.
  - cbn. Z.div_mod_to_equations. lia.
  - intros k v Hk. destruct (decide (k = length p)) as [->|Hne].
    + rewrite list_lookup_middle in Hk by done. injection Hk as <-.
      replace ((_buf_rd_ptr q + Z.of_nat (length p)) mod 32) with (_buf_wr_ptr q)
        by (rewrite Hl; Z.div_mod_to_equations; lia).
      unfold new_event. rewrite arr_get_set_eq by (rewrite Hb; lia). by destruct t.
    + apply lookup_snoc_Some in Hk as [[Hk Hv]|[-> _]]; [|done].
      rewrite arr_get_set_ne; [by apply Hp|lia|].
      assert (Z.of_nat k < Z.of_nat (length p)) by lia.
      Z.div_mod_to_equations. lia.
Qed.

(** The overflow test compares the advanced write index with the
    write index itself, so it never fires: with 31 events waiting the next
    report is still accepted, the write index catches up with the read index
    and every waiting event, the new one included, is lost. *)
Theorem event_create_ext_overflow_loses_all rtc_now e s t q p :
  queued q p → length p = 31%nat →
  ∃ q', event_create_ext rtc_now e s t q = Ok (true, q') ∧ queued q' [] ∧
    _buf_rd_ptr q' = _buf_wr_ptr q'.
Proof.
  intros (Hb & Hr & Hw & Hl & Hp) H31. unfold event_create_ext. cbn zeta.
  rewrite ring_next by done.
  destruct (Z.eqb_spec ((_buf_wr_ptr q + 1) mod 32) (_buf_wr_ptr q)) as [Hx|_].
  { exfalso. Z.div_mod_to_equations. lia. }
  rewrite arr_set_Ok by (rewrite Hb; lia). cbn [mbind outcome_bind].
  assert ((_buf_wr_ptr q + 1) mod 32 = _buf_rd_ptr q) as Heq
    by (rewrite H31 in Hl; Z.div_mod_to_equations; lia).
  eexists. split; [done|]. unfold queued. cbn. rewrite length_insert, Heq.
  repeat split; try done; try lia.
  rewrite Z.sub_diag. done.
Qed.

Fixpoint create_n (n : nat) (q : event_queue) : outcome event_queue :=
  match n with
  | O => Ok q
  | S n => '(_, q) ← event_create rtc_zero EVENT_ID_ALARM EVENT_SOURCE_DOOR q; create_n n q
  end.

Lemma event_create_ext_appends_witness :
  ∃ q', event_create_ext rtc_zero 8 3 None event_queue_init = Ok (true, q').
Proof.
  destruct (event_create_ext_appends rtc_zero 8 3 None event_queue_init [] queued_init)
    as (q' & H & _); [cbn; lia|]. exists q'. exact H.
Defined.

(** The queue after 31 reports, and what it holds. *)
Definition full_queue : event_queue :=
  EventQueue (((λ k, Event k rtc_zero 8 3) <$> seqZ 1 31) ++ [event_zero]) 0 31 31.

Example full_queue_reached : create_n 31 event_queue_init = Ok full_queue.
Proof. vm_compute. reflexivity. Qed.

Lemma full_queue_queued :
  queued full_queue ((λ k, Event k rtc_zero 8 3) <$> seqZ 1 31).
Proof.
  split; [done|]. split; [cbn; lia|]. split; [cbn; lia|]. split; [done|].
  intros k e Hk. pose proof (lookup_lt_Some _ _ _ Hk) as Hlt.
  rewrite length_fmap, length_seqZ in Hlt.
  replace ((_buf_rd_ptr full_queue + Z.of_nat k) mod 32) with (Z.of_nat k)
    by (cbn [_buf_rd_ptr full_queue]; rewrite Z.mod_small; lia).
  apply arr_get_nat, lookup_app_l_Some. exact Hk.
Qed.

Lemma event_create_ext_overflow_loses_all_witness :
  ∃ q', event_create_ext rtc_zero 8 3 None full_queue = Ok (true, q') ∧ queued q' [].
Proof.
  destruct (event_create_ext_overflow_loses_all rtc_zero 8 3 None full_queue _ full_queue_queued)
    as (q' & H & Hq & _); [reflexivity|]. exists q'. exact (conj H Hq).
Defined.
