(* ===== verification/Out.v ===== *)
(** * Outputs (app/out.c; system_io_activate / system_io_deactivate of app/system.c)

    The logical output bits of [system_io_state] and the three pins they drive
    through the configurable output map. *)

From S2P Require Import Prelude CText.

(** ** Data *)

(** src/app/out.h:6-11 (out_id_t) *)
Inductive out_id := OUT_LOCK | OUT_UNLOCK | OUT_SIREN.
(** src/app/out.h:6-11 (out_id_t) *)
Definition out_id_code (o : out_id) : Z :=
  match o with OUT_LOCK => 0 | OUT_UNLOCK => 1 | OUT_SIREN => 2 end.
Coercion out_id_code : out_id >-> Z.
(** src/app/out.h:10-10 (OUT_SIZE) *)
Definition OUT_SIZE : Z := 3.

(** src/app/system.h:13-24 (SYSTEM_IO_INP1 .. SYSTEM_IO_SIREN) *)
Inductive system_io :=
  | SYSTEM_IO_INP1 | SYSTEM_IO_INP2 | SYSTEM_IO_DOOR | SYSTEM_IO_KEY
  | SYSTEM_IO_PANIC | SYSTEM_IO_SHOCK | SYSTEM_IO_INP3 | SYSTEM_IO_TRACING
  | SYSTEM_IO_TRACK | SYSTEM_IO_LOCK | SYSTEM_IO_UNLOCK | SYSTEM_IO_SIREN.
(** src/app/system.h:13-24 (SYSTEM_IO_INP1 .. SYSTEM_IO_SIREN) *)
Definition io_bit (b : system_io) : Z :=
  bit match b with
      | SYSTEM_IO_INP1 => 0 | SYSTEM_IO_INP2 => 1 | SYSTEM_IO_DOOR => 2
      | SYSTEM_IO_KEY => 3 | SYSTEM_IO_PANIC => 4 | SYSTEM_IO_SHOCK => 5
      | SYSTEM_IO_INP3 => 6 | SYSTEM_IO_TRACING => 15 | SYSTEM_IO_TRACK => 16
      | SYSTEM_IO_LOCK => 17 | SYSTEM_IO_UNLOCK => 18 | SYSTEM_IO_SIREN => 19
      end.
Coercion io_bit : system_io >-> Z.

(** The levels of the lock wires a moment of execution sees: [true] is high. *)
Record wires := Wires { HW_LOCK_IN : bool; HW_UNLOCK_IN : bool }.

(** The three pins, as last driven by the [HW_*_ON] and [HW_*_OFF] macros. *)
Record pins := Pins { lock_pin : bool; unlock_pin : bool; siren_pin : bool }.

(** src/app/out.c:20-21 (_out_table, _out_state) *)
Record outputs := Outputs {
  system_io_state : Z;       (* u32, a variable of system.c *)
  _out_table : list Z;
  _out_state : Z;
  hw : pins
}.

(** src/app/out.c:14-18 (_out_table_default) *)
Definition _out_table_default : list Z :=
  [io_bit SYSTEM_IO_LOCK; io_bit SYSTEM_IO_UNLOCK; io_bit SYSTEM_IO_SIREN].

Definition out_set_hw (o : out_id) (on : bool) (p : pins) : pins :=
  match o with
  | OUT_LOCK => Pins on (unlock_pin p) (siren_pin p)
  | OUT_UNLOCK => Pins (lock_pin p) on (siren_pin p)
  | OUT_SIREN => Pins (lock_pin p) (unlock_pin p) on
  end.

Definition set_io (st : Z) (o : outputs) : outputs :=
  Outputs st (_out_table o) (_out_state o) (hw o).

(** ** Operations *)

(** The pin numbers [0..2] are the enumerators; a larger [pin] returns at the
    first test. *)
(** src/app/out.c:79-123 (out_set) *)
Definition out_set (w : wires) (pin : out_id) (state : bool) (o : outputs) : outputs :=
  let mask := bit pin in
  if state then
    if has (_out_state o) mask then o
    else
      let blocked := match pin with
                     | OUT_LOCK => negb (HW_UNLOCK_IN w)
                     | OUT_UNLOCK => negb (HW_LOCK_IN w)
                     | OUT_SIREN => false
                     end in
      if blocked then o
      else Outputs (system_io_state o) (_out_table o)
             (Z.lor (_out_state o) mask) (out_set_hw pin true (hw o))
  else
    if negb (has (_out_state o) mask) then o
    else Outputs (system_io_state o) (_out_table o)
           (clr (_out_state o) mask) (out_set_hw pin false (hw o)).

(** src/app/out.c:125-133 (out_update) *)
Definition out_update (w : wires) (o : outputs) : outputs :=
  foldl (λ o i,
    out_set w i (has (system_io_state o) (default 0 (_out_table o !! Z.to_nat (out_id_code i)))) o)
    o [OUT_LOCK; OUT_UNLOCK; OUT_SIREN].

(** src/app/out.c:23-26 (_out_bit_valid) *)
Definition _out_bit_valid (b : Z) : bool := (0 <=? b) && (b <? 32).

(** The three numbers of [sscanf (.., "%d,%d,%d", ..) == 3]. *)
(** src/app/out.c:37-38 (sscanf) *)
Definition scan_out_map (text : list Z) : option (Z * Z * Z) :=
  '(lock, s) ← scan_s32 text; s ← scan_char 44 s;
  '(unlock, s) ← scan_s32 s; s ← scan_char 44 s;
  '(siren, _) ← scan_s32 s; Some (lock, unlock, siren).

(** [cfg] is what reading CFG_ID_OUT_MAP gives. *)
(** src/app/out.c:28-47 (out_table_reinit) *)
Definition out_table_reinit (cfg : option (list Z)) (w : wires) (o : outputs) : outputs :=
  let table :=
    match cfg with
    | None => _out_table_default
    | Some buf =>
        match scan_out_map buf with
        | Some (lock, unlock, siren) =>
            if _out_bit_valid lock && _out_bit_valid unlock && _out_bit_valid siren
            then [bit lock; bit unlock; bit siren] else _out_table_default
        | None => _out_table_default
        end
    end in
  out_update w (Outputs (system_io_state o) table (_out_state o) (hw o)).

(** src/app/out.c:49-61 (out_init) *)
Definition out_init (cfg : option (list Z)) (w : wires) (o : outputs) : outputs :=
  out_table_reinit cfg w
    (Outputs (system_io_state o) (_out_table o) 0 (Pins false false false)).

(** src/app/out.c:74-77 (out_state) *)
Definition out_state (o : outputs) : Z := _out_state o.

(** src/app/system.c:138-143 (system_io_activate) *)
Definition system_io_activate (w : wires) (b : Z) (o : outputs) : outputs :=
  out_update w (set_io (Z.lor (system_io_state o) b) o).

(** src/app/system.c:145-149 (system_io_deactivate) *)
Definition system_io_deactivate (w : wires) (b : Z) (o : outputs) : outputs :=
  out_update w (set_io (clr (system_io_state o) b) o).

#[export] Instance out_id_eq_dec : EqDecision out_id.
Proof. solve_decision. Defined.

(** ** What the outputs guarantee *)

Definition pin_of (i : out_id) (p : pins) : bool :=
  match i with OUT_LOCK => lock_pin p | OUT_UNLOCK => unlock_pin p | OUT_SIREN => siren_pin p end.

(** [_out_state] mirrors the pins, and the map has three entries. *)
Record out_ok (o : outputs) : Prop := {
  ok_pin : ∀ i : out_id, has (_out_state o) (bit i) = pin_of i (hw o);
  ok_table : length (_out_table o) = 3%nat
}.

(** The level [system_io_state] asks of an output. *)
Definition requested (o : outputs) (i : out_id) : bool :=
  has (system_io_state o) (default 0 (_out_table o !! Z.to_nat (out_id_code i))).

(** The wire that keeps an output from being switched on. *)
Definition blocked (w : wires) (i : out_id) : bool :=
  match i with
  | OUT_LOCK => negb (HW_UNLOCK_IN w) | OUT_UNLOCK => negb (HW_LOCK_IN w) | OUT_SIREN => false
  end.

(** The level a pin takes when [b] is asked of it. *)
Definition driven (w : wires) (i : out_id) (b was : bool) : bool :=
  b && (was || negb (blocked w i)).

Lemma out_id_code_nonneg (i : out_id) : 0 ≤ out_id_code i.
Proof. destruct i; cbn; lia. Qed.
Lemma out_id_code_ne (i j : out_id) : i ≠ j → out_id_code i ≠ out_id_code j.
Proof. destruct i, j; cbn; (congruence || lia). Qed.

Lemma pin_of_set_hw i j b p :
  pin_of j (out_set_hw i b p) = if decide (i = j) then b else pin_of j p.
Proof. by destruct i, j. Qed.

Lemma out_set_spec w i b o :
  out_ok o → out_ok (out_set w i b o) ∧
  system_io_state (out_set w i b o) = system_io_state o ∧
  _out_table (out_set w i b o) = _out_table o ∧
  ∀ j, pin_of j (hw (out_set w i b o)) =
    if decide (i = j) then driven w i b (pin_of i (hw o)) else pin_of j (hw o).
Proof.
  intros [H1 H2]. pose proof (H1 i) as Hi. unfold out_set, driven.
  replace (match i with OUT_LOCK => negb (HW_UNLOCK_IN w) | OUT_UNLOCK => negb (HW_LOCK_IN w)
           | OUT_SIREN => false end) with (blocked w i) by done.
  destruct b, (has (_out_state o) (bit i)) eqn:E; cbn [negb andb].
  - rewrite <- Hi. cbn. repeat split; try done. intros j. by destruct (decide (i = j)) as [->|].
  - rewrite <- Hi. destruct (blocked w i) eqn:Hb; cbn [negb orb].
    + repeat split; try done. intros j. by destruct (decide (i = j)) as [->|].
    + repeat split; cbn; try done; intros j; rewrite pin_of_set_hw; [|done].
      destruct (decide (i = j)) as [->|Hne].
      * apply has_lor_same, out_id_code_nonneg.
      * rewrite has_lor_ne; auto using out_id_code_nonneg, out_id_code_ne.
  - repeat split; cbn; try done; intros j; rewrite pin_of_set_hw; [|done].
    destruct (decide (i = j)) as [->|Hne].
    + apply has_clr_same, out_id_code_nonneg.
    + rewrite has_clr_ne; auto using out_id_code_nonneg, out_id_code_ne.
  - repeat split; try done. intros j. by destruct (decide (i = j)) as [->|].
Qed.

Lemma out_update_spec w o :
  out_ok o →
  out_ok (out_update w o) ∧
  system_io_state (out_update w o) = system_io_state o ∧
  _out_table (out_update w o) = _out_table o ∧
  ∀ i, pin_of i (hw (out_update w o)) = driven w i (requested o i) (pin_of i (hw o)).
Proof.
  intros H0. unfold out_update. cbn [foldl].
  pose proof (out_set_spec w OUT_LOCK (requested o OUT_LOCK) o H0) as (A1 & A2 & A3 & A4).
  fold (requested o OUT_LOCK). set (o1 := out_set w OUT_LOCK _ o) in *.
  fold (requested o1 OUT_UNLOCK).
  replace (requested o1 OUT_UNLOCK) with (requested o OUT_UNLOCK)
    by (unfold requested; by rewrite A2, A3).
  pose proof (out_set_spec w OUT_UNLOCK (requested o OUT_UNLOCK) o1 A1) as (B1 & B2 & B3 & B4).
  set (o2 := out_set w OUT_UNLOCK _ o1) in *.
  fold (requested o2 OUT_SIREN).
  replace (requested o2 OUT_SIREN) with (requested o OUT_SIREN)
    by (unfold requested; by rewrite B2, B3, A2, A3).
  pose proof (out_set_spec w OUT_SIREN (requested o OUT_SIREN) o2 B1) as (C1 & C2 & C3 & C4).
  split; [done|]. split; [congruence|]. split; [congruence|].
  intros i.
  destruct i; rewrite C4; destruct (decide _); try congruence; rewrite B4;
    destruct (decide _); try congruence; rewrite A4;
    destruct (decide _); try congruence; done.
Qed.

(** [out_update] drives every pin from [system_io_state]
    through the output map: a pin goes low whenever its bit is clear, and high
    when its bit is set, except that the lock and unlock outputs, while low,
    stay low as long as the opposite wire is active.  [_out_state] mirrors the
    pins all along. *)
Theorem out_update_drives w o :
  out_ok o →
  out_ok (out_update w o) ∧
  system_io_state (out_update w o) = system_io_state o ∧
  _out_table (out_update w o) = _out_table o ∧
  ∀ i, pin_of i (hw (out_update w o)) = driven w i (requested o i) (pin_of i (hw o)).
Proof. apply out_update_spec. Qed.

(** The configured output map, valid or not, is a table of three single bits. *)
Lemma out_table_reinit_table cfg w o :
  out_ok o →
  out_ok (out_table_reinit cfg w o) ∧
  Forall (λ m, ∃ n, 0 ≤ n < 32 ∧ m = bit n) (_out_table (out_table_reinit cfg w o)).
Proof.
  intros [H1 H2]. unfold out_table_reinit.
  set (t := match cfg with Some _ => _ | None => _ end).
  assert (length t = 3%nat ∧ Forall (λ m, ∃ n, 0 ≤ n < 32 ∧ m = bit n) t) as [Hl Hf].
  { unfold t. assert (Forall (λ m, ∃ n, 0 ≤ n < 32 ∧ m = bit n) _out_table_default).
    { repeat constructor; eexists; (split; [|reflexivity]); lia. }
    destruct cfg as [buf|]; [|done].
    destruct (scan_out_map buf) as [[[l u] s]|]; [|done].
    destruct (_out_bit_valid l && _out_bit_valid u && _out_bit_valid s) eqn:E; [|done].
    unfold _out_bit_valid in E. bool_hyps. split; [done|].
    repeat constructor; eexists; (split; [|reflexivity]); lia. }
  destruct (out_update_spec w (Outputs (system_io_state o) t (_out_state o) (hw o)))
    as (A & _ & -> & _); done.
Qed.

(** The boot state of the outputs and a configured map. *)
Definition boot_outputs : outputs := out_init None (Wires true true) (Outputs 0 [] 0 (Pins false false false)).

Example out_map_parsed : scan_out_map (str "3,18,19") = Some (3, 18, 19).
Proof. reflexivity. Qed.

Lemma boot_outputs_ok : out_ok boot_outputs.
Proof. split; [intros []; reflexivity|reflexivity]. Qed.

Lemma out_update_drives_witness :
  siren_pin (hw (out_update (Wires true true) (set_io (bit 19) boot_outputs))) = true.
Proof.
  assert (out_ok (set_io (bit 19) boot_outputs)) as H.
  { split; [intros []; reflexivity|reflexivity]. }
  destruct (out_update_drives (Wires true true) _ H) as (_ & _ & _ & Hp).
  exact (Hp OUT_SIREN).
Defined.
