(* ===== verification/Alarm.v ===== *)
(** * Alarm and siren (app/alarm.c)

    The alarm memory: a triggered alarm stays active for two minutes and sounds
    the siren for thirty seconds, at most three times until it is stopped. *)

From S2P Require Import Prelude Out.

(** src/app/alarm.h:6-11 (alarm_state_e) *)
Inductive alarm_state_e := ALARM_IDLE | ALARM_ACTIVE | ALARM_TIMEOUT.

#[export] Instance alarm_state_eq_dec : EqDecision alarm_state_e.
Proof. solve_decision. Defined.

(** src/app/alarm.c:13-13 (_SIREN_TIME) *)
Definition _SIREN_TIME : Z := 30 * 10.
(** src/app/alarm.c:16-16 (_ALARM_TIME) *)
Definition _ALARM_TIME : Z := 120 * 10.
(** src/app/alarm.c:19-19 (_ALARMS_MAX) *)
Definition _ALARMS_MAX : Z := 3.

(** The variables of the file, and the outputs the siren is one of. *)
(** src/app/alarm.c:10-20 (_state .. _alarm_cnt) *)
Record alarm := Alarm {
  _state : alarm_state_e;
  _siren_state : bool;
  _siren_tmr : Z;
  _alarm_tmr : Z;
  _alarm_cnt : Z;       (* u16 *)
  outs : outputs
}.

Section alarm.
Variable w : wires.

(** src/app/alarm.c:22-30 (_siren_on) *)
Definition _siren_on (a : alarm) : alarm :=
  if _siren_state a then a
  else Alarm (_state a) true _SIREN_TIME (_alarm_tmr a) (_alarm_cnt a)
         (system_io_activate w SYSTEM_IO_SIREN (outs a)).

(** src/app/alarm.c:32-40 (_siren_off) *)
Definition _siren_off (a : alarm) : alarm :=
  if negb (_siren_state a) then a
  else Alarm (_state a) false 0 (_alarm_tmr a) (_alarm_cnt a)
         (system_io_deactivate w SYSTEM_IO_SIREN (outs a)).

(** src/app/alarm.c:42-49 (alarm_init) *)
Definition alarm_init (a : alarm) : alarm :=
  _siren_off (Alarm ALARM_IDLE (_siren_state a) (_siren_tmr a) 0 0 (outs a)).

(** src/app/alarm.c:56-65 (alarm_tick) *)
Definition siren_tick (a : alarm) : alarm :=
  if _siren_tmr a =? 0 then a
  else
    let a := Alarm (_state a) (_siren_state a) (_siren_tmr a - 1) (_alarm_tmr a)
               (_alarm_cnt a) (outs a) in
    if _siren_tmr a =? 0 then _siren_off a else a.

(** src/app/alarm.c:66-74 (alarm_tick) *)
Definition alarm_tmr_tick (a : alarm) : alarm :=
  if _alarm_tmr a =? 0 then a
  else
    let tmr := _alarm_tmr a - 1 in
    Alarm (if tmr =? 0 then ALARM_TIMEOUT else _state a) (_siren_state a) (_siren_tmr a)
      tmr (_alarm_cnt a) (outs a).

(** src/app/alarm.c:56-74 (alarm_tick) *)
Definition alarm_tick (a : alarm) : alarm := alarm_tmr_tick (siren_tick a).

(** src/app/alarm.c:76-91 (alarm_trigger) *)
Definition alarm_trigger (a : alarm) : alarm :=
  if decide (_state a = ALARM_ACTIVE) then a
  else
    let cnt := u16 (_alarm_cnt a + 1) in
    let a := Alarm (_state a) (_siren_state a) (_siren_tmr a) (_alarm_tmr a) cnt (outs a) in
    if _ALARMS_MAX <? cnt then a
    else _siren_on (Alarm ALARM_ACTIVE (_siren_state a) (_siren_tmr a) _ALARM_TIME cnt (outs a)).

(** src/app/alarm.c:93-100 (alarm_stop) *)
Definition alarm_stop (a : alarm) : alarm :=
  let a := _siren_off a in
  Alarm ALARM_IDLE (_siren_state a) (_siren_tmr a) 0 0 (outs a).

Fixpoint alarm_ticks (n : nat) (a : alarm) : alarm :=
  match n with O => a | S n => alarm_ticks n (alarm_tick a) end.

(** ** The invariant of the component *)

Record alarm_ok (a : alarm) : Prop := {
  ok_siren_tmr : 0 ≤ _siren_tmr a ≤ _SIREN_TIME;
  ok_alarm_tmr : 0 ≤ _alarm_tmr a ≤ _ALARM_TIME;
  ok_siren_state : _siren_state a = negb (_siren_tmr a =? 0);
  ok_active : _state a = ALARM_ACTIVE ↔ 0 < _alarm_tmr a;
  (* the siren never outlives the alarm that started it *)
  ok_siren_alarm : _siren_tmr a ≤ _alarm_tmr a;
  ok_cnt : in_u16 (_alarm_cnt a);
  ok_idle : _state a = ALARM_IDLE → _alarm_tmr a = 0
}.

Ltac alarm_cases := unfold _siren_on, _siren_off, siren_tick, alarm_tmr_tick in *;
  repeat case_if; cbn in *; bool_hyps.

Lemma alarm_tick_cases a :
  alarm_ok a →
  _siren_tmr (alarm_tick a) = Z.max 0 (_siren_tmr a - 1) ∧
  _alarm_tmr (alarm_tick a) = Z.max 0 (_alarm_tmr a - 1) ∧
  _siren_state (alarm_tick a) = negb (Z.max 0 (_siren_tmr a - 1) =? 0) ∧
  _state (alarm_tick a) = (if _alarm_tmr a =? 1 then ALARM_TIMEOUT else _state a) ∧
  _alarm_cnt (alarm_tick a) = _alarm_cnt a.
Proof.
  intros [H1 H2 H3 H4 H5 H6 H7]. unfold _SIREN_TIME, _ALARM_TIME in *.
  unfold alarm_tick, siren_tick, alarm_tmr_tick, _siren_off.
  destruct (Z.eqb_spec (_siren_tmr a) 0) as [E|E]; [|cbn; destruct (Z.eqb_spec (_siren_tmr a - 1) 0)];
    cbn; rewrite ?H3; cbn;
    (destruct (Z.eqb_spec (_siren_tmr a) 0); try lia; cbn);
    (destruct (Z.eqb_spec (_alarm_tmr a) 0); cbn;
       [|destruct (Z.eqb_spec (_alarm_tmr a - 1) 0); cbn]);
    (destruct (Z.eqb_spec (_alarm_tmr a) 1); try lia);
    repeat split; try lia; try done;
    try (destruct (Z.eqb_spec (Z.max 0 (_siren_tmr a - 1)) 0); cbn; (done || lia)).
Qed.

Lemma alarm_tick_ok a : alarm_ok a → alarm_ok (alarm_tick a).
Proof.
  intros Ha. destruct (alarm_tick_cases a Ha) as (E1 & E2 & E3 & E4 & E5).
  destruct Ha as [H1 H2 H3 H4 H5 H6 H7]. unfold _SIREN_TIME, _ALARM_TIME in *.
  split; rewrite ?E1, ?E2, ?E3, ?E4, ?E5; try done; unfold _SIREN_TIME, _ALARM_TIME; try lia.
  - destruct (Z.eqb_spec (_alarm_tmr a) 1); [split; [done|lia]|].
    rewrite H4. split; lia.
  - destruct (Z.eqb_spec (_alarm_tmr a) 1); [done|]. intros Hi%H7. lia.
Qed.

Lemma alarm_trigger_ok a : alarm_ok a → alarm_ok (alarm_trigger a).
Proof.
  intros [H1 H2 H3 H4 H5 H6 H7]. unfold alarm_trigger.
  destruct (decide _) as [|Hna]; [by split|].
  pose proof (u16_range (_alarm_cnt a + 1)).
  destruct (Z.ltb_spec _ALARMS_MAX (u16 (_alarm_cnt a + 1))); [by split|].
  unfold _siren_on. cbn. unfold _SIREN_TIME, _ALARM_TIME in *.
  destruct (_siren_state a) eqn:E.
  - split; cbn; unfold _SIREN_TIME, _ALARM_TIME; try done; try lia.
  - split; cbn; unfold _SIREN_TIME, _ALARM_TIME; try done; try lia.
Qed.

Lemma alarm_stop_ok a : alarm_ok a → alarm_ok (alarm_stop a).
Proof.
  intros [H1 H2 H3 H4 H5 H6 H7]. unfold alarm_stop, _siren_off.
  destruct (_siren_state a) eqn:E; cbn [negb].
  - split; cbn; unfold _SIREN_TIME, _ALARM_TIME; try done; try lia.
  - symmetry in H3. apply negb_false_iff, Z.eqb_eq in H3.
    split; cbn; rewrite ?H3, ?E; unfold _SIREN_TIME, _ALARM_TIME; try done; try lia.
Qed.

(** The alarm's timers stay in their ranges, the siren is on
    exactly while its timer runs, the alarm is active exactly while its timer
    runs and the siren never outlives it: triggering, stopping and the 100 ms
    tick preserve this. *)
Theorem alarm_invariant a :
  alarm_ok a → alarm_ok (alarm_trigger a) ∧ alarm_ok (alarm_stop a) ∧ alarm_ok (alarm_tick a).
Proof. auto using alarm_trigger_ok, alarm_stop_ok, alarm_tick_ok. Qed.

Lemma alarm_ticks_spec n a :
  alarm_ok a →
  alarm_ok (alarm_ticks n a) ∧
  _siren_tmr (alarm_ticks n a) = Z.max 0 (_siren_tmr a - Z.of_nat n) ∧
  _alarm_tmr (alarm_ticks n a) = Z.max 0 (_alarm_tmr a - Z.of_nat n) ∧
  (_state a = ALARM_ACTIVE → _alarm_tmr a ≤ Z.of_nat n →
   _state (alarm_ticks n a) = ALARM_TIMEOUT) ∧
  (_state a = ALARM_TIMEOUT → _state (alarm_ticks n a) = ALARM_TIMEOUT) ∧
  _alarm_cnt (alarm_ticks n a) = _alarm_cnt a.
Proof.
  revert a. induction n as [|n IH]; intros a Ha; cbn [alarm_ticks].
  - pose proof Ha as [H1 H2 H3 H4 H5 H6 H7].
    split; [done|]. split; [lia|]. split; [lia|]. split; [|done].
    intros Hs%H4. lia.
  - destruct (alarm_tick_cases a Ha) as (E1 & E2 & E3 & E4 & E5).
    destruct (IH _ (alarm_tick_ok a Ha)) as (I1 & I2 & I3 & I4 & I5 & I6).
    rewrite E1 in I2. rewrite E2 in I3. rewrite E5 in I6.
    pose proof (ok_active a Ha) as Hact.
    split; [done|]. split; [lia|]. split; [lia|]. split; [|split; [|done]].
    + intros Hs Hn. rewrite E4 in I4, I5. revert I4 I5.
      destruct (Z.eqb_spec (_alarm_tmr a) 1); intros I4 I5; [by apply I5|].
      apply I4; [done|]. lia.
    + intros Hs. apply I5. rewrite E4. by destruct (Z.eqb_spec (_alarm_tmr a) 1).
Qed.

(** A trigger while fewer than three alarms were counted
    starts the alarm: the siren sounds for exactly 300 ticks (30 s) and the
    alarm is active for exactly 1200 ticks (2 min), after which it is in the
    timeout state with the siren off. *)
Theorem alarm_trigger_duration a n :
  alarm_ok a → _state a ≠ ALARM_ACTIVE → _alarm_cnt a < _ALARMS_MAX →
  let b := alarm_ticks n (alarm_trigger a) in
  _alarm_cnt b = _alarm_cnt a + 1 ∧
  _siren_state b = (Z.of_nat n <? 300) ∧
  (Z.of_nat n < 1200 → _state b = ALARM_ACTIVE) ∧
  (1200 ≤ Z.of_nat n → _state b = ALARM_TIMEOUT).
Proof.
  intros Ha Hna Hc b. pose proof (alarm_trigger_ok a Ha) as Ht.
  destruct (alarm_ticks_spec n _ Ht) as (I1 & I2 & I3 & I4 & I5 & I6). fold b in I1, I2, I3, I4, I6.
  assert (_siren_tmr (alarm_trigger a) = 300 ∧ _alarm_tmr (alarm_trigger a) = 1200 ∧
          _alarm_cnt (alarm_trigger a) = _alarm_cnt a + 1 ∧
          _state (alarm_trigger a) = ALARM_ACTIVE) as (T1 & T2 & T3 & T4).
  { unfold alarm_trigger. rewrite decide_False by done.
    destruct Ha as [H1 H2 H3 H4 H5 H6 H7].
    unfold _ALARMS_MAX, in_u16 in *. rewrite u16_small by (unfold in_u16; lia).
    destruct (Z.ltb_spec 3 (_alarm_cnt a + 1)); [lia|]. unfold _siren_on. cbn.
    assert (_alarm_tmr a = 0) as Hz.
    { destruct (Z.eq_dec (_alarm_tmr a) 0); [done|]. destruct Hna. apply H4. lia. }
    replace (_siren_tmr a) with 0 in H3 by lia. cbn in H3. rewrite H3. done. }
  rewrite T1 in I2. rewrite T2 in I3. rewrite T3 in I6. destruct I1 as [H1 H2 H3 H4 H5 H6 H7].
  split; [done|]. split; [|split].
  - rewrite H3, I2. destruct (Z.ltb_spec (Z.of_nat n) 300), (Z.eqb_spec (Z.max 0 (300 - Z.of_nat n)) 0);
      cbn; (done || lia).
  - intros Hn. apply H4. lia.
  - intros Hn. apply I4; [done|lia].
Qed.

(** After three alarms a further trigger changes nothing but the
    alarm counter, as long as it does not reach 65535: neither the state nor the
    siren nor the outputs move. *)
Theorem alarm_trigger_limited a :
  alarm_ok a → _ALARMS_MAX ≤ _alarm_cnt a < 65535 →
  let b := alarm_trigger a in
  _state b = _state a ∧ _siren_state b = _siren_state a ∧ _siren_tmr b = _siren_tmr a ∧
  _alarm_tmr b = _alarm_tmr a ∧ outs b = outs a ∧ _ALARMS_MAX ≤ _alarm_cnt b.
Proof.
  intros Ha Hc b. unfold b, alarm_trigger. unfold _ALARMS_MAX in *.
  destruct (decide _); [repeat split; (done || lia)|].
  rewrite u16_small by (unfold in_u16; lia).
  destruct (Z.ltb_spec 3 (_alarm_cnt a + 1)); [|lia]. cbn. repeat split; (done || lia).
Qed.

End alarm.

(** The alarm at boot. *)
Definition idle_alarm : alarm := Alarm ALARM_IDLE false 0 0 0 boot_outputs.

Lemma idle_alarm_ok : alarm_ok idle_alarm.
Proof. split; cbn; unfold _SIREN_TIME, _ALARM_TIME, in_u16; (done || lia). Qed.

Lemma alarm_invariant_witness : alarm_ok (alarm_trigger (Wires true true) idle_alarm).
Proof. exact (proj1 (alarm_invariant (Wires true true) idle_alarm idle_alarm_ok)). Defined.

Lemma alarm_trigger_duration_witness :
  _state (alarm_ticks (Wires true true) 1200 (alarm_trigger (Wires true true) idle_alarm))
    = ALARM_TIMEOUT.
Proof.
  destruct (alarm_trigger_duration (Wires true true) idle_alarm 1200 idle_alarm_ok)
    as (_ & _ & _ & H); [done|reflexivity|]. apply H. lia.
Defined.

Lemma alarm_trigger_limited_witness :
  let a := Alarm ALARM_TIMEOUT false 0 0 3 boot_outputs in
  outs (alarm_trigger (Wires true true) a) = outs a.
Proof.
  assert (alarm_ok (Alarm ALARM_TIMEOUT false 0 0 3 boot_outputs)) as H.
  { split; cbn; unfold _SIREN_TIME, _ALARM_TIME, in_u16; (done || lia). }
  exact (proj1 (proj2 (proj2 (proj2 (proj2
    (alarm_trigger_limited (Wires true true) _ H ltac:(cbn; unfold _ALARMS_MAX; lia))))))).
Defined.
