(* ===== verification/ArmSection.v ===== *)
(** * Armed section and its inputs (app/section.c, app/system_input.c)

    The section decides, from its armed state, which signals raise an alarm at
    once, which one only after the entry delay, and which none.  The reports the
    C code makes with [event_create] are the list of events an operation
    returns, in call order; [System] feeds them to the event queue. *)

From S2P Require Import Prelude EventTypes.

(** ** Time *)

(** src/tests/stubs/os.h:9-11 (os_timer_t, OS_TIMER_SECOND) *)
Definition OS_TIMER_SECOND : Z := 1000.

(** [os_timer_get() + tm] in the 32-bit [os_timer_t]. *)
Definition timer_after (now tm : Z) : Z := u32 (now + tm).

(** ** Data *)

(** src/app/alarm.h:13-22 (alarm_reaction_e) *)
Inductive alarm_reaction :=
  | ALARM_REACTION_NONE | ALARM_REACTION_DELAY | ALARM_REACTION_INSTANT
  | ALARM_REACTION_24H | ALARM_REACTION_TAMPER.

#[export] Instance alarm_reaction_eq_dec : EqDecision alarm_reaction.
Proof. solve_decision. Defined.

(** src/app/alarm.h:24-24 (ALARM_MAX_CNT) *)
Definition ALARM_MAX_CNT : Z := 3.

(** src/app/inp.h:6-17 (inp_id_t) *)
Inductive inp_id :=
  | INP_KEY | INP_LOCK | INP_UNLOCK | INP_DOOR | INP_INP1 | INP_INP2 | INP_INP3 | INP_SHOCK.
(** src/app/inp.h:6-17 (inp_id_t) *)
Definition inp_id_code (i : inp_id) : Z :=
  match i with
  | INP_KEY => 0 | INP_LOCK => 1 | INP_UNLOCK => 2 | INP_DOOR => 3
  | INP_INP1 => 4 | INP_INP2 => 5 | INP_INP3 => 6 | INP_SHOCK => 7
  end.
Coercion inp_id_code : inp_id >-> Z.
(** src/app/system_input.h:9-9 (SYSTEM_INP_COUNT) *)
Definition SYSTEM_INP_COUNT : Z := 8.

#[export] Instance inp_id_eq_dec : EqDecision inp_id.
Proof. solve_decision. Defined.

(** src/app/system_input.h:11-17 (system_input_t) *)
Record system_input := SystemInput {
  nr : Z;
  reaction : alarm_reaction;
  postpone : Z;           (* u8 *)
  tmr : Z;                (* u8 *)
  cnt : Z                 (* u8 *)
}.

(** The states are kept as numbers: a state restored from the configuration can
    be any number. *)
(** src/app/section.h:11-19 (section_state_t) *)
Inductive section_state :=
  | SECTION_ST_UNKNOWN | SECTION_ST_UNSET | SECTION_ST_SET_PART
  | SECTION_ST_SET | SECTION_ST_SERVICE.
(** src/app/section.h:11-19 (section_state_t) *)
Definition section_state_code (s : section_state) : Z :=
  match s with
  | SECTION_ST_UNKNOWN => 0 | SECTION_ST_UNSET => 1 | SECTION_ST_SET_PART => 2
  | SECTION_ST_SET => 3 | SECTION_ST_SERVICE => 4
  end.
Coercion section_state_code : section_state >-> Z.

(** src/app/section.h:27-30 (SECTION_FLAG_ERROR .. SECTION_FLAG_ALARM) *)
Definition SECTION_FLAG_TM_OUT : Z := bit 1.
Definition SECTION_FLAG_TM_IN : Z := bit 2.
Definition SECTION_FLAG_ALARM : Z := bit 3.

(** [alarm_inp] points into the input table: the input's number. *)
(** src/app/section.h:32-38 (section_data_t) *)
Record section_data := SectionData {
  state_time : Z;
  timer : Z;
  state : Z;
  flags : Z;
  alarm_inp : option Z
}.

(** src/app/section.h:21-25 (section_setup_t) *)
Record section_setup := SectionSetup { num : Z; tm_out : Z; tm_in : Z }.

(** src/app/section.h:41-44 (section_t) *)
Record section_t := Section_ { data : section_data; setup : section_setup }.

(** A report: [event_create (id, source)]. *)
Record report := Report { rep_id : event_id; rep_source : event_source }.

(** ** Inputs (system_input.c) *)

(** src/app/system_input.c:12-21 (system_input_reset) *)
Definition system_input_reset (l : list system_input) : list system_input :=
  (λ i, SystemInput (nr i) (reaction i) (postpone i) 0 0) <$> l.

(** src/app/system_input.c:8-8 (_TICK_SECOND) *)
Definition _TICK_SECOND : Z := 10.

(** src/app/system_input.c:23-39 (system_input_init) *)
Definition system_input_init : list system_input :=
  (λ i : inp_id,
    SystemInput i
      (match i with
       | INP_INP1 | INP_INP2 | INP_INP3 => ALARM_REACTION_DELAY
       | _ => ALARM_REACTION_INSTANT
       end) (1 * _TICK_SECOND) 0 0)
  <$> [INP_KEY; INP_LOCK; INP_UNLOCK; INP_DOOR; INP_INP1; INP_INP2; INP_INP3; INP_SHOCK].

(** src/app/system_input.c:41-49 (system_input_source) *)
Definition system_input_source (n : Z) : outcome event_source :=
  _ ← os_assert (n <? SYSTEM_INP_COUNT);
  [EVENT_SOURCE_KEY; EVENT_SOURCE_LOCK; EVENT_SOURCE_LOCK; EVENT_SOURCE_DOOR;
   EVENT_SOURCE_INPUT1; EVENT_SOURCE_INPUT2; EVENT_SOURCE_INPUT3; EVENT_SOURCE_SHOCK].[n].

(** src/app/system_input.c:51-56 (system_input_get) *)
Definition system_input_get (n : Z) (l : list system_input) : outcome system_input :=
  _ ← os_assert (n <? SYSTEM_INP_COUNT);
  l.[n].

(** src/app/system_input.c:58-72 (system_input_alarm) *)
Definition system_input_alarm (inp : system_input) : bool * system_input :=
  if ALARM_MAX_CNT <=? cnt inp then (false, inp)
  else
    let inp := SystemInput (nr inp) (reaction inp) (postpone inp) (tmr inp) (u8 (cnt inp + 1)) in
    if negb (postpone inp =? 0) then
      if tmr inp =? 0
      then (false, SystemInput (nr inp) (reaction inp) (postpone inp) (postpone inp) (cnt inp))
      else (false, inp)
    else (true, inp).

(** ** Section (section.c) *)

Section section.
Variable now : Z.   (* os_timer_get() *)

(** src/app/section.c:17-20 (_set_timer) *)
Definition _set_timer (tm : Z) (d : section_data) : section_data :=
  SectionData (state_time d) (timer_after now tm) (state d) (flags d) (alarm_inp d).

(** src/app/section.c:22-25 (_flag_set) *)
Definition _flag_set (flag : Z) (d : section_data) : section_data :=
  SectionData (state_time d) (timer d) (state d) (Z.lor (flags d) flag) (alarm_inp d).

(** src/app/section.c:27-30 (_flag_clr) *)
Definition _flag_clr (flag : Z) (d : section_data) : section_data :=
  SectionData (state_time d) (timer d) (state d) (clr (flags d) flag) (alarm_inp d).

Definition clear_timer (d : section_data) : section_data :=
  SectionData (state_time d) 0 (state d) (flags d) (alarm_inp d).

(** src/app/section.c:58-60 (_set_state) *)
Definition enter_state (st : Z) (d : section_data) : section_data :=
  SectionData now (timer d) st (flags d) (alarm_inp d).

(** src/app/section.c:32-61 (_set_state) *)
Definition _set_state (s : section_t) (st : section_state) (source : event_source)
    : bool * section_t * list report :=
  let d := data s in
  if section_state_code st =? state d then (false, s, [])
  else
    match st with
    | SECTION_ST_UNSET =>
        let d := clear_timer (_flag_clr (Z.lor SECTION_FLAG_TM_IN SECTION_FLAG_ALARM) d) in
        (true, Section_ (enter_state st d) (setup s), [Report EVENT_ID_UNSET source])
    | SECTION_ST_SET =>
        let d := _flag_clr SECTION_FLAG_ALARM
                   (_flag_set SECTION_FLAG_TM_OUT (_set_timer (tm_out (setup s)) d)) in
        (true, Section_ (enter_state st d) (setup s), [Report EVENT_ID_SET source])
    | _ => (false, s, [])
    end.

(** [inp_nr] is [inp->nr]. *)
(** src/app/section.c:63-68 (_instant_alarm) *)
Definition _instant_alarm (s : section_t) (inp_nr : Z) : outcome (section_t * list report) :=
  src ← system_input_source inp_nr;
  Ok (Section_ (_flag_set SECTION_FLAG_ALARM (data s)) (setup s),
      [Report EVENT_ID_ALARM src]).

(** [inp] is the input's place in the table. *)
(** src/app/section.c:70-80 (_delay_alarm) *)
Definition _delay_alarm (s : section_t) (inp : Z) : section_t :=
  let d := data s in
  if timer d =? 0 then
    let d := SectionData (state_time d) (timer d) (state d) (flags d) (Some inp) in
    Section_ (_flag_set SECTION_FLAG_TM_IN (_set_timer (tm_in (setup s)) d)) (setup s)
  else s.

(** src/app/section.c:82-86 (section_init) *)
Definition section_init (s : section_t) : section_t :=
  Section_ (SectionData 0 0 SECTION_ST_UNKNOWN 0 None) (setup s).

(** src/app/section.c:88-107 (section_alarm_enabled) *)
Definition section_alarm_enabled (s : section_t) (signal : alarm_reaction) : bool :=
  let st := state (data s) in
  if st =? SECTION_ST_UNSET then bool_decide (signal = ALARM_REACTION_24H)
  else if (st =? SECTION_ST_SET_PART) || (st =? SECTION_ST_SET)
  then bool_decide (signal ≠ ALARM_REACTION_NONE)
  else false.

(** src/app/section.c:109-149 (section_signal) *)
Definition section_signal (s : section_t) (inp : system_input) (signal : alarm_reaction)
    : outcome (section_t * list report) :=
  _ ← system_input_source (nr inp);          (* the LOG_INFO line evaluates it *)
  let st := state (data s) in
  if (st =? SECTION_ST_SET_PART) || (st =? SECTION_ST_SET) then
    match signal with
    | ALARM_REACTION_DELAY => Ok (_delay_alarm s (nr inp), [])
    | ALARM_REACTION_INSTANT | ALARM_REACTION_24H => _instant_alarm s (nr inp)
    | _ => Ok (s, [])
    end
  else if st =? SECTION_ST_UNSET then
    match signal with
    | ALARM_REACTION_24H => _instant_alarm s (nr inp)
    | _ => Ok (s, [])
    end
  else Ok (s, []).

(** src/app/section.c:151-154 (section_set) *)
Definition section_set (s : section_t) (source : event_source) : bool * section_t * list report :=
  _set_state s SECTION_ST_SET source.

(** src/app/section.c:156-159 (section_unset) *)
Definition section_unset (s : section_t) (source : event_source) : bool * section_t * list report :=
  _set_state s SECTION_ST_UNSET source.

(** src/app/section.c:161-184 (section_task) *)
Definition section_task (s : section_t) : outcome (section_t * list report) :=
  let d := data s in
  if (timer d =? 0) || negb (timer d <? now) then Ok (s, [])
  else
    let d := clear_timer d in
    let d := if has (flags d) SECTION_FLAG_TM_OUT then _flag_clr SECTION_FLAG_TM_OUT d else d in
    if has (flags d) SECTION_FLAG_TM_IN then
      match alarm_inp d with
      | None => Err FAssert
      | Some inp =>
          '(s, r) ← _instant_alarm (Section_ d (setup s)) inp;
          Ok (Section_ (_flag_clr SECTION_FLAG_TM_IN (data s)) (setup s), r)
      end
    else Ok (Section_ d (setup s), []).

End section.

(** ** What a signal does *)

Definition armed (s : section_t) : Prop :=
  state (data s) = SECTION_ST_SET ∨ state (data s) = SECTION_ST_SET_PART.

(** The signals that raise an alarm at once. *)
Definition alarms_at_once (s : section_t) (signal : alarm_reaction) : bool :=
  match signal with
  | ALARM_REACTION_24H =>
      (state (data s) =? SECTION_ST_UNSET) || (state (data s) =? SECTION_ST_SET_PART)
      || (state (data s) =? SECTION_ST_SET)
  | ALARM_REACTION_INSTANT =>
      (state (data s) =? SECTION_ST_SET_PART) || (state (data s) =? SECTION_ST_SET)
  | _ => false
  end.

(** An input of the table. *)
Definition input_ok (i : system_input) : Prop :=
  0 ≤ nr i < SYSTEM_INP_COUNT ∧ in_u8 (postpone i) ∧ in_u8 (tmr i) ∧ 0 ≤ cnt i ≤ ALARM_MAX_CNT.

(** The entry delay runs only while armed, and its flag comes with the input
    that started it. *)
Definition section_ok (s : section_t) : Prop :=
  has (flags (data s)) SECTION_FLAG_TM_IN = true →
  armed s ∧ ∃ i, alarm_inp (data s) = Some i ∧ 0 ≤ i < SYSTEM_INP_COUNT.

Definition source_of (n : Z) : event_source :=
  default EVENT_SOURCE_UNKNOWN
    ([EVENT_SOURCE_KEY; EVENT_SOURCE_LOCK; EVENT_SOURCE_LOCK; EVENT_SOURCE_DOOR;
      EVENT_SOURCE_INPUT1; EVENT_SOURCE_INPUT2; EVENT_SOURCE_INPUT3; EVENT_SOURCE_SHOCK]
       !! Z.to_nat n).

Lemma system_input_source_ok n :
  0 ≤ n < SYSTEM_INP_COUNT → system_input_source n = Ok (source_of n).
Proof.
  unfold SYSTEM_INP_COUNT. intros Hn. unfold system_input_source, source_of, os_assert, SYSTEM_INP_COUNT.
  destruct (Z.ltb_spec n 8); [|lia]. cbn [mbind outcome_bind].
  destruct (arr_get_is_Ok [EVENT_SOURCE_KEY; EVENT_SOURCE_LOCK; EVENT_SOURCE_LOCK; EVENT_SOURCE_DOOR;
   EVENT_SOURCE_INPUT1; EVENT_SOURCE_INPUT2; EVENT_SOURCE_INPUT3; EVENT_SOURCE_SHOCK] n) as [x Hx];
    [cbn; lia|].
  rewrite Hx. apply arr_get_Ok in Hx as [_ Hx]. by rewrite Hx.
Qed.

Definition with_flag (s : section_t) (f : Z) : section_t :=
  Section_ (_flag_set f (data s)) (setup s).

Lemma section_signal_spec now s inp signal :
  input_ok inp →
  section_signal now s inp signal = Ok
    (if alarms_at_once s signal then
       (with_flag s SECTION_FLAG_ALARM, [Report EVENT_ID_ALARM (source_of (nr inp))])
     else if bool_decide (signal = ALARM_REACTION_DELAY)
             && ((state (data s) =? SECTION_ST_SET_PART) || (state (data s) =? SECTION_ST_SET))
             && (timer (data s) =? 0)
     then (Section_ (SectionData (state_time (data s)) (timer_after now (tm_in (setup s)))
                       (state (data s)) (Z.lor (flags (data s)) SECTION_FLAG_TM_IN)
                       (Some (nr inp))) (setup s), [])
     else (s, [])).
Proof.
  intros (Hn & _). unfold section_signal. rewrite system_input_source_ok by done.
  cbn [mbind outcome_bind]. unfold _instant_alarm. rewrite system_input_source_ok by done.
  cbn [mbind outcome_bind]. unfold alarms_at_once, _delay_alarm.
  destruct s as [[stt tm st fl ai] su]. cbn -[Z.eqb].
  destruct signal; rewrite ?bool_decide_eq_true_2, ?bool_decide_eq_false_2 by done; cbn -[Z.eqb];
    change (section_state_code _) with 1;
    destruct (Z.eqb_spec st 1) as [->|]; cbn; try done;
    try (destruct (Z.eqb_spec st 2) as [->|]; cbn; try done);
    try (destruct (Z.eqb_spec st 3) as [->|]; cbn; try done).
  all: try (destruct (Z.eqb_spec tm 0); done).
Qed.

(** What a signal of an input does in every state of the
    section: an alarm at once for INSTANT while armed and for 24H while armed or
    unset, reported with the source of that input; the start of the entry delay
    for DELAY while armed and no delay runs; nothing otherwise. *)
Theorem section_signal_reaction now s inp signal :
  input_ok inp →
  section_signal now s inp signal = Ok
    (if alarms_at_once s signal then
       (with_flag s SECTION_FLAG_ALARM, [Report EVENT_ID_ALARM (source_of (nr inp))])
     else if bool_decide (signal = ALARM_REACTION_DELAY)
             && ((state (data s) =? SECTION_ST_SET_PART) || (state (data s) =? SECTION_ST_SET))
             && (timer (data s) =? 0)
     then (Section_ (SectionData (state_time (data s)) (timer_after now (tm_in (setup s)))
                       (state (data s)) (Z.lor (flags (data s)) SECTION_FLAG_TM_IN)
                       (Some (nr inp))) (setup s), [])
     else (s, [])).
Proof. apply section_signal_spec. Qed.

Lemma section_alarm_enabled_armed s r :
  section_alarm_enabled s r = true → alarms_at_once s r = true ∨ armed s.
Proof.
  unfold section_alarm_enabled, alarms_at_once, armed.
  destruct (Z.eqb_spec (state (data s)) SECTION_ST_UNSET) as [->|].
  - intros ->%bool_decide_eq_true. by left.
  - destruct (Z.eqb_spec (state (data s)) SECTION_ST_SET_PART) as [E|].
    + intros _. right. by right.
    + destruct (Z.eqb_spec (state (data s)) SECTION_ST_SET) as [E|]; cbn; [|done].
      intros _. right. by left.
Qed.

(** ** Entry delay *)

Fixpoint section_tasks (times : list Z) (s : section_t) : outcome (section_t * list report) :=
  match times with
  | [] => Ok (s, [])
  | t :: times =>
      '(s, r) ← section_task t s; '(s, r') ← section_tasks times s; Ok (s, r ++ r')
  end.

Lemma section_task_idle t s : timer (data s) = 0 ∨ t ≤ timer (data s) → section_task t s = Ok (s, []).
Proof.
  intros H. unfold section_task.
  destruct (Z.eqb_spec (timer (data s)) 0), (Z.ltb_spec (timer (data s)) t); cbn; try done; lia.
Qed.

Lemma section_tasks_idle ts s :
  timer (data s) = 0 ∨ Forall (λ t, t ≤ timer (data s)) ts → section_tasks ts s = Ok (s, []).
Proof.
  intros H. induction ts as [|t ts IH]; [done|]. cbn.
  rewrite section_task_idle; cbn.
  - rewrite IH; [done|]. destruct H as [H|H]; [by left|right; by inversion H].
  - destruct H as [H|H]; [by left|right; by inversion H].
Qed.

Lemma section_tasks_app ts ts' s s' r s'' r' :
  section_tasks ts s = Ok (s', r) → section_tasks ts' s' = Ok (s'', r') →
  section_tasks (ts ++ ts') s = Ok (s'', r ++ r').
Proof.
  revert s s' r. induction ts as [|t ts IH]; intros s s' r; cbn.
  - by intros [= -> <-].
  - destruct (section_task t s) as [[s1 r1]|]; cbn; [|done].
    destruct (section_tasks ts s1) as [[s2 r2]|] eqn:E; cbn; [|done].
    intros [= -> <-] H. rewrite (IH _ _ _ E H). cbn. by rewrite app_assoc.
Qed.

(** The poll that ends a running entry delay. *)
Lemma section_task_expires t s i :
  timer (data s) ≠ 0 → timer (data s) < t →
  has (flags (data s)) SECTION_FLAG_TM_IN = true → alarm_inp (data s) = Some i →
  0 ≤ i < SYSTEM_INP_COUNT →
  ∃ s', section_task t s = Ok (s', [Report EVENT_ID_ALARM (source_of i)]) ∧
    timer (data s') = 0 ∧ has (flags (data s')) SECTION_FLAG_TM_IN = false ∧
    has (flags (data s')) SECTION_FLAG_ALARM = true ∧ state (data s') = state (data s).
Proof.
  intros Hz Ht Hf Hi Hr. unfold section_task.
  destruct (Z.eqb_spec (timer (data s)) 0); [done|].
  destruct (Z.ltb_spec (timer (data s)) t); [|lia]. cbn [orb negb].
  unfold _instant_alarm. 
  assert (∀ d, has (flags (if has (flags d) SECTION_FLAG_TM_OUT
                           then _flag_clr SECTION_FLAG_TM_OUT d else d)) SECTION_FLAG_TM_IN
             = has (flags d) SECTION_FLAG_TM_IN) as Hx.
  { intros d. destruct (has (flags d) SECTION_FLAG_TM_OUT); [|done]. by apply has_clr_ne. }
  cbn zeta. rewrite Hx. change (flags (clear_timer (data s))) with (flags (data s)).
  rewrite Hf.
  set (d1 := if has (flags (data s)) SECTION_FLAG_TM_OUT
             then _flag_clr SECTION_FLAG_TM_OUT (clear_timer (data s)) else clear_timer (data s)).
  assert (alarm_inp d1 = Some i ∧ timer d1 = 0 ∧ state d1 = state (data s)) as (E1 & E2 & E3)
    by (unfold d1; by destruct (has (flags (data s)) SECTION_FLAG_TM_OUT)).
  rewrite E1. cbv beta iota. rewrite system_input_source_ok by done.
  cbn [mbind outcome_bind data setup].
  eexists. split; [done|]. cbn -[has clr bit]. split; [done|].
  unfold SECTION_FLAG_TM_IN, SECTION_FLAG_ALARM. split; [|split; [|done]].
  - by apply has_clr_same.
  - rewrite has_clr_ne by done. by apply has_lor_same.
Qed.

(** Entry delay: a DELAY signal at time [now] on an armed
    section with no delay running raises no alarm at the polls up to
    [now + tm_in]; the first poll after that raises exactly one, with the source
    of the input that started the delay, and later polls raise none. *)
Theorem section_entry_delay now s inp s1 r1 before t after :
  input_ok inp → armed s → timer (data s) = 0 →
  0 < now → 0 ≤ tm_in (setup s) → now + tm_in (setup s) < 4294967296 →
  section_signal now s inp ALARM_REACTION_DELAY = Ok (s1, r1) →
  Forall (λ t, t ≤ now + tm_in (setup s)) before → now + tm_in (setup s) < t →
  r1 = [] ∧
  section_tasks before s1 = Ok (s1, []) ∧
  ∃ s2, section_tasks (before ++ t :: after) s1
          = Ok (s2, [Report EVENT_ID_ALARM (source_of (nr inp))]) ∧
    timer (data s2) = 0 ∧ has (flags (data s2)) SECTION_FLAG_TM_IN = false ∧
    has (flags (data s2)) SECTION_FLAG_ALARM = true.
Proof.
  intros Hi Harm Ht Hnow Htm Hw Hs Hb Hafter.
  rewrite section_signal_spec in Hs by done.
  assert (s1 = Section_ (SectionData (state_time (data s)) (now + tm_in (setup s)) (state (data s))
        (Z.lor (flags (data s)) SECTION_FLAG_TM_IN) (Some (nr inp))) (setup s) ∧ r1 = []) as [-> ->].
  { rewrite bool_decide_eq_true_2, Ht in Hs by done. unfold timer_after in Hs.
    rewrite u32_small in Hs by (unfold in_u32; lia).
    destruct Harm as [E|E]; rewrite E in Hs |- *; cbn in Hs; by injection Hs as <- <-. }
  split; [done|].
  assert (∀ s', timer (data s') = now + tm_in (setup s) → section_tasks before s' = Ok (s', []))
    as Hbt by (intros s' E; apply section_tasks_idle; right; by rewrite E).
  split; [by apply Hbt|].
  set (s1 := Section_ _ (setup s)).
  destruct (section_task_expires t s1 (nr inp)) as (s2 & E & E1 & E2 & E3 & _); cbn; try done; try lia.
  { by apply has_lor_same. }
  { apply Hi. }
  exists s2. split; [|done].
  eapply (section_tasks_app before (t :: after) s1 s1 [] s2); [by apply Hbt|].
  cbn. rewrite E. cbn. rewrite section_tasks_idle by (by left). done.
Qed.

(** Disarming cancels a running entry delay: once the section is
    unset (by an unset that found it armed), no later poll raises an alarm. *)
Theorem section_unset_cancels now s source s1 r1 ts :
  section_unset now s source = (true, s1, r1) →
  r1 = [Report EVENT_ID_UNSET source] ∧ state (data s1) = SECTION_ST_UNSET ∧
  has (flags (data s1)) SECTION_FLAG_TM_IN = false ∧
  has (flags (data s1)) SECTION_FLAG_ALARM = false ∧
  section_tasks ts s1 = Ok (s1, []).
Proof.
  unfold section_unset, _set_state. destruct (_ =? _); [done|]. cbn.
  intros [= <- <-]. repeat split; try done; cbn [data enter_state flags clear_timer _flag_clr].
  - unfold clr, SECTION_FLAG_TM_IN, SECTION_FLAG_ALARM. rewrite has_bit, Z.ldiff_spec, Z.lor_spec, !testbit_bit by done.
    apply andb_false_r.
  - unfold clr, SECTION_FLAG_TM_IN, SECTION_FLAG_ALARM. rewrite has_bit, Z.ldiff_spec, Z.lor_spec, !testbit_bit by done.
    apply andb_false_r.
  - apply section_tasks_idle. by left.
Qed.

(** Exit delay: after arming at time [now], DELAY signals leave
    the section as it is until the exit delay has expired, and the poll that
    ends the delay raises no alarm and lets the next DELAY signal start the
    entry delay. *)
Theorem section_exit_delay now s source s1 r1 t inp :
  section_set now s source = (true, s1, r1) → input_ok inp →
  0 < now → 0 < tm_out (setup s) → now + tm_out (setup s) < 4294967296 →
  has (flags (data s)) SECTION_FLAG_TM_IN = false →
  section_signal t s1 inp ALARM_REACTION_DELAY = Ok (s1, []) ∧
  (t ≤ now + tm_out (setup s) → section_task t s1 = Ok (s1, [])) ∧
  (now + tm_out (setup s) < t → ∃ s2, section_task t s1 = Ok (s2, []) ∧
     armed s2 ∧ timer (data s2) = 0 ∧ has (flags (data s2)) SECTION_FLAG_TM_OUT = false).
Proof.
  intros Hset Hi Hnow Htm Hw Hf.
  unfold section_set, _set_state in Hset. destruct (_ =? _); [done|].
  injection Hset as <- <-. set (s1 := Section_ _ (setup s)).
  assert (timer (data s1) = now + tm_out (setup s)) as Ht1.
  { change (timer (data s1)) with (u32 (now + tm_out (setup s))).
    apply u32_small. unfold in_u32. lia. }
  split; [|split].
  - rewrite section_signal_spec, Ht1 by done.
    destruct (Z.eqb_spec (now + tm_out (setup s)) 0); [lia|]. by rewrite !andb_false_r.
  - intros Ht. apply section_task_idle. right. lia.
  - intros Ht. unfold section_task. rewrite Ht1.
    destruct (Z.eqb_spec (now + tm_out (setup s)) 0); [lia|].
    destruct (Z.ltb_spec (now + tm_out (setup s)) t); [|lia].
    cbn -[has clr bit Z.lor].
    unfold SECTION_FLAG_TM_IN, SECTION_FLAG_ALARM, SECTION_FLAG_TM_OUT in *.
    rewrite has_clr_ne, has_lor_same by done. cbn -[has clr bit Z.lor].
    rewrite has_clr_ne, has_clr_ne, has_lor_ne, Hf by done.
    eexists. split; [done|]. split; [by left|]. split; [done|]. by apply has_clr_same.
Qed.

(** ** An armed section *)

Definition setup_default : section_setup := SectionSetup 0 (20 * OS_TIMER_SECOND) (10 * OS_TIMER_SECOND).
Definition unset_section : section_t :=
  Section_ (SectionData 0 0 SECTION_ST_UNSET 0 None) setup_default.
Definition set_section : section_t :=
  Section_ (SectionData 5000 0 SECTION_ST_SET 0 None) setup_default.
Definition door_input : system_input := SystemInput 3 ALARM_REACTION_DELAY 10 0 0.

Lemma door_input_ok : input_ok door_input.
Proof. unfold input_ok, SYSTEM_INP_COUNT, ALARM_MAX_CNT, in_u8. cbn. lia. Qed.

Lemma section_signal_reaction_witness :
  section_signal 100 unset_section door_input ALARM_REACTION_INSTANT = Ok (unset_section, []).
Proof. exact (section_signal_reaction 100 unset_section door_input _ door_input_ok). Defined.

Lemma section_entry_delay_witness :
  ∃ s1, section_signal 100 set_section door_input ALARM_REACTION_DELAY = Ok (s1, []) ∧
  ∃ s2, section_tasks ([200; 300] ++ 10101 :: [20000]) s1
          = Ok (s2, [Report EVENT_ID_ALARM EVENT_SOURCE_DOOR]).
Proof.
  eexists. split; [vm_compute; reflexivity|].
  edestruct (section_entry_delay 100 set_section door_input) as (_ & _ & s2 & H & _).
  - apply door_input_ok.
  - by left.
  - reflexivity.
  - lia.
  - cbn. unfold OS_TIMER_SECOND. lia.
  - cbn. unfold OS_TIMER_SECOND. lia.
  - vm_compute. reflexivity.
  - instantiate (1 := [200; 300]). repeat constructor; cbn; unfold OS_TIMER_SECOND; lia.
  - instantiate (1 := 10101). cbn. unfold OS_TIMER_SECOND. lia.
  - exists s2. exact H.
Defined.

Lemma section_unset_cancels_witness :
  ∃ s1 r1, section_unset 9000 set_section EVENT_SOURCE_USER1 = (true, s1, r1) ∧
    section_tasks [30000] s1 = Ok (s1, []).
Proof.
  eexists _, _. split; [reflexivity|].
  eapply (section_unset_cancels 9000 set_section EVENT_SOURCE_USER1). reflexivity.
Defined.

Lemma section_exit_delay_witness :
  ∃ s1 r1, section_set 9000 unset_section EVENT_SOURCE_USER1 = (true, s1, r1) ∧
    section_signal 9500 s1 door_input ALARM_REACTION_DELAY = Ok (s1, []).
Proof.
  eexists _, _. split; [reflexivity|].
  eapply (section_exit_delay 9000 unset_section EVENT_SOURCE_USER1).
  - reflexivity.
  - apply door_input_ok.
  - lia.
  - cbn. unfold OS_TIMER_SECOND. lia.
  - cbn. unfold OS_TIMER_SECOND. lia.
  - reflexivity.
Defined.
