(* ===== verification/System.v ===== *)
(** * Alarm system (app/system.c, system_input_tick of app/system_input.c)

    Composes the section, its inputs, the alarm and the outputs: what the
    firmware does when an input changes, when the user arms or disarms, when an
    event is processed, and on every tick.  Calls that leave the modelled
    program (LED and beep sequences, the tracker, writing the state into the
    configuration) and the event reports are the actions an operation returns,
    in call order. *)

From S2P Require Import Prelude CText EventTypes EventQueue Out Alarm ArmSection.

(** ** State *)

(** src/app/system.h:28-30 (SYSTEM_INT_POWER_FAIL .. SYSTEM_INT_BATT_FAIL) *)
Definition SYSTEM_INT_POWER_FAIL : Z := bit 0.
Definition SYSTEM_INT_BATT_LOW : Z := bit 1.
Definition SYSTEM_INT_BATT_FAIL : Z := bit 2.

(** src/app/system.c:19-22 (system_io_state, system_int_state, section) *)
Record system := System {
  section : section_t;
  _sys_inp : list system_input;
  al : alarm;                      (* with [system_io_state] inside [outs] *)
  system_int_state : Z
}.

Inductive action :=
  | AEvent (r : report)                  (* event_create *)
  | ALed (mask len : Z)                  (* app_main_led_single *)
  | ABeep (mask len : Z)                 (* app_main_siren_beep *)
  | ATracerKeyStart                      (* tracer_key_start *)
  | ATracerStop                          (* tracer_stop *)
  | ATracerShock (on : bool)             (* tracer_shock_start *)
  | ACfgState (text : list Z).           (* cfg_write (CFG_ID_STATE, ..) *)

Definition set_section_of (s : section_t) (w : system) : system :=
  System s (_sys_inp w) (al w) (system_int_state w).
Definition set_inputs (l : list system_input) (w : system) : system :=
  System (section w) l (al w) (system_int_state w).
Definition set_al (a : alarm) (w : system) : system :=
  System (section w) (_sys_inp w) a (system_int_state w).
Definition set_io_of (f : Z → Z) (w : system) : system :=
  let a := al w in
  set_al (Alarm (_state a) (_siren_state a) (_siren_tmr a) (_alarm_tmr a) (_alarm_cnt a)
            (set_io (f (system_io_state (outs a))) (outs a))) w.

(** ** Saved state *)

(** src/app/system.c:24-29 (_save_state) *)
Definition _save_state (w : system) : action :=
  ACfgState (83 :: print_dec (state (data (section w)))).

(** [cfg] is what reading CFG_ID_STATE gives. *)
(** src/app/system.c:31-53 (system_init) *)
Definition system_init (wr : wires) (cfg : option (list Z)) (w : system) : bool * system :=
  let w := set_inputs system_input_init w in
  match cfg with
  | None => (false, w)
  | Some buf =>
      let s := section_init (Section_ (data (section w))
                 (SectionSetup 0 (u16 (20 * OS_TIMER_SECOND)) (u16 (10 * OS_TIMER_SECOND)))) in
      let w := set_al (alarm_init wr (al w)) w in
      let st := match scan_char 83 buf with
                | Some r => match scan_s32 r with
                            | Some (v, _) => v
                            | None => section_state_code SECTION_ST_UNSET
                            end
                | None => section_state_code SECTION_ST_UNSET
                end in
      let d := data s in
      (true, set_section_of
               (Section_ (SectionData (state_time d) (timer d) st (flags d) (alarm_inp d))
                  (setup s)) w)
  end.

(** src/app/system.c:55-61 (system_int_state_update) *)
Definition system_int_state_update (b : Z) (status : bool) (w : system) : system :=
  System (section w) (_sys_inp w) (al w)
    (if status then Z.lor (system_int_state w) b else clr (system_int_state w) b).

(** src/app/system.c:63-66 (system_state) *)
Definition system_state (w : system) : Z := state (data (section w)).

(** ** Inputs *)

Definition events (l : list report) : list action := AEvent <$> l.

(** src/app/system.c:133-136 (system_inp_signal) *)
Definition system_inp_signal (now n : Z) (signal : alarm_reaction) (w : system)
    : outcome (system * list action) :=
  inp ← system_input_get n (_sys_inp w);
  '(s, r) ← section_signal now (section w) inp signal;
  Ok (set_section_of s w, events r).

(** src/app/system.c:72-86 (system_inp_activated) *)
Definition activated_io (n : Z) : option system_io :=
  if n =? INP_INP1 then Some SYSTEM_IO_INP1
  else if n =? INP_INP2 then Some SYSTEM_IO_INP2
  else if n =? INP_INP3 then Some SYSTEM_IO_INP3
  else if n =? INP_DOOR then Some SYSTEM_IO_DOOR
  else if n =? INP_KEY then Some SYSTEM_IO_KEY
  else if n =? INP_SHOCK then Some SYSTEM_IO_SHOCK
  else None.

(** src/app/app.h:21-21 (APP_LED_SHOCK) *)
Definition APP_LED_SHOCK : action := ALed 15 15.

(** src/app/system.c:68-108 (system_inp_activated) *)
Definition system_inp_activated (now n : Z) (w : system) : outcome (system * list action) :=
  inp ← system_input_get n (_sys_inp w);
  let w := match activated_io n with
           | Some b => set_io_of (λ io, Z.lor io b) w
           | None => w
           end in
  let a0 := if n =? INP_SHOCK then [APP_LED_SHOCK] else [] in
  '(w, a1) ←
    (if section_alarm_enabled (section w) (reaction inp) then
       let '(fire, inp) := system_input_alarm inp in
       l ← (_sys_inp w).[n <- inp];
       let w := set_inputs l w in
       if fire then
         '(s, r) ← section_signal now (section w) inp (reaction inp);
         Ok (set_section_of s w, events r)
       else Ok (w, [])
     else Ok (w, []));
  let a2 := if state (data (section w)) =? SECTION_ST_UNSET then
              if n =? INP_KEY then [ATracerKeyStart]
              else if n =? INP_SHOCK then [ATracerShock true] else []
            else [] in
  Ok (w, a0 ++ a1 ++ a2).

(** src/app/system.c:110-131 (system_inp_deactivated) *)
Definition system_inp_deactivated (n : Z) (w : system) : system * list action :=
  let w := match activated_io n with
           | Some b => set_io_of (λ io, clr io b) w
           | None => w
           end in
  (w, if n =? INP_KEY then [ATracerStop]
      else if n =? INP_SHOCK then [ATracerShock false] else []).

(** The body of the loop of [system_input_tick] for input [n]. *)
(** src/app/system_input.c:78-92 (system_input_tick) *)
Definition input_tick1 (now n : Z) (w : system) : outcome (system * list action) :=
  inp ← (_sys_inp w).[n];
  _ ← os_assert (nr inp =? n);
  if tmr inp =? 0 then Ok (w, [])
  else
    let inp := SystemInput (nr inp) (reaction inp) (postpone inp) (tmr inp - 1) (cnt inp) in
    l ← (_sys_inp w).[n <- inp];
    let w := set_inputs l w in
    if tmr inp =? 0 then system_inp_signal now n (reaction inp) w else Ok (w, []).

Fixpoint seq_actions (fs : list (system → outcome (system * list action))) (w : system)
    : outcome (system * list action) :=
  match fs with
  | [] => Ok (w, [])
  | f :: fs => '(w, a) ← f w; '(w, b) ← seq_actions fs w; Ok (w, a ++ b)
  end.

(** src/app/system_input.c:74-93 (system_input_tick) *)
Definition system_input_tick (now : Z) : system → outcome (system * list action) :=
  seq_actions (input_tick1 now <$> seqZ 0 SYSTEM_INP_COUNT).

(** src/app/system.c:201-204 (system_tick) *)
Definition system_tick (now : Z) : system → outcome (system * list action) :=
  system_input_tick now.

(** ** Arming and disarming *)

(** [access] contributes its source. *)
(** src/app/system.c:151-160 (system_set) *)
Definition system_set (now : Z) (source : event_source) (w : system) : system * list action :=
  let '(done, s, r) := section_set now (section w) source in
  let w := set_section_of s w in
  if done then
    let w := set_inputs (system_input_reset (_sys_inp w)) w in
    (w, events r ++ [ABeep 1 8; _save_state w])
  else (w, events r).

(** src/app/system.c:162-181 (system_unset) *)
Definition system_unset (wr : wires) (now : Z) (source : event_source) (w : system)
    : system * list action :=
  let '(done, s, r) := section_unset now (section w) source in
  let w := set_section_of s w in
  if done then
    let a0 := if decide (_state (al w) = ALARM_ACTIVE)
              then [AEvent (Report EVENT_ID_ALARM_CANCEL source)] else [] in
    let after_alarm := bool_decide (_state (al w) ≠ ALARM_IDLE) in
    let w := set_al (alarm_stop wr (al w)) w in
    let w := set_inputs (system_input_reset (_sys_inp w)) w in
    (w, events r ++ a0 ++ [ABeep 273 (if after_alarm then 12 else 8); _save_state w])
  else (w, events r).

(** ** Events and ticks *)

(** src/app/system.c:183-199 (system_event) *)
Definition system_event (wr : wires) (e : Z) (w : system) : system * list action :=
  if e =? EVENT_ID_SET then (w, [ALed 255 8])
  else if e =? EVENT_ID_UNSET then (w, [ALed 3855 12])
  else if e =? EVENT_ID_ALARM then (set_al (alarm_trigger wr (al w)) w, [])
  else (w, []).

(** src/app/system.c:206-209 (system_task) *)
Definition system_task (now : Z) (w : system) : outcome (system * list action) :=
  '(s, r) ← section_task now (section w);
  Ok (set_section_of s w, events r).

(** ** The system under any sequence of calls

    [call] is what the tasks of the firmware can do to the system: each one runs
    to its end before the next (the model has no preemption inside one). *)

Inductive call :=
  | CActivated (now : Z) (n : inp_id)
  | CDeactivated (n : inp_id)
  | CTick (now : Z)
  | CAlarmTick (wr : wires)
  | CTask (now : Z)
  | CSet (now : Z) (source : event_source)
  | CUnset (wr : wires) (now : Z) (source : event_source)
  | CEvent (wr : wires) (e : Z)
  | CIo (wr : wires) (on : bool) (b : Z).

Definition run (c : call) (w : system) : outcome (system * list action) :=
  match c with
  | CActivated now n => system_inp_activated now n w
  | CDeactivated n => Ok (system_inp_deactivated n w)
  | CTick now => system_tick now w
  | CAlarmTick wr => Ok (set_al (alarm_tick wr (al w)) w, [])
  | CTask now => system_task now w
  | CSet now source => Ok (system_set now source w)
  | CUnset wr now source => Ok (system_unset wr now source w)
  | CEvent wr e => Ok (system_event wr e w)
  | CIo wr on b =>
      let a := al w in
      Ok (set_al (Alarm (_state a) (_siren_state a) (_siren_tmr a) (_alarm_tmr a) (_alarm_cnt a)
            (if on then system_io_activate wr b (outs a) else system_io_deactivate wr b (outs a))) w, [])
  end.

Definition run_all (cs : list call) : system → outcome (system * list action) :=
  seq_actions (run <$> cs).

(** ** Invariant *)

Record system_ok (w : system) : Prop := {
  ok_section : section_ok (section w);
  (* an unset section has no timer running *)
  ok_unset : state (data (section w)) = SECTION_ST_UNSET →
    timer (data (section w)) = 0;
  ok_count : length (_sys_inp w) = 8%nat;
  ok_inputs : ∀ i inp, _sys_inp w !! i = Some inp → input_ok inp ∧ nr inp = Z.of_nat i;
  ok_alarm : alarm_ok (al w)
}.

Lemma input_get_ok w n :
  system_ok w → 0 ≤ n < SYSTEM_INP_COUNT →
  ∃ inp, _sys_inp w !! Z.to_nat n = Some inp ∧ (_sys_inp w).[n] = Ok inp ∧
    system_input_get n (_sys_inp w) = Ok inp ∧ input_ok inp ∧ nr inp = n.
Proof.
  unfold SYSTEM_INP_COUNT. intros Hw Hn. destruct (arr_get_is_Ok (_sys_inp w) n) as [inp Hi].
  { rewrite (ok_count w Hw). cbn. lia. }
  exists inp. pose proof Hi as [_ Hl]%arr_get_Ok. split; [done|]. split; [done|]. split.
  - unfold system_input_get, os_assert, SYSTEM_INP_COUNT. destruct (Z.ltb_spec n 8); [done|lia].
  - destruct (ok_inputs w Hw _ _ Hl). split; [done|lia].
Qed.

Lemma set_inputs_ok w n inp :
  system_ok w → 0 ≤ n < SYSTEM_INP_COUNT → input_ok inp → nr inp = n →
  system_ok (set_inputs (<[Z.to_nat n := inp]> (_sys_inp w)) w).
Proof.
  intros [H1 H2 H3 H4 H5] Hn Hi Hnr. split; try done.
  - cbn. by rewrite length_insert.
  - intros i x. cbn. intros Hx. apply list_lookup_insert_Some in Hx as [(<- & <- & _)|[_ Hx]].
    + split; [done|lia].
    + by apply H4.
Qed.

Lemma set_section_ok w s :
  system_ok w → section_ok s →
  (state (data s) = SECTION_ST_UNSET → timer (data s) = 0) →
  system_ok (set_section_of s w).
Proof. intros [H1 H2 H3 H4 H5] Hs Ht. by split. Qed.

Lemma set_al_ok w a : system_ok w → alarm_ok a → system_ok (set_al a w).
Proof. intros [H1 H2 H3 H4 H5] Ha. by split. Qed.

Lemma set_io_of_ok w f : system_ok w → system_ok (set_io_of f w).
Proof.
  intros Hw. apply set_al_ok; [done|]. destruct (ok_alarm w Hw). by split.
Qed.

(** A signal keeps the section well formed, whatever its reaction. *)
Lemma section_signal_ok now s inp r :
  section_ok s → (state (data s) = SECTION_ST_UNSET → timer (data s) = 0) → input_ok inp →
  ∃ s' l, section_signal now s inp r = Ok (s', l) ∧ section_ok s' ∧
    (state (data s') = SECTION_ST_UNSET → timer (data s') = 0) ∧
    state (data s') = state (data s).
Proof.
  intros Hs Hu Hi. rewrite section_signal_spec by done.
  destruct (alarms_at_once s r).
  - eexists _, _. split; [done|]. split; [|done].
    unfold section_ok, SECTION_FLAG_TM_IN in *. cbn [with_flag data _flag_set flags alarm_inp].
    unfold SECTION_FLAG_ALARM. rewrite has_lor_ne by done. done.
  - destruct (_ && _) eqn:E; eexists _, _; (split; [done|]); [|done].
    apply andb_prop in E as [E _]. apply andb_prop in E as [_ E]. split; [|split; [|done]].
    + intros _. split.
      * apply orb_prop in E as [E|E]; apply Z.eqb_eq in E; [by right|by left].
      * exists (nr inp). split; [done|apply Hi].
    + cbn -[timer_after]. intros Hst. rewrite Hst in E. discriminate E.
Qed.

(** The poll that ends a delay which was not an entry delay. *)
Lemma section_task_quiet now s :
  has (flags (data s)) SECTION_FLAG_TM_IN = false →
  timer (data s) ≠ 0 ∧ timer (data s) < now →
  ∃ s', section_task now s = Ok (s', []) ∧
    has (flags (data s')) SECTION_FLAG_TM_IN = false ∧ state (data s') = state (data s) ∧
    timer (data s') = 0.
Proof.
  intros Hf Hx. unfold section_task.
  destruct (Z.eqb_spec (timer (data s)) 0), (Z.ltb_spec (timer (data s)) now); try lia.
  cbn [orb negb]. cbn zeta.
  set (d := if has (flags (clear_timer (data s))) SECTION_FLAG_TM_OUT
            then _flag_clr SECTION_FLAG_TM_OUT (clear_timer (data s)) else clear_timer (data s)).
  assert (has (flags d) SECTION_FLAG_TM_IN = false ∧ timer d = 0 ∧ state d = state (data s))
    as (D1 & D2 & D3).
  { unfold d. destruct (has (flags (clear_timer (data s))) SECTION_FLAG_TM_OUT); [|done].
    split; [|done]. cbn [_flag_clr flags clear_timer].
    unfold SECTION_FLAG_TM_IN, SECTION_FLAG_TM_OUT in *. by rewrite has_clr_ne. }
  rewrite D1. eexists. split; [done|]. done.
Qed.

Lemma section_task_ok now s :
  section_ok s → (state (data s) = SECTION_ST_UNSET → timer (data s) = 0) →
  ∃ s' l, section_task now s = Ok (s', l) ∧ section_ok s' ∧
    (state (data s') = SECTION_ST_UNSET → timer (data s') = 0) ∧
    state (data s') = state (data s).
Proof.
  intros Hs Hu. destruct (decide (timer (data s) = 0 ∨ now ≤ timer (data s))) as [Hi|Hx].
  { exists s, []. by rewrite section_task_idle. }
  destruct (has (flags (data s)) SECTION_FLAG_TM_IN) eqn:Hf.
  - destruct (Hs Hf) as (_ & i & Hi & Hr).
    destruct (section_task_expires now s i) as (s' & E & E1 & E2 & E3 & E4); [lia|lia|done|done|done|].
    exists s', [Report EVENT_ID_ALARM (source_of i)]. split; [done|]. split; [|split; [|done]].
    + intros Hc. congruence.
    + intros _. done.
  - destruct (section_task_quiet now s Hf) as (s' & E & E1 & E2 & E3); [lia|].
    exists s', []. split; [done|]. split; [|done]. unfold section_ok. by rewrite E1.
Qed.

Lemma system_input_alarm_ok inp b inp' :
  input_ok inp → system_input_alarm inp = (b, inp') → input_ok inp' ∧ nr inp' = nr inp.
Proof.
  intros (H1 & H2 & H3 & H4). unfold system_input_alarm, ALARM_MAX_CNT in *.
  destruct (Z.leb_spec 3 (cnt inp)); [by intros [= <- <-]|].
  cbn -[u8]. rewrite u8_small by (unfold in_u8; lia).
  repeat case_if; intros [= <- <-]; (split; [|done]); unfold input_ok, ALARM_MAX_CNT; cbn;
    repeat split; (done || lia || apply H2 || apply H3).
Qed.

Lemma system_inp_signal_ok now n r w :
  system_ok w → 0 ≤ n < SYSTEM_INP_COUNT →
  ∃ w' a, system_inp_signal now n r w = Ok (w', a) ∧ system_ok w'.
Proof.
  intros Hw Hn. destruct (input_get_ok w n Hw Hn) as (inp & _ & _ & E & Hi & _).
  unfold system_inp_signal. rewrite E. cbn [mbind outcome_bind].
  destruct (section_signal_ok now (section w) inp r) as (s' & l & E' & S1 & S2 & _);
    [apply Hw|apply Hw|done|]. rewrite E'.
  eexists _, _. split; [done|]. by apply set_section_ok.
Qed.

Lemma input_tick1_ok now n w :
  system_ok w → 0 ≤ n < SYSTEM_INP_COUNT →
  ∃ w' a, input_tick1 now n w = Ok (w', a) ∧ system_ok w'.
Proof.
  intros Hw Hn. destruct (input_get_ok w n Hw Hn) as (inp & Hl & E & _ & Hi & Hnr).
  unfold input_tick1. rewrite E. cbn [mbind outcome_bind].
  rewrite Hnr, Z.eqb_refl. cbn [os_assert mbind outcome_bind].
  destruct (Z.eqb_spec (tmr inp) 0); [by exists w, []|].
  unfold SYSTEM_INP_COUNT in Hn.
  rewrite arr_set_Ok by (rewrite (ok_count w Hw); cbn; lia). cbn [mbind outcome_bind].
  set (inp' := SystemInput n (reaction inp) (postpone inp) (tmr inp - 1) (cnt inp)).
  assert (system_ok (set_inputs (<[Z.to_nat n := inp']> (_sys_inp w)) w)) as Hw'.
  { apply set_inputs_ok; [done|done| |done]. destruct Hi as (H1 & H2 & H3 & H4).
    unfold in_u8 in *. repeat split; cbn; (done || lia). }
  destruct (_ =? 0).
  - by apply system_inp_signal_ok.
  - eexists _, _. by split.
Qed.

Lemma seq_actions_ok (fs : list (system → outcome (system * list action))) w :
  (∀ f w, f ∈ fs → system_ok w → ∃ w' a, f w = Ok (w', a) ∧ system_ok w') →
  system_ok w → ∃ w' a, seq_actions fs w = Ok (w', a) ∧ system_ok w'.
Proof.
  intros Hf. revert w. induction fs as [|f fs IH]; intros w Hw; [by exists w, []|].
  destruct (Hf f w) as (w1 & a1 & E1 & Hw1); [by left|done|].
  destruct (IH (λ g w' Hg, Hf g w' (list_elem_of_further _ _ _ Hg)) w1 Hw1) as (w2 & a2 & E2 & Hw2).
  exists w2, (a1 ++ a2). split; [|done]. cbn. rewrite E1. cbn. by rewrite E2.
Qed.

Lemma inp_id_code_range (n : inp_id) : 0 ≤ inp_id_code n < SYSTEM_INP_COUNT.
Proof. destruct n; unfold SYSTEM_INP_COUNT; cbn; lia. Qed.

Lemma system_inp_activated_ok now (n : inp_id) w :
  system_ok w → ∃ w' a, system_inp_activated now n w = Ok (w', a) ∧ system_ok w'.
Proof.
  intros Hw. pose proof (inp_id_code_range n) as Hn.
  destruct (input_get_ok w n Hw Hn) as (inp & Hl & _ & E & Hi & Hnr).
  unfold system_inp_activated. rewrite E. cbn [mbind outcome_bind]. cbn zeta.
  set (w1 := match activated_io n with Some b => _ | None => w end).
  assert (system_ok w1 ∧ _sys_inp w1 = _sys_inp w) as [Hw1 E1].
  { unfold w1. destruct (activated_io n); [|done]. split; [by apply set_io_of_ok|done]. }
  clearbody w1. destruct (section_alarm_enabled _ _); [|eexists _, _; by split].
  destruct (system_input_alarm inp) as [fire inp'] eqn:Ea.
  destruct (system_input_alarm_ok _ _ _ Hi Ea) as [Hi' Hnr'].
  rewrite arr_set_Ok by (rewrite (ok_count w1 Hw1); unfold SYSTEM_INP_COUNT in Hn; cbn; lia).
  cbn [mbind outcome_bind].
  assert (system_ok (set_inputs (<[Z.to_nat n := inp']> (_sys_inp w1)) w1)) as Hw2
    by (apply set_inputs_ok; [done|done|done|congruence]).
  destruct fire; [|eexists _, _; by split].
  change (section (set_inputs _ w1)) with (section w1).
  destruct (section_signal_ok now (section w1) inp' (reaction inp')) as (s' & l & E' & S1 & S2 & _);
    [apply Hw1|apply Hw1|done|]. rewrite E'. cbn [mbind outcome_bind].
  eexists _, _. split; [done|]. by apply set_section_ok.
Qed.

Lemma reset_ok w : system_ok w → system_ok (set_inputs (system_input_reset (_sys_inp w)) w).
Proof.
  intros [H1 H2 H3 H4 H5]. split; try done.
  - cbn. unfold system_input_reset. by rewrite length_fmap.
  - intros i x. cbn. unfold system_input_reset. rewrite list_lookup_fmap.
    destruct (_sys_inp w !! i) as [y|] eqn:Hy; [|done]. intros [= <-].
    destruct (H4 _ _ Hy) as [(A & B & C & D) ?]. split; [|done].
    unfold input_ok, in_u8, ALARM_MAX_CNT in *. cbn. repeat split; (done || lia).
Qed.

Lemma _set_state_ok now s st source b s' r :
  section_ok s → (state (data s) = SECTION_ST_UNSET → timer (data s) = 0) →
  _set_state now s st source = (b, s', r) →
  section_ok s' ∧ (state (data s') = SECTION_ST_UNSET → timer (data s') = 0).
Proof.
  intros Hs Hu. unfold _set_state.
  destruct (_ =? _); [by intros [= <- <- <-]|].
  destruct st; intros [= <- <- <-]; try done.
  - split; [|done]. unfold section_ok, SECTION_FLAG_TM_IN, SECTION_FLAG_ALARM.
    cbn -[has clr bit Z.lor]. unfold clr.
    rewrite has_bit, Z.ldiff_spec, Z.lor_spec, !testbit_bit, andb_false_r by done. done.
  - split; [|done]. unfold section_ok, SECTION_FLAG_TM_IN, SECTION_FLAG_ALARM, SECTION_FLAG_TM_OUT in *.
    cbn [data enter_state _flag_clr _flag_set _set_timer flags alarm_inp].
    rewrite has_clr_ne, has_lor_ne by done. intros Hf. split; [by left|]. by apply Hs.
Qed.

Lemma system_set_ok now source w : system_ok w → system_ok (system_set now source w).1.
Proof.
  intros Hw. unfold system_set.
  destruct (section_set now (section w) source) as [[b s] r] eqn:E.
  destruct (_set_state_ok _ _ _ _ _ _ _ (ok_section w Hw) (ok_unset w Hw) E) as [S1 S2].
  destruct b; cbn [fst]; [|by apply set_section_ok].
  apply reset_ok. by apply set_section_ok.
Qed.

Lemma system_unset_ok wr now source w : system_ok w → system_ok (system_unset wr now source w).1.
Proof.
  intros Hw. unfold system_unset.
  destruct (section_unset now (section w) source) as [[b s] r] eqn:E.
  destruct (_set_state_ok _ _ _ _ _ _ _ (ok_section w Hw) (ok_unset w Hw) E) as [S1 S2].
  destruct b; cbn [fst]; [|by apply set_section_ok].
  apply reset_ok, set_al_ok; [by apply set_section_ok|]. apply alarm_stop_ok, Hw.
Qed.

Lemma run_ok c w : system_ok w → ∃ w' a, run c w = Ok (w', a) ∧ system_ok w'.
Proof.
  intros Hw. destruct c as [now n|n|now|wr|now|now src|wr now src|wr e|wr on b]; cbn [run].
  - by apply system_inp_activated_ok.
  - unfold system_inp_deactivated. eexists _, _. split; [done|].
    destruct (activated_io n); [by apply set_io_of_ok|done].
  - apply seq_actions_ok; [|done]. intros f w' Hf Hw'.
    apply list_elem_of_fmap in Hf as (n & -> & Hn%elem_of_seqZ).
    apply input_tick1_ok; [done|lia].
  - eexists _, _. split; [done|]. apply set_al_ok; [done|]. apply alarm_tick_ok, Hw.
  - destruct (section_task_ok now (section w)) as (s & l & E & S1 & S2 & _); [apply Hw..|].
    unfold system_task. rewrite E. eexists _, _. split; [done|]. by apply set_section_ok.
  - eexists _, _. split; [by rewrite <- surjective_pairing|]. by apply system_set_ok.
  - eexists _, _. split; [by rewrite <- surjective_pairing|]. by apply system_unset_ok.
  - eexists _, _. split; [by rewrite <- surjective_pairing|]. unfold system_event.
    repeat case_if; try done. apply set_al_ok; [done|]. apply alarm_trigger_ok, Hw.
  - eexists _, _. split; [done|]. apply set_al_ok; [done|]. destruct (ok_alarm w Hw). by split.
Qed.

Lemma system_init_ok wr cfg w :
  alarm_ok (al w) → (system_init wr cfg w).1 = true → system_ok (system_init wr cfg w).2.
Proof.
  intros Ha. unfold system_init. destruct cfg as [buf|]; [|done]. intros _. cbn [snd].
  split; cbn -[alarm_init]; try done.
  - intros [|[|[|[|[|[|[|[|i]]]]]]]] inp; cbn; intros [= <-];
      (split; [|done]); unfold input_ok, in_u8, SYSTEM_INP_COUNT, ALARM_MAX_CNT, _TICK_SECOND; cbn; lia.
  - destruct Ha as [H1 H2 H3 H4 H5 H6 H7]. unfold alarm_init, _siren_off. cbn.
    destruct (_siren_state (al w)) eqn:E; cbn.
    + split; cbn; unfold _SIREN_TIME, _ALARM_TIME, in_u16; (done || lia).
    + symmetry in H3. apply negb_false_iff, Z.eqb_eq in H3.
      split; cbn; rewrite ?H3, ?E; unfold _SIREN_TIME, _ALARM_TIME, in_u16; (done || lia).
Qed.

(** C4 (invariant). No sequence of input changes, ticks, polls, arming and
    disarming, events and output requests after a successful [system_init], in
    any order and at any times, trips an assertion or leaves an array: every
    call returns, and the section, inputs and alarm stay well formed. *)
Theorem system_never_asserts wr cfg w cs :
  alarm_ok (al w) → (system_init wr cfg w).1 = true →
  ∃ w' a, run_all cs (system_init wr cfg w).2 = Ok (w', a) ∧ system_ok w'.
Proof.
  intros Ha Hi. apply seq_actions_ok; [|by apply system_init_ok].
  intros f w' Hf Hw'. apply list_elem_of_fmap in Hf as (c & -> & _). by apply run_ok.
Qed.

(** ** When an alarm is reported *)

Definition is_alarm (a : action) : bool :=
  match a with AEvent r => bool_decide (rep_id r = EVENT_ID_ALARM) | _ => false end.

Definition alarm_count (l : list action) : nat := length (filter (λ a, is_alarm a = true) l).

Lemma alarm_count_app a b : alarm_count (a ++ b) = (alarm_count a + alarm_count b)%nat.
Proof. unfold alarm_count. by rewrite filter_app, length_app. Qed.

(** No input has the 24-hour reaction (what [system_input_init] sets up). *)
Definition no_24h (w : system) : Prop :=
  ∀ i inp, _sys_inp w !! i = Some inp → reaction inp ≠ ALARM_REACTION_24H.

(** The tokens the inputs and the entry delay can still turn into alarms. *)
Definition inp_credit (i : system_input) : Z :=
  (ALARM_MAX_CNT - cnt i) + (if tmr i =? 0 then 0 else 1).
Definition sum_credit : list system_input → Z := foldr (λ i c, inp_credit i + c) 0.
Definition section_credit (s : section_t) : Z :=
  if has (flags (data s)) SECTION_FLAG_TM_IN then 1 else 0.
Definition credit (w : system) : Z := sum_credit (_sys_inp w) + section_credit (section w).

Lemma sum_credit_insert l n x y :
  l !! n = Some x → sum_credit (<[n := y]> l) = sum_credit l - inp_credit x + inp_credit y.
Proof.
  revert n. induction l as [|z l IH]; intros [|n]; intros H; try done.
  - injection H as ->.
    change (inp_credit y + sum_credit l
            = inp_credit x + sum_credit l - inp_credit x + inp_credit y). lia.
  - change (inp_credit z + sum_credit (<[n := y]> l)
            = inp_credit z + sum_credit l - inp_credit x + inp_credit y).
    rewrite (IH n H). lia.
Qed.

Lemma sum_credit_reset l : sum_credit (system_input_reset l) = 3 * Z.of_nat (length l).
Proof.
  induction l as [|i l IH]; [done|].
  change (3 + sum_credit (system_input_reset l) = 3 * Z.of_nat (S (length l))). lia.
Qed.

Lemma sum_credit_nonneg l : (∀ i, i ∈ l → input_ok i) → 0 ≤ sum_credit l.
Proof.
  induction l as [|i l IH]; intros H; [done|].
  change (0 ≤ inp_credit i + sum_credit l).
  assert (0 ≤ sum_credit l) by (apply IH; intros j Hj; apply H; by right).
  destruct (H i) as (_ & _ & _ & Hc); [by left|]. unfold inp_credit. case_if; lia.
Qed.

(** A signal turns at most one token into an alarm, and alarms only an armed
    section (or a 24-hour signal). *)
Lemma section_signal_credit now s inp r s' l :
  input_ok inp → section_signal now s inp r = Ok (s', l) →
  Z.of_nat (alarm_count (events l)) + section_credit s' ≤ section_credit s + 1 ∧
  (r ≠ ALARM_REACTION_24H → ¬ armed s → alarm_count (events l) = 0%nat) ∧
  state (data s') = state (data s).
Proof.
  intros Hi. rewrite section_signal_spec by done. unfold armed.
  destruct (alarms_at_once s r) eqn:E.
  - intros [= <- <-]. split; [|split; [|done]].
    + change (alarm_count _) with 1%nat. unfold section_credit, SECTION_FLAG_TM_IN.
      cbn [with_flag data _flag_set flags]. unfold SECTION_FLAG_ALARM.
      rewrite has_lor_ne by done. lia.
    + intros Hr Ha. destruct r; try discriminate E; [|done].
      unfold alarms_at_once in E. destruct Ha.
      apply orb_prop in E as [E|E]; apply Z.eqb_eq in E; auto.
  - destruct (_ && _); intros [= <- <-]; change (alarm_count _) with 0%nat; (split; [|done]);
      unfold section_credit; repeat case_if; lia.
Qed.

(** One call spends tokens for the alarms it reports. *)
Definition spends (w w' : system) (a : list action) : Prop :=
  Z.of_nat (alarm_count a) + credit w' ≤ credit w ∧
  (no_24h w → ¬ armed (section w) → alarm_count a = 0%nat) ∧
  state (data (section w')) = state (data (section w)) ∧
  (no_24h w → no_24h w').

Lemma spends_refl w a : alarm_count a = 0%nat → spends w w a.
Proof. intros H. unfold spends. rewrite H. repeat split; (done || lia). Qed.

Lemma spends_frame w w' a :
  section w' = section w → _sys_inp w' = _sys_inp w → alarm_count a = 0%nat → spends w w' a.
Proof.
  intros E1 E2 H. unfold spends, credit, no_24h. rewrite H, E1, E2. repeat split; (done || lia).
Qed.

Lemma spends_trans w w1 w2 a b :
  spends w w1 a → spends w1 w2 b → spends w w2 (a ++ b).
Proof.
  unfold spends, armed. rewrite alarm_count_app. intros (A & B & C & D) (A' & B' & C' & D').
  split; [lia|]. split; [|split; [congruence|auto]].
  intros H1 H2. rewrite B, B'; [done|by apply D| |done|done].
  by rewrite C.
Qed.

Lemma spends_inputs w n x y :
  _sys_inp w !! Z.to_nat n = Some x → reaction y = reaction x → inp_credit y ≤ inp_credit x →
  spends w (set_inputs (<[Z.to_nat n := y]> (_sys_inp w)) w) [] ∧
  credit (set_inputs (<[Z.to_nat n := y]> (_sys_inp w)) w) =
    credit w - inp_credit x + inp_credit y.
Proof.
  intros Hx Hr Hc.
  assert (credit (set_inputs (<[Z.to_nat n := y]> (_sys_inp w)) w) =
    credit w - inp_credit x + inp_credit y) as E.
  { unfold credit. cbn. rewrite (sum_credit_insert _ _ _ _ Hx). lia. }
  split; [|done]. split; [rewrite E; cbn; lia|]. split; [done|]. split; [done|].
  intros Hn i inp. cbn. intros Hi. apply list_lookup_insert_Some in Hi as [(<- & <- & _)|[_ Hi]].
  - rewrite Hr. by eapply Hn.
  - by eapply Hn.
Qed.

Lemma spends_signal now w inp s l n :
  system_ok w → _sys_inp w !! n = Some inp →
  section_signal now (section w) inp (reaction inp) = Ok (s, l) →
  Z.of_nat (alarm_count (events l)) + credit (set_section_of s w) ≤ credit w + 1 ∧
  (no_24h w → ¬ armed (section w) → alarm_count (events l) = 0%nat) ∧
  state (data s) = state (data (section w)).
Proof.
  intros Hw Hn Hs. destruct (ok_inputs w Hw _ _ Hn) as [Hi _].
  destruct (section_signal_credit _ _ _ _ _ _ Hi Hs) as (A & B & C).
  split; [unfold credit; cbn; lia|]. split; [|done].
  intros H24. apply B. by eapply H24.
Qed.

Lemma input_tick1_spends now n w w' a :
  system_ok w → 0 ≤ n < SYSTEM_INP_COUNT → input_tick1 now n w = Ok (w', a) → spends w w' a.
Proof.
  intros Hw Hn. destruct (input_get_ok w n Hw Hn) as (inp & Hl & E & _ & Hi & Hnr).
  unfold input_tick1. rewrite E. cbn [mbind outcome_bind].
  rewrite Hnr, Z.eqb_refl. cbn [os_assert mbind outcome_bind].
  destruct (Z.eqb_spec (tmr inp) 0) as [|Ht]; [intros [= <- <-]; by apply spends_refl|].
  unfold SYSTEM_INP_COUNT in Hn.
  rewrite arr_set_Ok by (rewrite (ok_count w Hw); cbn; lia). cbn [mbind outcome_bind].
  set (inp' := SystemInput n (reaction inp) (postpone inp) (tmr inp - 1) (cnt inp)).
  destruct (spends_inputs w n inp inp' Hl eq_refl) as [S1 S2].
  { unfold inp_credit. cbn. repeat case_if; lia. }
  set (w1 := set_inputs _ w) in *.
  destruct (Z.eqb_spec (tmr inp') 0) as [H0|H0]; [|by intros [= <- <-]].
  assert (system_ok w1) as Hw1.
  { apply set_inputs_ok; [done|done| |done]. destruct Hi as (H1 & H2 & H3 & H4).
    unfold in_u8 in *. repeat split; cbn; (done || lia). }
  destruct (input_get_ok w1 n Hw1 Hn) as (x & Hx & _ & E1 & _ & _).
  unfold system_inp_signal. rewrite E1. cbn [mbind outcome_bind].
  assert (x = inp') as ->.
  { cbn in Hx. rewrite list_lookup_insert_eq in Hx; [congruence|].
    rewrite (ok_count w Hw). lia. }
  destruct (section_signal now (section w1) inp' (reaction inp')) as [[s l]|] eqn:Es; [|done].
  cbn. intros [= <- <-].
  destruct (spends_signal _ _ _ _ _ _ Hw1 Hx Es) as (A & B & C).
  destruct S1 as (A1 & B1 & C1 & D1).
  assert (inp_credit inp' = inp_credit inp - 1) as Hc.
  { unfold inp_credit. rewrite H0. cbn.
    destruct (Z.eqb_spec (tmr inp) 0); lia. }
  split; [lia|]. split; [|split; [done|done]].
  intros H24 Ha. apply B; [by apply D1|done].
Qed.

Lemma seq_actions_spends (fs : list (system → outcome (system * list action))) w w' a :
  (∀ f w w' a, f ∈ fs → system_ok w → f w = Ok (w', a) → system_ok w' ∧ spends w w' a) →
  system_ok w → seq_actions fs w = Ok (w', a) → spends w w' a.
Proof.
  intros Hf. revert w a. induction fs as [|f fs IH]; intros w a Hw; cbn.
  - intros [= <- <-]. by apply spends_refl.
  - destruct (f w) as [[w1 a1]|] eqn:E1; cbn; [|done].
    destruct (seq_actions fs w1) as [[w2 a2]|] eqn:E2; cbn; [|done]. intros [= <- <-].
    destruct (Hf f w w1 a1) as [Hw1 S1]; [by left|done|done|].
    eapply spends_trans; [done|]. apply IH; [|done|done].
    intros g x y b Hg. apply Hf. by right.
Qed.

Lemma system_inp_activated_spends now (n : inp_id) w w' a :
  system_ok w → system_inp_activated now n w = Ok (w', a) → spends w w' a.
Proof.
  intros Hw. pose proof (inp_id_code_range n) as Hn.
  destruct (input_get_ok w n Hw Hn) as (inp & Hl & _ & E & Hi & Hnr).
  unfold system_inp_activated. rewrite E. cbn [mbind outcome_bind]. cbn zeta.
  set (w1 := match activated_io n with Some b => _ | None => w end).
  assert (system_ok w1 ∧ spends w w1 [] ∧ _sys_inp w1 = _sys_inp w) as (Hw1 & S0 & E1).
  { unfold w1. destruct (activated_io n).
    - split; [by apply set_io_of_ok|]. split; [by apply spends_frame|done].
    - split; [done|]. split; [by apply spends_refl|done]. }
  set (a0 := if _ =? INP_SHOCK then [APP_LED_SHOCK] else []).
  assert (alarm_count a0 = 0%nat) as Ha0 by (unfold a0; by destruct n).
  assert (∀ x y z b, spends x y b → spends x y (a0 ++ b ++
    (if z =? SECTION_ST_UNSET then if n =? INP_KEY then [ATracerKeyStart]
      else if n =? INP_SHOCK then [ATracerShock true] else [] else []))) as Hpad.
  { intros x y z b (A & B & C & D). unfold spends. rewrite !alarm_count_app, Ha0.
    replace (alarm_count (if z =? _ then _ else _)) with 0%nat
      by (destruct (z =? _), n; done).
    rewrite Nat.add_0_r. done. }
  rewrite <- E1 in Hl. clearbody w1 a0. destruct (section_alarm_enabled _ _).
  2:{ cbn [mbind outcome_bind]. intros [= <- <-]. exact (Hpad w w1 _ [] S0). }
  destruct (system_input_alarm inp) as [fire inp'] eqn:Ea.
  destruct (system_input_alarm_ok _ _ _ Hi Ea) as [Hi' Hnr'].
  rewrite arr_set_Ok by (rewrite (ok_count w1 Hw1); unfold SYSTEM_INP_COUNT in Hn; cbn; lia).
  cbn [mbind outcome_bind].
  assert (reaction inp' = reaction inp ∧
    inp_credit inp' + (if fire then 1 else 0) ≤ inp_credit inp) as [Hre Hcr].
  { destruct Hi as (_ & _ & _ & Hc). unfold system_input_alarm, ALARM_MAX_CNT in *.
    destruct (Z.leb_spec 3 (cnt inp)); [injection Ea as <- <-; split; [done|lia]|].
    rewrite u8_small in Ea by (unfold in_u8; lia). cbn in Ea.
    unfold inp_credit, ALARM_MAX_CNT.
    destruct (Z.eqb_spec (postpone inp) 0); cbn in Ea; [injection Ea as <- <-; cbn; split; [done|lia]|].
    destruct (Z.eqb_spec (tmr inp) 0); injection Ea as <- <-; cbn; (split; [done|]);
      repeat case_if; lia. }
  destruct (spends_inputs w1 n inp inp' Hl Hre ltac:(destruct fire; lia)) as [S1 S2].
  assert (system_ok (set_inputs (<[Z.to_nat n := inp']> (_sys_inp w1)) w1)) as Hw2
    by (apply set_inputs_ok; [done|done|done|congruence]).
  set (w2 := set_inputs _ w1) in *.
  destruct fire.
  2:{ cbn [mbind outcome_bind]. intros [= <- <-].
      exact (Hpad w w2 _ [] (spends_trans w w1 w2 [] [] S0 S1)). }
  destruct (section_signal now (section w2) inp' (reaction inp')) as [[s l]|] eqn:Es; [|done].
  cbn [mbind outcome_bind]. intros [= <- <-]. apply Hpad.
  apply (spends_trans w w1 _ [] (events l)); [done|].
  assert (_sys_inp w2 !! Z.to_nat n = Some inp') as Hx.
  { cbn. apply list_lookup_insert_eq. apply lookup_lt_Some in Hl. done. }
  destruct (spends_signal _ _ _ _ _ _ Hw2 Hx Es) as (A & B & C).
  destruct S1 as (A1 & B1 & C1 & D1). cbv iota in Hcr.
  split; [lia|]. split; [|split; [done|done]].
  intros H24 Hna. apply B; [by apply D1|done].
Qed.

Lemma system_task_spends now w w' a :
  system_ok w → system_task now w = Ok (w', a) → spends w w' a.
Proof.
  intros Hw. unfold system_task.
  destruct (decide (timer (data (section w)) = 0 ∨ now ≤ timer (data (section w)))) as [Hi|Hx].
  { rewrite section_task_idle by done. cbn [mbind outcome_bind]. intros [= <- <-].
    by apply spends_frame. }
  destruct (section_task now (section w)) as [[s l]|] eqn:E; [|done].
  cbn [mbind outcome_bind]. intros [= <- <-].
  assert (Z.of_nat (alarm_count (events l)) + section_credit s ≤ section_credit (section w) ∧
    (¬ armed (section w) → alarm_count (events l) = 0%nat) ∧
    state (data s) = state (data (section w))) as (A & B & C).
  { destruct (has (flags (data (section w))) SECTION_FLAG_TM_IN) eqn:Hf.
    - destruct (ok_section w Hw Hf) as (Harm & i & Hi & Hr).
      destruct (section_task_expires now (section w) i) as (s' & E' & _ & E2 & _ & E4);
        [lia|lia|done|done|done|].
      rewrite E' in E. injection E as <- <-. unfold section_credit. rewrite E2, Hf.
      change (alarm_count _) with 1%nat. split; [lia|]. split; [done|done].
    - destruct (section_task_quiet now (section w)) as (s' & E' & E1 & E2 & _); [done|lia|].
      rewrite E' in E. injection E as <- <-. unfold section_credit. rewrite E1, Hf.
      change (alarm_count _) with 0%nat. split; [lia|]. split; [done|done]. }
  split; [unfold credit; cbn [section set_section_of _sys_inp]; lia|]. split; [auto|]. done.
Qed.

(** The calls that neither arm nor disarm. *)
Definition keeps_state (c : call) : bool :=
  match c with CSet _ _ | CUnset _ _ _ => false | _ => true end.

Lemma run_spends c w w' a :
  system_ok w → keeps_state c = true → run c w = Ok (w', a) → spends w w' a.
Proof.
  intros Hw Hc. destruct c as [now n|n|now|wr|now|now src|wr now src|wr e|wr on b]; cbn [run];
    try discriminate Hc.
  - by apply system_inp_activated_spends.
  - unfold system_inp_deactivated. intros [= <- <-]. destruct n; by apply spends_frame.
  - apply seq_actions_spends; [|done]. intros f x y b Hf Hx Hb.
    apply list_elem_of_fmap in Hf as (n & -> & Hn%elem_of_seqZ).
    destruct (input_tick1_ok now n x Hx ltac:(lia)) as (x' & a' & E & Hx').
    rewrite E in Hb. injection Hb as <- <-. split; [done|].
    eapply input_tick1_spends; [done| |done]. lia.
  - intros [= <- <-]. by apply spends_frame.
  - by apply system_task_spends.
  - unfold system_event. repeat case_if; intros [= <- <-]; by apply spends_frame.
  - intros [= <- <-]. by apply spends_frame.
Qed.

Lemma run_all_spends cs w w' a :
  system_ok w → forallb keeps_state cs = true → run_all cs w = Ok (w', a) → spends w w' a.
Proof.
  intros Hw Hc. apply seq_actions_spends; [|done]. intros f x y b Hf Hx Hb.
  apply list_elem_of_fmap in Hf as (c & -> & Hin).
  destruct (run_ok c x Hx) as (x' & b' & E & Hx'). rewrite E in Hb. injection Hb as <- <-.
  split; [done|]. apply run_spends in E; [done|done|].
  rewrite forallb_forall in Hc. apply Hc. by apply list_elem_of_In.
Qed.

(** C3 (safety). While the section is not armed and no input has the 24-hour
    reaction, nothing reports an alarm: any sequence of input changes, ticks,
    polls, events and output requests leaves it unarmed and reports none. *)
Theorem system_no_alarm_unless_armed cs w w' a :
  system_ok w → no_24h w → ¬ armed (section w) → forallb keeps_state cs = true →
  run_all cs w = Ok (w', a) →
  alarm_count a = 0%nat ∧ system_state w' = system_state w.
Proof. intros Hw H24 Ha Hc Hr. destruct (run_all_spends _ _ _ _ Hw Hc Hr) as (_ & B & C & _). auto. Qed.

Lemma section_set_credit now s source b s' r :
  state (data s) ≠ SECTION_ST_SET → section_set now s source = (b, s', r) →
  b = true ∧ section_credit s' = section_credit s.
Proof.
  intros Hst. unfold section_set, _set_state.
  destruct (Z.eqb_spec (section_state_code SECTION_ST_SET) (state (data s))); [congruence|].
  intros [= <- <- _]. split; [done|].
  unfold section_credit, SECTION_FLAG_TM_IN, SECTION_FLAG_ALARM, SECTION_FLAG_TM_OUT.
  cbn [data enter_state _flag_clr _flag_set _set_timer flags].
  by rewrite has_clr_ne, has_lor_ne by done.
Qed.

(** C28 (bounds). Between one arming and the next change of state the system
    reports at most 24 alarms (three per input), whatever its inputs do. *)
Theorem system_alarms_per_arming now source w w1 a1 cs w2 a2 :
  system_ok w → has (flags (data (section w))) SECTION_FLAG_TM_IN = false →
  state (data (section w)) ≠ SECTION_ST_SET →
  system_set now source w = (w1, a1) → forallb keeps_state cs = true →
  run_all cs w1 = Ok (w2, a2) →
  (alarm_count a2 <= 24)%nat.
Proof.
  intros Hw Hf Hst Hset Hc Hr.
  pose proof (system_set_ok now source w Hw) as Hw1. rewrite Hset in Hw1. cbn in Hw1.
  destruct (run_all_spends _ _ _ _ Hw1 Hc Hr) as (A & _).
  assert (credit w1 = 24) as E.
  { revert Hset. unfold system_set.
    destruct (section_set now (section w) source) as [[b s] r] eqn:Es.
    destruct (section_set_credit _ _ _ _ _ _ Hst Es) as [-> Hcr].
    intros [= <- _]. unfold credit. change (section (set_inputs _ _)) with s.
    rewrite Hcr. change (_sys_inp (set_inputs (system_input_reset _) _)) with (system_input_reset (_sys_inp w)).
    unfold section_credit. rewrite Hf.
    rewrite sum_credit_reset, (ok_count w Hw). reflexivity. }
  rewrite E in A. unfold credit, section_credit in A.
  assert (0 ≤ sum_credit (_sys_inp w2)) as Hpos.
  { destruct (seq_actions_ok (run <$> cs) w1) as (x & y & Ex & Hx); [|done|].
    - intros f z Hf' Hz. apply list_elem_of_fmap in Hf' as (c & -> & _). by apply run_ok.
    - unfold run_all in Hr. rewrite Hr in Ex. injection Ex as <- _.
      apply sum_credit_nonneg. intros i Hi. apply list_elem_of_lookup in Hi as [k Hk].
      apply (ok_inputs w2 Hx k i Hk). }
  destruct (has (flags (data (section w2))) SECTION_FLAG_TM_IN); lia.
Qed.

(** ** Disarming *)

(** What a completed unset leaves. *)
Record disarmed (w : system) : Prop := {
  d_state : system_state w = SECTION_ST_UNSET;
  d_timer : timer (data (section w)) = 0;
  d_alarm : _state (al w) = ALARM_IDLE;
  d_siren : _siren_state (al w) = false;
  d_count : _alarm_cnt (al w) = 0;
  d_inputs : ∀ i inp, _sys_inp w !! i = Some inp → tmr inp = 0 ∧ cnt inp = 0
}.

Lemma system_unset_spec wr now source w :
  let '(w', a) := system_unset wr now source w in
  (state (data (section w)) ≠ SECTION_ST_UNSET →
     disarmed w' ∧
     a = [AEvent (Report EVENT_ID_UNSET source)]
         ++ (if decide (_state (al w) = ALARM_ACTIVE)
             then [AEvent (Report EVENT_ID_ALARM_CANCEL source)] else [])
         ++ [ABeep 273 (if bool_decide (_state (al w) ≠ ALARM_IDLE) then 12 else 8);
             ACfgState (str "S1")]) ∧
  (state (data (section w)) = SECTION_ST_UNSET → w' = w ∧ a = []).
Proof.
  unfold system_unset, section_unset, _set_state.
  destruct (Z.eqb_spec (section_state_code SECTION_ST_UNSET) (state (data (section w)))) as [E|E];
    cbv iota beta zeta.
  - split; [congruence|]. intros _. by destruct w.
  - split; [|congruence]. intros _. split; [|done].
    split; try done.
    + cbn. unfold alarm_stop, _siren_off. by destruct (_siren_state (al w)) eqn:Es; cbn.
    + intros i inp Hi. change (system_input_reset (_sys_inp w) !! i = Some inp) in Hi.
      unfold system_input_reset in Hi. rewrite list_lookup_fmap in Hi.
      by destruct (_sys_inp w !! i); [injection Hi as <-|].
Qed.

(** Disarming an armed system stops the alarm and the siren,
    clears the alarm counter, the timers and the inputs' counters, reports UNSET
    and, when an alarm was active, ALARM_CANCEL, both with the user's source,
    and saves the new state; disarming an unset system does nothing at all. *)
Theorem system_unset_effect wr now source w :
  let '(w', a) := system_unset wr now source w in
  (state (data (section w)) ≠ SECTION_ST_UNSET →
     disarmed w' ∧
     a = [AEvent (Report EVENT_ID_UNSET source)]
         ++ (if decide (_state (al w) = ALARM_ACTIVE)
             then [AEvent (Report EVENT_ID_ALARM_CANCEL source)] else [])
         ++ [ABeep 273 (if bool_decide (_state (al w) ≠ ALARM_IDLE) then 12 else 8);
             ACfgState (str "S1")]) ∧
  (state (data (section w)) = SECTION_ST_UNSET → w' = w ∧ a = []).
Proof. apply system_unset_spec. Qed.

(** An ALARM event still waiting in the event queue outlives the
    unset that should have cancelled it: when it is processed afterwards the
    alarm starts and the siren sounds although the section is unset, and a
    further unset does not stop it. *)
Theorem system_unset_misses_queued_alarm wr now source w w1 a1 :
  system_ok w → state (data (section w)) ≠ SECTION_ST_UNSET →
  system_unset wr now source w = (w1, a1) →
  let w2 := (system_event wr EVENT_ID_ALARM w1).1 in
  system_state w2 = SECTION_ST_UNSET ∧
  _state (al w2) = ALARM_ACTIVE ∧ _siren_state (al w2) = true ∧
  ∀ wr' now' source', system_unset wr' now' source' w2 = (w2, []).
Proof.
  intros Hw Hst E w2. pose proof (system_unset_spec wr now source w) as H. rewrite E in H.
  destruct H as [H _]. destruct (H Hst) as [[D1 D2 D3 D4 D5 D6] _].
  assert (w2 = set_al (alarm_trigger wr (al w1)) w1) as Hw2 by done.
  assert (system_state w2 = SECTION_ST_UNSET) as Hs by (rewrite Hw2; exact D1).
  split; [done|].
  assert (_state (alarm_trigger wr (al w1)) = ALARM_ACTIVE ∧
          _siren_state (alarm_trigger wr (al w1)) = true) as [A B].
  { unfold alarm_trigger. rewrite D3, D5. cbn. unfold _siren_on. cbn. by rewrite D4. }
  rewrite Hw2. split; [exact A|]. split; [exact B|]. intros wr' now' source'.
  pose proof (system_unset_spec wr' now' source' w2) as H2. rewrite <- Hw2.
  destruct (system_unset wr' now' source' w2) as [w3 a3].
  destruct H2 as [_ H2]. destruct (H2 Hs) as [-> ->]. done.
Qed.

(** The state saved in the configuration is the state the next
    boot restores, whatever number it is. *)
Theorem system_state_restored wr w w0 text :
  -2147483648 ≤ state (data (section w)) ≤ 2147483647 →
  _save_state w = ACfgState text →
  (system_init wr (Some text) w0).1 = true ∧
  system_state (system_init wr (Some text) w0).2 = system_state w.
Proof.
  intros Hr [= <-]. unfold system_init. cbn [scan_char Z.eqb Pos.eqb].
  rewrite <- (app_nil_r (print_dec _)), scan_print_dec; [|done|done]. done.
Qed.

(** ** Example runs *)

Definition ww : wires := Wires true true.
Definition boot_system : system := System unset_section [] idle_alarm 0.
Definition started_system : system := (system_init ww (Some (str "S1")) boot_system).2.

Lemma started_system_ok : system_ok started_system.
Proof. apply system_init_ok; [apply idle_alarm_ok|reflexivity]. Qed.

(** A door opened while armed and past the exit delay: after one second the
    signal alarms, and the event starts the siren. *)
Example armed_door_alarm :
  ∃ w, run_all ([CSet 1000 EVENT_SOURCE_USER1; CTask 30000; CActivated 30000 INP_DOOR]
                ++ replicate 10 (CTick 31000) ++ [CEvent ww EVENT_ID_ALARM]) started_system
    = Ok (w, [AEvent (Report EVENT_ID_SET EVENT_SOURCE_USER1); ABeep 1 8; ACfgState (str "S3");
              AEvent (Report EVENT_ID_ALARM EVENT_SOURCE_DOOR)]) ∧
    siren_pin (hw (outs (al w))) = true.
Proof. eexists. split; vm_compute; reflexivity. Qed.

Lemma system_never_asserts_witness :
  ∃ w' a, run_all [CActivated 5 INP_DOOR; CTick 6] started_system = Ok (w', a) ∧ system_ok w'.
Proof.
  exact (system_never_asserts ww (Some (str "S1")) boot_system
           [CActivated 5 INP_DOOR; CTick 6] idle_alarm_ok eq_refl).
Defined.

Lemma system_no_alarm_unless_armed_witness :
  ∃ w' a, run_all [CActivated 5 INP_DOOR; CTick 6] started_system = Ok (w', a) ∧
    alarm_count a = 0%nat.
Proof.
  eexists _, _. split; [vm_compute; reflexivity|].
  refine (proj1 (system_no_alarm_unless_armed [CActivated 5 INP_DOOR; CTick 6] started_system _ _
                   started_system_ok _ _ eq_refl _)).
  - intros [|[|[|[|[|[|[|[|i]]]]]]]] inp; intros [= <-]; discriminate.
  - intros [H|H]; discriminate H.
  - vm_compute. reflexivity.
Defined.

Lemma system_alarms_per_arming_witness :
  ∃ w2 a2, run_all [CActivated 5 INP_DOOR; CTick 6] (system_set 1000 EVENT_SOURCE_USER1 started_system).1
     = Ok (w2, a2) ∧ (alarm_count a2 <= 24)%nat.
Proof.
  eexists _, _. split; [vm_compute; reflexivity|].
  refine (system_alarms_per_arming 1000 EVENT_SOURCE_USER1 started_system _ _
    [CActivated 5 INP_DOOR; CTick 6] _ _ started_system_ok eq_refl _
    (surjective_pairing _) eq_refl _).
  - intros H. discriminate H.
  - vm_compute. reflexivity.
Defined.

Definition armed_system : system := (system_set 1000 EVENT_SOURCE_USER1 started_system).1.

Lemma system_unset_effect_witness :
  disarmed (system_unset ww 2000 EVENT_SOURCE_USER2 armed_system).1.
Proof.
  pose proof (system_unset_effect ww 2000 EVENT_SOURCE_USER2 armed_system) as H.
  destruct (system_unset ww 2000 EVENT_SOURCE_USER2 armed_system) as [w' a].
  exact (proj1 (proj1 H ltac:(discriminate))).
Defined.

Lemma system_unset_misses_queued_alarm_witness :
  _siren_state (al (system_event ww EVENT_ID_ALARM
                      (system_unset ww 2000 EVENT_SOURCE_USER2 armed_system).1).1) = true.
Proof.
  refine (proj1 (proj2 (proj2 (system_unset_misses_queued_alarm ww 2000 EVENT_SOURCE_USER2
    armed_system _ _ _ _ (surjective_pairing _))))).
  - apply system_set_ok, started_system_ok.
  - intros H. discriminate H.
Defined.

Lemma system_state_restored_witness :
  system_state (system_init ww (Some (str "S3")) boot_system).2 = 3.
Proof.
  refine (proj2 (system_state_restored ww armed_system boot_system (str "S3") _ eq_refl)).
  vm_compute. split; discriminate.
Defined.
