(* ===== verification/Cfg.v ===== *)
(** * Configuration store (app/cfg.c, app/cfg_table.c, app/cfg_table.h; app_reinit_req of app/app.c)

    Texts of up to 62 characters in 64-byte flash items with a checksum, behind
    a table of access rights and defaults. *)

From S2P Require Import Prelude CText Storage.

(** ** Identifiers and access rights *)

(** src/app/cfg_table.h:8-115 (cfg_id_e) *)
Inductive cfg_id :=
  | CFG_ID_STATE | CFG_ID_PASSWD_SYSTEM | CFG_ID_PASSWD_ADMIN | CFG_ID_MAIN_SETUP
  | CFG_ID_MAIN_SWITCH | CFG_ID_OUT_MAP | CFG_ID_SIM_PIN | CFG_ID_APN
  | CFG_ID_MODEM_BAND | CFG_ID_CMS_ACCOUNT | CFG_ID_TRACER_ADDR | CFG_ID_TRACER_PARAM
  | CFG_ID_CMS_SERVER_ADDR | CFG_ID_CMS_SERVER_KEY | CFG_ID_UPDATE_SERVER_ADDR
  | CFG_ID_UPDATE_SERVER_KEY | CFG_ID_TIME_ZONE | CFG_ID_DEVICE_NAME
  | CFG_ID_ADMIN_NAME | CFG_ID_USER1_NAME | CFG_ID_USER2_NAME | CFG_ID_USER3_NAME
  | CFG_ID_USER4_NAME | CFG_ID_USER1_PHONE | CFG_ID_USER2_PHONE | CFG_ID_USER3_PHONE
  | CFG_ID_USER4_PHONE | CFG_ID_USER1_PASS | CFG_ID_USER2_PASS | CFG_ID_USER3_PASS
  | CFG_ID_USER4_PASS | CFG_ID_EVENT_SETUP_000 | CFG_ID_EVENT_SETUP_001
  | CFG_ID_EVENT_SETUP_002 | CFG_ID_EVENT_SETUP_003 | CFG_ID_EVENT_SETUP_004
  | CFG_ID_EVENT_SETUP_005 | CFG_ID_EVENT_SETUP_006 | CFG_ID_EVENT_SETUP_007
  | CFG_ID_EVENT_SETUP_008 | CFG_ID_EVENT_SETUP_009 | CFG_ID_EVENT_SETUP_010
  | CFG_ID_EVENT_SETUP_011 | CFG_ID_EVENT_SETUP_012 | CFG_ID_EVENT_SETUP_013
  | CFG_ID_EVENT_SETUP_014 | CFG_ID_EVENT_SETUP_015 | CFG_ID_TEXT_EVENT_NAME_000
  | CFG_ID_TEXT_EVENT_NAME_001 | CFG_ID_TEXT_EVENT_NAME_002
  | CFG_ID_TEXT_EVENT_NAME_003 | CFG_ID_TEXT_EVENT_NAME_004
  | CFG_ID_TEXT_EVENT_NAME_005 | CFG_ID_TEXT_EVENT_NAME_006
  | CFG_ID_TEXT_EVENT_NAME_007 | CFG_ID_TEXT_EVENT_NAME_008
  | CFG_ID_TEXT_EVENT_NAME_009 | CFG_ID_TEXT_EVENT_NAME_010
  | CFG_ID_TEXT_EVENT_NAME_011 | CFG_ID_TEXT_EVENT_NAME_012
  | CFG_ID_TEXT_EVENT_NAME_013 | CFG_ID_TEXT_EVENT_NAME_014
  | CFG_ID_TEXT_EVENT_NAME_015 | CFG_ID_TEXT_EVENT_NAME_016
  | CFG_ID_TEXT_EVENT_NAME_017 | CFG_ID_TEXT_EVENT_NAME_018
  | CFG_ID_TEXT_EVENT_NAME_019 | CFG_ID_TEXT_EVENT_NAME_020
  | CFG_ID_TEXT_EVENT_NAME_021 | CFG_ID_TEXT_EVENT_NAME_022
  | CFG_ID_TEXT_EVENT_NAME_023 | CFG_ID_TEXT_EVENT_NAME_024
  | CFG_ID_TEXT_EVENT_NAME_025 | CFG_ID_TEXT_EVENT_NAME_026
  | CFG_ID_TEXT_EVENT_NAME_027 | CFG_ID_TEXT_EVENT_NAME_028
  | CFG_ID_TEXT_EVENT_NAME_029 | CFG_ID_TEXT_EVENT_NAME_030
  | CFG_ID_TEXT_EVENT_NAME_031 | CFG_ID_TEXT_SOURCE_NAME_000
  | CFG_ID_TEXT_SOURCE_NAME_001 | CFG_ID_TEXT_SOURCE_NAME_002
  | CFG_ID_TEXT_SOURCE_NAME_003 | CFG_ID_TEXT_SOURCE_NAME_004
  | CFG_ID_TEXT_SOURCE_NAME_005 | CFG_ID_TEXT_SOURCE_NAME_006
  | CFG_ID_TEXT_SOURCE_NAME_007 | CFG_ID_TEXT_SOURCE_NAME_008
  | CFG_ID_TEXT_SOURCE_NAME_009 | CFG_ID_TEXT_SOURCE_NAME_010
  | CFG_ID_TEXT_SOURCE_NAME_011 | CFG_ID_TEXT_SOURCE_NAME_012
  | CFG_ID_TEXT_SOURCE_NAME_013 | CFG_ID_TEXT_SOURCE_NAME_014
  | CFG_ID_TEXT_SOURCE_NAME_015 | CFG_ID_END.

(** src/app/cfg_table.h:8-115 (cfg_id_e) *)
Definition cfg_id_code (i : cfg_id) : Z :=
  match i with
  | CFG_ID_STATE => 0 | CFG_ID_PASSWD_SYSTEM => 1 | CFG_ID_PASSWD_ADMIN => 2
  | CFG_ID_MAIN_SETUP => 3 | CFG_ID_MAIN_SWITCH => 4 | CFG_ID_OUT_MAP => 5
  | CFG_ID_SIM_PIN => 10 | CFG_ID_APN => 11 | CFG_ID_MODEM_BAND => 12
  | CFG_ID_CMS_ACCOUNT => 13 | CFG_ID_TRACER_ADDR => 20 | CFG_ID_TRACER_PARAM => 21
  | CFG_ID_CMS_SERVER_ADDR => 22 | CFG_ID_CMS_SERVER_KEY => 23
  | CFG_ID_UPDATE_SERVER_ADDR => 24 | CFG_ID_UPDATE_SERVER_KEY => 25
  | CFG_ID_TIME_ZONE => 30 | CFG_ID_DEVICE_NAME => 40 | CFG_ID_ADMIN_NAME => 50
  | CFG_ID_USER1_NAME => 51 | CFG_ID_USER2_NAME => 52 | CFG_ID_USER3_NAME => 53
  | CFG_ID_USER4_NAME => 54 | CFG_ID_USER1_PHONE => 101 | CFG_ID_USER2_PHONE => 102
  | CFG_ID_USER3_PHONE => 103 | CFG_ID_USER4_PHONE => 104 | CFG_ID_USER1_PASS => 151
  | CFG_ID_USER2_PASS => 152 | CFG_ID_USER3_PASS => 153 | CFG_ID_USER4_PASS => 154
  | CFG_ID_EVENT_SETUP_000 => 200 | CFG_ID_EVENT_SETUP_001 => 201
  | CFG_ID_EVENT_SETUP_002 => 202 | CFG_ID_EVENT_SETUP_003 => 203
  | CFG_ID_EVENT_SETUP_004 => 204 | CFG_ID_EVENT_SETUP_005 => 205
  | CFG_ID_EVENT_SETUP_006 => 206 | CFG_ID_EVENT_SETUP_007 => 207
  | CFG_ID_EVENT_SETUP_008 => 208 | CFG_ID_EVENT_SETUP_009 => 209
  | CFG_ID_EVENT_SETUP_010 => 210 | CFG_ID_EVENT_SETUP_011 => 211
  | CFG_ID_EVENT_SETUP_012 => 212 | CFG_ID_EVENT_SETUP_013 => 213
  | CFG_ID_EVENT_SETUP_014 => 214 | CFG_ID_EVENT_SETUP_015 => 215
  | CFG_ID_TEXT_EVENT_NAME_000 => 300 | CFG_ID_TEXT_EVENT_NAME_001 => 301
  | CFG_ID_TEXT_EVENT_NAME_002 => 302 | CFG_ID_TEXT_EVENT_NAME_003 => 303
  | CFG_ID_TEXT_EVENT_NAME_004 => 304 | CFG_ID_TEXT_EVENT_NAME_005 => 305
  | CFG_ID_TEXT_EVENT_NAME_006 => 306 | CFG_ID_TEXT_EVENT_NAME_007 => 307
  | CFG_ID_TEXT_EVENT_NAME_008 => 308 | CFG_ID_TEXT_EVENT_NAME_009 => 309
  | CFG_ID_TEXT_EVENT_NAME_010 => 310 | CFG_ID_TEXT_EVENT_NAME_011 => 311
  | CFG_ID_TEXT_EVENT_NAME_012 => 312 | CFG_ID_TEXT_EVENT_NAME_013 => 313
  | CFG_ID_TEXT_EVENT_NAME_014 => 314 | CFG_ID_TEXT_EVENT_NAME_015 => 315
  | CFG_ID_TEXT_EVENT_NAME_016 => 316 | CFG_ID_TEXT_EVENT_NAME_017 => 317
  | CFG_ID_TEXT_EVENT_NAME_018 => 318 | CFG_ID_TEXT_EVENT_NAME_019 => 319
  | CFG_ID_TEXT_EVENT_NAME_020 => 320 | CFG_ID_TEXT_EVENT_NAME_021 => 321
  | CFG_ID_TEXT_EVENT_NAME_022 => 322 | CFG_ID_TEXT_EVENT_NAME_023 => 323
  | CFG_ID_TEXT_EVENT_NAME_024 => 324 | CFG_ID_TEXT_EVENT_NAME_025 => 325
  | CFG_ID_TEXT_EVENT_NAME_026 => 326 | CFG_ID_TEXT_EVENT_NAME_027 => 327
  | CFG_ID_TEXT_EVENT_NAME_028 => 328 | CFG_ID_TEXT_EVENT_NAME_029 => 329
  | CFG_ID_TEXT_EVENT_NAME_030 => 330 | CFG_ID_TEXT_EVENT_NAME_031 => 331
  | CFG_ID_TEXT_SOURCE_NAME_000 => 400 | CFG_ID_TEXT_SOURCE_NAME_001 => 401
  | CFG_ID_TEXT_SOURCE_NAME_002 => 402 | CFG_ID_TEXT_SOURCE_NAME_003 => 403
  | CFG_ID_TEXT_SOURCE_NAME_004 => 404 | CFG_ID_TEXT_SOURCE_NAME_005 => 405
  | CFG_ID_TEXT_SOURCE_NAME_006 => 406 | CFG_ID_TEXT_SOURCE_NAME_007 => 407
  | CFG_ID_TEXT_SOURCE_NAME_008 => 408 | CFG_ID_TEXT_SOURCE_NAME_009 => 409
  | CFG_ID_TEXT_SOURCE_NAME_010 => 410 | CFG_ID_TEXT_SOURCE_NAME_011 => 411
  | CFG_ID_TEXT_SOURCE_NAME_012 => 412 | CFG_ID_TEXT_SOURCE_NAME_013 => 413
  | CFG_ID_TEXT_SOURCE_NAME_014 => 414 | CFG_ID_TEXT_SOURCE_NAME_015 => 415
  | CFG_ID_END => 65535
  end.
Coercion cfg_id_code : cfg_id >-> Z.

(** src/app/access.h:7-10 (ACCESS_NONE .. ACCESS_SYSTEM) *)
Inductive access_level := ACCESS_NONE | ACCESS_USER | ACCESS_ADMIN | ACCESS_SYSTEM.
(** src/app/access.h:7-10 (ACCESS_NONE .. ACCESS_SYSTEM) *)
Definition access_level_code (a : access_level) : Z :=
  match a with
  | ACCESS_NONE => bit 0 | ACCESS_USER => bit 1 | ACCESS_ADMIN => bit 2 | ACCESS_SYSTEM => bit 3
  end.
Coercion access_level_code : access_level >-> Z.

(** src/app/cfg_table.h:117-122 (cfg_table_t) *)
Record cfg_row := CfgRow {
  row_id : cfg_id;
  read_access : access_level;
  write_access : access_level;
  row_data : list Z
}.

(** src/app/cfg_table.c:6-103 (CFG_TABLE) *)
Definition CFG_TABLE : list cfg_row :=
  [CfgRow CFG_ID_STATE ACCESS_SYSTEM ACCESS_SYSTEM (str "S1");
   CfgRow CFG_ID_PASSWD_SYSTEM ACCESS_SYSTEM ACCESS_SYSTEM (str "uhlokRopnude");
   CfgRow CFG_ID_PASSWD_ADMIN ACCESS_SYSTEM ACCESS_ADMIN (str "admin");
   CfgRow CFG_ID_MAIN_SETUP ACCESS_USER ACCESS_ADMIN (str "5,0,0");
   CfgRow CFG_ID_MAIN_SWITCH ACCESS_USER ACCESS_ADMIN (str "0");
   CfgRow CFG_ID_OUT_MAP ACCESS_USER ACCESS_ADMIN (str "17,18,19");
   CfgRow CFG_ID_SIM_PIN ACCESS_ADMIN ACCESS_ADMIN (str "1234");
   CfgRow CFG_ID_APN ACCESS_USER ACCESS_ADMIN (str "internet");
   CfgRow CFG_ID_MODEM_BAND ACCESS_USER ACCESS_SYSTEM (str "0xF,0x8080085,0x8080085");
   CfgRow CFG_ID_CMS_ACCOUNT ACCESS_USER ACCESS_ADMIN (str "0");
   CfgRow CFG_ID_TRACER_ADDR ACCESS_USER ACCESS_ADMIN (str "0.0.0.0:5013");
   CfgRow CFG_ID_TRACER_PARAM ACCESS_USER ACCESS_ADMIN (str "000000,10,30,300,0,3,0,3");
   CfgRow CFG_ID_CMS_SERVER_ADDR ACCESS_USER ACCESS_ADMIN (str "0.0.0.0:4444");
   CfgRow CFG_ID_UPDATE_SERVER_ADDR ACCESS_USER ACCESS_ADMIN (str "0.0.0.0:3333");
   CfgRow CFG_ID_UPDATE_SERVER_KEY ACCESS_SYSTEM ACCESS_ADMIN (str "80feb47cae3c19274f2408d35398514c");
   CfgRow CFG_ID_TIME_ZONE ACCESS_USER ACCESS_USER (str "1,1");
   CfgRow CFG_ID_DEVICE_NAME ACCESS_USER ACCESS_ADMIN (str "Your alarm reports: ");
   CfgRow CFG_ID_ADMIN_NAME ACCESS_USER ACCESS_ADMIN (str "Admin");
   CfgRow CFG_ID_USER1_NAME ACCESS_USER ACCESS_USER (str "User 1");
   CfgRow CFG_ID_USER2_NAME ACCESS_USER ACCESS_USER (str "User 2");
   CfgRow CFG_ID_USER3_NAME ACCESS_USER ACCESS_USER (str "User 3");
   CfgRow CFG_ID_USER4_NAME ACCESS_USER ACCESS_USER (str "User 4");
   CfgRow CFG_ID_USER1_PHONE ACCESS_USER ACCESS_USER (str "");
   CfgRow CFG_ID_USER2_PHONE ACCESS_USER ACCESS_USER (str "");
   CfgRow CFG_ID_USER3_PHONE ACCESS_USER ACCESS_USER (str "");
   CfgRow CFG_ID_USER4_PHONE ACCESS_USER ACCESS_USER (str "");
   CfgRow CFG_ID_USER1_PASS ACCESS_ADMIN ACCESS_ADMIN (str "");
   CfgRow CFG_ID_USER2_PASS ACCESS_ADMIN ACCESS_ADMIN (str "");
   CfgRow CFG_ID_USER3_PASS ACCESS_ADMIN ACCESS_ADMIN (str "");
   CfgRow CFG_ID_USER4_PASS ACCESS_ADMIN ACCESS_ADMIN (str "");
   CfgRow CFG_ID_EVENT_SETUP_000 ACCESS_USER ACCESS_USER (str "");
   CfgRow CFG_ID_EVENT_SETUP_001 ACCESS_USER ACCESS_USER (str "");
   CfgRow CFG_ID_EVENT_SETUP_002 ACCESS_USER ACCESS_USER (str "");
   CfgRow CFG_ID_EVENT_SETUP_003 ACCESS_USER ACCESS_USER (str "");
   CfgRow CFG_ID_EVENT_SETUP_004 ACCESS_USER ACCESS_USER (str "");
   CfgRow CFG_ID_EVENT_SETUP_005 ACCESS_USER ACCESS_USER (str "");
   CfgRow CFG_ID_EVENT_SETUP_006 ACCESS_USER ACCESS_USER (str "");
   CfgRow CFG_ID_EVENT_SETUP_007 ACCESS_USER ACCESS_USER (str "");
   CfgRow CFG_ID_TEXT_EVENT_NAME_000 ACCESS_USER ACCESS_ADMIN (str "Boot up");
   CfgRow CFG_ID_TEXT_EVENT_NAME_001 ACCESS_USER ACCESS_ADMIN (str "Shut down");
   CfgRow CFG_ID_TEXT_EVENT_NAME_002 ACCESS_USER ACCESS_ADMIN (str "Power fail");
   CfgRow CFG_ID_TEXT_EVENT_NAME_003 ACCESS_USER ACCESS_ADMIN (str "Power recovery");
   CfgRow CFG_ID_TEXT_EVENT_NAME_004 ACCESS_USER ACCESS_ADMIN (str "Battery LOW");
   CfgRow CFG_ID_TEXT_EVENT_NAME_005 ACCESS_USER ACCESS_ADMIN (str "Battery OK");
   CfgRow CFG_ID_TEXT_EVENT_NAME_006 ACCESS_USER ACCESS_ADMIN (str "Set");
   CfgRow CFG_ID_TEXT_EVENT_NAME_007 ACCESS_USER ACCESS_ADMIN (str "Unset");
   CfgRow CFG_ID_TEXT_EVENT_NAME_008 ACCESS_USER ACCESS_ADMIN (str "Alarm");
   CfgRow CFG_ID_TEXT_EVENT_NAME_010 ACCESS_USER ACCESS_ADMIN (str "Alarm cancel");
   CfgRow CFG_ID_TEXT_EVENT_NAME_011 ACCESS_USER ACCESS_ADMIN (str "Alarm timeout");
   CfgRow CFG_ID_TEXT_EVENT_NAME_012 ACCESS_USER ACCESS_ADMIN (str "Fault");
   CfgRow CFG_ID_TEXT_EVENT_NAME_013 ACCESS_USER ACCESS_ADMIN (str "Fault recovery");
   CfgRow CFG_ID_TEXT_EVENT_NAME_014 ACCESS_USER ACCESS_ADMIN (str "Jamming");
   CfgRow CFG_ID_TEXT_EVENT_NAME_015 ACCESS_USER ACCESS_ADMIN (str "No jamming");
   CfgRow CFG_ID_TEXT_EVENT_NAME_016 ACCESS_USER ACCESS_ADMIN (str "Track point");
   CfgRow CFG_ID_TEXT_SOURCE_NAME_000 ACCESS_USER ACCESS_ADMIN (str "Unknown");
   CfgRow CFG_ID_TEXT_SOURCE_NAME_001 ACCESS_USER ACCESS_ADMIN (str "Unit");
   CfgRow CFG_ID_TEXT_SOURCE_NAME_002 ACCESS_USER ACCESS_ADMIN (str "Ignition key");
   CfgRow CFG_ID_TEXT_SOURCE_NAME_003 ACCESS_USER ACCESS_ADMIN (str "Door");
   CfgRow CFG_ID_TEXT_SOURCE_NAME_004 ACCESS_USER ACCESS_ADMIN (str "Input 1");
   CfgRow CFG_ID_TEXT_SOURCE_NAME_005 ACCESS_USER ACCESS_ADMIN (str "Shock detector");
   CfgRow CFG_ID_TEXT_SOURCE_NAME_006 ACCESS_USER ACCESS_ADMIN (str "Lock");
   CfgRow CFG_ID_TEXT_SOURCE_NAME_007 ACCESS_USER ACCESS_ADMIN (str "Network");
   CfgRow CFG_ID_TEXT_SOURCE_NAME_008 ACCESS_USER ACCESS_ADMIN (str "Battery");
   CfgRow CFG_ID_TEXT_SOURCE_NAME_009 ACCESS_USER ACCESS_ADMIN (str "Input 2");
   CfgRow CFG_ID_TEXT_SOURCE_NAME_010 ACCESS_USER ACCESS_ADMIN (str "Input 3");
   CfgRow CFG_ID_TEXT_SOURCE_NAME_011 ACCESS_USER ACCESS_ADMIN (str "");
   CfgRow CFG_ID_TEXT_SOURCE_NAME_012 ACCESS_USER ACCESS_ADMIN (str "");
   CfgRow CFG_ID_TEXT_SOURCE_NAME_013 ACCESS_USER ACCESS_ADMIN (str "");
   CfgRow CFG_ID_TEXT_SOURCE_NAME_014 ACCESS_USER ACCESS_ADMIN (str "");
   CfgRow CFG_ID_TEXT_SOURCE_NAME_015 ACCESS_USER ACCESS_ADMIN (str "")].

(** src/app/cfg_table.c:106-119 (_table_get) *)
Fixpoint _table_find (t : list cfg_row) (id : Z) : option cfg_row :=
  match t with
  | [] => None
  | r :: t => if cfg_id_code (row_id r) =? CFG_ID_END then None
              else if cfg_id_code (row_id r) =? id then Some r else _table_find t id
  end.

(** src/app/cfg_table.c:106-119 (_table_get) *)
Definition _table_get (id : Z) : option cfg_row := _table_find CFG_TABLE id.

(** The row after the last one of [CFG_TABLE] is the terminator. *)
(** src/app/cfg_table.c:121-127 (cfg_table_get_id) *)
Definition cfg_table_get_id (row : nat) : Z :=
  match CFG_TABLE !! row with
  | Some r => row_id r
  | None => CFG_ID_END
  end.

(** src/app/cfg_table.c:129-138 (cfg_table_default) *)
Definition cfg_table_default (id : Z) : option (list Z) :=
  match _table_get id with None => None | Some t => Some (row_data t) end.

(** src/app/cfg_table.c:140-148 (cfg_table_access_read) *)
Definition cfg_table_access_read (id auth : Z) : bool :=
  match _table_get id with None => false | Some t => read_access t <=? auth end.

(** src/app/cfg_table.c:150-158 (cfg_table_access_write) *)
Definition cfg_table_access_write (id auth : Z) : bool :=
  match _table_get id with None => false | Some t => write_access t <=? auth end.

(** ** Items *)

(** src/app/cfg.h:7-7 (CFG_ITEM_SIZE) *)
Definition CFG_ITEM_SIZE : Z := 62.

(** [sizeof(cfg_t)]: 62 characters and the 16-bit checksum. *)
(** src/app/cfg.c:10-13 (cfg_t) *)
Definition sizeof_cfg : Z := 64.

(** src/app/cfg.c:29-39 (_cfg_chsum) *)
Definition _cfg_chsum (data : list Z) : Z :=
  foldl (λ chsum c, u16 (chsum + c)) 43708 data.

(** The bytes of a [cfg_t], little endian. *)
Definition cfg_bytes (data : list Z) (chsum : Z) : list Z :=
  data ++ [chsum mod 256; chsum / 256].

(** src/app/cfg.c:41-48 (_cfg_valid) *)
Definition _cfg_valid (cfg : list Z) : bool :=
  let data := take 62 cfg in
  let chsum := default 0 (cfg !! 62%nat) + 256 * default 0 (cfg !! 63%nat) in
  _cfg_chsum data =? chsum.

(** What a configuration write asks the rest of the firmware to redo. *)
(** src/app/app.c:181-184 (_REINIT_MAIN .. _REINIT_CMS) *)
Inductive reinit := REINIT_NONE | REINIT_MAIN | REINIT_TRACER | REINIT_MODEM | REINIT_CMS
  | REINIT_OUT_TABLE.

#[export] Instance reinit_eq_dec : EqDecision reinit.
Proof. solve_decision. Defined.

(** src/app/app.c:292-320 (app_reinit_req) *)
Definition app_reinit_req (id : Z) : reinit :=
  if (id =? CFG_ID_TRACER_ADDR) || (id =? CFG_ID_TRACER_PARAM) then REINIT_TRACER
  else if id =? CFG_ID_MAIN_SETUP then REINIT_MAIN
  else if id =? CFG_ID_MODEM_BAND then REINIT_MODEM
  else if (id =? CFG_ID_CMS_SERVER_ADDR) || (id =? CFG_ID_CMS_ACCOUNT) then REINIT_CMS
  else if id =? CFG_ID_OUT_MAP then REINIT_OUT_TABLE
  else REINIT_NONE.

Section cfg.
Context `{F : FlashLib}.

(** [src] is the text of the buffer, its length [buf_length]. *)
(** src/app/cfg.c:57-79 (cfg_write) *)
Definition cfg_write (id : Z) (src : list Z) (auth : Z) (s : storage)
    : bool * storage * reinit :=
  if CFG_ITEM_SIZE <? Z.of_nat (length src) then (false, s, REINIT_NONE)
  else if negb (cfg_table_access_write id auth) then (false, s, REINIT_NONE)
  else
    let data := src ++ replicate (62 - length src) 0 in
    let '(result, s) := storage_write_cfg (id * sizeof_cfg) (cfg_bytes data (_cfg_chsum data)) s in
    (result, s, app_reinit_req id).

(** The text appended to the destination, with the result. *)
(** src/app/cfg.c:81-116 (cfg_read) *)
Definition cfg_read (id auth : Z) (s : storage) : outcome (bool * list Z) :=
  if negb (cfg_table_access_read id auth) then Ok (false, [])
  else
    match storage_read_cfg (id * sizeof_cfg) sizeof_cfg s with
    | None => Ok (false, [])
    | Some cfg_buf =>
        if _cfg_valid cfg_buf then t ← c_string cfg_buf; Ok (true, t)
        else
          match cfg_table_default id with
          | Some tmp => Ok (true, tmp)
          | None => Ok (false, str "<missing " ++ print_dec id ++ str ">")
          end
    end.

(** The scan for the [n]-th comma-separated field, from its first character. *)
(** src/app/cfg.c:128-141 (cfg_read_nparam) *)
Fixpoint nparam (p : list Z) (n : Z) : Z :=
  match p with
  | [] => 0
  | c :: p' =>
      if n <=? 0 then match scan_s32 p with Some (v, _) => v | None => 0 end
      else nparam p' (if c =? 44 then n - 1 else n)
  end.

(** src/app/cfg.c:118-143 (cfg_read_nparam) *)
Definition cfg_read_nparam (id n : Z) (s : storage) : outcome Z :=
  '(ok, text) ← cfg_read id ACCESS_SYSTEM s;
  Ok (if negb ok then 0 else nparam text n).

(** src/app/cfg.c:145-157 (cfg_read_static) *)
Definition cfg_read_static (id : Z) (s : storage) : outcome (option (list Z)) :=
  '(ok, text) ← cfg_read id ACCESS_SYSTEM s;
  Ok (if negb ok then None else Some text).

End cfg.

(** ** The table *)

Definition row_ok (r : cfg_row) : bool :=
  (cfg_id_code (row_id r) <? 2048) && (0 <=? cfg_id_code (row_id r)) &&
  (Z.of_nat (length (row_data r)) <? CFG_ITEM_SIZE) &&
  forallb (λ c, (0 <? c) && (c <? 256)) (row_data r).

Lemma table_find_ok t id r :
  forallb row_ok t = true → _table_find t id = Some r →
  row_ok r = true ∧ cfg_id_code (row_id r) = id ∧ In r t.
Proof.
  induction t as [|x t IH]; [done|]. cbn. intros [Hx Ht]%andb_prop.
  destruct (Z.eqb_spec (cfg_id_code (row_id x)) 65535); [done|].
  destruct (Z.eqb_spec (cfg_id_code (row_id x)) id) as [E|E].
  - intros [= <-]. auto.
  - intros H. destruct (IH Ht H) as (A & B & C). auto.
Qed.

(** C37 (type). The configuration table is well formed: no identifier occurs
    twice, every identifier has its 64-byte item inside the configuration
    region, and every default text fits an item with its terminator and has no
    NUL. *)
Theorem CFG_TABLE_ok :
  NoDup ((λ r, cfg_id_code (row_id r)) <$> CFG_TABLE) ∧
  Forall (λ r, inside _SIZE_CFG (row_id r * sizeof_cfg) sizeof_cfg ∧
            Z.of_nat (length (row_data r)) < CFG_ITEM_SIZE ∧
            Forall (λ c, 0 < c < 256) (row_data r)) CFG_TABLE.
Proof.
  split.
  - apply (bool_decide_unpack _). vm_compute. exact I.
  - assert (forallb row_ok CFG_TABLE = true) as H by (vm_compute; reflexivity).
    rewrite forallb_forall in H. apply Forall_forall. intros r Hr.
    specialize (H r (proj1 (list_elem_of_In _ _) Hr)). unfold row_ok in H.
    apply andb_prop in H as [H H4]. apply andb_prop in H as [H H3].
    apply andb_prop in H as [H1 H2]. bool_hyps. split; [|split; [done|]].
    + unfold sizeof_cfg. region. lia.
    + rewrite forallb_forall in H4. apply Forall_forall. intros c Hc.
      specialize (H4 c (proj1 (list_elem_of_In _ _) Hc)). bool_hyps. lia.
Qed.

Lemma table_get_ok id r :
  _table_get id = Some r →
  inside _SIZE_CFG (id * sizeof_cfg) sizeof_cfg ∧ 0 ≤ id < 2048.
Proof.
  intros H. apply table_find_ok in H as (Hr & <- & _); [|vm_compute; reflexivity].
  unfold row_ok in Hr. apply andb_prop in Hr as [H _]. apply andb_prop in H as [H _].
  apply andb_prop in H as [H1 H2]. bool_hyps. unfold sizeof_cfg. region. lia.
Qed.

(** ** Checksums and strings *)

Lemma cfg_chsum_range l : in_u16 (_cfg_chsum l).
Proof.
  unfold _cfg_chsum. assert (in_u16 43708) as H by (unfold in_u16; lia). revert H.
  generalize 43708. induction l as [|c l IH]; intros a Ha; cbn; [done|]. apply IH. apply u16_range.
Qed.

Lemma cfg_valid_bytes data : length data = 62%nat → _cfg_valid (cfg_bytes data (_cfg_chsum data)) = true.
Proof.
  intros Hl. unfold _cfg_valid, cfg_bytes.
  rewrite take_app_le, take_ge by lia.
  rewrite !lookup_app_r, Hl by lia. cbn [Nat.sub lookup list_lookup default].
  apply Z.eqb_eq. pose proof (cfg_chsum_range data) as Hr. unfold in_u16 in Hr. cbn.
  pose proof (Z.div_mod (_cfg_chsum data) 256). lia.
Qed.

Definition item_data (src : list Z) : list Z := src ++ replicate (62 - length src) 0.

Lemma item_data_length src : (length src <= 62)%nat → length (item_data src) = 62%nat.
Proof. intros. unfold item_data. rewrite length_app, length_replicate. lia. Qed.

Section laws.
Context `{F : FlashLib} `{FS : !FlashSpec F}.

Lemma cfg_write_stored id src auth s s' q :
  cfg_write id src auth s = (true, s', q) →
  (length src <= 62)%nat ∧ inside _SIZE_CFG (id * sizeof_cfg) sizeof_cfg ∧
  is_Some (_table_get id) ∧
  stored (_ADDR_CFG + id * sizeof_cfg) (cfg_bytes (item_data src) (_cfg_chsum (item_data src))) s'.
Proof.
  unfold cfg_write, CFG_ITEM_SIZE. destruct (Z.ltb_spec 62 (Z.of_nat (length src))); [done|].
  unfold cfg_table_access_write. destruct (_table_get id) as [r|] eqn:Ht; [|done].
  destruct (negb _); [done|]. cbv zeta. fold (item_data src).
  destruct (storage_write_cfg _ _ s) as [b s1] eqn:E. intros [= -> -> <-].
  destruct (table_get_ok _ _ Ht) as [Hi _].
  apply storage_write_cfg_spec in E as (_ & Hs & _).
  - split; [lia|]. split; [done|]. split; [done|]. by apply Hs.
  - unfold cfg_bytes. rewrite length_app, item_data_length by lia. exact Hi.
Qed.

Lemma cfg_read_bytes id auth s l :
  inside _SIZE_CFG (id * sizeof_cfg) sizeof_cfg → length l = 64%nat →
  stored (_ADDR_CFG + id * sizeof_cfg) l s →
  is_Some (storage_read_cfg (id * sizeof_cfg) sizeof_cfg s) →
  cfg_table_access_read id auth = true →
  cfg_read id auth s =
    if _cfg_valid l then t ← c_string l; Ok (true, t)
    else match cfg_table_default id with
         | Some tmp => Ok (true, tmp)
         | None => Ok (false, str "<missing " ++ print_dec id ++ str ">")
         end.
Proof.
  intros Hi Hl Hs [v Hv] Ha. unfold cfg_read. rewrite Ha, Hv. cbn [negb].
  apply storage_read_cfg_spec in Hv as ->; [|done].
  apply stored_read in Hs. rewrite Hl in Hs. change (Z.of_nat 64) with sizeof_cfg in Hs.
  by rewrite Hs.
Qed.

(** What is read back is the text up to the first NUL of the item. *)
Lemma cfg_write_read_text id src t g auth auth' s s' q :
  cfg_write id src auth s = (true, s', q) →
  item_data src = t ++ 0 :: g → Forall (λ c, c ≠ 0) t →
  cfg_table_access_read id auth' = true →
  is_Some (storage_read_cfg (id * sizeof_cfg) sizeof_cfg s') →
  cfg_read id auth' s' = Ok (true, t).
Proof.
  intros Hw Hd Hz Ha Hr. destruct (cfg_write_stored _ _ _ _ _ _ Hw) as (Hl' & Hi & _ & Hs).
  erewrite cfg_read_bytes; [|done| |done|done|done].
  - rewrite cfg_valid_bytes by (by apply item_data_length). unfold cfg_bytes. rewrite Hd.
    rewrite <- app_assoc. cbn [app]. by rewrite c_string_app.
  - unfold cfg_bytes. rewrite length_app, item_data_length by done. done.
Qed.

(** A text of at most 61 characters that was written to an item
    is what a reader with access gets back, whatever else the configuration
    holds. *)
Theorem cfg_write_read id src auth auth' s s' q :
  cfg_write id src auth s = (true, s', q) →
  (length src <= 61)%nat → Forall (λ c, c ≠ 0) src →
  cfg_table_access_read id auth' = true →
  is_Some (storage_read_cfg (id * sizeof_cfg) sizeof_cfg s') →
  cfg_read id auth' s' = Ok (true, src).
Proof.
  intros Hw Hl Hz Ha Hr.
  apply (cfg_write_read_text id src src (replicate (61 - length src) 0) auth auth' s s' q); try done.
  unfold item_data. by replace (62 - length src)%nat with (S (61 - length src)) by lia.
Qed.

(** The length check of [cfg_write] lets a text of 62 characters
    through, which leaves no room for its terminator: when neither byte of the
    item's checksum is zero, the read that follows runs past the end of the
    item. *)
Theorem cfg_write_full_item_overreads id src auth auth' s s' q :
  cfg_write id src auth s = (true, s', q) →
  length src = 62%nat → Forall (λ c, c ≠ 0) src →
  _cfg_chsum src mod 256 ≠ 0 → _cfg_chsum src / 256 ≠ 0 →
  cfg_table_access_read id auth' = true →
  is_Some (storage_read_cfg (id * sizeof_cfg) sizeof_cfg s') →
  cfg_read id auth' s' = Err FBounds.
Proof.
  intros Hw Hl Hz Hc1 Hc2 Ha Hr. destruct (cfg_write_stored _ _ _ _ _ _ Hw) as (Hl' & Hi & _ & Hs).
  erewrite cfg_read_bytes; [|done| |done|done|done].
  - rewrite cfg_valid_bytes by (by apply item_data_length). unfold cfg_bytes, item_data.
    rewrite Hl, Nat.sub_diag. cbn [replicate]. rewrite app_nil_r.
    rewrite c_string_no_nul; [done|]. apply Forall_app. split; [done|].
    by repeat constructor.
  - unfold cfg_bytes. rewrite length_app, item_data_length by done. done.
Qed.

Lemma cfg_access_denied id auth s src r :
  _table_get id = Some r → auth < write_access r → cfg_write id src auth s = (false, s, REINIT_NONE).
Proof.
  intros Hr H. unfold cfg_write, cfg_table_access_write. rewrite Hr.
  rewrite (proj2 (Z.leb_gt _ _) H). cbn [negb]. by destruct (_ <? _).
Qed.

(** Access control: without the right the table gives it, a write
    leaves the whole storage as it was and a read returns no text; an
    identifier that is not in the table is refused to everybody. *)
Theorem cfg_access_control id auth s src :
  match _table_get id with
  | Some r =>
      (auth < write_access r → cfg_write id src auth s = (false, s, REINIT_NONE)) ∧
      (auth < read_access r → cfg_read id auth s = Ok (false, []))
  | None => cfg_write id src auth s = (false, s, REINIT_NONE) ∧ cfg_read id auth s = Ok (false, [])
  end.
Proof.
  unfold cfg_write, cfg_read, cfg_table_access_read, cfg_table_access_write.
  destruct (_table_get id) as [r|].
  - split; intros H.
    + destruct (Z.leb_spec (write_access r) auth); [lia|]. cbn. by destruct (_ <? _).
    + destruct (Z.leb_spec (read_access r) auth); [lia|]. done.
  - cbn. split; [|done]. by destruct (_ <? _).
Qed.

(** Writing one item, successfully or not, leaves every other item
    of the configuration as it was. *)
Theorem cfg_write_other id src auth s b s' q id' :
  cfg_write id src auth s = (b, s', q) → is_Some (_table_get id') → id' ≠ id →
  byte s' <$> seqZ (_ADDR_CFG + id' * sizeof_cfg) sizeof_cfg
  = byte s <$> seqZ (_ADDR_CFG + id' * sizeof_cfg) sizeof_cfg.
Proof.
  unfold cfg_write, CFG_ITEM_SIZE. intros Hw [r' Ht'] Hne.
  destruct (Z.ltb_spec 62 (Z.of_nat (length src))); [by injection Hw as <- <- <-|].
  unfold cfg_table_access_write in Hw. destruct (_table_get id) as [r|] eqn:Ht;
    [|by injection Hw as <- <- <-].
  destruct (negb _); [by injection Hw as <- <- <-|]. cbv zeta in Hw. fold (item_data src) in Hw.
  destruct (storage_write_cfg _ _ s) as [b1 s1] eqn:E. injection Hw as <- <- <-.
  destruct (table_get_ok _ _ Ht) as [Hi _].
  assert (length (cfg_bytes (item_data src) (_cfg_chsum (item_data src))) = 64%nat) as Hlen.
  { unfold cfg_bytes. rewrite length_app, item_data_length by lia. done. }
  apply storage_write_cfg_spec in E as (Hwr & _).
  - eapply wrote_read; [done|done|]. rewrite Hlen. unfold sizeof_cfg. lia.
  - rewrite Hlen. exact Hi.
Qed.

(** An item whose checksum does not match (an erased one, or
    one damaged by a power loss) reads as its default from the table. *)
Theorem cfg_read_default id auth s l r :
  _table_get id = Some r → read_access r ≤ auth →
  storage_read_cfg (id * sizeof_cfg) sizeof_cfg s = Some l → _cfg_valid l = false →
  cfg_read id auth s = Ok (true, row_data r).
Proof.
  intros Ht Ha Hr Hv. unfold cfg_read, cfg_table_access_read, cfg_table_default.
  rewrite Ht, Hr, Hv. by rewrite (proj2 (Z.leb_le _ _) Ha).
Qed.

End laws.

(** ** Examples on the ideal chip *)

Definition erased_storage : storage := Storage true (λ _, 255).

Lemma cfg_write_read_witness :
  let '(_, s, _) := cfg_write CFG_ID_APN (str "sensor.net") ACCESS_ADMIN erased_storage in
  cfg_read CFG_ID_APN ACCESS_USER s = Ok (true, str "sensor.net").
Proof.
  destruct (cfg_write CFG_ID_APN (str "sensor.net") ACCESS_ADMIN erased_storage)
    as [[b s] q] eqn:E.
  assert (b = true) as -> by (injection E as <- _ _; vm_compute; reflexivity).
  refine (cfg_write_read _ _ _ ACCESS_USER _ s q E _ _ eq_refl _).
  - cbn. lia.
  - repeat constructor; discriminate.
  - injection E as <- _. eexists. reflexivity.
Defined.

Definition text62 : list Z := replicate 62 65.

Lemma cfg_write_full_item_overreads_witness :
  let '(_, s, _) := cfg_write CFG_ID_APN text62 ACCESS_ADMIN erased_storage in
  cfg_read CFG_ID_APN ACCESS_USER s = Err FBounds.
Proof.
  destruct (cfg_write CFG_ID_APN text62 ACCESS_ADMIN erased_storage) as [[b s] q] eqn:E.
  assert (b = true) as -> by (injection E as <- _ _; vm_compute; reflexivity).
  refine (cfg_write_full_item_overreads _ _ _ ACCESS_USER _ s q E eq_refl _ _ _ eq_refl _).
  - repeat constructor; discriminate.
  - vm_compute. discriminate.
  - vm_compute. discriminate.
  - injection E as <- _. eexists. reflexivity.
Defined.

Lemma cfg_write_other_witness :
  let '(b, s', q) := cfg_write CFG_ID_APN (str "x") ACCESS_ADMIN erased_storage in
  byte s' <$> seqZ (_ADDR_CFG + CFG_ID_STATE * sizeof_cfg) sizeof_cfg
  = byte erased_storage <$> seqZ (_ADDR_CFG + CFG_ID_STATE * sizeof_cfg) sizeof_cfg.
Proof.
  destruct (cfg_write CFG_ID_APN (str "x") ACCESS_ADMIN erased_storage) as [[b s] q] eqn:E.
  refine (cfg_write_other _ _ _ _ _ _ _ CFG_ID_STATE E _ _); [by eexists|discriminate].
Defined.

Lemma cfg_access_control_witness :
  cfg_write CFG_ID_STATE (str "S1") ACCESS_ADMIN erased_storage
    = (false, erased_storage, REINIT_NONE).
Proof.
  pose proof (cfg_access_control CFG_ID_STATE ACCESS_ADMIN erased_storage (str "S1")) as H.
  exact (proj1 H eq_refl).
Defined.

Lemma cfg_read_default_witness :
  cfg_read CFG_ID_APN ACCESS_USER erased_storage = Ok (true, str "internet").
Proof.
  refine (cfg_read_default CFG_ID_APN ACCESS_USER erased_storage _
            (CfgRow CFG_ID_APN ACCESS_USER ACCESS_ADMIN (str "internet")) eq_refl _ eq_refl _).
  - discriminate.
  - vm_compute. reflexivity.
Defined.
