(* ===== verification/SiaIp.v ===== *)
(** * SIA over IP codec (app/cms/cms_sia_ip.c, app/cms/cms_sia_ip.h)

    The frames the unit sends to a security centre and the acknowledgements it
    receives: a line feed, a CRC-16 and a length in hexadecimal, the data and a
    carriage return. *)

From S2P Require Import Prelude CText EventTypes Storage Cfg.

(** ** Translation tables *)

(** src/app/cms/cms_sia_ip.c:17-34 (_SIA_EVENT_TABLE) *)
Definition _SIA_EVENT_TABLE : list (event_id * option (list Z)) :=
  [(EVENT_ID_BOOT_UP, Some (str "RR")); (EVENT_ID_SHUT_DOWN, None);
   (EVENT_ID_POWER_FAIL, Some (str "AT")); (EVENT_ID_POWER_RECOVERY, Some (str "AR"));
   (EVENT_ID_LO_BATT, Some (str "YT")); (EVENT_ID_LO_BATT_RECOVERY, Some (str "YR"));
   (EVENT_ID_SET, Some (str "CL")); (EVENT_ID_UNSET, Some (str "OP"));
   (EVENT_ID_ALARM, Some (str "BA")); (EVENT_ID_ALARM_CANCEL, Some (str "BC"));
   (EVENT_ID_ALARM_TIMEOUT, None); (EVENT_ID_FAULT, Some (str "UT"));
   (EVENT_ID_FAULT_RECOVERY, Some (str "UR")); (EVENT_ID_JAMMING_ACT, Some (str "XQ"));
   (EVENT_ID_JAMMING_DACT, Some (str "XH")); (EVENT_ID_TRACKING, Some (str "TL"))].

(** src/app/cms/cms_sia_ip.c:42-59 (_SIA_SOURCE_TABLE) *)
Definition _SIA_SOURCE_TABLE : list (event_source * Z) :=
  [(EVENT_SOURCE_UNKNOWN, 0); (EVENT_SOURCE_UNIT, 0); (EVENT_SOURCE_KEY, 1);
   (EVENT_SOURCE_DOOR, 2); (EVENT_SOURCE_INPUT1, 3); (EVENT_SOURCE_INPUT2, 13);
   (EVENT_SOURCE_INPUT3, 14); (EVENT_SOURCE_SHOCK, 4); (EVENT_SOURCE_LOCK, 5);
   (EVENT_SOURCE_CELL, 6); (EVENT_SOURCE_BATTERY, 7); (EVENT_SOURCE_ADMIN, 8);
   (EVENT_SOURCE_USER1, 9); (EVENT_SOURCE_USER2, 10); (EVENT_SOURCE_USER3, 11);
   (EVENT_SOURCE_USER4, 12)].

(** src/app/cms/cms_sia_ip.c:62-79 (_EVENT_TEXT_ID) *)
Definition _EVENT_TEXT_ID : list cfg_id :=
  [CFG_ID_TEXT_EVENT_NAME_000; CFG_ID_TEXT_EVENT_NAME_001; CFG_ID_TEXT_EVENT_NAME_002;
   CFG_ID_TEXT_EVENT_NAME_003; CFG_ID_TEXT_EVENT_NAME_004; CFG_ID_TEXT_EVENT_NAME_005;
   CFG_ID_TEXT_EVENT_NAME_006; CFG_ID_TEXT_EVENT_NAME_007; CFG_ID_TEXT_EVENT_NAME_008;
   CFG_ID_TEXT_EVENT_NAME_010; CFG_ID_TEXT_EVENT_NAME_011; CFG_ID_TEXT_EVENT_NAME_012;
   CFG_ID_TEXT_EVENT_NAME_013; CFG_ID_TEXT_EVENT_NAME_014; CFG_ID_TEXT_EVENT_NAME_015;
   CFG_ID_TEXT_EVENT_NAME_016].

(** src/app/cms/cms_sia_ip.c:81-98 (_SOURCE_TEXT_ID) *)
Definition _SOURCE_TEXT_ID : list cfg_id :=
  [CFG_ID_TEXT_SOURCE_NAME_000; CFG_ID_TEXT_SOURCE_NAME_001; CFG_ID_TEXT_SOURCE_NAME_002;
   CFG_ID_TEXT_SOURCE_NAME_003; CFG_ID_TEXT_SOURCE_NAME_004; CFG_ID_TEXT_SOURCE_NAME_009;
   CFG_ID_TEXT_SOURCE_NAME_010; CFG_ID_TEXT_SOURCE_NAME_005; CFG_ID_TEXT_SOURCE_NAME_006;
   CFG_ID_TEXT_SOURCE_NAME_007; CFG_ID_TEXT_SOURCE_NAME_008; CFG_ID_ADMIN_NAME;
   CFG_ID_USER1_NAME; CFG_ID_USER2_NAME; CFG_ID_USER3_NAME; CFG_ID_USER4_NAME].

(** src/app/cms/cms_sia_ip.c:100-110 (_sia_event_code) *)
Definition _sia_event_code (id : Z) : option (list Z) :=
  match list_find (λ r : event_id * option (list Z), event_id_code r.1 = id) _SIA_EVENT_TABLE with
  | Some (_, r) => r.2
  | None => None
  end.

(** src/app/cms/cms_sia_ip.c:112-122 (_sia_zone) *)
Definition _sia_zone (source : Z) : Z :=
  match list_find (λ r : event_source * Z, event_source_code r.1 = source) _SIA_SOURCE_TABLE with
  | Some (_, r) => r.2
  | None => 0
  end.

(** ** CRC-16 *)

(** src/app/cms/cms_sia_ip.c:131-164 (SIA_IP_CRC_TABLE) *)
Definition SIA_IP_CRC_TABLE : list Z :=
  [0; 49345; 49537; 320; 49921; 960; 640; 49729; 50689; 1728; 1920; 51009; 1280; 50625;
   50305; 1088; 52225; 3264; 3456; 52545; 3840; 53185; 52865; 3648; 2560; 51905; 52097;
   2880; 51457; 2496; 2176; 51265; 55297; 6336; 6528; 55617; 6912; 56257; 55937; 6720;
   7680; 57025; 57217; 8000; 56577; 7616; 7296; 56385; 5120; 54465; 54657; 5440; 55041;
   6080; 5760; 54849; 53761; 4800; 4992; 54081; 4352; 53697; 53377; 4160; 61441; 12480;
   12672; 61761; 13056; 62401; 62081; 12864; 13824; 63169; 63361; 14144; 62721; 13760;
   13440; 62529; 15360; 64705; 64897; 15680; 65281; 16320; 16000; 65089; 64001; 15040;
   15232; 64321; 14592; 63937; 63617; 14400; 10240; 59585; 59777; 10560; 60161; 11200;
   10880; 59969; 60929; 11968; 12160; 61249; 11520; 60865; 60545; 11328; 58369; 9408;
   9600; 58689; 9984; 59329; 59009; 9792; 8704; 58049; 58241; 9024; 57601; 8640; 8320;
   57409; 40961; 24768; 24960; 41281; 25344; 41921; 41601; 25152; 26112; 42689; 42881;
   26432; 42241; 26048; 25728; 42049; 27648; 44225; 44417; 27968; 44801; 28608; 28288;
   44609; 43521; 27328; 27520; 43841; 26880; 43457; 43137; 26688; 30720; 47297; 47489;
   31040; 47873; 31680; 31360; 47681; 48641; 32448; 32640; 48961; 32000; 48577; 48257;
   31808; 46081; 29888; 30080; 46401; 30464; 47041; 46721; 30272; 29184; 45761; 45953;
   29504; 45313; 29120; 28800; 45121; 20480; 37057; 37249; 20800; 37633; 21440; 21120;
   37441; 38401; 22208; 22400; 38721; 21760; 38337; 38017; 21568; 39937; 23744; 23936;
   40257; 24320; 40897; 40577; 24128; 23040; 39617; 39809; 23360; 39169; 22976; 22656;
   38977; 34817; 18624; 18816; 35137; 19200; 35777; 35457; 19008; 19968; 36545; 36737;
   20288; 36097; 19904; 19584; 35905; 17408; 33985; 34177; 17728; 34561; 18368; 18048;
   34369; 33281; 17088; 17280; 33601; 16640; 33217; 32897; 16448].

(** src/app/cms/cms_sia_ip.h:19-19 (CMS_SIA_IP_MAX_MSG_LEN) *)
Definition CMS_SIA_IP_MAX_MSG_LEN : Z := 240.

(** The loop over at most [n] bytes; a NUL or a carriage return ends it, and a
    read past the end of the data is out of bounds. *)
(** src/app/cms/cms_sia_ip.c:172-180 (_crc_calc) *)
Fixpoint crc_loop (n : nat) (data : list Z) (crc : Z) : outcome Z :=
  match n with
  | O => Ok crc
  | S n =>
      match data with
      | [] => Err FBounds
      | ch :: data =>
          if (ch =? 0) || (ch =? 13) then Ok crc
          else
            t ← SIA_IP_CRC_TABLE.[Z.lxor ch (Z.land crc 255)];
            crc_loop n data (Z.lxor (Z.shiftr crc 8) t)
      end
  end.

(** src/app/cms/cms_sia_ip.c:166-182 (_crc_calc) *)
Definition _crc_calc (data : list Z) : outcome Z :=
  crc_loop (Z.to_nat CMS_SIA_IP_MAX_MSG_LEN) data 0.

(** The reflected CRC-16 with polynomial [0xA001], bit by bit. *)
Definition crc_bit (x : Z) : Z :=
  if Z.testbit x 0 then Z.lxor (Z.shiftr x 1) 40961 else Z.shiftr x 1.
Definition crc_byte (x : Z) : Z := Nat.iter 8 crc_bit x.
Definition crc16 (data : list Z) (crc : Z) : Z :=
  foldl (λ crc ch, crc_byte (Z.lxor crc ch)) crc data.

(** A predicate checked on every 16-bit value, high byte by high byte. *)
Definition all_u16 (P : Z → bool) : bool :=
  let bs := seqZ 0 256 in forallb (λ h, forallb (λ l, P (256 * h + l)) bs) bs.

Lemma all_u16_spec P x : all_u16 P = true → in_u16 x → P x = true.
Proof.
  unfold all_u16, in_u16. intros H Hx. rewrite forallb_forall in H.
  specialize (H (x / 256)). rewrite forallb_forall in H.
  replace x with (256 * (x / 256) + x mod 256) by (symmetry; apply Z.div_mod; lia).
  apply H; apply list_elem_of_In, elem_of_seqZ; Z.div_mod_to_equations; lia.
Qed.

Lemma crc_byte_split x : in_u16 x →
  crc_byte x = Z.lxor (Z.shiftr x 8) (crc_byte (Z.land x 255)).
Proof.
  intros Hx. apply Z.eqb_eq.
  apply (all_u16_spec (λ x, crc_byte x =? Z.lxor (Z.shiftr x 8) (crc_byte (Z.land x 255))));
    [vm_compute; reflexivity|done].
Qed.

Lemma crc_table_all :
  SIA_IP_CRC_TABLE = crc_byte <$> seqZ 0 256.
Proof. vm_compute. reflexivity. Qed.

Lemma crc_table i : in_u8 i → SIA_IP_CRC_TABLE.[i] = Ok (crc_byte i).
Proof.
  intros Hi. unfold in_u8 in Hi. apply arr_get_Ok. split; [lia|].
  rewrite crc_table_all, list_lookup_fmap, lookup_seqZ_lt by lia.
  by replace (0 + Z.of_nat (Z.to_nat i)) with i by lia.
Qed.

Lemma crc_byte_range x : in_u16 x → in_u16 (crc_byte x).
Proof.
  intros Hx.
  pose proof (all_u16_spec (λ x, (0 <=? crc_byte x) && (crc_byte x <? 65536)) x
                ltac:(vm_compute; reflexivity) Hx) as H.
  cbv beta in H. bool_hyps. by unfold in_u16.
Qed.

Lemma crc_step crc ch : in_u16 crc → in_u8 ch →
  Z.lxor (Z.shiftr crc 8) (crc_byte (Z.lxor ch (Z.land crc 255))) = crc_byte (Z.lxor crc ch) ∧
  in_u8 (Z.lxor ch (Z.land crc 255)) ∧ in_u16 (Z.lxor crc ch).
Proof.
  intros Hcrc Hch.
  assert (∀ n, 8 ≤ n → Z.testbit ch n = false) as Hb.
  { intros n Hn. unfold in_u8 in Hch. rewrite <- (Z.mod_small ch (2 ^ 8)) by (cbn; lia).
    by rewrite Z.mod_pow2_bits_high by lia. }
  assert (∀ n, 16 ≤ n → Z.testbit crc n = false) as Hc.
  { intros n Hn. unfold in_u16 in Hcrc. rewrite <- (Z.mod_small crc (2 ^ 16)) by (cbn; lia).
    by rewrite Z.mod_pow2_bits_high by lia. }
  assert (Z.lxor crc ch = Z.lxor crc ch mod 2 ^ 16) as Hx.
  { apply Z.bits_inj'. intros n Hn. destruct (decide (n < 16)).
    - by rewrite Z.mod_pow2_bits_low by lia.
    - rewrite Z.mod_pow2_bits_high by lia. rewrite Z.lxor_spec, Hc, Hb by lia. done. }
  assert (in_u16 (Z.lxor crc ch)) as Hr.
  { rewrite Hx. unfold in_u16. pose proof (Z.mod_pos_bound (Z.lxor crc ch) (2 ^ 16)). lia. }
  assert (Z.lxor ch (Z.land crc 255) = Z.land (Z.lxor crc ch) 255) as Hl.
  { apply Z.bits_inj'. intros n Hn. change 255 with (Z.ones 8).
    rewrite Z.lxor_spec, !Z.land_spec, Z.lxor_spec. destruct (decide (n < 8)).
    - rewrite Z.ones_spec_low by lia. rewrite !andb_true_r. apply xorb_comm.
    - rewrite Z.ones_spec_high, Hb by lia. by rewrite !andb_false_r. }
  split; [|split; [|done]].
  - rewrite (crc_byte_split (Z.lxor crc ch)) by done. rewrite <- Hl. f_equal.
    apply Z.bits_inj'. intros n Hn. rewrite !Z.shiftr_spec, Z.lxor_spec, Hb by lia.
    by rewrite xorb_false_r.
  - rewrite Hl. change 255 with (Z.ones 8). rewrite Z.land_ones by lia. apply u8_range.
Qed.

(** A byte of a frame's data region. *)
Definition data_byte (c : Z) : Prop := 0 < c < 256 ∧ c ≠ 13.

Lemma crc16_range data crc : in_u16 crc → Forall data_byte data → in_u16 (crc16 data crc).
Proof.
  intros Hc Hd. revert crc Hc. induction Hd as [|ch data [Hch _] Hd IH]; intros crc Hc; [done|].
  cbn. apply IH. apply crc_byte_range. apply crc_step; [done|]. unfold in_u8. lia.
Qed.

Lemma crc_loop_spec n data t rest crc :
  Forall data_byte data → (length data < n)%nat → t = 0 ∨ t = 13 → in_u16 crc →
  crc_loop n (data ++ t :: rest) crc = Ok (crc16 data crc).
Proof.
  intros Hd. revert n crc. induction Hd as [|ch data [Hch Hn] Hd IH]; intros n crc Hl Ht Hc.
  - destruct n as [|n]; [cbn in Hl; lia|]. cbn [app crc_loop].
    by destruct Ht as [-> | ->].
  - destruct n as [|n]; [cbn in Hl; lia|]. cbn [app crc_loop].
    destruct (Z.eqb_spec ch 0), (Z.eqb_spec ch 13); try lia. cbn [orb].
    destruct (crc_step crc ch Hc) as (E & Hi & Hr); [unfold in_u8; lia|].
    rewrite crc_table by done. cbn [mbind outcome_bind]. rewrite E.
    rewrite IH; [done|cbn in Hl; lia|done|by apply crc_byte_range].
Qed.

Lemma crc_calc_spec data t rest :
  Forall data_byte data → Z.of_nat (length data) < CMS_SIA_IP_MAX_MSG_LEN → t = 0 ∨ t = 13 →
  _crc_calc (data ++ t :: rest) = Ok (crc16 data 0) ∧ in_u16 (crc16 data 0).
Proof.
  intros Hd Hl Ht. split.
  - apply crc_loop_spec; [done|lia|done|]. unfold in_u16. lia.
  - apply crc16_range; [|done]. unfold in_u16. lia.
Qed.

(** The table-driven checksum of the protocol is the reflected
    CRC-16 with polynomial 0xA001, over the bytes up to the NUL of a freshly
    built message or the carriage return of a received one. *)
Theorem _crc_calc_is_crc16 data t rest :
  Forall data_byte data → Z.of_nat (length data) < CMS_SIA_IP_MAX_MSG_LEN → t = 0 ∨ t = 13 →
  _crc_calc (data ++ t :: rest) = Ok (crc16 data 0) ∧ in_u16 (crc16 data 0).
Proof. apply crc_calc_spec. Qed.

Lemma _crc_calc_is_crc16_witness :
  _crc_calc (str "123456789" ++ [13]) = Ok 47933 ∧ crc16 (str "123456789") 0 = 47933.
Proof.
  destruct (_crc_calc_is_crc16 (str "123456789") 13 []) as [H _].
  - repeat constructor; discriminate.
  - vm_compute. reflexivity.
  - by right.
  - rewrite H. split; vm_compute; reflexivity.
Defined.

(** ** Hexadecimal text *)

(** The value of a digit of [base], either case. *)
Definition digit_val (base c : Z) : option Z :=
  let v := if is_digit c then c - 48
           else if is_upper c then c - 55
           else if is_lower c then c - 87 else base in
  if v <? base then Some v else None.


(** Digits of [base], at most [n]: their value and the rest. *)
Fixpoint take_base (base : Z) (n : nat) (s : list Z) (acc : Z) : Z * list Z :=
  match n, s with
  | S n, c :: s' =>
      match digit_val base c with
      | Some v => take_base base n s' (base * acc + v)
      | None => (acc, s)
      end
  | _, _ => (acc, s)
  end.

(** The [%u] and [%x] conversions of [sscanf], [n] being the field width: white
    space, a sign, for [%x] an optional prefix, and at least one digit. The
    value is the 32-bit one of [strtoul]. *)
Definition scan_uint (base : Z) (n : nat) (s : list Z) : option (Z * list Z) :=
  let s := skip_spaces s in
  let '(neg, n, s) :=
    match s with
    | c :: s' => if c =? 45 then (true, pred n, s')
                 else if c =? 43 then (false, pred n, s') else (false, n, s)
    | [] => (false, n, s)
    end in
  let '(n, s) :=
    match n, s with
    | S (S (S n')), z :: x :: d :: _ =>
        if (base =? 16) && (z =? 48) && (to_lower x =? 120) &&
           bool_decide (is_Some (digit_val 16 d))
        then (S n', drop 2 s) else (n, s)
    | _, _ => (n, s)
    end in
  match n, s with
  | S _, c :: _ =>
      match digit_val base c with
      | Some _ => let '(v, r) := take_base base n s 0 in
                  Some (u32 (if neg then - (Z.min v 4294967295) else Z.min v 4294967295), r)
      | None => None
      end
  | _, _ => None
  end.

Lemma digit_val_hex v : 0 ≤ v < 16 → digit_val 16 (hex_digit v) = Some v.
Proof.
  intros Hv. unfold hex_digit, digit_val. destruct (Z.ltb_spec v 10).
  - rewrite (proj2 (is_digit_spec (48 + v))) by lia.
    replace (48 + v - 48) with v by lia. destruct (Z.ltb_spec v 16); [done|lia].
  - assert (is_digit (55 + v) = false) as ->.
    { unfold is_digit. destruct (Z.leb_spec 48 (55 + v)), (Z.leb_spec (55 + v) 57); (done || lia). }
    assert (is_upper (55 + v) = true) as ->.
    { unfold is_upper. destruct (Z.leb_spec 65 (55 + v)), (Z.leb_spec (55 + v) 90); (done || lia). }
    replace (55 + v - 55) with v by lia. destruct (Z.ltb_spec v 16); [done|lia].
Qed.

Lemma take_base_app n m v s acc :
  0 ≤ v < 16 ^ Z.of_nat n →
  take_base 16 (n + m) (hex_fixed n v ++ s) acc = take_base 16 m s (acc * 16 ^ Z.of_nat n + v).
Proof.
  revert m v s acc. induction n as [|n IH]; intros m v s acc Hv.
  - cbn [hex_fixed app Nat.add]. f_equal. change (16 ^ Z.of_nat 0) with 1 in *. lia.
  - cbn [hex_fixed]. rewrite <- app_assoc. cbn [app].
    rewrite Nat2Z.inj_succ, Z.pow_succ_r in * by lia.
    replace (S n + m)%nat with (n + S m)%nat by lia.
    rewrite IH; [|split; [apply Z.div_pos; lia|apply Z.div_lt_upper_bound; lia]].
    cbn [take_base]. rewrite digit_val_hex by (apply Z.mod_pos_bound; lia).
    f_equal. pose proof (Z.div_mod v 16). lia.
Qed.

Lemma take_base_stop base n s acc :
  match s with [] => True | c :: _ => digit_val base c = None end → take_base base n s acc = (acc, s).
Proof. destruct n as [|n], s as [|c s]; cbn; intros H; try done. by rewrite H. Qed.

(** What may follow a hexadecimal number for its end to be seen. *)
Definition hex_stop (s : list Z) : Prop :=
  match s with [] => True | c :: _ => digit_val 16 c = None ∧ to_lower c ≠ 120 end.

Lemma hex_fixed_head k w r :
  (0 < k)%nat →
  ∃ d l, 0 ≤ d < 16 ∧ hex_fixed k w ++ r = hex_digit d :: l ∧
    ((k = 1)%nat ∧ l = r ∨ ∃ d' l', 0 ≤ d' < 16 ∧ l = hex_digit d' :: l').
Proof.
  revert w r. induction k as [|k IH]; intros w r Hk; [lia|]. cbn [hex_fixed]. rewrite <- app_assoc.
  destruct k as [|k].
  - exists (w mod 16), r. split; [apply Z.mod_pos_bound; lia|]. split; [done|]. by left.
  - destruct (IH (w / 16) ([hex_digit (w mod 16)] ++ r)) as (d & l & Hd & E & Hl); [lia|].
    exists d, l. split; [done|]. split; [done|]. right.
    destruct Hl as [[_ ->]|?]; [|done].
    exists (w mod 16), r. split; [apply Z.mod_pos_bound; lia|done].
Qed.

Lemma hex_digit_plain d : 0 ≤ d < 16 →
  is_space (hex_digit d) = false ∧ hex_digit d ≠ 45 ∧ hex_digit d ≠ 43 ∧ to_lower (hex_digit d) ≠ 120.
Proof.
  intros Hd. pose proof (hex_digit_range d Hd). unfold is_space, to_lower, is_upper.
  destruct (Z.eqb_spec (hex_digit d) 32), (Z.leb_spec 9 (hex_digit d)),
    (Z.leb_spec (hex_digit d) 13), (Z.leb_spec 65 (hex_digit d)), (Z.leb_spec (hex_digit d) 90);
    cbn; repeat split; (done || lia).
Qed.

(** A number of [n] hexadecimal digits reads back in a field of at least that
    width, when the field ends with it or what follows does not continue it. *)
Lemma scan_hex_fixed n m v s :
  (0 < n)%nat → (n <= 8)%nat → 0 ≤ v < 16 ^ Z.of_nat n →
  (m = 0%nat ∧ n ≠ 1%nat) ∨ hex_stop s →
  scan_uint 16 (n + m) (hex_fixed n v ++ s) = Some (v, s).
Proof.
  intros Hn Hn8 Hv Hs. unfold scan_uint.
  pose proof (hex_fixed_head n v s Hn) as (d & l & Hd & E & Hl).
  destruct (hex_digit_plain d Hd) as (Hsp & H45 & H43 & _).
  rewrite E. cbn [skip_spaces]. rewrite Hsp.
  destruct (Z.eqb_spec (hex_digit d) 45), (Z.eqb_spec (hex_digit d) 43); try done.
  assert (∀ x y l', l = x :: y :: l' → (3 <= n + m)%nat → to_lower x ≠ 120) as Hx.
  { intros x y l' -> H3. destruct Hl as [[-> <-]|(d' & l'' & Hd' & [= -> _])].
    - destruct Hs as [[_ ?]|Hs]; [done|]. apply Hs.
    - by apply hex_digit_plain. }
  assert (match (n + m)%nat with
     | S (S (S n')) => match hex_digit d :: l with
         | z :: x :: y :: _ => if (16 =? 16) && (z =? 48) && (to_lower x =? 120) &&
             bool_decide (is_Some (digit_val 16 y))
             then (S n', drop 2 (hex_digit d :: l)) else ((n + m)%nat, hex_digit d :: l)
         | _ => ((n + m)%nat, hex_digit d :: l) end
     | _ => ((n + m)%nat, hex_digit d :: l) end = ((n + m)%nat, hex_digit d :: l)) as ->.
  { destruct (n + m)%nat as [|[|[|k]]] eqn:Ek; try done. destruct l as [|x [|y l]]; try done.
    destruct (Z.eqb_spec (to_lower x) 120) as [Ht|Ht].
    - by destruct (Hx x y l eq_refl ltac:(lia)).
    - by rewrite andb_false_r. }
  rewrite digit_val_hex by done.
  assert (take_base 16 (n + m) (hex_digit d :: l) 0 = (v, s)) as ->.
  { rewrite <- E, take_base_app by done. destruct Hs as [[-> _]|Hs].
    - cbn [take_base]. f_equal; lia.
    - rewrite take_base_stop; [f_equal; lia|]. destruct s; [done|apply Hs]. }
  destruct (n + m)%nat eqn:Ek; [lia|].
  assert (16 ^ Z.of_nat n ≤ 16 ^ 8) by (apply Z.pow_le_mono_r; lia).
  change (16 ^ 8) with 4294967296 in *.
  rewrite Z.min_l, u32_small by (unfold in_u32; lia). done.
Qed.

Lemma hex_len_spec f v : 0 ≤ v < 16 ^ Z.of_nat (S f) →
  (0 < hex_len f v)%nat ∧ (hex_len f v <= S f)%nat ∧ v < 16 ^ Z.of_nat (hex_len f v).
Proof.
  revert v. induction f as [|f IH]; intros v Hv; cbn [hex_len].
  - split; [lia|]. split; [lia|]. apply Hv.
  - destruct (Z.ltb_spec v 16); [split; [lia|]; split; [lia|done]|].
    rewrite Nat2Z.inj_succ, Z.pow_succ_r in Hv by lia.
    destruct (IH (v / 16)) as (A & B & C).
    { split; [apply Z.div_pos; lia|apply Z.div_lt_upper_bound; lia]. }
    split; [lia|]. split; [lia|]. rewrite Nat2Z.inj_succ, Z.pow_succ_r by lia.
    pose proof (Z.div_mod v 16). pose proof (Z.mod_pos_bound v 16). lia.
Qed.

(** [%X] reads back with [%x]. *)
Lemma scan_print_hex v s :
  in_u32 v → hex_stop s →
  scan_uint 16 (length (print_hex v ++ s)) (print_hex v ++ s) = Some (v, s) ∧
  (length (print_hex v) <= 8)%nat.
Proof.
  intros Hv Hs. unfold print_hex, in_u32 in *.
  assert ((0 < hex_len 7 v)%nat ∧ (hex_len 7 v <= 8)%nat ∧ v < 16 ^ Z.of_nat (hex_len 7 v))
    as (A & B & C).
  { apply hex_len_spec. change (16 ^ Z.of_nat 8) with 4294967296. lia. }
  rewrite length_app, hex_fixed_length. split; [|done].
  apply scan_hex_fixed; [done|done|lia|by right].
Qed.

(** ** Frames *)

(** src/app/cms/cms_sia_ip.h:15-17 (SIA_IDX_CRC, SIA_IDX_LEN, SIA_IDX_DATA) *)
Definition SIA_IDX_CRC : nat := 1.
Definition SIA_IDX_LEN : nat := 5.
Definition SIA_IDX_DATA : nat := 9.

(** src/app/cms/cms_sia_ip.h:22-29 (cms_sia_ip_state_t) *)
Record sia_state := SiaState {
  account : Z;                (* u32 *)
  sia_cnt : Z;                (* u16 *)
  prefix : Z;                 (* u16 *)
  enable_event_name : bool;
  enable_event_time : bool;
  enable_time_stamp : bool
}.

(** src/app/cms/cms_sia_ip.c:184-191 (cms_sia_ip_init) *)
Definition cms_sia_ip_init : sia_state := SiaState 0 0 0 true true true.

(** [len] is the length of the received datagram; the buffer behind it has room
    for the NUL that line 313 stores. *)
(** src/app/cms/cms_sia_ip.c:296-338 (cms_sia_ip_rx) *)
Definition cms_sia_ip_rx (udpdata : list Z) : outcome bool :=
  let len := Z.of_nat (length udpdata) in
  if len <? 20 then Ok false
  else
    first ← udpdata.[0];
    if negb (first =? 10) then Ok false
    else if CMS_SIA_IP_MAX_MSG_LEN <? len then Ok false
    else
      let d := udpdata ++ [0] in
      match scan_uint 16 4 (drop SIA_IDX_CRC d) with
      | None => Ok false
      | Some (crc, _) =>
          match scan_uint 16 4 (drop SIA_IDX_LEN d) with
          | None => Ok false
          | Some (msg_len, _) =>
              let crc := u16 crc in let msg_len := u16 msg_len in
              if negb (Z.land msg_len 61440 =? 0) then Ok false
              else
                c ← _crc_calc (drop SIA_IDX_DATA d);
                if negb (crc =? c) then Ok false
                else if negb (len - 9 - 1 =? Z.land msg_len 4095) then Ok false
                else Ok true
          end
      end.

(** A literal of a [sscanf] format or of [strncmp]. *)
Fixpoint expect (lit s : list Z) : option (list Z) :=
  match lit, s with
  | [], _ => Some s
  | c :: lit, x :: s => if x =? c then expect lit s else None
  | _, [] => None
  end.

(** The three numbers of [sscanf (.., "\"ACK\"%u" "L%x" "#%x" "[", ..) == 3],
    after the tag. *)
(** src/app/cms/cms_sia_ip.c:350-351 (sscanf) *)
Definition scan_ack (s : list Z) : option (Z * Z * Z) :=
  '(a, s) ← scan_uint 10 (length s) s; s ← expect (str "L") s;
  '(b, s) ← scan_uint 16 (length s) s; s ← expect (str "#") s;
  '(c, _) ← scan_uint 16 (length s) s; Some (a, b, c).

(** src/app/cms/cms_sia_ip.c:365-366 (sscanf) *)
Definition scan_nak (s : list Z) : option (Z * Z) :=
  '(a, s) ← scan_uint 10 (length s) s; s ← expect (str "L") s;
  '(b, _) ← scan_uint 16 (length s) s; Some (a, b).

(** The five characters of a quoted tag. *)
Definition quoted (tag : string) : list Z := [34] ++ str tag ++ [34].

(** [Some (seq, is_nak)]: the call returned true with these. *)
(** src/app/cms/cms_sia_ip.c:340-379 (cms_sia_ip_rx_ack) *)
Definition cms_sia_ip_rx_ack (s : sia_state) (udpdata : list Z) : outcome (option (Z * bool)) :=
  ok ← cms_sia_ip_rx udpdata;
  if negb ok then Ok None
  else
    let d := drop SIA_IDX_DATA udpdata in
    match expect (quoted "ACK") d with
    | Some r =>
        match scan_ack r with
        | Some (a, b, c) =>
            if (b =? prefix s) && (c =? account s) then Ok (Some (Z.land a 65535, false))
            else Ok None
        | None => Ok None
        end
    | None =>
        match expect (quoted "NAK") d with
        | Some r =>
            match scan_nak r with
            | Some (a, b) => if b =? prefix s then Ok (Some (Z.land a 65535, true)) else Ok None
            | None => Ok None
            end
        | None => Ok None
        end
    end.

(** [%0nd] of a value that needs no sign. *)
Definition print_pad (n : nat) (v : Z) : list Z :=
  let d := print_dec v in replicate (n - length d) 48 ++ d.

Section build.
Context `{F : FlashLib}.
Variable s : storage.

(** src/app/cms/cms_sia_ip.c:124-127 (_sia_text) *)
Definition _sia_text (id : Z) : outcome (option (list Z)) := cfg_read_static id s.

(** What lines 205-208 and 216-219 append. *)
Definition sia_text_or_empty (id : Z) : outcome (list Z) :=
  t ← _sia_text id; Ok (match t with Some t => t | None => [] end).

(** src/app/cms/cms_sia_ip.c:193-211 (_sia_msg_add_event) *)
Definition _sia_msg_add_event (e : event_t) : outcome (option (list Z)) :=
  match _sia_event_code (ev_id e) with
  | None => Ok None
  | Some code =>
      let zone := _sia_zone (ev_source e) in
      id ← _SOURCE_TEXT_ID.[ev_source e];
      name ← sia_text_or_empty (cfg_id_code id);
      Ok (Some (str "|Nri01/" ++ code ++ print_hex zone ++ str "^" ++ name ++ str "^"))
  end.

(** src/app/cms/cms_sia_ip.c:213-221 (_sia_msg_add_eventname) *)
Definition _sia_msg_add_eventname (e : event_t) : outcome (list Z) :=
  id ← _EVENT_TEXT_ID.[ev_id e];
  name ← sia_text_or_empty (cfg_id_code id);
  Ok (str "[I" ++ name ++ str "]").

(** src/app/cms/cms_sia_ip.c:223-228 (_sia_msg_add_eventtime) *)
Definition _sia_msg_add_eventtime (e : event_t) : list Z :=
  let t := ev_time e in
  str "[H" ++ print_dec (hour t) ++ str ":" ++ print_pad 2 (minute t) ++ str ":"
  ++ print_pad 2 (second t) ++ str "]".

(** src/app/cms/cms_sia_ip.c:230-239 (_sia_msg_add_timestamp) *)
Definition _sia_msg_add_timestamp (t : rtc_t) : list Z :=
  str "_" ++ print_pad 2 (hour t) ++ str ":" ++ print_pad 2 (minute t) ++ str ":"
  ++ print_pad 2 (second t) ++ str "," ++ print_pad 2 (month t) ++ str "-"
  ++ print_pad 2 (day t) ++ str "-" ++ print_dec (2000 + year t).

(** The data region of the message; [None] when the event has no code. *)
(** src/app/cms/cms_sia_ip.c:251-277 (cms_sia_ip_build_msg) *)
Definition sia_data (st : sia_state) (rtc_now : rtc_t) (e : event_t) (data : option (list Z))
    : outcome (option (list Z)) :=
  ev ← _sia_msg_add_event e;
  match ev with
  | None => Ok None
  | Some ev =>
      name ← (if enable_event_name st then _sia_msg_add_eventname e else Ok []);
      Ok (Some (quoted "SIA-DCS" ++ print_pad 4 (sia_cnt st) ++ str "L" ++ print_hex (prefix st)
                ++ str "#" ++ print_hex (account st) ++ str "[" ++ ev ++ str "]" ++ name
                ++ default [] data
                ++ (if enable_event_time st then _sia_msg_add_eventtime e else [])
                ++ (if enable_time_stamp st then _sia_msg_add_timestamp rtc_now else [])))
  end.

(** The header in front of a data region and the final carriage return. *)
(** src/app/cms/cms_sia_ip.c:284-291 (cms_sia_ip_build_msg) *)
Definition sia_frame (crc : Z) (d : list Z) : list Z :=
  [10] ++ hex_fixed 4 crc ++ [48] ++ hex_fixed 3 (Z.of_nat (length d)) ++ d ++ [13].

(** [Some m]: the message; [None]: the call returned 0. *)
(** src/app/cms/cms_sia_ip.c:241-294 (cms_sia_ip_build_msg) *)
Definition cms_sia_ip_build_msg (st : sia_state) (rtc_now : rtc_t) (e : event_t)
    (data : option (list Z)) : outcome (option (list Z)) :=
  d ← sia_data st rtc_now e data;
  match d with
  | None => Ok None
  | Some d =>
      let out_len := Z.of_nat (length d) in
      crc ← _crc_calc (d ++ [0]);
      _ ← os_assert (9 + out_len <? CMS_SIA_IP_MAX_MSG_LEN);
      Ok (Some (sia_frame crc d))
  end.

End build.

(** ** The protocol instance *)

(** src/app/cms/cms_sia_ip.c:383-386 (_sia, _sia_packet, _sia_packet_ok) *)
Record sia_proto := SiaProto {
  _sia : sia_state;
  _sia_packet : list Z;
  _sia_packet_ok : bool
}.

(** src/app/cms/cms_proto.h:17-21 (cms_reply_t) *)
Inductive cms_reply := CMS_REPLY_NONE | CMS_REPLY_ACK | CMS_REPLY_NAK.

#[export] Instance cms_reply_eq_dec : EqDecision cms_reply.
Proof. solve_decision. Defined.

(** src/app/cms/cms_sia_ip.c:388-393 (_sia_proto_reinit) *)
Definition _sia_proto_reinit (acct : Z) (p : sia_proto) : sia_proto :=
  let i := cms_sia_ip_init in
  SiaProto (SiaState acct (sia_cnt i) (prefix i) (enable_event_name i) (enable_event_time i)
              (enable_time_stamp i)) (_sia_packet p) false.

(** src/app/cms/cms_sia_ip.c:403-404 (_sia_proto_new_event) *)
Definition next_cnt (c : Z) : Z := if 9999 <? u16 (c + 1) then 1 else u16 (c + 1).

Definition set_cnt (c : Z) (st : sia_state) : sia_state :=
  SiaState (account st) c (prefix st) (enable_event_name st) (enable_event_time st)
    (enable_time_stamp st).

(** src/app/cms/cms_sia_ip.c:395-413 (_sia_proto_new_event) *)
Definition _sia_proto_new_event `{F : FlashLib} (s : storage) (rtc_now : rtc_t) (e : event_t)
    (p : sia_proto) : outcome (bool * sia_proto) :=
  if _sia_packet_ok p then Ok (false, p)
  else
    let st := set_cnt (next_cnt (sia_cnt (_sia p))) (_sia p) in
    m ← cms_sia_ip_build_msg s st rtc_now e None;
    match m with
    | None => Ok (false, SiaProto st [] false)
    | Some m => Ok (true, SiaProto st m true)
    end.

(** src/app/cms/cms_sia_ip.c:415-418 (_sia_proto_packet_ready) *)
Definition _sia_proto_packet_ready (p : sia_proto) : bool := _sia_packet_ok p.
(** src/app/cms/cms_sia_ip.c:425-428 (_sia_proto_get_packet) *)
Definition _sia_proto_get_packet (p : sia_proto) : list Z := _sia_packet p.
(** src/app/cms/cms_sia_ip.c:430-433 (_sia_proto_packet_done) *)
Definition _sia_proto_packet_done (p : sia_proto) : sia_proto :=
  SiaProto (_sia p) (_sia_packet p) false.

(** src/app/cms/cms_sia_ip.c:435-450 (_sia_proto_packet_reply) *)
Definition _sia_proto_packet_reply (p : sia_proto) (data : list Z) : outcome cms_reply :=
  r ← cms_sia_ip_rx_ack (_sia p) data;
  match r : option (Z * bool) with
  | None => Ok CMS_REPLY_NONE
  | Some (ack_seq, is_nak) =>
      if negb (ack_seq =? sia_cnt (_sia p)) then Ok CMS_REPLY_NONE
      else Ok (if is_nak then CMS_REPLY_NAK else CMS_REPLY_ACK)
  end.

(** ** Decimal numbers *)

(** Solves [0 ≤ v < base ^ n] for a literal [n]. *)
Ltac pow_lia := match goal with
  | |- 0 <= _ < ?p => let q := eval vm_compute in p in change p with q; lia
  end.

Lemma digit_val_dec c : is_digit c = true → digit_val 10 c = Some (c - 48).
Proof.
  intros H. unfold digit_val. rewrite H. apply is_digit_spec in H.
  destruct (Z.ltb_spec (c - 48) 10); [done|lia].
Qed.

Lemma take_base_digits l s acc m :
  Forall (λ c, is_digit c = true) l → match s with [] => True | c :: _ => digit_val 10 c = None end →
  take_base 10 (length l + m) (l ++ s) acc = (foldl (λ a c, 10 * a + (c - 48)) acc l, s).
Proof.
  intros Hl Hs. revert acc. induction Hl as [|c l Hc Hl IH]; intros acc.
  - by apply take_base_stop.
  - cbn [app length Nat.add take_base]. rewrite digit_val_dec by done. apply IH.
Qed.

Lemma scan_digits l s :
  Forall (λ c, is_digit c = true) l → l ≠ [] →
  match s with [] => True | c :: _ => digit_val 10 c = None end →
  0 ≤ foldl (λ a c, 10 * a + (c - 48)) 0 l < 4294967296 →
  scan_uint 10 (length (l ++ s)) (l ++ s) = Some (foldl (λ a c, 10 * a + (c - 48)) 0 l, s).
Proof.
  intros Hl Hne Hs Hv. destruct l as [|c l]; [done|]. clear Hne.
  pose proof (Forall_inv Hl) as Hc. pose proof (proj1 (is_digit_spec c) Hc) as Hr.
  unfold scan_uint. cbn [app skip_spaces].
  assert (is_space c = false) as ->.
  { unfold is_space. destruct (Z.eqb_spec c 32), (Z.leb_spec 9 c), (Z.leb_spec c 13);
      cbn; (done || lia). }
  destruct (Z.eqb_spec c 45), (Z.eqb_spec c 43); try lia.
  set (N := length (c :: l ++ s)).
  assert (match N with
     | S (S (S n')) => match c :: l ++ s with
         | z :: x :: y :: _ => if (10 =? 16) && (z =? 48) && (to_lower x =? 120) &&
             bool_decide (is_Some (digit_val 16 y))
             then (S n', drop 2 (c :: l ++ s)) else (N, c :: l ++ s)
         | _ => (N, c :: l ++ s) end
     | _ => (N, c :: l ++ s) end = (N, c :: l ++ s)) as ->.
  { destruct N as [|[|[|k]]]; try done. by destruct (l ++ s) as [|x [|y r]]. }
  rewrite digit_val_dec by done.
  assert (take_base 10 N (c :: l ++ s) 0 = (foldl (λ a c, 10 * a + (c - 48)) 0 (c :: l), s)) as ->.
  { unfold N. change (c :: l ++ s) with ((c :: l) ++ s). rewrite length_app.
    by apply take_base_digits. }
  unfold N. cbn [length]. rewrite Z.min_l, u32_small by (unfold in_u32; lia). done.
Qed.

Lemma digits_fuel_length n v acc :
  0 ≤ v < 10 ^ Z.of_nat n → (0 < n)%nat →
  (length (digits_fuel n v acc) <= n + length acc)%nat.
Proof.
  revert v acc. induction n as [|n IH]; intros v acc Hv Hn; [lia|].
  cbn [digits_fuel]. destruct (Z.ltb_spec v 10); [cbn; lia|].
  rewrite Nat2Z.inj_succ, Z.pow_succ_r in Hv by lia. destruct n as [|n].
  { change (10 ^ Z.of_nat 0) with 1 in Hv. lia. }
  etransitivity; [apply IH; [|lia]|cbn; lia].
  split; [apply Z.div_pos; lia|apply Z.div_lt_upper_bound; lia].
Qed.

(** A smaller bound on the digits gives a shorter text. *)
Lemma digits_fuel_more n m v acc :
  0 ≤ v < 10 ^ Z.of_nat n → (0 < n)%nat → digits_fuel (n + m) v acc = digits_fuel n v acc.
Proof.
  revert v acc. induction n as [|n IH]; intros v acc Hv Hn; [lia|].
  cbn [Nat.add digits_fuel]. destruct (Z.ltb_spec v 10); [done|].
  rewrite Nat2Z.inj_succ, Z.pow_succ_r in Hv by lia. destruct n as [|n].
  { change (10 ^ Z.of_nat 0) with 1 in Hv. lia. }
  apply IH; [|lia]. split; [apply Z.div_pos; lia|apply Z.div_lt_upper_bound; lia].
Qed.

Lemma print_dec_length n v :
  0 ≤ v < 10 ^ Z.of_nat n → (0 < n <= 20)%nat → (length (print_dec v) <= n)%nat.
Proof.
  intros Hv Hn. unfold print_dec. destruct (Z.ltb_spec v 0); [lia|].
  replace 20%nat with (n + (20 - n))%nat by lia. rewrite digits_fuel_more by lia.
  etransitivity; [apply digits_fuel_length; lia|cbn; lia].
Qed.

Lemma print_pad_length n k v :
  0 ≤ v < 10 ^ Z.of_nat k → (0 < k <= 20)%nat → (n <= length (print_pad n v) <= n `max` k)%nat.
Proof.
  intros Hv Hk. pose proof (print_dec_length k v Hv Hk).
  unfold print_pad. rewrite length_app, length_replicate. lia.
Qed.

Lemma foldl_zeros k l : foldl (λ a c, 10 * a + (c - 48)) 0 (replicate k 48 ++ l)
  = foldl (λ a c, 10 * a + (c - 48)) 0 l.
Proof. induction k as [|k IH]; [done|]. cbn. exact IH. Qed.

(** [%04d] reads back with [%u]. *)
Lemma scan_print_pad n v s :
  in_u32 v → match s with [] => True | c :: _ => digit_val 10 c = None end →
  scan_uint 10 (length (print_pad n v ++ s)) (print_pad n v ++ s) = Some (v, s).
Proof.
  intros Hv Hs. unfold in_u32 in Hv. unfold print_pad, print_dec.
  destruct (Z.ltb_spec v 0); [lia|].
  destruct (digits_fuel_spec 20 v []) as (l & -> & Hf & Hne & E); [cbn; lia|lia|].
  rewrite app_nil_r. set (z := replicate _ 48).
  assert (foldl (λ a c, 10 * a + (c - 48)) 0 (z ++ l) = v) as Ez by (unfold z; by rewrite foldl_zeros).
  rewrite scan_digits; [by rewrite Ez| | |done|rewrite Ez; lia].
  - apply Forall_app. split; [|done]. apply Forall_replicate. reflexivity.
  - by destruct z, l.
Qed.

(** ** Frames are accepted *)

(** A data region that fits a frame: long enough for the shortest datagram the
    receiver looks at, short enough for the message limit. *)
Definition fits (d : list Z) : Prop :=
  Forall data_byte d ∧ 10 ≤ Z.of_nat (length d) ∧ 9 + Z.of_nat (length d) < CMS_SIA_IP_MAX_MSG_LEN.

Lemma sia_frame_length crc d : length (sia_frame crc d) = (10 + length d)%nat.
Proof. unfold sia_frame. rewrite !length_app, !hex_fixed_length. cbn. lia. Qed.

Lemma sia_frame_data crc d r :
  drop SIA_IDX_DATA (sia_frame crc d ++ r) = d ++ 13 :: r.
Proof.
  unfold sia_frame. rewrite <- !app_assoc. unfold SIA_IDX_DATA.
  change ([10] ++ ?x) with (10 :: x). cbn [drop].
  rewrite drop_app_ge by (rewrite hex_fixed_length; lia). rewrite hex_fixed_length.
  cbn [app drop Nat.sub]. rewrite drop_app_ge by (rewrite hex_fixed_length; lia).
  by rewrite hex_fixed_length.
Qed.

Lemma sia_frame_rx d : fits d → cms_sia_ip_rx (sia_frame (crc16 d 0) d) = Ok true.
Proof.
  intros (Hd & Hmin & Hmax). unfold CMS_SIA_IP_MAX_MSG_LEN in Hmax.
  unfold cms_sia_ip_rx. rewrite sia_frame_length.
  destruct (Z.ltb_spec (Z.of_nat (10 + length d)) 20); [lia|].
  change (sia_frame (crc16 d 0) d).[0] with (Ok 10). cbn [mbind outcome_bind Z.eqb Pos.eqb negb].
  unfold CMS_SIA_IP_MAX_MSG_LEN.
  destruct (Z.ltb_spec 240 (Z.of_nat (10 + length d))); [lia|].
  destruct (crc_calc_spec d 13 [0]) as [Hcrc Hr]; [done|unfold CMS_SIA_IP_MAX_MSG_LEN; lia|by right|].
  set (l3 := Z.of_nat (length d)) in *.
  assert (drop SIA_IDX_CRC (sia_frame (crc16 d 0) d ++ [0])
    = hex_fixed 4 (crc16 d 0) ++ ([48] ++ hex_fixed 3 l3 ++ d ++ [13]) ++ [0]) as ->.
  { unfold sia_frame. by rewrite <- !app_assoc. }
  pose proof (scan_hex_fixed 4 0 (crc16 d 0) (([48] ++ hex_fixed 3 l3 ++ d ++ [13]) ++ [0])) as E1.
  cbn [Nat.add] in E1. rewrite E1; [|lia|lia|unfold in_u16 in Hr; cbn; lia|by left].
  assert (drop SIA_IDX_LEN (sia_frame (crc16 d 0) d ++ [0])
    = hex_fixed 4 l3 ++ (d ++ [13]) ++ [0]) as ->.
  { unfold sia_frame. rewrite <- !app_assoc. unfold SIA_IDX_LEN.
    change ([10] ++ ?x) with (10 :: x). cbn [drop].
    rewrite drop_app_ge by (rewrite hex_fixed_length; lia). rewrite hex_fixed_length.
    cbn [Nat.sub drop app hex_fixed]. rewrite !Z.div_div by lia. fold l3.
    by replace (l3 / (16 * (16 * 16)) mod 16) with 0
      by (rewrite (Z.div_small l3) by lia; done). }
  pose proof (scan_hex_fixed 4 0 l3 ((d ++ [13]) ++ [0])) as E2.
  cbn [Nat.add] in E2. rewrite E2; [|lia|lia|cbn; lia|by left].
  cbv zeta. rewrite !u16_small by (unfold in_u16 in *; lia).
  assert (Z.land l3 61440 = 0 ∧ Z.land l3 4095 = l3) as [-> ->].
  { split.
    - apply Z.bits_inj'. intros n Hn. rewrite Z.land_spec, Z.bits_0.
      destruct (decide (n < 12)).
      + change 61440 with (Z.shiftl 15 12). rewrite Z.shiftl_spec_low by lia. apply andb_false_r.
      + rewrite <- (Z.mod_small l3 (2 ^ 12)) by (cbn; lia).
        by rewrite Z.mod_pow2_bits_high by lia.
    - change 4095 with (Z.ones 12). rewrite Z.land_ones by lia. apply Z.mod_small. cbn. lia. }
  rewrite sia_frame_data, Hcrc. cbn [Z.eqb negb mbind outcome_bind]. rewrite Z.eqb_refl. cbn [negb].
  replace (Z.of_nat (10 + length d) - 9 - 1) with l3 by lia. by rewrite Z.eqb_refl.
Qed.

(** ** Messages fit and are accepted *)

Lemma c_string_length l t : c_string l = Ok t → (length t < length l)%nat.
Proof.
  revert t. induction l as [|c l IH]; intros t; cbn; [done|].
  destruct (c =? 0); [intros [= <-]; cbn; lia|].
  destruct (c_string l) as [t'|]; cbn; [|done]. intros [= <-]. specialize (IH t' eq_refl). cbn. lia.
Qed.

Lemma table_default_length id d : cfg_table_default id = Some d → (length d < 62)%nat.
Proof.
  unfold cfg_table_default. destruct (_table_get id) as [r|] eqn:Ht; [|done]. intros [= <-].
  apply table_find_ok in Ht as (Hr & _ & _); [|vm_compute; reflexivity].
  unfold row_ok, CFG_ITEM_SIZE in Hr. apply andb_prop in Hr as [H _]. apply andb_prop in H as [_ H].
  bool_hyps. lia.
Qed.

Section messages.
Context `{F : FlashLib} `{FS : !FlashSpec F}.

Lemma cfg_read_static_length id s t : cfg_read_static id s = Ok (Some t) → (length t <= 63)%nat.
Proof.
  unfold cfg_read_static, cfg_read, cfg_table_access_read.
  destruct (_table_get id) as [r|] eqn:Ht; [|done].
  destruct (_ <=? _); [|done]. cbn [negb].
  destruct (storage_read_cfg _ _ s) as [l|] eqn:Er; [|done].
  apply storage_read_cfg_spec in Er; [|by apply (table_get_ok id r)].
  destruct (_cfg_valid l).
  - destruct (c_string l) as [x|] eqn:Ec; [|done]. cbn. intros [= <-].
    apply c_string_length in Ec. rewrite Er, length_fmap, length_seqZ in Ec. change (Z.to_nat sizeof_cfg) with 64%nat in Ec. lia.
  - destruct (cfg_table_default id) as [x|] eqn:Ed; [|done]. cbn. intros [= <-].
    apply table_default_length in Ed. lia.
Qed.

Lemma sia_text_length s id t : sia_text_or_empty s id = Ok t → (length t <= 63)%nat.
Proof.
  unfold sia_text_or_empty, _sia_text.
  destruct (cfg_read_static id s) as [[x|]|] eqn:E; cbn; intros [= <-]; [|cbn; lia].
  by eapply cfg_read_static_length.
Qed.

Lemma sia_event_code_length id c : _sia_event_code id = Some c → length c = 2%nat.
Proof.
  unfold _sia_event_code. destruct (list_find _ _) as [[i r]|] eqn:E; [|done].
  apply list_find_Some in E as (E & _ & _). intros Hr.
  assert (Forall (λ r : event_id * option (list Z), ∀ c, r.2 = Some c → length c = 2%nat)
            _SIA_EVENT_TABLE) as Hall by (repeat constructor; by intros c' [= <-]).
  rewrite Forall_lookup in Hall. by apply (Hall _ _ E).
Qed.

Lemma sia_zone_range src : 0 ≤ _sia_zone src < 16.
Proof.
  unfold _sia_zone. destruct (list_find _ _) as [[i r]|] eqn:E; [|lia].
  apply list_find_Some in E as (E & _ & _).
  assert (Forall (λ r : event_source * Z, 0 ≤ r.2 < 16) _SIA_SOURCE_TABLE) as Hall
    by (repeat constructor; discriminate).
  rewrite Forall_lookup in Hall. by apply (Hall _ _ E).
Qed.

(** The calendar fields are bytes. *)
Definition rtc_bytes (t : rtc_t) : Prop :=
  in_u8 (year t) ∧ in_u8 (month t) ∧ in_u8 (day t) ∧ in_u8 (hour t) ∧ in_u8 (minute t) ∧ in_u8 (second t).

Lemma print_hex_length v : in_u32 v → (length (print_hex v) <= 8)%nat.
Proof. intros Hv. by apply (scan_print_hex v [] Hv). Qed.

Lemma pad2_length v : in_u8 v → (length (print_pad 2 v) <= 3)%nat.
Proof. intros Hv. unfold in_u8 in Hv. pose proof (print_pad_length 2 3 v ltac:(pow_lia) ltac:(lia)). lia. Qed.

Ltac lengths := unfold quoted; repeat first [rewrite length_app | progress cbn [length app str default]].

Lemma sia_data_length s st now e d :
  in_u32 (account st) → in_u16 (sia_cnt st) → in_u16 (prefix st) →
  rtc_bytes now → rtc_bytes (ev_time e) →
  sia_data s st now e None = Ok (Some d) →
  10 ≤ Z.of_nat (length d) ∧ 9 + Z.of_nat (length d) < CMS_SIA_IP_MAX_MSG_LEN.
Proof.
  intros Ha Hc Hp (N1 & N2 & N3 & N4 & N5 & N6) (E1 & E2 & E3 & E4 & E5 & E6). unfold sia_data.
  destruct (_sia_msg_add_event s e) as [[ev|]|] eqn:Eev; [|done|done].
  cbn [mbind outcome_bind].
  destruct (if enable_event_name st then _ else _) as [name|] eqn:En; [|done].
  cbn [mbind outcome_bind]. intros [= <-]. unfold CMS_SIA_IP_MAX_MSG_LEN.
  assert (length ev <= 82)%nat as Lev.
  { revert Eev. unfold _sia_msg_add_event.
    destruct (_sia_event_code (ev_id e)) as [code|] eqn:Ec; [|done].
    apply sia_event_code_length in Ec.
    destruct (_SOURCE_TEXT_ID.[_]) as [id|]; [|done]. cbn [mbind outcome_bind].
    destruct (sia_text_or_empty s id) as [nm|] eqn:Et; [|done]. apply sia_text_length in Et.
    cbn [mbind outcome_bind]. intros [= <-].
    pose proof (print_hex_length (_sia_zone (ev_source e))) as Hz.
    pose proof (sia_zone_range (ev_source e)).
    lengths. rewrite Ec. unfold in_u32 in Hz. lia. }
  assert (length name <= 66)%nat as Ln.
  { destruct (enable_event_name st); [|injection En as <-; cbn; lia].
    revert En. unfold _sia_msg_add_eventname.
    destruct (_EVENT_TEXT_ID.[_]) as [id|]; [|done]. cbn [mbind outcome_bind].
    destruct (sia_text_or_empty s id) as [nm|] eqn:Et; [|done]. apply sia_text_length in Et.
    cbn [mbind outcome_bind]. intros [= <-]. lengths. lia. }
  pose proof (print_hex_length (account st) Ha).
  pose proof (print_hex_length (prefix st)) as Hpl. unfold in_u16, in_u32 in *.
  pose proof (print_pad_length 4 5 (sia_cnt st) ltac:(pow_lia) ltac:(lia)) as Hcl. cbn in Hcl.
  assert (length (if enable_event_time st then _sia_msg_add_eventtime e else []) <= 14)%nat as Lt.
  { destruct (enable_event_time st); [|cbn; lia]. unfold _sia_msg_add_eventtime. cbv zeta.
    pose proof (pad2_length _ E5). pose proof (pad2_length _ E6). unfold in_u8 in *.
    pose proof (print_dec_length 3 (hour (ev_time e)) ltac:(pow_lia) ltac:(lia)).
    lengths. lia. }
  assert (length (if enable_time_stamp st then _sia_msg_add_timestamp now else []) <= 25)%nat as Ls.
  { destruct (enable_time_stamp st); [|cbn; lia]. unfold _sia_msg_add_timestamp.
    pose proof (pad2_length _ N2). pose proof (pad2_length _ N3). pose proof (pad2_length _ N4).
    pose proof (pad2_length _ N5). pose proof (pad2_length _ N6). unfold in_u8 in *.
    pose proof (print_dec_length 4 (2000 + year now) ltac:(pow_lia) ltac:(lia)).
    lengths. lia. }
  change (length ([] : list Z)) with 0%nat. lengths. lia.
Qed.

(** C32 (roundtrip). Every reportable event becomes a frame of at most 240
    bytes, without tripping the length assertion, which the receiving side of
    the codec accepts: header, checksum and length are consistent, whatever the
    configured names of the event and its source are (as long as they hold no
    carriage return). *)
Theorem cms_sia_ip_message_accepted s st now e d :
  in_u32 (account st) → in_u16 (sia_cnt st) → in_u16 (prefix st) →
  rtc_bytes now → rtc_bytes (ev_time e) →
  sia_data s st now e None = Ok (Some d) → Forall data_byte d →
  ∃ m, cms_sia_ip_build_msg s st now e None = Ok (Some m) ∧
    Z.of_nat (length m) ≤ CMS_SIA_IP_MAX_MSG_LEN ∧
    cms_sia_ip_rx m = Ok true ∧ drop SIA_IDX_DATA m = d ++ [13].
Proof.
  intros Ha Hc Hp Hn He Hd Hb. destruct (sia_data_length _ _ _ _ _ Ha Hc Hp Hn He Hd) as [H1 H2].
  exists (sia_frame (crc16 d 0) d). unfold cms_sia_ip_build_msg. rewrite Hd.
  cbn [mbind outcome_bind]. cbv zeta.
  destruct (crc_calc_spec d 0 []) as [-> _]; [done|lia|by left|].
  cbn [mbind outcome_bind]. unfold os_assert.
  destruct (Z.ltb_spec (9 + Z.of_nat (length d)) CMS_SIA_IP_MAX_MSG_LEN); [|lia].
  split; [done|]. split; [rewrite sia_frame_length; lia|]. split.
  - by apply sia_frame_rx.
  - pose proof (sia_frame_data (crc16 d 0) d []) as E. by rewrite app_nil_r in E.
Qed.

End messages.

(** ** Replies *)

(** The data region of a reply of the centre. *)
Definition reply_data (tag : string) (seq pfx acct : Z) (rest : list Z) : list Z :=
  quoted tag ++ print_pad 4 seq ++ str "L" ++ print_hex pfx ++ str "#" ++ print_hex acct
  ++ str "[" ++ rest.

Definition reply_frame (tag : string) (seq pfx acct : Z) (rest : list Z) : list Z :=
  let d := reply_data tag seq pfx acct rest in sia_frame (crc16 d 0) d.

Lemma u16_land v : in_u16 v → Z.land v 65535 = v.
Proof.
  intros Hv. change 65535 with (Z.ones 16). rewrite Z.land_ones by lia.
  apply Z.mod_small. exact Hv.
Qed.

(** What a well-formed reply of the centre does: an
    acknowledgement counts only with the unit's line prefix and account and the
    sequence number of the packet in flight, a refusal with the prefix and the
    sequence number, and every other reply is ignored. *)
Theorem sia_reply_decision p seq pfx acct rest :
  in_u16 seq → in_u16 pfx → in_u32 acct →
  (fits (reply_data "ACK" seq pfx acct rest) →
   _sia_proto_packet_reply p (reply_frame "ACK" seq pfx acct rest) = Ok
     (if (pfx =? prefix (_sia p)) && (acct =? account (_sia p)) && (seq =? sia_cnt (_sia p))
      then CMS_REPLY_ACK else CMS_REPLY_NONE)) ∧
  (fits (reply_data "NAK" seq pfx acct rest) →
   _sia_proto_packet_reply p (reply_frame "NAK" seq pfx acct rest) = Ok
     (if (pfx =? prefix (_sia p)) && (seq =? sia_cnt (_sia p))
      then CMS_REPLY_NAK else CMS_REPLY_NONE)).
Proof.
  intros Hs Hp Ha. assert (in_u32 seq ∧ in_u32 pfx) as [Hs' Hp'] by (unfold in_u16, in_u32 in *; lia).
  assert (∀ tag, fits (reply_data tag seq pfx acct rest) →
    cms_sia_ip_rx (reply_frame tag seq pfx acct rest) = Ok true ∧
    drop SIA_IDX_DATA (reply_frame tag seq pfx acct rest) = quoted tag ++ print_pad 4 seq ++
      str "L" ++ print_hex pfx ++ str "#" ++ print_hex acct ++ (str "[" ++ rest ++ [13])) as Hf.
  { intros tag Hf. split; [by apply sia_frame_rx|].
    pose proof (sia_frame_data (crc16 (reply_data tag seq pfx acct rest) 0)
                  (reply_data tag seq pfx acct rest) []) as E.
    rewrite app_nil_r in E. unfold reply_frame. rewrite E. unfold reply_data.
    by rewrite <- !app_assoc. }
  assert (∀ x, hex_stop (str "[" ++ x)) as Hst1 by (intros x; split; [reflexivity|discriminate]).
  assert (∀ x, hex_stop (str "#" ++ x)) as Hst2 by (intros x; split; [reflexivity|discriminate]).
  split; intros Hfit; destruct (Hf _ Hfit) as [Hrx Hd];
    unfold _sia_proto_packet_reply, cms_sia_ip_rx_ack; rewrite Hrx;
    cbn [mbind outcome_bind negb]; cbv zeta; rewrite Hd.
  - change (expect (quoted "ACK") (quoted "ACK" ++ ?x)) with (Some x). cbv iota.
    unfold scan_ack. rewrite scan_print_pad by done. cbn [mbind option_bind].
    change (expect (str "L") (str "L" ++ ?x)) with (Some x). cbn [mbind option_bind].
    rewrite (proj1 (scan_print_hex pfx _ Hp' (Hst2 _))). cbn [mbind option_bind].
    change (expect (str "#") (str "#" ++ ?x)) with (Some x). cbn [mbind option_bind].
    rewrite (proj1 (scan_print_hex acct _ Ha (Hst1 _))). cbn [mbind option_bind].
    destruct (pfx =? prefix (_sia p)), (acct =? account (_sia p)); cbn [andb mbind outcome_bind];
      try done.
    rewrite u16_land by done. by destruct (seq =? sia_cnt (_sia p)).
  - change (expect (quoted "ACK") (quoted "NAK" ++ ?x)) with (@None (list Z)). cbv iota.
    change (expect (quoted "NAK") (quoted "NAK" ++ ?x)) with (Some x). cbv iota.
    unfold scan_nak. rewrite scan_print_pad by done. cbn [mbind option_bind].
    change (expect (str "L") (str "L" ++ ?x)) with (Some x). cbn [mbind option_bind].
    rewrite (proj1 (scan_print_hex pfx _ Hp' (Hst2 _))). cbn [mbind option_bind].
    destruct (pfx =? prefix (_sia p)); cbn [andb mbind outcome_bind]; try done.
    rewrite u16_land by done. by destruct (seq =? sia_cnt (_sia p)).
Qed.

(** ** Examples *)

Definition sample_event : event_t := Event 7 (Rtc 24 5 6 12 30 45) EVENT_ID_ALARM EVENT_SOURCE_DOOR.
Definition sample_state : sia_state := SiaState 4660 12 0 true true true.
Definition sample_now : rtc_t := Rtc 24 5 6 12 30 46.

(** The data region of the sample event with the default names. *)
Definition sample_data : list Z :=
  quoted "SIA-DCS" ++ str "0012L0#1234[|Nri01/BA2^Door^][IAlarm][H12:30:45]_12:30:46,05-06-2024".

Example sample_data_built :
  sia_data erased_storage sample_state sample_now sample_event None = Ok (Some sample_data).
Proof. vm_compute. reflexivity. Qed.

Lemma sample_data_bytes : Forall data_byte sample_data.
Proof.
  apply Forall_forall. intros c Hc. apply list_elem_of_In in Hc.
  assert (forallb (λ c, (0 <? c) && (c <? 256) && negb (c =? 13)) sample_data = true) as H
    by (vm_compute; reflexivity).
  rewrite forallb_forall in H. specialize (H c Hc).
  apply andb_prop in H as [H H3]. apply andb_prop in H as [H1 H2]. bool_hyps. split; [lia|done].
Qed.

Lemma cms_sia_ip_message_accepted_witness :
  ∃ m, cms_sia_ip_build_msg erased_storage sample_state sample_now sample_event None = Ok (Some m)
    ∧ cms_sia_ip_rx m = Ok true.
Proof.
  destruct (cms_sia_ip_message_accepted erased_storage sample_state sample_now sample_event sample_data)
    as (m & H1 & _ & H2 & _).
  - unfold in_u32. cbn. lia.
  - unfold in_u16. cbn. lia.
  - unfold in_u16. cbn. lia.
  - unfold rtc_bytes, in_u8. cbn. lia.
  - unfold rtc_bytes, in_u8. cbn. lia.
  - exact sample_data_built.
  - exact sample_data_bytes.
  - exists m. exact (conj H1 H2).
Defined.

Lemma sia_reply_decision_witness :
  _sia_proto_packet_reply (SiaProto sample_state [] true) (reply_frame "ACK" 12 0 4660 (str "]"))
    = Ok CMS_REPLY_ACK.
Proof.
  refine (proj1 (sia_reply_decision (SiaProto sample_state [] true) 12 0 4660 (str "]") _ _ _) _).
  - unfold in_u16. lia.
  - unfold in_u16. lia.
  - unfold in_u32. lia.
  - split; [|split; vm_compute; (reflexivity || discriminate)].
    repeat constructor; discriminate.
Defined.
