(* ===== verification/NetTarget.v ===== *)
(** * Server addresses (net/net_target.c, net_parse_target_ip and net_get_target_ip of app/net.c)

    The "<host>:<port>" texts of the configuration: a literal address, a name
    to resolve, or nothing usable. *)

From S2P Require Import Prelude CText.

(** src/net/net_target.h:6-6 (NET_TARGET_HOST_MAX) *)
Definition NET_TARGET_HOST_MAX : Z := 64.

(** src/net/net_target.h:8-12 (net_target_type_e) *)
Inductive net_target_type := NET_TARGET_INVALID | NET_TARGET_IP | NET_TARGET_NAME.

#[export] Instance net_target_type_eq_dec : EqDecision net_target_type.
Proof. solve_decision. Defined.

(** What the call leaves in its outputs: [t_port] and [t_host] are [None] when
    they are not written. *)
Record target := Target {
  t_type : net_target_type;
  t_host : option (list Z);
  t_port : option Z;
  t_ip : Z
}.

(** src/net/net_target.c:5-13 (_is_ip_chars) *)
Fixpoint _is_ip_chars (s : list Z) : bool :=
  match s with
  | [] => true
  | c :: s => if negb (is_digit c) && negb (c =? 46) then false else _is_ip_chars s
  end.

(** src/net/net_target.c:15-23 (_has_alpha) *)
Fixpoint _has_alpha (s : list Z) : bool :=
  match s with
  | [] => false
  | c :: s => if is_alpha c then true else _has_alpha s
  end.

(** src/net/net_target.c:29-31 (sscanf) *)
Definition scan_quad (s : list Z) : option (Z * Z * Z * Z) :=
  '(a, s) ← scan_s32 s; s ← scan_char 46 s;
  '(b, s) ← scan_s32 s; s ← scan_char 46 s;
  '(c, s) ← scan_s32 s; s ← scan_char 46 s;
  '(d, _) ← scan_s32 s; Some (a, b, c, d).

(** src/net/net_target.c:25-40 (_ipv4_parse) *)
Definition _ipv4_parse (s : list Z) : option Z :=
  match scan_quad s with
  | None => None
  | Some (a, b, c, d) =>
      if (255 <? a) || (255 <? b) || (255 <? c) || (255 <? d) then None
      else if (a =? 0) || (d =? 0) then None
      else Some (u32 (a + Z.shiftl b 8 + Z.shiftl c 16 + Z.shiftl d 24))
  end.

(** [strrchr (s, c)]: what is before and after the last [c]. *)
Fixpoint split_last (c : Z) (s : list Z) : option (list Z * list Z) :=
  match s with
  | [] => None
  | x :: s' =>
      match split_last c s' with
      | Some (h, r) => Some (x :: h, r)
      | None => if x =? c then Some ([], s') else None
      end
  end.

(** src/net/net_target.c:42-86 (net_target_parse) *)
Definition net_target_parse (url : list Z) (host_size : Z) : target :=
  match split_last 58 url with
  | None => Target NET_TARGET_INVALID None None 0
  | Some (h, tail) =>
      let len := Z.of_nat (length h) in
      if (len =? 0) || (host_size <=? len) then Target NET_TARGET_INVALID None None 0
      else
        match scan_s32 tail with
        | None => Target NET_TARGET_INVALID None None 0
        | Some (p, _) =>
            if (p <=? 0) || (65535 <? p) then Target NET_TARGET_INVALID None None 0
            else if _is_ip_chars h then
              match _ipv4_parse h with
              | Some ip => Target NET_TARGET_IP (Some h) (Some (u16 p)) ip
              | None => Target NET_TARGET_INVALID (Some h) None 0
              end
            else if _has_alpha h then Target NET_TARGET_NAME (Some h) (Some (u16 p)) 0
            else Target NET_TARGET_INVALID (Some h) None 0
        end
  end.

(** The result, [*ip] and what is written to [*port]. *)
(** src/app/net.c:33-39 (net_parse_target_ip) *)
Definition net_parse_target_ip (url : list Z) : bool * Z * option Z :=
  let t := net_target_parse url NET_TARGET_HOST_MAX in
  (negb (bool_decide (t_type t = NET_TARGET_INVALID)), t_ip t, t_port t).

(** [dns] is what the resolver of the modem answers for a name: [None] or 0 when
    it fails. *)
(** src/app/net.c:48-82 (net_get_target_ip) *)
Definition net_get_target_ip (dns : list Z → option Z) (url : list Z) : bool * Z * option Z :=
  let t := net_target_parse url NET_TARGET_HOST_MAX in
  match t_type t with
  | NET_TARGET_IP => (true, t_ip t, t_port t)
  | NET_TARGET_NAME =>
      match dns (default [] (t_host t)) with
      | Some addr => if addr =? 0 then (false, 0, t_port t) else (true, addr, t_port t)
      | None => (false, 0, t_port t)
      end
  | NET_TARGET_INVALID => (false, t_ip t, t_port t)
  end.

(** ** Lemmas *)

Lemma split_last_app c h r :
  c ∉ r → split_last c (h ++ c :: r) = Some (h, r).
Proof.
  intros Hr. induction h as [|x h IH]; cbn.
  - assert (split_last c r = None) as ->.
    { clear -Hr. induction r as [|y r IH]; [done|]. apply not_elem_of_cons in Hr as [H1 H2].
      cbn. rewrite IH by done. destruct (Z.eqb_spec y c); [by subst|done]. }
    by rewrite Z.eqb_refl.
  - by rewrite IH.
Qed.

Lemma split_last_Some c s h r : split_last c s = Some (h, r) → s = h ++ c :: r ∧ c ∉ r.
Proof.
  revert h r. induction s as [|x s IH]; intros h r; cbn; [done|].
  destruct (split_last c s) as [[h' r']|] eqn:E.
  - intros [= <- <-]. destruct (IH h' r' eq_refl) as [-> ?]. done.
  - destruct (Z.eqb_spec x c) as [->|]; [|done]. intros [= <- <-]. split; [done|].
    clear -E. revert E. induction s as [|y s IH]; cbn; [intros _; apply not_elem_of_nil|].
    destruct (split_last c s) as [[? ?]|]; [done|].
    destruct (Z.eqb_spec y c); [done|]. intros _. apply not_elem_of_cons. split; [congruence|by apply IH].
Qed.

Lemma print_dec_digits v : 0 ≤ v < 10 ^ 20 → Forall (λ c, is_digit c = true) (print_dec v) ∧ print_dec v ≠ [].
Proof.
  intros Hv. unfold print_dec. destruct (Z.ltb_spec v 0); [lia|].
  destruct (digits_fuel_spec 20 v []) as (l & -> & Hf & Hne & _); [cbn; lia|lia|].
  by rewrite app_nil_r.
Qed.

Lemma ip_chars_digits l r : Forall (λ c, is_digit c = true) l → _is_ip_chars (l ++ r) = _is_ip_chars r.
Proof. induction 1 as [|c l Hc Hl IH]; [done|]. cbn. by rewrite Hc. Qed.

Lemma ip_chars_no_alpha h : _is_ip_chars h = true → _has_alpha h = false.
Proof.
  induction h as [|c h IH]; cbn; [done|].
  destruct (is_digit c) eqn:Ed; [|destruct (Z.eqb_spec c 46) as [->|]; [|done]]; cbn; intros H.
  - apply is_digit_spec in Ed. assert (is_alpha c = false) as ->; [|by apply IH].
    unfold is_alpha, is_upper, is_lower. destruct (Z.leb_spec 65 c), (Z.leb_spec 97 c); cbn; (done || lia).
  - by apply IH.
Qed.

(** A dotted quad. *)
Definition print_quad (a b c d : Z) : list Z :=
  print_dec a ++ [46] ++ print_dec b ++ [46] ++ print_dec c ++ [46] ++ print_dec d.

Lemma scan_quad_print a b c d r :
  0 ≤ a < 1000 → 0 ≤ b < 1000 → 0 ≤ c < 1000 → 0 ≤ d < 1000 →
  match r with [] => true | c :: _ => negb (is_digit c) end = true →
  scan_quad (print_quad a b c d ++ r) = Some (a, b, c, d).
Proof.
  intros Ha Hb Hc Hd Hr. unfold scan_quad, print_quad. rewrite <- !app_assoc.
  rewrite scan_print_dec by (done || lia). cbn [mbind option_bind app scan_char].
  rewrite Z.eqb_refl. cbn [mbind option_bind].
  rewrite scan_print_dec by (done || lia). cbn [mbind option_bind app scan_char].
  rewrite Z.eqb_refl. cbn [mbind option_bind].
  rewrite scan_print_dec by (done || lia). cbn [mbind option_bind app scan_char].
  rewrite Z.eqb_refl. cbn [mbind option_bind].
  by rewrite scan_print_dec by (done || lia).
Qed.

Lemma print_quad_chars a b c d r :
  0 ≤ a < 1000 → 0 ≤ b < 1000 → 0 ≤ c < 1000 → 0 ≤ d < 1000 →
  _is_ip_chars (print_quad a b c d ++ r) = _is_ip_chars r.
Proof.
  intros Ha Hb Hc Hd. unfold print_quad. rewrite <- !app_assoc.
  rewrite ip_chars_digits by (apply print_dec_digits; lia). cbn [app _is_ip_chars is_digit].
  cbn [Z.leb Z.compare Pos.compare Pos.compare_cont andb negb Z.eqb Pos.eqb].
  rewrite ip_chars_digits by (apply print_dec_digits; lia). cbn [app _is_ip_chars is_digit].
  cbn [Z.leb Z.compare Pos.compare Pos.compare_cont andb negb Z.eqb Pos.eqb].
  rewrite ip_chars_digits by (apply print_dec_digits; lia). cbn [app _is_ip_chars is_digit].
  cbn [Z.leb Z.compare Pos.compare Pos.compare_cont andb negb Z.eqb Pos.eqb].
  rewrite ip_chars_digits by (apply print_dec_digits; lia). done.
Qed.

Lemma print_dec_short v : 0 ≤ v < 1000 → (1 <= length (print_dec v) <= 3)%nat.
Proof.
  intros Hv. unfold print_dec. destruct (Z.ltb_spec v 0); [lia|]. cbn [digits_fuel].
  destruct (Z.ltb_spec v 10); [cbn; lia|].
  destruct (Z.ltb_spec (v / 10) 10); [cbn; lia|].
  destruct (Z.ltb_spec (v / 10 / 10) 10); [cbn; lia|].
  exfalso. Z.div_mod_to_equations. lia.
Qed.

Lemma no_colon_digits l : Forall (λ c, is_digit c = true) l → 58 ∉ l.
Proof.
  intros Hl Hin. rewrite Forall_forall in Hl. specialize (Hl 58 Hin).
  discriminate Hl.
Qed.

(** A usable literal address is recognised: for a dotted quad
    with no part above 255 and first and last part not 0, and a port from 1 to
    65535, the text "a.b.c.d:port" parses to that port and to the address in
    network order. *)
Theorem net_target_parse_ip a b c d p :
  0 < a ≤ 255 → 0 ≤ b ≤ 255 → 0 ≤ c ≤ 255 → 0 < d ≤ 255 → 0 < p ≤ 65535 →
  net_target_parse (print_quad a b c d ++ [58] ++ print_dec p) NET_TARGET_HOST_MAX =
  Target NET_TARGET_IP (Some (print_quad a b c d)) (Some p)
    (a + 256 * b + 65536 * c + 16777216 * d).
Proof.
  intros Ha Hb Hc Hd Hp. unfold net_target_parse. cbn [app].
  rewrite split_last_app by (apply no_colon_digits, print_dec_digits; lia).
  assert (1 <= length (print_quad a b c d) <= 15)%nat as Hlen.
  { unfold print_quad. rewrite !length_app. cbn [length].
    pose proof (print_dec_short a). pose proof (print_dec_short b).
    pose proof (print_dec_short c). pose proof (print_dec_short d). lia. }
  destruct (Z.eqb_spec (Z.of_nat (length (print_quad a b c d))) 0); [lia|].
  unfold NET_TARGET_HOST_MAX.
  destruct (Z.leb_spec 64 (Z.of_nat (length (print_quad a b c d)))); [lia|]. cbn [orb].
  rewrite <- (app_nil_r (print_dec p)), scan_print_dec by (done || lia).
  destruct (Z.leb_spec p 0), (Z.ltb_spec 65535 p); try lia. cbn [orb].
  rewrite <- (app_nil_r (print_quad a b c d)), print_quad_chars by lia. cbn [_is_ip_chars].
  unfold _ipv4_parse. rewrite scan_quad_print by (done || lia).
  destruct (Z.ltb_spec 255 a), (Z.ltb_spec 255 b), (Z.ltb_spec 255 c), (Z.ltb_spec 255 d);
    try lia. cbn [orb].
  destruct (Z.eqb_spec a 0), (Z.eqb_spec d 0); try lia. cbn [orb].
  rewrite !Z.shiftl_mul_pow2, u16_small, u32_small by (unfold in_u16, in_u32; lia).
  f_equal. lia.
Qed.

(** A host made of digits and dots only is never taken for a name,
    so the resolver is never asked for it; and a text that is not usable leaves
    the address 0 and the port as it was. *)
Theorem net_target_parse_numeric dns url :
  let t := net_target_parse url NET_TARGET_HOST_MAX in
  (∀ h r, split_last 58 url = Some (h, r) → _is_ip_chars h = true → t_type t ≠ NET_TARGET_NAME) ∧
  (t_type t = NET_TARGET_INVALID → t_port t = None ∧
     net_get_target_ip dns url = (false, 0, None) ∧ net_parse_target_ip url = (false, 0, None)).
Proof.
  cbv zeta. unfold net_get_target_ip, net_parse_target_ip, net_target_parse.
  destruct (split_last 58 url) as [[h r]|] eqn:E; [|done]. split.
  - intros h' r' [= <- <-] Hc. rewrite Hc.
    destruct (_ || _); [done|]. destruct (scan_s32 r) as [[p r']|]; [|done].
    destruct (_ || _); [done|]. by destruct (_ipv4_parse h).
  - destruct (_ || _); [done|]. destruct (scan_s32 r) as [[p r']|]; [|done].
    destruct (_ || _); [done|]. destruct (_is_ip_chars h).
    + by destruct (_ipv4_parse h).
    + by destruct (_has_alpha h).
Qed.

(** The address test stops after four parts and the port test after
    the digits: a numeric address with anything made of digits and dots after
    its fourth part, and a port with trailing text, are accepted as a literal
    address. *)
Theorem net_target_parse_trailing a b c d tail p junk :
  0 < a ≤ 255 → 0 ≤ b ≤ 255 → 0 ≤ c ≤ 255 → 0 < d ≤ 255 → 0 < p ≤ 65535 →
  _is_ip_chars tail = true → (length tail <= 47)%nat →
  match junk with [] => true | c :: _ => negb (is_digit c) end = true → 58 ∉ junk →
  let t := net_target_parse (print_quad a b c d ++ (46 :: tail) ++ [58] ++ print_dec p ++ junk)
             NET_TARGET_HOST_MAX in
  t_type t = NET_TARGET_IP ∧ t_port t = Some p.
Proof.
  intros Ha Hb Hc Hd Hp Ht Hlt Hj Hjc. unfold net_target_parse. cbv zeta.
  rewrite app_assoc. change ([58] ++ ?x) with (58 :: x).
  rewrite split_last_app.
  2:{ rewrite elem_of_app. intros [Hx|Hx]; [|done].
      by apply (no_colon_digits (print_dec p)) in Hx; [|apply print_dec_digits; lia]. }
  assert (1 <= length (print_quad a b c d) <= 15)%nat as Hlen.
  { unfold print_quad. rewrite !length_app. cbn [length].
    pose proof (print_dec_short a). pose proof (print_dec_short b).
    pose proof (print_dec_short c). pose proof (print_dec_short d). lia. }
  rewrite length_app. cbn [length]. unfold NET_TARGET_HOST_MAX.
  destruct (Z.eqb_spec (Z.of_nat (length (print_quad a b c d) + S (length tail))) 0); [lia|].
  destruct (Z.leb_spec 64 (Z.of_nat (length (print_quad a b c d) + S (length tail)))); [lia|].
  cbn [orb]. rewrite scan_print_dec by (done || lia).
  destruct (Z.leb_spec p 0), (Z.ltb_spec 65535 p); try lia. cbn [orb].
  rewrite print_quad_chars by lia. change (_is_ip_chars (46 :: tail)) with (_is_ip_chars tail).
  rewrite Ht. unfold _ipv4_parse. rewrite scan_quad_print by (done || lia).
  destruct (Z.ltb_spec 255 a), (Z.ltb_spec 255 b), (Z.ltb_spec 255 c), (Z.ltb_spec 255 d);
    try lia. cbn [orb].
  destruct (Z.eqb_spec a 0), (Z.eqb_spec d 0); try lia. cbn [orb t_type t_port].
  by rewrite u16_small by (unfold in_u16; lia).
Qed.

Lemma net_target_parse_ip_witness :
  net_target_parse (str "177.78.98.199:8080") NET_TARGET_HOST_MAX =
  Target NET_TARGET_IP (Some (str "177.78.98.199")) (Some 8080)
    (177 + 256 * 78 + 65536 * 98 + 16777216 * 199).
Proof. apply (net_target_parse_ip 177 78 98 199 8080); lia. Defined.

Lemma net_target_parse_numeric_witness :
  net_get_target_ip (λ _, Some 1) (str "0.0.0.0:4444") = (false, 0, None).
Proof.
  exact (proj1 (proj2 (proj2 (net_target_parse_numeric (λ _, Some 1) (str "0.0.0.0:4444")) eq_refl))).
Defined.

Lemma net_target_parse_trailing_witness :
  t_type (net_target_parse (str "1.2.3.4.5:80abc") NET_TARGET_HOST_MAX) = NET_TARGET_IP.
Proof.
  refine (proj1 (net_target_parse_trailing 1 2 3 4 (str "5") 80 (str "abc") _ _ _ _ _ eq_refl _ eq_refl _));
    try lia; [cbn; lia|]. apply (bool_decide_unpack _). reflexivity.
Defined.
