(* ===== verification/Cms.v ===== *)
(** * Security centre client (app/cms/cms_main.c)

    Stores the events to report, sends them one at a time over UDP, waits for
    the acknowledgement and retries. *)

From S2P Require Import Prelude CText EventTypes EventBuf Storage Cfg ArmSection NetTarget SiaIp.

(** ** State *)

(** src/app/cms/cms_main.c:13-18 (CMS_BUF_SIZE .. CMS_PROTO_DEFAULT) *)
Definition CMS_BUF_SIZE : Z := 32.
Definition CMS_RETRY_DEFAULT : Z := 5.
Definition CMS_WAIT_TMOUT : Z := 10 * OS_TIMER_SECOND.

(** src/app/cms/cms_main.c:20-39 (_cms, _resolve_tmr, _cms_buf, _packet_buf, _packet_len, _proto) *)
Record cms := Cms {
  server_ip : Z;
  server_port : Z;
  cms_account : Z;
  wait_tmr : Z;
  retry : Z;              (* u8 *)
  waiting : bool;
  _resolve_tmr : Z;
  _cms_buf : event_buf;
  _packet_buf : list Z;
  proto : sia_proto       (* _proto is always &cms_proto_sia_ip *)
}.

Definition set_wait (w : bool) (r tm : Z) (c : cms) : cms :=
  Cms (server_ip c) (server_port c) (cms_account c) tm r w (_resolve_tmr c) (_cms_buf c)
    (_packet_buf c) (proto c).
Definition set_cms_buf (b : event_buf) (c : cms) : cms :=
  Cms (server_ip c) (server_port c) (cms_account c) (wait_tmr c) (retry c) (waiting c)
    (_resolve_tmr c) b (_packet_buf c) (proto c).
Definition set_proto (p : sia_proto) (c : cms) : cms :=
  Cms (server_ip c) (server_port c) (cms_account c) (wait_tmr c) (retry c) (waiting c)
    (_resolve_tmr c) (_cms_buf c) (_packet_buf c) p.
Definition set_packet (d : list Z) (c : cms) : cms :=
  Cms (server_ip c) (server_port c) (cms_account c) (wait_tmr c) (retry c) (waiting c)
    (_resolve_tmr c) (_cms_buf c) d (proto c).
Definition set_resolve_tmr (t : Z) (c : cms) : cms :=
  Cms (server_ip c) (server_port c) (cms_account c) (wait_tmr c) (retry c) (waiting c)
    t (_cms_buf c) (_packet_buf c) (proto c).
Definition set_server (ip port acct : Z) (c : cms) : cms :=
  Cms ip port acct (wait_tmr c) (retry c) (waiting c) (_resolve_tmr c) (_cms_buf c)
    (_packet_buf c) (proto c).

(** ** Operations *)

Section cms.
Context `{F : FlashLib}.
Variable s : storage.                    (* the configuration *)
Variable dns : list Z → option Z.        (* the modem's resolver *)

(** src/app/cms/cms_main.c:63-91 (cms_reinit) *)
Definition cms_reinit (c : cms) : outcome (bool * cms) :=
  '(ok, cfg) ← cfg_read CFG_ID_CMS_SERVER_ADDR ACCESS_SYSTEM s;
  let c := if (ok : bool) then
             let '(_, ip, port) := net_get_target_ip dns cfg in
             set_server ip (default (server_port c) port) (cms_account c) c
           else c in
  '(ok, cfg) ← cfg_read CFG_ID_CMS_ACCOUNT ACCESS_SYSTEM s;
  let c := if (ok : bool) then
             match scan_uint 16 (length cfg) cfg with
             | Some (acct, _) => set_server (server_ip c) (server_port c) acct c
             | None => c
             end
           else c in
  let c := set_proto (_sia_proto_reinit (cms_account c) (proto c)) c in
  Ok (negb (server_ip c =? 0) && negb (server_port c =? 0), c).

(** src/app/cms/cms_main.c:52-61 (cms_init) *)
Definition cms_init (c : cms) : outcome (bool * cms) :=
  b ← event_buf_init (eb_items (_cms_buf c)) CMS_BUF_SIZE;
  cms_reinit (set_wait false 0 (wait_tmr c) (set_cms_buf b c)).

(** src/app/cms/cms_main.c:93-105 (cms_new_event) *)
Definition cms_new_event (event : event_t) (c : cms) : outcome (bool * cms) :=
  if (server_ip c =? 0) || (server_port c =? 0) then Ok (false, c)
  else
    '(ok, b) ← event_buf_add_event (_cms_buf c) (Some event) EVENT_PRIO_STD EVENT_USER_NONE;
    if negb ok then Ok (false, set_cms_buf b c) else Ok (true, set_cms_buf b c).

(** src/app/cms/cms_main.c:120-127 (_cms_fail) *)
Definition _cms_fail (c : cms) : outcome cms :=
  b ← event_buf_done_events (_cms_buf c) false;
  let c := set_proto (_sia_proto_packet_done (proto c)) (set_cms_buf b c) in
  Ok (set_wait false 0 (wait_tmr c) c).

(** src/app/cms/cms_main.c:129-156 (cms_udp_rx) *)
Definition cms_udp_rx (data : list Z) (port : Z) (c : cms) : outcome (bool * cms) :=
  if negb (port =? server_port c) then Ok (false, c)
  else
    reply ← _sia_proto_packet_reply (proto c) data;
    match reply : cms_reply with
    | CMS_REPLY_NONE => Ok (false, c)
    | _ =>
        if negb (waiting c) then Ok (true, c)
        else if bool_decide (reply = CMS_REPLY_NAK) then
          c ← _cms_fail c; Ok (true, c)
        else
          b ← event_buf_done_events (_cms_buf c) true;
          let c := set_proto (_sia_proto_packet_done (proto c)) (set_cms_buf b c) in
          Ok (true, set_wait false 0 (wait_tmr c) c)
    end.

(** What a call of [cms_main_process] meets outside: the time, the clock, the
    results of [net_connect] and [net_udp_tx], and what the uninitialised local
    [user] happens to hold. *)
Record cms_env := CmsEnv {
  e_now : Z;
  e_rtc : rtc_t;
  e_connect : bool;
  e_tx : bool;
  e_user : Z
}.

(** src/app/cms/cms_main.c:211-223 (cms_main_process) *)
Definition cms_send (e : cms_env) (c : cms) : cms * list (list Z) :=
  let data := _sia_proto_get_packet (proto c) in
  let c := set_packet data c in
  if negb (e_tx e) then (c, [data])
  else (set_wait true (retry c) (u32 (e_now e + CMS_WAIT_TMOUT)) c, [data]).

(** The new state and the datagrams handed to [net_udp_tx]. *)
(** src/app/cms/cms_main.c:158-224 (cms_main_process) *)
Definition cms_main_process (e : cms_env) (c : cms) : outcome (cms * list (list Z)) :=
  if (server_ip c =? 0) || (server_port c =? 0) then
    if negb (server_port c =? 0) && (_resolve_tmr c <=? e_now e) then
      let c := set_resolve_tmr (u32 (e_now e + 60 * OS_TIMER_SECOND)) c in
      if e_connect e then '(_, c) ← cms_reinit c; Ok (c, []) else Ok (c, [])
    else Ok (c, [])
  else if waiting c then
    if e_now e <? wait_tmr c then Ok (c, [])
    else if retry c <? CMS_RETRY_DEFAULT then
      Ok (set_wait true (u8 (retry c + 1)) (u32 (e_now e + CMS_WAIT_TMOUT)) c, [_packet_buf c])
    else c ← _cms_fail c; Ok (c, [])
  else if _sia_proto_packet_ready (proto c) then Ok (cms_send e c)
  else
    '(ok, b, out) ← event_buf_get_event (_cms_buf c) (Some event_zero) (Some (e_user e)) None;
    let c := set_cms_buf b c in
    match (ok : bool), (out : option get_out) with
    | true, Some o =>
        '(built, p) ← _sia_proto_new_event s (e_rtc e) (default event_zero (go_event o)) (proto c);
        let c := set_proto p c in
        if negb built then
          b ← event_buf_done_events (_cms_buf c) false;
          Ok (set_cms_buf b c, [])
        else Ok (cms_send e c)
    | _, _ => Ok (c, [])
    end.

End cms.

(** ** Replies never leave an array *)

Lemma crc_loop_ok n data crc : Forall in_u8 data → in_u16 crc → ∃ x, crc_loop n (data ++ [0]) crc = Ok x.
Proof.
  intros Hd. revert n crc. induction Hd as [|ch data Hch Hd IH]; intros n crc Hc.
  - destruct n; cbn; eauto.
  - destruct n as [|n]; cbn [app crc_loop]; [eauto|].
    destruct (_ || _); [eauto|]. destruct (crc_step crc ch Hc Hch) as (E & Hi & Hr).
    rewrite crc_table by done. cbn [mbind outcome_bind]. rewrite E.
    apply IH. by apply crc_byte_range.
Qed.

Lemma sia_rx_ok data : Forall in_u8 data → ∃ b, cms_sia_ip_rx data = Ok b.
Proof.
  intros Hd. unfold cms_sia_ip_rx.
  destruct (Z.ltb_spec (Z.of_nat (length data)) 20); [eauto|].
  destruct data as [|c data]; [cbn in *; lia|]. change ((c :: data).[0]) with (Ok c).
  cbn [mbind outcome_bind]. destruct (negb (c =? 10)); [eauto|]. destruct (_ <? _); [eauto|].
  cbv zeta. destruct (scan_uint 16 4 (drop SIA_IDX_CRC _)) as [[crc ?]|]; [|eauto].
  destruct (scan_uint 16 4 (drop SIA_IDX_LEN _)) as [[ml ?]|]; [|eauto].
  destruct (negb _); [eauto|]. rewrite drop_app_le by (unfold SIA_IDX_DATA; lia).
  destruct (crc_loop_ok (Z.to_nat CMS_SIA_IP_MAX_MSG_LEN) (drop SIA_IDX_DATA (c :: data)) 0) as [x Hx].
  - by apply Forall_drop.
  - unfold in_u16. lia.
  - unfold _crc_calc. rewrite Hx. cbn [mbind outcome_bind].
    destruct (negb _); [eauto|]. destruct (negb _); eauto.
Qed.

Lemma sia_reply_ok p data : Forall in_u8 data → ∃ r, _sia_proto_packet_reply p data = Ok r.
Proof.
  intros Hd. unfold _sia_proto_packet_reply, cms_sia_ip_rx_ack.
  destruct (sia_rx_ok data Hd) as [b ->]. cbn [mbind outcome_bind].
  destruct (negb b); [eauto|].
  destruct (expect (quoted "ACK") _) as [r|].
  - destruct (scan_ack r) as [[[? ?] ?]|]; [|eauto]. destruct (_ && _); [|eauto].
    cbn [mbind outcome_bind]. destruct (negb _); eauto.
  - destruct (expect (quoted "NAK") _) as [r|]; [|eauto].
    destruct (scan_nak r) as [[? ?]|]; [|eauto]. destruct (_ =? _); [|eauto].
    cbn [mbind outcome_bind]. destruct (negb _); eauto.
Qed.

(** ** What the unit reports *)

Section reports.
Context `{F : FlashLib}.

(** What other tasks and the network make the client do. *)
Inductive cms_call :=
  | MNewEvent (e : event_t)
  | MProcess (s : storage) (dns : list Z → option Z) (e : cms_env)
  | MUdpRx (data : list Z) (port : Z)
  | MReinit (s : storage) (dns : list Z → option Z).

Definition cms_run1 (x : cms_call) (c : cms) : outcome (cms * list (list Z)) :=
  match x with
  | MNewEvent e => '(_, c) ← cms_new_event e c; Ok (c, [])
  | MProcess s dns e => cms_main_process s dns e c
  | MUdpRx data port => '(_, c) ← cms_udp_rx data port c; Ok (c, [])
  | MReinit s dns => '(_, c) ← cms_reinit s dns c; Ok (c, [])
  end.

Fixpoint cms_run (xs : list cms_call) (c : cms) : outcome (cms * list (list Z)) :=
  match xs with
  | [] => Ok (c, [])
  | x :: xs => '(c, p) ← cms_run1 x c; '(c, q) ← cms_run xs c; Ok (c, p ++ q)
  end.

(** The configuration texts the client reads are terminated. *)
Definition config_ok (s : storage) : Prop :=
  is_ok (cfg_read CFG_ID_CMS_SERVER_ADDR ACCESS_SYSTEM s) ∧
  is_ok (cfg_read CFG_ID_CMS_ACCOUNT ACCESS_SYSTEM s).

Definition call_ok (x : cms_call) : Prop :=
  match x with
  | MNewEvent _ => True
  | MProcess s _ _ => config_ok s
  | MUdpRx data _ => Forall in_u8 data
  | MReinit s _ => config_ok s
  end.

(** Nothing stored, nothing in flight. *)
Record cms_idle (c : cms) : Prop := {
  idle_buf : holds (_cms_buf c) CMS_BUF_SIZE [];
  idle_waiting : waiting c = false;
  idle_packet : _sia_packet_ok (proto c) = false
}.

Lemma cms_reinit_ok s dns c :
  config_ok s → ∃ b c', cms_reinit s dns c = Ok (b, c') ∧
    _cms_buf c' = _cms_buf c ∧ waiting c' = waiting c ∧ _sia_packet_ok (proto c') = false.
Proof.
  intros [[[ok1 cfg1] E1] [[ok2 cfg2] E2]]. unfold cms_reinit. rewrite E1.
  cbn [mbind outcome_bind]. rewrite E2. cbn [mbind outcome_bind].
  destruct ok1, ok2; try destruct (net_get_target_ip dns cfg1) as [[? ?] ?];
    try destruct (scan_uint 16 (length cfg2) cfg2) as [[? ?]|]; eauto 10.
Qed.

(** [cms_new_event] stores nothing. *)
Lemma cms_new_event_idle e c : ∃ c', cms_new_event e c = Ok (false, c') ∧ c' = c.
Proof.
  unfold cms_new_event. destruct (_ || _); [eauto|]. cbn.
  eexists. split; [done|]. by destruct c.
Qed.

Lemma cms_get_nothing c user :
  cms_idle c → ∃ b o, event_buf_get_event (_cms_buf c) (Some event_zero) (Some user) None
    = Ok (false, b, Some o) ∧ holds b CMS_BUF_SIZE [].
Proof.
  intros [Hb _ _].
  destruct (event_buf_get_event_spec _ _ _ (Some event_zero) user None Hb)
    as (ok & b & o & E & Hr). cbn in Hr. destruct Hr as (-> & Hb' & _). eauto.
Qed.

Lemma cms_run1_idle x c :
  cms_idle c → call_ok x → ∃ c', cms_run1 x c = Ok (c', []) ∧ cms_idle c'.
Proof.
  intros Hc Hx. pose proof Hc as [Hb Hw Hp]. destruct x as [e|s dns e|data port|s dns]; cbn [cms_run1].
  - destruct (cms_new_event_idle e c) as (c' & -> & ->). cbn. eauto.
  - unfold cms_main_process. destruct (_ || _).
    + destruct (_ && _); [|eauto]. destruct (e_connect e).
      * destruct (cms_reinit_ok s dns (set_resolve_tmr (u32 (e_now e + 60 * OS_TIMER_SECOND)) c) Hx)
          as (b & c' & -> & E1 & E2 & E3). cbn [mbind outcome_bind]. eexists. split; [done|].
        split; [rewrite E1; exact Hb|rewrite E2; exact Hw|exact E3].
      * eexists. split; [done|]. by split.
    + rewrite Hw. unfold _sia_proto_packet_ready. rewrite Hp.
      destruct (cms_get_nothing c (e_user e) Hc) as (b & o & -> & Hb').
      cbn [mbind outcome_bind]. eexists. split; [done|]. by split.
  - unfold cms_udp_rx. destruct (negb (port =? _)); [cbn; eauto|].
    destruct (sia_reply_ok (proto c) data Hx) as [r ->]. cbn [mbind outcome_bind].
    rewrite Hw. destruct r; cbn; eauto.
  - destruct (cms_reinit_ok s dns c Hx) as (b & c' & -> & E1 & E2 & E3).
    cbn [mbind outcome_bind]. eexists. split; [done|].
    split; [rewrite E1; exact Hb|rewrite E2; exact Hw|exact E3].
Qed.

Lemma cms_run_idle xs c :
  cms_idle c → Forall call_ok xs → ∃ c', cms_run xs c = Ok (c', []) ∧ cms_idle c'.
Proof.
  intros Hc Hx. revert c Hc. induction Hx as [|x xs Hx Hxs IH]; intros c Hc; cbn; [eauto|].
  destruct (cms_run1_idle x c Hc Hx) as (c1 & -> & Hc1). cbn [mbind outcome_bind].
  destruct (IH c1 Hc1) as (c2 & -> & Hc2). cbn. eauto.
Qed.

(** The client never reports anything to the security centre:
    [cms_new_event] passes EVENT_USER_NONE, which the event buffer refuses, so
    after [cms_init], with a configured server or not, no sequence of new
    events, polls, received datagrams and reconfigurations ever sends a
    datagram. *)
Theorem cms_never_sends s dns c0 xs :
  Z.of_nat (length (eb_items (_cms_buf c0))) = CMS_BUF_SIZE → config_ok s → Forall call_ok xs →
  ∃ b c c', cms_init s dns c0 = Ok (b, c) ∧ cms_run xs c = Ok (c', []) ∧
    ∀ e, cms_new_event e c' = Ok (false, c').
Proof.
  intros Hl Hs Hx. unfold cms_init.
  destruct (event_buf_init_spec (eb_items (_cms_buf c0)) CMS_BUF_SIZE) as (b & -> & Hb);
    [unfold CMS_BUF_SIZE; lia|done|]. cbn [mbind outcome_bind].
  destruct (cms_reinit_ok s dns (set_wait false 0 (wait_tmr c0) (set_cms_buf b c0)) Hs)
    as (r & c & -> & E1 & E2 & E3).
  assert (cms_idle c) as Hc by (split; [rewrite E1; exact Hb|by rewrite E2|exact E3]).
  destruct (cms_run_idle xs c Hc Hx) as (c' & E & Hc'). exists r, c, c'.
  split; [done|]. split; [done|]. intros e.
  by destruct (cms_new_event_idle e c') as (? & -> & ->).
Qed.

(** ** Delivery of a packet in flight *)

(** Every poll of [es] comes after the answer time of the one before. *)
Fixpoint expired (tm : Z) (es : list cms_env) : Prop :=
  match es with
  | [] => True
  | e :: es => tm ≤ e_now e ∧ in_u32 (e_now e + CMS_WAIT_TMOUT) ∧
      expired (e_now e + CMS_WAIT_TMOUT) es
  end.

Definition polls (s : storage) (dns : list Z → option Z) (es : list cms_env) : list cms_call :=
  MProcess s dns <$> es.

Lemma cms_resends s dns es c :
  server_ip c ≠ 0 → server_port c ≠ 0 → waiting c = true → 0 ≤ retry c →
  retry c + Z.of_nat (length es) ≤ CMS_RETRY_DEFAULT → expired (wait_tmr c) es →
  ∃ tm, cms_run (polls s dns es) c
    = Ok (set_wait true (retry c + Z.of_nat (length es)) tm c, replicate (length es) (_packet_buf c)) ∧
    tm = (match last es with Some e => e_now e + CMS_WAIT_TMOUT | None => wait_tmr c end).
Proof.
  unfold CMS_RETRY_DEFAULT. revert c. induction es as [|e es IH]; intros c Hip Hport Hw Hr Hlen Hexp.
  - cbn. exists (wait_tmr c). split; [|done]. rewrite Z.add_0_r, <- Hw. by destruct c.
  - destruct Hexp as (Ht & Hov & Hexp). cbn [length] in Hlen.
    change (polls s dns (e :: es)) with (MProcess s dns e :: polls s dns es).
    cbn [cms_run cms_run1]. unfold cms_main_process.
    destruct (Z.eqb_spec (server_ip c) 0), (Z.eqb_spec (server_port c) 0); try done.
    cbn [orb]. rewrite Hw. destruct (Z.ltb_spec (e_now e) (wait_tmr c)); [lia|].
    unfold CMS_RETRY_DEFAULT. destruct (Z.ltb_spec (retry c) 5); [|lia].
    cbn [mbind outcome_bind]. rewrite u32_small, u8_small by (done || unfold in_u8; lia).
    destruct (IH (set_wait true (retry c + 1) (e_now e + CMS_WAIT_TMOUT) c)) as (tm & E & Htm);
      [done|done|done|cbn; lia|cbn; lia|done|].
    rewrite E. cbn [mbind outcome_bind]. exists tm. split.
    + cbn [set_wait retry _packet_buf length replicate app].
      replace (retry c + 1 + Z.of_nat (length es)) with (retry c + Z.of_nat (S (length es))) by lia.
      done.
    + rewrite Htm. rewrite last_cons. by destruct (last es).
Qed.

(** A packet whose answer never comes is sent again exactly five
    times, unchanged, each time after the ten seconds of the previous attempt;
    the next poll gives it up: nothing is sent, the client is idle again with no
    packet prepared, and the event goes back to its buffer as failed. *)
Theorem cms_retries_bounded s dns es e c q :
  server_ip c ≠ 0 → server_port c ≠ 0 → waiting c = true → retry c = 0 →
  holds (_cms_buf c) CMS_BUF_SIZE q →
  length es = 5%nat → expired (wait_tmr c) (es ++ [e]) →
  ∃ c', cms_run (polls s dns (es ++ [e])) c = Ok (c', replicate 5 (_packet_buf c)) ∧
    waiting c' = false ∧ retry c' = 0 ∧ _sia_packet_ok (proto c') = false ∧
    holds (_cms_buf c') CMS_BUF_SIZE (omap (done_entry false) q).
Proof.
  intros Hip Hport Hw Hr Hb Hlen Hexp.
  assert (expired (wait_tmr c) es ∧
    (match last es with Some e' => e_now e' + CMS_WAIT_TMOUT | None => wait_tmr c end) ≤ e_now e)
    as [He Hlast].
  { clear -Hexp. revert Hexp. generalize (wait_tmr c). induction es as [|x es IH]; intros tm.
    - cbn. intros (? & _). split; [done|lia].
    - cbn [app expired]. intros (A & B & C). destruct (IH _ C) as [D E].
      split; [done|]. rewrite last_cons. by destruct (last es). }
  destruct (cms_resends s dns es c) as (tm & E & Htm); try done; [lia|rewrite Hlen, Hr; done|].
  assert (∀ xs ys c c1 p c2 r, cms_run xs c = Ok (c1, p) → cms_run ys c1 = Ok (c2, r) →
    cms_run (xs ++ ys) c = Ok (c2, p ++ r)) as Happ.
  { clear. induction xs as [|x xs IH]; intros ys c c1 p c2 r; cbn.
    - intros [= -> <-] ->. done.
    - destruct (cms_run1 x c) as [[c3 p3]|]; [|done]. cbn [mbind outcome_bind].
      destruct (cms_run xs c3) as [[c4 p4]|] eqn:E; [|done]. cbn [mbind outcome_bind].
      intros [= -> <-] H. rewrite (IH _ _ _ _ _ _ E H). cbn. by rewrite app_assoc. }
  destruct (event_buf_done_events_spec (_cms_buf c) _ q false Hb) as (b & Eb & Hb').
  rewrite Hlen, Hr in E. change (0 + Z.of_nat 5) with 5 in E.
  set (c5 := set_wait true 5 tm c) in E.
  assert (∃ c', cms_run (polls s dns [e]) c5 = Ok (c', []) ∧ waiting c' = false ∧ retry c' = 0 ∧
    _sia_packet_ok (proto c') = false ∧ _cms_buf c' = b) as (c' & E' & H1 & H2 & H3 & H4).
  { change (polls s dns [e]) with [MProcess s dns e]. cbn [cms_run cms_run1]. unfold cms_main_process.
    change (server_ip c5) with (server_ip c). change (server_port c5) with (server_port c).
    destruct (Z.eqb_spec (server_ip c) 0), (Z.eqb_spec (server_port c) 0); try done. cbn [orb].
    change (waiting c5) with true. change (wait_tmr c5) with tm. cbv iota.
    destruct (Z.ltb_spec (e_now e) tm); [lia|].
    change (retry c5 <? CMS_RETRY_DEFAULT) with false. cbv iota.
    unfold _cms_fail. change (_cms_buf c5) with (_cms_buf c). rewrite Eb.
    cbn [mbind outcome_bind app]. eexists. split; [reflexivity|]. done. }
  exists c'. rewrite H4. split; [|done]. unfold polls. rewrite fmap_app.
  rewrite <- (app_nil_r (replicate 5 _)). by apply (Happ _ _ _ _ _ _ _ E).
Qed.

(** An acknowledgement of the packet in flight, from the
    configured port, ends the wait, frees the packet and removes the reported
    event from the buffer. *)
Theorem cms_ack_delivers data c q :
  _sia_proto_packet_reply (proto c) data = Ok CMS_REPLY_ACK → waiting c = true →
  holds (_cms_buf c) CMS_BUF_SIZE q →
  ∃ c', cms_udp_rx data (server_port c) c = Ok (true, c') ∧
    waiting c' = false ∧ retry c' = 0 ∧ _sia_packet_ok (proto c') = false ∧
    holds (_cms_buf c') CMS_BUF_SIZE (omap (done_entry true) q).
Proof.
  intros Hr Hw Hb. unfold cms_udp_rx. rewrite Z.eqb_refl. cbn [negb]. rewrite Hr.
  cbn [mbind outcome_bind]. rewrite Hw.
  destruct (event_buf_done_events_spec (_cms_buf c) _ q true Hb) as (b & Eb & Hb').
  rewrite bool_decide_eq_false_2 by done. rewrite Eb. cbn [mbind outcome_bind negb].
  eexists. split; [done|]. done.
Qed.

End reports.

(** ** Examples *)

Definition zero_item : item := Item event_zero 0 0 0 0 0 0.
Definition empty_buf : event_buf :=
  match event_buf_init (replicate 32 zero_item) CMS_BUF_SIZE with Ok b => b | Err _ => EventBuf 0 255 255 0 [] end.
Definition boot_cms : cms :=
  Cms 0 0 0 0 0 false 0 empty_buf [] (SiaProto cms_sia_ip_init [] false).

(** A client of 10.0.0.1:4444 with a packet in flight since time 0. *)
Definition flying_cms : cms :=
  Cms 16777226 4444 0 10000 0 true 0 empty_buf (str "packet") (SiaProto sample_state [] true).

Lemma empty_buf_holds : holds empty_buf CMS_BUF_SIZE [].
Proof.
  apply (holds_by_check empty_buf). vm_compute. done.
Qed.

Lemma erased_config_ok : config_ok erased_storage.
Proof. split; eexists; vm_compute; reflexivity. Qed.

Lemma cms_never_sends_witness :
  ∃ b c c', cms_init erased_storage (λ _, None) boot_cms = Ok (b, c) ∧
    cms_run [MNewEvent sample_event] c = Ok (c', []).
Proof.
  destruct (cms_never_sends erased_storage (λ _, None) boot_cms [MNewEvent sample_event])
    as (b & c & c' & H1 & H2 & _).
  - vm_compute. reflexivity.
  - exact erased_config_ok.
  - repeat constructor.
  - exists b, c, c'. exact (conj H1 H2).
Defined.

Definition poll_at (t : Z) : cms_env := CmsEnv t sample_now true true 0.

Lemma cms_retries_bounded_witness :
  ∃ c', cms_run (polls erased_storage (λ _, None)
           ([poll_at 10000; poll_at 20000; poll_at 30000; poll_at 40000; poll_at 50000] ++ [poll_at 60000]))
           flying_cms = Ok (c', replicate 5 (str "packet")).
Proof.
  destruct (cms_retries_bounded erased_storage (λ _, None)
    [poll_at 10000; poll_at 20000; poll_at 30000; poll_at 40000; poll_at 50000] (poll_at 60000)
    flying_cms []) as (c' & H & _).
  1-4: vm_compute; (done || discriminate).
  - exact empty_buf_holds.
  - reflexivity.
  - unfold expired, in_u32, CMS_WAIT_TMOUT, OS_TIMER_SECOND. cbn. repeat split; lia.
  - exists c'. exact H.
Defined.

Lemma cms_ack_delivers_witness :
  ∃ c', cms_udp_rx (reply_frame "ACK" 12 0 4660 (str "]")) 4444 flying_cms = Ok (true, c') ∧
    waiting c' = false.
Proof.
  destruct (cms_ack_delivers (reply_frame "ACK" 12 0 4660 (str "]")) flying_cms [])
    as (c' & H & Hw & _).
  - vm_compute. reflexivity.
  - reflexivity.
  - exact empty_buf_holds.
  - exists c'. exact (conj H Hw).
Defined.
