(* ===== verification/EventTask.v ===== *)
(** * Event processing (event_task of app/event.c; sms_send_to_user of app/sms_processing.c)

    Takes every waiting event: logs it in flash, hands it to the receivers its
    group is configured for, and lets the alarm system react. *)

From S2P Require Import Prelude CText EventTypes EventBuf Storage EventMemory EventQueue.
From S2P Require Import Out Alarm ArmSection System Cfg SiaIp NetTarget Cms.

(** ** Tables *)

(** src/app/event.c:34-51 (EVENT_SETUP) *)
Definition EVENT_SETUP : list (event_id * event_group * cfg_id) :=
  [(EVENT_ID_BOOT_UP, EVENT_GROUP_INFO, CFG_ID_TEXT_EVENT_NAME_000);
   (EVENT_ID_SHUT_DOWN, EVENT_GROUP_INFO, CFG_ID_TEXT_EVENT_NAME_001);
   (EVENT_ID_POWER_FAIL, EVENT_GROUP_FAULT, CFG_ID_TEXT_EVENT_NAME_002);
   (EVENT_ID_POWER_RECOVERY, EVENT_GROUP_FAULT, CFG_ID_TEXT_EVENT_NAME_003);
   (EVENT_ID_LO_BATT, EVENT_GROUP_FAULT, CFG_ID_TEXT_EVENT_NAME_004);
   (EVENT_ID_LO_BATT_RECOVERY, EVENT_GROUP_FAULT, CFG_ID_TEXT_EVENT_NAME_005);
   (EVENT_ID_SET, EVENT_GROUP_CONTROL, CFG_ID_TEXT_EVENT_NAME_006);
   (EVENT_ID_UNSET, EVENT_GROUP_CONTROL, CFG_ID_TEXT_EVENT_NAME_007);
   (EVENT_ID_ALARM, EVENT_GROUP_ALARM, CFG_ID_TEXT_EVENT_NAME_008);
   (EVENT_ID_ALARM_CANCEL, EVENT_GROUP_ALARM, CFG_ID_TEXT_EVENT_NAME_010);
   (EVENT_ID_ALARM_TIMEOUT, EVENT_GROUP_ALARM, CFG_ID_TEXT_EVENT_NAME_011);
   (EVENT_ID_FAULT, EVENT_GROUP_FAULT, CFG_ID_TEXT_EVENT_NAME_012);
   (EVENT_ID_FAULT_RECOVERY, EVENT_GROUP_FAULT, CFG_ID_TEXT_EVENT_NAME_013);
   (EVENT_ID_JAMMING_ACT, EVENT_GROUP_INFO, CFG_ID_TEXT_EVENT_NAME_014);
   (EVENT_ID_JAMMING_DACT, EVENT_GROUP_INFO, CFG_ID_TEXT_EVENT_NAME_015);
   (EVENT_ID_TRACKING, EVENT_GROUP_INFO, CFG_ID_TEXT_EVENT_NAME_016)].

(** src/app/event.c:58-75 (EVENT_SOURCE_SETUP) *)
Definition EVENT_SOURCE_SETUP : list (event_source * cfg_id) :=
  [(EVENT_SOURCE_UNKNOWN, CFG_ID_TEXT_SOURCE_NAME_000);
   (EVENT_SOURCE_UNIT, CFG_ID_TEXT_SOURCE_NAME_001);
   (EVENT_SOURCE_KEY, CFG_ID_TEXT_SOURCE_NAME_002);
   (EVENT_SOURCE_DOOR, CFG_ID_TEXT_SOURCE_NAME_003);
   (EVENT_SOURCE_INPUT1, CFG_ID_TEXT_SOURCE_NAME_004);
   (EVENT_SOURCE_INPUT2, CFG_ID_TEXT_SOURCE_NAME_009);
   (EVENT_SOURCE_INPUT3, CFG_ID_TEXT_SOURCE_NAME_010);
   (EVENT_SOURCE_SHOCK, CFG_ID_TEXT_SOURCE_NAME_005);
   (EVENT_SOURCE_LOCK, CFG_ID_TEXT_SOURCE_NAME_006);
   (EVENT_SOURCE_CELL, CFG_ID_TEXT_SOURCE_NAME_007);
   (EVENT_SOURCE_BATTERY, CFG_ID_TEXT_SOURCE_NAME_008);
   (EVENT_SOURCE_ADMIN, CFG_ID_ADMIN_NAME);
   (EVENT_SOURCE_USER1, CFG_ID_USER1_NAME);
   (EVENT_SOURCE_USER2, CFG_ID_USER2_NAME);
   (EVENT_SOURCE_USER3, CFG_ID_USER3_NAME);
   (EVENT_SOURCE_USER4, CFG_ID_USER4_NAME)].

(** The SDK's [parse_number]: the signed number at the start of the text and
    what follows it. *)
Class ParseLib := {
  parse_number : list Z → option (Z * list Z);
  parse_number_printed : ∀ v r, -2147483648 ≤ v ≤ 2147483647 →
    match r with [] => true | c :: _ => negb (is_digit c) end = true →
    parse_number (print_dec v ++ r) = Some (v, r)
}.

#[export] Instance scanf_parse : ParseLib := {|
  parse_number := scan_s32;
  parse_number_printed := scan_print_dec
|}.

Section event_task.
Context `{F : FlashLib} `{R : EventRepr} `{P : ParseLib}.

(** What event processing works on: the queue, the flash log (its storage holds
    the configuration too), the SMS buffer, the security centre client and the
    alarm system. *)
(** src/app/event.c:17-26 (sms_buf, _event_buffer) *)
Record app_state := App {
  a_queue : event_queue;
  a_mem : event_memory;
  a_sms : event_buf;
  a_cms : cms;
  a_sys : system
}.

(** src/app/event.c:77-90 (_event_name) *)
Definition _event_name (s : storage) (id : Z) : outcome (list Z) :=
  _ ← os_assert (id <? EVENT_ID_SIZE);
  r ← EVENT_SETUP.[id];
  _ ← os_assert (id =? event_id_code (fst (fst r)));
  '(ok, t) ← cfg_read (cfg_id_code (snd r)) ACCESS_SYSTEM s;
  Ok (if ok : bool then t else str "error").

(** src/app/event.c:92-105 (_source_name) *)
Definition _source_name (s : storage) (id : Z) : outcome (list Z) :=
  _ ← os_assert (id <? EVENT_SOURCE_SIZE);
  r ← EVENT_SOURCE_SETUP.[id];
  _ ← os_assert (id =? event_source_code (fst r));
  '(ok, t) ← cfg_read (cfg_id_code (snd r)) ACCESS_SYSTEM s;
  Ok (if ok : bool then t else str "error").

(** src/app/cmd.c:213-225 (cmd_fetch_num) *)
Definition cmd_fetch_num (p : list Z) : option (Z * list Z) := parse_number p.

(** The receivers of one event, [limit] iterations: the SMS buffer and the
    centre's client. *)
(** src/app/event.c:197-232 (event_task) *)
Fixpoint setup_loop (limit : nat) (p : list Z) (e : event_t) (sms : event_buf) (c : cms)
    : outcome (event_buf * cms) :=
  match limit, p with
  | O, _ => Ok (sms, c)
  | S limit, [] => Ok (sms, c)                                    (* '\0' *)
  | S limit, ch :: p =>
      if ch =? 83 then                                            (* 'S' *)
        match cmd_fetch_num p with
        | Some (user, p) =>
            '(_, sms) ← event_buf_add_event sms (Some e) EVENT_PRIO_STD (u16 user);
            setup_loop limit p e sms c
        | None => setup_loop limit p e sms c
        end
      else if ch =? 86 then                                       (* 'V' *)
        match cmd_fetch_num p with
        | Some (_, p) => setup_loop limit p e sms c
        | None => setup_loop limit p e sms c
        end
      else if ch =? 67 then                                       (* 'C' *)
        '(_, c) ← cms_new_event e c;
        setup_loop limit p e sms c
      else if ch =? 44 then setup_loop limit p e sms c            (* ',' *)
      else Ok (sms, c)
  end.

(** The body of the loop for the event at the read index. *)
(** src/app/event.c:178-241 (event_task) *)
Definition event_task1 (wr : wires) (ptr : Z) (a : app_state) : outcome (Z * app_state * list action) :=
  let q := a_queue a in
  _ ← os_assert (_buf_rd_ptr q <? _EVENT_BUF_SIZE);
  e ← (_event_buffer q).[_buf_rd_ptr q];
  _ ← os_assert (ev_id e <? EVENT_ID_SIZE);
  r ← EVENT_SETUP.[ev_id e];
  let g := snd (fst r) in
  '(_, m) ← event_memory_store e (a_mem a);
  '(ok, cfg) ← cfg_read (CFG_ID_EVENT_SETUP_000 + event_group_code g) ACCESS_SYSTEM (em_storage m);
  '(sms, c) ← (if (ok : bool) then setup_loop 30 cfg e (a_sms a) (a_cms a)
               else Ok (a_sms a, a_cms a));
  _ ← _event_name (em_storage m) (ev_id e);
  _ ← _source_name (em_storage m) (ev_source e);
  let '(sys, acts) := system_event wr (ev_id e) (a_sys a) in
  let ptr := if u32 (ptr + 1) =? _EVENT_BUF_SIZE then 0 else u32 (ptr + 1) in
  let q := EventQueue (_event_buffer q) ptr (_buf_wr_ptr q) (_event_cnt q) in
  Ok (ptr, App q m sms c sys, acts).

(** src/app/event.c:176-242 (event_task) *)
Fixpoint event_task_loop (fuel : nat) (wr : wires) (ptr : Z) (a : app_state) : outcome (app_state * list action) :=
  if ptr =? _buf_wr_ptr (a_queue a) then Ok (a, [])
  else
    match fuel with
    | O => Err FAssert
    | S fuel =>
        '(ptr, a, l1) ← event_task1 wr ptr a;
        '(a, l2) ← event_task_loop fuel wr ptr a;
        Ok (a, l1 ++ l2)
    end.

(** Thirty-two rounds empty any queue. *)
(** src/app/event.c:169-243 (event_task) *)
Definition event_task (wr : wires) (a : app_state) : outcome (app_state * list action) :=
  _ ← os_assert (_buf_wr_ptr (a_queue a) <? _EVENT_BUF_SIZE);
  event_task_loop 32 wr (_buf_rd_ptr (a_queue a)) a.

(** The configured number of a user, when it names one of the four.  [valid]
    is the SDK's [text_is_valid_phone]; the SMS sent is the result. *)
(** src/app/sms_processing.c:90-116 (sms_send_to_user) *)
Definition sms_send_to_user (valid : list Z → bool) (s : storage) (user : Z) (text : list Z)
    : outcome (bool * option (list Z * list Z)) :=
  _ ← os_assert (user <? 4);
  '(ok, tel) ← cfg_read (CFG_ID_USER1_PHONE + user) ACCESS_SYSTEM s;
  if negb (ok : bool) then Ok (false, None)
  else if negb (valid tel) then Ok (true, None)
  else Ok (true, Some (tel, text)).

End event_task.

(** ** Receivers *)

Section receivers.
Context `{P : ParseLib}.

(** A setup text that sends an SMS to each user of a list. *)
Fixpoint sms_setup (us : list Z) : list Z :=
  match us with
  | [] => []
  | u :: us => [83] ++ print_dec u ++ match us with [] => [] | _ => [44] ++ sms_setup us end
  end.

(** Adding an event for each of them. *)
Fixpoint add_each (us : list Z) (e : event_t) (sms : event_buf) : outcome event_buf :=
  match us with
  | [] => Ok sms
  | u :: us => '(_, sms) ← event_buf_add_event sms (Some e) EVENT_PRIO_STD u; add_each us e sms
  end.

Lemma setup_loop_sms us n e sms c sms' :
  Forall (λ u, 0 ≤ u < 65535) us → (2 * length us <= n)%nat → add_each us e sms = Ok sms' →
  setup_loop n (sms_setup us) e sms c = Ok (sms', c).
Proof.
  intros Hus. revert n sms. induction Hus as [|u us Hu Hus IH]; intros n sms Hn Ha.
  - cbn in Ha. injection Ha as ->. by destruct n.
  - cbn [length] in Hn. destruct n as [|[|n]]; [lia|lia|].
    assert (∀ r, match r with [] => true | c :: _ => negb (is_digit c) end = true →
      setup_loop (S (S n)) ([83] ++ print_dec u ++ r) e sms c =
        ('(_, sms) ← event_buf_add_event sms (Some e) EVENT_PRIO_STD u; setup_loop (S n) r e sms c))
      as Hstep.
    { intros r Hr. cbn [app setup_loop Z.eqb Pos.eqb]. unfold cmd_fetch_num.
      rewrite parse_number_printed by (done || lia). by rewrite u16_small by (unfold in_u16; lia). }
    cbn [add_each] in Ha. destruct (event_buf_add_event sms _ _ u) as [[b sms1]|] eqn:Ea; [|done].
    cbn [mbind outcome_bind] in Ha.
    change (sms_setup (u :: us)) with ([83] ++ print_dec u ++ match us with [] => [] | _ => [44] ++ sms_setup us end).
    destruct us as [|u' us].
    + rewrite Hstep by done. cbn in Ha. injection Ha as <-. done.
    + rewrite Hstep by done. cbn [mbind outcome_bind].
      change ([44] ++ sms_setup (u' :: us)) with (44 :: sms_setup (u' :: us)).
      change (setup_loop (S n) (44 :: sms_setup (u' :: us)) e sms1 c)
        with (setup_loop n (sms_setup (u' :: us)) e sms1 c).
      apply IH; [cbn [length] in *; lia|done].
Qed.

(** The setup text of an event group: up to fifteen user
    numbers as "S<n>,S<m>,.." put the event into the SMS buffer once for each of
    them, in that order, and leave the security centre's client alone. *)
Theorem setup_loop_users us e sms c sms' :
  Forall (λ u, 0 ≤ u < 65535) us → (length us <= 15)%nat → add_each us e sms = Ok sms' →
  setup_loop 30 (sms_setup us) e sms c = Ok (sms', c).
Proof. intros Hus Hl. apply setup_loop_sms; [done|lia]. Qed.

End receivers.

(** ** The whole queue *)

Section drain.
Context `{F : FlashLib} `{FS : !FlashSpec F} `{R : EventRepr} `{P : ParseLib}.

(** Every item of the configuration that passes its checksum is terminated. *)
Definition cfg_clean (s : storage) : Prop :=
  ∀ id, is_Some (_table_get id) →
    let l := byte s <$> seqZ (_ADDR_CFG + id * sizeof_cfg) sizeof_cfg in
    _cfg_valid l = true → is_ok (c_string l).

Lemma cfg_clean_read s id auth : cfg_clean s → is_ok (cfg_read id auth s).
Proof.
  intros Hs. unfold cfg_read, cfg_table_access_read.
  destruct (_table_get id) as [r|] eqn:Ht; [|by eexists].
  destruct (negb _); [by eexists|].
  destruct (storage_read_cfg _ _ s) as [l|] eqn:Er; [|by eexists].
  destruct (table_get_ok _ _ Ht) as [Hi _]. apply storage_read_cfg_spec in Er as ->; [|done].
  destruct (_cfg_valid _) eqn:Ev; [|destruct (cfg_table_default id); by eexists].
  destruct (Hs id (ex_intro _ _ Ht) Ev) as [t ->]. by eexists.
Qed.

Lemma c_string_nul l : 0 ∈ l → is_ok (c_string l).
Proof.
  induction l as [|c l IH]; [by intros ?%elem_of_nil|]. cbn [c_string].
  destruct (Z.eqb_spec c 0) as [->|Hc]; [by eexists|].
  intros [?|H]%elem_of_cons; [congruence|]. destruct (IH H) as [t ->]. by eexists.
Qed.

(** A terminated text written to an item leaves the configuration clean. *)
Lemma cfg_clean_write id src auth s s' q :
  cfg_write id src auth s = (true, s', q) → (length src <= 61)%nat ∨ 0 ∈ src →
  cfg_clean s → cfg_clean s'.
Proof.
  intros Hw Hsrc Hs id' Hid. destruct (decide (id' = id)) as [->|Hne].
  - destruct (cfg_write_stored _ _ _ _ _ _ Hw) as (Hl & _ & _ & Hst%stored_read).
    unfold cfg_bytes in Hst at 1. rewrite length_app, item_data_length in Hst by done.
    cbv zeta. change (Z.of_nat (62 + _)) with sizeof_cfg in Hst. rewrite Hst. intros _.
    apply c_string_nul. unfold cfg_bytes, item_data. rewrite !elem_of_app. left.
    destruct Hsrc as [Hsrc|Hsrc]; [right|by left].
    apply elem_of_replicate. split; [done|lia].
  - cbv zeta. rewrite (cfg_write_other _ _ _ _ _ _ _ _ Hw Hid Hne). by apply Hs.
Qed.

(** The event log is outside the configuration. *)
Lemma cfg_clean_store e m r m' :
  event_log m [] → event_memory_store e m = Ok (r, m') →
  cfg_clean (em_storage m) → cfg_clean (em_storage m').
Proof.
  intros (w & Hw & Hp & _) Hst Hs. unfold event_memory_store in Hst.
  destruct (os_assert _) eqn:Ea; [|done]. cbn [mbind outcome_bind em_storage set_ptr] in Hst.
  rewrite Hp in Hst.
  destruct (storage_write_event _ _ _) as [b s'] eqn:E. injection Hst as <- <-.
  apply storage_write_event_spec in E as (Hwr & _).
  2:{ apply slot_inside; [done|]. rewrite event_bytes_length. pose proof sizeof_event_fits. lia. }
  intros id Hid. cbn [em_storage]. cbv zeta.
  destruct Hid as [row Ht]. destruct (table_get_ok _ _ Ht) as [Hi _].
  rewrite (wrote_read _ _ _ _ (_ADDR_CFG + id * sizeof_cfg) sizeof_cfg Hwr).
  - apply Hs. by eexists.
  - unfold sizeof_cfg. lia.
  - left. unfold slots, _EVENT_MEM_SIZE, sizeof_cfg in *. region. lia.
Qed.

Definition event_ok (e : event_t) : Prop :=
  0 ≤ ev_id e < EVENT_ID_SIZE ∧ 0 ≤ ev_source e < EVENT_SOURCE_SIZE ∧ event_object e.

Lemma event_setup_get i : 0 ≤ i < EVENT_ID_SIZE →
  ∃ r, EVENT_SETUP.[i] = Ok r ∧ event_id_code (fst (fst r)) = i.
Proof.
  intros Hi. unfold EVENT_ID_SIZE in Hi.
  assert (forallb (λ i, match EVENT_SETUP.[i] with
    | Ok r => event_id_code (fst (fst r)) =? i | Err _ => false end) (seqZ 0 16) = true) as H
    by (vm_compute; reflexivity).
  rewrite forallb_forall in H. specialize (H i). rewrite <- list_elem_of_In, elem_of_seqZ in H.
  specialize (H ltac:(lia)). destruct (EVENT_SETUP.[i]) as [r|]; [|done].
  apply Z.eqb_eq in H. eauto.
Qed.

Lemma source_setup_get i : 0 ≤ i < EVENT_SOURCE_SIZE →
  ∃ r, EVENT_SOURCE_SETUP.[i] = Ok r ∧ event_source_code (fst r) = i.
Proof.
  intros Hi. unfold EVENT_SOURCE_SIZE in Hi.
  assert (forallb (λ i, match EVENT_SOURCE_SETUP.[i] with
    | Ok r => event_source_code (fst r) =? i | Err _ => false end) (seqZ 0 16) = true) as H
    by (vm_compute; reflexivity).
  rewrite forallb_forall in H. specialize (H i). rewrite <- list_elem_of_In, elem_of_seqZ in H.
  specialize (H ltac:(lia)). destruct (EVENT_SOURCE_SETUP.[i]) as [r|]; [|done].
  apply Z.eqb_eq in H. eauto.
Qed.

Lemma names_named s e :
  cfg_clean s → 0 ≤ ev_id e < EVENT_ID_SIZE → 0 ≤ ev_source e < EVENT_SOURCE_SIZE →
  is_ok (_event_name s (ev_id e)) ∧ is_ok (_source_name s (ev_source e)).
Proof.
  intros Hs Hi Hsrc. split.
  - unfold _event_name. destruct (event_setup_get _ Hi) as (r & -> & E).
    unfold os_assert. rewrite (proj2 (Z.ltb_lt _ _)) by lia. cbn [mbind outcome_bind].
    rewrite E, Z.eqb_refl. cbn [mbind outcome_bind].
    destruct (cfg_clean_read s (snd r) ACCESS_SYSTEM Hs) as [[ok t] ->]. by eexists.
  - unfold _source_name. destruct (source_setup_get _ Hsrc) as (r & -> & E).
    unfold os_assert. rewrite (proj2 (Z.ltb_lt _ _)) by lia. cbn [mbind outcome_bind].
    rewrite E, Z.eqb_refl. cbn [mbind outcome_bind].
    destruct (cfg_clean_read s (snd r) ACCESS_SYSTEM Hs) as [[ok t] ->]. by eexists.
Qed.

Lemma names_ok s e :
  cfg_clean s → event_ok e →
  is_ok (_event_name s (ev_id e)) ∧ is_ok (_source_name s (ev_source e)).
Proof. intros Hs (Hi & Hsrc & _). by apply names_named. Qed.

(** The receivers never fault, whatever the setup text, and the centre's client
    stays as it is. *)
Lemma setup_loop_ok limit p e sms c n q :
  holds sms n q → ∃ sms' q', setup_loop limit p e sms c = Ok (sms', c) ∧ holds sms' n q'.
Proof.
  revert p sms q. induction limit as [|limit IH]; intros p sms q Hb; [by eauto|].
  destruct p as [|ch p]; cbn [setup_loop]; [by eauto|].
  destruct (ch =? 83).
  { destruct (cmd_fetch_num p) as [[user p']|]; [|by eauto].
    destruct (event_buf_add_event_spec sms n q e EVENT_PRIO_STD (u16 user) Hb)
      as (ok & b & -> & Hr). cbn [mbind outcome_bind].
    destruct (spec_add n q e EVENT_PRIO_STD (u16 user)); destruct Hr as [_ Hr]; by eapply IH. }
  destruct (ch =? 86); [destruct (cmd_fetch_num p) as [[? ?]|]; by eauto|].
  destruct (ch =? 67); [|destruct (ch =? 44); by eauto].
  destruct (cms_new_event_idle e c) as (c' & -> & ->). cbn [mbind outcome_bind]. by eauto.
Qed.

Lemma queued_pop q e p :
  queued q (e :: p) →
  (_event_buffer q).[_buf_rd_ptr q] = Ok e ∧ _buf_rd_ptr q ≠ _buf_wr_ptr q ∧
  queued (EventQueue (_event_buffer q) ((_buf_rd_ptr q + 1) mod 32) (_buf_wr_ptr q) (_event_cnt q)) p.
Proof.
  intros (Hb & Hr & Hw & Hl & Hp). cbn [length] in Hl. split; [|split].
  - specialize (Hp 0%nat e eq_refl).
    by replace ((_buf_rd_ptr q + Z.of_nat 0) mod 32) with (_buf_rd_ptr q) in Hp
      by (Z.div_mod_to_equations; lia).
  - intros E. rewrite E, Z.sub_diag in Hl. change (0 mod 32) with 0 in Hl. lia.
  - unfold queued. cbn. split; [done|]. split; [apply Z.mod_pos_bound; lia|]. split; [done|].
    split; [Z.div_mod_to_equations; lia|]. intros k v Hk.
    specialize (Hp (S k) v Hk).
    by replace (((_buf_rd_ptr q + 1) mod 32 + Z.of_nat k) mod 32)
      with ((_buf_rd_ptr q + Z.of_nat (S k)) mod 32) by (Z.div_mod_to_equations; lia).
Qed.

(** Flash writes of the log succeed. *)
Definition log_writes_ok : Prop := ∀ off src (s : storage),
  inside _SIZE_EVENT_MEM off (Z.of_nat (length src)) → (storage_write_event off src s).1 = true.

Lemma event_log_nil m q : event_log m q → event_log m [].
Proof.
  intros (w & H1 & H2 & _). exists w. split; [done|]. split; [done|].
  split; [unfold slots; cbn; lia|]. intros k v Hk. discriminate Hk.
Qed.

Definition log_push (lq : list event_t) (e : event_t) : list event_t := e :: take (Z.to_nat 8191) lq.
Definition sys_react (wr : wires) (w : system) (e : event_t) : system := (system_event wr (ev_id e) w).1.

Lemma event_task1_ok wr a e p lq n sq :
  log_writes_ok → queued (a_queue a) (e :: p) → event_ok e → event_log (a_mem a) lq →
  holds (a_sms a) n sq → cfg_clean (em_storage (a_mem a)) →
  ∃ a' acts sq', event_task1 wr (_buf_rd_ptr (a_queue a)) a
      = Ok (_buf_rd_ptr (a_queue a'), a', acts) ∧
    queued (a_queue a') p ∧ _buf_wr_ptr (a_queue a') = _buf_wr_ptr (a_queue a) ∧
    event_log (a_mem a') (log_push lq e) ∧ holds (a_sms a') n sq' ∧
    cfg_clean (em_storage (a_mem a')) ∧ a_cms a' = a_cms a ∧
    a_sys a' = sys_react wr (a_sys a) e.
Proof.
  intros Hwr Hq He Hlog Hsms Hcfg. destruct (queued_pop _ _ _ Hq) as (Eb & _ & Hq').
  pose proof Hq as (_ & Hr & _). unfold event_task1, os_assert, _EVENT_BUF_SIZE.
  destruct (Z.ltb_spec (_buf_rd_ptr (a_queue a)) 32); [|lia]. cbn [mbind outcome_bind].
  rewrite Eb. cbn [mbind outcome_bind]. pose proof He as (Hid & Hsrc & Hobj).
  rewrite (proj2 (Z.ltb_lt _ _)) by lia. cbn [mbind outcome_bind].
  destruct (event_setup_get _ Hid) as (r & -> & _). cbn [mbind outcome_bind]. cbv zeta.
  destruct (event_memory_store_spec _ _ e Hlog Hobj) as (b & m & Em & Hm & _).
  assert (b = true) as ->.
  { clear -Hwr Em Hlog. destruct Hlog as (w & Hw & Hp & _). unfold event_memory_store in Em.
    destruct (os_assert _); [|done]. cbn [mbind outcome_bind em_storage set_ptr] in Em.
    rewrite Hp in Em. specialize (Hwr (w * _EVENT_MEM_SIZE) (event_bytes e) (em_storage (a_mem a))).
    destruct (storage_write_event _ _ _) as [b' s']. injection Em as <- _. apply Hwr.
    apply slot_inside; [done|]. rewrite event_bytes_length. pose proof sizeof_event_fits. lia. }
  rewrite Em. cbn [mbind outcome_bind].
  pose proof (cfg_clean_store _ _ _ _ (event_log_nil _ _ Hlog) Em Hcfg) as Hcfg'.
  destruct (cfg_clean_read (em_storage m) (CFG_ID_EVENT_SETUP_000 + event_group_code (snd (fst r)))
              ACCESS_SYSTEM Hcfg') as [[ok cfg] ->]. cbn [mbind outcome_bind].
  assert (∃ sms' sq', (if ok then setup_loop 30 cfg e (a_sms a) (a_cms a)
      else Ok (a_sms a, a_cms a)) = Ok (sms', a_cms a) ∧ holds sms' n sq') as (sms' & sq' & -> & Hsms').
  { destruct ok; [|by eauto]. by eapply setup_loop_ok. }
  cbn [mbind outcome_bind]. destruct (names_ok _ _ Hcfg' He) as [[t1 ->] [t2 ->]].
  cbn [mbind outcome_bind]. rewrite ring_next by done.
  unfold sys_react. destruct (system_event wr (ev_id e) (a_sys a)) as [sys acts].
  exists (App (EventQueue (_event_buffer (a_queue a)) ((_buf_rd_ptr (a_queue a) + 1) mod 32)
    (_buf_wr_ptr (a_queue a)) (_event_cnt (a_queue a))) m sms' (a_cms a) sys), acts, sq'.
  cbn [a_queue a_mem a_sms a_cms a_sys _buf_rd_ptr _buf_wr_ptr]. by repeat (split; [done|]).
Qed.

Lemma event_task_loop_ok fuel wr a p lq n sq :
  log_writes_ok → queued (a_queue a) p → Forall event_ok p → (length p <= fuel)%nat →
  event_log (a_mem a) lq → holds (a_sms a) n sq → cfg_clean (em_storage (a_mem a)) →
  ∃ a' acts, event_task_loop fuel wr (_buf_rd_ptr (a_queue a)) a = Ok (a', acts) ∧
    queued (a_queue a') [] ∧ event_log (a_mem a') (foldl log_push lq p) ∧
    a_cms a' = a_cms a ∧ a_sys a' = foldl (sys_react wr) (a_sys a) p.
Proof.
  intros Hwr Hq Hp. revert fuel a lq sq Hq. induction Hp as [|e p He Hp IH];
    intros fuel a lq sq Hq Hfuel Hlog Hsms Hcfg.
  - assert (_buf_rd_ptr (a_queue a) =? _buf_wr_ptr (a_queue a) = true) as E.
    { destruct Hq as (_ & Hr & Hw & Hl & _). apply Z.eqb_eq. cbn in Hl.
      Z.div_mod_to_equations. lia. }
    exists a, []. split; [|done]. destruct fuel; cbn [event_task_loop]; by rewrite E.
  - destruct fuel as [|fuel]; [cbn in Hfuel; lia|]. cbn [event_task_loop].
    destruct (queued_pop _ _ _ Hq) as (_ & Hne & _).
    destruct (Z.eqb_spec (_buf_rd_ptr (a_queue a)) (_buf_wr_ptr (a_queue a))); [done|].
    destruct (event_task1_ok wr a e p lq n sq) as (a1 & l1 & sq1 & -> & H1 & H2 & H3 & H4 & H5 & H6 & H7);
      try done. cbn [mbind outcome_bind].
    destruct (IH fuel a1 (log_push lq e) sq1 H1) as (a2 & l2 & -> & G1 & G2 & G3 & G4); try done.
    { cbn in Hfuel. lia. }
    cbn [mbind outcome_bind]. exists a2, (l1 ++ l2). split; [done|]. split; [done|].
    split; [done|]. split; [congruence|]. rewrite G4, H7. done.
Qed.

(** C24 (functional). [event_task] handles every waiting event, oldest first, and
    leaves the queue empty without tripping an assertion: each goes into the
    flash log, newest in front, and the alarm system reacts to each in that
    order; neither the setup texts of the groups nor a full SMS buffer can stop
    it. *)
Theorem event_task_drains wr a p lq n sq :
  log_writes_ok → queued (a_queue a) p → Forall event_ok p →
  event_log (a_mem a) lq → holds (a_sms a) n sq → cfg_clean (em_storage (a_mem a)) →
  ∃ a' acts, event_task wr a = Ok (a', acts) ∧
    queued (a_queue a') [] ∧ event_log (a_mem a') (foldl log_push lq p) ∧
    a_sys a' = foldl (sys_react wr) (a_sys a) p.
Proof.
  intros Hwr Hq Hp Hlog Hsms Hcfg. unfold event_task, os_assert, _EVENT_BUF_SIZE.
  pose proof Hq as (_ & _ & Hw & _).
  destruct (Z.ltb_spec (_buf_wr_ptr (a_queue a)) 32); [|lia]. cbn [mbind outcome_bind].
  destruct (event_task_loop_ok 32 wr a p lq n sq) as (a' & l & E & G1 & G2 & _ & G4); try done.
  { apply queued_length in Hq. lia. }
  exists a', l. done.
Qed.

End drain.

(** ** Witnesses *)

Lemma setup_loop_users_witness :
  ∃ sms', add_each [0; 3; 12] sample_event empty_buf = Ok sms' ∧
    setup_loop 30 (str "S0,S3,S12") sample_event empty_buf boot_cms = Ok (sms', boot_cms).
Proof.
  destruct (add_each [0; 3; 12] sample_event empty_buf) as [sms'|] eqn:E;
    [|vm_compute in E; discriminate].
  exists sms'. split; [done|].
  refine (setup_loop_users [0; 3; 12] sample_event empty_buf boot_cms sms' _ _ E).
  - repeat constructor; lia.
  - cbn. lia.
Defined.

Lemma erased_clean : cfg_clean erased_storage.
Proof.
  intros id _. cbv zeta.
  assert (∀ a, byte erased_storage <$> seqZ a sizeof_cfg = replicate 64 255) as ->.
  { intros a. apply list_eq. intros i. rewrite list_lookup_fmap.
    destruct (decide (i < 64)%nat) as [Hi|Hi].
    - rewrite lookup_seqZ_lt by (unfold sizeof_cfg; lia).
      rewrite lookup_replicate_2 by done. done.
    - rewrite lookup_seqZ_ge by (unfold sizeof_cfg; lia).
      symmetry. apply lookup_replicate_None. lia. }
  vm_compute. discriminate.
Qed.

Lemma ideal_writes_ok : log_writes_ok.
Proof.
  intros off src s Hi. unfold storage_write_event.
  rewrite (u32_small (off + _)), (u32_small (_ADDR_EVENT_MEM + _)) by (region; lia).
  destruct (Z.ltb_spec _SIZE_EVENT_MEM (off + Z.of_nat (length src))); [region; lia|].
  cbn [flash_write_data ideal_flash].
  destruct (Z.leb_spec 0 (_ADDR_EVENT_MEM + off)); [|region; lia].
  destruct (Z.leb_spec (_ADDR_EVENT_MEM + off + Z.of_nat (length src)) chip_size);
    [done|unfold chip_size in *; region; lia].
Qed.

Definition waiting_app : app_state :=
  App full_queue (EventMemory 0 0 erased_storage) empty_buf boot_cms started_system.

Lemma event_task_drains_witness :
  ∃ a' acts, event_task ww waiting_app = Ok (a', acts) ∧ queued (a_queue a') [].
Proof.
  destruct (event_task_drains ww waiting_app ((λ k, Event k rtc_zero 8 3) <$> seqZ 1 31) [] CMS_BUF_SIZE [])
    as (a' & acts & H1 & H2 & _).
  - exact ideal_writes_ok.
  - exact full_queue_queued.
  - apply Forall_fmap, Forall_forall. intros k Hk%elem_of_seqZ. cbn. unfold event_ok, EVENT_ID_SIZE, EVENT_SOURCE_SIZE.
    cbn. unfold in_u32, in_u8. lia.
  - exists 0. split; [vm_compute; intuition congruence|]. split; [done|].
    split; [cbn; unfold slots; lia|]. intros k v Hk. discriminate Hk.
  - exact empty_buf_holds.
  - exact erased_clean.
  - exists a', acts. exact (conj H1 H2).
Defined.
