(* ===== verification/TracerBuf.v ===== *)
(** * Track records in flash (app/tracer/tracer_buffer.c)

    The positions that wait for the tracking server, as a ring of 32768 records
    in the GPS area of the flash.  [tracks] says what the ring promises: the
    records handed out but not yet confirmed, and the ones still to be read. *)

From S2P Require Import Prelude Storage.

(** ** Records *)

(** A record; the 22 bytes of the [gps_stamp_t] object are kept as they are. *)
(** src/app/tracer/tracer_buffer.h:11-20 (tracer_buf_t) *)
Record tracer_buf_t := TracerRec {
  tb_track : Z;
  tb_point : Z;
  tb_position : list Z;
  tb_info : Z;
  tb_flags : Z;
  tb_chsum : Z
}.

(** src/app/tracer/tracer_buffer.h:7-7 (TRACER_FLAG_DELIVERED) *)
Definition TRACER_FLAG_DELIVERED : Z := bit 0.
(** src/app/tracer/tracer_buffer.h:22-22 (TRACER_BUF_VERSION) *)
Definition TRACER_BUF_VERSION : Z := 1.
(** src/app/tracer/tracer_buffer.c:10-10 (SAVE_GRID_SIZE) *)
Definition SAVE_GRID_SIZE : Z := 32.
(** src/app/tracer/tracer_buffer.c:11-11 (BUF_STORE_LIMIT) *)
Definition BUF_STORE_LIMIT : Z := STORAGE_GPS_RECORDS_SPACE / SAVE_GRID_SIZE.
(** src/app/tracer/tracer_buffer.c:17-17 (PTR_INVALID) *)
Definition PTR_INVALID : Z := 65535.

(** [sizeof(tracer_buf_t)]: the structure is packed. *)
Definition sizeof_tracer_buf : Z := 32.

(** The object representation (packed, little-endian) and its inverse. *)
Definition tracer_bytes (r : tracer_buf_t) : list Z :=
  le16 (tb_track r) ++ le16 (tb_point r) ++ tb_position r ++ le32 (tb_info r)
    ++ [tb_flags r; tb_chsum r].

Definition bytes_tracer (l : list Z) : tracer_buf_t :=
  TracerRec (of_le (take 2 l)) (of_le (take 2 (drop 2 l))) (take 22 (drop 4 l))
    (of_le (take 4 (drop 26 l))) (of_le (take 1 (drop 30 l))) (of_le (take 1 (drop 31 l))).

(** The sum over the bytes [i], [i+1], .. of the structure. *)
Fixpoint chsum_from (i : Z) (l : list Z) : Z :=
  match l with
  | [] => 0
  | b :: l => Z.lxor b i + TRACER_BUF_VERSION + chsum_from (i + 1) l
  end.

(** src/app/tracer/tracer_buffer.c:144-154 (tracer_buf_checksum) *)
Definition tracer_buf_checksum (buf : list Z) : Z :=
  u8 (chsum_from 0 (take (Z.to_nat (sizeof_tracer_buf - 1)) buf)).

Definition set_chsum (c : Z) (r : tracer_buf_t) : tracer_buf_t :=
  TracerRec (tb_track r) (tb_point r) (tb_position r) (tb_info r) (tb_flags r) c.
Definition set_flags (f : Z) (r : tracer_buf_t) : tracer_buf_t :=
  TracerRec (tb_track r) (tb_point r) (tb_position r) (tb_info r) f (tb_chsum r).

(** ** Operations *)

Section tracer_buffer.
Context `{F : FlashLib}.

(** src/app/tracer/tracer_buffer.c:18-20 (buf_read_ptr, buf_save_ptr, buf_last_undelivered) *)
Record tracer_ring := TracerRing {
  buf_read_ptr : Z;
  buf_save_ptr : Z;
  buf_last_undelivered : Z;
  tr_storage : storage
}.

(** src/app/tracer/tracer_buffer.c:24-24 (BUF_INC_PTR) *)
Definition BUF_INC_PTR (x : Z) : Z :=
  if BUF_STORE_LIMIT <=? u16 (x + 1) then 0 else u16 (x + 1).

(** src/app/tracer/tracer_buffer.c:166-176 (tracer_buf_load) *)
Definition tracer_buf_load (mem_id : Z) (s : storage) : option tracer_buf_t :=
  match storage_get_gps_data (mem_id * SAVE_GRID_SIZE) sizeof_tracer_buf s with
  | None => None
  | Some l => let buf := bytes_tracer l in
              if negb (tb_chsum buf =? tracer_buf_checksum l) then None else Some buf
  end.

(** src/app/tracer/tracer_buffer.c:156-164 (tracer_buf_save) *)
Definition tracer_buf_save (mem_id : Z) (buf : tracer_buf_t) (s : storage) : bool * storage :=
  storage_save_gps_data (mem_id * SAVE_GRID_SIZE)
    (tracer_bytes (set_chsum (tracer_buf_checksum (tracer_bytes buf)) buf)) s.

(** The search for the newest record, [fuel] halvings: the newest found, its
    track and info, and the last undelivered one met. *)
(** src/app/tracer/tracer_buffer.c:56-73 (tracer_buf_init) *)
Fixpoint search_last (fuel : nat) (i ptr save und track info : Z) (s : storage)
    : outcome (Z * Z * Z * Z) :=
  if i =? 0 then Ok (save, und, track, info)
  else
    match fuel with
    | O => Err FAssert
    | S fuel =>
        let i := Z.shiftr i 1 in
        match tracer_buf_load ptr s with
        | Some buf =>
            if track <=? tb_track buf then
              search_last fuel i (u16 (ptr + i)) ptr
                (if Z.land (tb_flags buf) TRACER_FLAG_DELIVERED =? 0 then ptr else und)
                (tb_track buf) (tb_info buf) s
            else search_last fuel i (u16 (ptr - i)) save und track info s
        | None => search_last fuel i (u16 (ptr - i)) save und track info s
        end
    end.

(** The search for the oldest undelivered one. *)
(** src/app/tracer/tracer_buffer.c:82-96 (tracer_buf_init) *)
Fixpoint search_undelivered (fuel : nat) (i ptr und : Z) (s : storage) : outcome Z :=
  if i =? 0 then Ok und
  else
    match fuel with
    | O => Err FAssert
    | S fuel =>
        let i := Z.shiftr i 1 in
        match tracer_buf_load ptr s with
        | Some buf =>
            if Z.land (tb_flags buf) TRACER_FLAG_DELIVERED =? 0 then
              search_undelivered fuel i (Z.land (u16 (ptr - i)) (BUF_STORE_LIMIT - 1)) ptr s
            else search_undelivered fuel i (Z.land (u16 (ptr + i)) (BUF_STORE_LIMIT - 1)) und s
        | None => search_undelivered fuel i (Z.land (u16 (ptr + i)) (BUF_STORE_LIMIT - 1)) und s
        end
    end.

Definition HALF : Z := Z.shiftr BUF_STORE_LIMIT 1.

(** The two searches; sixteen halvings end either. *)
(** src/app/tracer/tracer_buffer.c:44-98 (tracer_buf_init) *)
Definition init_search (s : storage) : outcome (Z * Z * Z * Z) :=
  match tracer_buf_load 0 s with
  | None => Ok (PTR_INVALID, PTR_INVALID, 0, 0)
  | Some buf =>
      '(save, und, track, info) ←
        search_last 16 HALF HALF 0 PTR_INVALID (tb_track buf) 0 s;
      if und =? PTR_INVALID then Ok (save, und, track, info)
      else
        und ← search_undelivered 16 HALF (Z.land (save - HALF) (BUF_STORE_LIMIT - 1)) und s;
        Ok (save, und, track, info)
  end.

(** [mem]: whether [OS_MEM_ALLOC] succeeds.  The results stored through the
    pointers are returned. *)
(** src/app/tracer/tracer_buffer.c:29-114 (tracer_buf_init) *)
Definition tracer_buf_init (mem : bool) (t : tracer_ring) : outcome (bool * Z * Z * tracer_ring) :=
  if negb mem then Ok (false, 0, 0, t)
  else
    '(save, und, track, info) ← init_search (tr_storage t);
    let save := if save =? PTR_INVALID then 0 else BUF_INC_PTR save in
    let und := if und =? PTR_INVALID then save else und in
    Ok (true, track, info, TracerRing und save und (tr_storage t)).

(** src/app/tracer/tracer_buffer.c:125-136 (tracer_buf_hard_erase) *)
Fixpoint erase_loop (ids : list Z) (s : storage) : storage :=
  match ids with
  | [] => s
  | mem_id :: ids =>
      let '(ok, s) := storage_save_gps_data (mem_id * SAVE_GRID_SIZE)
                        (replicate (Z.to_nat sizeof_tracer_buf) 255) s in
      if ok then erase_loop ids s else s
  end.

(** src/app/tracer/tracer_buffer.c:116-142 (tracer_buf_hard_erase) *)
Definition tracer_buf_hard_erase (mem : bool) (t : tracer_ring) : bool * tracer_ring :=
  if negb mem then (false, t)
  else (true, TracerRing 0 0 0 (erase_loop (seqZ 0 BUF_STORE_LIMIT) (tr_storage t))).

(** src/app/tracer/tracer_buffer.c:178-196 (tracer_buf_store_position) *)
Definition tracer_buf_store_position (mem : bool) (pos : list Z) (track point flags info : Z)
    (t : tracer_ring) : bool * tracer_ring :=
  if negb mem then (false, t)
  else
    let buf := TracerRec track point pos info flags 0 in
    let '(_, s) := tracer_buf_save (buf_save_ptr t) buf (tr_storage t) in
    (true, TracerRing (buf_read_ptr t) (BUF_INC_PTR (buf_save_ptr t)) (buf_last_undelivered t) s).

(** The index and the record, or -1. *)
(** src/app/tracer/tracer_buffer.c:198-226 (tracer_buf_read_next) *)
Definition tracer_buf_read_next (mem : bool) (t : tracer_ring) : Z * option tracer_buf_t * tracer_ring :=
  if buf_save_ptr t =? buf_read_ptr t then (-1, None, t)
  else if negb mem then (-1, None, t)
  else
    match tracer_buf_load (buf_read_ptr t) (tr_storage t) with
    | None => (-1, None, t)
    | Some buf =>
        (s16 (buf_read_ptr t), Some buf,
         TracerRing (BUF_INC_PTR (buf_read_ptr t)) (buf_save_ptr t) (buf_last_undelivered t) (tr_storage t))
    end.

(** src/app/tracer/tracer_buffer.c:236-245 (tracer_buf_delivered_all) *)
Fixpoint delivered_loop (fuel : nat) (t : tracer_ring) : outcome tracer_ring :=
  if buf_last_undelivered t =? buf_read_ptr t then Ok t
  else
    match fuel with
    | O => Err FAssert
    | S fuel =>
        let u := buf_last_undelivered t in
        let s := match tracer_buf_load u (tr_storage t) with
                 | Some buf =>
                     (tracer_buf_save u (set_flags (Z.lor (tb_flags buf) TRACER_FLAG_DELIVERED) buf)
                        (tr_storage t)).2
                 | None => tr_storage t
                 end in
        delivered_loop fuel (TracerRing (buf_read_ptr t) (buf_save_ptr t) (BUF_INC_PTR u) s)
    end.

(** One round per record of the ring. *)
(** src/app/tracer/tracer_buffer.c:228-248 (tracer_buf_delivered_all) *)
Definition tracer_buf_delivered_all (mem : bool) (t : tracer_ring) : outcome (bool * tracer_ring) :=
  if negb mem then Ok (false, t)
  else t ← delivered_loop (Z.to_nat BUF_STORE_LIMIT) t; Ok (true, t).

(** src/app/tracer/tracer_buffer.c:250-255 (tracer_buf_empty) *)
Definition tracer_buf_empty (t : tracer_ring) : bool := buf_read_ptr t =? buf_save_ptr t.

End tracer_buffer.

(** ** Records survive the flash *)

Section laws.
Context `{F : FlashLib} `{FS : !FlashSpec F} `{FR : !FlashReliable F}.

(** The values a record can hold. *)
Definition rec_ok (r : tracer_buf_t) : Prop :=
  in_u16 (tb_track r) ∧ in_u16 (tb_point r) ∧ length (tb_position r) = 22%nat ∧
  in_u32 (tb_info r) ∧ in_u8 (tb_flags r).

(** The record with its checksum. *)
Definition seal (r : tracer_buf_t) : tracer_buf_t :=
  set_chsum (tracer_buf_checksum (tracer_bytes r)) r.

Lemma tracer_bytes_length r : length (tb_position r) = 22%nat → length (tracer_bytes r) = 32%nat.
Proof. intros H. unfold tracer_bytes. rewrite !length_app, H. done. Qed.

Lemma bytes_tracer_bytes r : rec_ok r → bytes_tracer (tracer_bytes r) = r.
Proof.
  destruct r as [t p pos i f c]. intros (Ht & Hp & Hl & Hi & Hf). cbn in Ht, Hp, Hl, Hi, Hf.
  unfold bytes_tracer, tracer_bytes.
  cbn [tb_track tb_point tb_position tb_info tb_flags tb_chsum].
  set (rest := le32 i ++ [f; c]).
  change (take 2 (le16 t ++ le16 p ++ pos ++ rest)) with (le16 t).
  change (take 2 (drop 2 (le16 t ++ le16 p ++ pos ++ rest))) with (le16 p).
  change (drop 4 (le16 t ++ le16 p ++ pos ++ rest)) with (pos ++ rest).
  change (drop 26 (le16 t ++ le16 p ++ pos ++ rest)) with (drop 22 (pos ++ rest)).
  change (drop 30 (le16 t ++ le16 p ++ pos ++ rest)) with (drop 26 (pos ++ rest)).
  change (drop 31 (le16 t ++ le16 p ++ pos ++ rest)) with (drop 27 (pos ++ rest)).
  replace 27%nat with (length pos + 5)%nat by lia. replace 26%nat with (length pos + 4)%nat by lia.
  rewrite take_app_length', drop_app_length', !drop_app_add by done.
  change (take 4 rest) with (le32 i). change (take 1 (drop 4 rest)) with [f].
  change (take 1 (drop 5 rest)) with [c]. rewrite !of_le16, of_le32 by done. cbn [of_le].
  f_equal; lia.
Qed.

(** All but the checksum. *)
Definition tracer_body (r : tracer_buf_t) : list Z :=
  le16 (tb_track r) ++ le16 (tb_point r) ++ tb_position r ++ le32 (tb_info r) ++ [tb_flags r].

Lemma checksum_body r : length (tb_position r) = 22%nat →
  tracer_buf_checksum (tracer_bytes r) = u8 (chsum_from 0 (tracer_body r)).
Proof.
  intros Hl. unfold tracer_buf_checksum. do 2 f_equal.
  replace (tracer_bytes r) with (tracer_body r ++ [tb_chsum r])
    by (unfold tracer_body, tracer_bytes; by rewrite <- !app_assoc).
  apply take_app_length'. unfold tracer_body. by rewrite !length_app, Hl.
Qed.

Lemma checksum_seal r : length (tb_position r) = 22%nat →
  tracer_buf_checksum (tracer_bytes (seal r)) = tracer_buf_checksum (tracer_bytes r).
Proof. intros Hl. by rewrite !checksum_body. Qed.

Lemma load_spec i s : 0 ≤ i < BUF_STORE_LIMIT →
  tracer_buf_load i s =
    let l := byte s <$> seqZ (_ADDR_GPS + i * SAVE_GRID_SIZE) sizeof_tracer_buf in
    if negb (tb_chsum (bytes_tracer l) =? tracer_buf_checksum l) then None
    else Some (bytes_tracer l).
Proof.
  change BUF_STORE_LIMIT with 32768. intros Hi. unfold tracer_buf_load.
  assert (inside _SIZE_GPS (i * SAVE_GRID_SIZE) sizeof_tracer_buf) as Hin
    by (unfold SAVE_GRID_SIZE, sizeof_tracer_buf; region; lia).
  destruct (storage_get_gps_data _ _ s) as [l|] eqn:E.
  - by apply storage_get_gps_data_spec in E as ->.
  - exfalso. revert E. unfold storage_get_gps_data.
    unfold SAVE_GRID_SIZE, sizeof_tracer_buf in *.
    rewrite !u32_small by (region; lia).
    destruct (Z.ltb_spec _SIZE_GPS (i * 32 + 32)); [region; lia|].
    destruct (flash_read_ok (_ADDR_GPS + i * 32) 32 (chip s)) as [l ->]; [region; lia..|done].
Qed.

Lemma save_spec i r s : 0 ≤ i < BUF_STORE_LIMIT → length (tb_position r) = 22%nat →
  ∃ s', tracer_buf_save i r s = (true, s') ∧
    wrote (_ADDR_GPS + i * SAVE_GRID_SIZE) (tracer_bytes (seal r)) s s' ∧
    stored (_ADDR_GPS + i * SAVE_GRID_SIZE) (tracer_bytes (seal r)) s'.
Proof.
  change BUF_STORE_LIMIT with 32768. intros Hi Hl. unfold tracer_buf_save. fold (seal r).
  assert (length (tracer_bytes (seal r)) = 32%nat) as Hlen by (by apply tracer_bytes_length).
  assert (inside _SIZE_GPS (i * SAVE_GRID_SIZE) (Z.of_nat (length (tracer_bytes (seal r))))) as Hin
    by (rewrite Hlen; unfold SAVE_GRID_SIZE; region; lia).
  destruct (storage_save_gps_data _ _ s) as [b s'] eqn:E.
  assert (b = true) as ->.
  { revert E. unfold storage_save_gps_data. rewrite Hlen. unfold SAVE_GRID_SIZE in *.
    rewrite !u32_small by (region; lia).
    destruct (Z.ltb_spec _SIZE_GPS (i * 32 + Z.of_nat 32)); [region; lia|].
    destruct (flash_write_data _ _ _) as [r' c'] eqn:Ew. intros [= <- _].
    pose proof (flash_write_ok (_ADDR_GPS + i * 32) (tracer_bytes (seal r)) (chip s)) as H'.
    rewrite Hlen, Ew in H'. apply H'; region; lia. }
  apply storage_save_gps_data_spec in E as (H1 & H2 & _); [|done]. eauto.
Qed.

Lemma load_save_eq i r s : 0 ≤ i < BUF_STORE_LIMIT → rec_ok r →
  tracer_buf_load i (tracer_buf_save i r s).2 = Some (seal r).
Proof.
  intros Hi Hr. pose proof Hr as (_ & _ & Hl & _).
  destruct (save_spec i r s Hi Hl) as (s' & -> & _ & Hst). cbn [snd].
  rewrite load_spec by done. cbv zeta.
  replace (byte s' <$> _) with (tracer_bytes (seal r)).
  2:{ symmetry. pose proof (stored_read _ _ _ Hst) as H.
      by rewrite (tracer_bytes_length (seal r) Hl) in H. }
  rewrite bytes_tracer_bytes, checksum_seal by done. cbn [seal set_chsum tb_chsum].
  by rewrite Z.eqb_refl.
Qed.

Lemma load_save_ne i j r s : 0 ≤ i < BUF_STORE_LIMIT → 0 ≤ j < BUF_STORE_LIMIT →
  length (tb_position r) = 22%nat → i ≠ j →
  tracer_buf_load j (tracer_buf_save i r s).2 = tracer_buf_load j s.
Proof.
  intros Hi Hj Hl Hne. destruct (save_spec i r s Hi Hl) as (s' & -> & Hw & _). cbn [snd].
  rewrite !load_spec by done. cbv zeta.
  rewrite (wrote_read _ _ _ _ (_ADDR_GPS + j * SAVE_GRID_SIZE) sizeof_tracer_buf Hw); [done|done|].
  rewrite (tracer_bytes_length (seal r) Hl). unfold SAVE_GRID_SIZE, sizeof_tracer_buf. lia.
Qed.

Lemma BUF_INC_PTR_ring x : 0 ≤ x < BUF_STORE_LIMIT → BUF_INC_PTR x = (x + 1) mod BUF_STORE_LIMIT.
Proof.
  unfold BUF_INC_PTR. change BUF_STORE_LIMIT with 32768. intros Hx.
  rewrite u16_small by (unfold in_u16; lia).
  destruct (Z.leb_spec 32768 (x + 1)); Z.div_mod_to_equations; lia.
Qed.

(** ** Start-up: the two searches *)

Definition undelivered (r : tracer_buf_t) : bool := Z.land (tb_flags r) TRACER_FLAG_DELIVERED =? 0.

Lemma shiftr_pow2 m : Z.shiftr (2 ^ Z.of_nat (S m)) 1 = 2 ^ Z.of_nat m.
Proof.
  rewrite Z.shiftr_div_pow2 by lia. change (2 ^ 1) with 2.
  rewrite Nat2Z.inj_succ, Z.pow_succ_r, Z.mul_comm by lia. by apply Z.div_mul.
Qed.

Lemma pow2_S m : 2 ^ Z.of_nat (S m) = 2 * 2 ^ Z.of_nat m.
Proof. rewrite Nat2Z.inj_succ, Z.pow_succ_r by lia. done. Qed.

Lemma land_ring x : Z.land (u16 x) (BUF_STORE_LIMIT - 1) = x mod BUF_STORE_LIMIT.
Proof.
  change (BUF_STORE_LIMIT - 1) with (Z.ones 15). rewrite Z.land_ones by lia.
  change (2 ^ 15) with 32768. change BUF_STORE_LIMIT with 32768. unfold u16.
  Z.div_mod_to_equations. lia.
Qed.

(** The records of the newest lap: slots [0..k-1] hold [r 0], [r 1], .. with
    tracks in order, every later slot is unreadable or of an older track. *)
Definition lap (s : storage) (k : Z) (r : Z → tracer_buf_t) : Prop :=
  1 ≤ k ≤ BUF_STORE_LIMIT ∧
  (∀ j, 0 ≤ j < k → tracer_buf_load j s = Some (r j)) ∧
  (∀ i j, 0 ≤ i ≤ j → j < k → tb_track (r i) ≤ tb_track (r j)) ∧
  (∀ j b, k ≤ j < BUF_STORE_LIMIT → tracer_buf_load j s = Some b → tb_track b < tb_track (r 0)).

(** What one probe of the first search sees. *)
Lemma lap_probe s k r lo p (A : Type) (f : tracer_buf_t → A) (g : A) :
  lap s k r → 0 ≤ lo < k → lo < p < BUF_STORE_LIMIT →
  match tracer_buf_load p s with
  | Some buf => if tb_track (r lo) <=? tb_track buf then f buf else g
  | None => g
  end = if p <? k then f (r p) else g.
Proof.
  intros (_ & Hpre & Hmono & Hpost) Hlo Hp. destruct (Z.ltb_spec p k).
  - rewrite Hpre by lia. specialize (Hmono lo p).
    destruct (Z.leb_spec (tb_track (r lo)) (tb_track (r p))); [done|lia].
  - destruct (tracer_buf_load p s) as [b|] eqn:E; [|done].
    specialize (Hpost p b ltac:(lia) E). specialize (Hmono 0 lo ltac:(lia) ltac:(lia)).
    destruct (Z.leb_spec (tb_track (r lo)) (tb_track b)); [lia|done].
Qed.

Lemma search_last_0 fuel ptr save und track info s :
  search_last fuel 0 ptr save und track info s = Ok (save, und, track, info).
Proof. by destruct fuel. Qed.

(** With [2^m] to go, the newest record is less than [2^(m+1)] after [lo]. *)
Lemma search_last_spec s k r m fuel lo und info :
  lap s k r → (m < fuel)%nat → 0 ≤ lo < k → k ≤ lo + 2 * 2 ^ Z.of_nat m →
  lo + 2 * 2 ^ Z.of_nat m ≤ BUF_STORE_LIMIT →
  ∃ und' info',
    search_last fuel (2 ^ Z.of_nat m) (lo + 2 ^ Z.of_nat m) lo und (tb_track (r lo)) info s
      = Ok (k - 1, und', tb_track (r (k - 1)), info') ∧
    (lo = k - 1 → und' = und ∧ info' = info) ∧
    (lo < k - 1 → info' = tb_info (r (k - 1)) ∧ (undelivered (r (k - 1)) = true → und' = k - 1)) ∧
    (und' = und ∨ ∃ j, lo < j < k ∧ undelivered (r j) = true ∧ und' = j).
Proof.
  intros Hlap. change BUF_STORE_LIMIT with 32768.
  revert m lo und info. induction fuel as [|fuel IH]; intros m lo und info Hf Hlo Hk Hi; [lia|].
  cbn [search_last]. pose proof (Z.pow_pos_nonneg 2 (Z.of_nat m) ltac:(lia) ltac:(lia)) as Hp.
  remember (2 ^ Z.of_nat m) as w eqn:Ew. destruct (Z.eqb_spec w 0); [lia|].
  rewrite (lap_probe s k r lo) by (done || (change BUF_STORE_LIMIT with 32768; lia)).
  change (Z.land (tb_flags ?b) TRACER_FLAG_DELIVERED =? 0) with (undelivered b).
  set (p := lo + w).
  destruct m as [|m].
  - change (2 ^ Z.of_nat 0) with 1 in Ew. subst w. change (Z.shiftr 1 1) with 0.
    rewrite !search_last_0. destruct (Z.ltb_spec p k).
    + replace (k - 1) with p by (subst p; lia). do 2 eexists. split; [reflexivity|].
      split; [subst p; lia|]. split; [intros _; split; [done|by intros ->]|].
      destruct (undelivered (r p)) eqn:E; [right; exists p; split; [subst p; lia|done]|by left].
    + replace (k - 1) with lo by (subst p; lia). do 2 eexists. split; [reflexivity|].
      split; [done|]. split; [lia|by left].
  - assert (Z.shiftr w 1 = 2 ^ Z.of_nat m) as -> by (subst w; apply shiftr_pow2).
    rewrite pow2_S in Ew. set (h := 2 ^ Z.of_nat m) in *.
    assert (0 < h) by lia.
    destruct (Z.ltb_spec p k).
    + rewrite u16_small by (unfold in_u16; subst p; lia).
      destruct (IH m p (if undelivered (r p) then p else und) (tb_info (r p)))
        as (und' & info' & E & H1 & H2 & H3); [lia|subst p; lia..|].
      exists und', info'. split; [exact E|]. split; [subst p; lia|]. split.
      * intros _. destruct (decide (p = k - 1)) as [Ep|]; [|apply H2; lia].
        destruct (H1 Ep) as [-> ->]. rewrite <- Ep. split; [done|]. by intros ->.
      * destruct H3 as [->|(j & ? & ? & ?)]; [|right; exists j; split; [subst p; lia|done]].
        destruct (undelivered (r p)) eqn:Eu; [right; exists p; split; [subst p; lia|done]|by left].
    + rewrite u16_small by (unfold in_u16; subst p; lia).
      replace (p - h) with (lo + h) by (subst p; lia).
      destruct (IH m lo und info) as (und' & info' & E & H1 & H2 & H3); [lia..|].
      exists und', info'. done.
Qed.

(** The [u] newest records before [sp], and only those, are undelivered. *)
Definition backlog (s : storage) (sp u : Z) : Prop :=
  ∀ t, 0 ≤ t < BUF_STORE_LIMIT →
    match tracer_buf_load ((sp - t) mod BUF_STORE_LIMIT) s with
    | Some b => undelivered b
    | None => false
    end = (t <? u).

Lemma backlog_probe s sp u t (A : Type) (f g : A) :
  backlog s sp u → 0 ≤ t < BUF_STORE_LIMIT →
  match tracer_buf_load ((sp - t) mod BUF_STORE_LIMIT) s with
  | Some buf => if undelivered buf then f else g
  | None => g
  end = if t <? u then f else g.
Proof.
  intros H Ht. rewrite <- (H t Ht).
  by destruct (tracer_buf_load ((sp - t) mod BUF_STORE_LIMIT) s).
Qed.

Lemma search_undelivered_0 fuel ptr und s : search_undelivered fuel 0 ptr und s = Ok und.
Proof. by destruct fuel. Qed.

Lemma search_undelivered_spec s sp u m fuel lo :
  backlog s sp u → (m < fuel)%nat → 0 ≤ lo < u → u ≤ lo + 2 * 2 ^ Z.of_nat m →
  lo + 2 * 2 ^ Z.of_nat m ≤ BUF_STORE_LIMIT →
  search_undelivered fuel (2 ^ Z.of_nat m) ((sp - (lo + 2 ^ Z.of_nat m)) mod BUF_STORE_LIMIT)
    ((sp - lo) mod BUF_STORE_LIMIT) s = Ok ((sp - (u - 1)) mod BUF_STORE_LIMIT).
Proof.
  intros Hb. revert m lo. induction fuel as [|fuel IH]; intros m lo Hf Hlo Hu Hi; [lia|].
  cbn [search_undelivered].
  pose proof (Z.pow_pos_nonneg 2 (Z.of_nat m) ltac:(lia) ltac:(lia)) as Hp.
  remember (2 ^ Z.of_nat m) as w eqn:Ew. destruct (Z.eqb_spec w 0); [lia|].
  change (Z.land (tb_flags ?b) TRACER_FLAG_DELIVERED =? 0) with (undelivered b).
  rewrite (backlog_probe s sp u (lo + w)) by (done || lia).
  rewrite !land_ring, Zminus_mod_idemp_l, Zplus_mod_idemp_l.
  destruct m as [|m].
  - change (2 ^ Z.of_nat 0) with 1 in Ew. subst w. change (Z.shiftr 1 1) with 0.
    rewrite !search_undelivered_0. destruct (Z.ltb_spec (lo + 1) u); do 2 f_equal; lia.
  - assert (Z.shiftr w 1 = 2 ^ Z.of_nat m) as -> by (subst w; apply shiftr_pow2).
    rewrite pow2_S in Ew. set (h := 2 ^ Z.of_nat m) in *.
    destruct (Z.ltb_spec (lo + w) u).
    + replace (sp - (lo + w) - h) with (sp - (lo + w + h)) by lia. apply IH; lia.
    + replace (sp - (lo + w) + h) with (sp - (lo + h)) by lia. apply IH; lia.
Qed.

(** A record of the lap is undelivered exactly when it is among the [u] newest. *)
Lemma lap_backlog s k r u j :
  lap s k r → backlog s (k - 1) u → 0 ≤ j < k → undelivered (r j) = (k - 1 - j <? u).
Proof.
  intros ((_ & Hk) & Hpre & _) Hb Hj. rewrite <- (Hb (k - 1 - j)) by lia.
  replace (k - 1 - (k - 1 - j)) with j by lia. rewrite Z.mod_small by lia.
  by rewrite Hpre by lia.
Qed.

Lemma init_search_spec s k r u :
  lap s k r → 2 ≤ k → 0 ≤ u → backlog s (k - 1) u → u ≤ BUF_STORE_LIMIT →
  ∃ und, init_search s = Ok (k - 1, und, tb_track (r (k - 1)), tb_info (r (k - 1))) ∧
    und = if u =? 0 then PTR_INVALID else (k - u) mod BUF_STORE_LIMIT.
Proof.
  intros Hlap Hk Hu Hb Hul. pose proof Hlap as ((_ & HkL) & Hpre & _). unfold init_search.
  rewrite Hpre by lia. change HALF with (2 ^ Z.of_nat 14).
  destruct (search_last_spec s k r 14 16 0 PTR_INVALID 0 Hlap) as (und & info & E & _ & H2 & H3);
    [lia|lia|change (2 ^ Z.of_nat 14) with 16384; change BUF_STORE_LIMIT with 32768 in *; lia..|].
  change (0 + 2 ^ Z.of_nat 14) with (2 ^ Z.of_nat 14) in E. rewrite E. cbn [mbind outcome_bind].
  destruct (H2 ltac:(lia)) as [-> Hun]. rewrite (lap_backlog s k r u) in Hun by (done || lia).
  destruct (Z.eqb_spec u 0) as [->|Hu0].
  - destruct H3 as [->|(j & Hj & Hun' & ->)]; [by eexists|].
    rewrite (lap_backlog s k r 0) in Hun' by (done || lia).
    apply Z.ltb_lt in Hun'. lia.
  - rewrite Hun by (apply Z.ltb_lt; lia).
    destruct (Z.eqb_spec (k - 1) PTR_INVALID) as [Ei|_];
      [unfold PTR_INVALID in Ei; change BUF_STORE_LIMIT with 32768 in HkL; lia|].
    pose proof (search_undelivered_spec s (k - 1) u 14 16 0 Hb ltac:(lia) ltac:(lia)) as Hs.
    change (2 ^ Z.of_nat 14) with 16384 in *. change BUF_STORE_LIMIT with 32768 in *.
    change (32768 - 1) with (Z.ones 15). rewrite Z.land_ones by lia. change (2 ^ 15) with 32768.
    change (0 + 16384) with 16384 in Hs. rewrite Z.sub_0_r, (Z.mod_small (k - 1) 32768) in Hs by lia.
    rewrite Hs by lia. cbn [mbind outcome_bind]. eexists. split; [done|]. f_equal. lia.
Qed.

(** C31 (functional). Start-up finds its place again by two binary searches: when
    the newest lap fills the slots up to [k-1] (at least two of them) and the
    [u] newest records of the ring are the undelivered ones, the next record is
    written after slot [k-1], reading resumes at the oldest undelivered record,
    and the track and the information of the newest one are reported. *)
Theorem tracer_buf_init_recovers t k r u :
  lap (tr_storage t) k r → 2 ≤ k → backlog (tr_storage t) (k - 1) u → 0 ≤ u ≤ BUF_STORE_LIMIT →
  tracer_buf_init true t =
    Ok (true, tb_track (r (k - 1)), tb_info (r (k - 1)),
        TracerRing ((k - u) mod BUF_STORE_LIMIT) (k mod BUF_STORE_LIMIT)
          ((k - u) mod BUF_STORE_LIMIT) (tr_storage t)).
Proof.
  intros Hlap Hk Hb Hu. unfold tracer_buf_init. cbn [negb].
  destruct (init_search_spec _ _ _ u Hlap Hk) as (und & -> & ->); [lia|done|lia|].
  cbn [mbind outcome_bind]. pose proof Hlap as ((_ & HkL) & _).
  destruct (Z.eqb_spec (k - 1) PTR_INVALID) as [Ei|_];
    [unfold PTR_INVALID in Ei; change BUF_STORE_LIMIT with 32768 in HkL; lia|].
  rewrite BUF_INC_PTR_ring by lia. replace (k - 1 + 1) with k by lia.
  destruct (Z.eqb_spec u 0) as [->|Hu0].
  - cbn [Z.eqb PTR_INVALID Pos.eqb]. rewrite Z.sub_0_r. done.
  - assert (0 ≤ (k - u) mod BUF_STORE_LIMIT < 32768) by (by apply Z.mod_pos_bound).
    destruct (Z.eqb_spec ((k - u) mod BUF_STORE_LIMIT) PTR_INVALID) as [Ei|_];
      [unfold PTR_INVALID in Ei; lia|done].
Qed.

(** The searches never look at slot 0 again: when it holds the only
    record and that one was not delivered, start-up takes the ring for empty, and
    the record is never sent. *)
Theorem tracer_buf_init_loses_only_record t r :
  tracer_buf_load 0 (tr_storage t) = Some r → undelivered r = true →
  (∀ i, 1 ≤ i < BUF_STORE_LIMIT → tracer_buf_load i (tr_storage t) = None) →
  ∃ t', tracer_buf_init true t = Ok (true, tb_track r, 0, t') ∧
    tracer_buf_empty t' = true ∧ (tracer_buf_read_next true t').1 = (-1, None).
Proof.
  intros H0 _ Hn. assert (lap (tr_storage t) 1 (λ _, r)) as Hlap.
  { split; [done|]. split; [|split].
    - intros j Hj. by replace j with 0 by lia.
    - intros; lia.
    - intros j b Hj. by rewrite Hn by lia. }
  unfold tracer_buf_init, init_search. rewrite H0. cbn [negb].
  destruct (search_last_spec _ _ _ 14 16 0 PTR_INVALID 0 Hlap) as (und & info & E & H1 & _);
    [lia|lia|change (2 ^ Z.of_nat 14) with 16384; change BUF_STORE_LIMIT with 32768; lia..|].
  change (0 + 2 ^ Z.of_nat 14) with (2 ^ Z.of_nat 14) in E. change HALF with (2 ^ Z.of_nat 14).
  rewrite E. destruct (H1 eq_refl) as [-> ->]. cbn. by eexists.
Qed.

(** ** The ring as a queue *)

(** Slot number [k] after [i]. *)
Definition after (i : Z) (k : nat) : Z := (i + Z.of_nat k) mod BUF_STORE_LIMIT.

(** Consecutive slots from [i] hold the records of [l]. *)
Definition slots_hold (s : storage) (i : Z) (l : list tracer_buf_t) : Prop :=
  ∀ k r, l !! k = Some r → tracer_buf_load (after i k) s = Some r ∧ rec_ok r.

(** [rd] was read and awaits confirmation, [pend] is still to be read. *)
Definition tracks (t : tracer_ring) (rd pend : list tracer_buf_t) : Prop :=
  0 ≤ buf_last_undelivered t < BUF_STORE_LIMIT ∧
  buf_read_ptr t = after (buf_last_undelivered t) (length rd) ∧
  buf_save_ptr t = after (buf_last_undelivered t) (length rd + length pend) ∧
  Z.of_nat (length rd + length pend) < BUF_STORE_LIMIT ∧
  slots_hold (tr_storage t) (buf_last_undelivered t) (rd ++ pend).

Lemma after_range i k : 0 ≤ after i k < BUF_STORE_LIMIT.
Proof. by apply Z.mod_pos_bound. Qed.

Lemma after_0 i : 0 ≤ i < BUF_STORE_LIMIT → after i 0 = i.
Proof. intros. unfold after. rewrite Z.add_0_r. by apply Z.mod_small. Qed.

Lemma after_S i k : BUF_INC_PTR (after i k) = after i (S k).
Proof.
  rewrite BUF_INC_PTR_ring by apply after_range. unfold after.
  rewrite Zplus_mod_idemp_l. f_equal. lia.
Qed.

Lemma after_1 i k : after (after i 1) k = after i (S k).
Proof. unfold after. rewrite Zplus_mod_idemp_l. f_equal. lia. Qed.

Lemma after_inj i j k :
  after i j = after i k → Z.of_nat j < BUF_STORE_LIMIT → Z.of_nat k < BUF_STORE_LIMIT → j = k.
Proof.
  unfold after. change BUF_STORE_LIMIT with 32768. intros H Hj Hk.
  Z.div_mod_to_equations. lia.
Qed.

(** A save outside the run of slots leaves it alone. *)
Lemma slots_hold_save s i l j r :
  slots_hold s i l → Z.of_nat j < BUF_STORE_LIMIT → (length l <= j)%nat →
  length (tb_position r) = 22%nat →
  slots_hold (tracer_buf_save (after i j) r s).2 i l.
Proof.
  intros H Hj Hl Hp k x Hx. destruct (H k x Hx) as [Hk Hok]. split; [|done].
  apply lookup_lt_Some in Hx. rewrite load_save_ne; [done|apply after_range..|done|].
  intros E%after_inj; lia.
Qed.

Definition new_rec (pos : list Z) (track point flags info : Z) : tracer_buf_t :=
  TracerRec track point pos info flags 0.

Lemma store_tracks t rd pend pos track point flags info :
  tracks t rd pend → rec_ok (new_rec pos track point flags info) →
  Z.of_nat (length rd + length pend) + 1 < BUF_STORE_LIMIT →
  ∃ t', tracer_buf_store_position true pos track point flags info t = (true, t') ∧
    tracks t' rd (pend ++ [seal (new_rec pos track point flags info)]).
Proof.
  intros (Hu & Hr & Hs & _ & Hh) Hok Hcap. unfold tracer_buf_store_position. cbn [negb].
  fold (new_rec pos track point flags info). set (x := new_rec pos track point flags info) in *.
  rewrite Hs. set (p := after (buf_last_undelivered t) (length rd + length pend)).
  pose proof (load_save_eq p x (tr_storage t) (after_range _ _) Hok) as Hnew.
  pose proof Hok as (_ & _ & Hl & _).
  pose proof (slots_hold_save _ _ _ (length rd + length pend) x Hh ltac:(lia)
                ltac:(rewrite length_app; lia) Hl) as Hold. fold p in Hold.
  destruct (tracer_buf_save p x (tr_storage t)) as [b s']. cbn [snd] in Hnew, Hold.
  eexists. split; [reflexivity|]. unfold tracks. cbn.
  split; [done|]. split; [done|]. rewrite length_app. cbn [length].
  split; [subst p; rewrite after_S; f_equal; lia|]. split; [lia|].
  rewrite app_assoc. intros k r Hk. apply lookup_app_Some in Hk as [Hk|[Hk1 Hk2]]; [by apply Hold|].
  apply list_lookup_singleton_Some in Hk2 as [Hk2 <-].
  rewrite length_app in Hk1, Hk2.
  replace k with (length rd + length pend)%nat by lia. split; [exact Hnew|exact Hok].
Qed.

Lemma read_tracks t rd r pend :
  tracks t rd (r :: pend) →
  ∃ t', tracer_buf_read_next true t = (buf_read_ptr t, Some r, t') ∧ tracks t' (rd ++ [r]) pend.
Proof.
  intros (Hu & Hr & Hs & Hc & Hh). unfold tracer_buf_read_next. cbn [length] in Hs, Hc.
  destruct (Z.eqb_spec (buf_save_ptr t) (buf_read_ptr t)) as [E|_].
  { rewrite Hr, Hs in E. apply after_inj in E; lia. }
  cbn [negb]. destruct (Hh (length rd) r) as [Hl Hok].
  { by rewrite lookup_app_r, Nat.sub_diag by lia. }
  rewrite Hr, Hl. pose proof (after_range (buf_last_undelivered t) (length rd)) as Hrange.
  eexists. split.
  - f_equal. f_equal. change BUF_STORE_LIMIT with 32768 in Hrange. unfold s16. rewrite Z.mod_small; lia.
  - unfold tracks. cbn. rewrite after_S, length_app, <- app_assoc. cbn [length].
    replace (length rd + 1)%nat with (S (length rd)) by lia.
    replace (S (length rd) + length pend)%nat with (length rd + S (length pend))%nat by lia. done.
Qed.

Lemma read_tracks_nil t rd : tracks t rd [] → tracer_buf_read_next true t = (-1, None, t).
Proof.
  intros (_ & Hr & Hs & _). unfold tracer_buf_read_next.
  rewrite Hr, Hs. cbn [length]. by rewrite Nat.add_0_r, Z.eqb_refl.
Qed.

(** The record with its confirmation noted. *)
Definition confirmed (r : tracer_buf_t) : tracer_buf_t :=
  seal (set_flags (Z.lor (tb_flags r) TRACER_FLAG_DELIVERED) r).

Lemma rec_ok_flag r : rec_ok r → rec_ok (set_flags (Z.lor (tb_flags r) TRACER_FLAG_DELIVERED) r).
Proof.
  intros (H1 & H2 & H3 & H4 & H5). split; [done|]. split; [done|]. split; [done|]. split; [done|].
  cbn. unfold in_u8 in *. change TRACER_FLAG_DELIVERED with 1. split.
  - apply Z.lor_nonneg. lia.
  - destruct (decide (Z.lor (tb_flags r) 1 = 0)) as [->|]; [lia|].
    apply (Z.log2_lt_pow2 _ 8); [assert (0 ≤ Z.lor (tb_flags r) 1) by (apply Z.lor_nonneg; lia); lia|].
    rewrite Z.log2_lor by lia. change (Z.log2 1) with 0.
    destruct (decide (tb_flags r = 0)) as [->|]; [cbn; lia|].
    assert (Z.log2 (tb_flags r) < 8) by (apply Z.log2_lt_pow2; lia). lia.
Qed.

Lemma delivered_loop_spec fuel t rd pend :
  tracks t rd pend → (length rd <= fuel)%nat →
  ∃ t', delivered_loop fuel t = Ok t' ∧ tracks t' [] pend ∧
    (∀ k r, rd !! k = Some r →
       tracer_buf_load (after (buf_last_undelivered t) k) (tr_storage t') = Some (confirmed r)) ∧
    (∀ i, 0 ≤ i < BUF_STORE_LIMIT →
       (∀ k, (k < length rd)%nat → i ≠ after (buf_last_undelivered t) k) →
       tracer_buf_load i (tr_storage t') = tracer_buf_load i (tr_storage t)).
Proof.
  revert fuel t. induction rd as [|x rd IH]; intros fuel t Ht Hf.
  - pose proof Ht as (Hu & Hr & _). cbn [length] in Hr. rewrite after_0 in Hr by done.
    exists t. split; [|done]. destruct fuel; cbn [delivered_loop]; by rewrite Hr, Z.eqb_refl.
  - destruct fuel as [|fuel]; [cbn in Hf; lia|]. pose proof Ht as (Hu & Hr & Hs & Hc & Hh).
    cbn [length] in *. cbn [delivered_loop].
    destruct (Z.eqb_spec (buf_last_undelivered t) (buf_read_ptr t)) as [E|_].
    { rewrite Hr in E. rewrite <- (after_0 (buf_last_undelivered t)) in E at 1 by done.
      apply after_inj in E; [done|change BUF_STORE_LIMIT with 32768; lia|lia]. }
    destruct (Hh 0%nat x eq_refl) as [Hx Hok]. rewrite after_0 in Hx by done. rewrite Hx.
    pose proof (rec_ok_flag x Hok) as Hok'. set (x' := set_flags _ x) in *.
    pose proof Hok' as (_ & _ & Hl' & _). set (u := buf_last_undelivered t) in *.
    assert (BUF_INC_PTR u = after u 1) as ->
      by (rewrite <- (after_0 u) at 1 by done; apply after_S).
    assert (∀ k, Z.of_nat (S k) < BUF_STORE_LIMIT → after u (S k) ≠ u) as Hne.
    { intros k Hk E. rewrite <- (after_0 u) in E at 2 by done. apply after_inj in E; lia. }
    destruct (IH fuel (TracerRing (buf_read_ptr t) (buf_save_ptr t) (after u 1)
                (tracer_buf_save u x' (tr_storage t)).2)) as (t' & E & H1 & H2 & H3).
    { unfold tracks. cbn. rewrite !after_1. split; [apply after_range|].
      split; [exact Hr|]. split; [exact Hs|]. split; [lia|]. intros k r Hk.
      destruct (Hh (S k) r Hk) as [Hk' Hkok]. split; [|done]. rewrite after_1.
      apply lookup_lt_Some in Hk. rewrite length_app in Hk.
      rewrite load_save_ne; [done|done|apply after_range|done|]. symmetry. apply Hne. lia. }
    { lia. }
    cbn [buf_last_undelivered tr_storage] in H2, H3. exists t'. split; [exact E|].
    split; [exact H1|]. split.
    + intros [|k] r Hk.
      * injection Hk as <-. rewrite after_0 by done. rewrite H3; [by apply load_save_eq|done|].
        intros k Hk E'. rewrite after_1 in E'. symmetry in E'. apply Hne in E'; [done|lia].
      * specialize (H2 k r Hk). by rewrite after_1 in H2.
    + intros i Hi Hout. rewrite H3; [|done|].
      * apply load_save_ne; [done|done|done|]. intros ->. apply (Hout 0%nat); [lia|].
        by rewrite after_0.
      * intros k Hk. rewrite after_1. apply Hout. lia.
Qed.

Lemma tracer_buf_delivered_all_tracks t rd pend :
  tracks t rd pend →
  ∃ t', tracer_buf_delivered_all true t = Ok (true, t') ∧ tracks t' [] pend ∧
    (∀ k r, rd !! k = Some r →
       tracer_buf_load (after (buf_last_undelivered t) k) (tr_storage t') = Some (confirmed r)).
Proof.
  intros Ht. pose proof Ht as (_ & _ & _ & Hc & _). unfold tracer_buf_delivered_all. cbn [negb].
  destruct (delivered_loop_spec (Z.to_nat BUF_STORE_LIMIT) t rd pend Ht) as (t' & -> & H & Hm & _); [lia|].
  by exists t'.
Qed.

(** When the server confirms, every record read so far is marked
    delivered in flash and no other slot changes; the records still to be read
    stay pending. *)
Theorem tracer_buf_delivered_all_marks t rd pend :
  tracks t rd pend →
  ∃ t', tracer_buf_delivered_all true t = Ok (true, t') ∧ tracks t' [] pend ∧
    (∀ k r, rd !! k = Some r →
       tracer_buf_load (after (buf_last_undelivered t) k) (tr_storage t') = Some (confirmed r)) ∧
    (∀ i, 0 ≤ i < BUF_STORE_LIMIT →
       (∀ k, (k < length rd)%nat → i ≠ after (buf_last_undelivered t) k) →
       tracer_buf_load i (tr_storage t') = tracer_buf_load i (tr_storage t)).
Proof.
  intros Ht. pose proof Ht as (_ & _ & _ & Hc & _). unfold tracer_buf_delivered_all. cbn [negb].
  destruct (delivered_loop_spec (Z.to_nat BUF_STORE_LIMIT) t rd pend Ht) as (t' & -> & H); [lia|].
  cbn [mbind outcome_bind]. by exists t'.
Qed.

(** The tracker's use of the ring. *)
Inductive tracer_op :=
  | TStore (pos : list Z) (track point flags info : Z)
  | TRead
  | TDelivered.

Definition tracer_step (op : tracer_op) (t : tracer_ring) : outcome (option tracer_buf_t * tracer_ring) :=
  match op with
  | TStore pos track point flags info =>
      Ok (None, (tracer_buf_store_position true pos track point flags info t).2)
  | TRead => let '(_, r, t) := tracer_buf_read_next true t in Ok (r, t)
  | TDelivered => '(_, t) ← tracer_buf_delivered_all true t; Ok (None, t)
  end.

Fixpoint tracer_run (ops : list tracer_op) (t : tracer_ring)
    : outcome (list (option tracer_buf_t) * tracer_ring) :=
  match ops with
  | [] => Ok ([], t)
  | op :: ops => '(o, t) ← tracer_step op t; '(os, t) ← tracer_run ops t; Ok (o :: os, t)
  end.

(** The same on a queue with a reading position. *)
Definition queue_step (op : tracer_op) (q : list tracer_buf_t * list tracer_buf_t)
    : option tracer_buf_t * (list tracer_buf_t * list tracer_buf_t) :=
  let '(rd, pend) := q in
  match op with
  | TStore pos track point flags info =>
      (None, (rd, pend ++ [seal (new_rec pos track point flags info)]))
  | TRead => match pend with [] => (None, (rd, [])) | r :: pend => (Some r, (rd ++ [r], pend)) end
  | TDelivered => (None, ([], pend))
  end.

Fixpoint queue_run (ops : list tracer_op) (q : list tracer_buf_t * list tracer_buf_t)
    : list (option tracer_buf_t) * (list tracer_buf_t * list tracer_buf_t) :=
  match ops with
  | [] => ([], q)
  | op :: ops => let '(o, q) := queue_step op q in let '(os, q) := queue_run ops q in (o :: os, q)
  end.

Definition op_ok (op : tracer_op) : Prop :=
  match op with
  | TStore pos track point flags info => rec_ok (new_rec pos track point flags info)
  | _ => True
  end.

Fixpoint stores (ops : list tracer_op) : nat :=
  match ops with
  | [] => 0
  | TStore _ _ _ _ _ :: ops => S (stores ops)
  | _ :: ops => stores ops
  end.

Lemma tracer_step_tracks op t q :
  tracks t q.1 q.2 → op_ok op →
  Z.of_nat (length q.1 + length q.2 + stores [op]) < BUF_STORE_LIMIT →
  ∃ t', tracer_step op t = Ok ((queue_step op q).1, t') ∧
    tracks t' (queue_step op q).2.1 (queue_step op q).2.2 ∧
    (length (queue_step op q).2.1 + length (queue_step op q).2.2
      ≤ length q.1 + length q.2 + stores [op])%nat.
Proof.
  destruct q as [rd pend]. intros Ht Hok Hc. cbn [fst snd] in *. destruct op as [pos tr po fl inf| |].
  - cbn in Hc.
    destruct (store_tracks t rd pend pos tr po fl inf Ht Hok) as (t' & E & Ht'); [lia|].
    exists t'. cbn [tracer_step]. rewrite E. split; [done|]. split; [done|].
    cbn. rewrite length_app. cbn. lia.
  - destruct pend as [|r pend].
    + exists t. cbn [tracer_step]. rewrite (read_tracks_nil t rd Ht). split; [done|].
      split; [done|]. cbn. lia.
    + destruct (read_tracks t rd r pend Ht) as (t' & E & Ht').
      exists t'. cbn [tracer_step]. rewrite E. split; [done|]. split; [done|].
      cbn. rewrite length_app. cbn. lia.
  - destruct (delivered_loop_spec (Z.to_nat BUF_STORE_LIMIT) t rd pend Ht) as (t' & E & Ht' & _);
      [destruct Ht as (_ & _ & _ & H & _); lia|].
    exists t'. cbn [tracer_step]. unfold tracer_buf_delivered_all. cbn [negb]. rewrite E.
    split; [done|]. split; [done|]. cbn. lia.
Qed.


(** The ring keeps no count: with 32767 records pending and nothing
    read, one more store brings the write index onto the read index, the ring
    looks empty and every one of the 32768 records is out of reach. *)
Theorem tracer_buf_store_full_loses_all t pend pos track point flags info :
  tracks t [] pend → Z.of_nat (length pend) = BUF_STORE_LIMIT - 1 →
  ∃ t', tracer_buf_store_position true pos track point flags info t = (true, t') ∧
    tracer_buf_empty t' = true ∧ tracer_buf_read_next true t' = (-1, None, t').
Proof.
  intros (Hu & Hr & Hs & _) Hl. unfold tracer_buf_store_position. cbn [negb].
  destruct (tracer_buf_save _ _ _) as [b s']. eexists. split; [reflexivity|].
  cbn [length] in Hr, Hs. rewrite after_0 in Hr by done. rewrite Hs, after_S, Hr.
  assert (after (buf_last_undelivered t) (S (0 + length pend)) = buf_last_undelivered t) as ->.
  { unfold after. replace (buf_last_undelivered t + Z.of_nat (S (0 + length pend)))
      with (buf_last_undelivered t + 1 * BUF_STORE_LIMIT) by lia.
    rewrite Z_mod_plus_full. by apply Z.mod_small. }
  unfold tracer_buf_empty, tracer_buf_read_next. cbn [buf_read_ptr buf_save_ptr].
  by rewrite Z.eqb_refl.
Qed.

End laws.

(** ** Witnesses *)

Definition point_rec (track point flags : Z) : tracer_buf_t :=
  new_rec (replicate 22 0) track point flags 5.

Lemma point_rec_ok track point flags :
  in_u16 track → in_u16 point → in_u8 flags → rec_ok (point_rec track point flags).
Proof. intros. repeat split; cbn; unfold in_u16, in_u32, in_u8 in *; lia. Qed.

Definition erased_gps : storage := Storage true (λ _, 255).

Lemma erased_gps_load i : 0 ≤ i < BUF_STORE_LIMIT → tracer_buf_load i erased_gps = None.
Proof.
  intros Hi. rewrite load_spec by done. cbv zeta.
  assert (∀ a, byte erased_gps <$> seqZ a sizeof_tracer_buf = replicate 32 255) as ->.
  { intros a. apply list_eq. intros k. rewrite list_lookup_fmap.
    destruct (decide (k < 32)%nat) as [Hk|Hk].
    - rewrite lookup_seqZ_lt by (unfold sizeof_tracer_buf; lia). by rewrite lookup_replicate_2.
    - rewrite lookup_seqZ_ge by (unfold sizeof_tracer_buf; lia).
      symmetry. apply lookup_replicate_None. lia. }
  reflexivity.
Qed.

(** Three points of track 1, the first of them delivered. *)
Definition gps3 : storage :=
  (tracer_buf_save 2 (point_rec 1 3 2) (tracer_buf_save 1 (point_rec 1 2 2)
    (tracer_buf_save 0 (point_rec 1 1 3) erased_gps).2).2).2.
Definition gps3_rec (i : Z) : tracer_buf_t :=
  seal (point_rec 1 (i + 1) (if i =? 0 then 3 else 2)).

Lemma gps3_load i : 0 ≤ i < BUF_STORE_LIMIT →
  tracer_buf_load i gps3 = if i <? 3 then Some (gps3_rec i) else None.
Proof.
  intros Hi. unfold gps3.
  assert (∀ t p f, 0 ≤ t < 10 → 0 ≤ p < 10 → 0 ≤ f < 10 → rec_ok (point_rec t p f)) as Hok
    by (intros; apply point_rec_ok; unfold in_u16, in_u8; lia).
  destruct (decide (i = 2)) as [->|]; [rewrite load_save_eq; [done|done|apply Hok; lia]|].
  rewrite load_save_ne by (done || congruence).
  destruct (decide (i = 1)) as [->|]; [rewrite load_save_eq; [done|done|apply Hok; lia]|].
  rewrite load_save_ne by (done || congruence).
  destruct (decide (i = 0)) as [->|]; [rewrite load_save_eq; [done|done|apply Hok; lia]|].
  rewrite load_save_ne, erased_gps_load by (done || congruence).
  destruct (Z.ltb_spec i 3); [lia|done].
Qed.

Lemma gps3_lap : lap gps3 3 gps3_rec.
Proof.
  change BUF_STORE_LIMIT with 32768. split; [done|]. split; [|split].
  - intros j Hj. rewrite gps3_load by (change BUF_STORE_LIMIT with 32768; lia).
    by rewrite (proj2 (Z.ltb_lt _ _)) by lia.
  - intros i j _ _. done.
  - intros j b Hj. rewrite gps3_load by (change BUF_STORE_LIMIT with 32768 in *; lia).
    by rewrite (proj2 (Z.ltb_ge _ _)) by lia.
Qed.

Lemma gps3_backlog : backlog gps3 2 2.
Proof.
  intros t Ht. change BUF_STORE_LIMIT with 32768 in *.
  rewrite gps3_load by (by apply Z.mod_pos_bound).
  destruct (decide (t = 0)) as [->|]; [reflexivity|]. destruct (decide (t = 1)) as [->|]; [reflexivity|].
  destruct (decide (t = 2)) as [->|]; [reflexivity|].
  rewrite (proj2 (Z.ltb_ge ((2 - t) mod 32768) 3)) by (Z.div_mod_to_equations; lia).
  destruct (Z.ltb_spec t 2); [lia|done].
Qed.

Lemma tracer_buf_init_recovers_witness :
  tracer_buf_init true (TracerRing 0 0 0 gps3) = Ok (true, 1, 5, TracerRing 1 3 1 gps3).
Proof.
  refine (tracer_buf_init_recovers (TracerRing 0 0 0 gps3) 3 gps3_rec 2 gps3_lap _ gps3_backlog _); [lia|].
  change BUF_STORE_LIMIT with 32768. lia.
Defined.

Lemma tracer_buf_init_loses_only_record_witness :
  ∃ t', tracer_buf_init true (TracerRing 0 0 0 (tracer_buf_save 0 (point_rec 1 1 2) erased_gps).2)
          = Ok (true, 1, 0, t') ∧ tracer_buf_empty t' = true.
Proof.
  assert (rec_ok (point_rec 1 1 2)) as Hok by (apply point_rec_ok; unfold in_u16, in_u8; lia).
  destruct (tracer_buf_init_loses_only_record
    (TracerRing 0 0 0 (tracer_buf_save 0 (point_rec 1 1 2) erased_gps).2) (seal (point_rec 1 1 2)))
    as (t' & H1 & H2 & _).
  - by apply load_save_eq.
  - reflexivity.
  - intros i Hi. cbn [tr_storage]. change BUF_STORE_LIMIT with 32768 in Hi.
    rewrite load_save_ne by (done || (change BUF_STORE_LIMIT with 32768; lia)).
    apply erased_gps_load. change BUF_STORE_LIMIT with 32768. lia.
  - exists t'. exact (conj H1 H2).
Defined.

(** A flash in which every slot holds the same record. *)
Definition same_rec : tracer_buf_t := seal (point_rec 1 1 2).
Definition same_gps : storage :=
  Storage true (λ x, nth (Z.to_nat ((x - _ADDR_GPS) mod 32)) (tracer_bytes same_rec) 0).

Lemma same_gps_load i : 0 ≤ i < BUF_STORE_LIMIT → tracer_buf_load i same_gps = Some same_rec.
Proof.
  intros Hi. rewrite load_spec by done. cbv zeta.
  replace (byte same_gps <$> _) with (tracer_bytes same_rec); [vm_compute; reflexivity|].
  apply list_eq. intros k. rewrite list_lookup_fmap.
  destruct (decide (k < 32)%nat) as [Hk|Hk].
  - rewrite lookup_seqZ_lt by (unfold sizeof_tracer_buf; lia). cbn [fmap option_fmap option_map].
    unfold byte. cbn [chip same_gps flash_byte ideal_flash]. unfold SAVE_GRID_SIZE.
    replace ((_ADDR_GPS + i * 32 + Z.of_nat k - _ADDR_GPS) mod 32) with (Z.of_nat k)
      by (Z.div_mod_to_equations; lia).
    rewrite Nat2Z.id. destruct (lookup_lt_is_Some_2 (tracer_bytes same_rec) k) as [v Hv]; [done|].
    rewrite Hv. by erewrite nth_lookup_Some.
  - rewrite lookup_seqZ_ge by (unfold sizeof_tracer_buf; lia).
    apply lookup_ge_None. change (length (tracer_bytes same_rec)) with 32%nat. lia.
Qed.

Lemma same_gps_tracks u n m : 0 ≤ u < BUF_STORE_LIMIT → Z.of_nat (n + m) < BUF_STORE_LIMIT →
  tracks (TracerRing (after u n) (after u (n + m)) u same_gps)
    (replicate n same_rec) (replicate m same_rec).
Proof.
  intros Hu Hn. unfold tracks. rewrite !length_replicate. cbn.
  split; [done|]. split; [done|]. split; [done|]. split; [done|].
  rewrite <- replicate_add. intros k r [-> _]%lookup_replicate. split.
  - apply same_gps_load, after_range.
  - apply point_rec_ok; unfold in_u16, in_u8; lia.
Qed.

Lemma tracer_buf_delivered_all_marks_witness :
  ∃ t', tracer_buf_delivered_all true (TracerRing 1 2 32767 same_gps) = Ok (true, t') ∧
    tracer_buf_load 32767 (tr_storage t') = Some (confirmed same_rec).
Proof.
  destruct (tracer_buf_delivered_all_marks (TracerRing 1 2 32767 same_gps)
    (replicate 2 same_rec) (replicate 1 same_rec)) as (t' & H1 & _ & H2 & _).
  - exact (same_gps_tracks 32767 2 1 ltac:(done) ltac:(done)).
  - exists t'. split; [exact H1|]. exact (H2 0%nat same_rec eq_refl).
Defined.

Lemma fresh_ring_tracks : tracks (TracerRing 0 0 0 erased_gps) [] [].
Proof. unfold tracks. do 4 (split; [done|]). intros j x Hx. discriminate Hx. Qed.


Lemma tracer_buf_store_full_loses_all_witness :
  ∃ t', tracer_buf_store_position true (replicate 22 0) 1 1 2 5 (TracerRing 7 6 7 same_gps) = (true, t') ∧
    tracer_buf_empty t' = true.
Proof.
  assert (∃ n, Z.of_nat n = 32767) as [n Hn] by (exists (Z.to_nat 32767); by rewrite Z2Nat.id).
  destruct (tracer_buf_store_full_loses_all (TracerRing 7 6 7 same_gps)
    (replicate n same_rec) (replicate 22 0) 1 1 2 5) as (t' & H1 & H2 & _).
  - assert (after 7 (0 + n) = 6) as E.
    { unfold after. rewrite Nat2Z.inj_add, Hn. reflexivity. }
    rewrite <- E. apply (same_gps_tracks 7 0 n); [done|]. rewrite Nat2Z.inj_add, Hn. reflexivity.
  - rewrite length_replicate, Hn. reflexivity.
  - exists t'. exact (conj H1 H2).
Defined.
