(* ===== verification/Ihex.v ===== *)
(** * Intel HEX (bootloader/ihex.c, ut/common/ihex.c)

    The text form in which a firmware image travels: the host tools write it
    ([ihex_flush]) and read it back ([host_ihex_parse], fed character by
    character), the boot loader decodes it in place, line by line. *)

From S2P Require Import Prelude CText.

(** ** Decoding *)

(** src/bootloader/ihex.c:17-27 (gethex) *)
Definition hex_val (ch : Z) : option Z :=
  let ch := if (97 <=? ch) && (ch <=? 102) then ch - 32 else ch in
  if (48 <=? ch) && (ch <=? 57) then Some (ch - 48)
  else if (65 <=? ch) && (ch <=? 70) then Some (ch - 65 + 10)
  else None.

(** The byte read, the position after it and the running sum; at a character
    that is no digit: 0, with the position on that character. *)
(** src/bootloader/ihex.c:8-32 (gethex) *)
Definition gethex (buf : list Z) (pos sum : Z) : outcome (Z * Z * Z) :=
  ch ← buf.[pos];
  match hex_val ch with
  | None => Ok (0, pos, sum)
  | Some h =>
      ch ← buf.[pos + 1];
      match hex_val ch with
      | None => Ok (0, pos + 1, sum)
      | Some l => let d := u8 (u8 (Z.shiftl h 4) + l) in Ok (d, pos + 2, u8 (sum + d))
      end
  end.

(** The data bytes replace the text from its start, [n] of them from index [k]. *)
(** src/bootloader/ihex.c:63-70 (ihex_parse) *)
Fixpoint decode_data (n : nat) (k pos sum : Z) (buf : list Z) : outcome (Z * Z * list Z) :=
  match n with
  | O => Ok (pos, sum, buf)
  | S n =>
      '(d, pos, sum) ← gethex buf pos sum;
      buf ← buf.[k <- d];
      decode_data n (k + 1) pos sum buf
  end.

(** A record's type, address, data length and the text buffer after decoding;
    [None] where the parser returns false. *)
(** src/bootloader/ihex.c:42-78 (ihex_parse) *)
Definition ihex_line (buf : list Z) : outcome (option (Z * Z * Z * list Z)) :=
  ch ← buf.[0];
  if negb (ch =? 58) then Ok None
  else
    s ← c_string (drop 1 buf);
    let l := u8 (Z.of_nat (length s)) in
    if l <? 8 then Ok None
    else
      '(llen, pos, sum) ← gethex buf 1 0;
      '(a1, pos, sum) ← gethex buf pos sum;
      '(a0, pos, sum) ← gethex buf pos sum;
      let addr := Z.lor (Z.shiftl a1 8) a0 in
      '(type, pos, sum) ← gethex buf pos sum;
      if l - 8 <? Z.shiftl llen 1 then Ok None
      else
        '(pos, sum, buf) ← decode_data (Z.to_nat llen) 0 pos sum buf;
        '(_, _, sum) ← gethex buf pos sum;
        if negb (sum =? 0) then Ok None
        else Ok (Some (type, addr, llen, buf)).

Section parse.
Context {A : Type}.
(** Where the data goes, and the flush of the cached sector. *)
Variable write : Z → list Z → A → outcome (bool * A).
Variable flush : A → A.

(** [hi] is the static [addr_hiword]; the buffer comes back decoded. *)
(** src/bootloader/ihex.c:35-116 (ihex_parse) *)
Definition ihex_parse (buf : list Z) (hi : Z) (st : A) : outcome (bool * list Z * Z * A) :=
  r ← ihex_line buf;
  match r with
  | None => Ok (false, buf, hi, st)
  | Some (type, addr, llen, buf) =>
      if type =? 0 then
        '(ok, st) ← write (u32 (hi + addr)) (take (Z.to_nat llen) buf) st;
        Ok (ok, buf, hi, st)
      else if type =? 1 then Ok (true, buf, 0, flush st)
      else if type =? 2 then
        d0 ← buf.[0]; d1 ← buf.[1];
        Ok (true, buf, u32 (Z.shiftl (u32 (u32 (Z.shiftl d0 8) + d1)) 4), st)
      else if type =? 4 then
        d0 ← buf.[0]; d1 ← buf.[1];
        Ok (true, buf, u32 (Z.shiftl (u32 (u32 (Z.shiftl d0 8) + d1)) 16), st)
      else Ok (false, buf, hi, st)
  end.

(** The host's parser: a callback takes the data, and a start address record is
    accepted. *)
(** src/ut/common/ihex.c:101-182 (ihex_parse) *)
Definition host_ihex_parse (buf : list Z) (hi : Z) (st : A) : outcome (bool * list Z * Z * A) :=
  r ← ihex_line buf;
  match r with
  | None => Ok (false, buf, hi, st)
  | Some (type, addr, llen, buf) =>
      if type =? 0 then
        '(ok, st) ← write (u32 (hi + addr)) (take (Z.to_nat llen) buf) st;
        Ok (ok, buf, hi, st)
      else if type =? 1 then Ok (true, buf, 0, st)
      else if type =? 2 then
        d0 ← buf.[0]; d1 ← buf.[1];
        Ok (true, buf, u32 (Z.shiftl (u32 (u32 (Z.shiftl d0 8) + d1)) 4), st)
      else if type =? 4 then
        d0 ← buf.[0]; d1 ← buf.[1];
        Ok (true, buf, u32 (Z.shiftl (u32 (u32 (Z.shiftl d0 8) + d1)) 16), st)
      else if type =? 5 then Ok (true, buf, hi, st)
      else Ok (false, buf, hi, st)
  end.

(** One character of the host tools' input: [ihex_buf] and [rx_len] are
    static. *)
(** src/ut/app_container/main.c:69-94 (_rx_feed) *)
Definition _rx_feed (ch : Z) (x : list Z * Z * Z * A) : outcome (list Z * Z * Z * A) :=
  let '(ihex_buf, rx_len, hi, st) := x in
  if ch =? 58 then b ← ihex_buf.[0 <- ch]; Ok (b, 1, hi, st)
  else if (256 <=? rx_len) || (rx_len =? 0) then Ok (ihex_buf, rx_len, hi, st)
  else
    let ch := if (ch =? 13) || (ch =? 10) then 0 else ch in
    b ← ihex_buf.[rx_len <- ch];
    let rx_len := rx_len + 1 in
    if ch =? 0 then
      '(_, b, hi, st) ← host_ihex_parse b hi st;
      Ok (b, 0, hi, st)
    else Ok (b, rx_len, hi, st).

Fixpoint rx_feed_all (text : list Z) (x : list Z * Z * Z * A) : outcome (list Z * Z * Z * A) :=
  match text with
  | [] => Ok x
  | ch :: text => x ← _rx_feed ch x; rx_feed_all text x
  end.

End parse.

(** ** Encoding *)

Definition NL : list Z := [13; 10].

(** [%02X] and [%04X]: at least that many digits. *)
Definition fmt_X (width : nat) (v : Z) : list Z := hex_fixed (Nat.max width (hex_len 7 v)) v.

(** The text printed and the new [hi_word]. *)
(** src/ut/common/ihex.c:8-22 (_update_addr) *)
Definition _update_addr (addr hi_word : Z) : list Z * Z :=
  if Z.shiftr addr 16 =? hi_word then ([], hi_word)
  else
    let hi_word := Z.shiftr addr 16 in
    let sum := u8 (u8 (u8 (2 + 4) + Z.land hi_word 255) + Z.land (Z.shiftr hi_word 8) 255) in
    (str ":02000004" ++ fmt_X 4 hi_word ++ fmt_X 2 (Z.land (256 - sum) 255) ++ NL, hi_word).

(** src/ut/common/ihex.c:60-65 (ihex_flush) *)
Fixpoint flush_bytes (data : list Z) (sum : Z) : list Z * Z :=
  match data with
  | [] => ([], sum)
  | b :: data => let '(t, sum) := flush_bytes data (u8 (sum + b)) in (fmt_X 2 b ++ t, sum)
  end.

(** One round of the loop: at most sixteen bytes. *)
(** src/ut/common/ihex.c:48-69 (ihex_flush) *)
Definition flush_line (addr hi_word : Z) (data : list Z) : list Z * Z :=
  let l := Z.of_nat (length data) in
  let '(pre, hi_word) := _update_addr addr hi_word in
  let sum := u8 (u8 (l + Z.land addr 255) + Z.land (Z.shiftr addr 8) 255) in
  let '(t, sum) := flush_bytes data sum in
  (pre ++ str ":" ++ fmt_X 2 l ++ fmt_X 4 (Z.land addr 65535) ++ str "00" ++ t
     ++ fmt_X 2 (Z.land (256 - sum) 255) ++ NL, hi_word).

(** src/ut/common/ihex.c:46-72 (ihex_flush) *)
Fixpoint flush_loop (fuel : nat) (addr hi_word : Z) (data : list Z) : outcome (list Z * Z) :=
  match data with
  | [] => Ok ([], hi_word)
  | _ =>
      match fuel with
      | O => Err FAssert
      | S fuel =>
          let '(t, hi_word) := flush_line addr hi_word (take 16 data) in
          let l := Z.of_nat (length (take 16 data)) in
          '(t', hi_word) ← flush_loop fuel (u32 (addr + l)) hi_word (drop 16 data);
          Ok (t ++ t', hi_word)
      end
  end.

(** One round per sixteen bytes at least; the length is fuel enough. *)
(** src/ut/common/ihex.c:35-73 (ihex_flush) *)
Definition ihex_flush (addr hi_word : Z) (data : list Z) : outcome (list Z * Z) :=
  flush_loop (length data) addr hi_word data.

(** ** Hexadecimal bytes *)

Definition hex2 (b : Z) : list Z := [hex_digit (b / 16); hex_digit (b mod 16)].
Fixpoint hexs (bs : list Z) : list Z :=
  match bs with [] => [] | b :: bs => hex2 b ++ hexs bs end.
Definition sum_bytes (bs : list Z) : Z := foldr Z.add 0 bs.

Lemma hexs_app a b : hexs (a ++ b) = hexs a ++ hexs b.
Proof. induction a as [|x a IH]; [done|]. cbn [app hexs]. by rewrite IH, <- app_assoc. Qed.

Lemma hexs_length bs : length (hexs bs) = (2 * length bs)%nat.
Proof. induction bs as [|b bs IH]; [done|]. cbn [hexs]. rewrite length_app, IH. cbn. lia. Qed.

Lemma hex_digit_bound b : in_u8 b → 0 ≤ b / 16 < 16 ∧ 0 ≤ b mod 16 < 16.
Proof. unfold in_u8. intros. Z.div_mod_to_equations. lia. Qed.

Lemma hex_val_digit v : 0 ≤ v < 16 → hex_val (hex_digit v) = Some v.
Proof.
  intros Hv. unfold hex_val. pose proof (hex_digit_range v Hv) as [Hr _].
  rewrite (proj2 (Z.leb_gt 97 _)) by lia. cbn [andb].
  rewrite (proj2 (Z.leb_le 48 _)) by lia. cbn [andb]. unfold hex_digit in *.
  destruct (Z.ltb_spec v 10).
  - rewrite (proj2 (Z.leb_le _ 57)) by lia. f_equal. lia.
  - rewrite (proj2 (Z.leb_gt _ 57)), (proj2 (Z.leb_le 65 _)), (proj2 (Z.leb_le _ 70)) by lia.
    cbn. f_equal. lia.
Qed.

Lemma hexs_plain bs : bytes bs → Forall (λ c, c ≠ 0 ∧ c ≠ 58 ∧ c ≠ 13 ∧ c ≠ 10) (hexs bs).
Proof.
  induction 1 as [|b bs Hb Hbs IH]; [constructor|]. cbn [hexs].
  destruct (hex_digit_bound b Hb) as [H1 H2].
  pose proof (hex_digit_range _ H1). pose proof (hex_digit_range _ H2).
  repeat apply Forall_cons_2; [lia|lia|done].
Qed.

Lemma arr_get_app {A} (w : list A) x t : (w ++ x :: t).[Z.of_nat (length w)] = Ok x.
Proof. apply arr_get_nat. by apply list_lookup_middle. Qed.

Lemma gethex_at w b post sum : in_u8 b →
  gethex (w ++ hex2 b ++ post) (Z.of_nat (length w)) sum
    = Ok (b, Z.of_nat (length w) + 2, u8 (sum + b)).
Proof.
  intros Hb. destruct (hex_digit_bound b Hb) as [H1 H2]. unfold gethex, hex2. cbn [app].
  rewrite arr_get_app. cbn [mbind outcome_bind]. rewrite hex_val_digit by done.
  change (w ++ hex_digit (b / 16) :: hex_digit (b mod 16) :: post)
    with (w ++ [hex_digit (b / 16)] ++ hex_digit (b mod 16) :: post).
  rewrite app_assoc.
  replace (Z.of_nat (length w) + 1) with (Z.of_nat (length (w ++ [hex_digit (b / 16)])))
    by (rewrite length_app; cbn; lia).
  rewrite arr_get_app. cbn [mbind outcome_bind]. rewrite hex_val_digit by done. cbv zeta.
  replace (u8 (u8 (Z.shiftl (b / 16) 4) + b mod 16)) with b; [done|].
  rewrite Z.shiftl_mul_pow2 by lia. change (2 ^ 4) with 16. unfold in_u8 in Hb.
  rewrite (u8_small (b / 16 * 16)) by (unfold in_u8; Z.div_mod_to_equations; lia).
  rewrite u8_small by (unfold in_u8; Z.div_mod_to_equations; lia). Z.div_mod_to_equations. lia.
Qed.

(** The same at the position after a prefix given by its pieces. *)
Lemma gethex_pos w b post p sum : in_u8 b → p = Z.of_nat (length w) →
  gethex (w ++ hex2 b ++ post) p sum = Ok (b, p + 2, u8 (sum + b)).
Proof. intros Hb ->. by apply gethex_at. Qed.

Lemma arr_set_app {A} (w : list A) x y t : (w ++ x :: t).[Z.of_nat (length w) <- y] = Ok (w ++ y :: t).
Proof.
  rewrite arr_set_Ok by (rewrite length_app; cbn; lia). f_equal. rewrite Nat2Z.id.
  rewrite <- (Nat.add_0_r (length w)) at 1. by rewrite insert_app_r.
Qed.

(** Decoding in place: the write index stays behind the read position, so every
    byte is read before it is overwritten. *)
Lemma decode_data_hexs bs w g post sum :
  bytes bs → g ≠ [] → in_u8 sum →
  ∃ g', decode_data (length bs) (Z.of_nat (length w)) (Z.of_nat (length (w ++ g))) sum
          (w ++ g ++ hexs bs ++ post)
    = Ok (Z.of_nat (length (w ++ g)) + 2 * Z.of_nat (length bs), u8 (sum + sum_bytes bs),
          w ++ bs ++ g' ++ post) ∧
    length (bs ++ g') = length (g ++ hexs bs).
Proof.
  intros Hbs. revert w g sum. induction Hbs as [|b bs Hb Hbs IH]; intros w g sum Hg Hs.
  - exists g. cbn. rewrite !Z.add_0_r, u8_small, app_nil_r by done. done.
  - destruct g as [|x g]; [done|]. cbn [length decode_data hexs].
    replace (w ++ (x :: g) ++ (hex2 b ++ hexs bs) ++ post)
      with ((w ++ x :: g) ++ hex2 b ++ hexs bs ++ post) by (by rewrite <- !app_assoc).
    rewrite gethex_at by done. cbn [mbind outcome_bind].
    replace ((w ++ x :: g) ++ hex2 b ++ hexs bs ++ post)
      with (w ++ x :: (g ++ hex2 b) ++ hexs bs ++ post) by (by rewrite <- !app_assoc).
    rewrite arr_set_app. cbn [mbind outcome_bind].
    destruct (IH (w ++ [b]) (g ++ hex2 b) (u8 (sum + b))) as (g' & E & Hl);
      [by destruct g|apply u8_range|].
    replace (Z.of_nat (length w) + 1) with (Z.of_nat (length (w ++ [b])))
      by (rewrite length_app; cbn; lia).
    replace (Z.of_nat (length (w ++ x :: g)) + 2)
      with (Z.of_nat (length ((w ++ [b]) ++ g ++ hex2 b))) by (rewrite !length_app; cbn; lia).
    replace (w ++ b :: (g ++ hex2 b) ++ hexs bs ++ post)
      with ((w ++ [b]) ++ (g ++ hex2 b) ++ hexs bs ++ post) by (by rewrite <- !app_assoc).
    rewrite E.
    exists g'. split.
    + f_equal. f_equal; [|by rewrite <- app_assoc]. f_equal.
      * rewrite !length_app. cbn. lia.
      * cbn [sum_bytes foldr]. fold (sum_bytes bs). unfold u8. rewrite Zplus_mod_idemp_l. f_equal. lia.
    + rewrite !length_app, hexs_length in *. cbn [length app hex2] in *. cbn. lia.
Qed.

(** ** Records *)


Lemma lor_bytes a b : in_u8 b → Z.lor (Z.shiftl a 8) b = a * 256 + b.
Proof.
  intros Hb. unfold in_u8 in Hb.
  assert (Z.land (Z.shiftl a 8) b = 0) as H0.
  { apply Z.bits_inj'. intros n Hn. rewrite Z.land_spec, Z.bits_0.
    destruct (decide (n < 8)) as [Hlt|Hge]; [rewrite Z.shiftl_spec_low by lia; done|].
    assert (b mod 2 ^ 8 = b) as E by (apply Z.mod_small; change (2 ^ 8) with 256; lia).
    rewrite <- E, Z.mod_pow2_bits_high by lia. apply andb_false_r. }
  pose proof (Z.add_lor_land (Z.shiftl a 8) b) as E.
  assert (Z.shiftl a 8 = a * 256) as E' by (by rewrite Z.shiftl_mul_pow2).
  rewrite H0, E' in E. rewrite E'. lia.
Qed.

(** The bytes of a record before the checksum, and its text. *)
Definition rec_head (type addr : Z) (bs : list Z) : list Z :=
  [Z.of_nat (length bs); addr / 256; addr mod 256; type].
Definition rec_chsum (type addr : Z) (bs : list Z) : Z :=
  u8 (- (sum_bytes (rec_head type addr bs) + sum_bytes bs)).
Definition rec_text (type addr : Z) (bs : list Z) : list Z :=
  58 :: hexs (rec_head type addr bs) ++ hexs bs ++ hex2 (rec_chsum type addr bs).

Lemma rec_text_plain type addr bs :
  bytes (rec_head type addr bs) → bytes bs →
  Forall (λ c, c ≠ 0 ∧ c ≠ 58 ∧ c ≠ 13 ∧ c ≠ 10) (drop 1 (rec_text type addr bs)).
Proof.
  intros Hh Hb. change (drop 1 (rec_text type addr bs))
    with (hexs (rec_head type addr bs) ++ hexs bs ++ hex2 (rec_chsum type addr bs)).
  rewrite !Forall_app. split; [by apply hexs_plain|].
  split; [by apply hexs_plain|]. apply (hexs_plain [rec_chsum type addr bs]).
  constructor; [apply u8_range|constructor].
Qed.

(** The text of a record whose checksum digits are [sfx]. *)
Definition line_text (type addr : Z) (bs sfx : list Z) : list Z :=
  58 :: hexs (rec_head type addr bs) ++ hexs bs ++ sfx.
Definition line_sum (type addr : Z) (bs : list Z) : Z :=
  u8 (sum_bytes (rec_head type addr bs) + sum_bytes bs).

Definition plain (l : list Z) : Prop := Forall (λ c, c ≠ 0 ∧ c ≠ 58 ∧ c ≠ 13 ∧ c ≠ 10) l.

Lemma line_text_plain type addr bs sfx :
  bytes (rec_head type addr bs) → bytes bs → plain sfx →
  plain (hexs (rec_head type addr bs) ++ hexs bs ++ sfx).
Proof.
  intros Hh Hb Hs. unfold plain. rewrite !Forall_app. split; [by apply hexs_plain|].
  split; [by apply hexs_plain|done].
Qed.

Lemma rec_head_bytes type addr bs :
  in_u8 type → in_u16 addr → (length bs <= 255)%nat → bytes (rec_head type addr bs).
Proof.
  unfold in_u16. intros Ht Ha Hl. repeat apply Forall_cons_2; try done; unfold in_u8;
    Z.div_mod_to_equations; lia.
Qed.

(** Decoding up to the checksum; [sum'] is the sum after it was read. *)
Lemma ihex_line_text type addr bs sfx rest sum' :
  in_u8 type → in_u16 addr → bytes bs → plain sfx → (2 * length bs + length sfx <= 247)%nat →
  (∀ w, ∃ d p, gethex (w ++ sfx ++ 0 :: rest) (Z.of_nat (length w)) (line_sum type addr bs)
    = Ok (d, p, sum')) →
  ∃ t, ihex_line (line_text type addr bs sfx ++ 0 :: rest)
    = Ok (if sum' =? 0 then Some (type, addr, Z.of_nat (length bs), bs ++ t) else None) ∧
  length (bs ++ t) = length (line_text type addr bs sfx ++ 0 :: rest).
Proof.
  intros Ht Ha Hb Hsfx Hl Hck.
  pose proof (rec_head_bytes type addr bs Ht Ha ltac:(lia)) as Hh.
  pose proof (line_text_plain type addr bs sfx Hh Hb Hsfx) as Hp.
  set (body := hexs (rec_head type addr bs) ++ hexs bs ++ sfx) in *.
  assert (length body = 8 + 2 * length bs + length sfx)%nat as Hlen.
  { unfold body. rewrite !length_app, !hexs_length. cbn. lia. }
  unfold ihex_line. change (line_text type addr bs sfx ++ 0 :: rest) with (58 :: (body ++ 0 :: rest)).
  change ((58 :: (body ++ 0 :: rest)).[0]) with (Ok 58).
  cbn [mbind outcome_bind Z.eqb Pos.eqb negb].
  change (drop 1 (58 :: (body ++ 0 :: rest))) with (body ++ 0 :: rest).
  rewrite c_string_app by (eapply Forall_impl; [exact Hp|]; cbn; tauto). cbn [mbind outcome_bind].
  rewrite Hlen, u8_small by (unfold in_u8; lia). cbv zeta.
  rewrite (proj2 (Z.ltb_ge _ 8)) by lia.
  (* the four header bytes *)
  apply Forall_cons in Hh as [H1 Hh]. apply Forall_cons in Hh as [H2 Hh].
  apply Forall_cons in Hh as [H3 Hh]. apply Forall_cons in Hh as [H4 _].
  set (n := Z.of_nat (length bs)) in *. set (tail := hexs bs ++ sfx ++ 0 :: rest).
  assert (58 :: (body ++ 0 :: rest) =
    [58] ++ hex2 n ++ hex2 (addr / 256) ++ hex2 (addr mod 256) ++ hex2 type ++ tail) as ->.
  { unfold body, tail. cbn [rec_head hexs]. cbn [app]. rewrite <- !app_assoc. done. }
  rewrite (gethex_pos [58]) by done. cbn [mbind outcome_bind].
  rewrite (app_assoc [58]), (gethex_pos ([58] ++ hex2 n)) by done. cbn [mbind outcome_bind].
  rewrite (app_assoc ([58] ++ hex2 n)), (gethex_pos (([58] ++ hex2 n) ++ hex2 (addr / 256))) by done.
  cbn [mbind outcome_bind].
  rewrite (app_assoc (([58] ++ hex2 n) ++ hex2 (addr / 256))),
    (gethex_pos ((([58] ++ hex2 n) ++ hex2 (addr / 256)) ++ hex2 (addr mod 256))) by done.
  cbn [mbind outcome_bind]. rewrite lor_bytes by done.
  rewrite Z.shiftl_mul_pow2 by lia. change (2 ^ 1) with 2.
  rewrite (proj2 (Z.ltb_ge _ (n * 2))) by lia.
  rewrite (app_assoc ((([58] ++ hex2 n) ++ hex2 (addr / 256)) ++ hex2 (addr mod 256))).
  set (g := ((([58] ++ hex2 n) ++ hex2 (addr / 256)) ++ hex2 (addr mod 256)) ++ hex2 type).
  replace (addr / 256 * 256 + addr mod 256) with addr by (Z.div_mod_to_equations; lia).
  replace (Z.to_nat n) with (length bs) by lia. unfold tail.
  destruct (decode_data_hexs bs [] g (sfx ++ 0 :: rest)
    (u8 (u8 (u8 (u8 (0 + n) + addr / 256) + addr mod 256) + type)) Hb) as (t & E & Ht');
    [done|apply u8_range|].
  cbn [app length] in E. change (Z.of_nat 0) with 0 in E.
  change (Z.of_nat (length g)) with 9 in E. fold n in E. change (1 + 2 + 2 + 2 + 2) with 9.
  rewrite E. cbn [mbind outcome_bind]. rewrite app_assoc.
  assert (9 + 2 * n = Z.of_nat (length (bs ++ t))) as ->.
  { rewrite Ht', length_app, hexs_length. change (length g) with 9%nat. lia. }
  assert (u8 (u8 (u8 (u8 (u8 (0 + n) + addr / 256) + addr mod 256) + type) + sum_bytes bs)
    = line_sum type addr bs) as ->.
  { unfold line_sum, u8. cbn [rec_head sum_bytes foldr]. fold (sum_bytes bs). fold n.
    Z.div_mod_to_equations. lia. }
  destruct (Hck (bs ++ t)) as (d & p & ->). cbn [mbind outcome_bind].
  exists (t ++ sfx ++ 0 :: rest). split.
  - rewrite <- app_assoc. by destruct (sum' =? 0).
  - rewrite app_assoc, length_app, Ht'. unfold tail, g. rewrite !length_app, !hexs_length. cbn. lia.
Qed.

(** A record of at most 122 data bytes (a line whose length fits a byte) is
    decoded, its data in front of the buffer. *)
Lemma ihex_line_record type addr bs rest :
  in_u8 type → in_u16 addr → bytes bs → (length bs <= 122)%nat →
  ∃ t, ihex_line (rec_text type addr bs ++ 0 :: rest)
    = Ok (Some (type, addr, Z.of_nat (length bs), bs ++ t)) ∧
  length (bs ++ t) = length (rec_text type addr bs ++ 0 :: rest).
Proof.
  intros Ht Ha Hb Hl. set (k := rec_chsum type addr bs).
  assert (in_u8 k) as Hk by apply u8_range.
  apply (ihex_line_text type addr bs (hex2 k) rest 0 Ht Ha Hb); [|cbn; lia|].
  - apply (hexs_plain [k]). by constructor.
  - intros w. exists k, (Z.of_nat (length w) + 2). rewrite gethex_at by done. do 2 f_equal.
    subst k. unfold rec_chsum, line_sum, u8. Z.div_mod_to_equations. lia.
Qed.

(** The checksum decides: a well-formed line is decoded exactly
    when its bytes and the checksum byte add up to 0 modulo 256.  A line cut off
    before the checksum passes the length test and is still decoded when the
    remaining bytes happen to add up to 0. *)
Theorem ihex_line_checksum type addr bs rest :
  in_u8 type → in_u16 addr → bytes bs → (length bs <= 122)%nat →
  (∀ k, in_u8 k → ∃ t,
     ihex_line (line_text type addr bs (hex2 k) ++ 0 :: rest)
       = Ok (if u8 (line_sum type addr bs + k) =? 0
             then Some (type, addr, Z.of_nat (length bs), bs ++ t) else None)) ∧
  ∃ t, ihex_line (line_text type addr bs [] ++ 0 :: rest)
    = Ok (if line_sum type addr bs =? 0
          then Some (type, addr, Z.of_nat (length bs), bs ++ t) else None).
Proof.
  intros Ht Ha Hb Hl. split.
  - intros k Hk.
    destruct (ihex_line_text type addr bs (hex2 k) rest (u8 (line_sum type addr bs + k)) Ht Ha Hb)
      as (t & E & _); [|cbn; lia| |by exists t].
    + apply (hexs_plain [k]). by constructor.
    + intros w. exists k, (Z.of_nat (length w) + 2). by rewrite gethex_at.
  - destruct (ihex_line_text type addr bs [] rest (line_sum type addr bs) Ht Ha Hb)
      as (t & E & _); [constructor|cbn; lia| |by exists t].
    intros w. exists 0, (Z.of_nat (length w)). unfold gethex. cbn [app].
    by rewrite arr_get_app.
Qed.

(** ** What the encoder prints *)

Lemma hex_len_le n f v : 0 ≤ v < 16 ^ Z.of_nat n → (0 < n)%nat → (hex_len f v <= n)%nat.
Proof.
  revert n v. induction f as [|f IH]; intros n v Hv Hn; cbn [hex_len]; [lia|].
  destruct (Z.ltb_spec v 16); [lia|]. destruct n as [|n]; [lia|].
  rewrite Nat2Z.inj_succ, Z.pow_succ_r in Hv by lia.
  assert (n ≠ 0)%nat by (intros ->; change (16 ^ Z.of_nat 0) with 1 in Hv; lia).
  specialize (IH n (v / 16)). Z.div_mod_to_equations. lia.
Qed.

Lemma fmt_X_2 b : in_u8 b → fmt_X 2 b = hex2 b.
Proof.
  intros Hb. unfold fmt_X. pose proof (hex_len_le 2 7 b Hb ltac:(lia)).
  rewrite Nat.max_l by lia. unfold hex2. cbn [hex_fixed app].
  destruct (hex_digit_bound b Hb). by rewrite (Z.mod_small (b / 16)).
Qed.

Lemma fmt_X_4 v : in_u16 v → fmt_X 4 v = hexs [v / 256; v mod 256].
Proof.
  intros Hv. unfold fmt_X. pose proof (hex_len_le 4 7 v Hv ltac:(lia)).
  rewrite Nat.max_l by lia. unfold in_u16 in Hv. cbn [hexs hex2 hex_fixed app].
  repeat (apply (f_equal2 cons); [apply (f_equal hex_digit); Z.div_mod_to_equations; lia|]). done.
Qed.

Lemma land_255 x : Z.land x 255 = x mod 256.
Proof. apply (Z.land_ones x 8). lia. Qed.

Lemma flush_bytes_spec data sum : bytes data → in_u8 sum →
  flush_bytes data sum = (hexs data, u8 (sum + sum_bytes data)).
Proof.
  intros Hd. revert sum. induction Hd as [|b data Hb Hd IH]; intros sum Hs; cbn [flush_bytes].
  - cbn. by rewrite Z.add_0_r, u8_small.
  - rewrite IH by apply u8_range. rewrite fmt_X_2 by done. cbn [hexs sum_bytes foldr].
    fold (sum_bytes data). f_equal. unfold u8. rewrite Zplus_mod_idemp_l. f_equal. lia.
Qed.

(** The lines one round of the loop prints. *)
Definition hi_lines (addr hi_word : Z) : list (list Z) :=
  if addr / 65536 =? hi_word then []
  else [rec_text 4 0 [addr / 65536 / 256; (addr / 65536) mod 256]].
Definition round_lines (addr hi_word : Z) (data : list Z) : list (list Z) :=
  hi_lines addr hi_word ++ [rec_text 0 (addr mod 65536) data].
Definition text_of (lines : list (list Z)) : list Z := concat ((λ l, l ++ NL) <$> lines).

Lemma text_of_1 l : text_of [l] = l ++ NL.
Proof. unfold text_of. cbn. by rewrite app_nil_r. Qed.

Lemma text_of_app a b : text_of (a ++ b) = text_of a ++ text_of b.
Proof. unfold text_of. by rewrite fmap_app, concat_app. Qed.

Lemma _update_addr_spec addr hi_word : in_u32 addr →
  _update_addr addr hi_word = (text_of (hi_lines addr hi_word), addr / 65536).
Proof.
  intros Ha. unfold in_u32 in Ha. unfold _update_addr, hi_lines.
  rewrite Z.shiftr_div_pow2 by lia. change (2 ^ 16) with 65536. set (h := addr / 65536).
  assert (in_u16 h) as Hh by (subst h; unfold in_u16; Z.div_mod_to_equations; lia).
  destruct (Z.eqb_spec h hi_word) as [->|_]; [done|]. f_equal. cbv zeta.
  rewrite fmt_X_4 by done. rewrite Z.shiftr_div_pow2 by lia. change (2 ^ 8) with 256.
  rewrite !land_255, fmt_X_2 by (apply Z.mod_pos_bound; lia).
  unfold text_of. cbn [fmap list_fmap concat]. rewrite app_nil_r.
  unfold rec_text, rec_chsum, rec_head. change (str ":02000004") with (58 :: hexs [2; 0; 0; 4]).
  cbn [length]. change (Z.of_nat 2) with 2. change (0 / 256) with 0. change (0 mod 256) with 0.
  cbn [app]. f_equal. rewrite <- !app_assoc. do 2 f_equal. f_equal. f_equal.
  unfold u8. cbn [sum_bytes foldr]. unfold in_u16 in Hh. Z.div_mod_to_equations. lia.
Qed.

Lemma flush_line_spec addr hi_word data :
  in_u32 addr → bytes data → (length data <= 16)%nat →
  flush_line addr hi_word data = (text_of (round_lines addr hi_word data), addr / 65536).
Proof.
  intros Ha Hd Hl. unfold flush_line. rewrite _update_addr_spec by done. cbv zeta.
  rewrite flush_bytes_spec by (done || apply u8_range). unfold in_u32 in Ha.
  unfold round_lines. rewrite text_of_app. f_equal. f_equal.
  rewrite fmt_X_2 by (unfold in_u8; lia).
  change (Z.land addr 65535) with (Z.land addr (Z.ones 16)). rewrite Z.land_ones by lia.
  change (2 ^ 16) with 65536.
  rewrite fmt_X_4 by (apply Z.mod_pos_bound; lia).
  rewrite Z.shiftr_div_pow2 by lia. change (2 ^ 8) with 256.
  rewrite !land_255, fmt_X_2 by (apply Z.mod_pos_bound; lia).
  unfold text_of. cbn [fmap list_fmap concat]. rewrite app_nil_r.
  unfold rec_text. change (str ":") with [58]. change (str "00") with (hex2 0).
  replace ((256 - _) mod 256) with (rec_chsum 0 (addr mod 65536) data).
  - cbn [hexs rec_head app]. rewrite <- !app_assoc. done.
  - unfold rec_chsum, rec_head, u8. cbn [sum_bytes foldr]. fold (sum_bytes data).
    Z.div_mod_to_equations. lia.
Qed.

(** The whole output, as lines, and the pieces of data they carry. *)
Fixpoint flush_lines (fuel : nat) (addr hi_word : Z) (data : list Z) : list (list Z) :=
  match fuel, data with
  | S fuel, _ :: _ =>
      round_lines addr hi_word (take 16 data)
        ++ flush_lines fuel (addr + 16) (addr / 65536) (drop 16 data)
  | _, _ => []
  end.
Fixpoint chunks (fuel : nat) (addr : Z) (data : list Z) : list (Z * list Z) :=
  match fuel, data with
  | S fuel, _ :: _ => (addr, take 16 data) :: chunks fuel (addr + 16) (drop 16 data)
  | _, _ => []
  end.
(** [hi_word] after them. *)
Definition last_hi (addr hi_word : Z) (data : list Z) : Z :=
  match data with
  | [] => hi_word
  | _ => (addr + (Z.of_nat (length data) - 1) / 16 * 16) / 65536
  end.

Lemma last_hi_one addr hi_word data :
  (0 < length data)%nat → (length data <= 16)%nat → last_hi addr hi_word data = addr / 65536.
Proof.
  intros H1 H2. unfold last_hi. destruct data as [|b data]; [cbn in H1; lia|]. f_equal.
  Z.div_mod_to_equations. lia.
Qed.

Lemma last_hi_drop addr hi_word data :
  (16 < length data)%nat → last_hi (addr + 16) (addr / 65536) (drop 16 data) = last_hi addr hi_word data.
Proof.
  intros Hl. unfold last_hi.
  destruct (drop 16 data) as [|x l] eqn:E.
  { apply (f_equal length) in E. rewrite length_drop in E. cbn in E. lia. }
  rewrite <- E, length_drop. destruct data as [|y d]; [cbn in Hl; lia|]. f_equal.
  Z.div_mod_to_equations. lia.
Qed.

Lemma flush_loop_lines fuel addr hi_word data :
  bytes data → 0 ≤ addr → addr + Z.of_nat (length data) ≤ 4294967296 → (length data <= fuel)%nat →
  flush_loop fuel addr hi_word data
    = Ok (text_of (flush_lines fuel addr hi_word data), last_hi addr hi_word data).
Proof.
  revert addr hi_word data. induction fuel as [|fuel IH]; intros addr hi_word data Hd Ha He Hf.
  - by destruct data; [|cbn in Hf; lia].
  - destruct data as [|b data]; [done|]. cbn [flush_loop flush_lines].
    set (d := b :: data) in *. assert (0 < length d)%nat by (subst d; cbn; lia). clearbody d.
    rewrite flush_line_spec;
      [|unfold in_u32; lia|by apply Forall_take|rewrite length_take; lia].
    destruct (decide (length d <= 16)%nat) as [Hs|Hs].
    + rewrite (drop_ge d), take_ge by lia.
      assert (flush_loop fuel (u32 (addr + Z.of_nat (length d))) (addr / 65536) []
        = Ok ([], addr / 65536)) as -> by (by destruct fuel).
      cbn [mbind outcome_bind]. rewrite app_nil_r.
      assert (flush_lines fuel (addr + 16) (addr / 65536) [] = []) as -> by (by destruct fuel).
      rewrite app_nil_r. by rewrite last_hi_one.
    + rewrite length_take, Nat.min_l by lia. change (Z.of_nat 16) with 16.
      rewrite u32_small by (unfold in_u32; lia).
      rewrite IH; [|by apply Forall_drop|lia|rewrite length_drop; lia|rewrite length_drop; lia].
      cbn [mbind outcome_bind]. rewrite text_of_app. do 2 f_equal. apply last_hi_drop. lia.
Qed.

(** ** Reading it back *)

Section roundtrip.
Context {A : Type} (write : Z → list Z → A → outcome (bool * A)) (flush : A → A).

(** The writes of a list of pieces, whatever they report. *)
Fixpoint write_all (cs : list (Z * list Z)) (st : A) : outcome A :=
  match cs with
  | [] => Ok st
  | (a, d) :: cs => '(_, st) ← write a d st; write_all cs st
  end.

(** The boot loader receives one line after the other, each in a buffer of its
    own terminated by NUL. *)
Fixpoint parse_lines (ls : list (list Z)) (hi : Z) (st : A) : outcome (Z * A) :=
  match ls with
  | [] => Ok (hi, st)
  | l :: ls => '(_, _, hi, st) ← ihex_parse write flush (l ++ [0]) hi st; parse_lines ls hi st
  end.

Lemma parse_lines_app a b hi st :
  parse_lines (a ++ b) hi st = ('(hi, st) ← parse_lines a hi st; parse_lines b hi st).
Proof.
  revert hi st. induction a as [|l a IH]; intros hi st; [done|]. cbn [app parse_lines].
  destruct (ihex_parse _ _ _ _ _) as [[[[? ?] ?] ?]|]; [|done]. cbn [mbind outcome_bind]. apply IH.
Qed.

Lemma write_all_app a b st : write_all (a ++ b) st = (st ← write_all a st; write_all b st).
Proof.
  revert st. induction a as [|[x d] a IH]; intros st; [done|]. cbn [app write_all].
  destruct (write x d st) as [[? ?]|]; [|done]. cbn [mbind outcome_bind]. apply IH.
Qed.

(** A data record and a record with the upper half of the address, for both
    parsers. *)
Lemma parse_data addr bs rest hi st :
  in_u16 addr → bytes bs → (length bs <= 122)%nat → 0 ≤ hi → hi + addr < 4294967296 →
  ∃ buf', length buf' = length (rec_text 0 addr bs ++ 0 :: rest) ∧
    ihex_parse write flush (rec_text 0 addr bs ++ 0 :: rest) hi st
      = ('(ok, st) ← write (hi + addr) bs st; Ok (ok, buf', hi, st)) ∧
    host_ihex_parse write (rec_text 0 addr bs ++ 0 :: rest) hi st
      = ('(ok, st) ← write (hi + addr) bs st; Ok (ok, buf', hi, st)).
Proof.
  intros Ha Hb Hl Hh Hs.
  destruct (ihex_line_record 0 addr bs rest) as (t & E & Ht); [done..|].
  exists (bs ++ t). split; [done|]. unfold ihex_parse, host_ihex_parse. rewrite E.
  cbn [mbind outcome_bind Z.eqb]. unfold in_u16 in Ha.
  by rewrite u32_small, Nat2Z.id, take_app_length by (unfold in_u32; lia).
Qed.

Lemma parse_hi h rest hi st :
  in_u16 h →
  ∃ buf', length buf' = length (rec_text 4 0 [h / 256; h mod 256] ++ 0 :: rest) ∧
    ihex_parse write flush (rec_text 4 0 [h / 256; h mod 256] ++ 0 :: rest) hi st
      = Ok (true, buf', h * 65536, st) ∧
    host_ihex_parse write (rec_text 4 0 [h / 256; h mod 256] ++ 0 :: rest) hi st
      = Ok (true, buf', h * 65536, st).
Proof.
  intros Hh. unfold in_u16 in Hh.
  assert (bytes [h / 256; h mod 256]) as Hb.
  { repeat apply Forall_cons_2; try done; unfold in_u8; Z.div_mod_to_equations; lia. }
  destruct (ihex_line_record 4 0 [h / 256; h mod 256] rest) as (t & E & Ht);
    [done|done|done|cbn; lia|].
  exists ([h / 256; h mod 256] ++ t). split; [done|]. unfold ihex_parse, host_ihex_parse. rewrite E.
  cbn [mbind outcome_bind Z.eqb Pos.eqb app].
  change ((h / 256 :: h mod 256 :: t).[0]) with (Ok (h / 256)).
  change ((h / 256 :: h mod 256 :: t).[1]) with (Ok (h mod 256)).
  cbn [mbind outcome_bind].
  replace (u32 (Z.shiftl (u32 (u32 (Z.shiftl (h / 256) 8) + h mod 256)) 16)) with (h * 65536); [done|].
  rewrite !Z.shiftl_mul_pow2 by lia. change (2 ^ 8) with 256. change (2 ^ 16) with 65536.
  rewrite (u32_small (h / 256 * 256)) by (unfold in_u32; Z.div_mod_to_equations; lia).
  replace (h / 256 * 256 + h mod 256) with h by (Z.div_mod_to_equations; lia).
  rewrite (u32_small h), u32_small by (unfold in_u32; lia). done.
Qed.

Lemma parse_round addr hi_word d st :
  in_u32 addr → bytes d → (length d <= 16)%nat → in_u16 hi_word →
  parse_lines (round_lines addr hi_word d) (hi_word * 65536) st
    = ('(_, st) ← write addr d st; Ok (addr / 65536 * 65536, st)).
Proof.
  intros Ha Hd Hl Hh. unfold in_u32, in_u16 in *. unfold round_lines, hi_lines.
  assert (parse_lines [rec_text 0 (addr mod 65536) d] (addr / 65536 * 65536) st
    = ('(_, st) ← write addr d st; Ok (addr / 65536 * 65536, st))) as Hdata.
  { cbn [parse_lines].
    destruct (parse_data (addr mod 65536) d [] (addr / 65536 * 65536) st) as (buf' & _ & -> & _);
      [unfold in_u16; Z.div_mod_to_equations; lia|done|lia|Z.div_mod_to_equations; lia..|].
    replace (addr / 65536 * 65536 + addr mod 65536) with addr by (Z.div_mod_to_equations; lia).
    by destruct (write addr d st) as [[? ?]|]. }
  destruct (Z.eqb_spec (addr / 65536) hi_word) as [<-|_]; [exact Hdata|].
  rewrite parse_lines_app. cbn [parse_lines].
  destruct (parse_hi (addr / 65536) [] (hi_word * 65536) st) as (buf' & _ & -> & _);
    [unfold in_u16; Z.div_mod_to_equations; lia|]. exact Hdata.
Qed.

Lemma parse_lines_flush fuel addr hi_word data st :
  bytes data → 0 ≤ addr → addr + Z.of_nat (length data) ≤ 4294967296 → (length data <= fuel)%nat →
  in_u16 hi_word →
  parse_lines (flush_lines fuel addr hi_word data) (hi_word * 65536) st
    = (st ← write_all (chunks fuel addr data) st; Ok (last_hi addr hi_word data * 65536, st)).
Proof.
  revert addr hi_word data st. induction fuel as [|fuel IH]; intros addr hi_word data st Hd Ha He Hf Hh.
  - by destruct data; [|cbn in Hf; lia].
  - destruct data as [|b data]; [done|]. cbn [flush_lines chunks write_all].
    set (d := b :: data) in *. assert (0 < length d)%nat by (subst d; cbn; lia). clearbody d.
    rewrite parse_lines_app, parse_round;
      [|unfold in_u32; lia|by apply Forall_take|rewrite length_take; lia|done].
    destruct (write addr (take 16 d) st) as [[ok st']|]; [|done]. cbn [mbind outcome_bind].
    destruct (decide (length d <= 16)%nat) as [Hs|Hs].
    + rewrite (drop_ge d) by lia.
      replace (flush_lines fuel (addr + 16) (addr / 65536) []) with (@nil (list Z)) by (by destruct fuel).
      replace (chunks fuel (addr + 16) []) with (@nil (Z * list Z)) by (by destruct fuel). cbn.
      by rewrite last_hi_one.
    + rewrite IH; [|by apply Forall_drop|lia|rewrite length_drop; lia|rewrite length_drop; lia|
        unfold in_u16; Z.div_mod_to_equations; lia].
      rewrite last_hi_drop with (hi_word := hi_word) by lia. done.
Qed.

(** *** What the boot loader answers *)

(** Every line is accepted. *)
Fixpoint all_accepted (ls : list (list Z)) (hi : Z) (st : A) : bool :=
  match ls with
  | [] => true
  | l :: ls =>
      match ihex_parse write flush (l ++ [0]) hi st with
      | Ok (ok, _, hi, st) => ok && all_accepted ls hi st
      | Err _ => false
      end
  end.

Lemma all_accepted_app a b hi hi' st st' :
  parse_lines a hi st = Ok (hi', st') →
  all_accepted (a ++ b) hi st = all_accepted a hi st && all_accepted b hi' st'.
Proof.
  revert hi st. induction a as [|l a IH]; intros hi st; [by intros [= <- <-]|].
  cbn [app parse_lines all_accepted].
  destruct (ihex_parse _ _ _ _ _) as [[[[ok ?] ?] ?]|]; [|done]. cbn [mbind outcome_bind]. intros E.
  by rewrite (IH _ _ E), andb_assoc.
Qed.

Lemma accepted_round addr hi_word d st st' :
  in_u32 addr → bytes d → (length d <= 16)%nat → in_u16 hi_word → write addr d st = Ok (true, st') →
  all_accepted (round_lines addr hi_word d) (hi_word * 65536) st = true.
Proof.
  intros Ha Hd Hl Hh Hw. unfold in_u32, in_u16 in *. unfold round_lines, hi_lines.
  assert (all_accepted [rec_text 0 (addr mod 65536) d] (addr / 65536 * 65536) st = true) as Hdata.
  { cbn [all_accepted].
    destruct (parse_data (addr mod 65536) d [] (addr / 65536 * 65536) st) as (buf' & _ & -> & _);
      [unfold in_u16; Z.div_mod_to_equations; lia|done|lia|Z.div_mod_to_equations; lia..|].
    replace (addr / 65536 * 65536 + addr mod 65536) with addr by (Z.div_mod_to_equations; lia).
    by rewrite Hw. }
  destruct (Z.eqb_spec (addr / 65536) hi_word) as [<-|_]; [exact Hdata|].
  destruct (parse_hi (addr / 65536) [] (hi_word * 65536) st) as (buf' & _ & E & _);
    [unfold in_u16; Z.div_mod_to_equations; lia|].
  rewrite (all_accepted_app _ _ _ (addr / 65536 * 65536) st st).
  - cbn [all_accepted]. rewrite E. exact Hdata.
  - cbn [parse_lines]. by rewrite E.
Qed.

(** Where the writes of a range succeed and keep the condition [I], the lines
    printed for that range are accepted one and all. *)
Lemma accepted_flush (I : A → Prop) (lo top : Z) :
  (∀ a d s, lo ≤ a → a + Z.of_nat (length d) ≤ top → I s → ∃ s', write a d s = Ok (true, s') ∧ I s') →
  ∀ fuel addr hi_word data st,
  bytes data → 0 ≤ addr → addr + Z.of_nat (length data) ≤ 4294967296 → (length data <= fuel)%nat →
  in_u16 hi_word → lo ≤ addr → addr + Z.of_nat (length data) ≤ top → I st →
  all_accepted (flush_lines fuel addr hi_word data) (hi_word * 65536) st = true.
Proof.
  intros Hw. induction fuel as [|fuel IH]; intros addr hi_word data st Hd Ha He Hf Hh Hlo Htop HI; [done|].
  destruct data as [|b data]; [done|]. cbn [flush_lines].
  set (d := b :: data) in *. assert (0 < length d)%nat by (subst d; cbn; lia). clearbody d.
  destruct (Hw addr (take 16 d) st) as (s' & E & HI'); [lia|rewrite length_take; lia|done|].
  assert (in_u32 addr ∧ bytes (take 16 d) ∧ (length (take 16 d) <= 16)%nat) as (Ha' & Hd' & Hl').
  { unfold in_u32. rewrite length_take. split; [lia|]. split; [by apply Forall_take|lia]. }
  rewrite (all_accepted_app _ _ _ (addr / 65536 * 65536) st s')
    by (rewrite parse_round by done; by rewrite E).
  rewrite (accepted_round addr hi_word _ st s') by done. cbn [andb].
  destruct (decide (length d <= 16)%nat).
  - rewrite drop_ge by lia. by destruct fuel.
  - apply IH; try (rewrite ?length_drop; lia); [by apply Forall_drop|
      unfold in_u16; Z.div_mod_to_equations; lia|done].
Qed.

(** *** The host tools' character feed *)

Lemma feed_app a b x : rx_feed_all write (a ++ b) x = (x ← rx_feed_all write a x; rx_feed_all write b x).
Proof.
  revert x. induction a as [|c a IH]; intros x; [done|]. cbn [app rx_feed_all].
  destruct (_rx_feed write c x); [|done]. cbn [mbind outcome_bind]. apply IH.
Qed.

(** Plain characters fill the buffer. *)
Lemma feed_plain l w r hi st :
  Forall (λ c, c ≠ 0 ∧ c ≠ 58 ∧ c ≠ 13 ∧ c ≠ 10) l → w ≠ [] →
  (length w + length l <= 255)%nat → (length (w ++ r) = 256)%nat →
  rx_feed_all write l (w ++ r, Z.of_nat (length w), hi, st)
    = Ok ((w ++ l) ++ drop (length l) r, Z.of_nat (length (w ++ l)), hi, st).
Proof.
  intros Hl. revert w r. induction Hl as [|c l (H0 & H58 & H13 & H10) Hl IH]; intros w r Hw Hle Hlen.
  - cbn. by rewrite app_nil_r.
  - cbn [length] in Hle. assert (0 < length w)%nat by (destruct w; [done|cbn; lia]).
    destruct r as [|x r]; [rewrite app_nil_r in Hlen; lia|].
    cbn [rx_feed_all _rx_feed].
    destruct (Z.eqb_spec c 58); [done|].
    rewrite (proj2 (Z.leb_gt 256 _)), (proj2 (Z.eqb_neq (Z.of_nat (length w)) 0)) by lia. cbn [orb].
    destruct (Z.eqb_spec c 13), (Z.eqb_spec c 10); try done. cbn [orb].
    rewrite arr_set_app. cbn [mbind outcome_bind].
    destruct (Z.eqb_spec c 0); [done|]. cbn [mbind outcome_bind].
    replace (w ++ c :: r) with ((w ++ [c]) ++ r) by (by rewrite <- app_assoc).
    replace (Z.of_nat (length w) + 1) with (Z.of_nat (length (w ++ [c])))
      by (rewrite length_app; cbn; lia).
    rewrite IH.
    + rewrite <- !(app_assoc w). done.
    + by destruct w.
    + rewrite length_app. cbn. lia.
    + rewrite !length_app in *. cbn in *. lia.
Qed.

(** A whole line: [host_ihex_parse] sees it once, terminated by NUL. *)
Lemma feed_line l b n hi st :
  Forall (λ c, c ≠ 0 ∧ c ≠ 58 ∧ c ≠ 13 ∧ c ≠ 10) l → (length l <= 254)%nat → length b = 256%nat →
  ∃ rest, length ((58 :: l) ++ 0 :: rest) = 256%nat ∧
    rx_feed_all write ((58 :: l) ++ NL) (b, n, hi, st)
      = ('(_, b, hi, st) ← host_ihex_parse write ((58 :: l) ++ 0 :: rest) hi st; Ok (b, 0, hi, st)).
Proof.
  intros Hl Hle Hb. destruct b as [|x b]; [done|]. cbn [length] in Hb.
  exists (drop (S (length l)) b). split.
  { cbn [app]. cbn [length]. rewrite length_app. cbn. rewrite length_drop. lia. }
  rewrite <- app_comm_cons. cbn [rx_feed_all _rx_feed].
  change ((x :: b).[0 <- 58]) with (arr_set (([] : list Z) ++ x :: b) (Z.of_nat (length (@nil Z))) 58).
  rewrite arr_set_app. cbn [app mbind outcome_bind]. cbn [Z.eqb Pos.eqb mbind outcome_bind]. rewrite feed_app.
  change (58 :: b) with ([58] ++ b). change 1 with (Z.of_nat (length [58])).
  rewrite feed_plain by (done || (cbn; lia)). cbn [mbind outcome_bind].
  assert (∃ y b', drop (length l) b = y :: b') as (y & b' & E).
  { destruct (drop (length l) b) as [|y b'] eqn:E; [|by eauto].
    apply (f_equal length) in E. rewrite length_drop in E. cbn in E. lia. }
  assert (drop (S (length l)) b = b') as ->.
  { replace (S (length l)) with (length l + 1)%nat by lia. by rewrite <- drop_drop, E. }
  rewrite E. unfold NL. cbn [rx_feed_all _rx_feed Z.eqb Pos.eqb].
  rewrite (proj2 (Z.leb_gt 256 _)), (proj2 (Z.eqb_neq (Z.of_nat _) 0))
    by (rewrite length_app; cbn; lia). cbn [orb].
  rewrite arr_set_app. cbn [mbind outcome_bind].
  cbn [app]. by destruct (host_ihex_parse write (58 :: l ++ 0 :: b') hi st) as [[[[? b2] ?] ?]|].
Qed.

(** The feed over a text of lines is the parser over the lines. *)
Lemma feed_rec type addr bs b n hi st :
  in_u8 type → in_u16 addr → bytes bs → (length bs <= 122)%nat → length b = 256%nat →
  ∃ rest, length (rec_text type addr bs ++ 0 :: rest) = 256%nat ∧
    rx_feed_all write (rec_text type addr bs ++ NL) (b, n, hi, st)
      = ('(_, b, hi, st) ← host_ihex_parse write (rec_text type addr bs ++ 0 :: rest) hi st;
         Ok (b, 0, hi, st)).
Proof.
  intros Ht Ha Hb Hl Hlen.
  pose proof (rec_head_bytes type addr bs Ht Ha ltac:(lia)) as Hh.
  apply (feed_line (drop 1 (rec_text type addr bs))); [by apply rec_text_plain| |done].
  change (drop 1 (rec_text type addr bs))
    with (hexs (rec_head type addr bs) ++ hexs bs ++ hex2 (rec_chsum type addr bs)).
  rewrite !length_app, !hexs_length. cbn. lia.
Qed.

Lemma feed_round addr hi_word d b n st st' ok :
  in_u32 addr → bytes d → (length d <= 16)%nat → in_u16 hi_word → length b = 256%nat →
  write addr d st = Ok (ok, st') →
  ∃ b', length b' = 256%nat ∧
    rx_feed_all write (text_of (round_lines addr hi_word d)) (b, n, hi_word * 65536, st)
      = Ok (b', 0, addr / 65536 * 65536, st').
Proof.
  intros Ha Hd Hl Hh Hb Hw. unfold in_u32, in_u16 in *. unfold round_lines, hi_lines.
  assert (∀ b n, length b = 256%nat → ∃ b', length b' = 256%nat ∧
    rx_feed_all write (text_of [rec_text 0 (addr mod 65536) d]) (b, n, addr / 65536 * 65536, st)
      = Ok (b', 0, addr / 65536 * 65536, st')) as Hdata.
  { clear b n Hb. intros b n Hb. rewrite text_of_1.
    destruct (feed_rec 0 (addr mod 65536) d b n (addr / 65536 * 65536) st) as (rest & Hr & ->);
      [done|apply Z.mod_pos_bound; lia|done|lia|done|].
    destruct (parse_data (addr mod 65536) d rest (addr / 65536 * 65536) st) as (buf' & Hb' & _ & ->);
      [unfold in_u16; Z.div_mod_to_equations; lia|done|lia|Z.div_mod_to_equations; lia..|].
    replace (addr / 65536 * 65536 + addr mod 65536) with addr by (Z.div_mod_to_equations; lia).
    rewrite Hw. cbn [mbind outcome_bind]. exists buf'. split; [congruence|done]. }
  destruct (Z.eqb_spec (addr / 65536) hi_word) as [<-|_]; [by apply Hdata|].
  rewrite text_of_app, feed_app, (text_of_1 (rec_text 4 _ _)).
  destruct (feed_rec 4 0 [addr / 65536 / 256; (addr / 65536) mod 256] b n (hi_word * 65536) st)
    as (rest & Hr & ->); [done|done| |cbn; lia|done|].
  { repeat apply Forall_cons_2; try done; unfold in_u8; Z.div_mod_to_equations; lia. }
  destruct (parse_hi (addr / 65536) rest (hi_word * 65536) st) as (buf' & Hb' & _ & ->);
    [unfold in_u16; Z.div_mod_to_equations; lia|]. cbn [mbind outcome_bind].
  apply Hdata. congruence.
Qed.

Lemma feed_flush fuel addr hi_word data b n st st' :
  bytes data → 0 ≤ addr → addr + Z.of_nat (length data) ≤ 4294967296 → (length data <= fuel)%nat →
  in_u16 hi_word → length b = 256%nat →
  write_all (chunks fuel addr data) st = Ok st' →
  ∃ b' n', length b' = 256%nat ∧
    rx_feed_all write (text_of (flush_lines fuel addr hi_word data)) (b, n, hi_word * 65536, st)
      = Ok (b', n', last_hi addr hi_word data * 65536, st').
Proof.
  revert addr hi_word data b n st. induction fuel as [|fuel IH];
    intros addr hi_word data b n st Hd Ha He Hf Hh Hb Hw.
  - destruct data; [|cbn in Hf; lia]. cbn in Hw. injection Hw as ->. by exists b, n.
  - destruct data as [|x data]; [cbn in Hw; injection Hw as ->; by exists b, n|].
    cbn [flush_lines chunks write_all] in *.
    set (d := x :: data) in *. assert (0 < length d)%nat by (subst d; cbn; lia). clearbody d.
    destruct (write addr (take 16 d) st) as [[ok st1]|] eqn:Ew; [|done].
    cbn [mbind outcome_bind] in Hw. rewrite text_of_app, feed_app.
    destruct (feed_round addr hi_word (take 16 d) b n st st1 ok) as (b1 & Hb1 & ->);
      [unfold in_u32; lia|by apply Forall_take|rewrite length_take; lia|done..|].
    cbn [mbind outcome_bind]. destruct (decide (length d <= 16)%nat) as [Hs|Hs].
    + rewrite (drop_ge d) in * by lia.
      replace (chunks fuel (addr + 16) []) with (@nil (Z * list Z)) in Hw by (by destruct fuel).
      replace (flush_lines fuel (addr + 16) (addr / 65536) []) with (@nil (list Z)) by (by destruct fuel).
      cbn in Hw. injection Hw as ->. exists b1, 0. split; [done|]. by rewrite last_hi_one.
    + destruct (IH (addr + 16) (addr / 65536) (drop 16 d) b1 0 st1) as (b2 & n2 & Hb2 & E);
        [by apply Forall_drop|lia|rewrite length_drop; lia|rewrite length_drop; lia|
         unfold in_u16; Z.div_mod_to_equations; lia|done|done|].
      exists b2, n2. split; [done|]. rewrite E, last_hi_drop with (hi_word := hi_word) by lia. done.
Qed.

(** What the host tool prints, the boot loader reads back: the
    lines [ihex_flush] prints for a block of data, handed to [ihex_parse] one
    after the other from the matching address state, write exactly the pieces of
    the data in order at consecutive addresses; decoding each line in place
    corrupts nothing. *)
Theorem ihex_flush_ihex_parse addr hi_word data st :
  bytes data → 0 ≤ addr → addr + Z.of_nat (length data) ≤ 4294967296 → in_u16 hi_word →
  ∃ lines hi', ihex_flush addr hi_word data = Ok (text_of lines, hi') ∧
    parse_lines lines (hi_word * 65536) st
      = (st ← write_all (chunks (length data) addr data) st; Ok (hi' * 65536, st)).
Proof.
  intros Hd Ha He Hh. exists (flush_lines (length data) addr hi_word data), (last_hi addr hi_word data).
  split; [by apply flush_loop_lines|]. by apply parse_lines_flush.
Qed.

(** The same for the host tools among themselves: the printed
    text, fed character by character into [_rx_feed] (256-byte line buffer, CR
    and LF as line ends), calls the data callback with exactly those pieces. *)
Theorem ihex_flush_rx_feed addr hi_word data b n st st' :
  bytes data → 0 ≤ addr → addr + Z.of_nat (length data) ≤ 4294967296 → in_u16 hi_word →
  length b = 256%nat → write_all (chunks (length data) addr data) st = Ok st' →
  ∃ text hi' b' n', ihex_flush addr hi_word data = Ok (text, hi') ∧
    rx_feed_all write text (b, n, hi_word * 65536, st) = Ok (b', n', hi' * 65536, st').
Proof.
  intros Hd Ha He Hh Hb Hw.
  destruct (feed_flush (length data) addr hi_word data b n st st') as (b' & n' & _ & E); [done..|].
  do 4 eexists. split; [by apply flush_loop_lines|exact E].
Qed.

End roundtrip.

(** ** Witnesses *)

(** A callback that keeps what it was given. *)
Definition log_write (a : Z) (d : list Z) (st : list (Z * list Z)) : outcome (bool * list (Z * list Z)) :=
  Ok (true, st ++ [(a, d)]).

Lemma ihex_line_checksum_witness :
  ihex_line (str ":0100000002FD" ++ [0]) = Ok (Some (0, 0, 1, 2 :: str "0100000002FD" ++ [0]))
  ∧ ∃ t, ihex_line (str ":0100000002FC" ++ [0]) = Ok (if 255 =? 0 then Some (0, 0, 1, 2 :: t) else None).
Proof.
  split; [vm_compute; reflexivity|].
  destruct (ihex_line_checksum 0 0 [2] []) as [H _];
    [unfold in_u8; lia|unfold in_u16; lia|repeat constructor; unfold in_u8; lia|cbn; lia|].
  destruct (H 252 ltac:(unfold in_u8; lia)) as [t E]. exists t. exact E.
Defined.

Lemma ihex_flush_ihex_parse_witness :
  ∃ lines hi', ihex_flush 65528 0 (seqZ 0 20) = Ok (text_of lines, hi') ∧
    parse_lines log_write (λ st, st) lines 0 []
      = Ok (hi' * 65536, [(65528, seqZ 0 16); (65544, seqZ 16 4)]).
Proof.
  destruct (ihex_flush_ihex_parse log_write (λ st, st) 65528 0 (seqZ 0 20) []) as (ls & hi & H1 & H2).
  - apply Forall_forall. intros x Hx%elem_of_seqZ. unfold in_u8. lia.
  - lia.
  - rewrite length_seqZ. lia.
  - unfold in_u16. lia.
  - exists ls, hi. exact (conj H1 H2).
Defined.

Lemma ihex_flush_rx_feed_witness :
  ∃ text hi' b' n', ihex_flush 65528 0 (seqZ 0 20) = Ok (text, hi') ∧
    rx_feed_all log_write text (replicate 256 0, 0, 0, [])
      = Ok (b', n', hi' * 65536, [(65528, seqZ 0 16); (65544, seqZ 16 4)]).
Proof.
  apply (ihex_flush_rx_feed log_write (λ st, st) 65528 0 (seqZ 0 20) (replicate 256 0) 0 []).
  - apply Forall_forall. intros x Hx%elem_of_seqZ. unfold in_u8. lia.
  - lia.
  - rewrite length_seqZ. lia.
  - unfold in_u16. lia.
  - apply length_replicate.
  - reflexivity.
Defined.
