(* ===== verification/FwTools.v ===== *)
(** * The firmware tools (ut/app_crc, ut/app_container) and the image formats

    The application image with its information page, the container that carries
    it and the two checksums; what the host tools make of an application, for
    the boot loader to check. *)

From S2P Require Import Prelude CText Ihex.

(** ** Layout of the application *)

(** src/bootloader/app_info.h:6-6 (BL_SIZE) *)
Definition BL_SIZE : Z := 32 * 1024.
(** src/bootloader/app_info.h:17-17 (APP_INFO_PAGE_SIZE) *)
Definition APP_INFO_PAGE_SIZE : Z := 512.
(** src/bootloader/app_info.h:19-20 (APP_MAX_SIZE, APP_MIN_SIZE) *)
Definition APP_MAX_SIZE : Z := 512 * 1024 - BL_SIZE - APP_INFO_PAGE_SIZE.
Definition APP_MIN_SIZE : Z := 1024.
(** src/bootloader/app_info.h:22-24 (FLASH_START_ADDR, APP_INFO_PAGE_ADDR, APP_START_ADDR) *)
Definition APP_INFO_PAGE_ADDR : Z := 134217728 + BL_SIZE.
Definition APP_START_ADDR : Z := 134217728 + BL_SIZE + APP_INFO_PAGE_SIZE.

(** src/bootloader/app_info.h:37-46 (app_info_t) *)
Record app_info_t := AppInfo {
  ai_size : Z;
  ai_crc : Z;
  ai_device_id : Z;
  ai_hw_version_min : Z;
  ai_hw_version_max : Z;
  ai_res : Z
}.

(** Its 16 bytes at the start of a run. *)
Definition app_info_of (l : list Z) : app_info_t :=
  AppInfo (of_le (take 4 l)) (of_le (take 4 (drop 4 l))) (of_le (take 2 (drop 8 l)))
    (of_le (take 2 (drop 10 l))) (of_le (take 2 (drop 12 l))) (of_le (take 2 (drop 14 l))).

(** ** Checksums *)

(** src/bootloader/app_info.c:26-30 (app_crc) *)
Fixpoint crc32_bits (n : nat) (crc : Z) : Z :=
  match n with
  | O => crc
  | S n =>
      let mask := u32 (- Z.land crc 1) in
      crc32_bits n (Z.lxor (Z.shiftr crc 1) (Z.land 3988292384 mask))
  end.

(** src/bootloader/app_info.c:23-30 (app_crc) *)
Definition crc32_byte (crc b : Z) : Z := crc32_bits 8 (Z.lxor crc b).

(** src/bootloader/app_info.c:21-31 (app_crc) *)
Definition crc32_loop (data : list Z) (crc : Z) : Z := foldl crc32_byte crc data.

(** [~crc] of an unsigned 32-bit value. *)
Definition lnot32 (z : Z) : Z := 4294967295 - z.

(** src/bootloader/app_info.c:14-33 (app_crc) *)
Definition app_crc (data : list Z) : Z := lnot32 (crc32_loop data 4294967295).

(** src/ut/app_container/main.c:19-19 (CHSUM32_START_VALUE) *)
Definition CHSUM32_START_VALUE : Z := 1796472701.

(** src/ut/app_container/main.c:29-32 (chsum32) *)
Definition chsum32_step (start_value b : Z) : Z :=
  let msb := Z.land (Z.shiftr start_value 31) 1 in
  u32 (u32 (u32 (Z.shiftl start_value 1) + msb) + b).

(** src/ut/app_container/main.c:23-35 (chsum32) *)
Definition chsum32 (data : list Z) (start_value : Z) : Z := foldl chsum32_step start_value data.

(** A property every step keeps holds at the end of a loop. *)
Lemma foldl_keeps {A B} (P : A → Prop) (f : A → B → A) (l : list B) a :
  P a → (∀ a b, P a → b ∈ l → P (f a b)) → P (foldl f a l).
Proof.
  revert a. induction l as [|b l IH]; intros a Ha Hf; [done|]. apply IH.
  - apply Hf; [done|]. by left.
  - intros a' b' Ha' Hb'. apply Hf; [done|]. by right.
Qed.

Lemma chsum32_app a b s : chsum32 (a ++ b) s = chsum32 b (chsum32 a s).
Proof. unfold chsum32. by rewrite foldl_app. Qed.

Lemma chsum32_range a s : in_u32 s → in_u32 (chsum32 a s).
Proof. intros Hs. unfold chsum32. apply foldl_keeps; [exact Hs|]. intros s' b _ _. apply u32_range. Qed.

Lemma crc32_loop_app a b c : crc32_loop (a ++ b) c = crc32_loop b (crc32_loop a c).
Proof. unfold crc32_loop. by rewrite foldl_app. Qed.

Lemma lxor_u32 a b : in_u32 a → in_u32 b → in_u32 (Z.lxor a b).
Proof.
  unfold in_u32. intros Ha Hb. split.
  - apply Z.lxor_nonneg. lia.
  - destruct (decide (Z.lxor a b = 0)) as [->|Hne]; [lia|].
    assert (0 ≤ Z.lxor a b) by (apply Z.lxor_nonneg; lia).
    change 4294967296 with (2 ^ 32). apply Z.log2_lt_pow2; [lia|].
    pose proof (Z.log2_lxor a b ltac:(lia) ltac:(lia)).
    assert (∀ x, 0 ≤ x < 4294967296 → Z.log2 x < 32) as Hl.
    { intros x Hx. destruct (decide (x = 0)) as [->|]; [cbn; lia|]. apply Z.log2_lt_pow2; lia. }
    pose proof (Hl a Ha). pose proof (Hl b Hb). lia.
Qed.

Lemma crc32_bits_range n c : in_u32 c → in_u32 (crc32_bits n c).
Proof.
  revert c. induction n as [|n IH]; intros c Hc; [done|]. cbn [crc32_bits]. apply IH, lxor_u32.
  - unfold in_u32 in *. rewrite Z.shiftr_div_pow2 by lia. change (2 ^ 1) with 2.
    Z.div_mod_to_equations. lia.
  - unfold in_u32 in *. assert (Z.land c 1 = c mod 2) as -> by (apply (Z.land_ones c 1); lia).
    assert (c mod 2 = 0 ∨ c mod 2 = 1) as [-> | ->] by (Z.div_mod_to_equations; lia); by vm_compute.
Qed.

Lemma crc32_loop_range l c : bytes l → in_u32 c → in_u32 (crc32_loop l c).
Proof.
  intros Hl Hc. unfold crc32_loop. apply foldl_keeps; [exact Hc|]. intros c' b Hc' Hb.
  apply crc32_bits_range, lxor_u32; [exact Hc'|].
  pose proof (proj1 (Forall_forall _ _) Hl b Hb). unfold in_u8, in_u32 in *. lia.
Qed.

Lemma app_crc_range l : bytes l → in_u32 (app_crc l).
Proof.
  intros Hl. unfold app_crc, lnot32.
  assert (in_u32 4294967295) as H by (unfold in_u32; lia).
  apply (crc32_loop_range l _ Hl) in H. unfold in_u32 in *. lia.
Qed.

(** ** The CRC tool (ut/app_crc/main.c) *)

(** src/ut/app_crc/main.c:9-14 (app_info_page, crc, app_size, info_size) *)
Record crc_tool := CrcTool {
  app_info_page : list Z;
  ct_crc : Z;
  ct_app_size : Z;
  ct_info_size : Z;
  ct_dest_addr : Z
}.

(** [memset(app_info_page, 0xff, ..)] at the start of [main] *)
Definition crc_tool_init : crc_tool := CrcTool (replicate 512 255) 4294967295 0 0 0.

(** [memcpy (dst + at, src, ..)] inside the array. *)
Definition copy_into (dst : list Z) (at_ : Z) (src : list Z) : outcome (list Z) :=
  if (0 <=? at_) && (at_ + Z.of_nat (length src) <=? Z.of_nat (length dst))
  then Ok (take (Z.to_nat at_) dst ++ src ++ drop (Z.to_nat at_ + length src) dst)
  else Err FBounds.

(** src/ut/app_crc/main.c:16-33 (_app_crc_calc) *)
Definition _app_crc_calc (data : list Z) (t : crc_tool) : crc_tool :=
  CrcTool (app_info_page t) (crc32_loop data (ct_crc t)) (ct_app_size t) (ct_info_size t) (ct_dest_addr t).

(** The tool's exit by [OS_FATAL] is the failure. *)
(** src/ut/app_crc/main.c:47-106 (_compute_crc) *)
Definition _compute_crc (addr : Z) (data : list Z) (t : crc_tool) : outcome (bool * crc_tool) :=
  let len := Z.of_nat (length data) in
  if (APP_INFO_PAGE_ADDR <=? addr) && (u32 (addr + len) <? APP_INFO_PAGE_ADDR + APP_INFO_PAGE_SIZE) then
    let a := addr - APP_INFO_PAGE_ADDR in
    page ← copy_into (app_info_page t) a data;
    Ok (true, CrcTool page (ct_crc t) (ct_app_size t)
                (if ct_info_size t <? u32 (a + len) then u32 (a + len) else ct_info_size t) (ct_dest_addr t))
  else
    _ ← os_assert (negb ((addr <? APP_START_ADDR) || (APP_START_ADDR + APP_MAX_SIZE <? u32 (addr + len))));
    _ ← os_assert (negb ((ai_device_id (app_info_of (app_info_page t)) =? 65535) || (ct_info_size t =? 0)));
    _ ← os_assert ((ct_dest_addr t =? 0) || (ct_dest_addr t <=? addr));
    let t := if ct_dest_addr t =? 0 then t
             else _app_crc_calc (replicate (Z.to_nat (addr - ct_dest_addr t)) 255) t in
    let t := _app_crc_calc data t in
    let dest_addr := u32 (addr + len) in
    Ok (true, CrcTool (app_info_page t) (ct_crc t) (u32 (dest_addr - APP_START_ADDR)) (ct_info_size t) dest_addr).

(** The page with size and CRC filled in. *)
(** src/ut/app_crc/main.c:176-177 (main) *)
Definition crc_tool_finish (t : crc_tool) : outcome (list Z) :=
  page ← copy_into (app_info_page t) 0 (le32 (ct_app_size t));
  copy_into page 4 (le32 (lnot32 (ct_crc t))).

(** ** The container tool (ut/app_container/main.c) *)

(** src/bootloader/container.h:8-21 (container_hdr_t) *)
Record container_hdr_t := ContainerHdr {
  data_size : Z;
  data_chsum : Z;
  generated_for_hw_num : Z;
  device_id : Z;
  hw_version_min : Z;
  hw_version_max : Z;
  fw_name : list Z;
  aes : Z;
  res : list Z;
  hdr_chsum : Z
}.

(** [sizeof(container_hdr_t)], and the representation: every member at its
    natural offset, without padding. *)
Definition sizeof_container : Z := 512.
Definition container_body (c : container_hdr_t) : list Z :=
  le32 (data_size c) ++ le32 (data_chsum c) ++ le32 (generated_for_hw_num c) ++
  le16 (device_id c) ++ le16 (hw_version_min c) ++ le16 (hw_version_max c) ++
  fw_name c ++ [aes c] ++ res c.
Definition container_bytes (c : container_hdr_t) : list Z := container_body c ++ le32 (hdr_chsum c).

Definition container_of (l : list Z) : container_hdr_t :=
  ContainerHdr (of_le (take 4 l)) (of_le (take 4 (drop 4 l))) (of_le (take 4 (drop 8 l)))
    (of_le (take 2 (drop 12 l))) (of_le (take 2 (drop 14 l))) (of_le (take 2 (drop 16 l)))
    (take 16 (drop 18 l)) (of_le (take 1 (drop 34 l))) (take 473 (drop 35 l))
    (of_le (take 4 (drop 508 l))).

(** src/ut/app_container/main.c:14-17 (app_size, fw_data) *)
Record container_tool := ContainerTool { fw_data : list Z; cn_app_size : Z; cn_dest_addr : Z }.

(** [memset(fw_data, 0xFF, ..)] at the start of [main] *)
Definition container_tool_init : container_tool :=
  ContainerTool (replicate (Z.to_nat APP_MAX_SIZE) 255) 0 0.

(** src/ut/app_container/main.c:37-67 (_load_bin) *)
Definition _load_bin (addr : Z) (data : list Z) (t : container_tool) : outcome (bool * container_tool) :=
  let len := Z.of_nat (length data) in
  _ ← os_assert (negb ((addr <? APP_INFO_PAGE_ADDR) || (APP_START_ADDR + APP_MAX_SIZE <? u32 (addr + len))));
  let a := addr - APP_INFO_PAGE_ADDR in
  _ ← os_assert (cn_dest_addr t <=? a);
  fw ← copy_into (fw_data t) a data;
  Ok (true, ContainerTool fw (u32 (a + len)) (u32 (a + len))).

(** The header for an image that is not encrypted; [name] is the text given with
    [-n], as [strncpy] stores it. *)
(** src/ut/app_container/main.c:173-185 (main) *)
Definition make_container (name : list Z) (fw : list Z) : container_hdr_t :=
  let info := app_info_of fw in
  let c := ContainerHdr (Z.of_nat (length fw)) (chsum32 fw CHSUM32_START_VALUE) 0
             (ai_device_id info) (ai_hw_version_min info) (ai_hw_version_max info)
             name 0 (replicate 473 0) 0 in
  ContainerHdr (data_size c) (data_chsum c) 0 (device_id c) (hw_version_min c) (hw_version_max c)
    (fw_name c) (aes c) (res c) (chsum32 (container_body c) CHSUM32_START_VALUE).

(** src/ut/app_container/main.c:21-21 (DEST_REMAP_ADDRESS) *)
Definition DEST_REMAP_ADDRESS : Z := 3932160.

(** The hexadecimal output: container, image and the end record.  The image is
    refused when its information page does not give its size. *)
(** src/ut/app_container/main.c:135-191 (main) *)
Definition container_tool_main (name : list Z) (t : container_tool) : outcome (list Z) :=
  let fw := take (Z.to_nat (cn_app_size t)) (fw_data t) in
  let app_info := app_info_of (fw_data t) in
  _ ← os_assert (u32 (ai_size app_info + APP_INFO_PAGE_SIZE) =? cn_app_size t);
  '(t1, hi) ← ihex_flush DEST_REMAP_ADDRESS 0 (container_bytes (make_container name fw));
  '(t2, hi) ← ihex_flush (DEST_REMAP_ADDRESS + sizeof_container) hi fw;
  Ok (t1 ++ t2 ++ str ":00000001FF" ++ NL).

(** ** What the tools make of an application *)

Ltac layout := unfold APP_START_ADDR, APP_INFO_PAGE_ADDR, APP_MAX_SIZE, APP_INFO_PAGE_SIZE,
  APP_MIN_SIZE, BL_SIZE in *.

(** Consecutive pieces of data from [addr] on. *)
Fixpoint pieces (addr : Z) (cs : list (Z * list Z)) : Prop :=
  match cs with
  | [] => True
  | (a, d) :: cs => a = addr ∧ pieces (addr + Z.of_nat (length d)) cs
  end.
Definition payload (cs : list (Z * list Z)) : list Z := concat (snd <$> cs).

Lemma chunks_pieces n addr data : (length data <= n)%nat →
  pieces addr (chunks n addr data) ∧ payload (chunks n addr data) = data.
Proof.
  revert addr data. induction n as [|n IH]; intros addr data Hn.
  - by destruct data; [|cbn in Hn; lia].
  - destruct data as [|x data]; [done|]. cbn [chunks pieces].
    set (d := x :: data) in *. assert (0 < length d)%nat by (subst d; cbn; lia). clearbody d.
    unfold payload. cbn [fmap list_fmap snd concat].
    destruct (decide (length d <= 16)%nat) as [Hs|Hs].
    + rewrite drop_ge, take_ge by lia.
      replace (chunks n (addr + 16) []) with (@nil (Z * list Z)) by (by destruct n).
      cbn. by rewrite app_nil_r.
    + destruct (IH (addr + 16) (drop 16 d)) as [H1 H2]; [rewrite length_drop; lia|].
      rewrite length_take, Nat.min_l by lia. split; [done|].
      unfold payload in H2. rewrite H2. apply take_drop.
Qed.

Lemma copy_into_app w g src : (length src <= length g)%nat →
  copy_into (w ++ g) (Z.of_nat (length w)) src = Ok (w ++ src ++ drop (length src) g).
Proof.
  intros Hl. unfold copy_into. rewrite length_app.
  rewrite (proj2 (Z.leb_le 0 _)), (proj2 (Z.leb_le (_ + _) _)) by lia. cbn [andb].
  rewrite Nat2Z.id, take_app_length, drop_app_add. done.
Qed.

Definition info_device (page : list Z) : Z := ai_device_id (app_info_of page).

(** One piece of code that continues the previous one. *)
Lemma compute_crc_step addr d t :
  APP_START_ADDR ≤ addr → addr + Z.of_nat (length d) ≤ APP_START_ADDR + APP_MAX_SIZE →
  ct_dest_addr t = 0 ∨ ct_dest_addr t = addr →
  info_device (app_info_page t) ≠ 65535 → ct_info_size t ≠ 0 →
  _compute_crc addr d t =
    Ok (true, CrcTool (app_info_page t) (crc32_loop d (ct_crc t))
                (addr + Z.of_nat (length d) - APP_START_ADDR) (ct_info_size t)
                (addr + Z.of_nat (length d))).
Proof.
  intros Ha Hmax Hdest Hdev Hinfo. unfold _compute_crc, os_assert.
  rewrite (u32_small (addr + Z.of_nat (length d))) by (layout; unfold in_u32; lia).
  rewrite (proj2 (Z.ltb_ge (addr + Z.of_nat (length d)) (APP_INFO_PAGE_ADDR + APP_INFO_PAGE_SIZE)))
    by (layout; lia). rewrite andb_false_r.
  rewrite (proj2 (Z.ltb_ge addr _)), (proj2 (Z.ltb_ge (APP_START_ADDR + APP_MAX_SIZE) _)) by lia.
  cbn [orb negb mbind outcome_bind]. fold (info_device (app_info_page t)).
  rewrite (proj2 (Z.eqb_neq _ _) Hdev), (proj2 (Z.eqb_neq _ _) Hinfo).
  cbn [orb negb mbind outcome_bind].
  assert ((ct_dest_addr t =? 0) || (ct_dest_addr t <=? addr) = true) as ->.
  { destruct Hdest as [-> | ->]; [done|]. by rewrite Z.leb_refl, orb_true_r. }
  cbn [mbind outcome_bind].
  rewrite u32_small by (layout; unfold in_u32; lia).
  assert ((if ct_dest_addr t =? 0 then t
    else _app_crc_calc (replicate (Z.to_nat (addr - ct_dest_addr t)) 255) t) = t) as ->.
  { destruct Hdest as [-> | ->]; [done|]. rewrite Z.sub_diag. destruct (addr =? 0); by destruct t. }
  done.
Qed.

Lemma compute_crc_pieces cs addr t :
  pieces addr cs → APP_START_ADDR ≤ addr →
  addr + Z.of_nat (length (payload cs)) ≤ APP_START_ADDR + APP_MAX_SIZE →
  ct_dest_addr t = 0 ∨ ct_dest_addr t = addr →
  info_device (app_info_page t) ≠ 65535 → ct_info_size t ≠ 0 →
  write_all _compute_crc cs t =
    Ok (match cs with
        | [] => t
        | _ => CrcTool (app_info_page t) (crc32_loop (payload cs) (ct_crc t))
                 (addr + Z.of_nat (length (payload cs)) - APP_START_ADDR) (ct_info_size t)
                 (addr + Z.of_nat (length (payload cs)))
        end).
Proof.
  revert addr t. induction cs as [|[a d] cs IH]; intros addr t Hp Ha Hmax Hdest Hdev Hinfo; [done|].
  cbn [pieces] in Hp. destruct Hp as [-> Hp].
  assert (payload ((addr, d) :: cs) = d ++ payload cs) as Epl by done.
  rewrite Epl in *. rewrite length_app in *. cbn [write_all].
  rewrite compute_crc_step by (done || lia). cbn [mbind outcome_bind].
  rewrite (IH (addr + Z.of_nat (length d))); [|done|lia|lia|by right|done|done].
  cbn [app_info_page ct_crc ct_info_size]. destruct cs as [|c cs].
  - change (payload []) with (@nil Z). rewrite app_nil_r. cbn [length].
    rewrite Nat.add_0_r. done.
  - rewrite crc32_loop_app. do 2 f_equal; lia.
Qed.

Lemma compute_crc_info info : length info = 16%nat →
  _compute_crc APP_INFO_PAGE_ADDR info crc_tool_init
    = Ok (true, CrcTool (info ++ replicate 496 255) 4294967295 0 16 0).
Proof.
  intros Hi. unfold _compute_crc. rewrite Hi.
  change ((APP_INFO_PAGE_ADDR <=? APP_INFO_PAGE_ADDR) &&
    (u32 (APP_INFO_PAGE_ADDR + Z.of_nat 16) <? APP_INFO_PAGE_ADDR + APP_INFO_PAGE_SIZE)) with true.
  cbn [crc_tool_init app_info_page ct_crc ct_app_size ct_info_size ct_dest_addr].
  rewrite Z.sub_diag.
  pose proof (copy_into_app [] (replicate 512 255) info) as E. cbn [app length] in E.
  change (Z.of_nat 0) with 0 in E. rewrite E by (rewrite Hi, length_replicate; lia).
  by rewrite Hi.
Qed.

Lemma crc_tool_finish_spec t : (8 <= length (app_info_page t))%nat →
  crc_tool_finish t =
    Ok (le32 (ct_app_size t) ++ le32 (lnot32 (ct_crc t)) ++ drop 8 (app_info_page t)).
Proof.
  intros Hl. unfold crc_tool_finish.
  pose proof (copy_into_app [] (app_info_page t) (le32 (ct_app_size t))) as E.
  cbn [app] in E. change (Z.of_nat (length [])) with 0 in E. rewrite E by (cbn; lia).
  cbn [mbind outcome_bind].
  pose proof (copy_into_app (le32 (ct_app_size t))
    (drop (length (le32 (ct_app_size t))) (app_info_page t)) (le32 (lnot32 (ct_crc t)))) as E2.
  change (Z.of_nat (length (le32 (ct_app_size t)))) with 4 in E2.
  rewrite E2 by (rewrite length_drop; cbn; lia). by rewrite drop_drop.
Qed.

(** The CRC tool: fed the information page of an application
    (16 bytes with a device number) and then its code in consecutive pieces, it
    fills in the size of the code and the CRC that the boot loader computes over
    it, and leaves the other fields of the page. *)
Theorem crc_tool_page info cs app :
  length info = 16%nat → info_device info ≠ 65535 → pieces APP_START_ADDR cs → payload cs = app →
  cs ≠ [] → bytes app → Z.of_nat (length app) ≤ APP_MAX_SIZE →
  ∃ t, write_all _compute_crc ((APP_INFO_PAGE_ADDR, info) :: cs) crc_tool_init = Ok t ∧
    crc_tool_finish t =
      Ok (le32 (Z.of_nat (length app)) ++ le32 (app_crc app) ++ drop 8 info ++ replicate 496 255) ∧
    ct_info_size t = 16.
Proof.
  intros Hi Hdev Hp <- Hne Hb Hmax. cbn [write_all]. rewrite compute_crc_info by done.
  cbn [mbind outcome_bind].
  rewrite (compute_crc_pieces cs APP_START_ADDR); try done.
  - destruct cs as [|c cs]; [done|]. set (app := payload (c :: cs)) in *.
    eexists. split; [reflexivity|]. cbn [ct_info_size]. split; [|done].
    rewrite crc_tool_finish_spec
      by (cbn [app_info_page]; rewrite length_app, length_replicate; lia).
    cbn [app_info_page ct_app_size ct_crc].
    replace (APP_START_ADDR + Z.of_nat (length app) - APP_START_ADDR)
      with (Z.of_nat (length app)) by lia.
    fold (app_crc app). by rewrite drop_app_le by lia.
  - layout. lia.
  - by left.
  - cbn [app_info_page]. unfold info_device, app_info_of in *.
    cbn [ai_device_id] in *. by rewrite drop_app_le, take_app_le by (rewrite ?length_drop; lia).
Qed.

(** ** The container *)

(** The image so far is [p]; the rest of the array still holds 0xFF. *)
Definition loaded (p : list Z) (t : container_tool) : Prop :=
  ∃ m, t = ContainerTool (p ++ replicate m 255) (Z.of_nat (length p)) (Z.of_nat (length p)) ∧
    Z.of_nat (length p + m) = APP_MAX_SIZE.

Lemma loaded_init : loaded [] container_tool_init.
Proof. exists (Z.to_nat APP_MAX_SIZE). split; [done|]. rewrite Nat.add_0_l, Z2Nat.id; layout; lia. Qed.

Lemma load_bin_step p t gap d :
  loaded p t → Z.of_nat (length p + gap + length d) ≤ APP_MAX_SIZE →
  ∃ t', _load_bin (APP_INFO_PAGE_ADDR + Z.of_nat (length p + gap)) d t = Ok (true, t') ∧
    loaded (p ++ replicate gap 255 ++ d) t'.
Proof.
  intros (m & -> & Hm) Hfit. unfold _load_bin, os_assert. cbn [fw_data cn_dest_addr].
  rewrite (u32_small (APP_INFO_PAGE_ADDR + _ + _)) by (layout; unfold in_u32; lia).
  rewrite (proj2 (Z.ltb_ge _ APP_INFO_PAGE_ADDR)),
    (proj2 (Z.ltb_ge (APP_START_ADDR + APP_MAX_SIZE) _)) by (layout; lia).
  cbn [orb negb mbind outcome_bind].
  replace (APP_INFO_PAGE_ADDR + Z.of_nat (length p + gap) - APP_INFO_PAGE_ADDR)
    with (Z.of_nat (length p + gap)) by lia.
  rewrite (proj2 (Z.leb_le _ _)) by lia. cbn [mbind outcome_bind].
  rewrite u32_small by (layout; unfold in_u32; lia).
  assert (∃ m', m = gap + length d + m')%nat as (m' & ->) by (exists (m - gap - length d)%nat; lia).
  rewrite <- Nat.add_assoc, replicate_add, app_assoc.
  pose proof (copy_into_app (p ++ replicate gap 255) (replicate (length d + m') 255) d) as E.
  rewrite length_app, (length_replicate gap 255) in E. rewrite E by (rewrite length_replicate; lia).
  cbn [mbind outcome_bind]. eexists. split; [reflexivity|]. exists m'. split.
  - rewrite !length_app, length_replicate, drop_replicate.
    replace (length d + m' - length d)%nat with m' by lia.
    rewrite <- !app_assoc. f_equal; lia.
  - rewrite !length_app, length_replicate. lia.
Qed.

Lemma load_bin_pieces p t addr cs :
  loaded p t → addr = APP_INFO_PAGE_ADDR + Z.of_nat (length p) → pieces addr cs →
  Z.of_nat (length p + length (payload cs)) ≤ APP_MAX_SIZE →
  ∃ t', write_all _load_bin cs t = Ok t' ∧ loaded (p ++ payload cs) t'.
Proof.
  revert p t addr. induction cs as [|[a d] cs IH]; intros p t addr Hp -> Hcs Hfit.
  - exists t. split; [done|]. unfold payload. cbn. by rewrite app_nil_r.
  - cbn [pieces] in Hcs. destruct Hcs as [-> Hcs].
    assert (payload ((APP_INFO_PAGE_ADDR + Z.of_nat (length p), d) :: cs) = d ++ payload cs) as Epl by done.
    rewrite Epl in *. rewrite length_app in Hfit. cbn [write_all].
    destruct (load_bin_step p t 0 d Hp) as (t1 & E & H1); [lia|].
    rewrite Nat.add_0_r in E. rewrite E. cbn [mbind outcome_bind].
    cbn [replicate app] in H1.
    destruct (IH (p ++ d) t1 (APP_INFO_PAGE_ADDR + Z.of_nat (length p) + Z.of_nat (length d)))
      as (t2 & E2 & H2); [done|rewrite length_app; lia|done|rewrite length_app; lia|].
    exists t2. split; [done|]. by rewrite app_assoc.
Qed.

(** The image of an application: page, gap and code. *)
Definition image_of (page app : list Z) : list Z := page ++ replicate 496 255 ++ app.

Lemma container_tool_loads page app cs :
  length page = 16%nat → pieces APP_START_ADDR cs → payload cs = app → cs ≠ [] →
  APP_INFO_PAGE_SIZE + Z.of_nat (length app) ≤ APP_MAX_SIZE →
  ∃ t, write_all _load_bin ((APP_INFO_PAGE_ADDR, page) :: cs) container_tool_init = Ok t ∧
    loaded (image_of page app) t.
Proof.
  intros Hpg Hp <- Hne Hfit. destruct cs as [|[a d] cs]; [done|].
  cbn [pieces] in Hp. destruct Hp as [-> Hp]. cbn [write_all].
  assert (payload ((APP_START_ADDR, d) :: cs) = d ++ payload cs) as Epl by done.
  rewrite Epl in *. rewrite length_app in Hfit.
  destruct (load_bin_step [] container_tool_init 0 page loaded_init) as (t1 & E1 & H1);
    [cbn [length]; layout; lia|].
  change (APP_INFO_PAGE_ADDR + Z.of_nat (length [] + 0)) with APP_INFO_PAGE_ADDR in E1.
  rewrite E1. cbn [mbind outcome_bind]. cbn [replicate app] in H1.
  destruct (load_bin_step page t1 496 d H1) as (t2 & E2 & H2); [layout; lia|].
  replace (APP_INFO_PAGE_ADDR + Z.of_nat (length page + 496)) with APP_START_ADDR in E2
    by (rewrite Hpg; reflexivity).
  rewrite E2. cbn [mbind outcome_bind].
  destruct (load_bin_pieces (page ++ replicate 496 255 ++ d) t2
    (APP_START_ADDR + Z.of_nat (length d)) cs H2) as (t3 & E3 & H3).
  - rewrite !length_app, length_replicate, Hpg. layout. lia.
  - done.
  - rewrite !length_app, length_replicate. layout. lia.
  - exists t3. split; [done|]. unfold image_of. by rewrite <- !app_assoc in *.
Qed.

(** The range check of [_load_bin] allows the code to reach
    [APP_START_ADDR + APP_MAX_SIZE], but the array it is copied into holds
    [APP_MAX_SIZE] bytes from the information page on: an application within its
    last 512 bytes is written past the end of [fw_data]. *)
Theorem load_bin_overruns p t addr d :
  loaded p t → APP_INFO_PAGE_ADDR + Z.of_nat (length p) ≤ addr →
  addr + Z.of_nat (length d) ≤ APP_START_ADDR + APP_MAX_SIZE →
  APP_INFO_PAGE_ADDR + APP_MAX_SIZE < addr + Z.of_nat (length d) →
  _load_bin addr d t = Err FBounds.
Proof.
  intros (m & -> & Hm) Ha Hcheck Hover. unfold _load_bin, os_assert. cbn [fw_data cn_dest_addr].
  rewrite (u32_small (addr + _)) by (layout; unfold in_u32; lia).
  rewrite (proj2 (Z.ltb_ge addr _)), (proj2 (Z.ltb_ge (APP_START_ADDR + APP_MAX_SIZE) _)) by lia.
  cbn [orb negb mbind outcome_bind]. rewrite (proj2 (Z.leb_le _ _)) by lia.
  cbn [mbind outcome_bind]. unfold copy_into.
  rewrite (proj2 (Z.leb_gt (addr - APP_INFO_PAGE_ADDR + _) _)).
  - by rewrite andb_false_r.
  - rewrite length_app, length_replicate. lia.
Qed.

(** ** The container's representation *)

Lemma of_le_range l n : bytes l → (length l <= n)%nat → 0 ≤ of_le l < 256 ^ Z.of_nat n.
Proof.
  intros Hl. revert n. induction Hl as [|b l Hb Hl IH]; intros n Hn.
  - cbn [of_le]. split; [lia|]. apply Z.pow_pos_nonneg; lia.
  - destruct n as [|n]; [cbn in Hn; lia|]. cbn [of_le length] in *.
    specialize (IH n ltac:(lia)). rewrite Nat2Z.inj_succ, Z.pow_succ_r by lia.
    unfold in_u8 in Hb. lia.
Qed.

Lemma of_le_field l i n : bytes l → 0 ≤ of_le (take n (drop i l)) < 256 ^ Z.of_nat n.
Proof.
  intros Hl. apply of_le_range; [|rewrite length_take; lia].
  by apply Forall_take, Forall_drop.
Qed.

Lemma le16_bytes z : bytes (le16 z).
Proof. repeat apply Forall_cons_2; try done; apply Z.mod_pos_bound; lia. Qed.
Lemma le32_bytes z : bytes (le32 z).
Proof. repeat apply Forall_cons_2; try done; apply Z.mod_pos_bound; lia. Qed.

(** The values a header can hold. *)
Definition container_ok (c : container_hdr_t) : Prop :=
  in_u32 (data_size c) ∧ in_u32 (data_chsum c) ∧ in_u32 (generated_for_hw_num c) ∧
  in_u16 (device_id c) ∧ in_u16 (hw_version_min c) ∧ in_u16 (hw_version_max c) ∧
  (length (fw_name c) = 16%nat ∧ bytes (fw_name c)) ∧ in_u8 (aes c) ∧
  (length (res c) = 473%nat ∧ bytes (res c)) ∧ in_u32 (hdr_chsum c).

Lemma container_body_length c : container_ok c → length (container_body c) = 508%nat.
Proof.
  intros (_ & _ & _ & _ & _ & _ & [Hn _] & _ & [Hr _] & _). unfold container_body.
  rewrite !length_app, Hn, Hr. done.
Qed.

Lemma container_bytes_length c : container_ok c → length (container_bytes c) = 512%nat.
Proof. intros Hc. unfold container_bytes. by rewrite length_app, container_body_length. Qed.

Lemma container_bytes_bytes c : container_ok c → bytes (container_bytes c).
Proof.
  intros (_ & _ & _ & _ & _ & _ & [_ Hn] & Ha & [_ Hr] & _).
  unfold container_bytes, container_body, bytes.
  rewrite !Forall_app. repeat split; try apply le32_bytes; try apply le16_bytes; try done.
  by constructor.
Qed.

Lemma container_of_bytes c : container_ok c → container_of (container_bytes c) = c.
Proof.
  destruct c as [ds dc gen dev mn mx name a r h]. intros (H1 & H2 & H3 & H4 & H5 & H6 & [Hn _] & Ha & [Hr _] & H7).
  cbn in H1, H2, H3, H4, H5, H6, Hn, Ha, Hr, H7.
  unfold container_of, container_bytes, container_body.
  cbn [data_size data_chsum generated_for_hw_num device_id hw_version_min hw_version_max fw_name aes res hdr_chsum].
  set (tail := name ++ [a] ++ r ++ le32 h).
  assert ((le32 ds ++ le32 dc ++ le32 gen ++ le16 dev ++ le16 mn ++ le16 mx ++ name ++ [a] ++ r) ++ le32 h
    = le32 ds ++ le32 dc ++ le32 gen ++ le16 dev ++ le16 mn ++ le16 mx ++ tail) as ->
    by (unfold tail; by rewrite <- !app_assoc).
  set (l := le32 ds ++ le32 dc ++ le32 gen ++ le16 dev ++ le16 mn ++ le16 mx ++ tail).
  change (take 4 l) with (le32 ds). change (take 4 (drop 4 l)) with (le32 dc).
  change (take 4 (drop 8 l)) with (le32 gen). change (take 2 (drop 12 l)) with (le16 dev).
  change (take 2 (drop 14 l)) with (le16 mn). change (take 2 (drop 16 l)) with (le16 mx).
  change (drop 18 l) with tail.
  change (drop 34 l) with (drop 16 tail). change (drop 35 l) with (drop 17 tail).
  change (drop 508 l) with (drop 490 tail).
  assert (drop 16 tail = [a] ++ r ++ le32 h) as E16 by (unfold tail; by rewrite drop_app_length').
  assert (drop 17 tail = r ++ le32 h) as E17.
  { change 17%nat with (16 + 1)%nat. by rewrite <- drop_drop, E16. }
  assert (drop 490 tail = le32 h) as E490.
  { change 490%nat with (17 + 473)%nat. rewrite <- drop_drop, E17. by rewrite drop_app_length'. }
  rewrite E16, E17, E490. unfold tail. rewrite !take_app_length' by done.
  change (take 1 ([a] ++ r ++ le32 h)) with [a]. change (take 4 (le32 h)) with (le32 h).
  rewrite !of_le32, !of_le16 by done. cbn [of_le]. f_equal. lia.
Qed.

Lemma make_container_ok name fw :
  length name = 16%nat → bytes name → bytes fw → Z.of_nat (length fw) ≤ APP_MAX_SIZE →
  container_ok (make_container name fw).
Proof.
  intros Hn Hnb Hf Hl. unfold container_ok, make_container.
  cbn [data_size data_chsum generated_for_hw_num device_id hw_version_min hw_version_max fw_name aes res hdr_chsum].
  assert (in_u32 CHSUM32_START_VALUE) as Hs by (unfold in_u32, CHSUM32_START_VALUE; lia).
  split; [layout; unfold in_u32; lia|]. split; [by apply chsum32_range|].
  split; [unfold in_u32; lia|]. unfold app_info_of.
  cbn [ai_device_id ai_hw_version_min ai_hw_version_max].
  split; [exact (of_le_field fw 8 2 Hf)|]. split; [exact (of_le_field fw 10 2 Hf)|].
  split; [exact (of_le_field fw 12 2 Hf)|]. split; [done|]. split; [unfold in_u8; lia|].
  split; [|by apply chsum32_range]. split; [apply length_replicate|].
  apply Forall_replicate. unfold in_u8. lia.
Qed.

(** ** The printed container *)

Lemma last_hi_range addr hi_word data : in_u16 hi_word → 0 ≤ addr →
  addr + Z.of_nat (length data) ≤ 4294967296 → in_u16 (last_hi addr hi_word data).
Proof.
  intros Hh Ha He. unfold last_hi. destruct data as [|b data]; [done|].
  cbn [length] in *. unfold in_u16. Z.div_mod_to_equations. lia.
Qed.

(** The lines printed for an image: the header, the image, the end record. *)
Definition tool_lines (name fw : list Z) : list (list Z) :=
  let c := container_bytes (make_container name fw) in
  flush_lines 512 DEST_REMAP_ADDRESS 0 c
    ++ flush_lines (length fw) (DEST_REMAP_ADDRESS + sizeof_container) (last_hi DEST_REMAP_ADDRESS 0 c) fw
    ++ [str ":00000001FF"].

Section printed.
Context {A : Type} (write : Z → list Z → A → outcome (bool * A)) (flush : A → A).

Lemma parse_end_record hi st :
  parse_lines write flush [str ":00000001FF"] hi st = Ok (0, flush st).
Proof. reflexivity. Qed.

(** Reading the tool's output writes the header and the image to
    [DEST_REMAP_ADDRESS], flushes the cache and leaves the address state as at
    the beginning. *)
Lemma container_lines name page app t st :
  length name = 16%nat → bytes name → length page = 16%nat → bytes page → bytes app →
  of_le (take 4 page) = Z.of_nat (length app) →
  APP_INFO_PAGE_SIZE + Z.of_nat (length app) ≤ APP_MAX_SIZE → loaded (image_of page app) t →
  let c := container_bytes (make_container name (image_of page app)) in
  container_tool_main name t = Ok (text_of (tool_lines name (image_of page app))) ∧
    parse_lines write flush (tool_lines name (image_of page app)) 0 st =
      (st ← write_all write (chunks 512 DEST_REMAP_ADDRESS c) st;
       st ← write_all write (chunks (length (image_of page app)) (DEST_REMAP_ADDRESS + 512)
                              (image_of page app)) st;
       Ok (0, flush st)).
Proof.
  intros Hn Hnb Hpg Hpb Hab Hsize Hfit (m & -> & Hm) c. unfold container_tool_main, os_assert.
  cbn [cn_app_size fw_data]. rewrite Nat2Z.id, take_app_length. set (fw := image_of page app) in *.
  assert (length fw = 512 + length app)%nat as Hfl.
  { unfold fw, image_of. rewrite !length_app, length_replicate, Hpg. lia. }
  assert (bytes fw) as Hfb.
  { unfold fw, image_of, bytes. rewrite !Forall_app. split; [done|]. split; [|done].
    apply Forall_replicate. unfold in_u8. lia. }
  assert (ai_size (app_info_of (fw ++ replicate m 255)) = Z.of_nat (length app)) as ->.
  { unfold app_info_of. cbn [ai_size]. rewrite take_app_le by lia.
    unfold fw, image_of. by rewrite take_app_le by lia. }
  rewrite u32_small by (layout; unfold in_u32; lia).
  rewrite (proj2 (Z.eqb_eq _ _)) by (layout; lia). cbn [mbind outcome_bind].
  pose proof (make_container_ok name fw Hn Hnb Hfb ltac:(layout; lia)) as Hc. fold c.
  pose proof (container_bytes_length _ Hc) as Hcl. fold c in Hcl.
  pose proof (container_bytes_bytes _ Hc) as Hcb. fold c in Hcb.
  assert (in_u16 0) as H0 by (unfold in_u16; lia).
  unfold ihex_flush. rewrite flush_loop_lines;
    [|done|unfold DEST_REMAP_ADDRESS; lia|unfold DEST_REMAP_ADDRESS; lia|lia].
  cbn [mbind outcome_bind]. set (hi := last_hi DEST_REMAP_ADDRESS 0 c).
  assert (in_u16 hi) as Hhi
    by (apply last_hi_range; [done|unfold DEST_REMAP_ADDRESS; lia..]).
  rewrite flush_loop_lines;
    [|done|unfold DEST_REMAP_ADDRESS, sizeof_container; lia|
      unfold DEST_REMAP_ADDRESS, sizeof_container; layout; lia|lia].
  cbn [mbind outcome_bind]. rewrite Hcl.
  unfold tool_lines. cbv zeta. fold c hi.
  split; [by rewrite !text_of_app, text_of_1|].
  rewrite parse_lines_app. change 0 with (0 * 65536) at 1.
  rewrite parse_lines_flush; [|done|unfold DEST_REMAP_ADDRESS; lia|unfold DEST_REMAP_ADDRESS; lia|lia|done].
  destruct (write_all write (chunks 512 DEST_REMAP_ADDRESS c) st) as [st1|]; [|done].
  cbn [mbind outcome_bind]. fold hi. rewrite parse_lines_app.
  rewrite parse_lines_flush;
    [|done|unfold DEST_REMAP_ADDRESS, sizeof_container; lia|
      unfold DEST_REMAP_ADDRESS, sizeof_container; layout; lia|lia|done].
  unfold sizeof_container.
  destruct (write_all write (chunks (length fw) (DEST_REMAP_ADDRESS + 512) fw) st1) as [st2|]; done.
Qed.

End printed.

(** ** Witnesses *)

Lemma crc_tool_page_witness :
  ∃ t, write_all _compute_crc [(APP_INFO_PAGE_ADDR, replicate 16 1); (APP_START_ADDR, [1; 2; 3])]
         crc_tool_init = Ok t ∧
    crc_tool_finish t = Ok (le32 3 ++ le32 1438416925 ++ replicate 8 1 ++ replicate 496 255).
Proof.
  destruct (crc_tool_page (replicate 16 1) [(APP_START_ADDR, [1; 2; 3])] [1; 2; 3])
    as (t & H1 & H2 & _).
  - reflexivity.
  - vm_compute. discriminate.
  - done.
  - reflexivity.
  - discriminate.
  - repeat apply Forall_cons_2; try apply Forall_nil_2; unfold in_u8; lia.
  - cbn [length]. layout. lia.
  - exists t. split; [exact H1|]. rewrite H2. vm_compute. reflexivity.
Defined.

Lemma load_bin_overruns_witness :
  _load_bin (APP_INFO_PAGE_ADDR + APP_MAX_SIZE - 8) (replicate 16 0) container_tool_init = Err FBounds.
Proof.
  apply (load_bin_overruns [] container_tool_init _ (replicate 16 0) loaded_init);
    rewrite ?length_replicate; cbn [length]; layout; lia.
Defined.
