(* ===== verification/FwFiles.v ===== *)
(** * The firmware tools over whole files (ut/app_crc/main.c, ut/app_container/main.c)

    Each tool reads a text in the Intel HEX format from its standard input and
    prints another one.  Here the two [main] functions, and what the text they
    print says when it is read again. *)

From S2P Require Import Prelude CText Ihex FwTools.

(** ** The programs *)

(** src/ut/app_crc/main.c:149-149 (MAX_FILE_SIZE) *)
Definition MAX_FILE_SIZE : Z := 5 * 1024 * 1024.

(** The text printed so far and the [hi_word] of [ihex_flush]. *)
(** src/ut/app_crc/main.c:35-45 (_flush_data) *)
Definition _flush_data (addr : Z) (data : list Z) (o : list Z * Z) : outcome (bool * (list Z * Z)) :=
  let len := Z.of_nat (length data) in
  if (APP_INFO_PAGE_ADDR <=? addr) && (u32 (addr + len) <? APP_INFO_PAGE_ADDR + APP_INFO_PAGE_SIZE) then Ok (true, o)
  else
    '(t, hi_word) ← ihex_flush addr (snd o) data;
    Ok (true, (fst o ++ t, hi_word)).

(** The text is read twice; the statics of [_rx_feed] and [ihex_parse] go on
    from the first pass. *)
(** src/ut/app_crc/main.c:147-196 (main) *)
Definition app_crc_main (data : list Z) : outcome (list Z) :=
  _ ← os_assert (Z.of_nat (length data) <? MAX_FILE_SIZE);
  '(ihex_buf, rx_len, hi, t) ← rx_feed_all _compute_crc data (replicate 256 0, 0, 0, crc_tool_init);
  page ← crc_tool_finish t;
  o ← ihex_flush APP_INFO_PAGE_ADDR 0 (take (Z.to_nat (ct_info_size t)) page);
  '(_, _, _, o) ← rx_feed_all _flush_data data (ihex_buf, rx_len, hi, o);
  Ok (fst o ++ str ":00000001FF" ++ NL).

(** Hexadecimal output without encryption; [name] as in [make_container]. *)
(** src/ut/app_container/main.c:126-191 (main) *)
Definition app_container_main (name data : list Z) : outcome (list Z) :=
  '(_, _, _, t) ← rx_feed_all _load_bin data (replicate 256 0, 0, 0, container_tool_init);
  container_tool_main name t.

(** ** What a text says *)

(** Fed to any of the tools, the text calls the callback with the pieces [cs], in
    order; [hi] and [hi'] are the address state before and after it. *)
Definition hex_part (text : list Z) (cs : list (Z * list Z)) (hi hi' : Z) : Prop :=
  ∀ (A : Type) (write : Z → list Z → A → outcome (bool * A)) b n st st',
    length b = 256%nat → write_all write cs st = Ok st' →
    ∃ b' n', length b' = 256%nat ∧ rx_feed_all write text (b, n, hi, st) = Ok (b', n', hi', st').
Definition hex_file (text : list Z) (cs : list (Z * list Z)) : Prop := hex_part text cs 0 0.

Lemma hex_part_nil hi : hex_part [] [] hi hi.
Proof. intros A write b n st st' Hb [= <-]. by exists b, n. Qed.

Lemma hex_part_app a b cs ds hi hi1 hi2 :
  hex_part a cs hi hi1 → hex_part b ds hi1 hi2 → hex_part (a ++ b) (cs ++ ds) hi hi2.
Proof.
  intros Ha Hb A write buf n st st' Hl Hw. rewrite write_all_app in Hw.
  destruct (write_all write cs st) as [st1|] eqn:E; [|discriminate Hw]. cbn [mbind outcome_bind] in Hw.
  destruct (Ha _ write buf n st st1 Hl E) as (b1 & n1 & Hl1 & E1).
  destruct (Hb _ write b1 n1 st1 st' Hl1 Hw) as (b2 & n2 & Hl2 & E2).
  exists b2, n2. split; [exact Hl2|]. rewrite feed_app, E1. exact E2.
Qed.

Lemma hex_part_flush fuel addr hi_word data :
  bytes data → 0 ≤ addr → addr + Z.of_nat (length data) ≤ 4294967296 → (length data <= fuel)%nat → in_u16 hi_word →
  hex_part (text_of (flush_lines fuel addr hi_word data)) (chunks fuel addr data)
    (hi_word * 65536) (last_hi addr hi_word data * 65536).
Proof. intros Hd Ha He Hf Hh A write b n st st' Hb Hw. by apply feed_flush. Qed.

Lemma hex_part_end hi : hex_part (str ":00000001FF" ++ NL) [] hi 0.
Proof.
  intros A write b n st st' Hb [= <-]. change (str ":00000001FF") with (rec_text 1 0 []).
  destruct (feed_rec write 1 0 [] b n hi st) as (rest & Hl & E); [done|done|constructor|cbn; lia|exact Hb|].
  destruct (ihex_line_record 1 0 [] rest) as (t & Et & Ht); [done|done|constructor|cbn; lia|].
  rewrite E. unfold host_ihex_parse. rewrite Et. cbn [mbind outcome_bind Z.eqb Pos.eqb].
  exists ([] ++ t), 0. split; [|reflexivity]. by rewrite Ht.
Qed.

(** ** The second pass of the checksum tool *)

(** The pieces as [ihex_flush] divides them. *)
Definition rechunk (cs : list (Z * list Z)) : list (Z * list Z) :=
  concat ((λ '(a, d), chunks (length d) a d) <$> cs).

Lemma payload_app a b : payload (a ++ b) = payload a ++ payload b.
Proof. unfold payload. by rewrite fmap_app, concat_app. Qed.

Lemma pieces_app addr a b :
  pieces addr (a ++ b) ↔ pieces addr a ∧ pieces (addr + Z.of_nat (length (payload a))) b.
Proof.
  revert addr. induction a as [|[x d] a IH]; intros addr; cbn [app pieces].
  - change (Z.of_nat (length (payload []))) with 0. rewrite Z.add_0_r. tauto.
  - rewrite IH. change (payload ((x, d) :: a)) with (d ++ payload a). rewrite length_app.
    replace (addr + Z.of_nat (length d) + Z.of_nat (length (payload a)))
      with (addr + Z.of_nat (length d + length (payload a))) by lia. tauto.
Qed.

Lemma rechunk_pieces addr cs :
  pieces addr cs → pieces addr (rechunk cs) ∧ payload (rechunk cs) = payload cs.
Proof.
  revert addr. induction cs as [|[a d] cs IH]; intros addr Hp; [done|].
  cbn [pieces] in Hp. destruct Hp as [-> Hp]. destruct (IH _ Hp) as [H1 H2].
  destruct (chunks_pieces (length d) addr d ltac:(lia)) as [H3 H4].
  change (rechunk ((addr, d) :: cs)) with (chunks (length d) addr d ++ rechunk cs).
  change (payload ((addr, d) :: cs)) with (d ++ payload cs).
  rewrite pieces_app, payload_app, H2, H4. split; [|reflexivity]. split; [exact H3|exact H1].
Qed.

Lemma payload_bytes cs : bytes (payload cs) → Forall (λ c, bytes (snd c)) cs.
Proof.
  induction cs as [|[a d] cs IH]; [constructor|].
  change (payload ((a, d) :: cs)) with (d ++ payload cs). intros [Hd Hcs]%Forall_app.
  constructor; [exact Hd|]. by apply IH.
Qed.

(** A piece of code is printed, whatever was printed before. *)
Lemma flush_data_step addr d out hi_word :
  APP_START_ADDR ≤ addr → addr + Z.of_nat (length d) ≤ APP_START_ADDR + APP_MAX_SIZE → bytes d →
  _flush_data addr d (out, hi_word)
    = Ok (true, (out ++ text_of (flush_lines (length d) addr hi_word d), last_hi addr hi_word d)).
Proof.
  intros Ha He Hd. unfold _flush_data. rewrite u32_small by (layout; unfold in_u32; lia).
  rewrite (proj2 (Z.ltb_ge _ _)) by (layout; lia). rewrite andb_false_r. cbn [fst snd].
  unfold ihex_flush. rewrite flush_loop_lines by (assumption || layout; lia). reflexivity.
Qed.

(** The text printed for consecutive pieces of code says these pieces. *)
Lemma flush_data_pieces cs addr out hi_word :
  pieces addr cs → APP_START_ADDR ≤ addr → bytes (payload cs) → in_u16 hi_word →
  addr + Z.of_nat (length (payload cs)) ≤ APP_START_ADDR + APP_MAX_SIZE →
  ∃ text hi_word', write_all _flush_data cs (out, hi_word) = Ok (out ++ text, hi_word') ∧
    hex_part text (rechunk cs) (hi_word * 65536) (hi_word' * 65536).
Proof.
  revert addr out hi_word. induction cs as [|[a d] cs IH]; intros addr out hi_word Hp Ha Hb Hh He.
  - exists [], hi_word. split; [by rewrite app_nil_r|]. apply hex_part_nil.
  - cbn [pieces] in Hp. destruct Hp as [-> Hp].
    change (payload ((addr, d) :: cs)) with (d ++ payload cs) in Hb, He. rewrite length_app in He.
    apply Forall_app in Hb as [Hd Hb]. cbn [write_all].
    rewrite flush_data_step by (assumption || lia). cbn [mbind outcome_bind].
    assert (in_u16 (last_hi addr hi_word d)) as Hh'.
    { apply last_hi_range; [exact Hh|layout; lia..]. }
    destruct (IH (addr + Z.of_nat (length d)) (out ++ text_of (flush_lines (length d) addr hi_word d))
      (last_hi addr hi_word d)) as (text & h & E & Hx); [exact Hp|lia|exact Hb|exact Hh'|lia|].
    eexists _, h. rewrite <- app_assoc in E. split; [exact E|].
    change (rechunk ((addr, d) :: cs)) with (chunks (length d) addr d ++ rechunk cs).
    eapply hex_part_app; [|exact Hx]. apply hex_part_flush; (assumption || layout; lia).
Qed.

(** The information page is left to the first output. *)
Lemma flush_data_info info cs o :
  length info = 16%nat → write_all _flush_data ((APP_INFO_PAGE_ADDR, info) :: cs) o = write_all _flush_data cs o.
Proof.
  intros Hi. assert (_flush_data APP_INFO_PAGE_ADDR info o = Ok (true, o)) as E.
  { unfold _flush_data. rewrite Hi. reflexivity. }
  cbn [write_all]. rewrite E. reflexivity.
Qed.

(** ** The files *)

(** The page the checksum tool makes of the linker's. *)
Definition crc_page (info app : list Z) : list Z :=
  le32 (Z.of_nat (length app)) ++ le32 (app_crc app) ++ drop 8 info.

Lemma crc_page_length info app : length info = 16%nat → length (crc_page info app) = 16%nat.
Proof. intros Hi. unfold crc_page. rewrite !length_app, length_drop, Hi. reflexivity. Qed.

Lemma crc_page_bytes info app : bytes info → bytes (crc_page info app).
Proof.
  intros Hi. unfold crc_page, bytes. rewrite !Forall_app. split; [apply le32_bytes|].
  split; [apply le32_bytes|]. by apply Forall_drop.
Qed.

Lemma crc_page_fixed info app :
  crc_page info app = le32 (Z.of_nat (length app)) ++ le32 (app_crc app) ++ drop 8 (crc_page info app).
Proof. reflexivity. Qed.

(** The checksum tool, from the text of an application to the text of the same
    application with its size and CRC filled in, divided anew. *)
Theorem app_crc_main_file text info cs app :
  hex_file text ((APP_INFO_PAGE_ADDR, info) :: cs) → Z.of_nat (length text) < MAX_FILE_SIZE →
  length info = 16%nat → bytes info → info_device info ≠ 65535 →
  pieces APP_START_ADDR cs → payload cs = app → cs ≠ [] → bytes app → Z.of_nat (length app) ≤ APP_MAX_SIZE →
  ∃ out, app_crc_main text = Ok out ∧
    hex_file out ((APP_INFO_PAGE_ADDR, crc_page info app) :: rechunk cs).
Proof.
  intros Hf Ht Hi Hib Hdev Hp Hpay Hne Hb Hmax. unfold app_crc_main, os_assert.
  rewrite (proj2 (Z.ltb_lt _ _) Ht). cbn [mbind outcome_bind].
  destruct (crc_tool_page info cs app Hi Hdev Hp Hpay Hne Hb Hmax) as (t & Et & Ep & Es).
  destruct (Hf _ _compute_crc (replicate 256 0) 0 _ t ltac:(apply length_replicate) Et) as (b1 & n1 & Hl1 & E1).
  rewrite E1. cbn [mbind outcome_bind]. rewrite Ep. cbn [mbind outcome_bind]. rewrite Es.
  assert (take (Z.to_nat 16) (le32 (Z.of_nat (length app)) ++ le32 (app_crc app) ++ drop 8 info ++ replicate 496 255)
    = crc_page info app) as ->.
  { unfold crc_page. rewrite !app_assoc. apply take_app_length'.
    rewrite !length_app, length_drop, Hi. reflexivity. }
  pose proof (crc_page_length info app Hi) as Hpl. pose proof (crc_page_bytes info app Hib) as Hpb.
  set (page := crc_page info app) in *.
  assert (in_u16 0) as H0 by (unfold in_u16; lia).
  unfold ihex_flush. rewrite flush_loop_lines by (assumption || layout; lia). cbn [mbind outcome_bind].
  set (o := text_of (flush_lines (length page) APP_INFO_PAGE_ADDR 0 page)).
  set (h := last_hi APP_INFO_PAGE_ADDR 0 page).
  assert (in_u16 h) as Hh by (apply last_hi_range; [exact H0|layout; lia..]).
  destruct (flush_data_pieces cs APP_START_ADDR o h) as (txt & h' & Ew & Hx);
    [exact Hp|lia|by rewrite Hpay|exact Hh|rewrite Hpay; lia|].
  rewrite <- (flush_data_info info) in Ew by exact Hi.
  destruct (Hf _ _flush_data b1 n1 _ _ Hl1 Ew) as (b2 & n2 & _ & E2).
  rewrite E2. cbn [mbind outcome_bind fst]. eexists. split; [reflexivity|]. rewrite <- app_assoc.
  apply (hex_part_app _ _ [(APP_INFO_PAGE_ADDR, page)] (rechunk cs) _ (h * 65536)).
  - assert ([(APP_INFO_PAGE_ADDR, page)] = chunks (length page) APP_INFO_PAGE_ADDR page) as ->.
    { clearbody page. rewrite Hpl. destruct page as [|x page]; [discriminate Hpl|].
      cbn [chunks]. rewrite take_ge, drop_ge by lia. reflexivity. }
    unfold o, h. apply (hex_part_flush (length page) APP_INFO_PAGE_ADDR 0 page); (assumption || layout; lia).
  - rewrite <- (app_nil_r (rechunk cs)). eapply hex_part_app; [exact Hx|]. apply hex_part_end.
Qed.

(** The container tool, from the text of an image to the lines of its container. *)
Lemma app_container_main_file text name page app cs :
  hex_file text ((APP_INFO_PAGE_ADDR, page) :: cs) →
  length page = 16%nat → pieces APP_START_ADDR cs → payload cs = app → cs ≠ [] →
  APP_INFO_PAGE_SIZE + Z.of_nat (length app) ≤ APP_MAX_SIZE →
  ∃ t, app_container_main name text = container_tool_main name t ∧ loaded (image_of page app) t.
Proof.
  intros Hf Hpl Hp Hpay Hne Hmax.
  destruct (container_tool_loads page app cs Hpl Hp Hpay Hne Hmax) as (t & Et & Hload).
  destruct (Hf _ _load_bin (replicate 256 0) 0 _ t ltac:(apply length_replicate) Et) as (b & n & _ & E).
  exists t. split; [|exact Hload]. unfold app_container_main. rewrite E. reflexivity.
Qed.

(** ** Witness *)

(** A page and three bytes of code, as the tools themselves print them. *)
Lemma app_crc_main_file_witness :
  ∃ out, app_crc_main (text_of (flush_lines 16 APP_INFO_PAGE_ADDR 0 (replicate 16 1))
      ++ text_of (flush_lines 3 APP_START_ADDR 2048 [1; 2; 3]) ++ str ":00000001FF" ++ NL) = Ok out ∧
    hex_file out [(APP_INFO_PAGE_ADDR, crc_page (replicate 16 1) [1; 2; 3]); (APP_START_ADDR, [1; 2; 3])].
Proof.
  assert (bytes [1; 2; 3]) as Hb by (repeat apply Forall_cons_2; try apply Forall_nil_2; unfold in_u8; lia).
  assert (bytes (replicate 16 1)) as Hi by (apply Forall_replicate; unfold in_u8; lia).
  destruct (app_crc_main_file (text_of (flush_lines 16 APP_INFO_PAGE_ADDR 0 (replicate 16 1))
      ++ text_of (flush_lines 3 APP_START_ADDR 2048 [1; 2; 3]) ++ str ":00000001FF" ++ NL)
    (replicate 16 1) [(APP_START_ADDR, [1; 2; 3])] [1; 2; 3]) as (out & E & H).
  - apply (hex_part_app _ _ [(APP_INFO_PAGE_ADDR, replicate 16 1)] _ _ (2048 * 65536)).
    + apply (hex_part_flush 16 APP_INFO_PAGE_ADDR 0 (replicate 16 1) Hi);
        rewrite ?length_replicate; unfold in_u16; layout; lia.
    + apply (hex_part_app _ _ [(APP_START_ADDR, [1; 2; 3])] [] _ (2048 * 65536)).
      * apply (hex_part_flush 3 APP_START_ADDR 2048 [1; 2; 3] Hb); cbn [length]; unfold in_u16; layout; lia.
      * apply hex_part_end.
  - vm_compute. reflexivity.
  - reflexivity.
  - exact Hi.
  - vm_compute. discriminate.
  - cbn [pieces]. split; [reflexivity|exact I].
  - reflexivity.
  - discriminate.
  - exact Hb.
  - cbn [length]. layout. lia.
  - exists out. split; [exact E|exact H].
Defined.
