(* ===== verification/Boot.v ===== *)
(** * The boot loader (bootloader/main.c, ext_storage.c, container.c)

    Receives an image over the serial port into the external flash, checks the
    container, programs the internal flash from it and starts the application
    when its CRC holds. *)

From S2P Require Import Prelude CText Storage Ihex FwTools.

(** ** What the SDK provides

    The 32-bit checksum, which has to be the one the container tool computes,
    the cache of the external flash driver, and the internal flash. *)
Class BootLib (F : FlashLib) := {
  sdk_chsum32 : list Z → Z → Z;
  sdk_chsum32_start : Z;
  flash_flush_cache : fl → fl;
  ifl : Type;
  int_byte : ifl → Z → Z;
  int_flash_write : Z → list Z → ifl → ifl
}.

(** Programming stores the bytes and leaves what is below them; nothing is said
    of what is above (it may have been erased with the page). *)
Class BootSpec (F : FlashLib) (B : BootLib F) := {
  sdk_chsum32_tool : ∀ l s, sdk_chsum32 l s = chsum32 l s;
  sdk_chsum32_start_tool : sdk_chsum32_start = CHSUM32_START_VALUE;
  flush_byte : ∀ f x, flash_byte (flash_flush_cache f) x = flash_byte f x;
  int_write_in : ∀ a l f i v, l !! i = Some v → int_byte (int_flash_write a l f) (a + Z.of_nat i) = v;
  int_write_below : ∀ a l f x, x < a → int_byte (int_flash_write a l f) x = int_byte f x
}.

Section boot.
Context `{F : FlashLib} `{B : !BootLib F}.

(** ** The external flash *)

(** [_storage_ready], whether [fw_container] points to a header, and the chip. *)
(** src/bootloader/ext_storage.c:22-34 (_storage_ready, fw_container) *)
Record ext_storage := ExtStorage { bl_ready : bool; fw_container : bool; bl_chip : fl }.

(** src/bootloader/ext_storage.h:7-7 (EXT_STORAGE_SECTOR_SIZE) *)
Definition SECTOR_SIZE : Z := 512.
(** src/bootloader/ext_storage.c:18-20 (_FW_MAX_SIZE, _FW_ADDR, _FW_START_SECTOR) *)
Definition _FW_START_SECTOR : Z := _FW_ADDR / SECTOR_SIZE.

(** src/bootloader/ext_storage.c:36-39 (_sector_read) *)
Definition _sector_read (sector : Z) (e : ext_storage) : option (list Z) :=
  flash_read_data (u32 (sector * SECTOR_SIZE)) SECTOR_SIZE (bl_chip e).

(** src/bootloader/ext_storage.c:41-56 (ext_storage_init) *)
Definition ext_storage_init (e : ext_storage) : bool * ext_storage :=
  let '(result, c) := flash_init (bl_chip e) in
  (result, ExtStorage result (fw_container e) c).

(** src/bootloader/container.c:7-25 (container_valid) *)
Definition container_valid (data : list Z) (len : Z) : bool :=
  if negb (sizeof_container =? len) then false
  else hdr_chsum (container_of data) =? sdk_chsum32 (take (Z.to_nat (len - 4)) data) sdk_chsum32_start.

(** src/bootloader/container.c:27-34 (container_compatible) *)
Definition container_compatible (c : container_hdr_t) : bool := true.

(** The checksum over the sectors after [s], [l] bytes still to go; [None] when
    a sector cannot be read. *)
(** src/bootloader/ext_storage.c:105-115 (ext_storage_check_fw) *)
Fixpoint chsum_sectors (fuel : nat) (l s fw_chsum : Z) (e : ext_storage) : outcome (option Z) :=
  if l <=? 0 then Ok (Some fw_chsum)
  else
    match fuel with
    | O => Err FAssert
    | S fuel =>
        let s := s + 1 in
        match _sector_read s e with
        | None => Ok None
        | Some buf =>
            chsum_sectors fuel (l - SECTOR_SIZE) s
              (sdk_chsum32 (take (Z.to_nat (if SECTOR_SIZE <? l then SECTOR_SIZE else l)) buf) fw_chsum) e
        end
    end.

(** A container that passed, or [None].  [APP_MAX_SIZE] is 959 sectors. *)
(** src/bootloader/ext_storage.c:58-124 (ext_storage_check_fw) *)
Definition ext_storage_check_fw (e : ext_storage) : outcome (option container_hdr_t * ext_storage) :=
  if negb (bl_ready e) then Ok (None, e)
  else
    let s := _FW_START_SECTOR in
    match _sector_read s e with
    | None => Ok (None, e)
    | Some buf =>
        if negb (container_valid buf SECTOR_SIZE) then Ok (None, e)
        else
          let c := container_of buf in
          if negb (container_compatible c) then Ok (None, e)
          else if (data_size c <? APP_MIN_SIZE) || (APP_MAX_SIZE <? data_size c) then Ok (None, e)
          else
            r ← chsum_sectors 960 (data_size c) s sdk_chsum32_start e;
            match r with
            | None => Ok (None, e)
            | Some fw_chsum =>
                if fw_chsum =? data_chsum c then Ok (Some c, ExtStorage (bl_ready e) true (bl_chip e))
                else Ok (None, e)
            end
    end.

(** [None]: false, the destination unchanged. *)
(** src/bootloader/ext_storage.c:126-154 (ext_storage_read_fw) *)
Definition ext_storage_read_fw (len offset : Z) (e : ext_storage) : outcome (option (list Z)) :=
  if negb (len =? SECTOR_SIZE) || negb (offset mod SECTOR_SIZE =? 0) then Ok None
  else
    _ ← os_assert (fw_container e);
    let offset := u32 (offset + SECTOR_SIZE) in
    let s := u32 (_FW_ADDR + offset) / SECTOR_SIZE in
    Ok (_sector_read s e).

(** src/bootloader/ext_storage.c:156-168 (ext_storage_write_data) *)
Definition ext_storage_write_data (addr : Z) (src : list Z) (e : ext_storage)
    : outcome (bool * ext_storage) :=
  let len := Z.of_nat (length src) in
  if negb (bl_ready e) then Ok (false, e)
  else if (addr <? _FW_ADDR) || (_FW_ADDR + _FW_MAX_SIZE <? u32 (addr + len)) then Ok (false, e)
  else
    let '(ok, c) := flash_write_data addr src (bl_chip e) in
    Ok (ok, ExtStorage (bl_ready e) (fw_container e) c).

(** src/bootloader/ext_storage.c:170-173 (ext_storage_flush_cache) *)
Definition ext_storage_flush_cache (e : ext_storage) : ext_storage :=
  ExtStorage (bl_ready e) (fw_container e) (flash_flush_cache (bl_chip e)).

(** ** Programming and starting the application *)

(** One sector after the other; a sector that cannot be read leaves the buffer
    as it was, and is programmed all the same. *)
(** src/bootloader/main.c:151-158 (main_flash_app) *)
Fixpoint flash_loop (fuel : nat) (i dest size : Z) (buf : list Z) (e : ext_storage) (f : ifl)
    : outcome ifl :=
  if size <=? i then Ok f
  else
    match fuel with
    | O => Err FAssert
    | S fuel =>
        r ← ext_storage_read_fw SECTOR_SIZE i e;
        let buf := match r with Some data => data | None => buf end in
        let f := int_flash_write dest buf f in
        flash_loop fuel (u32 (i + SECTOR_SIZE)) (u32 (dest + SECTOR_SIZE)) size buf e f
    end.

(** [buf] is the uninitialised buffer on the stack. *)
(** src/bootloader/main.c:133-161 (main_flash_app) *)
Definition main_flash_app (buf : list Z) (e : ext_storage) (f : ifl)
    : outcome (bool * ext_storage * ifl) :=
  let '(ok, e) := ext_storage_init e in
  if negb ok then Ok (false, e, f)
  else
    '(c, e) ← ext_storage_check_fw e;
    match c with
    | None => Ok (false, e, f)
    | Some container =>
        f ← flash_loop 960 0 APP_INFO_PAGE_ADDR (data_size container) buf e f;
        Ok (true, e, f)
    end.

(** A run of the internal flash. *)
Definition int_read (f : ifl) (a n : Z) : list Z := int_byte f <$> seqZ a n.

(** [APP_INFO] is the page in front of the application. *)
(** src/bootloader/main.c:163-185 (main_app_ok) *)
Definition main_app_ok (f : ifl) : bool :=
  let info := app_info_of (int_read f APP_INFO_PAGE_ADDR 16) in
  if (APP_MAX_SIZE <? ai_size info) || (ai_size info <? APP_MIN_SIZE) then false
  else app_crc (int_read f APP_START_ADDR (ai_size info)) =? ai_crc info.

(** The reasons of a reset, and what [GPREG_BOOT] can ask for. *)
(** src/bootloader/main.c:234-241 (main) *)
Inductive reset_type := RESET_POWER_ON | RESET_USER_RQ | RESET_WDT | RESET_BOD | RESET_UNKNOWN.
Inductive boot_rq := GPREG_BOOT_NONE | GPREG_BOOT_FLASH_RQ | GPREG_BOOT_STAY_IN_BOOT.

(** Where [main] ends: in the boot loader's own task, or in the application. *)
Inductive boot_end := BlTask | RunApp | NoFirmware.

Record boot_state := BootState {
  gpreg_boot : boot_rq;
  gpreg_bootloop : Z;
  b_ext : ext_storage;
  b_int : ifl
}.

(** src/bootloader/main.c:198-299 (main) *)
Definition boot_main (reset : reset_type) (buf : list Z) (b : boot_state)
    : outcome (boot_end * boot_state) :=
  let app_ok := main_app_ok (b_int b) in
  let user_rq := match reset with RESET_USER_RQ => true | _ => false end in
  let flash_rq := user_rq && match gpreg_boot b with GPREG_BOOT_FLASH_RQ => true | _ => false end in
  let stay := user_rq && match gpreg_boot b with GPREG_BOOT_STAY_IN_BOOT => true | _ => false end in
  if stay then
    let '(_, e) := ext_storage_init (b_ext b) in
    Ok (BlTask, BootState GPREG_BOOT_NONE (gpreg_bootloop b) e (b_int b))
  else
    let rq := if user_rq then GPREG_BOOT_NONE else gpreg_boot b in
    '(app_ok, e, f) ← (if flash_rq || negb app_ok then
        '(_, e, f) ← main_flash_app buf (b_ext b) (b_int b);
        Ok (main_app_ok f, e, f)
      else Ok (app_ok, b_ext b, b_int b));
    let loop := u32 (gpreg_bootloop b + 1) in
    if 5 <? loop then
      let '(_, e) := ext_storage_init e in
      Ok (BlTask, BootState GPREG_BOOT_NONE 0 e f)
    else if (app_ok : bool) then Ok (RunApp, BootState rq loop e f)
    else Ok (NoFirmware, BootState GPREG_BOOT_NONE loop e f).

End boot.

(** ** Contents of the flashes *)

Section laws.
Context `{F : FlashLib} `{FS : !FlashSpec F} `{FR : !FlashReliable F}.
Context `{B : !BootLib F} `{BS : !BootSpec F B}.

Definition ext_read (e : ext_storage) (a n : Z) : list Z := flash_byte (bl_chip e) <$> seqZ a n.

Lemma ext_read_length e a n : 0 ≤ n → length (ext_read e a n) = Z.to_nat n.
Proof. intros Hn. unfold ext_read. by rewrite length_fmap, length_seqZ. Qed.

Lemma fmap_seqZ_split (f : Z → Z) a n m : 0 ≤ n → 0 ≤ m →
  f <$> seqZ a (n + m) = (f <$> seqZ a n) ++ (f <$> seqZ (a + n) m).
Proof. intros Hn Hm. by rewrite seqZ_app, fmap_app. Qed.

Lemma fmap_seqZ_take (f : Z → Z) a n m : 0 ≤ n ≤ m →
  take (Z.to_nat n) (f <$> seqZ a m) = f <$> seqZ a n.
Proof.
  intros Hn. replace m with (n + (m - n)) by lia. rewrite fmap_seqZ_split by lia.
  apply take_app_length'. by rewrite length_fmap, length_seqZ.
Qed.

Lemma fmap_seqZ_ext (f g : Z → Z) a n : (∀ x, a ≤ x < a + n → f x = g x) → f <$> seqZ a n = g <$> seqZ a n.
Proof.
  intros H. apply list_fmap_ext. intros i x Hx. apply lookup_seqZ in Hx as [-> Hi]. apply H. lia.
Qed.

Lemma fmap_seqZ_list (f : Z → Z) a l :
  (∀ i v, l !! i = Some v → f (a + Z.of_nat i) = v) → f <$> seqZ a (Z.of_nat (length l)) = l.
Proof.
  intros H. apply list_eq. intros i. rewrite list_lookup_fmap.
  destruct (decide (i < length l)%nat) as [Hi|Hi].
  - destruct (lookup_lt_is_Some_2 l i Hi) as [v Hv]. rewrite Hv.
    rewrite lookup_seqZ_lt by lia. cbn. f_equal. by apply H.
  - rewrite !lookup_ge_None_2; [done|lia|]. rewrite length_seqZ. lia.
Qed.

(** ** Checking the container *)

Lemma fw_area : _FW_ADDR + _FW_MAX_SIZE = chip_size ∧ _FW_ADDR = 3932160 ∧ _FW_MAX_SIZE = 262144.
Proof. done. Qed.

Lemma sector_read_ok s e : 0 ≤ s → s * 512 + 512 ≤ chip_size →
  _sector_read s e = Some (ext_read e (s * 512) 512).
Proof.
  intros Hs He. unfold _sector_read. change SECTOR_SIZE with 512. unfold chip_size in He.
  rewrite u32_small by (unfold in_u32; lia).
  destruct (flash_read_ok (s * 512) 512 (bl_chip e)) as [l E]; [lia..|].
  rewrite E. f_equal. by eapply flash_read_byte; [|exact E].
Qed.

Lemma chsum_sectors_spec fuel l s chs e :
  0 ≤ s → 0 ≤ l → l ≤ 512 * Z.of_nat fuel → (s + 1) * 512 + (l + 511) / 512 * 512 ≤ chip_size →
  chsum_sectors fuel l s chs e = Ok (Some (chsum32 (ext_read e ((s + 1) * 512) l) chs)).
Proof.
  revert l s chs. induction fuel as [|fuel IH]; intros l s chs Hs Hl Hf Hc.
  - replace l with 0 by lia. reflexivity.
  - cbn [chsum_sectors]. destruct (Z.leb_spec l 0).
    { replace l with 0 by lia. reflexivity. }
    cbv zeta. rewrite sector_read_ok by (try lia; Z.div_mod_to_equations; lia).
    change SECTOR_SIZE with 512. destruct (Z.ltb_spec 512 l).
    + rewrite IH; [|lia|lia|lia|Z.div_mod_to_equations; lia].
      rewrite sdk_chsum32_tool, <- chsum32_app. do 2 f_equal. f_equal.
      rewrite take_ge by (rewrite ext_read_length; lia). unfold ext_read.
      replace ((s + 1 + 1) * 512) with ((s + 1) * 512 + 512) by lia.
      rewrite <- fmap_seqZ_split by lia. do 2 f_equal. lia.
    + assert (chsum_sectors fuel (l - 512) (s + 1)
        (sdk_chsum32 (take (Z.to_nat l) (ext_read e ((s + 1) * 512) 512)) chs) e
        = Ok (Some (sdk_chsum32 (take (Z.to_nat l) (ext_read e ((s + 1) * 512) 512)) chs))) as ->.
      { destruct fuel; cbn [chsum_sectors]; by rewrite (proj2 (Z.leb_le (l - 512) 0)) by lia. }
      rewrite sdk_chsum32_tool. unfold ext_read. by rewrite fmap_seqZ_take by lia.
Qed.

(** The header as it is in the flash, and the image after it. *)
Definition ext_header (e : ext_storage) : list Z := ext_read e _FW_ADDR 512.
Definition ext_image (e : ext_storage) (n : Z) : list Z := ext_read e (_FW_ADDR + 512) n.

Definition container_good (e : ext_storage) : bool :=
  let c := container_of (ext_header e) in
  (hdr_chsum c =? chsum32 (take 508 (ext_header e)) CHSUM32_START_VALUE)
  && (APP_MIN_SIZE <=? data_size c) && (data_size c <=? APP_MAX_SIZE)
  && (chsum32 (ext_image e (data_size c)) CHSUM32_START_VALUE =? data_chsum c).

Lemma ext_storage_check_fw_spec e :
  bl_ready e = true → data_size (container_of (ext_header e)) ≤ _FW_MAX_SIZE - 512 →
  ext_storage_check_fw e = Ok (if container_good e
    then (Some (container_of (ext_header e)), ExtStorage (bl_ready e) true (bl_chip e))
    else (None, e)).
Proof.
  intros Hr Hsz. destruct fw_area as (_ & EA & EM). unfold ext_storage_check_fw. rewrite Hr.
  cbn [negb]. change _FW_START_SECTOR with 7680.
  rewrite sector_read_ok by (unfold chip_size; lia). change (7680 * 512) with _FW_ADDR.
  fold (ext_header e). unfold container_valid. change (sizeof_container =? SECTOR_SIZE) with true.
  cbn [negb]. change (Z.to_nat (SECTOR_SIZE - 4)) with 508%nat.
  rewrite sdk_chsum32_tool, sdk_chsum32_start_tool. unfold container_good. cbv zeta.
  set (c := container_of (ext_header e)) in *.
  destruct (hdr_chsum c =? _); [|done]. cbn [andb negb container_compatible].
  destruct (Z.ltb_spec (data_size c) APP_MIN_SIZE), (Z.leb_spec APP_MIN_SIZE (data_size c)); try lia;
    [done|]. cbn [orb andb].
  destruct (Z.ltb_spec APP_MAX_SIZE (data_size c)), (Z.leb_spec (data_size c) APP_MAX_SIZE); try lia;
    [done|]. cbn [andb].
  rewrite chsum_sectors_spec.
  - cbn [mbind outcome_bind]. change ((7680 + 1) * 512) with (_FW_ADDR + 512).
    fold (ext_image e (data_size c)). by destruct (_ =? data_chsum c).
  - lia.
  - layout; lia.
  - change (Z.of_nat 960) with 960. layout; lia.
  - unfold chip_size. rewrite EM in Hsz. Z.div_mod_to_equations. lia.
Qed.

(** [ext_storage_check_fw] accepts exactly the containers whose
    header and image checksums hold and whose size is that of an application, as
    long as the image fits the firmware area. *)
Theorem ext_storage_check_fw_correct e :
  bl_ready e = true → data_size (container_of (ext_header e)) ≤ _FW_MAX_SIZE - 512 →
  ext_storage_check_fw e = Ok (if container_good e
    then (Some (container_of (ext_header e)), ExtStorage (bl_ready e) true (bl_chip e))
    else (None, e)).
Proof. apply ext_storage_check_fw_spec. Qed.

(** ** Programming *)

Lemma int_read_length f a n : 0 ≤ n → length (int_read f a n) = Z.to_nat n.
Proof. intros Hn. unfold int_read. by rewrite length_fmap, length_seqZ. Qed.

Lemma ext_image_length e n : 0 ≤ n → length (ext_image e n) = Z.to_nat n.
Proof. apply ext_read_length. Qed.

Lemma flash_loop_spec fuel k dest size buf e f :
  fw_container e = true → 0 ≤ k → dest = APP_INFO_PAGE_ADDR + 512 * k →
  size ≤ 512 * (k + Z.of_nat fuel) → size ≤ _FW_MAX_SIZE - 512 → 512 * k ≤ _FW_MAX_SIZE - 512 →
  int_read f APP_INFO_PAGE_ADDR (512 * k) = ext_image e (512 * k) →
  ∃ f' n, flash_loop fuel (512 * k) dest size buf e f = Ok f' ∧ size ≤ n ∧
    int_read f' APP_INFO_PAGE_ADDR n = ext_image e n.
Proof.
  intros He. destruct fw_area as (_ & EA & EM). rewrite EM.
  revert k dest buf f. induction fuel as [|fuel IH]; intros k dest buf f Hk -> Hsz Hmax Hkm Hf.
  - exists f, (512 * k). cbn [flash_loop]. rewrite (proj2 (Z.leb_le _ _)) by lia.
    split; [done|]. split; [lia|done].
  - cbn [flash_loop]. destruct (Z.leb_spec size (512 * k)).
    { exists f, (512 * k). done. }
    unfold ext_storage_read_fw. change (SECTOR_SIZE =? SECTOR_SIZE) with true.
    change SECTOR_SIZE with 512.
    assert ((512 * k) mod 512 = 0) as -> by (rewrite Z.mul_comm; apply Z.mod_mul; lia).
    cbn [negb orb Z.eqb]. unfold os_assert. rewrite He. cbn [mbind outcome_bind]. cbv zeta.
    rewrite EA. rewrite (u32_small (512 * k + 512)) by (unfold in_u32; lia).
    rewrite (u32_small (3932160 + _)) by (unfold in_u32; lia).
    replace ((3932160 + (512 * k + 512)) / 512) with (7681 + k) by (Z.div_mod_to_equations; lia).
    rewrite sector_read_ok by (unfold chip_size; lia). cbn [mbind outcome_bind].
    replace ((7681 + k) * 512) with (_FW_ADDR + 512 + 512 * k) by (rewrite EA; lia).
    set (d := ext_read e (_FW_ADDR + 512 + 512 * k) 512).
    set (dest := APP_INFO_PAGE_ADDR + 512 * k).
    rewrite (u32_small (dest + 512)) by (unfold dest; layout; unfold in_u32; lia).
    replace (512 * k + 512) with (512 * (k + 1)) by lia.
    assert (length d = 512%nat) as Hd by (unfold d; by rewrite ext_read_length).
    apply IH; [lia|unfold dest; lia|lia|lia| |].
    + assert (size ≤ 261632) by lia. lia.
    + replace (512 * (k + 1)) with (512 * k + 512) by lia.
      unfold int_read, ext_image, ext_read. rewrite !fmap_seqZ_split by lia. f_equal.
      * unfold int_read, ext_image, ext_read in Hf. rewrite <- Hf. apply fmap_seqZ_ext.
        intros x Hx. apply int_write_below. unfold dest. lia.
      * fold dest. replace 512 with (Z.of_nat (length d)) at 1 by (rewrite Hd; done).
        rewrite fmap_seqZ_list; [done|]. intros i v Hv. by apply int_write_in.
Qed.

Lemma ext_read_same e e' a n :
  (∀ x, flash_byte (bl_chip e') x = flash_byte (bl_chip e) x) → ext_read e' a n = ext_read e a n.
Proof. intros H. apply fmap_seqZ_ext. intros x _. apply H. Qed.

Lemma container_good_same e e' :
  (∀ x, flash_byte (bl_chip e') x = flash_byte (bl_chip e) x) →
  ext_header e' = ext_header e ∧ container_good e' = container_good e ∧
  ∀ n, ext_image e' n = ext_image e n.
Proof.
  intros H. assert (ext_header e' = ext_header e) as Eh by (by apply ext_read_same).
  assert (∀ n, ext_image e' n = ext_image e n) as Ei by (intros n; by apply ext_read_same).
  split; [done|]. split; [|done]. unfold container_good. cbv zeta. by rewrite Eh, Ei.
Qed.

Lemma main_flash_app_spec buf e f :
  data_size (container_of (ext_header e)) ≤ _FW_MAX_SIZE - 512 →
  ∃ e' f', main_flash_app buf e f = Ok (container_good e, e', f') ∧
    if container_good e
    then int_read f' APP_INFO_PAGE_ADDR (data_size (container_of (ext_header e)))
           = ext_image e (data_size (container_of (ext_header e)))
    else f' = f.
Proof.
  intros Hsz. unfold main_flash_app, ext_storage_init.
  pose proof (flash_init_ok (bl_chip e)) as Hinit. pose proof (flash_init_byte (bl_chip e)) as Hsame.
  destruct (flash_init (bl_chip e)) as [ok ch] eqn:E. cbn [fst snd] in Hinit, Hsame. subst ok.
  cbn [negb]. set (e1 := ExtStorage true (fw_container e) ch).
  destruct (container_good_same e e1 Hsame) as (Eh & Eg & Ei).
  rewrite (ext_storage_check_fw_spec e1) by (done || (rewrite Eh; done)).
  rewrite Eg, Eh. cbn [mbind outcome_bind].
  destruct (container_good e) eqn:Hg; cbn [mbind outcome_bind]; [|by eexists _, f].
  set (c := container_of (ext_header e)) in *. set (e2 := ExtStorage (bl_ready e1) true (bl_chip e1)).
  destruct (flash_loop_spec 960 0 APP_INFO_PAGE_ADDR (data_size c) buf e2 f) as (f' & n & Ef & Hn & Hf);
    [done|lia|lia| |done|destruct fw_area as (_ & _ & ->); lia|done|].
  { unfold container_good in Hg. fold c in Hg. cbv zeta in Hg. bool_hyps.
    change (Z.of_nat 960) with 960. layout. lia. }
  rewrite Z.mul_0_r in Ef. rewrite Ef. cbn [mbind outcome_bind].
  eexists _, f'. split; [reflexivity|].
  assert (0 ≤ data_size c) as Hpos.
  { unfold container_good in Hg. fold c in Hg. cbv zeta in Hg. bool_hyps. layout. lia. }
  apply (f_equal (take (Z.to_nat (data_size c)))) in Hf.
  unfold int_read, ext_image, ext_read in Hf. rewrite !fmap_seqZ_take in Hf by lia.
  unfold int_read. rewrite Hf. apply (Ei (data_size c)).
Qed.

(** [main_flash_app] programs the internal flash with exactly
    the image of a good container, from the information page on, and touches
    nothing when the container is not good. *)
Theorem main_flash_app_copies buf e f :
  data_size (container_of (ext_header e)) ≤ _FW_MAX_SIZE - 512 →
  ∃ e' f', main_flash_app buf e f = Ok (container_good e, e', f') ∧
    if container_good e
    then int_read f' APP_INFO_PAGE_ADDR (data_size (container_of (ext_header e)))
           = ext_image e (data_size (container_of (ext_header e)))
    else f' = f.
Proof. apply main_flash_app_spec. Qed.

(** C30 (safety). The application is started only when the CRC of what is in the
    internal flash then matches its information page, and never after five
    starts in a row that did not reset the boot-loop counter; a request to stay
    in the boot loader is obeyed before anything is programmed. *)
Theorem boot_main_runs_valid_app reset buf b b' r :
  boot_main reset buf b = Ok (r, b') →
  (r = RunApp → main_app_ok (b_int b') = true ∧ u32 (gpreg_bootloop b + 1) ≤ 5) ∧
  (reset = RESET_USER_RQ → gpreg_boot b = GPREG_BOOT_STAY_IN_BOOT → r = BlTask ∧ b_int b' = b_int b) ∧
  (r = NoFirmware → main_app_ok (b_int b') = false).
Proof.
  unfold boot_main. intros H.
  set (loop := u32 (gpreg_bootloop b + 1)) in *.
  assert (∀ (app_ok : bool) e f rq, (if 5 <? loop
      then let '(_, e) := ext_storage_init e in Ok (BlTask, BootState GPREG_BOOT_NONE 0 e f)
      else if app_ok then Ok (RunApp, BootState rq loop e f)
      else Ok (NoFirmware, BootState GPREG_BOOT_NONE loop e f)) = Ok (r, b') →
    app_ok = main_app_ok f →
    (r = RunApp → main_app_ok (b_int b') = true ∧ loop ≤ 5) ∧
    (r = NoFirmware → main_app_ok (b_int b') = false)) as Hend.
  { intros app_ok e f rq. destruct (Z.ltb_spec 5 loop).
    - destruct (ext_storage_init e). by intros [= <- <-].
    - destruct app_ok; by intros [= <- <-]. }
  destruct reset.
  2:{ destruct (gpreg_boot b) eqn:Eb; cbn [andb orb] in H.
      3:{ destruct (ext_storage_init (b_ext b)). by injection H as <- <-. }
      all: destruct (negb (main_app_ok (b_int b))); cbn [andb orb] in H;
        try (destruct (main_flash_app buf (b_ext b) (b_int b)) as [[[? e] f]|]; [|done]);
        cbn [mbind outcome_bind] in H; apply Hend in H as [H1 H2]; done. }
  all: cbn [andb orb] in H; destruct (negb (main_app_ok (b_int b))); cbn [andb orb] in H;
    try (destruct (main_flash_app buf (b_ext b) (b_int b)) as [[[? e] f]|]; [|done]);
    cbn [mbind outcome_bind] in H; apply Hend in H as [H1 H2]; done.
Qed.

(** ** From the tools to a running application *)

Lemma ext_write_step addr d e :
  _FW_ADDR ≤ addr → addr + Z.of_nat (length d) ≤ chip_size → bl_ready e = true →
  ∃ c, ext_storage_write_data addr d e = Ok (true, ExtStorage true (fw_container e) c) ∧
    flash_write_data addr d (bl_chip e) = (true, c).
Proof.
  destruct fw_area as (Ec & EA & _). intros Ha He Hr. unfold ext_storage_write_data. cbv zeta.
  rewrite Hr, Ec, EA in *. unfold chip_size in *. cbn [negb].
  rewrite u32_small by (unfold in_u32; lia).
  rewrite (proj2 (Z.ltb_ge addr _)), (proj2 (Z.ltb_ge (4096 * 1024) _)) by lia. cbn [orb].
  pose proof (flash_write_ok addr d (bl_chip e) ltac:(lia) ltac:(lia)) as Hok.
  destruct (flash_write_data addr d (bl_chip e)) as [ok c]. cbn [fst] in Hok. subst ok. eauto.
Qed.

(** Writing consecutive pieces into the firmware area. *)
Lemma ext_write_pieces cs addr e :
  pieces addr cs → _FW_ADDR ≤ addr → addr + Z.of_nat (length (payload cs)) ≤ chip_size →
  bl_ready e = true →
  ∃ e', write_all ext_storage_write_data cs e = Ok e' ∧ bl_ready e' = true ∧
    (∀ x, x < addr → flash_byte (bl_chip e') x = flash_byte (bl_chip e) x) ∧
    ext_read e' addr (Z.of_nat (length (payload cs))) = payload cs.
Proof.
  destruct fw_area as (Ec & EA & _).
  revert addr e. induction cs as [|[a d] cs IH]; intros addr e Hp Ha He Hr; [by exists e|].
  cbn [pieces] in Hp. destruct Hp as [-> Hp].
  assert (payload ((addr, d) :: cs) = d ++ payload cs) as Epl by done.
  rewrite Epl in *. rewrite length_app in *. cbn [write_all].
  destruct (ext_write_step addr d e) as (c & -> & Ew); [done|lia|done|]. cbn [mbind outcome_bind].
  destruct (IH (addr + Z.of_nat (length d)) (ExtStorage true (fw_container e) c))
    as (e' & E & Hr' & Hout & Hin); [done|lia|lia|done|].
  exists e'. split; [done|]. split; [done|]. cbn [bl_chip] in Hout. split.
  - intros x Hx. rewrite Hout by lia. eapply flash_write_out; [exact Ew|lia].
  - unfold ext_read in *. rewrite Nat2Z.inj_add, fmap_seqZ_split, Hin by lia. f_equal.
    apply fmap_seqZ_list. intros i v Hv. pose proof (lookup_lt_Some _ _ _ Hv).
    rewrite Hout by lia. by eapply flash_write_in.
Qed.

Lemma container_bytes_hdr c : container_ok c → take 508 (container_bytes c) = container_body c.
Proof.
  intros Hc. unfold container_bytes. apply take_app_length'. symmetry. by apply container_body_length.
Qed.

(** A container the tool made for an image of valid size is good. *)
Lemma tool_container_good name fw e :
  length name = 16%nat → bytes name → bytes fw →
  APP_MIN_SIZE ≤ Z.of_nat (length fw) → Z.of_nat (length fw) ≤ APP_MAX_SIZE →
  ext_header e = container_bytes (make_container name fw) →
  ext_image e (Z.of_nat (length fw)) = fw →
  container_good e = true ∧ container_of (ext_header e) = make_container name fw.
Proof.
  intros Hn Hnb Hfb Hmin Hmax Hh Hi. pose proof (make_container_ok name fw Hn Hnb Hfb Hmax) as Hc.
  unfold container_good. cbv zeta. rewrite Hh, container_of_bytes, container_bytes_hdr by done.
  split; [|done]. change (data_size (make_container name fw)) with (Z.of_nat (length fw)).
  rewrite Hi. change (container_body (make_container name fw))
    with (container_body (ContainerHdr (Z.of_nat (length fw)) (chsum32 fw CHSUM32_START_VALUE) 0
      (ai_device_id (app_info_of fw)) (ai_hw_version_min (app_info_of fw))
      (ai_hw_version_max (app_info_of fw)) name 0 (replicate 473 0) 0)).
  cbn [make_container hdr_chsum data_chsum]. rewrite !Z.eqb_refl.
  by rewrite (proj2 (Z.leb_le _ _) Hmin), (proj2 (Z.leb_le _ _) Hmax).
Qed.

(** An image with its page filled in by the CRC tool is a valid application. *)
Lemma image_app_ok page app f :
  page = le32 (Z.of_nat (length app)) ++ le32 (app_crc app) ++ drop 8 page → length page = 16%nat →
  bytes app → APP_MIN_SIZE ≤ Z.of_nat (length app) ≤ APP_MAX_SIZE →
  int_read f APP_INFO_PAGE_ADDR (512 + Z.of_nat (length app)) = image_of page app →
  main_app_ok f = true.
Proof.
  intros Epage Hpl Hab Hsz Hf. unfold main_app_ok. unfold int_read in *.
  assert (int_byte f <$> seqZ APP_INFO_PAGE_ADDR 16 = page) as ->.
  { apply (f_equal (take (Z.to_nat 16))) in Hf. rewrite fmap_seqZ_take in Hf by lia.
    rewrite Hf. unfold image_of. by apply take_app_length'. }
  assert (int_byte f <$> seqZ APP_START_ADDR (Z.of_nat (length app)) = app) as Happ.
  { rewrite fmap_seqZ_split in Hf by lia. apply (f_equal (drop 512)) in Hf.
    rewrite drop_app_length' in Hf by (by rewrite length_fmap, length_seqZ).
    change (APP_INFO_PAGE_ADDR + 512) with APP_START_ADDR in Hf. rewrite Hf.
    unfold image_of. rewrite app_assoc. apply drop_app_length'.
    by rewrite length_app, length_replicate, Hpl. }
  pose proof (app_crc_range app Hab) as Hcrc.
  assert (in_u32 (Z.of_nat (length app))) as Hlen by (layout; unfold in_u32; lia).
  unfold app_info_of. cbn [ai_size ai_crc]. rewrite Epage.
  change (take 4 (le32 (Z.of_nat (length app)) ++ le32 (app_crc app) ++ drop 8 page))
    with (le32 (Z.of_nat (length app))).
  change (take 4 (drop 4 (le32 (Z.of_nat (length app)) ++ le32 (app_crc app) ++ drop 8 page)))
    with (le32 (app_crc app)).
  rewrite !of_le32, Happ, Z.eqb_refl by done.
  by rewrite (proj2 (Z.ltb_ge _ _)), (proj2 (Z.ltb_ge _ APP_MIN_SIZE)) by lia.
Qed.

Lemma image_of_length page app : length page = 16%nat → length (image_of page app) = (512 + length app)%nat.
Proof. intros Hpl. unfold image_of. rewrite !length_app, length_replicate, Hpl. lia. Qed.

Lemma image_of_bytes page app : bytes page → bytes app → bytes (image_of page app).
Proof.
  intros Hp Ha. unfold image_of, bytes. rewrite !Forall_app. split; [done|]. split; [|done].
  apply Forall_replicate. unfold in_u8. lia.
Qed.

(** With a tool-made container in the external flash, a requested reset programs
    its image and starts it. *)
Lemma image_boots name page app e f buf loop :
  length name = 16%nat → bytes name → length page = 16%nat → bytes page → bytes app →
  page = le32 (Z.of_nat (length app)) ++ le32 (app_crc app) ++ drop 8 page →
  APP_MIN_SIZE ≤ Z.of_nat (length app) → Z.of_nat (length app) + 1024 ≤ _FW_MAX_SIZE →
  0 ≤ loop < 5 →
  ext_header e = container_bytes (make_container name (image_of page app)) →
  ext_image e (512 + Z.of_nat (length app)) = image_of page app →
  ∃ b', boot_main RESET_USER_RQ buf (BootState GPREG_BOOT_FLASH_RQ loop e f) = Ok (RunApp, b') ∧
    int_read (b_int b') APP_INFO_PAGE_ADDR (512 + Z.of_nat (length app)) = image_of page app.
Proof.
  intros Hn Hnb Hpl Hpb Hab Epage Hmin Hmax Hloop Hh Hi.
  destruct fw_area as (Ec & EA & EM). rewrite EM in Hmax.
  set (fw := image_of page app) in *.
  assert (length fw = 512 + length app)%nat as Hfl by (by apply image_of_length).
  assert (bytes fw) as Hfb by (by apply image_of_bytes).
  replace (512 + Z.of_nat (length app)) with (Z.of_nat (length fw)) in * by lia.
  destruct (tool_container_good name fw e) as [Hgood Hhdr]; try done; [layout; lia..|].
  destruct (main_flash_app_spec buf e f) as (e4 & f4 & E4 & Hf4).
  { rewrite Hhdr, EM. change (data_size (make_container name fw)) with (Z.of_nat (length fw)). lia. }
  rewrite Hgood, Hhdr in Hf4. rewrite Hgood in E4.
  change (data_size (make_container name fw)) with (Z.of_nat (length fw)) in Hf4. rewrite Hi in Hf4.
  assert (main_app_ok f4 = true) as Hok.
  { apply (image_app_ok page app); try done; [layout; lia|].
    by replace (512 + Z.of_nat (length app)) with (Z.of_nat (length fw)) by lia. }
  eexists. split.
  - unfold boot_main. cbn [gpreg_boot b_ext b_int gpreg_bootloop andb orb]. rewrite E4.
    cbn [mbind outcome_bind]. rewrite Hok, (u32_small (loop + 1)) by (unfold in_u32; lia).
    rewrite (proj2 (Z.ltb_ge 5 _)) by lia. reflexivity.
  - cbn [b_int]. exact Hf4.
Qed.

(** The lines the container tool prints for an image: the boot loader accepts
    every one, and has the container in its external flash when they end. *)
Lemma tool_lines_written name page app t e :
  length name = 16%nat → bytes name → length page = 16%nat → bytes page → bytes app →
  of_le (take 4 page) = Z.of_nat (length app) → Z.of_nat (length app) + 1024 ≤ _FW_MAX_SIZE →
  loaded (image_of page app) t → bl_ready e = true →
  let fw := image_of page app in
  container_tool_main name t = Ok (text_of (tool_lines name fw)) ∧
  all_accepted ext_storage_write_data ext_storage_flush_cache (tool_lines name fw) 0 e = true ∧
  ∃ e', parse_lines ext_storage_write_data ext_storage_flush_cache (tool_lines name fw) 0 e = Ok (0, e') ∧
    ext_header e' = container_bytes (make_container name fw) ∧
    ext_image e' (512 + Z.of_nat (length app)) = fw.
Proof.
  intros Hn Hnb Hpl Hpb Hab Hsize Hmax Hload Hr fw.
  destruct fw_area as (Ec & EA & EM). rewrite EM in Hmax.
  assert (length fw = 512 + length app)%nat as Hfl by (by apply image_of_length).
  assert (bytes fw) as Hfb by (by apply image_of_bytes).
  destruct (container_lines ext_storage_write_data ext_storage_flush_cache name page app t e)
    as [Etext Elines]; [done|done|done|done|done|done|layout; lia|done|].
  fold fw in Etext, Elines. split; [exact Etext|].
  pose proof (make_container_ok name fw Hn Hnb Hfb ltac:(layout; lia)) as Hc.
  pose proof (container_bytes_length _ Hc) as Hcl. pose proof (container_bytes_bytes _ Hc) as Hcb.
  set (c := container_bytes (make_container name fw)) in *.
  (* the two blocks in the external flash *)
  destruct (chunks_pieces 512 DEST_REMAP_ADDRESS c ltac:(lia)) as [Hp1 Hy1].
  destruct (ext_write_pieces _ _ e Hp1) as (e1 & E1 & Hr1 & _ & Hin1);
    [by rewrite EA|rewrite Hy1, Hcl; unfold DEST_REMAP_ADDRESS, chip_size; lia|done|].
  destruct (chunks_pieces (length fw) (DEST_REMAP_ADDRESS + 512) fw ltac:(lia)) as [Hp2 Hy2].
  destruct (ext_write_pieces _ _ e1 Hp2) as (e2 & E2 & Hr2 & Hout2 & Hin2);
    [rewrite EA; unfold DEST_REMAP_ADDRESS; lia|
     rewrite Hy2, Hfl; unfold DEST_REMAP_ADDRESS, chip_size; lia|done|].
  rewrite Hy1, Hcl in Hin1. rewrite Hy2 in Hin2.
  rewrite E1 in Elines. cbn [mbind outcome_bind] in Elines. rewrite E2 in Elines.
  cbn [mbind outcome_bind] in Elines. split.
  - assert (∀ a d s, _FW_ADDR ≤ a → a + Z.of_nat (length d) ≤ chip_size → bl_ready s = true →
      ∃ s', ext_storage_write_data a d s = Ok (true, s') ∧ bl_ready s' = true) as Hw.
    { intros a d s H1 H2 H3. destruct (ext_write_step a d s H1 H2 H3) as (ch & Es & _). eauto. }
    assert (in_u16 0) as H0 by (unfold in_u16; lia).
    set (hi := last_hi DEST_REMAP_ADDRESS 0 c).
    assert (in_u16 hi) as Hhi by (apply last_hi_range; [done|unfold DEST_REMAP_ADDRESS; lia..]).
    assert (parse_lines ext_storage_write_data ext_storage_flush_cache
      (flush_lines 512 DEST_REMAP_ADDRESS 0 c) (0 * 65536) e = Ok (hi * 65536, e1)) as Ep1.
    { rewrite parse_lines_flush by (assumption || unfold DEST_REMAP_ADDRESS; lia). by rewrite E1. }
    assert (parse_lines ext_storage_write_data ext_storage_flush_cache
      (flush_lines (length fw) (DEST_REMAP_ADDRESS + sizeof_container) hi fw) (hi * 65536) e1
      = Ok (last_hi (DEST_REMAP_ADDRESS + sizeof_container) hi fw * 65536, e2)) as Ep2.
    { rewrite parse_lines_flush by (assumption || unfold DEST_REMAP_ADDRESS, sizeof_container; lia).
      unfold sizeof_container. by rewrite E2. }
    unfold tool_lines. cbv zeta. fold c hi.
    match goal with |- all_accepted ?w ?f ?l 0 ?s = _ => change (all_accepted w f l (0 * 65536) s = true) end.
    rewrite (all_accepted_app _ _ _ _ _ _ _ _ Ep1), (all_accepted_app _ _ _ _ _ _ _ _ Ep2).
    rewrite (accepted_flush _ _ _ _ _ Hw 512 DEST_REMAP_ADDRESS 0 c)
      by (assumption || unfold DEST_REMAP_ADDRESS, chip_size; lia).
    by rewrite (accepted_flush _ _ _ _ _ Hw (length fw) (DEST_REMAP_ADDRESS + sizeof_container) hi fw)
      by (assumption || unfold DEST_REMAP_ADDRESS, sizeof_container, chip_size; lia).
  - set (e3 := ext_storage_flush_cache e2) in *. exists e3. split; [exact Elines|].
    assert (∀ x, flash_byte (bl_chip e3) x = flash_byte (bl_chip e2) x) as Hsame
      by (intros x; apply flush_byte).
    split.
    + unfold ext_header. rewrite (ext_read_same e2) by done. rewrite <- Hin1. unfold ext_read.
      rewrite EA. apply fmap_seqZ_ext. intros x Hx. apply Hout2. lia.
    + unfold ext_image. rewrite (ext_read_same e2) by done. rewrite EA.
      replace (512 + Z.of_nat (length app)) with (Z.of_nat (length fw)) by lia. exact Hin2.
Qed.

(** A firmware update works end to end: the container tool loads
    an application whose page the CRC tool filled in and prints it; the boot
    loader reads the printed lines into the external flash; after the reset with
    the flash request it programs exactly that image and starts it, the
    container check and the application's CRC check both passing. *)
Theorem firmware_update_boots name page app cs e f buf loop :
  length name = 16%nat → bytes name → length page = 16%nat → bytes page → bytes app →
  page = le32 (Z.of_nat (length app)) ++ le32 (app_crc app) ++ drop 8 page →
  pieces APP_START_ADDR cs → payload cs = app → cs ≠ [] →
  APP_MIN_SIZE ≤ Z.of_nat (length app) → Z.of_nat (length app) + 1024 ≤ _FW_MAX_SIZE →
  bl_ready e = true → 0 ≤ loop < 5 →
  ∃ t lines e' b',
    write_all _load_bin ((APP_INFO_PAGE_ADDR, page) :: cs) container_tool_init = Ok t ∧
    container_tool_main name t = Ok (text_of lines) ∧
    parse_lines ext_storage_write_data ext_storage_flush_cache lines 0 e = Ok (0, e') ∧
    boot_main RESET_USER_RQ buf (BootState GPREG_BOOT_FLASH_RQ loop e' f) = Ok (RunApp, b') ∧
    int_read (b_int b') APP_INFO_PAGE_ADDR (512 + Z.of_nat (length app)) = image_of page app.
Proof.
  intros Hn Hnb Hpl Hpb Hab Epage Hcs Hpay Hne Hmin Hmax Hr Hloop.
  destruct fw_area as (Ec & EA & EM). pose proof Hmax as Hmax'. rewrite EM in Hmax.
  destruct (container_tool_loads page app cs) as (t & Et & Hload); [done..|layout; lia|].
  assert (of_le (take 4 page) = Z.of_nat (length app)) as Hsize.
  { rewrite Epage. apply (of_le32 (Z.of_nat (length app))). unfold in_u32. lia. }
  destruct (tool_lines_written name page app t e) as (Etext & _ & e' & Ep & Hh & Hi); [done..|].
  destruct (image_boots name page app e' f buf loop) as (b' & Eb & Hb'); [done..|].
  exists t, (tool_lines name (image_of page app)), e', b'.
  exact (conj Et (conj Etext (conj Ep (conj Eb Hb')))).
Qed.

End laws.

(** ** A concrete boot loader, and witnesses *)

#[export] Instance demo_boot : BootLib ideal_flash := {|
  sdk_chsum32 := chsum32;
  sdk_chsum32_start := CHSUM32_START_VALUE;
  flash_flush_cache f := f;
  ifl := Z → Z;
  int_byte f x := f x;
  int_flash_write a l f := λ x, if (a <=? x) && (x <? a + Z.of_nat (length l))
    then nth (Z.to_nat (x - a)) l 0 else f x
|}.

#[export] Instance demo_boot_spec : BootSpec ideal_flash demo_boot.
Proof.
  split; try done; cbn.
  - intros a l f i v Hv. pose proof (lookup_lt_Some _ _ _ Hv).
    rewrite (proj2 (Z.leb_le _ _)), (proj2 (Z.ltb_lt _ _)) by lia. cbn [andb].
    replace (a + Z.of_nat i - a) with (Z.of_nat i) by lia. rewrite Nat2Z.id.
    by apply nth_lookup_Some.
  - intros a l f x Hx. by rewrite (proj2 (Z.leb_gt _ _)) by lia.
Qed.

(** An application of 1024 bytes, its page, and the chip that holds it in a
    container. *)
Definition demo_app : list Z := replicate 1024 7.
Definition demo_page : list Z := le32 1024 ++ le32 (app_crc demo_app) ++ replicate 8 1.
Definition demo_name : list Z := replicate 16 65.
Definition chip_of (base : Z) (l : list Z) : Z → Z := λ x, nth (Z.to_nat (x - base)) l 255.
Definition demo_ext : ext_storage :=
  ExtStorage true false (chip_of _FW_ADDR
    (container_bytes (make_container demo_name (image_of demo_page demo_app))
      ++ image_of demo_page demo_app)).
Definition blank_ext : ext_storage := ExtStorage true false (λ _ : Z, 255).
Definition blank_int : ifl := λ _ : Z, 255.
Definition demo_int : ifl := chip_of APP_INFO_PAGE_ADDR (image_of demo_page demo_app).

Lemma demo_good : container_good demo_ext = true.
Proof. vm_compute. reflexivity. Qed.

Lemma ext_storage_check_fw_correct_witness :
  ext_storage_check_fw demo_ext
    = Ok (Some (container_of (ext_header demo_ext)), ExtStorage true true (bl_chip demo_ext)).
Proof.
  rewrite (ext_storage_check_fw_correct demo_ext); [|reflexivity|vm_compute; discriminate].
  by rewrite demo_good.
Defined.

Lemma main_flash_app_copies_witness :
  ∃ e' f', main_flash_app [] demo_ext blank_int = Ok (true, e', f') ∧
    int_read f' APP_INFO_PAGE_ADDR 1536 = ext_image demo_ext 1536.
Proof.
  destruct (main_flash_app_copies [] demo_ext blank_int) as (e' & f' & H1 & H2);
    [vm_compute; discriminate|].
  rewrite demo_good in H1, H2. exists e', f'. split; [exact H1|].
  replace (data_size (container_of (ext_header demo_ext))) with 1536 in H2 by (vm_compute; reflexivity).
  exact H2.
Defined.

Lemma boot_main_runs_valid_app_witness :
  ∃ b', boot_main RESET_POWER_ON [] (BootState GPREG_BOOT_NONE 0 demo_ext demo_int) = Ok (RunApp, b') ∧
    main_app_ok (b_int b') = true.
Proof.
  assert (boot_main RESET_POWER_ON [] (BootState GPREG_BOOT_NONE 0 demo_ext demo_int)
    = Ok (RunApp, BootState GPREG_BOOT_NONE 1 demo_ext demo_int)) as E.
  { unfold boot_main. cbn [b_int].
    assert (main_app_ok demo_int = true) as -> by (vm_compute; reflexivity). reflexivity. }
  eexists. split; [exact E|].
  exact (proj1 (proj1 (boot_main_runs_valid_app _ _ _ _ _ E) eq_refl)).
Defined.

Lemma firmware_update_boots_witness :
  ∃ t lines e' b',
    write_all _load_bin [(APP_INFO_PAGE_ADDR, demo_page); (APP_START_ADDR, demo_app)]
      container_tool_init = Ok t ∧
    container_tool_main demo_name t = Ok (text_of lines) ∧
    parse_lines ext_storage_write_data ext_storage_flush_cache lines 0
      blank_ext = Ok (0, e') ∧
    boot_main RESET_USER_RQ [] (BootState GPREG_BOOT_FLASH_RQ 0 e' blank_int) = Ok (RunApp, b').
Proof.
  destruct (firmware_update_boots demo_name demo_page demo_app [(APP_START_ADDR, demo_app)]
    blank_ext blank_int [] 0) as (t & lines & e' & b' & H1 & H2 & H3 & H4 & _).
  - reflexivity.
  - apply Forall_replicate. unfold in_u8. lia.
  - reflexivity.
  - unfold demo_page, bytes. rewrite !Forall_app. split; [apply le32_bytes|].
    split; [apply le32_bytes|]. apply Forall_replicate. unfold in_u8. lia.
  - apply Forall_replicate. unfold in_u8. lia.
  - unfold demo_page. unfold demo_app at 2. rewrite length_replicate. reflexivity.
  - done.
  - unfold payload. cbn [fmap list_fmap snd concat]. apply app_nil_r.
  - discriminate.
  - unfold demo_app. rewrite length_replicate. layout. lia.
  - unfold demo_app. rewrite length_replicate. vm_compute. discriminate.
  - reflexivity.
  - lia.
  - exists t, lines, e', b'. exact (conj H1 (conj H2 (conj H3 H4))).
Defined.
