(* ===== verification/BootTty.v ===== *)
(** * The boot loader's console (bootloader/main.c)

    What the boot loader does when it does not start the application: it reads
    lines from the serial port until a command resets the device or nothing
    useful has come for fifteen minutes.  Composed with Boot and FwTools, a
    device without firmware is brought to run the application over the wire. *)

From S2P Require Import Prelude CText Storage Ihex FwTools FwFiles Boot.

(** ** The console *)

Section console.
Context `{F : FlashLib} `{B : !BootLib F}.

(** How a step leaves the loop of [_bl_task]: not at all, through [wd_reset], or
    into the empty loop that tests the watchdog. *)
Inductive bl_end := BlRuns | BlResets | BlHangs.

(** [bl_timeout], the static of [ihex_parse], the two registers ([bl_wdid]: the
    reboot request is written) and the storage. *)
Record bl_state := BlState {
  bl_timeout : Z;
  addr_hiword : Z;
  bl_rq : boot_rq;
  bl_wdid : bool;
  bl_ext : ext_storage
}.

(** src/bootloader/main.c:32-32 (BL_TIMEOUT) *)
Definition BL_TIMEOUT : Z := 15 * 60 * 5.

Definition bl_request (rq : boot_rq) (e : ext_storage) (s : bl_state) : bl_state :=
  BlState (bl_timeout s) (addr_hiword s) rq true e.

(** What it prints, how it ends and the state; the log lines of [ihex_parse] are
    left out. *)
(** src/bootloader/main.c:35-85 (_tty_rx_parser) *)
Definition _tty_rx_parser (data : list Z) (s : bl_state) : outcome (list (list Z) * bl_end * bl_state) :=
  ch ← data.[0];
  if ch =? 58 then                                                          (* ':' *)
    '(ok, _, hi, e) ← ihex_parse ext_storage_write_data ext_storage_flush_cache data (addr_hiword s) (bl_ext s);
    if (ok : bool) then Ok ([str "OK"], BlRuns, BlState 0 hi (bl_rq s) (bl_wdid s) e)
    else Ok ([str "ERROR"], BlRuns, BlState (bl_timeout s) hi (bl_rq s) (bl_wdid s) e)
  else if ch =? 66 then                                                     (* 'B' *)
    Ok ([str "go to BL"], BlResets, bl_request GPREG_BOOT_STAY_IN_BOOT (bl_ext s) s)
  else if ch =? 70 then                                                     (* 'F' *)
    Ok ([str "FLASH"], BlResets, bl_request GPREG_BOOT_FLASH_RQ (ext_storage_flush_cache (bl_ext s)) s)
  else if ch =? 84 then Ok ([str "TEST OK"], BlRuns, s)                     (* 'T' *)
  else if ch =? 82 then                                                     (* 'R' *)
    Ok ([str "RESET"], BlResets, BlState (bl_timeout s) (addr_hiword s) (bl_rq s) (bl_wdid s)
                                   (ext_storage_flush_cache (bl_ext s)))
  else if ch =? 87 then Ok ([str "WDR TEST"], BlHangs, s)                   (* 'W' *)
  else Ok ([], BlRuns, s).

(** What happens in the task, in order: [tty_rx_task] has a line while
    [_bl_task_delay] waits, or a round of two waits ends. *)
Inductive bl_event := Line (l : list Z) | RoundEnd.

(** src/bootloader/main.c:103-114 (_bl_task) *)
Definition bl_step (ev : bl_event) (s : bl_state) : outcome (list (list Z) * bl_end * bl_state) :=
  match ev with
  | Line l => _tty_rx_parser (l ++ [0]) s
  | RoundEnd =>
      let t := u32 (bl_timeout s + 1) in
      let s := BlState t (addr_hiword s) (bl_rq s) (bl_wdid s) (bl_ext s) in
      if BL_TIMEOUT <=? t then Ok ([str "TIMEOUT REBOOT"], BlResets, s) else Ok ([], BlRuns, s)
  end.

(** src/bootloader/main.c:103-117 (_bl_task) *)
Fixpoint bl_loop (evs : list bl_event) (s : bl_state) : outcome (list (list Z) * bl_end * bl_state) :=
  match evs with
  | [] => Ok ([], BlRuns, s)
  | ev :: evs =>
      '(out, r, s) ← bl_step ev s;
      match r with
      | BlRuns => '(out', r, s) ← bl_loop evs s; Ok (out ++ out', r, s)
      | _ => Ok (out, r, s)
      end
  end.

(** [hi] is what [ihex_parse] kept; the clear of [GPREG_BOOT] comes first. *)
(** src/bootloader/main.c:99-118 (_bl_task) *)
Definition _bl_task (evs : list bl_event) (e : ext_storage) : outcome (list (list Z) * bl_end * bl_state) :=
  bl_loop evs (BlState 0 0 GPREG_BOOT_NONE false e).

(** What the next start of [main] finds: the registers and the chips, with the
    statics of the storage as they are in the program. *)
Definition reset_into (b : boot_state) (s : bl_state) : boot_state :=
  BootState (bl_rq s) (gpreg_bootloop b) (ExtStorage false false (bl_chip (bl_ext s))) (b_int b).

(** ** What the host sends *)

Fixpoint lines_sent (evs : list bl_event) : list (list Z) :=
  match evs with
  | [] => []
  | Line l :: evs => l :: lines_sent evs
  | RoundEnd :: evs => lines_sent evs
  end.
Fixpoint rounds (evs : list bl_event) : Z :=
  match evs with
  | [] => 0
  | Line _ :: evs => rounds evs
  | RoundEnd :: evs => 1 + rounds evs
  end.

Lemma rounds_pos evs : 0 ≤ rounds evs.
Proof. induction evs as [|[l|] evs IH]; cbn [rounds]; lia. Qed.

(** A line without meaning for the console. *)
Definition idle_line (l : list Z) : bool :=
  match l with
  | [] => true
  | ch :: _ => negb ((ch =? 58) || (ch =? 66) || (ch =? 70) || (ch =? 82) || (ch =? 87))
  end.

Lemma idle_step l s : idle_line l = true → ∃ out, bl_step (Line l) s = Ok (out, BlRuns, s).
Proof.
  intros H. cbn [bl_step]. unfold _tty_rx_parser. destruct l as [|ch l]; [by eexists|].
  change (((ch :: l) ++ [0]).[0]) with (Ok ch). cbn [mbind outcome_bind].
  unfold idle_line in H. apply negb_true_iff in H. rewrite !orb_false_iff in H.
  destruct H as [[[[-> ->] ->] ->] ->]. destruct (ch =? 84); by eexists.
Qed.

Lemma round_step s : 0 ≤ bl_timeout s → bl_timeout s + 1 < BL_TIMEOUT →
  bl_step RoundEnd s = Ok ([], BlRuns, BlState (bl_timeout s + 1) (addr_hiword s) (bl_rq s) (bl_wdid s) (bl_ext s)).
Proof.
  intros H0 H1. cbn [bl_step]. unfold BL_TIMEOUT in *. rewrite u32_small by (unfold in_u32; lia).
  by rewrite (proj2 (Z.leb_gt _ _)) by lia.
Qed.

Lemma loop_runs ev evs s out s' : bl_step ev s = Ok (out, BlRuns, s') →
  bl_loop (ev :: evs) s = ('(out', r, s) ← bl_loop evs s'; Ok (out ++ out', r, s)).
Proof. intros E. cbn [bl_loop]. rewrite E. reflexivity. Qed.

(** Fifteen minutes: without a record or a command the loader goes on exactly
    until the round in which the counter reaches [BL_TIMEOUT], and resets then
    with nothing written and no request left behind. *)
Theorem bl_task_times_out evs s :
  Forall (λ l, idle_line l = true) (lines_sent evs) → 0 ≤ bl_timeout s < BL_TIMEOUT →
  ∃ out s', bl_loop evs s = Ok (out, if BL_TIMEOUT <=? bl_timeout s + rounds evs then BlResets else BlRuns, s') ∧
    bl_rq s' = bl_rq s ∧ bl_wdid s' = bl_wdid s ∧ bl_ext s' = bl_ext s.
Proof.
  revert s. induction evs as [|[l|] evs IH]; intros s Hl Ht; cbn [lines_sent rounds] in *.
  - exists [], s. rewrite Z.add_0_r, (proj2 (Z.leb_gt _ _)) by lia. done.
  - apply Forall_cons in Hl as [Hl Hls]. destruct (idle_step l s Hl) as [out E].
    destruct (IH s Hls Ht) as (out' & s' & E' & Hs). rewrite (loop_runs _ _ _ _ _ E), E'.
    by eexists _, s'.
  - pose proof (rounds_pos evs). destruct (decide (bl_timeout s + 1 < BL_TIMEOUT)) as [H1|H1].
    + rewrite (loop_runs _ _ _ _ _ (round_step s ltac:(lia) H1)).
      destruct (IH (BlState (bl_timeout s + 1) (addr_hiword s) (bl_rq s) (bl_wdid s) (bl_ext s)) Hl)
        as (out' & s' & E' & Hs); [cbn [bl_timeout]; lia|].
      rewrite E'. cbn [bl_timeout mbind outcome_bind]. rewrite Z.add_assoc. by eexists _, s'.
    + cbn [bl_loop bl_step]. assert (bl_timeout s + 1 = BL_TIMEOUT) as -> by lia.
      change (u32 BL_TIMEOUT) with BL_TIMEOUT. rewrite Z.leb_refl, (proj2 (Z.leb_le _ _)) by lia.
      cbn [mbind outcome_bind]. by do 2 eexists.
Qed.

(** An accepted line is a record: it starts with a colon. *)
Lemma accepted_colon l hi e buf hi' e' :
  ihex_parse ext_storage_write_data ext_storage_flush_cache (l ++ [0]) hi e = Ok (true, buf, hi', e') →
  (l ++ [0]).[0] = Ok 58.
Proof.
  unfold ihex_parse, ihex_line. destruct ((l ++ [0]).[0]) as [ch|] eqn:E; [|done].
  cbn [mbind outcome_bind]. destruct (Z.eqb_spec ch 58) as [->|_]; [done|]. cbn [negb mbind outcome_bind]. done.
Qed.

Lemma record_step l s buf hi e :
  ihex_parse ext_storage_write_data ext_storage_flush_cache (l ++ [0]) (addr_hiword s) (bl_ext s)
    = Ok (true, buf, hi, e) →
  bl_step (Line l) s = Ok ([str "OK"], BlRuns, BlState 0 hi (bl_rq s) (bl_wdid s) e).
Proof.
  intros E. cbn [bl_step]. unfold _tty_rx_parser. rewrite (accepted_colon _ _ _ _ _ _ E).
  cbn [mbind outcome_bind]. change (58 =? 58) with true. by rewrite E.
Qed.

(** Records that are accepted, then the flash request, all in time: every record
    is answered OK and the device resets with the request in its registers. *)
Lemma loop_records lines evs s hi' e' :
  lines_sent evs = lines ++ [str "F"] →
  all_accepted ext_storage_write_data ext_storage_flush_cache lines (addr_hiword s) (bl_ext s) = true →
  parse_lines ext_storage_write_data ext_storage_flush_cache lines (addr_hiword s) (bl_ext s) = Ok (hi', e') →
  0 ≤ bl_timeout s → bl_timeout s + rounds evs < BL_TIMEOUT →
  ∃ s', bl_loop evs s = Ok (replicate (length lines) (str "OK") ++ [str "FLASH"], BlResets, s') ∧
    bl_rq s' = GPREG_BOOT_FLASH_RQ ∧ bl_wdid s' = true ∧ bl_ext s' = ext_storage_flush_cache e'.
Proof.
  revert lines s. induction evs as [|[l|] evs IH]; intros lines s Hs Ha Hp H0 Ht; cbn [lines_sent rounds] in *.
  - by destruct lines.
  - destruct lines as [|x lines].
    + injection Hs as -> _. cbn [parse_lines] in Hp. injection Hp as _ <-.
      eexists. split; [reflexivity|]. done.
    + injection Hs as -> Hs. cbn [all_accepted parse_lines] in Ha, Hp.
      destruct (ihex_parse _ _ (x ++ [0]) _ _) as [[[[ok buf] hi] e]|] eqn:E; [|done].
      apply andb_true_iff in Ha as [-> Ha]. cbn [mbind outcome_bind] in Hp.
      rewrite (loop_runs _ _ _ _ _ (record_step _ _ _ _ _ E)).
      destruct (IH lines (BlState 0 hi (bl_rq s) (bl_wdid s) e) Hs Ha Hp) as (s' & E' & Hs');
        [done|cbn [bl_timeout]; lia|].
      rewrite E'. by exists s'.
  - pose proof (rounds_pos evs).
    rewrite (loop_runs _ _ _ _ _ (round_step s ltac:(lia) ltac:(lia))).
    destruct (IH lines (BlState (bl_timeout s + 1) (addr_hiword s) (bl_rq s) (bl_wdid s) (bl_ext s)) Hs Ha Hp)
      as (s' & E' & Hs'); [cbn [bl_timeout]; lia..|].
    rewrite E'. by exists s'.
Qed.

End console.

(** ** A firmware over the wire *)

Section wire.
Context `{F : FlashLib} `{FS : !FlashSpec F} `{FR : !FlashReliable F}.
Context `{B : !BootLib F} `{BS : !BootSpec F B}.

(** The reason the SDK reports after [wd_reset], from the reboot request in
    [GPREG_WDID]. *)
Variable reset_get_type : bool → reset_type.
Hypothesis reset_requested : reset_get_type true = RESET_USER_RQ.

Lemma init_ready e : bl_ready (snd (ext_storage_init e)) = true.
Proof.
  unfold ext_storage_init. pose proof (flash_init_ok (bl_chip e)) as H.
  destruct (flash_init (bl_chip e)) as [ok c]. exact H.
Qed.

Lemma check_fw_ready e c e' : ext_storage_check_fw e = Ok (c, e') → bl_ready e' = bl_ready e.
Proof.
  unfold ext_storage_check_fw. set (bl_ready e) as r.
  assert (∀ x : option container_hdr_t, Ok (x, e) = Ok (c, e') → bl_ready e' = r) as Hsame by (by intros x [= <- <-]).
  destruct (negb r); [apply Hsame|]. cbv zeta. destruct (_sector_read _ e); [|apply Hsame].
  destruct (negb (container_valid _ _)); [apply Hsame|]. destruct (negb (container_compatible _)); [apply Hsame|].
  destruct (_ || _); [apply Hsame|].
  destruct (chsum_sectors _ _ _ _ _) as [[x|]|]; [|apply Hsame|discriminate].
  cbn [mbind outcome_bind]. destruct (_ =? _); [|apply Hsame]. intros E. by injection E as <- <-.
Qed.

Lemma bind_Ok {X Y} (m : outcome X) (f : X → outcome Y) y :
  mbind f m = Ok y → ∃ x, m = Ok x ∧ f x = Ok y.
Proof. destruct m as [x|]; [intros H; by exists x|discriminate]. Qed.

(** Programming starts with the storage. *)
Lemma flash_app_ready buf e f ok e' f' : main_flash_app buf e f = Ok (ok, e', f') → bl_ready e' = true.
Proof.
  unfold main_flash_app. pose proof (init_ready e) as Hr. destruct (ext_storage_init e) as [i e1].
  cbn [snd] in Hr. destruct i; cbn [negb].
  - intros ([c e2] & E2 & E)%bind_Ok. apply check_fw_ready in E2. rewrite Hr in E2.
    destruct c as [c|].
    + apply bind_Ok in E as (f1 & _ & E). by injection E as <- <- <-.
    + by injection E as <- <- <-.
  - intros E. by injection E as <- <- <-.
Qed.

(** [main] comes to [_bl_task] with the storage ready. *)
Lemma boot_main_ready reset buf b b' r :
  boot_main reset buf b = Ok (r, b') → r ≠ RunApp → bl_ready (b_ext b') = true.
Proof.
  unfold boot_main. intros H Hr. cbv zeta in H.
  destruct (_ && match gpreg_boot b with GPREG_BOOT_STAY_IN_BOOT => _ | _ => _ end).
  { pose proof (init_ready (b_ext b)) as Hi. destruct (ext_storage_init (b_ext b)). by injection H as <- <-. }
  apply bind_Ok in H as ([[ok e] f] & E & H).
  pose proof (init_ready e) as Hi. destruct (5 <? _).
  { destruct (ext_storage_init e). by injection H as <- <-. }
  destruct ok; injection H as <- <-; [done|]. cbn [b_ext].
  destruct (_ || _) eqn:Eq.
  - apply bind_Ok in E as ([[o e1] f1] & E & E1). apply flash_app_ready in E. by injection E1 as _ <- _.
  - apply orb_false_iff in Eq as [_ Eq]. apply negb_false_iff in Eq. rewrite Eq in E. discriminate E.
Qed.

(** C2 (roundtrip). A device that does not start its application is brought back
    over its serial port, from the linker's file to the running application: the
    CRC tool reads the hexadecimal text of an application and prints it with size
    and CRC filled in; the container tool reads that and prints the lines of a
    container; sent to the boot loader one by one and followed by [F], without
    fifteen minutes passing, each line is answered OK and the last with FLASH;
    the reset then programs exactly that image from the external flash and starts
    it, unless the boot-loop counter is at its limit. *)
Theorem console_update_boots reset buf b r b0 name text info app cs evs :
  let image := image_of (crc_page info app) app in
  boot_main reset buf b = Ok (r, b0) → r ≠ RunApp → 0 ≤ gpreg_bootloop b0 < 5 →
  length name = 16%nat → bytes name → length info = 16%nat → bytes info → info_device info ≠ 65535 → bytes app →
  hex_file text ((APP_INFO_PAGE_ADDR, info) :: cs) → Z.of_nat (length text) < MAX_FILE_SIZE →
  pieces APP_START_ADDR cs → payload cs = app → cs ≠ [] →
  APP_MIN_SIZE ≤ Z.of_nat (length app) → Z.of_nat (length app) + 1024 ≤ _FW_MAX_SIZE →
  lines_sent evs = tool_lines name image ++ [str "F"] → rounds evs < BL_TIMEOUT →
  ∃ crc_text s' b',
    app_crc_main text = Ok crc_text ∧
    app_container_main name crc_text = Ok (text_of (tool_lines name image)) ∧
    _bl_task evs (b_ext b0) = Ok (replicate (length (tool_lines name image)) (str "OK") ++ [str "FLASH"], BlResets, s') ∧
    boot_main (reset_get_type (bl_wdid s')) buf (reset_into b0 s') = Ok (RunApp, b') ∧
    int_read (b_int b') APP_INFO_PAGE_ADDR (512 + Z.of_nat (length app)) = image.
Proof.
  intros image Hb Hr Hloop Hn Hnb Hil Hib Hdev Hab Hf Htext Hcs Hpay Hne Hmin Hmax Hs Ht.
  apply boot_main_ready in Hb; [|exact Hr]. destruct fw_area as (_ & _ & EM). pose proof Hmax as Hm. rewrite EM in Hm.
  destruct (app_crc_main_file text info cs app) as (out & Eout & Hout); [assumption..|layout; lia|].
  destruct (rechunk_pieces _ _ Hcs) as [Hcs' Hpay']. rewrite Hpay in Hpay'.
  pose proof (crc_page_length info app Hil) as Hpl. pose proof (crc_page_bytes info app Hib) as Hpb.
  pose proof (crc_page_fixed info app) as Epage. set (page := crc_page info app) in *. clearbody page.
  destruct (app_container_main_file out name page app (rechunk cs)) as (t & Et & Hload);
    [assumption..| |layout; lia|].
  { intros E. rewrite E in Hpay'. rewrite <- Hpay' in Hmin. cbn [length payload fmap list_fmap concat] in Hmin. layout. lia. }
  assert (of_le (take 4 page) = Z.of_nat (length app)) as Hsize.
  { rewrite Epage. apply (of_le32 (Z.of_nat (length app))). unfold in_u32. lia. }
  destruct (tool_lines_written name page app t (b_ext b0)) as (Etext & Hacc & e' & Ep & Hh & Hi); [assumption..|].
  destruct (loop_records _ evs (BlState 0 0 GPREG_BOOT_NONE false (b_ext b0)) 0 e' Hs Hacc Ep)
    as (s' & Ek & Hrq & Hwd & He); [cbn [bl_timeout]; lia|exact Ht|].
  set (e2 := ExtStorage false false (bl_chip (bl_ext s'))).
  assert (∀ x, flash_byte (bl_chip e2) x = flash_byte (bl_chip e') x) as Hsame.
  { intros x. unfold e2. rewrite He. apply flush_byte. }
  destruct (container_good_same e' e2 Hsame) as (Eh & _ & Ei).
  destruct (image_boots name page app e2 (b_int b0) buf (gpreg_bootloop b0)) as (b' & Eb & Hb');
    [assumption..|by rewrite Eh|by rewrite Ei|].
  exists out, s', b'. unfold reset_into. rewrite Hrq, Hwd, reset_requested. rewrite Et.
  exact (conj Eout (conj Etext (conj Ek (conj Eb Hb')))).
Qed.

End wire.

(** ** Witnesses *)

Lemma lines_sent_app a b : lines_sent (a ++ b) = lines_sent a ++ lines_sent b.
Proof. induction a as [|[l|] a IH]; [done|cbn; by rewrite IH|done]. Qed.
Lemma lines_sent_lines ls : lines_sent (Line <$> ls) = ls.
Proof. induction ls as [|l ls IH]; [done|]. cbn. by rewrite IH. Qed.
Lemma rounds_app a b : rounds (a ++ b) = rounds a + rounds b.
Proof. induction a as [|[l|] a IH]; [done|done|]. cbn. rewrite IH. lia. Qed.
Lemma rounds_lines ls : rounds (Line <$> ls) = 0.
Proof. by induction ls. Qed.

(** A device without an application, its external flash cleared, and a host that
    sends without a pause. *)
Definition clear_ext : ext_storage := ExtStorage false false (λ _ : Z, 0).
Definition demo_reset (rq : bool) : reset_type := if rq then RESET_USER_RQ else RESET_WDT.
Definition demo_info : list Z := replicate 16 1.
Definition demo_image : list Z := image_of (crc_page demo_info demo_app) demo_app.
Definition demo_lines : list (list Z) := tool_lines demo_name demo_image.
Definition demo_text : list Z := text_of (flush_lines 16 APP_INFO_PAGE_ADDR 0 demo_info)
  ++ text_of (flush_lines 1024 APP_START_ADDR 2048 demo_app) ++ str ":00000001FF" ++ NL.
Definition demo_evs : list bl_event := (Line <$> demo_lines) ++ [RoundEnd; Line (str "F")].

Lemma blank_device : ∃ e, boot_main RESET_POWER_ON [] (BootState GPREG_BOOT_NONE 0 clear_ext blank_int)
  = Ok (NoFirmware, BootState GPREG_BOOT_NONE 1 e blank_int).
Proof.
  destruct (main_flash_app_spec [] clear_ext blank_int) as (e & f & E & Ef); [vm_compute; discriminate|].
  assert (container_good clear_ext = false) as Hg by (vm_compute; reflexivity).
  rewrite Hg in E, Ef. subst f. exists e. unfold boot_main. cbn [b_int b_ext gpreg_boot gpreg_bootloop].
  assert (main_app_ok blank_int = false) as Hm by (vm_compute; reflexivity).
  rewrite Hm. cbn [andb orb negb]. rewrite E. cbn [mbind outcome_bind]. rewrite Hm. reflexivity.
Qed.

Lemma demo_info_bytes : bytes demo_info.
Proof. apply Forall_replicate. unfold in_u8. lia. Qed.
Lemma demo_app_bytes : bytes demo_app.
Proof. apply Forall_replicate. unfold in_u8. lia. Qed.
Lemma demo_app_length : length demo_app = 1024%nat.
Proof. apply length_replicate. Qed.

Lemma demo_text_file :
  hex_file demo_text ((APP_INFO_PAGE_ADDR, demo_info) :: chunks 1024 APP_START_ADDR demo_app).
Proof.
  pose proof demo_app_length as Hl.
  apply (hex_part_app _ _ [(APP_INFO_PAGE_ADDR, demo_info)] _ _ (2048 * 65536)).
  - apply (hex_part_flush 16 APP_INFO_PAGE_ADDR 0 demo_info demo_info_bytes);
      unfold demo_info; rewrite ?length_replicate; unfold in_u16; layout; lia.
  - rewrite <- (app_nil_r (chunks 1024 APP_START_ADDR demo_app)).
    apply (hex_part_app _ _ _ [] _ (last_hi APP_START_ADDR 2048 demo_app * 65536)).
    + apply (hex_part_flush 1024 APP_START_ADDR 2048 demo_app demo_app_bytes);
        rewrite ?Hl; unfold in_u16; layout; lia.
    + apply hex_part_end.
Qed.

Lemma console_update_boots_witness :
  ∃ b0 crc_text s' b', boot_main RESET_POWER_ON [] (BootState GPREG_BOOT_NONE 0 clear_ext blank_int) = Ok (NoFirmware, b0) ∧
    app_crc_main demo_text = Ok crc_text ∧ app_container_main demo_name crc_text = Ok (text_of demo_lines) ∧
    _bl_task demo_evs (b_ext b0) = Ok (replicate (length demo_lines) (str "OK") ++ [str "FLASH"], BlResets, s') ∧
    boot_main (demo_reset (bl_wdid s')) [] (reset_into b0 s') = Ok (RunApp, b') ∧
    int_read (b_int b') APP_INFO_PAGE_ADDR (512 + Z.of_nat (length demo_app)) = demo_image.
Proof.
  destruct blank_device as [e Hb]. pose proof demo_app_length as Hl.
  destruct (chunks_pieces 1024 APP_START_ADDR demo_app) as [Hp Hy]; [rewrite Hl; lia|].
  destruct (console_update_boots demo_reset eq_refl RESET_POWER_ON [] _ NoFirmware _ demo_name demo_text demo_info demo_app
    (chunks 1024 APP_START_ADDR demo_app) demo_evs Hb) as (out & s' & b' & H1 & H2 & H3 & H4 & H5).
  - discriminate.
  - cbn [gpreg_bootloop]. lia.
  - reflexivity.
  - apply Forall_replicate. unfold in_u8. lia.
  - reflexivity.
  - exact demo_info_bytes.
  - vm_compute. discriminate.
  - exact demo_app_bytes.
  - exact demo_text_file.
  - vm_compute. reflexivity.
  - exact Hp.
  - exact Hy.
  - intros E. rewrite E in Hy. apply (f_equal length) in Hy. rewrite Hl in Hy. discriminate Hy.
  - rewrite Hl. layout. lia.
  - rewrite Hl. vm_compute. discriminate.
  - unfold demo_evs. rewrite lines_sent_app, lines_sent_lines. reflexivity.
  - unfold demo_evs. rewrite rounds_app, rounds_lines. reflexivity.
  - exists (BootState GPREG_BOOT_NONE 1 e blank_int), out, s', b'.
    exact (conj Hb (conj H1 (conj H2 (conj H3 (conj H4 H5))))).
Defined.

(** 4500 empty rounds. *)
Lemma bl_task_times_out_witness :
  ∃ out s', bl_loop (replicate 4500 RoundEnd) (BlState 0 0 GPREG_BOOT_NONE false blank_ext) = Ok (out, BlResets, s') ∧
    bl_ext s' = blank_ext.
Proof.
  destruct (bl_task_times_out (replicate 4500 RoundEnd) (BlState 0 0 GPREG_BOOT_NONE false blank_ext))
    as (out & s' & E & _ & _ & He).
  - apply Forall_nil_2.
  - unfold BL_TIMEOUT. cbn [bl_timeout]. lia.
  - exists out, s'. split; [|exact He]. rewrite E.
    assert (BL_TIMEOUT <=? bl_timeout (BlState 0 0 GPREG_BOOT_NONE false blank_ext) + rounds (replicate 4500 RoundEnd) = true)
      as -> by (vm_compute; reflexivity). reflexivity.
Defined.
