(* ===== verification/Inp.v ===== *)
(** * Input filtering (app/inp.c, _io_input_task of app/app.c)

    Debounces the eight inputs and hands their changes to the alarm system.
    Each input is one small machine ([pin_step]); [inp_task] runs the eight of
    them on shared bit masks. *)

From S2P Require Import Prelude EventTypes EventQueue Out Alarm ArmSection System.

Definition INP_SIZE : Z := 8.

(** src/app/inp.c:12-13 (INP_FILTER_LIMIT_DEFAULT, INP_FILTER_LIMIT_DEFAULT_DACT) *)
Definition INP_FILTER_LIMIT_DEFAULT : Z := 100.
Definition INP_FILTER_LIMIT_DEFAULT_DACT : Z := 500.

(** src/app/inp.c:24-28 (inp_filter_t) *)
Record inp_filter_t := InpFilter { f_timer : Z; f_limit : Z; f_limit_dact : Z }.

(** src/app/inp.c:15-30 (_inp_enabled, _inp_direction, _inp_state, _inp_check_needed, _inp_bypass, _inp_filter) *)
Record inputs := Inputs {
  _inp_enabled : bool;
  _inp_direction : Z;
  _inp_state : Z;
  _inp_check_needed : Z;
  _inp_bypass : Z;
  _inp_filter : list inp_filter_t
}.

Definition set_inp (state check : Z) (f : list inp_filter_t) (x : inputs) : inputs :=
  Inputs (_inp_enabled x) (_inp_direction x) state check (_inp_bypass x) f.

(** src/app/inp.c:73-78 (_inp_inverted) *)
Definition _inp_inverted (pin_id : Z) (x : inputs) : bool := has (_inp_direction x) (bit pin_id).

(** src/app/inp.c:80-91 (_inp_power_needed) *)
Definition _inp_power_needed (pin_id : Z) : bool :=
  if (pin_id =? INP_SHOCK) || (pin_id =? INP_INP2) || (pin_id =? INP_INP3) then false else true.

(** src/app/inp.c:93-109 (_inp_active) *)
Definition _inp_active (now pin_id : Z) (x : inputs) : outcome inputs :=
  f ← (_inp_filter x).[pin_id];
  if has (_inp_state x) (bit pin_id) then
    fs ← (_inp_filter x).[pin_id <- InpFilter (u32 (now + f_limit_dact f)) (f_limit f) (f_limit_dact f)];
    Ok (set_inp (_inp_state x) (_inp_check_needed x) fs x)
  else if now <? f_timer f then Ok x
  else if has (_inp_check_needed x) (bit pin_id) then Ok x
  else
    fs ← (_inp_filter x).[pin_id <- InpFilter (u32 (now + f_limit f)) (f_limit f) (f_limit_dact f)];
    Ok (set_inp (Z.lor (_inp_state x) (bit pin_id)) (Z.lor (_inp_check_needed x) (bit pin_id)) fs x).

(** src/app/inp.c:111-127 (_inp_inactive) *)
Definition _inp_inactive (now pin_id : Z) (x : inputs) : outcome inputs :=
  f ← (_inp_filter x).[pin_id];
  if negb (has (_inp_state x) (bit pin_id)) then
    fs ← (_inp_filter x).[pin_id <- InpFilter (u32 (now + f_limit f)) (f_limit f) (f_limit_dact f)];
    Ok (set_inp (_inp_state x) (_inp_check_needed x) fs x)
  else if now <? f_timer f then Ok x
  else if has (_inp_check_needed x) (bit pin_id) then Ok x
  else
    fs ← (_inp_filter x).[pin_id <- InpFilter (u32 (now + f_limit_dact f)) (f_limit f) (f_limit_dact f)];
    Ok (set_inp (clr (_inp_state x) (bit pin_id)) (Z.lor (_inp_check_needed x) (bit pin_id)) fs x).

(** [lo] is the level of each pin, low being active ([_inp_lo_level_active]: the
    GPIO, for the shock sensor its driver's flag). *)
(** src/app/inp.c:149-155 (inp_init) *)
Fixpoint init_state (lo : Z → bool) (x : inputs) (pins : list Z) (state : Z) : Z :=
  match pins with
  | [] => state
  | i :: pins =>
      init_state lo x pins
        (if negb (Bool.eqb (_inp_inverted i x) (lo i)) then Z.lor state (bit i) else state)
  end.

(** [_inp_check_needed] keeps its value. *)
(** src/app/inp.c:129-159 (inp_init) *)
Definition inp_init (lo : Z → bool) (x : inputs) : inputs :=
  let dir := Z.lor (Z.lor (Z.lor (Z.lor (Z.lor (bit INP_LOCK) (bit INP_UNLOCK)) (bit INP_DOOR))
               (bit INP_INP1)) (bit INP_INP2)) (bit INP_INP3) in
  let x := Inputs (_inp_enabled x) dir 0 (_inp_check_needed x) 0 [] in
  let fs := replicate 7 (InpFilter 0 INP_FILTER_LIMIT_DEFAULT INP_FILTER_LIMIT_DEFAULT_DACT)
              ++ [InpFilter 0 0 0] in
  set_inp (init_state lo x (seqZ 0 INP_SIZE) 0) (_inp_check_needed x) fs x.

(** src/app/inp.c:184-189 (inp_get) *)
Definition inp_get (x : inputs) : Z * inputs := (_inp_state x, set_inp (_inp_state x) 0 (_inp_filter x) x).

(** src/app/inp.c:191-194 (inp_enable) *)
Definition inp_enable (state : bool) (x : inputs) : inputs :=
  Inputs state (_inp_direction x) (_inp_state x) (_inp_check_needed x) (_inp_bypass x) (_inp_filter x).

(** src/app/inp.c:196-204 (inp_set_bypass) *)
Definition inp_set_bypass (inp : Z) (state : bool) (x : inputs) : inputs :=
  if INP_SIZE <=? inp then x
  else
    Inputs (_inp_enabled x) (_inp_direction x) (_inp_state x) (_inp_check_needed x)
      (if state then Z.lor (_inp_bypass x) (bit inp) else clr (_inp_bypass x) (bit inp)) (_inp_filter x).

(** src/app/inp.c:206-209 (_inp_is_bypass) *)
Definition _inp_is_bypass (inp : Z) (x : inputs) : bool := has (_inp_bypass x) (bit inp).

(** src/app/inp.c:224-239 (inp_task) *)
Definition inp_task1 (now : Z) (lo : Z → bool) (enabled : bool) (i : Z) (x : inputs) : outcome inputs :=
  if negb enabled && _inp_power_needed i then Ok x
  else if _inp_is_bypass i x then Ok x
  else if Bool.eqb (lo i) (_inp_inverted i x) then _inp_inactive now i x
  else _inp_active now i x.

Fixpoint inp_loop (now : Z) (lo : Z → bool) (enabled : bool) (pins : list Z) (x : inputs) : outcome inputs :=
  match pins with
  | [] => Ok x
  | i :: pins => x ← inp_task1 now lo enabled i x; inp_loop now lo enabled pins x
  end.

(** [mv] is the main voltage in millivolts. *)
(** src/app/inp.c:211-240 (inp_task) *)
Definition inp_task (now : Z) (lo : Z → bool) (mv : Z) (x : inputs) : outcome inputs :=
  let inp_enabled := if _inp_enabled x then (if mv <? 7000 then false else true) else false in
  inp_loop now lo inp_enabled (seqZ 0 INP_SIZE) x.

(** The changes handed to the alarm system, for the pins in order; [old] is the
    static [_inp_state] of app.c. *)
(** src/app/app.c:91-117 (_io_input_task) *)
Definition _io_input_task (now old : Z) (x : inputs) : list call * Z * inputs :=
  let '(inp, x) := inp_get x in
  if old =? inp then ([], old, x)
  else
    (mjoin ((λ i : inp_id, if has (Z.lxor old inp) (bit i)
                     then [if has inp (bit i) then CActivated now i else CDeactivated i]
                     else [])
        <$> [INP_KEY; INP_LOCK; INP_UNLOCK; INP_DOOR; INP_INP1; INP_INP2; INP_INP3; INP_SHOCK]), inp, x).

(** ** One input *)

Record pin := Pin { p_state : bool; p_check : bool; p_filter : inp_filter_t }.

(** The input as the masks and the table show it. *)
Definition pin_of (x : inputs) (i : Z) : option pin :=
  match _inp_filter x !! Z.to_nat i with
  | Some f => Some (Pin (has (_inp_state x) (bit i)) (has (_inp_check_needed x) (bit i)) f)
  | None => None
  end.

(** [raw]: the input is active; [skip]: bypassed or without its power. *)
Definition pin_step (now : Z) (skip raw : bool) (p : pin) : pin :=
  let f := p_filter p in
  let arm t := InpFilter (u32 (now + t)) (f_limit f) (f_limit_dact f) in
  if skip then p
  else if Bool.eqb raw (p_state p) then
    Pin (p_state p) (p_check p) (arm (if raw then f_limit_dact f else f_limit f))
  else if now <? f_timer f then p
  else if p_check p then p
  else Pin raw true (arm (if raw then f_limit f else f_limit_dact f)).

Definition skipped (enabled : bool) (x : inputs) (i : Z) : bool :=
  (negb enabled && _inp_power_needed i) || _inp_is_bypass i x.
Definition raw_active (lo : Z → bool) (x : inputs) (i : Z) : bool :=
  negb (Bool.eqb (lo i) (_inp_inverted i x)).

Lemma pin_of_set x i j s c f fs :
  0 ≤ i → 0 ≤ j → j ≠ i → _inp_filter x !! Z.to_nat j = Some f →
  has s (bit j) = has (_inp_state x) (bit j) → has c (bit j) = has (_inp_check_needed x) (bit j) →
  fs !! Z.to_nat j = Some f → pin_of (set_inp s c fs x) j = pin_of x j.
Proof. intros Hi Hj Hne Hf Hs Hc Hfs. unfold pin_of. cbn. by rewrite Hf, Hfs, Hs, Hc. Qed.

Definition fixed (x x' : inputs) : Prop :=
  _inp_enabled x' = _inp_enabled x ∧ _inp_direction x' = _inp_direction x ∧
  _inp_bypass x' = _inp_bypass x ∧ length (_inp_filter x') = length (_inp_filter x).

(** One round of the loop is a step of its input, and of no other. *)
Lemma inp_task1_spec now lo enabled i x p :
  0 ≤ i → pin_of x i = Some p →
  ∃ x', inp_task1 now lo enabled i x = Ok x' ∧ fixed x x' ∧
    pin_of x' i = Some (pin_step now (skipped enabled x i) (raw_active lo x i) p) ∧
    ∀ j, 0 ≤ j → j ≠ i → pin_of x' j = pin_of x j.
Proof.
  intros Hi Hp. unfold inp_task1, skipped, pin_step. pose proof Hp as Hp0. unfold pin_of in Hp.
  destruct (_inp_filter x !! Z.to_nat i) as [f|] eqn:Ef; [|done]. injection Hp as <-.
  cbn [p_filter p_state p_check]. cbv zeta.
  destruct (negb enabled && _inp_power_needed i); [by exists x|]. cbn [orb].
  destruct (_inp_is_bypass i x); [by exists x|].
  assert ((_inp_filter x).[i] = Ok f) as Eg by (by apply arr_get_Ok).
  assert (∀ g, ∃ fs, (_inp_filter x).[i <- g] = Ok fs ∧ fs !! Z.to_nat i = Some g ∧
    length fs = length (_inp_filter x) ∧
    ∀ j, 0 ≤ j → j ≠ i → fs !! Z.to_nat j = _inp_filter x !! Z.to_nat j) as Hset.
  { intros g. pose proof (lookup_lt_Some _ _ _ Ef). eexists.
    split; [apply arr_set_Ok; lia|]. split; [by apply list_lookup_insert_eq|].
    split; [apply length_insert|]. intros j Hj Hne. apply list_lookup_insert_ne. lia. }
  unfold raw_active. destruct (Bool.eqb (lo i) (_inp_inverted i x)) eqn:El; cbn [negb].
  - unfold _inp_inactive. rewrite Eg. cbn [mbind outcome_bind].
    destruct (has (_inp_state x) (bit i)) eqn:Es; cbn [negb Bool.eqb].
    + destruct (now <? f_timer f); [by exists x|].
      destruct (has (_inp_check_needed x) (bit i)) eqn:Ec; [by exists x|].
      destruct (Hset (InpFilter (u32 (now + f_limit_dact f)) (f_limit f) (f_limit_dact f)))
        as (fs & -> & H1 & H2 & H3). cbn [mbind outcome_bind].
      eexists. split; [reflexivity|]. split; [done|]. unfold pin_of. cbn. rewrite H1. split.
      * by rewrite has_clr_same, has_lor_same by done.
      * intros j Hj Hne. rewrite H3, has_clr_ne, has_lor_ne by (done || congruence). done.
    + destruct (Hset (InpFilter (u32 (now + f_limit f)) (f_limit f) (f_limit_dact f)))
        as (fs & -> & H1 & H2 & H3). cbn [mbind outcome_bind].
      eexists. split; [reflexivity|]. split; [done|]. unfold pin_of. cbn. rewrite H1, Es.
      split; [done|]. intros j Hj Hne. by rewrite H3.
  - unfold _inp_active. rewrite Eg. cbn [mbind outcome_bind].
    destruct (has (_inp_state x) (bit i)) eqn:Es; cbn [negb Bool.eqb].
    + destruct (Hset (InpFilter (u32 (now + f_limit_dact f)) (f_limit f) (f_limit_dact f)))
        as (fs & -> & H1 & H2 & H3). cbn [mbind outcome_bind].
      eexists. split; [reflexivity|]. split; [done|]. unfold pin_of. cbn. rewrite H1, Es.
      split; [done|]. intros j Hj Hne. by rewrite H3.
    + destruct (now <? f_timer f); [by exists x|].
      destruct (has (_inp_check_needed x) (bit i)) eqn:Ec; [by exists x|].
      destruct (Hset (InpFilter (u32 (now + f_limit f)) (f_limit f) (f_limit_dact f)))
        as (fs & -> & H1 & H2 & H3). cbn [mbind outcome_bind].
      eexists. split; [reflexivity|]. split; [done|]. unfold pin_of. cbn. rewrite H1. split.
      * by rewrite !has_lor_same by done.
      * intros j Hj Hne. rewrite H3, !has_lor_ne by (done || congruence). done.
Qed.

Lemma fixed_trans x y z : fixed x y → fixed y z → fixed x z.
Proof. intros (?&?&?&?) (?&?&?&?). repeat split; congruence. Qed.

Lemma fixed_same x y enabled lo i :
  fixed x y → skipped enabled y i = skipped enabled x i ∧ raw_active lo y i = raw_active lo x i.
Proof.
  intros (_ & Hd & Hb & _). unfold skipped, raw_active, _inp_is_bypass, _inp_inverted.
  by rewrite Hd, Hb.
Qed.

Lemma pin_of_some x i : 0 ≤ i < Z.of_nat (length (_inp_filter x)) → ∃ p, pin_of x i = Some p.
Proof.
  intros Hi. unfold pin_of. destruct (lookup_lt_is_Some_2 (_inp_filter x) (Z.to_nat i)) as [f ->]; [lia|].
  by eexists.
Qed.

Lemma inp_loop_spec now lo enabled pins x :
  NoDup pins → (∀ i, i ∈ pins → 0 ≤ i < Z.of_nat (length (_inp_filter x))) →
  ∃ x', inp_loop now lo enabled pins x = Ok x' ∧ fixed x x' ∧
    (∀ i p, i ∈ pins → pin_of x i = Some p →
       pin_of x' i = Some (pin_step now (skipped enabled x i) (raw_active lo x i) p)) ∧
    ∀ i, 0 ≤ i → i ∉ pins → pin_of x' i = pin_of x i.
Proof.
  intros Hnd. revert x. induction Hnd as [|i pins Hi Hnd IH]; intros x Hr.
  - exists x. split; [done|]. split; [done|]. split; [|done]. intros i p Hi. by apply not_elem_of_nil in Hi.
  - cbn [inp_loop]. pose proof (Hr i ltac:(left)) as Hri.
    destruct (pin_of_some x i Hri) as [p Hp].
    destruct (inp_task1_spec now lo enabled i x p) as (x1 & -> & Hf1 & Hp1 & Ho1); [lia|done|].
    cbn [mbind outcome_bind].
    destruct (IH x1) as (x2 & E & Hf2 & Hp2 & Ho2).
    { intros j Hj. destruct Hf1 as (_ & _ & _ & ->). apply Hr. by right. }
    exists x2. split; [done|]. split; [by eapply fixed_trans|]. split.
    + intros j q Hj Hq. apply elem_of_cons in Hj as [->|Hj].
      * rewrite Hp in Hq. injection Hq as <-. rewrite Ho2 by (done || lia). exact Hp1.
      * assert (j ≠ i) by (intros ->; done). pose proof (Hr j ltac:(by right)).
        destruct (fixed_same x x1 enabled lo j Hf1) as [<- <-]. apply Hp2; [done|].
        rewrite Ho1 by (done || lia). done.
    + intros j Hj Hn. apply not_elem_of_cons in Hn as [Hne Hn].
      rewrite Ho2, Ho1 by done. done.
Qed.

(** What one run of the task sees. *)
Record env := Env { e_time : Z; e_lo : Z → bool; e_mv : Z }.

Definition task_enabled (mv : Z) (x : inputs) : bool :=
  if _inp_enabled x then (if mv <? 7000 then false else true) else false.

Lemma inp_task_spec now lo mv x :
  length (_inp_filter x) = 8%nat →
  ∃ x', inp_task now lo mv x = Ok x' ∧ fixed x x' ∧
    ∀ i p, 0 ≤ i < 8 → pin_of x i = Some p →
      pin_of x' i = Some (pin_step now (skipped (task_enabled mv x) x i) (raw_active lo x i) p).
Proof.
  intros Hl. unfold inp_task.
  destruct (inp_loop_spec now lo (task_enabled mv x) (seqZ 0 INP_SIZE) x) as (x' & E & Hf & Hp & _).
  - apply NoDup_seqZ.
  - intros i Hi%elem_of_seqZ. unfold INP_SIZE in Hi. lia.
  - exists x'. split; [exact E|]. split; [done|]. intros i p Hi. apply Hp.
    apply elem_of_seqZ. unfold INP_SIZE. lia.
Qed.

Fixpoint task_runs (es : list env) (x : inputs) : outcome inputs :=
  match es with
  | [] => Ok x
  | e :: es => x ← inp_task (e_time e) (e_lo e) (e_mv e) x; task_runs es x
  end.

Lemma task_runs_inv (P : pin → Prop) es x i p :
  length (_inp_filter x) = 8%nat → 0 ≤ i < 8 → pin_of x i = Some p → P p →
  (∀ e q skip raw, e ∈ es → P q → P (pin_step (e_time e) skip raw q)) →
  ∃ x' p', task_runs es x = Ok x' ∧ fixed x x' ∧ pin_of x' i = Some p' ∧ P p'.
Proof.
  intros Hl Hi. revert x p Hl. induction es as [|e es IH]; intros x p Hl Hp HP Hstep.
  - by exists x, p.
  - cbn [task_runs].
    destruct (inp_task_spec (e_time e) (e_lo e) (e_mv e) x Hl) as (x1 & -> & Hf1 & Hp1).
    cbn [mbind outcome_bind]. specialize (Hp1 i p Hi Hp).
    destruct (IH x1 _ ltac:(destruct Hf1 as (_ & _ & _ & ->); done) Hp1) as (x2 & p2 & E & Hf2 & Hp2 & HP2).
    + apply Hstep; [by left|done].
    + intros e' q skip raw He'. apply Hstep. by right.
    + exists x2, p2. split; [done|]. split; [by eapply fixed_trans|done].
Qed.

(** The time a level has to last: [f_limit] to become active, [f_limit_dact] to
    become inactive. *)
Definition hold_time (p : pin) : Z := if p_state p then f_limit_dact (p_filter p) else f_limit (p_filter p).

(** One run of the input task is a step of each of the eight
    filters on its own: masks and table never mix the inputs up, no access
    leaves the table, and what is not polled (bypassed, or without the main
    power it needs) does not move. *)
Theorem inp_task_refines now lo mv x :
  length (_inp_filter x) = 8%nat →
  ∃ x', inp_task now lo mv x = Ok x' ∧ fixed x x' ∧
    ∀ i p, 0 ≤ i < 8 → pin_of x i = Some p →
      pin_of x' i = Some (pin_step now (skipped (task_enabled mv x) x i) (raw_active lo x i) p).
Proof. apply inp_task_spec. Qed.

(** C38 (safety). Debouncing: once an input was seen in its reported state at
    time [t0], no sequence of polls before its hold time (100 ms to switch on,
    500 ms to switch off, 0 for the shock sensor) has passed changes what is
    reported, whatever levels they see. *)
Theorem inp_rejects_pulses es x i p t0 :
  length (_inp_filter x) = 8%nat → 0 ≤ i < 8 → pin_of x i = Some p →
  0 ≤ hold_time p → 0 ≤ t0 → t0 + 2 * hold_time p < 4294967296 →
  f_timer (p_filter p) = t0 + hold_time p →
  Forall (λ e, t0 ≤ e_time e < t0 + hold_time p) es →
  ∃ x', task_runs es x = Ok x' ∧ has (_inp_state x') (bit i) = p_state p.
Proof.
  intros Hl Hi Hp Hh Ht0 Hmax Htimer Hes. set (h := hold_time p) in *.
  destruct (task_runs_inv (λ q, p_state q = p_state p ∧ hold_time q = h ∧ t0 + h ≤ f_timer (p_filter q))
    es x i p Hl Hi Hp) as (x' & p' & E & _ & Hp' & HP & _).
  - split; [done|]. split; [done|lia].
  - intros e q skip raw He (H1 & H2 & H3).
    pose proof (proj1 (Forall_forall _ _) Hes e He) as Het. cbn in Het.
    unfold pin_step. cbv zeta. destruct skip; [done|].
    destruct (Bool.eqb raw (p_state q)) eqn:Eraw.
    + apply eqb_prop in Eraw as ->. cbn [p_state p_filter f_timer]. split; [done|].
      unfold hold_time in *. cbn [p_state p_filter f_limit f_limit_dact]. split; [done|].
      destruct (p_state q); rewrite u32_small by (unfold in_u32; lia); lia.
    + destruct (Z.ltb_spec (e_time e) (f_timer (p_filter q))); [done|lia].
  - exists x'. split; [done|]. unfold pin_of in Hp'.
    destruct (_inp_filter x' !! Z.to_nat i); [|done]. injection Hp' as <-. exact HP.
Qed.

Lemma has_lxor a b n : 0 ≤ n → has (Z.lxor a b) (bit n) = xorb (has a (bit n)) (has b (bit n)).
Proof. intros Hn. by rewrite !has_bit, Z.lxor_spec. Qed.

(** An input's change flag says whether it left the registered state [s0]. *)
Lemma check_tracks_change es x i :
  length (_inp_filter x) = 8%nat → 0 ≤ i < 8 → _inp_check_needed x = 0 →
  ∃ x', task_runs es x = Ok x' ∧
    has (_inp_check_needed x') (bit i) = xorb (has (_inp_state x) (bit i)) (has (_inp_state x') (bit i)).
Proof.
  intros Hl Hi Hc. destruct (pin_of_some x i ltac:(lia)) as [p Hp].
  set (s0 := has (_inp_state x) (bit i)).
  destruct (task_runs_inv (λ q, p_check q = xorb s0 (p_state q)) es x i p Hl Hi Hp)
    as (x' & p' & E & _ & Hp' & HP).
  - unfold pin_of in Hp. destruct (_inp_filter x !! Z.to_nat i); [|done]. injection Hp as <-.
    cbn [p_check p_state]. rewrite Hc. unfold s0. by destruct (has (_inp_state x) (bit i)).
  - intros e q skip raw _ Hq. unfold pin_step. cbv zeta. destruct skip; [done|].
    destruct (Bool.eqb raw (p_state q)) eqn:Eraw; [done|].
    destruct (_ <? _); [done|]. destruct (p_check q) eqn:Ec; [congruence|]. cbn [p_check p_state].
    destruct raw, (p_state q), s0; cbn in *; congruence.
  - exists x'. split; [done|]. unfold pin_of in Hp'.
    destruct (_inp_filter x' !! Z.to_nat i); [|done]. injection Hp' as <-. exact HP.
Qed.

(** No change is lost between two looks at the inputs: however
    often the task polled since the last one, the alarm system is told about an
    input exactly when its filtered state changed, with the new state; the change
    flag is set exactly then, so no change is undone before it was reported. *)
Theorem inp_changes_reported es x now (i : inp_id) :
  length (_inp_filter x) = 8%nat → _inp_check_needed x = 0 →
  ∃ x' calls old' x'', task_runs es x = Ok x' ∧
    _io_input_task now (_inp_state x) x' = (calls, old', x'') ∧
    (CActivated now i ∈ calls ↔
       has (_inp_state x) (bit i) = false ∧ has (_inp_state x') (bit i) = true) ∧
    (CDeactivated i ∈ calls ↔
       has (_inp_state x) (bit i) = true ∧ has (_inp_state x') (bit i) = false) ∧
    has (_inp_check_needed x') (bit i)
      = xorb (has (_inp_state x) (bit i)) (has (_inp_state x') (bit i)) ∧
    old' = _inp_state x' ∧ _inp_check_needed x'' = 0.
Proof.
  intros Hl Hc.
  destruct (check_tracks_change es x (inp_id_code i) Hl) as (x' & E & Hx);
    [destruct i; cbn; lia|done|]. exists x'.
  destruct (_io_input_task now (_inp_state x) x') as [[calls old'] x''] eqn:Eio.
  exists calls, old', x''. split; [done|]. split; [done|].
  unfold _io_input_task, inp_get in Eio. set (old := _inp_state x) in *. set (inp := _inp_state x') in *.
  destruct (Z.eqb_spec old inp) as [Eq|_].
  - injection Eio as <- <- <-. rewrite Eq.
    split; [split; [by intros ?%not_elem_of_nil|intros [H1 H2]; congruence]|].
    split; [split; [by intros ?%not_elem_of_nil|intros [H1 H2]; congruence]|].
    split; [by rewrite Hx, Eq|done].
  - injection Eio as <- <- <-.
    assert (∀ c : call, c ∈ mjoin ((λ i : inp_id, if has (Z.lxor old inp) (bit i)
                     then [if has inp (bit i) then CActivated now i else CDeactivated i]
                     else [])
        <$> [INP_KEY; INP_LOCK; INP_UNLOCK; INP_DOOR; INP_INP1; INP_INP2; INP_INP3; INP_SHOCK]) ↔
      ∃ j : inp_id, has (Z.lxor old inp) (bit j) = true ∧
        c = if has inp (bit j) then CActivated now j else CDeactivated j) as Hin.
    { intros c. rewrite list_elem_of_join. split.
      - intros (l & Hc' & (j & -> & _)%list_elem_of_fmap). exists j.
        destruct (has (Z.lxor old inp) (bit j)); [|by apply not_elem_of_nil in Hc'].
        apply list_elem_of_singleton in Hc'. done.
      - intros (j & Hj & ->). eexists. split; [|apply list_elem_of_fmap; exists j; split; [reflexivity|]].
        + rewrite Hj. by apply list_elem_of_singleton.
        + destruct j; repeat (try (by left); right). }
    assert (∀ j : inp_id, has (Z.lxor old inp) (bit j) = xorb (has old (bit j)) (has inp (bit j))) as Hxor
      by (intros j; apply has_lxor; destruct j; cbn; lia).
    rewrite !Hin. split; [|split; [|done]].
    + split.
      * intros (j & Hj & E'). rewrite Hxor in Hj. destruct (has inp (bit j)) eqn:Ej; [|done].
        injection E' as <-. rewrite Ej. by destruct (has old (bit i)).
      * intros [H1 H2]. exists i. rewrite Hxor, H1, H2. done.
    + split.
      * intros (j & Hj & E'). rewrite Hxor in Hj. destruct (has inp (bit j)) eqn:Ej; [done|].
        injection E' as <-. rewrite Ej. by destruct (has old (bit i)).
      * intros [H1 H2]. exists i. rewrite Hxor, H1, H2. done.
Qed.

(** ** Witnesses *)

Definition boot_inputs : inputs := inp_init (λ _, false) (Inputs true 0 0 0 0 []).

(** The inputs right after start, all levels high: the inverted ones active. *)
Example boot_inputs_state : _inp_state boot_inputs = 126.
Proof. reflexivity. Qed.

Lemma inp_task_refines_witness :
  ∃ x', inp_task 1000 (λ _, true) 12000 boot_inputs = Ok x' ∧ fixed boot_inputs x'.
Proof.
  destruct (inp_task_refines 1000 (λ _, true) 12000 boot_inputs) as (x' & H1 & H2 & _); [reflexivity|].
  exists x'. exact (conj H1 H2).
Defined.

(** The door, active since start, seen so at time 1000. *)
Definition seen_inputs : inputs :=
  match inp_task 1000 (λ _, false) 12000 boot_inputs with Ok x => x | Err _ => boot_inputs end.

Lemma inp_rejects_pulses_witness :
  ∃ x', task_runs [Env 1100 (λ _, true) 12000; Env 1499 (λ _, true) 12000] seen_inputs = Ok x' ∧
    has (_inp_state x') (bit 3) = true.
Proof.
  apply (inp_rejects_pulses [Env 1100 (λ _, true) 12000; Env 1499 (λ _, true) 12000] seen_inputs 3
    (Pin true false (InpFilter 1500 100 500)) 1000).
  - reflexivity.
  - lia.
  - reflexivity.
  - cbn. lia.
  - lia.
  - cbn. lia.
  - reflexivity.
  - repeat constructor; cbn; lia.
Defined.

Lemma inp_changes_reported_witness :
  ∃ x' calls old' x'', task_runs [Env 1600 (λ _, true) 12000] seen_inputs = Ok x' ∧
    _io_input_task 1600 (_inp_state seen_inputs) x' = (calls, old', x'') ∧
    (CDeactivated INP_DOOR ∈ calls ↔ has (_inp_state seen_inputs) (bit 3) = true ∧
       has (_inp_state x') (bit 3) = false).
Proof.
  destruct (inp_changes_reported [Env 1600 (λ _, true) 12000] seen_inputs 1600 INP_DOOR)
    as (x' & calls & old' & x'' & H1 & H2 & _ & H3 & _); [reflexivity|reflexivity|].
  exists x', calls, old', x''. exact (conj H1 (conj H2 H3)).
Defined.
