(* ===== verification/Power.v ===== *)
(** * Power supervision (app/power.c, the millivolt readings of app/analog.c)

    Watches the main supply and the backup battery: connects and charges the
    battery, loads it every second day to test it, and reports losses and
    recoveries.  The code reads the clock and the converter many times in one
    run; here the [n]-th reading of either is what the environment answers, so
    every theorem holds for any course of time and of the voltages.  [OS_DELAY]
    only lets time pass, which the environment is free to do between two
    readings anyway. *)

From S2P Require Import Prelude EventTypes EventQueue Out Alarm ArmSection System Inp.

(** ** State *)

(** src/app/power.c:14-18 (V_BATT_CONNECTED .. V_BATT_DROP) *)
Definition V_BATT_CONNECTED : Z := 2000.
Definition V_BATT_EMPTY : Z := 2800.
Definition V_BATT_OK : Z := 3200.
Definition V_BATT_FULL : Z := 4000.
Definition V_BATT_DROP : Z := 400.
(** src/app/power.c:21-25 (V_VCC_CHARGE_EN .. V_HISTERESIS) *)
Definition V_VCC_CHARGE_EN : Z := 12600.
Definition V_VCC_LOST : Z := 8000.
Definition V_HISTERESIS : Z := 50.

Definition SECOND : Z := 1000.
(** src/app/power.c:110-110 (BATT_TEST_TM) *)
Definition BATT_TEST_TM : Z := 2 * 24 * 60 * (60 * SECOND).

(** [batt_test_tm], [power_task_tm] and [power_filter] are the statics inside
    [_batt_test] and [power_task]. *)
(** src/app/power.c:27-35 (_init_needed .. bat_connect_tm) *)
Record power := Power {
  _init_needed : bool;
  _charging : bool;
  _batt_connected : bool;
  _power_ok : bool;
  _test_done : bool;
  charging_done_tm : Z;
  bat_connect_tm : Z;
  batt_test_tm : Z;
  power_task_tm : Z;
  power_filter : Z
}.

Definition power_start : power := Power true false false false false 0 0 (5 * (60 * SECOND)) SECOND 0.

Definition set_init b p := Power b (_charging p) (_batt_connected p) (_power_ok p) (_test_done p)
  (charging_done_tm p) (bat_connect_tm p) (batt_test_tm p) (power_task_tm p) (power_filter p).
Definition set_charging b p := Power (_init_needed p) b (_batt_connected p) (_power_ok p) (_test_done p)
  (charging_done_tm p) (bat_connect_tm p) (batt_test_tm p) (power_task_tm p) (power_filter p).
Definition set_connected b p := Power (_init_needed p) (_charging p) b (_power_ok p) (_test_done p)
  (charging_done_tm p) (bat_connect_tm p) (batt_test_tm p) (power_task_tm p) (power_filter p).
Definition set_power_ok b p := Power (_init_needed p) (_charging p) (_batt_connected p) b (_test_done p)
  (charging_done_tm p) (bat_connect_tm p) (batt_test_tm p) (power_task_tm p) (power_filter p).
Definition set_test_done b p := Power (_init_needed p) (_charging p) (_batt_connected p) (_power_ok p) b
  (charging_done_tm p) (bat_connect_tm p) (batt_test_tm p) (power_task_tm p) (power_filter p).
Definition set_done_tm t p := Power (_init_needed p) (_charging p) (_batt_connected p) (_power_ok p)
  (_test_done p) t (bat_connect_tm p) (batt_test_tm p) (power_task_tm p) (power_filter p).
Definition set_connect_tm t p := Power (_init_needed p) (_charging p) (_batt_connected p) (_power_ok p)
  (_test_done p) (charging_done_tm p) t (batt_test_tm p) (power_task_tm p) (power_filter p).
Definition set_test_tm t p := Power (_init_needed p) (_charging p) (_batt_connected p) (_power_ok p)
  (_test_done p) (charging_done_tm p) (bat_connect_tm p) t (power_task_tm p) (power_filter p).
Definition set_task_tm t p := Power (_init_needed p) (_charging p) (_batt_connected p) (_power_ok p)
  (_test_done p) (charging_done_tm p) (bat_connect_tm p) (batt_test_tm p) t (power_filter p).
Definition set_filter n p := Power (_init_needed p) (_charging p) (_batt_connected p) (_power_ok p)
  (_test_done p) (charging_done_tm p) (bat_connect_tm p) (batt_test_tm p) (power_task_tm p) n.

(** The three pads: battery switch, charger, discharge resistor. *)
(** src/hw/pcb_jca123-01.h:25-44 (HW_PWR_BAT_ENA_BIT, HW_PWR_BAT_CHARGE_BIT, HW_PWR_BAT_TEST_BIT) *)
Record pads := Pads { BAT_ENA : bool; BAT_CHARGE : bool; BAT_TEST : bool }.

(** All that the module reads and writes: its statics, the pads, the state word
    of the alarm system, the inputs it enables, the reports it created, and how
    many readings it has taken. *)
Record pworld := PWorld {
  pw : power;
  pd : pads;
  psys : system;
  pinp : inputs;
  reports : list report;
  reads : nat
}.

(** ** Effects *)

Definition PM (A : Type) : Type := pworld → A * pworld.
#[global] Instance PM_ret : MRet PM := λ A a w, (a, w).
#[global] Instance PM_bind : MBind PM := λ A B f m w, let '(a, w') := m w in f a w'.

Definition power_get {A} (f : power → A) : PM A := λ w, (f (pw w), w).
Definition power_set (f : power → power) : PM () :=
  λ w, ((), PWorld (f (pw w)) (pd w) (psys w) (pinp w) (reports w) (reads w)).
Definition pads_set (f : pads → pads) : PM () :=
  λ w, ((), PWorld (pw w) (f (pd w)) (psys w) (pinp w) (reports w) (reads w)).
Definition system_set_of (f : system → system) : PM () :=
  λ w, ((), PWorld (pw w) (pd w) (f (psys w)) (pinp w) (reports w) (reads w)).
Definition inputs_set (f : inputs → inputs) : PM () :=
  λ w, ((), PWorld (pw w) (pd w) (psys w) (f (pinp w)) (reports w) (reads w)).
Definition event (e : event_id) (s : event_source) : PM () :=
  λ w, ((), PWorld (pw w) (pd w) (psys w) (pinp w) (reports w ++ [Report e s]) (reads w)).
(** The answer of the environment to the next reading. *)
Definition reading (f : nat → Z) : PM Z :=
  λ w, (f (reads w), PWorld (pw w) (pd w) (psys w) (pinp w) (reports w) (S (reads w))).

Definition ENA (b : bool) : PM () := pads_set (λ p, Pads b (BAT_CHARGE p) (BAT_TEST p)).
Definition CHARGE (b : bool) : PM () := pads_set (λ p, Pads (BAT_ENA p) b (BAT_TEST p)).
Definition TEST (b : bool) : PM () := pads_set (λ p, Pads (BAT_ENA p) (BAT_CHARGE p) b).

(** src/app/analog.c:32-39 (_fix_value) *)
Definition _fix_value (value : Z) : Z := if value <? 0 then 0 else value.

(** src/app/power.c:185-188 (power_bat_status) *)
Definition power_bat_status (w : system) : bool :=
  if has (system_int_state w) (Z.lor SYSTEM_INT_BATT_LOW SYSTEM_INT_BATT_FAIL) then false else true.
(** src/app/power.c:190-193 (power_status) *)
Definition power_status (w : system) : bool :=
  if has (system_int_state w) SYSTEM_INT_POWER_FAIL then false else true.
(** src/app/power.c:81-84 (_bat_status_set) *)
Definition _bat_status_set (pwr_ok : bool) : PM () :=
  system_set_of (system_int_state_update SYSTEM_INT_BATT_FAIL (negb pwr_ok)).
(** src/app/power.c:86-89 (_power_status_set) *)
Definition _power_status_set (pwr_ok : bool) : PM () :=
  system_set_of (system_int_state_update SYSTEM_INT_POWER_FAIL (negb pwr_ok)).

(** src/app/power.c:74-79 (_bat_discconnect) *)
Definition _bat_discconnect : PM () := _ ← ENA false; power_set (set_connected false).

(** src/app/power.c:91-106 (_bat_set_state) *)
Definition _bat_set_state (state : bool) : PM () :=
  done ← power_get _test_done;
  if negb done then
    _ ← (if negb state then event EVENT_ID_FAULT EVENT_SOURCE_BATTERY else mret ());
    _ ← power_set (set_test_done true);
    _bat_status_set state
  else
    λ w, (if Bool.eqb (power_bat_status (psys w)) state then mret ()
          else _ ← event (if state then EVENT_ID_FAULT_RECOVERY else EVENT_ID_FAULT) EVENT_SOURCE_BATTERY;
               _bat_status_set state) w.

(** The statics keep their values: a second call clears the pads only. *)
(** src/app/power.c:170-183 (power_init) *)
Definition power_init : PM bool :=
  _ ← power_set (set_init true);
  _ ← ENA false; _ ← CHARGE false; _ ← TEST false;
  mret true.

(** src/app/power.c:317-325 (power_batt_ok) *)
Definition power_batt_ok (w : pworld) : bool :=
  if negb (_test_done (pw w)) && _batt_connected (pw w) then true else power_bat_status (psys w).

(** The clock and the two channels of the converter, by reading. *)
Record power_env := PowerEnv { clock : nat → Z; adc_main : nat → Z; adc_batt : nat → Z }.

Section Environment.
Context (E : power_env).

Definition os_timer_get : PM Z := reading (λ n, u32 (clock E n)).
(** src/app/analog.c:41-44 (analog_main_mv) *)
Definition analog_main_mv : PM Z := reading (λ n, _fix_value (adc_main E n)).
(** src/app/analog.c:52-55 (analog_batt_mv) *)
Definition analog_batt_mv : PM Z := reading (λ n, _fix_value (adc_batt E n)).

(** ** Charger and battery switch *)

(** src/app/power.c:37-48 (_charging_on) *)
Definition _charging_on : PM () :=
  on ← power_get _charging;
  if on : bool then mret ()
  else
    now ← os_timer_get; done ← power_get charging_done_tm;
    if now <? u32 (done + 10 * SECOND) then mret ()
    else _ ← CHARGE true; power_set (set_charging true).

(** src/app/power.c:50-59 (_charging_off) *)
Definition _charging_off : PM () :=
  on ← power_get _charging;
  if negb on then mret ()
  else
    _ ← CHARGE false; _ ← power_set (set_charging false);
    now ← os_timer_get; power_set (set_connect_tm (u32 (now + 10 * SECOND))).

(** src/app/power.c:61-72 (_bat_cconnect) *)
Definition _bat_cconnect : PM () :=
  now ← os_timer_get; tm ← power_get bat_connect_tm;
  if now <? tm then mret ()
  else _ ← ENA true; _ ← power_set (set_connected true); power_set (set_connect_tm now).

(** ** Battery test *)

(** src/app/power.c:152-167 (_batt_test) *)
Fixpoint batt_test_load (n : nat) (voltage_ref : Z) : PM () :=
  match n with
  | O => _ ← TEST false; _bat_set_state true
  | S n =>
      voltage ← analog_batt_mv;
      if voltage <? u32 (voltage_ref - V_BATT_DROP) then _ ← TEST false; _bat_set_state false
      else batt_test_load n voltage_ref
  end.

(** src/app/power.c:108-168 (_batt_test) *)
Definition _batt_test : PM () :=
  now ← os_timer_get; ok ← power_get _power_ok; tm ← power_get batt_test_tm;
  if negb ok then power_set (set_test_tm (u32 (now + BATT_TEST_TM)))
  else if now <? tm then mret ()
  else
    _ ← power_set (set_test_tm (u32 (now + BATT_TEST_TM)));
    voltage ← analog_batt_mv;
    if voltage <? V_BATT_OK then _bat_set_state false
    else
      _ ← _charging_off;
      voltage_ref ← analog_batt_mv;
      if voltage_ref <? V_BATT_OK then _bat_set_state false
      else _ ← TEST true; batt_test_load 10 voltage_ref.

(** ** The task *)

(** src/app/power.c:227-270 (power_task) *)
Definition power_task_battery (now voltage_batt voltage_main : Z) : PM () :=
  connected ← power_get _batt_connected; charging ← power_get _charging;
  ok ← power_get _power_ok; done ← power_get charging_done_tm;
  if connected : bool then
    _ ← (if charging : bool then
           if (voltage_main <? V_VCC_CHARGE_EN) || (V_BATT_FULL <? voltage_batt) then
             _ ← (if now <? u32 (done + (10 + 5) * SECOND) then _bat_discconnect else mret ());
             _ ← _charging_off;
             power_set (set_done_tm now)
           else mret ()
         else if (V_VCC_CHARGE_EN + V_HISTERESIS <? voltage_main)
                 && (voltage_batt <? V_BATT_FULL - V_HISTERESIS) then _charging_on
         else if (voltage_batt <? V_BATT_EMPTY) && negb ok then _bat_discconnect
         else mret ());
    _batt_test
  else if (V_BATT_CONNECTED + V_HISTERESIS <? voltage_batt) && ok then _bat_cconnect
  else mret ().

(** src/app/power.c:272-289 (power_task) *)
Definition power_task_supply (voltage_main : Z) : PM () :=
  ok ← power_get _power_ok;
  if ok : bool then
    if voltage_main <? V_VCC_LOST then
      _ ← inputs_set (inp_enable false); power_set (set_power_ok false)
    else mret ()
  else if V_VCC_LOST + V_HISTERESIS <? voltage_main then
    _ ← inputs_set (inp_enable true); power_set (set_power_ok true)
  else mret ().

(** src/app/power.c:291-314 (power_task) *)
Definition power_task_report : PM () :=
  λ w, let ok := _power_ok (pw w) in let n := u32 (power_filter (pw w) + 1) in
    (if Bool.eqb (power_status (psys w)) ok then power_set (set_filter 0)
     else
       _ ← power_set (set_filter n);
       if (if ok then 60 * 10 else 10) <=? n then
         _ ← event (if ok then EVENT_ID_POWER_RECOVERY else EVENT_ID_POWER_FAIL) EVENT_SOURCE_UNIT;
         _power_status_set ok
       else mret ()) w.

(** src/app/power.c:195-315 (power_task) *)
Definition power_task : PM () :=
  now ← os_timer_get; tm ← power_get power_task_tm;
  if now <? tm then mret ()
  else
    _ ← power_set (set_task_tm (u32 (now + 100)));
    voltage_batt ← analog_batt_mv; voltage_main ← analog_main_mv;
    init ← power_get _init_needed;
    if init : bool then
      if (voltage_batt <? V_BATT_CONNECTED) && (voltage_main <? V_VCC_LOST) then
        power_set (set_task_tm (u32 (now + 10 * SECOND)))
      else power_set (set_init false)
    else
      _ ← power_task_battery now voltage_batt voltage_main;
      _ ← power_task_supply voltage_main;
      power_task_report.

(** [n] runs of the task. *)
Fixpoint power_runs (n : nat) : PM () :=
  match n with
  | O => mret ()
  | S n => _ ← power_task; power_runs n
  end.

End Environment.

(** ** Reasoning about effects

    [m] moves the world along [R]; for a reflexive and transitive [R] this is
    closed under everything the code is composed of. *)

Definition moves {A} (R : relation pworld) (m : PM A) : Prop := ∀ w, R w (m w).2.

Section Moves.
Context (R : relation pworld) `{!PreOrder R}.

Lemma moves_ret {A} (a : A) : moves R (mret a).
Proof. intros w. cbn. reflexivity. Qed.

Lemma moves_bind {A B} (m : PM A) (f : A → PM B) :
  moves R m → (∀ a, moves R (f a)) → moves R (m ≫= f).
Proof.
  intros Hm Hf w. specialize (Hm w). unfold mbind, PM_bind. destruct (m w) as [a w1].
  etrans; [exact Hm|apply Hf].
Qed.

Lemma moves_if {A} (b : bool) (m1 m2 : PM A) :
  moves R m1 → moves R m2 → moves R (if b then m1 else m2).
Proof. by destruct b. Qed.

Lemma moves_get {A} (f : power → A) : moves R (power_get f).
Proof. intros w. cbn. reflexivity. Qed.

Lemma moves_runs E n : moves R (power_task E) → moves R (power_runs E n).
Proof. intros H. induction n; cbn [power_runs]; [apply moves_ret|by apply moves_bind]. Qed.
End Moves.

Create HintDb power.
#[export] Hint Resolve moves_ret moves_bind moves_if moves_get moves_runs : power.

(** Runs the primitive effects of the goal. *)
Ltac run_effects :=
  cbv [mbind PM_bind mret PM_ret power_get power_set pads_set inputs_set system_set_of event reading
       ENA CHARGE TEST os_timer_get analog_main_mv analog_batt_mv _bat_status_set _power_status_set];
  cbn [fst snd pw pd psys pinp reports reads].

(** Takes a composed effect apart; [t] ends at the operations it is made of. *)
Ltac moves_with t :=
  repeat first [ solve [t] | progress intros | apply moves_ret | apply moves_get
               | apply moves_if | apply (moves_bind _) ].

(** ** The reports *)

(** The reports of one source, by their kind. *)
Definition ids_of (src : event_source) (l : list report) : list event_id :=
  rep_id <$> filter (λ r, rep_source r = src) l.

Lemma ids_of_app src l k : ids_of src (l ++ k) = ids_of src l ++ ids_of src k.
Proof. unfold ids_of. by rewrite filter_app, fmap_app. Qed.

(** A list of reports that takes the status from one value to another, each
    report telling a change. *)
Inductive alternate (bad good : event_id) : bool → list event_id → bool → Prop :=
  | alternate_nil s : alternate bad good s [] s
  | alternate_bad l s : alternate bad good false l s → alternate bad good true (bad :: l) s
  | alternate_good l s : alternate bad good true l s → alternate bad good false (good :: l) s.

Lemma alternate_app bad good s1 s2 s3 l k :
  alternate bad good s1 l s2 → alternate bad good s2 k s3 → alternate bad good s1 (l ++ k) s3.
Proof. induction 1; intros; cbn; [done|constructor; auto..]. Qed.

Lemma alternate_one bad good b :
  alternate bad good b [if b then bad else good] (negb b).
Proof. destruct b; repeat constructor. Qed.

(** Before its first test the battery counts as good, and nothing sets BATT_LOW. *)
Definition battery_untold (w : pworld) : Prop :=
  has (system_int_state (psys w)) SYSTEM_INT_BATT_LOW = false ∧
  (_test_done (pw w) = false → power_bat_status (psys w) = true).

Definition told (w w' : pworld) : Prop :=
  battery_untold w → battery_untold w' ∧ ∃ l, reports w' = reports w ++ l ∧
    alternate EVENT_ID_POWER_FAIL EVENT_ID_POWER_RECOVERY
      (power_status (psys w)) (ids_of EVENT_SOURCE_UNIT l) (power_status (psys w')) ∧
    alternate EVENT_ID_FAULT EVENT_ID_FAULT_RECOVERY
      (power_bat_status (psys w)) (ids_of EVENT_SOURCE_BATTERY l) (power_bat_status (psys w')).

#[export] Instance told_preorder : PreOrder told.
Proof.
  split.
  - intros w Hw. split; [done|]. exists []. rewrite app_nil_r. repeat split; constructor.
  - intros w1 w2 w3 H12 H23 H1. destruct (H12 H1) as (H2 & l & El & Ha & Hb).
    destruct (H23 H2) as (H3 & k & Ek & Hc & Hd). split; [done|]. exists (l ++ k).
    rewrite Ek, El, app_assoc, !ids_of_app.
    split; [done|]. split; eapply alternate_app; eauto.
Qed.

(** What changes neither the status nor the reports tells nothing. *)
Lemma told_frame w w' :
  reports w' = reports w → psys w' = psys w → _test_done (pw w') = _test_done (pw w) → told w w'.
Proof.
  intros Hr Hs Ht Hw. unfold battery_untold in *. rewrite Hs, Ht. split; [done|]. exists [].
  rewrite app_nil_r. repeat split; [done|constructor..].
Qed.

Lemma has_lor_bits s a b : has s (Z.lor a b) = has s a || has s b.
Proof.
  unfold has. rewrite Z.land_lor_distr_r, <-negb_andb. f_equal.
  destruct (Z.eqb_spec (Z.land s a) 0) as [->|Ha]; cbn [andb]; [by rewrite Z.lor_0_l|].
  apply Z.eqb_neq. intros [H _]%Z.lor_eq_0_iff. done.
Qed.

Lemma status_update_bat ok w :
  has (system_int_state w) SYSTEM_INT_BATT_LOW = false →
  let w' := system_int_state_update SYSTEM_INT_BATT_FAIL (negb ok) w in
  has (system_int_state w') SYSTEM_INT_BATT_LOW = false ∧ power_bat_status w' = ok ∧
  power_status w' = power_status w.
Proof.
  intros Hl. unfold power_bat_status, power_status, system_int_state_update,
    SYSTEM_INT_BATT_FAIL, SYSTEM_INT_BATT_LOW, SYSTEM_INT_POWER_FAIL in *. cbn [system_int_state].
  destruct ok; cbn [negb]; rewrite !has_lor_bits, ?has_clr_same, ?has_lor_same by lia;
    rewrite ?has_clr_ne, ?has_lor_ne, Hl by lia; done.
Qed.

Lemma status_update_power ok w :
  let w' := system_int_state_update SYSTEM_INT_POWER_FAIL (negb ok) w in
  has (system_int_state w') SYSTEM_INT_BATT_LOW = has (system_int_state w) SYSTEM_INT_BATT_LOW ∧
  power_bat_status w' = power_bat_status w ∧ power_status w' = ok.
Proof.
  unfold power_bat_status, power_status, system_int_state_update,
    SYSTEM_INT_BATT_FAIL, SYSTEM_INT_BATT_LOW, SYSTEM_INT_POWER_FAIL in *. cbn [system_int_state].
  destruct ok; cbn [negb]; rewrite !has_lor_bits, ?has_clr_same, ?has_lor_same by lia;
    rewrite ?has_clr_ne, ?has_lor_ne by lia; done.
Qed.

(** The battery's new state with a report [l]. *)
Definition bat_told (state : bool) (l : list report) (w : pworld) : pworld :=
  PWorld (set_test_done true (pw w)) (pd w)
    (system_int_state_update SYSTEM_INT_BATT_FAIL (negb state) (psys w)) (pinp w) (reports w ++ l) (reads w).

Lemma bat_set_state_run state w :
  (_bat_set_state state w).2 =
    if negb (_test_done (pw w)) then
      bat_told state (if state then [] else [Report EVENT_ID_FAULT EVENT_SOURCE_BATTERY]) w
    else if Bool.eqb (power_bat_status (psys w)) state then w
    else bat_told state [Report (if state then EVENT_ID_FAULT_RECOVERY else EVENT_ID_FAULT)
                           EVENT_SOURCE_BATTERY] w.
Proof.
  unfold _bat_set_state, bat_told. destruct w as [p d y i r n]. destruct p as [? ? ? ? done ? ? ? ? ?].
  destruct done; run_effects; cbv [psys]; cbn [negb _test_done].
  - destruct (power_bat_status y), state; reflexivity.
  - destruct state; cbn [negb]; rewrite ?app_nil_r; reflexivity.
Qed.

Lemma told_bat_set_state state : moves told (_bat_set_state state).
Proof.
  intros w Hw. pose proof Hw as (Hl & Ht). rewrite bat_set_state_run.
  destruct (status_update_bat state (psys w) Hl) as (H1 & H2 & H3).
  assert (∀ l, alternate EVENT_ID_FAULT EVENT_ID_FAULT_RECOVERY (power_bat_status (psys w))
                 (ids_of EVENT_SOURCE_BATTERY l) state → ids_of EVENT_SOURCE_UNIT l = [] →
               battery_untold (bat_told state l w) ∧ ∃ k, reports (bat_told state l w) = reports w ++ k ∧
    alternate EVENT_ID_POWER_FAIL EVENT_ID_POWER_RECOVERY (power_status (psys w))
      (ids_of EVENT_SOURCE_UNIT k) (power_status (psys (bat_told state l w))) ∧
    alternate EVENT_ID_FAULT EVENT_ID_FAULT_RECOVERY (power_bat_status (psys w))
      (ids_of EVENT_SOURCE_BATTERY k) (power_bat_status (psys (bat_told state l w)))) as Htold.
  { intros l Hb Hu. split; [split; [exact H1|done]|]. exists l. cbn [psys bat_told reports].
    rewrite H2, H3, Hu. split; [done|]. split; [constructor|]. exact Hb. }
  destruct (_test_done (pw w)) eqn:Ed; cbn [negb].
  - destruct (Bool.eqb (power_bat_status (psys w)) state) eqn:Ee;
      [exact (reflexivity (R := told) w Hw)|]. apply Htold; [|by destruct state].
    destruct (power_bat_status (psys w)), state; try discriminate;
      [exact (alternate_one _ _ true)|exact (alternate_one _ _ false)].
  - rewrite (Ht eq_refl) in *. destruct state; (apply Htold; [|done]);
      [exact (alternate_nil _ _ true)|exact (alternate_one _ _ true)].
Qed.

Lemma told_report : moves told power_task_report.
Proof.
  intros w. unfold power_task_report. cbv zeta.
  destruct (Bool.eqb (power_status (psys w)) (_power_ok (pw w))) eqn:Eq; [by apply told_frame|].
  destruct (_ <=? _) eqn:Ele; [|by apply told_frame]. run_effects. intros (Hl & Ht).
  destruct (status_update_power (_power_ok (pw w)) (psys w)) as (H1 & H2 & H3).
  unfold battery_untold. cbn [psys pw reports _test_done set_filter]. rewrite H1, H2, H3.
  split; [done|]. eexists. split; [reflexivity|].
  destruct (power_status (psys w)), (_power_ok (pw w)); try discriminate; split; constructor; constructor.
Qed.

Lemma told_load E n ref : moves told (batt_test_load E n ref).
Proof.
  induction n as [|n IH]; cbn [batt_test_load];
    moves_with ltac:(first [apply told_bat_set_state | exact IH | intros ?; by apply told_frame]).
Qed.

Lemma told_task E : moves told (power_task E).
Proof.
  unfold power_task, power_task_battery, power_task_supply, _batt_test, _charging_on, _charging_off,
    _bat_cconnect, _bat_discconnect.
  moves_with ltac:(first [apply told_bat_set_state | apply told_load | apply told_report
                         | intros ?; by apply told_frame]).
Qed.

(** ** The pads *)

Record pads_ok (w : pworld) : Prop := {
  ok_ena : BAT_ENA (pd w) = _batt_connected (pw w);
  ok_charge : BAT_CHARGE (pd w) = _charging (pw w);
  ok_charging : _charging (pw w) = true → _batt_connected (pw w) = true;
  ok_test : BAT_TEST (pd w) = false
}.

Definition pads_kept (w w' : pworld) : Prop := pads_ok w → pads_ok w'.

#[export] Instance pads_kept_preorder : PreOrder pads_kept.
Proof. split; unfold pads_kept; [by intros w|intros w1 w2 w3; auto]. Qed.

Lemma pads_frame w w' :
  pd w' = pd w → _charging (pw w') = _charging (pw w) →
  _batt_connected (pw w') = _batt_connected (pw w) → pads_kept w w'.
Proof. intros Hd Hc Hb []. constructor; rewrite ?Hd, ?Hc, ?Hb; auto. Qed.

Lemma bat_set_state_frame state w :
  let w' := (_bat_set_state state w).2 in
  pd w' = pd w ∧ pinp w' = pinp w ∧ ∃ b, pw w' = set_test_done b (pw w).
Proof.
  cbv zeta. rewrite bat_set_state_run.
  assert (pw w = set_test_done (_test_done (pw w)) (pw w)) as Hs by (by destruct (pw w)).
  destruct (negb _); [|destruct (Bool.eqb _ _)]; repeat split; eauto.
Qed.

Lemma pads_bat_set_state state : moves pads_kept (_bat_set_state state).
Proof.
  intros w. destruct (bat_set_state_frame state w) as (Hd & _ & b & Hp).
  apply pads_frame; [done|by rewrite Hp..].
Qed.

(** The load is off again after the test, however it ends. *)
Lemma pads_load E n ref : moves pads_kept (_ ← TEST true; batt_test_load E n ref).
Proof.
  assert (∀ w, pads_ok (TEST false w).2 → pads_ok (batt_test_load E n ref w).2) as Hload.
  { induction n as [|n IH]; intros w Hw; cbn [batt_test_load].
    - exact (pads_bat_set_state true _ Hw).
    - run_effects. destruct (_ <? _); [apply pads_bat_set_state|apply IH];
        destruct Hw; by constructor. }
  intros w []. apply Hload. by constructor.
Qed.

Ltac pads_done := constructor; cbn; try congruence; auto; try (intros ?; exfalso; intuition discriminate).

Lemma pads_charging_off E : moves pads_kept (_charging_off E).
Proof.
  intros w []. unfold _charging_off. run_effects.
  destruct (_charging (pw w)) eqn:Ec; cbn [negb]; pads_done.
Qed.

Lemma pads_battery E now vb vm : moves pads_kept (power_task_battery E now vb vm).
Proof.
  assert (moves pads_kept (_batt_test E)) as Htest.
  { unfold _batt_test. moves_with ltac:(first [apply pads_bat_set_state | apply pads_charging_off
      | apply pads_load | intros ?; by apply pads_frame]). }
  intros w Hw. pose proof Hw as []. unfold power_task_battery. run_effects.
  destruct (_batt_connected (pw w)) eqn:Eb.
  - match goal with |- context [let '(_, _) := ?m w in _] => destruct (m w) as [u w1] eqn:E1 end.
    apply Htest. change w1 with (u, w1).2. rewrite <-E1.
    destruct (_charging (pw w)) eqn:Ec.
    + destruct (_ || _); [|done]. unfold _charging_off, _bat_discconnect.
      destruct (_ <? _); run_effects; rewrite ?Ec; cbn; rewrite ?Ec; cbn; pads_done.
    + destruct (_ && _).
      * unfold _charging_on. run_effects. rewrite Ec. destruct (_ <? _); pads_done.
      * destruct (_ && _); [|done]. unfold _bat_discconnect. run_effects. pads_done.
  - destruct (_ && _); [|done]. unfold _bat_cconnect. run_effects. destruct (_ <? _); pads_done.
Qed.

Lemma pads_task E : moves pads_kept (power_task E).
Proof.
  unfold power_task, power_task_supply.
  moves_with ltac:(first [apply pads_battery | intros ?; by apply pads_frame]).
  intros w. unfold power_task_report. cbv zeta.
  destruct (Bool.eqb _ _); [by apply pads_frame|]. destruct (_ <=? _); by apply pads_frame.
Qed.

(** ** The supply: an abstract machine

    What the task decides about the main supply depends on its voltage alone. *)

Record supply := Supply { s_ok : bool; s_told : bool; s_count : Z }.

Definition supply_of (w : pworld) : supply :=
  Supply (_power_ok (pw w)) (power_status (psys w)) (power_filter (pw w)).

(** The threshold of the supply, with its hysteresis. *)
Definition supply_level (v : Z) (ok : bool) : bool :=
  if ok then negb (v <? V_VCC_LOST) else V_VCC_LOST + V_HISTERESIS <? v.

Definition supply_step (v : Z) (s : supply) : supply * list event_id :=
  let ok := supply_level v (s_ok s) in
  if Bool.eqb (s_told s) ok then (Supply ok (s_told s) 0, [])
  else
    let n := u32 (s_count s + 1) in
    if (if ok then 600 else 10) <=? n
    then (Supply ok ok n, [if ok then EVENT_ID_POWER_RECOVERY else EVENT_ID_POWER_FAIL])
    else (Supply ok (s_told s) n, []).

Fixpoint supply_run (vs : list Z) (s : supply) : supply * list event_id :=
  match vs with
  | [] => (s, [])
  | v :: vs => let '(s1, l1) := supply_step v s in let '(s2, l2) := supply_run vs s1 in (s2, l1 ++ l2)
  end.

Section Supply.
Context (E : power_env).

(** The voltage a run acts on, and those of [n] runs: a run that comes too early
    or finds the module not yet started acts on none. *)
Definition observed1 (w : pworld) : list Z :=
  if u32 (clock E (reads w)) <? power_task_tm (pw w) then []
  else if _init_needed (pw w) then []
  else [_fix_value (adc_main E (S (S (reads w))))].

Fixpoint observed (n : nat) (w : pworld) : list Z :=
  match n with
  | O => []
  | S n => observed1 w ++ observed n (power_task E w).2
  end.

(** The battery's part of a run leaves the supply's alone. *)
Definition supply_frame (w w' : pworld) : Prop :=
  supply_of w' = supply_of w ∧ power_task_tm (pw w') = power_task_tm (pw w) ∧
  _init_needed (pw w') = _init_needed (pw w) ∧ pinp w' = pinp w ∧
  ∃ l, reports w' = reports w ++ l ∧ ids_of EVENT_SOURCE_UNIT l = [].

#[export] Instance supply_frame_preorder : PreOrder supply_frame.
Proof.
  split.
  - intros w. repeat split. exists []. by rewrite app_nil_r.
  - intros w1 w2 w3 (? & ? & ? & ? & l & El & Hl) (? & ? & ? & ? & k & Ek & Hk).
    split; [congruence|]. split; [congruence|]. split; [congruence|]. split; [congruence|].
    exists (l ++ k). rewrite Ek, El, app_assoc, ids_of_app, Hl, Hk. done.
Qed.

Lemma supply_frame_intro w w' :
  psys w' = psys w → _power_ok (pw w') = _power_ok (pw w) → power_filter (pw w') = power_filter (pw w) →
  power_task_tm (pw w') = power_task_tm (pw w) → _init_needed (pw w') = _init_needed (pw w) →
  pinp w' = pinp w → reports w' = reports w → supply_frame w w'.
Proof.
  intros Hs Ho Hf Ht Hi Hp Hr. unfold supply_frame, supply_of. rewrite Hs, Ho, Hf, Ht, Hi, Hp, Hr.
  repeat split. exists []. by rewrite app_nil_r.
Qed.

Lemma status_update_bat_power b w :
  power_status (system_int_state_update SYSTEM_INT_BATT_FAIL b w) = power_status w.
Proof.
  unfold power_status, system_int_state_update, SYSTEM_INT_BATT_FAIL, SYSTEM_INT_POWER_FAIL.
  cbn [system_int_state]. destruct b; by rewrite ?has_lor_ne, ?has_clr_ne by lia.
Qed.

Lemma supply_bat_set_state state : moves supply_frame (_bat_set_state state).
Proof.
  intros w. rewrite bat_set_state_run.
  assert (∀ l, ids_of EVENT_SOURCE_UNIT l = [] → supply_frame w (bat_told state l w)) as Hl.
  { intros l Hl. unfold supply_frame, supply_of, bat_told. cbn [psys pw reports pinp].
    rewrite status_update_bat_power. repeat split. by exists l. }
  destruct (negb _); [apply Hl; by destruct state|].
  destruct (Bool.eqb _ _); [reflexivity|]. by apply Hl.
Qed.

Lemma supply_load n ref : moves supply_frame (batt_test_load E n ref).
Proof.
  induction n as [|n IH]; cbn [batt_test_load];
    moves_with ltac:(first [apply supply_bat_set_state | exact IH | intros ?; by apply supply_frame_intro]).
Qed.

Lemma supply_battery now vb vm : moves supply_frame (power_task_battery E now vb vm).
Proof.
  unfold power_task_battery, _batt_test, _charging_on, _charging_off, _bat_cconnect, _bat_discconnect.
  moves_with ltac:(first [apply supply_bat_set_state | apply supply_load
                         | intros ?; by apply supply_frame_intro]).
Qed.

(** The rest of a run is a step of the machine. *)
Lemma supply_rest v w :
  let w' := (((_ ← power_task_supply v; power_task_report) : PM ()) w).2 in
  ∃ l, reports w' = reports w ++ l ∧
    (supply_of w', ids_of EVENT_SOURCE_UNIT l) = supply_step v (supply_of w) ∧
    power_task_tm (pw w') = power_task_tm (pw w) ∧ _init_needed (pw w') = _init_needed (pw w) ∧
    _inp_enabled (pinp w') =
      (if Bool.eqb (_power_ok (pw w')) (_power_ok (pw w)) then _inp_enabled (pinp w)
       else _power_ok (pw w')).
Proof.
  assert (∀ w, let w' := (power_task_report w).2 in
    ∃ l, reports w' = reports w ++ l ∧ _power_ok (pw w') = _power_ok (pw w) ∧ pinp w' = pinp w ∧
      power_task_tm (pw w') = power_task_tm (pw w) ∧ _init_needed (pw w') = _init_needed (pw w) ∧
      (supply_of w', ids_of EVENT_SOURCE_UNIT l) =
        let s := supply_of w in
        if Bool.eqb (s_told s) (s_ok s) then (Supply (s_ok s) (s_told s) 0, [])
        else if (if s_ok s then 600 else 10) <=? u32 (s_count s + 1)
        then (Supply (s_ok s) (s_ok s) (u32 (s_count s + 1)),
              [if s_ok s then EVENT_ID_POWER_RECOVERY else EVENT_ID_POWER_FAIL])
        else (Supply (s_ok s) (s_told s) (u32 (s_count s + 1)), [])) as Hrep.
  { clear w. intros w. unfold power_task_report, supply_of. cbv zeta. cbn [s_ok s_told s_count].
    destruct (Bool.eqb _ _).
    { exists []. rewrite app_nil_r. repeat split. }
    change (60 * 10) with 600. destruct (_ <=? _); run_effects.
    - eexists. split; [reflexivity|].
      destruct (status_update_power (_power_ok (pw w)) (psys w)) as (_ & _ & H3).
      cbn [pw psys pinp]. rewrite H3. repeat split.
    - exists []. rewrite app_nil_r. repeat split. }
  unfold power_task_supply, supply_step, supply_level, supply_of in *. run_effects.
  cbn [s_ok s_told s_count] in *.
  destruct (_power_ok (pw w)) eqn:Eok; [destruct (v <? V_VCC_LOST)|destruct (_ <? v)]; run_effects.
  all: match goal with |- context [(power_task_report ?w1).2] =>
    destruct (Hrep w1) as (l & H1 & H2 & H3 & H4 & H5 & H6) end.
  all: cbn [pw psys pinp reports set_power_ok _power_ok power_filter] in *.
  all: exists l; cbv zeta; rewrite H1, H3, H4, H5, H6, H2, ?Eok; cbn; done.
Qed.

Lemma supply_run_one v s : supply_run [v] s = supply_step v s.
Proof. cbn. destruct (supply_step v s). by rewrite app_nil_r. Qed.

Lemma supply_run_app vs ws s :
  supply_run (vs ++ ws) s =
    let '(s1, l1) := supply_run vs s in let '(s2, l2) := supply_run ws s1 in (s2, l1 ++ l2).
Proof.
  revert s. induction vs as [|v vs IH]; intros s; cbn.
  - by destruct (supply_run ws s).
  - destruct (supply_step v s) as [s1 l1]. rewrite IH. destruct (supply_run vs s1) as [s2 l2].
    destruct (supply_run ws s2) as [s3 l3]. by rewrite app_assoc.
Qed.

Lemma bind_snd {A B} (m : PM A) (f : A → PM B) w : ((m ≫= f) w).2 = (f (m w).1 (m w).2).2.
Proof. unfold mbind, PM_bind. by destruct (m w). Qed.

(** What one run does to the supply's part of the world, with its reports. *)
Definition supply_moves (vs : list Z) (w w' : pworld) : Prop :=
  (∃ l, reports w' = reports w ++ l ∧
     (supply_of w', ids_of EVENT_SOURCE_UNIT l) = supply_run vs (supply_of w)) ∧
  (_inp_enabled (pinp w) = _power_ok (pw w) → _inp_enabled (pinp w') = _power_ok (pw w')).

Lemma supply_moves_frame w w' : supply_frame w w' → supply_moves [] w w'.
Proof.
  intros (Hs & _ & _ & Hp & l & El & Hl). split; [exists l; by rewrite Hs, Hl|].
  rewrite Hp. injection Hs as -> _ _. done.
Qed.

Lemma supply_moves_trans vs ws w1 w2 w3 :
  supply_moves vs w1 w2 → supply_moves ws w2 w3 → supply_moves (vs ++ ws) w1 w3.
Proof.
  intros [(l & El & Hl) Hi] [(k & Ek & Hk) Hj]. split; [|auto].
  exists (l ++ k). rewrite Ek, El, app_assoc, ids_of_app, supply_run_app, <-Hl, <-Hk. done.
Qed.

Lemma supply_task w : supply_moves (observed1 w) w (power_task E w).2.
Proof.
  unfold observed1, power_task. rewrite !bind_snd.
  cbn [fst snd os_timer_get reading power_get pw].
  destruct (_ <? _); [by apply supply_moves_frame, supply_frame_intro|].
  rewrite !bind_snd. cbn [fst snd reading power_set power_get analog_batt_mv analog_main_mv pw set_task_tm reads _init_needed].
  destruct (_init_needed (pw w)) eqn:Ei.
  { destruct (_ && _); split; cbn; try done; exists []; by rewrite app_nil_r. }
  set (v := _fix_value _).
  match goal with |- supply_moves _ _ ((_ ≫= _) ?w1).2 => set (w0 := w1) end.
  rewrite bind_snd.
  set (w1 := (power_task_battery E _ _ _ w0).2).
  assert (supply_moves [] w w1) as H1.
  { change [] with ([] ++ [] : list Z). apply (supply_moves_trans _ _ _ w0).
    - split; [exists []; by rewrite app_nil_r|done].
    - apply supply_moves_frame, supply_battery. }
  change [v] with ([] ++ [v]). eapply supply_moves_trans; [exact H1|].
  destruct (supply_rest v w1) as (l & El & Hs & _ & _ & Hi). split.
  - exists l. rewrite supply_run_one. split; [exact El|exact Hs].
  - intros He. etrans; [exact Hi|]. rewrite He.
    destruct (_power_ok _), (_power_ok (pw w1)); done.
Qed.

Lemma power_runs_S n w : (power_runs E (S n) w).2 = (power_runs E n (power_task E w).2).2.
Proof. cbn [power_runs]. by rewrite bind_snd. Qed.

Lemma supply_runs n w : supply_moves (observed n w) w (power_runs E n w).2.
Proof.
  revert w. induction n as [|n IH]; intros w; [by apply supply_moves_frame, reflexivity|].
  rewrite power_runs_S. cbn [observed]. eapply supply_moves_trans; [apply supply_task|apply IH].
Qed.

Lemma observed_snoc n w : observed (S n) w = observed n w ++ observed1 (power_runs E n w).2.
Proof.
  revert w. induction n as [|n IH]; intros w; [cbn; by rewrite app_nil_r|].
  change (observed (S (S n)) w) with (observed1 w ++ observed (S n) (power_task E w).2).
  rewrite IH, power_runs_S. cbn [observed]. by rewrite app_assoc.
Qed.

Lemma power_runs_snoc n w :
  (power_runs E (S n) w).2 = (power_task E (power_runs E n w).2).2.
Proof.
  revert w. induction n as [|n IH]; intros w; [cbn; by rewrite bind_snd|].
  by rewrite power_runs_S, IH, power_runs_S.
Qed.
End Supply.

(** ** The time filter *)

Definition ends_with (k : Z) (P : Z → Prop) (l : list Z) : Prop :=
  ∃ pre mid, l = pre ++ mid ∧ Z.of_nat (length mid) = k ∧ Forall P mid.

Lemma ends_with_nil P l : ends_with 0 P l.
Proof. exists l, []. by rewrite app_nil_r. Qed.

Lemma ends_with_snoc k P l v : ends_with k P l → P v → ends_with (k + 1) P (l ++ [v]).
Proof.
  intros (pre & mid & -> & Hk & Hm) Hv. exists pre, (mid ++ [v]). split; [by rewrite app_assoc|].
  rewrite length_app. cbn. split; [lia|]. apply Forall_app_2; [done|]. by constructor.
Qed.

Lemma ends_with_one P l v : P v → ends_with 1 P (l ++ [v]).
Proof. intros. apply (ends_with_snoc 0); [apply ends_with_nil|done]. Qed.

(** What the counter knows about the voltages [vs] so far: as long as the
    supply differs from what was told it counts the runs since it does.  The
    counter of a fresh report is left standing, which [s_count] allows for. *)
Definition counted (vs : list Z) (s : supply) : Prop :=
  0 ≤ s_count s ∧
  match s_told s, s_ok s with
  | true, false => s_count s < 10 ∧ ends_with (s_count s) (λ v, v ≤ 8050) vs
  | false, true =>
      s_count s < 600 ∧ (10 ≤ s_count s → ends_with (s_count s - 10) (λ v, 8000 ≤ v) vs) ∧
      (s_count s < 10 → ends_with (s_count s) (λ v, 8000 ≤ v) vs)
  | true, true => s_count s = 0 ∨ 600 ≤ s_count s
  | false, false => s_count s = 0 ∨ s_count s = 10 ∨ 600 ≤ s_count s
  end.

Lemma supply_level_spec v ok :
  if supply_level v ok then 8000 ≤ v else v ≤ 8050.
Proof.
  unfold supply_level, V_VCC_LOST, V_HISTERESIS.
  destruct ok; [destruct (Z.ltb_spec v 8000)|destruct (Z.ltb_spec (8000 + 50) v)]; cbn [negb]; lia.
Qed.

Lemma ends_with_step k m P l v :
  (k = 0 ∨ ends_with k P l) → P v → m = k + 1 → ends_with m P (l ++ [v]).
Proof.
  intros [->|Hk] Hv ->; apply ends_with_snoc; [apply ends_with_nil|done|done|done].
Qed.

Lemma ends_with_zero m P l : m = 0 → ends_with m P l.
Proof. intros ->. apply ends_with_nil. Qed.

(** Closes an [ends_with] of the new list from one of the old, [k] shorter. *)
Ltac ends_with_from k :=
  solve [ apply ends_with_zero; lia
        | apply (ends_with_step k); [first [left; lia|right; auto with lia]|lia|lia] ].

(** A step keeps [counted]; what it tells stood for its time, unless the
    counter of the last recovery was still standing. *)
Lemma counted_step vs v s :
  in_u32 (s_count s) → counted vs s →
  let s' := (supply_step v s).1 in
  in_u32 (s_count s') ∧ counted (vs ++ [v]) s' ∧
  (s_told s = true → s_told s' = false →
     600 ≤ s_count s ∨ ends_with 10 (λ v, v ≤ 8050) (vs ++ [v])) ∧
  (s_told s = false → s_told s' = true →
     600 ≤ s_count s ∨ ends_with 590 (λ v, 8000 ≤ v) (vs ++ [v])).
Proof.
  intros Hu (H0 & Hc). unfold supply_step. pose proof (supply_level_spec v (s_ok s)) as Hv.
  pose proof (u32_range (s_count s + 1)) as Hr.
  assert (u32 (s_count s + 1) = s_count s + 1 ∨ (s_count s = 4294967295 ∧ u32 (s_count s + 1) = 0)) as Hn.
  { unfold in_u32 in *. destruct (decide (s_count s = 4294967295)) as [->|]; [by right|].
    left. apply u32_small. unfold in_u32. lia. }
  set (n := u32 (s_count s + 1)) in *. unfold in_u32 in *. unfold counted in *.
  destruct s as [ok told c]. cbn [s_ok s_told s_count] in *.
  destruct (supply_level v ok), told, ok; cbn [Bool.eqb];
    try (destruct (Z.leb_spec 600 n)); try (destruct (Z.leb_spec 10 n));
    cbn [fst s_ok s_told s_count].
  all: repeat match goal with H : _ ∧ _ |- _ => destruct H end.
  all: split; [lia|]; repeat split; intros; try discriminate; try lia.
  all: try (left; lia); try right.
  all: destruct Hn as [Hn|[_ Hn]]; destruct (decide (c = 9)).
  all: first [ends_with_from c|ends_with_from (c - 10)|ends_with_from 0].
Qed.

Lemma counted_run vs s :
  s_count s = 0 → in_u32 (s_count (supply_run vs s).1) ∧ counted vs (supply_run vs s).1.
Proof.
  intros H0. induction vs as [|v vs IH] using rev_ind.
  - cbn [supply_run fst]. unfold counted, in_u32. rewrite H0. split; [lia|]. split; [lia|].
    destruct (s_told s), (s_ok s); repeat split; try lia; intros; apply ends_with_nil.
  - rewrite supply_run_app. destruct (supply_run vs s) as [s1 l1]. cbn [fst] in IH.
    rewrite supply_run_one.
    destruct IH as [Hu Hc]. destruct (counted_step vs v s1 Hu Hc) as (H1 & H2 & _).
    by destruct (supply_step v s1).
Qed.

(** While every voltage is below the threshold, the loss is told once. *)
Lemma loss_run vs s :
  Forall (λ v, v < V_VCC_LOST) vs → vs ≠ [] → 0 ≤ s_count s →
  s_count s + Z.of_nat (length vs) < 4294967296 →
  (s_told s = true → 10 ≤ s_count s + Z.of_nat (length vs)) →
  let '(s', ids) := supply_run vs s in
  s_ok s' = false ∧ s_told s' = false ∧ ids = if s_told s then [EVENT_ID_POWER_FAIL] else [].
Proof.
  intros Hvs. revert s. induction Hvs as [|v vs Hv Hvs IH]; intros s Hne H0 Hmax Hlen; [done|].
  cbn [supply_run]. cbn [length] in *. unfold supply_step.
  assert (supply_level v (s_ok s) = false) as ->.
  { unfold supply_level, V_VCC_LOST, V_HISTERESIS in *.
    destruct (s_ok s); [destruct (Z.ltb_spec v 8000)|destruct (Z.ltb_spec (8000 + 50) v)]; done || lia. }
  rewrite u32_small by (unfold in_u32; lia).
  assert (∀ s1, s_told s1 = false → s_ok s1 = false → 0 ≤ s_count s1 →
            s_count s1 + Z.of_nat (length vs) < 4294967296 →
            let '(s2, l2) := supply_run vs s1 in s_ok s2 = false ∧ s_told s2 = false ∧ l2 = []) as Hdone.
  { intros s1 Ht Ho Hs1 Hm. destruct vs as [|v' vs]; [done|].
    specialize (IH s1). rewrite Ht in IH. apply IH; done. }
  destruct (s_told s) eqn:Et; cbn [Bool.eqb].
  - specialize (Hlen eq_refl). destruct (Z.leb_spec 10 (s_count s + 1)).
    + specialize (Hdone (Supply false false (s_count s + 1)) eq_refl eq_refl). cbn [s_count] in Hdone.
      destruct (supply_run vs _) as [s2 l2]. destruct Hdone as (H1 & H2 & ->); [lia..|]. done.
    + specialize (IH (Supply false true (s_count s + 1))). cbn [s_count s_told] in IH.
      destruct (supply_run vs _) as [s2 l2]. destruct IH as (H1 & H2 & ->); try lia; [|done].
      destruct vs; [cbn in *; lia|done].
  - specialize (Hdone (Supply false false 0) eq_refl eq_refl). cbn [s_count] in Hdone.
    destruct (supply_run vs _) as [s2 l2]. destruct Hdone as (H1 & H2 & ->); [lia..|]. done.
Qed.

(** ** A battery switched off without the main supply *)

Definition battery_off (w : pworld) : Prop :=
  _batt_connected (pw w) = false ∧ _charging (pw w) = false ∧
  BAT_ENA (pd w) = false ∧ BAT_CHARGE (pd w) = false.
Definition off_kept (w w' : pworld) : Prop := battery_off w → battery_off w'.

#[export] Instance off_kept_preorder : PreOrder off_kept.
Proof. split; unfold off_kept; [by intros w|intros w1 w2 w3; auto]. Qed.

Lemma off_frame w w' :
  BAT_ENA (pd w') = BAT_ENA (pd w) → BAT_CHARGE (pd w') = BAT_CHARGE (pd w) →
  _charging (pw w') = _charging (pw w) → _batt_connected (pw w') = _batt_connected (pw w) →
  off_kept w w'.
Proof. unfold off_kept, battery_off. intros -> -> -> ->. done. Qed.

Lemma off_bat_set_state state : moves off_kept (_bat_set_state state).
Proof.
  intros w. destruct (bat_set_state_frame state w) as (Hd & _ & b & Hp).
  apply off_frame; [by rewrite Hd..|by rewrite Hp|by rewrite Hp].
Qed.

Lemma off_batt_test E : moves off_kept (_batt_test E).
Proof.
  assert (∀ n ref, moves off_kept (batt_test_load E n ref)) as Hload.
  { intros n ref. induction n as [|n IH]; cbn [batt_test_load];
      moves_with ltac:(first [apply off_bat_set_state | exact IH | intros ?; by apply off_frame]). }
  assert (moves off_kept (_charging_off E)) as Hoff.
  { intros w (H1 & H2 & H3 & H4). unfold _charging_off. run_effects. by rewrite H2. }
  unfold _batt_test.
  moves_with ltac:(first [apply off_bat_set_state | apply Hload | apply Hoff
                         | intros ?; by apply off_frame]).
Qed.

Lemma off_report w : off_kept w (power_task_report w).2.
Proof.
  unfold power_task_report. cbv zeta.
  destruct (Bool.eqb _ _); [by apply off_frame|]. destruct (_ <=? _); by apply off_frame.
Qed.

(** Battery off, main supply off. *)
Definition dark (w : pworld) : Prop := battery_off w ∧ _power_ok (pw w) = false.

Lemma supply_off v w :
  v ≤ V_VCC_LOST + V_HISTERESIS → dark w → dark (((_ ← power_task_supply v; power_task_report) : PM ()) w).2.
Proof.
  intros Hv [Hoff Hok]. split.
  - unfold power_task_supply. run_effects. rewrite Hok.
    destruct (Z.ltb_spec (V_VCC_LOST + V_HISTERESIS) v); [lia|]. by apply off_report.
  - destruct (supply_rest v w) as (l & _ & Hs & _).
    assert (supply_level v (_power_ok (pw w)) = false) as Hl.
    { rewrite Hok. unfold supply_level. apply Z.ltb_ge. lia. }
    unfold supply_step in Hs. cbn [s_ok supply_of] in Hs. rewrite Hl in Hs.
    destruct (Bool.eqb _ _); [by injection Hs|]. destruct (_ <=? _); by injection Hs.
Qed.

Lemma battery_dark E now vb vm w : dark w → (power_task_battery E now vb vm w).2 = w.
Proof.
  intros [(H1 & _) H2]. unfold power_task_battery. run_effects. rewrite H1, H2, andb_false_r. done.
Qed.

(** The readings of a run that gets past its guards. *)
Lemma power_task_run E w :
  power_task_tm (pw w) ≤ u32 (clock E (reads w)) → _init_needed (pw w) = false →
  let now := u32 (clock E (reads w)) in
  let vb := _fix_value (adc_batt E (S (reads w))) in
  let vm := _fix_value (adc_main E (S (S (reads w)))) in
  (power_task E w).2 =
    (((_ ← power_task_battery E now vb vm; _ ← power_task_supply vm; power_task_report) : PM ())
       (PWorld (set_task_tm (u32 (now + 100)) (pw w)) (pd w) (psys w) (pinp w) (reports w)
          (S (S (S (reads w)))))).2.
Proof.
  destruct w as [p d y i r k]. cbn [pw pd psys pinp reports reads].
  intros Htm Hinit. cbv zeta. unfold power_task. run_effects. cbv [pw pd psys pinp reports reads].
  destruct (Z.ltb_spec (u32 (clock E k)) (power_task_tm p)); [lia|].
  change (_init_needed (set_task_tm _ p)) with (_init_needed p). by rewrite Hinit.
Qed.

Lemma dark_task E w :
  Forall (λ v, v ≤ V_VCC_LOST + V_HISTERESIS) (observed1 E w) → dark w → dark (power_task E w).2.
Proof.
  unfold observed1. intros Hv Hd.
  destruct (Z.ltb_spec (u32 (clock E (reads w))) (power_task_tm (pw w))) as [Hlt|Htm].
  { unfold power_task. run_effects. destruct (Z.ltb_spec (u32 (clock E (reads w))) (power_task_tm (pw w)));
      [exact Hd|lia]. }
  destruct (_init_needed (pw w)) eqn:Ei.
  { destruct w as [p d y i r k]. cbn [pw pd psys pinp reports reads] in *. unfold power_task. run_effects.
    cbv [pw pd psys pinp reports reads]. destruct (_ <? power_task_tm p); [exact Hd|].
    change (_init_needed (set_task_tm _ p)) with (_init_needed p). rewrite Ei.
    destruct (_ && _); exact Hd. }
  rewrite power_task_run by done. cbv zeta. set (w0 := PWorld _ _ _ _ _ _).
  rewrite bind_snd. set (w1 := (power_task_battery _ _ _ _ w0).2).
  assert (w1 = w0) as ->.
  { by apply battery_dark. }
  apply supply_off; [exact (Forall_inv Hv)|exact Hd].
Qed.

Lemma dark_runs E n w :
  Forall (λ v, v ≤ V_VCC_LOST + V_HISTERESIS) (observed E n w) → dark w → dark (power_runs E n w).2.
Proof.
  revert w. induction n as [|n IH]; intros w; [done|]. cbn [observed]. intros [H1 H2]%Forall_app Hd.
  rewrite power_runs_S. apply IH; [done|]. by apply dark_task.
Qed.

(** ** Properties *)

(** No loss of the main supply and no recovery of it is told early: a run that
    tells a loss ends ten runs in a row which all saw at most 8.05 V, one that
    tells a recovery ends 590 which all saw at least 8 V, whatever the battery
    does meanwhile; runs are 100 ms apart, being those that passed the period.
    The exception is a counter of 600 or more left from the last recovery. *)
Theorem power_reports_debounced E n w :
  power_filter (pw w) = 0 →
  let w1 := (power_runs E n w).2 in let w2 := (power_runs E (S n) w).2 in
  (power_status (psys w1) = true → power_status (psys w2) = false →
     600 ≤ power_filter (pw w1) ∨ ends_with 10 (λ v, v ≤ 8050) (observed E (S n) w)) ∧
  (power_status (psys w1) = false → power_status (psys w2) = true →
     600 ≤ power_filter (pw w1) ∨ ends_with 590 (λ v, 8000 ≤ v) (observed E (S n) w)).
Proof.
  intros H0. cbv zeta. rewrite power_runs_snoc, observed_snoc.
  destruct (counted_run (observed E n w) (supply_of w) H0) as [Hu Hc].
  destruct (supply_runs E n w) as [(l & _ & Hl) _]. rewrite <-Hl in Hu, Hc. cbn [fst] in Hu, Hc.
  set (w1 := (power_runs E n w).2) in *.
  destruct (supply_task E w1) as [(k & _ & Hk) _].
  unfold observed1 in Hk |- *. destruct (_ <? _); [|destruct (_init_needed _)].
  1,2: injection Hk as H1 H2 _ _; rewrite H2; split; congruence.
  rewrite supply_run_one in Hk. destruct (counted_step _ (_fix_value (adc_main E (S (S (reads w1)))))
    _ Hu Hc) as (_ & _ & Hloss & Hback). rewrite <-Hk in Hloss, Hback. done.
Qed.

(** C29 (functional). A lost supply is told, once: when ten runs or more all see less than 8 V,
    the loss is in the state word afterwards, the reports hold it exactly once
    if it was not told before and not at all otherwise, and the inputs that need
    the supply are off.  The hypothesis on the counter excludes its wrap. *)
Theorem power_loss_reported E n w :
  (10 ≤ length (observed E n w))%nat → Forall (λ v, v < V_VCC_LOST) (observed E n w) →
  0 ≤ power_filter (pw w) → power_filter (pw w) + Z.of_nat n < 4294967296 →
  let w' := (power_runs E n w).2 in
  power_status (psys w') = false ∧ _power_ok (pw w') = false ∧
  (_inp_enabled (pinp w) = _power_ok (pw w) → _inp_enabled (pinp w') = false) ∧
  ∃ l, reports w' = reports w ++ l ∧
    ids_of EVENT_SOURCE_UNIT l = if power_status (psys w) then [EVENT_ID_POWER_FAIL] else [].
Proof.
  intros Hlen Hvs H0 Hmax. cbv zeta.
  assert (length (observed E n w) ≤ n)%nat as Hn.
  { clear. revert w. induction n as [|n IH]; intros w; cbn [observed]; [done|].
    rewrite length_app. specialize (IH (power_task E w).2). unfold observed1.
    destruct (_ <? _); [cbn; lia|]. destruct (_init_needed _); cbn; lia. }
  destruct (supply_runs E n w) as [(l & El & Hl) Hi].
  pose proof (loss_run (observed E n w) (supply_of w) Hvs) as Hrun. rewrite <-Hl in Hrun.
  cbn [s_ok s_told s_count supply_of] in Hrun.
  destruct Hrun as (H1 & H2 & H3); [by intros E0; rewrite E0 in Hlen; cbn in Hlen; lia|lia..|].
  split; [done|]. split; [done|]. split; [intros Hi'; rewrite Hi by done; done|]. by exists l.
Qed.

(** Nothing is told twice: over any course of time and voltages the reports of
    the supply are POWER_FAIL and POWER_RECOVERY in turn, those of the battery
    FAULT and FAULT_RECOVERY in turn, each sequence starting from the status
    before and ending in the status after. *)
Theorem power_events_alternate E n w :
  battery_untold w →
  let w' := (power_runs E n w).2 in
  ∃ l, reports w' = reports w ++ l ∧
    alternate EVENT_ID_POWER_FAIL EVENT_ID_POWER_RECOVERY
      (power_status (psys w)) (ids_of EVENT_SOURCE_UNIT l) (power_status (psys w')) ∧
    alternate EVENT_ID_FAULT EVENT_ID_FAULT_RECOVERY
      (power_bat_status (psys w)) (ids_of EVENT_SOURCE_BATTERY l) (power_bat_status (psys w')).
Proof. intros Hw. exact (proj2 (moves_runs told E n (told_task E) w Hw)). Qed.

(** From [power_init] on, after every run of the task the pads are what the
    module believes: the battery switch and the charger follow their flags, the
    charger is on only with the battery connected, and the test load is off
    however a test ended. *)
Theorem power_pads_consistent E n w :
  pw w = power_start →
  pads_ok (power_runs E n (power_init w).2).2.
Proof.
  intros Hw. apply (moves_runs pads_kept E n (pads_task E)).
  unfold power_init. run_effects. rewrite Hw. by constructor.
Qed.

(** Losing the main supply while charging, within 15 s of the end of the
    charge before, switches the backup battery off: the drop of the main
    voltage ends the charge, this counts as a failed charge, and the battery
    is disconnected in the very run that sees the supply lost.  It stays off
    until a run sees the supply back. *)
Theorem power_cut_disconnects_battery E n w :
  let now := u32 (clock E (reads w)) in
  power_task_tm (pw w) ≤ now → _init_needed (pw w) = false →
  _batt_connected (pw w) = true → _charging (pw w) = true → _power_ok (pw w) = true →
  now < u32 (charging_done_tm (pw w) + 15000) →
  _fix_value (adc_main E (S (S (reads w)))) < V_VCC_LOST →
  Forall (λ v, v ≤ V_VCC_LOST + V_HISTERESIS) (observed E n (power_task E w).2) →
  dark (power_runs E n (power_task E w).2).2.
Proof.
  cbv zeta. intros Htm Hi Hb Hc Hok Hdone Hv Hrest. apply dark_runs; [done|]. clear Hrest.
  rewrite power_task_run by done. cbv zeta. set (w0 := PWorld _ _ _ _ _ _).
  set (now := u32 (clock E (reads w))) in *. set (vm := _fix_value (adc_main _ _)) in *.
  set (vb := _fix_value (adc_batt _ _)) in *. rewrite bind_snd. set (w1 := (power_task_battery E now vb vm w0).2).
  assert (battery_off w1) as Hoff.
  { unfold w1, power_task_battery, w0. run_effects.
    cbn [_batt_connected _charging _power_ok charging_done_tm set_task_tm]. rewrite Hb, Hc.
    change ((10 + 5) * SECOND) with 15000. unfold V_VCC_CHARGE_EN, V_VCC_LOST in *.
    destruct (Z.ltb_spec vm 12600); [|lia]. cbn [orb].
    destruct (Z.ltb_spec now (u32 (charging_done_tm (pw w) + 15000))); [|lia].
    unfold _bat_discconnect, _charging_off. run_effects. cbn [_charging set_connected set_task_tm].
    rewrite Hc. cbn [negb]. apply off_batt_test. done. }
  assert (_power_ok (pw w1) = true) as Hok1.
  { destruct (supply_battery E now vb vm w0) as (Hs & _). injection Hs as Hs _ _. by etrans; [exact Hs|]. }
  unfold power_task_supply. rewrite bind_snd. run_effects. rewrite Hok1.
  destruct (Z.ltb_spec vm V_VCC_LOST); [|lia]. run_effects. split; [by apply off_report|].
  unfold power_task_report. cbv zeta. cbn [pw psys set_power_ok _power_ok].
  destruct (Bool.eqb _ _); [done|]. destruct (_ <=? _); done.
Qed.

(** ** Witnesses *)

Definition power_boot : pworld :=
  (power_init (PWorld power_start (Pads true true true) boot_system
     (inp_init (λ _, false) (Inputs false 0 0 0 0 [])) [] 0)).2.

(** A clock that moves on by [d] ms from reading to reading, and a main supply
    of 13 V up to reading [n] and of [v] mV from there. *)
Definition power_trace (d : Z) (n : nat) (v batt : Z) : power_env :=
  PowerEnv (λ k, 2000 + d * Z.of_nat k) (λ k, if (k <? n)%nat then 13000 else v) (λ _, batt).

(** No battery; the supply fails after six runs, ten runs later this is told. *)
Definition trace_fail : power_env := power_trace 100 18 5000 1000.

Lemma power_reports_debounced_witness :
  let w1 := (power_runs trace_fail 15 power_boot).2 in
  let w2 := (power_runs trace_fail 16 power_boot).2 in
  ids_of EVENT_SOURCE_UNIT (reports w2) = [EVENT_ID_POWER_FAIL] ∧
  ends_with 10 (λ v, v ≤ 8050) (observed trace_fail 16 power_boot).
Proof.
  cbv zeta. split; [vm_compute; reflexivity|].
  destruct (proj1 (power_reports_debounced trace_fail 15 power_boot eq_refl)) as [H|H];
    [vm_compute; reflexivity..| |exact H].
  exfalso. vm_compute in H. by apply H.
Defined.

Definition supply_world : pworld := (power_runs trace_fail 6 power_boot).2.

Lemma power_loss_reported_witness :
  let w' := (power_runs trace_fail 12 supply_world).2 in
  power_status (psys supply_world) = true ∧ power_status (psys w') = false ∧
  _inp_enabled (pinp w') = false.
Proof.
  cbv zeta. assert (observed trace_fail 12 supply_world = replicate 12 5000) as Ho
    by (vm_compute; reflexivity).
  destruct (power_loss_reported trace_fail 12 supply_world) as (H1 & _ & H2 & _).
  - rewrite Ho. cbn. lia.
  - rewrite Ho. apply Forall_replicate. done.
  - vm_compute. discriminate.
  - vm_compute. reflexivity.
  - split; [vm_compute; reflexivity|]. split; [exact H1|]. apply H2. vm_compute. reflexivity.
Defined.

(** The counter of a told recovery is left standing: a supply away for 11 runs
    and back for 600 is told lost and told recovered, and lost again by the very
    next run that sees it away, without waiting for ten of them. *)
Definition trace_flicker (last : nat) : power_env :=
  PowerEnv (λ k, 2000 + 100 * Z.of_nat k)
    (λ k, if (3 <=? k)%nat && (k <? 36)%nat then 5000 else if (k <? last)%nat then 13000 else 5000)
    (λ _, 1000).

Example power_loss_told_at_once :
  let E := trace_flicker 1836 in
  ids_of EVENT_SOURCE_UNIT (reports (power_runs E 612 power_boot).2) =
    [EVENT_ID_POWER_FAIL; EVENT_ID_POWER_RECOVERY] ∧
  observed1 E (power_runs E 611 power_boot).2 = [13000] ∧
  observed1 E (power_runs E 612 power_boot).2 = [5000] ∧
  ids_of EVENT_SOURCE_UNIT (reports (power_runs E 613 power_boot).2) =
    [EVENT_ID_POWER_FAIL; EVENT_ID_POWER_RECOVERY; EVENT_ID_POWER_FAIL].
Proof. vm_compute. repeat split. Qed.

(** A weak battery of 3 V: the test five minutes after the start tells it. *)
Definition trace_weak : power_env :=
  PowerEnv (λ k, 2000 + 1000 * Z.of_nat k) (λ _, 13000) (λ _, 3000).

Lemma power_events_alternate_witness :
  alternate EVENT_ID_FAULT EVENT_ID_FAULT_RECOVERY true [EVENT_ID_FAULT] false.
Proof.
  destruct (power_events_alternate trace_weak 80 power_boot) as (l & H1 & _ & H2);
    [split; reflexivity|].
  assert (l = [Report EVENT_ID_FAULT EVENT_SOURCE_BATTERY]) as ->.
  { etrans; [symmetry; exact H1|]. vm_compute. reflexivity. }
  assert (power_bat_status (psys (power_runs trace_weak 80 power_boot).2) = false) as E
    by (vm_compute; reflexivity).
  rewrite E in H2. exact H2.
Defined.

Lemma power_pads_consistent_witness : BAT_TEST (pd (power_runs trace_weak 80 power_boot).2) = false.
Proof. exact (ok_test _ (power_pads_consistent trace_weak 80 (PWorld power_start (Pads true true true)
         boot_system (inp_init (λ _, false) (Inputs false 0 0 0 0 [])) [] 0) eq_refl)). Defined.

(** The battery charges since 10 s after the start; the main supply goes away
    2.5 s later. *)
Definition trace_cut : power_env := power_trace 100 104 500 3800.
Definition charging_world : pworld := (power_runs trace_cut 23 power_boot).2.

Lemma power_cut_disconnects_battery_witness :
  BAT_ENA (pd charging_world) = true ∧
  dark (power_runs trace_cut 200 (power_task trace_cut charging_world).2).2.
Proof.
  split; [vm_compute; reflexivity|].
  apply (power_cut_disconnects_battery trace_cut 200 charging_world);
    [vm_compute; discriminate|vm_compute; reflexivity..|].
  assert (observed trace_cut 200 (power_task trace_cut charging_world).2 = replicate 200 500) as ->
    by (vm_compute; reflexivity).
  by apply Forall_replicate.
Defined.
