(* ===== verification/Update.v ===== *)
(** * Remote firmware update (app/update.c)

    The unit asks the update server for a firmware container, receives it in
    256-byte chunks, writes each into the firmware area of the external flash
    and requests the boot loader when the last one has arrived.  Replies come in
    on another task ([update_packet_rx]) while [update_task] sleeps in
    [_wait_for_ack]; the environment of a call lists what the unit receives
    before each poll. *)

From S2P Require Import Prelude CText Storage Cfg ArmSection NetTarget Ihex FwTools Boot.

(** ** State *)

(** src/app/update.h:17-45 (UPDATE_RESULT_START .. PACKET_ID_CHUNK_RES) *)
Definition PACKET_ID_UPDATE_REQ : Z := 170.         (* 0x00AA *)
Definition PACKET_ID_UPDATE_RES : Z := 61610.       (* 0xF0AA *)
Definition PACKET_ID_GET_CHUNK : Z := 426.          (* 0x01AA *)
Definition PACKET_ID_CHUNK_RES : Z := 61866.        (* 0xF1AA *)
Definition UPDATE_RESULT_START : Z := 255.
Definition UPDATE_CHUNK_STATUS_DONE : Z := 1.
Definition UPDATE_CHUNK_STATUS_OK : Z := 2.
(** src/app/update.h:30-30 (UPDATE_CHUNK_SIZE) *)
Definition UPDATE_CHUNK_SIZE : Z := 256.
Definition sizeof_update_hdr : Z := 8.
Definition sizeof_update_res : Z := 16.
Definition sizeof_update_res_data : Z := 268.

(** src/app/update.c:15-15 (_SERVER_TMOUT) *)
Definition _SERVER_TMOUT : Z := 2000.
(** src/app/update.c:29-29 (_ERR_LIMIT) *)
Definition _ERR_LIMIT : Z := 100.

Section update.
Context `{F : FlashLib}.

(** [main_flash] resets the unit into the boot loader; the field records that
    it was called.  The key is read and not used. *)
(** src/app/update.c:17-30 (_task_timer .. _err_cnt) *)
Record update := Update {
  _task_timer : Z;
  _now : Z;
  _update_rq : bool;
  _packet_ack : bool;
  _server_ip : Z;
  _server_port : Z;
  _server_addr_cfg : list Z;
  _phase : Z;
  _err_cnt : Z;
  up_storage : storage;
  main_flash : bool
}.

Definition set_times (tm now : Z) (u : update) : update :=
  Update tm now (_update_rq u) (_packet_ack u) (_server_ip u) (_server_port u)
    (_server_addr_cfg u) (_phase u) (_err_cnt u) (up_storage u) (main_flash u).
Definition set_rq (rq : bool) (u : update) : update :=
  Update (_task_timer u) (_now u) rq (_packet_ack u) (_server_ip u) (_server_port u)
    (_server_addr_cfg u) (_phase u) (_err_cnt u) (up_storage u) (main_flash u).
Definition set_ack (ack : bool) (u : update) : update :=
  Update (_task_timer u) (_now u) (_update_rq u) ack (_server_ip u) (_server_port u)
    (_server_addr_cfg u) (_phase u) (_err_cnt u) (up_storage u) (main_flash u).
Definition set_target (ip port : Z) (cfg : list Z) (u : update) : update :=
  Update (_task_timer u) (_now u) (_update_rq u) (_packet_ack u) ip port cfg
    (_phase u) (_err_cnt u) (up_storage u) (main_flash u).
Definition set_phase (ph err : Z) (u : update) : update :=
  Update (_task_timer u) (_now u) (_update_rq u) (_packet_ack u) (_server_ip u) (_server_port u)
    (_server_addr_cfg u) ph err (up_storage u) (main_flash u).
Definition set_up_storage (s : storage) (u : update) : update :=
  Update (_task_timer u) (_now u) (_update_rq u) (_packet_ack u) (_server_ip u) (_server_port u)
    (_server_addr_cfg u) (_phase u) (_err_cnt u) s (main_flash u).
Definition set_main_flash (u : update) : update :=
  Update (_task_timer u) (_now u) (_update_rq u) (_packet_ack u) (_server_ip u) (_server_port u)
    (_server_addr_cfg u) (_phase u) (_err_cnt u) (up_storage u) true.

(** ** Operations *)

Variable HW_INFO_addr : Z.     (* HW_INFO.addr *)
Variable sw_version : Z.       (* SW_VERSION_MAJOR, _MINOR, _PATCH packed *)

(** A received datagram: source port and data. *)
Definition datagram : Type := Z * list Z.

(** src/app/update.c:32-35 (_dly) *)
Definition _dly (sec : Z) (u : update) : update :=
  set_times (u32 (_now u + sec * OS_TIMER_SECOND)) (_now u) u.

(** src/app/update.c:105-111 (_write_chunk) *)
Definition _write_chunk (chunk_id : Z) (data : list Z) (u : update) : update :=
  let offset := u32 (chunk_id * UPDATE_CHUNK_SIZE) in
  let '(_, s) := storage_write_fw offset data (up_storage u) in   (* a failure is only logged *)
  set_up_storage s u.

(** The fields of a packet. *)
(** src/app/update.h:6-40 (update_hdr_t .. update_res_data_packet_t) *)
Definition packet_id (data : list Z) : Z := of_le (take 4 data).
Definition unit_id (data : list Z) : Z := of_le (take 4 (drop 4 data)).
Definition res_result (data : list Z) : Z := of_le (take 4 (drop 12 data)).
Definition res_chunk_id (data : list Z) : Z := of_le (take 3 (drop 8 data)).
Definition res_status (data : list Z) : Z := of_le (take 1 (drop 11 data)).
Definition res_data (data : list Z) : list Z := take 256 (drop 12 data).

(** src/app/update.c:113-181 (update_packet_rx) *)
Definition update_packet_rx (p : datagram) (u : update) : bool * update :=
  let '(port, data) := p in
  let len := Z.of_nat (length data) in
  if negb (port =? _server_port u) then (false, u)
  else if negb (_update_rq u) then (false, u)
  else if len <? sizeof_update_hdr then (false, u)
  else if negb (unit_id data =? HW_INFO_addr) then (false, u)
  else if packet_id data =? PACKET_ID_UPDATE_RES then
    if _phase u =? 0 then
      if len <? sizeof_update_res then (false, u)
      else if negb (res_result data =? UPDATE_RESULT_START)
      then (true, set_ack true (set_rq false u))
      else (true, set_ack true u)
    else (true, set_ack true u)
  else if packet_id data =? PACKET_ID_CHUNK_RES then
    let chunk_id := u32 (_phase u - 1) in
    if len <? sizeof_update_res_data then (false, u)
    else if negb (res_chunk_id data =? chunk_id) then (false, u)
    else if res_status data =? UPDATE_CHUNK_STATUS_OK then
      (true, set_ack true (_write_chunk chunk_id (res_data data) u))
    else if res_status data =? UPDATE_CHUNK_STATUS_DONE then
      (true, set_ack true (set_main_flash (set_rq false (_write_chunk chunk_id (res_data data) u))))
    else (false, u)
  else (false, u).

(** The receptions of an interval, in order. *)
Definition rx_all (ps : list datagram) (u : update) : update :=
  foldl (λ u p, (update_packet_rx p u).2) u ps.

(** What one call of [update_task] meets: the timer on entry, [net_connect],
    the resolver, [net_udp_tx] with the receptions during it, the timer when the
    wait begins, and for each [OS_DELAY(10)] of the wait the receptions during
    it and the timer after it. *)
Record update_env := UpdateEnv {
  ue_now : Z;
  ue_connect : bool;
  ue_dns : list Z → option Z;
  ue_tx : bool;
  ue_tx_rx : list datagram;
  ue_start : Z;
  ue_polls : list (list datagram * Z)
}.

(** [None]: still waiting at the end of the polls. *)
(** src/app/update.c:43-53 (_wait_for_ack) *)
Fixpoint wait_loop (polls : list (list datagram * Z)) (start : Z) (u : update)
    : option (bool * update) :=
  if negb (_now u <? u32 (start + _SERVER_TMOUT)) then Some (false, u)
  else
    match polls with
    | [] => None
    | (rx, t) :: polls =>
        let u := rx_all rx u in
        let u := set_times (_task_timer u) t u in
        if negb (_packet_ack u) then wait_loop polls start u
        else Some (true, set_ack false u)
    end.

(** src/app/update.c:37-58 (_wait_for_ack) *)
Definition _wait_for_ack (e : update_env) (u : update) : option (bool * update) :=
  wait_loop (ue_polls e) (ue_start e) (set_times (_task_timer u) (ue_start e) u).

(** src/app/update.c:60-81 (_send_packet) *)
Definition _send_packet (e : update_env) (u : update) : option (bool * update) :=
  let u := set_ack false u in
  let u := rx_all (ue_tx_rx e) u in
  if negb (ue_tx e) then Some (false, u)
  else
    '(ok, u) ← _wait_for_ack e u;
    Some (if (ok : bool) then (true, _dly 0 u) else (false, _dly 5 u)).

(** src/app/update.c:83-92 (_update_req) *)
Definition _update_req : list Z :=
  le32 PACKET_ID_UPDATE_REQ ++ le32 HW_INFO_addr ++ le32 sw_version.

(** src/app/update.c:94-103 (_update_phase) *)
Definition _update_phase (u : update) : list Z :=
  le32 PACKET_ID_GET_CHUNK ++ le32 HW_INFO_addr ++ le32 (u32 (_phase u - 1)).

(** src/app/update.c:183-222 (update_start) *)
Definition update_start (u : update) : outcome (bool * update) :=
  if _update_rq u then Ok (false, u)
  else
    '(ok, cfg) ← cfg_read CFG_ID_UPDATE_SERVER_ADDR ACCESS_SYSTEM (up_storage u);
    if negb ok then Ok (false, u)
    else
      let '(ok, ip, port) := net_parse_target_ip cfg in
      let u := set_target ip (default (_server_port u) port) cfg u in
      if negb ok then Ok (false, u)
      else
        '(ok, _) ← cfg_read CFG_ID_UPDATE_SERVER_KEY ACCESS_SYSTEM (up_storage u);
        if negb ok then Ok (false, u)
        else Ok (true, set_rq true (set_phase 0 0 u)).

(** One exchange, and the counters after it. *)
(** src/app/update.c:261-283 (update_task) *)
Definition update_exchange (e : update_env) (u : update) : option (update * list (list Z)) :=
  let data := if _phase u =? 0 then _update_req else _update_phase u in
  '(ok, u') ← _send_packet e u;
  Some (if negb ok then set_phase (_phase u') (_err_cnt u' + 1) u'
        else if _phase u =? 0 then set_phase (_phase u' + 1) (_err_cnt u') u'
        else set_phase (_phase u' + 1) 0 u', [data]).

(** The new state and the datagrams sent; [None] while the wait has not ended. *)
(** src/app/update.c:224-284 (update_task) *)
Definition update_task (e : update_env) (u : update) : option (update * list (list Z)) :=
  if negb (_update_rq u) then Some (u, [])
  else
    let u := if _ERR_LIMIT <=? _err_cnt u then set_rq false u else u in
    let u := set_times (_task_timer u) (ue_now e) u in
    if _now u <? _task_timer u then Some (u, [])
    else
      let u := _dly 1 u in
      if negb (ue_connect e) then Some (_dly 30 u, [])
      else if negb (_server_ip u =? 0) then update_exchange e u
      else
        let '(_, ip, port) := net_get_target_ip (ue_dns e) (_server_addr_cfg u) in
        let u := set_target ip (default (_server_port u) port) (_server_addr_cfg u) u in
        if (_server_ip u =? 0) || (_server_port u =? 0)
        then Some (_dly 30 (set_phase (_phase u) (_err_cnt u + 1) u), [])
        else update_exchange e u.

(** ** Every wait ends *)

Lemma wait_loop_ends polls start k u :
  start + _SERVER_TMOUT < 4294967296 → 0 ≤ start →
  200 ≤ k + Z.of_nat (length polls) →
  (k = 0 ∨ start + 10 * k ≤ _now u) →
  (∀ (i : nat) rx t, polls !! i = Some (rx, t) → start + 10 * (k + Z.of_nat i + 1) ≤ t) →
  is_Some (wait_loop polls start u).
Proof.
  intros Hs H0. unfold _SERVER_TMOUT in Hs. revert k u.
  induction polls as [|[rx t] polls IH]; intros k u Hl Hk Ht; cbn [wait_loop length] in *;
    unfold _SERVER_TMOUT at 1; rewrite u32_small by (unfold in_u32; lia).
  - rewrite (proj2 (Z.ltb_ge _ _)) by lia. by eexists.
  - case_if; [by eexists|]. cbv zeta. case_if; [|by eexists].
    apply (IH (k + 1)).
    + lia.
    + right. cbn. specialize (Ht 0%nat rx t eq_refl). lia.
    + intros i rx' t' Hi. specialize (Ht (S i) rx' t' Hi). lia.
Qed.

(** A call of [update_task] always ends, whatever the unit
    receives: with the timer advancing by at least the 10 ms of each sleep, 200
    polls are enough for the wait. *)
Theorem update_task_terminates e u :
  0 ≤ ue_start e → ue_start e + _SERVER_TMOUT < 4294967296 →
  (200 ≤ length (ue_polls e))%nat →
  (∀ (i : nat) rx t, ue_polls e !! i = Some (rx, t) → ue_start e + 10 * (Z.of_nat i + 1) ≤ t) →
  is_Some (update_task e u).
Proof.
  intros H0 Hs Hl Ht.
  assert (∀ v, is_Some (update_exchange e v)) as Hx.
  { intros v. unfold update_exchange, _send_packet.
    destruct (ue_tx e); cbn [negb mbind option_bind]; [|by eexists].
    unfold _wait_for_ack. edestruct (wait_loop_ends (ue_polls e) (ue_start e) 0) as [[ok w] ->];
      [done|done|lia|by left|by apply Ht|]. destruct ok; by eexists. }
  unfold update_task. case_if; [by eexists|]. cbv zeta.
  set (v := if _ERR_LIMIT <=? _err_cnt u then _ else _).
  case_if; [by eexists|]. case_if; [by eexists|]. case_if; [apply Hx|].
  - destruct (net_get_target_ip _ _) as [[ok ip] port]. case_if; [by eexists|apply Hx].
Qed.

Hypothesis HW_INFO_addr_u32 : in_u32 HW_INFO_addr.

(** An active transfer whose timer has expired sends its request. *)
Lemma task_exchange e u :
  _update_rq u = true → _err_cnt u < _ERR_LIMIT → _server_ip u ≠ 0 →
  _task_timer u ≤ ue_now e → ue_connect e = true →
  update_task e u = update_exchange e (_dly 1 (set_times (_task_timer u) (ue_now e) u)).
Proof.
  intros Hrq He Hip Ht Hc. unfold update_task. rewrite Hrq. cbn [negb]. cbv zeta.
  rewrite (proj2 (Z.leb_gt _ _) He). cbn [_now _task_timer set_times].
  rewrite (proj2 (Z.ltb_ge _ _) Ht), Hc. cbn [negb _dly _server_ip set_times].
  by rewrite (proj2 (Z.eqb_neq _ _) Hip).
Qed.

(** An answer to the first request that comes again while a chunk is
    awaited is taken for that chunk: the unit goes on to the next one, and
    nothing was written. *)
Theorem update_res_skips_chunk u now start dns ver res t :
  _task_timer u ≤ now → 0 ≤ start → start + _SERVER_TMOUT < 4294967296 →
  0 < _phase u → _update_rq u = true → _err_cnt u < _ERR_LIMIT → _server_ip u ≠ 0 →
  ∃ u', update_task (UpdateEnv now true dns true [] start
      [([(_server_port u, le32 PACKET_ID_UPDATE_RES ++ le32 HW_INFO_addr ++ le32 ver ++ le32 res)], t)]) u
    = Some (u', [_update_phase u]) ∧
    _phase u' = _phase u + 1 ∧ up_storage u' = up_storage u ∧ _update_rq u' = true.
Proof.
  intros Ht Hs0 Hs Hph Hrq He Hip.
  rewrite task_exchange by done.
  unfold update_exchange, _send_packet. cbn [ue_tx_rx ue_tx rx_all foldl negb].
  unfold _wait_for_ack. cbn [ue_polls ue_start wait_loop _now set_times].
  unfold _SERVER_TMOUT in *.
  rewrite (u32_small (_ + 2000)) by (unfold in_u32; lia).
  rewrite (proj2 (Z.ltb_lt start _)) by lia. cbn [negb]. cbv zeta. cbn [rx_all foldl].
  unfold update_packet_rx. cbn [_server_port _update_rq _phase set_times set_ack _dly].
  rewrite Z.eqb_refl, Hrq. cbn [negb].
  unfold unit_id. change (take 4 (drop 4 (_ ++ le32 HW_INFO_addr ++ _))) with (le32 HW_INFO_addr).
  rewrite of_le32, Z.eqb_refl by done. rewrite (proj2 (Z.eqb_neq (_phase u) 0)) by lia.
  by eexists.
Qed.

(** ** What the server sends *)

Context `{FS : !FlashSpec F} `{FR : !FlashReliable F}.

(** The file the server offers: [n] chunks. *)
Variable img : list Z.
Variable n : Z.
Hypothesis img_length : Z.of_nat (length img) = UPDATE_CHUNK_SIZE * n.
Hypothesis img_chunks : 1 ≤ n ≤ 1024.

Definition chunk (i : Z) : list Z :=
  take 256 (drop (Z.to_nat (UPDATE_CHUNK_SIZE * i)) img).

(** What a datagram may say when the unit is in phase [ph]: a chunk has the
    content of the file and the last one is marked; the answer to the first
    request does not come again later. *)
Definition truthful (ph : Z) (p : datagram) : Prop :=
  (packet_id p.2 = PACKET_ID_UPDATE_RES → ph = 0) ∧
  (packet_id p.2 = PACKET_ID_CHUNK_RES →
    (res_status p.2 = UPDATE_CHUNK_STATUS_OK →
       0 ≤ res_chunk_id p.2 < n - 1 ∧ res_data p.2 = chunk (res_chunk_id p.2)) ∧
    (res_status p.2 = UPDATE_CHUNK_STATUS_DONE →
       res_chunk_id p.2 = n - 1 ∧ res_data p.2 = chunk (n - 1))).

Definition env_truthful (ph : Z) (e : update_env) : Prop :=
  Forall (truthful ph) (ue_tx_rx e) ∧ Forall (λ x, Forall (truthful ph) x.1) (ue_polls e).

(** The first [m] bytes of the file are in the firmware area. *)
Definition fw_holds (s : storage) (m : Z) : Prop :=
  ∀ j v, Z.of_nat j < m → img !! j = Some v → byte s (_FW_ADDR + Z.of_nat j) = v.

Record progress (u : update) : Prop := {
  pr_ready : _storage_ready (up_storage u) = true;
  pr_phase : 0 ≤ _phase u ≤ n + 1;
  pr_active : main_flash u = false → _phase u ≤ n;
  pr_ack_more : _packet_ack u = true → main_flash u = false → _phase u < n;
  pr_stored : fw_holds (up_storage u) (UPDATE_CHUNK_SIZE * (_phase u - 1));
  pr_ack : _packet_ack u = true → fw_holds (up_storage u) (UPDATE_CHUNK_SIZE * _phase u);
  pr_flash : main_flash u = true →
    _update_rq u = false ∧ fw_holds (up_storage u) (UPDATE_CHUNK_SIZE * n)
}.

Lemma fw_holds_le s m m' : m' ≤ m → fw_holds s m → fw_holds s m'.
Proof. intros Hm H j v Hj. apply H. lia. Qed.

Lemma chunk_length i : 0 ≤ i < n → length (chunk i) = 256%nat.
Proof.
  intros Hi. unfold chunk. unfold UPDATE_CHUNK_SIZE in *. rewrite length_take, length_drop. lia.
Qed.

(** Writing a chunk of the file stores it and leaves what is stored. *)
Lemma write_chunk_holds i u :
  0 ≤ i < n → _storage_ready (up_storage u) = true →
  ∃ s', _write_chunk i (chunk i) u = set_up_storage s' u ∧ _storage_ready s' = true ∧
    ∀ m, fw_holds (up_storage u) m →
      fw_holds s' m ∧ (UPDATE_CHUNK_SIZE * i ≤ m → fw_holds s' (UPDATE_CHUNK_SIZE * (i + 1))).
Proof.
  intros Hi Hr. pose proof (chunk_length i Hi) as Hl. unfold UPDATE_CHUNK_SIZE in *.
  unfold _write_chunk, UPDATE_CHUNK_SIZE. cbv zeta.
  rewrite (u32_small (i * 256)) by (unfold in_u32; lia).
  destruct (storage_write_fw (i * 256) (chunk i) (up_storage u)) as [r s'] eqn:E.
  exists s'. split; [done|].
  assert (r = true) as ->.
  { unfold storage_write_fw in E. rewrite Hr, Hl in E. cbn [negb] in E.
    destruct fw_area as (_ & EA & EM). rewrite EM, EA in E.
    rewrite (u32_small (i * 256 + _)), (u32_small (_ + i * 256)) in E by (unfold in_u32; lia).
    rewrite (proj2 (Z.ltb_ge _ _)) in E by lia.
    pose proof (flash_write_ok (3932160 + i * 256) (chunk i) (chip (up_storage u)) ltac:(lia)
      ltac:(rewrite Hl; lia)) as Hw.
    destruct (flash_write_data _ _ _) as [r0 c]. cbn in Hw. by injection E as <- _. }
  destruct (storage_write_fw_spec (i * 256) (chunk i) (up_storage u) true s') as (Hw & Hs & Hr');
    [region; rewrite Hl; lia|done|]. specialize (Hs eq_refl). unfold wrote in Hw. rewrite Hl in Hw.
  split; [congruence|].
  assert (∀ j v, i * 256 ≤ Z.of_nat j < i * 256 + 256 → img !! j = Some v →
    byte s' (_FW_ADDR + Z.of_nat j) = v) as Hin.
  { intros j v Hj Hv. replace (_FW_ADDR + Z.of_nat j)
      with (_FW_ADDR + i * 256 + Z.of_nat (j - Z.to_nat (256 * i))) by lia.
    apply Hs. unfold chunk. unfold UPDATE_CHUNK_SIZE. rewrite lookup_take_lt, lookup_drop by lia.
    rewrite <- Hv. f_equal. lia. }
  intros m Hm. assert (fw_holds s' m) as H1.
  { intros j v Hj Hv. destruct (Hw (_FW_ADDR + Z.of_nat j)) as [H|H].
    - apply Hin; [lia|done].
    - rewrite H. by apply Hm. }
  split; [done|]. intros Him j v Hj Hv.
  destruct (decide (Z.of_nat j < i * 256)); [apply H1; [lia|done]|apply Hin; [lia|done]].
Qed.

Lemma progress_flash_idle u p : main_flash u = true → progress u → update_packet_rx p u = (false, u).
Proof.
  intros Hf Hp. destruct (pr_flash u Hp Hf) as [Hrq _]. destruct p as [port data].
  unfold update_packet_rx. rewrite Hrq. by destruct (negb _).
Qed.

(** A reception keeps the invariant and the phase. *)
Lemma rx_progress p u :
  truthful (_phase u) p → progress u →
  progress (update_packet_rx p u).2 ∧ _phase (update_packet_rx p u).2 = _phase u.
Proof.
  intros [Ht1 Ht2] Hp. destruct (main_flash u) eqn:Hf.
  { by rewrite progress_flash_idle. }
  destruct p as [port data]. cbn [snd] in *.
  pose proof Hp as [Hr Hph Hact Hmore Hst Hack _]. specialize (Hact Hf).
  unfold update_packet_rx. repeat (case_if; [done|]).
  case_if.
  - specialize (Ht1 ltac:(done)). rewrite Ht1, Z.eqb_refl. case_if; [done|].
    assert (fw_holds (up_storage u) (UPDATE_CHUNK_SIZE * _phase u)) as H0
      by (intros j v Hj; rewrite Ht1 in Hj; lia).
    case_if; (split; [|done]); split; cbn; try done; intros; try lia; congruence.
  - case_if; [|done]. destruct (Ht2 ltac:(done)) as [Hok Hdone]. clear Ht1 Ht2.
    case_if; [done|]. case_if; [done|]. rename Heqb6 into Eid.
    assert (∀ i, 0 ≤ i < n → i = u32 (_phase u - 1) → _phase u = i + 1) as Hi.
    { intros i Hi Ei. unfold u32 in Ei. destruct (decide (_phase u = 0)) as [E0|E0].
      - rewrite E0 in Ei. change ((0 - 1) mod 4294967296) with 4294967295 in Ei. lia.
      - rewrite Z.mod_small in Ei by lia. lia. }
    case_if; [|case_if; [|done]].
    + destruct (Hok ltac:(done)) as [H1 H2]. pose proof (Hi (res_chunk_id data) ltac:(lia) Eid) as E1.
      rewrite <- Eid, H2.
      destruct (write_chunk_holds (res_chunk_id data) u) as (s' & -> & Hr' & Hh); [lia|done|].
      destruct (Hh _ Hst) as [H3 H4]. specialize (H4 ltac:(unfold UPDATE_CHUNK_SIZE; lia)).
      split; [|done]. split; cbn; try done.
      * intros; lia.
      * intros _. by rewrite E1.
      * congruence.
    + destruct (Hdone ltac:(done)) as [H1 H2]. pose proof (Hi (n - 1) ltac:(lia) ltac:(lia)) as E1.
      rewrite H2. replace (u32 (_phase u - 1)) with (n - 1) by lia.
      destruct (write_chunk_holds (n - 1) u) as (s' & -> & Hr' & Hh); [lia|done|].
      destruct (Hh _ Hst) as [H3 H4]. specialize (H4 ltac:(unfold UPDATE_CHUNK_SIZE; lia)).
      replace (n - 1 + 1) with n in * by lia.
      split; [|done]. split; cbn; try done. intros _. by rewrite E1.
Qed.

Lemma rx_all_progress ps u :
  Forall (truthful (_phase u)) ps → progress u →
  progress (rx_all ps u) ∧ _phase (rx_all ps u) = _phase u.
Proof.
  revert u. induction ps as [|p ps IH]; intros u Hps Hp; [done|].
  apply Forall_cons in Hps as [H1 H2]. destruct (rx_progress p u H1 Hp) as [H3 H4].
  change (rx_all (p :: ps) u) with (rx_all ps (update_packet_rx p u).2).
  rewrite <- H4 in H2. destruct (IH _ H2 H3) as [H5 H6]. split; [done|congruence].
Qed.

Lemma times_progress tm t u : progress u → progress (set_times tm t u).
Proof. by intros []. Qed.

Lemma noack_progress u : progress u → progress (set_ack false u).
Proof. by intros []; split. Qed.

(** The end of a wait: with an answer, the chunk of the phase is stored. *)
Lemma wait_progress polls start u ok u' :
  Forall (λ x, Forall (truthful (_phase u)) x.1) polls → progress u →
  wait_loop polls start u = Some (ok, u') →
  _phase u' = _phase u ∧
  if ok then ∃ v, u' = set_ack false v ∧ _packet_ack v = true ∧ progress v else progress u'.
Proof.
  revert u. induction polls as [|[rx t] polls IH]; intros u Hps Hp; cbn [wait_loop].
  - case_if; [|done]. by intros [= <- <-].
  - apply Forall_cons in Hps as [H1 H2]. case_if; [by intros [= <- <-]|].
    destruct (rx_all_progress rx u H1 Hp) as [H3 H4]. cbv zeta.
    set (v := set_times _ t _). assert (progress v) as H5 by (by apply times_progress).
    assert (_phase v = _phase u) as H6 by done.
    case_if.
    + intros E. apply IH in E as [E1 E2]; [|by rewrite H6|done]. split; [congruence|done].
    + intros [= <- <-]. split; [done|]. by exists v.
Qed.

(** ** Only a whole file is flashed *)

Lemma set_phase_progress ph err u :
  ph = _phase u → progress u → progress (set_phase ph err u).
Proof. intros -> []. by split. Qed.

Lemma next_phase_progress err tm t v :
  _phase v ≤ n → _packet_ack v = true → progress v →
  progress (set_phase (_phase v + 1) err (set_times tm t (set_ack false v))).
Proof.
  intros Hn Ha [Hr Hph Hact Hmore Hst Hack Hfl]. specialize (Hack Ha). split; cbn; try done.
  - lia.
  - intros H. specialize (Hmore Ha H). lia.
  - by replace (_phase v + 1 - 1) with (_phase v) by lia.
Qed.

Lemma exchange_progress e u u' out :
  main_flash u = false → env_truthful (_phase u) e → progress u →
  update_exchange e u = Some (u', out) → progress u'.
Proof.
  intros Hf [Ht1 Ht2] Hp. unfold update_exchange, _send_packet.
  destruct (rx_all_progress (ue_tx_rx e) (set_ack false u)) as [H1 H2];
    [done|by apply noack_progress|].
  set (v := rx_all (ue_tx_rx e) (set_ack false u)) in *. change (_phase (set_ack false u)) with (_phase u) in H2.
  destruct (ue_tx e); cbn [negb].
  2:{ cbn [mbind option_bind negb]. intros [= <- _]. by apply set_phase_progress. }
  unfold _wait_for_ack. destruct (wait_loop _ _ _) as [[ok w]|] eqn:E; [|done].
  apply wait_progress in E as [E1 E2]; [|by cbn [_phase set_times]; rewrite H2|by apply times_progress].
  cbn [mbind option_bind]. change (_phase (set_times (_task_timer v) (ue_start e) v)) with (_phase v) in E1.
  assert (_phase w ≤ n) as Hn by (rewrite E1, H2; by apply (pr_active u Hp)).
  destruct ok; cbn [negb].
  - destruct E2 as (x & -> & Ha & Hx). cbn in Hn.
    destruct (_phase u =? 0); intros [= <- _];
      by apply (next_phase_progress _ _ _ x).
  - intros [= <- _]. by apply set_phase_progress, times_progress.
Qed.

Lemma task_progress e u u' out :
  main_flash u = false → env_truthful (_phase u) e → progress u →
  update_task e u = Some (u', out) → progress u'.
Proof.
  intros Hf Ht Hp. unfold update_task. destruct (_update_rq u) eqn:Erq; cbn [negb]; [|by intros [= <- _]].
  cbv zeta. set (v := if _ERR_LIMIT <=? _err_cnt u then set_rq false u else u).
  assert (progress v ∧ main_flash v = false ∧ _phase v = _phase u) as (Hv & Hvf & Hvp).
  { unfold v. case_if; [|done]. split; [|done]. destruct Hp. split; try done. intros H. by destruct (pr_flash0 H). }
  clearbody v.
  case_if; [intros [= <- _]; by apply times_progress|].
  case_if; [intros [= <- _]; by repeat apply times_progress|].
  case_if.
  - apply exchange_progress; [done|by cbn; rewrite Hvp|by do 2 apply times_progress].
  - destruct (net_get_target_ip _ _) as [[ok ip] port]. case_if.
    + intros [= <- _]. apply times_progress, set_phase_progress; [done|]. destruct Hv. by split.
    + apply exchange_progress; [done|by cbn; rewrite Hvp|destruct Hv; by split].
Qed.

(** What happens to the unit until it resets: receptions, calls of the task, and
    requests to start, in any order. *)
Inductive update_step : update → update → Prop :=
  | step_rx u p :
      main_flash u = false → truthful (_phase u) p → update_step u (update_packet_rx p u).2
  | step_task u e u' out :
      main_flash u = false → env_truthful (_phase u) e →
      update_task e u = Some (u', out) → update_step u u'
  | step_start u r u' :
      main_flash u = false → update_start u = Ok (r, u') → update_step u u'.

Lemma start_progress u r u' :
  main_flash u = false → progress u → update_start u = Ok (r, u') →
  progress u' ∧ (r = true → _phase u' = 0 ∧ _err_cnt u' = 0 ∧ _update_rq u' = true) ∧ main_flash u' = false.
Proof.
  intros Hf Hp. unfold update_start. case_if; [by intros [= <- <-]|].
  destruct (cfg_read _ _ _) as [[ok cfg]|]; [|done]. cbn [mbind outcome_bind].
  destruct ok; cbn [negb]; [|by intros [= <- <-]].
  destruct (net_parse_target_ip cfg) as [[ok ip] port].
  assert (∀ ip port cfg, progress (set_target ip port cfg u)) as Ht by (intros; destruct Hp; by split).
  destruct ok; cbn [negb]; [|by intros [= <- <-]].
  destruct (cfg_read _ _ _) as [[ok k]|]; [|done]. cbn [mbind outcome_bind].
  destruct ok; cbn [negb]; intros [= <- <-]; [|done].
  split; [|done]. destruct Hp as [Hr Hph Hact Hmore Hst Hack Hfl].
  assert (∀ m, m ≤ 0 → fw_holds (up_storage u) m) as H0 by (intros m Hm j v Hj; lia).
  split; cbn; try done; try lia; intros; try lia; try congruence; by apply H0.
Qed.

Definition update_fresh (u : update) : Prop :=
  _storage_ready (up_storage u) = true ∧ _phase u = 0 ∧ _packet_ack u = false ∧ main_flash u = false.

Lemma fresh_progress u : update_fresh u → progress u.
Proof.
  intros (Hr & Hp & Ha & Hf). split; try congruence; try lia.
  intros j v Hj. unfold UPDATE_CHUNK_SIZE in Hj. lia.
Qed.

Lemma steps_progress u u' : progress u → rtc update_step u u' → progress u'.
Proof.
  intros Hp H. induction H as [|u v w Hs _ IH]; [done|]. apply IH. destruct Hs.
  - by apply rx_progress.
  - by eapply task_progress.
  - by eapply start_progress.
Qed.

(** The unit never asks the boot loader to install a part of a
    file: whatever the order of receptions, calls of the task and restarts, with
    chunks lost, repeated or late, when [main_flash] is called every byte of the
    server's file is in the firmware area.  The server's chunks must be those of
    the file, and the answer to the first request must not come again later. *)
Theorem update_flashes_whole_file u0 u :
  update_fresh u0 → rtc update_step u0 u → main_flash u = true →
  fw_holds (up_storage u) (Z.of_nat (length img)).
Proof.
  intros H0 Hs Hf. rewrite img_length.
  destruct (steps_progress u0 u (fresh_progress u0 H0) Hs) as [_ _ _ _ _ _ H].
  by apply H.
Qed.

(** ** With answers, the transfer completes *)

Definition server_answer (port ph : Z) : datagram :=
  (port, if ph =? 0
    then le32 PACKET_ID_UPDATE_RES ++ le32 HW_INFO_addr ++ le32 0 ++ le32 UPDATE_RESULT_START
    else le32 PACKET_ID_CHUNK_RES ++ le32 HW_INFO_addr ++ take 3 (le32 (ph - 1))
           ++ [if ph =? n then UPDATE_CHUNK_STATUS_DONE else UPDATE_CHUNK_STATUS_OK]
           ++ chunk (ph - 1)).

(** A call whose request is answered, and one during which nothing comes. *)
Definition answered (e : update_env) (u : update) : Prop :=
  _task_timer u ≤ ue_now e ∧ ue_connect e = true ∧ ue_tx e = true ∧ ue_tx_rx e = [] ∧
  0 ≤ ue_start e ∧ ue_start e + _SERVER_TMOUT < 4294967296 ∧
  ∃ t, ue_polls e = [([server_answer (_server_port u) (_phase u)], t)].
Definition silent (e : update_env) : Prop :=
  ue_tx_rx e = [] ∧ Forall (λ x, x.1 = []) (ue_polls e).

(** Calls of the task, with the numbers of answered and of silent ones. *)
Inductive rounds : update → nat → nat → update → Prop :=
  | rounds_end u : rounds u 0 0 u
  | rounds_answered u e u' out g l u'' :
      answered e u → update_task e u = Some (u', out) → rounds u' g l u'' → rounds u (S g) l u''
  | rounds_silent u e u' out g l u'' :
      silent e → update_task e u = Some (u', out) → rounds u' g l u'' → rounds u g (S l) u''.

Lemma of_le_app3 z : 0 ≤ z < 16777216 → of_le (take 3 (le32 z)) = z.
Proof. intros H. cbn. Z.div_mod_to_equations. lia. Qed.

(** The transfer is active in phase [k] with at most [m] errors, or has ended. *)
Definition active (k m : Z) (u : update) : Prop :=
  progress u ∧ _server_ip u ≠ 0 ∧
  (main_flash u = true ∨
   (main_flash u = false ∧ _update_rq u = true ∧ _phase u = k ∧ _err_cnt u ≤ m)).

Lemma answer_rx u :
  progress u → main_flash u = false → _update_rq u = true →
  ∃ s, _storage_ready s = true ∧
    rx_all [server_answer (_server_port u) (_phase u)] u =
      set_ack true (if _phase u =? n
                    then set_main_flash (set_rq false (set_up_storage s u)) else set_up_storage s u).
Proof.
  intros Hp Hf Hrq. pose proof (pr_phase u Hp) as Hph. pose proof (pr_active u Hp Hf) as Hn.
  pose proof (pr_ready u Hp) as Hr.
  unfold rx_all, server_answer. cbn [foldl]. unfold update_packet_rx. rewrite Z.eqb_refl, Hrq. cbn [negb].
  destruct (Z.eqb_spec (_phase u) 0) as [E0|E0].
  - exists (up_storage u). rewrite (proj2 (Z.eqb_neq (_phase u) n)) by lia.
    unfold unit_id. change (take 4 (drop 4 (_ ++ le32 HW_INFO_addr ++ _))) with (le32 HW_INFO_addr).
    rewrite of_le32, Z.eqb_refl by done. split; [done|]. by destruct u.
  - pose proof (chunk_length (_phase u - 1) ltac:(lia)) as Hl.
    set (st := [if _phase u =? n then _ else _]). set (d := le32 PACKET_ID_CHUNK_RES ++ _).
    assert (length d = 268%nat) as Hd by (unfold d, st; rewrite !length_app, Hl; done).
    assert (unit_id d = HW_INFO_addr) as -> by (apply of_le32; done).
    assert (packet_id d = PACKET_ID_CHUNK_RES) as -> by reflexivity.
    assert (res_chunk_id d = _phase u - 1) as -> by (apply of_le_app3; lia).
    assert (res_status d = if _phase u =? n then 1 else 2) as ->.
    { unfold d, st, res_status. by destruct (_ =? n). }
    assert (res_data d = chunk (_phase u - 1)) as ->.
    { change (res_data d) with (take 256 (chunk (_phase u - 1))). apply take_ge. lia. }
    rewrite Hd, u32_small, !Z.eqb_refl by (unfold in_u32; lia). cbn [negb].
    change (Z.of_nat 268 <? sizeof_update_hdr) with false.
    change (PACKET_ID_CHUNK_RES =? PACKET_ID_UPDATE_RES) with false.
    change (Z.of_nat 268 <? sizeof_update_res_data) with false. cbv iota.
    destruct (write_chunk_holds (_phase u - 1) u) as (s & -> & Hs & _); [lia|done|].
    exists s. split; [done|]. by destruct (_ =? n).
Qed.

Lemma answer_truthful port ph :
  0 ≤ ph ≤ n → truthful ph (server_answer port ph).
Proof.
  intros Hph. unfold truthful, server_answer. cbn [snd].
  destruct (Z.eqb_spec ph 0) as [->|E0]; [done|].
  set (st := [if ph =? n then _ else _]). set (d := le32 PACKET_ID_CHUNK_RES ++ _).
  pose proof (chunk_length (ph - 1) ltac:(lia)) as Hl.
  assert (res_chunk_id d = ph - 1) as -> by (apply of_le_app3; lia).
  assert (res_status d = if ph =? n then 1 else 2) as ->.
  { unfold d, st, res_status. by destruct (_ =? n). }
  assert (res_data d = chunk (ph - 1)) as ->.
  { change (res_data d) with (take 256 (chunk (ph - 1))). apply take_ge. lia. }
  split; [done|]. intros _. destruct (Z.eqb_spec ph n) as [->|Hne]; split; try done; intros _.
  split; [lia|done].
Qed.

(** Once the boot loader was asked, the task does nothing. *)
Lemma flashed_task e u u' out :
  progress u → main_flash u = true → update_task e u = Some (u', out) → u' = u.
Proof.
  intros Hp Hf. destruct (pr_flash u Hp Hf) as [Hrq _]. unfold update_task. rewrite Hrq.
  by intros [= <- _].
Qed.

(** An answered call advances the transfer, or ends it with the last chunk. *)
Lemma answered_task e u :
  progress u → main_flash u = false → _update_rq u = true → _err_cnt u < _ERR_LIMIT →
  _server_ip u ≠ 0 → answered e u →
  ∃ u' out, update_task e u = Some (u', out) ∧ _server_ip u' = _server_ip u ∧
    if _phase u =? n then main_flash u' = true
    else main_flash u' = false ∧ _update_rq u' = true ∧ _phase u' = _phase u + 1 ∧
         _err_cnt u' ≤ Z.max 0 (_err_cnt u).
Proof.
  intros Hp Hf Hrq He Hip (Ht & Hc & Htx & Hrx & Hs0 & Hs & t & Hpl).
  rewrite task_exchange by done. clear Ht Hc.
  unfold update_exchange, _send_packet. rewrite Hrx, Htx. cbn [rx_all foldl negb].
  unfold _wait_for_ack. rewrite Hpl. cbn [wait_loop].
  cbn [_now set_times]. unfold _SERVER_TMOUT in *.
  rewrite (u32_small (_ + 2000)) by (unfold in_u32; lia).
  rewrite (proj2 (Z.ltb_lt (ue_start e) _)) by lia. cbn [negb]. cbv zeta.
  set (x := set_times _ (ue_start e) _).
  assert (progress x) as Hx by (apply times_progress, noack_progress, times_progress; by apply times_progress).
  destruct (answer_rx x Hx Hf Hrq) as (s & _ & Es).
  change (server_answer (_server_port u) (_phase u)) with (server_answer (_server_port x) (_phase x)).
  rewrite Es. clear Es.
  change (_phase x) with (_phase u). change (_phase (_dly 1 _)) with (_phase u).
  destruct (_phase u =? n); cbn; (destruct (_phase u =? 0); eexists _, _; (split; [reflexivity|]);
    (split; [done|]); [done || (repeat split; try done; cbn; lia)..]).
Qed.

Lemma answered_active k m e u u' out :
  0 ≤ m < _ERR_LIMIT → answered e u → update_task e u = Some (u', out) →
  active k m u → active (k + 1) m u'.
Proof.
  intros Hm Ha E (Hp & Hip & Hst).
  destruct (main_flash u) eqn:Hf.
  { rewrite (flashed_task e u u' out Hp Hf E). split; [done|]. split; [done|]. by left. }
  destruct Hst as [|(_ & Hrq & Hk & He)]; [done|].
  pose proof (pr_active u Hp Hf) as Hn. pose proof (pr_phase u Hp) as Hph.
  destruct (answered_task e u) as (u1 & out1 & E1 & Eip & Hst); [done|done|done|lia|done|done|].
  rewrite E in E1. injection E1 as <- <-. split; [|split; [congruence|]].
  - eapply task_progress; [exact Hf| |exact Hp|exact E].
    destruct Ha as (_ & _ & _ & Hrx & _ & _ & t & Hpl). split; [by rewrite Hrx|].
    rewrite Hpl. repeat constructor; apply answer_truthful; lia.
  - destruct (_phase u =? n); [by left|right]. destruct Hst as (? & ? & ? & ?). repeat split; try done; lia.
Qed.

(** A network that answers. *)
Definition good_env (u : update) : update_env :=
  UpdateEnv (_task_timer u) true (λ _, None) true [] 0
    [([server_answer (_server_port u) (_phase u)], 10)].

Lemma good_env_answered u : answered (good_env u) u.
Proof. unfold answered, good_env, _SERVER_TMOUT. cbn. repeat split; try lia. by exists 10. Qed.

Lemma rounds_exist g k m u :
  0 ≤ m < _ERR_LIMIT → active k m u → ∃ u', rounds u g 0 u'.
Proof.
  intros Hm. revert k u. induction g as [|g IH]; intros k u Hact; [eexists; constructor|].
  assert (∃ u1 out, update_task (good_env u) u = Some (u1, out)) as (u1 & out & E).
  { destruct Hact as (Hp & Hip & [Hf|(Hf & Hrq & Hk & He)]).
    - destruct (pr_flash u Hp Hf) as [Hrq _]. unfold update_task. rewrite Hrq. by eexists _, _.
    - destruct (answered_task (good_env u) u) as (u1 & out & E & _); try done; [lia|apply good_env_answered|].
      by exists u1, out. }
  destruct (IH (k + 1) u1) as [u' H].
  { eapply answered_active; [done|apply good_env_answered|exact E|done]. }
  exists u'. eapply rounds_answered; [apply good_env_answered|exact E|done].
Qed.

Lemma wait_silent polls start u ok u' :
  Forall (λ x, x.1 = []) polls → _packet_ack u = false →
  wait_loop polls start u = Some (ok, u') → ok = false ∧ ∃ t, u' = set_times (_task_timer u) t u.
Proof.
  intros Hps. revert u. induction Hps as [|[rx t] polls Hx _ IH]; intros u Ha; cbn [wait_loop].
  - case_if; [|done]. intros [= <- <-]. split; [done|]. exists (_now u). by destruct u.
  - cbn in Hx. subst rx. case_if.
    + intros [= <- <-]. split; [done|]. exists (_now u). by destruct u.
    + cbv zeta. cbn [rx_all foldl]. cbn [_packet_ack set_times]. rewrite Ha. cbn [negb].
      intros E. apply IH in E as [-> [t' ->]]; [|done]. split; [done|]. by exists t'.
Qed.

Lemma silent_active k m e u u' out :
  0 ≤ m < _ERR_LIMIT → silent e → update_task e u = Some (u', out) →
  active k m u → active k (m + 1) u'.
Proof.
  intros Hm [Hrx Hpl] E (Hp & Hip & Hst).
  destruct (main_flash u) eqn:Hf.
  { rewrite (flashed_task e u u' out Hp Hf E). split; [done|]. split; [done|]. by left. }
  destruct Hst as [|(_ & Hrq & Hk & He)]; [done|].
  assert (progress u') as Hp'.
  { eapply task_progress; [exact Hf| |exact Hp|exact E]. split; [by rewrite Hrx|].
    eapply Forall_impl; [exact Hpl|]. by intros [rx t] ->. }
  split; [done|]. unfold update_task in E. rewrite Hrq in E. cbn [negb] in E. cbv zeta in E.
  rewrite (proj2 (Z.leb_gt _ _)) in E by lia.
  assert (∀ v, _server_ip v = _server_ip u → main_flash v = false → _update_rq v = true →
    _phase v = _phase u → _err_cnt v ≤ m + 1 →
    _server_ip v ≠ 0 ∧ (main_flash v = true ∨ (main_flash v = false ∧ _update_rq v = true ∧
      _phase v = k ∧ _err_cnt v ≤ m + 1))) as Hend.
  { intros v -> H2 H3 H4 H5. split; [done|right]. by rewrite H4. }
  revert E. case_if; [intros [= <- _]; apply Hend; cbn; by try lia|].
  case_if; [intros [= <- _]; apply Hend; cbn; by try lia|].
  cbn [_server_ip _dly set_times]. rewrite (proj2 (Z.eqb_neq _ _) Hip). cbn [negb].
  unfold update_exchange, _send_packet. rewrite Hrx. cbn [rx_all foldl].
  destruct (ue_tx e); cbn [negb mbind option_bind].
  2:{ intros [= <- _]. apply Hend; cbn; by try lia. }
  unfold _wait_for_ack. destruct (wait_loop _ _ _) as [[ok w]|] eqn:E; [|done].
  apply wait_silent in E as [-> [t ->]]; [|done|done].
  cbn [mbind option_bind negb]. intros [= <- _]. apply Hend; cbn; by try lia.
Qed.

Lemma rounds_active u g l u' k m :
  rounds u g l u' → active k m u → 0 ≤ m → m + Z.of_nat l < _ERR_LIMIT →
  active (k + Z.of_nat g) (m + Z.of_nat l) u'.
Proof.
  intros H. revert k m. induction H as [u|u e u1 out g l u' Ha E _ IH|u e u1 out g l u' Ha E _ IH];
    intros k m Hact H0 Hm.
  - by rewrite !Z.add_0_r.
  - replace (k + Z.of_nat (S g)) with (k + 1 + Z.of_nat g) by lia.
    apply IH; [|done|done]. eapply answered_active; [|done|done|done]. lia.
  - replace (m + Z.of_nat (S l)) with (m + 1 + Z.of_nat l) by lia.
    apply IH; [|lia|lia]. eapply silent_active; [|done|done|done]. lia.
Qed.

(** What [update_start] leaves when it succeeds with a usable address. *)
Definition update_started (u : update) : Prop :=
  _storage_ready (up_storage u) = true ∧ _update_rq u = true ∧ _phase u = 0 ∧ _err_cnt u = 0 ∧
  _server_ip u ≠ 0 ∧ main_flash u = false.

Lemma started_active u : update_started u → active 0 0 u.
Proof.
  intros (Hr & Hrq & Hph & He & Hip & Hf).
  assert (∀ m, m ≤ 0 → fw_holds (up_storage u) m) as H0 by (intros m Hm j v Hj; lia).
  split; [|split; [done|right; repeat split; try done; lia]].
  split; try done; try congruence; intros; try lia; apply H0; unfold UPDATE_CHUNK_SIZE; lia.
Qed.

Lemma rounds_complete u g l u' :
  update_started u → rounds u g l u' → Z.of_nat g = n + 1 → Z.of_nat l < _ERR_LIMIT →
  main_flash u' = true ∧ _storage_ready (up_storage u') = true ∧
  fw_holds (up_storage u') (Z.of_nat (length img)).
Proof.
  intros Hu H Hg Hl.
  destruct (rounds_active u g l u' 0 0 H (started_active u Hu) ltac:(lia) Hl)
    as (Hp & _ & [Hf|(Hf & _ & Hk & _)]).
  - split; [done|]. split; [apply Hp|]. rewrite img_length. by apply (pr_flash u' Hp Hf).
  - pose proof (pr_active u' Hp Hf). lia.
Qed.

(** A transfer completes: with fewer than 100 unanswered calls of
    the task among them, in any order, one answered call for the first request
    and one per chunk end in [main_flash], with the whole file in the firmware
    area. *)
Theorem update_completes u g l u' :
  update_started u → rounds u g l u' → Z.of_nat g = n + 1 → Z.of_nat l < _ERR_LIMIT →
  main_flash u' = true ∧ fw_holds (up_storage u') (Z.of_nat (length img)).
Proof.
  intros Hu H Hg Hl. destruct (rounds_complete u g l u' Hu H Hg Hl) as (H1 & _ & H2). done.
Qed.

End update.

(** ** From the server to the running application *)

Section install.
Context `{F : FlashLib} `{FS : !FlashSpec F} `{FR : !FlashReliable F}.
Context `{B : !BootLib F} `{BS : !BootSpec F B}.

(** What the boot loader reads of a file that is in the firmware area. *)
Lemma fw_holds_read s img a l :
  fw_holds img s (Z.of_nat (length img)) → 0 ≤ a → take (length l) (drop (Z.to_nat a) img) = l →
  ext_read (ExtStorage true false (chip s)) (_FW_ADDR + a) (Z.of_nat (length l)) = l.
Proof.
  intros H Ha Hl. apply fmap_seqZ_list. intros i v Hv. cbn [bl_chip].
  pose proof (lookup_lt_Some _ _ _ Hv).
  rewrite <- Hl, lookup_take_lt, lookup_drop in Hv by done.
  pose proof (lookup_lt_Some _ _ _ Hv).
  specialize (H (Z.to_nat a + i)%nat v ltac:(lia) Hv). unfold byte in H. rewrite <- H. f_equal. lia.
Qed.


End install.

(** ** Witnesses *)

Definition demo_update : update :=
  Update 0 0 true false 16777343 3333 [] 0 0 (Storage true (λ _ : Z, 255)) false.
Definition demo_file : list Z := replicate 512 7.

Lemma demo_started : update_started demo_update.
Proof. by repeat split. Qed.

Lemma demo_env_truthful addr img n u :
  Z.of_nat (length img) = UPDATE_CHUNK_SIZE * n → 1 ≤ n ≤ 1024 → 0 ≤ _phase u ≤ n →
  env_truthful img n (_phase u) (good_env addr img n u).
Proof.
  intros H1 H2 H3. split; [constructor|]. repeat constructor; apply answer_truthful; done.
Qed.

Definition next_task (addr : Z) (u : update) : update :=
  match update_task addr 1 (good_env addr demo_file 2 u) u with Some (u', _) => u' | None => u end.
Definition task_runs (addr : Z) (u : update) : bool :=
  match update_task addr 1 (good_env addr demo_file 2 u) u with Some _ => true | None => false end.

Lemma next_task_step addr u :
  task_runs addr u = true → main_flash u = false → 0 ≤ _phase u ≤ 2 →
  update_step addr 1 demo_file 2 u (next_task addr u).
Proof.
  unfold task_runs, next_task. intros H Hf Hp.
  destruct (update_task addr 1 _ u) as [[u' out]|] eqn:E; [|done].
  eapply step_task; [done| |exact E]. by apply demo_env_truthful.
Qed.

Lemma update_flashes_whole_file_witness :
  ∃ u, main_flash u = true ∧ fw_holds demo_file (up_storage u) 512.
Proof.
  exists (next_task 9 (next_task 9 (next_task 9 demo_update))).
  split; [vm_compute; reflexivity|].
  apply (update_flashes_whole_file 9 1 demo_file 2) with (u0 := demo_update).
  - reflexivity.
  - lia.
  - by repeat split.
  - do 3 (eapply rtc_l; [apply next_task_step; [vm_compute; reflexivity..|
      split; vm_compute; discriminate]|]). apply rtc_refl.
  - vm_compute. reflexivity.
Defined.

Lemma update_task_terminates_witness :
  is_Some (update_task 9 1 (UpdateEnv 0 true (λ _, None) true [] 0
    ((λ i, ([], 10 * i)) <$> seqZ 1 200)) demo_update).
Proof.
  apply update_task_terminates.
  - done.
  - done.
  - cbn [ue_polls]. rewrite length_fmap, length_seqZ. lia.
  - cbn [ue_polls ue_start]. intros i rx t H. rewrite list_lookup_fmap in H.
    destruct (seqZ 1 200 !! i) as [x|] eqn:E; [|discriminate].
    apply lookup_seqZ in E as [-> _]. injection H as _ <-. lia.
Defined.

Lemma update_completes_witness :
  ∃ u', main_flash u' = true ∧ fw_holds demo_file (up_storage u') 512.
Proof.
  destruct (rounds_exist 9 1 ltac:(unfold in_u32; lia) demo_file 2 ltac:(reflexivity) ltac:(lia) 3 0 0 demo_update)
    as [u' H]; [unfold _ERR_LIMIT; lia|by apply started_active, demo_started|].
  exists u'. exact (update_completes 9 1 ltac:(unfold in_u32; lia) demo_file 2 eq_refl ltac:(lia)
    demo_update 3 0 u' demo_started H ltac:(lia) ltac:(unfold _ERR_LIMIT; lia)).
Defined.

Lemma update_res_skips_chunk_witness :
  ∃ u', update_task 9 1 (UpdateEnv 0 true (λ _, None) true [] 0
      [([(3333, le32 PACKET_ID_UPDATE_RES ++ le32 9 ++ le32 2 ++ le32 255)], 10)]) (set_phase 1 0 demo_update)
    = Some (u', [_update_phase 9 (set_phase 1 0 demo_update)]) ∧
    _phase u' = 2 ∧ up_storage u' = up_storage demo_update.
Proof.
  destruct (update_res_skips_chunk 9 1 ltac:(unfold in_u32; lia) (set_phase 1 0 demo_update) 0 0 (λ _, None) 2 255 10)
    as (u' & H1 & H2 & H3 & _); [vm_compute; congruence..|].
  exists u'. split; [exact H1|]. split; [exact H2|exact H3].
Defined.

