(* ===== verification/Nmea.v ===== *)
(** * NMEA sentences (lib/nmea/nmea.c)

    Field access in comma-separated sentences and the GGA, RMC and GSV parsers.
    A sentence is the list of its characters. *)

From S2P Require Import Prelude CText EventTypes.

(** src/lib/nmea/nmea.h:11-21 (nmea_data_t) *)
Record nmea_data := NmeaData {
  lon_sec : Z;      (* s32, seconds * 100 *)
  lat_sec : Z;
  speed : Z;        (* 15 bits, km/h * 10 *)
  angle : Z;        (* 9 bits *)
  accuracy : Z;     (* 8 bits *)
  alt : Z;          (* s16 *)
  fix_ : Z;         (* u8 *)
  nbsat : Z;        (* u8 *)
  n_time : rtc_t
}.

(** The value an [memset (.., 0, ..)] leaves. *)
Definition nmea_zero : nmea_data := NmeaData 0 0 0 0 0 0 0 0 rtc_zero.

(** src/lib/nmea/nmea.c:5-5 (PARAM_BUF_SIZE) *)
Definition PARAM_BUF_SIZE : Z := 32.

(** [atoi] and [atol] of the C library: 0 without a number. *)
Definition atoi (s : list Z) : Z := match scan_s32 s with Some (v, _) => v | None => 0 end.

(** ** Fields *)

(** src/lib/nmea/nmea.c:11-24 (param_pos) *)
Fixpoint param_scan (src : list Z) (n l : Z) : Z * Z :=
  match src with
  | [] => (n, l)
  | c :: src =>
      if n =? 0 then (n, l)
      else
        let l := l + 1 in
        let n := if c =? 44 then n - 1 else n in
        if n <=? 0 then (n, l) else param_scan src n l
  end.

(** src/lib/nmea/nmea.c:9-25 (param_pos) *)
Definition param_pos (src : list Z) (n : Z) : Z :=
  let '(n, l) := param_scan src n 0 in if n =? 0 then l else -1.

(** src/lib/nmea/nmea.c:32-57 (get_param) *)
Fixpoint param_copy (src : list Z) (n limit : Z) (copy : bool) (dest : list Z) : bool * list Z :=
  match src with
  | [] => (copy, dest)
  | c :: src =>
      let copy := copy || (n =? 0) in
      if c =? 44 then
        if n - 1 <? 0 then (copy, dest) else param_copy src (n - 1) limit copy dest
      else if copy then
        if 0 <? limit then param_copy src n (limit - 1) copy (dest ++ [c]) else (copy, dest)
      else param_copy src n limit copy dest
  end.

(** The length, -1 without the field, and the text in [dest]. *)
(** src/lib/nmea/nmea.c:27-60 (get_param) *)
Definition get_param (src : list Z) (n limit : Z) : Z * list Z :=
  let '(copy, dest) := param_copy src n limit false [] in
  (if copy then Z.of_nat (length dest) else -1, dest).

(** [sscanf (s, "%d.%1d", &a, &b)]: how many were read. *)
Definition scan_tenths (s : list Z) : option (Z * option Z) :=
  match scan_s32 s with
  | None => None
  | Some (a, r) =>
      match scan_char 46 r with
      | None => Some (a, None)
      | Some r =>
          match skip_spaces r with
          | c :: _ => if is_digit c then Some (a, Some (c - 48)) else Some (a, None)
          | [] => Some (a, None)
          end
      end
  end.

(** src/lib/nmea/nmea.c:62-77 (knots_to_10kmh) *)
Definition knots_to_10kmh (s : list Z) : Z :=
  match scan_tenths s with
  | Some (a, b) =>
      let tmp := s32 (default 0 b + 10 * a) in
      u16 (Z.quot (s32 (tmp * 1852)) 1000)
  | None => 0
  end.

(** ** Parsers *)

(** src/lib/nmea/nmea.c:81-88 (nmea_parse_u32) *)
Definition nmea_parse_u32 (sentence : list Z) (param_n : Z) : Z :=
  let pos := param_pos sentence param_n in
  if 0 <? pos then u32 (atoi (drop (Z.to_nat pos) sentence)) else 0.

(** The position in a field of which [deg] characters are the degrees: the
    minutes and their fraction are read from a copy cut after [deg + 7]
    characters. *)
(** src/lib/nmea/nmea.c:98-102 (nmea_parse_gga) *)
Definition gga_angle (deg : nat) (buf : list Z) : Z :=
  let buf := take (deg + 7) buf in
  let v := s32 (atoi (drop deg buf) * (60 * 100)) in
  let v := s32 (v + Z.quot (s32 (atoi (drop (deg + 3) buf) * 6)) 10) in
  s32 (v + s32 (atoi (take deg buf) * (60 * 60 * 100))).

(** src/lib/nmea/nmea.c:104-107 (nmea_parse_gga) *)
Definition gga_sign (sentence : list Z) (n positive v : Z) : Z :=
  let '(len, buf) := get_param sentence n (PARAM_BUF_SIZE - 1) in
  if (0 <? len) && negb (default 0 (head buf) =? positive) then s32 (- v) else v.

(** src/lib/nmea/nmea.c:90-131 (nmea_parse_gga) *)
Definition nmea_parse_gga (stamp : nmea_data) (sentence : list Z) : bool * nmea_data :=
  let '(len, buf) := get_param sentence 2 (PARAM_BUF_SIZE - 1) in
  if len <=? 8 then (false, stamp)
  else
    let lat := gga_sign sentence 3 78 (gga_angle 2 buf) in     (* 'N' *)
    let '(len, buf) := get_param sentence 4 (PARAM_BUF_SIZE - 1) in
    if len <=? 9 then (false, stamp)
    else
      let lon := gga_sign sentence 5 69 (gga_angle 3 buf) in   (* 'E' *)
      (true, NmeaData lon lat (speed stamp) (angle stamp)
         (u8 (nmea_parse_u32 sentence 8)) (s16 (nmea_parse_u32 sentence 9))
         (u8 (nmea_parse_u32 sentence 6)) (u8 (nmea_parse_u32 sentence 7)) (n_time stamp)).

(** "hhmmss" or "ddmmyy": the three numbers, read from the last one back. *)
(** src/lib/nmea/nmea.c:141-145 (nmea_parse_rmc) *)
Definition three_fields (buf : list Z) : Z * Z * Z :=
  (u8 (atoi (take 2 buf)), u8 (atoi (drop 2 (take 4 buf))), u8 (atoi (drop 4 buf))).

(** src/lib/nmea/nmea.c:133-166 (nmea_parse_rmc) *)
Definition nmea_parse_rmc (stamp : nmea_data) (sentence : list Z) : bool * nmea_data :=
  let '(len, buf) := get_param sentence 1 (PARAM_BUF_SIZE - 1) in
  let t := n_time stamp in
  let t := if 6 <=? len then
             let '(h, m, s) := three_fields buf in Rtc (year t) (month t) (day t) h m s
           else t in
  let '(len, buf) := get_param sentence 7 (PARAM_BUF_SIZE - 1) in
  let sp := if 0 <? len then knots_to_10kmh buf mod 32768 else speed stamp in
  let '(len, buf) := get_param sentence 9 (PARAM_BUF_SIZE - 1) in
  let t := if len =? 6 then
             let '(d, m, y) := three_fields buf in Rtc y m d (hour t) (minute t) (second t)
           else t in
  (true, NmeaData (lon_sec stamp) (lat_sec stamp) sp (nmea_parse_u32 sentence 8 mod 512)
     (accuracy stamp) (alt stamp) (fix_ stamp) (nbsat stamp) t).

(** [*nbsat_visible] and [*is_glonass]. *)
(** src/lib/nmea/nmea.c:168-173 (nmea_parse_gsv) *)
Definition nmea_parse_gsv (protocol_id : Z) (sentence : list Z) : Z * bool :=
  (u8 (nmea_parse_u32 sentence 3), protocol_id =? 76).

(** src/lib/nmea/nmea.c:175-181 (nmea_checksum_compute) *)
Definition nmea_checksum_compute (s : list Z) : Z := foldl (λ c x, u8 (Z.lxor c x)) 0 s.

(** The sentences of tests/test_nmea.c. *)
Example gga_prague :
  nmea_parse_gga nmea_zero (str "$GPGGA,132321,5043.7892,N,01510.6098,E,1,06,1.6,553,M,44.6,M,,")
  = (true, NmeaData (5400000 + 60000 + 3658) 18262735 0 0 1 553 1 6 rtc_zero).
Proof. vm_compute. reflexivity. Qed.
Example rmc_prague :
  nmea_parse_rmc nmea_zero (str "$GPRMC,181120,A,5043.2565,N,01510.5001,E,0.31,64.34,081012,,,A")
  = (true, NmeaData 0 0 5 64 0 0 0 0 (Rtc 12 10 8 18 11 20)).
Proof. vm_compute. reflexivity. Qed.

(** ** Fields of a sentence *)

(** A sentence whose first [length pre] fields are [pre]: the rest begins where
    the next field does. *)
Definition fields (pre : list (list Z)) (rest : list Z) : list Z :=
  concat ((λ f, f ++ [44]) <$> pre) ++ rest.

Definition plain (f : list Z) : Prop := Forall (λ c, c ≠ 44) f.

Lemma param_copy_skip f rest n limit :
  plain f → 0 < n →
  param_copy (f ++ 44 :: rest) n limit false [] = param_copy rest (n - 1) limit false [].
Proof.
  intros Hf Hn. induction Hf as [|c f Hc Hf IH]; cbn [app param_copy].
  - change (44 =? 44) with true. cbv iota zeta.
    rewrite (proj2 (Z.ltb_ge _ _)), (proj2 (Z.eqb_neq n 0)) by lia. done.
  - rewrite (proj2 (Z.eqb_neq c 44)), (proj2 (Z.eqb_neq n 0)) by (done || lia). exact IH.
Qed.

Lemma param_copy_take f rest limit dest :
  plain f → (rest = [] ∨ ∃ r, rest = 44 :: r) → Z.of_nat (length f) ≤ limit →
  param_copy (f ++ rest) 0 limit true dest = (true, dest ++ f).
Proof.
  intros Hf Hr. revert limit dest. induction Hf as [|c f Hc Hf IH]; intros limit dest Hl; cbn [app].
  - rewrite app_nil_r. destruct Hr as [->|[r ->]]; done.
  - cbn [param_copy length] in *. rewrite (proj2 (Z.eqb_neq c 44)), (proj2 (Z.ltb_lt _ _)) by (done || lia).
    cbn [orb]. rewrite IH by lia. by rewrite <- app_assoc.
Qed.

(** The field after [pre], when it is short enough for the buffer and not
    empty. *)
Lemma get_param_field pre f rest :
  Forall plain pre → plain f → f ≠ [] → (rest = [] ∨ ∃ r, rest = 44 :: r) →
  Z.of_nat (length f) ≤ 31 →
  get_param (fields pre (f ++ rest)) (Z.of_nat (length pre)) 31 = (Z.of_nat (length f), f).
Proof.
  intros Hpre Hf Hne Hr Hl. unfold get_param.
  assert (param_copy (fields pre (f ++ rest)) (Z.of_nat (length pre)) 31 false [] = (true, f)) as ->;
    [|done].
  unfold fields. induction Hpre as [|g pre Hg Hpre IH]; cbn [length].
  - cbn [fmap list_fmap concat app]. destruct f as [|c f]; [done|].
    inversion Hf as [|? ? Hc Hf']; subst. cbn [app param_copy].
    change (Z.of_nat 0) with 0. cbn [orb]. change (0 =? 0) with true. cbv zeta.
    rewrite (proj2 (Z.eqb_neq c 44)) by done. cbn [length] in Hl.
    change (0 <? 31) with true. cbv iota. by rewrite param_copy_take by (done || lia).
  - cbn [fmap list_fmap concat]. rewrite <- !app_assoc. cbn [app].
    rewrite param_copy_skip by (done || lia).
    replace (Z.of_nat (S (length pre)) - 1) with (Z.of_nat (length pre)) by lia. exact IH.
Qed.

Lemma param_scan_skip f rest n l :
  plain f → 0 < n →
  param_scan (f ++ 44 :: rest) n l =
    if n - 1 =? 0 then (0, l + Z.of_nat (length f) + 1)
    else param_scan rest (n - 1) (l + Z.of_nat (length f) + 1).
Proof.
  intros Hf Hn. revert l. induction Hf as [|c f Hc Hf IH]; intros l; cbn [app param_scan].
  - rewrite (proj2 (Z.eqb_neq n 0)) by lia. change (44 =? 44) with true. cbv iota zeta.
    replace (l + Z.of_nat (length (@nil Z)) + 1) with (l + 1) by (cbn; lia).
    destruct (Z.eqb_spec (n - 1) 0) as [->|]; [done|].
    by rewrite (proj2 (Z.leb_gt (n - 1) 0)) by lia.
  - rewrite (proj2 (Z.eqb_neq n 0)), (proj2 (Z.eqb_neq c 44)) by (done || lia). cbv zeta.
    rewrite (proj2 (Z.leb_gt n 0)) by lia. rewrite IH. cbn [length].
    by replace (l + 1 + Z.of_nat (length f) + 1) with (l + Z.of_nat (S (length f)) + 1) by lia.
Qed.

(** The position of a field is the length of what precedes it. *)
Lemma param_pos_field pre rest :
  Forall plain pre → pre ≠ [] →
  param_pos (fields pre rest) (Z.of_nat (length pre)) =
    Z.of_nat (length (concat ((λ f, f ++ [44]) <$> pre))).
Proof.
  intros Hpre Hne. unfold param_pos, fields.
  assert (∀ l, param_scan (concat ((λ f, f ++ [44]) <$> pre) ++ rest) (Z.of_nat (length pre)) l
    = (0, l + Z.of_nat (length (concat ((λ f, f ++ [44]) <$> pre))))) as ->; [|done].
  induction Hpre as [|g pre Hg Hpre IH]; [done|]. intros l.
  cbn [fmap list_fmap concat length]. rewrite <- !app_assoc. cbn [app].
  rewrite param_scan_skip by (done || lia).
  replace (Z.of_nat (S (length pre)) - 1) with (Z.of_nat (length pre)) by lia.
  destruct pre as [|g' pre].
  - cbn. f_equal. rewrite !length_app. cbn. lia.
  - rewrite (proj2 (Z.eqb_neq _ 0)) by (cbn; lia). rewrite IH by done. f_equal.
    rewrite !length_app. cbn [length]. lia.
Qed.

(** A decimal number printed in a field reads back. *)
Lemma nmea_parse_u32_field pre v rest :
  Forall plain pre → pre ≠ [] → 0 ≤ v ≤ 2147483647 →
  match rest with [] => true | c :: _ => negb (is_digit c) end = true →
  nmea_parse_u32 (fields pre (print_dec v ++ rest)) (Z.of_nat (length pre)) = v.
Proof.
  intros Hpre Hne Hv Hr. unfold nmea_parse_u32. rewrite param_pos_field by done. cbv zeta.
  rewrite (proj2 (Z.ltb_lt _ _)).
  2:{ destruct pre as [|g pre]; [done|]. cbn. rewrite !length_app. cbn. lia. }
  rewrite Nat2Z.id. unfold fields at 1. rewrite drop_app_length.
  unfold atoi. rewrite scan_print_dec by (done || lia). apply u32_small. unfold in_u32. lia.
Qed.

(** ** A position reads back *)

Lemma fields_split pre f post rest :
  fields (pre ++ f :: post) rest = fields pre (f ++ 44 :: fields post rest).
Proof.
  unfold fields. rewrite fmap_app, concat_app. cbn [fmap list_fmap concat].
  by rewrite <- !app_assoc.
Qed.

(** [n] decimal digits. *)
Fixpoint dec_fixed (n : nat) (v : Z) : list Z :=
  match n with O => [] | S n => dec_fixed n (v / 10) ++ [48 + v mod 10] end.

Lemma dec_fixed_length n v : length (dec_fixed n v) = n.
Proof. revert v. induction n as [|n IH]; intros v; [done|]. cbn. rewrite length_app, IH. cbn. lia. Qed.

Lemma dec_fixed_digits n v : Forall (λ c, is_digit c = true) (dec_fixed n v).
Proof.
  revert v. induction n as [|n IH]; intros v; [constructor|]. cbn. apply Forall_app. split; [done|].
  constructor; [|constructor]. apply is_digit_spec. pose proof (Z.mod_pos_bound v 10). lia.
Qed.

Lemma digit_plain f : Forall (λ c, is_digit c = true) f → plain f.
Proof. intros H. eapply Forall_impl; [exact H|]. intros c Hc%is_digit_spec. cbn. lia. Qed.

Lemma dec_fixed_value n v a :
  0 ≤ v < 10 ^ Z.of_nat n →
  foldl (λ acc c, 10 * acc + (c - 48)) a (dec_fixed n v) = a * 10 ^ Z.of_nat n + v.
Proof.
  revert v. induction n as [|n IH]; intros v Hv.
  - cbn in *. lia.
  - rewrite Nat2Z.inj_succ, Z.pow_succ_r in * by lia. cbn [dec_fixed]. rewrite foldl_app. cbn [foldl].
    rewrite IH.
    + pose proof (Z.div_mod v 10). lia.
    + split; [apply Z.div_pos; lia|]. apply Z.div_lt_upper_bound; lia.
Qed.

Lemma atoi_digits l r :
  l ≠ [] → Forall (λ c, is_digit c = true) l →
  match r with [] => true | c :: _ => negb (is_digit c) end = true →
  foldl (λ acc c, 10 * acc + (c - 48)) 0 l ≤ 2147483647 →
  0 ≤ foldl (λ acc c, 10 * acc + (c - 48)) 0 l →
  atoi (l ++ r) = foldl (λ acc c, 10 * acc + (c - 48)) 0 l.
Proof.
  intros Hne Hl Hr Hv1 Hv2. destruct l as [|c l]; [done|].
  inversion Hl as [|? ? Hc _]; subst. pose proof (proj1 (is_digit_spec c) Hc).
  unfold atoi, scan_s32. cbn [app skip_spaces].
  assert (is_space c = false) as ->.
  { unfold is_space. destruct (Z.eqb_spec c 32), (Z.leb_spec 9 c), (Z.leb_spec c 13); cbn; (done || lia). }
  unfold scan_number. rewrite (proj2 (Z.eqb_neq c 45)), (proj2 (Z.eqb_neq c 43)) by lia.
  rewrite Hc. change (c :: l ++ r) with ((c :: l) ++ r). rewrite take_digits_app by done.
  cbv iota beta. cbv zeta. lia.
Qed.

Lemma atoi_dec_fixed n v r :
  (0 < n)%nat → 0 ≤ v < 10 ^ Z.of_nat n → v ≤ 2147483647 →
  match r with [] => true | c :: _ => negb (is_digit c) end = true →
  atoi (dec_fixed n v ++ r) = v.
Proof.
  intros Hn Hv Hm Hr. pose proof (dec_fixed_value n v 0 Hv) as E.
  rewrite atoi_digits; [lia| |apply dec_fixed_digits|done|lia|lia].
  intros H. apply (f_equal length) in H. rewrite dec_fixed_length in H. cbn in H. lia.
Qed.

(** "ddmm.ffff": degrees in [deg] digits, minutes and their fraction. *)
Definition angle_text (deg : nat) (d m f : Z) : list Z :=
  dec_fixed deg d ++ dec_fixed 2 m ++ [46] ++ dec_fixed 4 f.

Lemma angle_text_length deg d m f : length (angle_text deg d m f) = (deg + 7)%nat.
Proof. unfold angle_text. rewrite !length_app, !dec_fixed_length. cbn. lia. Qed.

Lemma angle_text_plain deg d m f : plain (angle_text deg d m f).
Proof.
  unfold angle_text, plain. rewrite !Forall_app. repeat split;
    try (apply digit_plain, dec_fixed_digits). by repeat constructor.
Qed.

Lemma gga_angle_text deg d m f :
  (0 < deg ≤ 3)%nat → 0 ≤ d < 10 ^ Z.of_nat deg → 0 ≤ m < 100 → 0 ≤ f < 10000 →
  gga_angle deg (angle_text deg d m f) = 360000 * d + 6000 * m + f * 6 / 10.
Proof.
  intros Hdeg Hd Hm Hf. unfold gga_angle. cbv zeta.
  rewrite take_ge by (rewrite angle_text_length; lia).
  assert (d < 1000) as Hd3.
  { eapply Z.lt_le_trans; [apply Hd|]. change 1000 with (10 ^ 3). apply Z.pow_le_mono_r; lia. }
  unfold angle_text.
  rewrite (drop_app_length' (dec_fixed deg d)) by (by rewrite dec_fixed_length).
  rewrite (atoi_dec_fixed 2 m) by (done || lia || (change (10 ^ Z.of_nat 2) with 100; lia)).
  rewrite app_assoc, app_assoc.
  rewrite (drop_app_length' ((dec_fixed deg d ++ dec_fixed 2 m) ++ [46]))
    by (rewrite !length_app, !dec_fixed_length; cbn; lia).
  rewrite <- (app_nil_r (dec_fixed 4 f)) at 1.
  rewrite (atoi_dec_fixed 4 f) by (done || lia || (change (10 ^ Z.of_nat 4) with 10000; lia)).
  rewrite <- !app_assoc, take_app_length' by (by rewrite dec_fixed_length).
  rewrite <- (app_nil_r (dec_fixed deg d)).
  rewrite (atoi_dec_fixed deg d) by (done || lia).
  rewrite Z.quot_div_nonneg by (unfold s32; rewrite ?Z.mod_small by lia; lia).
  unfold s32. rewrite !Z.mod_small by (Z.div_mod_to_equations; lia). 
  replace (f * 6 + 2147483648 - 2147483648) with (f * 6) by lia. lia.
Qed.

Definition hemisphere (negative : bool) (pos neg : Z) : list Z := [if negative then neg else pos].
Definition signed (negative : bool) (v : Z) : Z := if negative then - v else v.

Lemma gga_sign_field pre negative pos neg rest v :
  Forall plain pre → pos ≠ neg → pos ≠ 44 → neg ≠ 44 →
  (∃ r, rest = 44 :: r) → -2147483647 ≤ v ≤ 2147483647 →
  gga_sign (fields pre (hemisphere negative pos neg ++ rest)) (Z.of_nat (length pre)) pos v
    = signed negative v.
Proof.
  intros Hpre Hpn Hp Hn Hr Hv. unfold gga_sign, PARAM_BUF_SIZE.
  rewrite get_param_field; [|done|destruct negative; by repeat constructor|done|by right|done].
  change (0 <? Z.of_nat (length (hemisphere negative pos neg))) with true.
  change (default 0 (head (hemisphere negative pos neg))) with (if negative then neg else pos).
  destruct negative; cbn [signed].
  - rewrite (proj2 (Z.eqb_neq neg pos)) by done. cbn. unfold s32. rewrite Z.mod_small; lia.
  - by rewrite Z.eqb_refl.
Qed.

Lemma print_dec_plain v : in_u8 v → plain (print_dec v).
Proof.
  intros [Hv1 Hv2]. unfold print_dec. rewrite (proj2 (Z.ltb_ge v 0)) by done.
  destruct (digits_fuel_spec 20 v []) as (l & -> & Hl & _); [lia|lia|].
  rewrite app_nil_r. by apply digit_plain.
Qed.

(** Shows the sentence as the fields before one, the field, and the rest. *)
Ltac at_field s pre f post :=
  unfold s; match goal with |- context [fields ?l ?r] => change l with (pre ++ f :: post) end;
  rewrite fields_split.

Ltac all_plain := repeat (apply Forall_cons; split; [done|]); by apply Forall_nil_2.

(** The position of a GGA sentence reads back in hundredths of
    arc seconds: for every latitude and longitude written in degrees, minutes
    and four digits of the fraction, with either hemisphere, and the fix,
    satellites, accuracy and altitude written in decimal, whatever the first
    two fields hold and whatever follows the altitude. *)
Theorem nmea_parse_gga_position stamp f0 f1 south la lam laf west lo lom lof fx sat acc al rest :
  plain f0 → plain f1 →
  0 ≤ la < 100 → 0 ≤ lam < 100 → 0 ≤ laf < 10000 →
  0 ≤ lo < 1000 → 0 ≤ lom < 100 → 0 ≤ lof < 10000 →
  in_u8 fx → in_u8 sat → in_u8 acc → 0 ≤ al < 32768 →
  match rest with [] => true | c :: _ => negb (is_digit c) end = true →
  nmea_parse_gga stamp
    (fields [f0; f1; angle_text 2 la lam laf; hemisphere south 78 83; angle_text 3 lo lom lof;
             hemisphere west 69 87; print_dec fx; print_dec sat; print_dec acc]
       (print_dec al ++ rest))
  = (true, NmeaData (signed west (360000 * lo + 6000 * lom + lof * 6 / 10))
             (signed south (360000 * la + 6000 * lam + laf * 6 / 10))
             (speed stamp) (angle stamp) acc al fx sat (n_time stamp)).
Proof.
  intros Hf0 Hf1 Hla Hlam Hlaf Hlo Hlom Hlof Hfx Hsat Hacc Hal Hr.
  set (lat := angle_text 2 la lam laf). set (lon := angle_text 3 lo lom lof).
  set (ns := hemisphere south 78 83). set (ew := hemisphere west 69 87).
  assert (plain lat) as Plat by apply angle_text_plain.
  assert (plain lon) as Plon by apply angle_text_plain.
  assert (plain ns) as Pns by (unfold ns; destruct south; by repeat constructor).
  assert (plain ew) as Pew by (unfold ew; destruct west; by repeat constructor).
  pose proof (print_dec_plain fx Hfx) as Pfx. pose proof (print_dec_plain sat Hsat) as Psat.
  pose proof (print_dec_plain acc Hacc) as Pacc.
  set (s := fields _ _).
  assert (get_param s 2 31 = (9, lat)) as E2.
  { at_field s [f0; f1] lat [ns; lon; ew; print_dec fx; print_dec sat; print_dec acc].
    apply (get_param_field [f0; f1]); [all_plain|done|done|right; by eexists|done]. }
  assert (∀ v, -2147483647 ≤ v ≤ 2147483647 → gga_sign s 3 78 v = signed south v) as E3.
  { intros v Hv. at_field s [f0; f1; lat] ns [lon; ew; print_dec fx; print_dec sat; print_dec acc].
    apply (gga_sign_field [f0; f1; lat]); try done; [all_plain|by eexists]. }
  assert (get_param s 4 31 = (10, lon)) as E4.
  { at_field s [f0; f1; lat; ns] lon [ew; print_dec fx; print_dec sat; print_dec acc].
    apply (get_param_field [f0; f1; lat; ns]); [all_plain|done|done|right; by eexists|done]. }
  assert (∀ v, -2147483647 ≤ v ≤ 2147483647 → gga_sign s 5 69 v = signed west v) as E5.
  { intros v Hv. at_field s [f0; f1; lat; ns; lon] ew [print_dec fx; print_dec sat; print_dec acc].
    apply (gga_sign_field [f0; f1; lat; ns; lon]); try done; [all_plain|by eexists]. }
  assert (nmea_parse_u32 s 6 = fx) as E6.
  { at_field s [f0; f1; lat; ns; lon; ew] (print_dec fx) [print_dec sat; print_dec acc].
    apply (nmea_parse_u32_field [f0; f1; lat; ns; lon; ew]); try done; [all_plain|unfold in_u8 in *; lia]. }
  assert (nmea_parse_u32 s 7 = sat) as E7.
  { at_field s [f0; f1; lat; ns; lon; ew; print_dec fx] (print_dec sat) [print_dec acc].
    apply (nmea_parse_u32_field [f0; f1; lat; ns; lon; ew; print_dec fx]); try done;
      [all_plain|unfold in_u8 in *; lia]. }
  assert (nmea_parse_u32 s 8 = acc) as E8.
  { at_field s [f0; f1; lat; ns; lon; ew; print_dec fx; print_dec sat] (print_dec acc) (@nil (list Z)).
    apply (nmea_parse_u32_field [f0; f1; lat; ns; lon; ew; print_dec fx; print_dec sat]); try done;
      [all_plain|unfold in_u8 in *; lia]. }
  assert (nmea_parse_u32 s 9 = al) as E9.
  { apply (nmea_parse_u32_field [f0; f1; lat; ns; lon; ew; print_dec fx; print_dec sat; print_dec acc]);
      try done; [all_plain|lia]. }
  clearbody s. unfold nmea_parse_gga, PARAM_BUF_SIZE. change (32 - 1) with 31.
  rewrite E2, E4. change (9 <=? 8) with false. change (10 <=? 9) with false. cbv iota zeta.
  unfold lat, lon. rewrite !gga_angle_text by (try lia; cbn; lia).
  rewrite E3, E5 by (Z.div_mod_to_equations; lia). rewrite E6, E7, E8, E9.
  rewrite !u8_small by done. unfold s16. rewrite Z.mod_small by lia. by rewrite Z.add_simpl_r.
Qed.
