(* ===== verification/Gps.v ===== *)
(** * GPS receiver (app/gps.c)

    The line receiver with its checksum, the sentence dispatch that assembles a
    position from GGA, GSV and RMC, the range check, and the sleep timers.  The
    text helpers of the SDK are [GpsLib]; echoing lines to the console is left
    out. *)

From S2P Require Import Prelude CText EventTypes ArmSection Nmea.

(** ** What the SDK provides

    [stricmp2 s p] is 0 when [s] begins with [p], letter case aside;
    [ascii_to_hex] is the value of a hexadecimal digit; [gps_room] is how many
    characters fit into [gps_buf] before [buf_append_char] fails. *)
Class GpsLib := {
  stricmp2 : list Z → list Z → Z;
  ascii_to_hex : Z → Z;
  gps_room : nat
}.
Class GpsSpec (G : GpsLib) := {
  stricmp2_prefix : ∀ s p, stricmp2 s p = 0 ↔ (to_lower <$> p) `prefix_of` (to_lower <$> s);
  ascii_to_hex_digit : ∀ v, 0 ≤ v < 16 → ascii_to_hex (hex_digit v) = v
}.

(** ** State *)

(** src/app/gps.h:10-18 (GPS_NMEA_GGA .. GPS_NMEA_PMTK) *)
Definition GPS_NMEA_GGA : Z := bit 0.
Definition GPS_NMEA_GSA : Z := bit 1.
Definition GPS_NMEA_GSV : Z := bit 2.
Definition GPS_NMEA_RMC : Z := bit 3.
Definition GPS_NMEA_VTG : Z := bit 4.
Definition GPS_NMEA_GLL : Z := bit 5.
(** src/app/gps.c:36-36 (GPS_NMEA_REQUIRED) *)
Definition GPS_NMEA_REQUIRED : Z := Z.lor GPS_NMEA_RMC (Z.lor GPS_NMEA_GGA GPS_NMEA_GSV).
(** src/app/gps.c:44-47 (SLEEP_WAKEUP .. GPS_MAX_WAKEUP_TIME) *)
Definition SLEEP_WAKEUP : Z := 3600 * 10.
Definition SLEEP_TIMEOUT : Z := 3 * 60 * 10.
Definition SLEEP_DELAY : Z := 15 * 10.
Definition GPS_MAX_WAKEUP_TIME : Z := 3600 * 10.

(** src/app/gps.c:471-473 (gps_task) *)
Inductive rx_state_t := GPS_RX_IDLE | GPS_RX_DATA | GPS_RX_CHSUM.

(** The receiver: the statics of [gps_task] and [gps_buf]. *)
(** src/app/gps.c:474-476 (gps_task) *)
Record gps_rx := GpsRx { rx_state : rx_state_t; chsum : Z; rx_chsum : Z; gps_buf : list Z }.

(** What the sentences say. *)
(** src/app/gps.c:38-61 (gps_stamp_tmp .. pmtk_ack) *)
Record gps_pos := GpsPos {
  gps_stamp_tmp : nmea_data;
  gps_stamp_last : nmea_data;
  gps_stamp_last_valid : nmea_data;
  fix_tm : Z;
  error_cnt : Z;              (* u16 *)
  valid_data : Z;             (* u8, static of gps_data_parser *)
  gps_rx_ok : bool;
  gps_nbsat_visible : Z;
  glonass_nbsat_visible : Z;
  glonass_used : bool;
  gps_jamming : Z;
  pmtk_ack : bool
}.

(** Power and sleep. *)
(** src/app/gps.c:48-52 (sleep_tmr .. gps_pwr_on_state) *)
Record gps_pwr := GpsPwr {
  sleep_tmr : Z;              (* u16 *)
  sleep_postpone : Z;         (* u16 *)
  sleep_mode : bool;
  gps_pwr_on_state : bool
}.

Record gps := Gps { g_rx : gps_rx; g_pos : gps_pos; g_pwr : gps_pwr }.

Definition set_pos (p : gps_pos) (g : gps) : gps := Gps (g_rx g) p (g_pwr g).
Definition set_pwr (w : gps_pwr) (g : gps) : gps := Gps (g_rx g) (g_pos g) w.

(** A changed [gps_stamp_tmp], valid-sentence set, or pair of satellite counts. *)
Definition with_tmp (d : nmea_data) (v : Z) (p : gps_pos) : gps_pos :=
  GpsPos d (gps_stamp_last p) (gps_stamp_last_valid p) (fix_tm p) (error_cnt p) v (gps_rx_ok p)
    (gps_nbsat_visible p) (glonass_nbsat_visible p) (glonass_used p) (gps_jamming p) (pmtk_ack p).
Definition with_visible (n gl : Z) (used : bool) (p : gps_pos) : gps_pos :=
  GpsPos (gps_stamp_tmp p) (gps_stamp_last p) (gps_stamp_last_valid p) (fix_tm p) (error_cnt p)
    (valid_data p) (gps_rx_ok p) n gl used (gps_jamming p) (pmtk_ack p).
Definition with_rx_ok (p : gps_pos) : gps_pos :=
  GpsPos (gps_stamp_tmp p) (gps_stamp_last p) (gps_stamp_last_valid p) (fix_tm p) (error_cnt p)
    (valid_data p) true (gps_nbsat_visible p) (glonass_nbsat_visible p) (glonass_used p)
    (gps_jamming p) (pmtk_ack p).
Definition with_pmtk (jam : Z) (ack : bool) (p : gps_pos) : gps_pos :=
  GpsPos (gps_stamp_tmp p) (gps_stamp_last p) (gps_stamp_last_valid p) (fix_tm p) (error_cnt p)
    (valid_data p) (gps_rx_ok p) (gps_nbsat_visible p) (glonass_nbsat_visible p) (glonass_used p)
    jam ack.

(** ** Sending *)

(** src/app/gps.c:65-71 (_hex_to_a) *)
Definition _hex_to_a (ch : Z) : Z :=
  let ch := Z.land ch 15 in if 10 <=? ch then ch - 10 + 65 else ch + 48.

(** The characters handed to [gps_tx_char]. *)
(** src/app/gps.c:73-92 (gps_send_text) *)
Definition gps_send_text (text : list Z) : list Z :=
  let chsum := foldl (λ c x, u8 (Z.lxor c x)) 36 text in
  [13; 10] ++ text ++ [42; _hex_to_a (Z.land (Z.shiftr chsum 4) 15); _hex_to_a (Z.land chsum 15); 13; 10].

(** ** Sentences *)

Section gps.
Context `{G : GpsLib}.

(** src/app/gps.c:384-389 (gps_data_parser) *)
Definition position_in_range (d : nmea_data) : bool :=
  (lat_sec d <=? 90 * 6000 * 60) && (- (90 * 6000 * 60) <=? lat_sec d) &&
  (lon_sec d <=? 180 * 6000 * 60) && (- (180 * 6000 * 60) <=? lon_sec d).

(** The stored stamps and the timers once every required sentence has come. *)
(** src/app/gps.c:382-420 (gps_data_parser) *)
Definition gps_take_stamp (now : Z) (g : gps) : gps :=
  let p := g_pos g in
  if negb (Z.land (valid_data p) GPS_NMEA_REQUIRED =? GPS_NMEA_REQUIRED) then g
  else
    let t := gps_stamp_tmp p in
    let t := if position_in_range t then t
             else NmeaData 0 0 (speed t) (angle t) (accuracy t) (alt t) (fix_ t) (nbsat t) (n_time t) in
    let same := (lat_sec (gps_stamp_last p) =? lat_sec t) && (lon_sec (gps_stamp_last p) =? lon_sec t) in
    let err := if same then u16 (error_cnt p + 1) else 0 in
    let fixed := 0 <? fix_ t in
    let w := g_pwr g in
    let w := if fixed && sleep_mode w && (sleep_tmr w <? SLEEP_TIMEOUT - SLEEP_DELAY)
             then GpsPwr (SLEEP_TIMEOUT - SLEEP_DELAY) (sleep_postpone w) (sleep_mode w) (gps_pwr_on_state w)
             else w in
    Gps (g_rx g)
      (GpsPos nmea_zero t (if fixed then t else gps_stamp_last_valid p) (if fixed then now else fix_tm p)
         err 0 (gps_rx_ok p) (gps_nbsat_visible p) (glonass_nbsat_visible p) (glonass_used p)
         (gps_jamming p) (pmtk_ack p)) w.

(** A sentence of an accepted talker, from its three-letter type on. *)
(** src/app/gps.c:322-380 (gps_data_parser) *)
Definition gps_sentence (protocol_id : Z) (data : list Z) (p : gps_pos) : gps_pos :=
  if stricmp2 data (str "GGA") =? 0 then
    let '(ok, d) := nmea_parse_gga (gps_stamp_tmp p) data in
    with_tmp d (if ok then Z.lor (valid_data p) GPS_NMEA_GGA else valid_data p) p
  else if stricmp2 data (str "GSA") =? 0 then
    with_tmp (gps_stamp_tmp p) (Z.lor (valid_data p) GPS_NMEA_GSA) p
  else if stricmp2 data (str "GSV") =? 0 then
    let '(n, is_glonass) := nmea_parse_gsv protocol_id data in
    let p := if is_glonass then with_visible (gps_nbsat_visible p) n true p
             else with_visible n (glonass_nbsat_visible p) (glonass_used p) p in
    with_tmp (gps_stamp_tmp p) (Z.lor (valid_data p) GPS_NMEA_GSV) p
  else if stricmp2 data (str "RMC") =? 0 then
    let '(ok, d) := nmea_parse_rmc (gps_stamp_tmp p) data in
    with_tmp d (if ok then Z.lor (valid_data p) GPS_NMEA_RMC else valid_data p) p
  else if stricmp2 data (str "VTG") =? 0 then
    with_tmp (gps_stamp_tmp p) (Z.lor (valid_data p) GPS_NMEA_VTG) p
  else if stricmp2 data (str "GLL") =? 0 then
    with_tmp (gps_stamp_tmp p) (Z.lor (valid_data p) GPS_NMEA_GLL) p
  else p.

(** The replies of the receiver module to its own commands. *)
(** src/app/gps.c:279-307 (gps_data_parser) *)
Definition gps_pmtk (data : list Z) (p : gps_pos) : gps_pos :=
  if stricmp2 data (str "$PMTK") =? 0 then
    let data := drop 5 data in
    if bool_decide (take 3 data = str "SPF") then
      match drop 3 data !! 1%nat with
      | Some 49 => with_pmtk 0 (pmtk_ack p) p
      | Some 50 => with_pmtk 1 (pmtk_ack p) p
      | Some 51 => with_pmtk 2 (pmtk_ack p) p
      | _ => p
      end
    else if bool_decide (take 3 data = str "001") then with_pmtk (gps_jamming p) true p
    else p
  else p.

(** src/app/gps.c:265-430 (gps_data_parser) *)
Definition gps_data_parser (now : Z) (data : list Z) (g : gps) : gps :=
  let p := g_pos g in
  if negb (stricmp2 data (str "$G") =? 0) then set_pos (gps_pmtk data p) g
  else
    let p := with_rx_ok p in
    let data := drop 2 data in
    match data with
    | protocol_id :: data =>
        if (protocol_id =? 80) || (protocol_id =? 76) || (protocol_id =? 78)
        then gps_take_stamp now (set_pos (gps_sentence protocol_id data p) g)
        else set_pos p g
    | [] => set_pos p g
    end.

(** ** The line receiver *)

(** One pass of the loop for a received character, without the parser: the new
    receiver, and the line that is complete. *)
(** src/app/gps.c:481-537 (gps_task) *)
Definition gps_rx_char (rx_char : Z) (r : gps_rx) : gps_rx * option (list Z) :=
  let '(rx_char, r) :=
    if (rx_char =? 10) || (rx_char =? 13) then (0, r)
    else if rx_char =? 36 then (rx_char, GpsRx GPS_RX_DATA rx_char (rx_chsum r) [])
    else (rx_char, r) in
  let append (r : gps_rx) : gps_rx * option (list Z) :=
    if negb (length (gps_buf r) <? gps_room)%nat
    then (GpsRx GPS_RX_IDLE (chsum r) (rx_chsum r) [], None)
    else if negb (rx_char =? 0) then
      (GpsRx (rx_state r) (chsum r) (rx_chsum r) (gps_buf r ++ [rx_char]), None)
    else
      (GpsRx GPS_RX_IDLE (chsum r) (rx_chsum r) [],
       if negb (chsum r =? rx_chsum r) then None else Some (gps_buf r)) in
  match rx_state r with
  | GPS_RX_IDLE => (r, None)
  | GPS_RX_DATA =>
      append (if rx_char =? 42 then GpsRx GPS_RX_CHSUM (chsum r) 0 (gps_buf r)
              else GpsRx GPS_RX_DATA (u8 (Z.lxor (chsum r) rx_char)) (rx_chsum r) (gps_buf r))
  | GPS_RX_CHSUM =>
      append (if rx_char =? 0 then r
              else GpsRx GPS_RX_CHSUM (chsum r)
                     (u8 (u8 (Z.shiftl (rx_chsum r) 4) + ascii_to_hex rx_char)) (gps_buf r))
  end.

(** One received character at time [now]. *)
(** src/app/gps.c:479-537 (gps_task) *)
Definition gps_task1 (now : Z) (g : gps) (c : Z) : gps :=
  let '(r, line) := gps_rx_char c (g_rx g) in
  let g := Gps r (g_pos g) (g_pwr g) in
  match line with None => g | Some data => gps_data_parser now data g end.

(** src/app/gps.c:469-539 (gps_task) *)
Definition gps_task (now : Z) (received : list Z) (g : gps) : gps :=
  foldl (gps_task1 now) g received.

End gps.

(** ** Power *)

(** src/app/gps.c:189-198 (gps_suspend) *)
Definition gps_suspend (g : gps) : gps :=
  let p := g_pos g in
  let l := gps_stamp_last p in
  Gps (g_rx g)
    (GpsPos (gps_stamp_tmp p)
       (NmeaData (lon_sec l) (lat_sec l) (speed l) (angle l) (accuracy l) (alt l) 0 0 (n_time l))
       (gps_stamp_last_valid p) (fix_tm p) (error_cnt p) (valid_data p) (gps_rx_ok p)
       0 0 (glonass_used p) (gps_jamming p) (pmtk_ack p))
    (GpsPwr (sleep_tmr (g_pwr g)) (sleep_postpone (g_pwr g)) (sleep_mode (g_pwr g)) false).

(** src/app/gps.c:200-208 (gps_wakeup) *)
Definition gps_wakeup (g : gps) : gps :=
  set_pwr (GpsPwr (sleep_tmr (g_pwr g)) (sleep_postpone (g_pwr g)) (sleep_mode (g_pwr g)) true) g.

(** src/app/gps.c:220-236 (gps_sleep_enable) *)
Definition gps_sleep_enable (state : bool) (g : gps) : gps :=
  let w := g_pwr g in
  if state then set_pwr (GpsPwr (SLEEP_TIMEOUT - SLEEP_DELAY) (sleep_postpone w) true (gps_pwr_on_state w)) g
  else
    let g := gps_wakeup (set_pwr (GpsPwr 0 0 (sleep_mode w) (gps_pwr_on_state w)) g) in
    let w := g_pwr g in
    set_pwr (GpsPwr (sleep_tmr w) (sleep_postpone w) false (gps_pwr_on_state w)) g.

(** src/app/gps.c:541-564 (gps_tick) *)
Definition gps_tick (g : gps) : gps :=
  let w := g_pwr g in
  if negb (sleep_mode w) then g
  else
    let w := if negb (sleep_postpone w =? 0)
             then GpsPwr (sleep_tmr w) (sleep_postpone w - 1) true (gps_pwr_on_state w)
             else GpsPwr (u16 (sleep_tmr w + 1)) 0 true (gps_pwr_on_state w) in
    let g := set_pwr w g in
    if SLEEP_WAKEUP <? sleep_tmr w then
      let g := gps_wakeup g in
      let w := g_pwr g in
      set_pwr (GpsPwr 0 (sleep_postpone w) (sleep_mode w) (gps_pwr_on_state w)) g
    else if sleep_tmr w =? SLEEP_TIMEOUT then gps_suspend g
    else g.

(** src/app/gps.c:566-575 (_gps_temporary_start) *)
Definition _gps_temporary_start (g : gps) : gps :=
  let w := g_pwr g in
  if negb (sleep_mode w) then g
  else
    let g := set_pwr (GpsPwr 0 (sleep_postpone w) (sleep_mode w) (gps_pwr_on_state w)) g in
    if gps_pwr_on_state w then g else gps_wakeup g.

(** src/app/gps.c:577-594 (gps_temporary_start_tmout) *)
Definition gps_temporary_start_tmout (seconds : Z) (g : gps) : gps :=
  let tm := u32 (seconds * 10) in
  if GPS_MAX_WAKEUP_TIME <? tm then g
  else
    let g := _gps_temporary_start g in
    let w := g_pwr g in
    if sleep_postpone w <? tm
    then set_pwr (GpsPwr (sleep_tmr w) (u16 tm) (sleep_mode w) (gps_pwr_on_state w)) g
    else g.

(** src/app/gps.c:238-244 (gps_get_stored_stamp) *)
Definition gps_get_stored_stamp (g : gps) : bool * nmea_data :=
  let d := gps_stamp_last_valid (g_pos g) in (negb (fix_ d =? 0), d).
(** src/app/gps.c:255-258 (gps_valid_stamp_age) *)
Definition gps_valid_stamp_age (now : Z) (g : gps) : Z := u32 (now - fix_tm (g_pos g)).

(** The reset line of the module apart. *)
(** src/app/gps.c:180-187 (gps_reset) *)
Definition gps_reset (g : gps) : gps :=
  let p := g_pos g in
  set_pos (GpsPos (gps_stamp_tmp p) (gps_stamp_last p) (gps_stamp_last_valid p) (fix_tm p) 0 (valid_data p)
    (gps_rx_ok p) (gps_nbsat_visible p) (glonass_nbsat_visible p) (glonass_used p) (gps_jamming p) (pmtk_ack p)) g.

(** src/app/gps.c:246-253 (gps_get_current_stamp) *)
Definition gps_get_current_stamp (g : gps) : bool * nmea_data :=
  let d := gps_stamp_last (g_pos g) in (negb (fix_ d =? 0), d).

(** src/app/gps.c:432-440 (gps_fix_ok) *)
Definition gps_fix_ok (g : gps) : bool :=
  negb (fix_ (gps_stamp_last (g_pos g)) =? 0) && gps_pwr_on_state (g_pwr g).

(** src/app/gps.c:596-602 (gps_get_speed) *)
Definition gps_get_speed (g : gps) : Z :=
  if negb (gps_fix_ok g) then 0 else u16 ((speed (gps_stamp_last (g_pos g)) + 5) / 10).

(** src/app/gps.c:604-611 (gps_get_nbsat) *)
Definition gps_get_nbsat (in_use : bool) (g : gps) : Z :=
  let n := nbsat (gps_stamp_last (g_pos g)) in
  if in_use then n
  else if gps_nbsat_visible (g_pos g) <? n then n
  else gps_nbsat_visible (g_pos g).

(** ** The received line *)

Section receiver.
Context `{G : GpsLib}.

Lemma gps_task_app now l1 l2 g : gps_task now (l1 ++ l2) g = gps_task now l2 (gps_task now l1 g).
Proof. apply foldl_app. Qed.

Lemma gps_data_parser_rx now data g : g_rx (gps_data_parser now data g) = g_rx g.
Proof.
  unfold gps_data_parser. case_if; [done|]. destruct (drop 2 data); [done|].
  case_if; [|done]. unfold gps_take_stamp. by case_if.
Qed.

(** Characters that neither end nor begin a line. *)
Definition ordinary (c : Z) : Prop := in_u8 c ∧ c ≠ 0 ∧ c ≠ 10 ∧ c ≠ 13 ∧ c ≠ 36.

Lemma rx_char_ordinary c r :
  ordinary c → gps_rx_char c r =
    match rx_state r with
    | GPS_RX_IDLE => (r, None)
    | GPS_RX_DATA =>
        let r := if c =? 42 then GpsRx GPS_RX_CHSUM (chsum r) 0 (gps_buf r)
                 else GpsRx GPS_RX_DATA (u8 (Z.lxor (chsum r) c)) (rx_chsum r) (gps_buf r) in
        if negb (length (gps_buf r) <? gps_room)%nat
        then (GpsRx GPS_RX_IDLE (chsum r) (rx_chsum r) [], None)
        else (GpsRx (rx_state r) (chsum r) (rx_chsum r) (gps_buf r ++ [c]), None)
    | GPS_RX_CHSUM =>
        let r := GpsRx GPS_RX_CHSUM (chsum r)
                   (u8 (u8 (Z.shiftl (rx_chsum r) 4) + ascii_to_hex c)) (gps_buf r) in
        if negb (length (gps_buf r) <? gps_room)%nat
        then (GpsRx GPS_RX_IDLE (chsum r) (rx_chsum r) [], None)
        else (GpsRx (rx_state r) (chsum r) (rx_chsum r) (gps_buf r ++ [c]), None)
    end.
Proof.
  intros (_ & H0 & H10 & H13 & H36). unfold gps_rx_char.
  rewrite (proj2 (Z.eqb_neq c 10)), (proj2 (Z.eqb_neq c 13)), (proj2 (Z.eqb_neq c 36)) by done.
  cbn [orb]. rewrite (proj2 (Z.eqb_neq c 0)) by done. reflexivity.
Qed.

Definition xor8 (ch : Z) (l : list Z) : Z := foldl (λ c x, u8 (Z.lxor c x)) ch l.

Lemma rx_body now body ch rc buf p w :
  Forall (λ c, ordinary c ∧ c ≠ 42) body → (length buf + length body ≤ gps_room)%nat →
  gps_task now body (Gps (GpsRx GPS_RX_DATA ch rc buf) p w)
    = Gps (GpsRx GPS_RX_DATA (xor8 ch body) rc (buf ++ body)) p w.
Proof.
  intros Hb. revert ch buf. induction Hb as [|c body [Hc Hs] Hb IH]; intros ch buf Hl.
  - by rewrite app_nil_r.
  - cbn [length] in Hl. unfold gps_task. cbn [foldl]. unfold gps_task1 at 2. cbn [g_rx].
    rewrite rx_char_ordinary by done. cbn [rx_state]. rewrite (proj2 (Z.eqb_neq c 42)) by done.
    cbv zeta. cbn [gps_buf]. rewrite (proj2 (Nat.ltb_lt _ _)) by lia. cbn [negb g_pos g_pwr rx_state chsum rx_chsum].
    fold (gps_task now body (Gps (GpsRx GPS_RX_DATA (u8 (Z.lxor ch c)) rc (buf ++ [c])) p w)).
    rewrite IH by (rewrite length_app; cbn; lia). cbn [xor8 foldl]. by rewrite <- app_assoc.
Qed.

(** A carriage return or line feed between lines. *)
Lemma rx_idle now c g : (c = 10 ∨ c = 13) → rx_state (g_rx g) = GPS_RX_IDLE → gps_task1 now g c = g.
Proof.
  intros Hc Hi. unfold gps_task1, gps_rx_char. destruct g as [[st ch rc buf] p w]. cbn in Hi. subst st.
  by destruct Hc as [-> | ->].
Qed.

Lemma xor8_range ch l : in_u8 ch → in_u8 (xor8 ch l).
Proof.
  intros Hch. unfold xor8. revert ch Hch. induction l as [|c l IH]; intros ch Hch; [done|].
  cbn [foldl]. apply IH, u8_range.
Qed.

Lemma _hex_to_a_digit v : 0 ≤ v < 16 → _hex_to_a v = hex_digit v.
Proof.
  intros Hv. assert (v ∈ seqZ 0 16) as H by (apply elem_of_seqZ; lia).
  revert v H Hv. by apply (proj1 (Forall_forall (λ v, 0 ≤ v < 16 → _hex_to_a v = hex_digit v) _)); repeat constructor.
Qed.

Context `{GS : !GpsSpec G}.

(** The two checksum digits and the end of the line. *)
Definition star (ch : Z) : list Z :=
  [42; _hex_to_a (Z.land (Z.shiftr ch 4) 15); _hex_to_a (Z.land ch 15)].

Lemma star_digits ch :
  in_u8 ch → Z.land (Z.shiftr ch 4) 15 = ch / 16 ∧ Z.land ch 15 = ch mod 16 ∧
  0 ≤ ch / 16 < 16 ∧ 0 ≤ ch mod 16 < 16.
Proof.
  intros [H1 H2]. change 15 with (Z.ones 4). rewrite !Z.land_ones, Z.shiftr_div_pow2 by lia.
  change (2 ^ 4) with 16. rewrite (Z.mod_small (ch / 16)) by (Z.div_mod_to_equations; lia).
  Z.div_mod_to_equations; lia.
Qed.

Lemma hex_digit_ordinary v : 0 ≤ v < 16 → ordinary (hex_digit v) ∧ hex_digit v ≠ 42.
Proof. intros Hv. destruct (hex_digit_range v Hv). unfold ordinary, in_u8. lia. Qed.

Lemma rx_star now ch rc buf p w :
  in_u8 ch → (length buf + 3 < gps_room)%nat →
  gps_task now (star ch ++ [13]) (Gps (GpsRx GPS_RX_DATA ch rc buf) p w)
    = gps_data_parser now (buf ++ star ch) (Gps (GpsRx GPS_RX_IDLE ch ch []) p w).
Proof.
  intros Hch Hl. destruct (star_digits ch Hch) as (E1 & E2 & H1 & H2).
  unfold star. rewrite E1, E2, !_hex_to_a_digit by done.
  destruct (hex_digit_ordinary _ H1) as [O1 _]. destruct (hex_digit_ordinary _ H2) as [O2 _].
  assert (ordinary 42) as O0 by (unfold ordinary, in_u8; lia).
  unfold gps_task. cbn [app foldl].
  unfold gps_task1 at 4. cbn [g_rx]. rewrite rx_char_ordinary by done. cbn [rx_state gps_buf chsum rx_chsum].
  change (42 =? 42) with true. cbv iota zeta. cbn [gps_buf rx_state chsum rx_chsum].
  rewrite (proj2 (Nat.ltb_lt _ _)) by lia. cbn [negb g_pos g_pwr].
  unfold gps_task1 at 3. cbn [g_rx]. rewrite rx_char_ordinary by done. cbv zeta. cbn [rx_state gps_buf chsum rx_chsum].
  rewrite (proj2 (Nat.ltb_lt _ _)) by (rewrite length_app; cbn; lia). cbn [negb g_pos g_pwr].
  rewrite ascii_to_hex_digit by done.
  unfold gps_task1 at 2. cbn [g_rx]. rewrite rx_char_ordinary by done. cbv zeta. cbn [rx_state gps_buf chsum rx_chsum].
  rewrite (proj2 (Nat.ltb_lt _ _)) by (rewrite !length_app; cbn; lia). cbn [negb g_pos g_pwr].
  rewrite ascii_to_hex_digit by done.
  assert (u8 (u8 (Z.shiftl (u8 (u8 (Z.shiftl 0 4) + ch / 16)) 4) + ch mod 16) = ch) as ->.
  { rewrite Z.shiftl_0_l. rewrite !Z.shiftl_mul_pow2 by lia. change (2 ^ 4) with 16.
    unfold u8, in_u8 in *. change (0 mod 256) with 0.
    rewrite (Z.mod_small (0 + ch / 16)) by lia. rewrite (Z.mod_small ((0 + ch / 16) * 16)) by lia.
    rewrite Z.mod_small by (Z.div_mod_to_equations; lia). Z.div_mod_to_equations; lia. }
  unfold gps_task1. cbn [g_rx gps_rx_char]. unfold gps_rx_char. cbn [orb].
  change ((13 =? 10) || (13 =? 13)) with true. cbv iota zeta. cbn [rx_state gps_buf chsum rx_chsum].
  change (0 =? 0) with true. cbv iota. cbn [rx_state gps_buf chsum rx_chsum].
  rewrite (proj2 (Nat.ltb_lt _ _)) by (rewrite !length_app; cbn; lia). cbn [negb].
  rewrite Z.eqb_refl. cbn [negb g_pos g_pwr]. by rewrite <- !app_assoc.
Qed.

Definition sendable (text : list Z) : Prop :=
  ∃ body, text = 36 :: body ∧ Forall (λ c, ordinary c ∧ c ≠ 42) body ∧
    (length text + 3 < gps_room)%nat.

(** What the receiver does with a whole line. *)
Definition line_received (now : Z) (text : list Z) (g : gps) : gps :=
  gps_data_parser now (text ++ star (xor8 36 text))
    (Gps (GpsRx GPS_RX_IDLE (xor8 36 text) (xor8 36 text) []) (g_pos g) (g_pwr g)).

Lemma send_received now text g :
  sendable text → rx_state (g_rx g) = GPS_RX_IDLE →
  gps_task now (gps_send_text text) g = line_received now text g.
Proof.
  intros (body & -> & Hb & Hl) Hi. unfold line_received.
  unfold gps_send_text. cbv zeta. fold (xor8 36 (36 :: body)). fold (star (xor8 36 (36 :: body))).
  set (ch := xor8 36 (36 :: body)).
  change ([42; _hex_to_a (Z.land (Z.shiftr ch 4) 15); _hex_to_a (Z.land ch 15); 13; 10])
    with (star ch ++ [13] ++ [10]).
  cbn [app]. change (gps_task now (13 :: 10 :: 36 :: body ++ star ch ++ [13; 10]) g)
    with (gps_task now (36 :: body ++ star ch ++ [13] ++ [10]) (gps_task1 now (gps_task1 now g 13) 10)).
  rewrite !(rx_idle now) by (auto; rewrite !(rx_idle now) by auto; done).
  assert (gps_task now (36 :: body ++ star ch ++ [13] ++ [10]) g
    = gps_task now (body ++ star ch ++ [13] ++ [10]) (gps_task1 now g 36)) as -> by done.
  assert (gps_task1 now g 36 = Gps (GpsRx GPS_RX_DATA 0 (rx_chsum (g_rx g)) [36]) (g_pos g) (g_pwr g)) as ->.
  { unfold gps_task1, gps_rx_char. cbn [orb]. change ((36 =? 10) || (36 =? 13)) with false.
    change (36 =? 36) with true. cbv iota zeta. cbn [rx_state chsum rx_chsum gps_buf length].
    change (36 =? 42) with false. change (36 =? 0) with false. cbv iota. cbn [rx_state chsum rx_chsum gps_buf length].
    cbn [length] in Hl. rewrite (proj2 (Nat.ltb_lt _ _)) by lia. reflexivity. }
  rewrite gps_task_app, rx_body; [|done|cbn [length] in *; lia].
  assert (xor8 0 body = ch) as -> by done.
  rewrite app_assoc, gps_task_app, rx_star; [|apply xor8_range; unfold in_u8; lia|cbn [length app] in *; lia].
  set (g' := gps_data_parser _ _ _). unfold gps_task. cbn [foldl]. apply rx_idle; [auto|].
  unfold g'. by rewrite gps_data_parser_rx.
Qed.

(** A line framed by [gps_send_text] passes the receiver's
    checksum and reaches the parser whole, whatever the receiver holds from
    before, and leaves the receiver idle. *)
Theorem gps_send_text_received now text g :
  sendable text → rx_state (g_rx g) = GPS_RX_IDLE →
  gps_task now (gps_send_text text) g = line_received now text g ∧
  rx_state (g_rx (line_received now text g)) = GPS_RX_IDLE.
Proof.
  intros Ht Hi. split; [by apply send_received|]. unfold line_received. by rewrite gps_data_parser_rx.
Qed.

(** ** A fix from three sentences *)

Lemma stricmp2_str p' r p :
  length p' = length p →
  (stricmp2 (p' ++ r) p =? 0) = bool_decide (to_lower <$> p' = to_lower <$> p).
Proof.
  intros Hl. destruct (Z.eqb_spec (stricmp2 (p' ++ r) p) 0) as [E|E].
  - symmetry. apply bool_decide_eq_true. apply stricmp2_prefix in E as [k Hk].
    rewrite fmap_app in Hk. apply app_inj_1 in Hk as [? _]; [done|by rewrite !length_fmap].
  - symmetry. apply bool_decide_eq_false. intros H. apply E, stricmp2_prefix.
    exists (to_lower <$> r). by rewrite fmap_app, H.
Qed.

Lemma gps_parse_talker now c data g :
  gps_data_parser now (36 :: 71 :: c :: data) g =
    if (c =? 80) || (c =? 76) || (c =? 78)
    then gps_take_stamp now (set_pos (gps_sentence c data (with_rx_ok (g_pos g))) g)
    else set_pos (with_rx_ok (g_pos g)) g.
Proof.
  unfold gps_data_parser. change (36 :: 71 :: c :: data) with (str "$G" ++ c :: data).
  by rewrite stricmp2_str.
Qed.

Ltac sentence := unfold gps_sentence; rewrite !stricmp2_str by done;
  repeat match goal with |- context [bool_decide (?a = ?b)] =>
    first [change (bool_decide (a = b)) with true | change (bool_decide (a = b)) with false] end;
  cbv iota.

Lemma sentence_gsv c r p :
  ∃ n gl used, gps_sentence c (str "GSV" ++ r) p =
    with_tmp (gps_stamp_tmp p) (Z.lor (valid_data p) GPS_NMEA_GSV) (with_visible n gl used p).
Proof.
  sentence. destruct (nmea_parse_gsv c _) as [n gl]. destruct gl; by eexists _, _, _.
Qed.

Lemma sentence_rmc c r p :
  ∃ sp an tm, gps_sentence c (str "RMC" ++ r) p =
    with_tmp (let d := gps_stamp_tmp p in
              NmeaData (lon_sec d) (lat_sec d) sp an (accuracy d) (alt d) (fix_ d) (nbsat d) tm)
      (Z.lor (valid_data p) GPS_NMEA_RMC) p.
Proof.
  sentence. unfold nmea_parse_rmc. destruct (get_param _ 1 _) as [l1 b1].
  destruct (get_param _ 7 _) as [l7 b7]. destruct (get_param _ 9 _) as [l9 b9].
  by eexists _, _, _.
Qed.

Lemma sentence_gga c r p :
  gps_sentence c (str "GGA" ++ r) p =
    let '(ok, d) := nmea_parse_gga (gps_stamp_tmp p) (str "GGA" ++ r) in
    with_tmp d (if ok then Z.lor (valid_data p) GPS_NMEA_GGA else valid_data p) p.
Proof. by sentence. Qed.


(** ** Positions stay in range *)

(** What can happen to the receiver: characters at some time, ticks, power
    requests. *)
Inductive gps_op :=
  | OpRx (now : Z) (received : list Z)
  | OpTick
  | OpSuspend
  | OpWakeup
  | OpSleep (state : bool)
  | OpStart (seconds : Z).

Definition gps_do (g : gps) (o : gps_op) : gps :=
  match o with
  | OpRx now received => gps_task now received g
  | OpTick => gps_tick g
  | OpSuspend => gps_suspend g
  | OpWakeup => gps_wakeup g
  | OpSleep state => gps_sleep_enable state g
  | OpStart seconds => gps_temporary_start_tmout seconds g
  end.

Definition stamps_ok (p : gps_pos) : Prop :=
  position_in_range (gps_stamp_last p) = true ∧ position_in_range (gps_stamp_last_valid p) = true.

Lemma take_stamp_ok now g : stamps_ok (g_pos g) → stamps_ok (g_pos (gps_take_stamp now g)).
Proof.
  intros [H1 H2]. unfold gps_take_stamp. case_if; [done|]. cbv zeta.
  set (t := if position_in_range _ then _ else _).
  assert (position_in_range t = true) as Ht.
  { unfold t. destruct (position_in_range (gps_stamp_tmp (g_pos g))) eqn:E; [done|reflexivity]. }
  split; cbn [g_pos gps_stamp_last gps_stamp_last_valid]; [done|]. by destruct (0 <? fix_ t).
Qed.

Lemma sentence_ok c data p : stamps_ok p → stamps_ok (gps_sentence c data p).
Proof.
  intros H. unfold gps_sentence. case_if; [by destruct (nmea_parse_gga _ _)|].
  case_if; [done|]. case_if; [destruct (nmea_parse_gsv _ _) as [n [|]]; done|].
  case_if; [by destruct (nmea_parse_rmc _ _)|]. case_if; [done|]. by case_if.
Qed.

Lemma pmtk_ok data p : stamps_ok p → stamps_ok (gps_pmtk data p).
Proof.
  intros H. unfold gps_pmtk. case_if; [|done]. cbv zeta. case_if; [|by case_if].
  destruct (drop 3 _ !! 1%nat) as [c|]; [|done].
  repeat match goal with |- context [match ?x with _ => _ end] => destruct x; try done end.
Qed.

Lemma parser_ok now data g : stamps_ok (g_pos g) → stamps_ok (g_pos (gps_data_parser now data g)).
Proof.
  intros H. unfold gps_data_parser. case_if; [by apply pmtk_ok|]. cbv zeta.
  destruct (drop 2 data) as [|c d]; [done|]. case_if; [|done].
  apply take_stamp_ok. cbn [g_pos set_pos]. by apply sentence_ok.
Qed.

Lemma task_ok now l g : stamps_ok (g_pos g) → stamps_ok (g_pos (gps_task now l g)).
Proof.
  intros H. unfold gps_task. revert g H. induction l as [|c l IH]; intros g H; [done|].
  cbn [foldl]. apply IH. unfold gps_task1. destruct (gps_rx_char c (g_rx g)) as [r [data|]]; [|done].
  by apply parser_ok.
Qed.

Lemma do_ok g o : stamps_ok (g_pos g) → stamps_ok (g_pos (gps_do g o)).
Proof.
  intros H. destruct o; cbn [gps_do].
  - by apply task_ok.
  - unfold gps_tick. case_if; [done|]. cbv zeta. case_if; [done|]. case_if; done.
  - done.
  - done.
  - unfold gps_sleep_enable. by case_if.
  - unfold gps_temporary_start_tmout. case_if; [done|]. cbv zeta.
    assert (stamps_ok (g_pos (_gps_temporary_start g))) as H1
      by (unfold _gps_temporary_start; case_if; [done|]; cbv zeta; by case_if).
    by case_if.
Qed.

(** Whatever characters arrive, with whatever checksums, and however
    ticks and power requests come in between, the last and the last valid
    position stay within 90 degrees of latitude and 180 of longitude. *)
Theorem gps_position_in_range g ops :
  stamps_ok (g_pos g) → stamps_ok (g_pos (foldl gps_do g ops)).
Proof.
  revert g. induction ops as [|o ops IH]; intros g H; [done|]. cbn [foldl]. by apply IH, do_ok.
Qed.

End receiver.

(** ** Sleep *)

Lemma tick_postponed g :
  sleep_mode (g_pwr g) = true → 0 < sleep_postpone (g_pwr g) → 0 ≤ sleep_tmr (g_pwr g) < SLEEP_TIMEOUT →
  g_pwr (gps_tick g) = GpsPwr (sleep_tmr (g_pwr g)) (sleep_postpone (g_pwr g) - 1) true (gps_pwr_on_state (g_pwr g)).
Proof.
  intros Hs Hp Ht. unfold gps_tick, SLEEP_WAKEUP, SLEEP_TIMEOUT in *. rewrite Hs. cbn [negb]. cbv zeta.
  rewrite (proj2 (Z.eqb_neq (sleep_postpone _) 0)) by lia. cbn [negb sleep_tmr].
  rewrite (proj2 (Z.ltb_ge _ _)), (proj2 (Z.eqb_neq _ _)) by lia. done.
Qed.

Lemma tick_counting g :
  sleep_mode (g_pwr g) = true → sleep_postpone (g_pwr g) = 0 → 0 ≤ sleep_tmr (g_pwr g) ≤ SLEEP_WAKEUP →
  g_pwr (gps_tick g) =
    if sleep_tmr (g_pwr g) =? SLEEP_WAKEUP then GpsPwr 0 0 true true
    else GpsPwr (sleep_tmr (g_pwr g) + 1) 0 true
           (if sleep_tmr (g_pwr g) + 1 =? SLEEP_TIMEOUT then false else gps_pwr_on_state (g_pwr g)).
Proof.
  intros Hs Hp Ht. unfold gps_tick, SLEEP_WAKEUP, SLEEP_TIMEOUT in *. rewrite Hs, Hp. cbn [negb]. cbv zeta.
  change (negb (0 =? 0)) with false. cbv iota. rewrite u16_small by (unfold in_u16; lia). cbn [sleep_tmr].
  destruct (Z.eqb_spec (sleep_tmr (g_pwr g)) (3600 * 10)) as [E|E].
  - by rewrite (proj2 (Z.ltb_lt _ _)) by lia.
  - rewrite (proj2 (Z.ltb_ge _ _)) by lia. by destruct (_ =? 3 * 60 * 10).
Qed.

Definition gps_ticks (n : nat) (g : gps) : gps := Nat.iter n gps_tick g.

Lemma ticks_counting k g :
  sleep_mode (g_pwr g) = true → sleep_postpone (g_pwr g) = 0 → 0 ≤ sleep_tmr (g_pwr g) →
  sleep_tmr (g_pwr g) + Z.of_nat k ≤ SLEEP_WAKEUP →
  g_pwr (gps_ticks k g) =
    GpsPwr (sleep_tmr (g_pwr g) + Z.of_nat k) 0 true
      (if (sleep_tmr (g_pwr g) <? SLEEP_TIMEOUT) && (SLEEP_TIMEOUT <=? sleep_tmr (g_pwr g) + Z.of_nat k)
       then false else gps_pwr_on_state (g_pwr g)).
Proof.
  intros Hs Hp H0. unfold SLEEP_WAKEUP. induction k as [|k IH]; intros Hk.
  - change (gps_ticks 0 g) with g. rewrite Z.add_0_r.
    destruct (Z.ltb_spec (sleep_tmr (g_pwr g)) SLEEP_TIMEOUT), (Z.leb_spec SLEEP_TIMEOUT (sleep_tmr (g_pwr g)));
      cbn [andb]; try lia; destruct (g_pwr g) as [a b c d]; cbn in Hs, Hp; by subst.
  - change (gps_ticks (S k) g) with (gps_tick (gps_ticks k g)). specialize (IH ltac:(lia)).
    rewrite tick_counting; rewrite IH; cbn [sleep_mode sleep_postpone sleep_tmr gps_pwr_on_state];
      [|done|done|unfold SLEEP_WAKEUP; lia].
    unfold SLEEP_WAKEUP, SLEEP_TIMEOUT. rewrite (proj2 (Z.eqb_neq _ _)) by lia.
    replace (sleep_tmr (g_pwr g) + Z.of_nat (S k)) with (sleep_tmr (g_pwr g) + Z.of_nat k + 1) by lia.
    f_equal. destruct (Z.ltb_spec (sleep_tmr (g_pwr g)) (3 * 60 * 10)),
      (Z.leb_spec (3 * 60 * 10) (sleep_tmr (g_pwr g) + Z.of_nat k)),
      (Z.leb_spec (3 * 60 * 10) (sleep_tmr (g_pwr g) + Z.of_nat k + 1)),
      (Z.eqb_spec (sleep_tmr (g_pwr g) + Z.of_nat k + 1) (3 * 60 * 10)); cbn [andb]; try done; lia.
Qed.

(** Asleep, the receiver is switched off when its timer reaches
    three minutes and on again after one hour, whenever the count begins: the
    power state after any number of ticks up to the hour, and after the hour. *)
Theorem gps_sleep_cycle k g :
  sleep_mode (g_pwr g) = true → sleep_postpone (g_pwr g) = 0 → 0 ≤ sleep_tmr (g_pwr g) →
  sleep_tmr (g_pwr g) + Z.of_nat k ≤ SLEEP_WAKEUP →
  gps_pwr_on_state (g_pwr (gps_ticks k g)) =
    (if (sleep_tmr (g_pwr g) <? SLEEP_TIMEOUT) && (SLEEP_TIMEOUT <=? sleep_tmr (g_pwr g) + Z.of_nat k)
     then false else gps_pwr_on_state (g_pwr g)) ∧
  (sleep_tmr (g_pwr g) + Z.of_nat k = SLEEP_WAKEUP →
     g_pwr (gps_ticks (S k) g) = GpsPwr 0 0 true true).
Proof.
  intros Hs Hp H0 Hk. pose proof (ticks_counting k g Hs Hp H0 Hk) as E. rewrite E. split; [done|].
  intros Hw. change (gps_ticks (S k) g) with (gps_tick (gps_ticks k g)).
  rewrite tick_counting; rewrite E; cbn [sleep_mode sleep_postpone sleep_tmr];
    [by rewrite Hw, Z.eqb_refl|done|done|lia].
Qed.

(** A temporary start keeps a sleeping receiver on for the time asked and the
    three minutes after it. *)
Theorem gps_temporary_start_keeps_on seconds k g :
  sleep_mode (g_pwr g) = true → 0 ≤ sleep_postpone (g_pwr g) → 0 ≤ seconds * 10 ≤ GPS_MAX_WAKEUP_TIME →
  Z.of_nat k < seconds * 10 + SLEEP_TIMEOUT →
  gps_pwr_on_state (g_pwr (gps_ticks k (gps_temporary_start_tmout seconds g))) = true.
Proof.
  intros Hs Hp Hsec Hk. unfold GPS_MAX_WAKEUP_TIME, SLEEP_TIMEOUT in *.
  set (g1 := gps_temporary_start_tmout seconds g).
  assert (∃ p, g_pwr g1 = GpsPwr 0 p true true ∧ seconds * 10 ≤ p) as (p & E1 & Hp1).
  { unfold g1, gps_temporary_start_tmout, GPS_MAX_WAKEUP_TIME. rewrite u32_small by (unfold in_u32; lia).
    rewrite (proj2 (Z.ltb_ge _ _)) by lia. cbv zeta.
    assert (g_pwr (_gps_temporary_start g) = GpsPwr 0 (sleep_postpone (g_pwr g)) true true) as E.
    { unfold _gps_temporary_start. rewrite Hs. cbn [negb]. cbv zeta.
      by destruct (gps_pwr_on_state (g_pwr g)) eqn:Eo. }
    rewrite E. cbn [sleep_postpone sleep_tmr sleep_mode gps_pwr_on_state].
    destruct (Z.ltb_spec (sleep_postpone (g_pwr g)) (seconds * 10)).
    - cbn [set_pwr g_pwr]. rewrite u16_small by (unfold in_u16; lia). by exists (seconds * 10).
    - rewrite E. by exists (sleep_postpone (g_pwr g)). }
  clearbody g1. clear Hs Hp.
  assert (∀ j, Z.of_nat j ≤ p → g_pwr (gps_ticks j g1) = GpsPwr 0 (p - Z.of_nat j) true true) as Hpost.
  { induction j as [|j IH]; intros Hj; [by rewrite Z.sub_0_r|].
    change (gps_ticks (S j) g1) with (gps_tick (gps_ticks j g1)). specialize (IH ltac:(lia)).
    rewrite tick_postponed; rewrite IH; cbn [sleep_mode sleep_postpone sleep_tmr]; try done; [f_equal|]; lia. }
  destruct (decide (Z.of_nat k ≤ p)) as [Hle|Hgt]; [by rewrite Hpost|].
  replace k with ((k - Z.to_nat p) + Z.to_nat p)%nat by lia.
  unfold gps_ticks. rewrite Nat.iter_add. fold (gps_ticks (Z.to_nat p) g1).
  fold (gps_ticks (k - Z.to_nat p) (gps_ticks (Z.to_nat p) g1)).
  assert (g_pwr (gps_ticks (Z.to_nat p) g1) = GpsPwr 0 0 true true) as E2
    by (rewrite Hpost by lia; f_equal; lia).
  rewrite ticks_counting; rewrite E2; cbn [sleep_mode sleep_postpone sleep_tmr gps_pwr_on_state];
    unfold SLEEP_WAKEUP, SLEEP_TIMEOUT; try done; try lia.
  by rewrite (proj2 (Z.leb_gt (3 * 60 * 10) _)) by lia.
Qed.

(** ** A line without a checksum *)

Section unchecked.
Context `{G : GpsLib}.

(** A line that ends before its checksum is compared with the
    checksum of the line before it: when the two agree, as they do for a line
    that repeats the last one, the parser gets a line nobody has checked. *)
Theorem gps_accepts_line_without_checksum now body g :
  Forall (λ c, ordinary c ∧ c ≠ 42) body → (S (length body) < gps_room)%nat →
  rx_chsum (g_rx g) = xor8 36 (36 :: body) →
  gps_task now (36 :: body ++ [13]) g =
    gps_data_parser now (36 :: body)
      (Gps (GpsRx GPS_RX_IDLE (xor8 36 (36 :: body)) (xor8 36 (36 :: body)) []) (g_pos g) (g_pwr g)).
Proof.
  intros Hb Hl Hc. set (ch := xor8 36 (36 :: body)) in *.
  assert (gps_task now (36 :: body ++ [13]) g = gps_task now (body ++ [13]) (gps_task1 now g 36)) as -> by done.
  assert (gps_task1 now g 36 = Gps (GpsRx GPS_RX_DATA 0 ch [36]) (g_pos g) (g_pwr g)) as ->.
  { unfold gps_task1, gps_rx_char. change ((36 =? 10) || (36 =? 13)) with false.
    change (36 =? 36) with true. cbv iota zeta. cbn [rx_state chsum rx_chsum gps_buf length].
    change (36 =? 42) with false. change (36 =? 0) with false. cbv iota. cbn [rx_state chsum rx_chsum gps_buf length].
    rewrite Hc. rewrite (proj2 (Nat.ltb_lt _ _)) by lia. reflexivity. }
  rewrite gps_task_app, rx_body by (done || (cbn [length]; lia)).
  change (xor8 0 body) with ch. unfold gps_task. cbn [foldl]. unfold gps_task1. cbn [g_rx].
  unfold gps_rx_char. change ((13 =? 10) || (13 =? 13)) with true. cbv iota zeta.
  cbn [rx_state chsum rx_chsum gps_buf]. change (0 =? 42) with false. change (0 =? 0) with true. cbv iota.
  cbn [rx_state chsum rx_chsum gps_buf]. rewrite Z.lxor_0_r.
  rewrite (u8_small ch) by (apply xor8_range; unfold in_u8; lia).
  rewrite (proj2 (Nat.ltb_lt _ _)) by (cbn [length app]; lia). cbn [negb].
  by rewrite Z.eqb_refl.
Qed.

End unchecked.

(** ** Witnesses *)

Definition hex_value (c : Z) : Z := if is_digit c then c - 48 else to_upper c - 55.

#[export] Instance demo_gps : GpsLib := {|
  stricmp2 s p := if bool_decide (take (length p) (to_lower <$> s) = to_lower <$> p) then 0 else 1;
  ascii_to_hex := hex_value;
  gps_room := 127%nat
|}.

#[export] Instance demo_gps_spec : GpsSpec demo_gps.
Proof.
  split; cbn.
  - intros s p. case_bool_decide as H; split; try done.
    + intros _. exists (drop (length p) (to_lower <$> s)). by rewrite <- H, take_drop.
    + intros [k Hk]. destruct H. rewrite Hk. apply take_app_length'. by rewrite length_fmap.
  - intros v Hv. unfold hex_digit, hex_value, is_digit, to_upper, is_lower.
    repeat case_if; lia.
Qed.

Definition boot_gps : gps :=
  Gps (GpsRx GPS_RX_IDLE 0 0 [])
    (GpsPos nmea_zero nmea_zero nmea_zero 0 0 0 false 0 0 false 0 false)
    (GpsPwr 0 0 true true).

Definition demo_gga : list Z :=
  36 :: 71 :: 80 ::
    fields [str "GGA"; str "132321"; angle_text 2 50 43 7892; hemisphere false 78 83; angle_text 3 15 10 6098;
            hemisphere false 69 87; print_dec 1; print_dec 6; print_dec 2]
      (print_dec 553 ++ str ",M,44.6,M,,").

Definition ordinary_b (c : Z) : bool :=
  (0 <? c) && (c <? 256) && negb (c =? 10) && negb (c =? 13) && negb (c =? 36) && negb (c =? 42).

Lemma ordinary_check body :
  forallb ordinary_b body = true → Forall (λ c, ordinary c ∧ c ≠ 42) body.
Proof.
  intros H. apply Forall_forall. intros c Hc.
  pose proof (proj1 (forallb_forall _ _) H c (proj1 (list_elem_of_In _ _) Hc)) as Ho.
  unfold ordinary_b in Ho. bool_hyps. unfold ordinary, in_u8. lia.
Qed.

Lemma sendable_check body :
  forallb ordinary_b body = true → (length body <? 123)%nat = true → sendable (36 :: body).
Proof.
  intros H Hl%Nat.ltb_lt. exists body. split; [done|]. split; [by apply ordinary_check|].
  cbn [length gps_room demo_gps]. lia.
Qed.

Lemma nmea_parse_gga_position_witness :
  nmea_parse_gga nmea_zero (drop 3 demo_gga) =
    (true, NmeaData 5463658 18262735 0 0 2 553 1 6 rtc_zero).
Proof.
  exact (nmea_parse_gga_position nmea_zero (str "GGA") (str "132321") false 50 43 7892 false 15 10 6098
    1 6 2 553 (str ",M,44.6,M,,") ltac:(by repeat constructor) ltac:(by repeat constructor)
    ltac:(lia) ltac:(lia) ltac:(lia) ltac:(lia) ltac:(lia) ltac:(lia)
    ltac:(unfold in_u8; lia) ltac:(unfold in_u8; lia) ltac:(unfold in_u8; lia) ltac:(lia) eq_refl).
Defined.

Lemma gps_send_text_received_witness :
  sendable (str "$PMTK838,1") ∧
  gps_task 7 (gps_send_text (str "$PMTK838,1")) boot_gps = line_received 7 (str "$PMTK838,1") boot_gps.
Proof.
  assert (sendable (str "$PMTK838,1")) as H by (apply sendable_check; reflexivity).
  split; [exact H|]. exact (proj1 (gps_send_text_received 7 _ boot_gps H eq_refl)).
Defined.


Lemma gps_position_in_range_witness :
  stamps_ok (g_pos (foldl gps_do boot_gps
    [OpStart 600; OpRx 5 (gps_send_text (str "$GPGGA,1,9999.9999,N,99999.9999,E,1,1,1,1")); OpTick])).
Proof. apply gps_position_in_range. split; reflexivity. Defined.

Lemma gps_sleep_cycle_witness :
  gps_pwr_on_state (g_pwr (gps_ticks 1800 boot_gps)) = false.
Proof.
  destruct (gps_sleep_cycle 1800 boot_gps) as [H _];
    [reflexivity|reflexivity|vm_compute; discriminate|vm_compute; discriminate|].
  rewrite H. vm_compute. reflexivity.
Defined.

Lemma gps_temporary_start_keeps_on_witness :
  gps_pwr_on_state (g_pwr (gps_ticks 1000 (gps_temporary_start_tmout 60 boot_gps))) = true.
Proof.
  apply (gps_temporary_start_keeps_on 60 1000 boot_gps); [reflexivity|vm_compute; discriminate| |].
  - split; vm_compute; discriminate.
  - vm_compute. reflexivity.
Defined.

Definition demo_body : list Z := str "GPGSV,3,1,12".
Definition repeated_gps : gps := gps_task 0 (gps_send_text (36 :: demo_body)) boot_gps.

Lemma gps_accepts_line_without_checksum_witness :
  gps_task 0 (36 :: demo_body ++ [13]) repeated_gps =
    gps_data_parser 0 (36 :: demo_body)
      (Gps (GpsRx GPS_RX_IDLE (xor8 36 (36 :: demo_body)) (xor8 36 (36 :: demo_body)) [])
         (g_pos repeated_gps) (g_pwr repeated_gps)).
Proof.
  apply (gps_accepts_line_without_checksum 0 demo_body repeated_gps).
  - apply ordinary_check. vm_compute. reflexivity.
  - vm_compute. repeat constructor.
  - vm_compute. reflexivity.
Defined.
