(* ===== verification/MultiSms.v ===== *)
(** * Long text messages (modem/multi_sms.c, the segmentation of modem/modem_sms.c)

    A long message is cut into numbered parts; received parts wait in ten slots
    until the last one is there and the message is joined. *)

From S2P Require Import Prelude CText.

(** ** The slots *)

(** src/modem/multi_sms.c:8-14 (msms_t) *)
Record msms_t := Msms {
  buffer : option (list Z);    (* None: NULL *)
  order_num : Z;
  total : Z;
  ms_id : Z;
  ms_len : Z                   (* 0: the slot is empty *)
}.

(** src/modem/multi_sms.h:6-6 (MSMS_BUF_LEN) *)
Definition MSMS_BUF_LEN : nat := 10.

(** src/modem/multi_sms.h:8-12 (MS_SMS_ERROR .. MS_SMS_DONE) *)
Inductive ms_result := MS_SMS_ERROR | MS_SMS_WAIT | MS_SMS_DONE.

Definition slot_empty (s : msms_t) : bool := ms_len s =? 0.

(** Frees the buffer and marks the slot empty. *)
Definition slot_clear (s : msms_t) : msms_t := Msms None (order_num s) (total s) (ms_id s) 0.

(** The first slot a test accepts. *)
Fixpoint find_slot (P : msms_t → bool) (l : list msms_t) : option nat :=
  match l with
  | [] => None
  | s :: l => if P s then Some 0%nat else S <$> find_slot P l
  end.

(** src/modem/multi_sms.c:18-28 (ms_init) *)
Definition ms_init (msms : list msms_t) : list msms_t := slot_clear <$> msms.

(** src/modem/multi_sms.c:30-68 (ms_get_free_buf) *)
Definition ms_get_free_buf (id : Z) (msms : list msms_t) : option nat * list msms_t :=
  match find_slot slot_empty msms with
  | Some i => (Some i, msms)
  | None =>
      let msms := (λ s, if negb (ms_id s =? id) then slot_clear s else s) <$> msms in
      (find_slot slot_empty msms, msms)
  end.

(** src/modem/multi_sms.c:70-83 (ms_find_in_buf) *)
Definition ms_find_in_buf (id order : Z) (msms : list msms_t) : option nat :=
  find_slot (λ s, (ms_id s =? id) && (order_num s =? order)
                  && bool_decide (is_Some (buffer s))) msms.

(** The text is [len] characters long and followed by its NUL. *)
(** src/modem/multi_sms.c:85-118 (ms_incomming) *)
Definition ms_incomming (text : list Z) (id order total : Z) (msms : list msms_t)
    : ms_result * list msms_t :=
  let len := Z.of_nat (length text) in
  match ms_get_free_buf id msms with
  | (None, msms) => (MS_SMS_ERROR, msms)
  | (Some i, msms) =>
      if 160 <? len then (MS_SMS_ERROR, msms)
      else
        let msms := <[i := Msms (Some text) order total id (u8 len)]> msms in
        (if forallb (λ k, bool_decide (is_Some (ms_find_in_buf id k msms))) (seqZ 1 total)
         then MS_SMS_DONE else MS_SMS_WAIT, msms)
  end.

(** The space needed and the number of parts. *)
(** src/modem/multi_sms.c:130-140 (ms_get) *)
Definition ms_space (id : Z) (msms : list msms_t) : Z * Z :=
  foldl (λ '(len, num) s,
           if negb (ms_len s =? 0) && (ms_id s =? id) then (u16 (len + ms_len s), total s)
           else (len, num)) (0, 0) msms.

(** The parts joined, with the assertion on the space after each; [None] when
    one is missing. *)
(** src/modem/multi_sms.c:160-173 (ms_get) *)
Fixpoint ms_join (orders : list Z) (id len : Z) (msms : list msms_t) (dest : list Z)
    : outcome (option (list Z)) :=
  match orders with
  | [] => Ok (Some dest)
  | i :: orders =>
      match ms_find_in_buf id i msms with
      | None => Ok None
      | Some mem =>
          match msms !! mem with
          | None => Err FBounds
          | Some s =>
              let dest := dest ++ take (Z.to_nat (ms_len s)) (default [] (buffer s)) in
              _ ← os_assert (Z.of_nat (length dest) <=? len);
              ms_join orders id len msms dest
          end
      end
  end.

(** The length and the text. *)
(** src/modem/multi_sms.c:120-177 (ms_get) *)
Definition ms_get (id : Z) (msms : list msms_t) : outcome (Z * option (list Z)) :=
  let '(len, num) := ms_space id msms in
  if len =? 0 then Ok (0, None)
  else
    text ← ms_join (seqZ 1 num) id len msms [];
    Ok (match text with Some t => (len, Some t) | None => (0, None) end).

(** src/modem/multi_sms.c:179-193 (ms_delete) *)
Definition ms_delete (id : Z) (msms : list msms_t) : list msms_t :=
  (λ s, if ms_id s =? id then Msms None 0 (total s) 0 0 else s) <$> msms.

(** ** Segmentation *)

(** The codings of a text in a message (the SDK's [PDU_TYPE_...]). *)
Inductive pdu_coding := PDU_TYPE_TEXT7 | PDU_TYPE_TEXT8 | PDU_TYPE_UCS2.

(** The characters of one part, for a message of [len] characters. *)
(** src/modem/modem_sms.c:135-167 (modem_sms_send_now) *)
Definition max_sms_len (type : pdu_coding) (len : Z) : Z :=
  match type with
  | PDU_TYPE_TEXT7 => if 160 <? len then 153 else 160
  | PDU_TYPE_TEXT8 => if 140 <? len then 134 else 140
  | PDU_TYPE_UCS2 => if 70 <? len then 67 else 70
  end.

(** Bytes of a character: UCS-2 texts are copied two bytes at a time. *)
Definition char_size (type : pdu_coding) : Z := match type with PDU_TYPE_UCS2 => 2 | _ => 1 end.

(** src/modem/modem_sms.c:84-99 (_memncpy) *)
Definition _memncpy (src : list Z) (len limit : Z) : list Z := take (Z.to_nat (Z.min len limit)) src.

(** How many parts; [fuel] bounds the passes, one per part at least. *)
(** src/modem/modem_sms.c:173-181 (modem_sms_send_now) *)
Fixpoint count_parts (fuel : nat) (m len sms_len : Z) : Z :=
  match fuel with
  | O => 0
  | S fuel => if len <? sms_len then 1 + count_parts fuel m (len + m) sms_len else 0
  end.
(** src/modem/modem_sms.c:173-181 (modem_sms_send_now) *)
Definition pdu_count (type : pdu_coding) (len : Z) : Z :=
  let count := count_parts (Z.to_nat len) (max_sms_len type len) 0 len in
  if count =? 0 then 1 else count.

(** The parts from the [i]-th on: number and content. *)
(** src/modem/modem_sms.c:183-212 (modem_sms_send_now) *)
Fixpoint sms_parts (n : nat) (type : pdu_coding) (m i len : Z) (data : list Z) : list (Z * list Z) :=
  match n with
  | O => []
  | S n =>
      let content := _memncpy data (len * char_size type) (m * char_size type) in
      let size := Z.of_nat (length content) in
      (i, content) :: sms_parts n type m (i + 1) (len - size / char_size type) (drop (length content) data)
  end.

(** src/modem/modem_sms.c:173-212 (modem_sms_send_now) *)
Definition sms_segments (type : pdu_coding) (len : Z) (data : list Z) : list (Z * list Z) :=
  sms_parts (Z.to_nat (pdu_count type len)) type (max_sms_len type len) 1 len data.

(** ** The parts that wait *)

(** Identifier, number, number of parts, text. *)
Definition part : Type := Z * Z * Z * list Z.

Definition slot_part (s : msms_t) : option part :=
  match buffer s with
  | Some t => Some (ms_id s, order_num s, total s, t)
  | None => None
  end.
Definition contents (l : list msms_t) : list part := omap slot_part l.

Definition slot_ok (s : msms_t) : Prop :=
  match buffer s with
  | Some t => ms_len s = Z.of_nat (length t) ∧ 0 < ms_len s ≤ 160
  | None => ms_len s = 0
  end.
Definition slots_ok (l : list msms_t) : Prop := length l = MSMS_BUF_LEN ∧ Forall slot_ok l.

Lemma find_slot_Some P l i : find_slot P l = Some i → ∃ s, l !! i = Some s ∧ P s = true.
Proof.
  revert i. induction l as [|s l IH]; intros i; [done|]. cbn. destruct (P s) eqn:E.
  - intros [= <-]. by exists s.
  - destruct (find_slot P l) as [j|]; [|done]. intros [= <-]. by apply (IH j).
Qed.

Lemma find_slot_None P l : find_slot P l = None → Forall (λ s, P s = false) l.
Proof.
  induction l as [|s l IH]; [done|]. cbn. destruct (P s) eqn:E; [done|].
  destruct (find_slot P l); [done|]. intros _. constructor; [done|by apply IH].
Qed.

Lemma slot_lookup_ok l i s : slots_ok l → l !! i = Some s → slot_ok s.
Proof. intros [_ H] Hi. by eapply Forall_lookup_1. Qed.

Lemma contents_full l : Forall (λ s, is_Some (buffer s)) l → length (contents l) = length l.
Proof.
  induction 1 as [|s l [t Ht] _ IH]; [done|]. unfold contents in *. cbn. unfold slot_part at 1.
  rewrite Ht. cbn. by rewrite IH.
Qed.

Lemma find_empty l :
  slots_ok l → (length (contents l) < MSMS_BUF_LEN)%nat →
  ∃ i s, find_slot slot_empty l = Some i ∧ l !! i = Some s ∧ buffer s = None.
Proof.
  intros Hl Hc. destruct (find_slot slot_empty l) as [i|] eqn:E.
  - destruct (find_slot_Some _ _ _ E) as (s & Hs & He). exists i, s. split; [done|]. split; [done|].
    pose proof (slot_lookup_ok _ _ _ Hl Hs) as Hok. unfold slot_ok, slot_empty in *. bool_hyps.
    destruct (buffer s); [lia|done].
  - apply find_slot_None in E. assert (Forall (λ s, is_Some (buffer s)) l) as Hf.
    { destruct Hl as [_ Hok]. apply Forall_forall. intros s Hs.
      pose proof (proj1 (Forall_forall _ _) E s Hs) as H1. pose proof (proj1 (Forall_forall _ _) Hok s Hs) as H2.
      unfold slot_ok, slot_empty in *. cbn in H1. bool_hyps. destruct (buffer s); [by eexists|done]. }
    rewrite (contents_full _ Hf) in Hc. destruct Hl. lia.
Qed.

Lemma contents_fill l i s s' p :
  l !! i = Some s → buffer s = None → slot_part s' = Some p →
  contents (<[i := s']> l) ≡ₚ p :: contents l.
Proof.
  revert i. induction l as [|x l IH]; intros [|i] Hi Hb Hp; [done|done| |].
  - injection Hi as ->. unfold contents. cbn. rewrite Hp. unfold slot_part at 2. by rewrite Hb.
  - cbn in Hi. specialize (IH i Hi Hb Hp). unfold contents in *. cbn.
    destruct (slot_part x); [|done]. rewrite IH. apply Permutation_swap.
Qed.

Lemma contents_elem l id k tot t :
  (id, k, tot, t) ∈ contents l ↔
  ∃ i s, l !! i = Some s ∧ buffer s = Some t ∧ ms_id s = id ∧ order_num s = k ∧ total s = tot.
Proof.
  unfold contents. rewrite list_elem_of_omap. split.
  - intros (s & [i Hi]%list_elem_of_lookup_1 & Hp). unfold slot_part in Hp.
    destruct (buffer s) as [t'|] eqn:E; [|done]. injection Hp as <- <- <- <-. by exists i, s.
  - intros (i & s & Hi & Hb & <- & <- & <-). exists s. split; [by eapply list_elem_of_lookup_2|].
    unfold slot_part. by rewrite Hb.
Qed.

Lemma find_in_buf_spec id k l :
  match ms_find_in_buf id k l with
  | Some i => ∃ s t, l !! i = Some s ∧ buffer s = Some t ∧ (id, k, total s, t) ∈ contents l
  | None => ∀ tot t, (id, k, tot, t) ∉ contents l
  end.
Proof.
  unfold ms_find_in_buf. destruct (find_slot _ l) as [i|] eqn:E.
  - destruct (find_slot_Some _ _ _ E) as (s & Hs & Hp).
    apply andb_prop in Hp as [Hp [t Ht]%bool_decide_eq_true_1]. bool_hyps.
    exists s, t. split; [done|]. split; [done|]. apply contents_elem. by exists i, s.
  - apply find_slot_None in E. intros tot t Hin.
    apply contents_elem in Hin as (i & s & Hi & Hb & <- & <- & <-).
    pose proof (Forall_lookup_1 _ _ _ _ E Hi) as H. cbn in H.
    rewrite !Z.eqb_refl in H. cbn in H. apply bool_decide_eq_false_1 in H. apply H. by eexists.
Qed.

(** A part that arrives while there is room is kept, and completes the message
    when every number up to [tot] is there. *)
Lemma incomming_spec t id k tot l :
  slots_ok l → (length (contents l) < MSMS_BUF_LEN)%nat → 0 < Z.of_nat (length t) ≤ 160 →
  ∃ r l', ms_incomming t id k tot l = (r, l') ∧ slots_ok l' ∧
    contents l' ≡ₚ (id, k, tot, t) :: contents l ∧ r ≠ MS_SMS_ERROR ∧
    (r = MS_SMS_DONE ↔ ∀ j, 1 ≤ j ≤ tot → ∃ tot' t', (id, j, tot', t') ∈ contents l').
Proof.
  intros Hl Hc Ht. destruct (find_empty l Hl Hc) as (i & s & Hf & Hi & Hb).
  unfold ms_incomming, ms_get_free_buf. rewrite Hf.
  rewrite (proj2 (Z.ltb_ge 160 _)), u8_small by (unfold in_u8; lia). cbv zeta.
  set (s' := Msms _ _ _ _ _). set (l' := <[i := s']> l).
  eexists _, l'. split; [reflexivity|]. split; [|split; [|split]].
  - destruct Hl as [Hl1 Hl2]. split; [by rewrite <- Hl1; apply length_insert|].
    apply Forall_insert; [done|]. cbn. lia.
  - by apply (contents_fill l i s).
  - by destruct (forallb _ _).
  - destruct (forallb _ _) eqn:E.
    + split; [|done]. intros _ j Hj. rewrite forallb_forall in E.
      specialize (E j (proj1 (list_elem_of_In _ _) (proj2 (elem_of_seqZ 1 tot j) ltac:(lia)))).
      apply bool_decide_eq_true_1 in E as [m Hm]. pose proof (find_in_buf_spec id j l') as H.
      rewrite Hm in H. destruct H as (s1 & t1 & _ & _ & H). by eexists _, _.
    + split; [done|]. intros H. exfalso. apply not_true_iff_false in E. apply E.
      apply forallb_forall. intros j Hj%list_elem_of_In%elem_of_seqZ. apply bool_decide_eq_true_2.
      destruct (H j ltac:(lia)) as (tot' & t' & Hin). pose proof (find_in_buf_spec id j l') as Hf'.
      destruct (ms_find_in_buf id j l'); [by eexists|]. by destruct (Hf' tot' t').
Qed.

(** ** Joining *)

(** The parts of a message, numbered from 1. *)
Definition numbered (id : Z) (ps : list (list Z)) : list part :=
  imap (λ k t, (id, Z.of_nat k + 1, Z.of_nat (length ps), t)) ps.

Definition part_id (p : part) : Z := p.1.1.1.
Definition part_total (p : part) : Z := p.1.2.

Definition text_size (id : Z) (p : part) : nat := if part_id p =? id then length p.2 else 0%nat.

Lemma numbered_elem id ps k tot t :
  (id, k, tot, t) ∈ numbered id ps ↔
  1 ≤ k ∧ tot = Z.of_nat (length ps) ∧ ps !! Z.to_nat (k - 1) = Some t.
Proof.
  unfold numbered. rewrite elem_of_lookup_imap. split.
  - intros (i & x & [= -> -> ->] & Hx). split; [lia|]. split; [done|].
    by replace (Z.to_nat (Z.of_nat i + 1 - 1)) with i by lia.
  - intros (H1 & -> & H2). exists (Z.to_nat (k - 1)), t. split; [|done]. repeat f_equal. lia.
Qed.

Lemma imap_sizes {A} (f : nat → list Z → A) (g : A → nat) ps :
  (∀ k t, g (f k t) = length t) → sum_list_with g (imap f ps) = length (concat ps).
Proof.
  revert f. induction ps as [|t ps IH]; intros f Hf; [done|]. cbn.
  rewrite Hf, length_app, (IH (f ∘ S)); [done|]. intros k x. apply Hf.
Qed.

Lemma others_size id P : Forall (λ p, part_id p ≠ id) P → sum_list_with (text_size id) P = 0%nat.
Proof.
  induction 1 as [|p P Hp _ IH]; [done|]. cbn. rewrite IH. unfold text_size.
  by rewrite (proj2 (Z.eqb_neq _ _) Hp).
Qed.

Lemma contents_cons s l :
  contents (s :: l) =
    match buffer s with
    | Some t => (ms_id s, order_num s, total s, t) :: contents l
    | None => contents l
    end.
Proof. unfold contents. cbn. unfold slot_part at 1. by destruct (buffer s). Qed.

Lemma ms_space_spec id n l a b :
  Forall slot_ok l → Forall (λ p, part_id p = id → part_total p = n) (contents l) →
  0 ≤ a → a + Z.of_nat (sum_list_with (text_size id) (contents l)) < 65536 →
  foldl (λ '(len, num) s,
           if negb (ms_len s =? 0) && (ms_id s =? id) then (u16 (len + ms_len s), total s)
           else (len, num)) (a, b) l =
  (a + Z.of_nat (sum_list_with (text_size id) (contents l)),
   if bool_decide (Exists (λ p, part_id p = id) (contents l)) then n else b).
Proof.
  intros Hl. revert a b. induction Hl as [|s l Hs Hl IH]; intros a b Ht Ha Hsum.
  - cbn. by rewrite Z.add_0_r.
  - cbn [foldl]. rewrite contents_cons in *. unfold slot_ok in Hs. destruct (buffer s) as [t|] eqn:Eb.
    + destruct Hs as [Hs1 Hs2]. rewrite Hs1 in Hs2 |- *.
      rewrite (proj2 (Z.eqb_neq (Z.of_nat (length t)) 0)) by lia. cbn [negb andb].
      inversion Ht as [|? ? Hp Ht']; subst. cbn [sum_list_with] in *. unfold text_size in Hsum at 1.
      unfold text_size at 1. cbn [part_id fst snd] in *.
      destruct (Z.eqb_spec (ms_id s) id) as [E|E].
      * rewrite u16_small by (unfold in_u16; lia). rewrite IH by (done || lia).
        rewrite (Hp E : total s = n), (bool_decide_eq_true_2 (Exists _ (_ :: _))) by (by left).
        f_equal; [lia|]. by destruct (bool_decide _).
      * rewrite IH by (done || lia). f_equal.
        assert (bool_decide (Exists (λ p, part_id p = id) (contents l)) =
          bool_decide (Exists (λ p, part_id p = id) ((ms_id s, order_num s, total s, t) :: contents l))) as ->;
          [|done].
        apply bool_decide_ext. rewrite Exists_cons. unfold part_id at 3. cbn. tauto.
    + rewrite Hs. change (0 =? 0) with true. cbn [andb negb]. by apply IH.
Qed.

Lemma join_spec id l ps P k m :
  slots_ok l → contents l ≡ₚ numbered id ps ++ P → Forall (λ p, part_id p ≠ id) P →
  (k + m)%nat = length ps →
  ms_join (seqZ (Z.of_nat k + 1) (Z.of_nat m)) id (Z.of_nat (length (concat ps))) l (concat (take k ps))
    = Ok (Some (concat ps)).
Proof.
  intros Hl Hc HP. revert k. induction m as [|m IH]; intros k Hkm.
  - cbn. by rewrite take_ge by lia.
  - rewrite seqZ_cons by lia. cbn [ms_join].
    assert (∀ tot t, (id, Z.of_nat k + 1, tot, t) ∈ contents l ↔ tot = Z.of_nat (length ps) ∧ ps !! k = Some t) as Hin.
    { intros tot t. rewrite Hc, elem_of_app, numbered_elem.
      replace (Z.to_nat (Z.of_nat k + 1 - 1)) with k by lia. split.
      - intros [(_ & H1 & H2)|H]; [done|]. rewrite Forall_forall in HP. by destruct (HP _ H).
      - intros [H1 H2]. left. split; [lia|done]. }
    destruct (lookup_lt_is_Some_2 ps k) as [t Ht]; [lia|].
    pose proof (find_in_buf_spec id (Z.of_nat k + 1) l) as Hf.
    destruct (ms_find_in_buf _ _ l) as [i|]; [|by destruct (Hf (Z.of_nat (length ps)) t); apply Hin].
    destruct Hf as (s & t' & Hi & Hb & Hp). apply Hin in Hp as [_ Hp].
    assert (t' = t) as -> by congruence. rewrite Hi, Hb.
    pose proof (slot_lookup_ok _ _ _ Hl Hi) as Hok. unfold slot_ok in Hok. rewrite Hb in Hok.
    destruct Hok as [-> _]. rewrite Nat2Z.id. change (default [] (Some t)) with t. rewrite (take_ge t) by lia. cbv zeta.
    assert (concat (take k ps) ++ t = concat (take (S k) ps)) as ->.
    { rewrite (take_S_r ps k t) by done. rewrite concat_app. cbn. by rewrite app_nil_r. }
    rewrite (proj2 (Z.leb_le _ _)).
    2:{ rewrite <- (take_drop (S k) ps) at 2. rewrite concat_app, length_app. lia. }
    cbn [os_assert mbind outcome_bind].
    replace (Z.succ (Z.of_nat k + 1)) with (Z.of_nat (S k) + 1) by lia.
    replace (Z.pred (Z.of_nat (S m))) with (Z.of_nat m) by lia. apply IH. lia.
Qed.

Lemma ms_get_spec id l ps P :
  slots_ok l → contents l ≡ₚ numbered id ps ++ P → Forall (λ p, part_id p ≠ id) P →
  ps ≠ [] → 0 < Z.of_nat (length (concat ps)) < 65536 →
  ms_get id l = Ok (Z.of_nat (length (concat ps)), Some (concat ps)).
Proof.
  intros Hl Hc HP Hne Hlen. unfold ms_get, ms_space.
  assert (sum_list_with (text_size id) (contents l) = length (concat ps)) as Hsum.
  { rewrite Hc, sum_list_with_app, (others_size id P) by done. unfold numbered.
    rewrite imap_sizes; [lia|]. intros k t. unfold text_size. cbn. by rewrite Z.eqb_refl. }
  rewrite (ms_space_spec id (Z.of_nat (length ps))); [|apply Hl| |done|lia].
  2:{ rewrite Hc. apply Forall_app. split.
      - apply Forall_forall. intros [[[i k] tot] t] Hp Hi. cbn in Hi. subst i. by apply numbered_elem in Hp as (_ & -> & _).
      - eapply Forall_impl; [exact HP|]. cbn. intros p H1 H2. by destruct H1. }
  rewrite Hsum, Z.add_0_l. rewrite bool_decide_eq_true_2.
  2:{ rewrite Hc. apply Exists_app. left. destruct ps as [|t ps]; [done|]. by left. }
  rewrite (proj2 (Z.eqb_neq _ 0)) by lia.
  pose proof (join_spec id l ps P 0 (length ps) Hl Hc HP eq_refl) as E. cbn [take concat] in E.
  change (Z.of_nat 0 + 1) with 1 in E. change (concat (take 0 ps)) with (@nil Z) in E. by rewrite E.
Qed.

Lemma filter_none {A} (Q : A → Prop) `{!∀ x, Decision (Q x)} l : Forall (λ x, ¬ Q x) l → filter Q l = [].
Proof. induction 1 as [|x l Hx _ IH]; [done|]. by rewrite filter_cons_False. Qed.

Lemma filter_every {A} (Q : A → Prop) `{!∀ x, Decision (Q x)} l : Forall Q l → filter Q l = l.
Proof. induction 1 as [|x l Hx _ IH]; [done|]. rewrite filter_cons_True by done. by rewrite IH. Qed.

Lemma delete_spec id l P ps :
  slots_ok l → contents l ≡ₚ numbered id ps ++ P → Forall (λ p, part_id p ≠ id) P →
  contents (ms_delete id l) ≡ₚ P ∧ slots_ok (ms_delete id l).
Proof.
  intros [Hl1 Hl2] Hc HP. split.
  - assert (contents (ms_delete id l) = filter (λ p, part_id p ≠ id) (contents l)) as ->.
    { clear. induction l as [|s l IH]; [done|].
      change (ms_delete id (s :: l)) with
        ((if ms_id s =? id then Msms None 0 (total s) 0 0 else s) :: ms_delete id l).
      rewrite !contents_cons, IH. destruct (Z.eqb_spec (ms_id s) id) as [E|E]; cbn [buffer].
      - destruct (buffer s); [|done]. rewrite filter_cons_False; [done|]. unfold part_id. cbn. tauto.
      - destruct (buffer s); [|done]. by rewrite filter_cons_True by done. }
    rewrite Hc, filter_app.
    assert (filter (λ p, part_id p ≠ id) (numbered id ps) = []) as ->.
    { apply filter_none, Forall_forall. intros [[[i k] tot] t] Hp Hi. apply Hi.
      unfold numbered in Hp. apply elem_of_lookup_imap in Hp as (j & x & [= -> _ _ _] & _). done. }
    cbn. by rewrite filter_every.
  - split; [unfold ms_delete; by rewrite length_fmap|]. unfold ms_delete. apply Forall_fmap.
    eapply Forall_impl; [exact Hl2|]. intros s Hs. unfold compose. cbn. by destruct (ms_id s =? id).
Qed.

(** ** A message in any order *)

(** Receives parts (number and text) of one message, with the results. *)
Fixpoint receive (id tot : Z) (ps : list (Z * list Z)) (l : list msms_t) : list ms_result * list msms_t :=
  match ps with
  | [] => ([], l)
  | (k, t) :: ps =>
      let '(r, l) := ms_incomming t id k tot l in
      let '(rs, l) := receive id tot ps l in
      (r :: rs, l)
  end.

(** Parts numbered from 1. *)
Definition indexed (ps : list (list Z)) : list (Z * list Z) := imap (λ k t, (Z.of_nat k + 1, t)) ps.

Definition tagged (id tot : Z) (ps : list (Z * list Z)) : list part := (λ x, (id, x.1, tot, x.2)) <$> ps.

Lemma tagged_indexed id ps : tagged id (Z.of_nat (length ps)) (indexed ps) = numbered id ps.
Proof.
  unfold tagged, indexed, numbered. apply list_eq. intros i.
  rewrite list_lookup_fmap, !list_lookup_imap. by destruct (ps !! i).
Qed.

Lemma receive_spec id tot ps l P :
  slots_ok l → contents l ≡ₚ P → (length P + length ps ≤ MSMS_BUF_LEN)%nat →
  Forall (λ x, 0 < Z.of_nat (length x.2) ≤ 160) ps →
  ∃ rs l', receive id tot ps l = (rs, l') ∧ slots_ok l' ∧ contents l' ≡ₚ tagged id tot ps ++ P ∧
    length rs = length ps ∧
    ∀ i r, rs !! i = Some r → r ≠ MS_SMS_ERROR ∧
      (r = MS_SMS_DONE ↔ ∀ j, 1 ≤ j ≤ tot →
         ∃ tot' t', (id, j, tot', t') ∈ tagged id tot (take (S i) ps) ++ P).
Proof.
  intros Hl HP Hlen Hps. revert l P Hl HP Hlen. induction Hps as [|[k t] ps Ht Hps IH]; intros l P Hl HP Hlen.
  - exists [], l. split; [done|]. split; [done|]. split; [done|]. split; [done|]. intros i r. by rewrite lookup_nil.
  - cbn [length snd] in *. destruct (incomming_spec t id k tot l) as (r & l1 & E & Hl1 & Hc1 & Hr & Hd);
      [done|rewrite HP; lia|done|].
    destruct (IH l1 ((id, k, tot, t) :: P)) as (rs & l2 & E2 & Hl2 & Hc2 & Hlr & Hres);
      [done|by rewrite Hc1, HP|cbn; lia|].
    cbn [receive]. rewrite E, E2. exists (r :: rs), l2. split; [done|]. split; [done|]. split; [|split].
    + rewrite Hc2. cbn. by rewrite Permutation_middle.
    + cbn. by rewrite Hlr.
    + intros [|i] r' Hi.
      * injection Hi as <-. split; [done|]. rewrite Hd. cbn [take tagged fmap list_fmap app fst snd].
        split; intros H j Hj; destruct (H j Hj) as (tot' & t' & Hin); exists tot', t';
          rewrite Hc1, HP in *; exact Hin.
      * cbn in Hi. destruct (Hres i r' Hi) as [H1 H2]. split; [done|]. rewrite H2.
        cbn [take tagged fmap list_fmap app fst snd].
        assert (∀ x : part, x ∈ tagged id tot (take (S i) ps) ++ (id, k, tot, t) :: P ↔
          x ∈ (id, k, tot, t) :: tagged id tot (take (S i) ps) ++ P) as Hx
          by (intros x; by rewrite Permutation_middle).
        split; intros H j Hj; destruct (H j Hj) as (tot' & t' & Hin); exists tot', t'; by apply Hx.
Qed.

Lemma ms_reassembles_lemma id ps order l P :
  slots_ok l → contents l ≡ₚ P → Forall (λ p, part_id p ≠ id) P →
  (length P + length ps ≤ MSMS_BUF_LEN)%nat → ps ≠ [] →
  Forall (λ t, 0 < Z.of_nat (length t) ≤ 160) ps →
  order ≡ₚ indexed ps →
  ∃ rs l', receive id (Z.of_nat (length ps)) order l = (rs, l') ∧
    (∀ i r, rs !! i = Some r → r = if decide (S i = length ps) then MS_SMS_DONE else MS_SMS_WAIT) ∧
    ms_get id l' = Ok (Z.of_nat (length (concat ps)), Some (concat ps)) ∧
    contents (ms_delete id l') ≡ₚ P.
Proof.
  intros Hl HP Hid Hlen Hne Hps Hord.
  assert (length order = length ps) as Hlo by (rewrite Hord; unfold indexed; apply length_imap).
  destruct (receive_spec id (Z.of_nat (length ps)) order l P) as (rs & l' & E & Hl' & Hc & Hlr & Hres); try done.
  { by rewrite Hlo. }
  { rewrite Hord. apply Forall_forall. intros [k t] Hin. unfold indexed in Hin.
    apply elem_of_lookup_imap in Hin as (i & x & [= -> ->] & Hx). cbn. by eapply Forall_lookup_1 in Hps. }
  assert (contents l' ≡ₚ numbered id ps ++ P) as Hc'.
  { rewrite Hc, <- tagged_indexed. unfold tagged. by rewrite Hord. }
  exists rs, l'. split; [done|]. split; [|split].
  - intros i r Hi. destruct (Hres i r Hi) as [H1 H2]. pose proof (lookup_lt_Some _ _ _ Hi) as Hlt.
    rewrite Hlr, Hlo in Hlt. case_decide as Hd.
    + apply H2. intros j Hj. rewrite take_ge by lia.
      destruct (lookup_lt_is_Some_2 ps (Z.to_nat (j - 1))) as [t Ht]; [lia|].
      exists (Z.of_nat (length ps)), t. rewrite <- Hc, Hc'. apply elem_of_app. left.
      apply numbered_elem. split; [lia|done].
    + destruct r; [done|done|]. exfalso. pose proof (proj1 H2 eq_refl) as Hall.
      (* i + 1 < n parts cannot carry n different numbers *)
      set (nums := fst <$> take (S i) order).
      assert (∀ j, 1 ≤ j ≤ Z.of_nat (length ps) → j ∈ nums) as Hin.
      { intros j Hj. destruct (Hall j Hj) as (tot' & t' & H). apply elem_of_app in H as [H|H].
        - apply list_elem_of_fmap in H as ([k t] & [= -> -> ->] & H). apply list_elem_of_fmap. by exists (k, t).
        - rewrite Forall_forall in Hid. by destruct (Hid _ H). }
      assert (seqZ 1 (Z.of_nat (length ps)) ⊆+ nums) as Hsub.
      { apply NoDup_submseteq; [apply NoDup_seqZ|]. intros j Hj%elem_of_seqZ. apply Hin. lia. }
      apply submseteq_length in Hsub. unfold nums in Hsub.
      rewrite length_seqZ, length_fmap, length_take in Hsub. lia.
  - eapply ms_get_spec; try done. clear -Hps Hne Hlen. unfold MSMS_BUF_LEN in Hlen.
    assert (length (concat ps) ≤ 160 * length ps)%nat.
    { clear -Hps. induction Hps as [|t ps Ht _ IH]; [done|]. cbn. rewrite length_app. lia. }
    destruct ps as [|t ps]; [done|]. inversion Hps; subst. cbn [concat] in *. rewrite length_app in *. lia.
  - by eapply delete_spec.
Qed.

(** The parts of a message, received in any order while the
    parts of other messages wait, make the message complete exactly with the
    last one, join to its text, and leave the other messages when it is
    deleted. *)
Theorem ms_reassembles id ps order l P :
  slots_ok l → contents l ≡ₚ P → Forall (λ p, part_id p ≠ id) P →
  (length P + length ps ≤ MSMS_BUF_LEN)%nat → ps ≠ [] →
  Forall (λ t, 0 < Z.of_nat (length t) ≤ 160) ps →
  order ≡ₚ indexed ps →
  ∃ rs l', receive id (Z.of_nat (length ps)) order l = (rs, l') ∧
    (∀ i r, rs !! i = Some r → r = if decide (S i = length ps) then MS_SMS_DONE else MS_SMS_WAIT) ∧
    ms_get id l' = Ok (Z.of_nat (length (concat ps)), Some (concat ps)) ∧
    contents (ms_delete id l') ≡ₚ P.
Proof. apply ms_reassembles_lemma. Qed.

(** ** From the text to its parts and back *)

Lemma count_parts_spec fuel m len sms_len :
  0 < m → sms_len - len ≤ Z.of_nat fuel →
  let c := count_parts fuel m len sms_len in
  0 ≤ c ∧ sms_len - len ≤ c * m ∧ (len < sms_len → (c - 1) * m < sms_len - len) ∧ (sms_len ≤ len → c = 0).
Proof.
  intros Hm. cbv zeta. revert len. induction fuel as [|fuel IH]; intros len Hf; cbn [count_parts]; [lia|].
  destruct (Z.ltb_spec len sms_len); [|lia].
  destruct (IH (len + m)) as (H1 & H2 & H3 & H4); [lia|].
  split; [lia|]. split; [lia|]. split; [|lia]. intros _.
  destruct (Z.ltb_spec (len + m) sms_len) as [Hl|Hl]; [specialize (H3 Hl); lia|rewrite (H4 Hl); lia].
Qed.

Lemma max_sms_len_ok type len : 0 < max_sms_len type len ∧ max_sms_len type len * char_size type ≤ 160.
Proof. unfold max_sms_len, char_size. destruct type; case_if; lia. Qed.

Lemma sms_parts_spec n type m i len data :
  0 < m → (Z.of_nat n - 1) * m < len ≤ Z.of_nat n * m → 0 ≤ len →
  Z.of_nat (length data) = len * char_size type →
  ∃ ps, sms_parts n type m i len data = imap (λ k t, (i + Z.of_nat k, t)) ps ∧ concat ps = data ∧
    length ps = n ∧ Forall (λ t, 0 < Z.of_nat (length t) ≤ m * char_size type) ps.
Proof.
  intros Hm. assert (1 ≤ char_size type) as Hc by (destruct type; cbn; lia).
  revert i len data. induction n as [|n IH]; intros i len data Hn H0 Hl.
  - exists []. assert (len = 0) as -> by lia. destruct data; [done|cbn in Hl; lia].
  - cbn [sms_parts]. cbv zeta. unfold _memncpy.
    replace (Z.min (len * char_size type) (m * char_size type)) with (Z.min len m * char_size type) by nia.
    assert (∃ c, Z.min len m = c ∧ 0 ≤ c ≤ len ∧ c ≤ m ∧ 0 < c ∧
      len - c ≤ Z.of_nat n * m ∧ (Z.of_nat n - 1) * m < len - c) as (c & -> & Hcr & Hcm & Hcp & Hn1 & Hn2).
    { exists (Z.min len m). split; [done|]. rewrite Nat2Z.inj_succ in Hn.
      replace (Z.succ (Z.of_nat n) - 1) with (Z.of_nat n) in Hn by lia. clear IH.
      destruct (Z.min_spec len m) as [[? ->]|[? ->]].
      - assert (n = 0%nat) as -> by nia. lia.
      - assert (0 ≤ Z.of_nat n * m) by nia. repeat split; nia. }
    set (t := take _ data). assert (Z.of_nat (length t) = c * char_size type) as Ht
      by (unfold t; rewrite length_take; nia).
    rewrite Ht, Z.div_mul by lia.
    destruct (IH (i + 1) (len - c) (drop (length t) data)) as (ps & E & Hcc & Hps & Hf).
    + lia.
    + lia.
    + rewrite length_drop. assert (c * char_size type ≤ len * char_size type) by nia.
      rewrite Z.mul_sub_distr_r. lia.
    + exists (t :: ps). rewrite E. split; [|split; [|split]].
      * cbn [imap]. rewrite Z.add_0_r. f_equal. apply imap_ext. intros k x _. cbn. f_equal. lia.
      * cbn. rewrite Hcc. unfold t at 2. rewrite length_take.
        unfold t. destruct (Nat.le_gt_cases (Z.to_nat (c * char_size type)) (length data)) as [H|H].
        -- rewrite Nat.min_l by done. apply take_drop.
        -- rewrite Nat.min_r by lia. rewrite take_ge, drop_ge by lia. apply app_nil_r.
      * cbn. by rewrite Hps.
      * constructor; [|done]. rewrite Ht. nia.
Qed.

Lemma sms_segments_spec type len data :
  0 < len → Z.of_nat (length data) = len * char_size type →
  ∃ ps, sms_segments type len data = indexed ps ∧ concat ps = data ∧ ps ≠ [] ∧
    Z.of_nat (length ps) = pdu_count type len ∧
    Forall (λ t, 0 < Z.of_nat (length t) ≤ 160) ps.
Proof.
  intros Hl Hd. destruct (max_sms_len_ok type len) as [Hm Hm2].
  destruct (count_parts_spec (Z.to_nat len) (max_sms_len type len) 0 len) as (H1 & H2 & H3 & _); [done|lia|].
  unfold sms_segments, pdu_count. cbv zeta. set (c := count_parts _ _ _ _) in *.
  specialize (H3 Hl). rewrite Z.sub_0_r in *. assert (0 < c) by nia.
  rewrite (proj2 (Z.eqb_neq c 0)) by lia.
  destruct (sms_parts_spec (Z.to_nat c) type (max_sms_len type len) 1 len data) as (ps & E & Hc & Hn & Hf);
    [done|rewrite Z2Nat.id by lia; lia|lia|done|].
  exists ps. rewrite E. split; [|split; [done|split; [|split]]].
  - unfold indexed. apply imap_ext. intros k t _. f_equal. lia.
  - intros ->. cbn in Hn. lia.
  - lia.
  - eapply Forall_impl; [exact Hf|]. cbn. lia.
Qed.


(** A part that comes twice is kept twice and counted twice: the length
    [ms_get] returns is more than that of the text. *)
Theorem ms_duplicate_length t1 t2 :
  0 < Z.of_nat (length t1) ≤ 160 → 0 < Z.of_nat (length t2) ≤ 160 →
  ∃ rs l', receive 1 2 [(1, t1); (1, t1); (2, t2)] (ms_init (replicate 10 (Msms None 0 0 0 0))) = (rs, l') ∧
    ms_get 1 l' = Ok (Z.of_nat (length t1) + Z.of_nat (length t1) + Z.of_nat (length t2), Some (t1 ++ t2)).
Proof.
  intros H1 H2. unfold receive, ms_incomming, ms_get_free_buf.
  rewrite (proj2 (Z.ltb_ge 160 (Z.of_nat (length t1)))), (proj2 (Z.ltb_ge 160 (Z.of_nat (length t2)))) by lia.
  rewrite !u8_small by (unfold in_u8; lia).
  destruct (Z.of_nat (length t1)) as [|p1|p1] eqn:E1; [lia| |lia].
  destruct (Z.of_nat (length t2)) as [|p2|p2] eqn:E2; [lia| |lia].
  eexists _, _. split; [reflexivity|]. unfold ms_get. cbn -[Z.add].
  assert (u16 (Z.pos p1) = Z.pos p1) as Eu1 by (apply u16_small; unfold in_u16; lia).
  assert (u16 (Z.pos p1 + Z.pos p1) = Z.pos p1 + Z.pos p1) as Eu2 by (apply u16_small; unfold in_u16; lia).
  assert (u16 (Z.pos p1 + Z.pos p1 + Z.pos p2) = Z.pos p1 + Z.pos p1 + Z.pos p2) as Eu3
    by (apply u16_small; unfold in_u16; lia).
  unfold ms_space. cbn -[Z.add u16]. rewrite Z.add_0_l, Eu1, Eu2, Eu3.
  rewrite (proj2 (Z.eqb_neq _ 0)) by lia.
  change (seqZ 1 2) with [1; 2]. cbn [ms_join]. set (l := [_; _; _; _; _; _; _; _; _; _]).
  change (ms_find_in_buf 1 1 l) with (Some 0%nat). change (ms_find_in_buf 1 2 l) with (Some 2%nat).
  cbn [lookup list_lookup l ms_len buffer default from_option id]. rewrite <- E1, <- E2, !Nat2Z.id.
  rewrite !take_ge by lia. cbv zeta. cbn [app].
  rewrite (proj2 (Z.leb_le (Z.of_nat (length t1)) _)) by lia. cbn [os_assert mbind outcome_bind].
  rewrite length_app, (proj2 (Z.leb_le (Z.of_nat _) _)) by lia. reflexivity.
Qed.

(** ** The slots never overflow *)

Definition slots_fit (l : list msms_t) : Prop := length l = MSMS_BUF_LEN ∧ Forall (λ s, 0 ≤ ms_len s ≤ 160) l.

(** The characters in the slots of a message whose numbers satisfy [Q]. *)
Definition weight (id : Z) (Q : Z → bool) (l : list msms_t) : nat :=
  sum_list_with (λ s, if (ms_id s =? id) && Q (order_num s) then Z.to_nat (ms_len s) else 0%nat) l.

Lemma weight_bound id Q l : Forall (λ s, 0 ≤ ms_len s ≤ 160) l → (weight id Q l ≤ 160 * length l)%nat.
Proof. induction 1 as [|s l Hs Hl IH]; [done|]. unfold weight in *. cbn. destruct (_ && _); lia. Qed.

Lemma weight_split id Q i l : Q i = false →
  (weight id (λ k, (k =? i)%Z || Q k) l = weight id (λ k, (k =? i)%Z) l + weight id Q l)%nat.
Proof.
  intros Hi. induction l as [|s l IH]; [done|]. unfold weight in *. cbn. rewrite IH.
  destruct (_ =? id); cbn; [|done]. destruct (Z.eqb_spec (order_num s) i) as [->|]; cbn; [rewrite Hi; lia|].
  destruct (Q _); lia.
Qed.

Lemma weight_elem id s l : s ∈ l → ms_id s = id → (Z.to_nat (ms_len s) ≤ weight id (λ k, (k =? order_num s)%Z) l)%nat.
Proof.
  intros Hs Hid. induction Hs as [l|s s' l Hs IH]; unfold weight in *; cbn.
  - rewrite (proj2 (Z.eqb_eq _ _) Hid), Z.eqb_refl. cbn. lia.
  - specialize (IH Hid). lia.
Qed.

Lemma weight_mono id Q1 Q2 l : (∀ k, Q1 k = true → Q2 k = true) → (weight id Q1 l ≤ weight id Q2 l)%nat.
Proof.
  intros H. induction l as [|s l IH]; [done|]. unfold weight in *. cbn. specialize (H (order_num s)).
  destruct (_ =? id); cbn; [|done]. destruct (Q1 _), (Q2 _); lia.
Qed.

Lemma space_weight id l : slots_fit l → (ms_space id l).1 = Z.of_nat (weight id (λ _, true) l).
Proof.
  intros [Hl Hs]. unfold ms_space.
  assert (∀ a n, 0 ≤ a → a + 160 * Z.of_nat (length l) < 65536 →
    (foldl (λ '(len, num) s, if negb (ms_len s =? 0) && (ms_id s =? id) then (u16 (len + ms_len s), total s) else (len, num))
       (a, n) l).1 = a + Z.of_nat (weight id (λ _, true) l)) as H.
  { clear Hl. induction Hs as [|s l Hs Hl IH]; intros a n Ha Hb; [unfold weight; cbn; lia|].
    unfold weight in *. cbn [foldl sum_list_with length] in *. rewrite andb_true_r.
    destruct (Z.eqb_spec (ms_len s) 0), (Z.eqb_spec (ms_id s) id); cbn [negb andb]; rewrite IH; rewrite ?u16_small by (unfold in_u16; lia); lia. }
  rewrite H; [lia|lia|]. rewrite Hl. unfold MSMS_BUF_LEN. lia.
Qed.

Lemma join_fits id len l orders dest : NoDup orders →
  Z.of_nat (length dest + weight id (λ k, bool_decide (k ∈ orders)) l) ≤ len →
  is_ok (ms_join orders id len l dest).
Proof.
  revert dest. induction orders as [|i orders IH]; intros dest Hnd Hlen; [by eexists|]. apply NoDup_cons in Hnd as [Hi Hnd].
  cbn [ms_join]. unfold ms_find_in_buf. destruct (find_slot _ l) as [m|] eqn:Ef; [|by eexists].
  apply find_slot_Some in Ef as (s & Hm & Hs). apply andb_true_iff in Hs as [[Hid Ho]%andb_true_iff _].
  apply Z.eqb_eq in Hid, Ho. rewrite Hm. cbn [mbind outcome_bind].
  assert ((Z.to_nat (ms_len s) + weight id (λ k, bool_decide (k ∈ orders)) l ≤ weight id (λ k, bool_decide (k ∈ i :: orders)) l)%nat) as Hw.
  { pose proof (weight_elem id s l (list_elem_of_lookup_2 _ _ _ Hm) Hid) as H1.
    rewrite Ho in H1. pose proof (weight_split id (λ k, bool_decide (k ∈ orders)) i l) as H2.
    rewrite bool_decide_eq_false in H2. specialize (H2 Hi).
    pose proof (weight_mono id (λ k, (k =? i) || bool_decide (k ∈ orders)) (λ k, bool_decide (k ∈ i :: orders)) l) as H3.
    assert (∀ k, (k =? i) || bool_decide (k ∈ orders) = true → bool_decide (k ∈ i :: orders) = true) as H4; [|specialize (H3 H4); lia].
    intros k [H%Z.eqb_eq|H%bool_decide_eq_true]%orb_true_iff; apply bool_decide_eq_true; [subst k; by left|by right]. }
  assert (length (dest ++ take (Z.to_nat (ms_len s)) (default [] (buffer s))) ≤ length dest + Z.to_nat (ms_len s))%nat as Hd.
  { rewrite length_app, length_take. lia. }
  unfold os_assert. rewrite (proj2 (Z.leb_le _ _)) by lia. cbn [mbind outcome_bind]. apply IH; [done|]. lia.
Qed.

Lemma ms_get_fits id l : slots_fit l → is_ok (ms_get id l).
Proof.
  intros Hl. unfold ms_get. pose proof (space_weight id l Hl) as Hw. destruct (ms_space id l) as [len num]. cbn [fst] in Hw.
  destruct (len =? 0); [by eexists|].
  destruct (join_fits id len l (seqZ 1 num) []) as [t ->]; [apply NoDup_seqZ| |by eexists].
  rewrite Hw. cbn [length]. pose proof (weight_mono id (λ k, bool_decide (k ∈ seqZ 1 num)) (λ _, true) l ltac:(done)). lia.
Qed.

Lemma slots_fit_clear (P : msms_t → bool) l : slots_fit l → slots_fit ((λ s, if P s then slot_clear s else s) <$> l).
Proof.
  intros [Hl Hs]. split; [by rewrite length_fmap|]. apply Forall_fmap. eapply Forall_impl; [exact Hs|].
  intros s ?. cbn. destruct (P s); [cbn; lia|done].
Qed.

Lemma incomming_fits t id k tot l : slots_fit l → slots_fit (ms_incomming t id k tot l).2.
Proof.
  intros Hl. unfold ms_incomming, ms_get_free_buf.
  assert (∀ i l', slots_fit l' → slots_fit (<[i := Msms (Some t) k tot id (u8 (Z.of_nat (length t)))]> l') ∨ 160 < Z.of_nat (length t)) as Hins.
  { intros i l' [Hl' Hs]. destruct (decide (160 < Z.of_nat (length t))); [by right|left]. split; [by rewrite length_insert|].
    apply Forall_insert; [done|]. cbn. rewrite u8_small by (unfold in_u8; lia). lia. }
  destruct (find_slot slot_empty l) as [i|].
  - cbn. destruct (Z.ltb_spec 160 (Z.of_nat (length t))); [done|]. cbn. destruct (Hins i l Hl); [done|lia].
  - pose proof (slots_fit_clear (λ s, negb (ms_id s =? id)) l Hl) as Hc. cbv zeta. set (l' := _ <$> l) in *.
    destruct (find_slot slot_empty l') as [i|]; [|done]. cbn.
    destruct (Z.ltb_spec 160 (Z.of_nat (length t))); [done|]. cbn. destruct (Hins i l' Hc); [done|lia].
Qed.

Lemma delete_fits id l : slots_fit l → slots_fit (ms_delete id l).
Proof.
  intros [Hl Hs]. split; [by unfold ms_delete; rewrite length_fmap|]. apply Forall_fmap. eapply Forall_impl; [exact Hs|].
  intros s ?. cbn. destruct (_ =? id); [cbn; lia|done].
Qed.

Lemma empty_slots_ok : slots_ok (ms_init (replicate 10 (Msms None 0 0 0 0))).
Proof. split; [done|]. repeat constructor. Qed.

Lemma ms_reassembles_witness :
  ∃ l', receive 3 2 [(2, str "part2"); (1, str "part1:")] (ms_init (replicate 10 (Msms None 0 0 0 0)))
    = ([MS_SMS_WAIT; MS_SMS_DONE], l') ∧ ms_get 3 l' = Ok (11, Some (str "part1:part2")).
Proof.
  destruct (ms_reassembles 3 [str "part1:"; str "part2"] [(2, str "part2"); (1, str "part1:")]
    (ms_init (replicate 10 (Msms None 0 0 0 0))) []) as (rs & l' & E & _ & H & _).
  - exact empty_slots_ok.
  - reflexivity.
  - constructor.
  - cbn. unfold MSMS_BUF_LEN. lia.
  - discriminate.
  - apply Forall_cons. split; [vm_compute; split; congruence|].
    apply Forall_cons. split; [vm_compute; split; congruence|]. constructor.
  - apply Permutation_swap.
  - exists l'. split; [|exact H]. vm_compute in E |- *. by injection E as <- <-.
Defined.


Lemma ms_duplicate_length_witness :
  ∃ rs l', receive 1 2 [(1, [65]); (1, [65]); (2, [66])] (ms_init (replicate 10 (Msms None 0 0 0 0))) = (rs, l') ∧
    ms_get 1 l' = Ok (3, Some [65; 66]).
Proof. apply (ms_duplicate_length [65] [66]); cbn; lia. Defined.
