(* ===== verification/Report.v ===== *)
(** * Event texts and their SMS (_buf_add_event, event_description and event_comm_task of app/event.c)

    Collects the pending events of one user into one text message and takes
    them out of the buffer when the message was handed over. *)

From S2P Require Import Prelude CText EventTypes EventBuf Storage EventMemory EventQueue.
From S2P Require Import Out Alarm ArmSection System Cfg SiaIp NetTarget Cms EventTask.

(** ** Text buffers

    The SDK's [buf_append_str] and [buf_append_fmt] render into a [buf_t]; the
    model keeps the calls, in order, with their arguments.  A float is the
    fraction it was computed from. *)

Inductive fmt_arg := ArgS (t : list Z) | ArgD (v : Z) | ArgF (num den : Z).
Inductive appended := TStr (t : list Z) | TFmt (fmt : list Z) (args : list fmt_arg).

(** Quotation marks and line ends inside formats. *)
Definition QUOTE : list Z := [34].
Definition NL : list Z := [13; 10].

Section report.
Context `{F : FlashLib}.

(** [now] is what [rtc_get_time] gives; short times for events of today. *)
(** src/app/event.c:244-262 (_buf_add_event) *)
Definition _buf_add_event (now : rtc_t) (s : storage) (e : event_t) : outcome (list appended) :=
  let t := ev_time e in
  let tm := if (day now =? day t) || (month now =? month t)
            then TFmt (str "%d:%02d:%02d") [ArgD (hour t); ArgD (minute t); ArgD (second t)]
            else TFmt (str "%02d/%d/%d %d:%02d:%02d")
                   [ArgD (year t); ArgD (month t); ArgD (day t);
                    ArgD (hour t); ArgD (minute t); ArgD (second t)] in
  name ← _event_name s (ev_id e);
  source ← _source_name s (ev_source e);
  Ok [tm; TStr (str " "); TStr name; TStr (str ", "); TStr source].

(** src/app/event.c:264-267 (event_description) *)
Definition event_description (now : rtc_t) (s : storage) (e : event_t) : outcome (list appended) :=
  _buf_add_event now s e.

(** What happens around one run: whether [buf_init] finds memory, the clock,
    the events that [event_task] files during the two seconds of delay, and the
    SDK's rendering of the text and check of a phone number. *)
Record comm_env := CommEnv {
  ce_alloc : bool;
  ce_clock : nat → rtc_t;                   (* the k-th reading of the clock *)
  ce_arrivals : list (event_t * Z * Z);     (* event, priority, user *)
  ce_render : list appended → list Z;
  ce_valid : list Z → bool
}.

Fixpoint arrive (l : list (event_t * Z * Z)) (b : event_buf) : outcome event_buf :=
  match l with
  | [] => Ok b
  | (e, prio, user) :: l => '(_, b) ← event_buf_add_event b (Some e) prio user; arrive l b
  end.

(** The further events of the user. *)
(** src/app/event.c:288-292 (event_comm_task) *)
Fixpoint comm_loop (fuel k : nat) (clock : nat → rtc_t) (s : storage) (user : Z) (b : event_buf)
    : outcome (event_buf * Z * list appended) :=
  match fuel with
  | O => Err FAssert
  | S fuel =>
      '(ok, b, o) ← event_buf_get_event b (Some event_zero) (Some user) None;
      match (ok : bool), o with
      | true, Some o =>
          t ← _buf_add_event (clock k) s (default event_zero (go_event o));
          '(b, user, ts) ← comm_loop fuel (S k) clock s (go_user o) b;
          Ok (b, user, (TStr (str ";" ++ NL) :: t) ++ ts)
      | _, Some o => Ok (b, go_user o, [])
      | _, None => Ok (b, user, [])
      end
  end.

(** The message sent, if any, is a number and its text. *)
(** src/app/event.c:269-300 (event_comm_task) *)
Definition event_comm_task (c : comm_env) (s : storage) (b : event_buf)
    : outcome (event_buf * option (list Z * list Z)) :=
  '(ok, b, o) ← event_buf_get_event b (Some event_zero) (Some EVENT_USER_NONE) None;
  match (ok : bool), o with
  | true, Some o =>
      if negb (ce_alloc c) then Ok (b, None)
      else
        '(_, name) ← cfg_read CFG_ID_DEVICE_NAME ACCESS_SYSTEM s;
        t ← _buf_add_event (ce_clock c 0) s (default event_zero (go_event o));
        b ← arrive (ce_arrivals c) b;
        '(b, user, ts) ← comm_loop (S (Z.to_nat (eb_size b))) 1 (ce_clock c) s (go_user o) b;
        '(sent, sms) ← sms_send_to_user (ce_valid c) s user (ce_render c ((TStr name :: t) ++ ts));
        if sent : bool then b ← event_buf_done_events b true; Ok (b, sms)
        else Ok (b, sms)
  | _, _ => Ok (b, None)
  end.

(** ** The message *)

(** The text of one event; [described] where no assertion fails. *)
Definition description (now : rtc_t) (s : storage) (e : event_t) : list appended :=
  match _buf_add_event now s e with Ok t => t | Err _ => [] end.

(** The further events, each after a separator. *)
Definition further (clock : nat → rtc_t) (s : storage) (k : nat) (es : list event_t) : list appended :=
  concat (imap (λ i e, TStr (str ";" ++ NL) :: description (clock (k + i)%nat) s e) es).

Definition message (clock : nat → rtc_t) (s : storage) (name : list Z) (es : list event_t)
    : list appended :=
  TStr name :: match es with
               | [] => []
               | e :: es => description (clock O) s e ++ further clock s 1 es
               end.

Context `{FS : !FlashSpec F} `{R : EventRepr}.

Lemma buf_add_event_ok now s e :
  cfg_clean s → event_ok e → _buf_add_event now s e = Ok (description now s e).
Proof.
  intros Hs He. destruct (names_ok s e Hs He) as [[n Hn] [m Hm]].
  unfold description, _buf_add_event. cbv zeta. by rewrite Hn, Hm.
Qed.

(** The entries of a user that are waiting, and the queue with all of them
    marked as being communicated. *)
Definition wanted (user : Z) (q : list entry) : list entry := filter (λ e, e_wanted user e = true) q.
Definition unwanted (user : Z) (q : list entry) : list entry := filter (λ e, e_wanted user e = false) q.
Definition mark_all (user : Z) (q : list entry) : list entry :=
  (λ e, if e_wanted user e then e_mark e else e) <$> q.

Lemma mark_processing e : e_processing (e_mark e) = true.
Proof. unfold e_processing, e_mark. cbn [e_flag e_with_flag].
  by apply (has_lor_same _ 2). Qed.

Lemma processing_retried e : e_processing e = true → e_retried e = true.
Proof.
  unfold e_processing, e_retried, has. rewrite !negb_true_iff, !Z.eqb_neq. intros H H0. apply H.
  rewrite Z.land_lor_distr_r in H0. by apply Z.lor_eq_0_iff in H0 as [? _].
Qed.

Lemma mark_unwanted user e : e_wanted user (e_mark e) = false.
Proof.
  unfold e_wanted, e_pending. rewrite processing_retried by apply mark_processing. done.
Qed.

Lemma mark_first user q i e :
  list_find (λ e, e_wanted user e = true) q = Some (i, e) →
  wanted user q = e :: wanted user (<[i := e_mark e]> q) ∧
  mark_all user (<[i := e_mark e]> q) = mark_all user q ∧ e_wanted user e = true ∧ e ∈ q.
Proof.
  revert i. induction q as [|x q IH]; intros i; [done|]. cbn [list_find].
  unfold wanted, mark_all. destruct (decide (e_wanted user x = true)) as [Hx|Hx].
  - intros [= <- <-]. cbn [insert list_insert]. rewrite !filter_cons, (decide_True _ _ Hx).
    rewrite (decide_False (P := e_wanted user (e_mark x) = true)) by (by rewrite mark_unwanted).
    split; [done|]. split; [|split; [done|by left]]. cbn [insert list_insert fmap list_fmap].
    by rewrite mark_unwanted, Hx.
  - destruct (list_find _ q) as [[j y]|] eqn:E; [|done]. intros [= <- <-].
    destruct (IH j eq_refl) as (H1 & H2 & H3 & H4).
    cbn [insert list_insert]. rewrite !filter_cons, !(decide_False _ _ Hx).
    split; [exact H1|]. split; [|split; [done|by right]]. cbn [fmap list_fmap]. f_equal. exact H2.
Qed.

Lemma none_wanted user q :
  list_find (λ e, e_wanted user e = true) q = None → wanted user q = [] ∧ mark_all user q = q.
Proof.
  intros H. apply list_find_None in H. unfold wanted, mark_all. induction H as [|x q Hx Hq IH]; [done|].
  destruct IH as [H1 H2]. rewrite filter_cons, decide_False by done. cbn [fmap list_fmap].
  split; [done|]. rewrite H2. by destruct (e_wanted user x).
Qed.

(** Delivering what is in communication leaves the other entries. *)
Lemma done_mark_all user q :
  Forall (λ e, e_processing e = false) q →
  omap (done_entry true) (mark_all user q) = unwanted user q.
Proof.
  unfold unwanted. induction 1 as [|x q Hx Hq IH]; [done|].
  rewrite filter_cons. cbn [mark_all fmap list_fmap omap list_omap]. fold (mark_all user q).
  destruct (e_wanted user x) eqn:E; unfold done_entry at 1.
  - by rewrite mark_processing, decide_False by done.
  - by rewrite Hx, decide_True, IH by done.
Qed.

Lemma comm_loop_spec fuel : ∀ k clock s user b n q,
  holds b n q → user ≠ EVENT_USER_NONE → cfg_clean s → Forall (λ e, event_ok (e_event e)) q →
  (length (wanted user q) < fuel)%nat →
  ∃ b', comm_loop fuel k clock s user b
        = Ok (b', user, further clock s k (e_event <$> wanted user q)) ∧ holds b' n (mark_all user q).
Proof.
  induction fuel as [|fuel IH]; intros k clock s user b n q Hb Hu Hs Hq Hf; [lia|].
  cbn [comm_loop]. destruct (event_buf_get_event_spec b n q (Some event_zero) user None Hb)
    as (ok & b1 & o & -> & Ho). cbn [mbind outcome_bind].
  destruct (list_find _ q) as [[i e]|] eqn:E.
  - destruct Ho as (-> & Hb1 & ->). cbn [go_event go_user fmap option_fmap option_map const default].
    destruct (mark_first _ _ _ _ E) as (Hw & Hm & Hwe & Hin).
    assert (event_ok (e_event e)) as He by (rewrite Forall_forall in Hq; by apply Hq).
    assert (EventBuf.e_user e = user) as ->.
    { unfold e_wanted in Hwe. apply andb_prop in Hwe as [_ Hwe].
      apply orb_prop in Hwe as [?%Z.eqb_eq|?%Z.eqb_eq]; [done|by symmetry]. }
    rewrite buf_add_event_ok by done. cbn [mbind outcome_bind].
    destruct (IH (S k) clock s user b1 n (<[i := e_mark e]> q)) as (b2 & -> & Hb2); try done.
    { apply Forall_insert; [done|]. exact He. }
    { rewrite Hw in Hf. cbn [length] in Hf. lia. }
    cbn [mbind outcome_bind]. exists b2. rewrite Hm in Hb2. split; [|done].
    rewrite Hw. cbn [fmap list_fmap]. unfold further at 2. cbn [imap concat].
    rewrite Nat.add_0_r. do 4 f_equal. unfold further. f_equal. apply imap_ext.
    intros j x _. cbn. by rewrite Nat.add_succ_r.
  - destruct Ho as (-> & Hb1 & Hgo). destruct (none_wanted _ _ E) as [-> ->].
    exists b1. by rewrite Hgo.
Qed.

Lemma wanted_room b n q user : holds b n q → (length (wanted user q) <= Z.to_nat (eb_size b))%nat.
Proof.
  intros (_ & ql & Hr & <-). apply rep_length in Hr.
  etransitivity; [apply length_filter|]. rewrite length_fmap. lia.
Qed.

(** ** Arrivals *)

Definition arrived (l : list (event_t * Z * Z)) : list entry :=
  omap (λ x, if x.2 =? EVENT_USER_NONE then None else Some (new_entry x.1.1 x.1.2 x.2)) l.

Lemma arrive_spec l : ∀ b n q,
  holds b n q → Z.of_nat (length q + length l) ≤ n →
  ∃ b', arrive l b = Ok b' ∧ holds b' n (q ++ arrived l).
Proof.
  induction l as [|[[e p] u] l IH]; intros b n q Hb Hl; cbn [arrive length] in *.
  - exists b. unfold arrived. cbn. by rewrite app_nil_r.
  - destruct (event_buf_add_event_spec b n q e p u Hb) as (ok & b1 & -> & Ha).
    cbn [mbind outcome_bind]. unfold spec_add in Ha. unfold arrived. cbn [omap list_omap snd fst].
    destruct (u =? EVENT_USER_NONE).
    + destruct Ha as [_ Ha]. apply (IH _ _ _ Ha). lia.
    + rewrite bool_decide_eq_true_2 in Ha by lia. destruct Ha as [_ Ha].
      destruct (IH _ _ _ Ha) as (b' & -> & H); [rewrite length_app; cbn; lia|].
      exists b'. rewrite <- app_assoc in H. done.
Qed.

Lemma arrived_idle l : Forall (λ e, e_processing e = false) (arrived l).
Proof.
  unfold arrived. induction l as [|[[e p] u] l IH]; [done|]. cbn [omap list_omap snd fst].
  destruct (u =? EVENT_USER_NONE); [done|]. by constructor.
Qed.

Lemma arrived_ok l :
  Forall (λ x, event_ok x.1.1) l → Forall (λ e, event_ok (e_event e)) (arrived l).
Proof.
  unfold arrived. induction 1 as [|[[e p] u] l He _ IH]; [done|]. cbn [omap list_omap snd fst].
  destruct (u =? EVENT_USER_NONE); [done|]. by constructor.
Qed.

(** The first pending entry is the first one of its user. *)
Lemma first_of_user q l i e :
  list_find (λ e, e_wanted EVENT_USER_NONE e = true) q = Some (i, e) →
  list_find (λ x, e_wanted (EventBuf.e_user e) x = true) (q ++ l) = Some (i, e).
Proof.
  rewrite !list_find_Some. intros (Hi & He & Hj).
  assert (∀ u x, e_wanted u x = true → e_wanted EVENT_USER_NONE x = true) as Hany.
  { unfold e_wanted. intros u x [H _]%andb_prop. by rewrite H. }
  split; [by apply lookup_app_l_Some|]. split.
  - unfold e_wanted in *. apply andb_prop in He as [-> _]. rewrite Z.eqb_refl. by rewrite orb_true_r.
  - intros j x Hx Hlt Hw. rewrite lookup_app_l in Hx by (apply lookup_lt_Some in Hi; lia).
    exact (Hj j x Hx Hlt (Hany _ _ Hw)).
Qed.


(** C40 (error). A group's setup text may name any user number, and the SMS
    buffer takes it, but only four users exist: the first pending event of a user
    from 4 on trips the assertion of [sms_send_to_user] and halts the unit. *)
Theorem event_comm_halts_on_user c s b n q i e :
  holds b n q → cfg_clean s → ce_alloc c = true → ce_arrivals c = [] →
  Forall (λ e, event_ok (e_event e)) q →
  list_find (λ e, e_wanted EVENT_USER_NONE e = true) q = Some (i, e) →
  4 ≤ EventBuf.e_user e < EVENT_USER_NONE →
  event_comm_task c s b = Err FAssert.
Proof.
  intros Hb Hs Hal Harr Hq E Hu. unfold event_comm_task. rewrite Harr.
  destruct (event_buf_get_event_spec b n q (Some event_zero) EVENT_USER_NONE None Hb)
    as (ok & b1 & o & -> & Ho). rewrite E in Ho. destruct Ho as (-> & Hb1 & ->).
  cbn [mbind outcome_bind go_event go_user fmap option_fmap option_map const default].
  rewrite Hal. cbn [negb].
  destruct (cfg_clean_read s CFG_ID_DEVICE_NAME ACCESS_SYSTEM Hs) as [[okn name] ->].
  destruct (mark_first _ _ _ _ E) as (_ & _ & _ & Hin).
  assert (event_ok (e_event e)) as He by (rewrite Forall_forall in Hq; by apply Hq).
  cbn [mbind outcome_bind]. rewrite buf_add_event_ok by done. cbn [mbind outcome_bind arrive].
  destruct (comm_loop_spec (S (Z.to_nat (eb_size b1))) 1 (ce_clock c) s (EventBuf.e_user e) b1 n _ Hb1)
    as (b3 & -> & Hb3); [unfold EVENT_USER_NONE in *; lia|done|by apply Forall_insert| |].
  { pose proof (wanted_room _ _ _ (EventBuf.e_user e) Hb1). lia. }
  cbn [mbind outcome_bind]. unfold sms_send_to_user, os_assert.
  rewrite (proj2 (Z.ltb_ge _ 4)) by lia. done.
Qed.

End report.

(** ** Examples *)

(** The second user has a number. *)
Definition phone_storage : storage :=
  let '(_, s, _) := cfg_write (CFG_ID_USER1_PHONE + 1) (str "+420777123456") ACCESS_USER erased_storage in s.

Lemma phone_clean : cfg_clean phone_storage.
Proof.
  unfold phone_storage.
  destruct (cfg_write _ _ _ erased_storage) as [[b s] q] eqn:E.
  assert (b = true) as -> by (injection E as <- _ _; vm_compute; reflexivity).
  refine (cfg_clean_write _ _ _ _ _ _ E _ erased_clean). left. cbn. lia.
Qed.

(** A renderer that drops the arguments' formats, enough to tell texts apart. *)
Definition plain_render (l : list appended) : list Z :=
  concat ((λ x, match x with TStr t => t | TFmt f _ => f end) <$> l).

Definition demo_comm (arrivals : list (event_t * Z * Z)) : comm_env :=
  CommEnv true (λ _, Rtc 24 5 6 12 30 0) arrivals plain_render (λ t, match t with 43 :: _ => true | _ => false end).

Definition demo_events : list (event_t * Z * Z) :=
  [(w_event 1 EVENT_ID_ALARM, 1, 1); (w_event 2 EVENT_ID_SET, 1, 2); (w_event 3 EVENT_ID_FAULT, 1, 1)].
Definition demo_box : event_buf := w_buf 6 demo_events.

Definition entry_for (x : event_t * Z * Z) : entry := new_entry x.1.1 x.1.2 x.2.

Lemma demo_box_holds : holds demo_box 6 (entry_for <$> demo_events).
Proof.
  replace (entry_for <$> demo_events) with (queue_of demo_box).*2 by (vm_compute; reflexivity).
  apply (holds_by_check demo_box). vm_compute. done.
Qed.

Lemma w_event_ok c i : in_u32 c → event_ok (w_event c i).
Proof. intros Hc. split; [apply event_id_code_range|]. split; [apply event_source_code_range|].
  split; [exact Hc|]. split; [by destruct i|done].
Qed.

Lemma entry_for_ok l :
  Forall (λ x, ∃ c i, x.1.1 = w_event c i ∧ in_u32 c) l →
  Forall (λ x, event_ok x.1.1) l ∧ Forall (λ e, event_ok (e_event e)) (entry_for <$> l).
Proof.
  rewrite Forall_fmap. intros H. split; eapply Forall_impl; try exact H;
    intros [[e p] u] (c & i & E & Hc); cbn in *; subst; by apply w_event_ok.
Qed.

Ltac known_events :=
  repeat (apply Forall_cons_2; [eexists _, _; split; [reflexivity|unfold in_u32; lia]|]); apply Forall_nil_2.


Definition bad_user : list (event_t * Z * Z) := [(w_event 1 EVENT_ID_ALARM, 1, 9)].

Lemma event_comm_halts_on_user_witness :
  event_comm_task (demo_comm []) phone_storage (w_buf 3 bad_user) = Err FAssert.
Proof.
  assert (holds (w_buf 3 bad_user) 3 (entry_for <$> bad_user)) as H.
  { replace (entry_for <$> bad_user) with (queue_of (w_buf 3 bad_user)).*2 by (vm_compute; reflexivity).
    apply (holds_by_check (w_buf 3 bad_user)). vm_compute. done. }
  refine (event_comm_halts_on_user (demo_comm []) phone_storage _ 3 _ 0
    (entry_for (w_event 1 EVENT_ID_ALARM, 1, 9)) H phone_clean eq_refl eq_refl _ eq_refl _).
  - apply entry_for_ok. unfold bad_user. known_events.
  - split; [vm_compute; discriminate|reflexivity].
Defined.
