(* ===== verification/Cmd.v ===== *)
(** * Text commands (app/cmd.c; app/access.h; main_cmd_process of app/main.c and _ble_rx_parser of app/app.c)

    The command interpreter behind the serial console, BLE and text messages: the
    table of commands with the access each needs, finding a command by its name
    or an unambiguous beginning of it, chains of commands, passwords, and what
    every command does to the device. *)

From S2P Require Import Prelude CText EventTypes EventBuf Storage EventMemory EventQueue.
From S2P Require Import Out Alarm ArmSection System Cfg SiaIp NetTarget Cms EventTask Inp.
From S2P Require Import Update Nmea Gps Report.

(** ** The SDK's parsers

    [parse_string p limit] is the quoted string at the start of [p] when it fits
    an array of [limit] characters, with what follows it; [parse_separator]
    skips a comma; [is_char] tells the characters of command names; [strnicmp]
    compares at most [n] characters, letter case aside; [buf_full t] is the data
    of a buffer laid by [buf_init_full] over an array of [CFG_ITEM_SIZE]
    characters that holds the text [t]. *)
Class CmdLib := {
  cl_numbers :: ParseLib;
  parse_string : list Z → Z → option (list Z * list Z);
  parse_separator : list Z → option (list Z);
  is_char : Z → bool;
  strnicmp : list Z → list Z → nat → Z;
  buf_full : list Z → list Z
}.

Class CmdSpec (L : CmdLib) := {
  parse_number_suffix : ∀ p v r, parse_number p = Some (v, r) → r `suffix_of` p;
  parse_string_suffix : ∀ p n t r, parse_string p n = Some (t, r) → r `suffix_of` p;
  parse_separator_suffix : ∀ p r, parse_separator p = Some r → r `suffix_of` p;
  parse_string_quoted : ∀ t r n, Forall (λ c, c ≠ 34 ∧ c ≠ 0) t → Z.of_nat (length t) < n →
    parse_string (QUOTE ++ t ++ QUOTE ++ r) n = Some (t, r);
  parse_string_fits : ∀ p n t r, parse_string p n = Some (t, r) →
    Z.of_nat (length t) < n ∧ Forall (λ c, c ≠ 0) t;
  parse_separator_comma : ∀ r, parse_separator (44 :: r) = Some r;
  parse_separator_none : parse_separator [] = None;
  is_char_letter : ∀ c, is_alpha c = true → is_char c = true;
  is_char_other : ∀ c, c ∈ [0; 32; 34; 44; 59; 61; 63] → is_char c = false;
  strnicmp_equal : ∀ s p n, strnicmp s p n = 0 ↔ to_lower <$> take n s = to_lower <$> take n p;
  buf_full_text : ∀ t, Z.of_nat (length t) < CFG_ITEM_SIZE → Forall (λ c, c ≠ 0) t →
    Z.of_nat (length (buf_full t)) ≤ CFG_ITEM_SIZE ∧
    (buf_full t = t ∨ ∃ g, buf_full t = t ++ 0 :: g)
}.

(** ** State *)

(** src/app/access.h:19-24 (access_t) *)
Record access_t := Access {
  acc_auth : Z;                  (* u8 *)
  acc_time : Z;
  acc_source : event_source;
  acc_channel : event_source
}.

(** What the commands leave to code outside the model, in call order; a state
    change the alarm system asks for is [AcSystem]. *)
Inductive cmd_act :=
  | AcSystem (a : action)
  | AcReinit (r : reinit)              (* app_reinit_req *)
  | AcReset (to_boot : bool)           (* wdog_reset *)
  | AcAt (t : list Z) | AcBle (t : list Z)
  | AcModem (n : Z)                    (* modem_main_command *)
  | AcNetConnect | AcDataDisconnect | AcUdpTest | AcTracerTest | AcEventDebug
  | AcUart4 (baud : Z)
  | AcModemEcho (on : bool)            (* modem_echo_set *)
  | AcDebugLevel (n : Z) | AcDebugSelect (n : Z)
  | AcShockDebug.                      (* shock_debug ^= 1 *)

Section cmd.
Context `{F : FlashLib} `{R : EventRepr} `{L : CmdLib}.

(** The parts of the device commands work on.  The flash is that of the event
    log, [em_storage]. *)
Record dev := Dev {
  d_sys : system;
  d_inp : inputs;
  d_mem : event_memory;
  d_gps : gps;
  gps_unsolicited : Z;
  d_update : update
}.

Definition d_storage (d : dev) : storage := em_storage (d_mem d).

Definition set_d_sys (w : system) (d : dev) : dev :=
  Dev w (d_inp d) (d_mem d) (d_gps d) (gps_unsolicited d) (d_update d).
Definition set_d_inp (x : inputs) (d : dev) : dev :=
  Dev (d_sys d) x (d_mem d) (d_gps d) (gps_unsolicited d) (d_update d).
Definition set_d_storage (s : storage) (d : dev) : dev :=
  Dev (d_sys d) (d_inp d) (EventMemory (_event_memory_ptr (d_mem d)) (event_cnt (d_mem d)) s)
    (d_gps d) (gps_unsolicited d) (d_update d).
Definition set_d_gps (g : gps) (unso : Z) (d : dev) : dev :=
  Dev (d_sys d) (d_inp d) (d_mem d) g unso (d_update d).
Definition set_d_update (u : update) (d : dev) : dev :=
  Dev (d_sys d) (d_inp d) (d_mem d) (d_gps d) (gps_unsolicited d) u.

(** What a command reads of the rest: clock, wires, versions, measurements, the
    state of the network, and the results of the calls of [cmd_act]. *)
Record cmd_env := CmdEnv {
  ev_wires : wires;
  ev_rtc : rtc_t;
  ev_hw_name : list Z;
  ev_sw_version : list Z;
  ev_main_ver : list appended;            (* cmd_main_ver *)
  ev_modem_echo : bool;
  ev_debug : Z * Z;                       (* log_debug_level, log_debug_select *)
  ev_net_ok : bool;
  ev_lte : bool;
  ev_udp_ready : bool;
  ev_udp_info : list appended;
  ev_main_mv : Z;
  ev_batt_mv : Z;
  ev_batt_ok : bool;
  ev_temp : Z * Z;
  ev_at_reply : list Z → list appended;
  ev_modem_command : Z → bool;
  ev_net_connect : bool;
  ev_udp_tx : bool;
  ev_tracer_test : bool
}.

(** A command under way: the device, the access of its channel, the timer, the
    result text and the calls made. *)
Record cst := Cst {
  c_dev : dev;
  c_acc : access_t;
  c_now : Z;
  c_out : list appended;
  c_acts : list cmd_act
}.

Definition upd_dev (f : dev → dev) (c : cst) : cst :=
  Cst (f (c_dev c)) (c_acc c) (c_now c) (c_out c) (c_acts c).
Definition put_acc (a : access_t) (c : cst) : cst :=
  Cst (c_dev c) a (c_now c) (c_out c) (c_acts c).
Definition append (l : list appended) (c : cst) : cst :=
  Cst (c_dev c) (c_acc c) (c_now c) (c_out c ++ l) (c_acts c).
Definition act (l : list cmd_act) (c : cst) : cst :=
  Cst (c_dev c) (c_acc c) (c_now c) (c_out c) (c_acts c ++ l).
(** [OS_DELAY (ms)] *)
Definition delay (ms : Z) (c : cst) : cst :=
  Cst (c_dev c) (c_acc c) (u32 (c_now c + ms)) (c_out c) (c_acts c).
Definition sys_acts (l : list action) : list cmd_act := AcSystem <$> l.

Definition append_str (t : list Z) : cst → cst := append [TStr t].
Definition append_fmt (f : list Z) (args : list fmt_arg) : cst → cst := append [TFmt f args].
(** src/app/cmd.c:203-206 (cmd_nl) *)
Definition cmd_nl : cst → cst := append_str NL.

(** src/app/cmd.c:228-239 (cmd_fetch_separator) *)
Definition cmd_fetch_separator (p : list Z) : option (list Z) := parse_separator p.
(** src/app/cmd.c:241-251 (cmd_fetch_string) *)
Definition cmd_fetch_string (p : list Z) (limit : Z) : option (list Z * list Z) := parse_string p limit.

(** src/app/cmd.c:265-271 (_skip_spaces) *)
Fixpoint _skip_spaces (p : list Z) : list Z :=
  match p with
  | [] => []
  | c :: p' => if c =? 32 then _skip_spaces p' else p
  end.

(** src/app/cmd.c:999-1015 (cmd_error) *)
Definition cmd_error (t : list Z) (c : cst) : cst :=
  cmd_nl (append_fmt (str ": " ++ QUOTE ++ str "%s" ++ QUOTE) [ArgS t] (append_str (str "ERROR") c)).

(** src/app/cmd.c:65-67 (CMD_ERR_MSG_INVALID_PARAM .. CMD_ERR_MSG_UNKNOWN_COMMAND) *)
Definition CMD_ERR_MSG_INVALID_PARAM : list Z := str "INVALID PARAMETER".
Definition CMD_ERR_MSG_MISSING_PARAM : list Z := str "MISSING PARAMETER".
Definition CMD_ERR_MSG_UNKNOWN_COMMAND : list Z := str "UNKNOWN COMMAND".

(** ** Passwords *)

(** src/app/cmd.c:1095-1104 (cmd_get_password_access) *)
Definition PASSWD_TABLE : list (cfg_id * access_level * event_source) :=
  [(CFG_ID_PASSWD_ADMIN, ACCESS_ADMIN, EVENT_SOURCE_ADMIN);
   (CFG_ID_PASSWD_SYSTEM, ACCESS_SYSTEM, EVENT_SOURCE_ADMIN);
   (CFG_ID_USER1_PASS, ACCESS_USER, EVENT_SOURCE_USER1);
   (CFG_ID_USER2_PASS, ACCESS_USER, EVENT_SOURCE_USER2);
   (CFG_ID_USER3_PASS, ACCESS_USER, EVENT_SOURCE_USER3);
   (CFG_ID_USER4_PASS, ACCESS_USER, EVENT_SOURCE_USER4)].

(** src/app/cmd.h:16-16 (CMD_MIN_PASSWD_LENGTH) *)
Definition CMD_MIN_PASSWD_LENGTH : Z := 4.

(** src/app/cmd.c:1078-1084 (_pass_valid) *)
Definition _pass_valid (code : list Z) : bool := negb (Z.of_nat (length code) <? CMD_MIN_PASSWD_LENGTH).

(** src/app/cmd.c:1114-1134 (cmd_get_password_access) *)
Fixpoint find_password (t : list (cfg_id * access_level * event_source)) (s : storage)
    (text : list Z) (a : access_t) : outcome (nat * access_t) :=
  match t with
  | [] => Ok (0%nat, a)
  | (id, level, source) :: t =>
      '(ok, code) ← cfg_read (cfg_id_code id) ACCESS_SYSTEM s;
      if negb (ok : bool) then Ok (0%nat, a)
      else if _pass_valid code && (strnicmp text code (length code) =? 0) then
        Ok (length code, Access (access_level_code level) (acc_time a) source (acc_channel a))
      else find_password t s text a
  end.

(** The number of characters the password takes, 0 when there is none. *)
(** src/app/cmd.c:1086-1135 (cmd_get_password_access) *)
Definition cmd_get_password_access (s : storage) (a : access_t) (text : list Z)
    : outcome (nat * access_t) :=
  find_password PASSWD_TABLE s text
    (Access ACCESS_NONE (acc_time a) EVENT_SOURCE_UNKNOWN (acc_channel a)).

(** ** Handlers without a parameter

    [text] is the command's name in the table ([cmd->text]). *)

(** src/app/cmd.c:307-325 (_add_state) *)
Definition _add_state (c : cst) : cst :=
  let w := d_sys (c_dev c) in
  let st := system_state w in
  let s := if st =? SECTION_ST_UNSET then str "UNSET"
           else if st =? SECTION_ST_SET_PART then str "Partially SET"
           else if st =? SECTION_ST_SET then str "SET" else str "failure" in
  let a := match _state (al w) with
           | ALARM_IDLE => str "OFF" | ALARM_ACTIVE => str "ACTIVE!" | ALARM_TIMEOUT => str "MEMORY"
           end in
  append_fmt (str "STATE %s, ALARM %s ") [ArgS s; ArgS a] c.

Definition date_args (t : rtc_t) : list fmt_arg :=
  [ArgD (year t); ArgD (month t); ArgD (day t); ArgD (hour t); ArgD (minute t); ArgD (second t)].

(** src/app/cmd.c:327-333 (_add_rtc) *)
Definition _add_rtc (e : cmd_env) : cst → cst :=
  append_fmt (str "%02d/%d/%d %d:%02d:%02d") (date_args (ev_rtc e)).

(** src/app/cmd.c:335-347 (_cmd_auth_string) *)
Definition _cmd_auth_string (auth : Z) : list Z :=
  if ACCESS_SYSTEM <=? auth then str "SYSTEM"
  else if ACCESS_ADMIN <=? auth then str "ADMIN"
  else if ACCESS_USER <=? auth then str "USER" else str "NONE".

(** src/app/cmd.c:277-285 (_cmd_ver) *)
Definition _cmd_ver (e : cmd_env) (text : list Z) (c : cst) : cst :=
  cmd_nl (append (ev_main_ver e)
    (append_fmt (str ": %s %s") [ArgS (ev_hw_name e); ArgS (ev_sw_version e)] (append_str text c))).

(** src/app/cmd.c:349-357 (_cmd_auth) *)
Definition _cmd_auth (e : cmd_env) (text : list Z) (c : cst) : cst :=
  cmd_nl (append (ev_main_ver e)
    (append_fmt (str ": %s") [ArgS (_cmd_auth_string (acc_auth (c_acc c)))] (append_str text c))).

(** One readable item as [CFG:<id>,"<text>"]. *)
(** src/app/cmd.c:384-387 (_cmd_cfg) *)
Definition cfg_line (text : list Z) (id : Z) (c : cst) : outcome (bool * cst) :=
  '(ok, t) ← cfg_read id (acc_auth (c_acc c)) (d_storage (c_dev c));
  Ok (ok, cmd_nl (append_str QUOTE (append_str t
            (append_fmt (str "%s:%d," ++ QUOTE) [ArgS text; ArgD id] c)))).

(** src/app/cmd.c:376-388 (_cmd_cfg) *)
Fixpoint cfg_lines (rows : list nat) (text : list Z) (c : cst) : outcome cst :=
  match rows with
  | [] => Ok c
  | i :: rows =>
      let id := cfg_table_get_id i in
      if id =? CFG_ID_END then Ok c
      else if negb (cfg_table_access_read id (acc_auth (c_acc c))) then cfg_lines rows text c
      else '(_, c) ← cfg_line text id c; cfg_lines rows text c
  end.

(** src/app/cmd.c:372-390 (_cmd_cfg) *)
Definition _cmd_cfg (text : list Z) (c : cst) : outcome cst := cfg_lines (seq 0 1000) text c.

(** Degrees and ten-thousandths of a degree of an angle in 1/6000 minutes. *)
(** src/app/cmd.c:478-481 (_cmd_gps) *)
Definition degrees (sec : Z) : Z * Z :=
  (u32 sec / (6000 * 60), u32 sec mod (6000 * 60) / (6000 * 60 / 10000)).

(** src/app/cmd.c:437-504 (_cmd_gps) *)
Definition _cmd_gps (text : list Z) (c : cst) : cst :=
  let c := append_fmt (str "%s: ") [ArgS text] c in
  let g := d_gps (c_dev c) in
  let '(ok, pos) := gps_get_stored_stamp g in
  if negb ok || (fix_ pos <? 1) then append_str (str "UNKNOWN" ++ NL) c
  else
    let '(lon, symb_lon) := if 0 <=? lon_sec pos then (lon_sec pos, 69) else (s32 (0 - lon_sec pos), 87) in
    let '(lat, symb_lat) := if 0 <=? lat_sec pos then (lat_sec pos, 78) else (s32 (0 - lat_sec pos), 83) in
    let '(lon_dg, lon_sub_dg) := degrees lon in
    let '(lat_dg, lat_sub_dg) := degrees lat in
    let t := n_time pos in
    let c := if rtc_valid t then
               let c := append_fmt (str "[GMT ") [ArgD (hour t); ArgD (minute t)] c in
               let c := if 24 * 60 * 60 * OS_TIMER_SECOND <? u32 (c_now c - fix_tm (g_pos g))
                        then append_fmt (str "%d/%d/%02d ") [ArgD (day t); ArgD (month t); ArgD (year t)] c
                        else c in
               append_str (str "] ") (append_fmt (str "%d:%02d") [ArgD (hour t); ArgD (minute t)] c)
             else c in
    let c := append_fmt (str "https://www.google.com/m?q=%c%d.%04u%c%d.%04u&site=maps ")
               [ArgD symb_lat; ArgD lat_dg; ArgD lat_sub_dg; ArgD symb_lon; ArgD lon_dg; ArgD lon_sub_dg] c in
    cmd_nl (append_fmt (str "speed=%.1f, alt=%d") [ArgF (speed pos) 10; ArgD (alt pos)] c).

(** src/app/inp.c:161-176 (inp_name) *)
Definition inp_name (pin : Z) : list Z :=
  match list_find (λ p, fst p = pin)
    [(0, str "KEY"); (1, str "LOCK"); (2, str "UNLOCK"); (3, str "DOOR"); (4, str "INP");
     (5, str "INP2"); (6, str "INP3"); (7, str "SHOCK"); (8, str "none")] with
  | Some (_, (_, n)) => n
  | None => str "unknown"
  end.

(** src/app/out.c:63-72 (out_name) *)
Definition out_name (pin : Z) : list Z :=
  if pin =? out_id_code OUT_LOCK then str "LOCK"
  else if pin =? out_id_code OUT_UNLOCK then str "UNLOCK"
  else if pin =? out_id_code OUT_SIREN then str "SIREN" else str "unknown".

(** The names of the set bits of a mask, separated by commas. *)
(** src/app/cmd.c:582-604 (_cmd_io) *)
Fixpoint io_names (name : Z → list Z) (mask : Z) (pins : list Z) (next : bool) (c : cst) : bool * cst :=
  match pins with
  | [] => (next, c)
  | i :: pins =>
      if negb (has mask (bit i)) then io_names name mask pins next c
      else
        let c := if next then append_str (str ",") c else c in
        io_names name mask pins true (append_str (name i) c)
  end.

(** src/app/cmd.c:569-614 (_cmd_io) *)
Definition _cmd_io (text : list Z) (c : cst) : cst :=
  let c := append_str (str "active: ") (append_fmt (str "%s: ") [ArgS text] c) in
  let '(next, c) := io_names inp_name (_inp_state (d_inp (c_dev c))) (seqZ 0 INP_SIZE) false c in
  let '(next, c) := io_names out_name (out_state (outs (al (d_sys (c_dev c))))) (seqZ 0 OUT_SIZE) next c in
  cmd_nl (if next then c else append_str (str "none") c).

(** The pins behind [system_io_state]. *)
Definition upd_outs (f : outputs → outputs) (w : system) : system :=
  let a := al w in
  set_al (Alarm (_state a) (_siren_state a) (_siren_tmr a) (_alarm_tmr a) (_alarm_cnt a) (f (outs a))) w.

Definition io_on (e : cmd_env) (b : Z) : cst → cst :=
  upd_dev (λ d, set_d_sys (upd_outs (system_io_activate (ev_wires e) b) (d_sys d)) d).
Definition io_off (e : cmd_env) (b : Z) : cst → cst :=
  upd_dev (λ d, set_d_sys (upd_outs (system_io_deactivate (ev_wires e) b) (d_sys d)) d).
Definition bypass (on : bool) : cst → cst :=
  upd_dev (λ d, set_d_inp (inp_set_bypass INP_LOCK on (d_inp d)) d).

(** src/app/cmd.c:32-32 (_LOCK_TIME) *)
Definition _LOCK_TIME : Z := 400.

(** src/app/cmd.c:616-626 (_cmd_lock) *)
Definition _cmd_lock (e : cmd_env) (c : cst) : cst :=
  bypass false (delay 10 (io_off e (io_bit SYSTEM_IO_LOCK) (delay _LOCK_TIME
    (io_on e (io_bit SYSTEM_IO_LOCK) (bypass true c))))).

Definition run_set (c : cst) : cst :=
  let '(w, l) := system_set (c_now c) (acc_source (c_acc c)) (d_sys (c_dev c)) in
  act (sys_acts l) (upd_dev (set_d_sys w) c).
Definition run_unset (e : cmd_env) (c : cst) : cst :=
  let '(w, l) := system_unset (ev_wires e) (c_now c) (acc_source (c_acc c)) (d_sys (c_dev c)) in
  act (sys_acts l) (upd_dev (set_d_sys w) c).

(** src/app/cmd.c:628-640 (_cmd_unlock) *)
Definition _cmd_unlock (e : cmd_env) (c : cst) : cst :=
  let c := if negb (system_state (d_sys (c_dev c)) =? SECTION_ST_UNSET) then run_unset e c else c in
  delay 10 (io_off e (io_bit SYSTEM_IO_UNLOCK) (delay _LOCK_TIME (io_on e (io_bit SYSTEM_IO_UNLOCK) c))).

(** src/app/cmd.c:642-649 (_cmd_rtc) *)
Definition _cmd_rtc (e : cmd_env) (text : list Z) (c : cst) : cst :=
  cmd_nl (_add_rtc e (append_fmt (str "%s: ") [ArgS text] c)).

(** src/app/cmd.c:651-665 (_cmd_set) *)
Definition _cmd_set (text : list Z) (c : cst) : cst :=
  cmd_nl (if system_state (d_sys (c_dev c)) =? SECTION_ST_SET then _add_state c
          else append_fmt (str "%s OK") [ArgS text] (run_set c)).

(** src/app/cmd.c:667-681 (_cmd_unset) *)
Definition _cmd_unset (e : cmd_env) (text : list Z) (c : cst) : cst :=
  cmd_nl (if system_state (d_sys (c_dev c)) =? SECTION_ST_UNSET then _add_state c
          else append_fmt (str "%s OK") [ArgS text] (run_unset e c)).

(** [update_start] works on the same flash. *)
(** src/app/cmd.c:683-686 (_cmd_update) *)
Definition _cmd_update (c : cst) : outcome (bool * cst) :=
  let d := c_dev c in
  '(ok, u) ← update_start (set_up_storage (d_storage d) (d_update d));
  Ok (ok, upd_dev (set_d_update u) c).

(** src/app/cmd.c:688-708 (_append_mem) *)
Fixpoint _append_mem (e : cmd_env) (back_index : nat) (first : bool) (num : nat) (c : cst) : outcome cst :=
  match num with
  | O => Ok c
  | S num =>
      let c := if first then c else append_str (str "; ") c in
      c ← match event_memory_read back_index (d_mem (c_dev c)) with
          | Some ev => l ← event_description (ev_rtc e) (d_storage (c_dev c)) ev; Ok (append l c)
          | None => Ok (append_str (str "-") c)
          end;
      _append_mem e (S back_index) false num c
  end.

(** src/app/cmd.c:710-715 (_cmd_mem) *)
Definition _cmd_mem (e : cmd_env) (c : cst) : outcome cst :=
  _append_mem e 0 true 3 (append_str (str "MEM: ") c).

(** src/app/cmd.c:743-762 (_cmd_net) *)
Definition _cmd_net (e : cmd_env) (c : cst) : cst :=
  let net := if ev_net_ok e then (if ev_lte e then str "LTE" else str "GSM") else str "no" in
  cmd_nl (append (ev_udp_info e) (cmd_nl
    (append_fmt (str "DATA: %s") [ArgS (if ev_udp_ready e then str "OK" else str "no")]
      (cmd_nl (append_str net (append_str (str "NET: ") c)))))).

(** src/app/cmd.c:764-778 (_cmd_status) *)
Definition _cmd_status (e : cmd_env) (c : cst) : cst :=
  let c := append_fmt (str "PWR: %.1f V, BAT: %.2f V") [ArgF (ev_main_mv e) 1000; ArgF (ev_batt_mv e) 1000]
             (cmd_nl (_add_state c)) in
  let c := if ev_batt_ok e then c else append_fmt (str " test FAIL") [] c in
  cmd_nl (append_fmt (str "T: %.1f C") [ArgF (fst (ev_temp e)) (snd (ev_temp e))] (cmd_nl c)).

(** src/app/cmd.c:420-424 (_cmd_echo) *)
Definition _cmd_echo (e : cmd_env) (text : list Z) (c : cst) : cst :=
  append_fmt (str "%s: %d") [ArgS text; ArgD (if ev_modem_echo e then 1 else 0)] c.

(** src/app/cmd.c:546-551 (_cmd_dl) *)
Definition _cmd_dl (e : cmd_env) (text : list Z) (c : cst) : cst :=
  cmd_nl (append_fmt (str "%s: %d,%d") [ArgS text; ArgD (fst (ev_debug e)); ArgD (snd (ev_debug e))] c).

(** ** Handlers with a parameter

    [p] is the text after [=]; they return what is left of it. *)

(** src/app/cmd.c:359-370 (_cmd_auth_set) *)
Definition _cmd_auth_set (p : list Z) (c : cst) : outcome (bool * list Z * cst) :=
  match cmd_fetch_string p CFG_ITEM_SIZE with
  | None => Ok (false, p, c)
  | Some (tmp, p) =>
      '(n, a) ← cmd_get_password_access (d_storage (c_dev c)) (c_acc c) tmp;
      Ok (negb (n =? 0)%nat, p, put_acc a c)
  end.

(** src/app/cmd.c:392-418 (_cmd_cfg_set) *)
Definition _cmd_cfg_set (text p : list Z) (c : cst) : outcome (bool * list Z * cst) :=
  match cmd_fetch_num p with
  | None => Ok (false, p, c)
  | Some (cfg_id, p) =>
      match cmd_fetch_separator p with
      | None =>
          '(ok, t) ← cfg_read (u16 cfg_id) (acc_auth (c_acc c)) (d_storage (c_dev c));
          Ok (ok : bool, p, cmd_nl (append_str QUOTE (append_str t
                (append_fmt (str "%s:%d," ++ QUOTE) [ArgS text; ArgD cfg_id] c))))
      | Some p =>
          match cmd_fetch_string p CFG_ITEM_SIZE with
          | None => Ok (false, p, c)
          | Some (tmp, p) =>
              let '(ok, s, r) := cfg_write (u16 cfg_id) (buf_full tmp) (acc_auth (c_acc c))
                                   (d_storage (c_dev c)) in
              Ok (ok, p, act [AcReinit r] (upd_dev (set_d_storage s) c))
          end
      end
  end.

(** src/app/cmd.c:426-435 (_cmd_echo_set) *)
Definition _cmd_echo_set (p : list Z) (c : cst) : bool * list Z * cst :=
  match cmd_fetch_num p with
  | None => (false, p, c)
  | Some (num, p) => (true, p, act [AcModemEcho (negb (num =? 0))] c)
  end.

(** src/app/cmd.c:507-518 (_cmd_gps_set) *)
Definition _cmd_gps_set (p : list Z) (c : cst) : bool * list Z * cst :=
  match cmd_fetch_num p with
  | None => (false, p, c)
  | Some (num, p) =>
      (true, p, upd_dev (λ d, set_d_gps (gps_temporary_start_tmout (60 * 60) (d_gps d)) (Z.land num 255) d) c)
  end.

(** The reset does not return; the model records it and goes on. *)
(** src/app/cmd.c:520-544 (_cmd_reboot_set) *)
Definition _cmd_reboot_set (p : list Z) (c : cst) : bool * list Z * cst :=
  match cmd_fetch_num p with
  | None => (false, p, c)
  | Some (num, p) =>
      (false, p, if num =? 0 then act [AcReset false] c
                 else if num =? 1 then act [AcReset true] c else c)
  end.

(** src/app/cmd.c:553-567 (_cmd_dl_set) *)
Definition _cmd_dl_set (p : list Z) (c : cst) : bool * list Z * cst :=
  match cmd_fetch_num p with
  | None => (false, p, c)
  | Some (num, p) =>
      let c := act [AcDebugLevel num] c in
      match cmd_fetch_separator p with
      | None => (true, p, c)
      | Some p =>
          match cmd_fetch_num p with
          | None => (true, p, c)
          | Some (num, p) => (true, p, act [AcDebugSelect num] c)
          end
      end
  end.

(** src/app/cmd.c:717-741 (_cmd_mem_set) *)
Definition _cmd_mem_set (e : cmd_env) (p : list Z) (c : cst) : outcome (bool * list Z * cst) :=
  let print index num p :=
    if (index <? 0) || (50 <? num) then Ok (false, p, c)
    else
      c ← _append_mem e (Z.to_nat index) true (Z.to_nat num)
            (append_fmt (str "MEM -%ld: ") [ArgD index] c);
      Ok (true, p, c) in
  match cmd_fetch_num p with
  | None => Ok (false, p, c)
  | Some (index, p) =>
      match cmd_fetch_separator p with
      | None => print index 3 p
      | Some p =>
          match cmd_fetch_num p with
          | None => Ok (false, p, c)
          | Some (num, p) => if num <? 1 then Ok (false, p, c) else print index num p
          end
      end
  end.

(** src/app/cmd.c:287-291 (_cmd_at) *)
Definition _cmd_at (e : cmd_env) (p : list Z) (c : cst) : bool * list Z * cst :=
  (true, p, append (ev_at_reply e p) (act [AcAt p] c)).

(** src/app/cmd.c:293-305 (_cmd_ble) *)
Definition _cmd_ble (p : list Z) (c : cst) : bool * list Z * cst := (true, p, act [AcBle p] c).

(** src/app/cmd.c:157-168 (_cmd_modem) *)
Definition _cmd_modem (e : cmd_env) (p : list Z) (c : cst) : bool * list Z * cst :=
  if acc_auth (c_acc c) <? ACCESS_ADMIN then (false, p, c)
  else match cmd_fetch_num p with
       | None => (false, p, c)
       | Some (num, p) => (ev_modem_command e num, p, act [AcModem num] c)
       end.

(** [sms] is [cmd_sms_process], which runs commands again. *)
(** src/app/cmd.c:83-155 (_cmd_dbg) *)
Definition _cmd_dbg (e : cmd_env) (sms : list Z → cst → outcome (bool * cst)) (p : list Z) (c : cst)
    : outcome (bool * list Z * cst) :=
  if acc_auth (c_acc c) <? ACCESS_ADMIN then Ok (false, p, c)
  else
    match cmd_fetch_num p with
    | None => Ok (false, p, c)
    | Some (num, p) =>
        if num =? 1 then Ok (ev_net_connect e, p, act [AcNetConnect] c)
        else if num =? 2 then Ok (true, p, act [AcDataDisconnect] c)
        else if num =? 3 then Ok (ev_udp_tx e, p, act [AcUdpTest] c)
        else if num =? 10 then Ok (ev_tracer_test e, p, act [AcTracerTest] c)
        else if num =? 20 then
          match cmd_fetch_separator p with
          | None => Ok (false, p, c)
          | Some p => '(ok, c) ← sms p c; Ok (ok : bool, p, c)
          end
        else if num =? 30 then
          Ok (true, p, upd_dev (λ d, set_d_sys (set_al (alarm_trigger (ev_wires e) (al (d_sys d))) (d_sys d)) d) c)
        else if num =? 40 then Ok (true, p, act [AcShockDebug] c)
        else if num =? 50 then Ok (true, p, act [AcEventDebug] c)
        else if num =? 60 then Ok (true, p, act [AcUart4 9600] c)
        else if num =? 61 then Ok (true, p, act [AcUart4 115200] c)
        else Ok (true, p, c)
    end.

(** ** The table *)

(** The functions a row can name. *)
Inductive pfunc_t :=
  | F_auth | F_cfg | F_gps | F_help | F_io | F_lock | F_mem | F_net | F_rtc | F_set | F_status
  | F_unlock | F_unset | F_update | F_ver | F_dl | F_echo.
Inductive pfunc_set_t :=
  | S_auth | S_cfg | S_gps | S_mem | S_reboot | S_at | S_ble | S_dbg | S_modem | S_dl | S_echo.

(** src/app/cmd.h:37-47 (cmd_t) *)
Record cmd_t := Cmd {
  cmd_text : list Z;
  pfunc : option pfunc_t;
  pfunc_set : option pfunc_set_t;
  cmd_auth : access_level;
  help : option (list Z)
}.

(** src/app/cmd.c:36-60 (_CMD_TABLE_VALUES) *)
Definition _CMD_TABLE : list cmd_t :=
  [Cmd (str "AUTH") (Some F_auth) (Some S_auth) ACCESS_NONE
     (Some (str "authorize channel AUTH=" ++ QUOTE ++ str "pass" ++ QUOTE));
   Cmd (str "CFG") (Some F_cfg) (Some S_cfg) ACCESS_USER
     (Some (str "CFG=<n>[," ++ QUOTE ++ str "value" ++ QUOTE ++ str "]"));
   Cmd (str "GPS") (Some F_gps) (Some S_gps) ACCESS_USER (Some (str "get GPS coordinates"));
   Cmd (str "HELP") (Some F_help) None ACCESS_NONE (Some (str "Show this help text"));
   Cmd (str "IO") (Some F_io) None ACCESS_USER (Some (str "get IO state"));
   Cmd (str "LOCK") (Some F_lock) None ACCESS_USER (Some (str "lock pulse"));
   Cmd (str "MEM") (Some F_mem) (Some S_mem) ACCESS_USER (Some (str "Get event memory"));
   Cmd (str "NET") (Some F_net) None ACCESS_USER (Some (str "Get network info"));
   Cmd (str "REBOOT") None (Some S_reboot) ACCESS_ADMIN (Some (str "REBOOT=<n>"));
   Cmd (str "RTC") (Some F_rtc) None ACCESS_USER (Some (str "get RTC time"));
   Cmd (str "SET") (Some F_set) None ACCESS_USER (Some (str "switch to set"));
   Cmd (str "STATUS") (Some F_status) None ACCESS_USER (Some (str "Get status info"));
   Cmd (str "UNLOCK") (Some F_unlock) None ACCESS_USER (Some (str "unlock pulse"));
   Cmd (str "UNSET") (Some F_unset) None ACCESS_USER (Some (str "switch to unset"));
   Cmd (str "UPDATE") (Some F_update) None ACCESS_ADMIN (Some (str "request to update FW from server"));
   Cmd (str "VER") (Some F_ver) None ACCESS_NONE (Some (str "Request product information"));
   Cmd (str "AT") None (Some S_at) ACCESS_SYSTEM (Some (str "send AT-command"));
   Cmd (str "BLE") None (Some S_ble) ACCESS_SYSTEM (Some (str "send cmd to BLE module"));
   Cmd (str "DBG") None (Some S_dbg) ACCESS_SYSTEM None;
   Cmd (str "MODEM") None (Some S_modem) ACCESS_SYSTEM None;
   Cmd (str "DL") (Some F_dl) (Some S_dl) ACCESS_SYSTEM (Some (str "set debug level[,select]"));
   Cmd (str "ECHO") (Some F_echo) (Some S_echo) ACCESS_SYSTEM (Some (str "get/set modem echo"))].

(** src/app/cmd.c:780-817 (_cmd_build_help) *)
Fixpoint _cmd_build_help (table : list cmd_t) (full : bool) (auth : Z) (c : cst) : cst :=
  match table with
  | [] => c
  | r :: table =>
      match help r with
      | None | Some [] => _cmd_build_help table full auth c
      | Some h =>
          if auth <? cmd_auth r then _cmd_build_help table full auth c
          else match cmd_text r with
               | [] => c
               | _ =>
                   let c := append_str (cmd_text r) c in
                   let c := if full then append_str h (append_str (str ": ") c) else c in
                   _cmd_build_help table full auth (cmd_nl c)
               end
      end
  end.

(** src/app/cmd.c:819-823 (_cmd_help) *)
Definition _cmd_help (c : cst) : cst := _cmd_build_help _CMD_TABLE true (acc_auth (c_acc c)) c.

(** [cmd->pfunc (result, cmd, access)] *)
(** src/app/cmd.c:1045-1045 (_process_cmd) *)
Definition call_pfunc (e : cmd_env) (f : pfunc_t) (text : list Z) (c : cst) : outcome (bool * cst) :=
  let done c := Ok (true, c) in
  match f with
  | F_auth => done (_cmd_auth e text c)
  | F_cfg => c ← _cmd_cfg text c; done c
  | F_gps => done (_cmd_gps text c)
  | F_help => done (_cmd_help c)
  | F_io => done (_cmd_io text c)
  | F_lock => done (_cmd_lock e c)
  | F_mem => c ← _cmd_mem e c; done c
  | F_net => done (_cmd_net e c)
  | F_rtc => done (_cmd_rtc e text c)
  | F_set => done (_cmd_set text c)
  | F_status => done (_cmd_status e c)
  | F_unlock => done (_cmd_unlock e c)
  | F_unset => done (_cmd_unset e text c)
  | F_update => _cmd_update c
  | F_ver => done (_cmd_ver e text c)
  | F_dl => done (_cmd_dl e text c)
  | F_echo => done (_cmd_echo e text c)
  end.

(** [cmd->pfunc_set (result, cmd, pptext, access)] *)
(** src/app/cmd.c:1029-1029 (_process_cmd) *)
Definition call_pfunc_set (e : cmd_env) (sms : list Z → cst → outcome (bool * cst)) (f : pfunc_set_t)
    (text p : list Z) (c : cst) : outcome (bool * list Z * cst) :=
  match f with
  | S_auth => _cmd_auth_set p c
  | S_cfg => _cmd_cfg_set text p c
  | S_gps => Ok (_cmd_gps_set p c)
  | S_mem => _cmd_mem_set e p c
  | S_reboot => Ok (_cmd_reboot_set p c)
  | S_at => Ok (_cmd_at e p c)
  | S_ble => Ok (_cmd_ble p c)
  | S_dbg => _cmd_dbg e sms p c
  | S_modem => Ok (_cmd_modem e p c)
  | S_dl => Ok (_cmd_dl_set p c)
  | S_echo => Ok (_cmd_echo_set p c)
  end.

(** ** Finding and running commands *)

(** src/app/cmd.h:14-14 (CMD_MAX_LEN) *)
Definition CMD_MAX_LEN : nat := 64.

(** [text[i]], the terminating NUL included. *)
Definition char_at (text : list Z) (i : nat) : Z := default 0 (text !! i).

(** The length of the word at the start of the text; 0 when it is too long. *)
(** src/app/cmd.c:934-942 (_find_cmd) *)
Fixpoint word_len (n i : nat) (text : list Z) : nat :=
  match n with
  | O => O
  | S n => if negb (is_char (char_at text i)) then i else word_len n (S i) text
  end.

(** [found] and [found_id] of the scan, or the row whose whole name it is. *)
(** src/app/cmd.c:944-974 (_find_cmd) *)
Fixpoint scan_cmd (table : list cmd_t) (text : list Z) (text_l : nat) (auth : Z)
    (found : nat) (found_id : option cmd_t) : nat * option cmd_t * option cmd_t :=
  match table with
  | [] => (found, found_id, None)
  | r :: table =>
      let l := length (cmd_text r) in
      if (l =? 0)%nat then (found, found_id, None)
      else if auth <? cmd_auth r then scan_cmd table text text_l auth found found_id
      else
        let '(found, found_id) :=
          if (text_l <? l)%nat && (0 <? text_l)%nat && (strnicmp text (cmd_text r) text_l =? 0)
          then (S found, Some r) else (found, found_id) in
        if (strnicmp text (cmd_text r) l =? 0) && negb (is_char (char_at text l))
        then (found, found_id, Some r)
        else scan_cmd table text text_l auth found found_id
  end.

(** The row and the text after the name. *)
(** src/app/cmd.c:927-983 (_find_cmd) *)
Definition _find_cmd (table : list cmd_t) (text : list Z) (auth : Z) : option (cmd_t * list Z) :=
  let text_l := word_len CMD_MAX_LEN 0 text in
  let '(found, found_id, hit) := scan_cmd table text text_l auth 0 None in
  match hit with
  | Some r => Some (r, drop (length (cmd_text r)) text)
  | None => if (found =? 1)%nat then (λ r, (r, drop text_l text)) <$> found_id else None
  end.

(** src/app/cmd.c:1017-1046 (_process_cmd) *)
Definition _process_cmd (e : cmd_env) (sms : list Z → cst → outcome (bool * cst)) (r : cmd_t)
    (p : list Z) (c : cst) : outcome (bool * list Z * cst) :=
  let p := _skip_spaces p in
  let ch := char_at p 0 in
  if ch =? 61 then                                                          (* '=' *)
    match pfunc_set r with
    | None => Ok (false, p, cmd_error CMD_ERR_MSG_INVALID_PARAM c)
    | Some f => call_pfunc_set e sms f (cmd_text r) (_skip_spaces (drop 1 p)) c
    end
  else if negb (ch =? 63) && negb (ch =? 0) && negb (ch =? 59) then         (* '?' '\0' ';' *)
    Ok (false, p, cmd_error (str "illegal parameter") c)
  else
    match pfunc r with
    | None => Ok (false, p, cmd_error CMD_ERR_MSG_MISSING_PARAM c)
    | Some f => '(ok, c) ← call_pfunc e f (cmd_text r) c; Ok (ok : bool, p, c)
    end.

(** [run] is [cmd_process_text]; the access of the caller is not touched. *)
(** src/app/cmd.c:1137-1156 (cmd_sms_process) *)
Definition sms_process (e : cmd_env) (run : list Z → cst → outcome (bool * cst)) (text : list Z) (c : cst)
    : outcome (bool * cst) :=
  let p := _skip_spaces text in
  '(n, a) ← cmd_get_password_access (d_storage (c_dev c))
              (Access ACCESS_NONE 0 EVENT_SOURCE_UNKNOWN EVENT_SOURCE_UNKNOWN) p;
  if acc_auth a <=? ACCESS_NONE then Ok (false, c)
  else
    '(_, c') ← run (_skip_spaces (drop n p)) (put_acc a c);
    Ok (true, _add_rtc e (put_acc (c_acc c) c')).

(** Each round consumes a [;] and the nested call of [DBG=20] its own prefix,
    so that the length of the text is fuel enough. *)
(** src/app/cmd.c:1048-1076 (cmd_process_text) *)
Fixpoint process_text (fuel : nat) (e : cmd_env) (text : list Z) (c : cst) : outcome (bool * cst) :=
  match fuel with
  | O => Err FAssert
  | S fuel =>
      let p := _skip_spaces text in
      match p with
      | [] => Ok (true, c)
      | _ =>
          match _find_cmd _CMD_TABLE p (acc_auth (c_acc c)) with
          | None => Ok (false, cmd_error CMD_ERR_MSG_UNKNOWN_COMMAND c)
          | Some (r, p) =>
              '(ok, p, c) ← _process_cmd e (sms_process e (process_text fuel e)) r p c;
              if negb (ok : bool) then Ok (false, c)
              else match _skip_spaces p with
                   | ch :: p => if ch =? 59 then process_text fuel e p c else Ok (true, c)
                   | [] => Ok (true, c)
                   end
          end
      end
  end.

(** src/app/cmd.c:1048-1076 (cmd_process_text) *)
Definition cmd_process_text (e : cmd_env) (text : list Z) (c : cst) : outcome (bool * cst) :=
  process_text (S (length text)) e text c.

(** src/app/cmd.c:1137-1156 (cmd_sms_process) *)
Definition cmd_sms_process (e : cmd_env) (text : list Z) (c : cst) : outcome (bool * cst) :=
  sms_process e (cmd_process_text e) text c.

(** ** Channels *)

(** src/app/access.h:13-14 (ACCESS_UART_TIMEOUT, ACCESS_BLE_TIMEOUT) *)
Definition ACCESS_UART_TIMEOUT : Z := 3600 * OS_TIMER_SECOND.
Definition ACCESS_BLE_TIMEOUT : Z := 120 * OS_TIMER_SECOND.

(** A channel's access after [tmout] without a command. *)
(** src/app/app.c:259-262 (_ble_rx_parser) *)
Definition access_aged (now tmout : Z) (a : access_t) : access_t :=
  let auth := if u32 (acc_time a + tmout) <? now then access_level_code ACCESS_NONE else acc_auth a in
  Access auth now (acc_source a) (acc_channel a).

(** The reply is printed when the result is true. *)
(** src/app/main.c:179-204 (main_cmd_process) *)
Definition main_cmd_process (e : cmd_env) (data : list Z) (c : cst) : outcome (bool * cst) :=
  cmd_process_text e data (put_acc (access_aged (c_now c) ACCESS_UART_TIMEOUT (c_acc c)) c).

(** src/app/app.c:253-278 (_ble_rx_parser) *)
Definition _ble_rx_parser (e : cmd_env) (data : list Z) (c : cst) : outcome (bool * cst) :=
  cmd_process_text e data (put_acc (access_aged (c_now c) ACCESS_BLE_TIMEOUT (c_acc c)) c).

(** src/app/app.c:280-290 (_ble_access_update) *)
Definition _ble_access_update (connected : bool) (a : access_t) : access_t :=
  if acc_auth a =? ACCESS_NONE then a
  else if negb connected then Access ACCESS_NONE (acc_time a) (acc_source a) (acc_channel a) else a.

End cmd.
