(* ===== verification/TracerProto.v ===== *)
(** * Tracking protocols (app/tracer/tracer_h02.c, app/tracer/tracer_sia.c)

    What the tracker sends to its server, one message per point, and which
    answers it takes for an acknowledgement.  The C structure of function
    pointers [tracer_proto_t] is a record of operations on the statics of both
    modules; [ProtoLaws] states what the tracker relies on, and both protocols
    are instances. *)

From Stdlib Require Import SpecFloat.
From S2P Require Import Prelude CText EventTypes EventBuf Storage EventMemory EventQueue Out.
From S2P Require Import Alarm ArmSection System Cfg SiaIp NetTarget Cms EventTask Nmea.

(** ** Additional information of a point *)

(** src/app/tracer/tracer.h:6-15 (track_info_t) *)
Record track_info := TrackInfo {
  driver_id : Z;      (* 7 bits *)
  track_type : Z;     (* 1 bit *)
  ti_inputs : Z;      (* 8 bits *)
  ti_outputs : Z;     (* 8 bits *)
  ti_res : Z          (* 8 bits *)
}.

(** The word [dw] over the bit fields, and back. *)
(** src/app/tracer/tracer.h:6-15 (track_info_t) *)
Definition info_dw (i : track_info) : Z :=
  driver_id i mod 128 + 128 * (track_type i mod 2) + 256 * (ti_inputs i mod 256)
  + 65536 * (ti_outputs i mod 256) + 16777216 * (ti_res i mod 256).
(** src/app/tracer/tracer.h:6-15 (track_info_t) *)
Definition dw_info (dw : Z) : track_info :=
  TrackInfo (dw mod 128) (dw / 128 mod 2) (dw / 256 mod 256) (dw / 65536 mod 256)
    (dw / 16777216 mod 256).

(** src/app/tracer/tracer.h:18-24 (TRACER_INP_PANIC .. TRACER_INP_INP3) *)
Definition TRACER_INP_PANIC : Z := bit 0.
Definition TRACER_INP_KEY : Z := bit 3.
Definition TRACER_INP_DOOR : Z := bit 4.
Definition TRACER_INP_SHOCK : Z := bit 5.

(** src/app/tracer/tracer.h:26-26 (TRACER_PACKET_BUFFER_SIZE) *)
Definition TRACER_PACKET_BUFFER_SIZE : Z := 256.

Lemma dw_info_dw i :
  0 ≤ driver_id i < 128 → 0 ≤ track_type i < 2 → 0 ≤ ti_inputs i < 256 → 0 ≤ ti_outputs i < 256 →
  0 ≤ ti_res i < 256 → dw_info (info_dw i) = i.
Proof.
  destruct i as [d t n o r]. unfold dw_info, info_dw. cbn. intros.
  rewrite (Z.mod_small d), (Z.mod_small t), (Z.mod_small n), (Z.mod_small o), (Z.mod_small r) by lia.
  f_equal; Z.div_mod_to_equations; lia.
Qed.

(** ** The statics of the protocol modules *)

(** [ps_buffer]: the characters in the shared [tracer_packet_buffer];
    [sia_packet] is a [buf_t] over it, of length [ps_sia_len]. *)
(** src/app/tracer/tracer_h02.c:12-13 (_unit_id, _packet_len) *)
Record proto_state := ProtoState {
  h02_unit : Z;
  h02_packet_len : Z;
  ps_sia : sia_state;
  sia_packet_ok : bool;
  ps_sia_len : Z;
  ps_buffer : list Z
}.

(** The SDK's [parse_pattern]: what follows the pattern at the start of the text. *)
Class PatternLib := {
  parse_pattern : list Z → list Z → option (list Z);
  parse_pattern_app : ∀ pat r, parse_pattern (pat ++ r) pat = Some r
}.

Section protocols.
Context `{F : FlashLib} `{P : PatternLib} `{N : ParseLib}.

(** The optional operations are never called; [new_track] is empty in both
    protocols.  [new_point] reads the configured names and the clock (SIA). *)
(** src/app/tracer/tracer_proto.h:12-26 (tracer_proto_t) *)
Record tracer_proto_t := TracerProto {
  p_reinit : Z → proto_state → proto_state;
  p_packet_ready : proto_state → bool;
  p_packet_done : proto_state → proto_state;
  p_packet_size : proto_state → Z;
  p_packet_reply_ok : list Z → proto_state → outcome bool;
  p_new_point : storage → rtc_t → nmea_data → Z → proto_state → outcome proto_state
}.

(** *** H02 *)

(** src/app/tracer/tracer_h02.c:15-20 (tracer_h02_reinit) *)
Definition tracer_h02_reinit (unit_id : Z) (p : proto_state) : proto_state :=
  ProtoState unit_id 0 (ps_sia p) (sia_packet_ok p) (ps_sia_len p) (ps_buffer p).

(** src/app/tracer/tracer_h02.c:27-30 (tracer_h02_packet_size) *)
Definition tracer_h02_packet_size (p : proto_state) : Z := u16 (h02_packet_len p + 1).
(** src/app/tracer/tracer_h02.c:37-40 (tracer_h02_packet_ready) *)
Definition tracer_h02_packet_ready (p : proto_state) : bool := negb (h02_packet_len p =? 0).
(** src/app/tracer/tracer_h02.c:42-45 (tracer_h02_packet_done) *)
Definition tracer_h02_packet_done (p : proto_state) : proto_state :=
  ProtoState (h02_unit p) 0 (ps_sia p) (sia_packet_ok p) (ps_sia_len p) (ps_buffer p).

(** src/app/tracer/tracer_h02.c:47-76 (tracer_h02_packet_reply_ok) *)
Definition tracer_h02_packet_reply_ok (data : list Z) (p : proto_state) : outcome bool :=
  if Z.of_nat (length data) <? 11 then Ok false
  else
    match parse_pattern data (str "*HQ,") with
    | None => Ok false
    | Some r =>
        match parse_number r with
        | None => Ok false
        | Some (id, r) =>
            if negb (u32 id =? h02_unit p) then Ok false
            else match parse_pattern r (str ",V4,V1") with None => Ok false | Some _ => Ok true end
        end
    end.

(** src/app/tracer/tracer_h02.c:80-86 (H02_STATUS_VIBRATION .. H02_STATUS_POWER_CUT) *)
Definition H02_STATUS_VIBRATION : Z := bit 0.
Definition H02_STATUS_IGNITION : Z := bit 10.
Definition H02_STATUS_DOOR : Z := bit 16.
Definition H02_STATUS_POWER_CUT : Z := bit 19.
(** src/app/tracer/tracer_h02.c:89-89 (TRACK_RES_POWER_FAIL) *)
Definition TRACK_RES_POWER_FAIL : Z := bit 1.

(** src/app/tracer/tracer_h02.c:91-108 (_status_build) *)
Definition _status_build (i : track_info) : Z :=
  let status := clr 4294967295 (Z.lor H02_STATUS_IGNITION H02_STATUS_DOOR) in
  let status := if has (ti_inputs i) (Z.lor TRACER_INP_PANIC TRACER_INP_SHOCK)
                then clr status H02_STATUS_VIBRATION else status in
  let status := if has (ti_inputs i) TRACER_INP_KEY then Z.lor status H02_STATUS_IGNITION else status in
  let status := if has (ti_inputs i) TRACER_INP_DOOR then Z.lor status H02_STATUS_DOOR else status in
  if has (ti_res i) TRACK_RES_POWER_FAIL then clr status H02_STATUS_POWER_CUT else status.

(** Degrees ([%0nd]), minutes and their fraction of hundredths of a second, with
    the letter of the hemisphere. *)
(** src/app/tracer/tracer_h02.c:132-138 (tracer_h02_new_point) *)
Definition h02_coordinate (n : nat) (v plus minus : Z) : list Z :=
  let symbol := if 0 <=? v then plus else minus in
  let sec := Z.abs v in
  let dg := sec / (6000 * 60) in
  let sec := sec mod (6000 * 60) in
  let min := sec / 6000 in
  let sec := sec mod 6000 in
  let sub_min := u32 (10000 * sec) / 6000 in
  print_pad n dg ++ print_pad 2 min ++ [46] ++ print_pad 4 sub_min ++ [44; symbol; 44].

(** The hundredths of a knot, in the floating-point numbers of the code: the
    product is a [float], 1.852 and the quotient are [double]s, the quotient is
    rounded to a [float] and truncated. *)
Definition f64 (n : Z) : spec_float := binary_normalize 53 1024 n 0 false.
Definition to_f32 (x : spec_float) : spec_float :=
  match x with S754_finite s m e => binary_round 24 128 s m e | _ => x end.
Definition f_trunc (x : spec_float) : Z :=
  match x with
  | S754_finite false m e => if 0 <=? e then Z.pos m * 2 ^ e else Z.pos m / 2 ^ (- e)
  | _ => 0
  end.
(** src/app/tracer/tracer_h02.c:153-155 (tracer_h02_new_point) *)
Definition h02_knots (speed : Z) : Z :=
  f_trunc (to_f32 (SFdiv 53 1024 (f64 (10 * speed)) (SFdiv 53 1024 (f64 1852) (f64 1000)))).

(** src/app/tracer/tracer_h02.c:118-176 (tracer_h02_new_point) *)
Definition h02_message (unit_id : Z) (pos : nmea_data) (info : track_info) : list Z :=
  let status := _status_build info in
  let t := n_time pos in
  let s := h02_knots (speed pos) in
  str "*HQ," ++ print_dec unit_id ++ str ",V1,"
  ++ print_pad 2 (hour t) ++ print_pad 2 (minute t) ++ print_pad 2 (second t) ++ [44]
  ++ [if fix_ pos =? 0 then 86 else 65; 44]
  ++ h02_coordinate 2 (lat_sec pos) 78 83
  ++ h02_coordinate 3 (lon_sec pos) 69 87
  ++ print_pad 3 (s / 100) ++ [46] ++ print_pad 2 (s mod 100) ++ [44]
  ++ print_pad 3 (angle pos) ++ [44]
  ++ (if fix_ pos =? 0 then str "010100,"
      else print_pad 2 (day t) ++ print_pad 2 (month t) ++ print_pad 2 (year t) ++ [44])
  ++ hex_fixed 8 status ++ [35].

(** src/app/tracer/tracer_h02.c:110-181 (tracer_h02_new_point) *)
Definition tracer_h02_new_point (s : storage) (now : rtc_t) (pos : nmea_data) (info : Z) (p : proto_state)
    : outcome proto_state :=
  let text := h02_message (h02_unit p) pos (dw_info info) in
  Ok (ProtoState (h02_unit p) (Z.of_nat (length text) - 1) (ps_sia p) (sia_packet_ok p) (ps_sia_len p) text).

(** src/app/tracer/tracer_h02.c:191-202 (tracer_proto_h02) *)
Definition tracer_proto_h02 : tracer_proto_t :=
  TracerProto tracer_h02_reinit tracer_h02_packet_ready tracer_h02_packet_done tracer_h02_packet_size
    tracer_h02_packet_reply_ok tracer_h02_new_point.

(** *** SIA *)

(** src/app/tracer/tracer_sia.c:17-24 (tr_sia_reinit) *)
Definition tr_sia_reinit (unit_id : Z) (p : proto_state) : proto_state :=
  let i := cms_sia_ip_init in
  ProtoState (h02_unit p) (h02_packet_len p)
    (SiaState unit_id (sia_cnt i) (prefix i) (enable_event_name i) (enable_event_time i) (enable_time_stamp i))
    false 0 (ps_buffer p).

(** src/app/tracer/tracer_sia.c:31-34 (tr_sia_packet_size) *)
Definition tr_sia_packet_size (p : proto_state) : Z := u16 (ps_sia_len p).
(** src/app/tracer/tracer_sia.c:40-43 (tr_sia_packet_ready) *)
Definition tr_sia_packet_ready (p : proto_state) : bool := sia_packet_ok p.
(** src/app/tracer/tracer_sia.c:50-54 (tr_sia_packet_done) *)
Definition tr_sia_packet_done (p : proto_state) : proto_state :=
  ProtoState (h02_unit p) (h02_packet_len p) (ps_sia p) false 0 (ps_buffer p).

(** A NAK is logged and counts as the reply too. *)
(** src/app/tracer/tracer_sia.c:56-74 (tr_sia_packet_reply_ok) *)
Definition tr_sia_packet_reply_ok (data : list Z) (p : proto_state) : outcome bool :=
  r ← cms_sia_ip_rx_ack (ps_sia p) data;
  match r : option (Z * bool) with
  | None => Ok false
  | Some (ack_seq, is_nak) => if negb (ack_seq =? sia_cnt (ps_sia p)) then Ok false else Ok true
  end.

(** [%04d], also of negative values. *)
Definition print_pad_signed (n : nat) (v : Z) : list Z :=
  if v <? 0 then 45 :: print_pad (n - 1) (- v) else print_pad n v.

(** src/app/tracer/tracer_sia.c:108-113 (tr_sia_new_point) *)
Definition sia_coordinate (n : nat) (v axis plus minus : Z) : list Z :=
  let c := if v <? 0 then minus else plus in
  let a := if v <? 0 then 0 - v else v in
  let s := a / (60 * 60 * 100) in
  let a := a mod (60 * 60 * 100) in
  let m := a / (60 * 100) in
  let a := a mod (60 * 100) in
  let f := a / 60 in
  [91; axis] ++ print_pad n s ++ [c] ++ print_pad 2 m ++ [46] ++ print_pad 2 f ++ str "0]".

(** src/app/tracer/tracer_sia.c:107-125 (tr_sia_new_point) *)
Definition sia_location (pos : nmea_data) : list Z :=
  sia_coordinate 3 (lon_sec pos) 88 69 87 ++ sia_coordinate 2 (lat_sec pos) 89 78 83
  ++ str "[Z" ++ print_pad_signed 4 (alt pos) ++ str "M]".

(** The tracking event has a message code, so that the call never returns
    without a message ([sia_tracking_code]). *)
(** src/app/tracer/tracer_sia.c:76-130 (tr_sia_new_point) *)
Definition tr_sia_new_point (s : storage) (now : rtc_t) (pos : nmea_data) (info : Z) (p : proto_state)
    : outcome proto_state :=
  if sia_packet_ok p then Ok p
  else
    let e := Event 0 (n_time pos) EVENT_ID_TRACKING EVENT_SOURCE_UNIT in
    let st := set_cnt (next_cnt (sia_cnt (ps_sia p))) (ps_sia p) in
    m ← cms_sia_ip_build_msg s st now e (Some (sia_location pos));
    let m := default [] (m : option (list Z)) in
    Ok (ProtoState (h02_unit p) (h02_packet_len p) st true (Z.of_nat (length m)) m).

(** src/app/tracer/tracer_sia.c:140-151 (tracer_proto_sia) *)
Definition tracer_proto_sia : tracer_proto_t :=
  TracerProto tr_sia_reinit tr_sia_packet_ready tr_sia_packet_done tr_sia_packet_size
    tr_sia_packet_reply_ok tr_sia_new_point.

(** ** What the tracker relies on *)

(** The unit the messages of both modules name. *)
Definition proto_unit (p : proto_state) : Z * Z := (h02_unit p, account (ps_sia p)).

Class ProtoLaws (p : tracer_proto_t) := {
  reinit_idle : ∀ u x, p_packet_ready p (p_reinit p u x) = false;
  done_idle : ∀ x, p_packet_ready p (p_packet_done p x) = false;
  point_ready : ∀ s t pos i x x', p_packet_ready p x = false →
    p_new_point p s t pos i x = Ok x' → p_packet_ready p x' = true;
  point_unit : ∀ s t pos i x x', p_new_point p s t pos i x = Ok x' → proto_unit x' = proto_unit x;
  done_unit : ∀ x, proto_unit (p_packet_done p x) = proto_unit x
}.

(** A protocol that makes a message of every point and reads every answer. *)
Class ProtoTotal (p : tracer_proto_t) := {
  point_total : ∀ s t pos i x, ∃ x', p_new_point p s t pos i x = Ok x';
  reply_total : ∀ data x, ∃ ok, p_packet_reply_ok p data x = Ok ok
}.

End protocols.

(** ** Both protocols keep the laws *)

Section laws.
Context `{F : FlashLib} `{P : PatternLib} `{N : ParseLib}.

Lemma h02_message_long u pos i : (2 <= length (h02_message u pos i))%nat.
Proof. unfold h02_message. rewrite length_app. cbn. lia. Qed.

#[export] Instance h02_laws : ProtoLaws tracer_proto_h02.
Proof.
  split; [done|done| |by intros ?????? [= <-]|done].
  intros s t pos i x x' _. cbn. unfold tracer_h02_new_point. intros [= <-].
  unfold tracer_h02_packet_ready. cbn [h02_packet_len].
  pose proof (h02_message_long (h02_unit x) pos (dw_info i)).
  apply negb_true_iff, Z.eqb_neq. lia.
Qed.

#[export] Instance h02_total : ProtoTotal tracer_proto_h02.
Proof.
  split; [intros; by eexists|]. intros data x. cbn. unfold tracer_h02_packet_reply_ok.
  destruct (_ <? _); [by eexists|]. destruct (parse_pattern _ _); [|by eexists].
  destruct (parse_number _) as [[id r]|]; [|by eexists]. destruct (negb _); [by eexists|].
  destruct (parse_pattern _ _); by eexists.
Qed.

Lemma sia_new_point_inv s t pos i x x' :
  tr_sia_new_point s t pos i x = Ok x' → sia_packet_ok x' = true ∧ proto_unit x' = proto_unit x.
Proof.
  unfold tr_sia_new_point. destruct (sia_packet_ok x) eqn:E; [by intros [= <-]|].
  destruct (cms_sia_ip_build_msg _ _ _ _ _) as [m|e]; cbn; [|discriminate]. by intros [= <-].
Qed.

#[export] Instance sia_laws : ProtoLaws tracer_proto_sia.
Proof.
  split; try done; cbn; intros; by eapply sia_new_point_inv.
Qed.

Lemma sia_tracking_code : _sia_event_code EVENT_ID_TRACKING = Some (str "TL").
Proof. reflexivity. Qed.

End laws.

(** ** What the server reads *)

(** The text between commas. *)
Fixpoint fields (s : list Z) : list (list Z) :=
  match s with
  | [] => [[]]
  | c :: s =>
      if c =? 44 then [] :: fields s
      else match fields s with f :: fs => (c :: f) :: fs | [] => [[c]] end
  end.

Lemma fields_plain f r : plain f → fields (f ++ 44 :: r) = f :: fields r.
Proof.
  induction 1 as [|c f Hc Hf IH]; [done|]. cbn [app fields].
  destruct (Z.eqb_spec c 44); [done|]. by rewrite IH.
Qed.

Lemma fields_last f : plain f → fields f = [f].
Proof.
  induction 1 as [|c f Hc Hf IH]; [done|]. cbn [fields]. destruct (Z.eqb_spec c 44); [done|].
  by rewrite IH.
Qed.

(** A coordinate field [ddmm.mmmm] in hundredths of a second: the fraction was
    rounded down, so it is rounded up here. *)
Definition read_coordinate (f : list Z) (negative : bool) : option Z :=
  '(dm, r) ← scan_uint 10 (length f) f;
  r ← scan_char 46 r;
  '(sub, r) ← scan_uint 10 (length r) r;
  match r with
  | [] => let v := dm / 100 * 360000 + dm mod 100 * 6000 + (sub * 6000 + 9999) / 10000 in
          Some (if negative then - v else v)
  | _ => None
  end.

Record h02_report := H02Report {
  hr_unit : Z; hr_valid : bool; hr_lat : Z; hr_lon : Z; hr_status : Z
}.

(** A report of the H02 protocol as its description has it:
    [*HQ,id,V1,time,A,lat,N,lon,E,speed,course,date,status#]. *)
Definition h02_read (msg : list Z) : option h02_report :=
  match fields msg with
  | [hq; id; v1; time; av; lat; ns; lon; ew; speed; course; date; status] =>
      if bool_decide (hq = str "*HQ" ∧ v1 = str "V1") then
        '(id, _) ← scan_uint 10 (length id) id;
        lat ← read_coordinate lat (bool_decide (ns = str "S"));
        lon ← read_coordinate lon (bool_decide (ew = str "W"));
        '(status, r) ← scan_uint 16 8 status;
        if bool_decide (r = str "#") then
          Some (H02Report id (bool_decide (av = str "A")) lat lon status)
        else None
      else None
  | _ => None
  end.

Lemma digits_fuel_plain n v acc : 0 ≤ v → plain acc → plain (digits_fuel n v acc).
Proof.
  unfold plain. revert v acc. induction n as [|n IH]; intros v acc Hv Ha; [done|]. cbn [digits_fuel].
  destruct (Z.ltb_spec v 10); [constructor; [lia|done]|].
  pose proof (Z.mod_pos_bound v 10 ltac:(lia)).
  apply IH; [apply Z.div_pos; lia|]. constructor; [lia|done].
Qed.

Lemma print_dec_no_comma v : plain (print_dec v).
Proof.
  unfold print_dec. destruct (Z.ltb_spec v 0); [constructor; [lia|]|];
    (apply digits_fuel_plain; [lia|constructor]).
Qed.

Lemma print_pad_no_comma n v : plain (print_pad n v).
Proof. apply Forall_app_2; [apply Forall_replicate; lia|apply print_dec_no_comma]. Qed.

Lemma plain_app f g : plain f → plain g → plain (f ++ g).
Proof. apply Forall_app_2. Qed.

Create HintDb plain.
#[export] Hint Resolve plain_app print_pad_no_comma print_dec_no_comma : plain.

Definition dec_value (a : Z) (l : list Z) : Z := foldl (λ a c, 10 * a + (c - 48)) a l.

Lemma dec_value_acc l a : dec_value a l = a * 10 ^ Z.of_nat (length l) + dec_value 0 l.
Proof.
  revert a. induction l as [|c l IH]; intros a; [cbn; lia|].
  change (dec_value (10 * a + (c - 48)) l = a * 10 ^ Z.of_nat (length (c :: l)) + dec_value (10 * 0 + (c - 48)) l).
  cbn [length]. rewrite IH, (IH (10 * 0 + (c - 48))), Nat2Z.inj_succ, Z.pow_succ_r by lia. lia.
Qed.

Lemma print_pad_value n v :
  0 ≤ v < 10 ^ 20 →
  Forall (λ c, is_digit c = true) (print_pad n v) ∧ print_pad n v ≠ [] ∧ dec_value 0 (print_pad n v) = v.
Proof.
  intros Hv. unfold print_pad, print_dec, dec_value. destruct (Z.ltb_spec v 0); [lia|].
  destruct (digits_fuel_spec 20 v []) as (l & -> & Hf & Hne & E); [exact Hv|lia|].
  rewrite app_nil_r. split; [|split].
  - apply Forall_app_2; [|done]. by apply Forall_replicate.
  - destruct (replicate _ 48); [done|discriminate].
  - by rewrite foldl_zeros.
Qed.

(** Degrees and minutes print as one number. *)
Lemma scan_degrees n a b s :
  0 ≤ a < 1000 → 0 ≤ b < 100 → match s with [] => True | c :: _ => digit_val 10 c = None end →
  let t := (print_pad n a ++ print_pad 2 b) ++ s in
  scan_uint 10 (length t) t = Some (100 * a + b, s).
Proof.
  intros Ha Hb Hs. cbv zeta.
  destruct (print_pad_value n a) as (Fa & Na & Va); [lia|].
  destruct (print_pad_value 2 b) as (Fb & Nb & Vb); [lia|].
  pose proof (print_pad_length 2 2 b ltac:(cbn; lia) ltac:(lia)) as Hl.
  assert (dec_value 0 (print_pad n a ++ print_pad 2 b) = 100 * a + b) as V.
  { unfold dec_value in *. rewrite foldl_app, Va. fold (dec_value a (print_pad 2 b)) (dec_value 0 (print_pad 2 b)) in *. rewrite dec_value_acc, Vb. replace (length (print_pad 2 b)) with 2%nat by lia.
    change (10 ^ Z.of_nat 2) with 100. lia. }
  unfold dec_value in V. rewrite scan_digits; [by rewrite V|by apply Forall_app_2| |done|rewrite V; lia].
  by destruct (print_pad n a).
Qed.

Lemma sub_min_exact sec : 0 ≤ sec < 6000 → (u32 (10000 * sec) / 6000 * 6000 + 9999) / 10000 = sec.
Proof. intros H. rewrite u32_small by (unfold in_u32; lia). Z.div_mod_to_equations. lia. Qed.

(** What precedes the separators of a coordinate. *)
Definition coordinate_text (n : nat) (v : Z) : list Z :=
  let sec := Z.abs v in
  print_pad n (sec / 360000) ++ print_pad 2 (sec mod 360000 / 6000) ++ [46]
  ++ print_pad 4 (u32 (10000 * (sec mod 360000 mod 6000)) / 6000).

Lemma h02_coordinate_text n v plus minus :
  h02_coordinate n v plus minus =
    coordinate_text n v ++ 44 :: [if 0 <=? v then plus else minus] ++ [44].
Proof. unfold h02_coordinate, coordinate_text. cbv zeta. by rewrite <-!app_assoc. Qed.

Lemma read_coordinate_text n v neg :
  Z.abs v ≤ 64800000 → (neg = true ↔ v < 0) → read_coordinate (coordinate_text n v) neg = Some v.
Proof.
  intros Hv Hneg. unfold coordinate_text, read_coordinate. set (sec := Z.abs v) in *.
  assert (0 ≤ sec) as H0 by (unfold sec; lia).
  set (a := sec / 360000). set (b := sec mod 360000 / 6000). set (c := sec mod 360000 mod 6000).
  assert (0 ≤ a < 1000) as Ha by (unfold a; split; [apply Z.div_pos; lia|apply Z.div_lt_upper_bound; lia]).
  assert (0 ≤ b < 60) as Hb.
  { pose proof (Z.mod_pos_bound sec 360000 ltac:(lia)).
    unfold b; split; [apply Z.div_pos; lia|apply Z.div_lt_upper_bound; lia]. }
  assert (0 ≤ c < 6000) as Hc by (apply Z.mod_pos_bound; lia).
  rewrite app_assoc. rewrite scan_degrees; [|lia|lia|done]. cbn [mbind option_bind app scan_char].
  cbn [Z.eqb Pos.eqb]. cbn [mbind option_bind].
  assert (in_u32 (u32 (10000 * c) / 6000)) as Hsub.
  { unfold in_u32. rewrite u32_small by (unfold in_u32; lia).
    split; [apply Z.div_pos; lia|apply Z.div_lt_upper_bound; lia]. }
  pose proof (scan_print_pad 4 (u32 (10000 * c) / 6000) [] Hsub I) as Hscan.
  rewrite app_nil_r in Hscan. rewrite Hscan. cbn [mbind option_bind].
  rewrite sub_min_exact by done.
  assert ((100 * a + b) / 100 * 360000 + (100 * a + b) mod 100 * 6000 + c = sec) as ->.
  { assert ((100 * a + b) / 100 = a) as -> by (Z.div_mod_to_equations; lia).
    assert ((100 * a + b) mod 100 = b) as -> by (Z.div_mod_to_equations; lia).
    unfold a, b, c. Z.div_mod_to_equations. lia. }
  f_equal. destruct neg; [assert (v < 0) by (by apply Hneg); unfold sec; lia|].
  destruct (decide (v < 0)) as [H|H]; [by apply Hneg in H|unfold sec; lia].
Qed.

Lemma coordinate_text_plain n v : plain (coordinate_text n v).
Proof.
  unfold coordinate_text. cbv zeta.
  repeat (apply plain_app; [solve [auto with plain]|]).
  apply plain_app; [constructor; [lia|constructor]|auto with plain].
Qed.

Lemma status_range i : in_u32 (_status_build i).
Proof.
  unfold _status_build.
  do 4 (destruct (has _ _)); (split; [apply Z.leb_le|apply Z.ltb_lt]); vm_compute; reflexivity.
Qed.

Lemma hex_fixed_no_comma n v : plain (hex_fixed n v).
Proof.
  revert v. induction n as [|n IH]; intros v; [constructor|]. cbn [hex_fixed].
  apply plain_app; [apply IH|]. constructor; [|constructor]. unfold hex_digit.
  pose proof (Z.mod_pos_bound v 16 ltac:(lia)). destruct (Z.ltb_spec (v mod 16) 10); lia.
Qed.

Lemma plain_cons c f : c ≠ 44 → plain f → plain (c :: f).
Proof. by constructor. Qed.

Ltac plain_text :=
  repeat match goal with
  | |- plain (if ?b then _ else _) => destruct b
  | |- plain (_ ++ _) => apply plain_app
  | |- plain (print_pad _ _) => apply print_pad_no_comma
  | |- plain (print_dec _) => apply print_dec_no_comma
  | |- plain (hex_fixed _ _) => apply hex_fixed_no_comma
  | |- plain (coordinate_text _ _) => apply coordinate_text_plain
  | |- plain (str _) => unfold str; cbn
  | |- plain (_ :: _) => apply plain_cons; [try (destruct (0 <=? _)); discriminate|]
  | |- plain [] => constructor
  end.

(** The message, cut where its commas are. *)
Lemma h02_message_fields u pos i :
  ∃ time av speed course date,
    fields (h02_message u pos i) =
      [str "*HQ"; print_dec u; str "V1"; time; av; coordinate_text 2 (lat_sec pos);
       [if 0 <=? lat_sec pos then 78 else 83]; coordinate_text 3 (lon_sec pos);
       [if 0 <=? lon_sec pos then 69 else 87]; speed; course; date;
       hex_fixed 8 (_status_build i) ++ [35]] ∧
    av = (if fix_ pos =? 0 then str "V" else str "A").
Proof.
  set (t := n_time pos). set (s := h02_knots (speed pos)).
  exists (print_pad 2 (hour t) ++ print_pad 2 (minute t) ++ print_pad 2 (second t)),
    (if fix_ pos =? 0 then str "V" else str "A"),
    (print_pad 3 (s / 100) ++ [46] ++ print_pad 2 (s mod 100)), (print_pad 3 (angle pos)),
    (if fix_ pos =? 0 then str "010100" else print_pad 2 (day t) ++ print_pad 2 (month t) ++ print_pad 2 (year t)).
  split; [|done].
  assert (h02_message u pos i =
    str "*HQ" ++ 44 :: print_dec u ++ 44 :: str "V1" ++ 44 ::
    (print_pad 2 (hour t) ++ print_pad 2 (minute t) ++ print_pad 2 (second t)) ++ 44 ::
    (if fix_ pos =? 0 then str "V" else str "A") ++ 44 ::
    coordinate_text 2 (lat_sec pos) ++ 44 :: [if 0 <=? lat_sec pos then 78 else 83] ++ 44 ::
    coordinate_text 3 (lon_sec pos) ++ 44 :: [if 0 <=? lon_sec pos then 69 else 87] ++ 44 ::
    (print_pad 3 (s / 100) ++ [46] ++ print_pad 2 (s mod 100)) ++ 44 :: print_pad 3 (angle pos) ++ 44 ::
    (if fix_ pos =? 0 then str "010100" else print_pad 2 (day t) ++ print_pad 2 (month t) ++ print_pad 2 (year t))
    ++ 44 :: (hex_fixed 8 (_status_build i) ++ [35])) as ->.
  { unfold h02_message. fold t s. cbv zeta. rewrite !h02_coordinate_text, <-!app_assoc.
    destruct (fix_ pos =? 0); cbn [str app]; rewrite <-?app_assoc; reflexivity. }
  repeat (rewrite fields_plain; [f_equal|]); [apply fields_last|..]; plain_text.
Qed.

Lemma status_spec i :
  let st := _status_build i in
  has st H02_STATUS_IGNITION = has (ti_inputs i) TRACER_INP_KEY ∧
  has st H02_STATUS_DOOR = has (ti_inputs i) TRACER_INP_DOOR ∧
  has st H02_STATUS_VIBRATION = negb (has (ti_inputs i) (Z.lor TRACER_INP_PANIC TRACER_INP_SHOCK)) ∧
  has st H02_STATUS_POWER_CUT = negb (has (ti_res i) TRACK_RES_POWER_FAIL).
Proof.
  unfold _status_build. cbv zeta.
  destruct (has (ti_inputs i) (Z.lor _ _)), (has (ti_inputs i) TRACER_INP_KEY),
    (has (ti_inputs i) TRACER_INP_DOOR), (has (ti_res i) _); vm_compute; repeat split.
Qed.

Lemma digits_fuel_bound n v acc : (length (digits_fuel n v acc) <= n + length acc)%nat.
Proof.
  revert v acc. induction n as [|n IH]; intros v acc; [done|]. cbn [digits_fuel].
  destruct (_ <? _); [cbn; lia|]. etrans; [apply IH|]. cbn. lia.
Qed.

Lemma print_pad_bound n v : (length (print_pad n v) <= n + 21)%nat.
Proof.
  assert (length (print_dec v) <= 21)%nat.
  { unfold print_dec. pose proof (digits_fuel_bound 20 (- v) []). pose proof (digits_fuel_bound 20 v []).
    destruct (_ <? _); cbn [length] in *; lia. }
  unfold print_pad. rewrite length_app, length_replicate. lia.
Qed.

Lemma h02_message_bound u pos i : (length (h02_message u pos i) <= 500)%nat.
Proof.
  unfold h02_message, h02_coordinate. cbv zeta.
  pose proof (print_pad_bound 0 u) as Hu. unfold print_pad at 1 in Hu. rewrite Nat.sub_0_l in Hu.
  cbn [replicate app] in Hu.
  repeat match goal with |- context [print_pad ?n ?v] =>
    let l := fresh in let H := fresh in
    pose proof (print_pad_bound n v) as H; set (l := print_pad n v) in *; clearbody l end.
  destruct (fix_ pos =? 0); rewrite ?length_app, hex_fixed_length; cbn [length str app] in *;
    rewrite ?length_app; cbn [length]; lia.
Qed.

Lemma letter_S (b : bool) : bool_decide ([if b then 78 else 83] = str "S") = negb b.
Proof. by destruct b. Qed.
Lemma letter_W (b : bool) : bool_decide ([if b then 69 else 87] = str "W") = negb b.
Proof. by destruct b. Qed.

Section read.
Context `{F : FlashLib} `{P : PatternLib} `{N : ParseLib}.

(** C33 (roundtrip). A point sent with the H02 protocol arrives: the datagram is
    the whole text of the message, and a server that reads the fields of the
    protocol gets back the unit, whether the position is valid, its latitude and
    longitude to the hundredth of a second, and a status word whose bits are the
    ignition, the door, the shock or panic and the power cut of the point. *)
Theorem h02_point_read s now pos info p :
  in_u32 (h02_unit p) → Z.abs (lat_sec pos) ≤ 90 * 360000 → Z.abs (lon_sec pos) ≤ 180 * 360000 →
  ∃ p' status, tracer_h02_new_point s now pos info p = Ok p' ∧
    p_packet_size tracer_proto_h02 p' = Z.of_nat (length (ps_buffer p')) ∧
    h02_read (ps_buffer p') =
      Some (H02Report (h02_unit p) (negb (fix_ pos =? 0)) (lat_sec pos) (lon_sec pos) status) ∧
    has status H02_STATUS_IGNITION = has (ti_inputs (dw_info info)) TRACER_INP_KEY ∧
    has status H02_STATUS_DOOR = has (ti_inputs (dw_info info)) TRACER_INP_DOOR ∧
    has status H02_STATUS_VIBRATION
      = negb (has (ti_inputs (dw_info info)) (Z.lor TRACER_INP_PANIC TRACER_INP_SHOCK)) ∧
    has status H02_STATUS_POWER_CUT = negb (has (ti_res (dw_info info)) TRACK_RES_POWER_FAIL).
Proof.
  intros Hu Hlat Hlon. set (i := dw_info info).
  eexists _, (_status_build i). split; [reflexivity|].
  set (m := h02_message (h02_unit p) pos i).
  pose proof (h02_message_bound (h02_unit p) pos i). pose proof (h02_message_long (h02_unit p) pos i).
  split; [|split; [|apply status_spec]].
  - change (u16 (Z.of_nat (length m) - 1 + 1) = Z.of_nat (length m)).
    rewrite Z.sub_add. apply u16_small. unfold in_u16, m. lia.
  - destruct (h02_message_fields (h02_unit p) pos i) as (time & av & sp & co & dt & E & ->).
    fold m in E. change (ps_buffer _) with m. unfold h02_read. rewrite E, bool_decide_eq_true_2 by done.
    pose proof (scan_print_pad 0 (h02_unit p) [] Hu I) as Hid.
    assert (∀ v, print_pad 0 v = print_dec v) as E0 by (intros v; unfold print_pad; by rewrite Nat.sub_0_l).
    rewrite app_nil_r, E0 in Hid. rewrite Hid. cbn [mbind option_bind].
    rewrite (read_coordinate_text 2); [|lia|].
    2: { rewrite letter_S, negb_true_iff. apply Z.leb_gt. }
    cbn [mbind option_bind]. rewrite (read_coordinate_text 3); [|lia|].
    2: { rewrite letter_W, negb_true_iff. apply Z.leb_gt. }
    cbn [mbind option_bind].
    pose proof (scan_hex_fixed 8 0 (_status_build i) [35] ltac:(lia) ltac:(lia) (status_range i)
      ltac:(left; done)) as Hst. cbn [Nat.add] in Hst. rewrite Hst. cbn [mbind option_bind].
    rewrite bool_decide_eq_true_2 by done. f_equal. f_equal. by destruct (fix_ pos =? 0).
Qed.
End read.

(** ** Examples *)

#[export] Instance prefix_pattern : PatternLib.
Proof.
  refine {| parse_pattern s pat := expect pat s |}.
  induction pat as [|c pat IH]; intros r; [done|]. cbn. by rewrite Z.eqb_refl.
Defined.

(** The point of the repository's own test (src/tests/test_tracer.c). *)
Definition test_point : nmea_data := NmeaData 5580000 18270000 185 333 0 0 1 0 (Rtc 24 10 5 10 24 11).

Definition idle_proto : proto_state := ProtoState 0 0 cms_sia_ip_init false 0 [].

Example h02_build_point :
  h02_message 1000000001 test_point (dw_info 0) =
    str "*HQ,1000000001,V1,102411,A,5045.0000,N,01530.0000,E,009.98,333,051024,FFFEFBFF#".
Proof. vm_compute. reflexivity. Qed.

Example h02_reply :
  tracer_h02_packet_reply_ok (str "*HQ,1000000001,V4,V1,20240930174037#")
    (tracer_h02_reinit 1000000001 idle_proto) = Ok true ∧
  tracer_h02_packet_reply_ok (str "*HQ,9999999999,V4,V1,20240930174037#")
    (tracer_h02_reinit 1000000001 idle_proto) = Ok false.
Proof. split; vm_compute; reflexivity. Qed.

Lemma h02_point_read_witness :
  ∃ p' status, tracer_h02_new_point erased_storage sample_now test_point (256 * 24)
      (tracer_h02_reinit 1000000001 idle_proto) = Ok p' ∧
    h02_read (ps_buffer p') = Some (H02Report 1000000001 true 18270000 5580000 status) ∧
    has status H02_STATUS_IGNITION = true ∧ has status H02_STATUS_DOOR = true.
Proof.
  destruct (h02_point_read erased_storage sample_now test_point (256 * 24)
    (tracer_h02_reinit 1000000001 idle_proto)) as (p' & st & H1 & _ & H2 & H3 & H4 & _);
    [split; [|done]; vm_compute; discriminate|vm_compute; discriminate..|].
  exists p', st. split; [exact H1|]. split; [exact H2|]. split; [exact H3|exact H4].
Defined.
