(* ===== verification/Tracer.v ===== *)
(** * The tracker (app/tracer/tracer.c)

    Starts and ends tracks on the ignition key, on movement or on command,
    stores points in the flash ring, and sends them to the server one by one,
    each until it is acknowledged.  The handlers read the clock several times
    but never wait, so one run sees one time; [wait_for_ack] is the exception
    and sees the times and what other tasks do in between.  [tracer_world] holds
    what the tracker works on: its statics, those of the protocols, the ring with
    the flash, the state words, the GPS receiver. *)

From S2P Require Import Prelude CText EventTypes EventBuf Storage EventMemory EventQueue Out.
From S2P Require Import Alarm ArmSection System Cfg SiaIp NetTarget Cms EventTask TracerBuf.
From S2P Require Import Inp Update Nmea Gps Report Cmd TracerProto.

(** ** State *)

(** src/app/tracer/tracer.c:33-39 (TRACER_PERIOD_DEFAULT .. TRACER_END_WAIT_POWER_FAIL) *)
Definition TRACER_PERIOD_DEFAULT : Z := 10.
Definition TRACER_PERIOD_ROAMING_DEFAULT : Z := 10.
Definition TRACER_PERIOD_DYNAMIC : Z := 0.
Definition TRACER_PERIOD_DYNAMIC_MAX : Z := 30.
Definition TRACER_PERIOD_DYNAMIC_MIN : Z := 1.
Definition TRACER_END_WAIT_TIME_DEFAULT : Z := 20.
Definition TRACER_END_WAIT_POWER_FAIL : Z := 20 * OS_TIMER_SECOND.
(** src/app/tracer/tracer.c:41-62 (TRACER_PROTO_H02 .. TRACER_START_MODE_ALL) *)
Definition TRACER_PROTO_H02 : Z := 0.
Definition TRACER_PROTO_SIA : Z := 1.
Definition TRACER_PROTO_LAST : Z := TRACER_PROTO_SIA.
Definition TRACER_PROTO_DEFAULT : Z := TRACER_PROTO_H02.
Definition TRACER_UNIT_ID_MAX : Z := 2147483646.
Definition TRACER_START_SPEED_DEFAULT : Z := 3.
Definition TRACER_END_POWER_FAIL : Z := 1.
Definition TRACER_SEND_MODE_ONLINE : Z := 0.
Definition TRACER_SEND_MODE_BULK : Z := 1.
Definition TRACER_SEND_MODE_OFF : Z := 2.
Definition TRACER_START_MODE_KEY : Z := bit 0.
Definition TRACER_START_MODE_SHOCK : Z := bit 1.
Definition TRACER_START_MODE_ALL : Z := Z.lor TRACER_START_MODE_KEY TRACER_START_MODE_SHOCK.
Definition LIMIT_TRACE_END : Z := 3600.
Definition LIMIT_TRACE_INTERVAL : Z := 3600.

(** src/app/tracer/tracer.c:68-78 (tracer_param_t) *)
Record tracer_param := TracerParam {
  unit_id : Z;
  period : Z;
  period_roaming : Z;
  wait_time : Z;
  protocol : Z;
  start_speed : Z;
  send_mode : Z;
  start_mode : Z
}.

(** src/app/tracer/tracer.c:80-89 (TRACER_PARAM_DEFAULT) *)
Definition TRACER_PARAM_DEFAULT : tracer_param :=
  TracerParam 0 TRACER_PERIOD_DEFAULT TRACER_PERIOD_ROAMING_DEFAULT TRACER_END_WAIT_TIME_DEFAULT
    TRACER_PROTO_DEFAULT TRACER_START_SPEED_DEFAULT TRACER_SEND_MODE_ONLINE TRACER_START_MODE_ALL.

(** The current track: when the next point is due, whether the end is asked for
    or timed, the numbers of the last point. *)
(** src/app/tracer/tracer.c:27-31 (tracer_point_time .. tracer_dyn_dir) *)
Record tracking := Tracking {
  tracing_active : bool;
  stop_rq : bool;
  stop_tmr : Z;
  start_pending : bool;
  external_start : bool;
  point_time : Z;
  store_period : Z;
  point_last : Z;
  dyn_dir : option Z;
  last_fix_tmr : Z;
  fix_reset_enable : bool;
  t_point : Z;
  t_track : Z
}.

(** src/app/tracer/tracer.c:120-122 (tracer_shock_trace_active .. tracer_shock_start_tmr) *)
Record shock_trace := ShockTrace {
  shock_active : bool;
  shock_stop_rq : bool;
  shock_start_tmr : Z
}.

(** Sending; [send_retry] and [ack_tmout] are the statics inside
    [tracer_comm_process] and [wait_for_ack]. *)
(** src/app/tracer/tracer.c:101-105 (comm_sleep_tmr, tracer_packet_ack) *)
Record tracer_comm := TracerComm {
  comm_sleep_tmr : Z;
  packet_ack : bool;
  new_track_id : Z;
  send_retry : Z;
  ack_tmout : Z
}.

(** [tr_sia]: the protocol [proto] points to. *)
(** src/app/tracer/tracer.c:91-117 (_p, user_id, driver_waiting_tmr) *)
Record tracer := Tracer {
  tr_ip : Z;
  tr_port : Z;
  tr_sia : bool;
  tr_param : tracer_param;
  tr_trk : tracking;
  tr_shk : shock_trace;
  tr_com : tracer_comm;
  tr_user : Z;
  driver_tmr : Z;
  easy_fix : bool;
  end_mode : Z
}.

(** What the tracker asks of the rest. *)
Inductive taction :=
  | TLed (mask len : Z)                                (* app_main_led_single *)
  | TSend (port ip : Z) (data : list Z)                (* net_udp_tx *)
  | TReinit (r : reinit)                               (* app_reinit_req *)
  | TGpsReset.                                         (* the reset line of the GPS module *)

Definition set_unit_id (v : Z) (p : tracer_param) : tracer_param :=
  TracerParam v (period p) (period_roaming p) (wait_time p) (protocol p) (start_speed p) (send_mode p)
    (start_mode p).
Definition set_tracing_active (v : bool) (r : tracking) : tracking :=
  Tracking v (stop_rq r) (stop_tmr r) (start_pending r) (external_start r) (point_time r)
  (store_period r) (point_last r) (dyn_dir r) (last_fix_tmr r) (fix_reset_enable r) (t_point r)
  (t_track r).
Definition set_stop_rq (v : bool) (r : tracking) : tracking :=
  Tracking (tracing_active r) v (stop_tmr r) (start_pending r) (external_start r) (point_time r)
  (store_period r) (point_last r) (dyn_dir r) (last_fix_tmr r) (fix_reset_enable r) (t_point r)
  (t_track r).
Definition set_stop_tmr (v : Z) (r : tracking) : tracking :=
  Tracking (tracing_active r) (stop_rq r) v (start_pending r) (external_start r) (point_time r)
  (store_period r) (point_last r) (dyn_dir r) (last_fix_tmr r) (fix_reset_enable r) (t_point r)
  (t_track r).
Definition set_start_pending (v : bool) (r : tracking) : tracking :=
  Tracking (tracing_active r) (stop_rq r) (stop_tmr r) v (external_start r) (point_time r)
  (store_period r) (point_last r) (dyn_dir r) (last_fix_tmr r) (fix_reset_enable r) (t_point r)
  (t_track r).
Definition set_external_start (v : bool) (r : tracking) : tracking :=
  Tracking (tracing_active r) (stop_rq r) (stop_tmr r) (start_pending r) v (point_time r)
  (store_period r) (point_last r) (dyn_dir r) (last_fix_tmr r) (fix_reset_enable r) (t_point r)
  (t_track r).
Definition set_point_time (v : Z) (r : tracking) : tracking :=
  Tracking (tracing_active r) (stop_rq r) (stop_tmr r) (start_pending r) (external_start r) v
  (store_period r) (point_last r) (dyn_dir r) (last_fix_tmr r) (fix_reset_enable r) (t_point r)
  (t_track r).
Definition set_store_period (v : Z) (r : tracking) : tracking :=
  Tracking (tracing_active r) (stop_rq r) (stop_tmr r) (start_pending r) (external_start r)
  (point_time r) v (point_last r) (dyn_dir r) (last_fix_tmr r) (fix_reset_enable r) (t_point r)
  (t_track r).
Definition set_point_last (v : Z) (r : tracking) : tracking :=
  Tracking (tracing_active r) (stop_rq r) (stop_tmr r) (start_pending r) (external_start r)
  (point_time r) (store_period r) v (dyn_dir r) (last_fix_tmr r) (fix_reset_enable r) (t_point r)
  (t_track r).
Definition set_dyn_dir (v : option Z) (r : tracking) : tracking :=
  Tracking (tracing_active r) (stop_rq r) (stop_tmr r) (start_pending r) (external_start r)
  (point_time r) (store_period r) (point_last r) v (last_fix_tmr r) (fix_reset_enable r) (t_point r)
  (t_track r).
Definition set_last_fix_tmr (v : Z) (r : tracking) : tracking :=
  Tracking (tracing_active r) (stop_rq r) (stop_tmr r) (start_pending r) (external_start r)
  (point_time r) (store_period r) (point_last r) (dyn_dir r) v (fix_reset_enable r) (t_point r)
  (t_track r).
Definition set_fix_reset_enable (v : bool) (r : tracking) : tracking :=
  Tracking (tracing_active r) (stop_rq r) (stop_tmr r) (start_pending r) (external_start r)
  (point_time r) (store_period r) (point_last r) (dyn_dir r) (last_fix_tmr r) v (t_point r) (t_track
  r).
Definition set_t_point (v : Z) (r : tracking) : tracking :=
  Tracking (tracing_active r) (stop_rq r) (stop_tmr r) (start_pending r) (external_start r)
  (point_time r) (store_period r) (point_last r) (dyn_dir r) (last_fix_tmr r) (fix_reset_enable r) v
  (t_track r).
Definition set_t_track (v : Z) (r : tracking) : tracking :=
  Tracking (tracing_active r) (stop_rq r) (stop_tmr r) (start_pending r) (external_start r)
  (point_time r) (store_period r) (point_last r) (dyn_dir r) (last_fix_tmr r) (fix_reset_enable r)
  (t_point r) v.
Definition set_shock_active (v : bool) (r : shock_trace) : shock_trace :=
  ShockTrace v (shock_stop_rq r) (shock_start_tmr r).
Definition set_shock_stop_rq (v : bool) (r : shock_trace) : shock_trace :=
  ShockTrace (shock_active r) v (shock_start_tmr r).
Definition set_shock_start_tmr (v : Z) (r : shock_trace) : shock_trace :=
  ShockTrace (shock_active r) (shock_stop_rq r) v.
Definition set_comm_sleep_tmr (v : Z) (r : tracer_comm) : tracer_comm :=
  TracerComm v (packet_ack r) (new_track_id r) (send_retry r) (ack_tmout r).
Definition set_packet_ack (v : bool) (r : tracer_comm) : tracer_comm :=
  TracerComm (comm_sleep_tmr r) v (new_track_id r) (send_retry r) (ack_tmout r).
Definition set_new_track_id (v : Z) (r : tracer_comm) : tracer_comm :=
  TracerComm (comm_sleep_tmr r) (packet_ack r) v (send_retry r) (ack_tmout r).
Definition set_send_retry (v : Z) (r : tracer_comm) : tracer_comm :=
  TracerComm (comm_sleep_tmr r) (packet_ack r) (new_track_id r) v (ack_tmout r).
Definition set_ack_tmout (v : Z) (r : tracer_comm) : tracer_comm :=
  TracerComm (comm_sleep_tmr r) (packet_ack r) (new_track_id r) (send_retry r) v.
Definition set_tr_ip (v : Z) (r : tracer) : tracer :=
  Tracer v (tr_port r) (tr_sia r) (tr_param r) (tr_trk r) (tr_shk r) (tr_com r) (tr_user r)
  (driver_tmr r) (easy_fix r) (end_mode r).
Definition set_tr_port (v : Z) (r : tracer) : tracer :=
  Tracer (tr_ip r) v (tr_sia r) (tr_param r) (tr_trk r) (tr_shk r) (tr_com r) (tr_user r) (driver_tmr
  r) (easy_fix r) (end_mode r).
Definition set_tr_sia (v : bool) (r : tracer) : tracer :=
  Tracer (tr_ip r) (tr_port r) v (tr_param r) (tr_trk r) (tr_shk r) (tr_com r) (tr_user r) (driver_tmr
  r) (easy_fix r) (end_mode r).
Definition set_tr_param (v : tracer_param) (r : tracer) : tracer :=
  Tracer (tr_ip r) (tr_port r) (tr_sia r) v (tr_trk r) (tr_shk r) (tr_com r) (tr_user r) (driver_tmr
  r) (easy_fix r) (end_mode r).
Definition set_tr_trk (v : tracking) (r : tracer) : tracer :=
  Tracer (tr_ip r) (tr_port r) (tr_sia r) (tr_param r) v (tr_shk r) (tr_com r) (tr_user r) (driver_tmr
  r) (easy_fix r) (end_mode r).
Definition set_tr_shk (v : shock_trace) (r : tracer) : tracer :=
  Tracer (tr_ip r) (tr_port r) (tr_sia r) (tr_param r) (tr_trk r) v (tr_com r) (tr_user r) (driver_tmr
  r) (easy_fix r) (end_mode r).
Definition set_tr_com (v : tracer_comm) (r : tracer) : tracer :=
  Tracer (tr_ip r) (tr_port r) (tr_sia r) (tr_param r) (tr_trk r) (tr_shk r) v (tr_user r) (driver_tmr
  r) (easy_fix r) (end_mode r).
Definition set_tr_user (v : Z) (r : tracer) : tracer :=
  Tracer (tr_ip r) (tr_port r) (tr_sia r) (tr_param r) (tr_trk r) (tr_shk r) (tr_com r) v (driver_tmr
  r) (easy_fix r) (end_mode r).
Definition set_driver_tmr (v : Z) (r : tracer) : tracer :=
  Tracer (tr_ip r) (tr_port r) (tr_sia r) (tr_param r) (tr_trk r) (tr_shk r) (tr_com r) (tr_user r) v
  (easy_fix r) (end_mode r).
Definition set_easy_fix (v : bool) (r : tracer) : tracer :=
  Tracer (tr_ip r) (tr_port r) (tr_sia r) (tr_param r) (tr_trk r) (tr_shk r) (tr_com r) (tr_user r)
  (driver_tmr r) v (end_mode r).
Definition set_end_mode (v : Z) (r : tracer) : tracer :=
  Tracer (tr_ip r) (tr_port r) (tr_sia r) (tr_param r) (tr_trk r) (tr_shk r) (tr_com r) (tr_user r)
  (driver_tmr r) (easy_fix r) v.

(** The numbers of an answer to a position: the SDK's layout of the packed
    [gps_stamp_t], with its [rtc_t]. *)
Class StampRepr := {
  stamp_bytes : nmea_data → list Z;
  bytes_stamp : list Z → nmea_data;
  stamp_ok : nmea_data → Prop;
  stamp_bytes_length : ∀ d, length (stamp_bytes d) = 22%nat;
  bytes_stamp_bytes : ∀ d, stamp_ok d → bytes_stamp (stamp_bytes d) = d
}.

(** src/app/tracer/tracer.c:93-96 (_sec) *)
Definition _sec (s : Z) : Z := u32 (s * OS_TIMER_SECOND).

Section tracer.
Context `{F : FlashLib} `{L : CmdLib} `{P : PatternLib} `{SR : StampRepr}.
Variable TRACER_SIA : bool.          (* whether the SIA protocol is compiled in *)
Variable dns : list Z → option Z.    (* the modem's resolver *)

Record tracer_world := TW {
  w_t : tracer;
  w_ps : proto_state;
  w_ring : tracer_ring;
  w_sys : system;
  w_gps : gps;
  w_log : list taction
}.

Definition upd_t (f : tracer → tracer) (w : tracer_world) : tracer_world :=
  TW (f (w_t w)) (w_ps w) (w_ring w) (w_sys w) (w_gps w) (w_log w).
Definition upd_trk (f : tracking → tracking) : tracer_world → tracer_world :=
  upd_t (λ t, set_tr_trk (f (tr_trk t)) t).
Definition upd_shk (f : shock_trace → shock_trace) : tracer_world → tracer_world :=
  upd_t (λ t, set_tr_shk (f (tr_shk t)) t).
Definition upd_com (f : tracer_comm → tracer_comm) : tracer_world → tracer_world :=
  upd_t (λ t, set_tr_com (f (tr_com t)) t).
Definition upd_ps (f : proto_state → proto_state) (w : tracer_world) : tracer_world :=
  TW (w_t w) (f (w_ps w)) (w_ring w) (w_sys w) (w_gps w) (w_log w).
Definition set_ring (r : tracer_ring) (w : tracer_world) : tracer_world :=
  TW (w_t w) (w_ps w) r (w_sys w) (w_gps w) (w_log w).
Definition upd_io (f : Z → Z) (w : tracer_world) : tracer_world :=
  TW (w_t w) (w_ps w) (w_ring w) (set_io_of f (w_sys w)) (w_gps w) (w_log w).
Definition upd_gps (f : gps → gps) (w : tracer_world) : tracer_world :=
  TW (w_t w) (w_ps w) (w_ring w) (w_sys w) (f (w_gps w)) (w_log w).
Definition act (a : taction) (w : tracer_world) : tracer_world :=
  TW (w_t w) (w_ps w) (w_ring w) (w_sys w) (w_gps w) (w_log w ++ [a]).

Definition w_trk (w : tracer_world) : tracking := tr_trk (w_t w).
Definition w_shk (w : tracer_world) : shock_trace := tr_shk (w_t w).
Definition w_com (w : tracer_world) : tracer_comm := tr_com (w_t w).
Definition w_param (w : tracer_world) : tracer_param := tr_param (w_t w).
Definition w_io (w : tracer_world) : Z := system_io_state (outs (al (w_sys w))).
Definition w_int (w : tracer_world) : Z := system_int_state (w_sys w).
Definition w_flash (w : tracer_world) : storage := tr_storage (w_ring w).
Definition set_flash (s : storage) (w : tracer_world) : tracer_world :=
  let r := w_ring w in
  set_ring (TracerRing (buf_read_ptr r) (buf_save_ptr r) (buf_last_undelivered r) s) w.

(** The protocol in use. *)
Definition w_proto (w : tracer_world) : tracer_proto_t :=
  if tr_sia (w_t w) then tracer_proto_sia else tracer_proto_h02.

(** ** Configuration *)

(** src/app/tracer/tracer.c:135-149 (pfunc_reinit) *)
Definition pfunc_reinit (protocol : Z) : tracer_world → tracer_world :=
  upd_t (set_tr_sia (TRACER_SIA && (protocol =? TRACER_PROTO_SIA))).

(** src/app/tracer/tracer.c:151-154 (tracer_comm_sleep) *)
Definition tracer_comm_sleep (now tm : Z) : tracer_world → tracer_world :=
  upd_com (set_comm_sleep_tmr (u32 (now + tm * OS_TIMER_SECOND))).

(** src/app/tracer/tracer.c:190-198 (tracer_server_reinit) *)
Definition tracer_server_reinit (new_id : Z) (w : tracer_world) : tracer_world :=
  let w := upd_t (λ t, set_tr_param (set_unit_id new_id (tr_param t)) t) w in
  upd_ps (λ p, p_reinit (w_proto w) new_id
                 (ProtoState (h02_unit p) (h02_packet_len p) (ps_sia p) (sia_packet_ok p) (ps_sia_len p) [])) w.

(** src/app/tracer/tracer.c:211-222 (_num_next) *)
Definition _num_next (s : list Z) : option (Z * list Z) :=
  match parse_number s with
  | None => None
  | Some (n, p) => Some (n, match parse_separator p with Some sep => sep | None => p end)
  end.

(** src/app/tracer/tracer.c:224-236 (_num_get) *)
Definition _num_get (s : list Z) (min max def : Z) : Z * list Z :=
  match _num_next s with
  | None => (def, s)
  | Some (n, s) => if (n <? min) || (max <? n) then (def, s) else (n, s)
  end.

(** src/app/tracer/tracer.c:238-253 (_param_load) *)
Definition _param_load (value : list Z) : tracer_param :=
  let '(id, s) := _num_get value 0 TRACER_UNIT_ID_MAX 0 in
  let '(per, s) := _num_get s 0 LIMIT_TRACE_INTERVAL TRACER_PERIOD_DEFAULT in
  let '(roam, s) := _num_get s 1 LIMIT_TRACE_INTERVAL TRACER_PERIOD_ROAMING_DEFAULT in
  let '(wait, s) := _num_get s 1 LIMIT_TRACE_END TRACER_END_WAIT_TIME_DEFAULT in
  let '(proto, s) := _num_get s 0 TRACER_PROTO_LAST TRACER_PROTO_DEFAULT in
  let '(speed, s) := _num_get s 1 99 TRACER_START_SPEED_DEFAULT in
  let '(send, s) := _num_get s 0 TRACER_SEND_MODE_OFF TRACER_SEND_MODE_ONLINE in
  let '(start, s) := _num_get s 0 TRACER_START_MODE_ALL TRACER_START_MODE_ALL in
  TracerParam id per roam wait proto speed send start.

(** src/app/tracer/tracer.c:258-269 (_tracer_resolve_server) *)
Definition _tracer_resolve_server (w : tracer_world) : outcome tracer_world :=
  '(ok, cfg) ← cfg_read CFG_ID_TRACER_ADDR ACCESS_SYSTEM (w_flash w);
  if (ok : bool) then
    let '(_, ip, port) := net_get_target_ip dns cfg in
    Ok (upd_t (λ t, set_tr_ip ip (set_tr_port (default (tr_port t) port) t)) w)
  else Ok w.

(** src/app/tracer/tracer.c:271-297 (tracer_reinit) *)
Definition tracer_reinit (w : tracer_world) : outcome tracer_world :=
  w ← _tracer_resolve_server w;
  let w := upd_t (set_tr_param TRACER_PARAM_DEFAULT) w in
  let w := upd_trk (λ k, set_point_time 0 (set_point_last 0 (set_dyn_dir None k))) w in
  '(ok, cfg) ← cfg_read CFG_ID_TRACER_PARAM ACCESS_SYSTEM (w_flash w);
  let w := if (ok : bool) then upd_t (set_tr_param (_param_load cfg)) w else w in
  let w := pfunc_reinit (protocol (w_param w)) w in
  let w := tracer_server_reinit (unit_id (w_param w)) w in
  Ok (upd_com (set_packet_ack false) w).

(** The text of the parameters. *)
(** src/app/tracer/tracer.c:309-311 (tracer_save_config) *)
Definition param_text (p : tracer_param) : list Z :=
  print_dec (unit_id p) ++ [44] ++ print_dec (period p) ++ [44] ++ print_dec (period_roaming p) ++ [44]
  ++ print_dec (wait_time p) ++ [44] ++ print_dec (protocol p) ++ [44] ++ print_dec (start_speed p) ++ [44]
  ++ print_dec (send_mode p) ++ [44] ++ print_dec (start_mode p).

(** src/app/tracer/tracer.c:299-319 (tracer_save_config) *)
Definition tracer_save_config (p : tracer_param) (w : tracer_world) : bool * tracer_world :=
  if TRACER_UNIT_ID_MAX <? unit_id p then (false, w)
  else
    let '(ok, s, r) := cfg_write CFG_ID_TRACER_PARAM (param_text p) ACCESS_SYSTEM (w_flash w) in
    let w := act (TReinit r) (set_flash s w) in
    if negb ok then (false, w) else (true, tracer_server_reinit (unit_id p) w).

(** src/app/tracer/tracer.c:705-709 (tracer_set_id) *)
Definition tracer_set_id (id : Z) (w : tracer_world) : bool * tracer_world :=
  let w := upd_t (λ t, set_tr_param (set_unit_id id (tr_param t)) t) w in
  tracer_save_config (w_param w) w.

(** src/app/tracer/tracer.c:711-715 (tracer_set_user_id) *)
Definition tracer_set_user_id (id : Z) : tracer_world → tracer_world :=
  upd_t (λ t, set_driver_tmr 0 (set_tr_user id t)).

(** [mem]: whether the ring finds its buffer memory. *)
(** src/app/tracer/tracer.c:156-173 (tracer_init) *)
Definition tracer_init (mem : bool) (w : tracer_world) : outcome (bool * tracer_world) :=
  let w := pfunc_reinit TRACER_PROTO_DEFAULT w in
  w ← tracer_reinit w;
  '(ok, track, info, r) ← tracer_buf_init mem (w_ring w);
  let w := set_ring r w in
  if (ok : bool) then
    let w := upd_trk (set_t_track track) w in
    let w := tracer_set_user_id (driver_id (dw_info info)) w in
    Ok (true, if negb (track_type (dw_info info) =? 0) then upd_io (λ io, Z.lor io SYSTEM_IO_TRACK) w else w)
  else Ok (false, w).

(** src/app/tracer/tracer.c:175-183 (tracer_set_track_id) *)
Definition tracer_set_track_id (now id : Z) (w : tracer_world) : tracer_world :=
  let id := if id =? 0 then id + 1 else id in
  tracer_comm_sleep now 1 (upd_com (set_new_track_id id) w).

(** ** Starting and stopping *)

(** src/app/tracer/tracer.c:321-328 (tracer_is_active) *)
Definition tracer_is_active (w : tracer_world) : bool :=
  tracing_active (w_trk w) || has (w_io w) SYSTEM_IO_TRACING.

(** src/app/tracer/tracer.c:330-334 (tracer_activate) *)
Definition tracer_activate : tracer_world → tracer_world := upd_trk (set_tracing_active true).

(** src/app/tracer/tracer.c:336-341 (tracer_deactivate) *)
Definition tracer_deactivate (w : tracer_world) : tracer_world :=
  upd_io (λ io, clr io SYSTEM_IO_TRACING) (upd_trk (λ k, set_tracing_active false (set_stop_rq false k)) w).

(** src/app/tracer/tracer.c:444-451 (tracer_server_setup_ok) *)
Definition tracer_server_setup_ok (w : tracer_world) : bool :=
  if (tr_ip (w_t w) =? 0) || (tr_port (w_t w) =? 0) then false
  else if unit_id (w_param w) =? 0 then false else true.

(** src/app/tracer/tracer.c:343-388 (_tracer_start_now) *)
Definition _tracer_start_now (now : Z) (w : tracer_world) : bool * tracer_world :=
  if negb (stop_tmr (w_trk w) =? 0) then (false, upd_trk (set_stop_tmr 0) w)
  else
    let w := if stop_rq (w_trk w) then upd_trk (set_stop_rq false) w else w in
    if tracer_is_active w then (false, w)
    else if negb (tracer_server_setup_ok w) then
      (false, if (tr_ip (w_t w) =? 0) && negb (tr_port (w_t w) =? 0)
              then upd_trk (set_start_pending true) w else w)
    else
      let w := upd_gps (gps_sleep_enable false) (upd_trk (set_start_pending false) w) in
      let w := upd_trk (λ k, set_last_fix_tmr now (set_fix_reset_enable true (set_t_point 0
                 (set_point_time (u32 (now + 5 * OS_TIMER_SECOND)) (set_point_last now (set_dyn_dir None k)))))) w in
      (true, tracer_activate w).

(** src/app/tracer/tracer.c:390-408 (_tracer_stop_now) *)
Definition _tracer_stop_now (now : Z) (w : tracer_world) : tracer_world :=
  if tracer_is_active w then
    if t_point (w_trk w) =? 0 then upd_gps (gps_sleep_enable true) (tracer_deactivate w)
    else upd_trk (set_stop_tmr (u32 (now + _sec (wait_time (w_param w))))) w
  else upd_gps (gps_sleep_enable true) w.

(** src/app/tracer/tracer.c:410-414 (tracer_start) *)
Definition tracer_start (now : Z) (w : tracer_world) : tracer_world :=
  let '(ok, w) := _tracer_start_now now w in
  if ok then upd_trk (set_external_start true) w else w.

(** src/app/tracer/tracer.c:416-422 (tracer_key_start) *)
Definition tracer_key_start (now : Z) (w : tracer_world) : tracer_world :=
  if negb (has (start_mode (w_param w)) TRACER_START_MODE_KEY) then w else tracer_start now w.

(** src/app/tracer/tracer.c:424-429 (tracer_stop) *)
Definition tracer_stop (now : Z) (w : tracer_world) : tracer_world :=
  upd_trk (set_external_start false) (_tracer_stop_now now (upd_trk (set_start_pending false) w)).

(** src/app/tracer/tracer.c:431-442 (tracer_test) *)
Definition tracer_test (now : Z) (w : tracer_world) : bool * tracer_world :=
  if tracer_is_active w then (true, w)
  else if negb (tracer_server_setup_ok w) then (false, w)
  else
    let w := tracer_start now w in
    let per := period (w_param w) in
    let s := _sec (if negb (per =? 0) then per else TRACER_PERIOD_DYNAMIC_MAX) in
    (true, upd_trk (set_stop_tmr (u32 (now + u32 (21 * s)))) w).

(** ** Movement *)

(** src/app/tracer/tracer.c:724-735 (tracer_power_stop) *)
Definition tracer_power_stop (w : tracer_world) : bool :=
  if has (w_int w) SYSTEM_INT_POWER_FAIL then
    if has (w_int w) (Z.lor SYSTEM_INT_BATT_LOW SYSTEM_INT_BATT_FAIL)
       || (end_mode (w_t w) =? TRACER_END_POWER_FAIL)
    then true else false
  else false.

(** src/app/tracer/tracer.c:737-759 (tracer_shock_start) *)
Definition tracer_shock_start (now : Z) (state : bool) (w : tracer_world) : tracer_world :=
  if state then
    if negb (has (start_mode (w_param w)) TRACER_START_MODE_SHOCK) then w
    else
      let w := if negb (shock_active (w_shk w)) && negb (tracer_power_stop w) then
                 let w := if negb (tracer_is_active w) then act (TLed 3 8) w else w in
                 upd_shk (set_shock_start_tmr (u32 (now + 60 * OS_TIMER_SECOND))) w
               else w in
      upd_shk (set_shock_stop_rq false) w
  else if shock_active (w_shk w) then upd_shk (set_shock_stop_rq true) w
  else w.

(** src/app/tracer/tracer.c:761-800 (tracer_shock_task) *)
Definition tracer_shock_task (now : Z) (w : tracer_world) : tracer_world :=
  if external_start (w_trk w) then w
  else if tracer_power_stop w then
    if shock_active (w_shk w) then _tracer_stop_now now (upd_shk (set_shock_active false) w) else w
  else if now <? shock_start_tmr (w_shk w) then
    let w := upd_gps (gps_temporary_start_tmout 30) w in
    if (easy_fix (w_t w) && gps_fix_ok (w_gps w)) || (start_speed (w_param w) <=? gps_get_speed (w_gps w)) then
      let w := upd_shk (λ s, set_shock_active true (set_shock_start_tmr 0 s)) w in
      (_tracer_start_now now w).2
    else w
  else if shock_stop_rq (w_shk w) then
    if gps_get_speed (w_gps w) <? 2 then
      _tracer_stop_now now (upd_shk (λ s, set_shock_stop_rq false (set_shock_active false s)) w)
    else w
  else w.

(** ** Points *)

(** Nothing in the program calls it. *)
(** src/app/tracer/tracer.c:631-635 (tracer_new_valid_stamp) *)
Definition tracer_new_valid_stamp (now : Z) : tracer_world → tracer_world := upd_trk (set_last_fix_tmr now).

(** src/app/tracer/tracer.c:637-657 (_map_inputs) *)
Definition _map_inputs (io : Z) : Z :=
  let put (b : system_io) n result := if has io (io_bit b) then Z.lor result (bit n) else result in
  put SYSTEM_IO_SHOCK 5 (put SYSTEM_IO_DOOR 4 (put SYSTEM_IO_KEY 3 (put SYSTEM_IO_INP3 6
    (put SYSTEM_IO_INP2 2 (put SYSTEM_IO_INP1 1 (put SYSTEM_IO_PANIC 0 0)))))).

(** src/app/tracer/tracer_buffer.h:8-9 (TRACER_FLAG_VALID, TRACER_FLAG_LAST) *)
Definition TRACER_FLAG_VALID : Z := bit 1.
Definition TRACER_FLAG_LAST : Z := bit 2.

(** src/app/tracer/tracer.c:659-692 (tracer_new_point) *)
Definition tracer_new_point (mem : bool) (w : tracer_world) : tracer_world :=
  let w := if t_point (w_trk w) =? 0 then
             upd_io (λ io, Z.lor io SYSTEM_IO_TRACING)
               (upd_trk (λ k, set_t_track (u16 (t_track k + 1)) k) w)
           else w in
  let w := upd_trk (λ k, set_t_point (u16 (t_point k + 1)) k) w in
  let '(valid_pos, pos) := gps_get_current_stamp (w_gps w) in
  let flags := Z.lor (if valid_pos then TRACER_FLAG_VALID else 0)
                 (if stop_rq (w_trk w) then TRACER_FLAG_LAST else 0) in
  let info := TrackInfo (tr_user (w_t w)) (if has (w_io w) SYSTEM_IO_TRACK then 1 else 0)
                (_map_inputs (w_io w)) 0
                (if has (w_int w) SYSTEM_INT_POWER_FAIL then bit 1 else 0) in
  set_ring (tracer_buf_store_position mem (stamp_bytes pos) (t_track (w_trk w)) (t_point (w_trk w))
              flags (info_dw info) (w_ring w)).2 w.

(** What one run of [tracer_task] sees: the time, whether the modem is roaming,
    the movement direction at its two readings ([None]: no movement), and
    whether the ring finds memory. *)
Record task_env := TaskEnv {
  te_now : Z; te_roaming : bool; te_dir1 : option Z; te_dir2 : option Z; te_mem : bool
}.

(** src/app/tracer/tracer.c:813-828 (_tracer_dynamic_point) *)
Definition _tracer_dynamic_point (now : Z) (dir : option Z) (w : tracer_world) : bool :=
  if t_point (w_trk w) =? 0 then false
  else if u32 (now - point_last (w_trk w)) <? _sec TRACER_PERIOD_DYNAMIC_MIN then false
  else
    match dir, dyn_dir (w_trk w) with
    | Some d, Some d0 => negb (d =? d0)
    | _, _ => false
    end.

(** src/app/tracer/tracer.c:835-847 (tracer_task) *)
Definition task_pending (now : Z) (w : tracer_world) : tracer_world :=
  if start_pending (w_trk w) then
    if tracer_server_setup_ok w then tracer_start now (upd_trk (set_start_pending false) w)
    else if tr_port (w_t w) =? 0 then upd_trk (set_start_pending false) w
    else w
  else w.

(** src/app/tracer/tracer.c:865-878 (tracer_task) *)
Definition task_stop (now : Z) (w : tracer_world) : tracer_world :=
  if negb (stop_tmr (w_trk w) =? 0) then
    let w := if stop_tmr (w_trk w) <? now then
               upd_trk (λ k, set_stop_tmr 0 (set_stop_rq true (set_point_time (u32 (now + OS_TIMER_SECOND)) k))) w
             else w in
    if has (w_int w) SYSTEM_INT_POWER_FAIL then
      if u32 (now + TRACER_END_WAIT_POWER_FAIL) <? stop_tmr (w_trk w)
      then upd_trk (set_stop_tmr (u32 (now + TRACER_END_WAIT_POWER_FAIL))) w else w
    else w
  else w.

(** src/app/tracer/tracer.c:106-107 (NO_FIX_PROBLEM_LIMIT, NO_FIX_RESET_LIMIT) *)
Definition NO_FIX_PROBLEM_LIMIT : Z := 30 * OS_TIMER_SECOND.
Definition NO_FIX_RESET_LIMIT : Z := 100 * OS_TIMER_SECOND.

(** src/app/tracer/tracer.c:885-904 (tracer_task) *)
Definition task_fix (now : Z) (w : tracer_world) : tracer_world :=
  let age := u32 (now - last_fix_tmr (w_trk w)) in
  if NO_FIX_PROBLEM_LIMIT <? age then
    if fix_reset_enable (w_trk w) then
      let stamp := gps_valid_stamp_age now (w_gps w) in
      let w := if (stamp <? 10 * (60 * OS_TIMER_SECOND)) && (60 * OS_TIMER_SECOND <? stamp)
               then act TGpsReset (upd_gps gps_reset (upd_trk (set_fix_reset_enable false) w)) else w in
      if NO_FIX_RESET_LIMIT <? age
      then act TGpsReset (upd_gps gps_reset (upd_trk (set_fix_reset_enable false) w)) else w
    else w
  else w.

(** The period to the next point, which the static [u16] holds. *)
(** src/app/tracer/tracer.c:908-923 (tracer_task) *)
Definition task_period (e : task_env) (w : tracer_world) : tracer_world :=
  let w := if period (w_param w) =? TRACER_PERIOD_DYNAMIC then
             let w := match te_dir2 e with Some d => upd_trk (set_dyn_dir (Some d)) w | None => w end in
             upd_trk (set_store_period (u16 (_sec TRACER_PERIOD_DYNAMIC_MAX))) w
           else if te_roaming e then upd_trk (set_store_period (u16 (_sec (period_roaming (w_param w))))) w
           else upd_trk (set_store_period (u16 (_sec (period (w_param w))))) w in
  if store_period (w_trk w) <? 1 * OS_TIMER_SECOND
  then upd_trk (set_store_period (1 * OS_TIMER_SECOND)) w else w.

(** After the point: the track ends when that was asked for. *)
(** src/app/tracer/tracer.c:930-938 (tracer_task) *)
Definition point_done (now : Z) (w : tracer_world) : tracer_world :=
  let w := upd_trk (set_point_last now) w in
  if stop_rq (w_trk w)
  then upd_gps (gps_sleep_enable true) (tracer_deactivate (upd_trk (set_stop_rq false) w)) else w.

(** src/app/tracer/tracer.c:905-929 (tracer_task) *)
Definition task_point (e : task_env) (w : tracer_world) : tracer_world :=
  let now := te_now e in
  if now <? point_time (w_trk w) then w
  else
    let w := task_period e w in
    let w := upd_trk (λ k, set_point_time (u32 (point_time k + store_period k)) k) w in
    let w := if point_time (w_trk w) <? now
             then upd_trk (λ k, set_point_time (u32 (now + store_period k)) k) w else w in
    point_done now (tracer_new_point (te_mem e) w).

(** src/app/tracer/tracer.c:830-939 (tracer_task) *)
Definition tracer_task (e : task_env) (w : tracer_world) : tracer_world :=
  let now := te_now e in
  let w := tracer_shock_task now w in
  let w := task_pending now w in
  if negb (tracer_is_active w) then w
  else
    let w := if (period (w_param w) =? TRACER_PERIOD_DYNAMIC) && _tracer_dynamic_point now (te_dir1 e) w
             then upd_trk (set_point_time now) w else w in
    let w := if negb (driver_tmr (w_t w) =? 0) && (driver_tmr (w_t w) <? now)
             then upd_t (set_driver_tmr 0) w else w in
    task_point e (task_fix now (task_stop now w)).

(** ** Sending *)

(** src/app/tracer/tracer.c:694-703 (tracer_packet_rx) *)
Definition tracer_packet_rx (data : list Z) (port : Z) (w : tracer_world) : outcome (bool * tracer_world) :=
  if negb (port =? tr_port (w_t w)) then Ok (false, w)
  else
    ok ← p_packet_reply_ok (w_proto w) data (w_ps w);
    if negb ok then Ok (false, w) else Ok (true, upd_com (set_packet_ack true) w).

(** What happens between two looks at the acknowledgement: datagrams arrive,
    the other task runs. *)
Inductive meanwhile :=
  | MRx (data : list Z) (port : Z)
  | MTask (e : task_env).

Fixpoint run_meanwhile (l : list meanwhile) (w : tracer_world) : outcome tracer_world :=
  match l with
  | [] => Ok w
  | MRx data port :: l => '(_, w) ← tracer_packet_rx data port w; run_meanwhile l w
  | MTask e :: l => run_meanwhile l (tracer_task e w)
  end.

(** src/app/tracer/tracer.c:467-468 (TMOUT_MAX, TMOUT_MIN) *)
Definition TMOUT_MAX : Z := 5 * OS_TIMER_SECOND.
Definition TMOUT_MIN : Z := 200.

(** The looks, each after a delay of 10 ms: what happened in it and the time at
    its end.  The list is long enough when it reaches the timeout. *)
(** src/app/tracer/tracer.c:476-492 (wait_for_ack) *)
Fixpoint ack_loop (polls : list (list meanwhile * Z)) (start now : Z) (w : tracer_world)
    : outcome (bool * tracer_world) :=
  if now <? u32 (start + ack_tmout (w_com w)) then
    match polls with
    | [] => Err FAssert
    | (l, now) :: polls =>
        w ← run_meanwhile l w;
        if negb (packet_ack (w_com w)) then ack_loop polls start now w
        else Ok (true, upd_com (λ c, set_ack_tmout (u32 (now - start)) (set_packet_ack false c)) w)
    end
  else Ok (false, w).

(** src/app/tracer/tracer.c:465-500 (wait_for_ack) *)
Definition wait_for_ack (now : Z) (polls : list (list meanwhile * Z)) (w : tracer_world)
    : outcome (bool * tracer_world) :=
  '(result, w) ← ack_loop polls now now w;
  let tm := ack_tmout (w_com w) in
  let tm := u32 (tm + Z.shiftr tm 1) in
  let tm := if TMOUT_MAX <? tm then TMOUT_MAX else tm in
  let tm := if tm <? TMOUT_MIN then TMOUT_MIN else tm in
  Ok (result, upd_com (set_ack_tmout tm) w).

(** What a run of [tracer_comm_process] meets: the time, the clock, whether the
    connection comes up, whether the ring finds memory, and the course of the
    wait for the acknowledgement. *)
Record comm_env := TracerEnv {
  tc_now : Z; tc_rtc : rtc_t; tc_connect : bool; tc_mem : bool; tc_polls : list (list meanwhile * Z)
}.

(** The rest of the C array behind the text is zero. *)
(** src/app/tracer/tracer.c:568-575 (tracer_comm_process) *)
Definition send_packet (w : tracer_world) : tracer_world :=
  let n := Z.to_nat (p_packet_size (w_proto w) (w_ps w)) in
  act (TSend (tr_port (w_t w)) (tr_ip (w_t w)) (resize n 0 (ps_buffer (w_ps w))))
    (upd_com (set_packet_ack false) w).

(** src/app/tracer/tracer.c:503-503 (MAX_SEND_RETRY) *)
Definition MAX_SEND_RETRY : Z := 5.

(** src/app/tracer/tracer.c:592-600 (tracer_comm_process) *)
Definition comm_retry (now : Z) (w : tracer_world) : tracer_world :=
  if send_retry (w_com w) <? MAX_SEND_RETRY
  then upd_com (λ c, set_send_retry (send_retry c + 1) c) w
  else tracer_comm_sleep now 30 w.

(** The second test of the server cannot fail: nothing changes it after the
    first.  The times after the wait are the ones the wait ends with. *)
(** src/app/tracer/tracer.c:556-601 (tracer_comm_process) *)
Definition comm_send (e : comm_env) (w : tracer_world) : outcome tracer_world :=
  let now := tc_now e in
  if tc_connect e then
    if (tr_ip (w_t w) =? 0) || (tr_port (w_t w) =? 0) then
      w ← tracer_reinit w;
      let w := tracer_comm_sleep now 60 w in
      Ok (upd_ps (p_packet_done (w_proto w)) w)
    else
      '(ack, w) ← wait_for_ack now (tc_polls e) (send_packet w);
      if (ack : bool) then
        let w := upd_ps (p_packet_done (w_proto w)) (upd_com (set_send_retry 0) w) in
        '(_, r) ← tracer_buf_delivered_all (tc_mem e) (w_ring w);
        Ok (set_ring r w)
      else
        let now := default now (snd <$> last (tc_polls e)) in
        Ok (comm_retry now (tracer_comm_sleep now 1 w))
  else Ok (comm_retry now (tracer_comm_sleep now 5 w)).

(** src/app/tracer/tracer.c:603-628 (tracer_comm_process) *)
Definition comm_read (e : comm_env) (w : tracer_world) : outcome tracer_world :=
  if tracer_buf_empty (w_ring w) then Ok (tracer_comm_sleep (tc_now e) 5 w)
  else
    let '(i, r, ring) := tracer_buf_read_next (tc_mem e) (w_ring w) in
    let w := set_ring ring w in
    match r with
    | Some r =>
        if 0 <=? i then
          ps ← p_new_point (w_proto w) (w_flash w) (tc_rtc e) (bytes_stamp (tb_position r)) (tb_info r) (w_ps w);
          Ok (upd_ps (λ _, ps) w)
        else Ok (tracer_comm_sleep (tc_now e) 10 w)
    | None => Ok (tracer_comm_sleep (tc_now e) 10 w)
    end.

(** src/app/tracer/tracer.c:523-540 (tracer_comm_process) *)
Definition comm_setup (e : comm_env) (w : tracer_world) : outcome tracer_world :=
  if tracer_server_setup_ok w then Ok w
  else if (tr_ip (w_t w) =? 0) && negb (tr_port (w_t w) =? 0) && tc_connect e
  then _tracer_resolve_server w else Ok w.

(** src/app/tracer/tracer.c:502-629 (tracer_comm_process) *)
Definition tracer_comm_process (e : comm_env) (w : tracer_world) : outcome tracer_world :=
  let now := tc_now e in
  if now <? comm_sleep_tmr (w_com w) then Ok w
  else if negb (new_track_id (w_com w) =? 0) && negb (tracer_is_active w) then
    let '(_, r) := tracer_buf_hard_erase (tc_mem e) (w_ring w) in
    let w := upd_trk (set_t_track (new_track_id (w_com w) - 1)) (set_ring r w) in
    Ok (upd_com (set_new_track_id 0) w)
  else
    w ← comm_setup e w;
    if negb (tracer_server_setup_ok w) then Ok (tracer_comm_sleep now 60 w)
    else if p_packet_ready (w_proto w) (w_ps w) then
      if send_mode (w_param w) =? TRACER_SEND_MODE_OFF then Ok (tracer_comm_sleep now 60 w)
      else if (send_mode (w_param w) =? TRACER_SEND_MODE_BULK) && tracer_is_active w
      then Ok (tracer_comm_sleep now 5 w)
      else comm_send e w
    else comm_read e w.

End tracer.
