(* ===== verification/TracerThm.v ===== *)
(** * The tracker: its points reach the server

    The tracks it records are well formed, every stored point is sent until the
    server answers, in order, and leaves the ring only then. *)

From S2P Require Import Prelude CText EventTypes EventBuf Storage EventMemory EventQueue Out.
From S2P Require Import Alarm ArmSection System Cfg SiaIp NetTarget Cms EventTask TracerBuf.
From S2P Require Import Inp Update Nmea Gps Report Cmd TracerProto Tracer.

Section tracer_laws.
Context `{F : FlashLib} `{FS : !FlashSpec F} `{FR : !FlashReliable F}.
Context `{L : CmdLib} `{P : PatternLib} `{SR : StampRepr}.

(** ** What the recording side leaves alone *)

(** The datagrams of a log, with where they went. *)
Definition sends (l : list taction) : list (Z * Z * list Z) :=
  omap (λ a, match a with TSend port ip d => Some (port, ip, d) | _ => None end) l.

(** The number of the last point of the track being recorded. *)
Definition open_track (w : tracer_world) : option Z :=
  if tracing_active (w_trk w) && negb (t_point (w_trk w) =? 0) then Some (t_point (w_trk w)) else None.

(** The state word says "tracing" only of a track in progress. *)
Definition io_sound (w : tracer_world) : Prop :=
  has (w_io w) SYSTEM_IO_TRACING = true → tracing_active (w_trk w) = true.

Record task_frame (w w' : tracer_world) : Prop := {
  fr_ps : w_ps w' = w_ps w;
  fr_ring : w_ring w' = w_ring w;
  fr_com : w_com w' = w_com w;
  fr_sia : tr_sia (w_t w') = tr_sia (w_t w);
  fr_param : w_param w' = w_param w;
  fr_ip : tr_ip (w_t w') = tr_ip (w_t w);
  fr_port : tr_port (w_t w') = tr_port (w_t w);
  fr_log : sends (w_log w') = sends (w_log w);
  fr_track : t_track (w_trk w') = t_track (w_trk w);
  fr_point : t_point (w_trk w') = t_point (w_trk w) ∨ t_point (w_trk w') = 0;
  fr_open : io_sound w → io_sound w' ∧ open_track w' = open_track w
}.

#[export] Instance task_frame_preorder : PreOrder task_frame.
Proof.
  split; [intros w; constructor; auto|]. intros w1 w2 w3 [] []. constructor; try congruence.
  - destruct fr_point1 as [E|E]; rewrite E; auto.
  - intros H. destruct (fr_open0 H) as [H2 E2], (fr_open1 H2) as [H3 E3]. split; [done|congruence].
Qed.

Lemma frame_trk f w :
  (∀ k, t_track (f k) = t_track k ∧ tracing_active (f k) = tracing_active k ∧ t_point (f k) = t_point k) →
  task_frame w (upd_trk f w).
Proof.
  intros Hf. destruct (Hf (w_trk w)) as (E1 & E2 & E3). constructor; try done; [by left|].
  unfold io_sound, open_track. change (w_trk (upd_trk f w)) with (f (w_trk w)). rewrite E2, E3. done.
Qed.
Lemma frame_shk f w : task_frame w (upd_shk f w).
Proof. constructor; auto. Qed.
Lemma frame_gps f w : task_frame w (upd_gps f w).
Proof. constructor; auto. Qed.
Lemma frame_led m n w : task_frame w (act (TLed m n) w).
Proof. constructor; auto. cbn. unfold sends. rewrite omap_app. apply app_nil_r. Qed.
Lemma frame_gps_reset w : task_frame w (act TGpsReset w).
Proof. constructor; auto. cbn. unfold sends. rewrite omap_app. apply app_nil_r. Qed.
Lemma frame_driver v w : task_frame w (upd_t (set_driver_tmr v) w).
Proof. constructor; auto. Qed.

Lemma io_sound_deactivate w : io_sound (tracer_deactivate w).
Proof.
  intros H. exfalso. change (has (clr (w_io w) SYSTEM_IO_TRACING) SYSTEM_IO_TRACING = true) in H.
  unfold io_bit in H. by rewrite has_clr_same in H.
Qed.

(** A track without points may be closed, a new one opened when none is. *)
Lemma frame_deactivate w : t_point (w_trk w) = 0 → task_frame w (tracer_deactivate w).
Proof.
  intros E. constructor; try done; [by left|]. intros _. unfold open_track. split.
  - apply io_sound_deactivate.
  - rewrite E. cbn. by rewrite andb_false_r.
Qed.
Lemma inactive_open w : tracer_is_active w = false → tracing_active (w_trk w) = false ∧ open_track w = None.
Proof.
  unfold tracer_is_active, open_track. intros [-> _]%orb_false_iff. done.
Qed.
Lemma frame_begin f g w :
  tracer_is_active w = false →
  (∀ k, t_track (f (g k)) = t_track k ∧ tracing_active (f (g k)) = true ∧ t_point (f (g k)) = 0) →
  task_frame w (upd_trk f (upd_trk g w)).
Proof.
  intros Ha Hf. destruct (Hf (w_trk w)) as (E1 & E2 & E3). constructor; try done; [by right|].
  intros _. unfold io_sound, open_track at 1. change (w_trk (upd_trk f _)) with (f (g (w_trk w))).
  rewrite E2, E3. split; [done|]. symmetry. by apply inactive_open.
Qed.

(** Strips the updates of the world from the outside in. *)
Ltac frame :=
  repeat match goal with
  | |- task_frame ?w ?w => reflexivity
  | |- task_frame _ (if ?b then _ else _) => destruct b
  | |- task_frame _ (let _ := _ in _) => cbv zeta
  | |- task_frame _ (match ?o with Some _ => _ | None => _ end) => destruct o
  | |- task_frame _ (upd_trk ?f ?x) => transitivity x; [|apply frame_trk; intros k; done]
  | |- task_frame _ (upd_shk ?f ?x) => transitivity x; [|apply frame_shk]
  | |- task_frame _ (upd_gps ?f ?x) => transitivity x; [|apply frame_gps]
  | |- task_frame _ (act (TLed _ _) ?x) => transitivity x; [|apply frame_led]
  | |- task_frame _ (act TGpsReset ?x) => transitivity x; [|apply frame_gps_reset]
  | |- task_frame _ (upd_t (set_driver_tmr ?v) ?x) => transitivity x; [|apply frame_driver]
  end.

Lemma frame_start_now now w : task_frame w (_tracer_start_now now w).2.
Proof.
  unfold _tracer_start_now. destruct (negb _); cbn [snd]; [frame|]. cbv zeta.
  set (w1 := if stop_rq (w_trk w) then _ else _).
  assert (task_frame w w1) as H1 by (unfold w1; frame).
  destruct (tracer_is_active w1) eqn:Ea; cbn [snd]; [done|].
  destruct (negb _); cbn [snd]; [by frame|]. etrans; [exact H1|].
  match goal with |- context [upd_gps ?f (upd_trk ?g w1)] => transitivity (upd_gps f (upd_trk g w1)) end; [frame|].
  unfold tracer_activate. by apply frame_begin.
Qed.

Lemma frame_stop_now now w : task_frame w (_tracer_stop_now now w).
Proof.
  unfold _tracer_stop_now. destruct (tracer_is_active w); [|frame].
  destruct (Z.eqb_spec (t_point (w_trk w)) 0) as [E|_]; frame. by apply frame_deactivate.
Qed.

Lemma frame_start now w : task_frame w (tracer_start now w).
Proof.
  unfold tracer_start. pose proof (frame_start_now now w) as H.
  destruct (_tracer_start_now now w) as [[] w1]; cbn [snd] in H; [|done]. by frame.
Qed.

Lemma frame_stop now w : task_frame w (tracer_stop now w).
Proof. unfold tracer_stop. frame. etrans; [|apply frame_stop_now]. frame. Qed.

Lemma frame_key_start now w : task_frame w (tracer_key_start now w).
Proof. unfold tracer_key_start. frame. apply frame_start. Qed.

Lemma frame_test now w : task_frame w (tracer_test now w).2.
Proof.
  unfold tracer_test. destruct (tracer_is_active w); [done|]. destruct (negb _); [done|].
  cbn [snd]. frame. apply frame_start.
Qed.

Lemma frame_shock_start now b w : task_frame w (tracer_shock_start now b w).
Proof. unfold tracer_shock_start. frame. Qed.

Lemma frame_user id w : task_frame w (tracer_set_user_id id w).
Proof. constructor; auto. Qed.

Lemma frame_shock_task now w : task_frame w (tracer_shock_task now w).
Proof.
  unfold tracer_shock_task. destruct (external_start _); [done|].
  destruct (tracer_power_stop w).
  { destruct (shock_active _); [|done]. etrans; [|apply frame_stop_now]. frame. }
  destruct (now <? _).
  - cbv zeta. set (w1 := upd_gps _ w). assert (task_frame w w1) by apply frame_gps.
    destruct (_ || _); [|done]. etrans; [|apply frame_start_now]. by frame.
  - destruct (shock_stop_rq _); [|done]. destruct (_ <? 2); [|done].
    etrans; [|apply frame_stop_now]. frame.
Qed.

Lemma frame_pending now w : task_frame w (task_pending now w).
Proof. unfold task_pending. frame. etrans; [|apply frame_start]. frame. Qed.

Lemma frame_task_stop now w : task_frame w (task_stop now w).
Proof. unfold task_stop. frame. Qed.

Lemma frame_task_fix now w : task_frame w (task_fix now w).
Proof. unfold task_fix. frame. Qed.

Lemma frame_task_period e w : task_frame w (task_period e w).
Proof. unfold task_period. frame. Qed.

(** ** What the tracker promises *)

(** [ps] holds the message of the record for the unit. *)
Definition message_of (p : tracer_proto_t) (u : Z * Z) (r : tracer_buf_t) (ps : proto_state) : Prop :=
  proto_unit ps = u ∧ ∃ s now ps0, proto_unit ps0 = u ∧
    p_new_point p s now (bytes_stamp (tb_position r)) (tb_info r) ps0 = Ok ps.

(** The datagram [p] makes of a message. *)
Definition packet (p : tracer_proto_t) (ps : proto_state) : list Z :=
  resize (Z.to_nat (p_packet_size p ps)) 0 (ps_buffer ps).

(** [q_um]: confirmed, not yet marked in flash; [q_fl]: read and being sent,
    [q_sent] once it was; [q_pend]: waiting.  [q_track] and [q_open] number the
    points: the current or last track, and the last point of an open one. *)
Record delivery := Delivery {
  q_um : list tracer_buf_t;
  q_fl : option tracer_buf_t;
  q_sent : bool;
  q_pend : list tracer_buf_t;
  q_track : Z;
  q_open : option Z
}.

Inductive dlabel :=
  | DPoint (r : tracer_buf_t) (kept : bool)
  | DRead (r : tracer_buf_t)
  | DSend (r : tracer_buf_t) (data : list Z)
  | DConfirm (r : tracer_buf_t) (reply : list Z)
  | DMark.

Definition is_last (r : tracer_buf_t) : bool := has (tb_flags r) TRACER_FLAG_LAST.

Definition next_numbers (track : Z) (open : option Z) : Z * Z :=
  match open with None => (u16 (track + 1), 1) | Some n => (track, u16 (n + 1)) end.

(** The point number is 16 bits wide; when it comes round to 0 the next point
    opens a track. *)
Definition still_open (r : tracer_buf_t) : option Z :=
  if is_last r || (tb_point r =? 0) then None else Some (tb_point r).

Inductive dstep (p : tracer_proto_t) (u : Z * Z) : delivery → dlabel → delivery → Prop :=
  | d_point um fl sent pend track open r kept :
      (tb_track r, tb_point r) = next_numbers track open →
      dstep p u (Delivery um fl sent pend track open) (DPoint r kept)
        (Delivery um fl sent (if kept then pend ++ [r] else pend) (tb_track r) (still_open r))
  | d_read um r pend sent track open :
      dstep p u (Delivery um None sent (r :: pend) track open) (DRead r)
        (Delivery um (Some r) false pend track open)
  | d_send um r sent pend track open ps :
      message_of p u r ps →
      dstep p u (Delivery um (Some r) sent pend track open) (DSend r (packet p ps))
        (Delivery um (Some r) true pend track open)
  | d_confirm um r pend track open ps reply :
      message_of p u r ps → p_packet_reply_ok p reply ps = Ok true →
      dstep p u (Delivery um (Some r) true pend track open) (DConfirm r reply)
        (Delivery (um ++ [r]) None false pend track open)
  | d_mark um sent pend track open :
      dstep p u (Delivery um None sent pend track open) DMark (Delivery [] None sent pend track open).

Inductive dsteps (p : tracer_proto_t) (u : Z * Z) : delivery → list dlabel → delivery → Prop :=
  | ds_nil q : dsteps p u q [] q
  | ds_cons q1 q2 q3 l ls : dstep p u q1 l q2 → dsteps p u q2 ls q3 → dsteps p u q1 (l :: ls) q3.

Lemma dsteps_app p u q1 q2 q3 l1 l2 :
  dsteps p u q1 l1 q2 → dsteps p u q2 l2 q3 → dsteps p u q1 (l1 ++ l2) q3.
Proof. induction 1; [done|]. cbn. intros. by econstructor; eauto. Qed.
Lemma dsteps_one p u q l q' : dstep p u q l q' → dsteps p u q [l] q'.
Proof. intros. econstructor; [done|constructor]. Qed.

Definition kept_points (ls : list dlabel) : list tracer_buf_t :=
  omap (λ l, match l with DPoint r true => Some r | _ => None end) ls.
Definition confirmed_points (ls : list dlabel) : list tracer_buf_t :=
  omap (λ l, match l with DConfirm r _ => Some r | _ => None end) ls.
Definition sent_packets (ls : list dlabel) : list (list Z) :=
  omap (λ l, match l with DSend _ d => Some d | _ => None end) ls.
Definition replies (ls : list dlabel) : list (list Z) :=
  omap (λ l, match l with DConfirm _ d => Some d | _ => None end) ls.

(** Nothing is lost, duplicated or reordered between the ring and the server. *)
Lemma dsteps_conserve p u q ls q' :
  dsteps p u q ls q' →
  option_list (q_fl q) ++ q_pend q ++ kept_points ls
    = confirmed_points ls ++ option_list (q_fl q') ++ q_pend q'.
Proof.
  induction 1 as [q|q1 q2 q3 l ls H Hs IH]; [cbn; by rewrite app_nil_r|].
  inversion H; subst; cbn [q_fl q_pend option_list] in IH; cbn [q_fl q_pend option_list]; clear H Hs.
  - destruct kept; [|exact IH]. rewrite <-app_assoc in IH. exact IH.
  - exact IH.
  - exact IH.
  - exact (f_equal (cons r) IH).
  - exact IH.
Qed.

(** ** The point a run stores *)

(** The world once the point has its numbers. *)
Definition numbered (w : tracer_world) : tracer_world :=
  let w := if t_point (w_trk w) =? 0 then
             upd_io (λ io, Z.lor io SYSTEM_IO_TRACING)
               (upd_trk (λ k, set_t_track (u16 (t_track k + 1)) k) w)
           else w in
  upd_trk (λ k, set_t_point (u16 (t_point k + 1)) k) w.

Definition new_point_rec (w : tracer_world) : tracer_buf_t :=
  let '(valid_pos, pos) := gps_get_current_stamp (w_gps w) in
  new_rec (stamp_bytes pos) (t_track (w_trk w)) (t_point (w_trk w))
    (Z.lor (if valid_pos then TRACER_FLAG_VALID else 0) (if stop_rq (w_trk w) then TRACER_FLAG_LAST else 0))
    (info_dw (TrackInfo (tr_user (w_t w)) (if has (w_io w) SYSTEM_IO_TRACK then 1 else 0)
                (_map_inputs (w_io w)) 0 (if has (w_int w) SYSTEM_INT_POWER_FAIL then bit 1 else 0))).

Lemma new_point_eq mem w :
  tracer_new_point mem w =
    let r := new_point_rec (numbered w) in
    set_ring (tracer_buf_store_position mem (tb_position r) (tb_track r) (tb_point r) (tb_flags r)
                (tb_info r) (w_ring w)).2 (numbered w).
Proof.
  unfold tracer_new_point. change (w_ring w) with (w_ring w). unfold new_point_rec, numbered.
  destruct (t_point (w_trk w) =? 0); reflexivity.
Qed.

Lemma info_dw_range i : in_u32 (info_dw i).
Proof. unfold in_u32, info_dw. Z.div_mod_to_equations. lia. Qed.

Lemma new_point_rec_ok_of w :
  in_u16 (t_track (w_trk w)) → in_u16 (t_point (w_trk w)) → rec_ok (new_point_rec w).
Proof.
  intros Ht Hp. unfold new_point_rec. destruct (gps_get_current_stamp _) as [v d].
  split; [done|]. split; [done|]. split; [apply stamp_bytes_length|]. split; [apply info_dw_range|].
  cbn [tb_flags new_rec]. destruct v, (stop_rq _); split; vm_compute; (done || discriminate).
Qed.

(** ** The recording side *)

(** The world stands for the abstract state. *)
Record implements (p : tracer_proto_t) (u : Z * Z) (w : tracer_world) (q : delivery) : Prop := {
  im_ring : tracks (w_ring w) (q_um q ++ option_list (q_fl q)) (q_pend q);
  im_proto : w_proto w = p;
  im_ready : p_packet_ready p (w_ps w) = bool_decide (is_Some (q_fl q));
  im_unit : proto_unit (w_ps w) = u;
  im_message : ∀ r, q_fl q = Some r → message_of p u r (w_ps w);
  im_tmout : TMOUT_MIN ≤ ack_tmout (w_com w) ≤ TMOUT_MAX;
  im_erase : new_track_id (w_com w) = 0;
  im_range : in_u16 (q_track q) ∧ in_u16 (t_point (w_trk w));
  im_track : t_track (w_trk w) = q_track q;
  im_io : io_sound w;
  im_open : open_track w = q_open q
}.

(** What sending uses is untouched. *)
Record keeps_comm (w w' : tracer_world) : Prop := {
  kc_ps : w_ps w' = w_ps w;
  kc_com : w_com w' = w_com w;
  kc_sia : tr_sia (w_t w') = tr_sia (w_t w);
  kc_param : w_param w' = w_param w;
  kc_ip : tr_ip (w_t w') = tr_ip (w_t w);
  kc_port : tr_port (w_t w') = tr_port (w_t w);
  kc_log : sends (w_log w') = sends (w_log w)
}.

#[export] Instance keeps_comm_preorder : PreOrder keeps_comm.
Proof. split; [intros w; by constructor|]. intros w1 w2 w3 [] []. constructor; congruence. Qed.

Lemma frame_keeps w w' : task_frame w w' → keeps_comm w w'.
Proof. intros []. by constructor. Qed.

Lemma implements_frame p u w w' q : task_frame w w' → implements p u w q → implements p u w' q.
Proof.
  intros [Eps Er Ec Es _ _ _ _ Et En Ho] [Hr Hp Hy Hu Hm Hk He [Ht Hn] Htr Hio Hop].
  destruct (Ho Hio) as [Hio' Eo].
  constructor; rewrite ?Eps, ?Er, ?Ec, ?Et, ?Eo; try done.
  - unfold w_proto. rewrite Es. exact Hp.
  - split; [done|]. destruct En as [E|E]; rewrite E; [done|]. unfold in_u16. lia.
Qed.

Lemma numbered_same w :
  w_ps (numbered w) = w_ps w ∧ w_com (numbered w) = w_com w ∧ w_proto (numbered w) = w_proto w ∧
  tr_ip (w_t (numbered w)) = tr_ip (w_t w) ∧ tr_port (w_t (numbered w)) = tr_port (w_t w) ∧
  w_param (numbered w) = w_param w.
Proof. unfold numbered. by destruct (_ =? 0). Qed.

Lemma numbered_ok w :
  in_u16 (t_track (w_trk w)) → in_u16 (t_track (w_trk (numbered w))) ∧ in_u16 (t_point (w_trk (numbered w))).
Proof.
  intros Ht. unfold numbered. destruct (_ =? 0); cbn; split; (done || apply u16_range).
Qed.

Lemma point_done_keeps now w : keeps_comm w (point_done now w).
Proof. unfold point_done. cbv zeta. by destruct (stop_rq _). Qed.

Lemma new_point_keeps mem w : keeps_comm w (tracer_new_point mem w).
Proof. rewrite new_point_eq. unfold numbered. cbv zeta. by destruct (_ =? 0). Qed.

Lemma numbered_track w :
  tracing_active (w_trk w) = true → in_u16 (t_track (w_trk w)) → in_u16 (t_point (w_trk w)) →
  (t_track (w_trk (numbered w)), t_point (w_trk (numbered w))) = next_numbers (t_track (w_trk w)) (open_track w).
Proof.
  intros Ha Ht Hp. unfold numbered, open_track. rewrite Ha.
  destruct (Z.eqb_spec (t_point (w_trk w)) 0) as [E|E]; [|done].
  change ((u16 (t_track (w_trk w) + 1), u16 (t_point (w_trk w) + 1)) = (u16 (t_track (w_trk w) + 1), 1)).
  by rewrite E.
Qed.

Lemma numbered_active w :
  tracing_active (w_trk (numbered w)) = tracing_active (w_trk w) ∧ stop_rq (w_trk (numbered w)) = stop_rq (w_trk w).
Proof. unfold numbered. by destruct (_ =? 0). Qed.

Lemma point_rec_last w : is_last (seal (new_point_rec w)) = stop_rq (w_trk w).
Proof.
  unfold new_point_rec. destruct (gps_get_current_stamp _) as [v d]. cbn.
  by destruct v, (stop_rq (w_trk w)).
Qed.

Lemma point_rec_numbers w :
  tb_track (seal (new_point_rec w)) = t_track (w_trk w) ∧ tb_point (seal (new_point_rec w)) = t_point (w_trk w).
Proof. unfold new_point_rec. by destruct (gps_get_current_stamp _). Qed.

(** One point: numbered next, stored when there is memory, and the end of the
    track when the end was asked for. *)
Lemma new_point_implements p u mem now w q :
  implements p u w q → tracer_is_active w = true →
  Z.of_nat (length (q_um q ++ option_list (q_fl q)) + length (q_pend q)) + 1 < BUF_STORE_LIMIT →
  ∃ r q', dstep p u q (DPoint r mem) q' ∧ implements p u (point_done now (tracer_new_point mem w)) q'.
Proof.
  intros [Hr Hp Hy Hu Hm Hk He [Ht Hn] Htr Hio Hop] Ha Hcap.
  assert (tracing_active (w_trk w) = true) as Hta.
  { unfold tracer_is_active in Ha. destruct (tracing_active (w_trk w)) eqn:E; [done|].
    rewrite <-E. by apply Hio. }
  rewrite <-Htr in Ht. destruct (numbered_ok w Ht) as [Ht' Hn'].
  pose proof (numbered_track w Hta Ht Hn) as En. rewrite Htr, Hop in En.
  destruct (numbered_active w) as [Ea Es]. rewrite Hta in Ea.
  pose proof (point_rec_last (numbered w)) as El. destruct (point_rec_numbers (numbered w)) as [E1 E2].
  pose proof (new_point_rec_ok_of (numbered w) Ht' Hn') as Hok.
  destruct (numbered_same w) as (Sps & Scom & Spr & _).
  pose proof (new_point_eq mem w) as Ew. cbv zeta in Ew.
  set (r := new_point_rec (numbered w)) in *. set (wn := numbered w) in *.
  destruct q as [um fl sent pend track open]. cbn [q_um q_fl q_pend q_track q_open] in *.
  exists (seal r). eexists. split; [apply d_point; rewrite E1, E2; exact En|].
  assert (∃ t', (tracer_buf_store_position mem (tb_position r) (tb_track r) (tb_point r) (tb_flags r)
      (tb_info r) (w_ring w)).2 = t' ∧
      tracks t' (um ++ option_list fl) (if mem then pend ++ [seal r] else pend)) as (t' & Et & Htr').
  { destruct mem; [|by exists (w_ring w)].
    destruct (store_tracks (w_ring w) (um ++ option_list fl) pend (tb_position r) (tb_track r) (tb_point r)
      (tb_flags r) (tb_info r) Hr) as (t' & E & Ht1); [exact Hok|lia|]. exists t'. by rewrite E. }
  rewrite Ew, Et. unfold point_done. cbv zeta.
  change (stop_rq (w_trk (upd_trk (set_point_last now) (set_ring t' wn)))) with (stop_rq (w_trk wn)).
  assert (w_proto wn = p) as Hp' by exact (eq_trans Spr Hp).
  destruct (stop_rq (w_trk wn)) eqn:Estop; constructor; cbn [q_um q_fl q_pend q_track q_open];
    first [ exact Htr' | exact Hp' | by rewrite <-Sps in Hy | by rewrite <-Sps in Hu
          | intros r0 Er; specialize (Hm r0 Er); by rewrite <-Sps in Hm | by rewrite <-Scom in Hk | by rewrite <-Scom in He
          | by rewrite E1 | idtac ].
  - apply io_sound_deactivate.
  - unfold still_open. by rewrite El.
  - intros _. exact Ea.
  - unfold open_track, still_open. rewrite El, E2.
    change (tracing_active (w_trk (upd_trk _ _))) with (tracing_active (w_trk wn)).
    change (t_point (w_trk (upd_trk _ _))) with (t_point (w_trk wn)). rewrite Ea. cbn [andb orb].
    by destruct (_ =? 0).
Qed.

(** What a part of the program leaves behind: new labels, the datagrams they
    send to the server, the ring in the new state. *)
Definition runs (p : tracer_proto_t) (u : Z * Z) (w w' : tracer_world) (q : delivery) (ls : list dlabel)
    (q' : delivery) : Prop :=
  dsteps p u q ls q' ∧ implements p u w' q' ∧
  sends (w_log w') = sends (w_log w) ++ ((λ d, (tr_port (w_t w), tr_ip (w_t w), d)) <$> sent_packets ls) ∧
  tr_port (w_t w') = tr_port (w_t w) ∧ tr_ip (w_t w') = tr_ip (w_t w) ∧ w_param w' = w_param w.

Definition room (q : delivery) (n : nat) : Prop :=
  Z.of_nat (length (q_um q ++ option_list (q_fl q)) + length (q_pend q) + n) < BUF_STORE_LIMIT.

Lemma runs_trans p u w1 w2 w3 q1 q2 q3 l1 l2 :
  runs p u w1 w2 q1 l1 q2 → runs p u w2 w3 q2 l2 q3 → runs p u w1 w3 q1 (l1 ++ l2) q3.
Proof.
  intros (H1 & _ & E1 & P1 & I1 & Q1) (H2 & H2' & E2 & P2 & I2 & Q2). split; [by eapply dsteps_app|].
  split; [done|]. split; [|by rewrite P2, I2, Q2].
  unfold sent_packets in *. rewrite E2, E1, P1, I1, omap_app, fmap_app. by rewrite app_assoc.
Qed.

Lemma runs_keeps p u w w' q ls q' :
  dsteps p u q ls q' → implements p u w' q' → keeps_comm w w' → sent_packets ls = [] →
  runs p u w w' q ls q'.
Proof.
  intros H1 H2 [] E. split; [done|]. split; [done|]. rewrite E, kc_log0, app_nil_r. done.
Qed.

Lemma runs_frame p u w w' q : task_frame w w' → implements p u w q → runs p u w w' q [] q.
Proof.
  intros H Hi. apply runs_keeps; [constructor|by eapply implements_frame|by apply frame_keeps|done].
Qed.

(** What goes on in a run does not change whether a track is recorded. *)
Lemma active_task_stop now w : tracer_is_active (task_stop now w) = tracer_is_active w.
Proof. unfold task_stop. by repeat case_match. Qed.
Lemma active_task_fix now w : tracer_is_active (task_fix now w) = tracer_is_active w.
Proof. unfold task_fix. cbv zeta. by repeat case_match. Qed.
Lemma active_task_period e w : tracer_is_active (task_period e w) = tracer_is_active w.
Proof. unfold task_period. cbv zeta. by repeat case_match. Qed.

Lemma tracer_task_cases e w :
  task_frame w (tracer_task e w) ∨
  ∃ w1, task_frame w w1 ∧ tracer_is_active w1 = true ∧
    tracer_task e w = point_done (te_now e) (tracer_new_point (te_mem e) w1).
Proof.
  unfold tracer_task. cbv zeta.
  pose proof (frame_shock_task (te_now e) w) as H1.
  pose proof (frame_pending (te_now e) (tracer_shock_task (te_now e) w)) as H2.
  set (w1 := task_pending _ _) in *. assert (task_frame w w1) as H3 by (etrans; [exact H1|exact H2]).
  destruct (tracer_is_active w1) eqn:Ea; cbn [negb]; [|by left].
  match goal with |- context [task_point e ?x] => set (w2 := x) end.
  assert (task_frame w w2) as H4.
  { etrans; [exact H3|]. unfold w2. etrans; [|apply frame_task_fix]. etrans; [|apply frame_task_stop]. frame. }
  assert (tracer_is_active w2 = true) as Ha2.
  { unfold w2. rewrite active_task_fix, active_task_stop, <-Ea. by repeat case_match. }
  clearbody w2. unfold task_point. cbv zeta. destruct (_ <? point_time _); [by left|]. right.
  match goal with |- context [tracer_new_point _ ?x] => exists x end. split; [|split; [|done]].
  - etrans; [exact H4|]. frame. all: apply frame_task_period.
  - rewrite <-Ha2, <-(active_task_period e w2). by case_match.
Qed.

Lemma tracer_task_keeps e w : keeps_comm w (tracer_task e w).
Proof.
  destruct (tracer_task_cases e w) as [H|(w1 & H & _ & ->)]; [by apply frame_keeps|].
  etrans; [by apply frame_keeps|]. etrans; [apply new_point_keeps|apply point_done_keeps].
Qed.

(** A run of the recording task: at most one point. *)
Lemma tracer_task_runs p u e w q :
  implements p u w q → room q 1 →
  ∃ ls q', runs p u w (tracer_task e w) q ls q' ∧
    (ls = [] ∧ q' = q ∨ ∃ r, ls = [DPoint r (te_mem e)]) ∧ (∀ n, room q (S n) → room q' n).
Proof.
  intros Hi Hc. pose proof (tracer_task_keeps e w) as Hk.
  destruct (tracer_task_cases e w) as [H|(w1 & H & Ha & E)].
  - exists [], q. split; [by apply runs_frame|]. split; [by left|]. unfold room. lia.
  - destruct (new_point_implements p u (te_mem e) (te_now e) w1 q) as (r & q' & Hd & Hi');
      [by eapply implements_frame|done|unfold room in Hc; lia|]. rewrite <-E in Hi'.
    exists [DPoint r (te_mem e)], q'. split; [by apply runs_keeps; [apply dsteps_one|..]|].
    split; [right; by exists r|].
    inversion Hd; subst. unfold room. cbn. intros n. destruct (te_mem e); rewrite ?length_app; cbn; lia.
Qed.

(** ** The sending side *)

Context (p : tracer_proto_t) (u : Z * Z) `{PL : !ProtoLaws p} `{PT : !ProtoTotal p}.

Lemma implements_com f w q :
  implements p u w q → TMOUT_MIN ≤ ack_tmout (f (w_com w)) ≤ TMOUT_MAX → new_track_id (f (w_com w)) = 0 →
  implements p u (upd_com f w) q.
Proof. intros []. by constructor. Qed.

Lemma runs_com f w w' q ls q' :
  runs p u w w' q ls q' → TMOUT_MIN ≤ ack_tmout (f (w_com w')) ≤ TMOUT_MAX →
  new_track_id (f (w_com w')) = 0 → runs p u w (upd_com f w') q ls q'.
Proof.
  intros (H1 & H2 & H3) Hk He. split; [done|]. split; [by apply implements_com|exact H3].
Qed.

Lemma runs_refl w q : implements p u w q → runs p u w w q [] q.
Proof. intros. by apply runs_frame. Qed.

Lemma packet_rx_eq data port w :
  w_proto w = p →
  ∃ b w', tracer_packet_rx data port w = Ok (b, w') ∧
    (w' = w ∨ w' = upd_com (set_packet_ack true) w ∧ p_packet_reply_ok p data (w_ps w) = Ok true).
Proof.
  intros Hp. unfold tracer_packet_rx. rewrite Hp. destruct (negb _); [by exists false, w; auto|].
  destruct (reply_total data (w_ps w)) as [ok E]. rewrite E. cbn [mbind outcome_bind].
  destruct ok; cbn [negb]; [eexists true, _; split; [done|by right]|by exists false, w; auto].
Qed.

Definition is_point (l : dlabel) : Prop := match l with DPoint _ _ => True | _ => False end.
Definition tasks (l : list meanwhile) : nat :=
  length (omap (λ m, match m with MTask e => Some e | _ => None end) l).
Definition received (l : list meanwhile) : list (list Z) :=
  omap (λ m, match m with MRx data _ => Some data | _ => None end) l.

(** Recording while a datagram is on its way changes only what waits. *)
Lemma points_only q ls q' :
  dsteps p u q ls q' → Forall is_point ls →
  q_um q' = q_um q ∧ q_fl q' = q_fl q ∧ q_sent q' = q_sent q ∧ sent_packets ls = [] ∧ replies ls = [].
Proof.
  induction 1 as [q|q1 q2 q3 l ls H Hs IH]; [done|]. intros [Hl Hls]%Forall_cons.
  destruct (IH Hls) as (E1 & E2 & E3 & E4 & E5). inversion H; subst; try done.
Qed.

Lemma meanwhile_runs l w q :
  implements p u w q → room q (tasks l) →
  ∃ w' ls q', run_meanwhile l w = Ok w' ∧ runs p u w w' q ls q' ∧ Forall is_point ls ∧
    w_ps w' = w_ps w ∧ (∀ n, room q (tasks l + n) → room q' n) ∧
    (packet_ack (w_com w') = true → packet_ack (w_com w) = true ∨
       ∃ data, data ∈ received l ∧ p_packet_reply_ok p data (w_ps w) = Ok true).
Proof.
  revert w q. induction l as [|[data port|e] l IH]; intros w q Hi Hc.
  - exists w, [], q. split; [done|]. split; [by apply runs_refl|]. split; [done|]. split; [done|].
    split; [done|]. by left.
  - cbn [run_meanwhile]. destruct (packet_rx_eq data port w) as (b & w1 & -> & Hw1); [apply Hi|].
    cbn [mbind outcome_bind].
    assert (runs p u w w1 q [] q ∧ w_ps w1 = w_ps w ∧ (packet_ack (w_com w1) = true →
      packet_ack (w_com w) = true ∨ p_packet_reply_ok p data (w_ps w) = Ok true)) as (Hr1 & Hps1 & Hack1).
    { destruct Hw1 as [E|[E Hok]]; rewrite E.
      - split; [by apply runs_refl|]. by auto.
      - split; [apply runs_com; [by apply runs_refl|apply Hi|apply Hi]|]. by auto. }
    destruct (IH w1 q) as (w' & ls & q' & E & Hr & Hls & Hps & Hroom & Hack); [apply Hr1|done|].
    exists w', ls, q'. split; [done|]. split; [exact (runs_trans _ _ _ _ _ _ _ _ _ _ Hr1 Hr)|].
    split; [done|]. split; [congruence|]. split; [exact Hroom|]. rewrite Hps1 in Hack.
    intros Ha. destruct (Hack Ha) as [Ha1|(d & Hd & Hok)].
    + destruct (Hack1 Ha1) as [?|Hok]; [by left|]. right. exists data. split; [by left|done].
    + right. exists d. split; [by right|done].
  - cbn [run_meanwhile]. change (tasks (MTask e :: l)) with (S (tasks l)) in *.
    destruct (tracer_task_runs p u e w q Hi) as (l1 & q1 & Hr1 & Hl1 & Hroom1); [unfold room in *; lia|].
    destruct (tracer_task_keeps e w) as [Kps Kcom _ _ _ _ _].
    destruct (IH (tracer_task e w) q1) as (w' & ls & q' & E & Hr & Hls & Hps & Hroom & Hack);
      [apply Hr1|by apply Hroom1|].
    exists w', (l1 ++ ls), q'. split; [done|]. split; [by eapply runs_trans|].
    split; [apply Forall_app_2; [|done]; destruct Hl1 as [[-> _]|[r ->]]; by repeat constructor|].
    split; [congruence|]. split; [intros n Hn; by apply Hroom, Hroom1|].
    rewrite Kps, Kcom in Hack. exact Hack.
Qed.

(** The looks at the acknowledgement go on long enough. *)
Definition polls_reach (start : Z) (polls : list (list meanwhile * Z)) : Prop :=
  ∃ t, t ∈ polls.*2 ∧ start + TMOUT_MAX ≤ t.

Definition polled (polls : list (list meanwhile * Z)) : list meanwhile := mjoin polls.*1.

Lemma tasks_app l l' : tasks (l ++ l') = (tasks l + tasks l')%nat.
Proof. unfold tasks. by rewrite omap_app, length_app. Qed.
Lemma received_app l l' : received (l ++ l') = received l ++ received l'.
Proof. unfold received. apply omap_app. Qed.

Lemma upd_com_id w : upd_com (λ c, c) w = w.
Proof. by destruct w as [[]]. Qed.

Lemma wait_end start w q :
  implements p u w q → 0 ≤ start → u32 (start + ack_tmout (w_com w)) ≤ start + TMOUT_MAX.
Proof.
  intros [_ _ _ _ _ [Hk1 Hk2] _ _ _ _ _] Hs. unfold u32. change TMOUT_MIN with 200 in Hk1.
  etrans; [apply Z.mod_le; lia|lia].
Qed.

(** The wait ends; it reports an acknowledgement only of an accepted answer. *)
Lemma ack_loop_runs polls start now w q :
  implements p u w q → packet_ack (w_com w) = false → 0 ≤ start →
  start + TMOUT_MAX ≤ now ∨ polls_reach start polls → room q (tasks (polled polls)) →
  ∃ res w1 f ls q', ack_loop polls start now w = Ok (res, upd_com f w1) ∧ runs p u w w1 q ls q' ∧
    Forall is_point ls ∧ w_ps w1 = w_ps w ∧ (∀ n, room q (tasks (polled polls) + n) → room q' n) ∧
    (∀ c, new_track_id (f c) = new_track_id c) ∧
    (res = true → ∃ data, data ∈ received (polled polls) ∧ p_packet_reply_ok p data (w_ps w) = Ok true).
Proof.
  revert now w q. induction polls as [|[l t] polls IH]; intros now w q Hi Ha Hs Hreach Hc;
    cbn [ack_loop]; pose proof (wait_end start w q Hi Hs) as Hend.
  - destruct Hreach as [Hn|(t & []%elem_of_nil & _)].
    destruct (Z.ltb_spec now (u32 (start + ack_tmout (w_com w)))); [lia|].
    exists false, w, (λ c, c), [], q. rewrite upd_com_id. split; [done|]. by split; [apply runs_refl|].
  - unfold polled in *. cbn [fmap list_fmap fst mjoin list_join] in *. rewrite tasks_app in *.
    destruct (Z.ltb_spec now (u32 (start + ack_tmout (w_com w)))) as [Hlt|_].
    2: { exists false, w, (λ c, c), [], q. rewrite upd_com_id. split; [done|]. split; [by apply runs_refl|].
         split; [done|]. split; [done|]. split; [|done]. intros n Hn. unfold room in *. lia. }
    destruct Hreach as [Hn|(t' & Ht & Hle)]; [lia|].
    destruct (meanwhile_runs l w q Hi) as (w1 & l1 & q1 & E1 & Hr1 & Hl1 & Hps1 & Hroom1 & Hack1);
      [unfold room in *; lia|].
    rewrite E1. cbn [mbind outcome_bind]. destruct (packet_ack (w_com w1)) eqn:Ea1; cbn [negb].
    + eexists true, w1, _, l1, q1. split; [done|]. split; [done|]. split; [done|]. split; [done|].
      split; [intros n Hn; apply Hroom1; unfold room in *; lia|]. split; [done|].
      intros _. destruct (Hack1 eq_refl) as [?|(d & Hd & Hok)]; [congruence|].
      exists d. split; [rewrite received_app; by apply elem_of_app; left|done].
    + destruct (IH t w1 q1) as (res & w2 & f & l2 & q2 & E2 & Hr2 & Hl2 & Hps2 & Hroom2 & Hf & Hack2);
        [apply Hr1|done|done| |by apply Hroom1|].
      { apply elem_of_cons in Ht as [->|Ht]; [by left|right; by exists t']. }
      exists res, w2, f, (l1 ++ l2), q2. split; [done|]. split; [by eapply runs_trans|].
      split; [by apply Forall_app_2|]. split; [congruence|].
      split; [intros n Hn; apply Hroom2, Hroom1; by rewrite Nat.add_assoc|].
      split; [done|]. rewrite Hps1 in Hack2. intros Hres. destruct (Hack2 Hres) as (d & Hd & Hok).
      exists d. split; [rewrite received_app; by apply elem_of_app; right|done].
Qed.

Lemma wait_runs now polls w q :
  implements p u w q → packet_ack (w_com w) = false → 0 ≤ now → polls_reach now polls →
  room q (tasks (polled polls)) →
  ∃ res w' ls q', wait_for_ack now polls w = Ok (res, w') ∧ runs p u w w' q ls q' ∧
    Forall is_point ls ∧ w_ps w' = w_ps w ∧ (∀ n, room q (tasks (polled polls) + n) → room q' n) ∧
    (res = true → ∃ data, data ∈ received (polled polls) ∧ p_packet_reply_ok p data (w_ps w) = Ok true).
Proof.
  intros Hi Ha Hn Hr Hc. unfold wait_for_ack.
  destruct (ack_loop_runs polls now now w q Hi Ha Hn (or_intror Hr) Hc)
    as (res & w1 & f & ls & q' & -> & Hr1 & Hls & Hps & Hroom & Hf & Hack). cbn [mbind outcome_bind].
  eexists res, _, ls, q'. split; [reflexivity|]. split; [|done].
  assert (new_track_id (w_com w1) = 0) as He by apply Hr1.
  match goal with |- context [set_ack_tmout ?t] => set (tm := t) end.
  assert (TMOUT_MIN ≤ tm ≤ TMOUT_MAX) as Htm.
  { unfold tm. change TMOUT_MIN with 200. change TMOUT_MAX with 5000.
    repeat match goal with |- context [?a <? ?b] => destruct (Z.ltb_spec a b) end; lia. }
  clearbody tm.
  change (upd_com (set_ack_tmout tm) (upd_com f w1)) with (upd_com (λ c, set_ack_tmout tm (f c)) w1).
  apply runs_com; [exact Hr1|exact Htm|]. change (new_track_id (f (w_com w1)) = 0). by rewrite Hf.
Qed.

(** Between datagrams the state of the connection is bookkeeping. *)
Lemma runs_sleep w w' q ls q' now n : runs p u w w' q ls q' → runs p u w (tracer_comm_sleep now n w') q ls q'.
Proof. intros H. apply runs_com; [done|apply H|apply H]. Qed.
Lemma runs_retry w w' q ls q' now : runs p u w w' q ls q' → runs p u w (comm_retry now w') q ls q'.
Proof.
  intros H. unfold comm_retry. destruct (_ <? _); [|by apply runs_sleep].
  apply runs_com; [done|apply H|apply H].
Qed.

Lemma runs_ring w q t :
  tracks t (q_um q ++ option_list (q_fl q)) (q_pend q) → implements p u w q → implements p u (set_ring t w) q.
Proof. intros Ht []. by constructor. Qed.

(** The message is sent, with what the state becomes. *)
Lemma send_runs w um r sent pend track open :
  implements p u w (Delivery um (Some r) sent pend track open) →
  runs p u w (send_packet w) (Delivery um (Some r) sent pend track open) [DSend r (packet p (w_ps w))]
    (Delivery um (Some r) true pend track open).
Proof.
  intros Hi. destruct (Hi) as [Hr Hp Hy Hu Hm Hk He Hrg Htr Hio Hop].
  split; [apply dsteps_one, d_send; by apply Hm|]. split; [by constructor|].
  split; [|done]. unfold send_packet. cbv zeta. rewrite Hp. cbn [w_log act]. unfold sends.
  rewrite omap_app. reflexivity.
Qed.

(** An acknowledgement confirms the record being sent. *)
Lemma confirm_runs mem w um r pend track open reply :
  implements p u w (Delivery um (Some r) true pend track open) →
  p_packet_reply_ok p reply (w_ps w) = Ok true →
  ∃ b t ls q', tracer_buf_delivered_all mem (w_ring w) = Ok (b, t) ∧
    runs p u w (set_ring t (upd_ps (p_packet_done p) (upd_com (set_send_retry 0) w)))
      (Delivery um (Some r) true pend track open) (DConfirm r reply :: ls) q' ∧ sent_packets ls = [] ∧
      kept_points ls = [] ∧ replies ls = [] ∧ q_pend q' = pend ∧ q_fl q' = None ∧ (length (q_um q') <= length um + 1)%nat ∧
      (mem = true → q_um q' = []).
Proof.
  intros Hi Hok. destruct (Hi) as [Hr Hp Hy Hu Hm Hk He Hrg Htr Hio Hop].
  cbn [q_um q_fl q_pend option_list] in *.
  assert (∀ t um', tracks t um' pend →
    implements p u (set_ring t (upd_ps (p_packet_done p) (upd_com (set_send_retry 0) w)))
      (Delivery um' None false pend track open)) as Hnew.
  { intros t um' Ht. constructor; try done; cbn.
    - by rewrite app_nil_r.
    - apply done_idle.
    - rewrite done_unit. exact Hu. }
  assert (dstep p u (Delivery um (Some r) true pend track open) (DConfirm r reply)
    (Delivery (um ++ [r]) None false pend track open)) as Hd.
  { eapply d_confirm; [by apply Hm|done]. }
  destruct mem.
  - destruct (tracer_buf_delivered_all_tracks _ _ _ Hr) as (t & E & Ht & _). rewrite E.
    exists true, t, [DMark], (Delivery [] None false pend track open). split; [done|].
    split; [|repeat (split; [done|]); split; [cbn; lia|done]].
    split; [|split; [by apply Hnew|by rewrite app_nil_r]].
    econstructor; [exact Hd|]. apply dsteps_one. apply d_mark.
  - exists false, (w_ring w), [], (Delivery (um ++ [r]) None false pend track open). split; [done|].
    split; [|repeat (split; [done|]); split; [cbn; rewrite length_app; cbn; lia|done]].
    split; [by apply dsteps_one|split; [by apply Hnew|by rewrite app_nil_r]].
Qed.

Context (TRACER_SIA : bool) (dns : list Z → option Z).

Lemma setup_server w : tracer_server_setup_ok w = true → (tr_ip (w_t w) =? 0) || (tr_port (w_t w) =? 0) = false.
Proof. unfold tracer_server_setup_ok. by destruct (_ || _). Qed.

Lemma replies_app l l' : replies (l ++ l') = replies l ++ replies l'.
Proof. unfold replies. apply omap_app. Qed.

Lemma send_server e w : tracer_server_setup_ok w = true → tc_connect e = true →
  comm_send TRACER_SIA dns e w =
    ('(ack, w) ← wait_for_ack (tc_now e) (tc_polls e) (send_packet w);
     if (ack : bool) then
       let w := upd_ps (p_packet_done (w_proto w)) (upd_com (set_send_retry 0) w) in
       '(_, r) ← tracer_buf_delivered_all (tc_mem e) (w_ring w);
       Ok (set_ring r w)
     else
       let now := default (tc_now e) (snd <$> last (tc_polls e)) in
       Ok (comm_retry now (tracer_comm_sleep now 1 w))).
Proof. intros Hset Hc. unfold comm_send. by rewrite (setup_server w Hset), Hc. Qed.

(** An attempt that is answered. *)
Lemma comm_send_acked e w um r sent pend track open w1 ls q1 reply :
  implements p u w (Delivery um (Some r) sent pend track open) → tracer_server_setup_ok w = true →
  tc_connect e = true → wait_for_ack (tc_now e) (tc_polls e) (send_packet w) = Ok (true, w1) →
  runs p u (send_packet w) w1 (Delivery um (Some r) true pend track open) ls q1 → Forall is_point ls →
  w_ps w1 = w_ps w → p_packet_reply_ok p reply (w_ps w) = Ok true →
  ∃ w' ls' q', comm_send TRACER_SIA dns e w = Ok w' ∧
    runs p u w w' (Delivery um (Some r) sent pend track open) ls' q' ∧ replies ls' = [reply] ∧
    sent_packets ls' = [packet p (w_ps w)] ∧ kept_points ls' = kept_points ls ∧
    q_pend q' = q_pend q1 ∧ q_fl q' = None ∧ (length (q_um q') <= length um + 1)%nat ∧
    (tc_mem e = true → q_um q' = []) ∧ w_com w' = set_send_retry 0 (w_com w1).
Proof.
  intros Hi Hset Hc E1 Hr1 Hls Hps Hok. rewrite send_server, E1 by done. cbn [mbind outcome_bind].
  pose proof (send_runs w um r sent pend track open Hi) as Hsend.
  pose proof (runs_trans _ _ _ _ _ _ _ _ _ _ Hsend Hr1) as Hr.
  destruct (points_only _ _ _ (proj1 Hr1) Hls) as (Eum & Efl & Esent & Epk & Erep).
  pose proof Hok as Hok0. rewrite <-Hps in Hok. assert (w_proto w1 = p) as -> by apply Hr1.
  destruct q1 as [um1 fl1 sent1 pend1 track1 open1]. cbn [q_um q_fl q_sent q_pend] in *. subst um1 fl1 sent1.
  destruct (confirm_runs (tc_mem e) w1 um r pend1 track1 open1 reply)
    as (b & t & l2 & q2 & E & Hr2 & Es2 & Ek2 & Er2 & Ep2 & Ef2 & Hu2 & Hm2); [apply Hr1|done|].
  cbn [w_ring upd_ps upd_com upd_t]. rewrite E. cbn [mbind outcome_bind].
  eexists _, _, q2. split; [done|]. split; [by eapply runs_trans|]. split; [|split; [|split; [|done]]].
  - rewrite !replies_app, Erep. change (replies (DConfirm r reply :: l2)) with (reply :: replies l2).
    by rewrite Er2.
  - unfold sent_packets in *. rewrite !omap_app, Epk. change (omap _ (DConfirm r reply :: l2)) with (sent_packets l2).
    unfold sent_packets. by rewrite Es2.
  - unfold kept_points in *. rewrite !omap_app. change (omap _ (DConfirm r reply :: l2)) with (kept_points l2).
    unfold kept_points. rewrite Ek2. apply app_nil_r.
Qed.

(** One attempt to send the record in flight. *)
Lemma comm_send_runs e w q r :
  implements p u w q → q_fl q = Some r → tracer_server_setup_ok w = true → 0 ≤ tc_now e →
  polls_reach (tc_now e) (tc_polls e) → room q (tasks (polled (tc_polls e))) →
  ∃ w' ls q', comm_send TRACER_SIA dns e w = Ok w' ∧ runs p u w w' q ls q' ∧
    replies ls ⊆ received (polled (tc_polls e)) ∧
    (∀ n, room q (tasks (polled (tc_polls e)) + n) → room q' n).
Proof.
  intros Hi Hfl Hset Hn Hpoll Hc. destruct q as [um fl sent pend track open]. cbn [q_fl] in Hfl. subst fl.
  destruct (tc_connect e) eqn:Hcon.
  2: { unfold comm_send. rewrite Hcon.
       eexists _, [], _. split; [done|]. split; [by apply runs_retry, runs_sleep, runs_refl|].
       split; [apply list_subseteq_nil|]. unfold room. intros n Hn'. lia. }
  pose proof (send_runs w um r sent pend track open Hi) as Hsend.
  destruct (wait_runs (tc_now e) (tc_polls e) (send_packet w) (Delivery um (Some r) true pend track open))
    as (ack & w1 & ls & q1 & E1 & Hr1 & Hls & Hps & Hroom & Hack); [apply Hsend|done..|].
  change (w_ps (send_packet w)) with (w_ps w) in *.
  destruct ack.
  - destruct (Hack eq_refl) as (reply & Hin & Hok).
    destruct (comm_send_acked e w um r sent pend track open w1 ls q1 reply Hi Hset Hcon E1 Hr1 Hls Hps Hok)
      as (w' & ls' & q' & E & Hr & Er & _ & _ & Ep & Ef & Hu & _).
    exists w', ls', q'. split; [done|]. split; [done|]. rewrite Er. split.
    + intros x Hx. apply list_elem_of_singleton in Hx as ->. exact Hin.
    + destruct (points_only _ _ _ (proj1 Hr1) Hls) as (Eum & Efl & _).
      intros n Hn'. specialize (Hroom n Hn'). unfold room in *. rewrite Ep, Ef. rewrite Eum, Efl in Hroom.
      rewrite !length_app in *. cbn [q_um q_fl option_list option_rect length] in *. lia.
  - rewrite send_server, E1 by done. cbn [mbind outcome_bind].
    pose proof (runs_trans _ _ _ _ _ _ _ _ _ _ Hsend Hr1) as Hr.
    destruct (points_only _ _ _ (proj1 Hr1) Hls) as (_ & _ & _ & _ & Erep).
    eexists _, _, q1. split; [done|]. split; [by apply runs_retry, runs_sleep|].
    rewrite replies_app, Erep. split; [apply list_subseteq_nil|exact Hroom].
Qed.

(** The next record of the ring becomes the message in flight. *)
Lemma comm_read_runs e w q :
  implements p u w q → q_fl q = None →
  ∃ w' ls q', comm_read e w = Ok w' ∧ runs p u w w' q ls q' ∧ replies ls = [] ∧ (∀ n, room q n → room q' n) ∧
    (tc_mem e = true → ∀ r pend, q_pend q = r :: pend →
       q_fl q' = Some r ∧ q_um q' = q_um q ∧ q_pend q' = pend ∧ w_com w' = w_com w ∧ ls = [DRead r]).
Proof.
  intros Hi Hfl. destruct q as [um fl sent pend track open]. cbn [q_fl] in Hfl. subst fl.
  destruct (Hi) as [Hr Hp Hy Hu Hm Hk He Hrg Htr Hio Hop]. cbn [q_um q_fl q_pend option_list] in *.
  rewrite app_nil_r in Hr. unfold comm_read, tracer_buf_empty.
  assert (buf_read_ptr (w_ring w) =? buf_save_ptr (w_ring w) = bool_decide (pend = [])) as Hempty.
  { destruct Hr as (H0 & -> & -> & H1 & _). destruct pend as [|r pend].
    - by rewrite Nat.add_0_r, Z.eqb_refl.
    - apply Z.eqb_neq. intros E%after_inj; cbn in *; lia. }
  rewrite Hempty. destruct pend as [|r pend]; cbn [bool_decide decide].
  { rewrite bool_decide_eq_true_2 by done.
    eexists _, [], _. split; [done|]. split; [by apply runs_sleep, runs_refl|]. by split. }
  rewrite bool_decide_eq_false_2 by done. destruct (tc_mem e) eqn:Emem.
  2: { assert (tracer_buf_read_next false (w_ring w) = (-1, None, w_ring w)) as ->
         by (unfold tracer_buf_read_next; cbn [negb]; by case_match).
       assert (set_ring (w_ring w) w = w) as -> by (by destruct w).
       eexists _, [], (Delivery um None sent (r :: pend) track open). split; [done|].
       split; [by apply runs_sleep, runs_refl|]. by repeat split. }
  destruct (read_tracks _ _ _ _ Hr) as (t & -> & Ht).
  assert (0 ≤ buf_read_ptr (w_ring w)) as H0 by (destruct Hr as (_ & -> & _); apply after_range).
  apply Z.leb_le in H0. rewrite H0. change (w_ps (set_ring t w)) with (w_ps w).
  change (w_proto (set_ring t w)) with (w_proto w). rewrite Hp.
  destruct (point_total (w_flash (set_ring t w)) (tc_rtc e) (bytes_stamp (tb_position r)) (tb_info r) (w_ps w)) as [ps E].
  rewrite E. cbn [mbind outcome_bind]. eexists _, [DRead r], (Delivery um (Some r) false pend track open).
  split; [done|]. split; [|split; [done|split; [|by intros _ ? ? [= <- <-]]]].
  - split; [apply dsteps_one, d_read|]. split; [|by rewrite app_nil_r].
    constructor; cbn [q_um q_fl q_pend q_track q_open option_list]; try done.
    + eapply point_ready; [|exact E]. exact Hy.
    + rewrite <-Hu. by eapply point_unit.
    + intros r0 [= <-]. cbn [w_ps upd_ps]. split; [rewrite <-Hu; by eapply point_unit|]. by eexists _, _, (w_ps w).
  - unfold room. cbn. intros n. rewrite !length_app. cbn. lia.
Qed.

(** One run of the sending side. *)
Lemma comm_process_runs e w q :
  implements p u w q → tracer_server_setup_ok w = true → 0 ≤ tc_now e →
  polls_reach (tc_now e) (tc_polls e) → room q (tasks (polled (tc_polls e))) →
  ∃ w' ls q', tracer_comm_process TRACER_SIA dns e w = Ok w' ∧ runs p u w w' q ls q' ∧
    replies ls ⊆ received (polled (tc_polls e)) ∧
    (∀ n, room q (tasks (polled (tc_polls e)) + n) → room q' n).
Proof.
  intros Hi Hset Hn Hpoll Hc.
  assert (∀ w', runs p u w w' q [] q → ∃ w1 ls q', Ok w' = Ok w1 ∧ runs p u w w1 q ls q' ∧
    replies ls ⊆ received (polled (tc_polls e)) ∧
    (∀ n, room q (tasks (polled (tc_polls e)) + n) → room q' n)) as Hskip.
  { intros w' H. exists w', [], q. split; [done|]. split; [done|]. split; [apply list_subseteq_nil|].
    unfold room. intros n. lia. }
  unfold tracer_comm_process. cbv zeta. assert (new_track_id (w_com w) = 0) as -> by apply Hi.
  cbn [Z.eqb negb andb]. destruct (_ <? _); [by apply Hskip, runs_refl|].
  unfold comm_setup. rewrite Hset. cbn [mbind outcome_bind]. rewrite Hset. cbn [negb].
  assert (w_proto w = p) as -> by apply Hi.
  assert (p_packet_ready p (w_ps w) = bool_decide (is_Some (q_fl q))) as -> by apply Hi.
  destruct (q_fl q) as [r|] eqn:Efl.
  - rewrite bool_decide_eq_true_2 by done.
    destruct (_ =? TRACER_SEND_MODE_OFF); [by apply Hskip, runs_sleep, runs_refl|].
    destruct (_ && _); [by apply Hskip, runs_sleep, runs_refl|]. by eapply comm_send_runs.
  - rewrite bool_decide_eq_false_2 by (by intros [? ?]).
    destruct (comm_read_runs e w q Hi Efl) as (w' & ls & q' & E & Hr & Er & Hroom & _).
    exists w', ls, q'. split; [exact E|]. split; [done|]. rewrite Er. split; [apply list_subseteq_nil|].
    intros n Hn'. apply Hroom. unfold room in *. lia.
Qed.

(** ** Any use of the tracker *)

(** What reaches the tracker: the runs of its two tasks, datagrams, the
    ignition key, commands, the shock sensor. *)
Inductive tracer_call :=
  | CallTask (e : task_env)
  | CallComm (e : comm_env)
  | CallRx (data : list Z) (port : Z)
  | CallStart (now : Z)
  | CallKey (now : Z)
  | CallStop (now : Z)
  | CallTest (now : Z)
  | CallShock (now : Z) (b : bool)
  | CallUser (id : Z).

Definition tracer_exec (c : tracer_call) (w : tracer_world) : outcome tracer_world :=
  match c with
  | CallTask e => Ok (tracer_task e w)
  | CallComm e => tracer_comm_process TRACER_SIA dns e w
  | CallRx data port => '(_, w) ← tracer_packet_rx data port w; Ok w
  | CallStart now => Ok (tracer_start now w)
  | CallKey now => Ok (tracer_key_start now w)
  | CallStop now => Ok (tracer_stop now w)
  | CallTest now => Ok (tracer_test now w).2
  | CallShock now b => Ok (tracer_shock_start now b w)
  | CallUser id => Ok (tracer_set_user_id id w)
  end.

Fixpoint tracer_calls (cs : list tracer_call) (w : tracer_world) : outcome tracer_world :=
  match cs with
  | [] => Ok w
  | c :: cs => w ← tracer_exec c w; tracer_calls cs w
  end.

(** A wait sees enough looks. *)
Definition call_ok (c : tracer_call) : Prop :=
  match c with CallComm e => 0 ≤ tc_now e ∧ polls_reach (tc_now e) (tc_polls e) | _ => True end.
Definition call_tasks (c : tracer_call) : nat :=
  match c with CallTask _ => 1 | CallComm e => tasks (polled (tc_polls e)) | _ => 0 end.
Definition call_received (c : tracer_call) : list (list Z) :=
  match c with CallComm e => received (polled (tc_polls e)) | _ => [] end.

Lemma exec_runs c w q :
  implements p u w q → tracer_server_setup_ok w = true → call_ok c → room q (call_tasks c) →
  ∃ w' ls q', tracer_exec c w = Ok w' ∧ runs p u w w' q ls q' ∧ replies ls ⊆ call_received c ∧
    (∀ n, room q (call_tasks c + n) → room q' n).
Proof.
  intros Hi Hset Hok Hc.
  assert (∀ w', task_frame w w' → ∃ w1 ls q', Ok w' = Ok w1 ∧ runs p u w w1 q ls q' ∧ replies ls ⊆ [] ∧
    (∀ n, room q (0 + n) → room q' n)) as Hframe.
  { intros w' H. exists w', [], q. split; [done|]. by split; [apply runs_frame|]. }
  destruct c as [e|e|data port|now|now|now|now|now b|id]; cbn [tracer_exec call_tasks call_received].
  - destruct (tracer_task_runs p u e w q Hi Hc) as (ls & q' & Hr & Hls & Hroom).
    exists (tracer_task e w), ls, q'. split; [done|]. split; [done|]. split; [|exact Hroom].
    by destruct Hls as [[-> _]|[r ->]].
  - destruct Hok. by apply comm_process_runs.
  - destruct (packet_rx_eq data port w) as (b & w1 & -> & Hw1); [apply Hi|]. cbn [mbind outcome_bind].
    exists w1, [], q. split; [done|]. split; [|done].
    destruct Hw1 as [->|[-> _]]; [by apply runs_refl|apply runs_com; [by apply runs_refl|apply Hi..]].
  - apply Hframe, frame_start.
  - apply Hframe, frame_key_start.
  - apply Hframe, frame_stop.
  - apply Hframe, frame_test.
  - apply Hframe, frame_shock_start.
  - apply Hframe, frame_user.
Qed.

Lemma setup_same w w' :
  w_param w' = w_param w → tr_ip (w_t w') = tr_ip (w_t w) → tr_port (w_t w') = tr_port (w_t w) →
  tracer_server_setup_ok w' = tracer_server_setup_ok w.
Proof. unfold tracer_server_setup_ok. by intros -> -> ->. Qed.

Lemma calls_run cs w q :
  implements p u w q → tracer_server_setup_ok w = true → Forall call_ok cs →
  room q (sum_list_with call_tasks cs) →
  ∃ w' ls q', tracer_calls cs w = Ok w' ∧ runs p u w w' q ls q' ∧ replies ls ⊆ mjoin (call_received <$> cs).
Proof.
  intros Hi Hset Hok. revert w q Hi Hset.
  induction Hok as [|c cs Hc Hcs IH]; intros w q Hi Hset Hroom; cbn [tracer_calls].
  - exists w, [], q. split; [done|]. split; [by apply runs_refl|apply list_subseteq_nil].
  - cbn [fmap list_fmap mjoin list_join sum_list_with] in *.
    destruct (exec_runs c w q Hi Hset Hc) as (w1 & l1 & q1 & -> & Hr1 & Hrep1 & Hroom1);
      [unfold room in *; lia|]. cbn [mbind outcome_bind].
    destruct (IH w1 q1) as (w2 & l2 & q2 & -> & Hr2 & Hrep2); [apply Hr1| |by apply Hroom1|].
    { rewrite <-Hset. by apply setup_same; apply Hr1. }
    exists w2, (l1 ++ l2), q2. split; [done|]. split; [by eapply runs_trans|].
    rewrite replies_app. intros x [Hx|Hx]%elem_of_app; apply elem_of_app; auto.
Qed.

(** ** A server that answers *)

(** The connection comes up, there is memory, and the first look at the
    acknowledgement finds an answer the protocol accepts. *)
Definition answers (w : tracer_world) (e : comm_env) : Prop :=
  tc_connect e = true ∧ tc_mem e = true ∧ comm_sleep_tmr (w_com w) ≤ tc_now e ∧
  0 ≤ tc_now e ∧ tc_now e + TMOUT_MAX < 2 ^ 32 ∧
  ∃ reply t polls, tc_polls e = ([MRx reply (tr_port (w_t w))], t) :: polls ∧
    ∀ ps, proto_unit ps = u → p_packet_reply_ok p reply ps = Ok true.

Lemma wait_answered w q now reply t polls :
  implements p u w q → packet_ack (w_com w) = false → 0 ≤ now → now + TMOUT_MAX < 2 ^ 32 →
  p_packet_reply_ok p reply (w_ps w) = Ok true →
  ∃ f, wait_for_ack now (([MRx reply (tr_port (w_t w))], t) :: polls) w = Ok (true, upd_com f w) ∧
    TMOUT_MIN ≤ ack_tmout (f (w_com w)) ≤ TMOUT_MAX ∧
    (∀ c, new_track_id (f c) = new_track_id c ∧ comm_sleep_tmr (f c) = comm_sleep_tmr c).
Proof.
  intros Hi Ha Hn Hmax Hok. unfold wait_for_ack. cbn [ack_loop run_meanwhile].
  assert (TMOUT_MIN ≤ ack_tmout (w_com w) ≤ TMOUT_MAX) as Hk by apply Hi.
  assert (now <? u32 (now + ack_tmout (w_com w)) = true) as ->.
  { rewrite u32_small; [|unfold in_u32; change TMOUT_MIN with 200 in Hk; lia].
    change TMOUT_MIN with 200 in Hk. apply Z.ltb_lt. lia. }
  unfold tracer_packet_rx. rewrite Z.eqb_refl. cbn [negb].
  assert (w_proto w = p) as -> by apply Hi. rewrite Hok. cbn [mbind outcome_bind negb].
  change (packet_ack (w_com (upd_com (set_packet_ack true) w))) with true. cbn [negb mbind outcome_bind].
  match goal with |- context [set_ack_tmout (if ?b <? TMOUT_MIN then _ else _)] => set (tm := if b <? TMOUT_MIN then TMOUT_MIN else b) end.
  exists (λ c, set_ack_tmout tm (set_ack_tmout (u32 (t - now)) (set_packet_ack false (set_packet_ack true c)))).
  split; [done|]. split; [|done]. change (TMOUT_MIN ≤ tm ≤ TMOUT_MAX). unfold tm.
  change TMOUT_MIN with 200. change TMOUT_MAX with 5000.
  repeat match goal with |- context [?a <? ?b] => destruct (Z.ltb_spec a b) end; lia.
Qed.

(** What is left to do: a run to read and a run to send every record. *)
Definition todo (q : delivery) : nat :=
  2 * length (q_pend q) + length (option_list (q_fl q)).

(** The datagram carries the record. *)
Definition carries (r : tracer_buf_t) (d : list Z) : Prop := ∃ ps, message_of p u r ps ∧ d = packet p ps.

Lemma answered_run e w q :
  implements p u w q → q_um q = [] → tracer_server_setup_ok w = true →
  send_mode (w_param w) = TRACER_SEND_MODE_ONLINE → answers w e → todo q ≠ 0%nat →
  ∃ w' ls q', tracer_comm_process TRACER_SIA dns e w = Ok w' ∧ runs p u w w' q ls q' ∧
    q_um q' = [] ∧ todo q = S (todo q') ∧ comm_sleep_tmr (w_com w') = comm_sleep_tmr (w_com w) ∧
    kept_points ls = [] ∧
    ∃ out, option_list (q_fl q) ++ q_pend q = out ++ option_list (q_fl q') ++ q_pend q' ∧
      Forall2 carries out (sent_packets ls).
Proof.
  intros Hi Hum Hset Hmode (Hcon & Hmem & Hsl & Hn & Hmax & reply & t & polls & Epolls & Hacc) Htodo.
  unfold tracer_comm_process. cbv zeta. assert (new_track_id (w_com w) = 0) as -> by apply Hi.
  destruct (Z.ltb_spec (tc_now e) (comm_sleep_tmr (w_com w))); [lia|]. cbn [Z.eqb negb andb].
  unfold comm_setup. rewrite Hset. cbn [mbind outcome_bind]. rewrite Hset. cbn [negb].
  assert (w_proto w = p) as -> by apply Hi.
  assert (p_packet_ready p (w_ps w) = bool_decide (is_Some (q_fl q))) as -> by apply Hi.
  destruct q as [um [r|] sent pend track open]; cbn [q_fl q_um q_pend] in *; subst um.
  - rewrite bool_decide_eq_true_2, Hmode by done. cbn [Z.eqb Pos.eqb TRACER_SEND_MODE_ONLINE TRACER_SEND_MODE_OFF TRACER_SEND_MODE_BULK andb].
    pose proof (send_runs w [] r sent pend track open Hi) as Hsend.
    assert (p_packet_reply_ok p reply (w_ps w) = Ok true) as Hok by (apply Hacc, Hi).
    destruct (wait_answered (send_packet w) (Delivery [] (Some r) true pend track open) (tc_now e) reply t polls)
      as (f & Ew & Hf1 & Hf2); [apply Hsend|done..|].
    change (tr_port (w_t (send_packet w))) with (tr_port (w_t w)) in Ew. rewrite <-Epolls in Ew.
    destruct (comm_send_acked e w [] r sent pend track open (upd_com f (send_packet w)) []
      (Delivery [] (Some r) true pend track open) reply) as (w' & ls & q' & E & Hr & _ & Es & Ek & Ep & Ef & _ & Hu & Ec);
      [done|done|done|done| |done|done|done|].
    { apply runs_com; [by apply runs_refl, Hsend|done|]. destruct (Hf2 (w_com (send_packet w))) as [-> _].
      apply Hsend. }
    exists w', ls, q'. split; [exact E|]. split; [done|]. split; [by apply Hu|]. split.
    + unfold todo. rewrite Ep, Ef. cbn [q_pend q_fl option_list option_rect length]. lia.
    + rewrite Ec. split; [exact (proj2 (Hf2 (w_com (send_packet w))))|]. split; [done|].
      exists [r]. rewrite Ef, Ep, Es. split; [done|]. constructor; [|constructor].
      exists (w_ps w). split; [by apply Hi|done].
  - rewrite bool_decide_eq_false_2 by (by intros [? ?]).
    destruct (comm_read_runs e w _ Hi eq_refl) as (w' & ls & q' & E & Hr & _ & _ & Hnext).
    destruct pend as [|r pend]; [done|]. destruct (Hnext Hmem r pend eq_refl) as (Ef & Eu & Ep & Ec & El).
    exists w', ls, q'. split; [exact E|]. split; [done|]. split; [done|].
    split; [|rewrite Ec, El, Ef, Ep; split; [done|]; split; [done|]; by exists []].
    unfold todo. rewrite Ef, Ep. cbn [q_pend q_fl option_list option_rect length]. lia.
Qed.

Lemma answers_same w w' e :
  comm_sleep_tmr (w_com w') = comm_sleep_tmr (w_com w) → tr_port (w_t w') = tr_port (w_t w) →
  answers w e → answers w' e.
Proof. unfold answers. by intros -> ->. Qed.

Lemma answered_runs es w q :
  implements p u w q → q_um q = [] → tracer_server_setup_ok w = true →
  send_mode (w_param w) = TRACER_SEND_MODE_ONLINE → Forall (answers w) es → length es = todo q →
  ∃ w' ls q', tracer_calls (CallComm <$> es) w = Ok w' ∧ runs p u w w' q ls q' ∧
    q_um q' = [] ∧ todo q' = 0%nat ∧ kept_points ls = [] ∧
    ∃ out, option_list (q_fl q) ++ q_pend q = out ++ option_list (q_fl q') ++ q_pend q' ∧
      Forall2 carries out (sent_packets ls).
Proof.
  revert w q. induction es as [|e es IH]; intros w q Hi Hum Hset Hmode Hall Hlen.
  - exists w, [], q. split; [done|]. split; [by apply runs_refl|]. rewrite <-Hlen.
    do 3 (split; [done|]). by exists [].
  - apply Forall_cons in Hall as [He Hall]. cbn [fmap list_fmap tracer_calls tracer_exec].
    destruct (answered_run e w q Hi Hum Hset Hmode He) as (w1 & l1 & q1 & -> & Hr1 & Hu1 & Ht1 & Hc1 & Hk1 & o1 & Eo1 & Ho1);
      [cbn [length] in Hlen; lia|]. cbn [mbind outcome_bind].
    assert (w_param w1 = w_param w ∧ tr_ip (w_t w1) = tr_ip (w_t w) ∧ tr_port (w_t w1) = tr_port (w_t w))
      as (Epar & Eip & Eport) by (split; [|split]; apply Hr1).
    destruct (IH w1 q1) as (w2 & l2 & q2 & E & Hr2 & Hu2 & Ht2 & Hk2 & o2 & Eo2 & Ho2); [apply Hr1|done| | | |cbn [length] in Hlen; lia|].
    { rewrite <-Hset. by apply setup_same. }
    { by rewrite Epar. }
    { eapply Forall_impl; [exact Hall|]. intros e'. by apply answers_same. }
    exists w2, (l1 ++ l2), q2. split; [exact E|]. split; [by eapply runs_trans|]. split; [done|].
    split; [done|]. unfold kept_points, sent_packets in *. rewrite !omap_app, Hk1, Hk2. split; [done|].
    exists (o1 ++ o2). split; [by rewrite Eo1, Eo2, app_assoc|]. by apply Forall2_app.
Qed.


Definition points (ls : list dlabel) : list tracer_buf_t :=
  omap (λ l, match l with DPoint r _ => Some r | _ => None end) ls.

(** Every point has the number that follows. *)
Fixpoint numbers_from (track : Z) (open : option Z) (rs : list tracer_buf_t) : Prop :=
  match rs with
  | [] => True
  | r :: rs => (tb_track r, tb_point r) = next_numbers track open ∧ numbers_from (tb_track r) (still_open r) rs
  end.

Lemma dsteps_numbers q ls q' : dsteps p u q ls q' → numbers_from (q_track q) (q_open q) (points ls).
Proof.
  induction 1 as [q|q1 q2 q3 l ls H Hs IH]; [done|]. inversion H; subst; cbn; try exact IH.
  split; [done|exact IH].
Qed.

(** The number that follows a point, as long as the count of points does not
    come round. *)
Definition follows (a b : tracer_buf_t) : Prop :=
  if is_last a then tb_track b = u16 (tb_track a + 1) ∧ tb_point b = 1
  else tb_track b = tb_track a ∧ tb_point b = tb_point a + 1.

Lemma numbers_follow rs : ∀ track open n,
  numbers_from track open rs → (match open with None => 0 | Some m => m end) ≤ n → 0 ≤ n →
  match open with None => True | Some m => 0 < m end →
  n + Z.of_nat (length rs) < 65536 →
  ∀ i a b, rs !! i = Some a → rs !! S i = Some b → follows a b.
Proof.
  induction rs as [|r rs IH]; intros track open n Hnum Hn H0 Hm Hlen i a b Ha Hb; [done|].
  destruct Hnum as [E Hnum]. cbn [length] in Hlen.
  assert (0 < tb_point r ≤ n + 1) as Hr.
  { unfold next_numbers in E. destruct open as [m|]; injection E as _ ->; [|lia].
    rewrite u16_small by (unfold in_u16; lia). lia. }
  destruct i as [|i].
  - cbn in Ha. injection Ha as ->. destruct rs as [|r rs]; [done|]. cbn in Hb. injection Hb as ->.
    destruct Hnum as [E' _]. unfold follows. unfold still_open, next_numbers in E'.
    destruct (is_last a); [by injection E' as -> ->|]. cbn [orb] in E'.
    destruct (Z.eqb_spec (tb_point a) 0); [lia|]. injection E' as -> ->. split; [done|].
    rewrite u16_small by (unfold in_u16; cbn [length] in Hlen; lia). done.
  - eapply (IH (tb_track r) (still_open r) (n + 1)); [done|..|exact Ha|exact Hb]; unfold still_open;
      destruct (is_last r), (Z.eqb_spec (tb_point r) 0); cbn [orb]; lia || done.
Qed.



End tracer_laws.
