(* ===== verification/CmdThm.v ===== *)
(** * What the command interpreter guarantees (app/cmd.c)

    It returns on every text, nothing happens without a password, a user cannot
    get at what the administrator configures, and names and parameters are read
    the way the help text says. *)

From S2P Require Import Prelude CText EventTypes EventBuf Storage EventMemory EventQueue.
From S2P Require Import Out Alarm ArmSection System Cfg SiaIp NetTarget Cms EventTask Inp.
From S2P Require Import Update Nmea Gps Report Cmd.

(** ** Texts *)

Lemma skip_spaces_suffix p : _skip_spaces p `suffix_of` p.
Proof.
  induction p as [|c p IH]; [done|]. cbn [_skip_spaces].
  destruct (c =? 32); [by apply suffix_cons_r|done].
Qed.

Lemma drop_suffix {A} n (l : list A) : drop n l `suffix_of` l.
Proof. exists (take n l). by rewrite take_drop. Qed.

Lemma suffix_len {A} (l k : list A) : l `suffix_of` k → (length l <= length k)%nat.
Proof. intros [x ->]. rewrite length_app. lia. Qed.

(** The access levels as numbers. *)
Ltac levels :=
  change (access_level_code ACCESS_NONE) with 1 in *;
  change (access_level_code ACCESS_USER) with 2 in *;
  change (access_level_code ACCESS_ADMIN) with 4 in *;
  change (access_level_code ACCESS_SYSTEM) with 8 in *.

#[local] Hint Resolve skip_spaces_suffix drop_suffix : core.

Section interpreter.
Context `{F : FlashLib} `{R : EventRepr} `{L : CmdLib} `{LS : !CmdSpec L}.
Variable e : cmd_env.

(** *** Finding a row *)

Lemma read_back_named addrs : ∀ ptr i m ev, read_back addrs ptr i m = Some ev →
  0 ≤ ev_id ev < EVENT_ID_SIZE ∧ 0 ≤ ev_source ev < EVENT_SOURCE_SIZE.
Proof.
  induction addrs as [|a addrs IH]; intros ptr i m ev; [done|]. cbn [read_back]. cbv zeta.
  destruct i as [|i]; [|apply IH].
  destruct (storage_read_event _ _ _) as [l|]; [|done].
  destruct (event_valid _) eqn:Ev; [|done]. intros [= <-].
  pose proof (bytes_event_fields l) as [[? _] [? _]]. unfold event_valid in Ev.
  destruct (negb _); [done|]. destruct (_ || _) eqn:Eo; [done|].
  apply orb_false_elim in Eo as [?%Z.leb_gt ?%Z.leb_gt]. lia.
Qed.

Lemma event_read_named i m ev : event_memory_read i m = Some ev →
  0 ≤ ev_id ev < EVENT_ID_SIZE ∧ 0 ≤ ev_source ev < EVENT_SOURCE_SIZE.
Proof. apply read_back_named. Qed.

Lemma scan_cmd_sound table text n auth : ∀ found fid r,
  let '(_, fid', hit) := scan_cmd table text n auth found fid in
  fid' = Some r ∨ hit = Some r → fid = Some r ∨ (r ∈ table ∧ cmd_auth r ≤ auth).
Proof.
  induction table as [|x table IH]; intros found fid r; cbn [scan_cmd]; [naive_solver|].
  destruct (length (cmd_text x) =? 0)%nat; [naive_solver|].
  destruct (Z.ltb_spec auth (cmd_auth x)).
  { specialize (IH found fid r). destruct (scan_cmd table _ _ _ _ _) as [[? ?] ?]. set_solver. }
  destruct (_ && (strnicmp _ _ n =? 0)); cbn match;
    (destruct (_ && negb _); [set_solver|]);
    [specialize (IH (S found) (Some x) r)|specialize (IH found fid r)];
    (destruct (scan_cmd table _ _ _ _ _) as [[? ?] ?]); set_solver.
Qed.

(** Only commands open to the channel are found. *)
Lemma find_cmd_allowed table text auth r p :
  _find_cmd table text auth = Some (r, p) → r ∈ table ∧ cmd_auth r ≤ auth ∧ p `suffix_of` text.
Proof.
  unfold _find_cmd. cbv zeta. pose proof (scan_cmd_sound table text (word_len CMD_MAX_LEN 0 text) auth 0 None r) as H.
  destruct (scan_cmd _ _ _ _ _ _) as [[n fid] [x|]].
  - intros [= -> <-]. destruct (H (or_intror eq_refl)) as [?|[? ?]]; [done|]. auto using drop_suffix.
  - destruct (n =? 1)%nat, fid as [x|]; try done. intros [= -> <-].
    destruct (H (or_introl eq_refl)) as [?|[? ?]]; [done|]. auto using drop_suffix.
Qed.

(** ** A rule for what every command respects

    [P p c]: what is to hold with the text [p] left in state [c]. *)

Definition returns (P : list Z → cst → Prop) (m : outcome (bool * cst)) : Prop :=
  ∃ ok c, m = Ok (ok, c) ∧ P [] c.
Definition returns_at (P : list Z → cst → Prop) (p : list Z) (m : outcome (bool * list Z * cst)) : Prop :=
  ∃ ok p' c, m = Ok (ok, p', c) ∧ p' `suffix_of` p ∧ P p' c.

Section rule.
Variable P : list Z → cst → Prop.
Hypothesis P_suffix : ∀ p p' c, p' `suffix_of` p → P p c → P p' c.
Hypothesis P_append : ∀ p l c, P p c → P p (append l c).
Hypothesis P_func : ∀ r f p c, r ∈ _CMD_TABLE → pfunc r = Some f → cmd_auth r ≤ acc_auth (c_acc c) →
  P p c → ∃ ok c', call_pfunc e f (cmd_text r) c = Ok (ok, c') ∧ P p c'.
Hypothesis P_set : ∀ r f p c run, r ∈ _CMD_TABLE → pfunc_set r = Some f →
  cmd_auth r ≤ acc_auth (c_acc c) → P p c →
  (∀ p' c', p' `suffix_of` p → P p' c' → returns P (run p' c')) →
  returns_at P p (call_pfunc_set e (sms_process e run) f (cmd_text r) p c).

Lemma process_cmd_rule r p c run :
  r ∈ _CMD_TABLE → cmd_auth r ≤ acc_auth (c_acc c) → P p c →
  (∀ p' c', (length p' < length p)%nat → P p' c' → returns P (run p' c')) →
  returns_at P p (_process_cmd e (sms_process e run) r p c).
Proof.
  intros Hr Ha Hp Hrun. unfold _process_cmd. cbv zeta.
  pose proof (skip_spaces_suffix p) as Hs. pose proof (P_suffix _ _ _ Hs Hp) as Hq.
  set (q := _skip_spaces p) in *.
  assert (∀ t, returns_at P p (Ok (false, q, cmd_error t c))) as Herr.
  { intros t. eexists _, _, _. split; [done|]. split; [done|]. unfold cmd_error. by repeat apply P_append. }
  destruct (Z.eqb_spec (char_at q 0) 61) as [E|_].
  - destruct (pfunc_set r) as [f|] eqn:Ef; [|apply Herr].
    destruct q as [|x q]; [done|]. change (drop 1 (x :: q)) with q.
    assert (_skip_spaces q `suffix_of` x :: q) as Hs' by (by apply suffix_cons_r).
    destruct (P_set r f (_skip_spaces q) c run Hr Ef Ha) as (ok & p' & c' & -> & H1 & H2).
    { by apply (P_suffix (x :: q)). }
    { intros p' c' Hp' Hc'. apply Hrun; [|done].
      apply suffix_len in Hp', Hs. pose proof (suffix_len _ _ (skip_spaces_suffix q)).
      cbn [length] in Hs. lia. }
    exists ok, p', c'. split; [done|]. split; [|done]. by do 2 (etransitivity; [eassumption|]).
  - destruct (_ && negb (char_at q 0 =? 59)); [apply Herr|].
    destruct (pfunc r) as [f|] eqn:Ef; [|apply Herr].
    destruct (P_func r f q c Hr Ef Ha Hq) as (ok & c' & -> & H). cbn [mbind outcome_bind].
    by exists ok, q, c'.
Qed.

Lemma process_text_rule fuel : ∀ text c,
  (length text < fuel)%nat → P text c → returns P (process_text fuel e text c).
Proof.
  induction fuel as [|fuel IH]; intros text c Hf Hp; [lia|]. cbn [process_text]. cbv zeta.
  pose proof (skip_spaces_suffix text) as Hs.
  destruct (_skip_spaces text) as [|ch q] eqn:E.
  { exists true, c. split; [done|]. apply (P_suffix text); [apply suffix_nil|done]. }
  rewrite <- E in *. clear E.
  destruct (_find_cmd _ _ _) as [[r p]|] eqn:Ef.
  2:{ eexists _, _. split; [done|]. unfold cmd_error. repeat apply P_append.
    apply (P_suffix text); [apply suffix_nil|done]. }
  apply find_cmd_allowed in Ef as (Hr & Ha & Hp').
  assert (p `suffix_of` text) as Hpt by (by etransitivity).
  destruct (process_cmd_rule r p c (process_text fuel e) Hr Ha) as (ok & p' & c' & -> & Hs' & Hc').
  { by apply (P_suffix text). }
  { intros p' c' Hl Hc'. apply IH; [|done]. apply suffix_len in Hpt. lia. }
  cbn [mbind outcome_bind]. destruct ok; cbn [negb].
  2:{ eexists _, _. split; [done|]. apply (P_suffix p'); [apply suffix_nil|done]. }
  pose proof (skip_spaces_suffix p') as Hs2. destruct (_skip_spaces p') as [|x q'] eqn:E2.
  { eexists _, _. split; [done|]. apply (P_suffix p'); [apply suffix_nil|done]. }
  destruct (x =? 59).
  - apply IH.
    + apply suffix_len in Hs2, Hs', Hpt. cbn [length] in Hs2. lia.
    + apply (P_suffix p'); [|done]. by apply suffix_cons_l in Hs2.
  - eexists _, _. split; [done|]. apply (P_suffix p'); [apply suffix_nil|done].
Qed.

Lemma cmd_process_text_rule text c : P text c → returns P (cmd_process_text e text c).
Proof. apply process_text_rule. lia. Qed.

End rule.

(** ** Commands that only print *)

Definition says (c c' : cst) : Prop := ∃ l, c' = append l c.

Lemma says_refl c : says c c.
Proof. exists []. destruct c. unfold append. cbn. by rewrite app_nil_r. Qed.
Lemma says_append c c' l : says c c' → says c (append l c').
Proof. intros [k ->]. exists (k ++ l). unfold append. cbn. by rewrite app_assoc. Qed.
Lemma says_trans c1 c2 c3 : says c1 c2 → says c2 c3 → says c1 c3.
Proof. intros H [k ->]. by apply says_append. Qed.

Ltac say := unfold cmd_nl, append_str, append_fmt in *;
  repeat first [apply says_append | apply says_refl | case_if | progress cbv zeta].

Lemma add_state_says c : says c (_add_state c).
Proof. unfold _add_state. cbv zeta. unfold append_fmt. apply says_append, says_refl. Qed.

Lemma gps_says text c : says c (_cmd_gps text c).
Proof.
  unfold _cmd_gps. cbv zeta. destruct (gps_get_stored_stamp _) as [ok pos].
  destruct (_ || _); [by say|].
  destruct (if 0 <=? lon_sec pos then _ else _) as [lon sl].
  destruct (if 0 <=? lat_sec pos then _ else _) as [lat sa].
  unfold degrees. say.
Qed.

Lemma io_names_says name mask pins : ∀ next c c', says c c' →
  says c (io_names name mask pins next c').2.
Proof.
  induction pins as [|i pins IH]; intros next c c' H; [done|]. cbn [io_names].
  destruct (negb _); [by apply IH|]. cbv zeta. apply IH. destruct next; by repeat apply says_append.
Qed.

Lemma io_says text c : says c (_cmd_io text c).
Proof.
  unfold _cmd_io. cbv zeta.
  match goal with |- context [io_names inp_name ?m ?p ?n ?c'] =>
    pose proof (io_names_says inp_name m p n c c') as H1;
    destruct (io_names inp_name m p n c') as [n1 c1] end.
  match goal with |- context [io_names out_name ?m ?p ?n ?c'] =>
    pose proof (io_names_says out_name m p n c c') as H2;
    destruct (io_names out_name m p n c') as [n2 c2] end.
  cbn [snd] in *. unfold cmd_nl, append_str. apply says_append.
  assert (says c c2) as H by (apply H2, H1; say). destruct n2; [done|by apply says_append].
Qed.

Lemma help_says table full auth : ∀ c c', says c c' → says c (_cmd_build_help table full auth c').
Proof.
  induction table as [|r table IH]; intros c c' H; [done|]. cbn [_cmd_build_help].
  destruct (help r) as [[|h0 h]|]; [by apply IH| |by apply IH].
  destruct (auth <? _); [by apply IH|]. destruct (cmd_text r); [done|]. cbv zeta. apply IH.
  destruct full; by repeat apply says_append.
Qed.

Lemma status_says c : says c (_cmd_status e c).
Proof.
  unfold _cmd_status. cbv zeta. destruct (ev_batt_ok e); unfold _add_state; say.
Qed.

(** What [says] keeps. *)
Lemma says_keeps c c' : says c c' →
  c_dev c' = c_dev c ∧ c_acc c' = c_acc c ∧ c_acts c' = c_acts c ∧ c_now c' = c_now c.
Proof. by intros [l ->]. Qed.

Lemma cfg_line_says text id c ok c' : cfg_line text id c = Ok (ok, c') → says c c'.
Proof.
  unfold cfg_line. destruct (cfg_read _ _ _) as [[ok' t]|]; [|done].
  cbn [mbind outcome_bind]. intros [= <- <-]. say.
Qed.

Lemma cfg_lines_says rows text : ∀ c c', cfg_lines rows text c = Ok c' → says c c'.
Proof.
  induction rows as [|i rows IH]; intros c c'; cbn [cfg_lines]; [intros [= <-]; apply says_refl|].
  cbv zeta. destruct (_ =? CFG_ID_END); [intros [= <-]; apply says_refl|].
  destruct (negb _); [apply IH|]. destruct (cfg_line _ _ _) as [[ok c1]|] eqn:E; [|done].
  cbn [mbind outcome_bind]. intros H. eapply says_trans; [by eapply cfg_line_says|by apply IH].
Qed.

Lemma append_mem_says num : ∀ i first c c', _append_mem e i first num c = Ok c' → says c c'.
Proof.
  induction num as [|num IH]; intros i first c c'; cbn [_append_mem]; [intros [= <-]; apply says_refl|].
  cbv zeta. set (c0 := if first then c else _).
  assert (says c c0) as H0 by (unfold c0; destruct first; say).
  destruct (event_memory_read i _) as [ev|].
  - destruct (event_description _ _ _) as [l|]; [|done]. cbn [mbind outcome_bind]. intros H%IH.
    eapply says_trans; [|exact H]. by apply says_append.
  - cbn [mbind outcome_bind]. intros H%IH. eapply says_trans; [|exact H]. by apply says_append.
Qed.

(** ** The access of the channel

    Commands change it by passwords only, and never the time of its last use. *)

Lemma func_acc f text c ok c' : call_pfunc e f text c = Ok (ok, c') → c_acc c' = c_acc c.
Proof.
  assert (∀ c2, says c c2 → c_acc c2 = c_acc c) as Hsay by (by intros c2 [l ->]).
  assert (c_acc (run_set c) = c_acc c) as Hset by (unfold run_set; by destruct (system_set _ _ _)).
  assert (c_acc (run_unset e c) = c_acc c) as Hunset by (unfold run_unset; by destruct (system_unset _ _ _ _)).
  destruct f; cbn [call_pfunc]; cbv zeta.
  - intros [= _ <-]. apply Hsay. unfold _cmd_auth. say.
  - unfold _cmd_cfg. destruct (cfg_lines _ _ _) as [c1|] eqn:E; [|done]. cbn [mbind outcome_bind].
    intros [= _ <-]. by eapply Hsay, cfg_lines_says.
  - intros [= _ <-]. apply Hsay, gps_says.
  - intros [= _ <-]. apply Hsay, help_says, says_refl.
  - intros [= _ <-]. apply Hsay, io_says.
  - by intros [= _ <-].
  - unfold _cmd_mem. destruct (_append_mem _ _ _ _ _) as [c1|] eqn:E; [|done]. cbn [mbind outcome_bind].
    intros [= _ <-]. by apply append_mem_says in E as [l ->].
  - intros [= _ <-]. apply Hsay. unfold _cmd_net. say.
  - intros [= _ <-]. apply Hsay. unfold _cmd_rtc, _add_rtc. say.
  - intros [= _ <-]. unfold _cmd_set. destruct (_ =? SECTION_ST_SET); [done|exact Hset].
  - intros [= _ <-]. apply Hsay, status_says.
  - intros [= _ <-]. unfold _cmd_unlock. destruct (negb _); [exact Hunset|done].
  - intros [= _ <-]. unfold _cmd_unset. destruct (_ =? SECTION_ST_UNSET); [done|exact Hunset].
  - unfold _cmd_update. destruct (update_start _) as [[ok1 u]|]; [|done]. by intros [= _ <-].
  - intros [= _ <-]. apply Hsay. unfold _cmd_ver. say.
  - intros [= _ <-]. apply Hsay. unfold _cmd_dl. say.
  - intros [= _ <-]. apply Hsay. unfold _cmd_echo. say.
Qed.

Lemma password_time t s text : ∀ a n a', find_password t s text a = Ok (n, a') → acc_time a' = acc_time a.
Proof.
  induction t as [|[[id lv] src] t IH]; intros a n a'; cbn [find_password]; [by intros [= _ <-]|].
  destruct (cfg_read _ _ _) as [[ok code]|]; [|done]. cbn [mbind outcome_bind].
  destruct (negb ok); [by intros [= _ <-]|]. destruct (_ && _); [by intros [= _ <-]|apply IH].
Qed.

Lemma sms_acc run p c ok c' : sms_process e run p c = Ok (ok, c') → c_acc c' = c_acc c.
Proof.
  unfold sms_process. cbv zeta. destruct (cmd_get_password_access _ _ _) as [[n a]|]; [|done]. cbn [mbind outcome_bind].
  destruct (_ <=? _); [by intros [= _ <-]|]. destruct (run _ _) as [[o c1]|]; [|done]. by intros [= _ <-].
Qed.

Lemma set_acc_time f text p c run ok p' c' :
  call_pfunc_set e (sms_process e run) f text p c = Ok (ok, p', c') → acc_time (c_acc c') = acc_time (c_acc c).
Proof.
  destruct f; cbn [call_pfunc_set].
  - unfold _cmd_auth_set. destruct (cmd_fetch_string _ _) as [[tmp q]|]; [|by intros [= _ _ <-]].
    destruct (cmd_get_password_access _ _ _) as [[n a]|] eqn:E; [|done]. intros [= _ _ <-]. by apply password_time in E.
  - unfold _cmd_cfg_set. destruct (cmd_fetch_num p) as [[id q]|]; [|by intros [= _ _ <-]].
    destruct (cmd_fetch_separator q) as [q2|].
    + destruct (cmd_fetch_string q2 _) as [[tmp q3]|]; [|by intros [= _ _ <-]].
      destruct (cfg_write _ _ _ _) as [[b s'] qq]. by intros [= _ _ <-].
    + unfold cfg_line. destruct (cfg_read _ _ _) as [[o t]|]; [|done]. by intros [= _ _ <-].
  - unfold _cmd_gps_set. destruct (cmd_fetch_num p) as [[n q]|]; by intros [= _ _ <-].
  - unfold _cmd_mem_set. cbv zeta.
    assert (∀ i n (b : bool) q c1, (if b then Ok (false, q, c)
       else c0 ← _append_mem e i true n c1; Ok (true, q, c0)) = Ok (ok, p', c') → c_acc c1 = c_acc c →
       acc_time (c_acc c') = acc_time (c_acc c)) as Hmem.
    { intros i n b q c1 H1 H2. destruct b; [by injection H1 as _ _ <-|].
      destruct (_append_mem _ _ _ _ _) as [c2|] eqn:E; [|done]. injection H1 as _ _ <-.
      apply append_mem_says in E as [l ->]. cbn. by rewrite H2. }
    destruct (cmd_fetch_num p) as [[i q]|]; [|by intros [= _ _ <-]].
    destruct (cmd_fetch_separator q) as [q2|]; [|intros H; by eapply Hmem].
    destruct (cmd_fetch_num q2) as [[n q3]|]; [|by intros [= _ _ <-]].
    destruct (n <? 1); [by intros [= _ _ <-]|]. intros H. by eapply Hmem.
  - unfold _cmd_reboot_set. destruct (cmd_fetch_num p) as [[n q]|]; [|by intros [= _ _ <-]].
    intros [= _ _ <-]. by destruct (n =? 0), (n =? 1).
  - by intros [= _ _ <-].
  - by intros [= _ _ <-].
  - unfold _cmd_dbg. destruct (_ <? _); [by intros [= _ _ <-]|].
    destruct (cmd_fetch_num p) as [[n q]|]; [|by intros [= _ _ <-]].
    repeat (destruct (n =? _); [try by intros [= _ _ <-]|]); [|by intros [= _ _ <-]].
    destruct (cmd_fetch_separator q) as [q2|]; [|by intros [= _ _ <-]].
    destruct (sms_process _ _ _ _) as [[o c1]|] eqn:E; [|done]. intros [= _ _ <-]. apply sms_acc in E. by rewrite <-E.
  - unfold _cmd_modem. destruct (_ <? _); [by intros [= _ _ <-]|].
    destruct (cmd_fetch_num p) as [[n q]|]; by intros [= _ _ <-].
  - unfold _cmd_dl_set. destruct (cmd_fetch_num p) as [[n q]|]; [|by intros [= _ _ <-]].
    cbv zeta. destruct (cmd_fetch_separator q) as [q2|]; [|by intros [= _ _ <-]].
    destruct (cmd_fetch_num q2) as [[m q3]|]; by intros [= _ _ <-].
  - unfold _cmd_echo_set. destruct (cmd_fetch_num p) as [[n q]|]; by intros [= _ _ <-].
Qed.

Lemma process_text_time fuel : ∀ text c ok c',
  process_text fuel e text c = Ok (ok, c') → acc_time (c_acc c') = acc_time (c_acc c).
Proof.
  induction fuel as [|fuel IH]; intros text c ok c'; [done|]. cbn [process_text]. cbv zeta.
  destruct (_skip_spaces text) as [|ch q] eqn:Eq; [by intros [= _ <-]|].
  destruct (_find_cmd _ _ _) as [[r p]|]; [|by intros [= _ <-]].
  destruct (_process_cmd _ _ _ _ _) as [[[o p1] c1]|] eqn:E; [|done]. cbn [mbind outcome_bind].
  assert (acc_time (c_acc c1) = acc_time (c_acc c)) as H1.
  { revert E. unfold _process_cmd. cbv zeta. destruct (_ =? 61).
    - destruct (pfunc_set r) as [f|]; [apply set_acc_time|by intros [= _ _ <-]].
    - destruct (_ && _); [by intros [= _ _ <-]|]. destruct (pfunc r) as [f|]; [|by intros [= _ _ <-]].
      destruct (call_pfunc _ _ _ _) as [[o2 c2]|] eqn:E; [|done]. intros [= _ _ <-]. apply func_acc in E. by rewrite E. }
  rewrite <-H1. destruct (negb o); [by intros [= _ <-]|]. destruct (_skip_spaces p1) as [|ch1 p2]; [by intros [= _ <-]|].
  destruct (ch1 =? 59); [apply IH|by intros [= _ <-]].
Qed.

(** ** No command text stops the device *)

Section total.
Context `{FS : !FlashSpec F} `{FR : !FlashReliable F}.

Lemma cfg_write_or_same id src auth s b s' q :
  cfg_write id src auth s = (b, s', q) → b = true ∨ s' = s.
Proof.
  unfold cfg_write, CFG_ITEM_SIZE. destruct (Z.ltb_spec 62 (Z.of_nat (length src))); [by intros [= <- <- <-]; right|].
  unfold cfg_table_access_write. destruct (_table_get id) as [r|] eqn:Ht; [|by intros [= <- <- <-]; right].
  destruct (negb _); [by intros [= <- <- <-]; right|]. cbv zeta. fold (item_data src).
  destruct (storage_write_cfg _ _ s) as [b1 s1] eqn:E. intros [= <- <- <-].
  unfold storage_write_cfg in E. destruct (negb _); [injection E as <- <-; by right|].
  destruct (_ <? _); [injection E as <- <-; by right|].
  destruct (table_get_ok _ _ Ht) as [Hi _].
  match type of E with context [flash_write_data ?a ?l ?f] =>
    pose proof (flash_write_ok a l f) as Hok end.
  destruct (flash_write_data _ _ _) as [b2 f2]. injection E as <- <-. left. apply Hok.
  - apply u32_range.
  - unfold cfg_bytes. rewrite length_app, item_data_length by lia.
    rewrite u32_small by (unfold sizeof_cfg in *; region; lia).
    change (Z.of_nat (62 + _)) with sizeof_cfg. unfold sizeof_cfg in *. region. lia.
Qed.

Lemma clean_write id tmp auth s b s' q :
  Z.of_nat (length tmp) < CFG_ITEM_SIZE → Forall (λ c, c ≠ 0) tmp →
  cfg_write id (buf_full tmp) auth s = (b, s', q) → cfg_clean s → cfg_clean s'.
Proof.
  intros Hl Hz Hw Hs. destruct (cfg_write_or_same _ _ _ _ _ _ _ Hw) as [->| ->]; [|done].
  eapply cfg_clean_write; [exact Hw| |done].
  destruct (buf_full_text tmp Hl Hz) as [_ [->|[g ->]]].
  - left. unfold CFG_ITEM_SIZE in Hl. lia.
  - right. apply elem_of_app. right. by left.
Qed.

Lemma find_password_ok t s text a : cfg_clean s → is_ok (find_password t s text a).
Proof.
  intros Hs. induction t as [|[[id lv] src] t IH]; [by eexists|]. cbn [find_password].
  destruct (cfg_clean_read s id ACCESS_SYSTEM Hs) as [[ok code] ->]. cbn [mbind outcome_bind].
  destruct (negb ok); [by eexists|]. destruct (_ && _); [by eexists|done].
Qed.

Lemma append_mem_ok num : ∀ i first c,
  cfg_clean (d_storage (c_dev c)) → is_ok (_append_mem e i first num c).
Proof.
  induction num as [|num IH]; intros i first c Hc; [by eexists|]. cbn [_append_mem]. cbv zeta.
  set (c0 := if first then c else _).
  assert (c_dev c0 = c_dev c) as E by (unfold c0; by destruct first).
  destruct (event_memory_read i (d_mem (c_dev c0))) as [ev|] eqn:Er.
  - destruct (event_read_named _ _ _ Er) as [Hi Hs].
    destruct (names_named (d_storage (c_dev c0)) ev) as [[n Hn] [m Hm]]; [by rewrite E|done|done|].
    unfold event_description, _buf_add_event. cbv zeta. rewrite Hn, Hm. cbn [mbind outcome_bind].
    apply IH. cbn. by rewrite E.
  - cbn [mbind outcome_bind]. apply IH. cbn. by rewrite E.
Qed.

Lemma cfg_lines_ok rows text : ∀ c, cfg_clean (d_storage (c_dev c)) → is_ok (cfg_lines rows text c).
Proof.
  induction rows as [|i rows IH]; intros c Hc; [by eexists|]. cbn [cfg_lines]. cbv zeta.
  destruct (_ =? CFG_ID_END); [by eexists|]. destruct (negb _); [by apply IH|].
  unfold cfg_line. destruct (cfg_clean_read _ (cfg_table_get_id i) (acc_auth (c_acc c)) Hc) as [[ok t] ->].
  cbn [mbind outcome_bind]. by apply IH.
Qed.

Lemma update_start_ok u : cfg_clean (up_storage u) → is_ok (update_start u).
Proof.
  intros Hs. unfold update_start. destruct (_update_rq u); [by eexists|].
  destruct (cfg_clean_read _ CFG_ID_UPDATE_SERVER_ADDR ACCESS_SYSTEM Hs) as [[ok t] ->].
  cbn [mbind outcome_bind]. destruct (negb ok); [by eexists|].
  destruct (net_parse_target_ip t) as [[ok2 ip] port]. destruct (negb ok2); [by eexists|].
  cbv zeta.
  destruct (cfg_clean_read (up_storage (set_target ip (default (_server_port u) port) t u))
    CFG_ID_UPDATE_SERVER_KEY ACCESS_SYSTEM Hs) as [[ok3 k] ->].
  cbn [mbind outcome_bind]. destruct (negb ok3); by eexists.
Qed.

(** Commands without a parameter leave the flash alone. *)
Lemma func_storage f text c :
  cfg_clean (d_storage (c_dev c)) →
  ∃ ok c', call_pfunc e f text c = Ok (ok, c') ∧ d_storage (c_dev c') = d_storage (c_dev c).
Proof.
  intros Hc.
  assert (∀ c', says c c' → d_storage (c_dev c') = d_storage (c_dev c)) as Hsay
    by (intros c' [l ->]; done).
  assert (d_storage (c_dev (run_set c)) = d_storage (c_dev c)) as Hset
    by (unfold run_set; by destruct (system_set _ _ _)).
  assert (d_storage (c_dev (run_unset e c)) = d_storage (c_dev c)) as Hunset
    by (unfold run_unset; by destruct (system_unset _ _ _ _)).
  destruct f; cbn [call_pfunc]; cbv zeta.
  - eexists _, _. split; [done|]. apply Hsay. unfold _cmd_auth. say.
  - destruct (cfg_lines_ok (seq 0 1000) text c Hc) as [c' E]. unfold _cmd_cfg. rewrite E.
    cbn [mbind outcome_bind]. eexists _, _. split; [done|]. by eapply Hsay, cfg_lines_says.
  - eexists _, _. split; [done|]. apply Hsay, gps_says.
  - eexists _, _. split; [done|]. apply Hsay, help_says, says_refl.
  - eexists _, _. split; [done|]. apply Hsay, io_says.
  - by eexists _, _.
  - unfold _cmd_mem. destruct (append_mem_ok 3 0 true (append_str (str "MEM: ") c) Hc) as [c' E].
    rewrite E. cbn [mbind outcome_bind]. eexists _, _. split; [done|].
    apply append_mem_says in E as [l ->]. done.
  - eexists _, _. split; [done|]. apply Hsay. unfold _cmd_net. say.
  - eexists _, _. split; [done|]. apply Hsay. unfold _cmd_rtc, _add_rtc. say.
  - eexists _, _. split; [done|]. unfold _cmd_set. destruct (_ =? SECTION_ST_SET); [done|exact Hset].
  - eexists _, _. split; [done|]. apply Hsay, status_says.
  - eexists _, _. split; [done|]. unfold _cmd_unlock. destruct (negb _); [exact Hunset|done].
  - eexists _, _. split; [done|]. unfold _cmd_unset. destruct (_ =? SECTION_ST_UNSET); [done|exact Hunset].
  - unfold _cmd_update.
    destruct (update_start_ok (set_up_storage (d_storage (c_dev c)) (d_update (c_dev c))) Hc) as [[ok u] E].
    rewrite E. cbn [mbind outcome_bind]. by eexists _, _.
  - eexists _, _. split; [done|]. apply Hsay. unfold _cmd_ver. say.
  - eexists _, _. split; [done|]. apply Hsay. unfold _cmd_dl. say.
  - eexists _, _. split; [done|]. apply Hsay. unfold _cmd_echo. say.
Qed.

Definition clean (_ : list Z) (c : cst) : Prop := cfg_clean (d_storage (c_dev c)).

Lemma sms_clean run p c :
  (∀ p' c', p' `suffix_of` p → clean p' c' → returns clean (run p' c')) → clean p c →
  returns clean (sms_process e run p c).
Proof.
  intros Hrun Hc. unfold sms_process. cbv zeta. unfold cmd_get_password_access.
  match goal with |- context [find_password ?t ?s ?x ?a] =>
    destruct (find_password_ok t s x a Hc) as [[n a'] ->] end.
  cbn [mbind outcome_bind]. destruct (_ <=? _); [by eexists _, _|].
  destruct (Hrun (_skip_spaces (drop n (_skip_spaces p))) (put_acc a' c)) as (ok & c' & -> & Hc').
  - do 2 (etransitivity; [apply skip_spaces_suffix || apply drop_suffix|]). apply skip_spaces_suffix.
  - exact Hc.
  - cbn [mbind outcome_bind]. eexists _, _. split; [done|]. exact Hc'.
Qed.

(** What the parsers leave is a suffix. *)
Ltac parsed :=
  match goal with
  | H : cmd_fetch_num _ = Some _ |- _ => apply parse_number_suffix in H
  | H : cmd_fetch_separator _ = Some _ |- _ => apply parse_separator_suffix in H
  | H : cmd_fetch_string _ _ = Some _ |- _ => apply parse_string_suffix in H
  end.

Lemma set_clean r f p c run :
  (∀ p' c', p' `suffix_of` p → clean p' c' → returns clean (run p' c')) → clean p c →
  returns_at clean p (call_pfunc_set e (sms_process e run) f (cmd_text r) p c).
Proof.
  intros Hrun Hc.
  assert (∀ ok p' c', p' `suffix_of` p → d_storage (c_dev c') = d_storage (c_dev c) →
    returns_at clean p (Ok (ok, p', c'))) as Hok.
  { intros ok p' c' Hp E. exists ok, p', c'. split; [done|]. split; [done|]. unfold clean. by rewrite E. }
  destruct f; cbn [call_pfunc_set].
  - unfold _cmd_auth_set. destruct (cmd_fetch_string _ _) as [[tmp p']|] eqn:E; [|by apply Hok].
    unfold cmd_get_password_access.
    match goal with |- context [find_password ?t ?s ?x ?a] =>
      destruct (find_password_ok t s x a Hc) as [[n a'] ->] end.
    apply Hok; [by parsed|done].
  - unfold _cmd_cfg_set. destruct (cmd_fetch_num p) as [[id p1]|] eqn:E1; [|by apply Hok].
    destruct (cmd_fetch_separator p1) as [p2|] eqn:E2.
    + destruct (cmd_fetch_string p2 CFG_ITEM_SIZE) as [[tmp p3]|] eqn:E3.
      2:{ apply Hok; [|done]. repeat parsed. by etransitivity. }
      destruct (parse_string_fits _ _ _ _ E3) as [Hl Hz].
      destruct (cfg_write _ _ _ _) as [[b s'] q] eqn:Ew.
      eexists _, _, _. split; [done|]. split; [repeat parsed; by do 2 (etransitivity; [eassumption|])|].
      exact (clean_write _ _ _ _ _ _ _ Hl Hz Ew Hc).
    + destruct (cfg_clean_read _ (u16 id) (acc_auth (c_acc c)) Hc) as [[ok t] ->].
      cbn [mbind outcome_bind]. apply Hok; [by parsed|done].
  - unfold _cmd_gps_set. destruct (cmd_fetch_num p) as [[n p1]|] eqn:E1; apply Hok; try done. by parsed.
  - unfold _cmd_mem_set. cbv zeta.
    assert (∀ i n p', p' `suffix_of` p → returns_at clean p
      (if (i <? 0) || (50 <? n) then Ok (false, p', c)
       else c0 ← _append_mem e (Z.to_nat i) true (Z.to_nat n) (append_fmt (str "MEM -%ld: ") [ArgD i] c);
            Ok (true, p', c0))) as Hprint.
    { intros i n p' Hp'. destruct (_ || _); [by apply Hok|].
      destruct (append_mem_ok (Z.to_nat n) (Z.to_nat i) true
        (append_fmt (str "MEM -%ld: ") [ArgD i] c) Hc) as [c' E].
      rewrite E. cbn [mbind outcome_bind]. apply Hok; [done|].
      apply append_mem_says in E as [l ->]. done. }
    destruct (cmd_fetch_num p) as [[i p1]|] eqn:E1; [|by apply Hok].
    destruct (cmd_fetch_separator p1) as [p2|] eqn:E2; [|apply Hprint; by parsed].
    destruct (cmd_fetch_num p2) as [[n p3]|] eqn:E3.
    2:{ apply Hok; [|done]. repeat parsed. by etransitivity. }
    assert (p3 `suffix_of` p) by (repeat parsed; by do 2 (etransitivity; [eassumption|])).
    destruct (n <? 1); [by apply Hok|by apply Hprint].
  - unfold _cmd_reboot_set. destruct (cmd_fetch_num p) as [[n p1]|] eqn:E1; apply Hok; try done;
      [by parsed|]. by destruct (n =? 0), (n =? 1).
  - by apply Hok.
  - by apply Hok.
  - unfold _cmd_dbg. destruct (_ <? _); [by apply Hok|].
    destruct (cmd_fetch_num p) as [[n p1]|] eqn:E1; [|by apply Hok]. parsed.
    repeat (destruct (n =? _); [try by apply Hok|]); [|by apply Hok].
    destruct (cmd_fetch_separator p1) as [p2|] eqn:E2; [|by apply Hok]. parsed.
    assert (p2 `suffix_of` p) as Hp2 by (by etransitivity).
    destruct (sms_clean run p2 c) as (ok & c' & -> & Hc'); [|done|].
    + intros p' c' Hp'. apply Hrun. by etransitivity.
    + cbn [mbind outcome_bind]. eexists _, _, _. split; [done|]. by split.
  - unfold _cmd_modem. destruct (_ <? _); [by apply Hok|].
    destruct (cmd_fetch_num p) as [[n p1]|] eqn:E1; apply Hok; try done. by parsed.
  - unfold _cmd_dl_set. destruct (cmd_fetch_num p) as [[n p1]|] eqn:E1; [|by apply Hok].
    cbv zeta. destruct (cmd_fetch_separator p1) as [p2|] eqn:E2; [|apply Hok; [by parsed|done]].
    destruct (cmd_fetch_num p2) as [[m p3]|] eqn:E3; apply Hok; try done; repeat parsed.
    + by do 2 (etransitivity; [eassumption|]).
    + by etransitivity.
  - unfold _cmd_echo_set. destruct (cmd_fetch_num p) as [[n p1]|] eqn:E1; apply Hok; try done. by parsed.
Qed.

Lemma process_text_clean text c :
  cfg_clean (d_storage (c_dev c)) →
  ∃ ok c', cmd_process_text e text c = Ok (ok, c') ∧ cfg_clean (d_storage (c_dev c')).
Proof.
  intros Hc. apply (cmd_process_text_rule clean); try done.
  - intros r f p c' _ _ _ Hp. destruct (func_storage f (cmd_text r) c' Hp) as (ok & c'' & -> & E).
    exists ok, c''. split; [done|]. unfold clean. by rewrite E.
  - intros r f p c' run _ _ _ Hp Hrun. by apply set_clean.
Qed.

(** C15 (termination). Whatever text arrives and whatever access the channel
    has, the interpreter returns: the length of the text bounds its rounds and
    the nested ones of [DBG=20], no assertion fails and no array is overrun, and
    the configuration stays readable for the next command. *)
Theorem cmd_process_text_returns text c :
  cfg_clean (d_storage (c_dev c)) →
  ∃ ok c', cmd_process_text e text c = Ok (ok, c') ∧ cfg_clean (d_storage (c_dev c')).
Proof. apply process_text_clean. Qed.

(** ** Nothing without a password

    [opens s lvl t]: as a parameter of [AUTH], [t] gives more than the access
    [lvl]; [carries_password]: some parameter the text could hold does. *)

Definition opens (s : storage) (lvl : Z) (t : list Z) : Prop :=
  ∃ a n a', cmd_get_password_access s a t = Ok (n, a') ∧ lvl < acc_auth a'.
Definition carries_password (s : storage) (lvl : Z) (text : list Z) : Prop :=
  ∃ p t r, p `suffix_of` text ∧ parse_string p CFG_ITEM_SIZE = Some (t, r) ∧ opens s lvl t.

Lemma row_access (Q : cmd_t → bool) r : forallb Q _CMD_TABLE = true → r ∈ _CMD_TABLE → Q r = true.
Proof. rewrite forallb_forall. intros H Hr. by apply H, list_elem_of_In. Qed.

(** [AUTH] with a parameter that opens nothing above [lvl]. *)
Lemma auth_set_below s lvl text p c :
  cfg_clean s → d_storage (c_dev c) = s → ¬ carries_password s lvl text → p `suffix_of` text →
  acc_auth (c_acc c) ≤ lvl →
  ∃ ok p' a, _cmd_auth_set p c = Ok (ok, p', put_acc a c) ∧ p' `suffix_of` p ∧ acc_auth a ≤ lvl.
Proof.
  intros Hs <- Hno Hp Hl. unfold _cmd_auth_set.
  destruct (cmd_fetch_string p CFG_ITEM_SIZE) as [[t r]|] eqn:E.
  - destruct (cmd_get_password_access (d_storage (c_dev c)) (c_acc c) t) as [[n a]|] eqn:Ea.
    + cbn [mbind outcome_bind]. eexists _, _, a. split; [done|]. split; [by parsed|].
      destruct (Z.le_gt_cases (acc_auth a) lvl); [done|]. exfalso. apply Hno.
      exists p, t, r. split; [done|]. split; [done|]. by exists (c_acc c), n, a.
    + unfold cmd_get_password_access in Ea.
      match type of Ea with find_password ?t ?s ?x ?a = _ =>
        destruct (find_password_ok t s x a Hs) as [x' Hx] end. congruence.
  - exists false, p, (c_acc c). split; [|done]. destruct c. done.
Qed.

Lemma process_text_unauthorised text c :
  cfg_clean (d_storage (c_dev c)) → acc_auth (c_acc c) ≤ ACCESS_NONE →
  ¬ carries_password (d_storage (c_dev c)) ACCESS_NONE text →
  ∃ ok c', cmd_process_text e text c = Ok (ok, c') ∧
    c_dev c' = c_dev c ∧ c_acts c' = c_acts c ∧ acc_auth (c_acc c') ≤ ACCESS_NONE.
Proof.
  intros Hs Ha Hno.
  set (P := λ p c', p `suffix_of` text ∧ c_dev c' = c_dev c ∧ c_acts c' = c_acts c ∧
    acc_auth (c_acc c') ≤ ACCESS_NONE).
  assert (∀ p c1 c2, says c1 c2 → P p c1 → P p c2) as Hsay by (by intros p c1 c2 [l ->]).
  destruct (cmd_process_text_rule P) with (text := text) (c := c) as (ok & c' & E & _ & H); try done.
  - intros p p' c' Hp' (Hp & H). split; [by etransitivity|done].
  - intros r f p c' Hr Hf Hrow Hp. pose proof Hp as (_ & _ & _ & Hauth).
    pose proof (row_access (λ r, (ACCESS_USER <=? cmd_auth r) ||
      match pfunc r with Some F_auth | Some F_help | Some F_ver => true | _ => false end) r eq_refl Hr) as Hq.
    cbv beta in Hq. rewrite Hf in Hq. apply orb_prop in Hq as [Hq|Hq].
    { apply Z.leb_le in Hq. levels. lia. }
    destruct f; try discriminate Hq; cbn [call_pfunc]; cbv zeta; eexists _, _; (split; [done|]);
      (eapply Hsay; [|exact Hp]).
    + unfold _cmd_auth. say.
    + apply help_says, says_refl.
    + unfold _cmd_ver. say.
  - intros r f p c' run Hr Hf Hrow (Hp & Hd & Hacts & Hauth) _.
    pose proof (row_access (λ r, (ACCESS_USER <=? cmd_auth r) ||
      match pfunc_set r with Some S_auth | None => true | _ => false end) r eq_refl Hr) as Hq.
    cbv beta in Hq. rewrite Hf in Hq. apply orb_prop in Hq as [Hq|Hq].
    { apply Z.leb_le in Hq. levels. lia. }
    destruct f; try discriminate Hq. cbn [call_pfunc_set].
    destruct (auth_set_below (d_storage (c_dev c)) ACCESS_NONE text p c' Hs) as (ok & p' & a & -> & Hp' & Hal);
      [by rewrite Hd|done|done|done|].
    exists ok, p', (put_acc a c'). split; [done|]. split; [done|]. split; [by etransitivity|]. done.
  - by exists ok, c'.
Qed.

(** C6 (safety). On a channel without access, a text in which no password can
    be read changes nothing: the device, its configuration and every call to the
    outside stay as they were, and the channel gains no access. *)
Theorem cmd_unauthorised_changes_nothing text c :
  cfg_clean (d_storage (c_dev c)) → acc_auth (c_acc c) ≤ ACCESS_NONE →
  ¬ carries_password (d_storage (c_dev c)) ACCESS_NONE text →
  ∃ ok c', cmd_process_text e text c = Ok (ok, c') ∧
    c_dev c' = c_dev c ∧ c_acts c' = c_acts c ∧ acc_auth (c_acc c') ≤ ACCESS_NONE.
Proof. apply process_text_unauthorised. Qed.

#[local] Instance pfunc_set_eq_dec : EqDecision pfunc_set_t.
Proof. solve_decision. Defined.

(** ** A user stays a user *)

(** Calls that only concern the alarm system and the configuration. *)
Definition harmless (a : cmd_act) : Prop :=
  match a with AcSystem _ | AcReinit _ => True | _ => False end.

(** The device after commands a user may give: the remote update is not
    touched, and the items a user may not write hold the same bytes. *)
Definition protected (s s' : storage) : Prop :=
  _storage_ready s' = _storage_ready s ∧
  ∀ id r, _table_get id = Some r → ACCESS_USER < write_access r →
    byte s' <$> seqZ (_ADDR_CFG + id * sizeof_cfg) sizeof_cfg
    = byte s <$> seqZ (_ADDR_CFG + id * sizeof_cfg) sizeof_cfg.

Definition user_only (c c' : cst) : Prop :=
  protected (d_storage (c_dev c)) (d_storage (c_dev c')) ∧
  d_update (c_dev c') = d_update (c_dev c) ∧ c_acc c' = c_acc c ∧
  ∃ l, c_acts c' = c_acts c ++ l ∧ Forall harmless l.

Lemma protected_refl s : protected s s.
Proof. done. Qed.

Lemma user_only_refl c : user_only c c.
Proof.
  split; [apply protected_refl|]. split; [done|]. split; [done|]. exists []. by rewrite app_nil_r.
Qed.

Lemma user_only_trans c1 c2 c3 : user_only c1 c2 → user_only c2 c3 → user_only c1 c3.
Proof.
  intros ([R1 B1] & U1 & C1 & l1 & A1 & H1) ([R2 B2] & U2 & C2 & l2 & A2 & H2). split; [split|].
  - congruence.
  - intros id r Hr Hw. rewrite (B2 id r Hr Hw). by apply (B1 id r).
  - split; [congruence|]. split; [congruence|]. exists (l1 ++ l2). rewrite A2, A1, app_assoc. split; [done|]. by apply Forall_app.
Qed.

Lemma says_user c c' : says c c' → user_only c c'.
Proof. intros [l ->]. exact (user_only_refl c). Qed.

Lemma read_cfg_same id s s' :
  _storage_ready s' = _storage_ready s → inside _SIZE_CFG (id * sizeof_cfg) sizeof_cfg →
  byte s' <$> seqZ (_ADDR_CFG + id * sizeof_cfg) sizeof_cfg
  = byte s <$> seqZ (_ADDR_CFG + id * sizeof_cfg) sizeof_cfg →
  storage_read_cfg (id * sizeof_cfg) sizeof_cfg s' = storage_read_cfg (id * sizeof_cfg) sizeof_cfg s.
Proof.
  intros Hr Hi Hb. assert (∀ x, _storage_ready x = true →
    storage_read_cfg (id * sizeof_cfg) sizeof_cfg x
    = Some (byte x <$> seqZ (_ADDR_CFG + id * sizeof_cfg) sizeof_cfg)) as H.
  { intros x Hx. destruct (storage_read_cfg (id * sizeof_cfg) sizeof_cfg x) as [l|] eqn:E.
    - by rewrite (storage_read_cfg_spec _ _ _ _ Hi E).
    - exfalso. unfold storage_read_cfg in E. rewrite Hx in E. cbn [negb] in E.
      rewrite (u32_small (_ + sizeof_cfg)), (u32_small (_ADDR_CFG + _)) in E by (region; lia).
      destruct (Z.ltb_spec _SIZE_CFG (id * sizeof_cfg + sizeof_cfg)); [region; lia|].
      destruct (flash_read_ok (_ADDR_CFG + id * sizeof_cfg) sizeof_cfg (chip x)) as [l Hl];
        [region; lia|done|region; lia|congruence]. }
  destruct (_storage_ready s) eqn:E.
  - rewrite !H by congruence. by rewrite Hb.
  - unfold storage_read_cfg. by rewrite Hr, E.
Qed.

Lemma protected_read s s' id r auth :
  protected s s' → _table_get id = Some r → ACCESS_USER < write_access r →
  cfg_read id auth s' = cfg_read id auth s.
Proof.
  intros [Hr Hb] Ht Hw. unfold cfg_read.
  rewrite (read_cfg_same id s s'); [done|done|by eapply table_get_ok|by eapply Hb].
Qed.

(** Passwords are among the protected items. *)
Lemma protected_password s s' a text :
  protected s s' → cmd_get_password_access s' a text = cmd_get_password_access s a text.
Proof.
  intros Hp. unfold cmd_get_password_access.
  generalize (Access ACCESS_NONE (acc_time a) EVENT_SOURCE_UNKNOWN (acc_channel a)). intros b.
  assert (forallb (λ x, match _table_get (cfg_id_code x.1.1) with
    | Some r => ACCESS_USER <? write_access r | None => false end) PASSWD_TABLE = true) as H
    by (vm_compute; reflexivity).
  revert H. generalize PASSWD_TABLE. induction l as [|[[id lv] src] t IH]; [done|].
  cbn [forallb fst]. intros [H1 H2]%andb_prop. cbn [find_password].
  destruct (_table_get id) as [r|] eqn:Ht; [|done]. apply Z.ltb_lt in H1.
  rewrite (protected_read s s' id r _ Hp Ht H1).
  destruct (cfg_read id ACCESS_SYSTEM s) as [[ok code]|]; [|done]. cbn [mbind outcome_bind].
  destruct (negb ok); [done|]. destruct (_ && _); [done|]. by apply IH.
Qed.

Lemma protected_opens s s' lvl t : protected s s' → opens s' lvl t → opens s lvl t.
Proof.
  intros Hp (a & n & a' & E & Hl). exists a, n, a'.
  by rewrite (protected_password s s' _ _ Hp) in E.
Qed.

(** A write with a user's access. *)
Lemma cfg_write_protected id src auth s b s' q :
  auth ≤ ACCESS_USER → cfg_write id src auth s = (b, s', q) → protected s s'.
Proof.
  intros Ha Hw. split.
  - unfold cfg_write in Hw. destruct (_ <? _); [by injection Hw as _ <- _|].
    destruct (negb _); [by injection Hw as _ <- _|]. cbv zeta in Hw.
    destruct (storage_write_cfg _ _ s) as [b1 s1] eqn:E. injection Hw as _ <- _.
    unfold storage_write_cfg in E. destruct (negb _); [by injection E as _ <-|].
    destruct (_ <? _); [by injection E as _ <-|].
    destruct (flash_write_data _ _ _). by injection E as _ <-.
  - intros id' r Hr Hl. destruct (decide (id' = id)) as [->|Hne].
    + pose proof (cfg_access_denied id auth s src r Hr) as Hno.
      rewrite Hno in Hw by lia. by injection Hw as _ <- _.
    + eapply cfg_write_other; [exact Hw|by eexists|done].
Qed.

Lemma sys_harmless l : Forall harmless (sys_acts l).
Proof. unfold sys_acts. apply Forall_fmap, Forall_true. done. Qed.

Lemma run_set_user c : user_only c (run_set c).
Proof.
  unfold run_set. destruct (system_set _ _ _) as [w l]. split; [apply protected_refl|].
  split; [done|]. split; [done|]. exists (sys_acts l). split; [done|apply sys_harmless].
Qed.

Lemma run_unset_user c : user_only c (run_unset e c).
Proof.
  unfold run_unset. destruct (system_unset _ _ _ _) as [w l]. split; [apply protected_refl|].
  split; [done|]. split; [done|]. exists (sys_acts l). split; [done|apply sys_harmless].
Qed.

(** Steps that change neither the flash nor the update and call nobody. *)
Lemma upd_dev_user f c :
  (∀ d, d_storage (f d) = d_storage d ∧ d_update (f d) = d_update d) → user_only c (upd_dev f c).
Proof.
  intros H. destruct (H (c_dev c)) as [H1 H2]. unfold user_only, upd_dev. cbn [c_dev c_acts].
  rewrite H1, H2. split; [apply protected_refl|]. split; [done|]. split; [done|].
  exists []. by rewrite app_nil_r.
Qed.

Lemma delay_user ms c : user_only c (delay ms c).
Proof. exact (user_only_refl c). Qed.
Lemma io_user b (on : bool) c : user_only c (if on then io_on e b c else io_off e b c).
Proof. destruct on; by apply upd_dev_user. Qed.

Lemma lock_user c : user_only c (_cmd_lock e c).
Proof.
  unfold _cmd_lock. set (b := io_bit SYSTEM_IO_LOCK).
  eapply user_only_trans; [apply (upd_dev_user (λ d, set_d_inp (inp_set_bypass INP_LOCK true (d_inp d)) d)); done|].
  eapply user_only_trans; [apply (io_user b true)|].
  eapply user_only_trans; [apply (delay_user _LOCK_TIME)|].
  eapply user_only_trans; [apply (io_user b false)|].
  eapply user_only_trans; [apply (delay_user 10)|]. by apply upd_dev_user.
Qed.

Lemma pulse_user b c : user_only c (delay 10 (io_off e b (delay _LOCK_TIME (io_on e b c)))).
Proof.
  eapply user_only_trans; [apply (io_user b true)|].
  eapply user_only_trans; [apply (delay_user _LOCK_TIME)|].
  eapply user_only_trans; [apply (io_user b false)|]. apply delay_user.
Qed.

Lemma unlock_user c : user_only c (_cmd_unlock e c).
Proof.
  unfold _cmd_unlock. cbv zeta. destruct (negb _); [|apply pulse_user].
  eapply user_only_trans; [apply run_unset_user|apply pulse_user].
Qed.

Lemma set_user text c : user_only c (_cmd_set text c).
Proof.
  unfold _cmd_set. destruct (_ =? SECTION_ST_SET).
  - apply says_user. unfold _add_state. say.
  - eapply user_only_trans; [apply run_set_user|]. apply says_user. say.
Qed.

Lemma unset_user text c : user_only c (_cmd_unset e text c).
Proof.
  unfold _cmd_unset. destruct (_ =? SECTION_ST_UNSET).
  - apply says_user. unfold _add_state. say.
  - eapply user_only_trans; [apply run_unset_user|]. apply says_user. say.
Qed.

Lemma cmd_cfg_eq text c : _cmd_cfg text c = cfg_lines (seq 0 1000) text c.
Proof. unfold _cmd_cfg. generalize (seq 0 1000). reflexivity. Qed.

Lemma cfg_user text c c' : _cmd_cfg text c = Ok c' → user_only c c'.
Proof. rewrite cmd_cfg_eq. intros H. apply says_user. exact (cfg_lines_says _ _ _ _ H). Qed.

Lemma mem_user c c' : _cmd_mem e c = Ok c' → user_only c c'.
Proof.
  intros H. apply append_mem_says in H. apply says_user. eapply says_trans; [|exact H]. say.
Qed.

#[local] Opaque _cmd_cfg _cmd_mem _cmd_gps _cmd_io _cmd_status _cmd_lock _cmd_unlock _cmd_set _cmd_unset.

(** A command of a user without a parameter. *)
Lemma func_user f text c ok c' :
  f ≠ F_update → call_pfunc e f text c = Ok (ok, c') → user_only c c'.
Proof.
  intros Hf. destruct f; cbn [call_pfunc]; cbv zeta; try (exfalso; exact (Hf eq_refl)).
  - intros [= <- <-]. apply says_user. unfold _cmd_auth. say.
  - destruct (_cmd_cfg text c) as [c1|] eqn:E; [|discriminate]. intros [= <- <-].
    exact (cfg_user _ _ _ E).
  - intros [= <- <-]. apply says_user, gps_says.
  - intros [= <- <-]. apply says_user, help_says, says_refl.
  - intros [= <- <-]. apply says_user, io_says.
  - intros [= <- <-]. apply lock_user.
  - destruct (_cmd_mem e c) as [c1|] eqn:E; [|discriminate]. intros [= <- <-].
    exact (mem_user _ _ E).
  - intros [= <- <-]. apply says_user. unfold _cmd_net. say.
  - intros [= <- <-]. apply says_user. unfold _cmd_rtc, _add_rtc. say.
  - intros [= <- <-]. apply set_user.
  - intros [= <- <-]. apply says_user, status_says.
  - intros [= <- <-]. apply unlock_user.
  - intros [= <- <-]. apply unset_user.
  - intros [= <- <-]. apply says_user. unfold _cmd_ver. say.
  - intros [= <- <-]. apply says_user. unfold _cmd_dl. say.
  - intros [= <- <-]. apply says_user. unfold _cmd_echo. say.
Qed.

(** A command of a user with a parameter. *)
Lemma set_user_only f text p c sms ok p' c' :
  f = S_cfg ∨ f = S_gps ∨ f = S_mem → acc_auth (c_acc c) ≤ ACCESS_USER →
  call_pfunc_set e sms f text p c = Ok (ok, p', c') → user_only c c'.
Proof.
  intros Hf Ha. destruct Hf as [->|[->| ->]]; cbn [call_pfunc_set].
  - unfold _cmd_cfg_set. destruct (cmd_fetch_num p) as [[id p1]|]; [|intros [= <- <- <-]; apply user_only_refl].
    destruct (cmd_fetch_separator p1) as [p2|].
    + destruct (cmd_fetch_string p2 CFG_ITEM_SIZE) as [[tmp p3]|]; [|intros [= <- <- <-]; apply user_only_refl].
      destruct (cfg_write _ _ _ _) as [[b s'] q] eqn:Ew. intros [= <- <- <-].
      split; [exact (cfg_write_protected _ _ _ _ _ _ _ Ha Ew)|]. split; [reflexivity|]. split; [reflexivity|].
      exists [AcReinit q]. split; [reflexivity|]. by constructor.
    + destruct (cfg_read _ _ _) as [[ok' t]|]; [|discriminate]. cbn [mbind outcome_bind].
      intros [= <- <- <-]. apply says_user. say.
  - unfold _cmd_gps_set. destruct (cmd_fetch_num p) as [[n p1]|]; intros [= <- <- <-];
      [by apply upd_dev_user|apply user_only_refl].
  - unfold _cmd_mem_set. cbv zeta.
    assert (∀ i n q, (if (i <? 0) || (50 <? n) then Ok (false, q, c)
       else c0 ← _append_mem e (Z.to_nat i) true (Z.to_nat n) (append_fmt (str "MEM -%ld: ") [ArgD i] c);
            Ok (true, q, c0)) = Ok (ok, p', c') → user_only c c') as Hprint.
    { intros i n q. destruct (_ || _); [intros [= <- <- <-]; apply user_only_refl|].
      destruct (_append_mem e _ true _ _) as [c1|] eqn:E; [|discriminate]. cbn [mbind outcome_bind].
      intros [= <- <- <-]. apply append_mem_says in E. apply says_user.
      eapply says_trans; [|exact E]. say. }
    destruct (cmd_fetch_num p) as [[i p1]|]; [|intros [= <- <- <-]; apply user_only_refl].
    destruct (cmd_fetch_separator p1) as [p2|]; [|apply Hprint].
    destruct (cmd_fetch_num p2) as [[n p3]|]; [|intros [= <- <- <-]; apply user_only_refl].
    destruct (n <? 1); [intros [= <- <- <-]; apply user_only_refl|apply Hprint].
Qed.

Lemma user_only_put a b c c' : user_only (put_acc b c) c' → user_only (put_acc a c) (put_acc a c').
Proof. intros (H1 & H2 & _ & H3). split; [exact H1|]. split; [exact H2|]. split; [reflexivity|exact H3]. Qed.

Lemma set_no_dbg f sms sms' text p c : f ≠ S_dbg →
  call_pfunc_set e sms f text p c = call_pfunc_set e sms' f text p c.
Proof. by destruct f. Qed.

(** C5 (safety). A user cannot raise their rights: while a channel has at most
    user access and the text holds no password that opens more, the channel stays
    at user access, every configuration item that needs more than that to be
    written (the passwords among them) reads as before for everybody, no remote
    update is started, and nothing outside the alarm system is called. *)
Theorem cmd_user_cannot_escalate text c :
  cfg_clean (d_storage (c_dev c)) → acc_auth (c_acc c) ≤ ACCESS_USER →
  ¬ carries_password (d_storage (c_dev c)) ACCESS_USER text →
  ∃ ok c', cmd_process_text e text c = Ok (ok, c') ∧
    acc_auth (c_acc c') ≤ ACCESS_USER ∧
    (∀ id r auth, _table_get id = Some r → ACCESS_USER < write_access r →
       cfg_read id auth (d_storage (c_dev c')) = cfg_read id auth (d_storage (c_dev c))) ∧
    d_update (c_dev c') = d_update (c_dev c) ∧
    ∃ l, c_acts c' = c_acts c ++ l ∧ Forall harmless l.
Proof.
  intros Hs Ha Hno.
  set (P := λ p c', p `suffix_of` text ∧ acc_auth (c_acc c') ≤ ACCESS_USER ∧
    cfg_clean (d_storage (c_dev c')) ∧ user_only (put_acc (c_acc c') c) c').
  assert (∀ p q c1 c2, q `suffix_of` p → cfg_clean (d_storage (c_dev c2)) → user_only c1 c2 →
    P p c1 → P q c2) as Hstep.
  { intros p q c1 c2 Hq Hc Hu (Hp & Hau & _ & Hm). pose proof Hu as (_ & _ & Hacc & _).
    split; [by etransitivity|]. rewrite Hacc. split; [done|]. split; [done|].
    eapply user_only_trans; [exact Hm|exact Hu]. }
  destruct (cmd_process_text_rule P) with (text := text) (c := c) as (ok & c' & E & _ & H1 & _ & H2).
  - intros p p' c' Hp' HP. pose proof HP as (_ & _ & Hc & _). apply (Hstep p p' c' c'); [done|done|apply user_only_refl|done].
  - intros p l c' HP. pose proof HP as (_ & _ & Hc & _).
    apply (Hstep p p c' (append l c')); [done|exact Hc|apply says_user; say|done].
  - intros r f p c' Hr Hf Hrow HP. pose proof HP as (_ & Hau & Hc & _).
    destruct (func_storage f (cmd_text r) c' Hc) as (ok & c2 & E & Hsame).
    exists ok, c2. split; [exact E|]. apply (Hstep p p c' c2); [done|by rewrite Hsame| |done].
    eapply func_user; [|exact E]. intros ->.
    pose proof (row_access (λ r, (ACCESS_ADMIN <=? cmd_auth r) ||
      match pfunc r with Some F_update => false | _ => true end) r eq_refl Hr) as Hq.
    cbv beta in Hq. rewrite Hf, orb_false_r in Hq. apply Z.leb_le in Hq. levels. lia.
  - intros r f p c' run Hr Hf Hrow HP _. pose proof HP as (Hp & Hau & Hc & Hm).
    pose proof (row_access (λ r, (ACCESS_ADMIN <=? cmd_auth r) ||
      match pfunc_set r with Some (S_auth | S_cfg | S_gps | S_mem) | None => true | _ => false end)
      r eq_refl Hr) as Hq.
    cbv beta in Hq. rewrite Hf in Hq. apply orb_prop in Hq as [Hq|Hq].
    { apply Z.leb_le in Hq. levels. lia. }
    rewrite (set_no_dbg f _ (sms_process e (λ _ c, Ok (true, c)))) by (intros ->; discriminate Hq).
    destruct (decide (f = S_auth)) as [->|Hnauth].
    + cbn [call_pfunc_set].
      destruct (auth_set_below (d_storage (c_dev c')) ACCESS_USER text p c' Hc eq_refl)
        as (ok & p' & a & -> & Hp' & Hal); [|done|done|].
      { intros (q & t & x & Hq1 & Hq2 & Hq3). apply Hno. exists q, t, x. split; [done|]. split; [done|].
        eapply protected_opens; [|exact Hq3]. by destruct Hm. }
      exists ok, p', (put_acc a c'). split; [done|]. split; [done|]. split; [by etransitivity|].
      split; [done|]. split; [done|]. by eapply user_only_put.
    + destruct (set_clean r f p c' (λ _ c, Ok (true, c))) as (ok & p' & c2 & E & Hp' & Hc2); [|exact Hc|].
      { intros p' c2 _ H2. by exists true, c2. }
      exists ok, p', c2. split; [exact E|]. split; [done|].
      apply (Hstep p p' c' c2 Hp' Hc2); [|done].
      eapply set_user_only; [|exact Hau|exact E]. destruct f; try done; auto.
  - split; [done|]. split; [done|]. split; [done|]. destruct c. apply user_only_refl.
  - exists ok, c'. split; [done|]. split; [done|]. destruct H2 as (H3 & H4 & _ & l & H5 & H6).
    split; [|split; [exact H4|by exists l]]. intros id r auth Hr Hl. by apply (protected_read _ _ id r).
Qed.

End total.

End interpreter.
