(* ===== verification/CmdParse.v ===== *)
(** * How commands are read (app/cmd.c)

    Names and their beginnings, chains, parameters, and the passwords of [AUTH]
    and of text messages. *)

From S2P Require Import Prelude CText EventTypes EventBuf Storage EventMemory EventQueue.
From S2P Require Import Out Alarm ArmSection System Cfg SiaIp NetTarget Cms EventTask Inp.
From S2P Require Import Update Nmea Gps Report Cmd CmdThm.

(** ** Letters *)

Lemma to_lower_alpha c x : is_alpha x = true → to_lower c = to_lower x → is_alpha c = true.
Proof.
  unfold is_alpha, is_upper, is_lower, to_lower, is_upper.
  destruct (Z.leb_spec 65 x), (Z.leb_spec x 90), (Z.leb_spec 97 x), (Z.leb_spec x 122);
    cbn [andb orb]; try done;
  destruct (Z.leb_spec 65 c), (Z.leb_spec c 90), (Z.leb_spec 97 c), (Z.leb_spec c 122);
    cbn [andb orb]; try done; lia.
Qed.

Definition letters (l : list Z) : Prop := Forall (λ c, is_alpha c = true) l.

Lemma lower_letters l k : letters l → to_lower <$> k = to_lower <$> l → letters k.
Proof.
  unfold letters. intros Hl. revert k. induction Hl as [|x l Hx Hl IH]; intros [|y k] H; try done.
  cbn in H. injection H as H1 H2. constructor; [by eapply to_lower_alpha|by apply IH].
Qed.

Section parse.
Context `{F : FlashLib} `{R : EventRepr} `{L : CmdLib} `{LS : !CmdSpec L}.
Variable e : cmd_env.

(** A word at the start of a text: characters of names, then another one. *)
Definition word (w rest : list Z) : Prop :=
  Forall (λ c, is_char c = true) w ∧ is_char (char_at rest 0) = false.

Lemma char_at_app w rest : char_at (w ++ rest) (length w) = char_at rest 0.
Proof. unfold char_at. rewrite lookup_app_r, Nat.sub_diag by lia. done. Qed.

Lemma word_len_spec n w rest i text :
  (length w < n)%nat → (∀ j, char_at text (i + j) = char_at (w ++ rest) j) → word w rest →
  word_len n i text = (i + length w)%nat.
Proof.
  revert w i. induction n as [|n IH]; intros w i Hn Ht [Hw Hr]; [lia|]. cbn [word_len].
  pose proof (Ht 0%nat) as H0. rewrite Nat.add_0_r in H0. rewrite H0.
  destruct w as [|x w].
  - unfold char_at in Hr |- *. cbn [app]. rewrite Hr. cbn. lia.
  - inversion Hw as [|? ? Hx Hw']; subst. unfold char_at. cbn [app lookup list_lookup default].
    cbn. rewrite Hx. cbn [negb]. rewrite (IH w (S i)).
    + cbn. lia.
    + cbn in Hn. lia.
    + intros j. specialize (Ht (S j)). by replace (i + S j)%nat with (S i + j)%nat in Ht by lia.
    + by split.
Qed.

(** Names that are words of letters. *)
Definition names_ok (table : list cmd_t) : Prop :=
  Forall (λ r, letters (cmd_text r) ∧ cmd_text r ≠ []) table.

Definition same_name (w : list Z) (r : cmd_t) : bool :=
  bool_decide (to_lower <$> cmd_text r = to_lower <$> w).
Definition begins_name (w : list Z) (r : cmd_t) : bool :=
  bool_decide (w ≠ [] ∧ (length w < length (cmd_text r))%nat ∧
               to_lower <$> w = to_lower <$> take (length w) (cmd_text r)).
Definition open_rows (table : list cmd_t) (auth : Z) : list cmd_t :=
  filter (λ r, cmd_auth r ≤ auth) table.

(** The whole name at the start of the text. *)
Lemma exact_name w rest r :
  letters (cmd_text r) → word w rest →
  (strnicmp (w ++ rest) (cmd_text r) (length (cmd_text r)) =? 0)
    && negb (is_char (char_at (w ++ rest) (length (cmd_text r)))) = same_name w r.
Proof.
  intros Hl [Hw Hr]. set (n := cmd_text r) in *. unfold same_name. fold n.
  destruct (Z.eqb_spec (strnicmp (w ++ rest) n (length n)) 0) as [E|E]; cbn [andb].
  - apply strnicmp_equal in E. rewrite (take_ge n) in E by lia.
    pose proof (lower_letters _ _ Hl E) as Hlet.
    assert (length (take (length n) (w ++ rest)) = length n) as Hlen.
    { apply (f_equal length) in E. by rewrite !length_fmap in E. }
    rewrite length_take in Hlen.
    assert (length n <= length w)%nat as Hle.
    { destruct (decide (length n <= length w)%nat) as [|Hgt]; [done|exfalso].
      assert (is_alpha (char_at rest 0) = true) as Ha.
      { rewrite <- (char_at_app w rest). unfold char_at.
        destruct (take (length n) (w ++ rest) !! length w) as [x|] eqn:Ex.
        - pose proof (Forall_lookup_1 _ _ _ _ Hlet Ex) as Hx.
          rewrite lookup_take_lt in Ex by lia. by rewrite Ex.
        - apply lookup_ge_None in Ex. rewrite length_take in Ex. lia. }
      rewrite (is_char_letter _ Ha) in Hr. done. }
    rewrite take_app_le in E by done.
    destruct (is_char (char_at (w ++ rest) (length n))) eqn:Ec; cbn [negb].
    + symmetry. apply bool_decide_eq_false. intros Heq.
      apply (f_equal length) in Heq. rewrite !length_fmap in Heq. rewrite Heq in Ec.
      rewrite char_at_app in Ec. congruence.
    + symmetry. apply bool_decide_eq_true. rewrite <- E. f_equal.
      destruct (decide (length n = length w)) as [->|Hne]; [by rewrite take_ge|exfalso].
      destruct (lookup_lt_is_Some_2 w (length n)) as [x Hx]; [lia|].
      unfold char_at in Ec. rewrite (lookup_app_l_Some _ _ _ _ Hx) in Ec. cbn in Ec.
      pose proof (Forall_lookup_1 _ _ _ _ Hw Hx) as Hc. cbn in Hc. congruence.
  - symmetry. apply bool_decide_eq_false. intros Heq. apply E. apply strnicmp_equal.
    pose proof (f_equal length Heq) as Hn. rewrite !length_fmap in Hn.
    rewrite take_app_le, !take_ge by lia. by symmetry.
Qed.

Lemma prefix_name w rest r :
  (length w <? length (cmd_text r))%nat && (0 <? length w)%nat
    && (strnicmp (w ++ rest) (cmd_text r) (length w) =? 0) = begins_name w r.
Proof.
  unfold begins_name. symmetry.
  destruct (Nat.ltb_spec (length w) (length (cmd_text r))); cbn [andb];
    [|apply bool_decide_eq_false; intros (_ & ? & _); lia].
  destruct (Nat.ltb_spec 0 (length w)); cbn [andb];
    [|apply bool_decide_eq_false; intros (Hne & _); destruct w; cbn in *; (done || lia)].
  destruct (Z.eqb_spec (strnicmp (w ++ rest) (cmd_text r) (length w)) 0) as [E|E].
  - apply bool_decide_eq_true. split; [intros ->; cbn in *; lia|]. split; [done|].
    apply strnicmp_equal in E. by rewrite take_app_length in E.
  - apply bool_decide_eq_false. intros (_ & _ & H1). apply E, strnicmp_equal. by rewrite take_app_length.
Qed.

Lemma scan_cmd_spec table w rest auth : ∀ found fid,
  names_ok table → word w rest →
  let '(found', fid', hit) := scan_cmd table (w ++ rest) (length w) auth found fid in
  hit = snd <$> list_find (λ r, same_name w r = true) (open_rows table auth) ∧
  (hit = None →
   found' = (found + length (filter (λ r, begins_name w r = true) (open_rows table auth)))%nat ∧
   fid' = match last (filter (λ r, begins_name w r = true) (open_rows table auth)) with
          | Some r => Some r | None => fid end).
Proof.
  induction table as [|r table IH]; intros found fid Hn Hw.
  { cbn. split; [done|]. intros _. split; [lia|done]. }
  inversion Hn as [|? ? [Hl Hne] Hn']; subst. cbn [scan_cmd].
  destruct (Nat.eqb_spec (length (cmd_text r)) 0) as [E0|_]; [by apply nil_length_inv in E0|].
  unfold open_rows. rewrite filter_cons. fold (open_rows table auth).
  destruct (Z.ltb_spec auth (cmd_auth r)) as [Hlt|Hle].
  { rewrite decide_False by lia. by apply IH. }
  rewrite decide_True by lia. rewrite prefix_name, (exact_name w rest r Hl Hw).
  cbn [list_find]. rewrite filter_cons.
  destruct (same_name w r) eqn:Es.
  { rewrite (decide_True (P := true = true)) by done. destruct (begins_name w r); cbv zeta; by split. }
  rewrite (decide_False (P := false = true)) by done.
  destruct (begins_name w r) eqn:Eb; cbv zeta beta iota.
  - rewrite (decide_True (P := true = true)) by done. specialize (IH (S found) (Some r) Hn' Hw).
    destruct (scan_cmd table _ _ _ _ _) as [[f' fid'] hit]. destruct IH as [IH1 IH2]. split.
    + rewrite IH1. by destruct (list_find _ (open_rows table auth)) as [[? ?]|].
    + intros H%IH2. destruct H as [-> ->]. cbn [length]. split; [lia|].
      rewrite last_cons. by destruct (last _).
  - rewrite (decide_False (P := false = true)) by done. specialize (IH found fid Hn' Hw).
    destruct (scan_cmd table _ _ _ _ _) as [[f' fid'] hit]. destruct IH as [IH1 IH2]. split; [|done].
    rewrite IH1. by destruct (list_find _ (open_rows table auth)) as [[? ?]|].
Qed.

Lemma cmd_table_names : names_ok _CMD_TABLE.
Proof.
  unfold names_ok. apply Forall_forall. intros r Hr.
  pose proof (row_access (λ r, forallb is_alpha (cmd_text r) && (0 <? length (cmd_text r))%nat) r eq_refl Hr)
    as H. cbv beta in H. apply andb_prop in H as [H1 H2]. split.
  - apply Forall_forall. intros c Hc. rewrite forallb_forall in H1. by apply H1, list_elem_of_In.
  - intros E. by rewrite E in H2.
Qed.

Lemma find_cmd_spec w rest auth :
  word w rest → (length w < CMD_MAX_LEN)%nat →
  let rows := open_rows _CMD_TABLE auth in
  _find_cmd _CMD_TABLE (w ++ rest) auth =
    match list_find (λ r, same_name w r = true) rows with
    | Some (_, r) => Some (r, rest)
    | None => match filter (λ r, begins_name w r = true) rows with
              | [r] => Some (r, rest)
              | _ => None
              end
    end.
Proof.
  intros Hw Hlen rows. unfold _find_cmd. cbv zeta.
  rewrite (word_len_spec CMD_MAX_LEN w rest 0) by (done || lia). cbn [Nat.add].
  pose proof (scan_cmd_spec _CMD_TABLE w rest auth 0 None cmd_table_names Hw) as H. fold rows in H.
  destruct (scan_cmd _ _ _ _ _ _) as [[n fid] hit]. destruct H as [-> H].
  destruct (list_find _ rows) as [[i r]|] eqn:Ef; cbn [fmap option_fmap option_map snd] in *.
  - apply list_find_Some in Ef as (_ & Hs & _). unfold same_name in Hs.
    apply bool_decide_eq_true, (f_equal length) in Hs. rewrite !length_fmap in Hs.
    by rewrite Hs, drop_app_length.
  - destruct (H eq_refl) as [-> ->]. cbn [Nat.add].
    destruct (filter _ rows) as [|r [|r' l]]; cbn; [done|by rewrite drop_app_length|done].
Qed.

(** Finding a command is this rule: among the commands open
    to the channel, the one of that name, letter case aside; failing that, the
    only one whose name begins with the word; and nothing when several begin with
    it. A complete name therefore always wins over longer ones, and a shortcut
    never reaches a command the channel may not use. *)
Theorem find_cmd_rule w rest auth :
  word w rest → (length w < CMD_MAX_LEN)%nat →
  let rows := open_rows _CMD_TABLE auth in
  _find_cmd _CMD_TABLE (w ++ rest) auth =
    match list_find (λ r, same_name w r = true) rows with
    | Some (_, r) => Some (r, rest)
    | None => match filter (λ r, begins_name w r = true) rows with
              | [r] => Some (r, rest)
              | _ => None
              end
    end.
Proof. apply find_cmd_spec. Qed.

Lemma cmd_table_distinct : NoDup ((λ r, to_lower <$> cmd_text r) <$> _CMD_TABLE).
Proof. apply (bool_decide_unpack _). vm_compute. exact I. Qed.

Lemma same_row r r' : r ∈ _CMD_TABLE → r' ∈ _CMD_TABLE → same_name (cmd_text r) r' = true → r' = r.
Proof.
  intros [i Hi]%list_elem_of_lookup_1 [j Hj]%list_elem_of_lookup_1 H%bool_decide_eq_true.
  assert (i = j) as ->; [|congruence].
  eapply (NoDup_lookup _ i j (to_lower <$> cmd_text r)); [apply cmd_table_distinct| |].
  - by rewrite list_lookup_fmap, Hi.
  - rewrite list_lookup_fmap, Hj. cbn. by rewrite H.
Qed.

(** A command open to the channel is found by its name. *)
Lemma find_cmd_named r rest auth :
  r ∈ _CMD_TABLE → cmd_auth r ≤ auth → is_char (char_at rest 0) = false →
  _find_cmd _CMD_TABLE (cmd_text r ++ rest) auth = Some (r, rest).
Proof.
  intros Hr Ha Hrest. pose proof cmd_table_names as Hn. unfold names_ok in Hn.
  rewrite Forall_forall in Hn.
  destruct (Hn r Hr) as [Hl _]. rewrite find_cmd_spec.
  - destruct (list_find _ _) as [[i r']|] eqn:E.
    + apply list_find_Some in E as (Hi & Hs & _). f_equal. f_equal.
      apply same_row; [done| |done]. apply list_elem_of_lookup_2 in Hi.
      by apply list_elem_of_filter in Hi as [_ Hi].
    + exfalso. apply list_find_None in E. rewrite Forall_forall in E. apply (E r).
      * by apply list_elem_of_filter.
      * by apply bool_decide_eq_true.
  - split; [|done]. eapply Forall_impl; [exact Hl|]. intros c. apply is_char_letter.
  - pose proof (row_access (λ r, (length (cmd_text r) <? CMD_MAX_LEN)%nat) r eq_refl Hr) as H.
    by apply Nat.ltb_lt in H.
Qed.

(** ** Chains *)

Lemma skip_name r rest : r ∈ _CMD_TABLE → _skip_spaces (cmd_text r ++ rest) = cmd_text r ++ rest.
Proof.
  intros Hr. pose proof (row_access (λ r, match cmd_text r with c :: _ => negb (c =? 32) | [] => false end)
    r eq_refl Hr) as H. cbv beta in H. destruct (cmd_text r) as [|c l]; [done|].
  cbn [app _skip_spaces]. by destruct (c =? 32).
Qed.

(** Enough fuel is enough: more of it changes nothing. *)
Lemma call_run f (run run' : list Z → cst → outcome (bool * cst)) text p (c : cst (F := F)) :
  (∀ p' c', p' `suffix_of` p → run p' c' = run' p' c') →
  call_pfunc_set e (sms_process e run) f text p c = call_pfunc_set e (sms_process e run') f text p c.
Proof.
  intros H. destruct f; try done. cbn [call_pfunc_set]. unfold _cmd_dbg.
  destruct (_ <? _); [done|]. destruct (cmd_fetch_num p) as [[n p1]|] eqn:E1; [|done].
  apply parse_number_suffix in E1.
  repeat (destruct (n =? _); [try done|]); [|done].
  destruct (cmd_fetch_separator p1) as [p2|] eqn:E2; [|done]. apply parse_separator_suffix in E2.
  unfold sms_process. cbv zeta. destruct (cmd_get_password_access _ _ _) as [[k a]|]; [|done].
  cbn [mbind outcome_bind]. destruct (_ <=? _); [done|]. rewrite H; [done|].
  etransitivity; [apply skip_spaces_suffix|]. etransitivity; [apply drop_suffix|].
  etransitivity; [apply skip_spaces_suffix|]. by etransitivity.
Qed.

Lemma process_cmd_run r p (c : cst (F := F)) (run run' : list Z → cst → outcome (bool * cst)) :
  (∀ p' c', (length p' < length p)%nat → run p' c' = run' p' c') →
  _process_cmd e (sms_process e run) r p c = _process_cmd e (sms_process e run') r p c.
Proof.
  intros H. unfold _process_cmd. cbv zeta. pose proof (skip_spaces_suffix p) as Hs.
  destruct (_ =? 61) eqn:E; [|done]. destruct (pfunc_set r) as [f|]; [|done].
  apply call_run. intros p' c' Hp'. apply H.
  destruct (_skip_spaces p) as [|x q]; [done|]. change (drop 1 (x :: q)) with q in Hp'.
  apply suffix_len in Hp', Hs. pose proof (suffix_len _ _ (skip_spaces_suffix q)). cbn [length] in Hs. lia.
Qed.

Lemma set_left f sms text p c ok p' c' :
  call_pfunc_set e sms f text p c = Ok (ok, p', c') → p' `suffix_of` p.
Proof.
  assert (∀ l ok0 q c0, Ok (ok0, q, c0) = Ok (ok, p', c') → q `suffix_of` l → p' `suffix_of` l) as Hok
    by (intros l ok0 q c0 [= _ <- _]; done).
  assert (∀ p v r, cmd_fetch_num p = Some (v, r) → r `suffix_of` p) as Hnum by apply parse_number_suffix.
  assert (∀ p r, cmd_fetch_separator p = Some r → r `suffix_of` p) as Hsep by apply parse_separator_suffix.
  assert (∀ p n t r, cmd_fetch_string p n = Some (t, r) → r `suffix_of` p) as Hstr by apply parse_string_suffix.
  destruct f; cbn [call_pfunc_set].
  - unfold _cmd_auth_set. destruct (cmd_fetch_string _ _) as [[t q]|] eqn:E; [|intros H; by eapply Hok].
    destruct (cmd_get_password_access _ _ _) as [[n a]|]; [|done]. cbn [mbind outcome_bind].
    intros H. eapply Hok; [exact H|by eapply Hstr].
  - unfold _cmd_cfg_set. destruct (cmd_fetch_num p) as [[n p1]|] eqn:E1; [|intros H; by eapply Hok].
    apply Hnum in E1. destruct (cmd_fetch_separator p1) as [p2|] eqn:E2.
    + apply Hsep in E2. destruct (cmd_fetch_string p2 _) as [[t p3]|] eqn:E3.
      * apply Hstr in E3. destruct (cfg_write _ _ _ _) as [[b s'] q]. intros H. eapply Hok; [exact H|].
        by do 2 (etransitivity; [eassumption|]).
      * intros H. eapply Hok; [exact H|]. by etransitivity.
    + destruct (cfg_read _ _ _) as [[b t]|]; [|done]. intros H. by eapply Hok.
  - unfold _cmd_gps_set. destruct (cmd_fetch_num p) as [[n p1]|] eqn:E1; intros H; eapply Hok; eauto.
  - unfold _cmd_mem_set. cbv zeta.
    assert (∀ i n q, q `suffix_of` p → (if (i <? 0) || (50 <? n) then Ok (false, q, c)
       else c0 ← _append_mem e (Z.to_nat i) true (Z.to_nat n) (append_fmt (str "MEM -%ld: ") [ArgD i] c);
            Ok (true, q, c0)) = Ok (ok, p', c') → p' `suffix_of` p) as Hprint.
    { intros i n q Hq. destruct (_ || _); [intros H; by eapply Hok|].
      destruct (_append_mem e _ true _ _) as [c1|]; [|done]. intros H. by eapply Hok. }
    destruct (cmd_fetch_num p) as [[i p1]|] eqn:E1; [|intros H; by eapply Hok]. apply Hnum in E1.
    destruct (cmd_fetch_separator p1) as [p2|] eqn:E2; [|by apply Hprint]. apply Hsep in E2.
    assert (p2 `suffix_of` p) as Hp2 by (by etransitivity).
    destruct (cmd_fetch_num p2) as [[n p3]|] eqn:E3; [|intros H; by eapply Hok]. apply Hnum in E3.
    assert (p3 `suffix_of` p) as Hp3 by (by etransitivity).
    destruct (n <? 1); [intros H'; by eapply Hok|by apply Hprint].
  - unfold _cmd_reboot_set. destruct (cmd_fetch_num p) as [[n p1]|] eqn:E1; intros H; eapply Hok; eauto.
  - intros H. by eapply Hok.
  - intros H. by eapply Hok.
  - unfold _cmd_dbg. destruct (_ <? _); [intros H; by eapply Hok|].
    destruct (cmd_fetch_num p) as [[n p1]|] eqn:E1; [|intros H; by eapply Hok]. apply Hnum in E1.
    repeat (destruct (n =? _); [try (intros H; by eapply Hok)|]); [|intros H; by eapply Hok].
    destruct (cmd_fetch_separator p1) as [p2|] eqn:E2; [|intros H; by eapply Hok]. apply Hsep in E2.
    destruct (sms p2 c) as [[b c1]|]; [|done]. intros H. eapply Hok; [exact H|]. by etransitivity.
  - unfold _cmd_modem. destruct (_ <? _); [intros H; by eapply Hok|].
    destruct (cmd_fetch_num p) as [[n p1]|] eqn:E1; intros H; eapply Hok; eauto.
  - unfold _cmd_dl_set. cbv zeta. destruct (cmd_fetch_num p) as [[n p1]|] eqn:E1; [|intros H; by eapply Hok].
    apply Hnum in E1. destruct (cmd_fetch_separator p1) as [p2|] eqn:E2; [|intros H; by eapply Hok].
    apply Hsep in E2. assert (p2 `suffix_of` p) as Hp2 by (by etransitivity).
    destruct (cmd_fetch_num p2) as [[m p3]|] eqn:E3; intros H'; eapply Hok; eauto.
    apply Hnum in E3. by etransitivity.
  - unfold _cmd_echo_set. destruct (cmd_fetch_num p) as [[n p1]|] eqn:E1; intros H; eapply Hok; eauto.
Qed.

Lemma process_cmd_left r p c run ok p' c' :
  _process_cmd e (sms_process e run) r p c = Ok (ok, p', c') → p' `suffix_of` p.
Proof.
  unfold _process_cmd. cbv zeta. pose proof (skip_spaces_suffix p) as Hs.
  destruct (_ =? 61).
  - destruct (pfunc_set r) as [f|]; [|by intros [= _ <- _]]. intros H%set_left.
    etransitivity; [exact H|]. etransitivity; [apply skip_spaces_suffix|].
    etransitivity; [apply drop_suffix|done].
  - destruct (_ && _); [by intros [= _ <- _]|]. destruct (pfunc r) as [f|]; [|by intros [= _ <- _]].
    destruct (call_pfunc _ _ _ _) as [[b c1]|]; [|done]. by intros [= _ <- _].
Qed.

Lemma process_text_fuel f1 : ∀ f2 text c,
  (length text < f1)%nat → (length text < f2)%nat → process_text f1 e text c = process_text f2 e text c.
Proof.
  induction f1 as [|f1 IH]; intros [|f2] text c H1 H2; try lia. cbn [process_text]. cbv zeta.
  pose proof (suffix_len _ _ (skip_spaces_suffix text)) as Hs.
  destruct (_skip_spaces text) as [|ch q] eqn:E; [done|]. rewrite <- E in *. clear E.
  destruct (_find_cmd _ _ _) as [[r p]|] eqn:Ef; [|done].
  apply find_cmd_allowed in Ef as (_ & _ & Hp%suffix_len).
  rewrite (process_cmd_run r p c _ (process_text f2 e)) by (intros; apply IH; lia).
  destruct (_process_cmd e _ r p c) as [[[ok p'] c']|] eqn:Ep; [|done]. cbn [mbind outcome_bind].
  apply process_cmd_left, suffix_len in Ep. destruct (negb ok); [done|].
  pose proof (suffix_len _ _ (skip_spaces_suffix p')) as Hs2.
  destruct (_skip_spaces p') as [|x q']; [done|]. cbn [length] in Hs2.
  destruct (x =? 59); [|done]. apply IH; lia.
Qed.

Lemma is_separator c : c = 59 ∨ c = 61 ∨ c = 63 → is_char c = false.
Proof. intros H. apply is_char_other. rewrite !elem_of_cons. tauto. Qed.

(** One round of the interpreter, at a command named in full. *)
Lemma process_text_named r rest (c : cst (F := F)) :
  r ∈ _CMD_TABLE → cmd_auth r ≤ acc_auth (c_acc c) → is_char (char_at rest 0) = false →
  cmd_process_text e (cmd_text r ++ rest) c =
    '(ok, p, c) ← _process_cmd e (cmd_sms_process e) r rest c;
    if negb (ok : bool) then Ok (false, c)
    else match _skip_spaces p with
         | ch :: p => if ch =? 59 then cmd_process_text e p c else Ok (true, c)
         | [] => Ok (true, c)
         end.
Proof.
  intros Hr Ha Hrest. unfold cmd_process_text at 1. cbn [process_text]. rewrite (skip_name r rest Hr).
  pose proof cmd_table_names as Hn. unfold names_ok in Hn. rewrite Forall_forall in Hn.
  destruct (Hn r Hr) as [_ Hne]. cbv zeta.
  destruct (cmd_text r ++ rest) as [|x q] eqn:Eq; [by apply app_eq_nil in Eq as [? _]|].
  rewrite <- Eq. rewrite (find_cmd_named r rest) by done.
  assert (length rest < length (cmd_text r ++ rest))%nat as Hl.
  { rewrite length_app. destruct (cmd_text r); [done|cbn; lia]. }
  unfold cmd_sms_process.
  rewrite (process_cmd_run r rest c _ (cmd_process_text e))
    by (intros; apply process_text_fuel; lia).
  destruct (_process_cmd e _ r rest c) as [[[ok p'] c']|] eqn:Ep; [|done]. cbn [mbind outcome_bind].
  apply process_cmd_left, suffix_len in Ep. destruct (negb ok); [done|].
  pose proof (suffix_len _ _ (skip_spaces_suffix p')) as Hs2.
  destruct (_skip_spaces p') as [|y q']; [done|]. cbn [length] in Hs2.
  destruct (y =? 59); [|done]. apply process_text_fuel; lia.
Qed.

(** A chain [A;B] is [A] and then, when it succeeded, the rest
    with the device, the access and the result text [A] left; a command that
    fails ends the chain with a failure. *)
Theorem cmd_chain r f rest (c : cst (F := F)) :
  r ∈ _CMD_TABLE → pfunc r = Some f → cmd_auth r ≤ acc_auth (c_acc c) →
  cmd_process_text e (cmd_text r ++ 59 :: rest) c =
    '(ok, c) ← call_pfunc e f (cmd_text r) c;
    if (ok : bool) then cmd_process_text e rest c else Ok (false, c).
Proof.
  intros Hr Hf Ha. rewrite process_text_named; [|done|done|apply is_separator; auto].
  unfold _process_cmd. cbn [_skip_spaces Z.eqb char_at default lookup list_lookup].
  change (char_at (59 :: rest) 0) with 59. cbn. rewrite Hf.
  destruct (call_pfunc e f (cmd_text r) c) as [[ok c']|]; [|done]. cbn [mbind outcome_bind].
  by destruct ok.
Qed.

(** A question mark is accepted after a command and then ends the
    chain: whatever follows it is dropped, and the result is that of the first
    command, success included. *)
Theorem cmd_question_mark_drops_rest r f rest (c : cst (F := F)) :
  r ∈ _CMD_TABLE → pfunc r = Some f → cmd_auth r ≤ acc_auth (c_acc c) →
  cmd_process_text e (cmd_text r ++ 63 :: rest) c = call_pfunc e f (cmd_text r) c.
Proof.
  intros Hr Hf Ha. rewrite process_text_named; [|done|done|apply is_separator; auto].
  unfold _process_cmd. cbn [_skip_spaces Z.eqb].
  change (char_at (63 :: rest) 0) with 63. cbn. rewrite Hf.
  destruct (call_pfunc e f (cmd_text r) c) as [[ok c']|]; [|done]. cbn [mbind outcome_bind].
  by destruct ok.
Qed.

(** ** Configuration items *)

Definition cfg_row_cmd : cmd_t :=
  Cmd (str "CFG") (Some F_cfg) (Some S_cfg) ACCESS_USER
     (Some (str "CFG=<n>[," ++ QUOTE ++ str "value" ++ QUOTE ++ str "]")).

Lemma print_dec_head v rest : 0 ≤ v < 100000 → ∃ d l, print_dec v ++ rest = d :: l ∧ is_digit d = true.
Proof.
  intros Hv. unfold print_dec. rewrite (proj2 (Z.ltb_ge v 0)) by lia.
  destruct (digits_fuel_spec 20 v []) as (l & -> & Hf & Hne & _); [lia|lia|].
  destruct l as [|d l]; [done|]. inversion Hf as [|? ? Hd _]; subst.
  rewrite app_nil_r. by exists d, (l ++ rest).
Qed.

Lemma skip_number v rest : 0 ≤ v < 100000 → _skip_spaces (print_dec v ++ rest) = print_dec v ++ rest.
Proof.
  intros Hv. destruct (print_dec_head v rest Hv) as (d & l & -> & Hd). cbn [_skip_spaces].
  apply is_digit_spec in Hd. by rewrite (proj2 (Z.eqb_neq d 32)) by lia.
Qed.

(** The setter of a command named in full. *)
Lemma process_text_set r f rest (c : cst (F := F)) :
  r ∈ _CMD_TABLE → pfunc_set r = Some f → cmd_auth r ≤ acc_auth (c_acc c) →
  cmd_process_text e (cmd_text r ++ 61 :: rest) c =
    '(ok, p, c) ← call_pfunc_set e (cmd_sms_process e) f (cmd_text r) (_skip_spaces rest) c;
    if negb (ok : bool) then Ok (false, c)
    else match _skip_spaces p with
         | ch :: p => if ch =? 59 then cmd_process_text e p c else Ok (true, c)
         | [] => Ok (true, c)
         end.
Proof.
  intros Hr Hf Ha. rewrite process_text_named; [|done|done|apply is_separator; auto].
  unfold _process_cmd. cbn [_skip_spaces Z.eqb].
  change (char_at (61 :: rest) 0) with 61. change (drop 1 (61 :: rest)) with rest. cbn. by rewrite Hf.
Qed.

Section items.
Context `{FS : !FlashSpec F} `{FR : !FlashReliable F}.

Lemma buf_full_item t :
  Z.of_nat (length t) < CFG_ITEM_SIZE → Forall (λ c, c ≠ 0) t → ∃ g, item_data (buf_full t) = t ++ 0 :: g.
Proof.
  intros Hl Hz. destruct (buf_full_text t Hl Hz) as [Hle [->|[g ->]]]; unfold item_data, CFG_ITEM_SIZE in *.
  - replace (62 - length t)%nat with (S (61 - length t)) by lia. by eexists.
  - rewrite <- app_assoc. by eexists.
Qed.

Lemma cfg_write_ready id r src auth s :
  _table_get id = Some r → write_access r ≤ auth → Z.of_nat (length src) ≤ CFG_ITEM_SIZE →
  _storage_ready s = true →
  ∃ s' q, cfg_write id src auth s = (true, s', q) ∧ _storage_ready s' = true.
Proof.
  intros Ht Ha Hl Hr. unfold cfg_write, cfg_table_access_write. rewrite Ht.
  rewrite (proj2 (Z.ltb_ge _ _)) by lia. rewrite (proj2 (Z.leb_le _ _) Ha). cbn [negb]. cbv zeta.
  fold (item_data src). unfold CFG_ITEM_SIZE in Hl. destruct (table_get_ok _ _ Ht) as [Hi _].
  assert (Z.of_nat (length (cfg_bytes (item_data src) (_cfg_chsum (item_data src)))) = sizeof_cfg) as Hlen.
  { unfold cfg_bytes. rewrite length_app, item_data_length by lia. done. }
  unfold storage_write_cfg. rewrite Hr, Hlen. cbn [negb].
  rewrite !u32_small by (unfold sizeof_cfg in *; region; lia).
  rewrite (proj2 (Z.ltb_ge _SIZE_CFG _)) by (unfold sizeof_cfg in *; region; lia).
  match goal with |- context [flash_write_data ?a ?l ?f] =>
    pose proof (flash_write_ok a l f) as Hok; destruct (flash_write_data a l f) as [b f'] end.
  cbn in Hok. rewrite Hok; [by eexists _, _| |rewrite Hlen]; unfold sizeof_cfg in *; region; lia.
Qed.

Lemma storage_read_ready id r s :
  _table_get id = Some r → _storage_ready s = true → is_Some (storage_read_cfg (id * sizeof_cfg) sizeof_cfg s).
Proof.
  intros Ht Hr. destruct (table_get_ok _ _ Ht) as [Hi _]. unfold storage_read_cfg. rewrite Hr. cbn [negb].
  rewrite !u32_small by (unfold sizeof_cfg in *; region; lia).
  rewrite (proj2 (Z.ltb_ge _SIZE_CFG _)) by (unfold sizeof_cfg in *; region; lia).
  apply flash_read_ok; unfold sizeof_cfg in *; region; lia.
Qed.

Lemma cfg_row_in : cfg_row_cmd ∈ _CMD_TABLE.
Proof. unfold _CMD_TABLE. right. left. Qed.

(** [CFG=<n>,"<text>"] at the head of a chain. *)
Lemma cfg_write_cmd id t rest s' q (c : cst (F := F)) :
  0 ≤ id < 2048 → ACCESS_USER ≤ acc_auth (c_acc c) →
  Forall (λ c, c ≠ 34 ∧ c ≠ 0) t → Z.of_nat (length t) < CFG_ITEM_SIZE →
  cfg_write id (buf_full t) (acc_auth (c_acc c)) (d_storage (c_dev c)) = (true, s', q) →
  cmd_process_text e (cmd_text cfg_row_cmd ++ 61 :: print_dec id ++ 44 :: QUOTE ++ t ++ QUOTE ++ 59 :: rest) c
  = cmd_process_text e rest (act [AcReinit q] (upd_dev (set_d_storage s') c)).
Proof.
  intros Hid Hu Ht Hl Ew. rewrite (process_text_set cfg_row_cmd S_cfg); [|apply cfg_row_in|done|done].
  rewrite skip_number by lia. cbn [call_pfunc_set]. unfold _cmd_cfg_set, cmd_fetch_num.
  rewrite parse_number_printed; [|lia|done].
  unfold cmd_fetch_separator. rewrite parse_separator_comma.
  unfold cmd_fetch_string. rewrite parse_string_quoted by done.
  rewrite u16_small by (unfold in_u16; lia). rewrite Ew. done.
Qed.

(** [CFG=<n>] as the last command. *)
Lemma cfg_read_cmd id t (c : cst (F := F)) :
  0 ≤ id < 2048 → ACCESS_USER ≤ acc_auth (c_acc c) →
  cfg_read id (acc_auth (c_acc c)) (d_storage (c_dev c)) = Ok (true, t) →
  cmd_process_text e (cmd_text cfg_row_cmd ++ 61 :: print_dec id) c
  = Ok (true, append [TFmt (str "%s:%d," ++ QUOTE) [ArgS (str "CFG"); ArgD id]; TStr t; TStr QUOTE; TStr NL] c).
Proof.
  intros Hid Hu Er. rewrite (process_text_set cfg_row_cmd S_cfg); [|apply cfg_row_in|done|done].
  rewrite <- (app_nil_r (print_dec id)) at 1. rewrite skip_number by lia.
  cbn [call_pfunc_set]. unfold _cmd_cfg_set, cmd_fetch_num.
  rewrite parse_number_printed; [|lia|done].
  unfold cmd_fetch_separator. rewrite parse_separator_none.
  rewrite u16_small by (unfold in_u16; lia). rewrite Er. cbn [mbind outcome_bind negb _skip_spaces].
  unfold cmd_nl, append_str, append_fmt, append. cbn [c_dev c_acc c_now c_out c_acts].
  by rewrite <- !app_assoc.
Qed.

(** C36 (roundtrip). What [CFG=<n>,"<text>"] writes, [CFG=<n>] reads: for an item
    of the table and a channel with the rights to write and read it, any text of
    at most 61 characters without a quotation mark is stored, and the chained
    query prints exactly it. *)
Theorem cmd_cfg_write_read r t (c : cst (F := F)) :
  let id := cfg_id_code (row_id r) in
  let auth := acc_auth (c_acc c) in
  _table_get id = Some r → ACCESS_USER ≤ auth → write_access r ≤ auth → read_access r ≤ auth →
  Forall (λ c, c ≠ 34 ∧ c ≠ 0) t → Z.of_nat (length t) < CFG_ITEM_SIZE →
  _storage_ready (d_storage (c_dev c)) = true →
  ∃ c', cmd_process_text e
          (str "CFG=" ++ print_dec id ++ str "," ++ QUOTE ++ t ++ QUOTE ++ str ";CFG=" ++ print_dec id) c
        = Ok (true, c') ∧
    c_out c' = c_out c ++ [TFmt (str "%s:%d," ++ QUOTE) [ArgS (str "CFG"); ArgD id]; TStr t; TStr QUOTE; TStr NL] ∧
    cfg_read id auth (d_storage (c_dev c')) = Ok (true, t).
Proof.
  intros id auth Ht Hu Hw Hrd Ht' Hl Hready.
  destruct (table_get_ok _ _ Ht) as [_ Hid].
  assert (Forall (λ c, c ≠ 0) t) as Hz by (eapply Forall_impl; [exact Ht'|]; by intros x [_ ?]).
  destruct (buf_full_text t Hl Hz) as [Hbl _].
  destruct (cfg_write_ready id r (buf_full t) auth _ Ht Hw Hbl Hready) as (s' & q & Ew & Hr').
  destruct (buf_full_item t Hl Hz) as [g Hg].
  assert (cfg_table_access_read id auth = true) as Hacc.
  { unfold cfg_table_access_read. rewrite Ht. by apply Z.leb_le. }
  pose proof (cfg_write_read_text id _ t g auth auth _ _ _ Ew Hg Hz Hacc (storage_read_ready _ _ _ Ht Hr'))
    as Hread.
  pose proof (cfg_write_cmd id t (cmd_text cfg_row_cmd ++ 61 :: print_dec id) s' q c Hid Hu Ht' Hl Ew) as E1.
  set (c1 := act [AcReinit q] (upd_dev (set_d_storage s') c)) in *.
  pose proof (cfg_read_cmd id t c1 Hid Hu Hread) as E2.
  eexists. split; [etransitivity; [exact E1|exact E2]|]. split; [reflexivity|exact Hread].
Qed.

End items.

(** ** Passwords *)

(** The password of an item, when it can be read. *)
Definition password_of (s : storage (F := F)) (id : cfg_id) : list Z :=
  match cfg_read (cfg_id_code id) ACCESS_SYSTEM s with Ok (true, t) => t | _ => [] end.

(** A row of [PASSWD_TABLE] whose password the text begins with. *)
Definition accepted (s : storage (F := F)) (text : list Z) (x : cfg_id * access_level * event_source) : bool :=
  let code := password_of s x.1.1 in
  (4 <=? length code)%nat && bool_decide (to_lower <$> take (length code) text = to_lower <$> code).

Definition passwords_readable (s : storage (F := F)) : Prop :=
  Forall (λ x, ∃ t, cfg_read (cfg_id_code x.1.1) ACCESS_SYSTEM s = Ok (true, t)) PASSWD_TABLE.

Lemma find_password_spec t s text a :
  Forall (λ x : cfg_id * access_level * event_source,
    ∃ t, cfg_read (cfg_id_code x.1.1) ACCESS_SYSTEM s = Ok (true, t)) t →
  find_password t s text a =
    Ok (match list_find (λ x, accepted s text x = true) t with
        | Some (_, (id, lv, src)) => (length (password_of s id), Access (access_level_code lv) (acc_time a) src (acc_channel a))
        | None => (0%nat, a)
        end).
Proof.
  induction 1 as [|[[id lv] src] t [code Hc] Ht IH]; [done|]. cbn [find_password list_find].
  cbn [fst] in Hc. rewrite Hc. cbn [mbind outcome_bind negb].
  assert (_pass_valid code && (strnicmp text code (length code) =? 0) = accepted s text (id, lv, src)) as ->.
  { unfold accepted, password_of. cbn [fst]. rewrite Hc. unfold _pass_valid, CMD_MIN_PASSWD_LENGTH.
    f_equal.
    - destruct (Z.ltb_spec (Z.of_nat (length code)) 4), (Nat.leb_spec 4 (length code)); cbn; (done || lia).
    - destruct (Z.eqb_spec (strnicmp text code (length code)) 0) as [E|E].
      + symmetry. apply bool_decide_eq_true. apply strnicmp_equal in E. by rewrite (take_ge code) in E by lia.
      + symmetry. apply bool_decide_eq_false. intros H. apply E, strnicmp_equal. by rewrite (take_ge code) by lia. }
  destruct (accepted s text (id, lv, src)) eqn:Ea.
  - rewrite (decide_True (P := true = true)) by done. unfold password_of. by rewrite Hc.
  - rewrite (decide_False (P := false = true)), IH by done. by destruct (list_find _ t) as [[i [[? ?] ?]]|].
Qed.

Lemma sms_password_rule text (c : cst (F := F)) :
  let p := _skip_spaces text in
  let s := d_storage (c_dev c) in
  passwords_readable s →
  cmd_sms_process e text c =
    match list_find (λ x, accepted s p x = true) PASSWD_TABLE with
    | None => Ok (false, c)
    | Some (_, (id, level, source)) =>
        '(_, c') ← cmd_process_text e (_skip_spaces (drop (length (password_of s id)) p))
                     (put_acc (Access (access_level_code level) 0 source EVENT_SOURCE_UNKNOWN) c);
        Ok (true, _add_rtc e (put_acc (c_acc c) c'))
    end.
Proof.
  intros p s Hs. unfold cmd_sms_process, sms_process. cbv zeta. fold p s.
  unfold cmd_get_password_access. rewrite find_password_spec by exact Hs.
  destruct (list_find _ PASSWD_TABLE) as [[i [[id lv] src]]|] eqn:E; cbn [mbind outcome_bind acc_auth acc_time acc_channel].
  - apply list_find_Some in E as (Hi & _ & _). apply list_elem_of_lookup_2 in Hi.
    assert (access_level_code lv <=? ACCESS_NONE = false) as ->.
    { assert (forallb (λ x, negb (access_level_code x.1.2 <=? ACCESS_NONE)) PASSWD_TABLE = true) as H by reflexivity.
      rewrite forallb_forall in H. specialize (H _ (proj1 (list_elem_of_In _ _) Hi)). by apply negb_true_iff in H. }
    done.
  - done.
Qed.

(** A text message runs commands only behind a password: the
    first row of the password table, in its order, of which the message begins
    with the password (letter case aside, at least four characters) gives the
    access and the event source for the commands that follow it; without one the
    message is ignored and nothing is answered. *)
Theorem cmd_sms_needs_password text (c : cst (F := F)) :
  let p := _skip_spaces text in
  let s := d_storage (c_dev c) in
  passwords_readable s →
  cmd_sms_process e text c =
    match list_find (λ x, accepted s p x = true) PASSWD_TABLE with
    | None => Ok (false, c)
    | Some (_, (id, level, source)) =>
        '(_, c') ← cmd_process_text e (_skip_spaces (drop (length (password_of s id)) p))
                     (put_acc (Access (access_level_code level) 0 source EVENT_SOURCE_UNKNOWN) c);
        Ok (true, _add_rtc e (put_acc (c_acc c) c'))
    end.
Proof. apply sms_password_rule. Qed.

Definition auth_row : cmd_t :=
  Cmd (str "AUTH") (Some F_auth) (Some S_auth) ACCESS_NONE
    (Some (str "authorize channel AUTH=" ++ QUOTE ++ str "pass" ++ QUOTE)).

Lemma auth_row_in : auth_row ∈ _CMD_TABLE.
Proof. unfold _CMD_TABLE. left. Qed.

(** [AUTH] compares only as many characters as the stored password
    has: any text that begins with the administrator's password gets the
    administrator's access, however it goes on. *)
Theorem cmd_auth_accepts_longer_text x rest (c : cst (F := F)) :
  let s := d_storage (c_dev c) in
  let t := password_of s CFG_ID_PASSWD_ADMIN ++ x in
  passwords_readable s → (4 <= length (password_of s CFG_ID_PASSWD_ADMIN))%nat →
  ACCESS_NONE ≤ acc_auth (c_acc c) →
  Forall (λ c, c ≠ 34 ∧ c ≠ 0) t → Z.of_nat (length t) < CFG_ITEM_SIZE →
  cmd_process_text e (str "AUTH=" ++ QUOTE ++ t ++ QUOTE ++ 59 :: rest) c =
    cmd_process_text e rest
      (put_acc (Access ACCESS_ADMIN (acc_time (c_acc c)) EVENT_SOURCE_ADMIN (acc_channel (c_acc c))) c).
Proof.
  intros s t Hs H4 Ha Ht Hl.
  assert (cmd_get_password_access s (c_acc c) t
    = Ok (length (password_of s CFG_ID_PASSWD_ADMIN),
          Access ACCESS_ADMIN (acc_time (c_acc c)) EVENT_SOURCE_ADMIN (acc_channel (c_acc c)))) as Ep.
  { unfold cmd_get_password_access. rewrite find_password_spec by exact Hs.
    unfold PASSWD_TABLE. cbn [list_find].
    rewrite decide_True; [done|]. unfold accepted. cbn [fst]. unfold t. rewrite take_app_length.
    rewrite bool_decide_eq_true_2, andb_true_r by done. by apply Nat.leb_le. }
  etransitivity; [exact (process_text_set auth_row S_auth (QUOTE ++ t ++ QUOTE ++ 59 :: rest) c auth_row_in eq_refl Ha)|].
  change (_skip_spaces (QUOTE ++ t ++ QUOTE ++ 59 :: rest)) with (QUOTE ++ t ++ QUOTE ++ 59 :: rest).
  cbn [call_pfunc_set]. unfold _cmd_auth_set, cmd_fetch_string.
  rewrite parse_string_quoted by done. fold s. rewrite Ep. cbn [mbind outcome_bind].
  destruct (length (password_of s CFG_ID_PASSWD_ADMIN)); [lia|]. done.
Qed.

End parse.
