(* ===== verification/CmdDemo.v ===== *)
(** * A concrete command interpreter: the hypotheses of Cmd, CmdThm and CmdParse hold *)

From S2P Require Import Prelude CText EventTypes EventBuf Storage EventMemory EventQueue.
From S2P Require Import Out Alarm ArmSection System Cfg SiaIp NetTarget Cms EventTask Inp.
From S2P Require Import Update Nmea Gps Report Cmd CmdThm CmdParse.

(** ** The parsers

    One way the SDK's parsers can be, and a device fresh from the factory. *)

Fixpoint quoted (p : list Z) : option (list Z * list Z) :=
  match p with
  | [] => None
  | c :: p =>
      if c =? 34 then Some ([], p) else if c =? 0 then None
      else match quoted p with Some (t, r) => Some (c :: t, r) | None => None end
  end.

Lemma quoted_suffix p : ∀ t r, quoted p = Some (t, r) → r `suffix_of` p ∧ Forall (λ c, c ≠ 0) t.
Proof.
  induction p as [|c p IH]; intros t r; [done|]. cbn [quoted].
  destruct (c =? 34); [intros [= <- <-]; split; [by apply suffix_cons_r|done]|].
  destruct (Z.eqb_spec c 0); [done|]. destruct (quoted p) as [[t' r']|]; [|done].
  intros [= <- <-]. destruct (IH t' r' eq_refl) as [H1 H2]. split; [by apply suffix_cons_r|by constructor].
Qed.

Lemma quoted_text t r : Forall (λ c, c ≠ 34 ∧ c ≠ 0) t → quoted (t ++ QUOTE ++ r) = Some (t, r).
Proof.
  induction 1 as [|c t [H1 H2] Ht IH]; [done|]. cbn [app quoted].
  rewrite (proj2 (Z.eqb_neq c 34)), (proj2 (Z.eqb_neq c 0)) by done.
  by rewrite IH.
Qed.

#[export] Instance demo_cmd : CmdLib := {|
  cl_numbers := scanf_parse;
  parse_string p n :=
    match p with
    | c :: p => if c =? 34 then match quoted p with
                                | Some (t, r) => if Z.of_nat (length t) <? n then Some (t, r) else None
                                | None => None
                                end else None
    | [] => None
    end;
  parse_separator p := match p with c :: p => if c =? 44 then Some p else None | [] => None end;
  is_char := is_alpha;
  strnicmp s p n := if bool_decide (to_lower <$> take n s = to_lower <$> take n p) then 0 else 1;
  buf_full t := t
|}.

Lemma take_digits_suffix s : ∀ acc, (take_digits s acc).2 `suffix_of` s.
Proof.
  induction s as [|c s IH]; intros acc; [done|]. cbn [take_digits].
  destruct (is_digit c); [apply suffix_cons_r, IH|done].
Qed.

Lemma skip_spaces_left s : skip_spaces s `suffix_of` s.
Proof. induction s as [|c s IH]; [done|]. cbn. destruct (is_space c); [by apply suffix_cons_r|done]. Qed.

Lemma scan_s32_suffix p v r : scan_s32 p = Some (v, r) → r `suffix_of` p.
Proof.
  unfold scan_s32. destruct (scan_number (skip_spaces p)) as [[v' r']|] eqn:E; [|done].
  intros [= _ <-]. etransitivity; [|apply (skip_spaces_left p)]. revert E.
  generalize (skip_spaces p). intros s. unfold scan_number.
  set (ns := match s with [] => (false, []) | c :: s' => _ end).
  assert (ns.2 `suffix_of` s) as Hns.
  { unfold ns. destruct s as [|c s']; [done|].
    destruct (c =? 45); [by apply suffix_cons_r|]. destruct (c =? 43); [by apply suffix_cons_r|done]. }
  destruct ns as [neg q]. cbn [snd] in Hns. destruct q as [|c q]; [done|].
  destruct (is_digit c); [|done]. pose proof (take_digits_suffix (c :: q) 0) as Hd.
  destruct (take_digits (c :: q) 0) as [v1 r1]. intros [= _ <-]. by etransitivity.
Qed.

#[export] Instance demo_cmd_spec : CmdSpec demo_cmd.
Proof.
  split; cbn [cl_numbers parse_number parse_string parse_separator is_char strnicmp buf_full demo_cmd scanf_parse].
  - apply scan_s32_suffix.
  - intros [|c p] n t r; [done|]. destruct (c =? 34); [|done].
    destruct (quoted p) as [[t' r']|] eqn:E; [|done]. destruct (_ <? n); [|done]. intros [= <- <-].
    apply suffix_cons_r. by apply (quoted_suffix _ _ _ E).
  - intros [|c p] r; [done|]. destruct (c =? 44); [|done]. intros [= <-]. by apply suffix_cons_r.
  - intros t r n Ht Hn. pose proof (quoted_text t r Ht) as E. unfold QUOTE in *.
    cbn [app] in *. change (34 =? 34) with true. cbv iota. rewrite E. by rewrite (proj2 (Z.ltb_lt _ _) Hn).
  - intros [|c p] n t r; [done|]. destruct (c =? 34); [|done].
    destruct (quoted p) as [[t' r']|] eqn:E; [|done]. destruct (Z.ltb_spec (Z.of_nat (length t')) n); [|done].
    intros [= <- <-]. split; [done|]. by apply (quoted_suffix _ _ _ E).
  - done.
  - done.
  - done.
  - intros c Hc. repeat (apply elem_of_cons in Hc as [->|Hc]; [done|]). by apply elem_of_nil in Hc.
  - intros s p n. case_bool_decide; [done|]. by split.
  - intros t Hl _. split; [lia|by left].
Qed.

(** ** A device fresh from the factory *)

Definition demo_env : cmd_env :=
  CmdEnv ww rtc_zero (str "JCA") (str "1.0") [] false (0, 0) true true true [] 12000 4000 true (20, 1)
    (λ _, []) (λ _, true) true true true.

Definition factory : dev :=
  Dev started_system boot_inputs (EventMemory 0 0 erased_storage) boot_gps 0
    (set_up_storage erased_storage demo_update).

Definition channel (auth : access_level) : access_t := Access auth 0 EVENT_SOURCE_UNKNOWN EVENT_SOURCE_UNKNOWN.
Definition session (auth : access_level) : cst := Cst factory (channel auth) 1000 [] [].

Lemma cmd_process_text_returns_witness :
  ∃ ok c', cmd_process_text demo_env (str "status; cfg=0; dbg=20,none; reboot=1") (session ACCESS_SYSTEM) = Ok (ok, c') ∧
    cfg_clean (d_storage (c_dev c')).
Proof. exact (cmd_process_text_returns demo_env _ (session ACCESS_SYSTEM) erased_clean). Defined.

(** Looking for a password at every position of a text. *)
Definition no_password (s : storage) (lvl : Z) (text : list Z) : bool :=
  forallb (λ k, match parse_string (drop k text) CFG_ITEM_SIZE with
                | None => true
                | Some (t, _) =>
                    match cmd_get_password_access s (channel ACCESS_NONE) t with
                    | Ok (_, a) => acc_auth a <=? lvl
                    | Err _ => true
                    end
                end) (seq 0 (S (length text))).

Lemma password_channel t s text : ∀ a b n x,
  acc_auth a = acc_auth b → find_password t s text a = Ok (n, x) →
  ∃ m y, find_password t s text b = Ok (m, y) ∧ acc_auth x = acc_auth y.
Proof.
  induction t as [|[[id lv] src] t IH]; intros a b n x Hab; cbn [find_password];
    [intros [= <- <-]; by eexists _, _|].
  destruct (cfg_read id ACCESS_SYSTEM s) as [[ok code]|]; [|done]. cbn [mbind outcome_bind].
  destruct (negb ok); [intros [= <- <-]; by eexists _, _|].
  destruct (_ && _); [intros [= <- <-]; by eexists _, _|]. by apply IH.
Qed.

Lemma no_password_sound s lvl text : no_password s lvl text = true → ¬ carries_password s lvl text.
Proof.
  unfold no_password. rewrite forallb_forall. intros H (p & t & r & [k Hk] & Hp & a & n & a' & Ha & Hl).
  assert (In (length k) (seq 0 (S (length text)))) as Hin.
  { apply in_seq. rewrite Hk, length_app. lia. }
  specialize (H _ Hin). rewrite Hk, drop_app_length, Hp in H.
  unfold cmd_get_password_access in Ha.
  edestruct password_channel as (m & y & E & Hy);
    [|exact Ha|]; [instantiate (1 := Access ACCESS_NONE 0 EVENT_SOURCE_UNKNOWN EVENT_SOURCE_UNKNOWN); reflexivity|].
  unfold cmd_get_password_access in H. cbn [acc_time acc_channel channel] in H. rewrite E in H.
  apply Z.leb_le in H. lia.
Qed.

Lemma cmd_unauthorised_changes_nothing_witness :
  ∃ ok c', cmd_process_text demo_env (str "auth=" ++ QUOTE ++ str "letmein" ++ QUOTE ++ str ";unset;update") (session ACCESS_NONE)
           = Ok (ok, c') ∧ c_dev c' = factory.
Proof.
  destruct (cmd_unauthorised_changes_nothing demo_env
    (str "auth=" ++ QUOTE ++ str "letmein" ++ QUOTE ++ str ";unset;update") (session ACCESS_NONE) erased_clean)
    as (ok & c' & H1 & H2 & _).
  - vm_compute. discriminate.
  - apply no_password_sound. vm_compute. reflexivity.
  - exists ok, c'. exact (conj H1 H2).
Defined.

Lemma cmd_user_cannot_escalate_witness :
  ∃ ok c', cmd_process_text demo_env (str "cfg=2," ++ QUOTE ++ str "mine" ++ QUOTE) (session ACCESS_USER) = Ok (ok, c') ∧
    cfg_read CFG_ID_PASSWD_ADMIN ACCESS_SYSTEM (d_storage (c_dev c')) = Ok (true, str "admin").
Proof.
  destruct (cmd_user_cannot_escalate demo_env (str "cfg=2," ++ QUOTE ++ str "mine" ++ QUOTE)
    (session ACCESS_USER) erased_clean) as (ok & c' & H1 & _ & H3 & _).
  - vm_compute. discriminate.
  - apply no_password_sound. vm_compute. reflexivity.
  - exists ok, c'. split; [exact H1|].
    rewrite (H3 CFG_ID_PASSWD_ADMIN (CfgRow CFG_ID_PASSWD_ADMIN ACCESS_SYSTEM ACCESS_ADMIN (str "admin")) ACCESS_SYSTEM);
      [vm_compute; reflexivity|reflexivity|vm_compute; reflexivity].
Defined.

Lemma find_cmd_rule_witness :
  match _find_cmd _CMD_TABLE (str "st" ++ str ";x") ACCESS_USER with
  | Some (r, rest) => cmd_text r = str "STATUS" ∧ rest = str ";x" | None => False end ∧
  _find_cmd _CMD_TABLE (str "un" ++ []) ACCESS_USER = None.
Proof.
  split.
  - rewrite (find_cmd_rule (str "st") (str ";x") ACCESS_USER).
    + vm_compute. done.
    + split; [repeat (apply Forall_cons_2; [reflexivity|]); apply Forall_nil_2|reflexivity].
    + apply Nat.ltb_lt. reflexivity.
  - rewrite (find_cmd_rule (str "un") [] ACCESS_USER).
    + vm_compute. reflexivity.
    + split; [repeat (apply Forall_cons_2; [reflexivity|]); apply Forall_nil_2|reflexivity].
    + apply Nat.ltb_lt. reflexivity.
Defined.

Definition row_of (n : nat) : cmd_t := default (Cmd [] None None ACCESS_NONE None) (_CMD_TABLE !! n).

Lemma row_of_in n : (n < 22)%nat → row_of n ∈ _CMD_TABLE.
Proof.
  intros Hn. unfold row_of. destruct (lookup_lt_is_Some_2 _CMD_TABLE n Hn) as [r Hr]. rewrite Hr.
  by apply list_elem_of_lookup_2 in Hr.
Qed.

Lemma cmd_chain_witness :
  cmd_process_text demo_env (str "SET" ++ 59 :: str "UNSET") (session ACCESS_USER) =
    '(ok, c) ← call_pfunc demo_env F_set (str "SET") (session ACCESS_USER);
    if (ok : bool) then cmd_process_text demo_env (str "UNSET") c else Ok (false, c).
Proof.
  refine (cmd_chain demo_env (row_of 10) F_set (str "UNSET") (session ACCESS_USER) _ eq_refl _).
  - apply row_of_in. lia.
  - vm_compute. discriminate.
Defined.

Lemma cmd_question_mark_drops_rest_witness :
  cmd_process_text demo_env (str "SET" ++ 63 :: str ";UNSET") (session ACCESS_USER)
  = call_pfunc demo_env F_set (str "SET") (session ACCESS_USER).
Proof.
  refine (cmd_question_mark_drops_rest demo_env (row_of 10) F_set (str ";UNSET") (session ACCESS_USER) _ eq_refl _).
  - apply row_of_in. lia.
  - vm_compute. discriminate.
Defined.

Lemma cmd_cfg_write_read_witness :
  ∃ c', cmd_process_text demo_env (str "CFG=" ++ print_dec 11 ++ str "," ++ QUOTE ++ str "sensor.net" ++ QUOTE
      ++ str ";CFG=" ++ print_dec 11) (session ACCESS_ADMIN) = Ok (true, c') ∧
    cfg_read CFG_ID_APN ACCESS_ADMIN (d_storage (c_dev c')) = Ok (true, str "sensor.net").
Proof.
  destruct (cmd_cfg_write_read demo_env (CfgRow CFG_ID_APN ACCESS_USER ACCESS_ADMIN (str "internet"))
    (str "sensor.net") (session ACCESS_ADMIN)) as (c' & H1 & _ & H3).
  - reflexivity.
  - vm_compute. discriminate.
  - vm_compute. discriminate.
  - vm_compute. discriminate.
  - repeat (apply Forall_cons_2; [split; discriminate|]). apply Forall_nil_2.
  - vm_compute. reflexivity.
  - reflexivity.
  - exists c'. exact (conj H1 H3).
Defined.

Lemma factory_passwords : passwords_readable erased_storage.
Proof. repeat (apply Forall_cons_2; [eexists; vm_compute; reflexivity|]). apply Forall_nil_2. Qed.

Lemma cmd_sms_needs_password_witness :
  cmd_sms_process demo_env (str "1234 UNSET") (session ACCESS_NONE) = Ok (false, session ACCESS_NONE).
Proof.
  pose proof (cmd_sms_needs_password demo_env (str "1234 UNSET") (session ACCESS_NONE) factory_passwords) as H.
  cbv zeta in H. rewrite H.
  assert (list_find (λ x, accepted (d_storage (c_dev (session ACCESS_NONE))) (_skip_spaces (str "1234 UNSET")) x = true)
    PASSWD_TABLE = None) as -> by (vm_compute; reflexivity).
  reflexivity.
Defined.

Lemma cmd_auth_accepts_longer_text_witness :
  cmd_process_text demo_env (str "AUTH=" ++ QUOTE ++ (str "admin" ++ str "istrator") ++ QUOTE ++ 59 :: str "SET")
    (session ACCESS_NONE)
  = cmd_process_text demo_env (str "SET")
      (put_acc (Access ACCESS_ADMIN 0 EVENT_SOURCE_ADMIN EVENT_SOURCE_UNKNOWN) (session ACCESS_NONE)).
Proof.
  assert (password_of erased_storage CFG_ID_PASSWD_ADMIN = str "admin") as E by (vm_compute; reflexivity).
  pose proof (cmd_auth_accepts_longer_text demo_env (str "istrator") (str "SET") (session ACCESS_NONE)) as H.
  cbv zeta in H. change (d_storage (c_dev (session ACCESS_NONE))) with erased_storage in H. rewrite E in H.
  refine (H factory_passwords _ _ _ _).
  - cbn. lia.
  - vm_compute. discriminate.
  - repeat (apply Forall_cons_2; [split; discriminate|]). apply Forall_nil_2.
  - vm_compute. reflexivity.
Defined.
