(* ===== verification/TracerCfg.v ===== *)
(** * The tracker: its parameters, reconfiguration, examples

    The parameters survive a restart, what a new configuration does to a message
    on its way, where the period of a track goes wrong; a concrete tracker at
    which the theorems of TracerThm apply. *)

From S2P Require Import Prelude CText EventTypes EventBuf Storage EventMemory EventQueue Out.
From S2P Require Import Alarm ArmSection System Cfg SiaIp NetTarget Cms EventTask TracerBuf.
From S2P Require Import Inp Update Nmea Gps Report Cmd TracerProto Tracer TracerThm CmdThm CmdParse CmdDemo.

Section tracer_cfg.
Context `{F : FlashLib} `{FS : !FlashSpec F} `{FR : !FlashReliable F}.
Context `{L : CmdLib} `{LS : !CmdSpec L} `{P : PatternLib} `{SR : StampRepr}.
Context (TRACER_SIA : bool) (dns : list Z → option Z).

(** ** Parameters *)

(** The limits [_param_load] accepts. *)
Definition param_ok (p : tracer_param) : Prop :=
  0 ≤ unit_id p ≤ TRACER_UNIT_ID_MAX ∧ 0 ≤ period p ≤ LIMIT_TRACE_INTERVAL ∧
  1 ≤ period_roaming p ≤ LIMIT_TRACE_INTERVAL ∧ 1 ≤ wait_time p ≤ LIMIT_TRACE_END ∧
  0 ≤ protocol p ≤ TRACER_PROTO_LAST ∧ 1 ≤ start_speed p ≤ 99 ∧
  0 ≤ send_mode p ≤ TRACER_SEND_MODE_OFF ∧ 0 ≤ start_mode p ≤ TRACER_START_MODE_ALL.

Lemma num_get_printed v r min max def :
  0 ≤ v ≤ 2147483647 → min ≤ v ≤ max →
  _num_get (print_dec v ++ 44 :: r) min max def = (v, r).
Proof.
  intros Hv Hm. unfold _num_get, _num_next. rewrite parse_number_printed by (lia || done).
  rewrite parse_separator_comma.
  destruct (Z.ltb_spec v min); [lia|]. by destruct (Z.ltb_spec max v); [lia|].
Qed.

Lemma num_get_last v min max def :
  0 ≤ v ≤ 2147483647 → min ≤ v ≤ max → (_num_get (print_dec v) min max def).1 = v.
Proof.
  intros Hv Hm. unfold _num_get, _num_next. pose proof (parse_number_printed v [] ltac:(lia) eq_refl) as E.
  rewrite app_nil_r in E. rewrite E, parse_separator_none.
  destruct (Z.ltb_spec v min); [lia|]. by destruct (Z.ltb_spec max v); [lia|].
Qed.

Lemma param_load_text p : param_ok p → _param_load (param_text p) = p.
Proof.
  destruct p as [u per roam wait proto speed send start]. unfold param_ok, param_text, _param_load.
  cbn [unit_id period period_roaming wait_time protocol start_speed send_mode start_mode].
  change TRACER_UNIT_ID_MAX with 2147483646. change LIMIT_TRACE_INTERVAL with 3600.
  change LIMIT_TRACE_END with 3600. change TRACER_PROTO_LAST with 1. change TRACER_SEND_MODE_OFF with 2.
  change TRACER_START_MODE_ALL with 3. intros (H1 & H2 & H3 & H4 & H5 & H6 & H7 & H8).
  cbn [app]. do 7 (rewrite num_get_printed by lia; cbv beta iota).
  pose proof (num_get_last start 0 3 3 ltac:(lia) ltac:(lia)) as E.
  destruct (_num_get (print_dec start) 0 3 3) as [n s]. cbn in E. by subst n.
Qed.

Lemma print_dec_nonzero v : 0 ≤ v → v < 10 ^ 20 → Forall (λ c, c ≠ 0) (print_dec v).
Proof.
  intros H0 H1. unfold print_dec. destruct (Z.ltb_spec v 0); [lia|].
  destruct (digits_fuel_spec 20 v []) as (l & -> & Hl & _); [lia|lia|]. rewrite app_nil_r.
  eapply Forall_impl; [exact Hl|]. cbv beta. unfold is_digit. intros c Hc ->. discriminate Hc.
Qed.

Lemma param_text_fits p : param_ok p → (length (param_text p) <= 61)%nat ∧ Forall (λ c, c ≠ 0) (param_text p).
Proof.
  destruct p as [u per roam wait proto speed send start]. unfold param_ok, param_text.
  cbn [unit_id period period_roaming wait_time protocol start_speed send_mode start_mode].
  change TRACER_UNIT_ID_MAX with 2147483646. change LIMIT_TRACE_INTERVAL with 3600.
  change LIMIT_TRACE_END with 3600. change TRACER_PROTO_LAST with 1. change TRACER_SEND_MODE_OFF with 2.
  change TRACER_START_MODE_ALL with 3. intros (H1 & H2 & H3 & H4 & H5 & H6 & H7 & H8). split.
  - pose proof (print_dec_length 10 u ltac:(cbn; lia) ltac:(lia)).
    pose proof (print_dec_length 4 per ltac:(cbn; lia) ltac:(lia)).
    pose proof (print_dec_length 4 roam ltac:(cbn; lia) ltac:(lia)).
    pose proof (print_dec_length 4 wait ltac:(cbn; lia) ltac:(lia)).
    pose proof (print_dec_length 1 proto ltac:(cbn; lia) ltac:(lia)).
    pose proof (print_dec_length 2 speed ltac:(cbn; lia) ltac:(lia)).
    pose proof (print_dec_length 1 send ltac:(cbn; lia) ltac:(lia)).
    pose proof (print_dec_length 1 start ltac:(cbn; lia) ltac:(lia)).
    rewrite !length_app. cbn [length]. lia.
  - repeat (apply Forall_app_2; [first [apply print_dec_nonzero; lia | constructor; [lia|constructor]]|]).
    apply print_dec_nonzero; lia.
Qed.

Lemma resolve_flash w w' : _tracer_resolve_server dns w = Ok w' →
  w_flash w' = w_flash w ∧ w_ring w' = w_ring w ∧ w_log w' = w_log w ∧ w_sys w' = w_sys w ∧
  tr_trk (w_t w') = tr_trk (w_t w) ∧ w_com w' = w_com w.
Proof.
  unfold _tracer_resolve_server. destruct (cfg_read _ _ _) as [[[] cfg]|]; cbn [mbind outcome_bind]; [| |done].
  - destruct (net_get_target_ip dns cfg) as [[ok ip] port]. by intros [= <-].
  - by intros [= <-].
Qed.

(** Parameters within their limits that [tracer_save_config] stored
    are the parameters after the next start, whatever they were before. *)
Theorem tracer_params_survive p w w1 w2 :
  param_ok p → tracer_save_config p w = (true, w1) →
  is_Some (storage_read_cfg (CFG_ID_TRACER_PARAM * sizeof_cfg) sizeof_cfg (w_flash w1)) →
  tracer_reinit TRACER_SIA dns w1 = Ok w2 → w_param w2 = p.
Proof.
  intros Hp. unfold tracer_save_config. destruct (_ <? _); [done|].
  destruct (cfg_write _ _ _ _) as [[ok s] r] eqn:Ew. destruct ok; cbn [negb]; [|done]. intros [= <-] Hr.
  destruct (param_text_fits p Hp) as [Hlen Hz].
  assert (cfg_read CFG_ID_TRACER_PARAM ACCESS_SYSTEM s = Ok (true, param_text p)) as Eread.
  { eapply (cfg_write_read_text _ _ (param_text p)); [exact Ew| |done|reflexivity|exact Hr].
    unfold item_data. by replace (62 - length (param_text p))%nat with (S (61 - length (param_text p))) by lia. }
  unfold tracer_reinit. match goal with |- context [_tracer_resolve_server dns ?x] => set (wf := x) end.
  destruct (_tracer_resolve_server dns wf) as [w3|] eqn:E3; cbn [mbind outcome_bind]; [|done].
  destruct (resolve_flash _ _ E3) as (Ef & _).
  change (w_flash (upd_trk _ _)) with (w_flash w3). rewrite Ef. change (w_flash wf) with s.
  rewrite Eread. cbn [mbind outcome_bind]. intros [= <-]. rewrite param_load_text by done. by destruct p.
Qed.

(** ** The period *)

(** The period of a track is kept in 16 bits of milliseconds: while
    the network is the home one, a configured period is the distance of the
    points only up to 65 seconds, although up to an hour is accepted; a longer
    one is cut to its low 16 bits, with one second at the least. *)
Theorem store_period_exact e w :
  te_roaming e = false → 1 ≤ period (w_param w) ≤ LIMIT_TRACE_INTERVAL →
  store_period (w_trk (task_period e w)) = Z.max 1000 ((1000 * period (w_param w)) mod 65536) ∧
  (store_period (w_trk (task_period e w)) = _sec (period (w_param w)) ↔ period (w_param w) ≤ 65).
Proof.
  intros Hroam Hper. change LIMIT_TRACE_INTERVAL with 3600 in Hper. set (n := period (w_param w)) in *.
  assert (store_period (w_trk (task_period e w)) = Z.max 1000 ((1000 * n) mod 65536)) as E.
  { unfold task_period. rewrite Hroam. cbv zeta. fold n.
    destruct (Z.eqb_spec n TRACER_PERIOD_DYNAMIC) as [E|_]; [change TRACER_PERIOD_DYNAMIC with 0 in E; lia|].
    assert (u16 (_sec n) = (1000 * n) mod 65536) as <-.
    { unfold _sec, u16. rewrite u32_small; [|unfold in_u32]; change OS_TIMER_SECOND with 1000; [|lia].
      by rewrite Z.mul_comm. }
    set (v := u16 (_sec n)).
    change (store_period (w_trk (upd_trk (set_store_period v) w))) with v. change (1 * OS_TIMER_SECOND) with 1000.
    destruct (Z.ltb_spec v 1000); [change (1000 = Z.max 1000 v); lia|].
    change (v = Z.max 1000 v). lia. }
  split; [exact E|]. rewrite E. unfold _sec. rewrite u32_small by (unfold in_u32; change OS_TIMER_SECOND with 1000; lia).
  change OS_TIMER_SECOND with 1000. pose proof (Z.mod_pos_bound (1000 * n) 65536 ltac:(lia)).
  split; [intros H1; lia|]. intros H1. rewrite Z.mod_small by lia. lia.
Qed.

(** ** A new configuration while a message is on its way *)

#[local] Instance proto_laws w : ProtoLaws (w_proto w).
Proof. unfold w_proto. destruct (tr_sia _); typeclasses eauto. Qed.

Lemma server_reinit_idle id w :
  p_packet_ready (w_proto (tracer_server_reinit id w)) (w_ps (tracer_server_reinit id w)) = false.
Proof. apply reinit_idle. Qed.

(** Configuring the tracker while a record is on its way drops the
    message but not the mark that the record was read: the tracker is then in
    the state in which the record has been confirmed.  Nothing more is sent for
    it, and the next acknowledgement, of whatever record, marks it delivered. *)
Theorem tracer_reinit_drops_message p u w w' um r sent pend track open :
  implements p u w (Delivery um (Some r) sent pend track open) →
  tracer_reinit TRACER_SIA dns w = Ok w' →
  implements (w_proto w') (proto_unit (w_ps w')) w' (Delivery (um ++ [r]) None false pend track open) ∧
  sends (w_log w') = sends (w_log w) ∧
  ∃ t i, tracer_buf_delivered_all true (w_ring w') = Ok (true, t) ∧ tracks t [] pend ∧
    tracer_buf_load i (w_flash w') = Some r ∧ tracer_buf_load i (tr_storage t) = Some (confirmed r).
Proof.
  intros Hi. unfold tracer_reinit.
  destruct (_tracer_resolve_server dns w) as [w1|] eqn:E1; cbn [mbind outcome_bind]; [|done].
  destruct (resolve_flash _ _ E1) as (_ & Ering & Elog & Esys & Etrk & Ecom).
  destruct (cfg_read _ _ _) as [[ok cfg]|]; cbn [mbind outcome_bind]; [|done]. intros [= <-].
  match goal with |- context [tracer_server_reinit ?id ?x] => set (nid := id); set (w2 := x) end.
  assert (w_ring w2 = w_ring w ∧ w_log w2 = w_log w ∧ w_sys w2 = w_sys w ∧ w_com w2 = w_com w ∧
    t_track (w_trk w2) = t_track (w_trk w) ∧ t_point (w_trk w2) = t_point (w_trk w) ∧
    tracing_active (w_trk w2) = tracing_active (w_trk w)) as (G1 & G2 & G3 & G4 & G5 & G6 & G7).
  { unfold w2, pfunc_reinit, w_trk, w_com in *. rewrite <-Ering, <-Elog, <-Esys, <-Ecom, <-Etrk. by destruct ok. }
  clearbody nid w2. set (w3 := tracer_server_reinit nid w2). destruct Hi as [Hr _ _ _ _ Hk He [Ht Hn] Htr Hio Hop].
  cbn [q_um q_fl q_pend q_track q_open option_list option_rect] in *.
  assert (w_ring (upd_com (set_packet_ack false) w3) = w_ring w) as Er by exact G1.
  split; [|split; [exact (f_equal sends G2)|]].
  - constructor; cbn [q_um q_fl q_pend q_track q_open option_list option_rect]; rewrite ?Er, ?app_nil_r; try done.
    + change (p_packet_ready (w_proto w3) (w_ps w3) = false). unfold w3. apply server_reinit_idle.
    + change (TMOUT_MIN ≤ ack_tmout (w_com w2) ≤ TMOUT_MAX). by rewrite G4.
    + change (new_track_id (w_com w2) = 0). by rewrite G4.
    + split; [done|]. change (in_u16 (t_point (w_trk w2))). by rewrite G6.
    + change (t_track (w_trk w2) = track). by rewrite G5.
    + unfold io_sound in *. change (has (w_io w2) SYSTEM_IO_TRACING = true → tracing_active (w_trk w2) = true).
      unfold w_io in *. by rewrite G3, G7.
    + change (open_track w2 = open). unfold open_track in *. by rewrite G6, G7.
  - rewrite Er. destruct (tracer_buf_delivered_all_tracks _ _ _ Hr) as (t & E & Htr' & Hmark).
    exists t, (after (buf_last_undelivered (w_ring w)) (length um)). split; [done|]. split; [done|].
    assert ((um ++ [r]) !! length um = Some r) as El by (by rewrite lookup_app_r, Nat.sub_diag).
    split; [|by apply Hmark]. unfold w_flash. rewrite Er.
    destruct Hr as (_ & _ & _ & _ & Hh). apply (Hh (length um) r). by rewrite lookup_app_l by (rewrite length_app; cbn; lia).
Qed.

(** ** A working receiver is reset *)

(** What decides that a track goes on, and when its last fix was. *)
Definition course (w : tracer_world) :=
  (external_start (w_trk w), start_pending (w_trk w), tracing_active (w_trk w), stop_tmr (w_trk w),
   stop_rq (w_trk w), last_fix_tmr (w_trk w)).
(** The reset is still due, or was done. *)
Definition reset_due (w : tracer_world) : Prop := fix_reset_enable (w_trk w) = true ∨ TGpsReset ∈ w_log w.

Definition same_course (w w' : tracer_world) : Prop :=
  course w' = course w ∧ (reset_due w → reset_due w') ∧ (TGpsReset ∈ w_log w → TGpsReset ∈ w_log w').

#[local] Instance same_course_preorder : PreOrder same_course.
Proof.
  split; [by intros w|]. intros w1 w2 w3 (E1 & D1 & R1) (E2 & D2 & R2).
  split; [congruence|]. split; auto.
Qed.

Lemma course_same w w' : course w' = course w → w_log w' = w_log w →
  fix_reset_enable (w_trk w') = fix_reset_enable (w_trk w) → same_course w w'.
Proof. intros E1 E2 E3. unfold same_course, reset_due. by rewrite E1, E2, E3. Qed.

Lemma course_stop_rq w w' : same_course w w' → stop_rq (w_trk w') = stop_rq (w_trk w).
Proof. intros (E & _). unfold course in E. by injection E. Qed.

Lemma act_logged a w : a ∈ w_log (act a w).
Proof. change (a ∈ w_log w ++ [a]). apply elem_of_app. right. by left. Qed.

Lemma course_reset f w : same_course w (act TGpsReset (upd_gps f (upd_trk (set_fix_reset_enable false) w))).
Proof.
  split; [done|]. unfold reset_due. split; intros; [right|]; apply act_logged.
Qed.

Lemma course_fix now w : same_course w (task_fix now w).
Proof.
  unfold task_fix. cbv zeta. destruct (_ <? u32 _); [|done]. destruct (fix_reset_enable _); [|done].
  destruct (_ && _), (_ <? u32 _); try done; try apply course_reset.
  etrans; apply course_reset.
Qed.

Lemma course_period e w : same_course w (task_period e w).
Proof. apply course_same; unfold task_period; cbv zeta; by repeat case_match. Qed.

Lemma course_new_point mem w : same_course w (tracer_new_point mem w).
Proof. rewrite new_point_eq. apply course_same; unfold numbered; cbv zeta; by destruct (_ =? 0). Qed.

Lemma course_point e w : stop_rq (w_trk w) = false → same_course w (task_point e w).
Proof.
  intros Hrq. unfold task_point. cbv zeta. destruct (_ <? _); [done|].
  match goal with |- context [tracer_new_point _ ?x] => set (w1 := x) end.
  assert (same_course w w1) as H1.
  { unfold w1. etrans; [apply (course_period e)|]. apply course_same; by case_match. }
  assert (same_course w (tracer_new_point (te_mem e) w1)) as H2 by (etrans; [exact H1|apply course_new_point]).
  unfold point_done. cbv zeta. set (w2 := tracer_new_point _ _) in *.
  change (stop_rq (w_trk (upd_trk (set_point_last (te_now e)) w2))) with (stop_rq (w_trk w2)).
  assert (stop_rq (w_trk w2) = false) as ->
    by (by rewrite (course_stop_rq _ _ H2)).
  etrans; [exact H2|]. by apply course_same.
Qed.

(** A run of the task within a track that nobody ends. *)
Lemma course_task e w t0 :
  course w = (true, false, true, 0, false, t0) →
  same_course w (tracer_task e w) ∧
  (reset_due w → NO_FIX_RESET_LIMIT < u32 (te_now e - t0) → TGpsReset ∈ w_log (tracer_task e w)).
Proof.
  intros Hw. assert (external_start (w_trk w) = true ∧ start_pending (w_trk w) = false ∧
    tracing_active (w_trk w) = true) as (He & Hp & Ha) by (by injection Hw).
  unfold tracer_task, tracer_shock_task. rewrite He. unfold task_pending. rewrite Hp.
  unfold tracer_is_active. rewrite Ha. cbn [orb negb]. cbv zeta.
  match goal with |- context [task_stop _ ?x] => set (w1 := x) end.
  assert (same_course w w1) as H1 by (apply course_same; unfold w1; by repeat case_match).
  pose proof H1 as (E1 & D1 & _). rewrite Hw in E1.
  assert (task_stop (te_now e) w1 = w1) as ->.
  { unfold task_stop. assert (stop_tmr (w_trk w1) = 0) as -> by (by injection E1). done. }
  pose proof (course_fix (te_now e) w1) as H2. set (w2 := task_fix (te_now e) w1) in *.
  assert (same_course w2 (task_point e w2)) as H3.
  { apply course_point. destruct H2 as (E2 & _). rewrite E1 in E2. by injection E2. }
  split; [by etrans; [exact H1|]; etrans|]. intros Hdue Hage. apply H3.
  assert (last_fix_tmr (w_trk w1) = t0) as Et by (by injection E1).
  destruct (D1 Hdue) as [Hen|Hin]; [|by apply H2]. unfold w2, task_fix. cbv zeta. rewrite Et, Hen.
  assert (NO_FIX_PROBLEM_LIMIT <? u32 (te_now e - t0) = true) as ->.
  { apply Z.ltb_lt. change NO_FIX_PROBLEM_LIMIT with 30000. change NO_FIX_RESET_LIMIT with 100000 in Hage. lia. }
  rewrite (proj2 (Z.ltb_lt _ _) Hage). apply act_logged.
Qed.

(** The recording task, and whatever the receiver does in between. *)
Inductive track_event := RunTask (e : task_env) | GpsEvent (f : gps → gps).
Definition track_event_step (w : tracer_world) (x : track_event) : tracer_world :=
  match x with RunTask e => tracer_task e w | GpsEvent f => upd_gps f w end.

Lemma course_events xs w t0 :
  course w = (true, false, true, 0, false, t0) → same_course w (foldl track_event_step w xs).
Proof.
  revert w. induction xs as [|x xs IH]; intros w Hw; [done|]. cbn [foldl].
  assert (same_course w (track_event_step w x)) as H1.
  { destruct x as [e|f]; [by eapply course_task|by apply course_same]. }
  etrans; [exact H1|]. apply IH. destruct H1 as [-> _]. exact Hw.
Qed.

(** Nothing tells the tracker of a valid position, so that 100 seconds
    after the start of a track on command the receiver has been reset, also when
    it received all the time. *)
Theorem long_track_resets_gps t0 w xs e :
  tracer_is_active w = false → tracer_server_setup_ok w = true → stop_tmr (w_trk w) = 0 →
  NO_FIX_RESET_LIMIT < u32 (te_now e - t0) →
  TGpsReset ∈ w_log (tracer_task e (foldl track_event_step (tracer_start t0 w) xs)).
Proof.
  intros Ha Hset Hst Hage.
  assert (course (tracer_start t0 w) = (true, false, true, 0, false, t0) ∧ reset_due (tracer_start t0 w)) as [Hc Hd].
  { unfold tracer_start, _tracer_start_now. rewrite Hst. cbn [Z.eqb negb]. cbv zeta.
    set (w1 := if stop_rq (w_trk w) then _ else _).
    assert (tracer_is_active w1 = false ∧ tracer_server_setup_ok w1 = true ∧ stop_rq (w_trk w1) = false ∧
      stop_tmr (w_trk w1) = 0) as (H1 & H2 & H3 & H4) by (unfold w1; by case_match).
    rewrite H1, H2. cbn [negb]. unfold course, reset_due, tracer_activate. clearbody w1.
    destruct w1 as [[ip port sia par trk shk com us dr ea en] ps rg sy g lg]. destruct trk.
    cbn in *. subst. by split; [|left]. }
  set (w0 := tracer_start t0 w) in *. pose proof (course_events xs w0 t0 Hc) as (E & D & _).
  rewrite Hc in E. apply (course_task e _ t0 E); [by apply D|done].
Qed.

End tracer_cfg.

(** ** A concrete tracker *)

(** One layout of a position: the fields of the structure in order. *)
#[export] Instance packed_stamp : StampRepr.
Proof.
  refine {|
    stamp_bytes d :=
      le32 (u32 (lon_sec d)) ++ le32 (u32 (lat_sec d))
      ++ le32 (speed d mod 32768 + 32768 * (angle d mod 512) + 16777216 * (accuracy d mod 256))
      ++ le16 (u16 (alt d))
      ++ [fix_ d; nbsat d; year (n_time d); month (n_time d); day (n_time d); hour (n_time d);
          minute (n_time d); second (n_time d)];
    bytes_stamp l :=
      let w := of_le (take 4 (drop 8 l)) in
      let b k := nth k l 0 in
      NmeaData (s32 (of_le (take 4 l))) (s32 (of_le (take 4 (drop 4 l)))) (w mod 32768) (w / 32768 mod 512)
        (w / 16777216) (s16 (of_le (take 2 (drop 12 l)))) (b 14%nat) (b 15%nat)
        (Rtc (b 16%nat) (b 17%nat) (b 18%nat) (b 19%nat) (b 20%nat) (b 21%nat));
    stamp_ok d := -2147483648 ≤ lon_sec d < 2147483648 ∧ -2147483648 ≤ lat_sec d < 2147483648 ∧
      0 ≤ speed d < 32768 ∧ 0 ≤ angle d < 512 ∧ 0 ≤ accuracy d < 256 ∧ -32768 ≤ alt d < 32768
  |}; [done|].
  intros [lon lat sp an ac al fx nb [y mo d h mi se]]. cbn [lon_sec lat_sec speed angle accuracy alt].
  intros (H1 & H2 & H3 & H4 & H5 & H6). cbv zeta.
  assert (∀ z l, in_u32 z → of_le (take 4 (le32 z ++ l)) = z) as E32.
  { intros z l Hz. change (take 4 (le32 z ++ l)) with (le32 z). by apply of_le32. }
  assert (∀ z l, in_u16 z → of_le (take 2 (le16 z ++ l)) = z) as E16.
  { intros z l Hz. change (take 2 (le16 z ++ l)) with (le16 z). by apply of_le16. }
  rewrite (Z.mod_small sp), (Z.mod_small an), (Z.mod_small ac) by lia.
  set (w := sp + 32768 * an + 16777216 * ac). assert (in_u32 w) as Hw by (unfold in_u32, w; lia).
  rewrite (E32 (u32 lon)) by apply u32_range.
  match goal with |- context [take 4 (drop 4 (le32 ?a ++ ?l))] => change (drop 4 (le32 a ++ l)) with l end.
  rewrite (E32 (u32 lat)) by apply u32_range.
  match goal with |- context [take 4 (drop 8 (le32 ?a ++ le32 ?b ++ ?l))] =>
    change (drop 8 (le32 a ++ le32 b ++ l)) with l end.
  rewrite (E32 w) by done.
  match goal with |- context [take 2 (drop 12 (le32 ?a ++ le32 ?b ++ le32 ?c ++ ?l))] =>
    change (drop 12 (le32 a ++ le32 b ++ le32 c ++ l)) with l end.
  rewrite (E16 (u16 al)) by apply u16_range.
  f_equal; try reflexivity; unfold s32, s16, u32, u16, w; Z.div_mod_to_equations; lia.
Defined.

Definition demo_unit : Z := 1000000001.
Definition demo_proto : proto_state := tracer_h02_reinit demo_unit idle_proto.
Definition demo_param : tracer_param := TracerParam demo_unit 10 30 300 0 3 0 3.

(** Idle after track 1, two of its records in the ring. *)
Definition demo_tracker : tracer :=
  Tracer 167772161 5013 false demo_param
    (Tracking false false 0 false false 0 0 0 None 0 false 0 1) (ShockTrace false false 0)
    (TracerComm 0 false 0 0 2500) 0 0 false 0.
Definition demo_world : tracer_world :=
  TW demo_tracker demo_proto (TracerRing 7 9 7 same_gps) started_system boot_gps [].
Definition demo_delivery : delivery := Delivery [] None false [same_rec; same_rec] 1 None.

Lemma demo_implements : implements tracer_proto_h02 (proto_unit demo_proto) demo_world demo_delivery.
Proof.
  constructor; try done.
  exact (same_gps_tracks 7 0 2 ltac:(done) ltac:(done)).
Qed.

(** What the server answers, and that the tracker accepts it. *)
Definition demo_reply : list Z := str "*HQ,1000000001,V4,V1,20240930174037#".
Lemma demo_reply_ok ps :
  proto_unit ps = proto_unit demo_proto → p_packet_reply_ok tracer_proto_h02 demo_reply ps = Ok true.
Proof.
  intros [= E _]. destruct ps as [un len sia ok n b]. cbn in E. subst un. reflexivity.
Qed.

Definition answered (now : Z) : comm_env :=
  TracerEnv now rtc_zero true true [([MRx demo_reply 5013], now + 300); ([], now + 6000)].
Definition recording (now : Z) : task_env := TaskEnv now false None None true.

Lemma answered_ok now : 0 ≤ now → call_ok (CallComm (answered now)).
Proof. intros H. split; [exact H|]. exists (now + 6000). split; [right; by left|]. change TMOUT_MAX with 5000. cbn. lia. Qed.




(** A period of 66 seconds: a point every second. *)
Lemma store_period_exact_witness :
  store_period (w_trk (task_period (recording 6000)
    (upd_t (set_tr_param (TracerParam demo_unit 66 30 300 0 3 0 3)) demo_world))) = 1000.
Proof.
  apply (store_period_exact (recording 6000)
    (upd_t (set_tr_param (TracerParam demo_unit 66 30 300 0 3 0 3)) demo_world) eq_refl).
  split; discriminate.
Defined.

Lemma long_track_resets_gps_witness :
  TGpsReset ∈ w_log (tracer_task (recording 102000)
    (foldl track_event_step (tracer_start 1000 demo_world)
       [RunTask (recording 6000); GpsEvent (set_pos (g_pos boot_gps))])).
Proof. apply (long_track_resets_gps 1000 demo_world); reflexivity. Defined.

(** The parameters of a fleet's configuration. *)
Definition fleet_param : tracer_param := TracerParam demo_unit 30 60 120 0 5 1 1.
Definition fresh_world : tracer_world :=
  TW demo_tracker demo_proto (TracerRing 0 0 0 erased_gps) started_system boot_gps [].

Lemma fleet_saved : (tracer_save_config fleet_param fresh_world).1 = true.
Proof. vm_compute. reflexivity. Qed.
Lemma fleet_readable :
  match storage_read_cfg (CFG_ID_TRACER_PARAM * sizeof_cfg) sizeof_cfg
          (w_flash (tracer_save_config fleet_param fresh_world).2) with Some _ => true | None => false end = true.
Proof. vm_compute. reflexivity. Qed.
Lemma fleet_starts :
  match tracer_reinit false (λ _, None) (tracer_save_config fleet_param fresh_world).2 with
  | Ok _ => true | Err _ => false end = true.
Proof. vm_compute. reflexivity. Qed.

Lemma tracer_params_survive_witness :
  ∃ w2, tracer_reinit false (λ _, None) (tracer_save_config fleet_param fresh_world).2 = Ok w2 ∧
    w_param w2 = fleet_param.
Proof.
  pose proof fleet_saved as H1. pose proof fleet_readable as H2. pose proof fleet_starts as H3.
  destruct (tracer_save_config fleet_param fresh_world) as [b w1] eqn:E. cbn [fst snd] in *. subst b.
  destruct (tracer_reinit false (λ _, None) w1) as [w2|] eqn:E2; [|discriminate H3].
  exists w2. split; [reflexivity|].
  refine (tracer_params_survive false (λ _, None) fleet_param fresh_world w1 w2 _ E _ E2).
  - repeat split; discriminate.
  - destruct (storage_read_cfg _ _ _); [by eexists|discriminate H2].
Defined.

(** The first of the two records is on its way when the configuration changes. *)
Definition sending_world : tracer_world :=
  TW demo_tracker
    (match tracer_h02_new_point same_gps rtc_zero (bytes_stamp (tb_position same_rec)) (tb_info same_rec) demo_proto with
     | Ok ps => ps | Err _ => demo_proto end)
    (TracerRing 8 9 7 same_gps) started_system boot_gps [].

Lemma sending_implements :
  implements tracer_proto_h02 (proto_unit demo_proto) sending_world (Delivery [] (Some same_rec) true [same_rec] 1 None).
Proof.
  constructor; try done.
  - exact (same_gps_tracks 7 1 1 ltac:(done) ltac:(done)).
  - intros r [= <-]. split; [reflexivity|]. exists same_gps, rtc_zero, demo_proto. split; reflexivity.
Qed.

Lemma sending_starts :
  match tracer_reinit false (λ _, None) sending_world with Ok _ => true | Err _ => false end = true.
Proof. vm_compute. reflexivity. Qed.

Lemma tracer_reinit_drops_message_witness :
  ∃ w' t i, tracer_reinit false (λ _, None) sending_world = Ok w' ∧ sends (w_log w') = [] ∧
    tracer_buf_delivered_all true (w_ring w') = Ok (true, t) ∧
    tracer_buf_load i (tr_storage t) = Some (confirmed same_rec).
Proof.
  pose proof sending_starts as H.
  destruct (tracer_reinit false (λ _, None) sending_world) as [w'|] eqn:E; [|discriminate H].
  destruct (tracer_reinit_drops_message false (λ _, None) tracer_proto_h02 (proto_unit demo_proto) sending_world w'
    [] same_rec true [same_rec] 1 None sending_implements E) as (_ & Hs & t & i & Hm & _ & _ & Hl).
  exists w', t, i. exact (conj eq_refl (conj Hs (conj Hm Hl))).
Defined.
