(* ===== verification/ModemAt.v ===== *)
(** * What the modem says (modem/modem_at.c, modem/modem.c, modem/modem_bg95.c)

    The characters of the module's serial line, assembled into lines, and what
    each line does to the state of the driver: answers of commands, and the
    messages the module sends on its own account.  The receiver runs in a task
    of its own, which the waits of the driver let run (ModemCmd). *)

From S2P Require Import Prelude CText EventTypes EventBuf Storage EventMemory EventQueue Out.
From S2P Require Import Alarm ArmSection System Cfg SiaIp NetTarget Cms EventTask TracerBuf.
From S2P Require Import Inp Update Nmea Gps Report Cmd TracerProto.

(** ** The SDK's text functions *)

(** [stricmp] compares without letter case; [parse_modem_separator] skips a
    comma. *)
Class ModemLib := {
  ml_cmd :: CmdLib;
  ml_pattern :: PatternLib;
  stricmp : list Z → list Z → Z;
  parse_modem_separator : list Z → option (list Z)
}.

Class ModemSpec (M : ModemLib) := {
  parse_pattern_only : ∀ s pat r, parse_pattern s pat = Some r → s = pat ++ r;
  stricmp_equal : ∀ s t, stricmp s t = 0 ↔ to_lower <$> s = to_lower <$> t;
  parse_modem_separator_comma : ∀ r, parse_modem_separator (44 :: r) = Some r
}.

(** ** State *)

(** src/modem/modem_at.h:7-13 (AT_ST_OK .. AT_ST_LINE) *)
Definition AT_ST_OK : Z := bit 0.
Definition AT_ST_ERROR : Z := bit 1.
Definition AT_ST_USER_STR : Z := bit 2.
Definition AT_ST_RAB : Z := bit 3.
Definition AT_ST_RESET : Z := bit 4.
Definition AT_ST_READY : Z := bit 5.
Definition AT_ST_LINE : Z := bit 6.

(** src/modem/modem.h:17-30 (MODEM_FLAG_ECHO .. MODEM_FLAG_DATA_UP) *)
Definition MODEM_FLAG_ECHO : Z := bit 0.
Definition MODEM_FLAG_PIN_READY : Z := bit 1.
Definition MODEM_FLAG_NET_READY : Z := bit 2.
Definition MODEM_FLAG_DATA_READY : Z := bit 3.
Definition MODEM_FLAG_ROAMING : Z := bit 4.
Definition MODEM_FLAG_CALL_STOP : Z := bit 5.
Definition MODEM_FLAG_CLCC_RQ : Z := bit 6.
Definition MODEM_FLAG_LTE : Z := bit 8.
Definition MODEM_FLAG_DATA_UP : Z := bit 10.

(** src/modem/modem.h:49-49 (MODEM_AT_RX_BUF_SIZE) *)
Definition MODEM_AT_RX_BUF_SIZE : Z := 2048.
Definition rx_room : nat := Z.to_nat (MODEM_AT_RX_BUF_SIZE - 1).

(** [rx_buf]: the characters of the line so far, as many as [buf_len] counts;
    [response] is the text of the line kept, [None] for no expected text. *)
(** src/modem/modem.h:51-63 (modem_at_t) *)
Record modem_at := ModemAt {
  at_flags : Z;                    (* u32 *)
  rx_buf : list Z;
  response : list Z;
  response_len : Z;                (* u16 *)
  last_error_result : Z;           (* u16 *)
  at_busy : bool;
  user_str : option (list Z)
}.

(** src/modem/modem.h:65-71 (modme_sim_state_e) *)
Inductive sim_state :=
  | MODEM_SIM_ST_PIN_INIT_RQ | MODEM_SIM_ST_ERROR | MODEM_SIM_ST_PIN_CNT
  | MODEM_SIM_ST_PIN_OFF_READY | MODEM_SIM_ST_PIN_READY.

(** src/modem/modem.h:76-83 (modem_event_e) *)
Inductive modem_event :=
  | MODEM_EVENT_SMS_INCOMMING | MODEM_EVENT_SMS_SENDING | MODEM_EVENT_SMS_ERROR
  | MODEM_EVENT_CALL_INCOMMING.

(** The operations the C structure points to are those of the BG95 and of
    modem_main.c. *)
(** src/modem/modem.h:87-119 (modem_t) *)
Record modem := Modem {
  m_at : modem_at;
  m_sim : sim_state;
  m_flags : Z;
  error_counter : Z;
  signal_level : Z;
  sms_counter : Z;
  sms_error_counter : Z;
  sms_storage_me : bool;
  m_sleep : bool
}.

(** src/modem/modem_bg95.c:22-31 (udp_socket_t) *)
Record udp_socket_t := UdpSocket {
  us_timer : Z;
  us_tmout : Z;
  us_rx_time : Z;
  us_no_rx_cnt : Z;       (* u16 *)
  us_ip : Z;
  us_port : Z;            (* u16 *)
  us_rx : bool;
  us_ready : bool
}.

Definition no_socket : udp_socket_t := UdpSocket 0 0 0 0 0 0 false false.

(** src/modem/modem_bg95.c:33-33 (_SOCKETS) *)
Definition _SOCKETS : Z := 5.

(** src/modem/modem_bg95.c:255-260 (dns_state_t) *)
Record dns_state := DnsState { dns_active : bool; dns_done : bool; dns_ok : bool; dns_ip : Z }.

(** [next_socket] is the static of [_socket_id], [rx_udp_len] of [modem_bg95_urc]. *)
(** src/modem/modem_bg95.c:19-35 (timer_rx_timeout .. rx_udp_socket) *)
Record bg95 := Bg95 {
  timer_rx_timeout : Z;
  tx_cnt : Z;             (* u16 *)
  udp_socket : list udp_socket_t;
  rx_udp_socket : Z;
  rx_udp_len : Z;
  next_socket : Z;
  bg_dns : dns_state
}.

(** What goes out: characters to the module, its control lines, messages to the
    application, received datagrams. *)
Inductive pin_action := UART_ON | UART_OFF | OE (b : bool) | DTR_LOW (b : bool) | PWRKEY_LOW (b : bool).
Inductive maction :=
  | MTx (data : list Z)
  | MPin (p : pin_action)
  | MEvent (e : modem_event)
  | MUdp (data : list Z) (ip port : Z)
  | MRx (data : list Z).

Record mworld := MW {
  mw_m : modem;
  mw_bg : bg95;
  mw_now : Z;
  mw_log : list maction
}.

Definition upd_m (f : modem → modem) (w : mworld) : mworld := MW (f (mw_m w)) (mw_bg w) (mw_now w) (mw_log w).
Definition upd_bg (f : bg95 → bg95) (w : mworld) : mworld := MW (mw_m w) (f (mw_bg w)) (mw_now w) (mw_log w).
Definition mlog (a : maction) (w : mworld) : mworld := MW (mw_m w) (mw_bg w) (mw_now w) (mw_log w ++ [a]).
Definition set_now (t : Z) (w : mworld) : mworld := MW (mw_m w) (mw_bg w) t (mw_log w).

Definition set_at_flags (v : Z) (r : modem_at) : modem_at :=
  ModemAt v (rx_buf r) (response r) (response_len r) (last_error_result r) (at_busy r) (user_str r).
Definition set_rx_buf (v : list Z) (r : modem_at) : modem_at :=
  ModemAt (at_flags r) v (response r) (response_len r) (last_error_result r) (at_busy r) (user_str r).
Definition set_response (v : list Z) (r : modem_at) : modem_at :=
  ModemAt (at_flags r) (rx_buf r) v (response_len r) (last_error_result r) (at_busy r) (user_str r).
Definition set_response_len (v : Z) (r : modem_at) : modem_at :=
  ModemAt (at_flags r) (rx_buf r) (response r) v (last_error_result r) (at_busy r) (user_str r).
Definition set_last_error_result (v : Z) (r : modem_at) : modem_at :=
  ModemAt (at_flags r) (rx_buf r) (response r) (response_len r) v (at_busy r) (user_str r).
Definition set_at_busy (v : bool) (r : modem_at) : modem_at :=
  ModemAt (at_flags r) (rx_buf r) (response r) (response_len r) (last_error_result r) v (user_str r).
Definition set_user_str (v : option (list Z)) (r : modem_at) : modem_at :=
  ModemAt (at_flags r) (rx_buf r) (response r) (response_len r) (last_error_result r) (at_busy r) v.
Definition set_m_at (v : modem_at) (r : modem) : modem :=
  Modem v (m_sim r) (m_flags r) (error_counter r) (signal_level r) (sms_counter r) (sms_error_counter r)
    (sms_storage_me r) (m_sleep r).
Definition set_m_sim (v : sim_state) (r : modem) : modem :=
  Modem (m_at r) v (m_flags r) (error_counter r) (signal_level r) (sms_counter r) (sms_error_counter r)
    (sms_storage_me r) (m_sleep r).
Definition set_m_flags (v : Z) (r : modem) : modem :=
  Modem (m_at r) (m_sim r) v (error_counter r) (signal_level r) (sms_counter r) (sms_error_counter r)
    (sms_storage_me r) (m_sleep r).
Definition set_error_counter (v : Z) (r : modem) : modem :=
  Modem (m_at r) (m_sim r) (m_flags r) v (signal_level r) (sms_counter r) (sms_error_counter r)
    (sms_storage_me r) (m_sleep r).
Definition set_signal_level (v : Z) (r : modem) : modem :=
  Modem (m_at r) (m_sim r) (m_flags r) (error_counter r) v (sms_counter r) (sms_error_counter r)
    (sms_storage_me r) (m_sleep r).
Definition set_sms_counter (v : Z) (r : modem) : modem :=
  Modem (m_at r) (m_sim r) (m_flags r) (error_counter r) (signal_level r) v (sms_error_counter r)
    (sms_storage_me r) (m_sleep r).
Definition set_sms_error_counter (v : Z) (r : modem) : modem :=
  Modem (m_at r) (m_sim r) (m_flags r) (error_counter r) (signal_level r) (sms_counter r) v
    (sms_storage_me r) (m_sleep r).
Definition set_sms_storage_me (v : bool) (r : modem) : modem :=
  Modem (m_at r) (m_sim r) (m_flags r) (error_counter r) (signal_level r) (sms_counter r)
    (sms_error_counter r) v (m_sleep r).
Definition set_m_sleep (v : bool) (r : modem) : modem :=
  Modem (m_at r) (m_sim r) (m_flags r) (error_counter r) (signal_level r) (sms_counter r)
    (sms_error_counter r) (sms_storage_me r) v.
Definition set_us_timer (v : Z) (r : udp_socket_t) : udp_socket_t :=
  UdpSocket v (us_tmout r) (us_rx_time r) (us_no_rx_cnt r) (us_ip r) (us_port r) (us_rx r) (us_ready r).
Definition set_us_tmout (v : Z) (r : udp_socket_t) : udp_socket_t :=
  UdpSocket (us_timer r) v (us_rx_time r) (us_no_rx_cnt r) (us_ip r) (us_port r) (us_rx r) (us_ready r).
Definition set_us_rx_time (v : Z) (r : udp_socket_t) : udp_socket_t :=
  UdpSocket (us_timer r) (us_tmout r) v (us_no_rx_cnt r) (us_ip r) (us_port r) (us_rx r) (us_ready r).
Definition set_us_no_rx_cnt (v : Z) (r : udp_socket_t) : udp_socket_t :=
  UdpSocket (us_timer r) (us_tmout r) (us_rx_time r) v (us_ip r) (us_port r) (us_rx r) (us_ready r).
Definition set_us_ip (v : Z) (r : udp_socket_t) : udp_socket_t :=
  UdpSocket (us_timer r) (us_tmout r) (us_rx_time r) (us_no_rx_cnt r) v (us_port r) (us_rx r) (us_ready r).
Definition set_us_port (v : Z) (r : udp_socket_t) : udp_socket_t :=
  UdpSocket (us_timer r) (us_tmout r) (us_rx_time r) (us_no_rx_cnt r) (us_ip r) v (us_rx r) (us_ready r).
Definition set_us_rx (v : bool) (r : udp_socket_t) : udp_socket_t :=
  UdpSocket (us_timer r) (us_tmout r) (us_rx_time r) (us_no_rx_cnt r) (us_ip r) (us_port r) v (us_ready r).
Definition set_us_ready (v : bool) (r : udp_socket_t) : udp_socket_t :=
  UdpSocket (us_timer r) (us_tmout r) (us_rx_time r) (us_no_rx_cnt r) (us_ip r) (us_port r) (us_rx r) v.
Definition set_timer_rx_timeout (v : Z) (r : bg95) : bg95 :=
  Bg95 v (tx_cnt r) (udp_socket r) (rx_udp_socket r) (rx_udp_len r) (next_socket r) (bg_dns r).
Definition set_tx_cnt (v : Z) (r : bg95) : bg95 :=
  Bg95 (timer_rx_timeout r) v (udp_socket r) (rx_udp_socket r) (rx_udp_len r) (next_socket r) (bg_dns r).
Definition set_udp_socket (v : list udp_socket_t) (r : bg95) : bg95 :=
  Bg95 (timer_rx_timeout r) (tx_cnt r) v (rx_udp_socket r) (rx_udp_len r) (next_socket r) (bg_dns r).
Definition set_rx_udp_socket (v : Z) (r : bg95) : bg95 :=
  Bg95 (timer_rx_timeout r) (tx_cnt r) (udp_socket r) v (rx_udp_len r) (next_socket r) (bg_dns r).
Definition set_rx_udp_len (v : Z) (r : bg95) : bg95 :=
  Bg95 (timer_rx_timeout r) (tx_cnt r) (udp_socket r) (rx_udp_socket r) v (next_socket r) (bg_dns r).
Definition set_next_socket (v : Z) (r : bg95) : bg95 :=
  Bg95 (timer_rx_timeout r) (tx_cnt r) (udp_socket r) (rx_udp_socket r) (rx_udp_len r) v (bg_dns r).
Definition set_bg_dns (v : dns_state) (r : bg95) : bg95 :=
  Bg95 (timer_rx_timeout r) (tx_cnt r) (udp_socket r) (rx_udp_socket r) (rx_udp_len r) (next_socket r) v.

Definition upd_at (f : modem_at → modem_at) : mworld → mworld := upd_m (λ m, set_m_at (f (m_at m)) m).
Definition at_set (mask : Z) : mworld → mworld := upd_at (λ a, set_at_flags (Z.lor (at_flags a) mask) a).
Definition at_clr (mask : Z) : mworld → mworld := upd_at (λ a, set_at_flags (clr (at_flags a) mask) a).
Definition flag_set (mask : Z) : mworld → mworld := upd_m (λ m, set_m_flags (Z.lor (m_flags m) mask) m).
Definition flag_clr (mask : Z) : mworld → mworld := upd_m (λ m, set_m_flags (clr (m_flags m) mask) m).
Definition flag (mask : Z) (w : mworld) : bool := has (m_flags (mw_m w)) mask.
Definition errors (n : Z) : mworld → mworld := upd_m (λ m, set_error_counter (u32 (error_counter m + n)) m).
Definition w_at (w : mworld) : modem_at := m_at (mw_m w).
Definition upd_socket (n : Z) (f : udp_socket_t → udp_socket_t) : mworld → mworld :=
  upd_bg (λ b, set_udp_socket (alter f (Z.to_nat n) (udp_socket b)) b).

(** A literal with double quotes, written with single ones. *)
Definition qstr (s : string) : list Z := (λ c, if c =? 39 then 34 else c) <$> str s.

Fixpoint skip_blanks (s : list Z) : list Z :=
  match s with c :: s' => if c =? 32 then skip_blanks s' else s | [] => [] end.

Section receiver.
Context `{M : ModemLib}.

(** ** Parsing *)

(** src/modem/modem.c:179-191 (modem_parse_pattern) *)
Definition modem_parse_pattern (s pattern : list Z) : option (list Z) :=
  match parse_pattern s pattern with
  | None => None
  | Some p => Some (skip_blanks p)
  end.

(** The suffix after comma number [n]; the counter is 16 bits wide. *)
Fixpoint param_pos_loop (fuel : nat) (data : list Z) (n : Z) : option (list Z) :=
  match fuel, data with
  | O, _ | _, [] => None
  | S fuel, c :: data =>
      if c =? 44 then let n := u16 (n - 1) in if n =? 0 then Some data else param_pos_loop fuel data n
      else param_pos_loop fuel data n
  end.

(** src/modem/modem_at.c:14-34 (modem_at_param_pos) *)
Definition modem_at_param_pos (data : list Z) (n : Z) : list Z :=
  default data (param_pos_loop (Z.to_nat MODEM_AT_RX_BUF_SIZE) data n).

(** src/modem/modem.c:35-49 (_reg_parse) *)
Definition _reg_parse (p : list Z) : Z :=
  match p with
  | [a] => u8 (a - 48)
  | [_; b; c] => if b =? 44 then u8 (c - 48) else 0
  | _ => 0
  end.

(** src/modem/modem.c:51-60 (_signal_level_correction) *)
Definition _signal_level_correction (level : Z) : Z :=
  let tmp := (level + 2) * 10 / 31 in
  let tmp := if 10 <? tmp then 10 else tmp in
  tmp * 10.

(** src/modem/modem.c:26-33 (_set_offline) *)
Definition _set_offline (w : mworld) : mworld :=
  let w := flag_clr (Z.lor MODEM_FLAG_NET_READY (Z.lor MODEM_FLAG_DATA_READY (Z.lor MODEM_FLAG_ROAMING
             (Z.lor MODEM_FLAG_CALL_STOP (Z.lor MODEM_FLAG_LTE MODEM_FLAG_DATA_UP))))) w in
  upd_m (set_signal_level 0) (errors 1 w).

(** ** Messages of the BG95 *)

(** src/net/udp.c:17-38 (udp_rx) *)
Definition udp_rx (data : list Z) (ip port : Z) (w : mworld) : mworld :=
  if port =? 53 then w else mlog (MUdp data ip port) w.

(** Two digits per byte, as far as they go. *)
(** src/modem/modem_bg95.c:219-225 (_udp_rx_hex) *)
Fixpoint hex_to_bin (len : nat) (data : list Z) : list Z :=
  match len with
  | O => []
  | S len =>
      match scan_uint 16 2 data with
      | Some (c, _) => u8 c :: hex_to_bin len (drop 2 data)
      | None => []
      end
  end.

(** src/modem/modem_bg95.c:206-237 (_udp_rx_hex) *)
Definition _udp_rx_hex (socket : Z) (data : list Z) (len : Z) (w : mworld) : mworld :=
  match udp_socket (mw_bg w) !! Z.to_nat socket with
  | None => w
  | Some s =>
      let buf := hex_to_bin (Z.to_nat len) data in
      if Z.of_nat (length buf) =? len then udp_rx buf (us_ip s) (us_port s) w else w
  end.

(** src/modem/modem_bg95.c:239-242 (_socket_clear) *)
Definition _socket_clear : mworld → mworld :=
  upd_bg (set_udp_socket (replicate (Z.to_nat _SOCKETS) no_socket)).

Definition scan_u32 (s : list Z) : option (Z * list Z) := scan_uint 10 (length s) s.
(** src/modem/modem_bg95.c:272-273 (_dnsgip_ip) *)
Definition scan_quad_u (s : list Z) : option (Z * Z * Z * Z) :=
  '(a, s) ← scan_u32 s; s ← scan_char 46 s;
  '(b, s) ← scan_u32 s; s ← scan_char 46 s;
  '(c, s) ← scan_u32 s; s ← scan_char 46 s;
  '(d, _) ← scan_u32 s; Some (a, b, c, d).

(** src/modem/modem_bg95.c:266-279 (_dnsgip_ip) *)
Definition _dnsgip_ip (q : list Z) : option Z :=
  '(ip_str, _) ← parse_string q 16;
  '(a, b, c, d) ← scan_quad_u ip_str;
  if (255 <? a) || (255 <? b) || (255 <? c) || (255 <? d) then None
  else Some (u32 (a + Z.shiftl b 8 + Z.shiftl c 16 + Z.shiftl d 24)).

(** The text from the first quote on. *)
Fixpoint from_quote (q : list Z) : option (list Z) :=
  match q with [] => None | c :: q' => if c =? 34 then Some q else from_quote q' end.

(** src/modem/modem_bg95.c:284-323 (modem_bg95_dnsgip_parse) *)
Definition modem_bg95_dnsgip_parse (line : list Z) (d : dns_state) : bool * dns_state :=
  match modem_parse_pattern line (qstr "+QIURC: 'dnsgip',") with
  | None => (false, d)
  | Some q =>
      let address q := match _dnsgip_ip q with
                       | Some ip => DnsState (dns_active d) true true ip
                       | None => d
                       end in
      let q := skip_blanks q in
      match q with
      | 34 :: _ => (true, address q)
      | _ =>
          match parse_number q with
          | None => (true, d)
          | Some (err, q) =>
              if negb (err =? 0) then (true, DnsState (dns_active d) true false (dns_ip d))
              else match from_quote q with
                   | None => (true, d)
                   | Some q => (true, address q)
                   end
          end
      end
  end.
(** src/modem/modem_bg95.c:14-15 (_RX_RETRY_TIME, _SOCKET_TIMEOUT) *)
Definition _RX_RETRY_TIME : Z := 5 * OS_TIMER_SECOND.
Definition _SOCKET_TIMEOUT : Z := 15 * 60 * OS_TIMER_SECOND.

(** The line of data that [+QIRD] announced. *)
(** src/modem/modem_bg95.c:396-415 (modem_bg95_urc) *)
Definition bg95_data_line (src : list Z) (buf_len : Z) (w : mworld) : mworld :=
  let b := mw_bg w in
  let now := mw_now w in
  let w := if buf_len =? u32 (2 * rx_udp_len b + 1) then
             let w := _udp_rx_hex (rx_udp_socket b) src (rx_udp_len b) w in
             let w := upd_socket (rx_udp_socket b) (λ s, set_us_rx_time now (set_us_no_rx_cnt 0
                        (set_us_timer (u32 (now + _RX_RETRY_TIME)) (set_us_rx true s)))) w in
             upd_bg (λ b, set_tx_cnt 0 (set_timer_rx_timeout (u32 (now + 15 * OS_TIMER_SECOND)) b)) w
           else w in
  upd_bg (set_rx_udp_len 0) w.

(** src/modem/modem_bg95.c:431-450 (modem_bg95_urc) *)
Definition bg95_qird (p : list Z) (w : mworld) : mworld :=
  match parse_number p with
  | Some (n, _) => if 0 <? n then upd_bg (set_rx_udp_len n) w
                   else upd_socket (rx_udp_socket (mw_bg w)) (set_us_rx false) w
  | None => w
  end.

(** src/modem/modem_bg95.c:464-484 (modem_bg95_urc) *)
Definition bg95_qiopen (p : list Z) (w : mworld) : mworld :=
  match parse_number p with
  | None => w
  | Some (n, p) =>
      let socket := u8 n in
      match parse_modem_separator p with
      | None => w
      | Some p =>
          match parse_number p with
          | Some (n, _) => if (n =? 0) && (socket <? _SOCKETS) then upd_socket socket (set_us_ready true) w else w
          | None => w
          end
      end
  end.

(** Jamming has no effect yet. *)
(** src/modem/modem_bg95.c:388-517 (modem_bg95_urc) *)
Definition modem_bg95_urc (src : list Z) (buf_len : Z) (w : mworld) : bool * mworld :=
  if negb (rx_udp_len (mw_bg w) =? 0) then (true, bg95_data_line src buf_len w)
  else
    match modem_parse_pattern src (qstr "+QIURC: 'recv',") with
    | Some p =>
        (true, match parse_number p with
               | Some (n, _) => if (n <? _SOCKETS) && (0 <=? n) then upd_socket n (set_us_rx true) w else w
               | None => w
               end)
    | None =>
    match modem_parse_pattern src (str "+QIRD:") with
    | Some p => (true, bg95_qird p w)
    | None =>
    match modem_parse_pattern src (qstr "+QIURC: 'pdpdeact',1") with
    | Some _ => (true, _socket_clear (flag_clr (Z.lor MODEM_FLAG_DATA_READY MODEM_FLAG_DATA_UP) w))
    | None =>
    match modem_parse_pattern src (qstr "+QIURC: 'dnsgip',") with
    | Some _ =>
        (true, if dns_active (bg_dns (mw_bg w))
               then upd_bg (λ b, set_bg_dns (modem_bg95_dnsgip_parse src (bg_dns b)).2 b) w else w)
    | None =>
    match modem_parse_pattern src (str "+QIOPEN: ") with
    | Some p => (true, bg95_qiopen p w)
    | None =>
    if bool_decide (is_Some (modem_parse_pattern src (str "NORMAL POWER DOWN")))
       || bool_decide (is_Some (modem_parse_pattern src (str "POWERED DOWN")))
    then (true, flag_clr (Z.lor MODEM_FLAG_NET_READY (Z.lor MODEM_FLAG_DATA_READY (Z.lor MODEM_FLAG_ROAMING
                  (Z.lor MODEM_FLAG_CALL_STOP MODEM_FLAG_LTE)))) w)
    else (bool_decide (is_Some (modem_parse_pattern src (qstr "+QENG: 'servingcell',")))
          || bool_decide (is_Some (modem_parse_pattern src (str "+QJDR: "))), w)
    end end end end end.

(** ** Messages every module has *)

(** src/modem/modem.c:226-246 (modem_parse_urc) *)
Definition urc_cme_error (p : list Z) (w : mworld) : mworld :=
  let n := atoi p in
  let w := if n =? 13 then
             _set_offline (upd_m (set_m_sim MODEM_SIM_ST_ERROR) (flag_clr MODEM_FLAG_PIN_READY w))
           else if n =? 515 then w else errors 1 w in
  upd_at (set_last_error_result (u16 n)) (at_set AT_ST_ERROR w).

(** src/modem/modem.c:248-255 (modem_parse_urc) *)
Definition urc_cms_error (p : list Z) (w : mworld) : mworld :=
  at_set AT_ST_ERROR (upd_at (set_last_error_result (u16 (atoi p))) (errors 2 w)).

(** src/modem/modem.c:257-317 (modem_parse_urc) *)
Definition urc_creg (p : list Z) (w : mworld) : mworld :=
  let creg := _reg_parse p in
  if flag MODEM_FLAG_LTE w then
    if (creg =? 1) || (creg =? 5) then
      let w := flag_set MODEM_FLAG_NET_READY w in
      if creg =? 5 then flag_set MODEM_FLAG_ROAMING w else flag_clr MODEM_FLAG_ROAMING w
    else w
  else if creg =? 1 then flag_clr MODEM_FLAG_ROAMING (flag_set MODEM_FLAG_NET_READY w)
  else if creg =? 5 then flag_set (Z.lor MODEM_FLAG_NET_READY MODEM_FLAG_ROAMING) w
  else if (creg =? 0) || (creg =? 2) || (creg =? 3) || (creg =? 4) then _set_offline w
  else errors 1 w.

(** src/modem/modem.c:319-346 (modem_parse_urc) *)
Definition urc_cereg (p : list Z) (w : mworld) : mworld :=
  let cereg := _reg_parse p in
  let up := Z.lor MODEM_FLAG_LTE (Z.lor MODEM_FLAG_DATA_READY MODEM_FLAG_NET_READY) in
  if cereg =? 1 then flag_clr MODEM_FLAG_ROAMING (flag_set up w)
  else if cereg =? 5 then flag_set (Z.lor up MODEM_FLAG_ROAMING) w
  else if flag MODEM_FLAG_LTE w then
    flag_clr (Z.lor MODEM_FLAG_NET_READY (Z.lor MODEM_FLAG_DATA_READY (Z.lor MODEM_FLAG_ROAMING
                (Z.lor MODEM_FLAG_LTE MODEM_FLAG_DATA_UP)))) w
  else w.

(** src/modem/modem.c:348-367 (modem_parse_urc) *)
Definition urc_cgreg (p : list Z) (w : mworld) : mworld :=
  if flag MODEM_FLAG_LTE w then w
  else
    let cgreg := _reg_parse p in
    if (cgreg =? 1) || (cgreg =? 5) then flag_set MODEM_FLAG_DATA_READY w
    else flag_clr MODEM_FLAG_DATA_READY w.

(** src/modem/modem.c:369-390 (modem_parse_urc) *)
Definition urc_cmti (p : list Z) (w : mworld) : mworld :=
  let me := bool_decide (is_Some (modem_parse_pattern p (qstr "'ME'"))) in
  let w := upd_m (λ m, set_error_counter 0 (set_sms_storage_me me m)) w in
  let w := mlog (MEvent MODEM_EVENT_SMS_INCOMMING) w in
  let n := u32 (atoi (modem_at_param_pos p 1)) in
  upd_m (set_sms_counter (if n =? 0 then n + 1 else n)) w.

(** src/modem/modem.c:411-423 (modem_parse_urc) *)
Definition urc_cpms (p : list Z) (w : mworld) : mworld :=
  if negb (sms_counter (mw_m w) =? 0) then w else upd_m (set_sms_counter (u32 (atoi p))) w.

(** src/modem/modem.c:453-461 (modem_parse_urc) *)
Definition urc_csq (p : list Z) (w : mworld) : mworld :=
  let tmp := u32 (atoi p) in
  if tmp <=? 31 then upd_m (set_signal_level (_signal_level_correction tmp)) w else w.

(** The line [src] with the buffer's length, its terminator counted. *)
(** src/modem/modem.c:218-511 (modem_parse_urc) *)
Definition modem_parse_urc (src : list Z) (buf_len : Z) (w : mworld) : bool * mworld :=
  match modem_parse_pattern src (str "+CME ERROR:") with Some p => (true, urc_cme_error p w) | None =>
  match modem_parse_pattern src (str "+CMS ERROR:") with Some p => (true, urc_cms_error p w) | None =>
  match modem_parse_pattern src (str "+CREG:") with Some p => (true, urc_creg p w) | None =>
  match modem_parse_pattern src (str "+CEREG:") with Some p => (true, urc_cereg p w) | None =>
  match modem_parse_pattern src (str "+CGREG:") with Some p => (true, urc_cgreg p w) | None =>
  match modem_parse_pattern src (str "+CMTI:") with Some p => (true, urc_cmti p w) | None =>
  match modem_parse_pattern src (str "+CDSI:") with
  | Some p => (true, upd_m (set_sms_counter (u32 (atoi (modem_at_param_pos p 1)))) w)
  | None =>
  match modem_parse_pattern src (str "+CPMS:") with Some p => (true, urc_cpms p w) | None =>
  if (stricmp src (str "NO CARRIER") =? 0) || (stricmp src (str "BUSY") =? 0) || (stricmp src (str "NO ANSWER") =? 0)
  then (true, flag_set MODEM_FLAG_CALL_STOP w)
  else
  match modem_parse_pattern src (str "RING") with
  | Some p => (true, flag_set MODEM_FLAG_CLCC_RQ (mlog (MEvent MODEM_EVENT_CALL_INCOMMING) (upd_m (set_error_counter 0) w)))
  | None =>
  match modem_parse_pattern src (str "+CLIP:") with
  | Some p => (true, mlog (MEvent MODEM_EVENT_CALL_INCOMMING) (upd_m (set_error_counter 0) w))
  | None =>
  match modem_parse_pattern src (str "+CSQ:") with Some p => (true, urc_csq p w) | None =>
  match modem_parse_pattern src (str "+CPIN:") with
  | Some p => (true, if stricmp p (str "READY") =? 0 then flag_set MODEM_FLAG_PIN_READY w
                     else flag_clr MODEM_FLAG_PIN_READY w)
  | None => modem_bg95_urc src buf_len w
  end end end end end end end end end end end end.

(** ** The receiver *)

(** src/modem/modem_at.c:337-359 (modem_at_rx) *)
Definition at_keep_response (line : list Z) (buf_len : Z) (w : mworld) : mworld :=
  if response_len (w_at w) =? 0 then
    match user_str (w_at w) with
    | Some s =>
        if strnicmp line s (length s) =? 0 then
          at_set AT_ST_USER_STR (upd_at (λ a, set_response_len buf_len (set_response line (set_user_str None a))) w)
        else w
    | None => upd_at (λ a, set_response_len buf_len (set_response line a)) w
    end
  else w.

(** A complete line. *)
(** src/modem/modem_at.c:318-359 (modem_at_rx) *)
Definition at_line (line : list Z) (buf_len : Z) (w : mworld) : mworld :=
  let w := at_set AT_ST_LINE w in
  if stricmp line (str "OK") =? 0 then at_set AT_ST_READY (at_set AT_ST_OK w)
  else if stricmp line (str "ERROR") =? 0 then at_set AT_ST_ERROR w
  else
    let '(done, w) := modem_parse_urc line buf_len w in
    if done : bool then w else at_keep_response line buf_len w.

(** A full buffer keeps its last place for the terminator. *)
(** src/modem/modem_at.c:286-374 (modem_at_rx) *)
Definition modem_at_rx (rx_char : Z) (w : mworld) : mworld :=
  let c := if (rx_char =? 10) || (rx_char =? 13) then 0 else rx_char in
  let buf := rx_buf (w_at w) in
  let room := (length buf <? rx_room)%nat in
  if c =? 0 then
    let buf_len := Z.of_nat (if room then length buf + 1 else length buf) in
    let w := if 1 <? buf_len then at_line buf buf_len w else w in
    upd_at (set_rx_buf []) w
  else
    let w := if room then upd_at (set_rx_buf (buf ++ [c])) w else w in
    if c =? 62 then at_set AT_ST_RAB w else w.

(** src/modem/modem.c:209-216 (modem_rx_task) *)
Definition modem_rx_task (data : list Z) (w : mworld) : mworld := foldl (λ w c, modem_at_rx c w) w data.

End receiver.
