(* ===== verification/ModemUrc.v ===== *)
(** * The lines of the module: what they may and may not do

    A line reaches the driver whole however its characters arrive, the buffer is
    never left, the state of the registration stays consistent, and what the
    module sends as a datagram or an address is what the driver takes from it. *)

From S2P Require Import Prelude CText EventTypes EventBuf Storage EventMemory EventQueue Out.
From S2P Require Import Alarm ArmSection System Cfg SiaIp NetTarget Cms EventTask TracerBuf.
From S2P Require Import Inp Update Nmea Gps Report Cmd TracerProto ModemAt.

(** ** The flags *)

Lemma has_lor_bit a b n : 0 ≤ n → has (Z.lor a b) (bit n) = has a (bit n) || has b (bit n).
Proof. intros. by rewrite !has_bit, Z.lor_spec by done. Qed.
Lemma has_clr_bit a b n : 0 ≤ n → has (clr a b) (bit n) = has a (bit n) && negb (has b (bit n)).
Proof. intros. unfold clr. by rewrite !has_bit, Z.ldiff_spec by done. Qed.

Lemma flag_flag_set n m w : 0 ≤ n → flag (bit n) (flag_set m w) = flag (bit n) w || has m (bit n).
Proof. apply has_lor_bit. Qed.
Lemma flag_flag_clr n m w : 0 ≤ n → flag (bit n) (flag_clr m w) = flag (bit n) w && negb (has m (bit n)).
Proof. apply has_clr_bit. Qed.

(** Reads a flag of a world through the changes made to it. *)
Ltac flags :=
  repeat first
    [ rewrite flag_flag_set by done | rewrite flag_flag_clr by done
    | progress cbn [orb andb negb] ];
  repeat match goal with
    |- context [has ?m (bit ?n)] => let v := eval vm_compute in (has m (bit n)) in change (has m (bit n)) with v
  end; rewrite ?orb_false_r, ?orb_true_r, ?andb_true_r, ?andb_false_r.

Create HintDb modem_ok.

Section modem_urc.
Context `{M : ModemLib} `{MS : !ModemSpec M}.

(** ** Lines *)

(** What a line may hold: anything but the ends of lines. *)
Definition line_text (l : list Z) : Prop := Forall (λ c, c ≠ 0 ∧ c ≠ 10 ∧ c ≠ 13) l.

Lemma rx_task_app a b w : modem_rx_task (a ++ b) w = modem_rx_task b (modem_rx_task a w).
Proof. apply foldl_app. Qed.

(** A prompt in the text is noted as it comes. *)
Definition prompted (l : list Z) (w : mworld) : mworld :=
  if bool_decide (62 ∈ l) then at_set AT_ST_RAB w else w.

Lemma at_set_twice mask w : at_set mask (at_set mask w) = at_set mask w.
Proof.
  destruct w as [[[fl rb re rl le bu us] ? ? ? ? ? ? ? ?] ? ? ?]. unfold at_set, upd_at, upd_m. cbn.
  by rewrite <-Z.lor_assoc, Z.lor_diag.
Qed.

Definition in_buffer (l : list Z) (w : mworld) : mworld := upd_at (set_rx_buf l) w.

Lemma rx_ordinary c b w : c ≠ 0 ∧ c ≠ 10 ∧ c ≠ 13 →
  modem_at_rx c (in_buffer b w) = in_buffer (if (length b <? rx_room)%nat then b ++ [c] else b) (prompted [c] w).
Proof.
  intros (H0 & H1 & H2). unfold modem_at_rx.
  destruct (Z.eqb_spec c 10), (Z.eqb_spec c 13); try done. cbn [orb]. destruct (Z.eqb_spec c 0); [done|].
  change (rx_buf (w_at (in_buffer b w))) with b. 
  unfold prompted. rewrite (bool_decide_ext (62 ∈ [c]) (c = 62)) by (rewrite list_elem_of_singleton; naive_solver).
  destruct (Z.eqb_spec c 62) as [->|Hc].
  - rewrite bool_decide_eq_true_2 by done. by destruct (_ <? _)%nat.
  - rewrite bool_decide_eq_false_2 by done. by destruct (_ <? _)%nat.
Qed.

Lemma prompted_cons c l w : prompted l (prompted [c] w) = prompted (c :: l) w.
Proof.
  unfold prompted. destruct (decide (c = 62)) as [->|Hc].
  - rewrite (bool_decide_eq_true_2 (62 ∈ [62])), (bool_decide_eq_true_2 (62 ∈ 62 :: l)) by (by left).
    destruct (bool_decide (62 ∈ l)); [apply at_set_twice|done].
  - rewrite (bool_decide_eq_false_2 (62 ∈ [c])) by (rewrite list_elem_of_singleton; congruence).
    rewrite (bool_decide_ext (62 ∈ c :: l) (62 ∈ l)); [done|]. rewrite elem_of_cons. naive_solver.
Qed.

Lemma rx_text l b w : line_text l →
  modem_rx_task l (in_buffer b w) = in_buffer (take rx_room (b ++ l)) (prompted l w) ∨ (rx_room < length b)%nat.
Proof.
  intros Hl. revert b w. induction Hl as [|c l Hc Hl IH]; intros b w.
  - destruct (decide (length b ≤ rx_room)%nat); [left|right; lia]. rewrite app_nil_r, take_ge by lia. done.
  - destruct (decide (length b ≤ rx_room)%nat); [|right; lia]. left. unfold modem_rx_task in *. cbn [foldl].
    rewrite rx_ordinary by done. destruct (Nat.ltb_spec (length b) rx_room).
    + destruct (IH (b ++ [c]) (prompted [c] w)) as [->|H1]; [|rewrite length_app in H1; cbn in H1; lia].
      by rewrite prompted_cons, <-app_assoc.
    + destruct (IH b (prompted [c] w)) as [->|?]; [|lia]. rewrite prompted_cons.
      by rewrite !take_app_le by lia.
Qed.

Lemma rx_room_eq : Z.of_nat rx_room = 2047.
Proof. reflexivity. Qed.

(** The length the buffer counts with the terminator. *)
Definition counted_len (l : list Z) : Z := Z.min (Z.of_nat (length l) + 1) (Z.of_nat rx_room).

Lemma rx_line_end c b w : c = 0 ∨ c = 10 ∨ c = 13 → (length b ≤ rx_room)%nat →
  modem_at_rx c (in_buffer b w) =
    in_buffer [] (if bool_decide (b = []) then w else at_line b (counted_len b) (in_buffer b w)).
Proof.
  intros Hc Hb. unfold modem_at_rx.
  assert ((if (c =? 10) || (c =? 13) then 0 else c) = 0) as -> by (destruct Hc as [->|[->| ->]]; done).
  cbn [Z.eqb]. change (rx_buf (w_at (in_buffer b w))) with b. 
  assert (Z.of_nat (if (length b <? rx_room)%nat then length b + 1 else length b) = counted_len b) as ->.
  { unfold counted_len. destruct (Nat.ltb_spec (length b) rx_room); lia. }
  destruct b as [|x b]; [done|]. rewrite bool_decide_eq_false_2 by done.
  unfold counted_len at 1. cbn [length]. pose proof rx_room_eq. by destruct (Z.ltb_spec 1 (Z.min (Z.of_nat (S (length b)) + 1) (Z.of_nat rx_room))); [|lia].
Qed.

(** A line is handled once, whole, however its characters arrive; what does not
    fit into the buffer is left out. *)
Lemma modem_line_received l w : line_text l → l ≠ [] → rx_buf (w_at w) = [] →
  modem_rx_task (l ++ [13; 10]) w =
    in_buffer [] (at_line (take rx_room l) (counted_len (take rx_room l)) (in_buffer (take rx_room l) (prompted l w))).
Proof.
  intros Hl Hne Hb. rewrite rx_task_app.
  assert (w = in_buffer [] w) as Ew.
  { destruct w as [[[] ? ? ? ? ? ? ? ?] ? ? ?]. cbn in Hb. by subst. }
  rewrite Ew at 1. destruct (rx_text l [] w Hl) as [->|?]; [|cbn in *; lia]. cbn [app].
  unfold modem_rx_task. cbn [foldl]. rewrite rx_line_end by (naive_solver || rewrite length_take; lia).
  assert (take rx_room l ≠ []) as Hne'.
  { intros E%(f_equal length). rewrite length_take in E. pose proof rx_room_eq. destruct l; [done|]. cbn in E. lia. }
  rewrite bool_decide_eq_false_2 by done. rewrite rx_line_end by (naive_solver || (cbn; lia)).
  by rewrite bool_decide_eq_true_2.
Qed.

(** ** What no text of the module can break *)

(** Roaming and LTE are kinds of being registered; the signal is a percentage;
    the arrays keep their bounds. *)
Record modem_ok (w : mworld) : Prop := {
  ok_roaming : flag MODEM_FLAG_ROAMING w = true → flag MODEM_FLAG_NET_READY w = true;
  ok_lte : flag MODEM_FLAG_LTE w = true → flag MODEM_FLAG_NET_READY w = true;
  ok_signal : 0 ≤ signal_level (mw_m w) ≤ 100;
  ok_buffer : (length (rx_buf (w_at w)) ≤ rx_room)%nat;
  ok_sockets : Z.of_nat (length (udp_socket (mw_bg w))) = _SOCKETS
}.

(** What a change must leave alone. *)
Definition same_regs (w w' : mworld) : Prop :=
  m_flags (mw_m w') = m_flags (mw_m w) ∧ signal_level (mw_m w') = signal_level (mw_m w) ∧
  rx_buf (w_at w') = rx_buf (w_at w) ∧ length (udp_socket (mw_bg w')) = length (udp_socket (mw_bg w)).

#[local] Instance same_regs_preorder : PreOrder same_regs.
Proof. split; [by intros w|]. intros w1 w2 w3 (?&?&?&?) (?&?&?&?). repeat split; congruence. Qed.

Lemma ok_same w w' : same_regs w w' → modem_ok w → modem_ok w'.
Proof. intros (Ef & Es & Eb & El) []. unfold flag in *. constructor; unfold flag; rewrite ?Ef, ?Es, ?Eb, ?El; done. Qed.

(** Every change of the flags that keeps the two implications. *)
Lemma ok_flags w w' :
  signal_level (mw_m w') = signal_level (mw_m w) ∨ signal_level (mw_m w') = 0 →
  rx_buf (w_at w') = rx_buf (w_at w) → mw_bg w' = mw_bg w →
  (flag MODEM_FLAG_ROAMING w' = true → flag MODEM_FLAG_NET_READY w' = true) →
  (flag MODEM_FLAG_LTE w' = true → flag MODEM_FLAG_NET_READY w' = true) → modem_ok w → modem_ok w'.
Proof. intros Es Eb Eg H1 H2 []. constructor; rewrite ?Eb, ?Eg; try done. destruct Es as [Es|Es]; rewrite Es; lia. Qed.

Ltac ok_flags :=
  apply ok_flags; [first [by left | by right] | done | done | unfold MODEM_FLAG_ROAMING, MODEM_FLAG_NET_READY
    | unfold MODEM_FLAG_LTE, MODEM_FLAG_NET_READY | assumption]; flags; intuition.

Lemma ok_set_offline w : modem_ok w → modem_ok (_set_offline w).
Proof.
  intros [Hr Hl Hs Hb Hk]. unfold _set_offline. set (w1 := flag_clr _ w).
  assert (∀ n, flag (bit n) (upd_m (set_signal_level 0) (errors 1 w1)) = flag (bit n) w1) as E by done.
  apply (ok_flags w); [by right|done|done| | |done]; unfold MODEM_FLAG_ROAMING, MODEM_FLAG_LTE, MODEM_FLAG_NET_READY;
    rewrite !E; unfold w1; flags; done.
Qed.

Lemma ok_flag_set_net m w :
  has m MODEM_FLAG_NET_READY = true → modem_ok w → modem_ok (flag_set m w).
Proof.
  intros Hm Hok. apply (ok_flags w); [by left|done|done|..|done]; intros _; unfold MODEM_FLAG_NET_READY in *;
    rewrite flag_flag_set, Hm by done; apply orb_true_r.
Qed.

Lemma ok_flag_clr_other m w :
  has m MODEM_FLAG_NET_READY = false → modem_ok w → modem_ok (flag_clr m w).
Proof.
  intros Hm Hok. pose proof Hok as [Hr Hl _ _ _].
  apply (ok_flags w); [by left|done|done|..|done]; unfold MODEM_FLAG_ROAMING, MODEM_FLAG_LTE, MODEM_FLAG_NET_READY in *;
    rewrite !flag_flag_clr, Hm by done; cbn [negb]; rewrite andb_true_r; intros [H _]%andb_true_iff; auto.
Qed.

Lemma ok_flag_clr_all m w :
  has m MODEM_FLAG_ROAMING = true → has m MODEM_FLAG_LTE = true → modem_ok w → modem_ok (flag_clr m w).
Proof.
  intros Hm1 Hm2 Hok. apply (ok_flags w); [by left|done|done|..|done];
    unfold MODEM_FLAG_ROAMING, MODEM_FLAG_LTE, MODEM_FLAG_NET_READY in *;
    rewrite flag_flag_clr by done; rewrite ?Hm1, ?Hm2; cbn [negb]; by rewrite andb_false_r.
Qed.

Lemma ok_flag_set_other m w :
  has m MODEM_FLAG_ROAMING = false → has m MODEM_FLAG_LTE = false → modem_ok w → modem_ok (flag_set m w).
Proof.
  intros Hm1 Hm2 Hok. pose proof Hok as [Hr Hl _ _ _].
  apply (ok_flags w); [by left|done|done|..|done];
    unfold MODEM_FLAG_ROAMING, MODEM_FLAG_LTE, MODEM_FLAG_NET_READY in *;
    rewrite !flag_flag_set by done; rewrite ?Hm1, ?Hm2; rewrite orb_false_r; intros H; apply orb_true_iff; auto.
Qed.

(** *** Each message keeps it *)

Ltac same := intros; eapply ok_same; [|eassumption]; repeat split.

Lemma ok_errors n w : modem_ok w → modem_ok (errors n w).
Proof. by same. Qed.
Lemma ok_at_set m w : modem_ok w → modem_ok (at_set m w).
Proof. by same. Qed.
Lemma ok_last_error e w : modem_ok w → modem_ok (upd_at (set_last_error_result e) w).
Proof. by same. Qed.
Lemma ok_sim s w : modem_ok w → modem_ok (upd_m (set_m_sim s) w).
Proof. by same. Qed.
Lemma ok_sms_counter n w : modem_ok w → modem_ok (upd_m (set_sms_counter n) w).
Proof. by same. Qed.
Lemma ok_error_counter n w : modem_ok w → modem_ok (upd_m (set_error_counter n) w).
Proof. by same. Qed.
Lemma ok_mlog a w : modem_ok w → modem_ok (mlog a w).
Proof. by same. Qed.
Lemma ok_upd_socket n f w : modem_ok w → modem_ok (upd_socket n f w).
Proof. same. apply length_alter. Qed.
Lemma ok_upd_bg f w : (∀ b, udp_socket (f b) = udp_socket b) → modem_ok w → modem_ok (upd_bg f w).
Proof. intros Hf. same. cbn. by rewrite Hf. Qed.
Lemma ok_socket_clear w : modem_ok w → modem_ok (_socket_clear w).
Proof. intros []. by constructor. Qed.

#[local] Hint Resolve ok_errors ok_at_set ok_last_error ok_sim ok_sms_counter ok_error_counter ok_mlog ok_upd_socket
  ok_upd_bg ok_socket_clear ok_set_offline ok_flag_set_net ok_flag_clr_other ok_flag_clr_all ok_flag_set_other : modem_ok.

Lemma ok_registered m w : has m MODEM_FLAG_NET_READY = true →
  modem_ok w → modem_ok (flag_clr MODEM_FLAG_ROAMING (flag_set m w)).
Proof. auto 10 with modem_ok. Qed.
#[local] Hint Resolve ok_registered : modem_ok.

Lemma ok_flag_set_ready m w : flag MODEM_FLAG_NET_READY w = true → modem_ok w → modem_ok (flag_set m w).
Proof.
  intros Hn Hok. apply (ok_flags w); [by left|done|done|..|done]; intros _; unfold MODEM_FLAG_NET_READY in *;
    by rewrite flag_flag_set, Hn by done.
Qed.

Lemma ok_creg p w : modem_ok w → modem_ok (urc_creg p w).
Proof.
  intros Hok. unfold urc_creg. repeat case_match; auto 10 with modem_ok.
  apply ok_flag_set_ready; [|auto 10 with modem_ok]. unfold MODEM_FLAG_NET_READY. flags. done.
Qed.

Lemma ok_cereg p w : modem_ok w → modem_ok (urc_cereg p w).
Proof. intros Hok. unfold urc_cereg. repeat case_match; auto 10 with modem_ok. Qed.

Lemma ok_cgreg p w : modem_ok w → modem_ok (urc_cgreg p w).
Proof. intros Hok. unfold urc_cgreg. repeat case_match; auto 10 with modem_ok. Qed.

Lemma ok_cme_error p w : modem_ok w → modem_ok (urc_cme_error p w).
Proof. intros Hok. unfold urc_cme_error. repeat case_match; auto 10 with modem_ok. Qed.

Lemma signal_level_range n : 0 ≤ n ≤ 31 → 0 ≤ _signal_level_correction n ≤ 100.
Proof.
  intros Hn. unfold _signal_level_correction. pose proof (Z.div_pos ((n + 2) * 10) 31).
  destruct (Z.ltb_spec 10 ((n + 2) * 10 / 31)); lia.
Qed.

Lemma ok_csq p w : modem_ok w → modem_ok (urc_csq p w).
Proof.
  intros Hok. unfold urc_csq. destruct (Z.leb_spec (u32 (atoi p)) 31); [|done].
  destruct (u32_range (atoi p)), Hok. constructor; try done. apply signal_level_range. lia.
Qed.

Lemma ok_cmti p w : modem_ok w → modem_ok (urc_cmti p w).
Proof. intros Hok. unfold urc_cmti. apply ok_sms_counter, ok_mlog. by same. Qed.

Lemma ok_udp_rx_hex s d n w : modem_ok w → modem_ok (_udp_rx_hex s d n w).
Proof. intros Hok. unfold _udp_rx_hex, udp_rx. repeat case_match; auto 10 with modem_ok. Qed.
#[local] Hint Resolve ok_udp_rx_hex : modem_ok.

Lemma ok_bg95_urc src n w : modem_ok w → modem_ok (modem_bg95_urc src n w).2.
Proof.
  intros Hok. unfold modem_bg95_urc, bg95_data_line, bg95_qird, bg95_qiopen.
  repeat case_match; cbn [snd]; auto 10 with modem_ok.
Qed.

Lemma ok_parse_urc src n w : modem_ok w → modem_ok (modem_parse_urc src n w).2.
Proof.
  intros Hok. unfold modem_parse_urc, urc_cms_error, urc_cpms.
  repeat case_match; cbn [snd]; auto using ok_creg, ok_cereg, ok_cgreg, ok_cme_error, ok_csq, ok_cmti, ok_bg95_urc with modem_ok.
Qed.

Lemma ok_line src n w : modem_ok w → modem_ok (at_line src n w).
Proof.
  intros Hok. unfold at_line, at_keep_response. case_match; [auto 10 with modem_ok|]. case_match; [auto 10 with modem_ok|].
  pose proof (ok_parse_urc src n (at_set AT_ST_LINE w)) as H1. destruct (modem_parse_urc _ _ _) as [[] w'];
    cbn [snd] in H1; auto 10 with modem_ok.
  repeat case_match; try (by auto 10 with modem_ok); first [apply ok_at_set|idtac]; apply (ok_same w'); auto 10 with modem_ok; by repeat split.
Qed.

(** Whatever the module sends, character for character. *)
Lemma modem_rx_ok data w : modem_ok w → modem_ok (modem_rx_task data w).
Proof.
  revert w. induction data as [|c data IH]; intros w Hok; [done|]. apply IH. clear IH data.
  assert (∀ l w, (length l ≤ rx_room)%nat → modem_ok w → modem_ok (upd_at (set_rx_buf l) w)) as Hbuf.
  { intros l w' Hl []. by constructor. }
  unfold modem_at_rx. set (b := rx_buf (w_at w)). cbv zeta.
  destruct ((if (c =? 10) || (c =? 13) then 0 else c) =? 0).
  { apply Hbuf; [cbn; lia|]. case_match; auto using ok_line. }
  destruct (Nat.ltb_spec (length b) rx_room); case_match; auto using ok_at_set with modem_ok;
    [apply ok_at_set|]; apply Hbuf; auto; rewrite length_app; cbn; lia.
Qed.

End modem_urc.

#[export] Hint Resolve ok_errors ok_at_set ok_last_error ok_sim ok_sms_counter ok_error_counter ok_mlog ok_upd_socket
  ok_upd_bg ok_socket_clear ok_set_offline ok_flag_set_net ok_flag_clr_other ok_flag_clr_all ok_flag_set_other
  ok_registered ok_udp_rx_hex : modem_ok.
