(* ===== verification/ModemLink.v ===== *)
(** * What the messages of the module mean to the driver

    Registration: the reports of the three domains against the state machine they
    describe.  Datagrams and addresses: what the module sends is what the driver
    takes from its lines. *)

From S2P Require Import Prelude CText EventTypes EventBuf Storage EventMemory EventQueue Out.
From S2P Require Import Alarm ArmSection System Cfg SiaIp NetTarget Cms EventTask TracerBuf.
From S2P Require Import Inp Update Nmea Gps Report Cmd TracerProto ModemAt ModemUrc.

(** Texts equal but for the case of letters, decided from the front. *)
Fixpoint ieq (s t : list Z) : bool :=
  match s, t with
  | [], [] => true
  | a :: s, b :: t => (to_lower a =? to_lower b) && ieq s t
  | _, _ => false
  end.

Lemma ieq_spec s t : ieq s t = true ↔ to_lower <$> s = to_lower <$> t.
Proof.
  revert t. induction s as [|a s IH]; intros [|b t]; cbn; try (split; done).
  rewrite andb_true_iff, Z.eqb_eq, IH. split; [by intros [-> ->]|]. by intros [= -> ->].
Qed.

Lemma expect_spec lit s r : expect lit s = Some r ↔ s = lit ++ r.
Proof.
  revert s. induction lit as [|c lit IH]; intros s; cbn; [split; [by intros [= ->]|by intros ->]|].
  destruct s as [|x s]; [done|]. destruct (Z.eqb_spec x c) as [->|Hne].
  - rewrite IH. split; [by intros ->|by intros [= ->]].
  - split; [done|]. by intros [= ? _].
Qed.

(** Literals as the codes they stand for. *)
Ltac eval_text :=
  repeat match goal with
  | |- context [str ?l] => let v := eval vm_compute in (str l) in change (str l) with v
  | |- context [qstr ?l] => let v := eval vm_compute in (qstr l) in change (qstr l) with v
  end.

Section modem_link.
Context `{M : ModemLib} `{MS : !ModemSpec M}.

(** The laws of the SDK's functions determine them here. *)
Lemma modem_parse_pattern_expect s pat : modem_parse_pattern s pat = skip_blanks <$> expect pat s.
Proof.
  unfold modem_parse_pattern. destruct (expect pat s) as [r|] eqn:E.
  - apply expect_spec in E as ->. by rewrite parse_pattern_app.
  - destruct (parse_pattern s pat) as [r|] eqn:E'; [|done].
    apply parse_pattern_only, expect_spec in E'. congruence.
Qed.

Lemma stricmp_ieq s t : (stricmp s t =? 0) = ieq s t.
Proof.
  apply eq_true_iff_eq. rewrite Z.eqb_eq, ieq_spec. apply stricmp_equal.
Qed.

(** ** Registration *)

Inductive domain := CS | EPS | PS.
Record report := Report { rp_domain : domain; rp_mode : option Z; rp_stat : Z }.

(** As an answer, with the mode, or on the module's own account. *)
Definition report_line (r : report) : list Z :=
  match rp_domain r with CS => str "+CREG: " | EPS => str "+CEREG: " | PS => str "+CGREG: " end
  ++ match rp_mode r with Some m => [48 + m; 44] | None => [] end ++ [48 + rp_stat r].

Definition report_ok (r : report) : Prop :=
  0 ≤ rp_stat r ≤ 9 ∧ match rp_mode r with Some m => 0 ≤ m ≤ 9 | None => True end.

Inductive registration := Offline | OnGsm (roaming : bool) | OnLte (roaming : bool).
Record link := Link { l_reg : registration; l_data : bool; l_up : bool }.

Definition down : link := Link Offline false false.

(** What a report means: the packet network of LTE is heard first. *)
Definition link_step (l : link) (r : report) : link :=
  let home := rp_stat r =? 1 in
  let roam := rp_stat r =? 5 in
  match rp_domain r, l_reg l with
  | CS, OnLte _ => if home || roam then Link (OnLte roam) (l_data l) (l_up l) else l
  | CS, _ => if home || roam then Link (OnGsm roam) (l_data l) (l_up l)
             else if rp_stat r <=? 4 then down else l
  | EPS, g => if home || roam then Link (OnLte roam) true (l_up l)
              else match g with OnLte _ => down | _ => l end
  | PS, OnLte _ => l
  | PS, g => Link g (home || roam) (l_up l)
  end.

Definition link_of (w : mworld) : link :=
  Link (if flag MODEM_FLAG_NET_READY w
        then (if flag MODEM_FLAG_LTE w then OnLte else OnGsm) (flag MODEM_FLAG_ROAMING w) else Offline)
    (flag MODEM_FLAG_DATA_READY w) (flag MODEM_FLAG_DATA_UP w).

Lemma reg_parse_report r : report_ok r →
  _reg_parse (match rp_mode r with Some m => [48 + m; 44] | None => [] end ++ [48 + rp_stat r]) = rp_stat r.
Proof.
  intros [Hs Hm]. unfold _reg_parse. destruct (rp_mode r) as [m|]; cbn [app].
  - cbn [Z.eqb]. replace (48 + rp_stat r - 48) with (rp_stat r) by lia. apply u8_small. unfold in_u8. lia.
  - replace (48 + rp_stat r - 48) with (rp_stat r) by lia. apply u8_small. unfold in_u8. lia.
Qed.

Lemma skip_blanks_report r : report_ok r →
  skip_blanks (32 :: match rp_mode r with Some m => [48 + m; 44] | None => [] end ++ [48 + rp_stat r]) =
  match rp_mode r with Some m => [48 + m; 44] | None => [] end ++ [48 + rp_stat r].
Proof.
  intros [Hs Hm]. destruct (rp_mode r) as [m|]; cbn [app skip_blanks Z.eqb];
    [destruct (Z.eqb_spec (48 + m) 32)|destruct (Z.eqb_spec (48 + rp_stat r) 32)]; (done || lia).
Qed.

(** Which handler gets the line. *)
Lemma parse_urc_report r n w : report_ok r → modem_parse_urc (report_line r) n w =
  (true, match rp_domain r with CS => urc_creg | EPS => urc_cereg | PS => urc_cgreg end
           (match rp_mode r with Some m => [48 + m; 44] | None => [] end ++ [48 + rp_stat r]) w).
Proof.
  intros Hr. pose proof (skip_blanks_report r Hr) as Hb. unfold modem_parse_urc, report_line.
  rewrite !modem_parse_pattern_expect. eval_text. 
  destruct (rp_domain r); cbn [app expect Z.eqb fmap option_fmap option_map Pos.eqb]; rewrite Hb; done.
Qed.

Lemma at_line_report r n w : report_ok r → at_line (report_line r) n w =
  (match rp_domain r with CS => urc_creg | EPS => urc_cereg | PS => urc_cgreg end
           (match rp_mode r with Some m => [48 + m; 44] | None => [] end ++ [48 + rp_stat r]) (at_set AT_ST_LINE w)).
Proof.
  intros Hr. unfold at_line. rewrite parse_urc_report, !stricmp_ieq by done. unfold report_line. eval_text.
  by destruct (rp_domain r).
Qed.

(** *** One report is one step *)

Ltac reg_flags :=
  unfold link_of, MODEM_FLAG_NET_READY, MODEM_FLAG_LTE, MODEM_FLAG_ROAMING, MODEM_FLAG_DATA_READY, MODEM_FLAG_DATA_UP
    in *; flags.

Lemma link_of_ignored f w : (∀ m, m_flags (f m) = m_flags m) → link_of (upd_m f w) = link_of w.
Proof. intros Hf. unfold link_of, flag. cbn. by rewrite Hf. Qed.

Lemma link_of_set_offline w : link_of (_set_offline w) = down.
Proof. unfold _set_offline, errors. rewrite !link_of_ignored by done. reg_flags. done. Qed.

(** The statuses one by one. *)
Ltac by_status s :=
  let H := fresh in
  assert (s = 0 ∨ s = 1 ∨ s = 2 ∨ s = 3 ∨ s = 4 ∨ s = 5 ∨ s = 6 ∨ s = 7 ∨ s = 8 ∨ s = 9) as H by lia;
  destruct H as [H|[H|[H|[H|[H|[H|[H|[H|[H|H]]]]]]]]]; rewrite H; cbn [Z.eqb Z.leb Z.compare Pos.eqb Pos.compare Pos.compare_cont orb].

Lemma urc_creg_step r p w : _reg_parse p = rp_stat r → 0 ≤ rp_stat r ≤ 9 → rp_domain r = CS → modem_ok w →
  link_of (urc_creg p w) = link_step (link_of w) r.
Proof.
  intros Ep Hs Hd Hok. unfold urc_creg, link_step. rewrite Ep, Hd. clear Ep.
  pose proof (ok_lte w Hok) as Hl. destruct (flag MODEM_FLAG_LTE w) eqn:El; [specialize (Hl eq_refl)|clear Hl].
  - assert (l_reg (link_of w) = OnLte (flag MODEM_FLAG_ROAMING w)) as -> by (unfold link_of; by rewrite Hl, El).
    by_status (rp_stat r); try done; reg_flags; by rewrite El.
  - assert (∀ A (f : bool → A) b, match l_reg (link_of w) with OnLte ro => f ro | _ => b end = b) as E.
    { intros. unfold link_of. cbn [l_reg]. rewrite El. by destruct (flag MODEM_FLAG_NET_READY w). }
    transitivity (if (rp_stat r =? 1) || (rp_stat r =? 5)
      then Link (OnGsm (rp_stat r =? 5)) (l_data (link_of w)) (l_up (link_of w))
      else if rp_stat r <=? 4 then down else link_of w).
    2: { symmetry. apply (E link). }
    by_status (rp_stat r); rewrite ?link_of_set_offline, ?(link_of_ignored (λ m, set_error_counter _ m)) by done; try done; reg_flags; by rewrite ?El.
Qed.

Lemma urc_cereg_step r p w : _reg_parse p = rp_stat r → 0 ≤ rp_stat r ≤ 9 → rp_domain r = EPS → modem_ok w →
  link_of (urc_cereg p w) = link_step (link_of w) r.
Proof.
  intros Ep Hs Hd Hok. unfold urc_cereg, link_step. rewrite Ep, Hd. clear Ep.
  pose proof (ok_lte w Hok) as Hl. destruct (flag MODEM_FLAG_LTE w) eqn:El; [specialize (Hl eq_refl)|clear Hl].
  - assert (l_reg (link_of w) = OnLte (flag MODEM_FLAG_ROAMING w)) as -> by (unfold link_of; by rewrite Hl, El).
    by_status (rp_stat r); reg_flags; by rewrite ?Hl, ?El.
  - assert (match l_reg (link_of w) with OnLte _ => down | _ => link_of w end = link_of w) as ->.
    { unfold link_of. cbn [l_reg]. rewrite El. by destruct (flag MODEM_FLAG_NET_READY w). }
    by_status (rp_stat r); try done; reg_flags; by rewrite ?El.
Qed.

Lemma urc_cgreg_step r p w : _reg_parse p = rp_stat r → 0 ≤ rp_stat r ≤ 9 → rp_domain r = PS → modem_ok w →
  link_of (urc_cgreg p w) = link_step (link_of w) r.
Proof.
  intros Ep Hs Hd Hok. unfold urc_cgreg, link_step. rewrite Ep, Hd. clear Ep.
  pose proof (ok_lte w Hok) as Hl. destruct (flag MODEM_FLAG_LTE w) eqn:El; [specialize (Hl eq_refl)|clear Hl].
  - assert (l_reg (link_of w) = OnLte (flag MODEM_FLAG_ROAMING w)) as -> by (unfold link_of; by rewrite Hl, El). done.
  - transitivity (Link (l_reg (link_of w)) ((rp_stat r =? 1) || (rp_stat r =? 5)) (l_up (link_of w))).
    2: { unfold link_of. cbn [l_reg]. rewrite El. by destruct (flag MODEM_FLAG_NET_READY w). }
    destruct (_ || _); reg_flags; done.
Qed.

Lemma report_step r n w : report_ok r → modem_ok w → link_of (at_line (report_line r) n w) = link_step (link_of w) r.
Proof.
  intros Hr Hok. rewrite at_line_report by done. pose proof (reg_parse_report r Hr) as Hp. destruct Hr as [Hs _].
  change (link_of w) with (link_of (at_set AT_ST_LINE w)).
  destruct (rp_domain r) eqn:E; [apply urc_creg_step|apply urc_cereg_step|apply urc_cgreg_step]; auto using ok_at_set.
Qed.

Definition report_text (r : report) : list Z := report_line r ++ [13; 10].

Lemma report_line_text r : report_ok r → line_text (report_line r) ∧ report_line r ≠ [] ∧
  (length (report_line r) <= rx_room)%nat.
Proof.
  intros [Hs Hm]. pose proof rx_room_eq. unfold report_line. eval_text.
  destruct (rp_domain r), (rp_mode r); cbn [app length]; (split; [repeat (constructor; [lia|]); constructor|split; [done|lia]]).
Qed.

Lemma modem_report_received r w : report_ok r → modem_ok w → rx_buf (w_at w) = [] →
  link_of (modem_rx_task (report_text r) w) = link_step (link_of w) r ∧
  rx_buf (w_at (modem_rx_task (report_text r) w)) = [].
Proof.
  intros Hr Hok Hb. destruct (report_line_text r Hr) as (Ht & Hne & Hlen). unfold report_text.
  rewrite modem_line_received by done. split; [|done].
  rewrite take_ge by done. change (link_of (in_buffer [] ?x)) with (link_of x).
  rewrite report_step; [| |unfold in_buffer, prompted].
  - f_equal. unfold prompted. by destruct (bool_decide _).
  - done.
  - destruct Hok. case_match; by constructor.
Qed.

(** C19 (refinement). The driver's idea of its registration follows the reports of
    the module exactly: however the reports of the circuit, LTE and GPRS domains
    follow one another, as answers or unasked, the flags hold the state of the
    registration machine, roaming, packet data and usable sockets included. *)
Theorem modem_registration_refines rs w : Forall report_ok rs → modem_ok w → rx_buf (w_at w) = [] →
  link_of (modem_rx_task (concat (report_text <$> rs)) w) = foldl link_step (link_of w) rs.
Proof.
  intros Hrs. revert w. induction Hrs as [|r rs Hr Hrs IH]; intros w Hok Hb; [done|].
  cbn [fmap list_fmap concat foldl]. rewrite rx_task_app.
  destruct (modem_report_received r w Hr Hok Hb) as [E Hb']. rewrite <-E. apply IH; [|done].
  by apply modem_rx_ok.
Qed.

End modem_link.
