(* ===== verification/ModemData.v ===== *)
(** * Datagrams and addresses in the lines of the module

    A datagram the module hands over in hexadecimal reaches the application byte
    for byte, and the address the module resolved a name to is the address the
    driver keeps, in either layout of the answer. *)

From S2P Require Import Prelude CText EventTypes EventBuf Storage EventMemory EventQueue Out.
From S2P Require Import Alarm ArmSection System Cfg SiaIp NetTarget Cms EventTask TracerBuf.
From S2P Require Import Inp Update Nmea Gps Report Cmd TracerProto ModemAt ModemUrc ModemLink.

Section modem_data.
Context `{M : ModemLib} `{MS : !ModemSpec M} `{CS : !CmdSpec ml_cmd}.

(** ** Datagrams *)

Definition hex_text (data : list Z) : list Z := data ≫= hex_fixed 2.
Definition hex_char (c : Z) : Prop := 48 ≤ c ≤ 57 ∨ 65 ≤ c ≤ 70.

Lemma hex_text_length data : length (hex_text data) = (2 * length data)%nat.
Proof. induction data as [|b data IH]; [done|]. unfold hex_text in *. cbn [mbind list_bind length]. rewrite length_app, hex_fixed_length, IH. lia. Qed.

Lemma hex_digit_char d : 0 ≤ d < 16 → hex_char (hex_digit d).
Proof. intros. unfold hex_char, hex_digit. destruct (Z.ltb_spec d 10); lia. Qed.

Lemma hex_fixed_2 b : hex_fixed 2 b = [hex_digit (b / 16 mod 16); hex_digit (b mod 16)].
Proof. done. Qed.

Lemma hex_text_chars data : Forall hex_char (hex_text data).
Proof.
  induction data as [|b data IH]; [done|]. unfold hex_text in *. cbn [mbind list_bind]. rewrite hex_fixed_2. cbn [app].
  do 2 (constructor; [by apply hex_digit_char, Z.mod_pos_bound|]). done.
Qed.

Lemma hex_to_bin_text data : Forall in_u8 data → hex_to_bin (length data) (hex_text data) = data.
Proof.
  induction 1 as [|b data Hb Hd IH]; [done|]. cbn [length hex_to_bin]. unfold hex_text in *. cbn [mbind list_bind].
  rewrite (scan_hex_fixed 2 0) by (first [lia | unfold in_u8 in *; lia | by left]).
  rewrite drop_app_length' by done. by rewrite IH, u8_small.
Qed.

(** No message of the module looks like hexadecimal. *)
Definition hex_lower (c : Z) : bool := is_digit c || ((97 <=? c) && (c <=? 102)).

Lemma hex_char_lower c : hex_char c → hex_lower (to_lower c) = true.
Proof.
  unfold hex_char, hex_lower, to_lower, is_upper, is_digit. intros Hc.
  destruct (Z.leb_spec 65 c), (Z.leb_spec c 90); cbn [andb]; apply orb_true_iff; rewrite !andb_true_iff, !Z.leb_le; lia.
Qed.

Lemma ieq_hex l t : Forall hex_char l → forallb hex_lower (to_lower <$> t) = false → ieq l t = false.
Proof.
  intros Hl Ht. apply not_true_is_false. rewrite ieq_spec. intros E. apply not_true_iff_false in Ht. apply Ht.
  rewrite <-E, forallb_forall. intros c (x & -> & Hx)%list_elem_of_In%list_elem_of_fmap.
  apply hex_char_lower. rewrite Forall_forall in Hl. by apply Hl.
Qed.

Lemma expect_hex l c pat : Forall hex_char l → ¬ hex_char c → expect (c :: pat) l = None.
Proof.
  intros Hl Hc. destruct Hl as [|x l Hx Hl]; [done|]. cbn. destruct (Z.eqb_spec x c); [by subst|done].
Qed.

Lemma line_hex l n w : Forall hex_char l →
  at_line l n w = let '(done, w') := modem_bg95_urc l n (at_set AT_ST_LINE w) in
                  if done : bool then w' else at_keep_response l n w'.
Proof.
  intros Hl. unfold at_line, modem_parse_urc. rewrite !stricmp_ieq, !modem_parse_pattern_expect.
  eval_text. rewrite !ieq_hex by done. rewrite !expect_hex by (done || (unfold hex_char; lia)). done.
Qed.

(** *** The answer to +QIRD *)

Definition qird_text (n : Z) : list Z := str "+QIRD: " ++ print_dec n ++ [13; 10].

Lemma skip_blanks_digits l : Forall (λ c, is_digit c = true) l → skip_blanks l = l.
Proof.
  intros Hl. destruct Hl as [|c l Hc Hl]; [done|]. apply is_digit_spec in Hc. cbn.
  destruct (Z.eqb_spec c 32); [lia|done].
Qed.

Lemma at_line_qird k n w : 0 ≤ k ≤ 2147483647 → rx_udp_len (mw_bg w) = 0 →
  at_line (str "+QIRD: " ++ print_dec k) n w =
    let w := at_set AT_ST_LINE w in
    if 0 <? k then upd_bg (set_rx_udp_len k) w
    else upd_socket (rx_udp_socket (mw_bg w)) (set_us_rx false) w.
Proof.
  intros Hk H0. unfold at_line, modem_parse_urc, modem_bg95_urc. rewrite !stricmp_ieq, !modem_parse_pattern_expect.
  change (rx_udp_len (mw_bg (at_set AT_ST_LINE w))) with (rx_udp_len (mw_bg w)). rewrite H0.
  eval_text. cbn [app expect ieq Z.eqb fmap option_fmap option_map Pos.eqb negb skip_blanks].
  destruct (print_dec_digits k) as [Hd _]; [lia|]. rewrite skip_blanks_digits by done.
  unfold bg95_qird. rewrite <-(app_nil_r (print_dec k)), parse_number_printed by (done || lia). done.
Qed.

(** A line that fits, without a prompt in it. *)
Lemma plain_line_received l w : line_text l → l ≠ [] → 62 ∉ l → Z.of_nat (length l) ≤ 2046 → rx_buf (w_at w) = [] →
  modem_rx_task (l ++ [13; 10]) w = in_buffer [] (at_line l (Z.of_nat (length l) + 1) (in_buffer l w)).
Proof.
  intros Hl Hne H62 Hlen Hb. pose proof rx_room_eq. rewrite modem_line_received by done. rewrite take_ge by lia.
  unfold prompted, counted_len. rewrite bool_decide_eq_false_2, Z.min_l by (done || lia). done.
Qed.

Lemma hex_text_plain data : line_text (hex_text data) ∧ 62 ∉ hex_text data.
Proof.
  pose proof (hex_text_chars data) as H. split.
  - eapply Forall_impl; [done|]. unfold hex_char. cbn. lia.
  - intros Hin. rewrite Forall_forall in H. apply H in Hin. unfold hex_char in Hin. lia.
Qed.

Lemma qird_line_plain k : 0 ≤ k < 10 ^ 20 →
  line_text (str "+QIRD: " ++ print_dec k) ∧ 62 ∉ str "+QIRD: " ++ print_dec k.
Proof.
  intros Hk. destruct (print_dec_digits k Hk) as [Hd _]. eval_text. split.
  - apply Forall_app. split; [repeat (constructor; [done|]); constructor|]. eapply Forall_impl; [done|].
    intros c Hc%is_digit_spec. lia.
  - rewrite elem_of_app. intros [Hin|Hin]; [rewrite !elem_of_cons, elem_of_nil in Hin; lia|].
    rewrite Forall_forall in Hd. by apply Hd in Hin.
Qed.

(** The length is announced. *)
Lemma qird_received k w : 0 < k ≤ 2147483647 → rx_buf (w_at w) = [] → rx_udp_len (mw_bg w) = 0 →
  modem_rx_task (qird_text k) w = in_buffer [] (upd_bg (set_rx_udp_len k) (at_set AT_ST_LINE w)).
Proof.
  intros Hk Hb H0. unfold qird_text. rewrite app_assoc. destruct (qird_line_plain k) as [Ht H62]; [lia|].
  rewrite plain_line_received; [|done|done|done| |done].
  - rewrite at_line_qird by (done || lia). cbv zeta. destruct (Z.ltb_spec 0 k); [|lia].
    destruct w as [[[] ? ? ? ? ? ? ? ?] ? ? ?]. reflexivity.
  - rewrite length_app. pose proof (print_dec_length 10 k). cbn. lia.
Qed.

(** C21 (roundtrip). A datagram arrives: the announcement of its length and its
    bytes in hexadecimal, read character by character, give the application
    exactly these bytes with the address of the socket they were fetched from,
    once; the receiver is back in the state of lines and the socket known to be
    alive. *)
Theorem modem_datagram_received data s w :
  Forall in_u8 data → data ≠ [] → Z.of_nat (length data) ≤ 1023 →
  rx_buf (w_at w) = [] → rx_udp_len (mw_bg w) = 0 →
  udp_socket (mw_bg w) !! Z.to_nat (rx_udp_socket (mw_bg w)) = Some s → us_port s ≠ 53 →
  let w' := modem_rx_task (qird_text (Z.of_nat (length data)) ++ hex_text data ++ [13; 10]) w in
  mw_log w' = mw_log w ++ [MUdp data (us_ip s) (us_port s)] ∧
  rx_buf (w_at w') = [] ∧ rx_udp_len (mw_bg w') = 0 ∧ tx_cnt (mw_bg w') = 0 ∧
  udp_socket (mw_bg w') = <[Z.to_nat (rx_udp_socket (mw_bg w)) :=
    UdpSocket (u32 (mw_now w + _RX_RETRY_TIME)) (us_tmout s) (mw_now w) 0 (us_ip s) (us_port s) true (us_ready s)]>
      (udp_socket (mw_bg w)).
Proof.
  intros Hd Hne Hlen Hb H0 Hs Hp. cbv zeta. rewrite rx_task_app.
  assert (0 < Z.of_nat (length data)) by (destruct data; [done|]; cbn; lia).
  rewrite qird_received by (done || lia). set (w1 := in_buffer [] _).
  destruct (hex_text_plain data) as [Ht H62]. pose proof (hex_text_length data) as Hl.
  rewrite plain_line_received; [|done| |done|lia|done].
  2: { intros E. rewrite E in Hl. cbn in Hl. lia. }
  rewrite line_hex by apply hex_text_chars. set (w2 := at_set AT_ST_LINE (in_buffer (hex_text data) w1)).
  unfold modem_bg95_urc. change (rx_udp_len (mw_bg w2)) with (Z.of_nat (length data)).
  rewrite (proj2 (Z.eqb_neq _ 0)) by lia. cbn [negb]. unfold bg95_data_line.
  change (rx_udp_len (mw_bg w2)) with (Z.of_nat (length data)).
  rewrite u32_small by (unfold in_u32; lia). rewrite (proj2 (Z.eqb_eq _ (2 * _ + 1))) by lia.
  unfold _udp_rx_hex. change (udp_socket (mw_bg w2)) with (udp_socket (mw_bg w)).
  change (rx_udp_socket (mw_bg w2)) with (rx_udp_socket (mw_bg w)). rewrite Hs, Nat2Z.id, hex_to_bin_text by done.
  rewrite Z.eqb_refl. unfold udp_rx. rewrite (proj2 (Z.eqb_neq _ 53)) by done.
  split; [done|]. split; [done|]. split; [done|]. split; [done|].
  cbn -[alter insert u32 _RX_RETRY_TIME]. apply list_eq. intros i.
  destruct (decide (i = Z.to_nat (rx_udp_socket (mw_bg w)))) as [->|Hi].
  - rewrite list_lookup_alter_eq, list_lookup_insert_eq, Hs by (by apply lookup_lt_Some in Hs). done.
  - by rewrite list_lookup_alter_ne, list_lookup_insert_ne by done.
Qed.

(** ** Addresses of names *)

Lemma scan_u32_print v r : 0 ≤ v < 1000 → match r with [] => True | c :: _ => digit_val 10 c = None end →
  scan_u32 (print_dec v ++ r) = Some (v, r).
Proof.
  intros Hv Hr. unfold scan_u32, print_dec. destruct (Z.ltb_spec v 0); [lia|].
  destruct (digits_fuel_spec 20 v []) as (l & -> & Hf & Hne & Hs); [lia|lia|].
  rewrite app_nil_r. pose proof (scan_digits l r Hf Hne Hr) as E. rewrite Hs in E. apply E. lia.
Qed.

Lemma scan_quad_u_print a b c d : in_u8 a → in_u8 b → in_u8 c → in_u8 d →
  scan_quad_u (print_quad a b c d) = Some (a, b, c, d).
Proof.
  unfold in_u8. intros Ha Hb Hc Hd. unfold scan_quad_u, print_quad.
  do 3 (rewrite scan_u32_print by (done || lia); cbn [mbind option_bind app scan_char]; rewrite Z.eqb_refl;
    cbn [mbind option_bind]).
  rewrite <-(app_nil_r (print_dec d)). by rewrite scan_u32_print by (done || lia).
Qed.

Definition addr_of (a b c d : Z) : Z := a + 256 * b + 65536 * c + 16777216 * d.

Lemma print_quad_text a b c d : in_u8 a → in_u8 b → in_u8 c → in_u8 d →
  Forall (λ x, is_digit x = true ∨ x = 46) (print_quad a b c d) ∧ (length (print_quad a b c d) <= 15)%nat.
Proof.
  unfold in_u8. intros Ha Hb Hc Hd.
  assert (∀ v, 0 ≤ v < 256 → Forall (λ x, is_digit x = true ∨ x = 46) (print_dec v)) as Hp.
  { intros v Hv. eapply Forall_impl; [apply print_dec_digits; lia|]. cbn. auto. }
  unfold print_quad. rewrite !Forall_app, !length_app.
  pose proof (print_dec_short a). pose proof (print_dec_short b). pose proof (print_dec_short c).
  pose proof (print_dec_short d). cbn [length]. split; [|lia]. repeat split; (by apply Hp || (constructor; [by right|done])).
Qed.

Lemma dnsgip_ip_print a b c d : in_u8 a → in_u8 b → in_u8 c → in_u8 d →
  _dnsgip_ip (QUOTE ++ print_quad a b c d ++ QUOTE) = Some (addr_of a b c d).
Proof.
  intros Ha Hb Hc Hd. unfold _dnsgip_ip. destruct (print_quad_text a b c d) as [Ht Hl]; [done..|].
  rewrite <-(app_nil_r QUOTE) at 2. rewrite parse_string_quoted; [| |lia].
  2: { eapply Forall_impl; [done|]. cbn. intros x [Hx%is_digit_spec| ->]; lia. }
  cbn [mbind option_bind]. rewrite scan_quad_u_print by done. unfold in_u8 in *. cbn [mbind option_bind].
  rewrite !(proj2 (Z.ltb_ge 255 _)) by lia. cbn [orb]. rewrite !Z.shiftl_mul_pow2 by lia. f_equal.
  change (2 ^ 8) with 256. change (2 ^ 16) with 65536. change (2 ^ 24) with 16777216.
  unfold addr_of. rewrite u32_small by (unfold in_u32; lia). lia.
Qed.

(** The lines of an answer: the address on a line of its own or in the header. *)
Definition dns_line (rest : list Z) : list Z := qstr "+QIURC: 'dnsgip'," ++ rest.
Definition dns_header (cnt ttl : Z) : list Z := str "0," ++ print_dec cnt ++ str "," ++ print_dec ttl.
Definition dns_quoted (a b c d : Z) : list Z := QUOTE ++ print_quad a b c d ++ QUOTE.

Definition dns_answer (merged : bool) (cnt ttl a b c d : Z) : list Z :=
  if merged then dns_line (dns_header cnt ttl ++ str "," ++ dns_quoted a b c d) ++ [13; 10]
  else (dns_line (dns_header cnt ttl) ++ [13; 10]) ++ dns_line (dns_quoted a b c d) ++ [13; 10].

Lemma at_line_dns rest n w : rx_udp_len (mw_bg w) = 0 → dns_active (bg_dns (mw_bg w)) = true →
  at_line (dns_line rest) n w =
    upd_bg (λ b, set_bg_dns (modem_bg95_dnsgip_parse (dns_line rest) (bg_dns b)).2 b) (at_set AT_ST_LINE w).
Proof.
  intros H0 Ha. unfold at_line, modem_parse_urc, modem_bg95_urc. rewrite !stricmp_ieq, !modem_parse_pattern_expect.
  change (mw_bg (at_set AT_ST_LINE w)) with (mw_bg w). rewrite H0, Ha. unfold dns_line.
  eval_text. cbn [app expect ieq Z.eqb fmap option_fmap option_map Pos.eqb negb skip_blanks]. done.
Qed.

Lemma dns_line_head rest : skip_blanks rest = rest →
  modem_parse_pattern (dns_line rest) (qstr "+QIURC: 'dnsgip',") = Some rest.
Proof.
  intros Hb. rewrite modem_parse_pattern_expect. unfold dns_line.
  rewrite (proj2 (expect_spec _ (_ ++ rest) rest)) by done. cbn [fmap option_fmap option_map]. by rewrite Hb.
Qed.

Lemma dns_parse_quoted a b c d dd : in_u8 a → in_u8 b → in_u8 c → in_u8 d →
  modem_bg95_dnsgip_parse (dns_line (dns_quoted a b c d)) dd =
    (true, DnsState (dns_active dd) true true (addr_of a b c d)).
Proof.
  intros Ha Hb Hc Hd. unfold modem_bg95_dnsgip_parse. rewrite dns_line_head by done. cbv zeta.
  pose proof (dnsgip_ip_print a b c d Ha Hb Hc Hd) as E. unfold dns_quoted, QUOTE in *.
  cbn [app skip_blanks Z.eqb Pos.eqb] in *. by rewrite E.
Qed.

Lemma from_quote_skip l r : 34 ∉ l → from_quote (l ++ QUOTE ++ r) = Some (QUOTE ++ r).
Proof.
  induction l as [|x l IH]; intros Hl; [done|]. cbn. apply not_elem_of_cons in Hl as [Hx Hl].
  destruct (Z.eqb_spec x 34); [by subst|]. by apply IH.
Qed.

Lemma from_quote_none l : 34 ∉ l → from_quote l = None.
Proof.
  induction l as [|x l IH]; intros Hl; [done|]. cbn. apply not_elem_of_cons in Hl as [Hx Hl].
  destruct (Z.eqb_spec x 34); [by subst|]. by apply IH.
Qed.

Definition header_tail (cnt ttl : Z) : list Z := str "," ++ print_dec cnt ++ str "," ++ print_dec ttl.

Lemma header_no_quote cnt ttl : 0 ≤ cnt < 10 ^ 20 → 0 ≤ ttl < 10 ^ 20 → 34 ∉ header_tail cnt ttl.
Proof.
  intros Hc Ht. destruct (print_dec_digits cnt Hc) as [Dc _]. destruct (print_dec_digits ttl Ht) as [Dt _].
  rewrite Forall_forall in Dc, Dt. unfold header_tail. eval_text. rewrite !elem_of_app, !list_elem_of_singleton.
  intros [?|[Hin%Dc|[?|Hin%Dt]]]; try done.
Qed.

Lemma dns_parse_header q dd : (q = [] ∨ ∃ q', q = 44 :: q') →
  modem_bg95_dnsgip_parse (dns_line (48 :: q)) dd =
    (true, match from_quote q with
           | None => dd
           | Some q => match _dnsgip_ip q with Some ip => DnsState (dns_active dd) true true ip | None => dd end
           end).
Proof.
  intros Hq. unfold modem_bg95_dnsgip_parse. rewrite dns_line_head by done. cbv zeta.
  change (skip_blanks (48 :: q)) with (48 :: q). cbv iota beta.
  change (48 :: q) with (print_dec 0 ++ q). rewrite parse_number_printed; [|lia|destruct Hq as [->|[? ->]]; done].
  cbn [Z.eqb negb]. by destruct (from_quote q).
Qed.

Lemma digits_plain v : 0 ≤ v < 10 ^ 20 → line_text (print_dec v) ∧ 62 ∉ print_dec v.
Proof.
  intros Hv. destruct (print_dec_digits v Hv) as [Hd _]. split.
  - eapply Forall_impl; [done|]. intros c Hc%is_digit_spec. lia.
  - rewrite Forall_forall in Hd. by intros Hin%Hd.
Qed.

(** Text with its length, as a line of the module. *)
Definition plain (l : list Z) : Prop := line_text l ∧ 62 ∉ l.
Lemma plain_chars_app l1 l2 : plain l1 → plain l2 → plain (l1 ++ l2).
Proof. intros [] []. split; [by apply Forall_app|]. rewrite elem_of_app. naive_solver. Qed.
Lemma plain_literal l : forallb (λ c, negb (bool_decide (c ∈ [0; 10; 13; 62]))) l = true → plain l.
Proof.
  intros H. rewrite forallb_forall in H. split.
  - apply Forall_forall. intros c Hc%list_elem_of_In%H. apply negb_true_iff, bool_decide_eq_false in Hc.
    set_solver.
  - intros Hc%list_elem_of_In%H. done.
Qed.

Lemma dns_lines_plain cnt ttl a b c d :
  0 ≤ cnt < 1000 → 0 ≤ ttl < 10 ^ 10 → in_u8 a → in_u8 b → in_u8 c → in_u8 d →
  plain (dns_header cnt ttl) ∧ plain (dns_quoted a b c d) ∧
  (length (dns_header cnt ttl) <= 20)%nat ∧ (length (dns_quoted a b c d) <= 17)%nat.
Proof.
  intros Hc Ht Ha Hb Hcc Hd. destruct (print_quad_text a b c d) as [Hq Hl]; [done..|].
  split; [|split; [|split]].
  - unfold dns_header. repeat apply plain_chars_app; first [by apply plain_literal|apply digits_plain; lia].
  - unfold dns_quoted. apply plain_chars_app; [by apply plain_literal|]. apply plain_chars_app; [|by apply plain_literal]. split.
    + eapply Forall_impl; [done|]. cbn. intros x [Hx%is_digit_spec| ->]; lia.
    + rewrite Forall_forall in Hq. by intros [Hx|Hx]%Hq.
  - unfold dns_header. rewrite !length_app. pose proof (print_dec_length 3 cnt). pose proof (print_dec_length 10 ttl).
    cbn [length str]. eval_text. cbn [length]. lia.
  - unfold dns_quoted. rewrite !length_app. cbn. lia.
Qed.

Lemma dns_line_received rest w : plain rest → Z.of_nat (length rest) ≤ 100 → rx_buf (w_at w) = [] →
  rx_udp_len (mw_bg w) = 0 → dns_active (bg_dns (mw_bg w)) = true →
  modem_rx_task (dns_line rest ++ [13; 10]) w =
    upd_bg (λ b, set_bg_dns (modem_bg95_dnsgip_parse (dns_line rest) (bg_dns b)).2 b) (at_set AT_ST_LINE w).
Proof.
  intros Hp Hl Hb H0 Ha. assert (plain (dns_line rest)) as [Ht H62] by (apply plain_chars_app; [by apply plain_literal|done]).
  rewrite plain_line_received; [|done|done|done| |done].
  - rewrite at_line_dns by done. destruct w as [[[] ? ? ? ? ? ? ? ?] ? ? ?]. cbn in Hb. subst. reflexivity.
  - unfold dns_line. rewrite length_app. eval_text. cbn. lia.
Qed.

Lemma dns_header_cons cnt ttl r : dns_header cnt ttl ++ r = 48 :: header_tail cnt ttl ++ r.
Proof. done. Qed.

Lemma dns_parse_header_only cnt ttl dd : 34 ∉ header_tail cnt ttl →
  modem_bg95_dnsgip_parse (dns_line (dns_header cnt ttl)) dd = (true, dd).
Proof.
  intros Hq. rewrite <-(app_nil_r (dns_header _ _)), dns_header_cons, app_nil_r.
  rewrite dns_parse_header, from_quote_none by (done || by right; eexists). done.
Qed.

Lemma dns_parse_merged cnt ttl a b c d dd : in_u8 a → in_u8 b → in_u8 c → in_u8 d → 34 ∉ header_tail cnt ttl →
  modem_bg95_dnsgip_parse (dns_line (dns_header cnt ttl ++ str "," ++ dns_quoted a b c d)) dd =
    (true, DnsState (dns_active dd) true true (addr_of a b c d)).
Proof.
  intros Ha Hb Hc Hd Hq. rewrite dns_header_cons, dns_parse_header by (by right; eexists).
  unfold dns_quoted. rewrite app_assoc, from_quote_skip, dnsgip_ip_print; [done..|].
  eval_text. rewrite elem_of_app, list_elem_of_singleton. by intros [?|?].
Qed.

(** The answer of the module to a question for a name, in either layout, leaves
    its address for whoever asked. *)
Lemma dns_answer_received merged cnt ttl a b c d w :
  0 ≤ cnt < 1000 → 0 ≤ ttl < 10 ^ 10 → in_u8 a → in_u8 b → in_u8 c → in_u8 d →
  rx_buf (w_at w) = [] → rx_udp_len (mw_bg w) = 0 → dns_active (bg_dns (mw_bg w)) = true →
  modem_rx_task (dns_answer merged cnt ttl a b c d) w =
    upd_bg (set_bg_dns (DnsState true true true (addr_of a b c d))) (at_set AT_ST_LINE w).
Proof.
  intros Hcnt Httl Ha Hb Hc Hd Hbuf H0 Hact.
  destruct (dns_lines_plain cnt ttl a b c d) as (P1 & P2 & L1 & L2); [done..|].
  assert (34 ∉ header_tail cnt ttl) as Hq by (apply header_no_quote; lia).
  destruct merged; unfold dns_answer.
  - rewrite dns_line_received; [|..|done|done|done].
    + unfold upd_bg. cbn [mw_bg at_set upd_at upd_m]. rewrite dns_parse_merged by done. cbn [snd]. by rewrite Hact.
    + apply plain_chars_app; [done|]. apply plain_chars_app; [by apply plain_literal|done].
    + rewrite !length_app. cbn [length str]. eval_text. cbn [length]. lia.
  - rewrite rx_task_app.
    assert (modem_rx_task (dns_line (dns_header cnt ttl) ++ [13; 10]) w = at_set AT_ST_LINE w) as ->.
    { rewrite dns_line_received by (done || lia). unfold upd_bg. cbn [mw_bg at_set upd_at upd_m].
      rewrite dns_parse_header_only by done. by destruct w as [[] [] ? ?]. }
    rewrite dns_line_received by (done || lia). unfold upd_bg. cbn [mw_bg at_set upd_at upd_m].
    rewrite dns_parse_quoted by done. cbn [snd]. rewrite Hact.
    fold (at_set AT_ST_LINE (at_set AT_ST_LINE w)). by rewrite at_set_twice.
Qed.

End modem_data.
