(* ===== verification/ModemCmd.v ===== *)
(** * The commands of the driver (modem/modem_at.c, modem/modem.c, modem/modem_bg95.c)

    A command is sent and its answer awaited: the driver's task yields in a loop
    until the receiver, running in a task of its own, has set one of the flags
    waited for, or the time is over.  The scheduler and the module are an
    environment that answers every yield with the characters that came in
    meanwhile and the time that passed; it may use everything that happened
    before.  Commands of different tasks follow one another: nobody else gives
    the semaphore of the commands back, so a task that takes it twice is stuck. *)

From S2P Require Import Prelude CText EventTypes EventBuf Storage EventMemory EventQueue Out.
From S2P Require Import Alarm ArmSection System Cfg SiaIp NetTarget Cms EventTask TracerBuf.
From S2P Require Import Inp Update Nmea Gps Report Cmd TracerProto ModemAt.

(** ** Effects *)

(** [None]: the task is stuck, or a loop was given too few turns. *)
Definition MM (A : Type) : Type := mworld → option (A * mworld).
#[global] Instance MM_ret : MRet MM := λ A a w, Some (a, w).
#[global] Instance MM_bind : MBind MM := λ A B f m w,
  match m w with Some (a, w') => f a w' | None => None end.

Definition stuck {A} : MM A := λ _, None.
Definition act (f : mworld → mworld) : MM () := λ w, Some ((), f w).
Definition see {A} (f : mworld → A) : MM A := λ w, Some (f w, w).

(** [while (cond) body], left with a result by [break] or [return]. *)
Fixpoint mloop {A} (fuel : nat) (cond : mworld → bool) (body : MM (option A)) : MM (option A) := λ w,
  if cond w then
    match fuel with
    | O => None
    | S fuel =>
        match body w with
        | Some (None, w) => mloop fuel cond body w
        | r => r
        end
    end
  else Some (None, w).

(** [while (OS_TIMER() < limit)] and [while (os_timer_get() <= limit)], a turn of
    which takes time. *)
Definition while_before {A} (limit : Z) (body : MM (option A)) : MM (option A) := λ w,
  mloop (Z.to_nat (limit - mw_now w)) (λ w, mw_now w <? limit) body w.
Definition while_upto {A} (limit : Z) (body : MM (option A)) : MM (option A) := λ w,
  mloop (Z.to_nat (limit + 1 - mw_now w)) (λ w, mw_now w <=? limit) body w.

Definition pin (p : pin_action) : MM () := act (mlog (MPin p)).

(** src/modem/modem.c:513-520 (modem_tx_data) *)
Definition modem_tx_data (data : list Z) : MM () := act (mlog (MTx data)).

(** src/modem/modem.h:11-15 (MODEM_TIMEOUT_S .. MODEM_TIMEOUT_NET) *)
Definition MODEM_TIMEOUT_S : Z := 5 * 1000.
Definition MODEM_TIMEOUT_M : Z := 10 * 1000.
Definition MODEM_TIMEOUT_L : Z := 60 * 1000.
Definition MODEM_TIMEOUT_LL : Z := 900 * 1000.

(** src/modem/modem.h:40-47 (modem_config_t) *)
Record modem_config := ModemConfig {
  mc_ask : option (list Z);
  mc_result : list Z;
  mc_set : list Z;
  mc_timeout : Z
}.

(** src/modem/modem.c:15-23 (MODEM_CONFIG) *)
Definition MODEM_CONFIG : list modem_config :=
  [ModemConfig (Some (str "AT+CMEE?")) (str "+CMEE: 1") (str "AT+CMEE=1") MODEM_TIMEOUT_S;
   ModemConfig (Some (str "AT+CMGF?")) (str "+CMGF: 0") (str "AT+CMGF=0") MODEM_TIMEOUT_S;
   ModemConfig None [] (str "AT+CEREG=1") MODEM_TIMEOUT_S].

(** src/modem/modem_bg95.c:110-130 (MODEM_BG95_CONFIG) *)
Definition MODEM_BG95_CONFIG : list modem_config :=
  [ModemConfig (Some (qstr "AT+QURCCFG='urcport'")) (qstr "+QURCCFG: 'urcport','uart1'")
     (qstr "AT+QURCCFG='urcport','uart1'") MODEM_TIMEOUT_S;
   ModemConfig (Some (qstr "AT+QCFG='nwscanmode'")) (qstr "+QCFG: 'nwscanmode',0")
     (qstr "AT+QCFG='nwscanmode',0,1") MODEM_TIMEOUT_S;
   ModemConfig (Some (qstr "AT+QCFG='nwscanseq'")) (qstr "+QCFG: 'nwscanseq',020103")
     (qstr "AT+QCFG='nwscanseq',020103,1") MODEM_TIMEOUT_S;
   ModemConfig (Some (qstr "AT+QCFG='iotopmode'")) (qstr "+QCFG: 'iotopmode',0")
     (qstr "AT+QCFG='iotopmode',0,1") MODEM_TIMEOUT_S;
   ModemConfig None [] (str "AT+QSCLK=1") MODEM_TIMEOUT_S;
   ModemConfig None [] (str "AT+QJDR=1") MODEM_TIMEOUT_S].

Section commands.
Context `{F : FlashLib} `{M : ModemLib}.

(** The other tasks and the module: what comes in during a yield and how long it
    takes, by the time and all that happened. *)
Variable env : Z → list maction → list Z * Z.
(** The flash with the configuration. *)
Variable st : storage.

(** [OS_TASK_YIELD ()]. *)
Definition yield : MM Z := λ w,
  let '(chars, d) := env (mw_now w) (mw_log w) in
  let d := Z.max 1 d in
  Some (d, modem_rx_task chars (set_now (u32 (mw_now w + d)) (mlog (MRx chars) w))).

(** [OS_DELAY (ms)]. *)
Fixpoint delay_loop (fuel : nat) (left : Z) : MM () :=
  if 0 <? left then
    match fuel with
    | O => stuck
    | S fuel => d ← yield; delay_loop fuel (left - d)
    end
  else mret ().
Definition OS_DELAY (ms : Z) : MM () := delay_loop (Z.to_nat ms) ms.

Definition cfg_text (id : cfg_id) : option (list Z) :=
  match cfg_read (cfg_id_code id) ACCESS_SYSTEM st with
  | Ok (true, t) => Some t
  | _ => None
  end.

(** ** The dialogue *)

(** src/modem/modem_main.c:89-94 (_hw_wakeup) *)
Definition _hw_wakeup : MM () := _ ← pin (OE true); _ ← pin UART_ON; pin (DTR_LOW true).
(** src/modem/modem_main.c:84-87 (_hw_sleep) *)
Definition _hw_sleep : MM () := pin (DTR_LOW false).

(** src/modem/modem_at.c:43-53 (modem_at_wakeup) *)
Definition modem_at_wakeup : MM () :=
  _ ← _hw_wakeup;
  sleep ← see (λ w, m_sleep (mw_m w));
  if sleep : bool then _ ← OS_DELAY 100; act (upd_m (set_m_sleep false)) else mret ().

(** src/modem/modem_at.c:55-60 (modem_at_lock) *)
Definition modem_at_lock : MM () :=
  taken ← see (λ w, at_busy (w_at w));
  if taken : bool then stuck
  else _ ← act (upd_at (set_at_busy true)); modem_at_wakeup.

(** src/modem/modem_at.c:63-68 (modem_at_unlock) *)
Definition modem_at_unlock : MM () := act (upd_at (set_at_busy false)).

(** src/modem/modem_at.c:71-74 (modem_at_busy) *)
Definition modem_at_busy (w : mworld) : bool := at_busy (w_at w).

(** src/modem/modem_at.c:76-82 (_clr_response) *)
Definition _clr_response (a : modem_at) : modem_at :=
  let a := set_at_flags (clr (at_flags a) (Z.lor AT_ST_OK (Z.lor AT_ST_ERROR (Z.lor AT_ST_USER_STR
             (Z.lor AT_ST_RAB AT_ST_LINE))))) a in
  set_user_str None (set_response [] (set_response_len 0 a)).

(** src/modem/modem_at.c:84-88 (modem_at_raw) *)
Definition modem_at_raw (data : list Z) : MM () :=
  _ ← act (at_clr (Z.lor AT_ST_OK (Z.lor AT_ST_ERROR (Z.lor AT_ST_USER_STR AT_ST_RAB))));
  modem_tx_data data.

(** src/modem/modem_at.c:90-107 (modem_at_cmd_nolock) *)
Definition modem_at_cmd_nolock (at_cmd : list Z) : MM () :=
  _ ← act (upd_at _clr_response);
  _ ← act (upd_at (set_last_error_result 0));
  _ ← modem_tx_data at_cmd;
  modem_tx_data [13; 10].

(** src/modem/modem_at.c:109-130 (modem_at_response) *)
Definition modem_at_response (user_str : option (list Z)) (flags timeout : Z) : MM Z :=
  _ ← (if has flags AT_ST_RESET then act (at_clr flags) else mret ());
  _ ← act (upd_at (set_user_str user_str));
  now ← see mw_now;
  r ← while_before (u32 (now + timeout))
        (fl ← see (λ w, at_flags (w_at w));
         if has flags fl then mret (Some fl) else _ ← yield; mret None);
  match r with
  | Some fl => mret fl
  | None => _ ← act (errors 1); mret 0
  end.

(** The mark of a command's time and the command. *)
(** src/modem/modem_at.c:141-155 (_at_cmd_and_response_ok) *)
Definition at_cmd_timeout (at_cmd : list Z) : Z * list Z :=
  match at_cmd with
  | c :: at_cmd' =>
      if c =? 33 then (MODEM_TIMEOUT_S, at_cmd')
      else if c =? 64 then
        match at_cmd' with
        | c :: at_cmd'' => if c =? 64 then (MODEM_TIMEOUT_LL, at_cmd'') else (MODEM_TIMEOUT_L, at_cmd')
        | [] => (MODEM_TIMEOUT_L, [])
        end
      else (MODEM_TIMEOUT_M, at_cmd)
  | [] => (MODEM_TIMEOUT_M, [])
  end.

(** The result and what is put into the destination. *)
(** src/modem/modem_at.c:132-180 (_at_cmd_and_response_ok) *)
Definition _at_cmd_and_response_ok (at_cmd : list Z) (user_str : option (list Z)) : MM (bool * list Z) :=
  let '(timeout, at_cmd) := at_cmd_timeout at_cmd in
  _ ← modem_at_cmd_nolock at_cmd;
  resp ← modem_at_response user_str (Z.lor AT_ST_OK AT_ST_ERROR) timeout;
  let found := has resp AT_ST_USER_STR in
  let anything := match user_str with None => true | Some _ => false end in
  text ← see (λ w, if anything || found then response (w_at w) else []);
  mret (has resp AT_ST_OK && (anything || found), text).

(** src/modem/modem_at.c:182-189 (modem_at_response_ok) *)
Definition modem_at_response_ok (at_cmd user_str : list Z) : MM bool :=
  _ ← modem_at_lock;
  r ← _at_cmd_and_response_ok at_cmd (Some user_str);
  _ ← modem_at_unlock;
  mret r.1.

(** src/modem/modem_at.c:191-199 (modem_at_ok_cmd) *)
Definition modem_at_ok_cmd (at_cmd : list Z) : MM bool :=
  _ ← modem_at_lock;
  r ← _at_cmd_and_response_ok at_cmd None;
  _ ← modem_at_unlock;
  mret r.1.

(** src/modem/modem_at.c:202-205 (modem_at_ok_cmd_nolock) *)
Definition modem_at_ok_cmd_nolock (at_cmd : list Z) : MM bool :=
  r ← _at_cmd_and_response_ok at_cmd None; mret r.1.

(** src/modem/modem_at.c:12-12 (AT_BUFFER_SIZE) *)
Definition AT_BUFFER_SIZE : Z := 128.

(** [text] is the formatted command. *)
(** src/modem/modem_at.c:207-224 (modem_at_ok_cmd_fmt) *)
Definition modem_at_ok_cmd_fmt (text : list Z) : MM bool :=
  if AT_BUFFER_SIZE <=? Z.of_nat (length text) then mret false else modem_at_ok_cmd text.

(** src/modem/modem_at.c:227-235 (modem_at_cmd_get_response) *)
Definition modem_at_cmd_get_response (at_cmd : list Z) (user_str : option (list Z)) : MM (bool * list Z) :=
  _ ← modem_at_lock;
  r ← _at_cmd_and_response_ok at_cmd user_str;
  _ ← modem_at_unlock;
  mret r.

(** A line that is not the one waited for is left and the flag cleared; the loop
    is then at the yield. *)
(** src/modem/modem_at.c:238-271 (modem_at_read_line) *)
Definition modem_at_read_line (user_str : option (list Z)) (timeout : Z) : MM (Z * list Z) :=
  _ ← act (upd_at _clr_response);
  now ← see mw_now;
  _ ← act (upd_at (set_user_str user_str));
  r ← while_before (u32 (now + timeout))
        (a ← see w_at;
         let other := bool_decide (is_Some (ModemAt.user_str a)) && negb (has (at_flags a) AT_ST_USER_STR) in
         if has (at_flags a) AT_ST_LINE && negb other then
           mret (Some (Some (Z.land (at_flags a) (Z.lor AT_ST_LINE AT_ST_USER_STR), response a)))
         else
           _ ← (if has (at_flags a) AT_ST_LINE then act (at_clr AT_ST_LINE) else mret ());
           if has (at_flags a) AT_ST_ERROR then mret (Some None)
           else _ ← yield; mret None);
  match r with
  | Some (Some l) => mret l
  | _ => _ ← act (errors 1); mret (0, [])
  end.

(** ** Starting the module *)

(** src/modem/modem_main.c:55-70 (_hw_on) *)
Definition _hw_on : MM () :=
  _ ← pin UART_ON; _ ← pin (OE true); _ ← pin (DTR_LOW true);
  _ ← OS_DELAY 10;
  alive ← modem_at_ok_cmd_nolock (str "!AT");
  if alive : bool then mret ()
  else _ ← pin (PWRKEY_LOW true); _ ← OS_DELAY 1000; pin (PWRKEY_LOW false).

(** src/modem/modem_main.c:72-82 (_hw_off) *)
Definition _hw_off : MM () :=
  ok ← modem_at_ok_cmd_nolock (str "AT+QPOWD=1");
  _ ← (if ok : bool then mret () else _ ← OS_DELAY 1000; modem_at_cmd_nolock (str "AT+QPOWD=1"));
  _ ← pin (OE false); pin UART_OFF.

(** src/modem/modem.c:62-65 (_ok_test) *)
Definition _ok_test : MM bool := modem_at_ok_cmd (str "!AT").

(** src/modem/modem.c:67-77 (_modem_ready) *)
Definition _modem_ready : MM bool :=
  ok ← _ok_test;
  if ok : bool then mret true
  else _ ← OS_DELAY 500; _ok_test.

Fixpoint check_pin_loop (retry : nat) : MM bool :=
  match retry with
  | O => mret false
  | S retry =>
      _ ← modem_at_ok_cmd (str "AT+CPIN?");
      ready ← see (flag MODEM_FLAG_PIN_READY);
      if ready : bool then mret true else _ ← OS_DELAY 500; check_pin_loop retry
  end.
(** src/modem/modem.c:79-93 (_check_pin) *)
Definition _check_pin : MM bool := check_pin_loop 5.

Fixpoint after_comma (s : list Z) : option (list Z) :=
  match s with [] => None | c :: s' => if c =? 44 then Some s' else after_comma s' end.

(** The answer is cut to the 31 characters of the buffer. *)
(** src/modem/modem.c:95-113 (_pin_attempts_left) *)
Definition _pin_attempts_left : MM (option Z) :=
  r ← modem_at_cmd_get_response (str "AT+QPINC?") (Some (qstr "+QPINC: 'SC'"));
  mret (if negb r.1 then None
        else match after_comma (take 31 r.2) with
             | None => None
             | Some p => Some (u8 (atoi p))
             end).

(** src/modem/modem.c:115-129 (_pin_enter) *)
Definition _pin_enter (pin : list Z) : MM bool :=
  match pin with
  | [] => mret false
  | _ => modem_at_ok_cmd_fmt (qstr "AT+CPIN='" ++ pin ++ qstr "'")
  end.

(** src/modem/modem.c:131-168 (_init_sim) *)
Definition _init_sim (pin : list Z) : MM bool :=
  ready ← _check_pin;
  if ready : bool then _ ← act (upd_m (set_m_sim MODEM_SIM_ST_PIN_OFF_READY)); mret true
  else
    left ← _pin_attempts_left;
    match left with
    | None => mret false
    | Some attempts =>
        if attempts <? 3 then _ ← act (upd_m (set_m_sim MODEM_SIM_ST_PIN_CNT)); mret false
        else
          entered ← _pin_enter pin;
          if negb entered then _ ← act (upd_m (set_m_sim MODEM_SIM_ST_ERROR)); mret false
          else
            ready ← _check_pin;
            if ready : bool then _ ← act (upd_m (set_m_sim MODEM_SIM_ST_PIN_READY)); mret true
            else _ ← act (upd_m (set_m_sim MODEM_SIM_ST_ERROR)); mret false
    end.

(** src/modem/modem.c:170-177 (_power_off) *)
Definition _power_off : MM () :=
  _ ← modem_at_lock;
  _ ← act _set_offline;
  _ ← _hw_off;
  _ ← act (upd_m (set_m_sim MODEM_SIM_ST_PIN_INIT_RQ));
  modem_at_unlock.

(** src/modem/modem.c:523-546 (_config_task) *)
Definition _config_task (ask result set : list Z) (timeout : Z) : MM bool :=
  _ ← modem_at_cmd_nolock ask;
  resp ← modem_at_response (Some result) (Z.lor AT_ST_OK AT_ST_ERROR) timeout;
  fl ← see (λ w, at_flags (w_at w));
  if has resp AT_ST_OK && has fl AT_ST_USER_STR then mret true
  else _ ← OS_DELAY 100; modem_at_ok_cmd_nolock set.

Fixpoint config_rows (table : list modem_config) (cfg_ok : bool) : MM bool :=
  match table with
  | [] => mret cfg_ok
  | p :: table =>
      _ ← OS_DELAY 100;
      ok ← match mc_ask p with
           | None => modem_at_ok_cmd_nolock (mc_set p)
           | Some ask => _config_task ask (mc_result p) (mc_set p) (mc_timeout p)
           end;
      config_rows table (cfg_ok && ok)
  end.
(** src/modem/modem.c:548-579 (modem_config_table) *)
Definition modem_config_table (table : list modem_config) : MM bool :=
  _ ← modem_at_lock;
  ok ← config_rows table true;
  _ ← modem_at_unlock;
  mret ok.

(** src/modem/modem.c:719-735 (modem_apn_init) *)
Definition modem_apn_init (apn : list Z) : MM bool :=
  _ ← modem_at_ok_cmd (str "@AT+CGACT=0,1");
  modem_at_ok_cmd (take 63 (qstr "AT+CGDCONT=1,'IP','" ++ apn ++ qstr "'")).

(** src/modem/modem.c:581-591 (modem_apn_setup) *)
Definition modem_apn_setup : MM bool :=
  match cfg_text CFG_ID_APN with
  | None => mret false
  | Some apn => modem_apn_init apn
  end.

(** src/modem/modem_bg95.c:149-182 (_qcfg) *)
Definition _qcfg (cfg value tail : list Z) : MM bool :=
  let expect := take 127 (qstr "+QCFG: '" ++ cfg ++ qstr "'," ++ value) in
  _ ← modem_at_lock;
  _ ← modem_at_cmd_nolock (take 127 (qstr "AT+QCFG='" ++ cfg ++ qstr "'"));
  resp ← modem_at_response (Some expect) (Z.lor AT_ST_OK AT_ST_ERROR) MODEM_TIMEOUT_S;
  configured ← see (λ w, has resp AT_ST_USER_STR && (stricmp (response (w_at w)) expect =? 0));
  _ ← modem_at_unlock;
  if configured : bool then mret true
  else modem_at_ok_cmd_fmt (qstr "AT+QCFG='" ++ cfg ++ qstr "'," ++ value ++ tail).

(** src/modem/modem_bg95.c:184-199 (modem_bg95_init) *)
Definition modem_bg95_init : MM bool :=
  _ ← act _socket_clear;
  ok ← modem_config_table MODEM_BG95_CONFIG;
  if negb ok then mret false
  else match cfg_text CFG_ID_MODEM_BAND with
       | None => mret false
       | Some band => _qcfg (str "band") band (str ",1")
       end.

(** src/modem/modem.c:648-659 (modem_start) *)
Definition start_last : MM bool :=
  _ ← modem_apn_setup;
  _ ← modem_bg95_init;
  _ ← modem_at_ok_cmd (str "AT+CREG?;+CEREG?");
  mret true.

(** One pass: [None] to try again. *)
(** src/modem/modem.c:608-659 (modem_start) *)
Definition start_pass : MM (option bool) :=
  ok ← modem_at_ok_cmd (str "!ATE0");
  if negb ok then mret None else
  ok ← modem_at_ok_cmd (str "AT+CREG=1");
  if negb ok then mret None else
  ok ← modem_at_ok_cmd (str "AT+CGREG=1");
  if negb ok then mret None else
  sim ← _init_sim (default [] (cfg_text CFG_ID_SIM_PIN));
  if negb sim then mret (Some false) else
  ok ← modem_config_table MODEM_CONFIG;
  if negb ok then mret None else
  ok ← modem_at_ok_cmd (str "!AT+CNMI=2,1,0,2,0");
  ok ← (if ok : bool then mret true else modem_at_ok_cmd (str "AT+CNMI=2,1,0,1,0"));
  if negb ok then mret None else
  r ← start_last;
  mret (Some r).

Fixpoint start_loop (repeat : nat) : MM bool :=
  match repeat with
  | O => mret false
  | S repeat => r ← start_pass; match r with Some r => mret r | None => start_loop repeat end
  end.

(** src/modem/modem.c:593-663 (modem_start) *)
Definition modem_start : MM bool :=
  _ ← act _set_offline;
  _ ← act (flag_clr MODEM_FLAG_PIN_READY);
  ready ← _modem_ready;
  if negb ready then mret false else start_loop 3.

(** src/modem/modem.c:683-705 (modem_check) *)
Definition check_questions : MM bool :=
  ok ← modem_at_ok_cmd (str "!AT+CREG?;+CEREG?");
  if negb ok then mret false else
  lte ← see (flag MODEM_FLAG_LTE);
  ok ← modem_at_ok_cmd (if lte : bool then str "!AT+CSQ;+CPIN?" else str "!AT+CSQ;+CGREG?;+CPIN?");
  if negb ok then mret false else
  modem_at_ok_cmd (qstr "!AT+CPMS='SM','SM','SM'").

(** src/modem/modem.c:665-706 (modem_check) *)
Definition modem_check : MM bool :=
  ok ← _ok_test;
  ok ← (if ok : bool then mret true else _ ← OS_DELAY 100; _ok_test);
  if negb ok then mret false else
  errs ← see (λ w, error_counter (mw_m w));
  if 30 <=? errs then
    _ ← act (upd_m (set_error_counter 0));
    _ ← _power_off;
    mret false
  else check_questions.

(** ** Data *)

(** src/modem/modem_bg95.c:519-546 (modem_bg95_udp_init) *)
Definition modem_bg95_udp_init : MM bool :=
  _ ← act _socket_clear;
  active ← modem_at_response_ok (str "AT+QIACT?") (str "+QIACT: 1,1");
  active ← (if active : bool then mret true else modem_at_ok_cmd (str "@@AT+QIACT=1"));
  if negb active then mret false else
  ok ← modem_at_ok_cmd (qstr "AT+QICFG='dataformat',1,1");
  if negb ok then mret false else
  _ ← modem_at_cmd_get_response (str "AT+QIDNSCFG=1") (Some (str "+QIDNSCFG: 1,"));
  now ← see mw_now;
  _ ← act (upd_bg (λ b, set_tx_cnt 0 (set_timer_rx_timeout (u32 (now + 60 * OS_TIMER_SECOND)) b)));
  mret true.

(** src/modem/modem.c:750-760 (modem_data_connect) *)
Definition wait_attached : MM () :=
  now ← see mw_now;
  _ ← modem_at_lock;
  _ ← while_upto (u32 (now + 10 * OS_TIMER_SECOND))
        (_ ← modem_at_cmd_nolock (str "AT+CGATT?");
         resp ← modem_at_response (Some (str "+CGATT: 1")) (Z.lor AT_ST_OK AT_ST_ERROR) MODEM_TIMEOUT_S;
         if has resp AT_ST_USER_STR then mret (Some ()) else _ ← OS_DELAY 500; mret None);
  modem_at_unlock.

(** src/modem/modem.c:762-783 (modem_data_connect) *)
Definition wait_registered : MM bool :=
  now ← see mw_now;
  r ← while_upto (u32 (now + 10 * OS_TIMER_SECOND))
        (lte ← see (flag MODEM_FLAG_LTE);
         if lte : bool then mret (Some ()) else
         _ ← modem_at_ok_cmd (str "!AT+CGREG?");
         ready ← see (flag MODEM_FLAG_DATA_READY);
         if ready : bool then mret (Some ()) else _ ← OS_DELAY 500; mret None);
  mret (bool_decide (is_Some r)).

(** src/modem/modem.c:737-796 (modem_data_connect) *)
Definition modem_data_connect : MM bool :=
  _ ← act (flag_clr MODEM_FLAG_DATA_UP);
  ok ← modem_at_ok_cmd (str "@@AT+CGATT=1");
  if negb ok then mret false else
  ok ← modem_at_ok_cmd (str "@@AT+CGACT=1,1");
  if negb ok then mret false else
  _ ← wait_attached;
  attached ← wait_registered;
  if negb attached then mret false else
  ok ← modem_bg95_udp_init;
  if negb ok then mret false else
  _ ← act (flag_set MODEM_FLAG_DATA_UP);
  mret true.

(** src/modem/modem.c:798-807 (modem_data_disconnect) *)
Definition modem_data_disconnect : MM () :=
  _ ← act (flag_clr MODEM_FLAG_DATA_UP);
  ready ← see (flag MODEM_FLAG_DATA_READY);
  if negb ready then mret () else
  _ ← modem_at_ok_cmd (str "@AT+CGATT=0");
  act (flag_clr MODEM_FLAG_DATA_READY).

End commands.
