(* ===== verification/ModemUdp.v ===== *)
(** * Sockets and names over the module (modem/modem_bg95.c)

    Five sockets of the module serve all destinations of datagrams; waiting
    datagrams are fetched in the background; names are resolved by the module. *)

From S2P Require Import Prelude CText EventTypes EventBuf Storage EventMemory EventQueue Out.
From S2P Require Import Alarm ArmSection System Cfg SiaIp NetTarget Cms EventTask TracerBuf.
From S2P Require Import Inp Update Nmea Gps Report Cmd TracerProto ModemAt ModemCmd.

Section sockets.
Context `{F : FlashLib} `{M : ModemLib}.
Variable env : Z → list maction → list Z * Z.
Variable st : storage.
(** The SDK's [buf_append_hex]. *)
Variable hex : list Z → list Z.

(** src/modem/modem_bg95.c:16-17 (_DNS_TIMEOUT, _DNS_NAME_MAX) *)
Definition _DNS_TIMEOUT : Z := 15 * OS_TIMER_SECOND.
Definition _DNS_NAME_MAX : Z := 100.

Definition socket (n : Z) (w : mworld) : udp_socket_t := default no_socket (udp_socket (mw_bg w) !! Z.to_nat n).
Definition sock (n : Z) (f : udp_socket_t → udp_socket_t) : MM () := act (upd_socket n f).
Definition same_peer (ip port : Z) (s : udp_socket_t) : bool := (us_ip s =? ip) && (us_port s =? port).

Fixpoint find_socket (P : udp_socket_t → bool) (l : list udp_socket_t) (i : Z) : option Z :=
  match l with
  | [] => None
  | s :: l => if P s then Some i else find_socket P l (i + 1)
  end.

(** src/modem/modem_bg95.c:548-572 (_socket_id) *)
Definition _socket_id (ip port : Z) (b : bg95) : Z * bg95 :=
  match find_socket (same_peer ip port) (udp_socket b) 0 with
  | Some i => (i, b)
  | None =>
      match find_socket (λ s, us_ip s =? 0) (udp_socket b) 0 with
      | Some i => (i, b)
      | None =>
          let n := u8 (next_socket b + 1) in
          let n := if _SOCKETS <=? n then 0 else n in
          (n, set_next_socket n b)
      end
  end.

(** src/modem/modem_bg95.c:574-580 (_socket_close) *)
Definition _socket_close (n : Z) : MM () :=
  _ ← modem_at_ok_cmd env (str "AT+QICLOSE=" ++ print_dec n);
  sock n (λ _, no_socket).

Definition ip_byte (ip i : Z) : Z := u8 (Z.shiftr ip (8 * i)).

(** src/modem/modem_bg95.c:618-622 (_udp_bind) *)
Definition qiopen_text (n ip port : Z) : list Z :=
  str "@@AT+QIOPEN=1," ++ print_dec n ++ qstr ",'UDP','" ++ print_dec (ip_byte ip 0) ++ str "." ++
  print_dec (ip_byte ip 1) ++ str "." ++ print_dec (ip_byte ip 2) ++ str "." ++ print_dec (ip_byte ip 3) ++
  qstr "'," ++ print_dec port ++ str "," ++ print_dec (8000 + n) ++ str ",0".

(** src/modem/modem_bg95.c:623-639 (_udp_bind) *)
Definition open_socket (n ip port limit : Z) : MM bool :=
  _ ← sock n (set_us_ready false);
  ok ← modem_at_ok_cmd env (qiopen_text n ip port);
  if negb ok then mret false else
  r ← while_upto limit
        (ready ← see (λ w, us_ready (socket n w));
         if ready : bool then _ ← sock n (λ s, set_us_port port (set_us_ip ip s)); mret (Some ())
         else _ ← OS_DELAY env 10; mret None);
  mret (bool_decide (is_Some r)).

(** The result and the socket. *)
(** src/modem/modem_bg95.c:582-641 (_udp_bind) *)
Definition _udp_bind (ip port : Z) : MM (bool * Z) :=
  now ← see mw_now;
  n ← see (λ w, (_socket_id ip port (mw_bg w)).1);
  _ ← act (upd_bg (λ b, (_socket_id ip port b).2));
  _ ← sock n (λ s, if u32 (now + _RX_RETRY_TIME) <? us_timer s then set_us_timer (u32 (now + _RX_RETRY_TIME)) s else s);
  _ ← sock n (λ s, set_us_no_rx_cnt (u16 (us_no_rx_cnt s + 1)) (set_us_tmout (u32 (now + _SOCKET_TIMEOUT)) s));
  bound ← see (λ w, same_peer ip port (socket n w));
  if bound : bool then mret (true, n)
  else
    used ← see (λ w, negb (us_ip (socket n w) =? 0));
    _ ← (if used : bool then _socket_close n else mret ());
    ok ← open_socket n ip port (u32 (now + 10 * OS_TIMER_SECOND));
    mret (ok, n).

(** src/modem/modem_bg95.c:671-686 (modem_bg95_udp_send) *)
Definition send_datagram (n : Z) (data : list Z) : MM bool :=
  _ ← act (upd_bg (λ b, set_tx_cnt (u16 (tx_cnt b + 1)) b));
  _ ← modem_at_lock env;
  _ ← modem_at_cmd_nolock (str "AT+QISENDEX=" ++ print_dec n ++ qstr ",'" ++ hex data ++ qstr "',0");
  resp ← modem_at_response env (Some (str "SEND OK")) (Z.lor AT_ST_ERROR AT_ST_USER_STR) MODEM_TIMEOUT_LL;
  _ ← modem_at_unlock;
  mret (has resp AT_ST_USER_STR).

(** src/modem/modem_bg95.c:643-692 (modem_bg95_udp_send) *)
Definition modem_bg95_udp_send (dst_ip dst_port : Z) (data : list Z) : MM bool :=
  if dst_ip =? 0 then mret false else
  b ← _udp_bind dst_ip dst_port;
  b ← (if b.1 : bool then mret b
       else _ ← _socket_close b.2; _ ← OS_DELAY env 100; _udp_bind dst_ip dst_port);
  if negb b.1 then mret false else
  if 512 <? Z.of_nat (length data) then mret false else
  ok ← send_datagram b.2 data;
  _ ← (if ok : bool then mret () else _socket_close b.2);
  mret ok.

(** Four commands at most. *)
(** src/modem/modem_bg95.c:728-745 (_socket_maintenace) *)
Fixpoint fetch_waiting (limit : nat) (i now : Z) : MM () :=
  rx ← see (λ w, us_rx (socket i w));
  match limit with
  | O => mret ()
  | S limit =>
      if negb rx then mret ()
      else
        _ ← sock i (set_us_rx false);
        _ ← act (upd_bg (set_rx_udp_socket i));
        ok ← modem_at_ok_cmd env (str "@@AT+QIRD=" ++ print_dec i);
        _ ← sock i (if ok : bool then set_us_timer (u32 (now + 60 * OS_TIMER_SECOND)) else set_us_ip 0);
        fetch_waiting limit i now
  end.

(** One socket. *)
(** src/modem/modem_bg95.c:702-746 (_socket_maintenace) *)
Definition socket_turn (i now : Z) : MM () :=
  s ← see (socket i);
  if negb (us_ip s =? 0) && negb (us_port s =? 0) then
    if us_tmout s <? now then _socket_close i
    else if (10 <? us_no_rx_cnt s) && (u32 (us_rx_time s + 60 * OS_TIMER_SECOND) <? now) then
      _ ← act _socket_clear; modem_data_disconnect env
    else
      _ ← (if us_timer s <? now
           then sock i (λ s, set_us_timer (u32 (now + 60 * OS_TIMER_SECOND)) (set_us_rx true s)) else mret ());
      fetch_waiting 4 i now
  else fetch_waiting 4 i now.

Fixpoint socket_turns (l : list Z) (now : Z) : MM () :=
  match l with
  | [] => mret ()
  | i :: l => _ ← socket_turn i now; socket_turns l now
  end.
(** src/modem/modem_bg95.c:694-747 (_socket_maintenace) *)
Definition _socket_maintenace : MM () := now ← see mw_now; socket_turns [0; 1; 2; 3; 4] now.

(** src/modem/modem_bg95.c:749-765 (modem_bg95_udp_rx_task) *)
Definition modem_bg95_udp_rx_task : MM () :=
  _ ← _socket_maintenace;
  dead ← see (λ w, negb (timer_rx_timeout (mw_bg w) =? 0) && (10 <? tx_cnt (mw_bg w))
                   && (timer_rx_timeout (mw_bg w) <? mw_now w));
  if dead : bool then
    _ ← act _socket_clear;
    _ ← modem_data_disconnect env;
    act (upd_bg (set_timer_rx_timeout 0))
  else mret ().

(** src/modem/modem.c:708-717 (modem_data_rx_process) *)
Definition modem_data_rx_process : MM () :=
  up ← see (flag MODEM_FLAG_DATA_UP);
  if up : bool then modem_bg95_udp_rx_task else mret ().

Definition set_dns_active (v : bool) (d : dns_state) : dns_state := DnsState v (dns_done d) (dns_ok d) (dns_ip d).

(** src/modem/modem_bg95.c:363-373 (modem_bg95_dns_resolve) *)
Definition await_answer : MM bool :=
  now ← see mw_now;
  r ← while_before (u32 (now + _DNS_TIMEOUT))
        (d ← see (λ w, bg_dns (mw_bg w));
         if dns_done d then mret (Some (dns_ok d)) else _ ← OS_DELAY env 10; mret None);
  mret (default false r).

(** src/modem/modem_bg95.c:325-386 (modem_bg95_dns_resolve) *)
Definition modem_bg95_dns_resolve (host : list Z) : MM (option Z) :=
  if bool_decide (host = []) || (_DNS_NAME_MAX <=? Z.of_nat (length host)) then mret None else
  up ← see (flag MODEM_FLAG_DATA_UP);
  if negb up then mret None else
  _ ← act (upd_bg (set_bg_dns (DnsState true false false 0)));
  _ ← modem_at_lock env;
  _ ← modem_at_cmd_nolock (qstr "AT+QIDNSGIP=1,'" ++ host ++ qstr "'");
  resp ← modem_at_response env None (Z.lor AT_ST_OK AT_ST_ERROR) MODEM_TIMEOUT_M;
  _ ← modem_at_unlock;
  if negb (has resp AT_ST_OK) then
    _ ← act (upd_bg (λ b, set_bg_dns (set_dns_active false (bg_dns b)) b)); mret None
  else
    result ← await_answer;
    _ ← act (upd_bg (λ b, set_bg_dns (set_dns_active false (bg_dns b)) b));
    ip ← see (λ w, dns_ip (bg_dns (mw_bg w)));
    mret (if result : bool then Some ip else None).

(** src/modem/modem_udp.c:8-11 (udp_ready) *)
Definition udp_ready (w : mworld) : bool := flag MODEM_FLAG_DATA_UP w.

End sockets.
