(* ===== verification/ModemMain.v ===== *)
(** * The modem task (modem/modem_main.c)

    Brings the module from off to registered and back after errors, with waiting
    times between the steps. *)

From S2P Require Import Prelude CText EventTypes EventBuf Storage EventMemory EventQueue Out.
From S2P Require Import Alarm ArmSection System Cfg SiaIp NetTarget Cms EventTask TracerBuf.
From S2P Require Import Inp Update Nmea Gps Report Cmd TracerProto ModemAt ModemCmd ModemUdp.

(** src/modem/modem_main.h:10-17 (modem_main_state_e) *)
Inductive modem_main_state_e :=
  | MODEM_MAIN_STATE_OFF | MODEM_MAIN_STATE_ON | MODEM_MAIN_STATE_ERROR
  | MODEM_MAIN_STATE_INIT | MODEM_MAIN_STATE_NET_OK | MODEM_MAIN_STATE_DEBUG.
#[export] Instance modem_main_state_eq_dec : EqDecision modem_main_state_e.
Proof. solve_decision. Defined.

Definition main_state_code (s : modem_main_state_e) : Z :=
  match s with
  | MODEM_MAIN_STATE_OFF => 0 | MODEM_MAIN_STATE_ON => 1 | MODEM_MAIN_STATE_ERROR => 2
  | MODEM_MAIN_STATE_INIT => 3 | MODEM_MAIN_STATE_NET_OK => 4 | MODEM_MAIN_STATE_DEBUG => 5
  end.

(** src/modem/modem_main.h:19-28 (modem_command_e) *)
Inductive modem_command_e :=
  | MODEM_COMMAND_NONE | MODEM_COMMAND_ON | MODEM_COMMAND_START | MODEM_COMMAND_DATA
  | MODEM_COMMAND_OFF | MODEM_COMMAND_RESET | MODEM_COMMAND_HB | MODEM_COMMAND_DEBUG.

(** [state_ts] and [limit_timer] are the statics of [_state_machine_task] and
    [_limiters_update]; the model of the module is not used. *)
(** src/modem/modem_main.c:19-35 (modem_state_t) *)
Record mmain := MMain {
  _modem_error : bool;
  mm_timer : Z;
  _sms_limiter : Z;
  _err_wait_time : Z;
  mm_state : modem_main_state_e;
  requested_state : modem_main_state_e;
  mm_command : modem_command_e;
  mm_tmout : Z;
  err_cnt : Z;               (* u16 *)
  state_ts : Z;
  limit_timer : Z
}.

Definition set_modem_error (v : bool) (s : mmain) : mmain :=
  MMain v (mm_timer s) (_sms_limiter s) (_err_wait_time s) (mm_state s) (requested_state s) (mm_command s)
    (mm_tmout s) (err_cnt s) (state_ts s) (limit_timer s).
Definition set_mm_timer (v : Z) (s : mmain) : mmain :=
  MMain (_modem_error s) v (_sms_limiter s) (_err_wait_time s) (mm_state s) (requested_state s) (mm_command s)
    (mm_tmout s) (err_cnt s) (state_ts s) (limit_timer s).
Definition set_sms_limiter (v : Z) (s : mmain) : mmain :=
  MMain (_modem_error s) (mm_timer s) v (_err_wait_time s) (mm_state s) (requested_state s) (mm_command s)
    (mm_tmout s) (err_cnt s) (state_ts s) (limit_timer s).
Definition set_err_wait (v : Z) (s : mmain) : mmain :=
  MMain (_modem_error s) (mm_timer s) (_sms_limiter s) v (mm_state s) (requested_state s) (mm_command s)
    (mm_tmout s) (err_cnt s) (state_ts s) (limit_timer s).
Definition set_mm_state (v : modem_main_state_e) (s : mmain) : mmain :=
  MMain (_modem_error s) (mm_timer s) (_sms_limiter s) (_err_wait_time s) v (requested_state s) (mm_command s)
    (mm_tmout s) (err_cnt s) (state_ts s) (limit_timer s).
Definition set_requested (v : modem_main_state_e) (s : mmain) : mmain :=
  MMain (_modem_error s) (mm_timer s) (_sms_limiter s) (_err_wait_time s) (mm_state s) v (mm_command s)
    (mm_tmout s) (err_cnt s) (state_ts s) (limit_timer s).
Definition set_mm_command (v : modem_command_e) (s : mmain) : mmain :=
  MMain (_modem_error s) (mm_timer s) (_sms_limiter s) (_err_wait_time s) (mm_state s) (requested_state s) v
    (mm_tmout s) (err_cnt s) (state_ts s) (limit_timer s).
Definition set_mm_tmout (v : Z) (s : mmain) : mmain :=
  MMain (_modem_error s) (mm_timer s) (_sms_limiter s) (_err_wait_time s) (mm_state s) (requested_state s)
    (mm_command s) v (err_cnt s) (state_ts s) (limit_timer s).
Definition set_err_cnt (v : Z) (s : mmain) : mmain :=
  MMain (_modem_error s) (mm_timer s) (_sms_limiter s) (_err_wait_time s) (mm_state s) (requested_state s)
    (mm_command s) (mm_tmout s) v (state_ts s) (limit_timer s).
Definition set_state_ts (v : Z) (s : mmain) : mmain :=
  MMain (_modem_error s) (mm_timer s) (_sms_limiter s) (_err_wait_time s) (mm_state s) (requested_state s)
    (mm_command s) (mm_tmout s) (err_cnt s) v (limit_timer s).
Definition set_limit_timer (v : Z) (s : mmain) : mmain :=
  MMain (_modem_error s) (mm_timer s) (_sms_limiter s) (_err_wait_time s) (mm_state s) (requested_state s)
    (mm_command s) (mm_tmout s) (err_cnt s) (state_ts s) v.

(** src/modem/modem_main.c:21-21 (MODEM_ERROR_TIMEOUT) *)
Definition MODEM_ERROR_TIMEOUT : Z := 60 * OS_TIMER_SECOND.
(** src/modem/modem_main.c:23-23 (_SMS_DAY_LIMIT) *)
Definition _SMS_DAY_LIMIT : Z := 50.

(** ** Requests *)

(** src/modem/modem_main.c:167-174 (modem_main_command) *)
Definition modem_main_command (c : modem_command_e) (s : mmain) : bool * mmain :=
  match mm_command s with
  | MODEM_COMMAND_NONE => (true, set_mm_command c s)
  | _ => (false, s)
  end.

(** src/modem/modem_main.c:176-184 (modem_main_rq_state) *)
Definition modem_main_rq_state (now : Z) (state : modem_main_state_e) (s : mmain) : mmain :=
  let s := if negb (bool_decide (requested_state s = state)) then set_mm_tmout 0 s else s in
  set_mm_timer (u32 (now + MODEM_ERROR_TIMEOUT)) (set_requested state s).

(** src/modem/modem_main.c:191-236 (_set_state) *)
Definition modem_set_state (now : Z) (new_state : modem_main_state_e) (s : mmain) : mmain :=
  if bool_decide (new_state = mm_state s) then s
  else
    let s :=
      match new_state with
      | MODEM_MAIN_STATE_OFF => set_mm_tmout (u32 (now + u32 (_err_wait_time s * OS_TIMER_SECOND))) s
      | MODEM_MAIN_STATE_ON => set_mm_tmout (u32 (now + 1 * OS_TIMER_SECOND)) s
      | MODEM_MAIN_STATE_ERROR =>
          set_mm_tmout (u32 (now + 10 * OS_TIMER_SECOND)) (set_err_wait (u32 (_err_wait_time s + 30)) s)
      | MODEM_MAIN_STATE_INIT =>
          set_mm_tmout (u32 (now + (if _modem_error s then 600 else 120) * OS_TIMER_SECOND)) s
      | MODEM_MAIN_STATE_NET_OK =>
          set_mm_tmout (u32 (now + 60 * OS_TIMER_SECOND)) (set_err_cnt 0 (set_err_wait 0 s))
      | MODEM_MAIN_STATE_DEBUG => s
      end in
    set_mm_state new_state s.

Section modem_main.
Context `{F : FlashLib} `{M : ModemLib}.
Variable env : Z → list maction → list Z * Z.
Variable st : storage.
Variable hex : list Z → list Z.

Definition to_state (new : modem_main_state_e) (s : mmain) : MM mmain :=
  now ← see mw_now; mret (modem_set_state now new s).

(** ** The task *)

(** src/modem/modem_main.c:238-283 (_modem_command_exec) *)
Definition _modem_command_exec (cmd : modem_command_e) (s : mmain) : MM mmain :=
  match cmd with
  | MODEM_COMMAND_ON => _ ← _hw_on env; to_state MODEM_MAIN_STATE_ON s
  | MODEM_COMMAND_OFF => _ ← _hw_off env; to_state MODEM_MAIN_STATE_OFF s
  | MODEM_COMMAND_START =>
      ok ← modem_start env st;
      to_state (if ok : bool then MODEM_MAIN_STATE_INIT else MODEM_MAIN_STATE_ERROR) s
  | MODEM_COMMAND_RESET => _ ← _hw_off env; mret s
  | MODEM_COMMAND_DEBUG => to_state MODEM_MAIN_STATE_DEBUG s
  | MODEM_COMMAND_DATA | MODEM_COMMAND_HB | MODEM_COMMAND_NONE => mret s
  end.

(** src/modem/modem_main.c:331-353 (_state_machine_task) *)
Definition state_init (now : Z) (s : mmain) : MM mmain :=
  ready ← see (flag MODEM_FLAG_NET_READY);
  if ready : bool then to_state MODEM_MAIN_STATE_NET_OK s
  else
    ok ← modem_at_ok_cmd env (str "AT+CREG?");
    if negb ok then to_state MODEM_MAIN_STATE_ERROR s
    else
      let s := set_state_ts (u32 (now + 10 * OS_TIMER_SECOND)) s in
      if mm_tmout s <? now then to_state MODEM_MAIN_STATE_ERROR (set_err_cnt (u16 (err_cnt s + 1)) s)
      else mret s.

(** src/modem/modem_main.c:355-374 (_state_machine_task) *)
Definition state_net_ok (now : Z) (s : mmain) : MM mmain :=
  if now <? mm_tmout s then mret s else
  ready ← see (flag MODEM_FLAG_NET_READY);
  if negb ready then to_state MODEM_MAIN_STATE_INIT s
  else
    ok ← modem_check env;
    if negb ok then to_state MODEM_MAIN_STATE_ERROR s
    else mret (set_mm_tmout (u32 (now + 60 * OS_TIMER_SECOND)) s).

(** src/modem/modem_main.c:285-376 (_state_machine_task) *)
Definition _state_machine_task (s : mmain) : MM mmain :=
  now ← see mw_now;
  if now <? state_ts s then mret s else
  match mm_state s with
  | MODEM_MAIN_STATE_DEBUG => mret s
  | MODEM_MAIN_STATE_OFF =>
      if now <? mm_tmout s then mret s
      else if main_state_code MODEM_MAIN_STATE_INIT <=? main_state_code (requested_state s)
      then _modem_command_exec MODEM_COMMAND_ON s
      else mret s
  | MODEM_MAIN_STATE_ON =>
      if now <? mm_tmout s then mret s else _modem_command_exec MODEM_COMMAND_START s
  | MODEM_MAIN_STATE_ERROR =>
      if now <? mm_tmout s then mret s
      else
        s ← _modem_command_exec MODEM_COMMAND_OFF s;
        mret (if 3 <=? err_cnt s then set_mm_tmout (u32 (now + 300 * OS_TIMER_SECOND)) s else s)
  | MODEM_MAIN_STATE_INIT => state_init now s
  | MODEM_MAIN_STATE_NET_OK => state_net_ok now s
  end.

(** src/modem/modem_main.c:378-399 (_status_task) *)
Definition _status_task (now : Z) (s : mmain) : mmain :=
  if bool_decide (requested_state s = mm_state s) then
    if negb (_modem_error s) then s else set_err_wait 0 (set_modem_error false s)
  else if _modem_error s then s
  else if now <? mm_timer s then s
  else set_modem_error true s.

(** src/modem/modem_main.c:401-410 (_limiters_update) *)
Definition _limiters_update (now : Z) (s : mmain) : mmain :=
  if now <? limit_timer s then s
  else set_sms_limiter 0 (set_limit_timer (u32 (now + 24 * 60 * (60 * OS_TIMER_SECOND))) s).

(** src/modem/modem_main.c:593-600 (modem_main_task) *)
Definition main_sleep : MM () :=
  asleep ← see (λ w, m_sleep (mw_m w));
  if asleep : bool then mret ()
  else _ ← modem_at_lock env; _ ← _hw_sleep; _ ← act (upd_m (set_m_sleep true)); modem_at_unlock.

(** src/modem/modem_main.c:582-601 (modem_main_task) *)
Definition modem_main_task (s : mmain) : MM mmain :=
  s ← (match mm_command s with
       | MODEM_COMMAND_NONE => mret s
       | c => s ← _modem_command_exec c s; mret (set_mm_command MODEM_COMMAND_NONE s)
       end);
  s ← _state_machine_task s;
  now ← see mw_now;
  let s := _status_task now s in
  now ← see mw_now;
  let s := _limiters_update now s in
  _ ← main_sleep;
  mret s.

(** ** Answers *)

(** src/modem/modem_main.c:412-421 (modem_main_state) *)
Definition modem_main_state (s : mmain) : modem_main_state_e :=
  if _modem_error s then MODEM_MAIN_STATE_ERROR
  else if bool_decide (requested_state s = mm_state s) then mm_state s
  else MODEM_MAIN_STATE_INIT.

(** src/modem/modem_main.c:423-426 (modem_main_lte) *)
Definition modem_main_lte (w : mworld) : bool := flag MODEM_FLAG_LTE w.
(** src/modem/modem_main.c:428-431 (modem_main_sms_incomming) *)
Definition modem_main_sms_incomming (w : mworld) : bool := 0 <? sms_counter (mw_m w).
(** src/modem/modem_main.c:487-490 (modem_main_data) *)
Definition modem_main_data (w : mworld) : bool := flag MODEM_FLAG_DATA_READY w.
(** src/modem/modem_main.c:492-495 (modem_main_data_up) *)
Definition modem_main_data_up (w : mworld) : bool := flag MODEM_FLAG_DATA_UP w.
(** src/modem/modem_main.c:543-546 (modem_main_roaming) *)
Definition modem_main_roaming (w : mworld) : bool := flag MODEM_FLAG_ROAMING w.

(** [modem_sms_send_now] is the argument. *)
(** src/modem/modem_main.c:451-464 (modem_main_sms_send) *)
Definition modem_main_sms_send (send_now : MM bool) (s : mmain) : MM (bool * mmain) :=
  let s := set_sms_limiter (u32 (_sms_limiter s + 1)) s in
  if _SMS_DAY_LIMIT <=? _sms_limiter s then mret (false, s)
  else ok ← send_now; mret (ok, s).

(** src/modem/modem_main.c:466-470 (modem_main_at_cmd) *)
Definition modem_main_at_cmd (text : list Z) : MM (bool * list Z) := modem_at_cmd_get_response env text None.

(** src/modem/modem_main.c:497-515 (modem_main_data_connect) *)
Definition modem_main_data_connect (apn : list Z) (s : mmain) : MM bool :=
  up ← see (flag MODEM_FLAG_DATA_UP);
  if up : bool then mret true else
  if main_state_code (mm_state s) <? main_state_code MODEM_MAIN_STATE_NET_OK then mret false else
  ok ← modem_apn_init env apn;
  if negb ok then mret false else modem_data_connect env.

(** src/modem/modem_main.c:136-165 (modem_main_init) *)
Definition boot_modem : modem :=
  Modem (ModemAt 0 [] [] 0 0 false None) MODEM_SIM_ST_PIN_INIT_RQ 0 0 0 0 0 false false.
Definition boot_bg95 : bg95 := Bg95 0 0 (replicate (Z.to_nat _SOCKETS) no_socket) 0 0 0 (DnsState false false false 0).
Definition boot_world (now : Z) : mworld :=
  MW boot_modem boot_bg95 now [MPin (PWRKEY_LOW false); MPin (OE false); MPin (DTR_LOW false)].
Definition modem_main_init (now : Z) : mmain :=
  MMain false 0 0 0 MODEM_MAIN_STATE_OFF MODEM_MAIN_STATE_OFF MODEM_COMMAND_NONE
    (u32 (now + 15 * OS_TIMER_SECOND)) 0 0 0.

End modem_main.
