(* ===== verification/ModemSms.v ===== *)
(** * Text messages over the module (modem/modem_sms.c, app/sms_processing.c)

    A text is cut into messages (MultiSms), each coded by the SDK's PDU codec and
    sent after the module's prompt; received messages are listed one at a time,
    decoded, joined when they are parts of a long one, and given to the command
    interpreter (Cmd), whose answer goes back to the sender. *)

From S2P Require Import Prelude CText EventTypes EventBuf Storage EventMemory EventQueue Out.
From S2P Require Import Alarm ArmSection System Cfg SiaIp NetTarget Cms EventTask TracerBuf.
From S2P Require Import Inp Update Nmea Gps MultiSms Report Cmd TracerProto ModemAt ModemCmd ModemUdp ModemMain.

(** ** The SDK's codec *)

(** src/modem/sms.h:10-19 (sms_type_t) *)
Inductive sms_type_t :=
  | SMS_TYPE_TEXT7 | SMS_TYPE_DATA8 | SMS_TYPE_UCS2 | SMS_TYPE_UTF8 | SMS_TYPE_AUTO | SMS_TYPE_SR | SMS_TYPE_UNKNOWN.

#[export] Instance sms_type_eq_dec : EqDecision sms_type_t.
Proof. solve_decision. Defined.

(** What modem_sms_send_now gives to [pdu_encode]. *)
Record pdu_out := PduOut {
  po_type : pdu_coding;
  po_count : Z;
  po_nr : Z;
  po_size : Z;
  po_content : list Z;
  po_tel_num : list Z;
  po_sr : bool
}.

(** What [pdu_decode] finds: its result and the fields it fills in. *)
Inductive pdu_kind := PDU_TYPE_CODED (c : pdu_coding) | PDU_TYPE_SR | PDU_TYPE_UNKNOWN.
Record pdu_in := PduIn {
  pi_len : Z;                 (* s16 *)
  pi_type : pdu_kind;
  pi_content : list Z;
  pi_id : Z;
  pi_nr : Z;
  pi_count : Z;
  pi_tel_num : list Z;
  pi_timestamp : list Z
}.

(** [text_utf8_to_ucs2 s n]: the codes written for at most [n] characters of the
    text, the value stored through its third argument, the number of characters.
    [buf_text n l]: the text in a buffer of [n] characters to which the line [l]
    was appended.  [render] writes the replies of commands out, cut to [n]. *)
Class SmsLib := {
  sl_modem :: ModemLib;
  pdu_encode : pdu_out → Z * list Z;
  pdu_decode : list Z → pdu_in;
  PDU_MAX_LENGTH : Z;
  text_is_ascii : list Z → bool;
  text_is_valid_phone : list Z → bool;
  text_utf8_to_ucs2 : list Z → Z → list Z * Z * Z;
  buf_text : Z → list Z → list Z;
  MAX_SMS_LEN : Z;
  render : Z → list appended → list Z
}.

(** The laws relied on: only the first [size] bytes of the content are coded, in
    printed digits, a line that fits a buffer is all of its text, and limits are kept. *)
Class SmsSpec (L : SmsLib) := {
  pdu_encode_size : ∀ t c n x y tel sr,
    pdu_encode (PduOut t c n (Z.of_nat (length x)) (x ++ y) tel sr) = pdu_encode (PduOut t c n (Z.of_nat (length x)) x tel sr);
  pdu_encode_text : ∀ p, Forall (λ c, 48 ≤ c) (pdu_encode p).2;
  buf_text_fits : ∀ n l, Z.of_nat (length l) + 1 < n → buf_text n l = l;
  text_utf8_to_ucs2_limit : ∀ s n, 0 ≤ n → 0 ≤ (text_utf8_to_ucs2 s n).2 ≤ n;
  render_limit : ∀ l, Z.of_nat (length (render MAX_SMS_LEN l)) < MAX_SMS_LEN ≤ 65536
}.

(** src/modem/sms.h:21-29 (sms_struct_t) *)
Record sms_struct := Sms {
  sms_data : list Z;
  sms_tel_num : list Z;
  sms_len : Z;                 (* u16 *)
  sms_ty : sms_type_t;
  sms_id : Z;
  sms_sr : bool;
  sms_time : list Z
}.

Section sms.
Context `{F : FlashLib} `{L : SmsLib}.
Variable env : Z → list maction → list Z * Z.
Variable st : storage.
(** What the allocator leaves in a fresh block. *)
Variable garbage : list Z.

(** src/modem/modem_at.c:273-284 (modem_at_read_line_lite) *)
Definition modem_at_read_line_lite (resp_limit : Z) (user_str : option (list Z)) (timeout : Z) : MM (Z * list Z) :=
  r ← modem_at_read_line env user_str timeout;
  mret (r.1, if r.1 =? 0 then [] else buf_text resp_limit r.2).

(** ** Sending *)

(** Ctrl-Z ends a PDU, ESC gives it up. *)
Definition CTRL_Z : list Z := [26].
Definition ESC : list Z := [27].

(** One attempt: the identification the network gave. *)
(** src/modem/modem_sms.c:35-75 (send_pdu_now) *)
Definition send_pdu_once (pdu_raw_data : list Z) (data_len : Z) : MM (option Z) :=
  _ ← act (mlog (MEvent MODEM_EVENT_SMS_SENDING));
  _ ← modem_at_cmd_nolock (str "AT+CMGS=" ++ print_dec data_len);
  prompt ← modem_at_response env None AT_ST_RAB MODEM_TIMEOUT_S;
  if prompt =? 0 then mret None
  else
    _ ← modem_at_raw pdu_raw_data;
    _ ← modem_at_raw CTRL_Z;
    r ← modem_at_read_line_lite 16 (Some (str "+CMGS: ")) MODEM_TIMEOUT_LL;
    if r.1 =? 0 then mret None
    else _ ← OS_DELAY env 1000; mret (Some (u8 (atoi (drop 7 r.2)))).

(** src/modem/modem_sms.c:32-80 (send_pdu_now) *)
Fixpoint send_pdu_tries (retry : nat) (pdu_raw_data : list Z) (data_len : Z) : MM (option Z) :=
  match retry with
  | O => mret None
  | S retry =>
      r ← send_pdu_once pdu_raw_data data_len;
      match r with
      | Some id => mret (Some id)
      | None =>
          _ ← modem_at_raw ESC;
          e ← see (λ w, last_error_result (w_at w));
          _ ← (if e =? 515 then OS_DELAY env 5000 else mret ());
          _ ← OS_DELAY env 1000;
          send_pdu_tries retry pdu_raw_data data_len
      end
  end.

(** [None] for false, else the identification for delivery reports. *)
(** src/modem/modem_sms.c:23-82 (send_pdu_now) *)
Definition send_pdu_now (pdu_raw_data : list Z) (data_len : Z) : MM (option Z) :=
  if data_len <? 0 then mret None
  else
    _ ← modem_at_lock env;
    r ← send_pdu_tries 3 pdu_raw_data data_len;
    _ ← modem_at_unlock;
    mret r.

(** A block after bytes were written to its front. *)
Definition overlay (new old : list Z) : list Z := new ++ drop (length new) old.

(** The bytes of a part, what of the data and how much of its length is left. *)
(** src/modem/modem_sms.c:185-209 (modem_sms_send_now) *)
Definition next_part (utf8 : bool) (type : pdu_coding) (m len : Z) (data buf : list Z) : Z * list Z * list Z * Z :=
  if utf8 then
    let '(codes, tmp, chars) := text_utf8_to_ucs2 data m in
    (tmp * 2, overlay codes buf, drop (Z.to_nat tmp) data, len - chars)
  else
    let content := _memncpy data (len * char_size type) (m * char_size type) in
    let size := Z.of_nat (length content) in
    (size, overlay (content ++ (if char_size type =? 1 then [0] else [])) buf, drop (length content) data,
     len - size / char_size type).

(** The parts from number [i] on, [n] of them. *)
(** src/modem/modem_sms.c:183-230 (modem_sms_send_now) *)
Fixpoint send_parts (n : nat) (utf8 : bool) (type : pdu_coding) (m count i len : Z) (data buf : list Z)
    (s : sms_struct) : MM (bool * sms_struct) :=
  match n with
  | O => _ ← act (upd_m (set_sms_error_counter 0)); mret (true, s)
  | S n =>
      let '(size, buf, data, len) := next_part utf8 type m len data buf in
      let '(pdu_len, raw_data) := pdu_encode (PduOut type count i size buf (sms_tel_num s) (sms_sr s)) in
      r ← send_pdu_now raw_data pdu_len;
      match r with
      | Some id =>
          send_parts n utf8 type m count (i + 1) len data buf
            (Sms (sms_data s) (sms_tel_num s) (sms_len s) (sms_ty s) id (sms_sr s) (sms_time s))
      | None =>
          _ ← act (mlog (MEvent MODEM_EVENT_SMS_ERROR));
          _ ← act (upd_m (λ m, set_sms_error_counter (u32 (sms_error_counter m + 1)) m));
          mret (false, s)
      end
  end.

(** The coding, whether the text is converted, and its length in characters. *)
(** src/modem/modem_sms.c:124-171 (modem_sms_send_now) *)
Definition sms_coding (s : sms_struct) : sms_type_t * option (bool * pdu_coding * Z) :=
  let ty := match sms_ty s with
            | SMS_TYPE_AUTO => if text_is_ascii (sms_data s) then SMS_TYPE_TEXT7 else SMS_TYPE_UTF8
            | ty => ty
            end in
  (ty, match ty with
       | SMS_TYPE_TEXT7 => Some (false, PDU_TYPE_TEXT7, u16 (Z.of_nat (length (sms_data s))))
       | SMS_TYPE_DATA8 => Some (false, PDU_TYPE_TEXT8, sms_len s)
       | SMS_TYPE_UTF8 => Some (true, PDU_TYPE_UCS2, u16 (text_utf8_to_ucs2 (sms_data s) 512).2)
       | SMS_TYPE_UCS2 => Some (false, PDU_TYPE_UCS2, sms_len s)
       | _ => None
       end).

(** src/modem/modem_sms.c:101-231 (modem_sms_send_now) *)
Definition modem_sms_send_now (s : sms_struct) : MM (bool * sms_struct) :=
  let '(ty, coding) := sms_coding s in
  match coding with
  | None =>
      _ ← act (mlog (MEvent MODEM_EVENT_SMS_ERROR));
      _ ← act (upd_m (λ m, set_sms_error_counter (u32 (sms_error_counter m + 1)) m));
      mret (false, s)
  | Some (utf8, type, len) =>
      let s := Sms (sms_data s) (sms_tel_num s) len ty (sms_id s) (sms_sr s) (sms_time s) in
      send_parts (Z.to_nat (pdu_count type len)) utf8 type (max_sms_len type len) (pdu_count type len) 1 len
        (sms_data s) garbage s
  end.

(** ** Reading *)

(** The rest of the list, until OK; an answer that is neither OK nor another
    header ends the wait.  A header is found twice at most, since a line kept is not
    replaced (ModemSmsRun): three passes are all there can be. *)
(** src/modem/modem_sms.c:299-309 (modem_sms_read) *)
Fixpoint list_end (fuel : nat) : MM bool :=
  match fuel with
  | O => stuck
  | S fuel =>
      let mask := Z.lor AT_ST_OK (Z.lor AT_ST_ERROR AT_ST_USER_STR) in
      response ← modem_at_response env (Some (str "+CMGL: ")) mask MODEM_TIMEOUT_L;
      if has response AT_ST_OK then mret true
      else
        _ ← act (at_clr mask);
        if has response AT_ST_USER_STR then list_end fuel else mret false
  end.

(** The first message of the list, deleted without waiting for the answer. *)
(** src/modem/modem_sms.c:288-335 (modem_sms_read) *)
Definition read_first : MM (option pdu_in) :=
  _ ← modem_at_cmd_nolock (str "AT+CMGL=4");
  head ← modem_at_read_line_lite 32 (Some (str "+CMGL: ")) 200;
  if head.1 =? 0 then _ ← act (upd_m (set_sms_counter 0)); mret None
  else
    let sms_id := u16 (atoi (drop 7 head.2)) in
    raw ← modem_at_read_line_lite PDU_MAX_LENGTH None 200;
    if raw.1 =? 0 then _ ← act (upd_m (set_sms_counter 0)); mret None
    else
      let pdu := pdu_decode raw.2 in
      complete ← list_end 3;
      _ ← (if complete : bool then act (upd_m (λ m, set_sms_counter (u32 (sms_counter m - 1)) m)) else mret ());
      _ ← modem_at_cmd_nolock (str "AT+CMGD=" ++ print_dec sms_id);
      mret (if complete && (0 <=? pi_len pdu) then Some pdu else None).

(** A part of a long message joins the others: the text when it is the last. *)
(** src/modem/modem_sms.c:340-361 (modem_sms_read) *)
Definition join_parts (pdu : pdu_in) (msms : list msms_t) : outcome (option (list Z * Z) * list msms_t) :=
  if pi_count pdu =? 0 then Ok (Some (pi_content pdu, pi_len pdu), msms)
  else
    match ms_incomming (pi_content pdu) (pi_id pdu) (pi_nr pdu) (pi_count pdu) msms with
    | (MS_SMS_DONE, msms) =>
        '(len, text) ← ms_get (pi_id pdu) msms;
        Ok (Some (default [] text, len), ms_delete (pi_id pdu) msms)
    | (_, msms) => Ok (None, msms)
    end.

(** src/modem/modem_sms.c:258-390 (modem_sms_read) *)
Definition modem_sms_read (msms : list msms_t) : MM (option sms_struct * list msms_t) :=
  me ← see (λ w, sms_storage_me (mw_m w));
  _ ← (if me : bool then
         _ ← modem_at_ok_cmd env (qstr "AT+CPMS='ME'");
         act (upd_m (set_sms_storage_me false))
       else mret ());
  _ ← modem_at_lock env;
  pdu ← read_first;
  _ ← modem_at_unlock;
  match pdu with
  | None => mret (None, msms)
  | Some pdu =>
      match join_parts pdu msms with
      | Err _ => stuck
      | Ok (Some (text, len), msms) =>
          if 0 <? len then
            let ty := match pi_type pdu with
                      | PDU_TYPE_SR => SMS_TYPE_SR
                      | PDU_TYPE_CODED PDU_TYPE_TEXT8 => SMS_TYPE_DATA8
                      | _ => SMS_TYPE_UTF8
                      end in
            mret (Some (Sms text (pi_tel_num pdu) (u16 len) ty 0 false (pi_timestamp pdu)), msms)
          else mret (None, msms)
      | Ok (None, msms) => mret (None, msms)
      end
  end.

(** src/modem/modem_sms.c:394-412 (modem_sms_delete) *)
Definition modem_sms_delete (n : Z) : MM bool :=
  _ ← modem_at_lock env;
  _ ← modem_at_cmd_nolock ([13; 10] ++ str "AT+CMGD=" ++ print_dec n ++ [13; 10]);
  r ← modem_at_response env None (Z.lor AT_ST_OK AT_ST_ERROR) MODEM_TIMEOUT_M;
  _ ← modem_at_unlock;
  mret (has r AT_ST_OK).

(** src/modem/modem_main.c:433-449 (modem_main_sms_read) *)
Definition modem_main_sms_read (msms : list msms_t) : MM (option sms_struct * list msms_t) :=
  n ← see (λ w, sms_counter (mw_m w));
  ready ← see (flag MODEM_FLAG_PIN_READY);
  if (n =? 0) || negb ready then mret (None, msms) else modem_sms_read msms.

(** ** Commands by text message *)

(** A C string in the data. *)
Definition text_of (data : list Z) : list Z := match c_string data with Ok t => t | Err _ => data end.

Context `{R : EventRepr}.

(** The counter of messages is only printed. *)
(** src/app/sms_processing.c:19-62 (sms_parse) *)
Definition sms_parse (e : cmd_env) (s : sms_struct) (mm : mmain) (c : cst) : MM (mmain * cst) :=
  if sms_len s =? 0 then mret (mm, c)
  else
    now ← see mw_now;
    match cmd_sms_process e (text_of (sms_data s)) (Cst (c_dev c) (c_acc c) now [] (c_acts c)) with
    | Err _ => stuck
    | Ok (false, c) => mret (mm, c)
    | Ok (true, c) =>
        _ ← OS_DELAY env 100;
        let reply := render MAX_SMS_LEN (c_out c) in
        if (Z.of_nat (length reply) =? 0) || negb (text_is_valid_phone (sms_tel_num s)) then mret (mm, c)
        else
          r ← modem_main_sms_send (r ← modem_sms_send_now (Sms reply (sms_tel_num s) 0 SMS_TYPE_AUTO 0 false []); mret r.1) mm;
          mret (r.2, c)
    end.

(** A delivery report is only printed. *)
(** src/app/sms_processing.c:69-88 (sms_process) *)
Definition app_sms_process (e : cmd_env) (mm : mmain) (c : cst) (msms : list msms_t) : MM (bool * mmain * cst * list msms_t) :=
  incoming ← see modem_main_sms_incomming;
  if negb incoming then mret (true, mm, c, msms)
  else
    r ← modem_main_sms_read msms;
    match r with
    | (None, msms) => mret (false, mm, c, msms)
    | (Some s, msms) =>
        match sms_ty s with
        | SMS_TYPE_SR => mret (false, mm, c, msms)
        | _ => q ← sms_parse e s mm c; mret (false, q.1, q.2, msms)
        end
    end.

End sms.
