(* ===== verification/ModemRun.v ===== *)
(** * The commands come back (modem/modem_at.c, modem/modem.c, modem/modem_main.c)

    Whatever the module sends or does not send, every operation of the driver
    returns within a time that is the sum of its time-outs, does not wait for the
    semaphore it holds, gives it back, and keeps the state consistent. *)

From S2P Require Import Prelude CText EventTypes EventBuf Storage EventMemory EventQueue Out.
From S2P Require Import Alarm ArmSection System Cfg SiaIp NetTarget Cms EventTask TracerBuf.
From S2P Require Import Inp Update Nmea Gps Report Cmd TracerProto ModemAt ModemUrc ModemCmd ModemUdp ModemMain.

(** The characters received among actions. *)
Definition rx_chars (l : list maction) : list Z := concat (omap (λ a, match a with MRx d => Some d | _ => None end) l).

Lemma rx_chars_app l1 l2 : rx_chars (l1 ++ l2) = rx_chars l1 ++ rx_chars l2.
Proof. unfold rx_chars. by rewrite omap_app, concat_app. Qed.

(** What the receiver itself does: it tells the application. *)
Definition told (a : maction) : Prop := match a with MEvent _ | MUdp _ _ _ => True | _ => False end.
Definition silent (l l' : list maction) : Prop := ∃ d, l' = l ++ d ∧ Forall told d.
#[export] Instance silent_preorder : PreOrder silent.
Proof.
  split; [intros l; exists []; by rewrite app_nil_r|]. intros l1 l2 l3 (d1 & -> & E1) (d2 & -> & E2).
  exists (d1 ++ d2). rewrite <-app_assoc, Forall_app. done.
Qed.
Lemma silent_refl l : silent l l.
Proof. reflexivity. Qed.
#[export] Hint Resolve silent_refl : core.
Lemma silent_prefix l l' : silent l l' → l `prefix_of` l'.
Proof. intros (d & -> & _). by apply prefix_app_r. Qed.
Lemma told_chars d : Forall told d → rx_chars d = [].
Proof. induction 1 as [|[] d Ha Hd IH]; done. Qed.

Section quiet.
Context `{M : ModemLib}.

(** *** What the receiver leaves alone *)

Record quiet (w w' : mworld) : Prop := {
  q_now : mw_now w' = mw_now w;
  q_log : silent (mw_log w) (mw_log w');
  q_busy : at_busy (w_at w') = at_busy (w_at w);
  q_sleep : m_sleep (mw_m w') = m_sleep (mw_m w)
}.

#[export] Instance quiet_preorder : PreOrder quiet.
Proof.
  split; [by intros w; constructor|]. intros w1 w2 w3 [] []. constructor; try congruence. by etransitivity.
Qed.

Lemma quiet_step f w0 w : (∀ w, quiet w (f w)) → quiet w0 w → quiet w0 (f w).
Proof. intros Hf H. etransitivity; [done|apply Hf]. Qed.

Lemma quiet_mlog a w0 w : told a → quiet w0 w → quiet w0 (mlog a w).
Proof. intros Ha. apply quiet_step. intros. constructor; try done. exists [a]. by repeat constructor. Qed.
Lemma quiet_at_set m w0 w : quiet w0 w → quiet w0 (at_set m w).
Proof. by apply quiet_step. Qed.
Lemma quiet_flag_set m w0 w : quiet w0 w → quiet w0 (flag_set m w).
Proof. by apply quiet_step. Qed.
Lemma quiet_flag_clr m w0 w : quiet w0 w → quiet w0 (flag_clr m w).
Proof. by apply quiet_step. Qed.
Lemma quiet_errors n w0 w : quiet w0 w → quiet w0 (errors n w).
Proof. by apply quiet_step. Qed.
Lemma quiet_upd_bg f w0 w : quiet w0 w → quiet w0 (upd_bg f w).
Proof. by apply quiet_step. Qed.
Lemma quiet_upd_m f w0 w : (∀ m, m_at (f m) = m_at m ∧ m_sleep (f m) = m_sleep m) → quiet w0 w → quiet w0 (upd_m f w).
Proof.
  intros Hf. apply quiet_step. intros [m ? ? ?]. destruct (Hf m) as [E1 E2].
  constructor; try done; unfold w_at, upd_m; cbn; by rewrite ?E1, ?E2.
Qed.
Lemma quiet_upd_at f w0 w : (∀ a, at_busy (f a) = at_busy a) → quiet w0 w → quiet w0 (upd_at f w).
Proof. intros Hf. apply quiet_step. intros. constructor; try done. apply Hf. Qed.
Lemma quiet_set_offline w0 w : quiet w0 w → quiet w0 (_set_offline w).
Proof. by apply quiet_step. Qed.
Lemma quiet_socket_clear w0 w : quiet w0 w → quiet w0 (_socket_clear w).
Proof. by apply quiet_step. Qed.

Create HintDb quiet.
#[local] Hint Extern 1 (quiet _ (mlog _ _)) => apply quiet_mlog; [done|] : quiet.
#[local] Hint Resolve quiet_at_set quiet_flag_set quiet_flag_clr quiet_errors quiet_upd_bg quiet_set_offline
  quiet_socket_clear : quiet.
#[local] Hint Extern 2 (quiet _ (upd_m _ _)) => apply quiet_upd_m; [by intros|] : quiet.
#[local] Hint Extern 2 (quiet _ (upd_at _ _)) => apply quiet_upd_at; [by intros|] : quiet.
#[local] Hint Extern 0 (quiet _ _) => reflexivity : quiet.
#[local] Hint Extern 2 (quiet _ (upd_socket _ _ _)) => apply quiet_upd_bg : quiet.

Lemma quiet_bg95 src n w0 w : quiet w0 w → quiet w0 (modem_bg95_urc src n w).2.
Proof.
  intros H. unfold modem_bg95_urc, bg95_data_line, bg95_qird, bg95_qiopen, _udp_rx_hex, udp_rx.
  repeat case_match; cbn [snd]; auto 10 with quiet.
Qed.

Lemma quiet_urc src n w0 w : quiet w0 w → quiet w0 (modem_parse_urc src n w).2.
Proof.
  intros H. unfold modem_parse_urc, urc_cme_error, urc_cms_error, urc_creg, urc_cereg, urc_cgreg, urc_cmti, urc_cpms, urc_csq.
  repeat case_match; cbn [snd]; auto 10 using quiet_bg95 with quiet.
Qed.

Lemma quiet_line src n w0 w : quiet w0 w → quiet w0 (at_line src n w).
Proof.
  intros H. unfold at_line, at_keep_response. case_match; [auto with quiet|]. case_match; [auto with quiet|].
  pose proof (quiet_urc src n w0 (at_set AT_ST_LINE w)) as Hq. destruct (modem_parse_urc _ _ _) as [[] w'];
    cbn [snd] in Hq; [auto with quiet|]. specialize (Hq (quiet_at_set _ _ _ H)). repeat case_match; auto 10 with quiet.
Qed.

Lemma quiet_rx data w0 w : quiet w0 w → quiet w0 (modem_rx_task data w).
Proof.
  revert w. induction data as [|c data IH]; intros w H; [done|]. apply IH. unfold modem_at_rx.
  repeat case_match; auto 10 using quiet_line with quiet.
Qed.

End quiet.

(** ** Time *)

Section takes.
Context `{M : ModemLib} `{F : FlashLib}.
Variable env : Z → list maction → list Z * Z.
(** The longest the other tasks keep the processor. *)
Variable D : Z.
Hypothesis stall : ∀ t l, (env t l).2 ≤ D.
Hypothesis stall_pos : 1 ≤ D.

(** Started with the semaphore in state [b], the operation returns within [T]
    and leaves it in state [b']. *)
Definition takesQ {A} (b b' : bool) (m : MM A) (T : Z) (Q : A → mworld → mworld → Prop) : Prop := ∀ w,
  modem_ok w → at_busy (w_at w) = b → 0 ≤ mw_now w → mw_now w + T < 4294967296 →
  ∃ a w', m w = Some (a, w') ∧ modem_ok w' ∧ at_busy (w_at w') = b' ∧
    mw_now w ≤ mw_now w' ≤ mw_now w + T ∧ mw_log w `prefix_of` mw_log w' ∧ Q a w w'.
Definition takes {A} (b b' : bool) (m : MM A) (T : Z) : Prop := takesQ b b' m T (λ _ _ _, True).

Lemma takes_ret {A} b (a : A) T : 0 ≤ T → takes b b (mret a) T.
Proof. intros HT w Hok Hb Hn Ht. exists a, w. do 3 (split; [done|]). split; [lia|done]. Qed.

Lemma takes_see {A} b (f : mworld → A) T : 0 ≤ T → takes b b (see f) T.
Proof. intros HT w Hok Hb Hn Ht. exists (f w), w. do 3 (split; [done|]). split; [lia|done]. Qed.

Definition gentle (f : mworld → mworld) : Prop := ∀ w, modem_ok w →
  modem_ok (f w) ∧ mw_now (f w) = mw_now w ∧ mw_log w `prefix_of` mw_log (f w) ∧ at_busy (w_at (f w)) = at_busy (w_at w).

Lemma takes_act b f T : gentle f → 0 ≤ T → takes b b (act f) T.
Proof.
  intros Hf HT w Hok Hb Hn Ht. destruct (Hf w Hok) as (H1 & H2 & H3 & H4). exists (), (f w). rewrite H2, H4.
  split; [done|]. split; [done|]. split; [done|]. split; [lia|done].
Qed.

Lemma takes_bind {A B} b b1 b2 (m : MM A) (f : A → MM B) T1 T :
  takes b b1 m T1 → (∀ a, takes b1 b2 (f a) (T - T1)) → T1 ≤ T → takes b b2 (m ≫= f) T.
Proof.
  intros Hm Hf HT w Hok Hb Hn Ht.
  destruct (Hm w Hok Hb Hn) as (a & w1 & E1 & Hok1 & Hb1 & Ht1 & Hp1 & _); [lia|].
  destruct (Hf a w1 Hok1 Hb1) as (c & w2 & E2 & Hok2 & Hb2 & Ht2 & Hp2 & _); [lia..|].
  exists c, w2. cbv [mbind MM_bind]. rewrite E1. do 3 (split; [done|]). split; [lia|]. split; [by etransitivity|done].
Qed.

(** What is read first costs nothing. *)
Lemma takes_bind_see {A B} b b2 (g : mworld → A) (f : A → MM B) T :
  (∀ a, takes b b2 (f a) T) → takes b b2 (see g ≫= f) T.
Proof. intros Hf w. exact (Hf (g w) w). Qed.
Lemma takes_bind_act {B} b b2 g (f : () → MM B) T :
  gentle g → takes b b2 (f ()) T → takes b b2 (act g ≫= f) T.
Proof.
  intros Hg Hf w Hok Hb Hn Ht. destruct (Hg w Hok) as (H1 & H2 & H3 & H4).
  destruct (Hf (g w)) as (c & w2 & E2 & Hok2 & Hb2 & Ht2 & Hp2 & _); [done|congruence|lia..|].
  exists c, w2. rewrite H2 in Ht2. do 4 (split; [done|]). split; [by etransitivity|done].
Qed.

Lemma takes_assoc {A B C} b b' (m : MM A) (f : A → MM B) (g : B → MM C) T :
  takes b b' (m ≫= λ a, f a ≫= g) T → takes b b' ((m ≫= f) ≫= g) T.
Proof.
  intros H w Hok Hb Hn Ht. destruct (H w Hok Hb Hn Ht) as (a & w' & E & H'). exists a, w'. split; [|done].
  rewrite <-E. cbv [mbind MM_bind]. by destruct (m w) as [[? ?]|].
Qed.

Lemma takes_weaken {A} b b' (m : MM A) T1 T : takes b b' m T1 → T1 ≤ T → takes b b' m T.
Proof.
  intros Hm HT w Hok Hb Hn Ht. destruct (Hm w Hok Hb Hn) as (a & w1 & E1 & Hok1 & Hb1 & Ht1 & Hp1 & _); [lia|].
  exists a, w1. do 3 (split; [done|]). split; [lia|done].
Qed.

(** *** Waiting *)

Lemma yield_takes b : takesQ b b (yield env) D (λ d w w', 1 ≤ d ∧ mw_now w' = mw_now w + d).
Proof.
  intros w Hok Hb Hn Ht. unfold yield. pose proof (stall (mw_now w) (mw_log w)) as HD.
  destruct (env (mw_now w) (mw_log w)) as [chars d]. cbn [snd] in HD. cbv zeta.
  set (w1 := set_now _ (mlog (MRx chars) w)). destruct (quiet_rx chars w1 w1) as [En El Eb _]; [done|].
  assert (mw_now w1 = mw_now w + Z.max 1 d) as E1.
  { unfold w1. cbn [mw_now set_now]. apply u32_small. unfold in_u32. lia. }
  exists (Z.max 1 d), (modem_rx_task chars w1). split; [done|].
  split; [apply modem_rx_ok; unfold w1; destruct Hok; by constructor|]. split; [by rewrite Eb|].
  rewrite En, E1. split; [lia|]. split; [etransitivity; [|exact (silent_prefix _ _ El)]; by apply prefix_app_r|lia].
Qed.

Lemma delay_takes b ms : 0 ≤ ms → takesQ b b (OS_DELAY env ms) (ms + D) (λ _ w w', 0 < ms → mw_now w < mw_now w').
Proof.
  intros Hms. unfold OS_DELAY.
  assert (∀ n left, left ≤ Z.of_nat n →
    takesQ b b (delay_loop env n left) (Z.max 0 left + D) (λ _ w w', 0 < left → mw_now w < mw_now w')) as H.
  { induction n as [|n IH]; intros left Hl w Hok Hb Hn Ht; cbn [delay_loop].
    - destruct (Z.ltb_spec 0 left); [lia|]. exists (), w. do 3 (split; [done|]). split; [lia|]. split; [done|lia].
    - destruct (Z.ltb_spec 0 left).
      2: { exists (), w. do 3 (split; [done|]). split; [lia|]. split; [done|lia]. }
      destruct (yield_takes b w Hok Hb Hn) as (d & w1 & E1 & Hok1 & Hb1 & Ht1 & Hp1 & Hd & En); [lia|].
      cbv [mbind MM_bind]. rewrite E1.
      destruct (decide (left - d ≤ 0)).
      { destruct n; cbn [delay_loop]; (destruct (Z.ltb_spec 0 (left - d)); [lia|]); exists (), w1;
          (do 3 (split; [done|])); (split; [lia|]); (split; [done|lia]). }
      destruct (IH (left - d) ltac:(lia) w1 Hok1 Hb1) as ([] & w2 & E2 & Hok2 & Hb2 & Ht2 & Hp2 & _); [lia..|].
      exists (), w2. do 3 (split; [done|]). split; [lia|]. split; [by etransitivity|lia]. }
  intros w Hok Hb Hn Ht. destruct (H (Z.to_nat ms) ms) with w as (r & w' & ?); [lia|done..|lia|].
  exists r, w'. rewrite Z.max_r in * by lia. done.
Qed.

Lemma takes_delay b ms : 0 ≤ ms → takes b b (OS_DELAY env ms) (ms + D).
Proof.
  intros Hms w Hok Hb Hn Ht. destruct (delay_takes b ms Hms w) as (r & w' & ? & ? & ? & ? & ? & _); [done..|].
  by exists r, w'.
Qed.

(** A loop until a time, whose turns take time. *)
Definition turn {A} (b : bool) (body : MM (option A)) (T : Z) : Prop :=
  takesQ b b body T (λ r w w', r = None → mw_now w < mw_now w').

Lemma mloop_takes {A} b (body : MM (option A)) T n (limit : Z) w : turn b body T → 0 ≤ T →
  modem_ok w → at_busy (w_at w) = b → 0 ≤ mw_now w → limit - mw_now w ≤ Z.of_nat n → limit + T < 4294967296 →
  ∃ r w', mloop n (λ w, mw_now w <? limit) body w = Some (r, w') ∧ modem_ok w' ∧ at_busy (w_at w') = b ∧
    mw_now w ≤ mw_now w' ≤ Z.max (mw_now w) (limit + T) ∧ mw_log w `prefix_of` mw_log w'.
Proof.
  intros Hbody HT. revert w. induction n as [|n IH]; intros w Hok Hb Hn Hl Ht; cbn [mloop].
  - destruct (Z.ltb_spec (mw_now w) limit); [lia|]. exists None, w. do 3 (split; [done|]). split; [lia|done].
  - destruct (Z.ltb_spec (mw_now w) limit).
    2: { exists None, w. do 3 (split; [done|]). split; [lia|done]. }
    destruct (Hbody w Hok Hb Hn) as (r & w1 & E1 & Hok1 & Hb1 & Ht1 & Hp1 & Hr); [lia|]. rewrite E1.
    destruct r as [a|].
    { exists (Some a), w1. do 3 (split; [done|]). split; [lia|done]. }
    specialize (Hr eq_refl).
    destruct (IH w1 Hok1 Hb1) as (r2 & w2 & E2 & Hok2 & Hb2 & Ht2 & Hp2); [lia..|].
    exists r2, w2. do 3 (split; [done|]). split; [lia|]. by etransitivity.
Qed.

Lemma mloop_ext {A} n c1 c2 (body : MM (option A)) w : (∀ w, c1 w = c2 w) → mloop n c1 body w = mloop n c2 body w.
Proof.
  intros Hc. revert w. induction n as [|n IH]; intros w; cbn [mloop]; rewrite Hc; [done|].
  destruct (c2 w); [|done]. destruct (body w) as [[[a|] w1]|]; [done|apply IH|done].
Qed.

Lemma while_upto_before {A} limit (body : MM (option A)) w : while_upto limit body w = while_before (limit + 1) body w.
Proof. apply mloop_ext. intros w'. destruct (Z.leb_spec (mw_now w') limit), (Z.ltb_spec (mw_now w') (limit + 1)); lia || done. Qed.

Lemma while_before_takes {A} b (body : MM (option A)) T (limit : Z) w : turn b body T → 0 ≤ T →
  modem_ok w → at_busy (w_at w) = b → 0 ≤ mw_now w → limit + T < 4294967296 →
  ∃ r w', while_before limit body w = Some (r, w') ∧ modem_ok w' ∧ at_busy (w_at w') = b ∧
    mw_now w ≤ mw_now w' ≤ Z.max (mw_now w) (limit + T) ∧ mw_log w `prefix_of` mw_log w'.
Proof. intros. apply mloop_takes; (done || lia). Qed.

(** The loops of the driver: something first, then turns until a time counted
    from the start. *)
Lemma takes_timed {A B X} b b1 b' (body : MM (option A)) Tb T0 timeout (pre : MM X) (k : option A → MM B) T :
  takes b b1 pre T0 → turn b1 body Tb → 0 ≤ T0 → 0 ≤ Tb → 0 ≤ timeout → T0 + timeout + Tb ≤ T →
  (∀ r, takes b1 b' (k r) (T - T0 - timeout - Tb)) →
  takes b b' (now ← see mw_now; _ ← pre; r ← while_before (u32 (now + timeout)) body; k r) T.
Proof.
  intros Hpre Hbody HT0 HTb Hto HT Hk w Hok Hb Hn Ht. cbv [mbind MM_bind see].
  destruct (Hpre w Hok Hb Hn) as (x & w0 & E0 & Hok0 & Hb0 & Ht0 & Hp0 & _); [lia|].
  rewrite E0, u32_small by (unfold in_u32; lia).
  destruct (while_before_takes b1 body Tb (mw_now w + timeout) w0)
    as (r & w1 & E1 & Hok1 & Hb1 & Ht1 & Hp1); [done|lia|done|congruence|lia..|].
  rewrite E1. destruct (Hk r w1 Hok1 Hb1) as (c & w2 & E2 & Hok2 & Hb2 & Ht2 & Hp2 & _); [lia..|].
  exists c, w2. do 3 (split; [done|]). split; [lia|]. split; [|done]. etransitivity; [done|]. by etransitivity.
Qed.

Lemma takes_timed_upto {A B X} b b1 b' (body : MM (option A)) Tb T0 timeout (pre : MM X) (k : option A → MM B) T :
  takes b b1 pre T0 → turn b1 body Tb → 0 ≤ T0 → 0 ≤ Tb → 0 ≤ timeout → T0 + timeout + 1 + Tb ≤ T →
  (∀ r, takes b1 b' (k r) (T - T0 - timeout - 1 - Tb)) →
  takes b b' (now ← see mw_now; _ ← pre; r ← while_upto (u32 (now + timeout)) body; k r) T.
Proof.
  intros Hpre Hbody HT0 HTb Hto HT Hk w Hok Hb Hn Ht. cbv [mbind MM_bind see].
  destruct (Hpre w Hok Hb Hn) as (x & w0 & E0 & Hok0 & Hb0 & Ht0 & Hp0 & _); [lia|].
  rewrite E0, u32_small by (unfold in_u32; lia). rewrite while_upto_before.
  destruct (while_before_takes b1 body Tb (mw_now w + timeout + 1) w0)
    as (r & w1 & E1 & Hok1 & Hb1 & Ht1 & Hp1); [done|lia|done|congruence|lia..|].
  rewrite E1. destruct (Hk r w1 Hok1 Hb1) as (c & w2 & E2 & Hok2 & Hb2 & Ht2 & Hp2 & _); [lia..|].
  exists c, w2. do 3 (split; [done|]). split; [lia|]. split; [|done]. etransitivity; [done|]. by etransitivity.
Qed.

Lemma takes_timed_now {A B} b b' (body : MM (option A)) Tb timeout (k : option A → MM B) T :
  turn b body Tb → 0 ≤ Tb → 0 ≤ timeout → timeout + Tb ≤ T → (∀ r, takes b b' (k r) (T - timeout - Tb)) →
  takes b b' (now ← see mw_now; r ← while_before (u32 (now + timeout)) body; k r) T.
Proof.
  intros Hb HTb Ht HT Hk. refine (takes_timed b b b' body Tb 0 timeout (mret ()) k T _ Hb _ HTb Ht _ _); try lia.
  - apply takes_ret. lia.
  - intros r. by replace (T - 0 - timeout - Tb) with (T - timeout - Tb) by lia.
Qed.

Lemma takes_timed_upto_now {A B} b b' (body : MM (option A)) Tb timeout (k : option A → MM B) T :
  turn b body Tb → 0 ≤ Tb → 0 ≤ timeout → timeout + 1 + Tb ≤ T → (∀ r, takes b b' (k r) (T - timeout - 1 - Tb)) →
  takes b b' (now ← see mw_now; r ← while_upto (u32 (now + timeout)) body; k r) T.
Proof.
  intros Hb HTb Ht HT Hk. refine (takes_timed_upto b b b' body Tb 0 timeout (mret ()) k T _ Hb _ HTb Ht _ _); try lia.
  - apply takes_ret. lia.
  - intros r. by replace (T - 0 - timeout - 1 - Tb) with (T - timeout - 1 - Tb) by lia.
Qed.

(** A turn that waits at its end when it has no result. *)
Lemma turn_wait {A} b (m : MM (option A)) T : takesQ b b m T (λ r w w', r = None → mw_now w < mw_now w') → turn b m T.
Proof. done. Qed.

Lemma turn_yield {A} b T : D ≤ T → turn b (_ ← yield env; mret (None : option A)) T.
Proof.
  intros HT w Hok Hb Hn Ht. destruct (yield_takes b w Hok Hb Hn) as (d & w1 & E1 & Hok1 & Hb1 & Ht1 & Hp1 & Hd & En); [lia|].
  cbv [mbind MM_bind]. rewrite E1. exists None, w1. do 3 (split; [done|]). split; [lia|]. split; [done|lia].
Qed.

Lemma turn_delay {A} b ms T : 0 < ms → ms + D ≤ T → turn b (_ ← OS_DELAY env ms; mret (None : option A)) T.
Proof.
  intros Hms HT w Hok Hb Hn Ht.
  destruct (delay_takes b ms ltac:(lia) w Hok Hb Hn) as (d & w1 & E1 & Hok1 & Hb1 & Ht1 & Hp1 & Hd); [lia|].
  cbv [mbind MM_bind]. rewrite E1. exists None, w1. do 3 (split; [done|]). split; [lia|]. split; [done|lia].
Qed.

Lemma turn_some {A} b (a : A) T : 0 ≤ T → turn b (mret (Some a)) T.
Proof. intros HT w Hok Hb Hn Ht. exists (Some a), w. do 3 (split; [done|]). split; [lia|done]. Qed.

Lemma turn_bind {A B} b (m : MM A) (f : A → MM (option B)) T1 T :
  takes b b m T1 → (∀ a, turn b (f a) (T - T1)) → T1 ≤ T → turn b (m ≫= f) T.
Proof.
  intros Hm Hf HT w Hok Hb Hn Ht.
  destruct (Hm w Hok Hb Hn) as (a & w1 & E1 & Hok1 & Hb1 & Ht1 & Hp1 & _); [lia|].
  destruct (Hf a w1 Hok1 Hb1) as (c & w2 & E2 & Hok2 & Hb2 & Ht2 & Hp2 & Hq); [lia..|].
  exists c, w2. cbv [mbind MM_bind]. rewrite E1. do 3 (split; [done|]). split; [lia|]. split; [by etransitivity|].
  intros E. specialize (Hq E). lia.
Qed.

Lemma turn_see {A B} b (g : mworld → A) (f : A → MM (option B)) T : (∀ a, turn b (f a) T) → turn b (see g ≫= f) T.
Proof. intros Hf w. exact (Hf (g w) w). Qed.

End takes.

(** ** The operations *)

Lemma ok_upd_at `{M : ModemLib} f w : (∀ a, rx_buf (f a) = rx_buf a) → modem_ok w → modem_ok (upd_at f w).
Proof. intros Hf []. constructor; try done. unfold w_at, upd_at, upd_m in *. cbn. by rewrite Hf. Qed.
Lemma ok_upd_m `{M : ModemLib} f w :
  (∀ m, m_flags (f m) = m_flags m ∧ signal_level (f m) = signal_level m ∧ m_at (f m) = m_at m) →
  modem_ok w → modem_ok (upd_m f w).
Proof.
  intros Hf []. destruct w as [m b n l]. destruct (Hf m) as (E1 & E2 & E3).
  constructor; unfold flag, w_at, upd_m in *; cbn in *; rewrite ?E1, ?E2, ?E3; done.
Qed.
#[export] Hint Extern 2 (modem_ok (upd_at _ _)) => apply ok_upd_at; [by intros|] : modem_ok.
#[export] Hint Extern 2 (modem_ok (upd_m _ _)) => apply ok_upd_m; [by intros|] : modem_ok.
#[export] Hint Extern 2 (modem_ok (at_clr _ _)) => apply ok_upd_at; [by intros|] : modem_ok.

(** A change that no invariant hangs on. *)
Ltac gentle := intros ? ?; split; [auto 10 with modem_ok|repeat split; try done; try by apply prefix_app_r].

Definition cmd_time (c : list Z) : Z := (at_cmd_timeout c).1.

Lemma cmd_time_range c : 5000 ≤ cmd_time c ≤ 900000.
Proof.
  unfold cmd_time, at_cmd_timeout, MODEM_TIMEOUT_S, MODEM_TIMEOUT_M, MODEM_TIMEOUT_L, MODEM_TIMEOUT_LL.
  destruct c as [|x [|y c]]; repeat case_match; cbn [fst]; lia.
Qed.

(** The times of literal commands, then arithmetic. *)
Ltac times :=
  repeat match goal with
  | |- context [cmd_time ?c] => let v := eval vm_compute in (cmd_time c) in
      lazymatch v with Z.pos _ => change (cmd_time c) with v end
  end;
  change OS_TIMER_SECOND with 1000 in *; unfold MODEM_TIMEOUT_S, MODEM_TIMEOUT_M, MODEM_TIMEOUT_L, MODEM_TIMEOUT_LL in *; lia.

(** One more step of a command, whose first part a lemma of [takes] is for. *)
Ltac takes_step :=
  match goal with
  | |- takes _ _ (mret _) _ => apply takes_ret; times
  | |- takes _ _ (see _ ≫= _) _ => apply takes_bind_see; intros ?
  | |- takes _ _ (act _ ≫= _) _ => apply takes_bind_act; [gentle|]
  | |- takes _ _ (act _) _ => apply takes_act; [gentle|times]
  | |- takes _ _ (match ?c with _ => _ end) _ => destruct c
  | |- takes _ _ (match ?c with _ => _ end ≫= _) _ => destruct c
  | |- takes ?b ?b' (mret ?a ≫= ?f) ?T => change (takes b b' (f a) T); cbv beta
  | |- takes _ _ ((_ ≫= _) ≫= _) _ => apply takes_assoc
  | |- takes _ _ (_ ≫= _) _ => eapply takes_bind; [solve [eauto with takes]|intros ?; cbv beta|try times]
  | |- takes _ _ _ _ => eapply takes_weaken; [solve [eauto with takes]|try times]
  end.
Create HintDb takes.

Section operations.
Context `{M : ModemLib} `{F : FlashLib}.
Variable env : Z → list maction → list Z * Z.
Variable D : Z.
Hypothesis stall : ∀ t l, (env t l).2 ≤ D.
Hypothesis stall_pos : 1 ≤ D.

Lemma takes_pin b p : takes b b (pin p) 0.
Proof. apply takes_act; [gentle|lia]. Qed.
Lemma takes_tx b d : takes b b (modem_tx_data d) 0.
Proof. apply takes_act; [gentle|lia]. Qed.
Lemma takes_unlock : takes true false modem_at_unlock 0.
Proof. intros w [] Hb Hn Ht. exists (), (upd_at (set_at_busy false) w). split; [done|]. split; [by constructor|]. split; [done|]. split; [cbn; lia|done]. Qed.

#[local] Hint Resolve takes_pin takes_tx takes_unlock : takes.
#[local] Hint Extern 1 (takes _ _ (OS_DELAY _ _) _) =>
  eapply takes_delay; [eassumption|assumption|lia] : takes.

Lemma takes_hw_wakeup b : takes b b _hw_wakeup 0.
Proof. unfold _hw_wakeup. repeat takes_step. Qed.
#[local] Hint Resolve takes_hw_wakeup : takes.

Lemma takes_wakeup b : takes b b (modem_at_wakeup env) (100 + D).
Proof. unfold modem_at_wakeup. repeat takes_step. Qed.

Lemma takes_lock : takes false true (modem_at_lock env) (100 + D).
Proof.
  intros w Hok Hb Hn Ht. unfold modem_at_lock. cbv [mbind MM_bind see act]. rewrite Hb.
  destruct (takes_wakeup true (upd_at (set_at_busy true) w)) as (a & w' & ?); [auto with modem_ok|done..|].
  by exists a, w'.
Qed.
#[local] Hint Resolve takes_wakeup takes_lock : takes.

Lemma takes_response b u fl t : 0 ≤ t → takes b b (modem_at_response env u fl t) (t + D).
Proof.
  intros Ht. unfold modem_at_response. eapply (takes_bind _ _ _ _ _ 0); [|intros _; cbv beta|lia].
  { destruct (has _ _); repeat takes_step. }
  apply takes_bind_act; [gentle|].
  apply (takes_timed_now b b _ D t); try lia.
  - apply turn_see. intros fl'. destruct (has _ _); [by apply turn_some; lia|]. by apply (turn_yield env D).
  - intros [fl'|]; repeat takes_step.
Qed.
#[local] Hint Extern 1 (takes _ _ (modem_at_response _ _ _ _) _) => apply takes_response; times : takes.

Lemma takes_cmd b c : takes b b (modem_at_cmd_nolock c) 0.
Proof. unfold modem_at_cmd_nolock. repeat takes_step. Qed.
#[local] Hint Resolve takes_cmd : takes.

Lemma takes_dialogue b c u : takes b b (_at_cmd_and_response_ok env c u) (cmd_time c + D).
Proof.
  pose proof (cmd_time_range c) as Hc. unfold _at_cmd_and_response_ok, cmd_time in *.
  destruct (at_cmd_timeout c) as [t c']. cbn [fst] in *. repeat takes_step.
Qed.
#[local] Hint Resolve takes_dialogue : takes.

Lemma takes_ok_cmd_nolock b c : takes b b (modem_at_ok_cmd_nolock env c) (cmd_time c + D).
Proof. unfold modem_at_ok_cmd_nolock. repeat takes_step. Qed.
Lemma takes_ok_cmd c : takes false false (modem_at_ok_cmd env c) (cmd_time c + 100 + 2 * D).
Proof. pose proof (cmd_time_range c). unfold modem_at_ok_cmd. repeat takes_step. Qed.
Lemma takes_response_ok c u : takes false false (modem_at_response_ok env c u) (cmd_time c + 100 + 2 * D).
Proof. pose proof (cmd_time_range c). unfold modem_at_response_ok. repeat takes_step. Qed.
Lemma takes_get_response c u : takes false false (modem_at_cmd_get_response env c u) (cmd_time c + 100 + 2 * D).
Proof. pose proof (cmd_time_range c). unfold modem_at_cmd_get_response. repeat takes_step. Qed.
#[local] Hint Resolve takes_ok_cmd_nolock takes_ok_cmd takes_response_ok takes_get_response : takes.

Lemma takes_ok_cmd_fmt c : takes false false (modem_at_ok_cmd_fmt env c) (cmd_time c + 100 + 2 * D).
Proof. pose proof (cmd_time_range c). unfold modem_at_ok_cmd_fmt. repeat takes_step. Qed.
#[local] Hint Resolve takes_ok_cmd_fmt : takes.

(** *** Starting *)

Variable st : storage.

Lemma takes_hw_on b : takes b b (_hw_on env) (6010 + 3 * D).
Proof. unfold _hw_on. repeat takes_step. Qed.
Lemma takes_hw_off b : takes b b (_hw_off env) (11000 + 2 * D).
Proof.
  unfold _hw_off. repeat takes_step.
Qed.
Lemma takes_ok_test : takes false false (_ok_test env) (5100 + 2 * D).
Proof. unfold _ok_test. repeat takes_step. Qed.
#[local] Hint Resolve takes_hw_on takes_hw_off takes_ok_test : takes.

Lemma takes_modem_ready : takes false false (_modem_ready env) (10700 + 5 * D).
Proof. unfold _modem_ready. repeat takes_step. Qed.

Lemma takes_check_pin_loop n : takes false false (check_pin_loop env n) (Z.of_nat n * (10600 + 3 * D)).
Proof.
  induction n as [|n IH]; cbn [check_pin_loop]; [apply takes_ret; lia|].
  repeat takes_step.
Qed.
Lemma takes_check_pin : takes false false (_check_pin env) (53000 + 15 * D).
Proof. eapply takes_weaken; [apply (takes_check_pin_loop 5)|lia]. Qed.
Lemma takes_pin_attempts_left : takes false false (_pin_attempts_left env) (10100 + 2 * D).
Proof. unfold _pin_attempts_left. repeat takes_step. Qed.
Lemma takes_pin_enter pin : takes false false (_pin_enter env pin) (10100 + 2 * D).
Proof. unfold _pin_enter. destruct pin as [|c pin]; repeat takes_step. Qed.
#[local] Hint Resolve takes_modem_ready takes_check_pin takes_pin_attempts_left takes_pin_enter : takes.

Lemma takes_init_sim pin : takes false false (_init_sim env pin) (126200 + 34 * D).
Proof.
  unfold _init_sim. repeat takes_step.
Qed.
Lemma takes_power_off : takes false false (_power_off env) (11100 + 3 * D).
Proof. unfold _power_off. repeat takes_step. Qed.
#[local] Hint Resolve takes_init_sim takes_power_off : takes.

Definition row_short (p : modem_config) : Prop := 0 ≤ mc_timeout p ≤ 5000 ∧ cmd_time (mc_set p) ≤ 10000.

Lemma takes_config_task b ask res set t : 0 ≤ t → takes b b (_config_task env ask res set t) (t + 100 + 3 * D + cmd_time set).
Proof. intros Ht. pose proof (cmd_time_range set). unfold _config_task. repeat takes_step. Qed.

Lemma takes_config_rows table : Forall row_short table → ∀ b ok,
  takes b b (config_rows env table ok) (Z.of_nat (length table) * (15200 + 4 * D)).
Proof.
  induction 1 as [|p table [Hp1 Hp2] Htable IH]; intros b ok; cbn [config_rows length]; [apply takes_ret; lia|].
  takes_step. pose proof (cmd_time_range (mc_set p)).
  apply (takes_bind _ b _ _ _ (15100 + 3 * D)); [|intros ok'; cbv beta; eapply takes_weaken; [apply IH|lia]|lia].
  destruct (mc_ask p); [|eapply takes_weaken; [apply takes_ok_cmd_nolock|lia]].
  eapply takes_weaken; [apply takes_config_task; lia|lia].
Qed.

Lemma takes_config_table table : Forall row_short table →
  takes false false (modem_config_table env table) (100 + D + Z.of_nat (length table) * (15200 + 4 * D)).
Proof.
  intros Ht. unfold modem_config_table. takes_step.
  eapply takes_bind; [by apply takes_config_rows|intros ok; cbv beta|lia]. repeat takes_step.
Qed.

Lemma takes_modem_config : takes false false (modem_config_table env MODEM_CONFIG) (45700 + 13 * D).
Proof.
  eapply takes_weaken; [apply takes_config_table|cbn [length MODEM_CONFIG]; lia].
  repeat constructor; unfold MODEM_TIMEOUT_S; cbn [mc_timeout mc_set]; times.
Qed.
Lemma takes_bg95_config : takes false false (modem_config_table env MODEM_BG95_CONFIG) (91300 + 25 * D).
Proof.
  eapply takes_weaken; [apply takes_config_table|cbn [length MODEM_BG95_CONFIG]; lia].
  repeat constructor; unfold MODEM_TIMEOUT_S; cbn [mc_timeout mc_set]; times.
Qed.
Lemma takes_apn_init apn : takes false false (modem_apn_init env apn) (70200 + 4 * D).
Proof. unfold modem_apn_init. repeat takes_step. Qed.
Lemma takes_qcfg value : takes false false (_qcfg env (str "band") value (str ",1")) (15200 + 4 * D).
Proof. unfold _qcfg. repeat takes_step. Qed.
#[local] Hint Resolve takes_modem_config takes_bg95_config takes_apn_init takes_qcfg : takes.

Lemma takes_apn_setup : takes false false (modem_apn_setup env st) (70200 + 4 * D).
Proof. unfold modem_apn_setup. destruct (cfg_text _ _); repeat takes_step. Qed.
Lemma takes_bg95_init : takes false false (modem_bg95_init env st) (106500 + 29 * D).
Proof. unfold modem_bg95_init. destruct (cfg_text _ _); repeat takes_step. Qed.
#[local] Hint Resolve takes_apn_setup takes_bg95_init : takes.

Lemma takes_start_last : takes false false (start_last env st) (186800 + 35 * D).
Proof. unfold start_last. repeat takes_step. Qed.
#[local] Hint Resolve takes_start_last : takes.

Lemma takes_start_pass : takes false false (start_pass env st) (399200 + 92 * D).
Proof. unfold start_pass. repeat takes_step. Qed.
#[local] Hint Resolve takes_start_pass : takes.

Lemma takes_start_loop n : takes false false (start_loop env st n) (Z.of_nat n * (399200 + 92 * D)).
Proof.
  induction n as [|n IH]; cbn [start_loop]; [apply takes_ret; lia|]. repeat takes_step.
Qed.

Lemma takes_modem_start : takes false false (modem_start env st) (1208300 + 281 * D).
Proof.
  unfold modem_start. do 4 takes_step; [repeat takes_step|].
  eapply takes_weaken; [apply (takes_start_loop 3)|lia].
Qed.
#[local] Hint Resolve takes_modem_start : takes.

Lemma takes_check_questions : takes false false (check_questions env) (15300 + 6 * D).
Proof.
  unfold check_questions. takes_step. takes_step; [repeat takes_step|]. takes_step.
  match goal with |- context [if ?lte then str _ else _] => destruct lte end; repeat takes_step.
Qed.
#[local] Hint Resolve takes_check_questions : takes.

Lemma takes_modem_check : takes false false (modem_check env) (25600 + 11 * D).
Proof. unfold modem_check. repeat takes_step. Qed.

(** *** Data *)

Lemma takes_udp_init : takes false false (modem_bg95_udp_init env) (930400 + 8 * D).
Proof. unfold modem_bg95_udp_init. repeat takes_step. Qed.

Lemma takes_data_disconnect : takes false false (modem_data_disconnect env) (60100 + 2 * D).
Proof. unfold modem_data_disconnect. repeat takes_step. Qed.

(** A turn of a loop, the same way. *)
Ltac turn_step :=
  match goal with
  | |- turn _ (mret (Some _)) _ => apply turn_some; times
  | |- turn _ (see _ ≫= _) _ => apply turn_see; intros ?
  | |- turn _ (match ?c with _ => _ end) _ => destruct c
  | |- turn _ (OS_DELAY _ _ ≫= _) _ => eapply turn_delay; [eassumption|assumption|lia|times]
  | |- turn _ (_ ≫= _) _ => eapply turn_bind; [solve [eauto with takes]|intros ?; cbv beta|try times]
  end.

Lemma takes_wait_attached : takes false false (wait_attached env) (15601 + 3 * D).
Proof.
  unfold wait_attached.
  apply (takes_timed_upto false true false _ (5500 + 2 * D) (100 + D) (10 * OS_TIMER_SECOND)); [..|times|times|times|times|].
  - solve [eauto with takes].
  - repeat turn_step.
  - intros r. repeat takes_step.
Qed.

Lemma takes_wait_registered : takes false false (wait_registered env) (15601 + 3 * D).
Proof.
  unfold wait_registered.
  apply (takes_timed_upto_now false false _ (5600 + 3 * D) (10 * OS_TIMER_SECOND)); [..|times|times|times|].
  - repeat turn_step.
  - intros r. repeat takes_step.
Qed.
#[local] Hint Resolve takes_modem_check takes_udp_init takes_data_disconnect takes_wait_attached takes_wait_registered : takes.

Lemma takes_data_connect : takes false false (modem_data_connect env) (2761802 + 18 * D).
Proof. unfold modem_data_connect. repeat takes_step. Qed.
#[local] Hint Resolve takes_data_connect : takes.

(** *** The task *)

Lemma takes_to_state b new s : takes b b (to_state new s) 0.
Proof. unfold to_state. repeat takes_step. Qed.
#[local] Hint Resolve takes_to_state : takes.

Lemma takes_command_exec c s : takes false false (_modem_command_exec env st c s) (1208300 + 281 * D).
Proof. unfold _modem_command_exec. repeat takes_step. Qed.

Lemma takes_state_init now s : takes false false (state_init env now s) (10100 + 2 * D).
Proof. unfold state_init. repeat takes_step. Qed.
Lemma takes_state_net_ok now s : takes false false (state_net_ok env now s) (25600 + 11 * D).
Proof. unfold state_net_ok. repeat takes_step. Qed.
#[local] Hint Resolve takes_command_exec takes_state_init takes_state_net_ok : takes.

Lemma takes_state_machine s : takes false false (_state_machine_task env st s) (1208300 + 281 * D).
Proof. unfold _state_machine_task. repeat takes_step. Qed.
Lemma takes_main_sleep : takes false false (main_sleep env) (100 + D).
Proof. unfold main_sleep, _hw_sleep. repeat takes_step. Qed.
#[local] Hint Resolve takes_state_machine takes_main_sleep : takes.

Lemma takes_main_task s : takes false false (modem_main_task env st s) (2416700 + 563 * D).
Proof.
  unfold modem_main_task. apply (takes_bind _ false _ _ _ (1208300 + 281 * D)); [|intros s'; cbv beta; repeat takes_step|times].
  repeat takes_step.
Qed.

Lemma takes_main_data_connect apn s : takes false false (modem_main_data_connect env apn s) (2832002 + 22 * D).
Proof. unfold modem_main_data_connect. repeat takes_step. Qed.

(** *** Sockets *)

(** Started not before [t]. *)
Definition takes_from {A} (t : Z) (b b' : bool) (m : MM A) (T : Z) : Prop := ∀ w, t ≤ mw_now w →
  modem_ok w → at_busy (w_at w) = b → 0 ≤ mw_now w → mw_now w + T < 4294967296 →
  ∃ a w', m w = Some (a, w') ∧ modem_ok w' ∧ at_busy (w_at w') = b' ∧
    mw_now w ≤ mw_now w' ≤ mw_now w + T ∧ mw_log w `prefix_of` mw_log w' ∧ True.

Lemma takes_bind_now {A} b b' (f : Z → MM A) T :
  (∀ t, 0 ≤ t → takes_from t b b' (f t) T) → takes b b' (see mw_now ≫= f) T.
Proof. intros Hf w Hok Hb Hn Ht. by apply (Hf (mw_now w)). Qed.

Lemma from_bind {A B} t b b1 b2 (m : MM A) (f : A → MM B) T1 T :
  takes b b1 m T1 → (∀ a, takes_from t b1 b2 (f a) (T - T1)) → T1 ≤ T → takes_from t b b2 (m ≫= f) T.
Proof.
  intros Hm Hf HT w Hfrom Hok Hb Hn Ht.
  destruct (Hm w Hok Hb Hn) as (a & w1 & E1 & Hok1 & Hb1 & Ht1 & Hp1 & _); [lia|].
  destruct (Hf a w1) as (c & w2 & E2 & Hok2 & Hb2 & Ht2 & Hp2 & _); [lia|done|done|lia..|].
  exists c, w2. cbv [mbind MM_bind]. rewrite E1. do 3 (split; [done|]). split; [lia|]. split; [by etransitivity|done].
Qed.

Lemma from_see {A B} t b b2 (g : mworld → A) (f : A → MM B) T :
  (∀ a, takes_from t b b2 (f a) T) → takes_from t b b2 (see g ≫= f) T.
Proof. intros Hf w. exact (Hf (g w) w). Qed.

Lemma from_takes {A} t b b' (m : MM A) T : takes b b' m T → takes_from t b b' m T.
Proof. intros H w _. exact (H w). Qed.

Lemma from_from {A B} t b b1 b2 (m : MM A) (f : A → MM B) T1 T :
  takes_from t b b1 m T1 → (∀ a, takes b1 b2 (f a) (T - T1)) → T1 ≤ T → takes_from t b b2 (m ≫= f) T.
Proof.
  intros Hm Hf HT w Hfrom Hok Hb Hn Ht.
  destruct (Hm w Hfrom Hok Hb Hn) as (a & w1 & E1 & Hok1 & Hb1 & Ht1 & Hp1 & _); [lia|].
  destruct (Hf a w1) as (c & w2 & E2 & Hok2 & Hb2 & Ht2 & Hp2 & _); [done|done|lia..|].
  exists c, w2. cbv [mbind MM_bind]. rewrite E1. do 3 (split; [done|]). split; [lia|]. split; [by etransitivity|done].
Qed.

Lemma from_while {A B} t b b' (body : MM (option A)) Tb timeout (k : option A → MM B) T :
  0 ≤ t → turn b body Tb → 0 ≤ Tb → 0 ≤ timeout → timeout + 1 + Tb ≤ T → (∀ r, takes b b' (k r) (T - timeout - 1 - Tb)) →
  takes_from t b b' (r ← while_upto (u32 (t + timeout)) body; k r) T.
Proof.
  intros H0 Hbody HTb Hto HT Hk w Hfrom Hok Hb Hn Ht. cbv [mbind MM_bind].
  rewrite u32_small, while_upto_before by (unfold in_u32; lia).
  destruct (while_before_takes b body Tb (t + timeout + 1) w)
    as (r & w1 & E1 & Hok1 & Hb1 & Ht1 & Hp1); [done|lia|done|congruence|lia..|].
  rewrite E1. destruct (Hk r w1 Hok1 Hb1) as (c & w2 & E2 & Hok2 & Hb2 & Ht2 & Hp2 & _); [lia..|].
  exists c, w2. do 3 (split; [done|]). split; [lia|]. split; [|done]. by etransitivity.
Qed.

Lemma takes_sock b n f : takes b b (sock n f) 0.
Proof. apply takes_act; [gentle|lia]. Qed.
#[local] Hint Resolve takes_sock : takes.

Lemma takes_socket_close n : takes false false (_socket_close env n) (10100 + 2 * D).
Proof. unfold _socket_close. repeat takes_step. Qed.
#[local] Hint Resolve takes_socket_close : takes.

Lemma takes_open_socket n ip port t : 0 ≤ t →
  takes_from t false false (open_socket env n ip port (u32 (t + 10 * OS_TIMER_SECOND))) (910111 + 3 * D).
Proof.
  intros Ht. unfold open_socket. eapply from_bind; [apply takes_sock|intros []; cbv beta|times].
  eapply from_bind; [solve [eauto with takes]|intros ok; cbv beta|times].
  destruct ok; cbn [negb]; [|apply from_takes; repeat takes_step].
  apply (from_while _ _ _ _ (10 + D)); [done|..|times|times|times|].
  - repeat turn_step.
  - intros r. repeat takes_step.
Qed.

Lemma gentle_socket_id ip port : gentle (upd_bg (λ b, (_socket_id ip port b).2)).
Proof.
  intros w Hok. split; [|done]. apply ok_upd_bg; [|done]. intros b. unfold _socket_id. by repeat case_match.
Qed.

Lemma takes_udp_bind ip port : takes false false (_udp_bind env ip port) (920211 + 5 * D).
Proof.
  unfold _udp_bind. apply takes_bind_now. intros t Ht. apply from_see. intros n.
  apply (from_bind _ _ false _ _ _ 0); [apply takes_act; [apply gentle_socket_id|lia]|intros []; cbv beta|times].
  do 2 (eapply from_bind; [apply takes_sock|intros []; cbv beta|times]).
  apply from_see. intros bound. destruct bound; [apply from_takes; repeat takes_step|].
  apply from_see. intros used.
  apply (from_bind _ _ false _ _ _ (10100 + 2 * D)); [repeat takes_step|intros []; cbv beta|times].
  eapply from_from; [by apply takes_open_socket|intros ok; cbv beta|times]. repeat takes_step.
Qed.
#[local] Hint Resolve takes_udp_bind : takes.

Variable hex : list Z → list Z.

Lemma takes_send_datagram n data : takes false false (send_datagram env hex n data) (900100 + 2 * D).
Proof. unfold send_datagram. repeat takes_step. Qed.
#[local] Hint Resolve takes_send_datagram : takes.

Lemma takes_udp_send ip port data : takes false false (modem_bg95_udp_send env hex ip port data) (2760822 + 17 * D).
Proof. unfold modem_bg95_udp_send. repeat takes_step. Qed.

Lemma takes_fetch n i now : takes false false (fetch_waiting env n i now) (Z.of_nat n * (900100 + 2 * D)).
Proof.
  induction n as [|n IH]; cbn [fetch_waiting]; [repeat takes_step|]. repeat takes_step.
Qed.
Lemma takes_fetch4 i now : takes false false (fetch_waiting env 4 i now) (3600400 + 8 * D).
Proof. eapply takes_weaken; [apply takes_fetch|lia]. Qed.
#[local] Hint Resolve takes_fetch4 : takes.

Lemma takes_socket_turn i now : takes false false (socket_turn env i now) (3600400 + 8 * D).
Proof. unfold socket_turn. repeat takes_step. Qed.
#[local] Hint Resolve takes_socket_turn : takes.

Lemma takes_maintenance : takes false false (_socket_maintenace env) (18002000 + 40 * D).
Proof. unfold _socket_maintenace. takes_step. cbn [socket_turns]. repeat takes_step. Qed.
#[local] Hint Resolve takes_maintenance : takes.

Lemma takes_udp_rx_task : takes false false (modem_bg95_udp_rx_task env) (18062100 + 42 * D).
Proof. unfold modem_bg95_udp_rx_task. repeat takes_step. Qed.
#[local] Hint Resolve takes_udp_rx_task : takes.

Lemma takes_data_rx_process : takes false false (modem_data_rx_process env) (18062100 + 42 * D).
Proof. unfold modem_data_rx_process. repeat takes_step. Qed.

Lemma takes_await_answer : takes false false (await_answer env) (15010 + D).
Proof.
  unfold await_answer, _DNS_TIMEOUT. apply (takes_timed_now false false _ (10 + D) (15 * OS_TIMER_SECOND)); [..|times|times|times|].
  - repeat turn_step.
  - intros r. repeat takes_step.
Qed.
#[local] Hint Resolve takes_await_answer : takes.

Lemma takes_dns_resolve host : takes false false (modem_bg95_dns_resolve env host) (25110 + 3 * D).
Proof. unfold modem_bg95_dns_resolve. repeat takes_step. Qed.

(** *** Every operation *)

(** What the tasks of the application ask of the driver. *)
Inductive modem_op :=
  | OpTask (s : mmain) | OpConnect (apn : list Z) (s : mmain) | OpDisconnect | OpFetch
  | OpSend (ip port : Z) (data : list Z) | OpResolve (host : list Z) | OpCommand (text : list Z).

Definition op_run (o : modem_op) : MM () :=
  match o with
  | OpTask s => _ ← modem_main_task env st s; mret ()
  | OpConnect apn s => _ ← modem_main_data_connect env apn s; mret ()
  | OpDisconnect => modem_data_disconnect env
  | OpFetch => modem_data_rx_process env
  | OpSend ip port data => _ ← modem_bg95_udp_send env hex ip port data; mret ()
  | OpResolve host => _ ← modem_bg95_dns_resolve env host; mret ()
  | OpCommand text => _ ← modem_main_at_cmd env text; mret ()
  end.

(** The sums of their time-outs, in milliseconds. *)
Definition op_time (o : modem_op) : Z :=
  match o with
  | OpTask _ => 2416700 + 563 * D
  | OpConnect _ _ => 2832002 + 22 * D
  | OpDisconnect => 60100 + 2 * D
  | OpFetch => 18062100 + 42 * D
  | OpSend _ _ _ => 2760822 + 17 * D
  | OpResolve _ => 25110 + 3 * D
  | OpCommand text => cmd_time text + 100 + 2 * D
  end.

(** C8 (termination). No operation of the driver hangs: whatever the module sends
    and when, with a scheduler that comes back to it within [D], each returns
    within the sum of its time-outs, never waits for the semaphore it holds, gives
    it back, keeps the state consistent and forgets nothing of what was done. *)
Theorem modem_operations_return o w :
  modem_ok w → at_busy (w_at w) = false → 0 ≤ mw_now w → mw_now w + op_time o < 4294967296 →
  ∃ w', op_run o w = Some ((), w') ∧ modem_ok w' ∧ at_busy (w_at w') = false ∧
    mw_now w ≤ mw_now w' ≤ mw_now w + op_time o ∧ mw_log w `prefix_of` mw_log w'.
Proof.
  intros Hok Hb Hn Ht. assert (takes false false (op_run o) (op_time o)) as H.
  { pose proof takes_main_task. pose proof takes_main_data_connect. pose proof takes_data_rx_process.
    pose proof takes_udp_send. pose proof takes_dns_resolve.
    destruct o as [s|apn s| | |ip port data|host|text]; unfold op_run, op_time, modem_main_at_cmd;
      try pose proof (cmd_time_range text); repeat takes_step. }
  destruct (H w) as ([] & w' & ? & ? & ? & ? & ? & _); [done..|]. by exists w'.
Qed.

End operations.

#[export] Hint Extern 1 (takes _ _ (modem_tx_data _) _) => apply takes_tx : takes.
#[export] Hint Extern 1 (takes _ _ (modem_at_cmd_nolock _) _) => apply takes_cmd : takes.
#[export] Hint Extern 1 (takes _ _ (modem_at_lock _) _) => eapply takes_lock; eassumption : takes.
#[export] Hint Extern 1 (takes _ _ modem_at_unlock _) => apply takes_unlock : takes.
#[export] Hint Extern 1 (takes _ _ (modem_at_ok_cmd _ _) _) => eapply takes_ok_cmd; eassumption : takes.
#[export] Hint Extern 1 (takes _ _ (OS_DELAY _ _) _) =>
  eapply takes_delay; [eassumption|assumption|lia] : takes.
#[export] Hint Extern 1 (takes _ _ (modem_at_response _ _ _ _) _) => eapply takes_response; [eassumption|assumption|times] : takes.
