(* ===== verification/ModemHear.v ===== *)
(** * What a finished command proves about the module

    A command counts as done only when the module said so after it was sent:
    among the lines received in the meantime are OK and, where one was waited for,
    a line with the expected text. *)

From S2P Require Import Prelude CText EventTypes EventBuf Storage EventMemory EventQueue Out.
From S2P Require Import Alarm ArmSection System Cfg SiaIp NetTarget Cms EventTask TracerBuf.
From S2P Require Import Inp Update Nmea Gps Report Cmd TracerProto ModemAt ModemUrc ModemLink ModemCmd ModemUdp ModemMain ModemRun.

(** ** Relations a computation keeps *)

Definition keeps {A} (R : mworld → mworld → Prop) (m : MM A) : Prop := ∀ w a w', m w = Some (a, w') → R w w'.

Section keeps.
Context (R : mworld → mworld → Prop) `{PR : !PreOrder R}.

Lemma keeps_ret {A} (a : A) : keeps R (mret a).
Proof. intros w a' w' [= <- <-]. reflexivity. Qed.
Lemma keeps_see {A} (f : mworld → A) : keeps R (see f).
Proof. intros w a' w' [= <- <-]. reflexivity. Qed.
Lemma keeps_stuck {A} : keeps R (@stuck A).
Proof. done. Qed.
Lemma keeps_act f : (∀ w, R w (f w)) → keeps R (act f).
Proof. intros Hf w a' w' [= <- <-]. apply Hf. Qed.
Lemma keeps_bind {A B} (m : MM A) (f : A → MM B) : keeps R m → (∀ a, keeps R (f a)) → keeps R (m ≫= f).
Proof.
  intros Hm Hf w b w'. cbv [mbind MM_bind]. destruct (m w) as [[a w1]|] eqn:E; [|done]. intros E'.
  etransitivity; [by eapply Hm|by eapply Hf].
Qed.

Lemma keeps_mloop {A} n c (body : MM (option A)) : keeps R body → keeps R (mloop n c body).
Proof.
  intros Hb. induction n as [|n IH]; intros w a w'; cbn [mloop]; (destruct (c w); [|intros [= <- <-]; reflexivity]); [done|].
  destruct (body w) as [[[x|] w1]|] eqn:E; [| |done].
  - intros [= <- <-]. by eapply Hb.
  - intros E'. etransitivity; [by eapply Hb|by eapply IH].
Qed.
Lemma keeps_while_before {A} limit (body : MM (option A)) : keeps R body → keeps R (while_before limit body).
Proof. intros Hb w a w'. by apply keeps_mloop. Qed.
Lemma keeps_while_upto {A} limit (body : MM (option A)) : keeps R body → keeps R (while_upto limit body).
Proof. intros Hb w a w'. by apply keeps_mloop. Qed.

End keeps.

Section hear.
Context `{M : ModemLib} `{MS : !ModemSpec M} `{CS : !CmdSpec ml_cmd}.
Variable env : Z → list maction → list Z * Z.

(** ** Lines in the characters *)

Definition line_end (c : Z) : bool := (c =? 0) || (c =? 10) || (c =? 13).

(** What the receiver's buffer holds after one more character. *)
Definition collect (buf : list Z) (c : Z) : list Z :=
  if line_end c then [] else if (length buf <? rx_room)%nat then buf ++ [c] else buf.

(** The lines completed by [chars], [buf] being in the buffer before. *)
Fixpoint lines (buf chars : list Z) : list (list Z) :=
  match chars with
  | [] => []
  | c :: chars => (if line_end c && negb (bool_decide (buf = [])) then [buf] else []) ++ lines (collect buf c) chars
  end.
Definition left_over (buf chars : list Z) : list Z := foldl collect buf chars.

Lemma lines_app buf a b : lines buf (a ++ b) = lines buf a ++ lines (left_over buf a) b.
Proof. revert buf. induction a as [|c a IH]; intros buf; [done|]. cbn [app lines]. by rewrite IH, <-app_assoc. Qed.

(** ** What sets the flags *)

Definition said_ok (l : list Z) : Prop := ieq l (str "OK") = true.
Definition starts (s l : list Z) : Prop := to_lower <$> take (length s) l = to_lower <$> s.

Definition ok_flag (w : mworld) : bool := has (at_flags (w_at w)) AT_ST_OK.
Definition found_flag (w : mworld) : bool := has (at_flags (w_at w)) AT_ST_USER_STR.
Definition expects (s : list Z) (w : mworld) : Prop := user_str (w_at w) = None ∨ user_str (w_at w) = Some s.

(** Waiting for [s]: it has not come, or its line is kept. *)
Definition waiting (s : list Z) (w : mworld) : Prop :=
  expects s w ∧ (found_flag w = true → response_len (w_at w) ≠ 0).
Definition kept (s : list Z) (w : mworld) (l : list Z) : Prop := starts s l ∧ response (w_at w) = l.
(** A text is waited for until it is found. *)
Definition open_wait (w : mworld) : Prop := user_str (w_at w) = None → found_flag w = true.

(** A step of the receiver that completes the lines [ls], [s] being waited for. *)
Record step_says (s : list Z) (ls : list (list Z)) (w w' : mworld) : Prop := {
  ss_ok : ok_flag w' = true → ok_flag w = true ∨ Exists said_ok ls;
  ss_waiting : waiting s w → waiting s w';
  ss_found : waiting s w → found_flag w' = true →
    found_flag w = true ∧ response (w_at w') = response (w_at w) ∨ Exists (kept s w') ls;
  ss_open : open_wait w → open_wait w';
  ss_response : response (w_at w') = response (w_at w) ∨ response (w_at w') ∈ ls
}.

Lemma speech_trans s l1 l2 w1 w2 w3 : step_says s l1 w1 w2 → step_says s l2 w2 w3 → step_says s (l1 ++ l2) w1 w3.
Proof.
  intros [A1 A2 A3 A4 A5] [B1 B2 B3 B4 B5]. split.
  - intros [H|H]%B1; [apply A1 in H as [?|?]|]; rewrite ?Exists_app; auto.
  - auto.
  - intros Hw H. apply (B3 (A2 Hw)) in H as [[H E]|H]; [|rewrite Exists_app; auto].
    apply (A3 Hw) in H as [[H E']|H]; [left; split; [done|congruence]|].
    right. apply Exists_app. left. eapply Exists_impl; [done|]. unfold kept. intros l [? ?]. split; [done|congruence].
  - auto.
  - rewrite elem_of_app. destruct B5 as [->|?]; [destruct A5; auto|auto].
Qed.

(** The handlers of messages touch none of these. *)
Definition same_answer (w w' : mworld) : Prop :=
  ok_flag w' = ok_flag w ∧ found_flag w' = found_flag w ∧ user_str (w_at w') = user_str (w_at w) ∧
  response_len (w_at w') = response_len (w_at w) ∧ rx_buf (w_at w') = rx_buf (w_at w) ∧
  response (w_at w') = response (w_at w).

#[local] Instance same_answer_preorder : PreOrder same_answer.
Proof. split; [by intros w|]. intros w1 w2 w3 (?&?&?&?&?&?) (?&?&?&?&?&?). repeat split; congruence. Qed.

Lemma sa_step f w0 w : (∀ w, same_answer w (f w)) → same_answer w0 w → same_answer w0 (f w).
Proof. intros Hf H. etransitivity; [done|apply Hf]. Qed.

Lemma sa_at_set n w0 w : 0 ≤ n → n ≠ 0 → n ≠ 2 → same_answer w0 w → same_answer w0 (at_set (bit n) w).
Proof.
  intros Hn H0 H2. apply sa_step. intros w'. unfold same_answer, ok_flag, found_flag, AT_ST_OK, AT_ST_USER_STR, at_set, upd_at, upd_m, w_at.
  cbn [mw_m m_at at_flags set_m_at set_at_flags user_str response_len rx_buf response].
  rewrite !has_lor_bit, (has_bit (bit n)), (has_bit (bit n)), !testbit_bit by done.
  destruct (Z.eqb_spec 0 n), (Z.eqb_spec 2 n); try lia. by rewrite !orb_false_r.
Qed.
Lemma sa_upd_m f w0 w : (∀ m, m_at (f m) = m_at m) → same_answer w0 w → same_answer w0 (upd_m f w).
Proof. intros Hf. apply sa_step. intros [m ? ? ?]. unfold same_answer, ok_flag, found_flag, w_at, upd_m. cbn. by rewrite Hf. Qed.
Lemma sa_upd_bg f w0 w : same_answer w0 w → same_answer w0 (upd_bg f w).
Proof. by apply sa_step. Qed.
Lemma sa_mlog a w0 w : same_answer w0 w → same_answer w0 (mlog a w).
Proof. by apply sa_step. Qed.
Lemma sa_last_error e w0 w : same_answer w0 w → same_answer w0 (upd_at (set_last_error_result e) w).
Proof. by apply sa_step. Qed.

Create HintDb sa.
#[local] Hint Resolve sa_upd_bg sa_mlog sa_last_error : sa.
#[local] Hint Extern 1 (same_answer _ (upd_m _ _)) => apply sa_upd_m; [by intros|] : sa.
#[local] Hint Extern 1 (same_answer _ (flag_set _ _)) => apply sa_upd_m; [by intros|] : sa.
#[local] Hint Extern 1 (same_answer _ (flag_clr _ _)) => apply sa_upd_m; [by intros|] : sa.
#[local] Hint Extern 1 (same_answer _ (errors _ _)) => apply sa_upd_m; [by intros|] : sa.
#[local] Hint Extern 1 (same_answer _ (upd_socket _ _ _)) => apply sa_upd_bg : sa.
#[local] Hint Extern 1 (same_answer _ (_socket_clear _)) => apply sa_upd_bg : sa.
#[local] Hint Extern 1 (same_answer _ (_set_offline _)) => apply sa_upd_m; [by intros|] : sa.
#[local] Hint Extern 1 (same_answer _ (at_set _ _)) => apply sa_at_set; [done..|] : sa.
#[local] Hint Extern 0 (same_answer _ _) => reflexivity : sa.

Lemma sa_bg95 src n w0 w : same_answer w0 w → same_answer w0 (modem_bg95_urc src n w).2.
Proof.
  intros H. unfold modem_bg95_urc, bg95_data_line, bg95_qird, bg95_qiopen, _udp_rx_hex, udp_rx.
  repeat case_match; cbn [snd]; auto 10 with sa.
Qed.

Lemma sa_urc src n w0 w : same_answer w0 w → same_answer w0 (modem_parse_urc src n w).2.
Proof.
  intros H. unfold modem_parse_urc, urc_cme_error, urc_cms_error, urc_creg, urc_cereg, urc_cgreg, urc_cmti, urc_cpms, urc_csq, _set_offline.
  repeat case_match; cbn [snd]; auto 10 using sa_bg95 with sa.
Qed.

Lemma says_same s ls w w' : same_answer w w' → step_says s ls w w'.
Proof.
  intros (E1 & E2 & E3 & E4 & _ & E6). split; unfold waiting, expects, open_wait; rewrite ?E1, ?E2, ?E3, ?E4, ?E6; auto.
Qed.

(** The line that answers the wait is kept. *)
Lemma keep_says s src n w : n ≠ 0 → step_says s [src] w (at_keep_response src n w) ∧
  rx_buf (w_at (at_keep_response src n w)) = rx_buf (w_at w).
Proof.
  intros Hn. unfold at_keep_response. destruct (Z.eqb_spec (response_len (w_at w)) 0) as [Hl|Hl]; [|split; [by apply says_same|done]].
  destruct (user_str (w_at w)) as [s'|] eqn:Eu.
  2: { split; [|done]. split; [by left|intros [_ Hw]; split; [by left|by intros]| | |].
       - intros [_ Hw] H. by apply Hw in H.
       - intros Hw. done.
       - right. by left. }
  destruct (Z.eqb_spec (strnicmp src s' (length s')) 0) as [Hs|Hs]; [|split; [by apply says_same|done]].
  split; [|done]. split.
  - intros H. left. revert H. unfold ok_flag, AT_ST_OK. cbn [w_at at_set upd_at upd_m mw_m m_at set_m_at at_flags set_at_flags
      set_response_len set_response set_user_str]. rewrite has_lor_bit by done.
    unfold AT_ST_USER_STR. rewrite (has_bit (bit 2)), testbit_bit by done. cbn [Z.eqb]. by rewrite orb_false_r.
  - intros _. split; [by left|by intros].
  - intros [He _] _. right. constructor. split; [|done]. unfold starts. apply strnicmp_equal in Hs. rewrite (take_ge s') in Hs by done.
    destruct He as [He|He]; rewrite Eu in He; [done|]. injection He as ->. done.
  - intros _ _. unfold found_flag, AT_ST_USER_STR. cbn [w_at at_set upd_at upd_m mw_m m_at set_m_at at_flags set_at_flags
      set_response_len set_response set_user_str]. rewrite has_lor_bit by done.
    rewrite (has_bit (bit 2) 2), testbit_bit by done. apply orb_true_r.
  - right. by left.
Qed.

(** OK and ERROR leave the wait alone. *)
Lemma ok_line_says s ls w : Exists said_ok ls → step_says s ls w (at_set AT_ST_READY (at_set AT_ST_OK w)).
Proof.
  intros Hls. assert (found_flag (at_set AT_ST_READY (at_set AT_ST_OK w)) = found_flag w) as E.
  { change (found_flag (at_set AT_ST_READY (at_set AT_ST_OK w))) with
      (has (Z.lor (Z.lor (at_flags (w_at w)) AT_ST_OK) AT_ST_READY) AT_ST_USER_STR).
    unfold found_flag, AT_ST_USER_STR. rewrite !has_lor_bit by done. unfold AT_ST_OK, AT_ST_READY.
    rewrite !(has_bit (bit _)), !testbit_bit by done. cbn [Z.eqb Pos.eqb]. by rewrite !orb_false_r. }
  split; [by right|intros [? Hw]; split; [done|by rewrite E]| | |by left].
  - intros _ H. rewrite E in H. by left.
  - unfold open_wait. by rewrite E.
Qed.

Lemma line_says s src n w : n ≠ 0 → step_says s [src] w (at_line src n w) ∧ rx_buf (w_at (at_line src n w)) = rx_buf (w_at w).
Proof.
  intros Hn. unfold at_line. set (w1 := at_set AT_ST_LINE w).
  assert (same_answer w w1) as H1 by (unfold w1, AT_ST_LINE; auto with sa).
  assert (∀ w2, step_says s [src] w1 w2 → step_says s [src] w w2) as Hfirst.
  { intros w2 H. apply (speech_trans s [] [src] w w1 w2); [by apply says_same|done]. }
  rewrite !stricmp_ieq. destruct (ieq src (str "OK")) eqn:Eok.
  { split; [|apply H1]. apply Hfirst, ok_line_says. by constructor. }
  destruct (ieq src (str "ERROR")).
  { assert (same_answer w (at_set AT_ST_ERROR w1)) as H2 by (unfold AT_ST_ERROR; auto with sa).
    split; [by apply says_same|apply H2]. }
  pose proof (sa_urc src n w w1 H1) as H2. destruct (modem_parse_urc src n w1) as [[] w2]; cbn [snd] in H2;
    [split; [by apply says_same|apply H2]|].
  destruct (keep_says s src n w2 Hn) as [H3 E3]. split; [|rewrite E3; apply H2].
  apply (speech_trans s [] [src] w w2); [by apply says_same|done].
Qed.

(** What every line does, the receiver does over its characters. *)
Lemma rx_rule (T : list (list Z) → mworld → mworld → Prop) :
  (∀ w, T [] w w) → (∀ l1 l2 w1 w2 w3, T l1 w1 w2 → T l2 w2 w3 → T (l1 ++ l2) w1 w3) →
  (∀ src n w, n ≠ 0 → T [src] w (at_line src n w)) →
  (∀ b w, T [] w (upd_at (set_rx_buf b) w)) → (∀ w, T [] w (at_set AT_ST_RAB w)) →
  ∀ chars w, T (lines (rx_buf (w_at w)) chars) w (modem_rx_task chars w) ∧
    rx_buf (w_at (modem_rx_task chars w)) = left_over (rx_buf (w_at w)) chars.
Proof.
  intros Hrefl Htrans Hline Hbuf Hrab. induction chars as [|c chars IH]; intros w; [by split|].
  assert (T (if line_end c && negb (bool_decide (rx_buf (w_at w) = [])) then [rx_buf (w_at w)] else []) w (modem_at_rx c w) ∧
    rx_buf (w_at (modem_at_rx c w)) = collect (rx_buf (w_at w)) c) as [H1 E1].
  { unfold modem_at_rx, collect, line_end. set (b := rx_buf (w_at w)).
    destruct ((c =? 0) || (c =? 10) || (c =? 13)) eqn:Ec.
    - assert ((if (c =? 10) || (c =? 13) then 0 else c) = 0) as ->.
      { destruct (Z.eqb_spec c 0), (Z.eqb_spec c 10), (Z.eqb_spec c 13); done. }
      cbn [Z.eqb andb]. split; [|by destruct (_ <? _)].
      set (len := Z.of_nat _). destruct (bool_decide_reflect (b = [])) as [Eb|Eb]; cbn [negb].
      + assert (1 <? len = false) as ->.
        { unfold len. rewrite Eb. by destruct (_ <? _)%nat. } apply Hbuf.
      + rewrite <-(app_nil_r [b]). eapply Htrans; [|apply Hbuf].
        assert (1 <? len = true) as Hlen.
        { unfold len. pose proof rx_room_eq. destruct b; [done|]. apply Z.ltb_lt. cbn [length].
          destruct (Nat.ltb_spec (S (length b)) rx_room); lia. }
        rewrite Hlen. apply Hline. intros E0. rewrite E0 in Hlen. done.
    - destruct (Z.eqb_spec c 0), (Z.eqb_spec c 10), (Z.eqb_spec c 13); try done. cbn [orb andb].
      destruct (Z.eqb_spec c 0); [done|].
      set (w1 := if (_ <? _)%nat then _ else w).
      assert (T [] w w1 ∧ rx_buf (w_at w1) = if (length b <? rx_room)%nat then b ++ [c] else b) as [H1 E1].
      { unfold w1. destruct (_ <? _)%nat; split; [apply Hbuf|done|apply Hrefl|done]. }
      destruct (c =? 62); [|done]. split; [|exact E1]. change (@nil (list Z)) with (@nil (list Z) ++ []). by eapply Htrans. }
  destruct (IH (modem_at_rx c w)) as [H2 E2]. cbn [lines]. unfold modem_rx_task in *. cbn [foldl]. rewrite <-E1.
  split; [by eapply Htrans|]. by rewrite E2, E1.
Qed.

Lemma rx_says s chars w : step_says s (lines (rx_buf (w_at w)) chars) w (modem_rx_task chars w) ∧
  rx_buf (w_at (modem_rx_task chars w)) = left_over (rx_buf (w_at w)) chars.
Proof.
  apply (rx_rule (step_says s)).
  - intros w'. by apply says_same.
  - intros *. apply speech_trans.
  - intros src n w' Hn. by apply line_says.
  - intros b w'. split; auto.
  - intros w'. apply says_same. unfold AT_ST_RAB. auto with sa.
Qed.

(** ** From the start of a command to its end *)

(** Between two moments: what was received completes these lines, and nothing
    else sets the flags. *)
Definition heard (s : list Z) (w w' : mworld) : Prop := ∃ l,
  mw_log w' = mw_log w ++ l ∧ rx_buf (w_at w') = left_over (rx_buf (w_at w)) (rx_chars l) ∧
  step_says s (lines (rx_buf (w_at w)) (rx_chars l)) w w'.

#[local] Instance heard_preorder s : PreOrder (heard s).
Proof.
  split.
  - intros w. exists []. rewrite app_nil_r. split; [done|]. split; [done|]. by apply says_same.
  - intros w1 w2 w3 (l1 & E1 & B1 & S1) (l2 & E2 & B2 & S2). exists (l1 ++ l2). rewrite E2, E1, <-app_assoc.
    split; [done|]. rewrite rx_chars_app, lines_app. split; [rewrite B2, B1; symmetry; apply foldl_app|].
    rewrite B1 in S2. by eapply speech_trans.
Qed.

Lemma heard_yield s : keeps (heard s) (yield env).
Proof.
  intros w d w'. unfold yield. destruct (env _ _) as [chars d0]. cbv zeta. set (w1 := set_now _ _). intros [= <- <-].
  destruct (quiet_rx chars w1 w1) as [_ (l & El & Rl%told_chars) _ _]; [done|]. exists (MRx chars :: l).
  assert (rx_chars (MRx chars :: l) = chars) as -> by (change (MRx chars :: l) with ([MRx chars] ++ l); rewrite rx_chars_app, Rl;
    unfold rx_chars; cbn; by rewrite !app_nil_r).
  rewrite El. split; [unfold w1; cbn; by rewrite <-app_assoc|].
  destruct (rx_says s chars w1) as [H E]. rewrite E. split; [done|]. destruct H as [A B C O P]. by split.
Qed.

(** A change of the driver that sets none of the flags. *)
Lemma heard_act s f : (∀ w, ∃ l, mw_log (f w) = mw_log w ++ l ∧ rx_chars l = []) →
  (∀ w, rx_buf (w_at (f w)) = rx_buf (w_at w)) →
  (∀ w, step_says s [] w (f w)) → keeps (heard s) (act f).
Proof.
  intros H1 H2 H3. apply keeps_act. intros w. destruct (H1 w) as (l & E & Rl). exists l.
  rewrite Rl. split; [done|]. split; [apply H2|]. apply H3.
Qed.

Lemma mloop_result {A} (P : A → mworld → Prop) n c (body : MM (option A)) :
  (∀ w a w', body w = Some (Some a, w') → P a w') → ∀ w a w', mloop n c body w = Some (Some a, w') → P a w'.
Proof.
  intros Hb. induction n as [|n IH]; intros w a w'; cbn [mloop]; (destruct (c w); [|done]); [done|].
  destruct (body w) as [[[x|] w1]|] eqn:E; [|by apply IH|done]. intros [= <- <-]. by eapply Hb.
Qed.

(** The wait: a result other than 0 is the flags at its end. *)
Lemma heard_response s flags timeout user_str w r w' : has flags AT_ST_RESET = false →
  waiting s (upd_at (set_user_str user_str) w) →
  modem_at_response env user_str flags timeout w = Some (r, w') →
  heard s (upd_at (set_user_str user_str) w) w' ∧ (r = 0 ∨ r = at_flags (w_at w')).
Proof.
  intros Hr He. unfold modem_at_response. rewrite Hr. cbv [mbind MM_bind mret MM_ret act see].
  set (w1 := upd_at (set_user_str user_str) w). unfold while_before.
  match goal with |- context [mloop ?n ?c ?b w1] => set (body := b) end.
  destruct (mloop _ _ body w1) as [[[fl|] w2]|] eqn:E; [| |done].
  - intros [= <- <-]. split.
    + eapply (keeps_mloop (heard s)); [|exact E]. intros w3 a w4 E3. unfold body in E3.
      destruct (has flags (at_flags (w_at w3))); cbv beta in E3; [by simplify_eq|].
      destruct (yield env w3) as [[d w5]|] eqn:Ey; [|done]. simplify_eq. by eapply heard_yield.
    + right. revert E. apply (mloop_result (λ fl w', fl = at_flags (w_at w'))). intros w3 a w4 E3. unfold body in E3.
      destruct (has flags (at_flags (w_at w3))); cbv beta in E3; [by simplify_eq|]. destruct (yield env w3) as [[d w5]|]; [done|done].
  - intros [= <- <-]. split; [|by left]. transitivity w2.
    + eapply (keeps_mloop (heard s)); [|exact E]. intros w3 a w4 E3. unfold body in E3.
      destruct (has flags (at_flags (w_at w3))); cbv beta in E3; [by simplify_eq|].
      destruct (yield env w3) as [[d w5]|] eqn:Ey; [|done]. simplify_eq. by eapply heard_yield.
    + eapply (heard_act s (errors 1)); [..|done]; [|done|].
      * intros w3. exists []. by rewrite app_nil_r.
      * intros w3. by apply says_same.
Qed.

Lemma clr_response_flags w : let w' := upd_at _clr_response w in
  ok_flag w' = false ∧ found_flag w' = false ∧ mw_log w' = mw_log w ∧ rx_buf (w_at w') = rx_buf (w_at w).
Proof.
  cbv zeta. repeat split; unfold ok_flag, found_flag, AT_ST_OK, AT_ST_USER_STR, upd_at, upd_m, w_at, _clr_response;
    cbn [mw_m m_at set_m_at set_user_str set_response set_response_len set_at_flags at_flags];
    rewrite has_clr_bit by done; unfold AT_ST_ERROR, AT_ST_USER_STR, AT_ST_RAB, AT_ST_LINE, AT_ST_OK; apply andb_false_r.
Qed.

(** What the dialogue of a command proves when it succeeds. *)
Lemma dialogue_heard at_cmd user_str w text w' :
  _at_cmd_and_response_ok env at_cmd user_str w = Some ((true, text), w') →
  ∃ l, mw_log w' = mw_log w ++ [MTx (at_cmd_timeout at_cmd).2; MTx [13; 10]] ++ l ∧
    let ls := lines (rx_buf (w_at w)) (rx_chars l) in
    Exists said_ok ls ∧ match user_str with Some s => text ∈ ls ∧ starts s text | None => True end.
Proof.
  unfold _at_cmd_and_response_ok. destruct (at_cmd_timeout at_cmd) as [timeout c]. cbn [snd].
  unfold modem_at_cmd_nolock, modem_tx_data. cbv [mbind MM_bind mret MM_ret act see].
  destruct (clr_response_flags w) as (F1 & F2 & F3 & F4). set (w1 := upd_at _clr_response w) in *.
  set (w2 := mlog (MTx [13; 10]) _).
  destruct (modem_at_response env user_str _ timeout w2) as [[r w3]|] eqn:E; [|done].
  intros [= Hres Htext <-]. apply andb_true_iff in Hres as [Hok Hfound]. rewrite Hfound in Htext.
  assert (waiting (default [] user_str) (upd_at (set_user_str user_str) w2)) as Hw.
  { split; [destruct user_str; [by right|by left]|]. intros H. change (found_flag w1 = true) in H. by rewrite F2 in H. }
  apply (heard_response (default [] user_str)) in E as [(l & El & _ & [Sok _ Sfound _ _]) Hr]; [|done..].
  destruct Hr as [->|Hr]; [done|]. exists l.
  assert (mw_log (upd_at (set_user_str user_str) w2) = mw_log w ++ [MTx c; MTx [13; 10]]) as Elog.
  { cbn. change (mw_log w) with (mw_log w1). by rewrite <-app_assoc. }
  assert (rx_buf (w_at (upd_at (set_user_str user_str) w2)) = rx_buf (w_at w)) as Ebuf by done.
  rewrite El, Elog, <-app_assoc. split; [done|]. cbv zeta. rewrite Ebuf in Sok, Sfound.
  rewrite Hr in Hok, Hfound. split.
  - destruct (Sok Hok) as [H|H]; [|done]. change (ok_flag w1 = true) in H. by rewrite F1 in H.
  - destruct user_str as [s|]; [|done]. cbn [orb default] in *. destruct Sfound as [[H _]|H]; [done|done| |].
    + change (found_flag w1 = true) in H. by rewrite F2 in H.
    + apply Exists_exists in H as (x & Hx & Hs & Ex). by rewrite <-Htext, Ex.
Qed.

(** C20 (safety). A command is reported as done only when the module has confirmed it
    after it was sent: the characters received since complete a line OK, and the
    text handed over, when one was expected, is one of these lines and starts as
    expected. *)
Theorem modem_command_confirmed at_cmd user_str w text w' :
  _at_cmd_and_response_ok env at_cmd user_str w = Some ((true, text), w') →
  ∃ l, mw_log w' = mw_log w ++ [MTx (at_cmd_timeout at_cmd).2; MTx [13; 10]] ++ l ∧
    let ls := lines (rx_buf (w_at w)) (rx_chars l) in
    Exists said_ok ls ∧ match user_str with Some s => text ∈ ls ∧ starts s text | None => True end.
Proof. apply dialogue_heard. Qed.

End hear.
