(* ===== verification/ModemTx.v ===== *)
(** * What the driver transmits

    Commands that transmit none of certain texts, whatever the module does: the
    calculus behind the claims that a PIN or a message is sent only when it may be. *)

From S2P Require Import Prelude CText EventTypes EventBuf Storage EventMemory EventQueue Out.
From S2P Require Import Alarm ArmSection System Cfg SiaIp NetTarget Cms EventTask TracerBuf.
From S2P Require Import Inp Update Nmea Gps Report Cmd TracerProto ModemAt ModemUrc ModemLink.
From S2P Require Import ModemCmd ModemUdp ModemMain ModemRun ModemHear.

Definition tx_bad (bad : list Z → bool) (a : maction) : bool := match a with MTx d => bad d | _ => false end.

(** Nothing bad is transmitted between two moments; the receiver's buffer holds
    what is left of the characters received. *)
Definition spares (bad : list Z → bool) (w w' : mworld) : Prop :=
  ∃ l, mw_log w' = mw_log w ++ l ∧ Forall (λ a, tx_bad bad a = false) l ∧
    rx_buf (w_at w') = left_over (rx_buf (w_at w)) (rx_chars l).
#[export] Instance spares_preorder bad : PreOrder (spares bad).
Proof.
  split; [intros w; exists []; by rewrite app_nil_r|].
  intros w1 w2 w3 (l1 & E1 & G1 & B1) (l2 & E2 & G2 & B2). exists (l1 ++ l2). rewrite E2, E1, app_assoc, Forall_app.
  split; [done|]. split; [done|]. rewrite B2, B1, rx_chars_app. symmetry. apply foldl_app.
Qed.

Lemma spares_log bad a w : tx_bad bad a = false → rx_chars [a] = [] → spares bad w (mlog a w).
Proof. intros Ha Hr. exists [a]. rewrite Hr. by repeat constructor. Qed.
Lemma spares_same bad w w' : mw_log w' = mw_log w → rx_buf (w_at w') = rx_buf (w_at w) → spares bad w w'.
Proof. intros E B. exists []. rewrite app_nil_r, B. by repeat constructor. Qed.

Lemma bind_Some {A B} (m : MM A) (f : A → MM B) w b w' : (m ≫= f) w = Some (b, w') →
  ∃ a w1, m w = Some (a, w1) ∧ f a w1 = Some (b, w').
Proof. cbv [mbind MM_bind]. destruct (m w) as [[a w1]|]; [|done]. by exists a, w1. Qed.

(** The steps of a command that transmits nothing bad. *)
Ltac plain_step :=
  match goal with
  | |- keeps _ (mret _) => apply keeps_ret, _
  | |- keeps _ (see _) => apply keeps_see, _
  | |- keeps _ stuck => apply keeps_stuck
  | |- keeps _ (_ ≫= _) => apply keeps_bind; [apply _| |intros ?]
  | |- keeps _ (match ?c with _ => _ end) => destruct c
  | |- keeps _ (modem_at_ok_cmd _ (if ?c then _ else _)) => destruct c
  | |- keeps _ (act _) => apply keeps_act; intros ?; first [by apply spares_log | by apply spares_same]
  | |- keeps _ (while_before _ _) => apply keeps_while_before; [apply _|]
  | |- keeps _ (while_upto _ _) => apply keeps_while_upto; [apply _|]
  | |- keeps _ _ => solve [eauto with spares]
  end.
Create HintDb spares.

Section tx.
Context `{M : ModemLib} `{MS : !ModemSpec M} `{CS : !CmdSpec ml_cmd}.
Variable env : Z → list maction → list Z * Z.
Variable bad : list Z → bool.

Lemma spares_yield : keeps (spares bad) (yield env).
Proof.
  intros w d w' E. destruct (heard_yield env [] w d w' E) as (l & El & B & _). exists l. split; [done|]. split; [|done].
  revert E El. unfold yield. destruct (env _ _) as [chars d0]. cbv zeta. set (w1 := set_now _ _). intros [= <- <-].
  destruct (quiet_rx chars w1 w1) as [_ (lr & Er & Hl) _ _]; [done|]. rewrite Er. unfold w1. cbn. rewrite <-app_assoc.
  intros E%app_inv_head. subst l. constructor; [done|]. eapply Forall_impl; [done|]. by intros [].
Qed.
#[local] Hint Resolve spares_yield : spares.

Lemma spares_delay ms : keeps (spares bad) (OS_DELAY env ms).
Proof.
  unfold OS_DELAY. revert ms. assert (∀ n left, keeps (spares bad) (delay_loop env n left)) as H by
    (induction n as [|n IH]; intros left; cbn [delay_loop]; repeat plain_step; apply IH). intros ms. apply H.
Qed.
#[local] Hint Resolve spares_delay : spares.
Lemma spares_pin p : keeps (spares bad) (pin p).
Proof. unfold pin. plain_step. Qed.
#[local] Hint Resolve spares_pin : spares.
Lemma spares_lock : keeps (spares bad) (modem_at_lock env).
Proof. unfold modem_at_lock, modem_at_wakeup, _hw_wakeup. repeat plain_step. Qed.
Lemma spares_unlock : keeps (spares bad) modem_at_unlock.
Proof. unfold modem_at_unlock. repeat plain_step. Qed.
Lemma spares_response u fl t : keeps (spares bad) (modem_at_response env u fl t).
Proof. unfold modem_at_response. repeat plain_step. Qed.
#[local] Hint Resolve spares_lock spares_unlock spares_response : spares.
Lemma spares_read_line u t : keeps (spares bad) (modem_at_read_line env u t).
Proof. unfold modem_at_read_line. repeat plain_step. Qed.
Lemma spares_raw d : bad d = false → keeps (spares bad) (modem_at_raw d).
Proof. intros Hd. unfold modem_at_raw, modem_tx_data. repeat plain_step. Qed.

(** The end of a command's line. *)
Hypothesis bad_crlf : bad [13; 10] = false.

Lemma spares_cmd c : bad c = false → keeps (spares bad) (modem_at_cmd_nolock c).
Proof. intros Hc. unfold modem_at_cmd_nolock, modem_tx_data. repeat plain_step. Qed.
#[local] Hint Extern 1 (keeps _ (modem_at_cmd_nolock _)) => apply spares_cmd; assumption : spares.

Lemma spares_dialogue c u : bad (at_cmd_timeout c).2 = false → keeps (spares bad) (_at_cmd_and_response_ok env c u).
Proof.
  unfold _at_cmd_and_response_ok. destruct (at_cmd_timeout c) as [t c']. cbn [snd]. intros Hc. repeat plain_step.
Qed.
#[local] Hint Extern 1 (keeps _ (_at_cmd_and_response_ok _ _ _)) => apply spares_dialogue; assumption : spares.
Lemma spares_ok_cmd_nolock c : bad (at_cmd_timeout c).2 = false → keeps (spares bad) (modem_at_ok_cmd_nolock env c).
Proof. intros Hc. unfold modem_at_ok_cmd_nolock. repeat plain_step. Qed.
Lemma spares_ok_cmd c : bad (at_cmd_timeout c).2 = false → keeps (spares bad) (modem_at_ok_cmd env c).
Proof. intros Hc. unfold modem_at_ok_cmd. repeat plain_step. Qed.
Lemma spares_get_response c u : bad (at_cmd_timeout c).2 = false → keeps (spares bad) (modem_at_cmd_get_response env c u).
Proof. intros Hc. unfold modem_at_cmd_get_response. repeat plain_step. Qed.
Lemma spares_ok_cmd_fmt c : bad (at_cmd_timeout c).2 = false → keeps (spares bad) (modem_at_ok_cmd_fmt env c).
Proof. intros Hc. unfold modem_at_ok_cmd_fmt. destruct (_ <=? _); [plain_step|by apply spares_ok_cmd]. Qed.

End tx.

#[export] Hint Resolve spares_yield spares_delay spares_pin spares_lock spares_unlock spares_response spares_read_line : spares.
#[export] Hint Extern 1 (keeps _ (modem_at_raw _)) => apply spares_raw; first [assumption|reflexivity] : spares.
#[export] Hint Extern 1 (keeps _ (modem_at_cmd_nolock _)) => apply spares_cmd; first [assumption|reflexivity] : spares.
#[export] Hint Extern 1 (keeps _ (_at_cmd_and_response_ok _ _ _)) => apply spares_dialogue; first [assumption|reflexivity] : spares.
#[export] Hint Extern 1 (keeps _ (modem_at_ok_cmd_nolock _ _)) => apply spares_ok_cmd_nolock; first [assumption|reflexivity] : spares.
#[export] Hint Extern 1 (keeps _ (modem_at_ok_cmd _ _)) => apply spares_ok_cmd; first [assumption|reflexivity] : spares.
#[export] Hint Extern 1 (keeps _ (modem_at_cmd_get_response _ _ _)) => apply spares_get_response; first [assumption|reflexivity] : spares.
#[export] Hint Extern 1 (keeps _ (modem_at_ok_cmd_fmt _ _)) => apply spares_ok_cmd_fmt; first [assumption|reflexivity] : spares.
