(* ===== verification/ModemLive.v ===== *)
(** * With a module that answers (modem/modem.c, modem/modem_main.c)

    The counterpart of ModemRun: when the module confirms every command in time,
    the driver starts it and reaches the network, whatever else the module says. *)

From S2P Require Import Prelude CText EventTypes EventBuf Storage EventMemory EventQueue Out.
From S2P Require Import Alarm ArmSection System Cfg SiaIp NetTarget Cms EventTask TracerBuf.
From S2P Require Import Inp Update Nmea Gps Report Cmd TracerProto ModemAt ModemUrc ModemLink ModemData.
From S2P Require Import ModemCmd ModemUdp ModemMain ModemRun.

Section texts.
Context `{M : ModemLib} `{MS : !ModemSpec M}.

Definition crlf : list Z := [13; 10].
(** The confirmation, on a line of its own. *)
Definition ok_text : list Z := crlf ++ str "OK" ++ crlf.

Lemma rx_crlf w : rx_buf (w_at (modem_rx_task crlf w)) = [].
Proof. done. Qed.

Lemma rx_crlf_empty w : rx_buf (w_at w) = [] → modem_rx_task crlf w = w.
Proof. destruct w as [[[fl rb re rl le bu us] ? ? ? ? ? ? ? ?] ? ? ?]. cbn. by intros ->. Qed.

Lemma rx_ok_line w : rx_buf (w_at w) = [] →
  modem_rx_task (str "OK" ++ crlf) w = in_buffer [] (at_set AT_ST_READY (at_set AT_ST_OK (at_set AT_ST_LINE w))).
Proof.
  intros Hb. unfold crlf. rewrite plain_line_received; [| |done| |done|done].
  - unfold at_line. rewrite stricmp_ieq. done.
  - eval_text. repeat (constructor; [done|]). constructor.
  - eval_text. by rewrite !elem_of_cons, elem_of_nil; intros [?|[?|?]].
Qed.

(** Whatever came before, the confirmation is noticed. *)
Lemma rx_ok_text l w : has (at_flags (w_at (modem_rx_task (l ++ ok_text) w))) AT_ST_OK = true.
Proof.
  unfold ok_text. rewrite rx_task_app, (rx_task_app crlf), rx_ok_line by apply rx_crlf.
  set (w1 := modem_rx_task crlf _).
  change (has (Z.lor (Z.lor (at_flags (w_at (at_set AT_ST_LINE w1))) AT_ST_OK) AT_ST_READY) AT_ST_OK = true).
  unfold AT_ST_OK, AT_ST_READY. rewrite !has_lor_bit by done. rewrite (has_bit (bit 0)), testbit_bit by done. cbn [Z.eqb].
  by rewrite orb_true_r.
Qed.

Lemma rx_ok_text_flags w : rx_buf (w_at w) = [] → m_flags (mw_m (modem_rx_task ok_text w)) = m_flags (mw_m w).
Proof. intros Hb. unfold ok_text. by rewrite rx_task_app, rx_crlf_empty, rx_ok_line. Qed.

(** *** The two answers that matter *)

Definition cpin_answer : list Z := crlf ++ str "+CPIN: READY" ++ crlf.

Lemma rx_cpin w : flag MODEM_FLAG_PIN_READY (modem_rx_task (cpin_answer ++ ok_text) w) = true.
Proof.
  unfold cpin_answer, flag. rewrite rx_task_app, (rx_task_app crlf). set (w1 := modem_rx_task crlf w).
  assert (modem_rx_task (str "+CPIN: READY" ++ crlf) w1 = in_buffer [] (flag_set MODEM_FLAG_PIN_READY (at_set AT_ST_LINE w1))) as ->.
  { unfold crlf. rewrite plain_line_received; [| |done| |done|done].
    - unfold at_line, modem_parse_urc. rewrite !stricmp_ieq, !modem_parse_pattern_expect. eval_text.
      cbn [expect ieq Z.eqb fmap option_fmap option_map Pos.eqb skip_blanks]. rewrite stricmp_ieq. 
      destruct w1 as [[[] ? ? ? ? ? ? ? ?] ? ? ?]. reflexivity.
    - eval_text. repeat (constructor; [done|]). constructor.
    - eval_text. rewrite !elem_of_cons, elem_of_nil. lia. }
  rewrite rx_ok_text_flags by done.
  change (flag (bit 1) (flag_set (bit 1) (at_set AT_ST_LINE w1)) = true). rewrite flag_flag_set by done.
  rewrite (has_bit (bit 1)), testbit_bit by done. apply orb_true_r.
Qed.

Definition creg_answer (r : report) : list Z := crlf ++ report_text r.

Lemma rx_creg r w : report_ok r → rp_domain r = CS → rp_stat r = 1 ∨ rp_stat r = 5 → modem_ok w →
  flag MODEM_FLAG_NET_READY (modem_rx_task (creg_answer r ++ ok_text) w) = true.
Proof.
  intros Hr Hd Hs Hok. unfold creg_answer, flag. rewrite rx_task_app, (rx_task_app crlf). set (w1 := modem_rx_task crlf w).
  assert (modem_ok w1) as Hok1 by by apply modem_rx_ok.
  destruct (modem_report_received r w1 Hr Hok1) as [E Hb]; [done|].
  rewrite rx_ok_text_flags by done.
  change (flag MODEM_FLAG_NET_READY (modem_rx_task (report_text r) w1) = true).
  assert (l_reg (link_of (modem_rx_task (report_text r) w1)) ≠ Offline) as Hreg.
  { rewrite E. unfold link_step. rewrite Hd. destruct Hs as [-> | ->]; cbn [Z.eqb Pos.eqb orb]; by destruct (l_reg (link_of w1)). }
  unfold link_of in Hreg. cbn [l_reg] in Hreg. by destruct (flag MODEM_FLAG_NET_READY _).
Qed.

End texts.

(** ** A module that answers *)

Section live.
Context `{M : ModemLib} `{MS : !ModemSpec M} `{F : FlashLib}.
Variable env : Z → list maction → list Z * Z.
Variable D : Z.
Hypothesis stall : ∀ t l, (env t l).2 ≤ D.
Hypothesis stall_pos : 1 ≤ D < 5000.
(** What the module says before it confirms a command. *)
Variable answer : list Z → list Z.
Hypothesis answers : ∀ t l c, (env t (l ++ [MTx c; MTx crlf])).1 = answer c ++ ok_text.

(** From this world the operation returns within [T], with this result. *)
Definition runs {A} (w : mworld) (b b' : bool) (m : MM A) (T : Z) (P : A → mworld → Prop) : Prop :=
  modem_ok w → at_busy (w_at w) = b → 0 ≤ mw_now w → mw_now w + T < 4294967296 →
  ∃ a w', m w = Some (a, w') ∧ modem_ok w' ∧ at_busy (w_at w') = b' ∧ mw_now w ≤ mw_now w' ≤ mw_now w + T ∧ P a w'.

Lemma runs_bind {A B} w b b1 b2 (m : MM A) (f : A → MM B) T1 T P1 P :
  runs w b b1 m T1 P1 → (∀ a w1, P1 a w1 → runs w1 b1 b2 (f a) (T - T1) P) → T1 ≤ T → runs w b b2 (m ≫= f) T P.
Proof.
  intros Hm Hf HT Hok Hb Hn Ht. destruct (Hm Hok Hb Hn) as (a & w1 & E1 & Hok1 & Hb1 & Ht1 & HP1); [lia|].
  destruct (Hf a w1 HP1 Hok1 Hb1) as (c & w2 & E2 & Hok2 & Hb2 & Ht2 & HP2); [lia..|].
  exists c, w2. cbv [mbind MM_bind]. rewrite E1. do 3 (split; [done|]). split; [lia|done].
Qed.
Lemma runs_see {A B} w b b2 (g : mworld → A) (f : A → MM B) T P :
  runs w b b2 (f (g w)) T P → runs w b b2 (see g ≫= f) T P.
Proof. done. Qed.
Lemma runs_ret {A} w b (a : A) T (P : A → mworld → Prop) : 0 ≤ T → P a w → runs w b b (mret a) T P.
Proof. intros HT HP Hok Hb Hn Ht. exists a, w. do 3 (split; [done|]). split; [lia|done]. Qed.
Lemma runs_act {B} w b b2 g (f : () → MM B) T P : gentle g → runs (g w) b b2 (f ()) T P → runs w b b2 (act g ≫= f) T P.
Proof.
  intros Hg Hf Hok Hb Hn Ht. destruct (Hg w Hok) as (H1 & H2 & H3 & H4). rewrite <-H2. apply Hf; [done|congruence|lia..].
Qed.
Lemma runs_takes {A} w b b' (m : MM A) T : takes b b' m T → runs w b b' m T (λ _ _, True).
Proof. intros Hm Hok Hb Hn Ht. destruct (Hm w Hok Hb Hn Ht) as (a & w' & ? & ? & ? & ? & _). by exists a, w'. Qed.
Lemma runs_weaken {A} w b b' (m : MM A) T1 T (P1 P : A → mworld → Prop) :
  runs w b b' m T1 P1 → T1 ≤ T → (∀ a w', P1 a w' → P a w') → runs w b b' m T P.
Proof.
  intros Hm HT HP Hok Hb Hn Ht. destruct (Hm Hok Hb Hn) as (a & w' & ? & ? & ? & ? & ?); [lia|].
  exists a, w'. do 3 (split; [done|]). split; [lia|by apply HP].
Qed.

(** The end of a command: the answer has just come in. *)
Definition just_said (c : list Z) (w : mworld) : Prop := ∃ w0, modem_ok w0 ∧
  m_flags (mw_m w) = m_flags (mw_m (modem_rx_task (answer c ++ ok_text) w0)).

Lemma runs_dialogue w b c u : runs w b b (_at_cmd_and_response_ok env c u) (cmd_time c + D)
  (λ r w', (u = None → r.1 = true) ∧ just_said (at_cmd_timeout c).2 w').
Proof.
  intros Hok Hb Hn Ht. pose proof (cmd_time_range c) as Hc. unfold _at_cmd_and_response_ok, cmd_time in *.
  destruct (at_cmd_timeout c) as [t c']. cbn [fst snd] in *.
  unfold modem_at_cmd_nolock, modem_tx_data, modem_at_response.
  replace (has (Z.lor AT_ST_OK AT_ST_ERROR) AT_ST_RESET) with false by done.
  cbv [mbind MM_bind mret MM_ret act see]. set (w1 := upd_at _clr_response w).
  set (w2 := upd_at (set_user_str u) (mlog (MTx [13; 10]) (mlog (MTx c') (upd_at (set_last_error_result 0) w1)))).
  assert (modem_ok w2) as Hok2.
  { unfold w2, w1. destruct Hok. by constructor. }
  change (mw_now w2) with (mw_now w). rewrite u32_small by (unfold in_u32; lia).
  unfold while_before. change (mw_now w2) with (mw_now w).
  assert (∃ n, Z.to_nat (mw_now w + t - mw_now w) = S (S n)) as [n En].
  { exists (Z.to_nat (t - 2)). lia. }
  rewrite En. cbn [mloop]. change (mw_now w2) with (mw_now w).
  destruct (Z.ltb_spec (mw_now w) (mw_now w + t)); [|lia].
  assert (has (Z.lor AT_ST_OK AT_ST_ERROR) (at_flags (w_at w2)) = false) as ->.
  { unfold has. apply negb_false_iff, Z.eqb_eq. 
    change (at_flags (w_at w2)) with (clr (at_flags (w_at w)) (Z.lor AT_ST_OK (Z.lor AT_ST_ERROR (Z.lor AT_ST_USER_STR
             (Z.lor AT_ST_RAB AT_ST_LINE))))).
    apply Z.bits_inj_0. intros i. unfold clr. rewrite Z.land_spec, Z.ldiff_spec, !Z.lor_spec.
    destruct (Z.testbit AT_ST_OK i), (Z.testbit AT_ST_ERROR i); cbn; by rewrite ?andb_false_r. }
  unfold yield. change (mw_now w2) with (mw_now w).
  assert (mw_log w2 = mw_log w ++ [MTx c'; MTx crlf]) as -> by (cbn; by rewrite <-app_assoc).
  pose proof (answers (mw_now w) (mw_log w) c') as Ha. pose proof (stall (mw_now w) (mw_log w ++ [MTx c'; MTx crlf])) as Hd.
  destruct (env _ _) as [chars d]. cbn [fst snd] in Ha, Hd. subst chars.
  set (w3 := set_now _ (mlog _ w2)).
  assert (modem_ok w3) as Hok3 by (unfold w3; destruct Hok2; by constructor).
  set (w4 := modem_rx_task (answer c' ++ ok_text) w3).
  destruct (quiet_rx (answer c' ++ ok_text) w3 w3) as [Q1 _ Q3 _]; [done|]. fold w4 in Q1, Q3.
  assert (mw_now w3 = mw_now w + Z.max 1 d) as E3.
  { unfold w3. cbn. apply u32_small. unfold in_u32. lia. }
  assert (mw_now w4 <? mw_now w + t = true) as -> by (apply Z.ltb_lt; lia).
  assert (has (at_flags (w_at w4)) AT_ST_OK = true) as Hokf by apply rx_ok_text.
  assert (has (Z.lor AT_ST_OK AT_ST_ERROR) (at_flags (w_at w4)) = true) as ->.
  { pose proof Hokf as Hb0. unfold AT_ST_OK in Hb0. rewrite has_bit in Hb0 by done. unfold has. apply negb_true_iff, Z.eqb_neq. intros E.
    apply (f_equal (λ z, Z.testbit z 0)) in E. rewrite Z.land_spec, Hb0 in E. done. }
  eexists _, w4. split; [done|]. split; [by apply modem_rx_ok|]. split; [by rewrite Q3|]. split; [lia|]. cbn [fst].
  split; [intros ->; by rewrite Hokf|]. by exists w3.
Qed.

Definition sent (c : list Z) : list Z := (at_cmd_timeout c).2.

Lemma runs_ok_cmd_nolock w b c : runs w b b (modem_at_ok_cmd_nolock env c) (cmd_time c + D) (λ r _, r = true).
Proof.
  unfold modem_at_ok_cmd_nolock. eapply runs_bind; [apply runs_dialogue|intros r w1 [Hr _]; cbv beta|lia].
  apply runs_ret; [lia|]. by apply Hr.
Qed.

Lemma runs_ok_cmd_said w c : runs w false false (modem_at_ok_cmd env c) (cmd_time c + 100 + 2 * D)
  (λ r w', r = true ∧ just_said (sent c) w').
Proof.
  unfold modem_at_ok_cmd. eapply runs_bind; [apply runs_takes, (takes_lock env D stall); lia|intros _ w0 _; cbv beta|].
  2: { pose proof (cmd_time_range c). lia. }
  eapply runs_bind; [apply runs_dialogue|intros r w1 [Hr Hs]; cbv beta|lia].
  intros Hok Hb Hn Ht. cbv [mbind MM_bind mret MM_ret modem_at_unlock act].
  exists r.1, (upd_at (set_at_busy false) w1). split; [done|]. split; [auto with modem_ok|]. split; [done|].
  split; [cbn; lia|]. split; [by apply Hr|exact Hs].
Qed.

Lemma runs_ok_cmd w c : runs w false false (modem_at_ok_cmd env c) (cmd_time c + 100 + 2 * D) (λ r _, r = true).
Proof. eapply runs_weaken; [apply runs_ok_cmd_said|lia|by intros ? ? [? _]]. Qed.

Lemma runs_delay w b ms : 0 ≤ ms → runs w b b (OS_DELAY env ms) (ms + D) (λ _ _, True).
Proof. intros. apply runs_takes, takes_delay; lia || done. Qed.

(** *** Starting *)

Hypothesis pin_ready : answer (str "AT+CPIN?") = cpin_answer.
Variable st : storage.

(** A step that succeeds. *)
Ltac ok_step :=
  eapply runs_bind; [first [apply runs_ok_cmd | apply runs_ok_cmd_nolock]|intros ? ? ->; cbn [negb]; cbv beta iota|times].
Ltac any_step :=
  eapply runs_bind; [first [apply runs_delay; lia | apply runs_takes; eassumption]|intros ? ? _; cbv beta|times].

Lemma runs_check_pin w : runs w false false (_check_pin env) (10100 + 2 * D) (λ r _, r = true).
Proof.
  unfold _check_pin. cbn [check_pin_loop].
  eapply runs_bind; [apply runs_ok_cmd_said|intros r w1 [-> (w0 & Hok0 & E)]; cbv beta|times].
  apply runs_see. change (sent (str "AT+CPIN?")) with (str "AT+CPIN?") in E. rewrite pin_ready in E.
  pose proof (rx_cpin w0) as Hf. unfold flag in *. rewrite E, Hf. apply runs_ret; [times|done].
Qed.

Lemma runs_init_sim w pin : runs w false false (_init_sim env pin) (10100 + 2 * D) (λ r _, r = true).
Proof.
  unfold _init_sim. eapply runs_bind; [apply runs_check_pin|intros ? ? ->; cbv beta iota|lia].
  apply runs_act; [gentle|]. apply runs_ret; [lia|done].
Qed.

Lemma runs_config_task w b ask res set t : 5000 ≤ t → runs w b b (_config_task env ask res set t) (t + 100 + 3 * D + cmd_time set) (λ r _, r = true).
Proof.
  intros Ht. pose proof (cmd_time_range set). unfold _config_task.
  eapply runs_bind; [apply runs_takes, takes_cmd|intros ? ? _; cbv beta|lia].
  eapply runs_bind; [apply runs_takes, (takes_response env D stall); lia|intros resp ? _; cbv beta|lia].
  apply runs_see. destruct (_ && _); [apply runs_ret; [lia|done]|]. any_step.
  eapply runs_weaken; [apply runs_ok_cmd_nolock|lia|done].
Qed.

Lemma runs_config_rows table : Forall (λ p, mc_timeout p = 5000 ∧ cmd_time (mc_set p) ≤ 10000) table → ∀ w b,
  runs w b b (config_rows env table true) (Z.of_nat (length table) * (15200 + 4 * D)) (λ r _, r = true).
Proof.
  induction 1 as [|p table [Hp1 Hp2] Htable IH]; intros w b; cbn [config_rows length]; [apply runs_ret; [lia|done]|].
  pose proof (cmd_time_range (mc_set p)). any_step.
  apply (runs_bind _ _ b _ _ _ (15100 + 3 * D) _ (λ r _, r = true)); [|intros ? ? ->; cbn [andb]; cbv beta|lia].
  - destruct (mc_ask p); [|eapply runs_weaken; [apply runs_ok_cmd_nolock|lia|done]].
    eapply runs_weaken; [apply runs_config_task; lia|lia|done].
  - eapply runs_weaken; [apply IH|lia|done].
Qed.

Lemma runs_modem_config w : runs w false false (modem_config_table env MODEM_CONFIG) (45700 + 13 * D) (λ r _, r = true).
Proof.
  unfold modem_config_table. eapply runs_bind; [apply runs_takes, (takes_lock env D stall); lia|intros _ w0 _; cbv beta|lia].
  eapply runs_bind; [apply runs_config_rows|intros ? w1 ->; cbv beta|cbn [length MODEM_CONFIG]; lia].
  { repeat constructor; times. }
  eapply runs_bind; [apply runs_takes, takes_unlock|intros ? ? _; cbv beta|cbn [length MODEM_CONFIG]; lia].
  apply runs_ret; [cbn [length MODEM_CONFIG]; lia|done].
Qed.

Lemma runs_start_last w : runs w false false (start_last env st) (186800 + 35 * D) (λ r _, r = true).
Proof.
  unfold start_last. eapply runs_bind; [apply runs_takes, (takes_apn_setup env D stall); lia|intros ? ? _; cbv beta|lia].
  eapply runs_bind; [apply runs_takes, (takes_bg95_init env D stall); lia|intros ? ? _; cbv beta|lia].
  ok_step. apply runs_ret; [times|done].
Qed.

Lemma runs_start_pass w : runs w false false (start_pass env st) (399200 + 92 * D) (λ r _, r = Some true).
Proof.
  unfold start_pass. do 3 ok_step.
  eapply runs_bind; [apply runs_init_sim|intros ? ? ->; cbn [negb]; cbv beta iota|times].
  eapply runs_bind; [apply runs_modem_config|intros ? ? ->; cbn [negb]; cbv beta iota|times].
  ok_step. eapply (runs_bind _ _ _ _ _ _ 0 _ (λ r _, r = true)); [apply runs_ret; [lia|done]|intros ? ? ->; cbn [negb]; cbv beta iota|times].
  eapply runs_bind; [apply runs_start_last|intros ? ? ->; cbv beta|times]. apply runs_ret; [times|done].
Qed.

Lemma runs_modem_start w : runs w false false (modem_start env st) (1208300 + 281 * D) (λ r _, r = true).
Proof.
  unfold modem_start. do 2 (apply runs_act; [gentle|]).
  apply (runs_bind _ _ false _ _ _ (10700 + 5 * D) _ (λ r _, r = true)); [|intros ? ? ->; cbn [negb]; cbv beta iota|lia].
  - unfold _modem_ready, _ok_test. ok_step. apply runs_ret; [times|done].
  - cbn [start_loop]. eapply runs_bind; [apply runs_start_pass|intros ? ? ->; cbv beta iota|lia]. apply runs_ret; [lia|done].
Qed.

(** *** From boot to the network *)

Variable home : report.
Hypothesis home_ok : report_ok home ∧ rp_domain home = CS ∧ (rp_stat home = 1 ∨ rp_stat home = 5).
Hypothesis registers : answer (str "AT+CREG?") = creg_answer home.

(** The task is run again and again, so long after each run. *)
Definition task_after (gap : Z) (s : mmain) : MM mmain :=
  _ ← act (λ w, set_now (mw_now w + gap) w);
  modem_main_task env st s.

(** What decides the next step. *)
Definition course (s : mmain) : modem_main_state_e * modem_main_state_e * modem_command_e * Z * Z :=
  (mm_state s, requested_state s, mm_command s, mm_tmout s, state_ts s).

Lemma course_status now s : course (_status_task now s) = course s.
Proof. unfold _status_task. by repeat case_match. Qed.
Lemma course_limiters now s : course (_limiters_update now s) = course s.
Proof. unfold _limiters_update. by case_match. Qed.

(** Going to sleep asks the module nothing. *)
Lemma runs_main_sleep w : runs w false false (main_sleep env) 0 (λ _ w', m_flags (mw_m w') = m_flags (mw_m w)).
Proof.
  intros Hok Hb Hn Ht. unfold main_sleep. cbv [mbind MM_bind mret MM_ret see act].
  destruct (m_sleep (mw_m w)) eqn:Es; [exists (), w; do 3 (split; [done|]); split; [lia|done]|].
  unfold modem_at_lock, modem_at_wakeup, _hw_wakeup, _hw_sleep, modem_at_unlock, pin. cbv [mbind MM_bind mret MM_ret see act].
  rewrite Hb. match goal with |- context [m_sleep (mw_m ?x)] => change (m_sleep (mw_m x)) with (m_sleep (mw_m w)) end.
  rewrite Es. eexists _, _. split; [done|]. split; [destruct Hok; by constructor|]. split; [done|]. split; [cbn; lia|done].
Qed.

(** The task is its state machine and bookkeeping. *)
Lemma runs_task w s T P : mm_command s = MODEM_COMMAND_NONE → 0 ≤ T →
  runs w false false (_state_machine_task env st s) T P →
  runs w false false (modem_main_task env st s) T (λ s2 w2, ∃ s1 w1, P s1 w1 ∧ course s2 = course s1 ∧
    m_flags (mw_m w2) = m_flags (mw_m w1) ∧ mw_now w2 = mw_now w1 ∧
    (requested_state s1 = mm_state s1 → _modem_error s2 = false)).
Proof.
  intros Hc HT Hsm Hok Hb Hn Ht. unfold modem_main_task. rewrite Hc.
  destruct (Hsm Hok Hb Hn) as (s1 & w1 & E1 & Hok1 & Hb1 & Ht1 & HP); [lia|].
  cbv [mbind MM_bind mret MM_ret see]. rewrite E1. set (s2 := _limiters_update _ _).
  destruct (runs_main_sleep w1 Hok1 Hb1) as ([] & w2 & E2 & Hok2 & Hb2 & Ht2 & Hf); [lia..|].
  rewrite E2. exists s2, w2. do 3 (split; [done|]). split; [lia|]. exists s1, w1. split; [done|].
  split; [unfold s2; by rewrite course_limiters, course_status|]. split; [done|]. split; [lia|].
  intros Ereq. unfold s2, _limiters_update. set (s3 := _status_task _ _).
  assert (_modem_error s3 = false) as E3.
  { unfold s3, _status_task. rewrite bool_decide_eq_true_2 by done. by destruct (_modem_error s1) eqn:?. }
  by case_match.
Qed.

Lemma runs_after gap w s T P : 0 ≤ gap → runs (set_now (mw_now w + gap) w) false false (modem_main_task env st s) T P →
  runs w false false (task_after gap s) (gap + T) P.
Proof.
  intros Hg Hm Hok Hb Hn Ht. destruct Hm as (s' & w' & E & ? & ? & Hnow & ?); [by destruct Hok|done|cbn; lia|cbn; lia|].
  exists s', w'. cbn [mw_now set_now] in Hnow. do 3 (split; [done|]). split; [lia|done].
Qed.

(** A range for the clock may be used in the proof. *)
Lemma runs_clock {A} w b b' (m : MM A) T P :
  (0 ≤ mw_now w → mw_now w + T < 4294967296 → runs w b b' m T P) → runs w b b' m T P.
Proof. intros H Hok Hb Hn Ht. by apply H. Qed.
Lemma runs_clock_end {A} w b b' (m : MM A) T (P Q : A → mworld → Prop) :
  runs w b b' m T P → (∀ a w', mw_now w ≤ mw_now w' ≤ mw_now w + T → P a w' → Q a w') → runs w b b' m T Q.
Proof.
  intros H HQ Hok Hb Hn Ht. destruct (H Hok Hb Hn Ht) as (a & w' & ? & ? & ? & ? & HP).
  exists a, w'. do 4 (split; [done|]). by apply HQ.
Qed.

(** The stages on the way. *)
Definition at_stage (s : mmain) (w : mworld) (state : modem_main_state_e) : Prop :=
  mm_state s = state ∧ requested_state s = MODEM_MAIN_STATE_NET_OK ∧ mm_command s = MODEM_COMMAND_NONE ∧
  state_ts s ≤ mw_now w + 10 * OS_TIMER_SECOND.
Definition stage_off (s : mmain) (w : mworld) : Prop := at_stage s w MODEM_MAIN_STATE_OFF ∧ mm_tmout s = 0.
Definition stage_on (s : mmain) (w : mworld) : Prop :=
  at_stage s w MODEM_MAIN_STATE_ON ∧ mm_tmout s ≤ mw_now w + 1 * OS_TIMER_SECOND.
Definition stage_init (s : mmain) (w : mworld) : Prop :=
  at_stage s w MODEM_MAIN_STATE_INIT ∧ mw_now w + 120 * OS_TIMER_SECOND ≤ mm_tmout s.
Definition stage_up (s : mmain) (w : mworld) : Prop :=
  at_stage s w MODEM_MAIN_STATE_NET_OK ∧ mw_now w + 60 * OS_TIMER_SECOND ≤ mm_tmout s ∧ _modem_error s = false.
Definition stage_wait (s : mmain) (w : mworld) : Prop :=
  stage_up s w ∨ at_stage s w MODEM_MAIN_STATE_INIT ∧ flag MODEM_FLAG_NET_READY w = true.

Lemma course_stage s s1 w w1 state : course s = course s1 → mw_now w = mw_now w1 → at_stage s1 w1 state → at_stage s w state.
Proof. unfold course, at_stage. intros [= -> -> -> _ ->] ->. done. Qed.

(** One run of the task: only its state machine matters. *)
Definition leads (s1 : mmain) (w1 : mworld) (P : mmain → mworld → Prop) : Prop := ∀ s2 w2,
  course s2 = course s1 → m_flags (mw_m w2) = m_flags (mw_m w1) → mw_now w2 = mw_now w1 →
  (requested_state s1 = mm_state s1 → _modem_error s2 = false) → P s2 w2.

Lemma stage_step gap s w T P : mm_command s = MODEM_COMMAND_NONE → 0 ≤ gap → 0 ≤ T →
  (∀ w0, mw_now w0 = mw_now w + gap → m_flags (mw_m w0) = m_flags (mw_m w) → 0 ≤ mw_now w0 →
    mw_now w0 + T < 4294967296 →
    runs w0 false false (_state_machine_task env st s) T (λ s1 w1, mw_now w0 ≤ mw_now w1 ≤ mw_now w0 + T → leads s1 w1 P)) →
  runs w false false (task_after gap s) (gap + T) P.
Proof.
  intros Hc Hg HT Hsm. apply runs_after; [done|]. set (w0 := set_now _ w). apply runs_clock. intros Hn Ht.
  assert (runs w0 false false (_state_machine_task env st s) T (λ s1 w1, leads s1 w1 P)) as H.
  { eapply runs_clock_end; [apply (Hsm w0); done|]. intros a w' Hnow HP. by apply HP. }
  eapply runs_weaken; [by apply (runs_task w0 s T)|lia|]. intros s2 w2 (s1 & w1 & HP & Ec & Ef & En & Er). by apply HP.
Qed.

Ltac stage_facts :=
  match goal with H : at_stage _ _ _ |- _ => destruct H as (?E1 & ?E2 & ?E3 & ?E4) end;
  change OS_TIMER_SECOND with 1000 in *.

Lemma stage_on_next gap s w : 10 * OS_TIMER_SECOND ≤ gap → stage_off s w →
  runs w false false (task_after gap s) (gap + (7010 + 3 * D)) stage_on.
Proof.
  intros Hgap [Hst Et]. unfold stage_on. stage_facts. apply stage_step; [done|lia..|]. intros w0 En Ef Hn Ht.
  unfold _state_machine_task. apply runs_see. rewrite E1, Et.
  rewrite !(proj2 (Z.ltb_ge _ _)) by lia. rewrite E2. cbn [main_state_code Z.leb Z.compare Pos.compare Pos.compare_cont].
  eapply runs_bind; [apply runs_takes, (takes_hw_on env D stall); lia|intros [] w1 _; cbv beta|lia].
  unfold to_state. apply runs_see. apply runs_clock. intros Hn1 Ht1. apply runs_ret; [lia|]. intros Hnow s2 w2 Ec _ Enow _.
  unfold modem_set_state in Ec. rewrite E1, u32_small in Ec by (unfold in_u32; change OS_TIMER_SECOND with 1000; lia).
  unfold course in Ec. cbn in Ec. unfold at_stage. injection Ec as -> -> -> -> ->.
  rewrite E2, E3. change OS_TIMER_SECOND with 1000. repeat split; lia.
Qed.

Lemma stage_init_next gap s w : 10 * OS_TIMER_SECOND ≤ gap → stage_on s w →
  runs w false false (task_after gap s) (gap + (1208300 + 281 * D + 600000)) stage_init.
Proof.
  intros Hgap [Hst Et]. unfold stage_init. stage_facts. apply stage_step; [done|lia..|]. intros w0 En Ef Hn Ht.
  unfold _state_machine_task. apply runs_see. rewrite E1.
  rewrite !(proj2 (Z.ltb_ge _ _)) by lia. cbn [_modem_command_exec].
  eapply runs_bind; [apply runs_modem_start|intros ? w1 ->; cbv beta iota|lia].
  unfold to_state. apply runs_see. apply runs_clock. intros Hn1 Ht1. apply runs_ret; [lia|]. intros Hnow s2 w2 Ec _ Enow _.
  unfold modem_set_state in Ec. rewrite E1, u32_small in Ec by (unfold in_u32; change OS_TIMER_SECOND with 1000; destruct (_modem_error s); lia).
  unfold course in Ec. cbn in Ec. unfold at_stage. injection Ec as -> -> -> -> ->.
  rewrite E2, E3. change OS_TIMER_SECOND with 1000. destruct (_modem_error s); repeat split; lia.
Qed.

(** Reaching the network, from either of its two entries. *)
Lemma runs_net_ok s w : at_stage s w MODEM_MAIN_STATE_INIT → flag MODEM_FLAG_NET_READY w = true →
  ∀ now, runs w false false (state_init env now s) 60000 (λ s1 w1, leads s1 w1 stage_up).
Proof.
  intros Hst Hf now. stage_facts. unfold state_init. apply runs_see. rewrite Hf. unfold to_state. apply runs_see.
  apply runs_clock. intros Hn Ht. apply runs_ret; [lia|]. intros s2 w2 Ec _ Enow Herr.
  unfold modem_set_state in Ec, Herr. rewrite E1 in Ec, Herr. rewrite u32_small in Ec by (unfold in_u32; change OS_TIMER_SECOND with 1000; lia).
  unfold course in Ec. cbn in Ec, Herr. unfold stage_up, at_stage. injection Ec as -> -> -> -> ->.
  rewrite E2, E3, Herr, Enow by done. change OS_TIMER_SECOND with 1000. repeat split; lia.
Qed.

Lemma at_stage_later gap s w w0 state : at_stage s w state → 0 ≤ gap → mw_now w0 = mw_now w + gap → at_stage s w0 state.
Proof. intros (? & ? & ? & ?) Hg E. unfold at_stage. rewrite E. repeat split; try done. lia. Qed.

Lemma stage_wait_next gap s w : 10 * OS_TIMER_SECOND ≤ gap ≤ 50 * OS_TIMER_SECOND → stage_init s w →
  runs w false false (task_after gap s) (gap + 100000) stage_wait.
Proof.
  intros Hgap [Hst Et]. unfold stage_wait. pose proof Hst as Hst0. stage_facts. apply stage_step; [done|lia..|]. intros w0 En Ef Hn Ht.
  assert (at_stage s w0 MODEM_MAIN_STATE_INIT) as Hst1 by (eapply at_stage_later; [done| |done]; lia).
  unfold _state_machine_task. apply runs_see. rewrite E1. rewrite !(proj2 (Z.ltb_ge _ _)) by lia.
  destruct (flag MODEM_FLAG_NET_READY w0) eqn:Hf.
  { eapply runs_weaken; [by apply runs_net_ok|lia|]. intros s1 w1 Hl _ s2 w2 ? ? ? ?. left. by apply Hl. }
  unfold state_init. apply runs_see. rewrite Hf.
  eapply runs_bind; [apply runs_ok_cmd_said|intros ? w1 [-> (wr & Hokr & Er)]; cbn [negb]; cbv beta iota zeta|times].
  change (sent (str "AT+CREG?")) with (str "AT+CREG?") in Er. rewrite registers in Er.
  rewrite (proj2 (Z.ltb_ge _ _)) by (cbn; lia).
  apply runs_ret; [times|]. intros Hnow s2 w2 Ec Efl Enow _. right. split.
  - unfold course in Ec. cbn in Ec. unfold at_stage. injection Ec as -> -> -> _ ->. rewrite E1, E2, E3.
    rewrite u32_small by (unfold in_u32; change OS_TIMER_SECOND with 1000; lia). change OS_TIMER_SECOND with 1000. repeat split; lia.
  - destruct home_ok as (H1 & H2 & H3). unfold flag. rewrite Efl, Er. by apply rx_creg.
Qed.

Definition online (s : mmain) (w : mworld) : Prop :=
  modem_main_state s = MODEM_MAIN_STATE_NET_OK ∧ mm_state s = MODEM_MAIN_STATE_NET_OK.

Lemma stage_up_online s w : stage_up s w → online s w.
Proof. intros ((E1 & E2 & _) & _ & E). unfold online, modem_main_state. rewrite E, E1, E2. by rewrite bool_decide_eq_true_2. Qed.

Lemma online_next gap s w : 10 * OS_TIMER_SECOND ≤ gap ≤ 50 * OS_TIMER_SECOND → stage_wait s w →
  runs w false false (task_after gap s) (gap + 100000) online.
Proof.
  intros Hgap [(Hst & Et & Herr)|[Hst Hf]].
  - stage_facts. apply stage_step; [done|lia..|]. intros w0 En Ef Hn Ht.
    unfold _state_machine_task. apply runs_see. rewrite E1. rewrite (proj2 (Z.ltb_ge _ _)) by lia.
    unfold state_net_ok. rewrite (proj2 (Z.ltb_lt _ _)) by lia. apply runs_ret; [lia|]. intros _ s2 w2 Ec _ _ He.
    unfold course in Ec. injection Ec as S1 S2 _ _ _. unfold online, modem_main_state. rewrite S1, S2, E1, E2.
    rewrite He by congruence. by rewrite bool_decide_eq_true_2.
  - pose proof Hst as Hst0. stage_facts. apply stage_step; [done|lia..|]. intros w0 En Ef Hn Ht.
    assert (at_stage s w0 MODEM_MAIN_STATE_INIT) as Hst1 by (eapply at_stage_later; [done| |done]; lia).
    unfold _state_machine_task. apply runs_see. rewrite E1. rewrite !(proj2 (Z.ltb_ge _ _)) by lia.
    eapply runs_weaken; [apply runs_net_ok; [done|unfold flag in *; by rewrite Ef]|lia|].
    intros s1 w1 Hl _ s2 w2 ? ? ? ?. apply stage_up_online. by apply Hl.
Qed.

Lemma ok_boot now : modem_ok (boot_world now).
Proof. constructor; try done; cbn; lia. Qed.


End live.
