(* ===== verification/ModemPin.v ===== *)
(** * The PIN is never risked (modem/modem.c)

    A wrong PIN costs one of the few attempts the SIM card allows.  Whatever the
    module says, the driver enters the PIN only after the card itself has reported
    at least three attempts left, and asks again before every entry. *)

From S2P Require Import Prelude CText EventTypes EventBuf Storage EventMemory EventQueue Out.
From S2P Require Import Alarm ArmSection System Cfg SiaIp NetTarget Cms EventTask TracerBuf.
From S2P Require Import Inp Update Nmea Gps Report Cmd TracerProto ModemAt ModemUrc ModemLink.
From S2P Require Import ModemCmd ModemUdp ModemMain ModemRun ModemHear ModemTx.

Definition pin_text (d : list Z) : bool := bool_decide (is_Some (expect (qstr "AT+CPIN='") d)).

(** The number after the first comma, of a text cut to the driver's buffer. *)
Definition attempts_of (text : list Z) : option Z :=
  match after_comma (take 31 text) with Some p => Some (u8 (atoi p)) | None => None end.

(** Since the last question for the attempts no PIN has been entered, and the
    answer was a line that says three or more. *)
Definition cleared (l : list maction) : Prop := ∃ la lb buf text n,
  l = la ++ [MTx (str "AT+QPINC?"); MTx [13; 10]] ++ lb ∧ Forall (λ a, tx_bad pin_text a = false) lb ∧
  text ∈ lines buf (rx_chars lb) ∧ starts (qstr "+QPINC: 'SC'") text ∧ attempts_of text = Some n ∧ 3 ≤ n.

(** Every PIN among these actions is cleared by what came before. *)
Definition guarded (l : list maction) : Prop := ∀ l1 x l2, l = l1 ++ x :: l2 → tx_bad pin_text x = true → cleared l1.

Lemma cleared_after l1 l2 : cleared l2 → cleared (l1 ++ l2).
Proof. intros (la & lb & buf & text & n & -> & H). exists (l1 ++ la), lb, buf, text, n. by rewrite <-app_assoc. Qed.

Lemma guarded_app l1 l2 : guarded l1 → guarded l2 → guarded (l1 ++ l2).
Proof.
  intros H1 H2 la x lb E Hx. apply app_eq_app in E as (k & [[E1 E2]|[E1 E2]]).
  - destruct k as [|y k]; [|injection E2 as <- _; by eapply H1].
    rewrite app_nil_r in E1. subst la. rewrite <-(app_nil_r l1). apply cleared_after. by eapply (H2 [] x lb).
  - subst la. apply cleared_after. by eapply H2.
Qed.

Lemma guarded_plain l : Forall (λ a, tx_bad pin_text a = false) l → guarded l.
Proof. intros Hl l1 x l2 -> Hx. rewrite Forall_app, Forall_cons in Hl. destruct Hl as (_ & Hl & _). congruence. Qed.

Definition pins_guarded (w w' : mworld) : Prop := ∃ l, mw_log w' = mw_log w ++ l ∧ guarded l.
#[export] Instance pins_guarded_preorder : PreOrder pins_guarded.
Proof.
  split; [intros w; exists []; rewrite app_nil_r; split; [done|by apply guarded_plain]|].
  intros w1 w2 w3 (l1 & E1 & G1) (l2 & E2 & G2). exists (l1 ++ l2). rewrite E2, E1, app_assoc.
  split; [done|by apply guarded_app].
Qed.

Lemma no_pin_guarded w w' : spares pin_text w w' → pins_guarded w w'.
Proof. intros (l & E & H & _). exists l. split; [done|by apply guarded_plain]. Qed.

Section pin.
Context `{M : ModemLib} `{MS : !ModemSpec M} `{CS : !CmdSpec ml_cmd} `{F : FlashLib}.
Variable env : Z → list maction → list Z * Z.
Variable st : storage.

Lemma no_pin_check_pin : keeps (spares pin_text) (_check_pin env).
Proof. unfold _check_pin. generalize 5%nat. intros n. induction n as [|n IH]; cbn [check_pin_loop]; repeat plain_step; apply IH. Qed.

(** *** The question and the entry *)

Lemma pin_attempts_asked w n w' : _pin_attempts_left env w = Some (Some n, w') →
  ∃ l, mw_log w' = mw_log w ++ l ∧ Forall (λ a, tx_bad pin_text a = false) l ∧ (3 ≤ n → cleared l).
Proof.
  intros E. assert (spares pin_text w w') as (l & El & Hl & _).
  { revert E. apply (keeps_bind (spares pin_text)); [apply spares_get_response; reflexivity|]. intros r. plain_step. }
  exists l. split; [done|]. split; [done|]. intros Hn. apply bind_Some in E as ([ok text] & w1 & E & Er).
  cbv [mret MM_ret] in Er. injection Er as Er <-. cbn [fst snd] in Er.
  destruct ok; [|done]. cbn [negb] in Er. change (attempts_of text = Some n) in Er.
  apply bind_Some in E as ([] & wl & Elock & E). apply bind_Some in E as (r & w2 & Ed & E).
  apply bind_Some in E as ([] & w3 & Eu & E). injection E as -> <-. injection Eu as <-.
  apply dialogue_heard in Ed as (ld & Eld & _ & Htext & Hstart).
  apply (spares_lock env pin_text) in Elock as (la & Ela & _ & _). cbn [mw_log upd_at upd_m] in El.
  change (mw_log (upd_at (set_at_busy false) w2)) with (mw_log w2) in El. rewrite Eld, Ela, <-app_assoc in El.
  apply app_inv_head in El. subst l. apply Forall_app in Hl as [_ Hl]. apply Forall_app in Hl as [_ Hl].
  by exists la, ld, (rx_buf (w_at wl)), text, n.
Qed.

Lemma cleared_plain l la : cleared l → Forall (λ a, tx_bad pin_text a = false) la → cleared (l ++ la).
Proof.
  intros (l0 & lb & buf & text & n & -> & Hlb & Htext & H) Hla. exists l0, (lb ++ la), buf, text, n.
  split; [by rewrite <-!app_assoc|]. split; [by apply Forall_app|]. split; [|done].
  rewrite rx_chars_app, lines_app. apply elem_of_app. by left.
Qed.

(** One command, whatever it is. *)
Lemma ok_cmd_log c w r w' : modem_at_ok_cmd env c w = Some (r, w') → ∃ la x lb,
  mw_log w' = mw_log w ++ la ++ x :: lb ∧ Forall (λ a, tx_bad pin_text a = false) la ∧ Forall (λ a, tx_bad pin_text a = false) lb.
Proof.
  intros E. apply bind_Some in E as ([] & w1 & E1 & E). apply bind_Some in E as (r2 & w2 & E2 & E).
  apply bind_Some in E as ([] & w3 & E3 & E). injection E as _ <-. injection E3 as <-.
  apply (spares_lock env pin_text) in E1 as (la & Ela & Hla & _). exists la. unfold _at_cmd_and_response_ok in E2.
  destruct (at_cmd_timeout c) as [t c']. exists (MTx c').
  apply bind_Some in E2 as ([] & w4 & E4 & E2). injection E4 as <-. 
  assert (spares pin_text (mlog (MTx [13; 10]) (mlog (MTx c') (upd_at (set_last_error_result 0) (upd_at _clr_response w1)))) w2) as (lb & Elb & Hlb & _).
  { revert E2. apply (keeps_bind (spares pin_text)); [apply spares_response|]. intros resp. repeat plain_step. }
  exists (MTx [13; 10] :: lb). split; [|split; [done|by constructor]].
  change (mw_log (upd_at (set_at_busy false) w2)) with (mw_log w2). rewrite Elb. cbn. rewrite Ela. by rewrite <-!app_assoc.
Qed.

Lemma pin_entered pin w r w' : _pin_enter env pin w = Some (r, w') → ∃ la lb,
  mw_log w' = mw_log w ++ la ++ lb ∧ Forall (λ a, tx_bad pin_text a = false) la ∧
  (lb = [] ∨ ∃ x lb', lb = x :: lb' ∧ Forall (λ a, tx_bad pin_text a = false) lb').
Proof.
  assert (∀ w : mworld, ∃ la lb : list maction, mw_log w = mw_log w ++ la ++ lb ∧ Forall (λ a, tx_bad pin_text a = false) la ∧
    (lb = [] ∨ ∃ x lb', lb = x :: lb' ∧ Forall (λ a, tx_bad pin_text a = false) lb')) as Hnone.
  { intros w0. exists [], []. rewrite app_nil_r. auto. }
  unfold _pin_enter. destruct pin as [|c pin]; [by intros [= <- <-]|]. unfold modem_at_ok_cmd_fmt.
  destruct (_ <=? _); [by intros [= <- <-]|]. intros (la & x & lb & E & Ha & Hb)%ok_cmd_log.
  exists la, (x :: lb). split; [done|]. split; [done|]. right. by exists x, lb.
Qed.

(** The rest of a run enters no PIN. *)
Ltac plain_run E :=
  apply no_pin_guarded; revert E;
  match goal with |- ?m ?w = Some _ → _ =>
    let K := fresh in assert (keeps (spares pin_text) m) as K by (repeat plain_step); apply K end.
#[local] Hint Resolve no_pin_check_pin : spares.

Lemma guarded_init_sim pin : keeps pins_guarded (_init_sim env pin).
Proof.
  intros w r w' E. apply bind_Some in E as (ready & w1 & E1 & E). transitivity w1.
  { apply no_pin_guarded. by apply no_pin_check_pin in E1. }
  destruct ready; [plain_run E|].
  apply bind_Some in E as ([n|] & w2 & E2 & E).
  2: { injection E as _ <-. unfold _pin_attempts_left in E2. plain_run E2. }
  apply pin_attempts_asked in E2 as (l & El & Hl & Hn).
  destruct (Z.ltb_spec n 3).
  { transitivity w2; [by exists l; split; [done|apply guarded_plain]|]. plain_run E. }
  apply bind_Some in E as (entered & w3 & E3 & E). transitivity w3.
  - apply pin_entered in E3 as (la & lb & E3 & Hla & Hlb). exists (l ++ la ++ lb). rewrite E3, El, <-app_assoc.
    split; [done|]. destruct Hlb as [->|(x & lb' & -> & Hlb)].
    { rewrite app_nil_r. apply guarded_plain, Forall_app. done. }
    intros l1 y l2 Ey Hy. rewrite app_assoc in Ey.
    assert (Forall (λ a, tx_bad pin_text a = false) (l ++ la)) as Hpre by (by apply Forall_app).
    apply app_eq_app in Ey as (k & [[K1 K2]|[K1 K2]]).
    + destruct k as [|z k].
      * rewrite app_nil_r in K1. subst l1. apply cleared_plain; [apply Hn; lia|done].
      * injection K2 as <- _. rewrite K1, Forall_app, Forall_cons in Hpre. destruct Hpre as (_ & Hz & _). congruence.
    + destruct k as [|z k].
      * rewrite app_nil_r in K1. subst l1. apply cleared_plain; [apply Hn; lia|done].
      * injection K2 as -> K2. subst lb'. rewrite Forall_app, Forall_cons in Hlb. destruct Hlb as (_ & Hz & _). congruence.
  - destruct entered; cbn [negb] in E; plain_run E.
Qed.

(** *** The whole driver *)

Lemma guarded_plain_run {A} (m : MM A) : keeps (spares pin_text) m → keeps pins_guarded m.
Proof. intros H w a w' E. by eapply no_pin_guarded, H. Qed.

Ltac guard_step :=
  match goal with
  | |- keeps _ (mret _) => apply keeps_ret, _
  | |- keeps _ (see _) => apply keeps_see, _
  | |- keeps _ (_ ≫= _) => apply keeps_bind; [apply _| |intros ?]
  | |- keeps _ (match ?c with _ => _ end) => destruct c
  | |- keeps _ (act _) => apply guarded_plain_run, keeps_act; intros ?; first [by apply spares_log | by apply spares_same]
  | |- keeps _ (while_before _ _) => apply keeps_while_before; [apply _|]
  | |- keeps _ (while_upto _ _) => apply keeps_while_upto; [apply _|]
  | |- keeps _ _ => solve [eauto with guarded]
  | |- keeps _ _ => apply guarded_plain_run; solve [eauto with spares]
  end.
Create HintDb guarded.
#[local] Hint Resolve guarded_init_sim : guarded.

Lemma guarded_config_task ask res set t : pin_text ask = false → pin_text (at_cmd_timeout set).2 = false →
  keeps (spares pin_text) (_config_task env ask res set t).
Proof. intros H1 H2. unfold _config_task. repeat plain_step. Qed.

Definition row_plain (p : modem_config) : Prop :=
  pin_text (at_cmd_timeout (mc_set p)).2 = false ∧ match mc_ask p with Some ask => pin_text ask = false | None => True end.

Lemma no_pin_config_table table : Forall row_plain table → keeps (spares pin_text) (modem_config_table env table).
Proof.
  intros Ht. unfold modem_config_table.
  assert (∀ ok, keeps (spares pin_text) (config_rows env table ok)) as H; [|repeat plain_step; apply H].
  induction Ht as [|p table [H1 H2] Ht IH]; intros ok; cbn [config_rows]; [plain_step|].
  destruct (mc_ask p) as [ask|]; repeat plain_step; try apply IH; by apply guarded_config_task || by apply spares_ok_cmd_nolock.
Qed.
Lemma no_pin_modem_config : keeps (spares pin_text) (modem_config_table env MODEM_CONFIG).
Proof. apply no_pin_config_table. by repeat constructor. Qed.
Lemma no_pin_bg95_config : keeps (spares pin_text) (modem_config_table env MODEM_BG95_CONFIG).
Proof. apply no_pin_config_table. by repeat constructor. Qed.
#[local] Hint Resolve no_pin_modem_config no_pin_bg95_config : spares.

Lemma no_pin_hw_on : keeps (spares pin_text) (_hw_on env).
Proof. unfold _hw_on. repeat plain_step. Qed.
Lemma no_pin_hw_off : keeps (spares pin_text) (_hw_off env).
Proof. unfold _hw_off. repeat plain_step. Qed.
#[local] Hint Resolve no_pin_hw_on no_pin_hw_off : spares.
Lemma no_pin_start_last : keeps (spares pin_text) (start_last env st).
Proof. unfold start_last, modem_apn_setup, modem_apn_init, modem_bg95_init, _qcfg. repeat plain_step. Qed.
#[local] Hint Resolve no_pin_start_last : spares.
Lemma no_pin_modem_ready : keeps (spares pin_text) (_modem_ready env).
Proof. unfold _modem_ready, _ok_test. repeat plain_step. Qed.
#[local] Hint Resolve no_pin_modem_ready : spares.
Lemma no_pin_modem_check : keeps (spares pin_text) (modem_check env).
Proof. unfold modem_check, _ok_test, _power_off, check_questions. repeat plain_step. Qed.
#[local] Hint Resolve no_pin_modem_check : spares.

Lemma guarded_start_pass : keeps pins_guarded (start_pass env st).
Proof. unfold start_pass. repeat guard_step. Qed.
#[local] Hint Resolve guarded_start_pass : guarded.
Lemma guarded_start_loop n : keeps pins_guarded (start_loop env st n).
Proof. induction n as [|n IH]; cbn [start_loop]; repeat guard_step. Qed.
#[local] Hint Resolve guarded_start_loop : guarded.
Lemma guarded_modem_start : keeps pins_guarded (modem_start env st).
Proof. unfold modem_start. repeat guard_step. Qed.
#[local] Hint Resolve guarded_modem_start : guarded.

Lemma guarded_command_exec c s : keeps pins_guarded (_modem_command_exec env st c s).
Proof. unfold _modem_command_exec, to_state. repeat guard_step. Qed.
#[local] Hint Resolve guarded_command_exec : guarded.
Lemma guarded_state_machine s : keeps pins_guarded (_state_machine_task env st s).
Proof. unfold _state_machine_task, state_init, state_net_ok, to_state. repeat guard_step. Qed.
#[local] Hint Resolve guarded_state_machine : guarded.


End pin.
