(* ===== verification/ModemSmsRun.v ===== *)
(** * Text messages come back (modem/modem_sms.c, app/sms_processing.c)

    Sending and reading a message returns within the sum of its time-outs,
    whatever the module does. *)

From S2P Require Import Prelude CText EventTypes EventBuf Storage EventMemory EventQueue Out.
From S2P Require Import Alarm ArmSection System Cfg SiaIp NetTarget Cms EventTask TracerBuf.
From S2P Require Import Inp Update Nmea Gps MultiSms Report Cmd TracerProto ModemAt ModemUrc ModemLink.
From S2P Require Import ModemCmd ModemUdp ModemMain ModemRun ModemHear ModemSms CmdThm CmdParse.

(** ** A line kept is not replaced *)

Section spent.
Context `{M : ModemLib} `{MS : !ModemSpec M} `{CS : !CmdSpec ml_cmd}.
Variable env : Z → list maction → list Z * Z.

(** The text waited for was found and its flag cleared since. *)
Definition spent (w : mworld) : Prop := response_len (w_at w) ≠ 0 ∧ found_flag w = false.
Definition stays_spent (w w' : mworld) : Prop := spent w → spent w'.
#[local] Instance stays_spent_preorder : PreOrder stays_spent.
Proof. split; [by intros w ?|]. intros w1 w2 w3 H1 H2 H. by apply H2, H1. Qed.

Lemma same_answer_spent w w' : same_answer w w' → stays_spent w w'.
Proof. intros (_ & E2 & _ & E4 & _) []. split; congruence. Qed.

Lemma at_set_spent n w : 0 ≤ n → n ≠ 2 → stays_spent w (at_set (bit n) w).
Proof.
  intros Hn H2 [Hl Hf]. split; [done|]. unfold found_flag, AT_ST_USER_STR in *.
  change (at_flags (w_at (at_set (bit n) w))) with (Z.lor (at_flags (w_at w)) (bit n)).
  rewrite has_lor_bit, Hf, (has_bit (bit n)), testbit_bit by done. by destruct (Z.eqb_spec 2 n).
Qed.

Lemma line_spent src n w : stays_spent w (at_line src n w).
Proof.
  unfold at_line. set (w1 := at_set AT_ST_LINE w).
  assert (stays_spent w w1) as H1 by (by apply at_set_spent).
  destruct (stricmp src (str "OK") =? 0).
  { etransitivity; [apply H1|]. etransitivity; [by apply (at_set_spent 0)|by apply (at_set_spent 5)]. }
  destruct (stricmp src (str "ERROR") =? 0).
  { etransitivity; [apply H1|]. by apply (at_set_spent 1). }
  assert (stays_spent w1 (modem_parse_urc src n w1).2) as H2.
  { apply same_answer_spent, sa_urc. by repeat split. }
  destruct (modem_parse_urc src n w1) as [[] w2]; cbn [snd] in H2; [by etransitivity|].
  intros Hw. destruct (H2 (H1 Hw)) as [Hl Hf]. unfold at_keep_response.
  destruct (Z.eqb_spec (response_len (w_at w2)) 0); [done|by split].
Qed.

Lemma rx_spent chars w : stays_spent w (modem_rx_task chars w).
Proof.
  revert w. induction chars as [|c chars IH]; intros w; [done|].
  unfold modem_rx_task in *. cbn [foldl]. etransitivity; [|apply IH]. unfold modem_at_rx.
  cbv zeta. set (c' := if (c =? 10) || (c =? 13) then 0 else c). destruct (c' =? 0).
  - match goal with |- stays_spent _ (upd_at _ ?x) => assert (stays_spent w x) as H end.
    { destruct (1 <? _); [apply line_spent|done]. }
    exact H.
  - match goal with |- stays_spent _ (if _ then at_set _ ?x else _) => assert (stays_spent w x) as H end.
    { destruct (_ <? _)%nat; [by intros ?|done]. }
    destruct (c' =? 62); [|done]. etransitivity; [exact H|]. by apply (at_set_spent 3).
Qed.

Lemma yield_spent : keeps stays_spent (yield env).
Proof. intros w d w'. unfold yield. destruct (env _ _). intros [= <- <-] H. by apply rx_spent. Qed.

Lemma response_spent u fl t : has fl AT_ST_RESET = false → keeps stays_spent (modem_at_response env u fl t).
Proof.
  intros Hr. unfold modem_at_response. rewrite Hr.
  apply keeps_bind; [apply _|apply keeps_ret, _|intros _].
  apply keeps_bind; [apply _|by apply keeps_act; intros w ?|intros _].
  apply keeps_bind; [apply _|apply keeps_see, _|intros now].
  apply keeps_bind; [apply _| |intros [fl'|]; [apply keeps_ret, _|]].
  - apply keeps_while_before; [apply _|]. apply keeps_bind; [apply _|apply keeps_see, _|intros fl'].
    destruct (has fl fl'); [apply keeps_ret, _|].
    apply keeps_bind; [apply _|apply yield_spent|intros; apply keeps_ret, _].
  - apply keeps_bind; [apply _|by apply keeps_act; intros w ?|intros; apply keeps_ret, _].
Qed.

End spent.

(** ** Returning *)

Section sms_run.
Context `{F : FlashLib} `{L : SmsLib} `{MS : !ModemSpec sl_modem} `{CS : !CmdSpec ml_cmd}.
Variable env : Z → list maction → list Z * Z.
Variable D : Z.
Hypothesis stall : ∀ t l, (env t l).2 ≤ D.
Hypothesis stall_pos : 1 ≤ D.
Variable garbage : list Z.

Lemma takes_read_line u t : 0 ≤ t → takes true true (modem_at_read_line env u t) (t + D).
Proof.
  intros Ht. unfold modem_at_read_line. apply takes_bind_act; [gentle|].
  apply (takes_timed true true true _ D 0 t (act (upd_at (set_user_str u)))); try lia.
  - apply takes_act; [gentle|lia].
  - apply turn_see. intros a. cbv zeta. destruct (_ && negb _); [by apply turn_some; lia|].
    eapply turn_bind with (T1 := 0); [|intros _|lia].
    { destruct (has _ _); repeat takes_step. }
    destruct (has _ _); [apply turn_some; lia|]. apply (turn_yield env D); done || lia.
  - intros [[l|]|]; repeat takes_step.
Qed.
#[local] Hint Extern 1 (takes _ _ (modem_at_read_line _ _ _) _) => apply takes_read_line; times : takes.

Lemma takes_read_line_lite n u t : 0 ≤ t → takes true true (modem_at_read_line_lite env n u t) (t + D).
Proof. intros Ht. unfold modem_at_read_line_lite. repeat takes_step. Qed.
#[local] Hint Extern 1 (takes _ _ (modem_at_read_line_lite _ _ _ _) _) => apply takes_read_line_lite; times : takes.

Lemma takes_raw b d : takes b b (modem_at_raw d) 0.
Proof. unfold modem_at_raw. repeat takes_step. Qed.
#[local] Hint Resolve takes_raw : takes.

Lemma takes_send_once raw n : takes true true (send_pdu_once env raw n) (906000 + 3 * D).
Proof. unfold send_pdu_once. repeat takes_step. Qed.
#[local] Hint Resolve takes_send_once : takes.

Lemma takes_send_tries k raw n : takes true true (send_pdu_tries env k raw n) (Z.of_nat k * (912000 + 5 * D)).
Proof.
  induction k as [|k IH]; cbn [send_pdu_tries]; [apply takes_ret; lia|].
  eapply takes_bind; [apply takes_send_once|intros [id|]; cbv beta|lia]; [apply takes_ret; lia|].
  repeat takes_step.
Qed.

Lemma takes_send_pdu raw n : takes false false (send_pdu_now env raw n) (2736100 + 16 * D).
Proof. pose proof (takes_send_tries 3 raw n). unfold send_pdu_now. repeat takes_step. Qed.
#[local] Hint Resolve takes_send_pdu : takes.

Lemma takes_send_parts n utf8 type m count i len data buf s :
  takes false false (send_parts env n utf8 type m count i len data buf s) (Z.of_nat n * (2736100 + 16 * D)).
Proof.
  revert i len data buf s. induction n as [|n IH]; intros i len data buf s; cbn [send_parts]; [repeat takes_step|].
  destruct (next_part _ _ _ _ _ _) as [[[size buf'] data'] len']. destruct (pdu_encode _) as [pdu_len raw].
  eapply takes_bind; [apply takes_send_pdu|intros [id|]; cbv beta|lia].
  - eapply takes_weaken; [apply IH|lia].
  - repeat takes_step.
Qed.

(** *** Reading *)

Lemma has_zero b n : 0 ≤ n → has 0 (bit n) = b → b = false.
Proof. intros. subst. by rewrite has_bit, Z.bits_0. Qed.

(** A second header cannot follow a first. *)
Lemma takes_list_end : takes true true (list_end env 3) (3 * (60000 + D)).
Proof.
  intros w Hok Hb Hn Ht. cbn [list_end]. set (mask := Z.lor AT_ST_OK _). set (head := str "+CMGL: ").
  assert (∀ b u, takes b b (modem_at_response env u mask MODEM_TIMEOUT_L) (60000 + D)) as Hresp by (intros; repeat takes_step).
  destruct (Hresp true (Some head) w Hok Hb Hn) as (r1 & w1 & E1 & Hok1 & Hb1 & Ht1 & Hp1 & _); [lia|].
  cbv [mbind MM_bind]. rewrite E1. destruct (has r1 AT_ST_OK).
  { exists true, w1. do 3 (split; [done|]). split; [lia|done]. }
  cbv [act]. destruct (has r1 AT_ST_USER_STR).
  2: { exists false, (at_clr mask w1). split; [done|]. split; [auto with modem_ok|]. split; [done|]. split; [cbn; lia|done]. }
  set (w2 := at_clr mask w1). assert (found_flag w2 = false) as Hf2.
  { unfold w2, mask, found_flag, AT_ST_OK, AT_ST_ERROR, AT_ST_USER_STR, at_clr, upd_at, upd_m, w_at.
    cbn [mw_m m_at at_flags set_m_at set_at_flags]. rewrite has_clr_bit, !has_lor_bit by done.
    rewrite !(has_bit (bit _)), !testbit_bit by done. cbn. apply andb_false_r. }
  destruct (Hresp true (Some head) w2) as (r2 & w3 & E2 & Hok2 & Hb2 & Ht2 & Hp2 & _); [unfold w2; auto with modem_ok|done|cbn; lia|cbn; lia|].
  change (mw_now w2) with (mw_now w1) in Ht2. change (mw_log w2) with (mw_log w1) in Hp2.
  rewrite E2. destruct (has r2 AT_ST_OK).
  { exists true, w3. do 3 (split; [done|]). split; [lia|]. split; [by etransitivity|done]. }
  destruct (has r2 AT_ST_USER_STR) eqn:Er2.
  2: { exists false, (at_clr mask w3). split; [done|]. split; [auto with modem_ok|]. split; [done|].
       split; [cbn; lia|]. split; [by etransitivity|done]. }
  (* a header was found in the second pass: its line is kept *)
  pose proof E2 as E2'. eapply (heard_response env head) in E2'; [|done|].
  2: { split; [by right|]. intros H. change (found_flag w2 = true) in H. congruence. }
  destruct E2' as [(l & _ & _ & [_ Hw3 _ _ _]) Hr2]. destruct Hr2 as [->|Hr2]; [by apply (has_zero true 2) in Er2|].
  assert (waiting head (upd_at (set_user_str (Some head)) w2)) as Hw2.
  { split; [by right|]. intros H. change (found_flag w2 = true) in H. congruence. }
  destruct (Hw3 Hw2) as [_ Hlen]. rewrite Hr2 in Er2. specialize (Hlen Er2).
  set (w4 := at_clr mask w3). assert (spent w4) as Hs4.
  { split; [done|]. unfold w4, mask, found_flag, AT_ST_OK, AT_ST_ERROR, AT_ST_USER_STR, at_clr, upd_at, upd_m, w_at.
    cbn [mw_m m_at at_flags set_m_at set_at_flags]. rewrite has_clr_bit, !has_lor_bit by done.
    rewrite !(has_bit (bit _)), !testbit_bit by done. cbn. apply andb_false_r. }
  destruct (Hresp true (Some head) w4) as (r3 & w5 & E3 & Hok3 & Hb3 & Ht3 & Hp3 & _); [unfold w4; auto with modem_ok|done|cbn; lia|cbn; lia|].
  change (mw_now w4) with (mw_now w3) in Ht3. change (mw_log w4) with (mw_log w3) in Hp3.
  rewrite E3. destruct (has r3 AT_ST_OK).
  { exists true, w5. do 3 (split; [done|]). split; [lia|]. split; [do 2 (etransitivity; [eassumption|]); done|done]. }
  assert (has r3 AT_ST_USER_STR = false) as ->.
  { pose proof (response_spent env (Some head) mask _ ltac:(done) _ _ _ E3 Hs4) as [_ Hf5].
    pose proof E3 as E3'. eapply (heard_response env head) in E3'; [|done|].
    2: { split; [by right|]. intros H. change (found_flag w4 = true) in H. destruct Hs4. congruence. }
    destruct E3' as [_ [->| ->]]; [done|exact Hf5]. }
  exists false, (at_clr mask w5). split; [done|]. split; [auto with modem_ok|]. split; [done|].
  split; [cbn; lia|]. split; [do 2 (etransitivity; [eassumption|]); done|done].
Qed.
#[local] Hint Resolve takes_list_end : takes.

Lemma takes_read_first : takes true true (read_first env) (180400 + 5 * D).
Proof. unfold read_first. repeat takes_step. Qed.
#[local] Hint Resolve takes_read_first : takes.

Lemma join_parts_fits pdu msms : slots_fit msms → ∃ r msms', join_parts pdu msms = Ok (r, msms') ∧ slots_fit msms'.
Proof.
  intros Hs. unfold join_parts. destruct (_ =? 0); [by eexists _, _|].
  pose proof (incomming_fits (pi_content pdu) (pi_id pdu) (pi_nr pdu) (pi_count pdu) msms Hs) as Hi.
  destruct (ms_incomming _ _ _ _ _) as [[] msms']; cbn [snd] in Hi; [by eexists _, _..|].
  destruct (ms_get_fits (pi_id pdu) msms' Hi) as [[len text] ->]. cbn [mbind outcome_bind].
  eexists _, _. split; [done|]. by apply delete_fits.
Qed.

Lemma takes_sms_read msms : slots_fit msms → takes false false (modem_sms_read env msms) (190600 + 8 * D).
Proof.
  intros Hs. unfold modem_sms_read. apply takes_bind_see. intros me.
  eapply (takes_bind _ false _ _ _ (10100 + 2 * D)); [destruct me; repeat takes_step|intros _|lia].
  eapply takes_bind; [solve [eauto with takes]|intros _|try times].
  eapply takes_bind; [solve [eauto with takes]|intros pdu|try times].
  eapply takes_bind; [solve [eauto with takes]|intros _|try times].
  destruct pdu as [pdu|]; [|repeat takes_step].
  destruct (join_parts_fits pdu msms Hs) as ([[text len]|] & msms' & -> & _); repeat takes_step.
Qed.

Lemma sms_read_fits msms w r msms' w' : slots_fit msms →
  modem_sms_read env msms w = Some ((r, msms'), w') → slots_fit msms'.
Proof.
  intros Hs. unfold modem_sms_read. cbv [mbind MM_bind]. intros E.
  repeat match type of E with match ?m with _ => _ end = _ => destruct m as [[? ?]|]; [|done] end.
  destruct o as [pdu|]; [|by cbv [mret MM_ret] in E; simplify_eq].
  destruct (join_parts_fits pdu msms Hs) as ([[text len]|] & msms1 & E1 & Hs1); rewrite E1 in E;
    [destruct (0 <? len)|]; cbv [mret MM_ret] in E; by simplify_eq.
Qed.

(** *** Sending a text *)

Lemma pdu_count_bound type len : 0 ≤ len → 0 ≤ pdu_count type len ≤ len / 67 + 1.
Proof.
  intros Hl. unfold pdu_count. cbv zeta. assert (67 ≤ max_sms_len type len) as Hm by (unfold max_sms_len; destruct type; case_match; lia).
  destruct (count_parts_spec (Z.to_nat len) (max_sms_len type len) 0 len) as (H1 & _ & H3 & H4); [lia|lia|].
  set (c := count_parts _ _ _ _) in *. assert (0 ≤ len / 67) by (apply Z.div_pos; lia).
  destruct (Z.eqb_spec c 0); [lia|]. split; [lia|]. destruct (decide (len = 0)) as [->|]; [rewrite H4; lia|].
  assert (0 < len) as Hp by lia. specialize (H3 Hp). rewrite Z.sub_0_r in H3.
  assert (c - 1 ≤ len / 67) by (apply Z.div_le_lower_bound; nia). lia.
Qed.

Context `{SS : !SmsSpec L}.

(** The parts a reply can have. *)
Definition parts_max : Z := Z.max MAX_SMS_LEN 512 / 67 + 1.

Lemma takes_sms_send s : sms_ty s = SMS_TYPE_AUTO → Z.of_nat (length (sms_data s)) < MAX_SMS_LEN →
  takes false false (modem_sms_send_now env garbage s) (parts_max * (2736100 + 16 * D)).
Proof.
  intros Hty Hlen. unfold modem_sms_send_now, sms_coding. rewrite Hty.
  assert (∀ utf8 type len s buf, 0 ≤ len ≤ Z.max MAX_SMS_LEN 512 →
    takes false false (send_parts env (Z.to_nat (pdu_count type len)) utf8 type (max_sms_len type len) (pdu_count type len) 1 len
      (sms_data s) buf s) (parts_max * (2736100 + 16 * D))) as H.
  { intros utf8 type len s' buf Hl. pose proof (pdu_count_bound type len ltac:(lia)) as Hc.
    eapply takes_weaken; [apply takes_send_parts|]. rewrite Z2Nat.id by lia. apply Z.mul_le_mono_nonneg_r; [lia|].
    unfold parts_max. assert (len / 67 ≤ Z.max MAX_SMS_LEN 512 / 67) by (apply Z.div_le_mono; lia). lia. }
  assert (∀ n, 0 ≤ n → 0 ≤ u16 n ≤ n) as Hu by (intros n Hn; split; [apply u16_range|apply Z.mod_le; lia]).
  destruct (text_is_ascii (sms_data s)); apply H; change (sms_data (Sms _ _ _ _ _ _ _)) with (sms_data s).
  - specialize (Hu (Z.of_nat (length (sms_data s)))). lia.
  - pose proof (text_utf8_to_ucs2_limit (sms_data s) 512 ltac:(lia)). specialize (Hu (text_utf8_to_ucs2 (sms_data s) 512).2). lia.
Qed.

(** ** Commands by message *)

Context `{FS : !FlashSpec F} `{FR : !FlashReliable F} `{R : EventRepr}.

Lemma sms_command_returns e text (c : cst (F := F)) : cfg_clean (d_storage (c_dev c)) →
  ∃ ok c', cmd_sms_process e text c = Ok (ok, c') ∧ cfg_clean (d_storage (c_dev c')).
Proof.
  intros Hc. unfold cmd_sms_process, sms_process. cbv zeta.
  destruct (find_password_ok PASSWD_TABLE (d_storage (c_dev c)) (_skip_spaces text)
    (Access ACCESS_NONE 0 EVENT_SOURCE_UNKNOWN EVENT_SOURCE_UNKNOWN) Hc) as [[n a] E].
  unfold cmd_get_password_access. cbn [acc_time acc_channel]. rewrite E. cbn [mbind outcome_bind].
  destruct (_ <=? _); [by eexists _, _|].
  destruct (process_text_clean e (_skip_spaces (drop n (_skip_spaces text))) (put_acc a c) Hc) as (ok & c' & -> & Hc').
  cbn [mbind outcome_bind]. by eexists _, _.
Qed.

Definition sms_time_max : Z := 190800 + 10 * D + parts_max * (2736100 + 16 * D).

Lemma parts_max_pos : 0 ≤ parts_max.
Proof. unfold parts_max. assert (0 ≤ Z.max MAX_SMS_LEN 512 / 67) by (apply Z.div_pos; lia). lia. Qed.

Lemma takes_sms_parse e s mm (c : cst (F := F)) : cfg_clean (d_storage (c_dev c)) →
  takes false false (sms_parse env garbage e s mm c) (100 + D + parts_max * (2736100 + 16 * D)).
Proof.
  intros Hc. pose proof parts_max_pos. unfold sms_parse. destruct (_ =? 0); [apply takes_ret; lia|].
  apply takes_bind_see. intros now.
  destruct (sms_command_returns e (text_of (sms_data s)) (Cst (c_dev c) (c_acc c) now [] (c_acts c)) Hc) as ([] & c' & -> & _);
    [|apply takes_ret; lia].
  eapply takes_bind; [solve [eauto with takes]|intros _; cbv beta zeta|lia].
  destruct (_ || _); [apply takes_ret; lia|].
  eapply takes_bind with (T1 := parts_max * (2736100 + 16 * D)); [|intros r; apply takes_ret; lia|lia].
  unfold modem_main_sms_send. destruct (_ <=? _); [apply takes_ret; lia|]. apply takes_assoc.
  eapply takes_bind; [apply takes_sms_send; [done|apply render_limit]|intros q|lia]. repeat takes_step.
Qed.

Lemma takes_sms_process e mm (c : cst (F := F)) msms : cfg_clean (d_storage (c_dev c)) → slots_fit msms →
  takes false false (app_sms_process env garbage e mm c msms) sms_time_max.
Proof.
  intros Hc Hs. pose proof parts_max_pos. unfold app_sms_process, sms_time_max. apply takes_bind_see. intros inc.
  destruct (negb inc); [apply takes_ret; lia|].
  eapply takes_bind with (T1 := 190600 + 8 * D); [|intros [[s|] msms']; [|apply takes_ret; lia]|lia].
  - unfold modem_main_sms_read. apply takes_bind_see. intros n. apply takes_bind_see. intros ready.
    destruct (_ || _); [apply takes_ret; lia|by apply takes_sms_read].
  - destruct (sms_ty s); try (apply takes_ret; lia);
      (eapply takes_bind; [by apply takes_sms_parse|intros q; apply takes_ret; lia|lia]).
Qed.

End sms_run.
