(* ===== verification/ModemSmsSafe.v ===== *)
(** * Which messages are sent and obeyed (modem/modem_sms.c, app/sms_processing.c)

    A text counts as sent only when the network has acknowledged each of its parts
    in turn, and a message runs commands and is answered only when it carries a
    password, the answer going to its sender alone. *)

From S2P Require Import Prelude CText EventTypes EventBuf Storage EventMemory EventQueue Out.
From S2P Require Import Alarm ArmSection System Cfg SiaIp NetTarget Cms EventTask TracerBuf.
From S2P Require Import Inp Update Nmea Gps MultiSms Report Cmd TracerProto CmdThm CmdParse ModemAt ModemUrc ModemLink.
From S2P Require Import ModemCmd ModemUdp ModemMain ModemRun ModemHear ModemTx ModemSms ModemSmsRun.

(** ** Messages in what was transmitted *)

Definition is_ctrl_z (d : list Z) : bool := match d with [c] => c =? 26 | _ => false end.

(** What was transmitted before each Ctrl-Z, [prev] being transmitted before. *)
Fixpoint sent_after (prev : list Z) (l : list maction) : list (list Z) :=
  match l with
  | [] => []
  | MTx d :: l => (if is_ctrl_z d then [prev] else []) ++ sent_after d l
  | _ :: l => sent_after prev l
  end.
Fixpoint last_tx (prev : list Z) (l : list maction) : list Z :=
  match l with
  | [] => prev
  | MTx d :: l => last_tx d l
  | _ :: l => last_tx prev l
  end.

Lemma sent_after_app prev l1 l2 : sent_after prev (l1 ++ l2) = sent_after prev l1 ++ sent_after (last_tx prev l1) l2.
Proof. revert prev. induction l1 as [|[] l1 IH]; intros prev; cbn; rewrite ?IH; try done. by rewrite app_assoc. Qed.

Definition silent_z : list maction → Prop := Forall (λ a, tx_bad is_ctrl_z a = false).
Lemma sent_after_silent prev l : silent_z l → sent_after prev l = [].
Proof. intros H. revert prev. induction H as [|[] l Ha Hl IH]; intros prev; cbn in *; rewrite ?IH, ?Ha; done. Qed.

(** Every message sent between two moments satisfies [P]. *)
Definition sends_only (P : list Z → Prop) (w w' : mworld) : Prop :=
  ∃ l, mw_log w' = mw_log w ++ l ∧ (∀ prev, Forall P (sent_after prev l)) ∧
    rx_buf (w_at w') = left_over (rx_buf (w_at w)) (rx_chars l).
#[export] Instance sends_only_preorder P : PreOrder (sends_only P).
Proof.
  split; [intros w; exists []; by rewrite app_nil_r|].
  intros w1 w2 w3 (l1 & E1 & H1 & B1) (l2 & E2 & H2 & B2). exists (l1 ++ l2). rewrite E2, E1, app_assoc. split; [done|].
  split; [intros prev; by rewrite sent_after_app, Forall_app|]. rewrite B2, B1, rx_chars_app. symmetry. apply foldl_app.
Qed.
Lemma spares_sends_only P w w' : spares is_ctrl_z w w' → sends_only P w w'.
Proof. intros (l & E & Hl & B). exists l. split; [done|]. split; [|done]. intros prev. by rewrite sent_after_silent. Qed.
Lemma keeps_sends_only {A} P (m : MM A) : keeps (spares is_ctrl_z) m → keeps (sends_only P) m.
Proof. intros H w a w' E. by eapply spares_sends_only, H. Qed.

Section safe.
Context `{F : FlashLib} `{L : SmsLib} `{MS : !ModemSpec sl_modem} `{CS : !CmdSpec ml_cmd} `{SS : !SmsSpec L}.
Variable env : Z → list maction → list Z * Z.
Variable garbage : list Z.

Lemma encoded_no_ctrl p : is_ctrl_z (pdu_encode p).2 = false.
Proof.
  pose proof (pdu_encode_text p) as H. destruct (pdu_encode p) as [n [|c [|]]]; cbn in *; try done.
  apply Forall_cons in H as [H _]. apply Z.eqb_neq. lia.
Qed.

(** *** Operations that send none *)

Lemma spares_read_line_lite n u t : keeps (spares is_ctrl_z) (modem_at_read_line_lite env n u t).
Proof. unfold modem_at_read_line_lite. repeat plain_step. Qed.
#[local] Hint Resolve spares_read_line_lite : spares.
Lemma spares_list_end n : keeps (spares is_ctrl_z) (list_end env n).
Proof. induction n as [|n IH]; cbn [list_end]; cbv zeta; repeat plain_step. Qed.
#[local] Hint Resolve spares_list_end : spares.
Lemma spares_read_first : keeps (spares is_ctrl_z) (read_first env).
Proof. unfold read_first. cbv zeta. repeat plain_step. Qed.
#[local] Hint Resolve spares_read_first : spares.
Lemma spares_sms_read msms : keeps (spares is_ctrl_z) (modem_main_sms_read env msms).
Proof. unfold modem_main_sms_read, modem_sms_read. repeat plain_step. Qed.

(** *** Sending *)

Variable P : list Z → Prop.

Lemma sends_pdu_once raw n : P raw → is_ctrl_z raw = false → keeps (sends_only P) (send_pdu_once env raw n).
Proof.
  intros HP Hraw. unfold send_pdu_once.
  apply keeps_bind; [apply _|apply keeps_sends_only; plain_step|intros _].
  apply keeps_bind; [apply _|apply keeps_sends_only; plain_step|intros _].
  apply keeps_bind; [apply _|apply keeps_sends_only; plain_step|intros prompt].
  destruct (prompt =? 0); [apply keeps_ret, _|].
  set (k := _ ← modem_at_raw CTRL_Z; _).
  intros w a w' E. apply bind_Some in E as ([] & w1 & E1 & E). unfold k in E.
  apply bind_Some in E as ([] & w2 & E2 & E). transitivity w2.
  - injection E1 as <-. injection E2 as <-. exists [MTx raw; MTx CTRL_Z]. split; [cbn; by rewrite <-app_assoc|].
    split; [|done]. intros prev. cbn. rewrite Hraw. by constructor.
  - revert E. match goal with |- ?m w2 = _ → _ => assert (keeps (sends_only P) m) as K; [|apply K] end.
    apply keeps_sends_only. repeat plain_step.
Qed.

Lemma sends_pdu_tries k raw n : P raw → is_ctrl_z raw = false → keeps (sends_only P) (send_pdu_tries env k raw n).
Proof.
  intros HP Hraw. induction k as [|k IH]; cbn [send_pdu_tries]; [apply keeps_ret, _|].
  apply keeps_bind; [apply _|by apply sends_pdu_once|intros [id|]; [apply keeps_ret, _|]].
  do 4 (apply keeps_bind; [apply _|apply keeps_sends_only; repeat plain_step|intros ?]). exact IH.
Qed.

Lemma sends_pdu raw n : P raw → is_ctrl_z raw = false → keeps (sends_only P) (send_pdu_now env raw n).
Proof.
  intros HP Hraw. unfold send_pdu_now. destruct (n <? 0); [apply keeps_ret, _|].
  apply keeps_bind; [apply _|apply keeps_sends_only; plain_step|intros _].
  apply keeps_bind; [apply _|by apply sends_pdu_tries|intros r].
  apply keeps_sends_only. repeat plain_step.
Qed.

Lemma sends_parts n utf8 type m count i len data buf s :
  (∀ p, po_tel_num p = sms_tel_num s → P (pdu_encode p).2) →
  keeps (sends_only P) (send_parts env n utf8 type m count i len data buf s).
Proof.
  intros HP. assert (∀ tel i len data buf s, sms_tel_num s = tel → (∀ p, po_tel_num p = tel → P (pdu_encode p).2) →
    keeps (sends_only P) (send_parts env n utf8 type m count i len data buf s)) as H; [|by eapply H].
  clear HP s i len data buf. intros tel. induction n as [|n IH]; intros i len data buf s Hs HP; cbn [send_parts].
  { apply keeps_sends_only. repeat plain_step. }
  destruct (next_part _ _ _ _ _ _) as [[[size buf'] data'] len'].
  pose proof (encoded_no_ctrl (PduOut type count i size buf' (sms_tel_num s) (sms_sr s))) as Hz.
  pose proof (HP (PduOut type count i size buf' (sms_tel_num s) (sms_sr s)) Hs) as Hp.
  destruct (pdu_encode _) as [pdu_len raw]. cbn [snd] in *.
  apply keeps_bind; [apply _|by apply sends_pdu|intros [id|]; [by apply IH|]].
  apply keeps_sends_only. repeat plain_step.
Qed.

Lemma sends_now s : (∀ p, po_tel_num p = sms_tel_num s → P (pdu_encode p).2) →
  keeps (sends_only P) (modem_sms_send_now env garbage s).
Proof.
  intros HP. unfold modem_sms_send_now. destruct (sms_coding s) as [ty [[[utf8 type] len]|]].
  - by apply sends_parts.
  - apply keeps_sends_only. repeat plain_step.
Qed.

End safe.

(** ** What was heard *)

Section heard.
Context `{F : FlashLib} `{L : SmsLib} `{MS : !ModemSpec sl_modem} `{CS : !CmdSpec ml_cmd} `{SS : !SmsSpec L}.
Variable env : Z → list maction → list Z * Z.
Variable garbage : list Z.

Lemma clr_line_same w : same_answer w (at_clr AT_ST_LINE w).
Proof.
  unfold same_answer, ok_flag, found_flag, AT_ST_OK, AT_ST_USER_STR, AT_ST_LINE, at_clr, upd_at, upd_m, w_at.
  cbn [mw_m m_at at_flags set_m_at set_at_flags user_str response_len rx_buf response].
  rewrite !has_clr_bit, !(has_bit (bit 6)), !testbit_bit by done. cbn. by rewrite !andb_true_r.
Qed.

#[local] Existing Instance heard_preorder.

(** A line handed over was received since, and is the one waited for. *)
Lemma read_line_heard u t w r text w' : modem_at_read_line env u t w = Some ((r, text), w') → r ≠ 0 →
  ∃ l, mw_log w' = mw_log w ++ l ∧
    let ls := lines (rx_buf (w_at w)) (rx_chars l) in
    (text = [] ∨ text ∈ ls) ∧ match u with Some s => text ∈ ls ∧ starts s text | None => True end.
Proof.
  unfold modem_at_read_line. cbv [mbind MM_bind mret MM_ret act see]. set (s := default [] u).
  destruct (clr_response_flags w) as (F1 & F2 & F3 & F4). set (w0 := upd_at _clr_response w) in *.
  set (w1 := upd_at (set_user_str u) w0). unfold while_before.
  match goal with |- context [mloop ?n ?c ?b w1] => set (body := b) end.
  destruct (mloop _ _ body w1) as [[x w2]|] eqn:E; [|done]. intros Hx Hr.
  destruct x as [[[r' text']|]|]; try (by injection Hx as <- _ _). injection Hx as <- <- <-.
  assert (heard s w1 w2) as (l & El & _ & [_ _ Hfound Hopen Hresp]).
  { eapply (keeps_mloop (heard s)); [|exact E]. intros w3 a w4 E3. unfold body in E3. cbv beta zeta in E3.
    set (other := bool_decide _ && negb _) in E3.
    assert (∀ w4', same_answer w3 w4' → mw_log w4' = mw_log w3 →
      (if has (at_flags (w_at w3)) AT_ST_ERROR then Some (Some None, w4')
       else match yield env w4' with Some (_, w') => Some (None, w') | None => None end) = Some (a, w4) → heard s w3 w4) as Hturn.
    { intros w4' Hsame Hlog E4. transitivity w4'.
      - exists []. rewrite app_nil_r. split; [done|]. split; [apply Hsame|by apply says_same].
      - destruct (has (at_flags (w_at w3)) AT_ST_ERROR); [by simplify_eq|].
        destruct (yield env w4') as [[d w5]|] eqn:Ey; [|done]. injection E4 as _ <-. by eapply heard_yield. }
    destruct (has (at_flags (w_at w3)) AT_ST_LINE); cbn [andb] in E3.
    - destruct (negb other); cbv beta in E3; [by simplify_eq|]. apply (Hturn (at_clr AT_ST_LINE w3)); [apply clr_line_same|done|].
      by destruct (has (at_flags (w_at w3)) AT_ST_ERROR).
    - apply (Hturn w3); [by repeat split|done|]. by destruct (has (at_flags (w_at w3)) AT_ST_ERROR). }
  assert ((user_str (w_at w2) = None ∨ found_flag w2 = true) ∧ text' = response (w_at w2)) as [Hend Htext].
  { revert E. apply (mloop_result (λ x w', match x with Some (_, text) => (user_str (w_at w') = None ∨ found_flag w' = true) ∧ text = response (w_at w') | None => True end)).
    intros w3 a w4. unfold body. cbv beta zeta.
    destruct (has (at_flags (w_at w3)) AT_ST_LINE); cbn [andb].
    - destruct (bool_decide_reflect (is_Some (user_str (w_at w3)))) as [Hu|Hu]; cbn [andb negb].
      + destruct (has (at_flags (w_at w3)) AT_ST_USER_STR) eqn:Hf; cbn [negb].
        * intros [= <- <-]. split; [by right|done].
        * destruct (has _ AT_ST_ERROR); [by intros [= <- _]|]. destruct (yield env _) as [[d w5]|]; [by intros [=]|done].
      + intros [= <- <-]. split; [|done]. left. by apply eq_None_not_Some.
    - destruct (has _ AT_ST_ERROR); [by intros [= <- _]|]. destruct (yield env _) as [[d w5]|]; [by intros [=]|done]. }
  exists l. split; [done|]. change (rx_buf (w_at w1)) with (rx_buf (w_at w)) in *. cbv zeta.
  change (response (w_at w1)) with (@nil Z) in *. split; [destruct Hresp; [left|right]; congruence|].
  destruct u as [s'|]; [|done]. cbn [default] in s. subst s.
  assert (found_flag w2 = true) as Hf2 by (destruct Hend; [apply Hopen; [done|done]|done]).
  destruct Hfound as [[H _]|H]; [|done| |].
  - split; [by right|]. intros H. change (found_flag w0 = true) in H. congruence.
  - change (found_flag w0 = true) in H. congruence.
  - apply Exists_exists in H as (y & Hy & Hs & Ey). rewrite Htext, Ey. done.
Qed.

(** *** A text is sent *)

(** In [l], the receiver's buffer holding [b] before: the message [raw], perhaps
    after attempts that failed, then the network's acknowledgement. *)
Definition acknowledged (raw b : list Z) (l : list maction) : Prop := ∃ l1 l2,
  l = l1 ++ [MTx raw; MTx CTRL_Z] ++ l2 ∧ (∀ prev, Forall (eq raw) (sent_after prev l1)) ∧ silent_z l2 ∧
  ∃ line, line ∈ lines (left_over b (rx_chars l1)) (rx_chars l2) ∧ starts (str "+CMGS: ") line.

(** One message after the other. *)
Fixpoint acknowledged_all (raws : list (list Z)) (b : list Z) (l : list maction) : Prop :=
  match raws with
  | [] => silent_z l
  | raw :: raws => ∃ l1 l2, l = l1 ++ l2 ∧ acknowledged raw b l1 ∧ acknowledged_all raws (left_over b (rx_chars l1)) l2
  end.

Lemma acknowledged_after raw b l0 l : (∀ prev, Forall (eq raw) (sent_after prev l0)) →
  acknowledged raw (left_over b (rx_chars l0)) l → acknowledged raw b (l0 ++ l).
Proof.
  intros H0 (l1 & l2 & -> & H1 & H2 & line & Hin & Hs). exists (l0 ++ l1), l2. rewrite <-app_assoc. split; [done|].
  split; [intros prev; by rewrite sent_after_app, Forall_app|]. split; [done|]. exists line.
  rewrite rx_chars_app. split; [|done]. revert Hin. unfold left_over. by rewrite foldl_app.
Qed.

Lemma acknowledged_then raw b l l3 : acknowledged raw b l → silent_z l3 → acknowledged raw b (l ++ l3).
Proof.
  intros (l1 & l2 & -> & H1 & H2 & line & Hin & Hs) H3. exists l1, (l2 ++ l3). rewrite <-!app_assoc. split; [done|].
  split; [done|]. split; [by apply Forall_app|]. exists line. split; [|done].
  rewrite rx_chars_app, lines_app. apply elem_of_app. by left.
Qed.

(** A computation acknowledges [raw] when it returns an identification. *)
Definition acks (raw : list Z) (m : MM (option Z)) : Prop := ∀ w id w', m w = Some (Some id, w') →
  ∃ l, mw_log w' = mw_log w ++ l ∧ acknowledged raw (rx_buf (w_at w)) l.

Lemma acks_after {A} raw (m : MM A) (f : A → MM (option Z)) : keeps (sends_only (eq raw)) m → (∀ a, acks raw (f a)) → acks raw (m ≫= f).
Proof.
  intros Hm Hf w id w' E. apply bind_Some in E as (a & w1 & E1 & E). apply Hm in E1 as (l0 & E0 & H0 & B0).
  apply Hf in E as (l & El & Ha). exists (l0 ++ l). rewrite El, E0, app_assoc. split; [done|].
  apply acknowledged_after; [done|]. by rewrite <-B0.
Qed.
Lemma acks_none raw : acks raw (mret None).
Proof. by intros w id w' [=]. Qed.

Lemma acks_once raw n : is_ctrl_z raw = false → acks raw (send_pdu_once env raw n).
Proof.
  intros Hraw. unfold send_pdu_once.
  do 3 (apply acks_after; [apply keeps_sends_only; plain_step|intros ?]). case_match; [apply acks_none|].
  intros w id w' E. apply bind_Some in E as ([] & w1 & E1 & E). injection E1 as <-.
  apply bind_Some in E as ([] & w2 & E2 & E). injection E2 as <-.
  set (w2 := mlog (MTx CTRL_Z) _) in E. apply bind_Some in E as ([r text] & w3 & E3 & E). cbn [fst snd] in E.
  destruct (Z.eqb_spec r 0) as [|Hr]; [by injection E|]. apply bind_Some in E as ([] & w4 & E4 & E). injection E as _ <-.
  unfold modem_at_read_line_lite in E3. apply bind_Some in E3 as ([r' text'] & w5 & E3 & E5). injection E5 as <- _ <-.
  pose proof E3 as Hs. apply (spares_read_line env is_ctrl_z) in Hs as (l & El & Hl & _).
  apply read_line_heard in E3 as (l' & El' & _ & Hin & Hst); [|done].
  assert (l' = l) as -> by (rewrite El in El'; by apply app_inv_head in El').
  apply (spares_delay env is_ctrl_z) in E4 as (l4 & El4 & Hl4 & _).
  exists ([] ++ [MTx raw; MTx CTRL_Z] ++ l ++ l4). split.
  { rewrite El4, El. cbn. by rewrite <-!app_assoc. }
  exists [], (l ++ l4). split; [done|]. split; [done|]. split; [by apply Forall_app|].
  exists text'. split; [|done]. rewrite rx_chars_app, lines_app. apply elem_of_app. by left.
Qed.

Lemma acks_tries k raw n : is_ctrl_z raw = false → acks raw (send_pdu_tries env k raw n).
Proof.
  intros Hraw. induction k as [|k IH]; cbn [send_pdu_tries]; [apply acks_none|].
  intros w id w' E. apply bind_Some in E as ([id'|] & w1 & E1 & E).
  - injection E as <- <-. by eapply acks_once.
  - revert E1 E. intros E1%(sends_pdu_once env (eq raw) raw n eq_refl Hraw) E. destruct E1 as (l0 & E0 & H0 & B0).
    assert (acks raw (_ ← modem_at_raw ESC; e ← see (λ w, last_error_result (w_at w));
      _ ← (if e =? 515 then OS_DELAY env 5000 else mret ()); _ ← OS_DELAY env 1000; send_pdu_tries env k raw n)) as H.
    { do 4 (apply acks_after; [apply keeps_sends_only; repeat plain_step|intros ?]). exact IH. }
    apply H in E as (l & El & Ha). exists (l0 ++ l). rewrite El, E0, app_assoc. split; [done|].
    apply acknowledged_after; [done|]. by rewrite <-B0.
Qed.

Lemma acks_pdu raw n : is_ctrl_z raw = false → acks raw (send_pdu_now env raw n).
Proof.
  intros Hraw. unfold send_pdu_now. destruct (n <? 0); [apply acks_none|].
  apply acks_after; [apply keeps_sends_only; plain_step|intros _]. intros w id w' E.
  apply bind_Some in E as (r & w1 & E1 & E). apply bind_Some in E as ([] & w2 & E2 & E). injection E2 as <-. injection E as -> <-.
  by apply acks_tries in E1.
Qed.

(** The message for a part. *)
Definition part_pdu (type : pdu_coding) (count : Z) (tel : list Z) (sr : bool) (p : Z * list Z) : list Z :=
  (pdu_encode (PduOut type count p.1 (Z.of_nat (length p.2)) p.2 tel sr)).2.

Lemma parts_acknowledged n type m count i len data buf s w s' w' :
  send_parts env n false type m count i len data buf s w = Some ((true, s'), w') →
  ∃ l, mw_log w' = mw_log w ++ l ∧
    acknowledged_all (part_pdu type count (sms_tel_num s) (sms_sr s) <$> sms_parts n type m i len data) (rx_buf (w_at w)) l.
Proof.
  revert i len data buf s w. induction n as [|n IH]; intros i len data buf s w; cbn [send_parts sms_parts].
  { intros E. injection E as _ <-. exists []. split; [by rewrite app_nil_r|by constructor]. }
  unfold next_part. cbv zeta. set (content := _memncpy data _ _).
  set (nul := if char_size type =? 1 then [0] else []).
  assert (overlay (content ++ nul) buf = content ++ nul ++ drop (length (content ++ nul)) buf) as -> by (unfold overlay; by rewrite <-app_assoc).
  rewrite pdu_encode_size. pose proof (encoded_no_ctrl (PduOut type count i (Z.of_nat (length content)) content (sms_tel_num s) (sms_sr s))) as Hz.
  destruct (pdu_encode (PduOut _ _ _ _ content _ _)) as [pdu_len raw] eqn:Epdu. cbn [snd] in Hz. intros E.
  apply bind_Some in E as ([id|] & w1 & E1 & E).
  2: { apply bind_Some in E as (? & ? & _ & E). apply bind_Some in E as (? & ? & _ & E). by injection E. }
  pose proof E1 as Hsent. apply (sends_pdu env (eq raw)) in Hsent as (l1 & El1 & _ & B1); [|done..].
  apply acks_pdu in E1 as (l1' & El1' & Ha); [|done]. assert (l1' = l1) as -> by (rewrite El1 in El1'; by apply app_inv_head in El1').
  apply IH in E as (l2 & El2 & Hall). cbn [sms_tel_num sms_sr] in Hall. exists (l1 ++ l2). split; [by rewrite El2, El1, app_assoc|].
  cbn [fmap list_fmap acknowledged_all]. exists l1, l2. split; [done|]. rewrite B1 in Hall. split; [|done].
  unfold part_pdu. cbn [fst snd]. by rewrite Epdu.
Qed.


(** *** Where a text comes from *)

(** A message is never made up: what modem_sms_read hands over is
    decoded from a line the module sent in this run (or from the empty text, when
    the line that ended the wait had come too early to be kept), alone or as the
    last part of a long message whose other parts were waiting. *)
Theorem sms_read_heard msms w s msms' w' :
  modem_sms_read env msms w = Some ((Some s, msms'), w') →
  ∃ l raw, mw_log w' = mw_log w ++ l ∧ (raw = [] ∨ raw ∈ lines (rx_buf (w_at w)) (rx_chars l)) ∧
    let pdu := pdu_decode (buf_text PDU_MAX_LENGTH raw) in
    0 ≤ pi_len pdu ∧ sms_tel_num s = pi_tel_num pdu ∧
    ∃ len, 0 < len ∧ sms_len s = u16 len ∧ join_parts pdu msms = Ok (Some (sms_data s, len), msms').
Proof.
  intros E. apply bind_Some in E as (me & w1 & E1 & E). injection E1 as <- <-.
  apply bind_Some in E as ([] & w1 & E1 & E). apply bind_Some in E as ([] & w2 & E2 & E).
  assert (spares is_ctrl_z w w1) as S1.
  { revert E1. match goal with |- ?m w = _ → _ => assert (keeps (spares is_ctrl_z) m) as K; [repeat plain_step|apply K] end. }
  assert (spares is_ctrl_z w1 w2) as S2 by (revert E2; apply spares_lock).
  apply bind_Some in E as (pdu & w3 & E3 & E). apply bind_Some in E as ([] & w4 & E4 & E). injection E4 as <-.
  destruct pdu as [pdu|]; [|by injection E]. destruct (join_parts pdu msms) as [[[[text len]|] ms1]|] eqn:Ej; [|by injection E|done].
  destruct (Z.ltb_spec 0 len); [|by injection E]. injection E as <- <- <-.
  cbn [sms_data sms_tel_num sms_len]. change (mw_log (upd_at (set_at_busy false) w3)) with (mw_log w3).
  (* the line with the message *)
  unfold read_first in E3. apply bind_Some in E3 as ([] & w5 & E5 & E). apply bind_Some in E as ([h head] & w6 & E6 & E).
  cbn [fst snd] in E. destruct (h =? 0); [apply bind_Some in E as (? & ? & _ & E); by injection E|]. cbv zeta in E.
  apply bind_Some in E as ([r raw] & w7 & E7 & E). cbn [fst snd] in E.
  destruct (Z.eqb_spec r 0) as [|Hr]; [apply bind_Some in E as (? & ? & _ & E); by injection E|].
  unfold modem_at_read_line_lite in E7. apply bind_Some in E7 as ([r' line] & w8 & E7 & E8). injection E8 as <- Eraw <-.
  cbn [fst snd] in *. rewrite (proj2 (Z.eqb_neq _ _) Hr) in Eraw.
  apply bind_Some in E as (complete & w9 & E9 & E). apply bind_Some in E as ([] & w10 & E10 & E).
  apply bind_Some in E as ([] & w11 & E11 & E). injection E as Epdu <-.
  destruct (complete && (0 <=? pi_len (pdu_decode raw))) eqn:Hok; [|done]. injection Epdu as <-.
  apply andb_true_iff in Hok as [_ Hlen%Z.leb_le].
  assert (spares is_ctrl_z w w6) as (la & Ela & _ & Ba).
  { do 2 (etransitivity; [eassumption|]). transitivity w5; [revert E5; apply spares_cmd; done|revert E6; apply spares_read_line_lite]. }
  assert (spares is_ctrl_z w8 w11) as (lc & Elc & _ & _).
  { transitivity w9; [revert E9; apply spares_list_end|]. transitivity w10; [|revert E11; by apply spares_cmd].
    revert E10. match goal with |- ?m w9 = _ → _ => assert (keeps (spares is_ctrl_z) m) as K; [repeat plain_step|apply K] end. }
  apply read_line_heard in E7 as (lb & Elb & Hline & _); [|done].
  exists (la ++ lb ++ lc), line. split; [by rewrite Elc, Elb, Ela, <-!app_assoc|]. split.
  { destruct Hline as [->|Hline]; [by left|right]. rewrite !rx_chars_app, !lines_app, !elem_of_app. right. left. by rewrite <-Ba. }
  rewrite Eraw. split; [done|]. split; [done|]. by exists len.
Qed.

End heard.

(** ** Commands by message *)

Section obey.
Context `{F : FlashLib} `{L : SmsLib} `{MS : !ModemSpec sl_modem} `{CS : !CmdSpec ml_cmd} `{SS : !SmsSpec L}.
Variable env : Z → list maction → list Z * Z.
Variable garbage : list Z.
Variable D : Z.
Hypothesis stall : ∀ t l, (env t l).2 ≤ D.
Hypothesis stall_pos : 1 ≤ D.
Context `{FS : !FlashSpec F} `{FR : !FlashReliable F} `{R : EventRepr}.

(** The number of a message to [tel]. *)
Definition addressed (tel raw : list Z) : Prop := ∃ p, po_tel_num p = tel ∧ raw = (pdu_encode p).2.

(** What a message with this text may do: nothing, or what the commands behind
    the first password it begins with do. *)
Inductive obeys (e : cmd_env) (c c' : cst (F := F)) (s : sms_struct) : Prop :=
  | obeys_ignored :
      list_find (λ x, accepted (d_storage (c_dev c)) (_skip_spaces (text_of (sms_data s))) x = true) PASSWD_TABLE = None →
      c_dev c' = c_dev c → c_acts c' = c_acts c → obeys e c c' s
  | obeys_password i id level source now ok c1 :
      let p := _skip_spaces (text_of (sms_data s)) in
      list_find (λ x, accepted (d_storage (c_dev c)) p x = true) PASSWD_TABLE = Some (i, (id, level, source)) →
      cmd_process_text e (_skip_spaces (drop (length (password_of (d_storage (c_dev c)) id)) p))
        (Cst (c_dev c) (Access (access_level_code level) 0 source EVENT_SOURCE_UNKNOWN) now [] (c_acts c)) = Ok (ok, c1) →
      c_dev c' = c_dev c1 → c_acts c' = c_acts c1 → obeys e c c' s.

Lemma sms_parse_obeys e s mm (c : cst (F := F)) w mm' c' w' :
  passwords_readable (d_storage (c_dev c)) → sms_len s ≠ 0 →
  sms_parse env garbage e s mm c w = Some ((mm', c'), w') →
  obeys e c c' s ∧ sends_only (addressed (sms_tel_num s)) w w' ∧
  (list_find (λ x, accepted (d_storage (c_dev c)) (_skip_spaces (text_of (sms_data s))) x = true) PASSWD_TABLE = None → w' = w).
Proof.
  intros Hpw Hlen. unfold sms_parse. rewrite (proj2 (Z.eqb_neq _ _) Hlen). intros E. apply bind_Some in E as (now & w1 & E1 & E).
  injection E1 as <- <-. set (c0 := Cst (c_dev c) (c_acc c) (mw_now w) [] (c_acts c)) in *.
  pose proof (sms_password_rule e (text_of (sms_data s)) c0 Hpw) as Hrule. cbv zeta in Hrule.
  change (d_storage (c_dev c0)) with (d_storage (c_dev c)) in Hrule. rewrite Hrule in E.
  destruct (list_find _ PASSWD_TABLE) as [[i [[id level] source]]|] eqn:Ef.
  2: { injection E as _ <- <-. split; [by apply obeys_ignored|]. split; [reflexivity|done]. }
  destruct (cmd_process_text e _ _) as [[ok c1]|] eqn:Ec; [|done]. cbn [mbind outcome_bind] in E.
  apply bind_Some in E as ([] & w2 & E2 & E). cbv zeta in E. split; [|split; [|done]].
  - eapply obeys_password; [exact Ef|exact Ec| |]; destruct (_ || _);
      first [by injection E as _ <- _|apply bind_Some in E as (r & w3 & _ & E); by injection E as _ <- _].
  - transitivity w2; [revert E2; apply keeps_sends_only; plain_step|].
    destruct (_ || _); [injection E as _ _ <-; reflexivity|]. apply bind_Some in E as (r & w3 & E & E3). injection E3 as _ _ <-.
    revert E. unfold modem_main_sms_send. destruct (_ <=? _); [intros [= _ <-]; reflexivity|]. intros E.
    apply bind_Some in E as (ok' & w4 & E & E3). injection E3 as _ <-. apply bind_Some in E as (q & w5 & E & E3).
    injection E3 as _ <-. revert E. apply sends_now. intros p Hp. by exists p.
Qed.

Lemma main_sms_read_fits msms w r msms' w' : slots_fit msms →
  modem_main_sms_read env msms w = Some ((r, msms'), w') → slots_fit msms'.
Proof.
  intros Hs E. unfold modem_main_sms_read in E. apply bind_Some in E as (n & w1 & E1 & E). apply bind_Some in E as (b & w2 & E2 & E).
  destruct (_ || _); [by injection E as _ <- _|by eapply sms_read_fits].
Qed.

(** The message a run reads, if it reads one. *)
Definition read_now (msms : list msms_t) (w : mworld) : option sms_struct :=
  if modem_main_sms_incomming w then
    match modem_main_sms_read env msms w with Some ((s, _), _) => s | None => None end
  else None.

(** C10 (safety). Commands by text message: whatever the module does, sms_process
    comes back in time; the device changes only by the commands of a received
    message that begins with a password, run with that password's access, and
    only such a message is answered, to its sender and nobody else. *)
Theorem sms_commands_need_password e mm (c : cst (F := F)) msms w :
  cfg_clean (d_storage (c_dev c)) → passwords_readable (d_storage (c_dev c)) → slots_fit msms →
  modem_ok w → at_busy (w_at w) = false → 0 ≤ mw_now w → mw_now w + sms_time_max D < 4294967296 →
  ∃ done mm' c' msms' w' l, app_sms_process env garbage e mm c msms w = Some ((done, mm', c', msms'), w') ∧
    modem_ok w' ∧ at_busy (w_at w') = false ∧ mw_now w ≤ mw_now w' ≤ mw_now w + sms_time_max D ∧ slots_fit msms' ∧
    mw_log w' = mw_log w ++ l ∧
    match read_now msms w with
    | None => c' = c ∧ sent_after [] l = []
    | Some s =>
        if decide (sms_ty s = SMS_TYPE_SR ∨ sms_len s = 0) then c' = c ∧ sent_after [] l = []
        else obeys e c c' s ∧ Forall (addressed (sms_tel_num s)) (sent_after [] l) ∧
          (list_find (λ x, accepted (d_storage (c_dev c)) (_skip_spaces (text_of (sms_data s))) x = true) PASSWD_TABLE = None →
           sent_after [] l = [])
    end.
Proof.
  intros Hc Hpw Hs Hok Hb Hn Ht.
  destruct (takes_sms_process env D stall stall_pos garbage e mm c msms Hc Hs w Hok Hb Hn Ht)
    as ([[[fin mm'] c'] msms'] & w' & E & Hok' & Hb' & Ht' & [l El] & _).
  exists fin, mm', c', msms', w', l. split; [done|]. do 3 (split; [done|]).
  unfold read_now. revert E. unfold app_sms_process. intros E. apply bind_Some in E as (inc & w0 & E0 & E). injection E0 as <- <-.
  assert (∀ w1, spares is_ctrl_z w w1 → mw_log w1 = mw_log w ++ l → sent_after [] l = []) as Hsilent.
  { intros w1 (l1 & E1 & Hl1 & _) E2. rewrite E2 in E1. apply app_inv_head in E1 as ->. by apply sent_after_silent. }
  destruct (modem_main_sms_incomming w); cbn [negb] in E.
  2: { injection E as _ _ <- <- <-. split; [done|]. split; [done|]. split; [done|]. apply (Hsilent w); [reflexivity|done]. }
  apply bind_Some in E as ([r ms1] & w1 & E1 & E). rewrite E1. pose proof E1 as Hread. apply spares_sms_read in Hread.
  assert (slots_fit ms1) as Hs1 by (by eapply main_sms_read_fits).
  destruct r as [s|].
  2: { injection E as _ _ <- <- <-. split; [done|]. split; [done|]. split; [done|]. by apply (Hsilent w1). }
  assert (sms_ty s = SMS_TYPE_SR ∧ c' = c ∧ msms' = ms1 ∧ w' = w1 ∨
    sms_ty s ≠ SMS_TYPE_SR ∧ msms' = ms1 ∧ sms_parse env garbage e s mm c w1 = Some ((mm', c'), w')) as H.
  { destruct (sms_ty s); try (left; injection E as _ _ <- <- <-; done); right; (split; [done|]);
      apply bind_Some in E as ([mm2 c2] & w2 & E2 & E); injection E as _ <- <- <- <-; done. }
  destruct H as [(Hty & -> & -> & ->)|(Hty & -> & E2)].
  { split; [done|]. split; [done|]. rewrite decide_True by auto. split; [done|]. by apply (Hsilent w1). }
  split; [done|]. split; [done|]. destruct (decide (sms_len s = 0)) as [H0|H0].
  { rewrite decide_True by auto. unfold sms_parse in E2. rewrite H0 in E2. injection E2 as _ <- <-. split; [done|]. by apply (Hsilent w1). }
  rewrite decide_False by tauto. apply sms_parse_obeys in E2 as (Hob & (l2 & E2 & Hl2 & _) & Hnone); [|done..].
  destruct Hread as (l1 & El1 & Hl1 & _).
  assert (l = l1 ++ l2) as -> by (rewrite E2, El1, <-app_assoc in El; by apply app_inv_head in El).
  rewrite sent_after_app, (sent_after_silent [] l1) by done. split; [done|]. split; [apply Hl2|]. intros Hf.
  specialize (Hnone Hf). subst w'. rewrite <-(app_nil_r (mw_log w1)) in E2 at 1. apply app_inv_head in E2. by rewrite <-E2.
Qed.

End obey.
