(* ===== verification/ModemDemo.v ===== *)
(** * A module to talk to

    An instance of the SDK's text functions with their laws, a module that answers
    the driver, and the theorems of the modem at concrete inputs. *)

From S2P Require Import Prelude CText EventTypes EventBuf Storage EventMemory EventQueue Out.
From S2P Require Import Alarm ArmSection System Cfg SiaIp NetTarget Cms EventTask TracerBuf.
From S2P Require Import Inp Update Nmea Gps Report Cmd TracerProto CmdDemo ModemAt ModemUrc ModemLink ModemData.
From S2P Require Import ModemCmd ModemUdp ModemMain ModemRun ModemHear ModemTx ModemLive ModemPin.

#[export] Instance demo_modem : ModemLib := {|
  ml_cmd := demo_cmd;
  ml_pattern := prefix_pattern;
  stricmp s t := if ieq s t then 0 else 1;
  parse_modem_separator p := match p with c :: p => if c =? 44 then Some p else None | [] => None end
|}.

#[export] Instance demo_modem_spec : ModemSpec demo_modem.
Proof.
  split; cbn [stricmp parse_modem_separator demo_modem parse_pattern ml_pattern prefix_pattern].
  - intros s pat r E. by apply expect_spec.
  - intros s t. rewrite <-ieq_spec. by destruct (ieq s t).
  - done.
Qed.

(** A SIM card that asks for its PIN, and a network that is there: answers to the
    last command, five milliseconds a turn, a second when nothing was asked. *)
Definition demo_answer (log : list maction) (c : list Z) : list Z :=
  let entered := existsb (λ a, tx_bad pin_text a) log in
  if bool_decide (c = str "AT+CPIN?") then
    crlf ++ (if entered then str "+CPIN: READY" else str "+CPIN: SIM PIN") ++ crlf
  else if bool_decide (c = str "AT+QPINC?") then crlf ++ qstr "+QPINC: 'SC',3,10" ++ crlf
  else [].

Definition demo_env (t : Z) (log : list maction) : list Z * Z :=
  match rev log with
  | MTx [13; 10] :: MTx c :: log' => (demo_answer log' c ++ ok_text, 5)
  | _ => ([], 1000)
  end.

Lemma demo_stall t l : (demo_env t l).2 ≤ 1000.
Proof. unfold demo_env. repeat case_match; cbn; lia. Qed.

(** Answers every command as the liveness theorem asks. *)
Definition home_report : report := Report CS (Some 1) 1.
Definition sim_answer (c : list Z) : list Z :=
  if bool_decide (c = str "AT+CPIN?") then cpin_answer
  else if bool_decide (c = str "AT+CREG?") then creg_answer home_report else [].
Definition sim_env (t : Z) (log : list maction) : list Z * Z :=
  match rev log with
  | MTx [13; 10] :: MTx c :: _ => (sim_answer c ++ ok_text, 5)
  | _ => (crlf ++ str "RING" ++ crlf, 1000)
  end.

Lemma sim_stall t l : (sim_env t l).2 ≤ 1000.
Proof. unfold sim_env. repeat case_match; cbn; lia. Qed.
Lemma sim_answers t l c : (sim_env t (l ++ [MTx c; MTx crlf])).1 = sim_answer c ++ ok_text.
Proof. unfold sim_env. by rewrite rev_app_distr. Qed.


Lemma modem_registration_refines_witness :
  let rs := [Report CS (Some 1) 5; Report PS None 1; Report EPS None 1; Report CS None 2; Report EPS (Some 1) 4] in
  link_of (modem_rx_task (concat (report_text <$> rs)) (boot_world 0)) = foldl link_step (link_of (boot_world 0)) rs ∧
  link_of (modem_rx_task (concat (report_text <$> take 4 rs)) (boot_world 0)) = Link (OnLte false) true false.
Proof.
  cbv zeta. split.
  - apply modem_registration_refines; [|apply ok_boot|reflexivity].
    repeat (constructor; [split; cbn; lia|]). constructor.
  - vm_compute. reflexivity.
Defined.

(** A socket bound to 10.0.0.1:5013, being read. *)
Definition demo_socket : udp_socket_t := UdpSocket 0 0 0 3 16777226 5013 true true.
Definition demo_reading : mworld :=
  MW boot_modem (Bg95 0 0 [no_socket; no_socket; demo_socket; no_socket; no_socket] 2 0 0 (DnsState false false false 0)) 7000 [].

Lemma modem_datagram_received_witness :
  modem_rx_task (qird_text 4 ++ hex_text [6; 0; 171; 255] ++ [13; 10]) demo_reading =
    modem_rx_task (str "+QIRD: 4" ++ [13; 10] ++ str "0600ABFF" ++ [13; 10]) demo_reading ∧
  mw_log (modem_rx_task (qird_text 4 ++ hex_text [6; 0; 171; 255] ++ [13; 10]) demo_reading) = [MUdp [6; 0; 171; 255] 16777226 5013].
Proof.
  split; [reflexivity|]. change 4 with (Z.of_nat (length [6; 0; 171; 255])).
  apply (modem_datagram_received [6; 0; 171; 255] demo_socket demo_reading); try done.
  repeat (constructor; [unfold in_u8; lia|]). constructor.
Defined.

Lemma modem_command_confirmed_witness :
  let expected := qstr "+QPINC: 'SC'" in
  ∃ text w' l, _at_cmd_and_response_ok demo_env (str "!AT+QPINC?") (Some expected) (boot_world 0) = Some ((true, text), w') ∧
    text = qstr "+QPINC: 'SC',3,10" ∧
    mw_log w' = mw_log (boot_world 0) ++ [MTx (str "AT+QPINC?"); MTx [13; 10]] ++ l ∧
    Exists said_ok (lines [] (rx_chars l)) ∧ text ∈ lines [] (rx_chars l) ∧ starts expected text.
Proof.
  cbv zeta. set (expected := qstr "+QPINC: 'SC'").
  assert (match _at_cmd_and_response_ok demo_env (str "!AT+QPINC?") (Some expected) (boot_world 0) with
          | Some ((ok, text), _) => ok && bool_decide (text = qstr "+QPINC: 'SC',3,10") | None => false end = true) as H
    by (vm_compute; reflexivity).
  destruct (_at_cmd_and_response_ok demo_env (str "!AT+QPINC?") (Some expected) (boot_world 0)) as [[[ok text] w']|] eqn:E; [|done].
  apply andb_true_iff in H as [-> H%bool_decide_eq_true].
  destruct (modem_command_confirmed demo_env _ _ _ _ _ E) as (l & El & Hok & Htext & Hs).
  exists text, w', l. exact (conj eq_refl (conj H (conj El (conj Hok (conj Htext Hs))))).
Defined.

(** The start of a module whose card asks for the PIN: it is entered, cleared. *)
Definition demo_on : mmain :=
  set_mm_state MODEM_MAIN_STATE_ON (modem_main_rq_state 0 MODEM_MAIN_STATE_NET_OK (modem_main_init 0)).


Lemma modem_operations_return_witness :
  ∃ w', op_run demo_env erased_storage id (OpTask demo_on) (boot_world 1000) = Some ((), w') ∧ modem_ok w' ∧
    mw_now w' ≤ 1000 + (2416700 + 563 * 1000).
Proof.
  destruct (modem_operations_return demo_env 1000 demo_stall ltac:(lia) erased_storage id (OpTask demo_on) (boot_world 1000))
    as (w' & E & Hok & _ & Ht & _).
  - apply ok_boot.
  - reflexivity.
  - cbn. lia.
  - cbn. lia.
  - exists w'. exact (conj E (conj Hok (proj2 Ht))).
Defined.
