(* ===== verification/ModemSmsDemo.v ===== *)
(** * A telephone to talk to

    An instance of the SDK's codec with its laws, a module that holds a message and
    takes messages, and the theorems of ModemSmsSafe at concrete inputs. *)

From S2P Require Import Prelude CText EventTypes EventBuf Storage EventMemory EventQueue Out.
From S2P Require Import Alarm ArmSection System Cfg SiaIp NetTarget Cms EventTask TracerBuf.
From S2P Require Import Inp Update Nmea Gps MultiSms Report Cmd CmdThm CmdParse CmdDemo TracerProto ModemAt ModemUrc ModemLink ModemData.
From S2P Require Import ModemCmd ModemUdp ModemMain ModemRun ModemHear ModemTx ModemLive ModemDemo.
From S2P Require Import ModemSms ModemSmsRun ModemSmsSafe.

(** ** A codec

    Number of parts, number, size and telephone number before the text, in
    hexadecimal. *)

Definition demo_encode (p : pdu_out) : Z * list Z :=
  let bytes := [po_count p; po_nr p; po_size p; Z.of_nat (length (po_tel_num p))] ++ po_tel_num p
                 ++ take (Z.to_nat (po_size p)) (po_content p) in
  (Z.of_nat (length bytes), hex_text bytes).

Definition demo_decode (raw : list Z) : pdu_in :=
  match hex_to_bin (length raw / 2) raw with
  | count :: nr :: size :: n :: rest =>
      PduIn size (PDU_TYPE_CODED PDU_TYPE_TEXT7) (drop (Z.to_nat n) rest) 9 nr (if count =? 1 then 0 else count)
        (take (Z.to_nat n) rest) []
  | _ => PduIn (-1) PDU_TYPE_UNKNOWN [] 0 0 0 [] []
  end.

#[export] Instance demo_sms : SmsLib := {|
  sl_modem := demo_modem;
  pdu_encode := demo_encode;
  pdu_decode := demo_decode;
  PDU_MAX_LENGTH := 400;
  text_is_ascii := forallb (λ c, c <? 128);
  text_is_valid_phone t := (3 <=? length t)%nat;
  text_utf8_to_ucs2 s n := let t := take (Z.to_nat n) s in (flat_map (λ c, [0; c]) t, Z.of_nat (length t), Z.of_nat (length t));
  buf_text n l := take (Z.to_nat n) l;
  MAX_SMS_LEN := 512;
  render n l := take (Z.to_nat (n - 1)) (flat_map (λ a, match a with TStr t => t | TFmt f _ => f end) l)
|}.

#[export] Instance demo_sms_spec : SmsSpec demo_sms.
Proof.
  split; cbn [pdu_encode buf_text text_utf8_to_ucs2 render MAX_SMS_LEN demo_sms].
  - intros t c n x y tel sr. unfold demo_encode. cbn [po_count po_nr po_size po_tel_num po_content].
    by rewrite Nat2Z.id, take_app_length, take_ge.
  - intros p. unfold demo_encode. cbn [snd]. eapply Forall_impl; [apply hex_text_chars|]. unfold hex_char. intros c. lia.
  - intros n l Hl. apply take_ge. lia.
  - intros s n Hn. cbn. rewrite length_take. lia.
  - intros l. rewrite length_take. lia.
Qed.

(** ** A module with one message *)

Definition mail_raw (text : list Z) : list Z :=
  (demo_encode (PduOut PDU_TYPE_TEXT7 1 1 (Z.of_nat (length text)) text (str "777123") false)).2.

(** Lists the message over three turns, takes messages, confirms commands. *)
Definition mail_env (text : list Z) (t : Z) (log : list maction) : list Z * Z :=
  match rev log with
  | MTx [26] :: _ => (crlf ++ str "+CMGS: 7" ++ ok_text, 5)
  | MTx [13; 10] :: MTx c :: _ =>
      if bool_decide (c = str "AT+CMGL=4") then (crlf ++ str "+CMGL: 3,1,,20" ++ crlf, 5)
      else if bool_decide (take 8 c = str "AT+CMGS=") then (crlf ++ str "> ", 5)
      else (ok_text, 5)
  | MRx _ :: MTx [13; 10] :: MTx c :: _ =>
      if bool_decide (c = str "AT+CMGL=4") then (mail_raw text ++ crlf, 5) else ([], 1000)
  | MRx _ :: MRx _ :: MTx [13; 10] :: MTx c :: _ =>
      if bool_decide (c = str "AT+CMGL=4") then (ok_text, 5) else ([], 1000)
  | _ => ([], 1000)
  end.
Lemma mail_stall text t l : (mail_env text t l).2 ≤ 1000.
Proof. unfold mail_env. repeat case_match; cbn; lia. Qed.

(** Registered, with the notice of a message. *)
Definition mail_world : mworld :=
  upd_m (λ m, set_sms_counter 1 (set_m_flags MODEM_FLAG_PIN_READY m)) (boot_world 1000).
Lemma mail_world_ok : modem_ok mail_world.
Proof. constructor; try done; cbn; lia. Qed.

Definition no_slots : list msms_t := ms_init (replicate 10 (Msms None 0 0 0 0)).
Lemma no_slots_fit : slots_fit no_slots.
Proof. split; [done|]. apply Forall_fmap, Forall_replicate. cbn. lia. Qed.

Lemma sms_read_heard_witness :
  ∃ s msms' w', modem_sms_read (mail_env (str "hello")) no_slots mail_world = Some ((Some s, msms'), w') ∧
    sms_data s = str "hello" ∧
    ∃ l raw, mw_log w' = mw_log mail_world ++ l ∧ (raw = [] ∨ raw ∈ lines (rx_buf (w_at mail_world)) (rx_chars l)) ∧
      0 ≤ pi_len (pdu_decode (buf_text PDU_MAX_LENGTH raw)).
Proof.
  assert (match modem_sms_read (mail_env (str "hello")) no_slots mail_world with
          | Some ((Some s, _), _) => bool_decide (sms_data s = str "hello") | _ => false end = true) as H by (vm_compute; reflexivity).
  destruct (modem_sms_read (mail_env (str "hello")) no_slots mail_world) as [[[[s|] msms'] w']|] eqn:E; [|done|done].
  apply bool_decide_eq_true in H. destruct (sms_read_heard (mail_env (str "hello")) _ _ _ _ _ E) as (l & raw & El & Hl & Hn & _).
  exists s, msms', w'. split; [exact eq_refl|]. split; [exact H|]. exists l, raw. exact (conj El (conj Hl Hn)).
Defined.

(** A text of two parts, sent. *)
Definition long_text : list Z := replicate 200 65.
Definition to_send : sms_struct := Sms long_text (str "777123") 0 SMS_TYPE_AUTO 0 false [].


(** A stranger's message: read, ignored, not answered. *)
Lemma sms_commands_need_password_witness :
  let c := session ACCESS_NONE in
  ∃ done mm' c' msms' w' l,
    app_sms_process (mail_env (str "1234 UNSET")) [] CmdDemo.demo_env (modem_main_init 0) c no_slots mail_world
      = Some ((done, mm', c', msms'), w') ∧
    mw_log w' = mw_log mail_world ++ l ∧ c_dev c' = c_dev c ∧ c_acts c' = c_acts c ∧ sent_after [] l = [].
Proof.
  cbv zeta. set (env := mail_env (str "1234 UNSET")).
  assert (mw_now mail_world + sms_time_max 1000 < 4294967296) as Ht by (vm_compute; reflexivity).
  pose proof (sms_commands_need_password env [] 1000 (mail_stall _) ltac:(lia) CmdDemo.demo_env (modem_main_init 0)
    (session ACCESS_NONE) no_slots mail_world erased_clean factory_passwords no_slots_fit mail_world_ok eq_refl ltac:(cbn; lia) Ht) as Hall.
  destruct Hall as (fin & mm' & c' & msms' & w' & l & E & _ & _ & _ & _ & El & H).
  exists fin, mm', c', msms', w', l. split; [exact E|]. split; [exact El|].
  assert (match read_now env no_slots mail_world with
          | Some s => bool_decide (sms_data s = str "1234 UNSET" ∧ sms_ty s = SMS_TYPE_UTF8 ∧ sms_len s = 10) | None => false end = true)
    as Hr by (vm_compute; reflexivity).
  destruct (read_now _ _ _) as [s|]; [|discriminate Hr]. apply bool_decide_eq_true in Hr as (Hd & Hty & Hlen).
  rewrite decide_False in H by (rewrite Hty, Hlen; intros [?|?]; done). rewrite Hd in H.
  assert (list_find (λ x, accepted (d_storage (c_dev (session ACCESS_NONE))) (_skip_spaces (text_of (str "1234 UNSET"))) x = true)
    PASSWD_TABLE = None) as Hnone by (vm_compute; reflexivity).
  destruct H as (Hob & _ & Hsent). rewrite Hnone in Hsent. destruct Hob as [_ H1 H2|i id level source now ok c1 p Hf].
  - exact (conj H1 (conj H2 (Hsent eq_refl))).
  - exfalso. subst p. rewrite Hd, Hnone in Hf. discriminate Hf.
Defined.

(** The header and the message in one turn: the message is not kept for the second
    wait, which the OK ends, and the message is deleted unread. *)
Definition hasty_env (text : list Z) (t : Z) (log : list maction) : list Z * Z :=
  match rev log with
  | MTx [13; 10] :: MTx c :: _ => (crlf ++ str "+CMGL: 3,1,,20" ++ crlf ++ mail_raw text ++ crlf, 5)
  | MRx _ :: MTx [13; 10] :: MTx c :: _ => (ok_text, 5)
  | _ => ([], 1000)
  end.

Example sms_deleted_unread :
  match modem_sms_read (hasty_env (str "admin UNSET")) no_slots mail_world with
  | Some ((None, _), w') => existsb (λ a, match a with MTx d => bool_decide (d = str "AT+CMGD=3") | _ => false end) (mw_log w')
  | _ => false
  end = true.
Proof. vm_compute. reflexivity. Qed.
