(* ===== verification/Ble.v ===== *)
(** * The Bluetooth module (app/ble.c; _ble_rx_parser and _ble_access_update of app/app.c)

    The serial link to the module: lines from the phone and from the module
    itself, the ring of characters that wait to be sent, and the command channel
    with its access.  The characters that HW_BLE_UART_GETCHAR returns, each with
    the time it is read at, and the answer of HW_BLE_UART_PUTCHAR are arguments. *)

From S2P Require Import Prelude CText EventTypes EventBuf Storage EventMemory EventQueue.
From S2P Require Import Out Alarm ArmSection System Cfg SiaIp NetTarget Cms EventTask Inp.
From S2P Require Import Update Nmea Gps Report Cmd.

(** The size of the SDK's serial buffers and what its buffer holds after the
    interpreter's calls of buf_append. *)
Class BleLib := {
  TTY_BUF_SIZE : Z;
  ble_render : list appended → list Z
}.
Class BleSpec (B : BleLib) := { TTY_BUF_SIZE_big : 2 < TTY_BUF_SIZE }.

(** src/app/ble.c:12-18 (_connected, _tx_buf, _tx_buf_rd_idx, _tx_buf_wr_idx, _rx_buf, _rx_len) *)
Record ble := Ble {
  _connected : bool;
  _tx_buf : list Z;
  _tx_buf_rd_idx : Z;
  _tx_buf_wr_idx : Z;
  _rx_buf : list Z;
  _rx_len : Z
}.

Definition set_connected (x : bool) (b : ble) : ble :=
  Ble x (_tx_buf b) (_tx_buf_rd_idx b) (_tx_buf_wr_idx b) (_rx_buf b) (_rx_len b).
Definition set_tx (t : list Z) (rd wr : Z) (b : ble) : ble :=
  Ble (_connected b) t rd wr (_rx_buf b) (_rx_len b).
Definition set_rx (r : list Z) (n : Z) (b : ble) : ble :=
  Ble (_connected b) (_tx_buf b) (_tx_buf_rd_idx b) (_tx_buf_wr_idx b) r n.

(** The characters that end a line. *)
Definition line_end (c : Z) : bool := (c =? 13) || (c =? 10).

(** [strstr (s, pat) != NULL] *)
Fixpoint strstr (s pat : list Z) : bool :=
  bool_decide (take (length pat) s = pat) || match s with [] => false | _ :: s => strstr s pat end.

(** ** Presence of the module *)

(** src/app/ble.c:27-33 (_TEST_CMD, _TEST_REPLY, _BOOT_DELAY_MS, _TEST_TMOUT_MS, _TEST_LINE_SIZE) *)
Definition _TEST_REPLY : list Z := str "+VERSION=".
Definition _TEST_TMOUT_MS : Z := 500.
Definition _TEST_LINE_SIZE : Z := 64.

(** [polls]: for each round the clock and what GETCHAR returns; [None] when the
    rounds end before the test does. *)
(** src/app/ble.c:58-87 (_ble_comm_test) *)
Fixpoint comm_poll (polls : list (Z * Z)) (timeout : Z) (line : list Z) : option bool :=
  match polls with
  | [] => None
  | (now, ch) :: polls =>
      if negb (now <? timeout) then Some false
      else if ch <? 0 then comm_poll polls timeout line
      else if line_end ch then
        if (length line =? 0)%nat then comm_poll polls timeout line
        else if match c_string (line ++ [0]) with Ok t => strstr t _TEST_REPLY | Err _ => false end then Some true
        else comm_poll polls timeout []
      else comm_poll polls timeout
             (if Z.of_nat (length line) <? _TEST_LINE_SIZE - 1 then line ++ [ch] else line)
  end.

(** [now] is the clock after the command was sent. *)
(** src/app/ble.c:44-87 (_ble_comm_test) *)
Definition _ble_comm_test (now : Z) (polls : list (Z * Z)) : option bool :=
  comm_poll polls (u32 (now + _TEST_TMOUT_MS)) [].

(** One attempt to put a character; [put n] is the answer of the [n]-th. *)
Definition try_put (put : nat → bool) (c : Z) (s : nat * list Z) : nat * list Z :=
  (S s.1, if put s.1 then s.2 ++ [c] else s.2).

(** The characters the module gets: up to the first that is not taken, and the
    end of the line. *)
(** src/app/ble.c:151-169 (ble_cmd) *)
Fixpoint ble_cmd (put : nat → bool) (buf : list Z) (s : nat * list Z) : list Z :=
  let eol := λ s, (try_put put 10 (try_put put 13 s)).2 in
  match buf with
  | [] => eol s
  | c :: buf => if put s.1 then ble_cmd put buf (try_put put c s) else eol (try_put put c s)
  end.

Section ble.
Context `{B : BleLib}.

(** Memory is cleared at start. *)
(** src/app/ble.c:12-18 (_connected, _tx_buf, _tx_buf_rd_idx, _tx_buf_wr_idx, _rx_buf, _rx_len) *)
Definition ble_start : ble :=
  Ble false (replicate (Z.to_nat TTY_BUF_SIZE) 0) 0 0 (replicate (Z.to_nat TTY_BUF_SIZE) 0) 0.

(** ** The ring of characters to send *)

(** src/app/ble.c:20-23 (_clear_buf) *)
Definition _clear_buf (b : ble) : ble := set_tx (_tx_buf b) (_tx_buf_wr_idx b) (_tx_buf_wr_idx b) b.

(** src/app/ble.c:178-188 (ble_send) *)
Fixpoint ble_put (l : list Z) (b : ble) : outcome ble :=
  match l with
  | [] => Ok b
  | x :: l =>
      let idx := _tx_buf_wr_idx b + 1 in
      let idx := if TTY_BUF_SIZE <=? idx then 0 else idx in
      if idx =? _tx_buf_rd_idx b then Ok b
      else
        t ← (_tx_buf b).[idx <- x];
        ble_put l (set_tx t (_tx_buf_rd_idx b) idx b)
  end.

(** src/app/ble.c:171-189 (ble_send) *)
Definition ble_send (l : list Z) (b : ble) : outcome ble :=
  if negb (_connected b) then Ok b else ble_put l b.

(** [put] is the answer of PUTCHAR; the character is [None] when it is not taken
    or there is none. *)
(** src/app/ble.c:226-245 (ble_task) *)
Definition ble_tx (put : bool) (b : ble) : outcome (option Z * ble) :=
  if negb (_connected b) then Ok (None, b)
  else if _tx_buf_wr_idx b =? _tx_buf_rd_idx b then Ok (None, b)
  else
    let idx := _tx_buf_rd_idx b + 1 in
    ch ← (_tx_buf b).[_tx_buf_rd_idx b];
    let idx := if TTY_BUF_SIZE <=? idx then 0 else idx in
    if negb put then Ok (None, b)
    else Ok (Some ch, set_tx (_tx_buf b) idx (_tx_buf_wr_idx b) b).

(** ** Lines *)

(** src/app/ble.c:117-144 (_process_response) *)
Definition _process_response (data : list Z) (b : ble) : ble :=
  match data with
  | c :: data =>
      if negb (c =? 43) then b                                              (* '+' *)
      else if bool_decide (data = str "CONNECTED") then set_connected true (_clear_buf b)
      else if bool_decide (data = str "DISCONNECT") then set_connected false b
      else b
  | [] => b
  end.

(** The callback gets the line and the time, and returns what it sends. *)
Section receiver.
Context {W : Type} (_rx_callback : Z → list Z → W → outcome (list (list Z) * W)).

Fixpoint ble_sends (l : list (list Z)) (b : ble) : outcome ble :=
  match l with [] => Ok b | x :: l => b ← ble_send x b; ble_sends l b end.

(** A whole line. *)
(** src/app/ble.c:208-219 (ble_task) *)
Definition ble_line (now : Z) (data : list Z) (s : ble * W) : outcome (ble * W) :=
  let '(b, w) := s in
  let b := _process_response data b in
  '(b, w) ← (if _connected b then
               '(sends, w) ← _rx_callback now data w;
               b ← ble_sends sends b; Ok (b, w)
             else Ok (b, w));
  Ok (set_rx (_rx_buf b) 0 b, w).

(** src/app/ble.c:200-222 (ble_task) *)
Definition ble_rx_char (now ch : Z) (s : ble * W) : outcome (ble * W) :=
  let '(b, w) := s in
  let ch := if line_end ch then 0 else ch in
  rx ← (_rx_buf b).[_rx_len b <- ch];
  let b := set_rx rx (_rx_len b) b in
  if ch =? 0 then
    if 0 <? _rx_len b then data ← c_string rx; ble_line now data (b, w) else Ok (b, w)
  else Ok (if _rx_len b <? TTY_BUF_SIZE - 1 then set_rx rx (_rx_len b + 1) b else b, w).

(** src/app/ble.c:198-223 (ble_task) *)
Fixpoint ble_rx (chars : list (Z * Z)) (s : ble * W) : outcome (ble * W) :=
  match chars with
  | [] => Ok s
  | (now, ch) :: chars => s ← ble_rx_char now ch s; ble_rx chars s
  end.

(** src/app/ble.c:191-246 (ble_task) *)
Definition ble_task (chars : list (Z * Z)) (put : bool) (s : ble * W) : outcome (option Z * (ble * W)) :=
  '(b, w) ← ble_rx chars s;
  '(out, b) ← ble_tx put b;
  Ok (out, (b, w)).

End receiver.

(** ** The command channel *)

Section channel.
Context `{F : FlashLib} `{R : EventRepr} `{L : CmdLib}.
Variable e : cmd_env.

(** src/app/text.c:4-5 (TEXT_ERROR, TEXT_DONE) *)
Definition TEXT_ERROR : list Z := str "ERROR" ++ [13; 10].
Definition TEXT_DONE : list Z := str "DONE" ++ [13; 10].

(** The interpreter starts with an empty result buffer. *)
(** src/app/app.c:253-278 (_ble_rx_parser) *)
Definition ble_parser (now : Z) (data : list Z) (c : cst) : outcome (list (list Z) * cst) :=
  '(ok, c) ← _ble_rx_parser e data (Cst (c_dev c) (c_acc c) now [] (c_acts c));
  Ok (if ok : bool then [NL; ble_render (c_out c); NL; TEXT_DONE] else [TEXT_ERROR], c).

(** The two calls of a run of the slow task that concern the module. *)
(** src/app/app.c:382-383 (app_task_slow) *)
Definition ble_round (chars : list (Z * Z)) (put : bool) (s : ble * cst) : outcome (option Z * (ble * cst)) :=
  '(out, (b, c)) ← ble_task ble_parser chars put s;
  Ok (out, (b, put_acc (_ble_access_update (_connected b) (c_acc c)) c)).

End channel.
End ble.
