(* ===== verification/BleThm.v ===== *)
(** * What the Bluetooth channel guarantees (app/ble.c, app/app.c)

    The ring of characters to send as a list, the lines a stream of characters
    makes, and the session a password opens: what a phone does to the device it
    does between a password and the end of the connection. *)

From S2P Require Import Prelude CText EventTypes EventBuf Storage EventMemory EventQueue.
From S2P Require Import Out Alarm ArmSection System Cfg SiaIp NetTarget Cms EventTask Inp.
From S2P Require Import Update Nmea Gps Report Cmd CmdThm Ble.

(** ** The ring

    The calls that touch it: sending, one run of the transmitter, and a line of
    the module.  On the abstract side the ring is the list [q]: its head is the
    next character to go out.  It is never empty, because the writer stores
    behind its index and the reader reads at its own: the character read is the
    one before the oldest unsent. *)

Inductive tx_call := TxSend (l : list Z) | TxPut (put : bool) | TxLine (data : list Z).

Section ring.
Context `{B : BleLib} `{BS : !BleSpec B}.

Definition tx_do (c : tx_call) (b : ble) : outcome (list Z * ble) :=
  match c with
  | TxSend l => b ← ble_send l b; Ok ([], b)
  | TxPut put => '(o, b) ← ble_tx put b; Ok (option_list o, b)
  | TxLine data => Ok ([], _process_response data b)
  end.

Fixpoint tx_run (cs : list tx_call) (b : ble) : outcome (list Z * ble) :=
  match cs with
  | [] => Ok ([], b)
  | c :: cs => '(o, b) ← tx_do c b; '(o', b) ← tx_run cs b; Ok (o ++ o', b)
  end.

Definition spec_do (c : tx_call) (s : bool * list Z) : list Z * (bool * list Z) :=
  let '(up, q) := s in
  match c with
  | TxSend l => ([], (up, if up then q ++ take (Z.to_nat TTY_BUF_SIZE - length q) l else q))
  | TxPut put =>
      match q with
      | x :: y :: q => if up && put then ([x], (up, y :: q)) else ([], s)
      | _ => ([], s)
      end
  | TxLine data =>
      if bool_decide (data = str "+CONNECTED") then ([], (true, option_list (last q)))
      else if bool_decide (data = str "+DISCONNECT") then ([], (false, q))
      else ([], s)
  end.

Fixpoint spec_run (cs : list tx_call) (s : bool * list Z) : list Z * (bool * list Z) :=
  match cs with
  | [] => ([], s)
  | c :: cs => let '(o, s) := spec_do c s in let '(o', s) := spec_run cs s in (o ++ o', s)
  end.

Record tx_holds (b : ble) (s : bool * list Z) : Prop := {
  tx_up : _connected b = s.1;
  tx_len : Z.of_nat (length (_tx_buf b)) = TTY_BUF_SIZE;
  tx_rd : 0 ≤ _tx_buf_rd_idx b < TTY_BUF_SIZE;
  tx_size : 0 < Z.of_nat (length s.2) ≤ TTY_BUF_SIZE;
  tx_wr : _tx_buf_wr_idx b = (_tx_buf_rd_idx b + Z.of_nat (length s.2) - 1) mod TTY_BUF_SIZE;
  tx_at : ∀ k x, s.2 !! k = Some x →
    _tx_buf b !! Z.to_nat ((_tx_buf_rd_idx b + Z.of_nat k) mod TTY_BUF_SIZE) = Some x
}.

(** The next place of the ring. *)
Lemma next_place i : 0 ≤ i < TTY_BUF_SIZE →
  (if TTY_BUF_SIZE <=? i + 1 then 0 else i + 1) = (i + 1) mod TTY_BUF_SIZE.
Proof.
  pose proof TTY_BUF_SIZE_big. intros Hi. destruct (Z.leb_spec TTY_BUF_SIZE (i + 1)).
  - replace (i + 1) with TTY_BUF_SIZE by lia. by rewrite Z.mod_same by lia.
  - by rewrite Z.mod_small by lia.
Qed.

(** Places less than a lap apart are different. *)
Lemma places_differ rd i j : 0 ≤ i < j → j < i + TTY_BUF_SIZE →
  (rd + i) mod TTY_BUF_SIZE ≠ (rd + j) mod TTY_BUF_SIZE.
Proof.
  pose proof TTY_BUF_SIZE_big. intros Hi Hj E.
  assert ((j - i) mod TTY_BUF_SIZE = 0) as H0.
  { replace (j - i) with ((rd + j) - (rd + i)) by lia. rewrite Zminus_mod, E, Z.sub_diag. done. }
  rewrite Z.mod_small in H0 by lia. lia.
Qed.

Lemma put_holds l : ∀ b up q, tx_holds b (up, q) →
  ∃ b', ble_put l b = Ok b' ∧ tx_holds b' (up, q ++ take (Z.to_nat TTY_BUF_SIZE - length q) l) ∧
    _rx_buf b' = _rx_buf b ∧ _rx_len b' = _rx_len b.
Proof.
  pose proof TTY_BUF_SIZE_big as HN. induction l as [|x l IH]; intros b up q H.
  { exists b. rewrite take_nil, app_nil_r. done. }
  cbn [ble_put]. cbv zeta. pose proof H as [Hup Hlen Hrd Hsz Hwr Hat]. cbn [fst snd] in *.
  rewrite next_place by (rewrite Hwr; apply Z.mod_pos_bound; lia).
  assert ((_tx_buf_wr_idx b + 1) mod TTY_BUF_SIZE = (_tx_buf_rd_idx b + Z.of_nat (length q)) mod TTY_BUF_SIZE) as ->.
  { rewrite Hwr, Zplus_mod_idemp_l. f_equal. lia. }
  destruct (Z.eqb_spec ((_tx_buf_rd_idx b + Z.of_nat (length q)) mod TTY_BUF_SIZE) (_tx_buf_rd_idx b)) as [E|E].
  - assert (Z.of_nat (length q) = TTY_BUF_SIZE) as Hfull.
    { destruct (Z.lt_ge_cases (Z.of_nat (length q)) TTY_BUF_SIZE); [|lia]. exfalso.
      apply (places_differ (_tx_buf_rd_idx b) 0 (Z.of_nat (length q))); [lia..|].
      by rewrite E, Z.add_0_r, Z.mod_small. }
    exists b. replace (_ - _)%nat with 0%nat by lia. rewrite take_0, app_nil_r. done.
  - assert (Z.of_nat (length q) < TTY_BUF_SIZE) as Hroom.
    { destruct (Z.eq_dec (Z.of_nat (length q)) TTY_BUF_SIZE) as [E2|]; [|lia]. exfalso. apply E.
      rewrite E2, <-(Z.mul_1_l TTY_BUF_SIZE) at 1. rewrite Z_mod_plus_full. by apply Z.mod_small. }
    pose proof (Z.mod_pos_bound (_tx_buf_rd_idx b + Z.of_nat (length q)) TTY_BUF_SIZE) as Hp.
    rewrite arr_set_Ok by lia. cbn [mbind outcome_bind].
    destruct (IH (set_tx (<[Z.to_nat ((_tx_buf_rd_idx b + Z.of_nat (length q)) mod TTY_BUF_SIZE):=x]> (_tx_buf b))
      (_tx_buf_rd_idx b) ((_tx_buf_rd_idx b + Z.of_nat (length q)) mod TTY_BUF_SIZE) b) up (q ++ [x])) as (b' & -> & H' & Hr).
    + split; cbn [set_tx _connected _tx_buf _tx_buf_rd_idx _tx_buf_wr_idx fst snd]; rewrite ?length_insert, ?length_app;
        cbn [length]; try done; try lia; [f_equal; lia|].
      intros k y Hk. destruct (Nat.lt_ge_cases k (length q)) as [Hlt|Hge].
      * rewrite lookup_app_l in Hk by done. rewrite list_lookup_insert_ne; [by apply Hat|].
        pose proof (places_differ (_tx_buf_rd_idx b) (Z.of_nat k) (Z.of_nat (length q))).
        pose proof (Z.mod_pos_bound (_tx_buf_rd_idx b + Z.of_nat k) TTY_BUF_SIZE). lia.
      * rewrite lookup_app_r in Hk by done. apply list_lookup_singleton_Some in Hk as [Hk <-].
        replace (Z.of_nat k) with (Z.of_nat (length q)) by lia. apply list_lookup_insert_eq. lia.
    + exists b'. split; [done|]. split; [|done]. rewrite length_app in H'. cbn [length] in H'.
      replace (Z.to_nat TTY_BUF_SIZE - length q)%nat with (S (Z.to_nat TTY_BUF_SIZE - (length q + 1)))%nat by lia.
      cbn [take]. by rewrite <-app_assoc in H'.
Qed.

Lemma send_holds l b up q : tx_holds b (up, q) →
  ∃ b', ble_send l b = Ok b' ∧ tx_holds b' (spec_do (TxSend l) (up, q)).2 ∧
    _rx_buf b' = _rx_buf b ∧ _rx_len b' = _rx_len b.
Proof.
  intros H. unfold ble_send. pose proof (tx_up _ _ H) as E. cbn [fst] in E. rewrite E. cbn [spec_do snd].
  destruct up; cbn [negb]; [by apply put_holds|by exists b].
Qed.

Lemma clear_holds b s : tx_holds b s → tx_holds (_clear_buf b) (s.1, option_list (last s.2)).
Proof.
  pose proof TTY_BUF_SIZE_big as HN. intros [Hup Hlen Hrd Hsz Hwr Hat]. destruct s as [up q]. cbn [fst snd] in *.
  destruct q as [|x q _] using rev_ind; [cbn in Hsz; lia|]. rewrite last_snoc. change (option_list (Some x)) with [x].
  rewrite length_app in *. cbn [length] in *.
  replace (_tx_buf_rd_idx b + Z.of_nat (length q + 1) - 1) with (_tx_buf_rd_idx b + Z.of_nat (length q)) in Hwr by lia.
  pose proof (Z.mod_pos_bound (_tx_buf_rd_idx b + Z.of_nat (length q)) TTY_BUF_SIZE).
  split; cbn [_clear_buf set_tx _connected _tx_buf _tx_buf_rd_idx _tx_buf_wr_idx fst snd length]; try done; try lia.
  - rewrite Z.mod_small by lia. lia.
  - intros k y Hk. apply list_lookup_singleton_Some in Hk as [-> <-].
    rewrite Z.add_0_r, Z.mod_small, Hwr by lia. apply Hat. rewrite lookup_app_r, Nat.sub_diag by done. done.
Qed.

Lemma response_holds data b s : tx_holds b s → tx_holds (_process_response data b) (spec_do (TxLine data) s).2.
Proof.
  intros H. destruct s as [up q]. unfold _process_response, spec_do. destruct data as [|c data]; [done|].
  change (str "+CONNECTED") with (43 :: str "CONNECTED"). change (str "+DISCONNECT") with (43 :: str "DISCONNECT").
  destruct (Z.eqb_spec c 43) as [->|Hc]; cbn [negb].
  2:{ rewrite !bool_decide_eq_false_2 by congruence. done. }
  destruct (decide (data = str "CONNECTED")) as [->|H1].
  { rewrite !bool_decide_eq_true_2 by done. apply clear_holds in H as [? ? ? ? ? ?]. by split. }
  rewrite !(bool_decide_eq_false_2 (_ = str "CONNECTED")), (bool_decide_eq_false_2 (_ = 43 :: str "CONNECTED")) by congruence.
  destruct (decide (data = str "DISCONNECT")) as [->|H2].
  { rewrite !bool_decide_eq_true_2 by done. destruct H. by split. }
  rewrite !bool_decide_eq_false_2 by congruence. done.
Qed.

Lemma tx_step_holds put b s : tx_holds b s →
  ∃ o b', ble_tx put b = Ok (o, b') ∧ option_list o = (spec_do (TxPut put) s).1 ∧ tx_holds b' (spec_do (TxPut put) s).2 ∧
    _rx_buf b' = _rx_buf b ∧ _rx_len b' = _rx_len b.
Proof.
  pose proof TTY_BUF_SIZE_big as HN. intros H. destruct s as [up q]. pose proof H as [Hup Hlen Hrd Hsz Hwr Hat].
  cbn [fst snd] in *. unfold ble_tx, spec_do. rewrite Hup.
  destruct q as [|x [|y q]]; [cbn in Hsz; lia| |].
  { cbn [length] in Hwr. rewrite Hwr. replace (_ + Z.of_nat 1 - 1) with (_tx_buf_rd_idx b) by lia.
    rewrite Z.mod_small, Z.eqb_refl by lia. exists None, b. by destruct up. }
  destruct up; cbn [negb andb]; [|by exists None, b]. cbn [length] in *.
  destruct (Z.eqb_spec (_tx_buf_wr_idx b) (_tx_buf_rd_idx b)) as [E|_].
  { exfalso. rewrite Hwr in E. apply (places_differ (_tx_buf_rd_idx b) 0 (Z.of_nat (S (length q)))); [lia..|].
    rewrite Z.add_0_r, (Z.mod_small (_tx_buf_rd_idx b)) by lia. rewrite <-E at 1. f_equal. lia. }
  pose proof (Hat 0%nat x eq_refl) as Hx. rewrite Z.add_0_r, Z.mod_small in Hx by lia.
  rewrite (proj2 (arr_get_Ok _ _ _)) by (split; [lia|exact Hx]). cbn [mbind outcome_bind]. cbv zeta.
  destruct put; cbn [negb]; [|by exists None, b].
  rewrite next_place by done. eexists _, _. split; [done|]. split; [done|]. split; [|done].
  pose proof (Z.mod_pos_bound (_tx_buf_rd_idx b + 1) TTY_BUF_SIZE).
  split; cbn [set_tx _connected _tx_buf _tx_buf_rd_idx _tx_buf_wr_idx fst snd length]; try done; try lia.
  - rewrite Hwr. rewrite <-(Z.add_sub_assoc (_ mod _)), Zplus_mod_idemp_l. f_equal. lia.
  - intros k z Hk. rewrite Zplus_mod_idemp_l. replace (_ + 1 + Z.of_nat k) with (_tx_buf_rd_idx b + Z.of_nat (S k)) by lia.
    by apply Hat.
Qed.

Lemma tx_do_holds c b s : tx_holds b s →
  ∃ b', tx_do c b = Ok ((spec_do c s).1, b') ∧ tx_holds b' (spec_do c s).2.
Proof.
  intros H. destruct s as [up q]. destruct c as [l|put|data]; cbn [tx_do].
  - destruct (send_holds l b up q H) as (b' & -> & H' & _). by exists b'.
  - destruct (tx_step_holds put b (up, q) H) as (o & b' & -> & E & H' & _). cbn [mbind outcome_bind]. rewrite E. by exists b'.
  - exists (_process_response data b). split; [|by apply response_holds]. cbn [spec_do]. by repeat case_match.
Qed.

Lemma start_holds : tx_holds ble_start (false, [0]).
Proof.
  pose proof TTY_BUF_SIZE_big. split; cbn [ble_start _connected _tx_buf _tx_buf_rd_idx _tx_buf_wr_idx fst snd length];
    rewrite ?length_replicate; try done; try lia.
  - intros k y Hk. apply list_lookup_singleton_Some in Hk as [-> <-]. rewrite Z.mod_small by lia.
    apply lookup_replicate. split; [done|lia].
Qed.

Lemma tx_run_holds cs : ∀ b s, tx_holds b s →
  ∃ b', tx_run cs b = Ok ((spec_run cs s).1, b') ∧ tx_holds b' (spec_run cs s).2.
Proof.
  induction cs as [|c cs IH]; intros b s H; [by exists b|]. cbn [tx_run spec_run].
  destruct (tx_do_holds c b s H) as (b1 & -> & H1). destruct (spec_do c s) as [o s1]. cbn [mbind outcome_bind fst snd] in *.
  destruct (IH b1 s1 H1) as (b2 & -> & H2). destruct (spec_run cs s1) as [o' s2]. by exists b2.
Qed.

Lemma spec_drain n : ∀ x q, (length q <= n)%nat →
  spec_run (replicate n (TxPut true)) (true, x :: q) = (removelast (x :: q), (true, [List.last (x :: q) 0])).
Proof.
  induction n as [|n IH]; intros x q Hn; [by destruct q; [|cbn in Hn; lia]|].
  cbn [replicate spec_run]. destruct q as [|y q].
  - cbn [spec_do]. rewrite IH by (cbn; lia). done.
  - cbn [spec_do andb]. cbn [length] in Hn. rewrite IH by lia. done.
Qed.

(** C39 (refinement). The ring of characters to send: whatever is sent, connected
    and transmitted, no index leaves the array, and the characters that go out
    are those of a plain list whose head goes out only while another one follows.
    So an answer sent over an idle link goes out one character late: first the
    last character of the answer before, and its own last character stays. *)
Theorem ble_tx_refines b z :
  tx_holds b (true, [z]) →
  (∀ cs, ∃ b', tx_run cs b = Ok ((spec_run cs (true, [z])).1, b') ∧ tx_holds b' (spec_run cs (true, [z])).2) ∧
  (∀ l n, Z.of_nat (length l) < TTY_BUF_SIZE → (length l <= n)%nat →
     ∃ b', tx_run (TxSend l :: replicate n (TxPut true)) b = Ok (removelast (z :: l), b') ∧
       tx_holds b' (true, [List.last (z :: l) 0])).
Proof.
  intros H. split; [intros cs; by apply tx_run_holds|]. intros l n Hl Hn.
  destruct (tx_run_holds (TxSend l :: replicate n (TxPut true)) b (true, [z]) H) as (b' & E & H').
  cbn [spec_run spec_do length] in E, H'. rewrite take_ge in E, H' by lia. cbn [app] in E, H'.
  rewrite spec_drain in E, H' by lia. by exists b'.
Qed.
End ring.

(** ** Lines

    What a stream of characters means, without the array: the line in progress,
    whether a phone is connected, and the commands with the time each ended. *)

Section lines.
Context `{B : BleLib} `{BS : !BleSpec B}.

Definition link (up : bool) (data : list Z) : bool :=
  if bool_decide (data = str "+CONNECTED") then true
  else if bool_decide (data = str "+DISCONNECT") then false else up.

Fixpoint heard (chars : list (Z * Z)) (up : bool) (part : list Z) : list (Z * list Z) * (bool * list Z) :=
  match chars with
  | [] => ([], (up, part))
  | (now, ch) :: chars =>
      if line_end ch || (ch =? 0) then
        match part with
        | [] => heard chars up []
        | _ =>
            let up := link up part in
            let '(cmds, s) := heard chars up [] in
            (if up then (now, part) :: cmds else cmds, s)
        end
      else heard chars up (if Z.of_nat (length part) <? TTY_BUF_SIZE - 1 then part ++ [ch] else part)
  end.

Record rx_holds (b : ble) (part : list Z) : Prop := {
  rx_size : Z.of_nat (length (_rx_buf b)) = TTY_BUF_SIZE;
  rx_count : _rx_len b = Z.of_nat (length part);
  rx_room : Z.of_nat (length part) < TTY_BUF_SIZE;
  rx_part : part `prefix_of` _rx_buf b;
  rx_chars : Forall (λ c, c ≠ 0) part
}.

(** The module's state: the link, the ring and the line in progress. *)
Definition ble_ok (b : ble) (up : bool) (part : list Z) : Prop :=
  rx_holds b part ∧ ∃ q, tx_holds b (up, q).

Lemma ble_start_ok : ble_ok ble_start false [].
Proof.
  pose proof TTY_BUF_SIZE_big. split; [|eexists; apply start_holds].
  split; cbn [ble_start _rx_buf _rx_len length]; rewrite ?length_replicate; try done; try lia. apply prefix_nil.
Qed.

Lemma sends_ok l : ∀ b up part, ble_ok b up part → ∃ b', ble_sends l b = Ok b' ∧ ble_ok b' up part.
Proof.
  induction l as [|x l IH]; intros b up part [Hr [q Hq]]; [exists b; split; [done|]; split; [done|by exists q]|]. cbn [ble_sends].
  destruct (send_holds x b up q Hq) as (b1 & -> & H1 & E1 & E2). cbn [mbind outcome_bind]. apply IH.
  split; [|eexists; exact H1]. destruct Hr. by split; rewrite ?E1, ?E2.
Qed.

Lemma set_rx_tx r n b s : tx_holds b s → tx_holds (set_rx r n b) s.
Proof. by intros []. Qed.

Lemma response_link data b q up : tx_holds b (up, q) → ∃ q', tx_holds (_process_response data b) (link up data, q').
Proof. intros H%(response_holds data). revert H. unfold spec_do, link. repeat case_match; eauto. Qed.

Lemma prefix_insert (part rx : list Z) x : part `prefix_of` rx → (length part < length rx)%nat →
  ∃ r, <[length part := x]> rx = part ++ x :: r.
Proof.
  intros [k ->] Hl. rewrite length_app in Hl. destruct k as [|y k]; [cbn in Hl; lia|].
  exists k. rewrite <-(Nat.add_0_r (length part)), insert_app_r. done.
Qed.

Lemma ble_reset_ok b up part : ble_ok b up part → ble_ok (set_rx (_rx_buf b) 0 b) up [].
Proof.
  pose proof TTY_BUF_SIZE_big. intros [[] [q Hq]]. split; [|exists q; by apply set_rx_tx].
  split; cbn [set_rx _rx_buf _rx_len length]; try done; try lia. apply prefix_nil.
Qed.

Lemma response_ok data b up part : ble_ok b up part →
  _connected (_process_response data b) = link up data ∧ ble_ok (_process_response data b) (link up data) part.
Proof.
  intros [Hr [q Hq]]. destruct (response_link data b q up Hq) as [q' Hq']. split; [by rewrite (tx_up _ _ Hq')|].
  split; [|by exists q']. destruct Hr. unfold _process_response. split; repeat case_match; done.
Qed.

(** Storing a character behind the line in progress. *)
Lemma store_ok b up part ch : ble_ok b up part →
  ∃ rx, (_rx_buf b).[_rx_len b <- ch] = Ok rx ∧ (ch = 0 → c_string rx = Ok part) ∧
    ble_ok (set_rx rx (_rx_len b) b) up part ∧
    (ch ≠ 0 → _rx_len b < TTY_BUF_SIZE - 1 → ble_ok (set_rx rx (_rx_len b + 1) b) up (part ++ [ch])).
Proof.
  intros [[Hsz Hn Hroom Hpart Hz] [q Hq]]. rewrite Hn, arr_set_Ok, Nat2Z.id by lia.
  destruct (prefix_insert part (_rx_buf b) ch Hpart) as [r Er]; [lia|].
  assert (Z.of_nat (length (part ++ ch :: r)) = TTY_BUF_SIZE) as Hsz2 by (by rewrite <-Er, length_insert).
  rewrite Er. exists (part ++ ch :: r). split; [done|]. split; [intros ->; by apply c_string_app|]. split.
  - split; [|exists q; by apply set_rx_tx]. split; cbn [set_rx _rx_buf _rx_len]; try done. by exists (ch :: r).
  - intros Hch Hl. split; [|exists q; by apply set_rx_tx].
    split; cbn [set_rx _rx_buf _rx_len]; try exact Hsz2; rewrite ?length_app; cbn [length]; try lia.
    + exists r. by rewrite <-app_assoc.
    + apply Forall_app. by split; [|constructor].
Qed.

Context {W : Type} (cb : Z → list Z → W → outcome (list (list Z) * W)).

(** The callback, run on each command in turn. *)
Fixpoint obey (cmds : list (Z * list Z)) (w : W) : outcome W :=
  match cmds with
  | [] => Ok w
  | (now, l) :: cmds => '(_, w) ← cb now l w; obey cmds w
  end.

Lemma line_ok now data b up w :
  ble_ok b up data →
  ∃ b', ble_ok b' (link up data) [] ∧
    ble_line cb now data (b, w) = if link up data then '(_, w) ← cb now data w; Ok (b', w) else Ok (b', w).
Proof.
  intros Hok. destruct (response_ok data b up data Hok) as [Hc H1]. unfold ble_line. rewrite Hc.
  destruct (link up data).
  - destruct (cb now data w) as [[l w1]|f].
    + destruct (sends_ok l _ _ _ H1) as (b2 & E & H2). exists (set_rx (_rx_buf b2) 0 b2).
      split; [by eapply ble_reset_ok|]. cbn [mbind outcome_bind]. by rewrite E.
    + eexists. split; [by eapply ble_reset_ok|]. done.
  - eexists. split; [by eapply ble_reset_ok|]. done.
Qed.

(** Receiving never leaves the array, and the callback sees exactly the
    commands of the stream. *)
Lemma rx_heard chars : ∀ b up part w w',
  ble_ok b up part → obey (heard chars up part).1 w = Ok w' →
  ∃ b', ble_rx cb chars (b, w) = Ok (b', w') ∧ ble_ok b' (heard chars up part).2.1 (heard chars up part).2.2.
Proof.
  induction chars as [|[now ch] chars IH]; intros b up part w w' Hok Hw; [injection Hw as <-; by exists b|].
  cbn [ble_rx heard] in *. unfold ble_rx_char. cbv zeta.
  destruct (store_ok b up part (if line_end ch then 0 else ch) Hok) as (rx & -> & Hend & H1 & H2).
  cbn [mbind outcome_bind set_rx _rx_len]. pose proof (rx_count _ _ (proj1 Hok)) as Hn.
  assert ((if line_end ch then 0 else ch) =? 0 = line_end ch || (ch =? 0)) as -> by (by destruct (line_end ch)).
  destruct (line_end ch || (ch =? 0)) eqn:Ech.
  - assert ((if line_end ch then 0 else ch) = 0) as E0 by (apply orb_prop in Ech as [->|?%Z.eqb_eq]; [|case_match]; done).
    rewrite Hn in *. destruct part as [|c part].
    { change (0 <? _) with false. cbn match. apply IH; [|exact Hw]. by apply H1. }
    rewrite (proj2 (Z.ltb_lt 0 _)) by (cbn; lia). rewrite Hend by done. cbn [mbind outcome_bind].
    destruct (line_ok now (c :: part) _ up w H1) as (b2 & Hb2 & ->). pose proof (λ w0, IH b2 _ [] w0 w' Hb2) as IHl. clear IH. rename IHl into IH.
    destruct (heard chars (link up (c :: part)) []) as [cmds s] eqn:Eh. destruct (link up (c :: part)); cbn [fst snd] in *.
    + cbn [obey] in Hw. destruct (cb now (c :: part) w) as [[l w1]|]; [|done]. cbn [mbind outcome_bind] in *. by apply IH.
    + cbn [mbind outcome_bind]. by apply IH.
  - apply orb_false_elim in Ech as [El Hc%Z.eqb_neq]. rewrite El in *. apply IH; [|exact Hw]. rewrite Hn in *.
    destruct (Z.ltb_spec (Z.of_nat (length part)) (TTY_BUF_SIZE - 1)); [by apply H2|done].
Qed.
End lines.

(** ** Sessions *)

Section channel.
Context `{B : BleLib} `{BS : !BleSpec B}.
Context `{F : FlashLib} `{R : EventRepr} `{L : CmdLib} `{LS : !CmdSpec L}.
Context `{FS : !FlashSpec F} `{FR : !FlashReliable F}.
Variable e : cmd_env.

(** What can be seen of a channel: the commands, with the configuration they
    meet and their time, and that a run of the task ends without connection. *)
Inductive ble_ev := Heard (s : storage) (t : Z) (line : list Z) | Dropped.

(** A session begins with a command that holds a password, goes on with every
    command that follows the one before within the limit, and ends with the
    connection; [session tr t]: one is open, its last command came at [t]. *)
Inductive session : list ble_ev → Z → Prop :=
  | session_begins tr s t line :
      carries_password s ACCESS_NONE line → session (tr ++ [Heard s t line]) t
  | session_goes_on tr t0 s t line :
      session tr t0 → t ≤ t0 + ACCESS_BLE_TIMEOUT → session (tr ++ [Heard s t line]) t.

(** The access of the channel never goes beyond what the trace allows. *)
Record channel_ok (tr : list ble_ev) (c : cst) : Prop := {
  ch_clean : cfg_clean (d_storage (c_dev c));
  ch_time : 0 ≤ acc_time (c_acc c);
  ch_access : ¬ session tr (acc_time (c_acc c)) → acc_auth (c_acc c) ≤ ACCESS_NONE
}.

(** The channel after [access_aged]. *)
Lemma aged_access tr c t s line : 0 ≤ acc_time (c_acc c) →
  (¬ session tr (acc_time (c_acc c)) → acc_auth (c_acc c) ≤ ACCESS_NONE) →
  ¬ session (tr ++ [Heard s t line]) t →
  acc_auth (access_aged t ACCESS_BLE_TIMEOUT (c_acc c)) ≤ ACCESS_NONE.
Proof.
  intros Ht Ha Hno. unfold access_aged. cbv zeta. destruct (Z.ltb_spec (u32 (acc_time (c_acc c) + ACCESS_BLE_TIMEOUT)) t); [done|].
  apply Ha. intros Hs. apply Hno. eapply session_goes_on; [exact Hs|]. etransitivity; [exact H|].
  unfold u32. apply Z.mod_le; [|lia]. assert (0 ≤ ACCESS_BLE_TIMEOUT) by (vm_compute; discriminate). lia.
Qed.

Lemma ble_parser_ok tr t line c : 0 ≤ t → channel_ok tr c →
  ∃ l c', ble_parser e t line c = Ok (l, c') ∧ channel_ok (tr ++ [Heard (d_storage (c_dev c)) t line]) c' ∧
    (¬ session (tr ++ [Heard (d_storage (c_dev c)) t line]) t → c_dev c' = c_dev c ∧ c_acts c' = c_acts c).
Proof.
  intros H0 [Hc Ht Ha]. unfold ble_parser, _ble_rx_parser. cbn [c_acc c_now].
  set (c1 := put_acc _ _).
  assert (d_storage (c_dev c1) = d_storage (c_dev c)) as Es by done.
  destruct (process_text_clean e line c1 Hc) as (ok & c' & E & Hc'). rewrite E. cbn [mbind outcome_bind].
  pose proof (process_text_time e _ _ _ _ _ E) as Htime. eexists _, c'. split; [done|].
  assert (¬ session (tr ++ [Heard (d_storage (c_dev c)) t line]) t →
    c_dev c' = c_dev c ∧ c_acts c' = c_acts c ∧ acc_auth (c_acc c') ≤ ACCESS_NONE) as Hkeep.
  { intros Hno. destruct (process_text_unauthorised e line c1 Hc) as (ok2 & c2 & E2 & H2).
    - by eapply aged_access.
    - intros Hp. apply Hno. by apply session_begins.
    - rewrite E in E2. injection E2 as <- <-. exact H2. }
  split; [|naive_solver]. change (acc_time (c_acc c1)) with t in Htime. split; rewrite ?Htime; naive_solver.
Qed.

(** The commands of a run with what they meet. *)
Fixpoint events (cmds : list (Z * list Z)) (c : cst) : list ble_ev :=
  match cmds with
  | [] => []
  | (t, l) :: cmds =>
      Heard (d_storage (c_dev c)) t l ::
      match ble_parser e t l c with Ok (_, c') => events cmds c' | Err _ => [] end
  end.

Definition stamped {A} (l : list (Z * A)) : Prop := Forall (λ x, in_u32 x.1) l.

Lemma obey_ok cmds : ∀ tr c, stamped cmds → channel_ok tr c →
  ∃ c', obey (ble_parser e) cmds c = Ok c' ∧ channel_ok (tr ++ events cmds c) c' ∧
    ((∀ k t, ¬ session (tr ++ take k (events cmds c)) t) → c_dev c' = c_dev c ∧ c_acts c' = c_acts c).
Proof.
  induction cmds as [|[t l] cmds IH]; intros tr c Hst Hok; cbn [obey events].
  { exists c. rewrite app_nil_r. done. }
  inversion Hst as [|? ? Ht Hst']; subst. destruct Ht as [Ht _]. cbn [fst] in Ht.
  destruct (ble_parser_ok tr t l c Ht Hok) as (sent & c1 & -> & H1 & Hk). cbn [mbind outcome_bind].
  destruct (IH _ c1 Hst' H1) as (c2 & -> & H2 & Hk2). exists c2. split; [done|]. rewrite <-app_assoc in H2. split; [done|].
  intros Hno. destruct Hk as [E1 E2].
  { specialize (Hno 1%nat t). done. }
  destruct Hk2 as [E3 E4]; [|by rewrite E3, E4].
  intros k t2. specialize (Hno (S k) t2). cbn [take] in Hno. by rewrite <-app_assoc.
Qed.

Lemma heard_stamped chars : ∀ up part, stamped chars → stamped (heard chars up part).1.
Proof.
  induction chars as [|[t ch] chars IH]; intros up part H; [constructor|]. inversion H as [|? ? Ht H']; subst. cbn [heard].
  destruct (_ || _); [|by apply IH]. destruct part as [|c part]; [by apply IH|]. cbv zeta.
  specialize (IH (link up (c :: part)) [] H'). destruct (heard chars _ []) as [cmds s]. destruct (link up _); [|exact IH].
  constructor; [exact Ht|exact IH].
Qed.

(** The line in progress. *)
Definition in_progress (b : ble) : list Z := take (Z.to_nat (_rx_len b)) (_rx_buf b).
Lemma ok_in_progress b up part : ble_ok b up part → _connected b = up ∧ in_progress b = part.
Proof.
  intros [[Hsz Hn Hroom [k Hk] Hz] [q Hq]]. split; [by rewrite (tx_up _ _ Hq)|].
  unfold in_progress. by rewrite Hn, Hk, Nat2Z.id, take_app_length.
Qed.

(** Runs of the channel: tasks in between may change the device in any way. *)
Definition round_events (chars : list (Z * Z)) (b : ble) (c : cst) : list ble_ev :=
  let '(cmds, (up, _)) := heard chars (_connected b) (in_progress b) in
  events cmds c ++ (if up then [] else [Dropped]).

Inductive ble_run : list ble_ev → ble → cst → Prop :=
  | run_start c : cfg_clean (d_storage (c_dev c)) → c_acc c = Access ACCESS_NONE 0 (acc_source (c_acc c)) (acc_channel (c_acc c)) →
      ble_run [] ble_start c
  | run_others tr b c dev now acts : ble_run tr b c → cfg_clean (d_storage dev) →
      ble_run tr b (Cst dev (c_acc c) now (c_out c) acts)
  | run_round tr b c chars put out b' c' : ble_run tr b c → stamped chars →
      ble_round e chars put (b, c) = Ok (out, (b', c')) → ble_run (tr ++ round_events chars b c) b' c'.

Definition run_ok (tr : list ble_ev) (b : ble) (c : cst) : Prop :=
  channel_ok tr c ∧ ∃ up part, ble_ok b up part.

Lemma session_dropped tr t : ¬ session (tr ++ [Dropped]) t.
Proof. intros H. inversion H as [? ? ? ? ? E|? ? ? ? ? ? ? E]; apply app_inj_tail in E as [_ E]; done. Qed.

Lemma round_ok tr b c chars put : stamped chars → run_ok tr b c →
  ∃ out b' c', ble_round e chars put (b, c) = Ok (out, (b', c')) ∧ run_ok (tr ++ round_events chars b c) b' c' ∧
    ((∀ k t, ¬ session (tr ++ take k (round_events chars b c)) t) → c_dev c' = c_dev c ∧ c_acts c' = c_acts c).
Proof.
  intros Hst [Hch (up & part & Hb)]. destruct (ok_in_progress _ _ _ Hb) as [<- <-]. unfold round_events, ble_round, ble_task.
  pose proof (heard_stamped chars (_connected b) (in_progress b) Hst) as Hst2.
  destruct (obey_ok _ tr c Hst2 Hch) as (c1 & E1 & Hc1 & Hk).
  destruct (rx_heard (ble_parser e) chars b _ _ c c1 Hb E1) as (b1 & -> & Hb1). cbn [mbind outcome_bind].
  destruct (heard chars _ _) as [cmds [up' part']]. cbn [fst snd] in *.
  destruct Hb1 as [Hr [q Hq]]. destruct (tx_step_holds put b1 _ Hq) as (o & b2 & -> & _ & Hq2 & Er & En). cbn [mbind outcome_bind].
  assert (ble_ok b2 up' part') as Hb2.
  { split; [destruct Hr; by split; rewrite ?Er, ?En|]. revert Hq2. unfold spec_do. repeat case_match; eauto. }
  rewrite (proj1 (ok_in_progress _ _ _ Hb2)). eexists _, b2, _. split; [done|]. split; [split; [|by exists up', part']|].
  - destruct Hc1 as [H1 H2 H3]. rewrite app_assoc. destruct up'; cbn [negb].
    + rewrite app_nil_r. unfold _ble_access_update. by destruct (_ =? _).
    + unfold _ble_access_update. destruct (Z.eqb_spec (acc_auth (c_acc c1)) ACCESS_NONE) as [E|E]; split; cbn; try done. by rewrite E.
  - intros Hno. apply Hk. intros k t. specialize (Hno (k `min` length (events cmds c))%nat t).
    rewrite take_app_le in Hno by lia. by rewrite <-take_take, firstn_all in Hno.
Qed.

Lemma run_is_ok tr b c : ble_run tr b c → run_ok tr b c.
Proof.
  induction 1 as [c Hc Ha|tr b c dev now acts H [[H1 H2 H3] Hb] Hd|tr b c chars put out b' c' H IH Hst E].
  - split; [|exists false, []; apply ble_start_ok]. split; [done| |]; rewrite Ha; cbn; [lia|done].
  - by split.
  - destruct (round_ok tr b c chars put Hst IH) as (o & b2 & c2 & E2 & H2 & _). rewrite E in E2. by injection E2 as -> -> ->.
Qed.


End channel.
