(* ===== verification/BleDemo.v ===== *)
(** * A concrete Bluetooth channel: the hypotheses of BleThm hold *)

From S2P Require Import Prelude CText EventTypes EventBuf Storage EventMemory EventQueue.
From S2P Require Import Out Alarm ArmSection System Cfg SiaIp NetTarget Cms EventTask Inp.
From S2P Require Import Update Nmea Gps Report Cmd CmdThm CmdParse CmdDemo Ble BleThm.

#[export] Instance demo_ble : BleLib := {| TTY_BUF_SIZE := 256; ble_render := plain_render |}.
#[export] Instance demo_ble_spec : BleSpec demo_ble.
Proof. by split. Defined.

(** Every character at the same time. *)
Definition at_time (t : Z) (l : list Z) : list (Z * Z) := (λ c, (t, c)) <$> l.

(** The answer to the first command goes out behind a stale character and
    without its end. *)
Lemma ble_tx_refines_witness :
  ∃ b', tx_run (TxSend TEXT_DONE :: replicate 10 (TxPut true)) (_process_response (str "+CONNECTED") ble_start)
        = Ok (0 :: str "DONE" ++ [13], b').
Proof.
  destruct (proj2 (ble_tx_refines (_process_response (str "+CONNECTED") ble_start) 0
    (response_holds (str "+CONNECTED") ble_start (false, [0]) start_holds)) TEXT_DONE 10%nat) as (b' & E & _).
  - vm_compute. reflexivity.
  - cbn. lia.
  - exists b'. exact E.
Defined.

(** ** A phone without a password *)

Lemma session_has_password tr t : BleThm.session tr t →
  ∃ s t' l, Heard s t' l ∈ tr ∧ carries_password s ACCESS_NONE l.
Proof.
  induction 1 as [tr s t l H|tr t0 s t l H (s' & t' & l' & Hin & Hp) Ht].
  - exists s, t, l. split; [|done]. apply elem_of_app. right. by left.
  - exists s', t', l'. split; [|done]. apply elem_of_app. by left.
Qed.

Lemma unquoted_no_password s lvl l : forallb (λ c, negb (c =? 34)) l = true → ¬ carries_password s lvl l.
Proof.
  intros Hq (p & t & r & [k ->] & Hp & _). destruct p as [|c p]; [done|]. cbn [parse_string demo_cmd] in Hp.
  rewrite forallb_app in Hq. apply andb_prop in Hq as [_ Hq]. cbn [forallb] in Hq. by destruct (c =? 34).
Qed.

Lemma events_lines cmds : ∀ c s t l, Heard s t l ∈ events demo_env cmds c → (t, l) ∈ cmds.
Proof.
  induction cmds as [|[t0 l0] cmds IH]; intros c s t l; cbn [events]; [by intros ?%not_elem_of_nil|].
  intros [[= _ -> ->]|H]%elem_of_cons; [by left|]. right.
  destruct (ble_parser demo_env t0 l0 c) as [[x c1]|]; [by eapply IH|by apply not_elem_of_nil in H].
Qed.

Definition intruder : list (Z * Z) := at_time 5000 (str "+CONNECTED" ++ [13] ++ str "UNSET" ++ [10] ++ str "UPDATE" ++ [13]).


(** ** A session outlives its connection

    A phone that disconnects and another one that connects within one run of
    the slow task: the access is looked at only after the run, so that the second
    phone has what the first one was given, here to arm the car. *)
Example ble_reconnect_keeps_access :
  let first := at_time 5000 (str "+CONNECTED" ++ [13] ++ str "AUTH=" ++ QUOTE ++ str "admin" ++ QUOTE ++ [13]) in
  let second := at_time 6000 (str "+DISCONNECT" ++ [13] ++ str "+CONNECTED" ++ [13] ++ str "SET" ++ [13]) in
  match ble_round demo_env first true (ble_start, CmdDemo.session ACCESS_NONE) with
  | Ok (_, (b, c)) =>
      match ble_round demo_env second true (b, c) with
      | Ok (_, (b, c')) => (acc_auth (c_acc c') =? ACCESS_ADMIN) && negb (length (c_acts c') =? length (c_acts c))%nat
      | _ => false
      end
  | _ => false
  end = true.
Proof. vm_compute. reflexivity. Qed.
