(* ===== verification/Net.v ===== *)
(** * The network layer of the application (app/net.c, modem/modem_main.c)

    Server addresses resolved through the modem, the connection, and the
    distribution of received datagrams to the tracker, the update and the
    monitoring station's client. *)

From S2P Require Import Prelude CText EventTypes EventBuf Storage EventMemory EventQueue Out.
From S2P Require Import Alarm ArmSection System Cfg SiaIp NetTarget Cms EventTask TracerBuf.
From S2P Require Import Inp Update Nmea Gps Report Cmd TracerProto Tracer ModemAt ModemCmd ModemUdp ModemMain.

Section net.
Context `{F : FlashLib} `{M : ModemLib}.
Variable env : Z → list maction → list Z * Z.
Variable st : storage.
Variable hex : list Z → list Z.

(** src/app/net.c:12-15 (net_ready) *)
Definition net_ready (w : mworld) : bool := modem_main_data w.

(** src/app/net.c:17-28 (net_connect) *)
Definition net_connect (s : mmain) : MM bool :=
  up ← see udp_ready;
  if up : bool then mret true
  else
    match cfg_text st CFG_ID_APN with
    | None => mret false
    | Some apn => modem_main_data_connect env apn s
    end.

(** src/modem/modem_main.c:530-536 (modem_main_dns_resolve) *)
Definition modem_main_dns_resolve (host : list Z) : MM (option Z) := modem_bg95_dns_resolve env host.

(** src/modem/modem_main.c:522-528 (modem_main_udp_send) *)
Definition modem_main_udp_send (ip port : Z) (data : list Z) : MM bool := modem_bg95_udp_send env hex ip port data.

(** src/modem/modem_udp.c:13-18 (udp_tx) *)
Definition udp_tx (ip port : Z) (data : list Z) : MM bool := modem_main_udp_send ip port data.

(** src/app/net.c:84-87 (net_udp_tx) *)
Definition net_udp_tx (ip port : Z) (data : list Z) : MM bool := udp_tx ip port data.

(** The result, [*ip] and what is written to [*port]; [net_get_target_ip] is the
    same with the resolver's answer as an argument. *)
(** src/app/net.c:48-82 (net_get_target_ip) *)
Definition net_resolve_target (url : list Z) : MM (bool * Z * option Z) :=
  let t := net_target_parse url NET_TARGET_HOST_MAX in
  match t_type t with
  | NET_TARGET_IP => mret (true, t_ip t, t_port t)
  | NET_TARGET_NAME =>
      r ← modem_main_dns_resolve (default [] (t_host t));
      match r with
      | Some addr => mret (if negb (addr =? 0) then (true, addr, t_port t) else (false, 0, t_port t))
      | None => mret (false, 0, t_port t)
      end
  | NET_TARGET_INVALID => mret (false, t_ip t, t_port t)
  end.

End net.

(** ** Received datagrams *)

Section rx.
Context `{F : FlashLib} `{R : EventRepr} `{L : CmdLib} `{P : PatternLib} `{SR : StampRepr}.
Variable HW_INFO_addr : Z.

(** The components behind the callback of udp_rx. *)
Record net_state := NetState { n_tracer : tracer_world; n_update : update; n_cms : cms }.

(** src/app/net.c:92-101 (net_udp_rx) *)
Definition net_udp_rx (port : Z) (data : list Z) (s : net_state) : outcome net_state :=
  '(done, t) ← tracer_packet_rx data port (n_tracer s);
  if done : bool then Ok (NetState t (n_update s) (n_cms s))
  else
    let '(done, u) := update_packet_rx HW_INFO_addr (port, data) (n_update s) in
    if done : bool then Ok (NetState t u (n_cms s))
    else
      '(done, c) ← cms_udp_rx data port (n_cms s);
      Ok (NetState t u c).

End rx.
