(* ===== verification/NetThm.v ===== *)
(** * What the network layer guarantees (app/net.c)

    An address comes from the configuration or from an answer of the module, and
    the components that share the receiver do not disturb each other. *)

From S2P Require Import Prelude CText EventTypes EventBuf Storage EventMemory EventQueue Out.
From S2P Require Import Alarm ArmSection System Cfg SiaIp NetTarget Cms EventTask TracerBuf.
From S2P Require Import Inp Update Nmea Gps Report Cmd TracerProto Tracer ModemAt ModemUrc ModemLink.
From S2P Require Import ModemCmd ModemUdp ModemMain ModemRun ModemHear ModemTx Net.

(** ** Addresses *)

Section dns.
Context `{F : FlashLib} `{M : ModemLib} `{MS : !ModemSpec M} `{CS : !CmdSpec ml_cmd}.
Variable env : Z → list maction → list Z * Z.

(** A line of the module that answers a query with [ip]: a quoted address in
    the message that announces answers. *)
Definition dns_answer (line : list Z) (ip : Z) : Prop :=
  ∃ q q', modem_parse_pattern line (qstr "+QIURC: 'dnsgip',") = Some q ∧ q' `suffix_of` q ∧ _dnsgip_ip q' = Some ip.

Definition dns (w : mworld) : dns_state := bg_dns (mw_bg w).

(** What the lines [ls] can do to the answer. *)
Definition told (ls : list (list Z)) (w w' : mworld) : Prop :=
  dns_ok (dns w') = true →
  dns_ok (dns w) = true ∧ dns_ip (dns w') = dns_ip (dns w) ∨ ∃ l, l ∈ ls ∧ dns_answer l (dns_ip (dns w')).

Lemma told_same ls w w' : dns w' = dns w → told ls w w'.
Proof. intros E H. rewrite E in *. by left. Qed.

Lemma told_trans l1 l2 w1 w2 w3 : told l1 w1 w2 → told l2 w2 w3 → told (l1 ++ l2) w1 w3.
Proof.
  intros H1 H2 H. destruct (H2 H) as [[H' ->]|(l & ? & ?)]; [|right; exists l; rewrite elem_of_app; auto].
  destruct (H1 H') as [?|(l & ? & ?)]; [by left|right; exists l; rewrite elem_of_app; auto].
Qed.

Lemma skip_blanks_suffix s : skip_blanks s `suffix_of` s.
Proof. induction s as [|c s IH]; [done|]. cbn [skip_blanks]. case_match; [by apply suffix_cons_r|done]. Qed.
Lemma from_quote_suffix s q : from_quote s = Some q → q `suffix_of` s.
Proof. induction s as [|c s IH]; [done|]. cbn [from_quote]. case_match; [by intros [= <-]|]. intros H'. by apply suffix_cons_r, IH. Qed.

Lemma match_quote {A} (x y : A) q :
  match q with 34 :: _ => x | _ => y end = if match q with c :: _ => c =? 34 | [] => false end then x else y.
Proof.
  destruct q as [|c q]; [done|]. destruct (Z.eqb_spec c 34) as [->|Hc]; [done|].
  destruct c as [|p|p]; [done| |done]. do 6 (destruct p as [p|p|]; try done).
Qed.

Lemma parse_tells line d : let d' := (modem_bg95_dnsgip_parse line d).2 in
  dns_ok d' = true → dns_ok d = true ∧ dns_ip d' = dns_ip d ∨ dns_answer line (dns_ip d').
Proof.
  cbv zeta. unfold modem_bg95_dnsgip_parse. destruct (modem_parse_pattern _ _) as [q|] eqn:Ep; [|by left]. cbv zeta.
  assert (∀ q', q' `suffix_of` q → let d' := match _dnsgip_ip q' with Some ip => DnsState (dns_active d) true true ip | None => d end in
    dns_ok d' = true → dns_ok d = true ∧ dns_ip d' = dns_ip d ∨ dns_answer line (dns_ip d')) as Haddr.
  { intros q' Hq. cbv zeta. destruct (_dnsgip_ip q') as [ip|] eqn:E; [|by left]. intros _. right. by exists q, q'. }
  rewrite match_quote. pose proof (skip_blanks_suffix q) as Hs.
  destruct (match skip_blanks q with c :: _ => _ | [] => _ end); [by apply Haddr|].
  destruct (parse_number (skip_blanks q)) as [[err q1]|] eqn:En; [|by left].
  destruct (negb (err =? 0)); [done|]. destruct (from_quote q1) as [q2|] eqn:Eq; [|by left].
  apply Haddr. apply from_quote_suffix in Eq. apply parse_number_suffix in En. do 2 (etransitivity; [eassumption|]). done.
Qed.

Lemma urc_tells src n w : told [src] w (modem_parse_urc src n w).2.
Proof.
  unfold modem_parse_urc, urc_cme_error, urc_cms_error, urc_creg, urc_cereg, urc_cgreg, urc_cmti, urc_cpms, urc_csq, modem_bg95_urc,
    bg95_data_line, bg95_qird, bg95_qiopen, _udp_rx_hex, udp_rx.
  repeat case_match; cbn [snd]; try (apply told_same; reflexivity).
  intros Hok. destruct (parse_tells src (dns w) Hok) as [E|E]; [left; exact E|]. right. exists src. split; [by left|exact E].
Qed.

Lemma line_tells src n w : told [src] w (at_line src n w).
Proof.
  unfold at_line. set (w1 := at_set AT_ST_LINE w). case_match; [by apply told_same|]. case_match; [by apply told_same|].
  pose proof (urc_tells src n w1) as H1. change (told [src] w (modem_parse_urc src n w1).2) in H1.
  destruct (modem_parse_urc src n w1) as [[] w2]; cbn [snd] in H1; [done|].
  assert (dns (at_keep_response src n w2) = dns w2) as E by (unfold at_keep_response; by repeat case_match).
  unfold told in *. by rewrite E.
Qed.

Lemma rx_tells chars w : told (lines (rx_buf (w_at w)) chars) w (modem_rx_task chars w).
Proof.
  refine (proj1 (rx_rule told _ told_trans (λ src n w _, line_tells src n w) _ _ chars w)); intros; by apply told_same.
Qed.

(** Between two moments: the characters received and what they tell. *)
Definition tells (w w' : mworld) : Prop := ∃ l,
  mw_log w' = mw_log w ++ l ∧ rx_buf (w_at w') = left_over (rx_buf (w_at w)) (rx_chars l) ∧
  told (lines (rx_buf (w_at w)) (rx_chars l)) w w'.

#[local] Instance tells_preorder : PreOrder tells.
Proof.
  split.
  - intros w. exists []. rewrite app_nil_r. split; [done|]. split; [done|]. by apply told_same.
  - intros w1 w2 w3 (l1 & E1 & B1 & S1) (l2 & E2 & B2 & S2). exists (l1 ++ l2). rewrite E2, E1, <-app_assoc.
    split; [done|]. rewrite rx_chars_app, lines_app. split; [rewrite B2, B1; symmetry; apply foldl_app|].
    rewrite B1 in S2. by eapply told_trans.
Qed.

Lemma tells_yield : keeps tells (yield env).
Proof.
  intros w d w'. unfold yield. destruct (env _ _) as [chars d0]. cbv zeta. set (w1 := set_now _ _). intros [= <- <-].
  destruct (quiet_rx chars w1 w1) as [_ (l & El & Rl%told_chars) _ _]; [done|]. exists (MRx chars :: l).
  assert (rx_chars (MRx chars :: l) = chars) as -> by (change (MRx chars :: l) with ([MRx chars] ++ l); rewrite rx_chars_app, Rl;
    unfold rx_chars; cbn; by rewrite !app_nil_r).
  rewrite El. split; [unfold w1; cbn; by rewrite <-app_assoc|].
  destruct (rx_says [] chars w1) as [_ E]. rewrite E. split; [done|]. apply (rx_tells chars w1).
Qed.

Lemma tells_act f l : (∀ w, mw_log (f w) = mw_log w ++ l) → rx_chars l = [] →
  (∀ w, rx_buf (w_at (f w)) = rx_buf (w_at w)) → (∀ w, dns (f w) = dns w) → keeps tells (act f).
Proof.
  intros H1 H2 H3 H4. apply keeps_act. intros w. exists l. rewrite H1, H2, H3. split; [done|]. split; [done|]. by apply told_same.
Qed.

Ltac tell_step :=
  match goal with
  | |- keeps _ (mret _) => apply keeps_ret, _
  | |- keeps _ (see _) => apply keeps_see, _
  | |- keeps _ stuck => apply keeps_stuck
  | |- keeps _ (_ ≫= _) => apply keeps_bind; [apply _| |intros ?]
  | |- keeps _ (match ?c with _ => _ end) => destruct c
  | |- keeps _ (act _) => first [eapply (tells_act _ []); [intros ?; symmetry; apply app_nil_r|done..] | by eapply (tells_act _ [_])]
  | |- keeps _ (while_before _ _) => apply keeps_while_before; [apply _|]
  | |- keeps _ (yield _) => apply tells_yield
  end.

Lemma tells_delay ms : keeps tells (OS_DELAY env ms).
Proof.
  unfold OS_DELAY. revert ms. assert (∀ n left, keeps tells (delay_loop env n left)) as H by
    (induction n as [|n IH]; intros left; cbn [delay_loop]; repeat tell_step; apply IH). intros ms. apply H.
Qed.
Lemma tells_lock : keeps tells (modem_at_lock env).
Proof. unfold modem_at_lock, modem_at_wakeup, _hw_wakeup, pin. repeat tell_step. apply tells_delay. Qed.
Lemma tells_unlock : keeps tells modem_at_unlock.
Proof. unfold modem_at_unlock. repeat tell_step. Qed.
Lemma tells_cmd c : keeps tells (modem_at_cmd_nolock c).
Proof. unfold modem_at_cmd_nolock, modem_tx_data. repeat tell_step. Qed.
Lemma tells_response u fl t : keeps tells (modem_at_response env u fl t).
Proof. unfold modem_at_response. repeat tell_step. Qed.
Lemma tells_await : keeps tells (await_answer env).
Proof. unfold await_answer. repeat tell_step. apply tells_delay. Qed.

Lemma await_true w w' : await_answer env w = Some (true, w') → dns_ok (dns w') = true.
Proof.
  unfold await_answer. intros E. apply bind_Some in E as (now & w1 & E1 & E). injection E1 as <- <-.
  apply bind_Some in E as (r & w2 & E2 & E). injection E as Er <-. destruct r as [b|]; [|done]. cbn in Er. subst b.
  unfold while_before in E2.
  refine (mloop_result (λ (b : bool) w', b = true → dns_ok (dns w') = true) _ _ _ _ _ _ _ E2 eq_refl).
  intros w3 b w4 E3 ->. apply bind_Some in E3 as (d & w5 & E4 & E3). injection E4 as <- <-.
  destruct (dns_done _); [by injection E3 as E3 <-|]. by apply bind_Some in E3 as (? & w6 & _ & E3).
Qed.

(** An address the module resolved was heard from it while the query ran. *)
Lemma resolve_heard host w ip w' : modem_bg95_dns_resolve env host w = Some (Some ip, w') →
  ∃ l, mw_log w' = mw_log w ++ l ∧ MTx (qstr "AT+QIDNSGIP=1,'" ++ host ++ qstr "'") ∈ l ∧
    ∃ ln, ln ∈ lines (rx_buf (w_at w)) (rx_chars l) ∧ dns_answer ln ip.
Proof.
  unfold modem_bg95_dns_resolve. destruct (_ || _); [done|]. intros E.
  apply bind_Some in E as (up & w1 & E1 & E). injection E1 as <- <-. destruct (negb _); [done|].
  apply bind_Some in E as ([] & w1 & E1 & E). injection E1 as E1.
  apply bind_Some in E as ([] & w2 & E2%tells_lock & E). set (c := _ ++ host ++ _) in *.
  apply bind_Some in E as ([] & w3 & E3 & E). pose proof E3 as T3. apply tells_cmd in T3.
  apply bind_Some in E as (r & w4 & E4%tells_response & E). apply bind_Some in E as ([] & w5 & E5%tells_unlock & E).
  destruct (negb (has r AT_ST_OK)); [apply bind_Some in E as ([] & ? & _ & E); done|].
  apply bind_Some in E as (res & w6 & E6 & E). pose proof E6 as T6. apply tells_await in T6.
  apply bind_Some in E as ([] & w7 & E7 & E). injection E7 as E7. apply bind_Some in E as (ip' & w8 & E8 & E).
  injection E8 as E8 <-. destruct res; [|done]. injection E as E <-. apply await_true in E6.
  assert (tells w1 w7) as (l & El & _ & Hl).
  { do 4 (etransitivity; [eassumption|]). etransitivity; [exact T6|]. exists []. rewrite app_nil_r, <-E7.
    split; [done|]. split; [done|]. intros H. left. split; [exact E6|done]. }
  exists l. rewrite El, <-E1. split; [done|]. split.
  - destruct E2 as (l2 & E2 & _), T3 as (l3 & T3 & _). assert (tells w3 w7) as (l4 & E4' & _).
    { do 2 (etransitivity; [eassumption|]). etransitivity; [exact T6|]. exists []. rewrite app_nil_r, <-E7.
      split; [done|]. split; [done|]. intros H. left. split; [exact E6|done]. }
    assert (MTx c ∈ l3) as Hc.
    { assert (mw_log w3 = mw_log w2 ++ [MTx c; MTx [13; 10]]) as El3.
      { injection E3 as <-. cbn. by rewrite <-app_assoc. }
      rewrite El3 in T3. apply app_inv_head in T3 as <-. by left. }
    rewrite E4', T3, E2, <-!app_assoc in El. apply app_inv_head in El as <-. rewrite !elem_of_app. auto.
  - destruct Hl as [[H _]|H].
    + rewrite <-E7. exact E6.
    + exfalso. rewrite <-E1 in H. done.
    + rewrite <-E1 in H. subst ip' ip. exact H.
Qed.

(** C12 (safety). A server's address is either the number in the configuration,
    and then nothing is transmitted for it, or, for a name, an address other
    than 0 that the module named in an answer after the unit began to ask for
    exactly that name. *)
Theorem net_target_heard url w ip port w' :
  net_resolve_target env url w = Some ((true, ip, port), w') →
  let t := net_target_parse url NET_TARGET_HOST_MAX in
  port = t_port t ∧
  match t_type t with
  | NET_TARGET_IP => ip = t_ip t ∧ w' = w
  | NET_TARGET_NAME =>
      ip ≠ 0 ∧ ∃ l, mw_log w' = mw_log w ++ l ∧ MTx (qstr "AT+QIDNSGIP=1,'" ++ default [] (t_host t) ++ qstr "'") ∈ l ∧
        ∃ ln, ln ∈ lines (rx_buf (w_at w)) (rx_chars l) ∧ dns_answer ln ip
  | NET_TARGET_INVALID => False
  end.
Proof.
  cbv zeta. unfold net_resolve_target. destruct (t_type _).
  - intros [=].
  - by intros [= <- <- <-].
  - intros E. apply bind_Some in E as (r & w1 & E1 & E). destruct r as [addr|]; [|done].
    destruct (Z.eqb_spec addr 0) as [|Hne]; [done|]. injection E as <- <- <-. split; [done|]. split; [done|].
    by apply resolve_heard.
Qed.
End dns.

(** ** Received datagrams *)

Section rx.
Context `{F : FlashLib} `{R : EventRepr} `{L : CmdLib} `{P : PatternLib} `{SR : StampRepr}.
Variable HW_INFO_addr : Z.

(** Each component on its own, and all behind the one callback. *)
Fixpoint tracer_rx_all (ds : list (Z * list Z)) (t : tracer_world) : outcome tracer_world :=
  match ds with [] => Ok t | (port, data) :: ds => '(_, t) ← tracer_packet_rx data port t; tracer_rx_all ds t end.
Fixpoint cms_rx_all (ds : list (Z * list Z)) (c : cms) : outcome cms :=
  match ds with [] => Ok c | (port, data) :: ds => '(_, c) ← cms_udp_rx data port c; cms_rx_all ds c end.
Fixpoint net_rx_all (ds : list (Z * list Z)) (s : net_state) : outcome net_state :=
  match ds with [] => Ok s | (port, data) :: ds => s ← net_udp_rx HW_INFO_addr port data s; net_rx_all ds s end.

Definition from_port (p : Z) (ds : list (Z * list Z)) : list (Z * list Z) := filter (λ d, d.1 = p) ds.

(** A component looks only at its server's port, which no datagram changes. *)
Lemma tracer_other data port t : port ≠ tr_port (w_t t) → tracer_packet_rx data port t = Ok (false, t).
Proof. intros H. unfold tracer_packet_rx. by rewrite (proj2 (Z.eqb_neq _ _) H). Qed.
Lemma update_other data port u : port ≠ _server_port u → update_packet_rx HW_INFO_addr (port, data) u = (false, u).
Proof. intros H. unfold update_packet_rx. by rewrite (proj2 (Z.eqb_neq _ _) H). Qed.
Lemma cms_other data port c : port ≠ server_port c → cms_udp_rx data port c = Ok (false, c).
Proof. intros H. unfold cms_udp_rx. by rewrite (proj2 (Z.eqb_neq _ _) H). Qed.

Lemma tracer_port_kept data port t b t' : tracer_packet_rx data port t = Ok (b, t') → tr_port (w_t t') = tr_port (w_t t).
Proof.
  unfold tracer_packet_rx. destruct (negb _); [by intros [= _ <-]|].
  destruct (p_packet_reply_ok _ _ _) as [ok|]; [|done]. cbn [mbind outcome_bind]. by destruct (negb ok); intros [= _ <-].
Qed.
Lemma update_port_kept p u : _server_port (update_packet_rx HW_INFO_addr p u).2 = _server_port u.
Proof.
  unfold update_packet_rx, _write_chunk. cbv zeta. destruct p as [port data].
  destruct (storage_write_fw _ _ _) as [x s]. by repeat case_match.
Qed.
Lemma cms_port_kept data port c b c' : cms_udp_rx data port c = Ok (b, c') → server_port c' = server_port c.
Proof.
  unfold cms_udp_rx, _cms_fail. destruct (negb (_ =? _)); [by intros [= _ <-]|].
  destruct (_sia_proto_packet_reply _ _) as [reply|]; [|done]. cbn [mbind outcome_bind].
  destruct reply; [by intros [= _ <-]|..]; (destruct (negb _); [by intros [= _ <-]|]); destruct (bool_decide _);
    (destruct (event_buf_done_events _ _) as [eb|]; [|done]); cbn [mbind outcome_bind]; by intros [= _ <-].
Qed.

(** C13 (equivalence). The receiver's callback shares datagrams out without
    mixing: as long as the three servers have different ports, any sequence of
    datagrams leaves the tracker, the update and the client of the monitoring
    station as if each had received only the ones from its own server, so that
    what is proved of one of them alone holds for the device. *)
Theorem net_udp_isolated ds : ∀ s t c,
  NoDup [tr_port (w_t (n_tracer s)); _server_port (n_update s); server_port (n_cms s)] →
  tracer_rx_all (from_port (tr_port (w_t (n_tracer s))) ds) (n_tracer s) = Ok t →
  cms_rx_all (from_port (server_port (n_cms s)) ds) (n_cms s) = Ok c →
  net_rx_all ds s = Ok (NetState t (rx_all HW_INFO_addr (from_port (_server_port (n_update s)) ds) (n_update s)) c).
Proof.
  induction ds as [|[port data] ds IH]; intros [tr up cm] t c Hd; cbn [n_tracer n_update n_cms] in *.
  { by intros [= <-] [= <-]. }
  pose proof Hd as Hd'. rewrite !NoDup_cons, !not_elem_of_cons in Hd'. destruct Hd' as ((Htu & Htc & _) & (Huc & _) & _).
  unfold from_port in *. rewrite !filter_cons. cbn [fst net_rx_all]. unfold net_udp_rx. cbn [n_tracer n_update n_cms].
  destruct (decide (port = tr_port (w_t tr))) as [->|Ht].
  { rewrite (decide_False (P := tr_port (w_t tr) = _)), (decide_False (P := tr_port (w_t tr) = _)) by done. cbn [tracer_rx_all].
    destruct (tracer_packet_rx data _ tr) as [[b tr1]|] eqn:E; [|done]. cbn [mbind outcome_bind]. intros H1 H2.
    pose proof (tracer_port_kept _ _ _ _ _ E) as Ep. rewrite <-Ep in H1, Hd.
    rewrite update_other, cms_other by (rewrite ?Ep; done). cbn [mbind outcome_bind].
    destruct b; cbn [mbind outcome_bind]; by apply (IH (NetState tr1 up cm)). }
  rewrite (tracer_other data port tr Ht). cbn [mbind outcome_bind].
  destruct (decide (port = _server_port up)) as [->|Hu].
  { rewrite decide_False by done. intros H1 H2. pose proof (update_port_kept (_server_port up, data) up) as Ep.
    unfold rx_all. cbn [foldl]. destruct (update_packet_rx _ _ up) as [b up1]. cbn [snd] in *. rewrite <-Ep in Hd.
    pose proof (IH (NetState tr up1 cm) t c Hd) as H. cbn [n_tracer n_update n_cms] in H. rewrite Ep in H.
    rewrite cms_other by done. destruct b; cbn [mbind outcome_bind]; by apply H. }
  rewrite (update_other data port up Hu). cbn [mbind outcome_bind].
  destruct (decide (port = server_port cm)) as [->|Hc]; cbn [cms_rx_all].
  { destruct (cms_udp_rx data _ cm) as [[b cm1]|] eqn:E; [|done]. cbn [mbind outcome_bind]. intros H1 H2.
    pose proof (cms_port_kept _ _ _ _ _ E) as Ep. rewrite <-Ep in H2, Hd. by apply (IH (NetState tr up cm1)). }
  rewrite (cms_other data port cm Hc). cbn [mbind outcome_bind]. intros H1 H2. by apply (IH (NetState tr up cm)).
Qed.

End rx.
