(* ===== verification/App.v ===== *)
(** * The application's own tasks (app/app.c; modem_main_get_time of modem/modem_main.c)

    Requests to read the configuration again, the clock, the sequence of the
    LED.  The handlers a request starts are in the files of their components. *)

From S2P Require Import Prelude CText EventTypes EventBuf Storage EventMemory EventQueue Out.
From S2P Require Import Alarm ArmSection System Cfg SiaIp NetTarget Cms EventTask TracerBuf.
From S2P Require Import Inp Update Nmea Gps Report Cmd CmdThm TracerProto ModemAt ModemUrc ModemLink.
From S2P Require Import ModemCmd ModemUdp ModemMain ModemSms ModemRun ModemHear ModemTx.

(** The calendar of the SDK. *)
Class RtcLib := {
  rtc_add_hours : rtc_t → Z → rtc_t;
  rtc_dst_active : rtc_t → bool
}.

(** ** Requests *)

(** src/app/app.c:181-184 (_REINIT_MAIN .. _REINIT_CMS) *)
Definition reinit_bit (r : reinit) : Z :=
  match r with
  | REINIT_MAIN => bit 0 | REINIT_TRACER => bit 1 | REINIT_MODEM => bit 2 | REINIT_CMS => bit 3
  | REINIT_NONE | REINIT_OUT_TABLE => 0
  end.

(** [_reinit_mask |= ..]; the table of outputs is read again at once, by the
    caller. *)
(** src/app/app.c:292-320 (app_reinit_req) *)
Definition reinit_request (r : reinit) (mask : Z) : Z := Z.lor mask (reinit_bit r).

(** The handlers in their order; [meanwhile r] are the requests other tasks make
    while the handler of [r] runs.  The result is the handlers run and the mask. *)
Definition handlers : list reinit := [REINIT_MAIN; REINIT_TRACER; REINIT_MODEM; REINIT_CMS].
Fixpoint run_handlers (l : list reinit) (meanwhile : reinit → list reinit) (mask now : Z) : list reinit * Z :=
  match l with
  | [] => ([], now)
  | r :: l =>
      if has mask (reinit_bit r) then
        let '(ran, now) := run_handlers l meanwhile mask (foldl (λ m q, reinit_request q m) now (meanwhile r)) in
        (r :: ran, now)
      else run_handlers l meanwhile mask now
  end.
(** src/app/app.c:186-206 (_reinit_task) *)
Definition _reinit_task (meanwhile : reinit → list reinit) (_reinit_mask : Z) : list reinit * Z :=
  if _reinit_mask =? 0 then ([], _reinit_mask)
  else
    let mask := _reinit_mask in
    let '(ran, now) := run_handlers handlers meanwhile mask _reinit_mask in
    (ran, clr now mask).

(** ** Settings of the application *)

(** src/app/app.c:40-42 (_SIREN_BEEP_TIME_MIN, _SIREN_BEEP_TIME_DEF, _SIREN_BEEP_TIME_MAX) *)
Definition _SIREN_BEEP_TIME_MIN : Z := 0.
Definition _SIREN_BEEP_TIME_DEF : Z := 5.
Definition _SIREN_BEEP_TIME_MAX : Z := 50.

(** The first of up to three numbers; the others are not used. *)
(** src/app/app.c:137-164 (app_main_reinit) *)
Definition app_main_reinit `{F : FlashLib} (s : storage) (_siren_beep_time : Z) : outcome Z :=
  '(ok, cfg) ← cfg_read CFG_ID_MAIN_SETUP ACCESS_SYSTEM s;
  if negb (ok : bool) then Ok _siren_beep_time
  else
    match scan_s32 cfg with
    | Some (a, _) =>
        Ok (if (_SIREN_BEEP_TIME_MIN <=? a) && (a <=? _SIREN_BEEP_TIME_MAX) then a else _SIREN_BEEP_TIME_DEF)
    | None => Ok _SIREN_BEEP_TIME_DEF
    end.

(** ** The LED *)

(** src/app/app.h:7-14 (APP_LED_IDLE .. APP_LED_TRACKING) *)
Definition APP_LED_IDLE : Z * Z := (0, 10).
Definition APP_LED_SET : Z * Z := (1, 10).
Definition APP_LED_SET_PART : Z * Z := (5, 10).
Definition APP_LED_ALARM : Z * Z := (13107, 16).
Definition APP_LED_ALARM_MEMORY : Z * Z := (4369, 16).
Definition APP_LED_MODEM_INIT : Z * Z := (255, 16).
Definition APP_LED_MODEM_ERROR : Z * Z := (3855, 16).
Definition APP_LED_TRACKING : Z * Z := (65535, 16).

(** The sequence set, if one is. *)
(** src/app/app.c:53-89 (_led_update) *)
Definition _led_update (alarm : alarm_state_e) (modem : modem_main_state_e) (tracking : bool) (st : Z) : option (Z * Z) :=
  match alarm with
  | ALARM_ACTIVE => Some APP_LED_ALARM
  | ALARM_TIMEOUT => Some APP_LED_ALARM_MEMORY
  | ALARM_IDLE =>
      match modem with
      | MODEM_MAIN_STATE_INIT => Some APP_LED_MODEM_INIT
      | MODEM_MAIN_STATE_ERROR => Some APP_LED_MODEM_ERROR
      | _ =>
          if tracking then Some APP_LED_TRACKING
          else if st =? SECTION_ST_UNSET then Some APP_LED_IDLE
          else if st =? SECTION_ST_SET_PART then Some APP_LED_SET_PART
          else if st =? SECTION_ST_SET then Some APP_LED_SET
          else None
      end
  end.

(** ** The clock *)

(** The seven numbers of the module's clock, its time zone last. *)
(** src/modem/modem_main.c:560-561 (sscanf) *)
Definition scan_clock (s : list Z) : option (rtc_t * Z) :=
  s ← scan_char 34 s;
  '(Y, s) ← scan_uint 10 2 s; s ← scan_char 47 s;
  '(M, s) ← scan_uint 10 2 s; s ← scan_char 47 s;
  '(D, s) ← scan_uint 10 2 s; s ← scan_char 44 s;
  '(h, s) ← scan_uint 10 2 s; s ← scan_char 58 s;
  '(m, s) ← scan_uint 10 2 s; s ← scan_char 58 s;
  '(sec, s) ← scan_uint 10 2 s;
  '(z, _) ← scan_s32 s;
  Some (Rtc (u8 Y) (u8 M) (u8 D) (u8 h) (u8 m) (u8 sec), z).

Section clock.
Context `{F : FlashLib} `{S : SmsLib} `{RL : RtcLib}.
Variable env : Z → list maction → list Z * Z.
Variable st : storage.

(** src/modem/modem_main.c:548-580 (modem_main_get_time) *)
Definition modem_main_get_time : MM (option rtc_t) :=
  r ← modem_at_cmd_get_response env (str "AT+CCLK?") (Some (str "+CCLK: "));
  mret (if (r.1 : bool) then fst <$> scan_clock (drop 7 (buf_text 32 r.2)) else None).

(** What the clock is set to. *)
(** src/app/app.c:208-217 (_time_sync_utc) *)
Definition _time_sync_utc (time : rtc_t) : outcome rtc_t :=
  zone ← cfg_read_nparam CFG_ID_TIME_ZONE 0 st;
  let time := rtc_add_hours time zone in
  summer ← cfg_read_nparam CFG_ID_TIME_ZONE 1 st;
  Ok (if (summer =? 1) && rtc_dst_active time then rtc_add_hours time 1 else time).

(** The statics of the task. *)
(** src/app/app.c:223-224 (_time_sync_task) *)
Record time_sync := TimeSync { sync_time : Z; sync_modem : bool }.
(** src/app/app.c:221-221 (_TIME_SYNC_PERIOD) *)
Definition _TIME_SYNC_PERIOD : Z := 30 * (60 * OS_TIMER_SECOND).
Definition time_sync_boot : time_sync := TimeSync (u32 (0 - _TIME_SYNC_PERIOD)) true.

(** The statics after the call and what the clock is set to, if it is. *)
(** src/app/app.c:219-251 (_time_sync_task) *)
Definition _time_sync_task (g : gps) (s : mmain) (t : time_sync) : MM (time_sync * option (outcome rtc_t)) :=
  now ← see mw_now;
  if now <? u32 (sync_time t + _TIME_SYNC_PERIOD) then mret (t, None)
  else if gps_fix_ok g then
    let '(ok, stamp) := gps_get_current_stamp g in
    if negb ok then mret (t, None)
    else mret (TimeSync now (sync_modem t), Some (_time_sync_utc (n_time stamp)))
  else if sync_modem t && bool_decide (modem_main_state s = MODEM_MAIN_STATE_NET_OK) then
    r ← modem_main_get_time;
    mret (TimeSync (sync_time t) false, _time_sync_utc <$> r)
  else mret (t, None).

End clock.

(** ** What they guarantee *)

(** A request in the mask. *)
Definition pending (mask : Z) (r : reinit) : bool := has mask (reinit_bit r).

Lemma handler_bit r : r ∈ handlers → ∃ n, 0 ≤ n ∧ ∀ q, reinit_bit q = (if bool_decide (q = r) then bit n else reinit_bit q) ∧
  (q ≠ r → Z.testbit (reinit_bit q) n = false).
Proof.
  unfold handlers. rewrite !elem_of_cons, elem_of_nil.
  intros [->|[->|[->|[->|[]]]]]; [exists 0|exists 1|exists 2|exists 3]; (split; [lia|]); intros []; (split; [done|]); by intros.
Qed.

Lemma pending_bit r : r ∈ handlers → ∃ n, 0 ≤ n ∧ reinit_bit r = bit n ∧ (∀ mask, pending mask r = Z.testbit mask n) ∧
  ∀ q, q ≠ r → Z.testbit (reinit_bit q) n = false.
Proof.
  intros (n & Hn & H)%handler_bit. exists n. split; [done|]. destruct (H r) as [E _]. rewrite bool_decide_eq_true_2 in E by done.
  split; [done|]. split; [|intros q; apply H]. intros mask. unfold pending. rewrite E. by apply has_bit.
Qed.

Lemma pending_request r q mask : r ∈ handlers → pending (reinit_request q mask) r = pending mask r || bool_decide (q = r).
Proof.
  intros (n & Hn & E & Hp & Hq)%pending_bit. rewrite !Hp. unfold reinit_request. rewrite Z.lor_spec. f_equal.
  destruct (bool_decide_reflect (q = r)) as [->|Hne]; [|by apply Hq]. by rewrite E, testbit_bit, Z.eqb_refl.
Qed.

Lemma pending_requests r l : ∀ now, r ∈ handlers →
  pending (foldl (λ m q, reinit_request q m) now l) r = pending now r || bool_decide (r ∈ l).
Proof.
  induction l as [|q l IH]; intros now Hr; cbn [foldl]; [by rewrite orb_false_r|].
  rewrite IH, pending_request, <-orb_assoc by done. f_equal. apply eq_bool_prop_intro.
  rewrite orb_True, !bool_decide_spec, elem_of_cons. naive_solver.
Qed.

Lemma pending_clr r now mask : r ∈ handlers → pending (clr now mask) r = pending now r && negb (pending mask r).
Proof. intros (n & Hn & _ & Hp & _)%pending_bit. rewrite !Hp. unfold clr. by rewrite Z.ldiff_spec. Qed.

(** Requests for [r] during the handlers [ran]. *)
Definition asked (meanwhile : reinit → list reinit) (ran : list reinit) (r : reinit) : bool :=
  existsb (λ q, bool_decide (r ∈ meanwhile q)) ran.

Lemma run_handlers_spec l meanwhile mask : ∀ now,
  (run_handlers l meanwhile mask now).1 = List.filter (pending mask) l ∧
  ∀ r, r ∈ handlers → pending (run_handlers l meanwhile mask now).2 r = pending now r || asked meanwhile (List.filter (pending mask) l) r.
Proof.
  induction l as [|q l IH]; intros now; cbn [run_handlers List.filter].
  { split; [done|]. intros r _. by rewrite orb_false_r. }
  change (has mask (reinit_bit q)) with (pending mask q). destruct (pending mask q); [|apply IH].
  destruct (IH (foldl (λ m q, reinit_request q m) now (meanwhile q))) as [E H].
  destruct (run_handlers l meanwhile mask _) as [ran now']. cbn [fst snd] in *. split; [by rewrite E|].
  intros r Hr. rewrite H, pending_requests, <-orb_assoc by done. done.
Qed.

(** The requests to read the configuration again: each run
    serves exactly the components asked for before it, and what is asked for
    meanwhile stays in the mask, except for a component this run serves itself:
    a request that comes while, or after, its component is read again in this
    run is forgotten, although its new configuration has not been read. *)
Theorem reinit_task_serves meanwhile mask :
  let '(ran, mask') := _reinit_task meanwhile mask in
  (mask ≠ 0 → ran = List.filter (pending mask) handlers) ∧
  ∀ r, r ∈ handlers →
    (pending mask r = true → r ∈ ran ∧ pending mask' r = false) ∧
    (pending mask r = false → pending mask' r = asked meanwhile ran r).
Proof.
  unfold _reinit_task. destruct (Z.eqb_spec mask 0) as [->|H0]; cbv zeta.
  { split; [done|]. intros r Hr. split; [|done]. destruct (pending_bit r Hr) as (n & Hn & _ & Hp & _). rewrite Hp. by rewrite Z.bits_0. }
  destruct (run_handlers_spec handlers meanwhile mask mask) as [E H].
  destruct (run_handlers handlers meanwhile mask mask) as [ran now]. cbn [fst snd] in *. split; [done|].
  intros r Hr. rewrite pending_clr, H, E by done. split; intros Hp; rewrite Hp; cbn [orb andb negb].
  - split; [|done]. apply list_elem_of_In, filter_In. split; [by apply list_elem_of_In|done].
  - apply andb_true_r.
Qed.

(** A configuration of the tracker stored while the tracker reads the one before. *)
Example reinit_request_lost :
  _reinit_task (λ r, if bool_decide (r = REINIT_TRACER) then [REINIT_TRACER] else []) (reinit_bit REINIT_TRACER) = ([REINIT_TRACER], 0).
Proof. reflexivity. Qed.

Section clock_thm.
Context `{F : FlashLib} `{SL : SmsLib} `{MS : !ModemSpec sl_modem} `{CS : !CmdSpec (@ml_cmd sl_modem)} `{RL : RtcLib}.
Variable env : Z → list maction → list Z * Z.
Variable st : storage.

(** What a command with an answer proves, from before the channel is taken. *)
Lemma get_response_heard c u w text w' : modem_at_cmd_get_response env c (Some u) w = Some ((true, text), w') →
  ∃ l, mw_log w' = mw_log w ++ l ∧ text ∈ lines (rx_buf (w_at w)) (rx_chars l) ∧ starts u text.
Proof.
  unfold modem_at_cmd_get_response. intros E.
  apply bind_Some in E as ([] & w1 & E1%(spares_lock env (λ _, false)) & E). apply bind_Some in E as (r & w2 & E2 & E).
  apply bind_Some in E as ([] & w3 & E3 & E). injection E3 as <-. injection E as -> <-.
  destruct E1 as (l1 & El1 & _ & B1). apply dialogue_heard in E2 as (l2 & El2 & _ & Ht & Hs).
  exists (l1 ++ [MTx (at_cmd_timeout c).2; MTx [13; 10]] ++ l2).
  split; [cbn; by rewrite El2, El1, <-app_assoc|]. split; [|done].
  rewrite !rx_chars_app, lines_app, elem_of_app. right. by rewrite B1 in Ht.
Qed.

(** The clock is set only to the time of a satellite fix, or once
    to the time the module told when it was asked; after a fix not again before
    the period is over. *)
Theorem time_sync_heard g s t w t' r w' :
  _time_sync_task env st g s t w = Some ((t', Some r), w') →
  u32 (sync_time t + _TIME_SYNC_PERIOD) ≤ mw_now w ∧
  (gps_fix_ok g = true ∧ r = _time_sync_utc st (n_time (gps_get_current_stamp g).2) ∧ t' = TimeSync (mw_now w) (sync_modem t) ∧ w' = w ∨
   gps_fix_ok g = false ∧ sync_modem t = true ∧ t' = TimeSync (sync_time t) false ∧
   ∃ l text time z, mw_log w' = mw_log w ++ l ∧ text ∈ lines (rx_buf (w_at w)) (rx_chars l) ∧ starts (str "+CCLK: ") text ∧
     scan_clock (drop 7 (buf_text 32 text)) = Some (time, z) ∧ r = _time_sync_utc st time).
Proof.
  unfold _time_sync_task. intros E. apply bind_Some in E as (now & w1 & E1 & E). injection E1 as <- <-.
  destruct (Z.ltb_spec (mw_now w) (u32 (sync_time t + _TIME_SYNC_PERIOD))); [done|]. split; [done|].
  destruct (gps_fix_ok g).
  { left. destruct (gps_get_current_stamp g) as [ok stamp]. destruct (negb ok); [done|]. by injection E as <- <- <-. }
  right. destruct (sync_modem t); [|done]. cbn [andb] in E. destruct (bool_decide _); [|done].
  apply bind_Some in E as (o & w1 & E1 & E). destruct o as [time|]; [|done]. injection E as <- <- <-.
  unfold modem_main_get_time in E1. apply bind_Some in E1 as ([ok text] & w2 & E2 & E1). injection E1 as E1 <-.
  cbn [fst snd] in E1. destruct ok; [|done]. apply get_response_heard in E2 as (l & El & Hin & Hs).
  destruct (scan_clock _) as [[time' z]|] eqn:Ec; [|done]. injection E1 as <-. do 3 (split; [done|]). by exists l, text, time', z.
Qed.
End clock_thm.
