(* ===== verification/NetDemo.v ===== *)
(** * Servers and a clock to ask: the hypotheses of NetThm and App hold *)

From S2P Require Import Prelude CText EventTypes EventBuf Storage EventMemory EventQueue Out.
From S2P Require Import Alarm ArmSection System Cfg SiaIp NetTarget Cms EventTask TracerBuf.
From S2P Require Import Inp Update Nmea Gps Report Cmd TracerProto Tracer CmdDemo TracerCfg ModemAt ModemUrc ModemLink ModemData.
From S2P Require Import ModemCmd ModemUdp ModemMain ModemRun ModemHear ModemTx ModemLive ModemSms ModemPin ModemDemo ModemSmsDemo.
From S2P Require Import Net NetThm App.

(** A module that answers the query for a name in two messages. *)
Definition dns_env (t : Z) (log : list maction) : list Z * Z :=
  match rev log with
  | MTx [13; 10] :: _ => (ok_text, 5)
  | MRx _ :: MTx [13; 10] :: _ => (crlf ++ qstr "+QIURC: 'dnsgip',0,1,600" ++ crlf, 200)
  | _ => (qstr "+QIURC: 'dnsgip','1.2.3.4'" ++ crlf, 1000)
  end.
Definition online : mworld := upd_m (set_m_flags MODEM_FLAG_DATA_UP) (boot_world 1000).

Lemma net_target_heard_witness :
  ∃ w' l ln, net_resolve_target dns_env (str "track.example.com:5013") online = Some ((true, 67305985, Some 5013), w') ∧
    mw_log w' = mw_log online ++ l ∧ ln ∈ lines [] (rx_chars l) ∧ dns_answer ln 67305985.
Proof.
  assert (match net_resolve_target dns_env (str "track.example.com:5013") online with
          | Some (r, _) => bool_decide (r = (true, 67305985, Some 5013)) | None => false end = true) as H by (vm_compute; reflexivity).
  destruct (net_resolve_target dns_env (str "track.example.com:5013") online) as [[r w']|] eqn:E; [|discriminate H].
  apply bool_decide_eq_true in H. subst r.
  destruct (net_target_heard dns_env _ _ _ _ _ E) as (_ & Ht).
  assert (t_type (net_target_parse (str "track.example.com:5013") NET_TARGET_HOST_MAX) = NET_TARGET_NAME) as Ety by (vm_compute; reflexivity).
  rewrite Ety in Ht. destruct Ht as (_ & l & El & _ & ln & Hln & Ha). exists w', l, ln. exact (conj eq_refl (conj El (conj Hln Ha))).
Defined.

(** Three servers, whose answers arrive mixed. *)
Definition mixed : list (Z * list Z) :=
  [(4444, reply_frame "ACK" 12 0 4660 (str "]")); (9999, str "noise"); (5013, demo_reply); (3333, str "short")].

Lemma net_udp_isolated_witness :
  ∃ c, cms_udp_rx (reply_frame "ACK" 12 0 4660 (str "]")) 4444 flying_cms = Ok (true, c) ∧
    net_rx_all 9 mixed (NetState demo_world demo_update flying_cms) =
    Ok (NetState (upd_com (set_packet_ack true) demo_world) demo_update c).
Proof.
  assert (match cms_udp_rx (reply_frame "ACK" 12 0 4660 (str "]")) 4444 flying_cms with Ok (b, _) => b | Err _ => false end = true)
    as H by (vm_compute; reflexivity).
  destruct (cms_udp_rx (reply_frame "ACK" 12 0 4660 (str "]")) 4444 flying_cms) as [[b c]|] eqn:E; [|discriminate H]. subst b.
  exists c. split; [exact eq_refl|].
  apply (net_udp_isolated 9 mixed (NetState demo_world demo_update flying_cms)).
  - apply (bool_decide_unpack _). vm_compute. reflexivity.
  - change (from_port (tr_port (w_t (n_tracer (NetState demo_world demo_update flying_cms)))) mixed) with [(5013, demo_reply)].
    cbn [tracer_rx_all]. unfold tracer_packet_rx. change (5013 =? tr_port (w_t demo_world)) with true. cbn [negb n_tracer].
    match goal with |- context [p_packet_reply_ok ?a ?b ?c] =>
      change (p_packet_reply_ok a b c) with (p_packet_reply_ok tracer_proto_h02 demo_reply demo_proto) end.
    rewrite (demo_reply_ok demo_proto eq_refl). reflexivity.
  - change (from_port (server_port (n_cms (NetState demo_world demo_update flying_cms))) mixed)
      with [(4444, reply_frame "ACK" 12 0 4660 (str "]"))]. cbn [cms_rx_all n_cms]. rewrite E. reflexivity.
Defined.

(** ** A concrete clock *)

#[export] Instance demo_rtc : RtcLib := {| rtc_add_hours t h := Rtc (year t) (month t) (day t) (hour t + h) (minute t) (second t); rtc_dst_active _ := false |}.
Definition clock_env (t : Z) (log : list maction) : list Z * Z :=
  match rev log with
  | MTx [13; 10] :: _ => (crlf ++ qstr "+CCLK: '24/05/06,12:30:46+04'" ++ ok_text, 5)
  | _ => ([], 1000)
  end.
Definition running : mmain := set_requested MODEM_MAIN_STATE_NET_OK (set_mm_state MODEM_MAIN_STATE_NET_OK (modem_main_init 1000)).

Lemma time_sync_heard_witness :
  ∃ t' r w' l text time z, _time_sync_task clock_env erased_storage boot_gps running time_sync_boot (boot_world 1000) = Some ((t', Some r), w') ∧
    sync_modem t' = false ∧ mw_log w' = mw_log (boot_world 1000) ++ l ∧ text ∈ lines [] (rx_chars l) ∧
    scan_clock (drop 7 (buf_text 32 text)) = Some (time, z).
Proof.
  assert (match _time_sync_task clock_env erased_storage boot_gps running time_sync_boot (boot_world 1000) with
          | Some ((_, Some _), _) => true | _ => false end = true) as H by (vm_compute; reflexivity).
  destruct (_time_sync_task clock_env erased_storage boot_gps running time_sync_boot (boot_world 1000)) as [[[t' [r|]] w']|] eqn:E;
    [|discriminate H|discriminate H].
  destruct (time_sync_heard clock_env erased_storage boot_gps running time_sync_boot (boot_world 1000) t' r w' E)
    as (_ & [(Hf & _)|(_ & _ & Et & l & text & time & z & El & Hin & Hs & Hc & _)]); [discriminate Hf|].
  exists t', r, w', l, text, time, z. split; [exact eq_refl|]. split; [by rewrite Et|]. exact (conj El (conj Hin Hc)).
Defined.

Example module_clock : scan_clock (qstr "'24/05/06,12:30:46+04'") = Some (Rtc 24 5 6 12 30 46, 4).
Proof. reflexivity. Qed.
